(* ===== verification/_CoqProject ===== *)
-Q . S2P
Prelude.v
Checksum.v
Hash.v
Hash128.v
HashMap.v
MemStream.v
Headers.v
Packet.v
PacketParser.v
TcpOptions.v
IpAddress.v
IpPacket.v
Symbols.v
Script.v
SymbolsBsd.v
TcpPacket.v
IcmpPacket.v
PacketChecksum.v
Socket.v
RunState.v
PacketMap.v
PacketVerify.v
PacketToString.v
RunPacket.v
FuzzHelper.v
FuzzPacket.v
SyscallArgs.v
SystemCall.v
SyscallHandlers.v
SyscallThread.v
ThreadStat.v
SyscallProps.v
SyscallIO.v
RunEvents.v
FuzzSyscall.v
FuzzTest.v
FuzzProps.v
FuzzRuns.v
Code.v
FuzzDuplicates.v
WireConn.v
WireNet.v
WireClient.v
WireServer.v
RunScript.v
WireProps.v
WireSession.v
WireRun.v
WireRuns.v
Config.v
ConfigWire.v
Program.v
WireSetup.v
PacketSocket.v
PacketSocketPcap.v
Netdev.v
UnitTests.v
ScriptActions.v
ScriptProps.v
Regex.v
Lexer.v
LexerProps.v
ScriptText.v
