(* ===== verification/Prelude.v ===== *)
(** * Verification of TCP-Fuzz: the packetdrill interpreter and its fuzzer

    The program (src/) is packetdrill, a tool that runs scripts of packets and system calls
    against a TCP stack, with a fuzzer on top that injects generated packets and compares
    how two stacks react.  A script is parsed into a list of timed events.  For a packet
    event the interpreter injects a packet or waits for one from the stack and compares it
    with the script's; for a system call it evaluates the arguments, makes the call
    (blocking ones in a second thread) and compares the result.  The fuzzer replaces
    inbound packets by ones built from bytes of an input file.

    ** The model

    C functions are Coq functions into [exec], which returns a value or a [fault]: an access
    outside a buffer, a NULL dereference, a failed assertion, [die], [abort], a wait that the
    environment never ends, or a loop out of fuel.  Memory is lists of bytes with explicit
    offsets; integers are [Z] with the wrap-around of their C type written out ([u8], [u16],
    [u32], [u64], [s32], [s64]); C errors ([STATUS_ERR] with a message) are values.  State is
    passed explicitly, system calls run in a state and error monad over it.  The machine is
    x86-64 Linux: little endian, 4-byte int.

    ** Files (each from the sources named in its header)

    - [Prelude]: the monad, integers, byte buffers, printing of numbers, tactics.
    - [Checksum] (checksum.c), [Hash] and [Hash128] (hash.c), [HashMap] (hash_map.c),
      [MemStream] (open_memstream.c, fmemopen.c).
    - [Headers] (ip.h, ipv6.h, tcp.h, udp.h, gre.h, mpls.h, icmp.h, icmpv6.h, ethernet.h,
      unaligned.h): the layout of headers; [Packet] (packet.c, packet.h, header.h): packet
      objects; [PacketParser] (packet_parser.c, types.c).
    - [TcpOptions] (tcp_options.c, tcp_options_iterator.c, tcp_options_to_string.c);
      [IpAddress] (ip_address.c, ip_prefix.c); [IpPacket] (ip_packet.c, gre_packet.c,
      mpls_packet.c); [TcpPacket] (tcp_packet.c, udp_packet.c); [IcmpPacket] (icmp_packet.c);
      [PacketChecksum] (packet_checksum.c).
    - [Symbols] (symbols_linux.c), [SymbolsBsd] (symbols_freebsd.c, symbols_netbsd.c,
      symbols_openbsd.c) and [Script] (script.c, script.h): constants, expressions
      and their evaluation, string literals, flags.
    - [Socket] (socket.h, socket.c); [RunState] (run.c, run.h, config.h): the interpreter's
      state, clocks and events; [PacketMap], [PacketVerify] and [RunPacket] (run_packet.c):
      translation between script and live packets, comparison, packet events;
      [PacketToString] (packet_to_string.c).
    - [FuzzHelper] (fuzz_test_helper.c, fuzz_test_script.c, fuzz_test_result.c),
      [FuzzPacket] (fuzz_test_packet.c, parts of fuzz_test.c), [FuzzSyscall]
      (fuzz_test_syscall.c) and [FuzzTest] (fuzz_test.c): the fuzzer's input and records, its
      packets, its system calls, and the loop and main that use them; [FuzzProps] and
      [FuzzRuns]: theorems about a whole fuzzed connection, and runs; [FuzzDuplicates]
      (fuzz_test_remove_duplicate.c): the program that removes duplicate results.
    - [SyscallArgs], [SystemCall], [SyscallHandlers] (run_system_call.c, file.c, pipe.c,
      epoll.c): arguments, the descriptor table and the handlers; [SyscallThread]: the two
      threads as a step relation; [ThreadStat] (run_system_call.c): the state of a thread from
      its stat file; [SyscallProps], [SyscallIO]: theorems about them.
    - [ScriptActions] (parser.y, lexer.l, tcp_options.h): the actions of the grammar, from the
      values of the symbols of a rule to packets, expressions, events, options and scripts, and
      the functions by which the lexer makes strings; [ScriptProps]: theorems about them;
      [Regex]: regular expressions, their derivatives and the choice of a rule; [Lexer] (lexer.l,
      parser.y): the rules of the scanner, its tokens and its loop, and the reading of a script
      file; [LexerProps]: theorems about it; [ScriptText]: the printer of options, the scanner
      and the actions put together.
    - [Config] (config.c, config.h, ip_prefix.c): the options, the defaults and the final
      configuration.
    - [Program] (packetdrill.c, run.c): main of packetdrill over the scripts of a command line.
    - [PacketSocket] (packet_socket_linux.c), [PacketSocketPcap] (packet_socket_pcap.c) and
      [Netdev] (netdev.c, net_utils.c,
      wire_server_netdev.c, wire_client_netdev.c, so_testing.c, parts of ip_address.c): packet
      sockets with their filter, and the devices that packets go through.
    - [RunEvents] (run.c, run_command.c, system.c): commands, the start and the end of a run;
      [Code] (code.c, code.h): code snippets; [RunScript] (run.c): run_script.
    - [WireConn] (wire_conn.c, wire_protocol.c): messages over a connection, and the monad of
      programs that wait for bytes; [WireNet]: two such programs and the network between them;
      [WireClient] (wire_client.c) and [WireServer] (wire_server.c): the two sides of a test;
      [WireProps], [WireSession], [WireRun] and [WireRuns]: theorems about them, and sessions;
      [WireSetup] (wire_conn.c, wrap.c, wire_server.c): the connections they run over;
      [ConfigWire]: the configurations of the two sides.
    - [UnitTests] (checksum_test.c, packet_parser_test.c, packet_to_string_test.c): the tests of
      the repository as programs, and that they pass.

    Where components meet: the packets that the network and the user-level stack exchange
    with the interpreter are queues of its state ([st_received], [st_sent]; [st_send_fails] says
    which sends the device refuses), as the class [Netdev] of Netdev.v promises and its
    instances for the three kinds of device keep; the clock is the
    list of readings ahead ([st_clock]); live system calls are answered from a list of
    replies, and what the main thread does during a blocking call comes with the reply.
    C library functions that parse or print addresses and error numbers are classes
    ([InetPton], [InetNtop], [Libc]), fresh memory is the class [Malloc], commands are the
    classes [Shell] and [CodeShell], and the parser of scripts is [ScriptParser].  What a failed
    assertion about the state of a blocking call does is the class [StateAssert], so that
    independence of it says that none fails; its instance is the abort of assert(3).

    ** Theorems

    - Wire formats: parsing never leaves the packet and an accepted packet is laid out as its
      pointers say; TCP and ICMP packets built are parsed back with the fields of the script,
      those of the IP header and all the flags included, below the limit of a 16-bit length;
      TCP options round-trip; checksums are those of RFC 1071 and CRC32c and verify at a
      receiver.
    - Interpreter: packet events move sockets only along the handshake; comparison of headers
      and options accepts exactly the packets that agree, timestamps up to the tolerance; the
      translations of sequence numbers in the two directions agree;
      events run in order and at their times; a reset is one valid RST.
    - System calls: the two threads keep their invariant, failing calls included, and do not
      deadlock; handlers but that of splice follow the protocol of a blocking call; the descriptor list implements a finite map; results are
      accepted exactly when they match; writes send one stream; evaluation of expressions is
      total and follows one rule for each kind; string literals stay in their buffer and round-trip.
    - Fuzzer: any input gives a packet that the parser accepts and whose checksums verify;
      injected errors stay in the bytes they are meant for; what a fuzzed connection
      records of its packets and calls does not depend on how the stack reacts, so that two
      stacks get the same stimuli; the verdict reports exactly the differences; the record of a
      read has room for 29973 bytes.
    - Wire tests: messages survive any fragmentation; client and server keep in step through a
      whole script over any network that delivers in order, and an error of the server ends
      the client with its message; the server is configured as its client is, when the
      client's own options stand apart from the others, and its filter passes exactly the
      client's frames.
    - Configuration and devices: accepted options give numbers in range and addresses of the
      families of the flavour of IP; each device hands on, in order, the packets it is to.
    - Scripts: a TCP line that the actions accept gives a packet that parses back with the
      numbers of the line; the options of a packet are printed as a script has them, and the
      scanner makes of that text the tokens of the rule it was accepted by; the scanner chooses
      its tokens as flex promises and takes every text apart; the events of a script are those
      of its lines, with times that their kinds allow; main runs each script of the command line once, in order,
      with a configuration of its own but for the name of the fuzzer's input.
    - Data structures: the hash map implements a finite map, a memory stream the sequence of the
      bytes written, the directory of results a set.
    - Errors: where the code does not do what it means to, a theorem states what it does (see
      each file).

    ** Bounds and fuel

    Loops over data recurse on it.  Where the C loop is bounded by something else the model has
    fuel, and a theorem that the fuel suffices: the parser has 16 nested calls (two for each of
    six headers and the refused one, [parse_packet_safe]); option loops one turn per byte;
    the sniffing loop one per received packet ([outbound_loop_bound]); waiting loops one
    per clock reading; flag names one turn per bit; comparison of control messages one per byte
    of the buffer; the scanner one per byte ([lex_total]); reading and writing a message one turn per result of the system call and one
    more (WireConn.v); the loops over a script one turn per event and one that ends
    ([get_next_event_in_order]); a block's warnings one turn per byte that has arrived.

    ** Not modelled

    The tables that bison makes of the grammar, which are not in the repository: the actions
    start from the values of the symbols that a rule has matched, the scanner ends with its
    tokens, and the parser as a whole is the class [ScriptParser].  The values of floating point
    numbers (times in scripts) are given in microseconds.  The loading of a
    user-level stack (a call into it), the tun device of the BSD systems and the
    ioctl for a hardware address are calls into the operating system with no logic of the
    program's own; so are scheduling and the locking of memory.  Messages for the user that only
    go to a stream (logging.c, dumps of packets, usage) and functions that only release memory
    are left out. *)

From stdpp Require Export base tactics list numbers strings gmap.
From Stdlib Require Export ZArith Lia.

#[global] Set Default Goal Selector "!".
#[global] Open Scope Z_scope.

(** ** Outcomes of a C computation

    A C function either returns or the run ends abnormally.  [OutOfBounds]
    and [NullDeref] stand for the undefined behaviour of touching memory
    outside an object; [AssertFailed] is the [die] of [assert.h]; [Died] is
    an explicit [die]; [Aborted] is [abort]; [Blocked] is a wait for a packet or a
    clock tick that the environment does not supply; [OutOfFuel] is the model's own
    marker for a loop that has used up its fuel and is proved unreachable
    wherever a loop is modelled. *)
Inductive fault :=
  | OutOfBounds
  | NullDeref
  | AssertFailed
  | Died
  | Aborted
  | Blocked
  | OutOfFuel.

Inductive exec (A : Type) : Type :=
  | Ok (a : A)
  | Fault (f : fault).

Arguments Ok {A} a.
Arguments Fault {A} f.

#[export] Instance exec_ret : MRet exec := fun A a => Ok a.
#[export] Instance exec_bind : MBind exec := fun A B f m =>
  match m with
  | Ok a => f a
  | Fault e => Fault e
  end.
#[export] Instance exec_fmap : FMap exec := fun A B f m =>
  match m with
  | Ok a => Ok (f a)
  | Fault e => Fault e
  end.

#[export] Instance fault_eq_dec : EqDecision fault.
Proof. solve_decision. Defined.
#[export] Instance exec_eq_dec {A} `{EqDecision A} : EqDecision (exec A).
Proof. solve_decision. Defined.

(** [assert(expr)] of assert.h: a false expression ends the run. *)
Definition c_assert (b : bool) : exec unit :=
  if b then Ok tt else Fault AssertFailed.

(** Dereferencing a pointer that may be NULL. *)
Definition deref {A} (p : option A) : exec A :=
  match p with
  | Some a => Ok a
  | None => Fault NullDeref
  end.

(** ** Machine integers, kept as [Z] with the wrap-around written out *)
Definition u8 (z : Z) : Z := z mod 256.
Definition u16 (z : Z) : Z := z mod 65536.
Definition u32 (z : Z) : Z := z mod 4294967296.
Definition u64 (z : Z) : Z := z mod 18446744073709551616.
Definition s8 (z : Z) : Z := (z + 128) mod 256 - 128.
Definition s32 (z : Z) : Z := (z + 2147483648) mod 4294967296 - 2147483648.
Definition s64 (z : Z) : Z :=
  (z + 9223372036854775808) mod 18446744073709551616 - 9223372036854775808.

(** Byte swaps of a little-endian host ([htons] and [ntohs] are the same
    function, and so are [htonl] and [ntohl]). *)
Definition ntohs (x : Z) : Z := (x mod 256) * 256 + (x / 256) mod 256.
Definition ntohl (x : Z) : Z :=
  (x mod 256) * 16777216 + ((x / 256) mod 256) * 65536
  + ((x / 65536) mod 256) * 256 + (x / 16777216) mod 256.
Definition htons (x : Z) : Z := ntohs x.
Definition htonl (x : Z) : Z := ntohl x.

(** ** Bytes, and multi-byte integers in memory order of a little-endian host *)
Abbreviation bytes := (list Z).

Definition is_byte (b : Z) : Prop := 0 <= b < 256.
Definition bytes_ok (l : bytes) : Prop := Forall is_byte l.

Definition zlen {A} (l : list A) : Z := Z.of_nat (length l).

Fixpoint le_combine (l : bytes) : Z :=
  match l with
  | [] => 0
  | b :: t => b + 256 * le_combine t
  end.

Fixpoint le_split (n : nat) (z : Z) : bytes :=
  match n with
  | O => []
  | S n' => z mod 256 :: le_split n' (z / 256)
  end.

(** A byte that is known to be in range; 0 elsewhere. *)
Definition byte_at (b : bytes) (o : Z) : Z := nth (Z.to_nat o) b 0.

Definition in_range (b : bytes) (o n : Z) : bool :=
  (0 <=? o) && (0 <=? n) && (o + n <=? zlen b).

(** Reading and writing [n] bytes at offset [o]: the accesses a C program makes
    through a pointer into a buffer, an access outside it being a fault. *)
Definition get_bytes (b : bytes) (o n : Z) : exec bytes :=
  if in_range b o n then Ok (take (Z.to_nat n) (drop (Z.to_nat o) b))
  else Fault OutOfBounds.

Definition put_bytes (b : bytes) (o : Z) (l : bytes) : exec bytes :=
  if in_range b o (zlen l) then
    Ok (take (Z.to_nat o) b ++ l ++ drop (Z.to_nat o + length l) b)
  else Fault OutOfBounds.

Definition ld8 (b : bytes) (o : Z) : exec Z := le_combine <$> get_bytes b o 1.
Definition ld16 (b : bytes) (o : Z) : exec Z := le_combine <$> get_bytes b o 2.
Definition ld32 (b : bytes) (o : Z) : exec Z := le_combine <$> get_bytes b o 4.
Definition st8 (b : bytes) (o v : Z) : exec bytes := put_bytes b o (le_split 1 v).
Definition st16 (b : bytes) (o v : Z) : exec bytes := put_bytes b o (le_split 2 v).
Definition st32 (b : bytes) (o v : Z) : exec bytes := put_bytes b o (le_split 4 v).

(** ** Strings *)

(** The bytes of a string without its terminator. *)
Fixpoint string_bytes (s : string) : bytes :=
  match s with
  | EmptyString => []
  | String c s' => Z.of_nat (Ascii.nat_of_ascii c) :: string_bytes s'
  end.

(** The C string at the start of a buffer. *)
Fixpoint c_string (l : bytes) : bytes :=
  match l with
  | [] => []
  | b :: t => if b =? 0 then [] else b :: c_string t
  end.

(** The string that a list of character codes spells. *)
Definition bytes_string (l : bytes) : string :=
  foldr (fun c s => String (Ascii.ascii_of_nat (Z.to_nat c)) s) EmptyString l.

(** ** The conversions of printf the program uses *)

Definition newline : string := String (Ascii.ascii_of_nat 10) "".

(** One digit, of either base. *)
Definition hex_digit (z : Z) : string :=
  String.substring (Z.to_nat z) 1 "0123456789abcdef".

(** The digits of [%x] for a number of at most [n] hexadecimal digits. *)
Fixpoint hex_digits (n : nat) (z : Z) : string :=
  match n with
  | O => ""
  | S n' => if z <? 16 then hex_digit z else hex_digits n' (z / 16) +:+ hex_digit (z mod 16)
  end.

Fixpoint zeroes (n : nat) : string :=
  match n with O => "" | S n' => "0" +:+ zeroes n' end.

(** [%0<w>x] of a 32-bit number. *)
Definition hex_padded (w : nat) (z : Z) : string :=
  let d := hex_digits 8 z in zeroes (w - String.length d) +:+ d.

(** [%d] and [%u] of a number of at most 20 digits. *)
Fixpoint dec_digits (n : nat) (z : Z) : string :=
  match n with
  | O => ""
  | S n' => if z <? 10 then hex_digit z else dec_digits n' (z / 10) +:+ hex_digit (z mod 10)
  end.
Definition dec (z : Z) : string :=
  if z <? 0 then "-" +:+ dec_digits 20 (- z) else dec_digits 20 z.

(** ** Tactics *)

(** [lia] with [/] and [mod] turned into equations. *)
Ltac zlia := Z.div_mod_to_equations; lia.

(** Turn boolean tests in the context and the goal into propositions. *)
Create Rewrite HintDb reflect_db.
#[export] Hint Rewrite andb_true_iff andb_false_iff orb_true_iff orb_false_iff
  negb_true_iff negb_false_iff Z.leb_le Z.leb_gt Z.ltb_lt Z.ltb_ge Z.eqb_eq Z.eqb_neq
  : reflect_db.
Ltac breflect := autorewrite with reflect_db in *.

(** Invert a successful computation: each bind that returned [Ok] yields the
    intermediate value with its equation. *)
Lemma exec_bind_Ok {A B} (m : exec A) (f : A -> exec B) b :
  (m ≫= f) = Ok b <-> exists a, m = Ok a /\ f a = Ok b.
Proof. destruct m; (split; [intros H; simplify_eq/=; eauto | intros (?&?&?); simplify_eq/=; done]). Qed.

Lemma exec_fmap_Ok {A B} (m : exec A) (f : A -> B) b :
  (f <$> m) = Ok b <-> exists a, m = Ok a /\ f a = b.
Proof. destruct m; (split; [intros H; simplify_eq/=; eauto | intros (?&?&?); simplify_eq/=; done]). Qed.

Lemma c_assert_Ok b u : c_assert b = Ok u <-> b = true.
Proof. destruct b, u; simpl; naive_solver. Qed.

Lemma deref_Ok {A} (p : option A) a : deref p = Ok a <-> p = Some a.
Proof. destruct p; simpl; naive_solver. Qed.

Lemma bind_Ok_eq {A B} (a : A) (f : A -> exec B) : (Ok a ≫= f) = f a.
Proof. reflexivity. Qed.

Ltac inv_exec :=
  repeat match goal with
  | H : (_ ≫= _) = Ok _ |- _ =>
      apply exec_bind_Ok in H; destruct H as (?&?&H); simpl in H
  | H : mbind _ _ = Ok _ |- _ =>
      apply exec_bind_Ok in H; destruct H as (?&?&H); simpl in H
  | H : (_ <$> _) = Ok _ |- _ =>
      apply exec_fmap_Ok in H; destruct H as (?&?&H); simpl in H
  | H : c_assert _ = Ok _ |- _ => apply c_assert_Ok in H
  | H : deref _ = Ok _ |- _ => apply deref_Ok in H
  | H : Ok _ = Ok _ |- _ => injection H; clear H; intros; subst
  | H : Fault _ = Ok _ |- _ => discriminate H
  | H : Ok _ = Fault _ |- _ => discriminate H
  end.

(** Case analysis on the guards of a modelled function. *)
Ltac split_guard :=
  match goal with
  | H : context [if ?c then _ else _] |- _ => destruct c eqn:?
  | |- context [if ?c then _ else _] => destruct c eqn:?
  end.

(** ** Machine integers: ranges and round trips *)
Lemma u8_range z : 0 <= u8 z < 256.
Proof. unfold u8. zlia. Qed.
Lemma u16_range z : 0 <= u16 z < 65536.
Proof. unfold u16. zlia. Qed.
Lemma u32_range z : 0 <= u32 z < 4294967296.
Proof. unfold u32. zlia. Qed.
Lemma u64_range z : 0 <= u64 z < 18446744073709551616.
Proof. unfold u64. zlia. Qed.
Lemma u8_small z : 0 <= z < 256 -> u8 z = z.
Proof. apply Z.mod_small. Qed.
Lemma u16_small z : 0 <= z < 65536 -> u16 z = z.
Proof. apply Z.mod_small. Qed.
Lemma u32_small z : 0 <= z < 4294967296 -> u32 z = z.
Proof. apply Z.mod_small. Qed.
Lemma u64_small z : 0 <= z < 18446744073709551616 -> u64 z = z.
Proof. apply Z.mod_small. Qed.
Lemma s32_small z : -2147483648 <= z < 2147483648 -> s32 z = z.
Proof. intros. unfold s32. rewrite Z.mod_small; lia. Qed.

Lemma ntohs_range x : 0 <= ntohs x < 65536.
Proof. unfold ntohs. zlia. Qed.
Lemma ntohl_range x : 0 <= ntohl x < 4294967296.
Proof. unfold ntohl. zlia. Qed.
Lemma ntohs_invol x : 0 <= x < 65536 -> ntohs (ntohs x) = x.
Proof. unfold ntohs. intros. zlia. Qed.
(** The byte swap of a number given by its four digits in base 256. *)
Lemma ntohl_digits a b c d :
  is_byte a -> is_byte b -> is_byte c -> is_byte d ->
  ntohl (a + 256 * (b + 256 * (c + 256 * d))) = d + 256 * (c + 256 * (b + 256 * a)).
Proof.
  unfold is_byte, ntohl. intros Ha Hb Hc Hd.
  replace ((a + 256 * (b + 256 * (c + 256 * d))) / 256)
    with (b + 256 * (c + 256 * d)) by zlia.
  replace ((a + 256 * (b + 256 * (c + 256 * d))) / 65536) with (c + 256 * d) by zlia.
  replace ((a + 256 * (b + 256 * (c + 256 * d))) / 16777216) with d by zlia.
  replace ((a + 256 * (b + 256 * (c + 256 * d))) mod 256) with a by zlia.
  replace ((b + 256 * (c + 256 * d)) mod 256) with b by zlia.
  replace ((c + 256 * d) mod 256) with c by zlia.
  rewrite (Z.mod_small d) by lia. lia.
Qed.

Lemma u32_digits x : 0 <= x < 4294967296 ->
  exists a b c d, is_byte a /\ is_byte b /\ is_byte c /\ is_byte d /\
    x = a + 256 * (b + 256 * (c + 256 * d)).
Proof.
  intros. exists (x mod 256), (x / 256 mod 256), (x / 256 / 256 mod 256), (x / 256 / 256 / 256).
  unfold is_byte. pose proof (Z.div_mod x 256). pose proof (Z.div_mod (x / 256) 256).
  pose proof (Z.div_mod (x / 256 / 256) 256).
  pose proof (Z.mod_pos_bound x 256). pose proof (Z.mod_pos_bound (x / 256) 256).
  pose proof (Z.mod_pos_bound (x / 256 / 256) 256). lia.
Qed.

Lemma ntohl_invol x : 0 <= x < 4294967296 -> ntohl (ntohl x) = x.
Proof.
  intros (a&b&c&d&?&?&?&?&->)%u32_digits. by rewrite !ntohl_digits.
Qed.

Create HintDb word_db.
#[export] Hint Resolve u8_range u16_range u32_range u64_range ntohs_range ntohl_range
  : word_db.
Create Rewrite HintDb word_rw.
#[export] Hint Rewrite u8_small u16_small u32_small u64_small s32_small using lia
  : word_rw.

(** ** Little-endian encoding *)
Lemma length_le_split n z : length (le_split n z) = n.
Proof. revert z; induction n; simpl; auto. Qed.

Lemma le_split_ok n z : bytes_ok (le_split n z).
Proof.
  revert z; induction n; simpl; constructor; [unfold is_byte; zlia | apply IHn].
Qed.

Lemma le_combine_split n z : le_combine (le_split n z) = z mod 256 ^ Z.of_nat n.
Proof.
  revert z; induction n; intros z; [by rewrite Z.mod_1_r|].
  rewrite Nat2Z.inj_succ, Z.pow_succ_r by lia.
  cbn [le_split le_combine]. rewrite IHn, Z.rem_mul_r by lia. lia.
Qed.

Lemma le_combine_range l : bytes_ok l -> 0 <= le_combine l < 256 ^ zlen l.
Proof.
  unfold zlen. induction 1 as [|b l Hb Hl IH]; [simpl; lia|].
  cbn [length le_combine]. rewrite Nat2Z.inj_succ, Z.pow_succ_r by lia.
  unfold is_byte in Hb. lia.
Qed.

Lemma le_split_combine l : bytes_ok l -> le_split (length l) (le_combine l) = l.
Proof.
  induction 1 as [|b l Hb Hl IH]; [done|]. cbn [length le_combine le_split].
  unfold is_byte in Hb. f_equal; [zlia|].
  replace ((b + 256 * le_combine l) / 256) with (le_combine l) by zlia. done.
Qed.

(** ** Buffers: where a read or a write succeeds, and what it yields *)
Lemma zlen_nonneg {A} (l : list A) : 0 <= zlen l.
Proof. unfold zlen. lia. Qed.
Lemma zlen_app {A} (l k : list A) : zlen (l ++ k) = zlen l + zlen k.
Proof. unfold zlen. rewrite length_app. lia. Qed.
Lemma zlen_cons {A} (x : A) l : zlen (x :: l) = 1 + zlen l.
Proof. unfold zlen. simpl. lia. Qed.
Lemma zlen_le_split n z : zlen (le_split n z) = Z.of_nat n.
Proof. unfold zlen. by rewrite length_le_split. Qed.

Lemma in_range_true b o n :
  in_range b o n = true <-> 0 <= o /\ 0 <= n /\ o + n <= zlen b.
Proof. unfold in_range. breflect. lia. Qed.

Lemma get_bytes_Ok b o n l :
  get_bytes b o n = Ok l <->
  in_range b o n = true /\ l = take (Z.to_nat n) (drop (Z.to_nat o) b).
Proof. unfold get_bytes. destruct (in_range b o n); [naive_solver|split; [done|naive_solver]]. Qed.

Lemma put_bytes_Ok b o l b' :
  put_bytes b o l = Ok b' <->
  in_range b o (zlen l) = true /\
  b' = take (Z.to_nat o) b ++ l ++ drop (Z.to_nat o + length l) b.
Proof. unfold put_bytes. destruct (in_range b o (zlen l)); [naive_solver|split; [done|naive_solver]]. Qed.

Lemma get_bytes_zlen b o n l : get_bytes b o n = Ok l -> zlen l = n.
Proof.
  intros [H ->]%get_bytes_Ok. apply in_range_true in H. unfold zlen in *.
  rewrite length_take, length_drop. lia.
Qed.

Lemma put_bytes_zlen b o l b' : put_bytes b o l = Ok b' -> zlen b' = zlen b.
Proof.
  intros [H ->]%put_bytes_Ok. apply in_range_true in H. unfold zlen in *.
  rewrite !length_app, length_take, length_drop. lia.
Qed.

Lemma get_bytes_bytes_ok b o n l :
  bytes_ok b -> get_bytes b o n = Ok l -> bytes_ok l.
Proof. intros Hb [_ ->]%get_bytes_Ok. by apply Forall_take, Forall_drop. Qed.

Lemma put_bytes_bytes_ok b o l b' :
  bytes_ok b -> bytes_ok l -> put_bytes b o l = Ok b' -> bytes_ok b'.
Proof.
  intros Hb Hl [_ ->]%put_bytes_Ok. unfold bytes_ok in *.
  rewrite !Forall_app. auto using Forall_take, Forall_drop.
Qed.

Lemma byte_at_is_byte b o : bytes_ok b -> is_byte (byte_at b o).
Proof.
  intros Hb. unfold byte_at. destruct (nth_in_or_default (Z.to_nat o) b 0) as [H|H].
  - unfold bytes_ok in Hb. rewrite List.Forall_forall in Hb. by apply Hb.
  - rewrite H. unfold is_byte. lia.
Qed.

Lemma byte_at_take b o n : 0 <= o < n -> byte_at (take (Z.to_nat n) b) o = byte_at b o.
Proof.
  intros. unfold byte_at. rewrite <-(take_drop (Z.to_nat n) b) at 2.
  destruct (decide (Z.to_nat o < length (take (Z.to_nat n) b))%nat) as [Hl|Hl].
  - by rewrite app_nth1.
  - rewrite length_take in Hl. rewrite nth_overflow by (rewrite length_take; lia).
    symmetry. apply nth_overflow. rewrite take_drop. lia.
Qed.

Lemma byte_at_drop b o n :
  0 <= o -> 0 <= n -> byte_at (drop (Z.to_nat n) b) o = byte_at b (n + o).
Proof.
  intros. unfold byte_at. rewrite nth_skipn. f_equal. lia.
Qed.

Lemma byte_at_app l k o :
  0 <= o -> byte_at (l ++ k) o =
  if o <? zlen l then byte_at l o else byte_at k (o - zlen l).
Proof.
  intros. unfold byte_at, zlen. destruct (Z.ltb_spec o (Z.of_nat (length l))).
  - apply app_nth1. lia.
  - rewrite app_nth2 by lia. f_equal. lia.
Qed.

(** The value of every byte after a write. *)
Lemma byte_at_put b o l b' i :
  put_bytes b o l = Ok b' -> 0 <= i ->
  byte_at b' i =
  if (o <=? i) && (i <? o + zlen l) then byte_at l (i - o) else byte_at b i.
Proof.
  intros [H ->]%put_bytes_Ok Hi. apply in_range_true in H as (Ho&Hn&Hr).
  assert (Ht : zlen (take (Z.to_nat o) b) = o).
  { unfold zlen in *. rewrite length_take. lia. }
  rewrite byte_at_app, Ht by lia. destruct (Z.ltb_spec i o).
  { rewrite byte_at_take by lia. destruct (Z.leb_spec o i); [lia|done]. }
  rewrite byte_at_app by lia. destruct (Z.leb_spec o i); [|lia]. simpl.
  destruct (Z.ltb_spec (i - o) (zlen l)), (Z.ltb_spec i (o + zlen l)); try lia; try done.
  replace (Z.to_nat o + length l)%nat with (Z.to_nat (o + zlen l))
    by (unfold zlen; lia).
  rewrite byte_at_drop by (unfold zlen in *; lia). f_equal. lia.
Qed.

(** Two buffers of the same length with the same bytes are equal. *)
Lemma bytes_ext b c :
  zlen b = zlen c -> (forall i, 0 <= i < zlen b -> byte_at b i = byte_at c i) -> b = c.
Proof.
  unfold zlen, byte_at. intros Hl H. apply (nth_ext _ _ 0 0); [lia|].
  intros n Hn. specialize (H (Z.of_nat n)). rewrite Nat2Z.id in H. apply H. lia.
Qed.

Lemma byte_at_get b o n l i :
  get_bytes b o n = Ok l -> 0 <= i < n -> byte_at l i = byte_at b (o + i).
Proof.
  intros [H ->]%get_bytes_Ok Hi. apply in_range_true in H.
  rewrite byte_at_take, byte_at_drop by lia. done.
Qed.

Lemma get_bytes_ext b b' o n :
  zlen b = zlen b' -> (forall i, o <= i < o + n -> byte_at b i = byte_at b' i) ->
  get_bytes b o n = get_bytes b' o n.
Proof.
  intros Hl H. destruct (get_bytes b o n) as [l|] eqn:E.
  - assert (in_range b' o n = true) as Hr'.
    { apply get_bytes_Ok in E as [E _]. apply in_range_true in E.
      apply in_range_true. lia. }
    destruct (get_bytes b' o n) as [l'|] eqn:E'.
    2:{ unfold get_bytes in E'. by rewrite Hr' in E'. }
    f_equal. pose proof (get_bytes_zlen _ _ _ _ E). pose proof (get_bytes_zlen _ _ _ _ E').
    apply bytes_ext; [lia|]. intros i Hi.
    rewrite (byte_at_get _ _ _ _ _ E), (byte_at_get _ _ _ _ _ E') by lia.
    apply H. apply in_range_true in Hr'. lia.
  - unfold get_bytes in *. destruct (in_range b o n) eqn:Hr; [done|].
    destruct (in_range b' o n) eqn:Hr'; [|congruence].
    apply in_range_true in Hr'. assert (in_range b o n = true); [|congruence].
    apply in_range_true. lia.
Qed.

(** A write followed by a read of the same range, and of a disjoint one. *)
Lemma get_put_same b o l b' :
  put_bytes b o l = Ok b' -> get_bytes b' o (zlen l) = Ok l.
Proof.
  intros H. pose proof (put_bytes_zlen _ _ _ _ H) as Hl.
  pose proof (proj1 (proj1 (put_bytes_Ok _ _ _ _) H)) as Hr. apply in_range_true in Hr.
  destruct (get_bytes b' o (zlen l)) as [k|] eqn:E.
  2:{ unfold get_bytes in E. assert (in_range b' o (zlen l) = true) as Hx
        by (apply in_range_true; lia). by rewrite Hx in E. }
  f_equal. pose proof (get_bytes_zlen _ _ _ _ E).
  apply bytes_ext; [done|]. intros i Hi.
  rewrite (byte_at_get _ _ _ _ _ E), (byte_at_put _ _ _ _ _ H) by lia.
  destruct (Z.leb_spec o (o + i)), (Z.ltb_spec (o + i) (o + zlen l)); try lia.
  simpl. f_equal. lia.
Qed.

Lemma get_put_disjoint b o l b' o' n :
  put_bytes b o l = Ok b' -> o' + n <= o \/ o + zlen l <= o' ->
  0 <= o' -> get_bytes b' o' n = get_bytes b o' n.
Proof.
  intros H Hd Ho. apply get_bytes_ext; [by apply (put_bytes_zlen _ _ _ _ H)|].
  intros i Hi. rewrite (byte_at_put _ _ _ _ _ H) by lia.
  destruct (Z.leb_spec o i), (Z.ltb_spec i (o + zlen l)); try lia; done.
Qed.

(** A read or write in range succeeds. *)
Lemma get_bytes_in b o n :
  0 <= o -> 0 <= n -> o + n <= zlen b -> exists l, get_bytes b o n = Ok l.
Proof.
  intros. unfold get_bytes.
  assert (in_range b o n = true) as -> by (apply in_range_true; lia). eauto.
Qed.
Lemma put_bytes_in b o l :
  0 <= o -> o + zlen l <= zlen b -> exists b', put_bytes b o l = Ok b'.
Proof.
  intros. unfold put_bytes. pose proof (zlen_nonneg l).
  assert (in_range b o (zlen l) = true) as -> by (apply in_range_true; lia). eauto.
Qed.

(** A byte stored inside the buffer. *)
Lemma st8_in b o v :
  0 <= o < zlen b -> is_byte v ->
  exists b', st8 b o v = Ok b' /\ zlen b' = zlen b /\
    forall k, 0 <= k -> byte_at b' k = if k =? o then v else byte_at b k.
Proof.
  intros Ho Hv. destruct (put_bytes_in b o (le_split 1 v)) as (b'&E);
    [lia|rewrite zlen_le_split; lia|].
  exists b'. split; [done|]. split; [by eapply put_bytes_zlen|]. intros k Hk.
  rewrite (byte_at_put _ _ _ _ _ E Hk), zlen_le_split.
  destruct (Z.eqb_spec k o) as [->|].
  - rewrite Z.leb_refl, (proj2 (Z.ltb_lt _ _)) by lia.
    rewrite Z.sub_diag. cbn. apply Z.mod_small. exact Hv.
  - destruct (Z.leb_spec o k), (Z.ltb_spec k (o + Z.of_nat 1)); simpl; (lia || done).
Qed.

(** A list of known length, spelled out by its bytes. *)
Lemma bytes_len1 (l : bytes) : zlen l = 1 -> l = [byte_at l 0].
Proof. destruct l as [|? [|? ?]]; unfold zlen; simpl; try lia. done. Qed.
Lemma bytes_len2 (l : bytes) : zlen l = 2 -> l = [byte_at l 0; byte_at l 1].
Proof. destruct l as [|? [|? [|? ?]]]; unfold zlen; simpl; try lia. done. Qed.
Lemma bytes_len4 (l : bytes) :
  zlen l = 4 -> l = [byte_at l 0; byte_at l 1; byte_at l 2; byte_at l 3].
Proof. destruct l as [|? [|? [|? [|? [|? ?]]]]]; unfold zlen; simpl; try lia. done. Qed.

Lemma ld8_eq b o : 0 <= o -> o + 1 <= zlen b -> ld8 b o = Ok (byte_at b o).
Proof.
  intros. destruct (get_bytes_in b o 1) as [l E]; [lia..|]. unfold ld8. rewrite E.
  rewrite (bytes_len1 l) by (by eapply get_bytes_zlen).
  rewrite (byte_at_get _ _ _ _ 0 E) by lia. rewrite Z.add_0_r. cbn. f_equal. lia.
Qed.

Lemma ld16_eq b o : 0 <= o -> o + 2 <= zlen b ->
  ld16 b o = Ok (byte_at b o + 256 * byte_at b (o + 1)).
Proof.
  intros. destruct (get_bytes_in b o 2) as [l E]; [lia..|]. unfold ld16. rewrite E.
  rewrite (bytes_len2 l) by (by eapply get_bytes_zlen).
  rewrite !(byte_at_get _ _ _ _ _ E) by lia. rewrite Z.add_0_r.
  unfold fmap, exec_fmap. cbn [le_combine]. f_equal. lia.
Qed.

Lemma ld32_eq b o : 0 <= o -> o + 4 <= zlen b ->
  ld32 b o = Ok (byte_at b o + 256 * (byte_at b (o + 1)
    + 256 * (byte_at b (o + 2) + 256 * byte_at b (o + 3)))).
Proof.
  intros. destruct (get_bytes_in b o 4) as [l E]; [lia..|]. unfold ld32. rewrite E.
  rewrite (bytes_len4 l) by (by eapply get_bytes_zlen).
  rewrite !(byte_at_get _ _ _ _ _ E) by lia. rewrite Z.add_0_r.
  unfold fmap, exec_fmap. cbn [le_combine]. f_equal. lia.
Qed.

(** ** Strings as bytes *)
Lemma c_string_app l t : Forall (fun b => b <> 0) l -> c_string (l ++ 0 :: t) = l.
Proof.
  induction 1 as [|b l Hb Hl IH]; [done|]. cbn [c_string app].
  by rewrite (proj2 (Z.eqb_neq b 0) Hb), IH.
Qed.

Lemma string_bytes_ok s : bytes_ok (string_bytes s).
Proof.
  induction s as [|c s IH]; [constructor|]. cbn [string_bytes]. constructor; [|done].
  unfold is_byte. pose proof (Ascii.nat_ascii_bounded c). lia.
Qed.

Lemma bytes_of_string s : bytes_string (string_bytes s) = s.
Proof. induction s as [|c s IH]; [done|]. cbn. f_equal; [|done]. rewrite Nat2Z.id. apply Ascii.ascii_nat_embedding. Qed.

Lemma string_bytes_app s t : string_bytes (s +:+ t) = string_bytes s ++ string_bytes t.
Proof. induction s as [|c s IH]; [done|]. simpl. by rewrite IH. Qed.

Lemma string_bytes_length s : zlen (string_bytes s) = Z.of_nat (String.length s).
Proof. induction s as [|c s IH]; [done|]. unfold zlen in *. simpl. lia. Qed.

Lemma string_length_app s t : String.length (s +:+ t) = (String.length s + String.length t)%nat.
Proof. induction s as [|c s IH]; [done|]. simpl. by rewrite IH. Qed.

Lemma hex_digit_length z : (String.length (hex_digit z) <= 1)%nat.
Proof.
  unfold hex_digit. generalize (Z.to_nat z). intros n.
  do 17 (destruct n as [|n]; [simpl; lia|]). simpl. lia.
Qed.

(** ** Masks *)
Lemma land_low_mask x n : 0 <= n -> Z.land x (Z.ones n) = x mod 2 ^ n.
Proof. apply Z.land_ones. Qed.

Lemma land_ones_range x k : 0 <= k -> 0 <= Z.land x (Z.ones k) < 2 ^ k.
Proof. intros. rewrite Z.land_ones by lia. apply Z.mod_pos_bound. lia. Qed.

Lemma land_high_mask x n m :
  0 <= n -> 0 <= m ->
  Z.land x (Z.shiftl (Z.ones m) n) = ((x / 2 ^ n) mod 2 ^ m) * 2 ^ n.
Proof.
  intros. rewrite <-Z.shiftr_div_pow2, <-Z.land_ones, <-Z.shiftl_mul_pow2 by lia.
  apply Z.bits_inj'. intros i Hi. rewrite Z.land_spec.
  destruct (Z.ltb_spec i n).
  - rewrite !Z.shiftl_spec_low by lia. apply andb_false_r.
  - rewrite !Z.shiftl_spec by lia. rewrite Z.land_spec, Z.shiftr_spec by lia.
    by replace (i - n + n) with i by lia.
Qed.

Lemma testbit_above v n i : 0 <= n -> 0 <= v < 2 ^ n -> n <= i -> Z.testbit v i = false.
Proof.
  intros. rewrite <-(Z.mod_small v (2 ^ n)) by lia. apply Z.mod_pow2_bits_high. lia.
Qed.

(** Or-ing a low part into the zero bits of a shifted value is an addition. *)
Lemma lor_add_low u v n :
  0 <= n -> 0 <= v < 2 ^ n -> Z.lor (u * 2 ^ n) v = u * 2 ^ n + v.
Proof.
  intros Hn Hv. assert (Z.land (u * 2 ^ n) v = 0).
  { apply Z.bits_inj'. intros i Hi. rewrite Z.land_spec, Z.bits_0.
    destruct (Z.ltb_spec i n); [by rewrite Z.mul_pow2_bits_low by lia|].
    rewrite (testbit_above v n) by lia. apply andb_false_r. }
  by rewrite Z.add_nocarry_lxor, Z.lxor_lor.
Qed.

(** Goals [bytes_ok (...)] and [is_byte (...)] about literal bytes, encodings
    and pieces of buffers. *)
Ltac solve_bytes :=
  unfold bytes_ok in *;
  repeat first
    [ assumption | apply Forall_nil_2 | apply Forall_cons_2 | apply Forall_app_2
    | apply le_split_ok | apply u8_range | apply Forall_take | apply Forall_drop
    | apply byte_at_is_byte | (unfold is_byte; lia) ].
