(* ===== verification/Checksum.v ===== *)
(** * Checksum: the Internet checksum and CRC32c of src/checksum.c

    The Internet checksum is computed 32 bits at a time into a 64-bit
    accumulator and folded to 16 bits; the theorems relate it to the sum of
    16-bit words of RFC 1071, and show that a datagram whose checksum field
    has been filled in verifies.  [sctp_crc32c] is table driven; the theorems
    relate it to the bitwise division by the Castagnoli polynomial. *)

From S2P Require Import Prelude.

(** ** The running sum and its folding *)

(** [checksum.c:33-56] ip_checksum_partial: [p] holds the [len] bytes that are
    summed; four bytes at a time, then a trailing 16-bit word, then a trailing
    byte padded with a zero. *)
Fixpoint ip_checksum_partial (p : bytes) (sum : Z) : Z :=
  match p with
  | b0 :: b1 :: b2 :: b3 :: p32 =>
      ip_checksum_partial p32 (u64 (sum + le_combine [b0; b1; b2; b3]))
  | _ =>
      let '(sum, p8) :=
        match p with
        | b0 :: b1 :: p16 => (u64 (sum + le_combine [b0; b1]), p16)
        | _ => (sum, p)
        end in
      match p8 with
      | b :: _ => u64 (sum + ntohs (Z.shiftl b 8))
      | [] => sum
      end
  end.

(** [checksum.c:60-61] the first folding loop of ip_checksum_fold *)
Fixpoint fold_to_32 (fuel : nat) (sum : Z) : exec Z :=
  if Z.land sum (u64 (Z.lnot 0xffffffff)) =? 0 then Ok sum
  else match fuel with
  | O => Fault OutOfFuel
  | S n => fold_to_32 n (u64 (Z.shiftr sum 32 + Z.land sum 0xffffffff))
  end.

(** [checksum.c:62-63] the second folding loop of ip_checksum_fold *)
Fixpoint fold_to_16 (fuel : nat) (sum : Z) : exec Z :=
  if Z.land sum 0xffff0000 =? 0 then Ok sum
  else match fuel with
  | O => Fault OutOfFuel
  | S n => fold_to_16 n (u64 (Z.shiftr sum 16 + Z.land sum 0xffff))
  end.

(** [checksum.c:58-66] ip_checksum_fold: each loop needs at most two rounds on
    a 64-bit sum. *)
Definition ip_checksum_fold (sum : Z) : exec Z :=
  sum ← fold_to_32 2 sum;
  sum ← fold_to_16 2 sum;
  Ok (u16 (Z.lnot sum)).

(** [checksum.c:68-95] tcp_udp_v4_header_checksum_partial: addresses are the
    four bytes of a [struct in_addr] in memory order. *)
Definition tcp_udp_v4_header_checksum_partial
    (src_ip dst_ip : bytes) (protocol len : Z) : Z :=
  let pseudo_header :=
    src_ip ++ dst_ip ++ [0] ++ [u8 protocol] ++ le_split 2 (htons (u16 len)) in
  ip_checksum_partial pseudo_header 0.

(** [checksum.c:97-104] tcp_udp_v4_checksum: [payload] holds the [len] bytes read *)
Definition tcp_udp_v4_checksum
    (src_ip dst_ip : bytes) (protocol : Z) (payload : bytes) : exec Z :=
  let sum := tcp_udp_v4_header_checksum_partial src_ip dst_ip protocol (zlen payload) in
  let sum := ip_checksum_partial payload sum in
  ip_checksum_fold sum.

(** [checksum.c:107-111] ipv4_checksum *)
Definition ipv4_checksum (ip_header : bytes) : exec Z :=
  ip_checksum_fold (ip_checksum_partial ip_header 0).

(** [checksum.c:113-142] tcp_udp_v6_header_checksum_partial *)
Definition tcp_udp_v6_header_checksum_partial
    (src_ip dst_ip : bytes) (protocol len : Z) : Z :=
  let pseudo_header :=
    src_ip ++ dst_ip ++ le_split 4 (htonl (u32 len)) ++ [0; 0; 0] ++ [u8 protocol] in
  ip_checksum_partial pseudo_header 0.

(** [checksum.c:144-152] tcp_udp_v6_checksum *)
Definition tcp_udp_v6_checksum
    (src_ip dst_ip : bytes) (protocol : Z) (payload : bytes) : exec Z :=
  let sum := tcp_udp_v6_header_checksum_partial src_ip dst_ip protocol (zlen payload) in
  let sum := ip_checksum_partial payload sum in
  ip_checksum_fold sum.

(** ** CRC32c *)

(** [checksum.c:156-221] crc_c *)
Definition crc_c : list Z :=
  [0x00000000; 0xF26B8303; 0xE13B70F7; 0x1350F3F4; 0xC79A971F; 0x35F1141C;
   0x26A1E7E8; 0xD4CA64EB; 0x8AD958CF; 0x78B2DBCC; 0x6BE22838; 0x9989AB3B;
   0x4D43CFD0; 0xBF284CD3; 0xAC78BF27; 0x5E133C24; 0x105EC76F; 0xE235446C;
   0xF165B798; 0x030E349B; 0xD7C45070; 0x25AFD373; 0x36FF2087; 0xC494A384;
   0x9A879FA0; 0x68EC1CA3; 0x7BBCEF57; 0x89D76C54; 0x5D1D08BF; 0xAF768BBC;
   0xBC267848; 0x4E4DFB4B; 0x20BD8EDE; 0xD2D60DDD; 0xC186FE29; 0x33ED7D2A;
   0xE72719C1; 0x154C9AC2; 0x061C6936; 0xF477EA35; 0xAA64D611; 0x580F5512;
   0x4B5FA6E6; 0xB93425E5; 0x6DFE410E; 0x9F95C20D; 0x8CC531F9; 0x7EAEB2FA;
   0x30E349B1; 0xC288CAB2; 0xD1D83946; 0x23B3BA45; 0xF779DEAE; 0x05125DAD;
   0x1642AE59; 0xE4292D5A; 0xBA3A117E; 0x4851927D; 0x5B016189; 0xA96AE28A;
   0x7DA08661; 0x8FCB0562; 0x9C9BF696; 0x6EF07595; 0x417B1DBC; 0xB3109EBF;
   0xA0406D4B; 0x522BEE48; 0x86E18AA3; 0x748A09A0; 0x67DAFA54; 0x95B17957;
   0xCBA24573; 0x39C9C670; 0x2A993584; 0xD8F2B687; 0x0C38D26C; 0xFE53516F;
   0xED03A29B; 0x1F682198; 0x5125DAD3; 0xA34E59D0; 0xB01EAA24; 0x42752927;
   0x96BF4DCC; 0x64D4CECF; 0x77843D3B; 0x85EFBE38; 0xDBFC821C; 0x2997011F;
   0x3AC7F2EB; 0xC8AC71E8; 0x1C661503; 0xEE0D9600; 0xFD5D65F4; 0x0F36E6F7;
   0x61C69362; 0x93AD1061; 0x80FDE395; 0x72966096; 0xA65C047D; 0x5437877E;
   0x4767748A; 0xB50CF789; 0xEB1FCBAD; 0x197448AE; 0x0A24BB5A; 0xF84F3859;
   0x2C855CB2; 0xDEEEDFB1; 0xCDBE2C45; 0x3FD5AF46; 0x7198540D; 0x83F3D70E;
   0x90A324FA; 0x62C8A7F9; 0xB602C312; 0x44694011; 0x5739B3E5; 0xA55230E6;
   0xFB410CC2; 0x092A8FC1; 0x1A7A7C35; 0xE811FF36; 0x3CDB9BDD; 0xCEB018DE;
   0xDDE0EB2A; 0x2F8B6829; 0x82F63B78; 0x709DB87B; 0x63CD4B8F; 0x91A6C88C;
   0x456CAC67; 0xB7072F64; 0xA457DC90; 0x563C5F93; 0x082F63B7; 0xFA44E0B4;
   0xE9141340; 0x1B7F9043; 0xCFB5F4A8; 0x3DDE77AB; 0x2E8E845F; 0xDCE5075C;
   0x92A8FC17; 0x60C37F14; 0x73938CE0; 0x81F80FE3; 0x55326B08; 0xA759E80B;
   0xB4091BFF; 0x466298FC; 0x1871A4D8; 0xEA1A27DB; 0xF94AD42F; 0x0B21572C;
   0xDFEB33C7; 0x2D80B0C4; 0x3ED04330; 0xCCBBC033; 0xA24BB5A6; 0x502036A5;
   0x4370C551; 0xB11B4652; 0x65D122B9; 0x97BAA1BA; 0x84EA524E; 0x7681D14D;
   0x2892ED69; 0xDAF96E6A; 0xC9A99D9E; 0x3BC21E9D; 0xEF087A76; 0x1D63F975;
   0x0E330A81; 0xFC588982; 0xB21572C9; 0x407EF1CA; 0x532E023E; 0xA145813D;
   0x758FE5D6; 0x87E466D5; 0x94B49521; 0x66DF1622; 0x38CC2A06; 0xCAA7A905;
   0xD9F75AF1; 0x2B9CD9F2; 0xFF56BD19; 0x0D3D3E1A; 0x1E6DCDEE; 0xEC064EED;
   0xC38D26C4; 0x31E6A5C7; 0x22B65633; 0xD0DDD530; 0x0417B1DB; 0xF67C32D8;
   0xE52CC12C; 0x1747422F; 0x49547E0B; 0xBB3FFD08; 0xA86F0EFC; 0x5A048DFF;
   0x8ECEE914; 0x7CA56A17; 0x6FF599E3; 0x9D9E1AE0; 0xD3D3E1AB; 0x21B862A8;
   0x32E8915C; 0xC083125F; 0x144976B4; 0xE622F5B7; 0xF5720643; 0x07198540;
   0x590AB964; 0xAB613A67; 0xB831C993; 0x4A5A4A90; 0x9E902E7B; 0x6CFBAD78;
   0x7FAB5E8C; 0x8DC0DD8F; 0xE330A81A; 0x115B2B19; 0x020BD8ED; 0xF0605BEE;
   0x24AA3F05; 0xD6C1BC06; 0xC5914FF2; 0x37FACCF1; 0x69E9F0D5; 0x9B8273D6;
   0x88D28022; 0x7AB90321; 0xAE7367CA; 0x5C18E4C9; 0x4F48173D; 0xBD23943E;
   0xF36E6F75; 0x0105EC76; 0x12551F82; 0xE03E9C81; 0x34F4F86A; 0xC69F7B69;
   0xD5CF889D; 0x27A40B9E; 0x79B737BA; 0x8BDCB4B9; 0x988C474D; 0x6AE7C44E;
   0xBE2DA0A5; 0x4C4623A6; 0x5F16D052; 0xAD7D5351].

(** [checksum.c:154-154] CRC32C *)
Definition CRC32C (c d : Z) : Z :=
  Z.lxor (Z.shiftr c 8) (nth (Z.to_nat (Z.land (Z.lxor c d) 0xFF)) crc_c 0).

(** [checksum.c:223-239] sctp_crc32c *)
Definition sctp_crc32c (packet : bytes) : Z :=
  let crc32c := u32 (Z.lnot 0) in
  let crc32c := foldl CRC32C crc32c packet in
  let crc32c := u32 (Z.lnot crc32c) in
  let byte0 := Z.land crc32c 0xff in
  let byte1 := Z.land (Z.shiftr crc32c 8) 0xff in
  let byte2 := Z.land (Z.shiftr crc32c 16) 0xff in
  let byte3 := Z.land (Z.shiftr crc32c 24) 0xff in
  let crc32c := Z.lor (Z.lor (Z.lor (Z.shiftl byte0 24) (Z.shiftl byte1 16))
                             (Z.shiftl byte2 8)) byte3 in
  htonl crc32c.

(** ** Reference definitions *)

(** The sum of 16-bit words of RFC 1071, an odd trailing byte being padded with
    zero; words are taken in the host's (little-endian) order, which the RFC
    allows because the one's complement sum does not depend on byte order. *)
Fixpoint le16_sum (l : bytes) : Z :=
  match l with
  | b0 :: b1 :: t => (b0 + 256 * b1) + le16_sum t
  | [b] => b
  | [] => 0
  end.

(** One's complement reduction of a non-negative sum to 16 bits: the residue
    modulo 65535 in 1..65535, and 0 only for 0. *)
Definition ones16 (s : Z) : Z := if s =? 0 then 0 else (s - 1) mod 65535 + 1.

(** The checksum field of RFC 1071. *)
Definition rfc1071 (l : bytes) : Z := 65535 - ones16 (le16_sum l).

(** One shift of the reflected CRC register of the Castagnoli polynomial, one
    byte, and a message. *)
Definition crc_bit (c : Z) : Z :=
  if Z.odd c then Z.lxor (Z.shiftr c 1) 0x82F63B78 else Z.shiftr c 1.
Definition crc_byte (c : Z) : Z := Nat.iter 8 crc_bit c.
Definition crc_ref (l : bytes) : Z :=
  foldl (fun c d => crc_byte (Z.lxor c d)) 0xffffffff l.

(** ** The folding loops terminate within their fuel and compute [ones16] *)

Lemma guard_32 s : 0 <= s < 18446744073709551616 ->
  (Z.land s (u64 (Z.lnot 0xffffffff)) =? 0) = (s <? 4294967296).
Proof.
  intros. change (u64 (Z.lnot 0xffffffff)) with (Z.shiftl (Z.ones 32) 32).
  rewrite land_high_mask by lia. change (2 ^ 32) with 4294967296.
  destruct (Z.ltb_spec s 4294967296).
  - rewrite Z.div_small by lia. done.
  - apply Z.eqb_neq. rewrite Z.mod_small by zlia. zlia.
Qed.

Lemma step_32 s : 0 <= s < 18446744073709551616 ->
  u64 (Z.shiftr s 32 + Z.land s 0xffffffff) = s / 4294967296 + s mod 4294967296.
Proof.
  intros. change 0xffffffff with (Z.ones 32). rewrite land_low_mask by lia.
  rewrite Z.shiftr_div_pow2 by lia. change (2 ^ 32) with 4294967296.
  apply u64_small. zlia.
Qed.

Lemma guard_16 s : 0 <= s < 4294967296 ->
  (Z.land s 0xffff0000 =? 0) = (s <? 65536).
Proof.
  intros. change 0xffff0000 with (Z.shiftl (Z.ones 16) 16).
  rewrite land_high_mask by lia. change (2 ^ 16) with 65536.
  destruct (Z.ltb_spec s 65536).
  - rewrite Z.div_small by lia. done.
  - apply Z.eqb_neq. rewrite Z.mod_small by zlia. zlia.
Qed.

Lemma step_16 s : 0 <= s < 4294967296 ->
  u64 (Z.shiftr s 16 + Z.land s 0xffff) = s / 65536 + s mod 65536.
Proof.
  intros. change 0xffff with (Z.ones 16). rewrite land_low_mask by lia.
  rewrite Z.shiftr_div_pow2 by lia. change (2 ^ 16) with 65536.
  apply u64_small. zlia.
Qed.

(** Two non-negative sums that agree modulo 65535 and vanish together have the
    same one's complement reduction. *)
Definition same_ones (s t : Z) : Prop :=
  0 <= s /\ 0 <= t /\ s mod 65535 = t mod 65535 /\ (s = 0 <-> t = 0).

#[export] Instance same_ones_trans : Transitive same_ones.
Proof. unfold same_ones. intros a b c. intuition congruence. Qed.

Lemma same_ones_ones16 s t : same_ones s t -> ones16 s = ones16 t.
Proof.
  intros (Hs&Ht&Hm&Hz). unfold ones16.
  destruct (Z.eqb_spec s 0), (Z.eqb_spec t 0); try (by intuition).
  f_equal. rewrite (Zminus_mod s), (Zminus_mod t). by rewrite Hm.
Qed.

(** Replacing [q * (65535 * k + 1) + r] by [q + r] keeps the reduction. *)
Lemma same_ones_carry s d k :
  0 <= s -> d = 65535 * k + 1 -> 0 <= k -> same_ones (s / d + s mod d) s.
Proof.
  intros Hs Hd Hk. pose proof (Z.div_mod s d ltac:(lia)) as E.
  pose proof (Z.mod_pos_bound s d ltac:(lia)). pose proof (Z.div_pos s d ltac:(lia) ltac:(lia)).
  unfold same_ones. repeat split; [lia|lia| | |].
  - rewrite E at 3. rewrite Hd at 3.
    replace ((65535 * k + 1) * (s / d) + s mod d)
      with (s / d + s mod d + (k * (s / d)) * 65535) by lia.
    by rewrite Z_mod_plus_full.
  - intros. assert (s / d = 0) by lia. assert (s mod d = 0) by lia. nia.
  - intros ->. rewrite Z.div_0_l, Z.mod_0_l by lia. done.
Qed.

Lemma fold_to_32_spec sum :
  0 <= sum < 18446744073709551616 ->
  exists s, fold_to_32 2 sum = Ok s /\ s < 4294967296 /\ same_ones s sum.
Proof.
  intros Hsum. assert (Hc : forall s, 0 <= s ->
    same_ones (s / 4294967296 + s mod 4294967296) s).
  { intros s Hs. apply (same_ones_carry s _ 65537); lia. }
  unfold fold_to_32. rewrite guard_32 by lia. destruct (Z.ltb_spec sum 4294967296).
  { exists sum. unfold same_ones. intuition lia. }
  rewrite step_32 by lia. set (s1 := sum / 4294967296 + sum mod 4294967296).
  assert (0 <= s1 < 2 * 4294967296 - 1) by (subst s1; zlia).
  pose proof (Hc sum ltac:(lia)) as H1. fold s1 in H1.
  rewrite guard_32 by lia. destruct (Z.ltb_spec s1 4294967296); [by exists s1|].
  rewrite step_32 by lia. set (s2 := s1 / 4294967296 + s1 mod 4294967296).
  assert (0 <= s2 < 4294967296) by (subst s2; zlia).
  rewrite guard_32 by lia. destruct (Z.ltb_spec s2 4294967296); [|lia].
  exists s2. split; [done|]. split; [lia|].
  refine (same_ones_trans _ _ _ _ H1). apply Hc. lia.
Qed.

Lemma fold_to_16_spec sum :
  0 <= sum < 4294967296 ->
  exists s, fold_to_16 2 sum = Ok s /\ s < 65536 /\ same_ones s sum.
Proof.
  intros Hsum. assert (Hc : forall s, 0 <= s -> same_ones (s / 65536 + s mod 65536) s).
  { intros s Hs. apply (same_ones_carry s _ 1); lia. }
  unfold fold_to_16. rewrite guard_16 by lia. destruct (Z.ltb_spec sum 65536).
  { exists sum. unfold same_ones. intuition lia. }
  rewrite step_16 by lia. set (s1 := sum / 65536 + sum mod 65536).
  assert (0 <= s1 < 2 * 65536 - 1) by (subst s1; zlia).
  pose proof (Hc sum ltac:(lia)) as H1. fold s1 in H1.
  rewrite guard_16 by lia. destruct (Z.ltb_spec s1 65536); [by exists s1|].
  rewrite step_16 by lia. set (s2 := s1 / 65536 + s1 mod 65536).
  assert (0 <= s2 < 65536) by (subst s2; zlia).
  rewrite guard_16 by lia. destruct (Z.ltb_spec s2 65536); [|lia].
  exists s2. split; [done|]. split; [lia|].
  refine (same_ones_trans _ _ _ _ H1). apply Hc. lia.
Qed.

Lemma ones16_range s : 0 <= s -> 0 <= ones16 s <= 65535.
Proof. intros. unfold ones16. destruct (Z.eqb_spec s 0); zlia. Qed.

Lemma ones16_small s : 0 <= s < 65536 -> ones16 s = s.
Proof.
  intros. unfold ones16. destruct (Z.eqb_spec s 0); [lia|]. rewrite Z.mod_small; lia.
Qed.

(** Folding is total on 64-bit sums and yields the complement of the reduction. *)
Lemma ip_checksum_fold_eq sum :
  0 <= sum < 18446744073709551616 ->
  ip_checksum_fold sum = Ok (65535 - ones16 sum).
Proof.
  intros Hs. unfold ip_checksum_fold.
  destruct (fold_to_32_spec sum Hs) as (s1&->&H1&E1). rewrite bind_Ok_eq.
  destruct (fold_to_16_spec s1) as (s2&->&H2&E2); [unfold same_ones in E1; lia|].
  rewrite bind_Ok_eq. f_equal.
  pose proof (same_ones_ones16 _ _ (same_ones_trans _ _ _ E2 E1)) as E.
  unfold same_ones in E2. rewrite ones16_small in E by lia. subst.
  unfold u16, Z.lnot. zlia.
Qed.

(** ** The running sum *)

(** The sum of 32-bit words that the main loop accumulates. *)
Fixpoint le32_sum (l : bytes) : Z :=
  match l with
  | b0 :: b1 :: b2 :: b3 :: t => le_combine [b0; b1; b2; b3] + le32_sum t
  | _ => le16_sum l
  end.

Lemma bytes_ind4 (P : bytes -> Prop) :
  (forall l, (length l < 4)%nat -> P l) ->
  (forall a b c d t, P t -> P (a :: b :: c :: d :: t)) -> forall l, P l.
Proof.
  intros Hs Hc l. remember (length l) as n eqn:E. revert l E.
  induction n as [n IH] using (well_founded_induction lt_wf). intros l ->.
  destruct l as [|a [|b [|c [|d t]]]]; try (apply Hs; simpl; lia).
  apply Hc. apply (IH (length t)); simpl; lia.
Qed.

Lemma le32_sum_range l : bytes_ok l -> 0 <= le32_sum l <= 4294967295 * zlen l.
Proof.
  induction l as [l Hl|a b c d t IH] using bytes_ind4; unfold bytes_ok; intros Hb.
  - destruct l as [|a [|b [|c [|d t]]]]; unfold zlen; simpl in *; try lia;
      repeat (inversion Hb as [|? ? ? Hb']; subst; clear Hb; rename Hb' into Hb;
              unfold is_byte in *); lia.
  - rewrite !Forall_cons in Hb. destruct Hb as (Ha&Hb&Hc&Hd&Ht). specialize (IH Ht).
    rewrite !zlen_cons. cbn [le32_sum le_combine]. unfold is_byte in *. lia.
Qed.

Lemma ntohs_pad b : is_byte b -> ntohs (Z.shiftl b 8) = b.
Proof.
  unfold is_byte, ntohs. intros. rewrite Z.shiftl_mul_pow2 by lia.
  change (2 ^ 8) with 256. zlia.
Qed.

(** No overflow of the 64-bit accumulator: it is the plain sum. *)
Lemma ip_checksum_partial_eq l sum :
  bytes_ok l -> 0 <= sum -> sum + 4294967295 * zlen l < 18446744073709551616 ->
  ip_checksum_partial l sum = sum + le32_sum l.
Proof.
  revert sum. induction l as [l Hl|a b c d t IH] using bytes_ind4;
    unfold bytes_ok; intros sum Hb H0 Hs.
  - destruct l as [|a [|b [|c [|d t]]]]; try (simpl in *; lia);
      rewrite ?zlen_cons in Hs; unfold zlen in Hs; simpl in Hs;
      rewrite ?Forall_cons in Hb; destruct_and?; cbn -[u64 ntohs Z.shiftl Z.mul];
      rewrite ?ntohs_pad by done; unfold is_byte in *;
      rewrite ?(u64_small (sum + _)) by lia; autorewrite with word_rw; lia.
  - rewrite !Forall_cons in Hb. destruct Hb as (Ha&Hb&Hc&Hd&Ht).
    rewrite !zlen_cons in Hs. pose proof (zlen_nonneg t). unfold is_byte in *.
    change (ip_checksum_partial (a :: b :: c :: d :: t) sum)
      with (ip_checksum_partial t (u64 (sum + le_combine [a; b; c; d]))).
    change (le32_sum (a :: b :: c :: d :: t))
      with (le_combine [a; b; c; d] + le32_sum t).
    cbn [le_combine] in *. rewrite u64_small by lia. rewrite IH by (auto; lia). lia.
Qed.

(** A 32-bit word weighs the same as its two halves modulo 65535. *)
Lemma le32_le16 l : bytes_ok l -> same_ones (le32_sum l) (le16_sum l).
Proof.
  induction l as [l Hl|a b c d t IH] using bytes_ind4; unfold bytes_ok; intros Hb.
  - pose proof (le32_sum_range l Hb). unfold same_ones.
    destruct l as [|a [|b [|c [|d t]]]]; try (simpl in *; lia);
      cbn [le32_sum] in *; intuition lia.
  - rewrite !Forall_cons in Hb. destruct Hb as (Ha&Hb&Hc&Hd&Ht).
    destruct (IH Ht) as (H1&H2&H3&H4). unfold same_ones, is_byte in *.
    cbn [le32_sum le16_sum le_combine]. repeat split; [lia|lia| |lia|lia].
    replace (a + 256 * (b + 256 * (c + 256 * (d + 256 * 0))) + le32_sum t)
      with (a + 256 * b + (c + 256 * d) + le32_sum t + (c + 256 * d) * 65535) by lia.
    rewrite Z_mod_plus_full, Z.add_mod, H3, <-Z.add_mod by lia. f_equal. lia.
Qed.

Lemma ipv4_checksum_eq l :
  bytes_ok l -> zlen l < 4294967296 -> ipv4_checksum l = Ok (rfc1071 l).
Proof.
  intros Hb Hl. unfold ipv4_checksum, rfc1071. pose proof (le32_sum_range l Hb).
  rewrite ip_checksum_partial_eq by (auto; lia).
  rewrite ip_checksum_fold_eq by lia. do 2 f_equal.
  by apply same_ones_ones16, le32_le16.
Qed.

Lemma ip_checksum_partial_app a b s :
  (4 | Z.of_nat (length a)) ->
  ip_checksum_partial (a ++ b) s = ip_checksum_partial b (ip_checksum_partial a s).
Proof.
  revert s. induction a as [l Hl|w x y z t IH] using bytes_ind4; intros s [k Hk].
  - destruct l as [|? [|? [|? [|? ?]]]]; simpl in *; try lia; done.
  - change (ip_checksum_partial ((w :: x :: y :: z :: t) ++ b) s)
      with (ip_checksum_partial (t ++ b) (u64 (s + le_combine [w; x; y; z]))).
    rewrite IH; [done|]. exists (k - 1). simpl length in Hk. lia.
Qed.

(** The bytes of the pseudo-headers that precede a TCP, UDP or ICMPv6 payload. *)
Definition pseudo_v4 (src_ip dst_ip : bytes) (protocol len : Z) : bytes :=
  src_ip ++ dst_ip ++ [0; u8 protocol] ++ le_split 2 (htons (u16 len)).
Definition pseudo_v6 (src_ip dst_ip : bytes) (protocol len : Z) : bytes :=
  src_ip ++ dst_ip ++ le_split 4 (htonl (u32 len)) ++ [0; 0; 0; u8 protocol].

Lemma tcp_udp_v4_checksum_eq src dst proto payload :
  length src = 4%nat -> length dst = 4%nat ->
  tcp_udp_v4_checksum src dst proto payload =
  ipv4_checksum (pseudo_v4 src dst proto (zlen payload) ++ payload).
Proof.
  intros Hs Hd. unfold tcp_udp_v4_checksum, ipv4_checksum. f_equal.
  rewrite ip_checksum_partial_app; [done|].
  unfold pseudo_v4. rewrite !length_app, length_le_split, Hs, Hd. by exists 3.
Qed.

Lemma tcp_udp_v6_checksum_eq src dst proto payload :
  length src = 16%nat -> length dst = 16%nat ->
  tcp_udp_v6_checksum src dst proto payload =
  ipv4_checksum (pseudo_v6 src dst proto (zlen payload) ++ payload).
Proof.
  intros Hs Hd. unfold tcp_udp_v6_checksum, ipv4_checksum. f_equal.
  rewrite ip_checksum_partial_app; [done|].
  unfold pseudo_v6. rewrite !length_app, length_le_split, Hs, Hd. by exists 10.
Qed.

Lemma pseudo_v4_zlen src dst p n :
  length src = 4%nat -> length dst = 4%nat -> zlen (pseudo_v4 src dst p n) = 12.
Proof.
  intros. unfold pseudo_v4. rewrite !zlen_app, zlen_le_split. unfold zlen. simpl length. lia.
Qed.
Lemma pseudo_v6_zlen src dst p n :
  length src = 16%nat -> length dst = 16%nat -> zlen (pseudo_v6 src dst p n) = 40.
Proof.
  intros. unfold pseudo_v6. rewrite !zlen_app, zlen_le_split. unfold zlen. simpl length. lia.
Qed.
Lemma pseudo_v4_ok src dst p n :
  bytes_ok src -> bytes_ok dst -> bytes_ok (pseudo_v4 src dst p n).
Proof.
  intros. unfold pseudo_v4. solve_bytes.
Qed.
Lemma pseudo_v6_ok src dst p n :
  bytes_ok src -> bytes_ok dst -> bytes_ok (pseudo_v6 src dst p n).
Proof.
  intros. unfold pseudo_v6. solve_bytes.
Qed.

(** ** Filling in a zeroed checksum field *)

Lemma le16_sum_app a b : (2 | Z.of_nat (length a)) ->
  le16_sum (a ++ b) = le16_sum a + le16_sum b.
Proof.
  intros [k Hk]. assert (Hn : exists n, length a = (2 * n)%nat) by (exists (Z.to_nat k); lia).
  clear Hk. destruct Hn as [n Hn]. revert a Hn.
  induction n as [|n IH]; intros a Hn.
  - destruct a; [done|simpl in Hn; lia].
  - destruct a as [|x [|y a]]; try (simpl in Hn; lia). cbn [le16_sum app].
    rewrite IH by (simpl in Hn; lia). lia.
Qed.

Lemma le16_sum_nonneg l : bytes_ok l -> 0 <= le16_sum l.
Proof. intros H. apply (le32_le16 l H). Qed.

Lemma rfc1071_range l : bytes_ok l -> 0 <= rfc1071 l <= 65535.
Proof.
  intros H. unfold rfc1071. pose proof (ones16_range _ (le16_sum_nonneg l H)). lia.
Qed.

(** Adding the complement of a sum completes it to all ones. *)
Lemma ones16_complete s : 0 <= s -> ones16 (s + (65535 - ones16 s)) = 65535.
Proof. intros Hs. unfold ones16. repeat case_match; breflect; zlia. Qed.

Lemma rfc1071_fill a b :
  (2 | Z.of_nat (length a)) -> bytes_ok a -> bytes_ok b ->
  rfc1071 (a ++ le_split 2 (rfc1071 (a ++ [0; 0] ++ b)) ++ b) = 0.
Proof.
  intros Ha Hba Hbb. set (c := rfc1071 (a ++ [0; 0] ++ b)).
  assert (Hc : 0 <= c <= 65535).
  { apply rfc1071_range. solve_bytes. }
  assert (Hc' : c = 65535 - ones16 (le16_sum a + le16_sum b)).
  { subst c. unfold rfc1071. rewrite le16_sum_app by done. cbn [le16_sum app].
    by replace (0 + 256 * 0 + le16_sum b) with (le16_sum b) by lia. }
  unfold rfc1071. rewrite !le16_sum_app by (try done; rewrite length_le_split; by exists 1).
  assert (Hs : le16_sum (le_split 2 c) = c).
  { cbn [le_split le16_sum]. rewrite (Z.mod_small (c / 256)) by zlia. zlia. }
  rewrite Hs, Hc'.
  replace (le16_sum a + (65535 - ones16 (le16_sum a + le16_sum b) + le16_sum b))
    with (le16_sum a + le16_sum b + (65535 - ones16 (le16_sum a + le16_sum b))) by lia.
  rewrite ones16_complete; [lia|].
  pose proof (le16_sum_nonneg a Hba). pose proof (le16_sum_nonneg b Hbb). lia.
Qed.

(** A buffer around a two-byte field, before and after the field is written. *)
Lemma split_field l o : 0 <= o -> get_bytes l o 2 = Ok [0; 0] ->
  l = take (Z.to_nat o) l ++ [0; 0] ++ drop (Z.to_nat o + 2) l.
Proof.
  intros Ho [Hr E]%get_bytes_Ok. change (Z.to_nat 2) with 2%nat in E.
  rewrite E, <-drop_drop, take_drop, take_drop. done.
Qed.

Lemma checksum_fill l o c l' :
  bytes_ok l -> zlen l < 4294967296 -> (2 | o) -> get_bytes l o 2 = Ok [0; 0] ->
  ipv4_checksum l = Ok c -> st16 l o c = Ok l' -> ipv4_checksum l' = Ok 0.
Proof.
  intros Hb Hl He Hz Hc Hst.
  rewrite ipv4_checksum_eq in Hc by done. injection Hc as <-.
  pose proof (put_bytes_zlen _ _ _ _ Hst). unfold st16 in Hst.
  pose proof (put_bytes_bytes_ok _ _ _ _ Hb (le_split_ok _ _) Hst).
  apply put_bytes_Ok in Hst as [Hr E]. apply in_range_true in Hr. rewrite length_le_split in E.
  rewrite ipv4_checksum_eq by (done || lia). f_equal. rewrite E.
  rewrite (split_field l o) at 2 by (done || lia).
  apply rfc1071_fill; [|by apply Forall_take|by apply Forall_drop].
  destruct He as [k ->]. exists k. rewrite length_take. unfold zlen in *. lia.
Qed.

(** ** Byte order: the stored field is the RFC 1071 checksum in network order *)

(** The sum of 16-bit words in network order. *)
Fixpoint be16_sum (l : bytes) : Z :=
  match l with
  | b0 :: b1 :: t => (256 * b0 + b1) + be16_sum t
  | [b] => 256 * b
  | [] => 0
  end.

Lemma be16_le16 l : bytes_ok l -> same_ones (be16_sum l) (256 * le16_sum l).
Proof.
  remember (length l) as n eqn:E. revert l E.
  induction n as [n IH] using (well_founded_induction lt_wf). intros l -> Hb.
  destruct l as [|a [|b t]]; unfold bytes_ok in Hb; rewrite ?Forall_cons in Hb;
    unfold is_byte in *; cbn [be16_sum le16_sum].
  - done.
  - unfold same_ones. intuition lia.
  - destruct Hb as (Ha&Hb&Ht).
    destruct (IH (length t) ltac:(simpl; lia) t eq_refl Ht) as (H1&H2&H3&H4).
    unfold same_ones. repeat split; [lia|lia| |lia|lia].
    replace (256 * (a + 256 * b + le16_sum t))
      with (256 * a + b + 256 * le16_sum t + b * 65535) by lia.
    by rewrite Z_mod_plus_full, Z.add_mod, H3, <-Z.add_mod by lia.
Qed.

Lemma ones16_swap s : 0 <= s -> ones16 (256 * s) = ntohs (ones16 s).
Proof.
  intros Hs. unfold ones16. destruct (Z.eqb_spec s 0) as [->|]; [done|].
  destruct (Z.eqb_spec (256 * s) 0); [lia|].
  set (v := (s - 1) mod 65535 + 1). assert (Hv : 1 <= v <= 65535) by (subst v; zlia).
  assert (Hm : (256 * s - 1) mod 65535 = (256 * v - 1) mod 65535).
  { rewrite Zminus_mod, Z.mul_mod, (Zminus_mod (256 * v)), (Z.mul_mod 256 v) by lia.
    replace (v mod 65535) with (s mod 65535); [done|].
    subst v. rewrite Zplus_mod_idemp_l. f_equal. lia. }
  rewrite Hm. unfold ntohs. clearbody v. clear Hm.
  assert (v = 256 * (v / 256) + v mod 256) by zlia.
  set (h := v / 256) in *. set (m := v mod 256) in *.
  assert (0 <= h < 256) by (subst h; zlia). assert (0 <= m < 256) by (subst m; zlia).
  rewrite (Z.mod_small h) by lia.
  replace (256 * v - 1) with (m * 256 + h - 1 + h * 65535) by lia.
  rewrite Z_mod_plus_full, Z.mod_small; lia.
Qed.

Lemma ntohs_complement v : 0 <= v <= 65535 -> ntohs (65535 - v) = 65535 - ntohs v.
Proof. intros. unfold ntohs. zlia. Qed.

(** C27. The 32-bits-at-a-time checksum is total, and the 16-bit field it returns
    is, in network byte order, the one's complement of the one's complement sum
    of the big-endian 16-bit words of the data: the Internet checksum of
    RFC 1071, for any data below 4 GiB, of odd length too. *)
Theorem ipv4_checksum_rfc1071 (l : bytes) :
  bytes_ok l -> zlen l < 4294967296 ->
  exists c, ipv4_checksum l = Ok c /\ 0 <= c < 65536 /\
    ntohs c = 65535 - ones16 (be16_sum l).
Proof.
  intros Hb Hl. exists (rfc1071 l). pose proof (rfc1071_range l Hb).
  split; [by apply ipv4_checksum_eq|]. split; [lia|].
  pose proof (le16_sum_nonneg l Hb) as Hn.
  rewrite (same_ones_ones16 _ _ (be16_le16 l Hb)), ones16_swap by done.
  apply ntohs_complement, ones16_range, Hn.
Qed.

Lemma ipv4_checksum_rfc1071_witness :
  exists c, ipv4_checksum [0x45; 0; 0; 0x1c; 0xff; 0xff; 0x7f] = Ok c /\
    0 <= c < 65536 /\
    ntohs c = 65535 - ones16 (be16_sum [0x45; 0; 0; 0x1c; 0xff; 0xff; 0x7f]).
Proof. apply ipv4_checksum_rfc1071; [solve_bytes|reflexivity]. Defined.

(** Once a zeroed two-byte checksum field at an even offset has been filled
    with the computed checksum, the data verify: the checksum recomputed over
    them, field included, is 0.  With [tcp_udp_v4_checksum_eq] the same holds of
    TCP and UDP segments under their pseudo-header. *)
Theorem checksum_field_verifies (l : bytes) (o c : Z) (l' : bytes) :
  bytes_ok l -> zlen l < 4294967296 -> (2 | o) -> get_bytes l o 2 = Ok [0; 0] ->
  ipv4_checksum l = Ok c -> st16 l o c = Ok l' ->
  ipv4_checksum l' = Ok 0.
Proof. apply checksum_fill. Qed.

Lemma checksum_field_verifies_witness :
  ipv4_checksum [0x45; 0; 0; 0x14; 0; 0; 0; 0; 0xff; 6; 0xbb; 0xe4;
                 0; 0; 0; 0; 0; 0; 0; 0] = Ok 0.
Proof.
  apply (checksum_field_verifies
    [0x45; 0; 0; 0x14; 0; 0; 0; 0; 0xff; 6; 0; 0; 0; 0; 0; 0; 0; 0; 0; 0] 10 0xe4bb);
    [solve_bytes|reflexivity|by exists 5|reflexivity..].
Defined.

(** ** CRC32c: the table is the bitwise division *)

Lemma crc_bit_lxor a b : crc_bit (Z.lxor a b) = Z.lxor (crc_bit a) (crc_bit b).
Proof.
  unfold crc_bit. rewrite <-!Z.bit0_odd, Z.lxor_spec, Z.shiftr_lxor.
  destruct (Z.testbit a 0), (Z.testbit b 0); simpl;
    apply Z.bits_inj'; intros i Hi; rewrite ?Z.lxor_spec;
    repeat match goal with |- context [Z.testbit ?x ?j] => destruct (Z.testbit x j) end; done.
Qed.

Lemma crc_iter_lxor n a b :
  Nat.iter n crc_bit (Z.lxor a b) = Z.lxor (Nat.iter n crc_bit a) (Nat.iter n crc_bit b).
Proof. induction n as [|n IH]; simpl; [done|]. by rewrite IH, crc_bit_lxor. Qed.

Lemma crc_bit_shiftl a n : 1 <= n -> crc_bit (Z.shiftl a n) = Z.shiftl a (n - 1).
Proof.
  intros. unfold crc_bit. rewrite <-Z.bit0_odd, Z.shiftl_spec_low by lia.
  by rewrite Z.shiftr_shiftl_l by lia.
Qed.

Lemma crc_byte_shiftl a : crc_byte (Z.shiftl a 8) = a.
Proof.
  unfold crc_byte. simpl Nat.iter. rewrite !crc_bit_shiftl by lia. apply Z.shiftl_0_r.
Qed.

Lemma split_low_byte c : c = Z.lxor (Z.shiftl (Z.shiftr c 8) 8) (Z.land c 255).
Proof.
  apply Z.bits_inj'. intros i Hi. rewrite Z.lxor_spec, Z.land_spec.
  change 255 with (Z.ones 8). destruct (Z.ltb_spec i 8).
  - rewrite Z.shiftl_spec_low, Z.ones_spec_low by lia. by destruct (Z.testbit c i).
  - rewrite Z.shiftl_spec, Z.shiftr_spec, Z.ones_spec_high by lia.
    replace (i - 8 + 8) with i by lia. by destruct (Z.testbit c i).
Qed.

Lemma crc_byte_split c :
  crc_byte c = Z.lxor (Z.shiftr c 8) (crc_byte (Z.land c 255)).
Proof.
  rewrite (split_low_byte c) at 1. unfold crc_byte.
  rewrite crc_iter_lxor. f_equal. apply crc_byte_shiftl.
Qed.

Lemma crc_table : crc_c = map crc_byte (seqZ 0 256).
Proof. vm_compute. reflexivity. Qed.

Lemma crc_lookup i : 0 <= i < 256 -> nth (Z.to_nat i) crc_c 0 = crc_byte i.
Proof.
  intros Hi. apply nth_lookup_Some. rewrite crc_table.
  rewrite list_lookup_fmap, lookup_seqZ_lt by lia. simpl. f_equal. f_equal. lia.
Qed.

Lemma CRC32C_eq c d : is_byte d -> CRC32C c d = crc_byte (Z.lxor c d).
Proof.
  intros Hd. unfold CRC32C. rewrite (crc_byte_split (Z.lxor c d)).
  change 0xFF with (Z.ones 8). rewrite land_low_mask by lia.
  rewrite crc_lookup by (change (2 ^ 8) with 256; zlia). f_equal.
  rewrite Z.shiftr_lxor. rewrite (Z.shiftr_div_pow2 d) by lia.
  unfold is_byte in Hd. change (2 ^ 8) with 256. rewrite (Z.div_small d) by lia.
  by rewrite Z.lxor_0_r.
Qed.

Lemma foldl_CRC32C l c : bytes_ok l ->
  foldl CRC32C c l = foldl (fun c d => crc_byte (Z.lxor c d)) c l.
Proof.
  intros Hl. revert c. induction Hl as [|d l Hd Hl IH]; intros c; [done|].
  simpl. rewrite CRC32C_eq by done. apply IH.
Qed.

(** Reassembling the four bytes of a word from the most significant end. *)
Lemma reassemble_be x : 0 <= x < 4294967296 ->
  Z.lor (Z.lor (Z.lor (Z.shiftl (Z.land x 0xff) 24)
    (Z.shiftl (Z.land (Z.shiftr x 8) 0xff) 16))
    (Z.shiftl (Z.land (Z.shiftr x 16) 0xff) 8)) (Z.land (Z.shiftr x 24) 0xff) = ntohl x.
Proof.
  intros. change 0xff with (Z.ones 8). rewrite !land_low_mask by lia.
  rewrite !Z.shiftr_div_pow2, !Z.shiftl_mul_pow2 by lia. change (2 ^ 8) with 256.
  set (a := x mod 256). set (b := x / 256 mod 256).
  set (c := x / 2 ^ 16 mod 256). set (d := x / 2 ^ 24 mod 256).
  assert (0 <= a < 256 /\ 0 <= b < 256 /\ 0 <= c < 256 /\ 0 <= d < 256) as (?&?&?&?).
  { subst a b c d. repeat split; apply Z.mod_pos_bound; lia. }
  assert (E1 : Z.lor (a * 2 ^ 24) (b * 2 ^ 16) = (a * 256 + b) * 2 ^ 16).
  { rewrite (lor_add_low a (b * 2 ^ 16) 24) by lia. lia. }
  assert (E2 : Z.lor ((a * 256 + b) * 2 ^ 16) (c * 256) = ((a * 256 + b) * 256 + c) * 2 ^ 8).
  { rewrite (lor_add_low (a * 256 + b) (c * 256) 16) by lia. lia. }
  rewrite E1, E2, lor_add_low by lia. unfold ntohl. subst a b c d.
  change (2 ^ 16) with 65536. change (2 ^ 24) with 16777216. lia.
Qed.

(** C28. The table-driven CRC of an SCTP packet is the CRC32c of its bytes: the
    complement of the remainder register of the bit-by-bit division by the
    reflected Castagnoli polynomial 0x82F63B78, started from all ones. *)
Theorem sctp_crc32c_bitwise (l : bytes) :
  bytes_ok l -> sctp_crc32c l = u32 (Z.lnot (crc_ref l)).
Proof.
  intros Hl. unfold sctp_crc32c. change (u32 (Z.lnot 0)) with 0xffffffff.
  rewrite foldl_CRC32C by done. rewrite reassemble_be by apply u32_range.
  apply ntohl_invol, u32_range.
Qed.

(** The check value of CRC32c: the ASCII digits 1 to 9. *)
Lemma sctp_crc32c_bitwise_witness :
  sctp_crc32c [0x31; 0x32; 0x33; 0x34; 0x35; 0x36; 0x37; 0x38; 0x39] = 0xE3069283.
Proof. rewrite sctp_crc32c_bitwise; [reflexivity|solve_bytes]. Defined.
