(* ===== verification/Hash.v ===== *)
(** * Hash: MurmurHash3_x86_32 of src/hash.c

    The hash that [hash_map.c] uses on its 32-bit keys, with its 32-bit
    arithmetic written out; the 128-bit variants of the file are in Hash128.v.  Every step
    is a bijection of machine words, from which HashMap.v shows that on 4-byte keys with a
    fixed seed the hash is injective. *)

From S2P Require Import Prelude.

(** [hash.c:39-42] rotl32 *)
Definition rotl32 (x r : Z) : Z :=
  Z.lor (u32 (Z.shiftl x r)) (Z.shiftr x (32 - r)).

(** [hash.c:73-82] fmix_32 *)
Definition fmix_32 (h : Z) : Z :=
  let h := Z.lxor h (Z.shiftr h 16) in
  let h := u32 (h * 0x85ebca6b) in
  let h := Z.lxor h (Z.shiftr h 13) in
  let h := u32 (h * 0xc2b2ae35) in
  let h := Z.lxor h (Z.shiftr h 16) in
  h.

(** [hash.c:106-107] the constants c1 and c2 of MurmurHash3_x86_32 *)
Definition murmur_c1 : Z := 0xcc9e2d51.
Definition murmur_c2 : Z := 0x1b873593.

(** [hash.c:118-120] scrambling of one block, in the loop and in the tail *)
Definition murmur_k1 (k1 : Z) : Z :=
  let k1 := u32 (k1 * murmur_c1) in
  let k1 := rotl32 k1 15 in
  u32 (k1 * murmur_c2).

(** [hash.c:112-125] the body of MurmurHash3_x86_32: the blocks in order, and
    what is left for the tail *)
Fixpoint murmur_body (data : bytes) (h1 : Z) : Z * bytes :=
  match data with
  | b0 :: b1 :: b2 :: b3 :: rest =>
      let k1 := murmur_k1 (le_combine [b0; b1; b2; b3]) in
      let h1 := Z.lxor h1 k1 in
      let h1 := rotl32 h1 13 in
      let h1 := u32 (h1 * 5 + 0xe6546b64) in
      murmur_body rest h1
  | tail => (h1, tail)
  end.

(** [hash.c:130-145] the fall-through switch over the tail bytes *)
Definition murmur_tail (tail : bytes) (h1 : Z) : Z :=
  match tail with
  | [t0; t1; t2] =>
      Z.lxor h1 (murmur_k1 (Z.lxor (Z.lxor (Z.shiftl t2 16) (Z.shiftl t1 8)) t0))
  | [t0; t1] => Z.lxor h1 (murmur_k1 (Z.lxor (Z.shiftl t1 8) t0))
  | [t0] => Z.lxor h1 (murmur_k1 t0)
  | _ => h1
  end.

(** [hash.c:99-155] MurmurHash3_x86_32 *)
Definition MurmurHash3_x86_32 (key : bytes) (seed : Z) : Z :=
  let '(h1, tail) := murmur_body key seed in
  let h1 := murmur_tail tail h1 in
  let h1 := Z.lxor h1 (u32 (zlen key)) in
  fmix_32 h1.

(** ** Every step is a bijection of machine words

    The steps are stated once for words of any width; the 32-bit instances
    that the hash map needs follow, and the 64-bit ones are in Hash128.v. *)
Section Words.

Context (w : Z) (Hw : 0 < w).

Definition is_word (x : Z) : Prop := 0 <= x < 2 ^ w.

Definition rotl (x r : Z) : Z := Z.lor (Z.shiftl x r mod 2 ^ w) (Z.shiftr x (w - r)).

Lemma is_word_bits x : is_word x <-> 0 <= x /\ forall i, w <= i -> Z.testbit x i = false.
Proof using Hw.
  unfold is_word. split.
  - intros. split; [lia|]. intros. apply (testbit_above x w); lia.
  - intros [H0 H]. split; [done|].
    destruct (Z.eq_dec x 0) as [->|]; [apply Z.pow_pos_nonneg; lia|].
    apply (Z.log2_lt_pow2 x w); [lia|].
    destruct (Z.ltb_spec (Z.log2 x) w) as [|Hl]; [done|].
    specialize (H _ Hl). rewrite Z.bit_log2 in H by lia. done.
Qed.

Lemma mod_word z : is_word (z mod 2 ^ w).
Proof using Hw. apply Z.mod_pos_bound, Z.pow_pos_nonneg; lia. Qed.

Lemma lxor_word x y : is_word x -> is_word y -> is_word (Z.lxor x y).
Proof using Hw.
  rewrite !is_word_bits. intros [Hx Bx] [Hy By]. split; [by apply Z.lxor_nonneg|].
  intros i Hi. by rewrite Z.lxor_spec, Bx, By.
Qed.

Lemma shiftr_word x n : 0 <= n -> is_word x -> is_word (Z.shiftr x n).
Proof using Hw.
  rewrite !is_word_bits. intros Hn [Hx Bx]. split; [by apply Z.shiftr_nonneg|].
  intros i Hi. rewrite Z.shiftr_spec by lia. apply Bx. lia.
Qed.

Lemma pow_split r : 0 <= r <= w -> 2 ^ w = 2 ^ r * 2 ^ (w - r).
Proof using Type. intros. rewrite <-Z.pow_add_r by lia. f_equal. lia. Qed.

Lemma high_part x r : 0 <= r <= w -> is_word x -> 0 <= x / 2 ^ (w - r) < 2 ^ r.
Proof using Type.
  intros Hr Hx. unfold is_word in *. rewrite (pow_split r) in Hx by done.
  pose proof (Z.pow_pos_nonneg 2 (w - r) ltac:(lia) ltac:(lia)).
  split; [apply Z.div_pos; lia|apply Z.div_lt_upper_bound; lia].
Qed.

Lemma rotl_arith x r : 0 <= r <= w -> is_word x ->
  rotl x r = (x mod 2 ^ (w - r)) * 2 ^ r + x / 2 ^ (w - r).
Proof using Type.
  intros Hr Hx. pose proof (high_part x r Hr Hx). unfold rotl.
  rewrite Z.shiftr_div_pow2, Z.shiftl_mul_pow2, (pow_split r) by lia.
  pose proof (Z.pow_pos_nonneg 2 r). pose proof (Z.pow_pos_nonneg 2 (w - r)).
  rewrite (Z.mul_comm x), Z.mul_mod_distr_l by lia.
  rewrite (Z.mul_comm (2 ^ r)). by rewrite lor_add_low by lia.
Qed.

Lemma rotl_word x r : 0 <= r <= w -> is_word x -> is_word (rotl x r).
Proof using Type.
  intros Hr Hx. rewrite rotl_arith by done. pose proof (high_part x r Hr Hx).
  unfold is_word. rewrite (pow_split r) by done.
  pose proof (Z.pow_pos_nonneg 2 (w - r) ltac:(lia) ltac:(lia)).
  pose proof (Z.mod_pos_bound x (2 ^ (w - r)) ltac:(lia)). nia.
Qed.

Lemma rotl_inj x y r : 0 <= r <= w -> is_word x -> is_word y -> rotl x r = rotl y r -> x = y.
Proof using Type.
  intros Hr Hx Hy. rewrite !rotl_arith by done. intros E.
  pose proof (high_part x r Hr Hx). pose proof (high_part y r Hr Hy).
  pose proof (Z.pow_pos_nonneg 2 (w - r) ltac:(lia) ltac:(lia)).
  pose proof (Z.div_mod x (2 ^ (w - r)) ltac:(lia)) as Ex.
  pose proof (Z.div_mod y (2 ^ (w - r)) ltac:(lia)) as Ey.
  rewrite !(Z.mul_comm (_ mod _)) in E.
  apply Z.div_mod_unique in E as [E1 E2]; [|left; lia..].
  rewrite E1, E2, <-Ey in Ex. done.
Qed.

Lemma mul_word_inj c d x y : (c * d) mod 2 ^ w = 1 -> is_word x -> is_word y ->
  (x * c) mod 2 ^ w = (y * c) mod 2 ^ w -> x = y.
Proof using Hw.
  intros Hc Hx Hy E. pose proof (Z.pow_pos_nonneg 2 w ltac:(lia) ltac:(lia)).
  assert (Hz : forall z, is_word z -> ((z * c) mod 2 ^ w * d) mod 2 ^ w = z).
  { intros z Hz. rewrite Z.mul_mod_idemp_l, <-Z.mul_assoc, <-Z.mul_mod_idemp_r, Hc by lia.
    rewrite Z.mul_1_r. by apply Z.mod_small. }
  rewrite <-(Hz x), <-(Hz y), E by done. done.
Qed.

Lemma add_word_inj c x y : is_word x -> is_word y ->
  (x + c) mod 2 ^ w = (y + c) mod 2 ^ w -> x = y.
Proof using Hw.
  intros Hx Hy E. pose proof (Z.pow_pos_nonneg 2 w ltac:(lia) ltac:(lia)).
  assert (Hz : forall z, is_word z -> ((z + c) mod 2 ^ w - c) mod 2 ^ w = z).
  { intros z Hz. rewrite Zminus_mod_idemp_l, Z.add_simpl_r. by apply Z.mod_small. }
  rewrite <-(Hz x), <-(Hz y), E by done. done.
Qed.

Lemma xorshift_word_inj n x y : w <= 3 * n -> is_word x -> is_word y ->
  Z.lxor x (Z.shiftr x n) = Z.lxor y (Z.shiftr y n) -> x = y.
Proof using Hw.
  intros Hn Hx Hy E.
  assert (Hz : forall z, is_word z -> let v := Z.lxor z (Z.shiftr z n) in
    z = Z.lxor v (Z.lxor (Z.shiftr v n) (Z.shiftr v (n + n)))).
  { intros z [Hz0 Hz]%is_word_bits. apply Z.bits_inj'. intros i Hi.
    rewrite !Z.lxor_spec, !Z.shiftr_spec, !Z.lxor_spec, !Z.shiftr_spec by lia.
    rewrite (Hz (i + (n + n) + n)) by lia. rewrite Z.add_assoc.
    destruct (Z.testbit z i), (Z.testbit z (i + n)), (Z.testbit z (i + n + n)); done. }
  cbv zeta in Hz. rewrite (Hz x Hx), (Hz y Hy), E. done.
Qed.

End Words.

Definition is_u32 (x : Z) : Prop := 0 <= x < 4294967296.

Lemma lxor_u32 x y : is_u32 x -> is_u32 y -> is_u32 (Z.lxor x y).
Proof. by apply (lxor_word 32). Qed.

Lemma shiftr_u32 x n : 0 <= n -> is_u32 x -> is_u32 (Z.shiftr x n).
Proof. by apply (shiftr_word 32). Qed.

Lemma rotl32_u32 x r : 0 <= r <= 32 -> is_u32 x -> is_u32 (rotl32 x r).
Proof. apply (rotl_word 32). Qed.

Lemma rotl32_inj x y r : 0 <= r <= 32 -> is_u32 x -> is_u32 y ->
  rotl32 x r = rotl32 y r -> x = y.
Proof. apply (rotl_inj 32). Qed.

Lemma mul_inj c d x y :
  (c * d) mod 4294967296 = 1 -> is_u32 x -> is_u32 y -> u32 (x * c) = u32 (y * c) -> x = y.
Proof. by apply (mul_word_inj 32). Qed.

Lemma xorshift_inj n x y : 11 <= n -> is_u32 x -> is_u32 y ->
  Z.lxor x (Z.shiftr x n) = Z.lxor y (Z.shiftr y n) -> x = y.
Proof. intros. apply (xorshift_word_inj 32 ltac:(lia) n); [lia|done..]. Qed.

Lemma lxor_inj_r x y k : Z.lxor x k = Z.lxor y k -> x = y.
Proof.
  intros E. apply (f_equal (fun z => Z.lxor z k)) in E.
  by rewrite !Z.lxor_assoc, Z.lxor_nilpotent, !Z.lxor_0_r in E.
Qed.

Lemma lxor_inj_l x y k : Z.lxor k x = Z.lxor k y -> x = y.
Proof. rewrite !(Z.lxor_comm k). apply lxor_inj_r. Qed.

Lemma fmix_32_u32 h : is_u32 h -> is_u32 (fmix_32 h).
Proof.
  intros H. unfold fmix_32.
  apply lxor_u32; [|apply shiftr_u32; [lia|]]; apply u32_range.
Qed.

Lemma fmix_32_inj x y : is_u32 x -> is_u32 y -> fmix_32 x = fmix_32 y -> x = y.
Proof.
  intros Hx Hy E. unfold fmix_32 in E.
  apply (xorshift_inj 16) in E; [|lia|apply u32_range..].
  apply (mul_inj _ 0x7ed1b41d) in E;
    [|reflexivity|apply lxor_u32; [|apply shiftr_u32; [lia|]]; apply u32_range..].
  apply (xorshift_inj 13) in E; [|lia|apply u32_range..].
  apply (mul_inj _ 0xa5cb9243) in E;
    [|reflexivity|apply lxor_u32; [|apply shiftr_u32; [lia|]]; done..].
  by apply (xorshift_inj 16) in E.
Qed.

Lemma murmur_k1_u32 k : is_u32 (murmur_k1 k).
Proof. apply u32_range. Qed.

Lemma murmur_k1_inj x y : is_u32 x -> is_u32 y -> murmur_k1 x = murmur_k1 y -> x = y.
Proof.
  intros Hx Hy E. unfold murmur_k1 in E.
  apply (mul_inj _ 0x56ed309b) in E;
    [|reflexivity|apply rotl32_u32; [lia|apply u32_range]..].
  apply rotl32_inj in E; [|lia|apply u32_range..].
  by apply (mul_inj _ 0xdee13bb1) in E.
Qed.
