(* ===== verification/Hash128.v ===== *)
(** * Hash128: the 128-bit variants of src/hash.c

    [MurmurHash3_x86_128] and [MurmurHash3_x64_128] with the loads they make
    through the key's pointer, a load outside the key being a fault.  Both are
    exported by hash.h.  The theorems: neither reads outside its key, and
    changing one aligned 16-byte block of a key always changes the hash. *)

From S2P Require Import Prelude Hash.

(** [hash.c:44-47] rotl64 *)
Definition rotl64 (x r : Z) : Z :=
  Z.lor (u64 (Z.shiftl x r)) (Z.shiftr x (64 - r)).

(** [hash.c:59-62] getblock_32: [p] is an offset into the key *)
Definition getblock_32 (key : bytes) (p i : Z) : exec Z := ld32 key (p + 4 * i).

(** [hash.c:64-67] getblock_64: [p] is an offset into the key *)
Definition getblock_64 (key : bytes) (p i : Z) : exec Z :=
  le_combine <$> get_bytes key (p + 8 * i) 8.

(** [hash.c:86-95] fmix_64 *)
Definition fmix_64 (k : Z) : Z :=
  let k := Z.lxor k (Z.shiftr k 33) in
  let k := u64 (k * 0xff51afd7ed558ccd) in
  let k := Z.lxor k (Z.shiftr k 33) in
  let k := u64 (k * 0xc4ceb9fe1a85ec53) in
  let k := Z.lxor k (Z.shiftr k 33) in
  k.

(** One case [n] of a switch over the tail that falls through from the cases
    above it: [k ^= tail[n-1] << sh] when there are that many bytes. *)
Definition tail_case (key : bytes) (tail r n sh k : Z) : exec Z :=
  if n <=? r then b ← ld8 key (tail + (n - 1)); Ok (Z.lxor k (Z.shiftl b sh)) else Ok k.

(** ** MurmurHash3_x86_128 *)

(** [hash.c:169-172] the constants c1 to c4 of MurmurHash3_x86_128 *)
Definition x86_c1 : Z := 0x239b961b.
Definition x86_c2 : Z := 0xab0e9789.
Definition x86_c3 : Z := 0x38b34ae5.
Definition x86_c4 : Z := 0xa1e38b93.

(** [hash.c:164-167] the running hash: h1, h2, h3 and h4 *)
Record hash_x86 := X86 { x86_h1 : Z; x86_h2 : Z; x86_h3 : Z; x86_h4 : Z }.

(** [hash.c:186-188] scrambling of a block's first word, also in the tail *)
Definition x86_scramble1 (k1 : Z) : Z := u32 (rotl32 (u32 (k1 * x86_c1)) 15 * x86_c2).

(** [hash.c:195-197] scrambling of a block's second word, also in the tail *)
Definition x86_scramble2 (k2 : Z) : Z := u32 (rotl32 (u32 (k2 * x86_c2)) 16 * x86_c3).

(** [hash.c:204-206] scrambling of a block's third word, also in the tail *)
Definition x86_scramble3 (k3 : Z) : Z := u32 (rotl32 (u32 (k3 * x86_c3)) 17 * x86_c4).

(** [hash.c:213-215] scrambling of a block's fourth word, also in the tail *)
Definition x86_scramble4 (k4 : Z) : Z := u32 (rotl32 (u32 (k4 * x86_c4)) 18 * x86_c1).

(** [hash.c:186-220] one turn of the loop after the block is loaded *)
Definition x86_mix_block (k1 k2 k3 k4 : Z) (h : hash_x86) : hash_x86 :=
  let '(X86 h1 h2 h3 h4) := h in
  let h1 := Z.lxor h1 (x86_scramble1 k1) in
  let h1 := rotl32 h1 19 in
  let h1 := u32 (h1 + h2) in
  let h1 := u32 (h1 * 5 + 0x561ccd1b) in
  let h2 := Z.lxor h2 (x86_scramble2 k2) in
  let h2 := rotl32 h2 17 in
  let h2 := u32 (h2 + h3) in
  let h2 := u32 (h2 * 5 + 0x0bcaa747) in
  let h3 := Z.lxor h3 (x86_scramble3 k3) in
  let h3 := rotl32 h3 15 in
  let h3 := u32 (h3 + h4) in
  let h3 := u32 (h3 * 5 + 0x96cd1c35) in
  let h4 := Z.lxor h4 (x86_scramble4 k4) in
  let h4 := rotl32 h4 13 in
  let h4 := u32 (h4 + h1) in
  let h4 := u32 (h4 * 5 + 0x32ac3b17) in
  X86 h1 h2 h3 h4.

(** [hash.c:180-221] the loop over the blocks: [i] is minus the number of blocks
    left, and [blocks] points behind the last one *)
Fixpoint x86_body (key : bytes) (blocks : Z) (n : nat) (h : hash_x86) : exec hash_x86 :=
  match n with
  | O => Ok h
  | S n' =>
      let i := - Z.of_nat n in
      k1 ← getblock_32 key blocks (i * 4 + 0);
      k2 ← getblock_32 key blocks (i * 4 + 1);
      k3 ← getblock_32 key blocks (i * 4 + 2);
      k4 ← getblock_32 key blocks (i * 4 + 3);
      x86_body key blocks n' (x86_mix_block k1 k2 k3 k4 h)
  end.

(** [hash.c:228-283] the fall-through switch over the tail bytes *)
Definition x86_tail_switch (key : bytes) (tail r : Z) (h : hash_x86) : exec hash_x86 :=
  let '(X86 h1 h2 h3 h4) := h in
  k4 ← tail_case key tail r 15 16 0;
  k4 ← tail_case key tail r 14 8 k4;
  k4 ← tail_case key tail r 13 0 k4;
  let h4 := if 13 <=? r then Z.lxor h4 (x86_scramble4 k4) else h4 in
  k3 ← tail_case key tail r 12 24 0;
  k3 ← tail_case key tail r 11 16 k3;
  k3 ← tail_case key tail r 10 8 k3;
  k3 ← tail_case key tail r 9 0 k3;
  let h3 := if 9 <=? r then Z.lxor h3 (x86_scramble3 k3) else h3 in
  k2 ← tail_case key tail r 8 24 0;
  k2 ← tail_case key tail r 7 16 k2;
  k2 ← tail_case key tail r 6 8 k2;
  k2 ← tail_case key tail r 5 0 k2;
  let h2 := if 5 <=? r then Z.lxor h2 (x86_scramble2 k2) else h2 in
  k1 ← tail_case key tail r 4 24 0;
  k1 ← tail_case key tail r 3 16 k1;
  k1 ← tail_case key tail r 2 8 k1;
  k1 ← tail_case key tail r 1 0 k1;
  let h1 := if 1 <=? r then Z.lxor h1 (x86_scramble1 k1) else h1 in
  Ok (X86 h1 h2 h3 h4).

(** [hash.c:293-298] adding the words up, once before and once after [fmix_32] *)
Definition x86_add_up (h : hash_x86) : hash_x86 :=
  let '(X86 h1 h2 h3 h4) := h in
  let h1 := u32 (h1 + h2) in
  let h1 := u32 (h1 + h3) in
  let h1 := u32 (h1 + h4) in
  X86 h1 (u32 (h2 + h1)) (u32 (h3 + h1)) (u32 (h4 + h1)).

(** [hash.c:288-310] the finalization *)
Definition x86_finalize (len : Z) (h : hash_x86) : hash_x86 :=
  let '(X86 h1 h2 h3 h4) := h in
  let len := u32 len in
  let h := X86 (Z.lxor h1 len) (Z.lxor h2 len) (Z.lxor h3 len) (Z.lxor h4 len) in
  let '(X86 h1 h2 h3 h4) := x86_add_up h in
  x86_add_up (X86 (fmix_32 h1) (fmix_32 h2) (fmix_32 h3) (fmix_32 h4)).

(** [hash.c:159-316] MurmurHash3_x86_128: [out] gets the four words in order *)
Definition MurmurHash3_x86_128 (key : bytes) (seed : Z) : exec hash_x86 :=
  let len := zlen key in
  let nblocks := len / 16 in
  h ← x86_body key (nblocks * 16) (Z.to_nat nblocks) (X86 seed seed seed seed);
  h ← x86_tail_switch key (nblocks * 16) (Z.land len 15) h;
  Ok (x86_finalize len h).

(** ** MurmurHash3_x64_128 *)

(** [hash.c:329-330] the constants c1 and c2 of MurmurHash3_x64_128 *)
Definition x64_c1 : Z := 0x87c37b91114253d5.
Definition x64_c2 : Z := 0x4cf5ad432745937f.

(** [hash.c:326-327] the running hash: h1 and h2 *)
Record hash_x64 := X64 { x64_h1 : Z; x64_h2 : Z }.

(** [hash.c:342-344] scrambling of a block's first word, also in the tail *)
Definition x64_scramble1 (k1 : Z) : Z := u64 (rotl64 (u64 (k1 * x64_c1)) 31 * x64_c2).

(** [hash.c:351-353] scrambling of a block's second word, also in the tail *)
Definition x64_scramble2 (k2 : Z) : Z := u64 (rotl64 (u64 (k2 * x64_c2)) 33 * x64_c1).

(** [hash.c:342-358] one turn of the loop after the block is loaded *)
Definition x64_mix_block (k1 k2 : Z) (h : hash_x64) : hash_x64 :=
  let '(X64 h1 h2) := h in
  let h1 := Z.lxor h1 (x64_scramble1 k1) in
  let h1 := rotl64 h1 27 in
  let h1 := u64 (h1 + h2) in
  let h1 := u64 (h1 * 5 + 0x52dce729) in
  let h2 := Z.lxor h2 (x64_scramble2 k2) in
  let h2 := rotl64 h2 31 in
  let h2 := u64 (h2 + h1) in
  let h2 := u64 (h2 * 5 + 0x38495ab5) in
  X64 h1 h2.

(** [hash.c:338-359] the loop over the blocks: [i] counts up, [n] turns are left *)
Fixpoint x64_body (key : bytes) (blocks i : Z) (n : nat) (h : hash_x64) : exec hash_x64 :=
  match n with
  | O => Ok h
  | S n' =>
      k1 ← getblock_64 key blocks (i * 2 + 0);
      k2 ← getblock_64 key blocks (i * 2 + 1);
      x64_body key blocks (i + 1) n' (x64_mix_block k1 k2 h)
  end.

(** [hash.c:366-409] the fall-through switch over the tail bytes *)
Definition x64_tail_switch (key : bytes) (tail r : Z) (h : hash_x64) : exec hash_x64 :=
  let '(X64 h1 h2) := h in
  k2 ← tail_case key tail r 15 48 0;
  k2 ← tail_case key tail r 14 40 k2;
  k2 ← tail_case key tail r 13 32 k2;
  k2 ← tail_case key tail r 12 24 k2;
  k2 ← tail_case key tail r 11 16 k2;
  k2 ← tail_case key tail r 10 8 k2;
  k2 ← tail_case key tail r 9 0 k2;
  let h2 := if 9 <=? r then Z.lxor h2 (x64_scramble2 k2) else h2 in
  k1 ← tail_case key tail r 8 56 0;
  k1 ← tail_case key tail r 7 48 k1;
  k1 ← tail_case key tail r 6 40 k1;
  k1 ← tail_case key tail r 5 32 k1;
  k1 ← tail_case key tail r 4 24 k1;
  k1 ← tail_case key tail r 3 16 k1;
  k1 ← tail_case key tail r 2 8 k1;
  k1 ← tail_case key tail r 1 0 k1;
  let h1 := if 1 <=? r then Z.lxor h1 (x64_scramble1 k1) else h1 in
  Ok (X64 h1 h2).

(** [hash.c:417-418] adding the words up, once before and once after [fmix_64] *)
Definition x64_add_up (h : hash_x64) : hash_x64 :=
  let '(X64 h1 h2) := h in
  let h1 := u64 (h1 + h2) in
  X64 h1 (u64 (h2 + h1)).

(** [hash.c:414-424] the finalization *)
Definition x64_finalize (len : Z) (h : hash_x64) : hash_x64 :=
  let '(X64 h1 h2) := h in
  let len := u64 len in
  let '(X64 h1 h2) := x64_add_up (X64 (Z.lxor h1 len) (Z.lxor h2 len)) in
  x64_add_up (X64 (fmix_64 h1) (fmix_64 h2)).

(** [hash.c:320-428] MurmurHash3_x64_128: [out] gets the two words in order *)
Definition MurmurHash3_x64_128 (key : bytes) (seed : Z) : exec hash_x64 :=
  let len := zlen key in
  let nblocks := len / 16 in
  h ← x64_body key 0 0 (Z.to_nat nblocks) (X64 seed seed);
  h ← x64_tail_switch key (nblocks * 16) (Z.land len 15) h;
  Ok (x64_finalize len h).

(** ** Blocks of a key *)

(** The first [n] blocks of 16 bytes. *)
Fixpoint chunks (n : nat) (l : bytes) : list bytes :=
  match n with
  | O => []
  | S n' => take 16 l :: chunks n' (drop 16 l)
  end.

Definition block_word (n o : nat) (b : bytes) : Z := le_combine (take n (drop o b)).

Definition x86_absorb (h : hash_x86) (b : bytes) : hash_x86 :=
  x86_mix_block (block_word 4 0 b) (block_word 4 4 b) (block_word 4 8 b) (block_word 4 12 b) h.

Definition x64_absorb (h : hash_x64) (b : bytes) : hash_x64 :=
  x64_mix_block (block_word 8 0 b) (block_word 8 8 b) h.

Lemma load_block_word key n o j p : (o + Z.to_nat n <= 16)%nat -> 0 <= n ->
  (16 * j + 16 <= length key)%nat -> p = Z.of_nat (16 * j + o) ->
  le_combine <$> get_bytes key p n
    = Ok (block_word (Z.to_nat n) o (take 16 (drop (16 * j) key))).
Proof.
  intros Ho Hn Hj ->. unfold get_bytes.
  replace (in_range key _ _) with true by (symmetry; apply in_range_true; unfold zlen; lia).
  unfold fmap, exec_fmap, block_word. do 2 f_equal. rewrite Nat2Z.id.
  rewrite skipn_firstn_comm, drop_drop, take_take. f_equal. lia.
Qed.

Ltac load_word n o j :=
  rewrite (load_block_word _ n o j) by lia.

Lemma x86_body_eq key n j h : (16 * (j + n) <= length key)%nat ->
  x86_body key (Z.of_nat (16 * (j + n))) n h
    = Ok (foldl x86_absorb h (chunks n (drop (16 * j) key))).
Proof.
  revert j h. induction n as [|n IH]; intros j h Hl; [done|]. cbn [x86_body chunks foldl].
  unfold getblock_32, ld32. cbv zeta.
  load_word 4 12%nat j. load_word 4 8%nat j. load_word 4 4%nat j. load_word 4 0%nat j.
  cbn [mbind exec_bind].
  rewrite drop_drop. replace (16 * j + 16)%nat with (16 * S j)%nat by lia.
  rewrite <-(IH (S j)) by lia. do 2 f_equal. lia.
Qed.

Lemma x64_body_eq key n j h : (16 * (j + n) <= length key)%nat ->
  x64_body key 0 (Z.of_nat j) n h = Ok (foldl x64_absorb h (chunks n (drop (16 * j) key))).
Proof.
  revert j h. induction n as [|n IH]; intros j h Hl; [done|]. cbn [x64_body chunks foldl].
  unfold getblock_64. load_word 8 8%nat j. load_word 8 0%nat j. cbn [mbind exec_bind].
  rewrite drop_drop. replace (16 * j + 16)%nat with (16 * S j)%nat by lia.
  rewrite <-(IH (S j)) by lia. f_equal. lia.
Qed.

Lemma chunks_app n m a b : length a = (16 * n)%nat ->
  chunks (n + m) (a ++ b) = chunks n a ++ chunks m b.
Proof.
  revert a. induction n as [|n IH]; intros a Ha; cbn [Nat.add chunks app].
  - by destruct a.
  - rewrite take_app_le, drop_app_le by lia. f_equal. apply IH. rewrite length_drop. lia.
Qed.

(** ** Bounds of the loads *)
Lemma tail_case_total key t r n sh k :
  0 <= t -> 1 <= n -> t + r <= zlen key -> exists k', tail_case key t r n sh k = Ok k'.
Proof.
  intros. unfold tail_case. destruct (n <=? r) eqn:E; [|by eauto].
  apply Z.leb_le in E. rewrite ld8_eq by lia. cbn [mbind exec_bind]. eauto.
Qed.

Ltac tail_steps :=
  repeat match goal with
  | |- context [tail_case ?key ?t ?r ?n ?sh ?k] =>
      let E := fresh "E" in
      destruct (tail_case_total key t r n sh k) as [? E]; [lia..|];
      rewrite E; cbn [mbind exec_bind]
  end.

Lemma x86_tail_total key t r h : 0 <= t -> t + r <= zlen key ->
  exists h', x86_tail_switch key t r h = Ok h'.
Proof. intros. unfold x86_tail_switch. destruct h. tail_steps. eauto. Qed.

Lemma x64_tail_total key t r h : 0 <= t -> t + r <= zlen key ->
  exists h', x64_tail_switch key t r h = Ok h'.
Proof. intros. unfold x64_tail_switch. destruct h. tail_steps. eauto. Qed.

Lemma land_15 n : 0 <= n -> Z.land n 15 = n mod 16.
Proof. intros. apply (Z.land_ones n 4). lia. Qed.

Lemma key_split (key : bytes) : let n := Z.to_nat (zlen key / 16) in
  (16 * n <= length key)%nat /\ zlen key / 16 * 16 = Z.of_nat (16 * n)
  /\ zlen key / 16 * 16 + Z.land (zlen key) 15 = zlen key.
Proof. cbv zeta. rewrite land_15 by (unfold zlen; lia). unfold zlen. zlia. Qed.

(** ** Each stage loses nothing *)
Definition is_u64 (x : Z) : Prop := 0 <= x < 18446744073709551616.

Definition x86_ok (h : hash_x86) : Prop :=
  is_u32 (x86_h1 h) /\ is_u32 (x86_h2 h) /\ is_u32 (x86_h3 h) /\ is_u32 (x86_h4 h).

Definition x64_ok (h : hash_x64) : Prop := is_u64 (x64_h1 h) /\ is_u64 (x64_h2 h).

Section Turn.

Context (w : Z) (Hw : 0 < w) (inv5 : Z) (H5 : (5 * inv5) mod 2 ^ w = 1).

(** What a turn of either loop does to one word. *)
Definition turn (h k r a c : Z) : Z :=
  ((rotl w (Z.lxor h k) r + a) mod 2 ^ w * 5 + c) mod 2 ^ w.

Lemma turn_inj h k h' k' r a c : 0 <= r <= w ->
  is_word w h -> is_word w k -> is_word w h' -> is_word w k' ->
  turn h k r a c = turn h' k' r a c -> Z.lxor h k = Z.lxor h' k'.
Proof using Hw H5.
  intros Hr Hh Hk Hh' Hk' E. unfold turn in E.
  pose proof (Z.pow_pos_nonneg 2 w ltac:(lia) ltac:(lia)).
  rewrite <-(Zplus_mod_idemp_l (_ * 5)), <-(Zplus_mod_idemp_l ((rotl w (Z.lxor h' k') r + a) mod _ * 5)) in E.
  apply (add_word_inj w Hw) in E; [|by apply mod_word..].
  apply (mul_word_inj w Hw 5 inv5) in E; [|done|by apply mod_word..].
  apply (add_word_inj w Hw) in E; [|apply rotl_word; [lia|by apply lxor_word]..].
  apply (rotl_inj w) in E; [done|lia|by apply lxor_word..].
Qed.

Lemma scramble_inj c c' d d' k k' r : 0 <= r <= w -> (c * d) mod 2 ^ w = 1 ->
  (c' * d') mod 2 ^ w = 1 -> is_word w k -> is_word w k' ->
  (rotl w ((k * c) mod 2 ^ w) r * c') mod 2 ^ w = (rotl w ((k' * c) mod 2 ^ w) r * c') mod 2 ^ w ->
  k = k'.
Proof using Hw.
  intros Hr Hd Hd' Hk Hk' E.
  apply (mul_word_inj w Hw c' d') in E; [|done|apply rotl_word; [lia|by apply mod_word]..].
  apply (rotl_inj w) in E; [|lia|by apply mod_word..].
  by apply (mul_word_inj w Hw c d) in E.
Qed.

End Turn.

Lemma x86_mix_ok k1 k2 k3 k4 h : x86_ok (x86_mix_block k1 k2 k3 k4 h).
Proof. destruct h. repeat split; apply u32_range. Qed.

Lemma x64_mix_ok k1 k2 h : x64_ok (x64_mix_block k1 k2 h).
Proof. destruct h. split; apply u64_range. Qed.

Definition turn32 := turn_inj 32 eq_refl 0xcccccccd eq_refl.
Definition turn64 := turn_inj 64 eq_refl 0xcccccccccccccccd eq_refl.

Lemma x86_scramble_u32 k :
  is_u32 (x86_scramble1 k) /\ is_u32 (x86_scramble2 k) /\ is_u32 (x86_scramble3 k)
  /\ is_u32 (x86_scramble4 k).
Proof. repeat split; apply u32_range. Qed.

Lemma x86_scramble_inj k k' : is_u32 k -> is_u32 k' ->
  (x86_scramble1 k = x86_scramble1 k' -> k = k') /\ (x86_scramble2 k = x86_scramble2 k' -> k = k')
  /\ (x86_scramble3 k = x86_scramble3 k' -> k = k')
  /\ (x86_scramble4 k = x86_scramble4 k' -> k = k').
Proof.
  intros Hk Hk'. split_and!; intros E.
  - by apply (scramble_inj 32 eq_refl x86_c1 x86_c2 0x89c95413 0xdf130eb9 k k' 15 ltac:(lia)).
  - by apply (scramble_inj 32 eq_refl x86_c2 x86_c3 0xdf130eb9 0x747862ed k k' 16 ltac:(lia)).
  - by apply (scramble_inj 32 eq_refl x86_c3 x86_c4 0x747862ed 0x58d64a9b k k' 17 ltac:(lia)).
  - by apply (scramble_inj 32 eq_refl x86_c4 x86_c1 0x58d64a9b 0x89c95413 k k' 18 ltac:(lia)).
Qed.

Lemma x64_scramble_u64 k : is_u64 (x64_scramble1 k) /\ is_u64 (x64_scramble2 k).
Proof. split; apply u64_range. Qed.

Lemma x64_scramble_inj k k' : is_u64 k -> is_u64 k' ->
  (x64_scramble1 k = x64_scramble1 k' -> k = k')
  /\ (x64_scramble2 k = x64_scramble2 k' -> k = k').
Proof.
  intros Hk Hk'. split; intros E.
  - by apply (scramble_inj 64 eq_refl x64_c1 x64_c2 0xa98409e882ce4d7d 0xa81e14edd9de2c7f
      k k' 31 ltac:(lia)).
  - by apply (scramble_inj 64 eq_refl x64_c2 x64_c1 0xa81e14edd9de2c7f 0xa98409e882ce4d7d
      k k' 33 ltac:(lia)).
Qed.

(** A turn determines the block from the words before it, and the words from the block. *)
Lemma x64_mix_inj k1 k2 k1' k2' h h' : is_u64 k1 -> is_u64 k2 -> is_u64 k1' -> is_u64 k2' ->
  x64_ok h -> x64_ok h' -> x64_mix_block k1 k2 h = x64_mix_block k1' k2' h' ->
  (h = h' -> k1 = k1' /\ k2 = k2') /\ (k1 = k1' -> k2 = k2' -> h = h').
Proof.
  intros K1 K2 K1' K2'. destruct h as [a b], h' as [a' b']. intros [A B] [A' B'] E.
  cbn [x64_h1 x64_h2] in *. injection E as E1 E2.
  pose proof (x64_scramble_u64 k1) as [S1 _]. pose proof (x64_scramble_u64 k1') as [S1' _].
  pose proof (x64_scramble_u64 k2) as [_ S2]. pose proof (x64_scramble_u64 k2') as [_ S2'].
  rewrite E1 in E2. apply (turn64 b _ b' _ 31) in E2; [|lia|done..].
  split.
  - intros [= -> ->]. apply (turn64 a' _ a' _ 27) in E1; [|lia|done..].
    apply lxor_inj_l in E1, E2.
    destruct (x64_scramble_inj k1 k1' K1 K1') as [I1 _].
    destruct (x64_scramble_inj k2 k2' K2 K2') as [_ I2]. auto.
  - intros -> ->. apply lxor_inj_r in E2 as ->.
    apply (turn64 a _ a' _ 27) in E1; [|lia|done..]. by apply lxor_inj_r in E1 as ->.
Qed.

Lemma x86_mix_inj k1 k2 k3 k4 k1' k2' k3' k4' h h' :
  is_u32 k1 -> is_u32 k2 -> is_u32 k3 -> is_u32 k4 ->
  is_u32 k1' -> is_u32 k2' -> is_u32 k3' -> is_u32 k4' -> x86_ok h -> x86_ok h' ->
  x86_mix_block k1 k2 k3 k4 h = x86_mix_block k1' k2' k3' k4' h' ->
  (h = h' -> (k1 = k1' /\ k2 = k2') /\ k3 = k3' /\ k4 = k4')
  /\ (k1 = k1' -> k2 = k2' -> k3 = k3' -> k4 = k4' -> h = h').
Proof.
  intros K1 K2 K3 K4 K1' K2' K3' K4'. destruct h as [a b c d], h' as [a' b' c' d'].
  intros (A & B & C & D) (A' & B' & C' & D') E.
  cbn [x86_h1 x86_h2 x86_h3 x86_h4] in *. injection E as E1 E2 E3 E4.
  pose proof (x86_scramble_u32 k1) as (S1 & _). pose proof (x86_scramble_u32 k1') as (S1' & _).
  pose proof (x86_scramble_u32 k2) as (_ & S2 & _).
  pose proof (x86_scramble_u32 k2') as (_ & S2' & _).
  pose proof (x86_scramble_u32 k3) as (_ & _ & S3 & _).
  pose proof (x86_scramble_u32 k3') as (_ & _ & S3' & _).
  pose proof (x86_scramble_u32 k4) as (_ & _ & _ & S4).
  pose proof (x86_scramble_u32 k4') as (_ & _ & _ & S4').
  rewrite E1 in E4. apply (turn32 d _ d' _ 13) in E4; [|lia|done..].
  split.
  - intros [= -> -> -> ->].
    apply (turn32 a' _ a' _ 19) in E1; [|lia|done..].
    apply (turn32 b' _ b' _ 17) in E2; [|lia|done..].
    apply (turn32 c' _ c' _ 15) in E3; [|lia|done..].
    apply lxor_inj_l in E1, E2, E3, E4.
    destruct (x86_scramble_inj k1 k1' K1 K1') as (I1 & _).
    destruct (x86_scramble_inj k2 k2' K2 K2') as (_ & I2 & _).
    destruct (x86_scramble_inj k3 k3' K3 K3') as (_ & _ & I3 & _).
    destruct (x86_scramble_inj k4 k4' K4 K4') as (_ & _ & _ & I4). auto.
  - intros -> -> -> ->. apply lxor_inj_r in E4 as ->.
    apply (turn32 c _ c' _ 15) in E3; [|lia|done..]. apply lxor_inj_r in E3 as ->.
    apply (turn32 b _ b' _ 17) in E2; [|lia|done..]. apply lxor_inj_r in E2 as ->.
    apply (turn32 a _ a' _ 19) in E1; [|lia|done..]. by apply lxor_inj_r in E1 as ->.
Qed.

(** ** Blocks and words *)
Lemma block_word_range n o b : bytes_ok b -> 0 <= block_word n o b < 256 ^ Z.of_nat n.
Proof.
  intros Hb. unfold block_word. set (l := take n (drop o b)).
  assert (Hl : bytes_ok l) by (by apply Forall_take, Forall_drop).
  pose proof (le_combine_range l Hl).
  pose proof (Z.pow_le_mono_r 256 (zlen l) (Z.of_nat n) ltac:(lia)).
  assert (zlen l <= Z.of_nat n) by (unfold zlen, l; rewrite length_take; lia). lia.
Qed.

Lemma block_word_inj n o b b' : bytes_ok b -> bytes_ok b' -> length b = length b' ->
  block_word n o b = block_word n o b' -> take n (drop o b) = take n (drop o b').
Proof.
  intros Hb Hb' Hl E. unfold block_word in E.
  rewrite <-(le_split_combine (take n (drop o b))), E by (by apply Forall_take, Forall_drop).
  rewrite <-(le_split_combine (take n (drop o b'))) at 2 by (by apply Forall_take, Forall_drop).
  f_equal. rewrite !length_take, !length_drop. lia.
Qed.

Lemma block_cut n o (b : bytes) : drop o b = take n (drop o b) ++ drop (o + n) b.
Proof. by rewrite <-drop_drop, take_drop. Qed.

Lemma x64_absorb_inj b b' h h' : bytes_ok b -> bytes_ok b' -> length b = 16%nat ->
  length b' = 16%nat -> x64_ok h -> x64_ok h' -> x64_absorb h b = x64_absorb h' b' ->
  (h = h' -> b = b') /\ (b = b' -> h = h').
Proof.
  intros Hb Hb' Lb Lb' Hh Hh' E. apply x64_mix_inj in E; [|by apply block_word_range..|done|done].
  destruct E as [E1 E2]. split; intros X; [|subst; by apply E2].
  destruct (E1 X) as [W1 W2]. apply block_word_inj in W1, W2; try congruence.
  change (drop 0 b = drop 0 b'). rewrite (block_cut 8 0 b), (block_cut 8 0 b'), W1.
  cbn [Nat.add]. rewrite (block_cut 8 8 b), (block_cut 8 8 b'), W2. cbn [Nat.add].
  by rewrite (drop_ge b 16), (drop_ge b' 16) by lia.
Qed.

Lemma x86_absorb_inj b b' h h' : bytes_ok b -> bytes_ok b' -> length b = 16%nat ->
  length b' = 16%nat -> x86_ok h -> x86_ok h' -> x86_absorb h b = x86_absorb h' b' ->
  (h = h' -> b = b') /\ (b = b' -> h = h').
Proof.
  intros Hb Hb' Lb Lb' Hh Hh' E. apply x86_mix_inj in E; [|by apply block_word_range..|done|done].
  destruct E as [E1 E2]. split; intros X; [|subst; by apply E2].
  destruct (E1 X) as [[W1 W2] [W3 W4]]. apply block_word_inj in W1, W2, W3, W4; try congruence.
  change (drop 0 b = drop 0 b'). rewrite (block_cut 4 0 b), (block_cut 4 0 b'), W1.
  cbn [Nat.add]. rewrite (block_cut 4 4 b), (block_cut 4 4 b'), W2. cbn [Nat.add].
  rewrite (block_cut 4 8 b), (block_cut 4 8 b'), W3. cbn [Nat.add].
  rewrite (block_cut 4 12 b), (block_cut 4 12 b'), W4. cbn [Nat.add].
  by rewrite (drop_ge b 16), (drop_ge b' 16) by lia.
Qed.

(** ** Tail and finalization *)
Lemma tail_case_ext key key' t r n sh k :
  (forall o, t <= o < t + r -> ld8 key o = ld8 key' o) -> 1 <= n ->
  tail_case key t r n sh k = tail_case key' t r n sh k.
Proof.
  intros H Hn. unfold tail_case. destruct (n <=? r) eqn:E; [|done]. apply Z.leb_le in E.
  by rewrite H by lia.
Qed.

Ltac tail_ext H :=
  repeat match type of H with
  | forall o, _ -> ld8 ?key o = ld8 ?key' o =>
      match goal with
      | |- mbind _ (tail_case key ?t ?r ?n ?sh ?k) = _ =>
          rewrite (tail_case_ext key key' t r n sh k H) by lia;
          destruct (tail_case key' t r n sh k); cbn [mbind exec_bind]; [|done]
      end
  end; done.

(** Goes through the loads of a switch that is known to succeed. *)
Ltac tail_cases H :=
  repeat match type of H with
  | context [tail_case ?key ?t ?r ?n ?sh ?k] =>
      destruct (tail_case key t r n sh k); cbn [mbind exec_bind] in *; [|discriminate H]
  end.

Lemma x64_tail_inj key t r h h' g : x64_tail_switch key t r h = Ok g ->
  x64_tail_switch key t r h' = Ok g -> h = h'.
Proof.
  intros E E'. unfold x64_tail_switch in *. destruct h as [a b], h' as [a' b'].
  tail_cases E. rewrite <-E in E'. injection E' as E1 E2.
  destruct (1 <=? r), (9 <=? r); try apply lxor_inj_r in E1; try apply lxor_inj_r in E2;
    congruence.
Qed.

Lemma x86_tail_inj key t r h h' g : x86_tail_switch key t r h = Ok g ->
  x86_tail_switch key t r h' = Ok g -> h = h'.
Proof.
  intros E E'. unfold x86_tail_switch in *. destruct h as [a b c d], h' as [a' b' c' d'].
  tail_cases E. rewrite <-E in E'. injection E' as E1 E2 E3 E4.
  destruct (1 <=? r), (5 <=? r), (9 <=? r), (13 <=? r); try apply lxor_inj_r in E1;
    try apply lxor_inj_r in E2; try apply lxor_inj_r in E3; try apply lxor_inj_r in E4; congruence.
Qed.

Lemma x64_tail_ok key t r h g : x64_ok h -> x64_tail_switch key t r h = Ok g -> x64_ok g.
Proof.
  intros [A B] E. unfold x64_tail_switch in E. destruct h as [a b]. tail_cases E.
  injection E as <-. cbn in A, B. split; cbn [x64_h1 x64_h2].
  - destruct (1 <=? r); [apply (lxor_word 64); [lia|done|apply u64_range]|done].
  - destruct (9 <=? r); [apply (lxor_word 64); [lia|done|apply u64_range]|done].
Qed.

Lemma x86_tail_ok key t r h g : x86_ok h -> x86_tail_switch key t r h = Ok g -> x86_ok g.
Proof.
  intros (A & B & C & D) E. unfold x86_tail_switch in E. destruct h as [a b c d]. tail_cases E.
  injection E as <-. cbn in A, B, C, D. unfold x86_ok. cbn [x86_h1 x86_h2 x86_h3 x86_h4].
  split_and!; case_match; try apply lxor_u32; done || apply u32_range.
Qed.

Lemma x64_tail_ext key key' t r h : (forall o, t <= o < t + r -> ld8 key o = ld8 key' o) ->
  x64_tail_switch key t r h = x64_tail_switch key' t r h.
Proof. intros H. unfold x64_tail_switch. destruct h. tail_ext H. Qed.

Lemma x86_tail_ext key key' t r h : (forall o, t <= o < t + r -> ld8 key o = ld8 key' o) ->
  x86_tail_switch key t r h = x86_tail_switch key' t r h.
Proof. intros H. unfold x86_tail_switch. destruct h. tail_ext H. Qed.

Lemma fmix_64_u64 k : is_u64 (fmix_64 k).
Proof.
  unfold fmix_64. cbv zeta. set (v := u64 _). pose proof (u64_range (Z.lxor v (Z.shiftr v 33) * 0)).
  apply (lxor_word 64); [lia|apply u64_range|]. apply (shiftr_word 64); [lia..|apply u64_range].
Qed.

Lemma fmix_64_inj x y : is_u64 x -> is_u64 y -> fmix_64 x = fmix_64 y -> x = y.
Proof.
  assert (W : forall z, is_word 64 z -> is_word 64 (Z.lxor z (Z.shiftr z 33))).
  { intros z Hz. apply lxor_word; [lia|done|]. apply shiftr_word; [lia..|done]. }
  intros Hx Hy E. unfold fmix_64 in E.
  apply (xorshift_word_inj 64 ltac:(lia) 33) in E; [|lia|apply u64_range..].
  apply (mul_word_inj 64 ltac:(lia) _ 0x9cb4b2f8129337db) in E;
    [|reflexivity|apply W, u64_range..].
  apply (xorshift_word_inj 64 ltac:(lia) 33) in E; [|lia|apply u64_range..].
  apply (mul_word_inj 64 ltac:(lia) _ 0x4f74430c22a54005) in E; [|reflexivity|by apply W..].
  by apply (xorshift_word_inj 64 ltac:(lia) 33) in E.
Qed.

Lemma x64_add_up_inj h h' : x64_ok h -> x64_ok h' -> x64_add_up h = x64_add_up h' -> h = h'.
Proof.
  destruct h as [a b], h' as [a' b']. intros [A B] [A' B'] E. cbn in A, B, A', B'.
  injection E as E1 E2. rewrite E1 in E2.
  apply (add_word_inj 64 ltac:(lia)) in E2 as ->; [|done..].
  by apply (add_word_inj 64 ltac:(lia)) in E1 as ->.
Qed.

Lemma x86_add_up_inj h h' : x86_ok h -> x86_ok h' -> x86_add_up h = x86_add_up h' -> h = h'.
Proof.
  destruct h as [a b c d], h' as [a' b' c' d']. intros (A & B & C & D) (A' & B' & C' & D') E.
  cbn in A, B, C, D, A', B', C', D'. injection E as E1 E2 E3 E4. rewrite E1 in E2, E3, E4.
  apply (add_word_inj 32 ltac:(lia)) in E2 as ->, E3 as ->, E4 as ->; [|done..].
  apply (add_word_inj 32 ltac:(lia)) in E1; [|apply u32_range..].
  apply (add_word_inj 32 ltac:(lia)) in E1; [|apply u32_range..].
  by apply (add_word_inj 32 ltac:(lia)) in E1 as ->.
Qed.

Lemma x64_finalize_inj len h h' : x64_ok h -> x64_ok h' ->
  x64_finalize len h = x64_finalize len h' -> h = h'.
Proof.
  set (whiten := fun h => X64 (Z.lxor (x64_h1 h) (u64 len)) (Z.lxor (x64_h2 h) (u64 len))).
  set (fmix := fun h => X64 (fmix_64 (x64_h1 h)) (fmix_64 (x64_h2 h))).
  assert (F : forall g, x64_finalize len g = x64_add_up (fmix (x64_add_up (whiten g))))
    by (by intros []).
  intros Hh Hh' E. rewrite !F in E. apply x64_add_up_inj in E; [|split; apply fmix_64_u64..].
  injection E as E1 E2. apply fmix_64_inj in E1, E2; [|apply u64_range..].
  assert (X : x64_add_up (whiten h) = x64_add_up (whiten h'))
    by (unfold whiten; cbn [x64_add_up]; congruence).
  destruct Hh, Hh'.
  apply x64_add_up_inj in X; [|split; apply (lxor_word 64); done || apply u64_range..].
  injection X as X1 X2. apply lxor_inj_r in X1, X2. destruct h, h'; cbn in *; congruence.
Qed.

Lemma x86_finalize_inj len h h' : x86_ok h -> x86_ok h' ->
  x86_finalize len h = x86_finalize len h' -> h = h'.
Proof.
  set (whiten := fun h => X86 (Z.lxor (x86_h1 h) (u32 len)) (Z.lxor (x86_h2 h) (u32 len))
    (Z.lxor (x86_h3 h) (u32 len)) (Z.lxor (x86_h4 h) (u32 len))).
  set (fmix := fun h => X86 (fmix_32 (x86_h1 h)) (fmix_32 (x86_h2 h)) (fmix_32 (x86_h3 h))
    (fmix_32 (x86_h4 h))).
  assert (F : forall g, x86_finalize len g = x86_add_up (fmix (x86_add_up (whiten g))))
    by (by intros []).
  intros Hh Hh' E. rewrite !F in E.
  assert (W : forall g, x86_ok (x86_add_up g)) by (intros []; repeat split; apply u32_range).
  apply x86_add_up_inj in E; [|split_and!; apply fmix_32_u32, W..].
  injection E as E1 E2 E3 E4. apply fmix_32_inj in E1, E2, E3, E4; [|apply u32_range..].
  assert (X : x86_add_up (whiten h) = x86_add_up (whiten h'))
    by (unfold whiten; cbn [x86_add_up]; congruence).
  destruct Hh as (? & ? & ? & ?), Hh' as (? & ? & ? & ?).
  apply x86_add_up_inj in X; [|split_and!; apply lxor_u32; done || apply u32_range..].
  injection X as X1 X2 X3 X4. apply lxor_inj_r in X1, X2, X3, X4.
  destruct h, h'; cbn in *; congruence.
Qed.

(** ** The hashes *)
Section Absorb.

Context {hash : Type} (ok : hash -> Prop) (absorb : hash -> bytes -> hash).
Context (absorb_ok : forall h b, ok (absorb h b)).
Context (absorb_inj : forall b b' h h', bytes_ok b -> bytes_ok b' -> length b = 16%nat ->
  length b' = 16%nat -> ok h -> ok h' -> absorb h b = absorb h' b' ->
  (h = h' -> b = b') /\ (b = b' -> h = h')).

Lemma absorb_all_ok l h : ok h -> ok (foldl absorb h l).
Proof using absorb_ok. revert h. induction l; intros; [done|]. apply IHl, absorb_ok. Qed.

Lemma chunks_blocks n l : bytes_ok l -> (16 * n <= length l)%nat ->
  Forall (fun b => bytes_ok b /\ length b = 16%nat) (chunks n l).
Proof using Type.
  revert l. induction n as [|n IH]; intros l Hl Hn; cbn [chunks]; constructor.
  - split; [by apply Forall_take|]. rewrite length_take. lia.
  - apply IH; [by apply Forall_drop|]. rewrite length_drop. lia.
Qed.

Lemma absorb_all_inj l h h' : Forall (fun b => bytes_ok b /\ length b = 16%nat) l ->
  ok h -> ok h' -> foldl absorb h l = foldl absorb h' l -> h = h'.
Proof using absorb_ok absorb_inj.
  intros Hl. revert h h'. induction Hl as [|b l [Hb Lb] Hl IH]; intros h h' Hh Hh' E; [done|].
  apply IH in E; [|apply absorb_ok..]. by apply absorb_inj in E; [apply E|..].
Qed.

(** Two keys that differ in one block leave different words behind the last block. *)
Lemma absorb_block_inj n a x x' b h : ok h -> bytes_ok a -> bytes_ok x -> bytes_ok x' ->
  bytes_ok b -> length a = (16 * n)%nat -> length x = 16%nat -> length x' = 16%nat ->
  let m := (n + (1 + length b / 16))%nat in
  foldl absorb h (chunks m (a ++ x ++ b)) = foldl absorb h (chunks m (a ++ x' ++ b)) -> x = x'.
Proof using absorb_ok absorb_inj.
  intros Hh Ha Hx Hx' Hb La Lx Lx' m E. subst m.
  rewrite !(chunks_app n), !(chunks_app 1), !foldl_app in E by lia.
  pose proof (Nat.div_mod_eq (length b) 16).
  apply absorb_all_inj in E; [|apply chunks_blocks; [done|lia]|by apply absorb_all_ok; try apply absorb_all_ok..].
  cbn [chunks foldl] in E. rewrite !take_ge in E by lia.
  apply absorb_inj in E; [|try done; by apply absorb_all_ok..]. by apply E.
Qed.

End Absorb.

Lemma x86_hash_eq key seed : let n := Z.to_nat (zlen key / 16) in
  MurmurHash3_x86_128 key seed =
    (h ← x86_tail_switch key (Z.of_nat (16 * n)) (Z.land (zlen key) 15)
           (foldl x86_absorb (X86 seed seed seed seed) (chunks n key));
     Ok (x86_finalize (zlen key) h)).
Proof.
  intros n. pose proof (key_split key) as (Hn & Hz & _). unfold MurmurHash3_x86_128.
  rewrite Hz. fold n. by rewrite (x86_body_eq key n 0).
Qed.

Lemma x64_hash_eq key seed : let n := Z.to_nat (zlen key / 16) in
  MurmurHash3_x64_128 key seed =
    (h ← x64_tail_switch key (Z.of_nat (16 * n)) (Z.land (zlen key) 15)
           (foldl x64_absorb (X64 seed seed) (chunks n key));
     Ok (x64_finalize (zlen key) h)).
Proof.
  intros n. pose proof (key_split key) as (Hn & Hz & _). unfold MurmurHash3_x64_128.
  rewrite Hz. fold n. by rewrite (x64_body_eq key n 0).
Qed.

(** For a key of any length both functions return: every load is inside the key, the block
    loops end, and the tail is what the blocks leave. *)
Theorem hash128_in_bounds (key : bytes) (seed : Z) :
  (exists h, MurmurHash3_x86_128 key seed = Ok h) /\ (exists h, MurmurHash3_x64_128 key seed = Ok h).
Proof.
  pose proof (key_split key) as (Hn & Hz & Ht). rewrite x86_hash_eq, x64_hash_eq. split.
  - edestruct x86_tail_total as [h ->]; [| |by eexists]; lia.
  - edestruct x64_tail_total as [h ->]; [| |by eexists]; lia.
Qed.

Lemma ld8_behind a x x' b o : length x = length x' -> zlen (a ++ x) <= o ->
  ld8 (a ++ x ++ b) o = ld8 (a ++ x' ++ b) o.
Proof.
  intros Hl Ho. unfold ld8, get_bytes.
  replace (in_range (a ++ x' ++ b) o 1) with (in_range (a ++ x ++ b) o 1)
    by (unfold in_range, zlen; by rewrite !length_app, Hl).
  rewrite !app_assoc, !(drop_app_ge _ _ (Z.to_nat o)); try (unfold zlen in *; rewrite length_app in *; lia).
  by rewrite !length_app, Hl.
Qed.

Lemma block_key_shape (a x b : bytes) n : length a = (16 * n)%nat -> length x = 16%nat ->
  Z.to_nat (zlen (a ++ x ++ b) / 16) = (n + (1 + length b / 16))%nat.
Proof.
  intros Ha Hx. unfold zlen. rewrite !length_app, Ha, Hx.
  pose proof (Nat.div_mod_eq (length b) 16). pose proof (Nat.mod_upper_bound (length b) 16).
  apply Nat2Z.inj. rewrite Z2Nat.id by zlia. zlia.
Qed.

Lemma x86_block_change n a x x' b seed :
  is_u32 seed -> bytes_ok a -> bytes_ok x -> bytes_ok x' -> bytes_ok b ->
  length a = (16 * n)%nat -> length x = 16%nat -> length x' = 16%nat ->
  MurmurHash3_x86_128 (a ++ x ++ b) seed = MurmurHash3_x86_128 (a ++ x' ++ b) seed -> x = x'.
Proof.
  intros Hs Ha Hx Hx' Hb La Lx Lx'. pose proof (key_split (a ++ x ++ b)) as (Hn & Hz & Ht).
  assert (Hl : zlen (a ++ x' ++ b) = zlen (a ++ x ++ b)) by (unfold zlen; rewrite !length_app; lia).
  rewrite !x86_hash_eq, Hl, (block_key_shape a x b n) in * by done. intros E.
  set (m := (n + (1 + length b / 16))%nat) in *.
  assert (Ht' : Z.of_nat (16 * m) + Z.land (zlen (a ++ x ++ b)) 15 = zlen (a ++ x ++ b)) by lia.
  assert (H0 : x86_ok (X86 seed seed seed seed)) by (unfold x86_ok, is_u32, is_u64 in *; cbn; lia).
  rewrite (x86_tail_ext (a ++ x' ++ b) (a ++ x ++ b)) in E.
  2: { intros o Ho. apply ld8_behind; [congruence|]. unfold zlen, m in *. rewrite length_app. lia. }
  pose proof (fun h => x86_tail_total _ _ _ h (Nat2Z.is_nonneg _) (Z.eq_le_incl _ _ Ht')) as T.
  edestruct T as [g Eg]. rewrite Eg in E. edestruct T as [g' Eg']. rewrite Eg' in E.
  injection E as E. pose proof (absorb_all_ok x86_ok x86_absorb (fun h b => x86_mix_ok _ _ _ _ h)) as Hok.
  apply x86_finalize_inj in E; [|eapply x86_tail_ok; [by apply Hok|done]..]. subst g'.
  apply (x86_tail_inj _ _ _ _ _ _ Eg) in Eg'.
  apply (absorb_block_inj x86_ok x86_absorb (fun h b => x86_mix_ok _ _ _ _ h)
    x86_absorb_inj n a x x' b (X86 seed seed seed seed)); done.
Qed.

Lemma x64_block_change n a x x' b seed :
  is_u32 seed -> bytes_ok a -> bytes_ok x -> bytes_ok x' -> bytes_ok b ->
  length a = (16 * n)%nat -> length x = 16%nat -> length x' = 16%nat ->
  MurmurHash3_x64_128 (a ++ x ++ b) seed = MurmurHash3_x64_128 (a ++ x' ++ b) seed -> x = x'.
Proof.
  intros Hs Ha Hx Hx' Hb La Lx Lx'. pose proof (key_split (a ++ x ++ b)) as (Hn & Hz & Ht).
  assert (Hl : zlen (a ++ x' ++ b) = zlen (a ++ x ++ b)) by (unfold zlen; rewrite !length_app; lia).
  rewrite !x64_hash_eq, Hl, (block_key_shape a x b n) in * by done. intros E.
  set (m := (n + (1 + length b / 16))%nat) in *.
  assert (Ht' : Z.of_nat (16 * m) + Z.land (zlen (a ++ x ++ b)) 15 = zlen (a ++ x ++ b)) by lia.
  assert (H0 : x64_ok (X64 seed seed)) by (unfold x64_ok, is_u32, is_u64 in *; cbn; lia).
  rewrite (x64_tail_ext (a ++ x' ++ b) (a ++ x ++ b)) in E.
  2: { intros o Ho. apply ld8_behind; [congruence|]. unfold zlen, m in *. rewrite length_app. lia. }
  pose proof (fun h => x64_tail_total _ _ _ h (Nat2Z.is_nonneg _) (Z.eq_le_incl _ _ Ht')) as T.
  edestruct T as [g Eg]. rewrite Eg in E. edestruct T as [g' Eg']. rewrite Eg' in E.
  injection E as E. pose proof (absorb_all_ok x64_ok x64_absorb (fun h b => x64_mix_ok _ _ h)) as Hok.
  apply x64_finalize_inj in E; [|eapply x64_tail_ok; [by apply Hok|done]..]. subst g'.
  apply (x64_tail_inj _ _ _ _ _ _ Eg) in Eg'.
  apply (absorb_block_inj x64_ok x64_absorb (fun h b => x64_mix_ok _ _ h)
    x64_absorb_inj n a x x' b (X64 seed seed)); done.
Qed.

(** Changing one aligned block of 16 bytes always changes the hash, for both functions: two
    keys of one length that agree outside that block and have the same hash are equal. *)
Theorem hash128_block_change (n : nat) (a x x' b : bytes) (seed : Z) :
  is_u32 seed -> bytes_ok a -> bytes_ok x -> bytes_ok x' -> bytes_ok b ->
  length a = (16 * n)%nat -> length x = 16%nat -> length x' = 16%nat -> x <> x' ->
  (MurmurHash3_x86_128 (a ++ x ++ b) seed <> MurmurHash3_x86_128 (a ++ x' ++ b) seed)
  /\ (MurmurHash3_x64_128 (a ++ x ++ b) seed <> MurmurHash3_x64_128 (a ++ x' ++ b) seed).
Proof.
  intros Hs Ha Hx Hx' Hb La Lx Lx' Hne.
  split; intros E; apply Hne; [by apply (x86_block_change n a x x' b seed)|by apply (x64_block_change n a x x' b seed)].
Qed.

(** The hash of a well-known sentence, as published with the functions. *)
Definition fox : bytes :=
  [84; 104; 101; 32; 113; 117; 105; 99; 107; 32; 98; 114; 111; 119; 110; 32; 102; 111; 120; 32;
   106; 117; 109; 112; 115; 32; 111; 118; 101; 114; 32; 116; 104; 101; 32; 108; 97; 122; 121; 32;
   100; 111; 103].

Example hash128_fox :
  MurmurHash3_x64_128 fox 0 = Ok (X64 0xe34bbc7bbc071b6c 0x7a433ca9c49a9347)
  /\ MurmurHash3_x86_128 fox 0 = Ok (X86 0x2f1583c3 0xecee2c67 0x5d7bf66c 0xe5e91d2c).
Proof. split; vm_compute; reflexivity. Qed.

Lemma hash128_block_change_witness :
  MurmurHash3_x64_128 (take 16 (drop 16 fox) ++ take 16 fox ++ drop 32 fox) 7
    <> MurmurHash3_x64_128 (take 16 (drop 16 fox) ++ take 16 (drop 16 fox) ++ drop 32 fox) 7.
Proof.
  apply (hash128_block_change 1); try (repeat constructor; unfold is_byte, is_u32; lia);
    unfold is_u32; try lia; vm_compute; congruence || (repeat constructor; discriminate).
Defined.
