(* ===== verification/HashMap.v ===== *)
(** * HashMap: the u32 to u32 chained hash map of src/hash_map.c

    [run_packet.c] keeps in it, per socket, the mapping from scripted to live
    TCP timestamp values.  The implementation (an array of chains that doubles
    when full) is proved to refine a finite map [gmap Z Z]. *)

From S2P Require Import Prelude Hash.

(** [hash_map.h:32-36] struct hash_node; the [next] links are the list structure *)
Record hash_node := mk_node { node_key : Z; node_value : Z }.

(** [hash_map.h:39-44] struct hash_map *)
Record hash_map := mk_map {
  num_keys : Z;
  num_buckets : Z;
  bucket_mask : Z;
  buckets : list (list hash_node)
}.

(** [hash_map.c:31-31] MAX_BUCKETS *)
Definition MAX_BUCKETS : Z := 2 ^ 30.

(** [hash_map.c:34-39] hash_key *)
Definition hash_key (key : Z) : Z := MurmurHash3_x86_32 (le_split 4 key) 0.

(** [hash_map.c:42-46] hash_bucket_num *)
Definition hash_bucket_num (map : hash_map) (key : Z) : Z :=
  Z.land (hash_key key) (bucket_mask map).

(** [hash_map.c:53-56] the loop of hash_map_pick_bucket_count *)
Fixpoint pick_loop (fuel : nat) (buckets num_keys : Z) : exec Z :=
  if (buckets <? num_keys) && (buckets <? MAX_BUCKETS) then
    match fuel with
    | O => Fault OutOfFuel
    | S n => pick_loop n (u64 (Z.shiftl buckets 1)) num_keys
    end
  else Ok buckets.

(** [hash_map.c:51-57] hash_map_pick_bucket_count: MAX_BUCKETS is reached after
    30 doublings *)
Definition hash_map_pick_bucket_count (num_keys : Z) : exec Z :=
  pick_loop 30 1 num_keys.

(** [hash_map.c:59-66] hash_map_new *)
Definition hash_map_new (keys : Z) : exec hash_map :=
  n ← hash_map_pick_bucket_count keys;
  Ok (mk_map 0 n (u64 (n - 1)) (replicate (Z.to_nat n) [])).

(** [hash_map.c:68-85] hash_map_free: the nodes it frees, in order *)
Definition hash_map_free (map : hash_map) : list hash_node :=
  mjoin (take (Z.to_nat (num_buckets map)) (buckets map)).

(** Reading a slot of the bucket array. *)
Definition bucket_at (bs : list (list hash_node)) (i : Z) : exec (list hash_node) :=
  match (if 0 <=? i then bs !! Z.to_nat i else None) with
  | Some b => Ok b
  | None => Fault OutOfBounds
  end.

(** [hash_map.c:88-94] hash_map_link *)
Definition hash_map_link (map : hash_map) (node : hash_node) : exec hash_map :=
  let bucket_num := hash_bucket_num map (node_key node) in
  b ← bucket_at (buckets map) bucket_num;
  Ok (mk_map (num_keys map) (num_buckets map) (bucket_mask map)
             (<[Z.to_nat bucket_num := node :: b]> (buckets map))).

(** [hash_map.c:111-117] relinking the nodes of one old chain *)
Fixpoint hash_map_link_all (map : hash_map) (nodes : list hash_node) : exec hash_map :=
  match nodes with
  | [] => Ok map
  | node :: next => map ← hash_map_link map node; hash_map_link_all map next
  end.

(** [hash_map.c:108-118] the loop over the old buckets *)
Fixpoint hash_map_relink (map : hash_map) (old_buckets : list (list hash_node))
    : exec hash_map :=
  match old_buckets with
  | [] => Ok map
  | b :: rest => map ← hash_map_link_all map b; hash_map_relink map rest
  end.

(** [hash_map.c:100-121] hash_map_grow *)
Definition hash_map_grow (map : hash_map) : exec hash_map :=
  let old_num_buckets := num_buckets map in
  let n := u64 (num_buckets map * 2) in
  let old_buckets := buckets map in
  let map := mk_map (num_keys map) n (u64 (n - 1)) (replicate (Z.to_nat n) []) in
  hash_map_relink map (take (Z.to_nat old_num_buckets) old_buckets).

(** [hash_map.c:124-136] hash_map_insert *)
Definition hash_map_insert (map : hash_map) (key value : Z) : exec hash_map :=
  map ← (if (num_buckets map <=? num_keys map) && (num_buckets map <? MAX_BUCKETS)
         then hash_map_grow map else Ok map);
  hash_map_link
    (mk_map (u64 (num_keys map + 1)) (num_buckets map) (bucket_mask map) (buckets map))
    (mk_node key value).

(** [hash_map.c:142-147] the chain walk of hash_map_set: the chain with the
    first node of that key updated, or nothing if there is no such node *)
Fixpoint chain_set (b : list hash_node) (key value : Z) : option (list hash_node) :=
  match b with
  | [] => None
  | node :: next =>
      if node_key node =? key then Some (mk_node (node_key node) value :: next)
      else match chain_set next key value with
           | Some next' => Some (node :: next')
           | None => None
           end
  end.

(** [hash_map.c:138-149] hash_map_set *)
Definition hash_map_set (map : hash_map) (key value : Z) : exec hash_map :=
  let bucket_num := hash_bucket_num map key in
  b ← bucket_at (buckets map) bucket_num;
  match chain_set b key value with
  | Some b' => Ok (mk_map (num_keys map) (num_buckets map) (bucket_mask map)
                          (<[Z.to_nat bucket_num := b']> (buckets map)))
  | None => hash_map_insert map key value
  end.

(** [hash_map.c:155-160] the chain walk of hash_map_get *)
Fixpoint chain_get (b : list hash_node) (key : Z) : option Z :=
  match b with
  | [] => None
  | node :: next =>
      if node_key node =? key then Some (node_value node) else chain_get next key
  end.

(** [hash_map.c:151-162] hash_map_get: [None] is the return value [false] *)
Definition hash_map_get (map : hash_map) (key : Z) : exec (option Z) :=
  b ← bucket_at (buckets map) (hash_bucket_num map key);
  Ok (chain_get b key).

(** ** The invariant and the abstraction *)

Definition node_pair (n : hash_node) : Z * Z := (node_key n, node_value n).
Definition nodes (m : hash_map) : list hash_node := mjoin (buckets m).
Definition pairs (m : hash_map) : list (Z * Z) := node_pair <$> nodes m.

(** The bucket array has a power-of-two length and the mask that goes with it. *)
Definition shape (m : hash_map) : Prop :=
  exists k, 0 <= k <= 30 /\ num_buckets m = 2 ^ k /\
    bucket_mask m = num_buckets m - 1 /\ zlen (buckets m) = num_buckets m.

(** Every node is a u32 key in the bucket its hash selects. *)
Definition placed (m : hash_map) : Prop :=
  forall i b n, buckets m !! i = Some b -> n ∈ b ->
    is_u32 (node_key n) /\ Z.to_nat (hash_bucket_num m (node_key n)) = i.

Definition hash_map_wf (m : hash_map) : Prop :=
  shape m /\ placed m /\ NoDup (pairs m).*1 /\ num_keys m = zlen (nodes m).

(** The map stands for the finite map of its key-value pairs. *)
Definition represents (m : hash_map) (M : gmap Z Z) : Prop :=
  hash_map_wf m /\ M = list_to_map (pairs m).

(** ** Structural lemmas *)

#[local] Opaque hash_key.

Lemma hash_bucket_num_range m key :
  shape m -> 0 <= hash_bucket_num m key < num_buckets m.
Proof.
  intros (k&Hk&Hn&Hm&_). unfold hash_bucket_num. rewrite Hm, Hn.
  replace (2 ^ k - 1) with (Z.ones k) by (rewrite Z.ones_equiv; lia).
  rewrite land_low_mask by lia.
  apply Z.mod_pos_bound, Z.pow_pos_nonneg; lia.
Qed.

Lemma bucket_at_total m key : shape m ->
  exists b, bucket_at (buckets m) (hash_bucket_num m key) = Ok b /\
    buckets m !! Z.to_nat (hash_bucket_num m key) = Some b.
Proof.
  intros Hs. pose proof (hash_bucket_num_range m key Hs) as Hr.
  destruct Hs as (k&_&_&_&Hl). unfold bucket_at.
  destruct (Z.leb_spec 0 (hash_bucket_num m key)); [|lia].
  destruct (lookup_lt_is_Some_2 (buckets m) (Z.to_nat (hash_bucket_num m key))) as [b Hb].
  { unfold zlen in Hl. lia. }
  rewrite Hb. eauto.
Qed.

Lemma mjoin_split {A} (ls : list (list A)) i b b' : ls !! i = Some b ->
  mjoin ls = mjoin (take i ls) ++ b ++ mjoin (drop (S i) ls) /\
  mjoin (<[i := b']> ls) = mjoin (take i ls) ++ b' ++ mjoin (drop (S i) ls).
Proof.
  intros H. split.
  - rewrite <-(take_drop_middle ls i b H) at 1. by rewrite join_app.
  - rewrite insert_take_drop by (by eapply lookup_lt_Some). by rewrite join_app.
Qed.

Lemma shape_insert m i b :
  shape m -> shape (mk_map (num_keys m) (num_buckets m) (bucket_mask m) (<[i:=b]> (buckets m))).
Proof.
  intros (k&?&?&?&?). exists k. simpl. unfold zlen in *. by rewrite length_insert.
Qed.

Lemma link_spec m n :
  shape m -> placed m -> is_u32 (node_key n) ->
  exists m', hash_map_link m n = Ok m' /\ shape m' /\ placed m' /\
    nodes m' ≡ₚ n :: nodes m /\ num_keys m' = num_keys m /\ num_buckets m' = num_buckets m.
Proof.
  intros Hs Hp Hn. destruct (bucket_at_total m (node_key n) Hs) as (b&Hb&Hl).
  unfold hash_map_link. rewrite Hb, bind_Ok_eq. eexists. split; [done|].
  split; [by apply shape_insert|]. split; [|split; [|done]].
  - intros i b0 n0. simpl. change (hash_bucket_num _ (node_key n0))
      with (hash_bucket_num m (node_key n0)). intros Hi Hin.
    destruct (decide (i = Z.to_nat (hash_bucket_num m (node_key n)))) as [->|Hne].
    + rewrite list_lookup_insert_eq in Hi by (by eapply lookup_lt_Some).
      injection Hi as <-. apply elem_of_cons in Hin as [->|Hin]; [by split|].
      by eapply Hp.
    + rewrite list_lookup_insert_ne in Hi by done. by eapply Hp.
  - unfold nodes. simpl. destruct (mjoin_split _ _ _ (n :: b) Hl) as [-> ->].
    symmetry. apply Permutation_middle.
Qed.

Lemma link_all_spec ns m :
  shape m -> placed m -> Forall (fun n => is_u32 (node_key n)) ns ->
  exists m', hash_map_link_all m ns = Ok m' /\ shape m' /\ placed m' /\
    nodes m' ≡ₚ ns ++ nodes m /\ num_keys m' = num_keys m /\ num_buckets m' = num_buckets m.
Proof.
  revert m. induction ns as [|n ns IH]; intros m Hs Hp Hn; [by exists m|].
  apply Forall_cons in Hn as [Hn Hns].
  destruct (link_spec m n Hs Hp Hn) as (m1&E1&Hs1&Hp1&P1&K1&B1).
  destruct (IH m1 Hs1 Hp1 Hns) as (m2&E2&Hs2&Hp2&P2&K2&B2).
  exists m2. simpl. rewrite E1, bind_Ok_eq.
  do 3 (split; [done|]). split; [|split; congruence].
  rewrite P2, P1. by rewrite Permutation_middle.
Qed.

Lemma relink_spec old m :
  shape m -> placed m -> Forall (fun n => is_u32 (node_key n)) (mjoin old) ->
  exists m', hash_map_relink m old = Ok m' /\ shape m' /\ placed m' /\
    nodes m' ≡ₚ mjoin old ++ nodes m /\ num_keys m' = num_keys m /\
    num_buckets m' = num_buckets m.
Proof.
  revert m. induction old as [|b old IH]; intros m Hs Hp Hn; [by exists m|].
  simpl in Hn. apply Forall_app in Hn as [Hb Hold].
  destruct (link_all_spec b m Hs Hp Hb) as (m1&E1&Hs1&Hp1&P1&K1&B1).
  destruct (IH m1 Hs1 Hp1 Hold) as (m2&E2&Hs2&Hp2&P2&K2&B2).
  exists m2. simpl. rewrite E1, bind_Ok_eq.
  do 3 (split; [done|]). split; [|split; congruence].
  rewrite P2, P1. rewrite !app_assoc. f_equiv. apply Permutation_app_comm.
Qed.

Lemma placed_u32 m : placed m -> Forall (fun n => is_u32 (node_key n)) (nodes m).
Proof.
  intros Hp. apply Forall_forall. intros n Hn. unfold nodes in Hn.
  apply list_elem_of_join in Hn as (b&Hnb&Hb). apply list_elem_of_lookup in Hb as [i Hi].
  by eapply Hp.
Qed.

Lemma mjoin_replicate_nil {A} n : mjoin (replicate n ([] : list A)) = [].
Proof. induction n; [done|]. simpl. done. Qed.

Lemma empty_shape nk k : 0 <= k <= 30 ->
  let m := mk_map nk (2 ^ k) (u64 (2 ^ k - 1)) (replicate (Z.to_nat (2 ^ k)) []) in
  shape m /\ placed m /\ nodes m = [].
Proof.
  intros Hk m. assert (0 < 2 ^ k) by (apply Z.pow_pos_nonneg; lia).
  assert (2 ^ k <= 2 ^ 30) by (apply Z.pow_le_mono_r; lia).
  split; [|split].
  - exists k. simpl. rewrite u64_small by lia. unfold zlen. rewrite length_replicate. lia.
  - intros i b n Hi Hn. simpl in Hi. apply lookup_replicate in Hi as [-> _].
    by apply not_elem_of_nil in Hn.
  - apply mjoin_replicate_nil.
Qed.

Lemma grow_spec m :
  shape m -> placed m -> num_buckets m < MAX_BUCKETS ->
  exists m', hash_map_grow m = Ok m' /\ shape m' /\ placed m' /\
    nodes m' ≡ₚ nodes m /\ num_keys m' = num_keys m /\
    num_buckets m' = 2 * num_buckets m.
Proof.
  intros Hs Hp Hlt. pose proof Hs as (k&Hk&Hn&Hm&Hl). unfold MAX_BUCKETS in Hlt.
  assert (k < 30). { rewrite Hn in Hlt. apply Z.pow_lt_mono_r_iff in Hlt; lia. }
  unfold hash_map_grow.
  assert (Hu : u64 (num_buckets m * 2) = 2 ^ (k + 1)).
  { rewrite Hn, Z.pow_add_r by lia. apply u64_small. lia. }
  rewrite Hu. destruct (empty_shape (num_keys m) (k + 1)) as (Hs0&Hp0&Hn0); [lia|].
  rewrite firstn_all2 by (unfold zlen in Hl; lia).
  destruct (relink_spec (buckets m) _ Hs0 Hp0 (placed_u32 m Hp)) as (m'&E&?&?&P&K&B).
  exists m'. split; [done|]. rewrite Hn0, app_nil_r in P.
  rewrite K, B. simpl. rewrite Hn, Z.pow_add_r by lia. do 4 (split; [done|]). lia.
Qed.

(** ** Chains *)

Lemma chain_set_Some b k v b' : chain_set b k v = Some b' ->
  exists p n q, b = p ++ n :: q /\ node_key n = k /\ b' = p ++ mk_node k v :: q.
Proof.
  revert b'. induction b as [|n b IH]; intros b' H; [done|]. simpl in H.
  destruct (Z.eqb_spec (node_key n) k) as [Hk|].
  - injection H as <-. exists [], n, b. by rewrite Hk.
  - destruct (chain_set b k v) as [c|]; [|done]. injection H as <-.
    destruct (IH c eq_refl) as (p&n1&q&->&?&->). by exists (n :: p), n1, q.
Qed.

Lemma chain_set_None b k v : chain_set b k v = None -> forall n, n ∈ b -> node_key n <> k.
Proof.
  induction b as [|n b IH]; intros H n0 Hn; [by apply not_elem_of_nil in Hn|].
  simpl in H. destruct (Z.eqb_spec (node_key n) k); [done|].
  destruct (chain_set b k v); [done|].
  apply elem_of_cons in Hn as [->|Hn]; [done|]. by apply IH.
Qed.

Lemma chain_get_Some b k v : chain_get b k = Some v -> mk_node k v ∈ b.
Proof.
  induction b as [|n b IH]; simpl; [done|]. destruct (Z.eqb_spec (node_key n) k).
  - intros [= <-]. destruct n; simpl in *; subst. apply list_elem_of_here.
  - intros H. apply list_elem_of_further. auto.
Qed.

Lemma chain_get_None b k : chain_get b k = None -> forall n, n ∈ b -> node_key n <> k.
Proof.
  induction b as [|n b IH]; intros H n0 Hn; [by apply not_elem_of_nil in Hn|].
  simpl in H. destruct (Z.eqb_spec (node_key n) k); [done|].
  apply elem_of_cons in Hn as [->|Hn]; [done|]. by apply IH.
Qed.

(** A key held by no node of its bucket is held by no node at all. *)
Lemma absent_key m k b :
  placed m -> buckets m !! Z.to_nat (hash_bucket_num m k) = Some b ->
  (forall n, n ∈ b -> node_key n <> k) -> k ∉ (pairs m).*1.
Proof.
  intros Hp Hb Hn Hk. unfold pairs in Hk. rewrite <-list_fmap_compose in Hk.
  apply list_elem_of_fmap in Hk as (n&->&Hin). unfold nodes in Hin.
  apply list_elem_of_join in Hin as (b0&Hnb&Hb0). apply list_elem_of_lookup in Hb0 as [i Hi].
  destruct (Hp i b0 n Hi Hnb) as [_ <-]. simpl in Hb. rewrite Hb in Hi. injection Hi as <-.
  by apply (Hn n).
Qed.

Lemma pairs_perm (m' : hash_map) l : nodes m' ≡ₚ l -> pairs m' ≡ₚ node_pair <$> l.
Proof. intros H. unfold pairs. by rewrite H. Qed.

(** At most 2^32 distinct u32 keys exist, so the key count never wraps. *)
Lemma u32_keys_bound (l : list Z) :
  NoDup l -> Forall is_u32 l -> zlen l <= 4294967296.
Proof.
  intros Hn Hl. assert (l ⊆+ seqZ 0 4294967296) as Hs.
  { apply NoDup_submseteq; [done|]. intros x Hx. apply elem_of_seqZ.
    rewrite Forall_forall in Hl. specialize (Hl x Hx). unfold is_u32 in Hl. lia. }
  apply submseteq_length in Hs. rewrite length_seqZ in Hs. unfold zlen. lia.
Qed.

Lemma wf_num_keys m : hash_map_wf m -> 0 <= num_keys m <= 4294967296.
Proof.
  intros (Hs&Hp&Hn&Hk). rewrite Hk. split; [apply zlen_nonneg|].
  assert (zlen (nodes m) = zlen (pairs m).*1) as ->.
  { unfold zlen, pairs. by rewrite !length_fmap. }
  apply u32_keys_bound; [done|]. unfold pairs. rewrite <-list_fmap_compose.
  apply Forall_fmap. apply (Forall_impl _ _ _ (placed_u32 m Hp)). done.
Qed.

Lemma insert_spec m k v M :
  represents m M -> is_u32 k -> k ∉ (pairs m).*1 ->
  exists m', hash_map_insert m k v = Ok m' /\ represents m' (<[k:=v]> M).
Proof.
  intros [Hwf ->] Hu Hk. pose proof (wf_num_keys m Hwf) as Hb.
  destruct Hwf as (Hs&Hp&Hn&Hc). unfold hash_map_insert.
  assert (exists m1, (if (num_buckets m <=? num_keys m) && (num_buckets m <? MAX_BUCKETS)
    then hash_map_grow m else Ok m) = Ok m1 /\ shape m1 /\ placed m1 /\
    nodes m1 ≡ₚ nodes m /\ num_keys m1 = num_keys m) as (m1&->&Hs1&Hp1&P1&K1).
  { destruct ((num_buckets m <=? num_keys m) && (num_buckets m <? MAX_BUCKETS)) eqn:E.
    - breflect. destruct (grow_spec m Hs Hp) as (m'&?&?&?&?&?&?); [lia|]. by exists m'.
    - by exists m. }
  rewrite bind_Ok_eq. set (m1' := mk_map (u64 (num_keys m1 + 1)) _ _ _).
  destruct (link_spec m1' (mk_node k v)) as (m2&E2&Hs2&Hp2&P2&K2&B2); [done..|].
  change (nodes m1') with (nodes m1) in P2. rewrite P1 in P2.
  pose proof (pairs_perm m2 _ P2) as Q. rewrite fmap_cons in Q. fold (pairs m) in Q.
  exists m2. split; [done|]. assert (Hn2 : NoDup (pairs m2).*1).
  { rewrite Q. simpl. by constructor. }
  split; [split; [done|split; [done|split; [done|]]]|].
  - rewrite K2. simpl. rewrite u64_small by lia. rewrite K1, Hc.
    unfold zlen. rewrite P2. simpl. lia.
  - rewrite (list_to_map_proper (pairs m2) ((k, v) :: pairs m)) by done. done.
Qed.

(** Overwriting the value of a node keeps every node in its place. *)
Lemma placed_update m k v p n q :
  placed m -> is_u32 k ->
  buckets m !! Z.to_nat (hash_bucket_num m k) = Some (p ++ n :: q) ->
  placed (mk_map (num_keys m) (num_buckets m) (bucket_mask m)
    (<[Z.to_nat (hash_bucket_num m k) := p ++ mk_node k v :: q]> (buckets m))).
Proof.
  intros Hp Hu Hl i b0 n0. simpl. change (hash_bucket_num _ (node_key n0))
    with (hash_bucket_num m (node_key n0)). intros Hi Hin.
  destruct (decide (i = Z.to_nat (hash_bucket_num m k))) as [->|Hne].
  - rewrite list_lookup_insert_eq in Hi by (by eapply lookup_lt_Some).
    injection Hi as <-. apply elem_of_app in Hin as [Hin|Hin].
    + eapply Hp; [done|]. by apply elem_of_app; left.
    + apply elem_of_cons in Hin as [->|Hin]; [by split|].
      eapply Hp; [done|]. apply elem_of_app; right. by apply elem_of_cons; right.
  - rewrite list_lookup_insert_ne in Hi by done. by eapply Hp.
Qed.

Lemma list_to_map_middle (P Q : list (Z * Z)) k x :
  NoDup (P ++ (k, x) :: Q).*1 ->
  (list_to_map (P ++ (k, x) :: Q) : gmap Z Z) = <[k:=x]> (list_to_map (P ++ Q)).
Proof.
  intros Hx. rewrite (list_to_map_proper _ ((k, x) :: P ++ Q)); [done|done|].
  by rewrite Permutation_middle.
Qed.

(** The pairs of a map before and after a node of one chain is overwritten. *)
Lemma pairs_update m i p n q v :
  buckets m !! i = Some (p ++ n :: q) ->
  let m' := mk_map (num_keys m) (num_buckets m) (bucket_mask m)
    (<[i := p ++ mk_node (node_key n) v :: q]> (buckets m)) in
  exists P Q, pairs m = P ++ (node_key n, node_value n) :: Q /\
    pairs m' = P ++ (node_key n, v) :: Q.
Proof.
  intros Hl m'. destruct (mjoin_split _ _ _ (p ++ mk_node (node_key n) v :: q) Hl) as [J J'].
  exists (node_pair <$> (mjoin (take i (buckets m)) ++ p)),
    (node_pair <$> (q ++ mjoin (drop (S i) (buckets m)))).
  unfold pairs, nodes, m'. simpl buckets. rewrite J, J'.
  split; rewrite ?fmap_app, ?fmap_cons, <-?app_assoc; done.
Qed.

Lemma set_spec m k v M :
  represents m M -> is_u32 k ->
  exists m', hash_map_set m k v = Ok m' /\ represents m' (<[k:=v]> M).
Proof.
  intros HR Hu. pose proof HR as [(Hs&Hp&Hn&Hc) ->].
  destruct (bucket_at_total m k Hs) as (b&Hb&Hl). unfold hash_map_set.
  rewrite Hb, bind_Ok_eq. destruct (chain_set b k v) as [b'|] eqn:E.
  2:{ apply insert_spec; [done|done|]. eapply absent_key; [done|done|].
      by eapply chain_set_None. }
  apply chain_set_Some in E as (p&n&q&->&<-&->). eexists. split; [done|].
  destruct (pairs_update m _ p n q v Hl) as (P&Q&Hold&Hnew). set (m' := mk_map _ _ _ _) in *.
  assert (Hn' : NoDup (pairs m').*1).
  { rewrite Hnew. rewrite Hold in Hn. by rewrite !fmap_app, !fmap_cons in *. }
  split; [split; [|split; [|split; [done|]]]|].
  - by apply shape_insert.
  - by eapply placed_update.
  - simpl. rewrite Hc. unfold zlen. f_equal.
    rewrite <-(length_fmap node_pair (nodes m)), <-(length_fmap node_pair (nodes m')).
    fold (pairs m) (pairs m'). rewrite Hold, Hnew, !length_app. done.
  - rewrite Hnew, Hold, !list_to_map_middle by (rewrite <-?Hnew, <-?Hold; done).
    by rewrite insert_insert_eq.
Qed.

Lemma get_spec m k M :
  represents m M -> hash_map_get m k = Ok (M !! k).
Proof.
  intros [(Hs&Hp&Hn&Hc) ->]. destruct (bucket_at_total m k Hs) as (b&Hb&Hl).
  unfold hash_map_get. rewrite Hb, bind_Ok_eq. f_equal. symmetry.
  destruct (chain_get b k) as [v|] eqn:E.
  - apply chain_get_Some in E. apply elem_of_list_to_map_1; [done|].
    unfold pairs. apply list_elem_of_fmap. exists (mk_node k v). split; [done|].
    unfold nodes. apply list_elem_of_join. exists b. split; [done|].
    apply list_elem_of_lookup. eauto.
  - apply not_elem_of_list_to_map_1. eapply absent_key; [done|done|].
    by eapply chain_get_None.
Qed.

(** ** Choosing the size of a new map *)

Lemma pick_loop_spec n k keys :
  0 <= k -> k + Z.of_nat n = 30 -> (k = 0 \/ 2 ^ (k - 1) < keys) ->
  exists j, k <= j <= 30 /\ pick_loop n (2 ^ k) keys = Ok (2 ^ j) /\
    (keys <= 2 ^ j \/ j = 30) /\ (j = 0 \/ 2 ^ (j - 1) < keys).
Proof.
  revert k. induction n as [|n IH]; intros k Hk Hn Hm; simpl pick_loop;
    destruct (Z.ltb_spec (2 ^ k) keys), (Z.ltb_spec (2 ^ k) MAX_BUCKETS);
    simpl andb; cbv iota; try (exists k; split; [lia|split; [done|]];
      split; [|done]; (left; lia) || (right; unfold MAX_BUCKETS in *;
        destruct (decide (k < 30)) as [Hl|]; [|lia];
        pose proof (Z.pow_lt_mono_r 2 k 30); lia)).
  - replace k with 30 in * by lia. unfold MAX_BUCKETS in *. lia.
  - unfold MAX_BUCKETS in *.
    assert (u64 (Z.shiftl (2 ^ k) 1) = 2 ^ (k + 1)) as ->.
    { rewrite Z.shiftl_mul_pow2, Z.pow_add_r by lia. apply u64_small. lia. }
    destruct (IH (k + 1)) as (j&?&?&?&?); [lia..| |].
    + right. by replace (k + 1 - 1) with k by lia.
    + exists j. split; [lia|done].
Qed.

Lemma pick_bucket_count_spec keys :
  exists j, 0 <= j <= 30 /\ hash_map_pick_bucket_count keys = Ok (2 ^ j) /\
    (keys <= 2 ^ j \/ j = 30) /\ (j = 0 \/ 2 ^ (j - 1) < keys).
Proof. apply (pick_loop_spec 30 0); lia. Qed.

Lemma new_spec keys : exists m, hash_map_new keys = Ok m /\ represents m ∅.
Proof.
  unfold hash_map_new. destruct (pick_bucket_count_spec keys) as (j&Hj&->&_).
  rewrite bind_Ok_eq. eexists. split; [done|].
  destruct (empty_shape 0 j Hj) as (Hs&Hp&Hn).
  split; [split; [done|split; [done|]]|].
  - unfold pairs. rewrite Hn. split; [constructor|done].
  - unfold pairs. by rewrite Hn.
Qed.

Lemma free_spec m M : represents m M ->
  hash_map_free m = nodes m /\ num_keys m = Z.of_nat (size M).
Proof.
  intros [(Hs&Hp&Hn&Hc) ->]. destruct Hs as (k&_&_&_&Hl). split.
  - unfold hash_map_free. rewrite firstn_all2; [done|]. unfold zlen in Hl. lia.
  - rewrite Hc. unfold zlen. f_equal. rewrite <-size_dom, dom_list_to_map_L.
    rewrite size_list_to_set by done. unfold pairs. by rewrite !length_fmap.
Qed.

(** A client's history: the assignments it makes, in order. *)
Fixpoint hash_map_set_all (map : hash_map) (kvs : list (Z * Z)) : exec hash_map :=
  match kvs with
  | [] => Ok map
  | (k, v) :: rest => map ← hash_map_set map k v; hash_map_set_all map rest
  end.

(** What those assignments mean for a finite map: the last one of a key wins. *)
Definition assign_all (M : gmap Z Z) (kvs : list (Z * Z)) : gmap Z Z :=
  foldl (fun M kv => <[kv.1 := kv.2]> M) M kvs.

Lemma set_all_spec kvs m M :
  represents m M -> Forall is_u32 kvs.*1 ->
  exists m', hash_map_set_all m kvs = Ok m' /\ represents m' (assign_all M kvs).
Proof.
  revert m M. induction kvs as [|[k v] kvs IH]; intros m M HR Hk; [by exists m|].
  apply Forall_cons in Hk as [Hk Hks].
  destruct (set_spec m k v M HR Hk) as (m1&E1&R1). simpl. rewrite E1, bind_Ok_eq.
  by apply IH.
Qed.

(** ** Properties *)

(** C26. The hash map refines a finite map.  Whatever initial size is asked
    for and whatever u32 keys a client assigns in whatever order (so through
    every growth of the bucket array), creating the map and every assignment
    return; afterwards a lookup of any key gives exactly the value last
    assigned to it (or reports the key absent), the key count is the number of
    distinct keys, and freeing the map frees that many nodes, one per key. *)
Theorem hash_map_refines_finite_map (keys : Z) (kvs : list (Z * Z)) :
  Forall is_u32 kvs.*1 ->
  exists m0 m, hash_map_new keys = Ok m0 /\ hash_map_set_all m0 kvs = Ok m /\
    (forall k, hash_map_get m k = Ok (assign_all ∅ kvs !! k)) /\
    num_keys m = Z.of_nat (size (assign_all ∅ kvs)) /\
    node_pair <$> hash_map_free m ≡ₚ map_to_list (assign_all ∅ kvs).
Proof.
  intros Hk. destruct (new_spec keys) as (m0&E0&R0).
  destruct (set_all_spec kvs m0 ∅ R0 Hk) as (m&E&R).
  exists m0, m. split; [done|]. split; [done|].
  split; [intros k; by apply get_spec|].
  destruct (free_spec m _ R) as [-> ->]. split; [done|].
  destruct R as [(_&_&Hn&_) ->]. symmetry. by apply map_to_list_to_map.
Qed.

Lemma hash_map_refines_finite_map_witness :
  exists m0 m, hash_map_new 2 = Ok m0 /\
    hash_map_set_all m0 [(7, 1); (8, 2); (7, 3); (9, 4)] = Ok m /\
    hash_map_get m 7 = Ok (Some 3) /\ num_keys m = 3.
Proof.
  destruct (hash_map_refines_finite_map 2 [(7, 1); (8, 2); (7, 3); (9, 4)])
    as (m0&m&E0&E&G&K&_).
  - cbn. repeat (apply Forall_cons_2; [unfold is_u32; lia|]). apply Forall_nil_2.
  - exists m0, m. split; [exact E0|]. split; [exact E|].
    split; [rewrite G; reflexivity|]. rewrite K. reflexivity.
Defined.

#[local] Transparent hash_key.

Lemma hash_key_eq k : is_u32 k ->
  hash_key k = fmix_32 (Z.lxor (u32 (rotl32 (murmur_k1 k) 13 * 5 + 0xe6546b64)) 4).
Proof.
  intros Hk. unfold hash_key, MurmurHash3_x86_32. rewrite zlen_le_split.
  cbn [le_split murmur_body]. change [k mod 256; _; _; _] with (le_split 4 k).
  rewrite le_combine_split, Z.mod_small by exact Hk. reflexivity.
Qed.

(** The hash of a u32 key is injective: two distinct keys never have the
    same 32-bit hash, so keys only ever share a bucket because of the mask. *)
Theorem hash_key_injective (k k' : Z) :
  is_u32 k -> is_u32 k' -> hash_key k = hash_key k' -> k = k'.
Proof.
  intros Hk Hk'. rewrite !hash_key_eq by done. intros E.
  apply fmix_32_inj in E; [|apply lxor_u32; [apply u32_range|unfold is_u32; lia]..].
  apply lxor_inj_r in E. apply murmur_k1_inj; [done..|].
  apply (rotl32_inj _ _ 13); [lia|apply murmur_k1_u32..|].
  apply (mul_inj 5 0xcccccccd); [reflexivity|apply rotl32_u32; [lia|apply murmur_k1_u32]..|].
  unfold u32 in *. clear -E. set (a := rotl32 _ _ * 5) in *. set (b := rotl32 (murmur_k1 k') _ * 5) in *.
  zlia.
Qed.

Lemma hash_key_injective_witness :
  hash_key 7 = hash_key 7 /\ (hash_key 7 = hash_key 7 -> 7 = 7).
Proof.
  split; [reflexivity|]. apply (hash_key_injective 7 7); unfold is_u32; lia.
Defined.
