(* ===== verification/MemStream.v ===== *)
(** * MemStream: streams over memory, src/open_memstream.c and src/fmemopen.c

    The replacements of [open_memstream] and [fmemopen] for systems whose C
    library has none.  The stdio stream above them ([funopen], [fropen]) hands
    over the bytes printed in pieces and asks for bytes in pieces; every
    theorem is for all ways of cutting.  [realloc] is an argument of each
    operation: it may fail at any call.  The stream's buffer is a refinement of
    the sequence of bytes written, and reading it back gives that sequence. *)

From S2P Require Import Prelude.

(** ** open_memstream *)

(** [open_memstream.c:38-44] struct mem_stream.  [buf] and [sizeloc] are what the
    pointers of the struct point to, the variables of the caller. *)
Record mem_stream := {
  ms_buf : option bytes;
  ms_sizeloc : Z;
  ms_buf_size : Z;
  ms_offset : Z
}.

(** [open_memstream.c:46-46] INITIAL_BUF_SIZE *)
Definition INITIAL_BUF_SIZE : Z := 1024.

(** The C library's [realloc]: the old block, if any, and a size. *)
Definition reallocator := option bytes -> Z -> option bytes.

(** [open_memstream.c:52-78] mem_stream_grow *)
Definition mem_stream_grow (realloc : reallocator) (stream : mem_stream) (write_bytes : Z)
  : Z * mem_stream :=
  let needed_bytes := u64 (ms_offset stream + write_bytes + 1) in
  if needed_bytes <=? ms_buf_size stream then (0, stream) else
  let new_size :=
    if ms_buf_size stream =? 0 then INITIAL_BUF_SIZE else u64 (2 * ms_buf_size stream) in
  let new_size := if new_size <? needed_bytes then needed_bytes else new_size in
  match realloc (ms_buf stream) new_size with
  | None => (-1, stream)
  | Some new_buf =>
      (0, {| ms_buf := Some new_buf; ms_sizeloc := ms_sizeloc stream; ms_buf_size := new_size;
             ms_offset := ms_offset stream |})
  end.

(** [open_memstream.c:85-100] write_memstream: [data] holds the [write_bytes] bytes
    that [buf] points to *)
Definition write_memstream (realloc : reallocator) (stream : mem_stream) (data : bytes)
  : exec (Z * mem_stream) :=
  let write_bytes := zlen data in
  let '(grown, stream) := mem_stream_grow realloc stream write_bytes in
  if grown <? 0 then Ok (-1, stream) else
  b ← deref (ms_buf stream);
  b ← put_bytes b (ms_offset stream) data;
  let offset := u64 (ms_offset stream + write_bytes) in
  b ← st8 b offset 0;
  Ok (write_bytes, {| ms_buf := Some b; ms_sizeloc := offset;
                      ms_buf_size := ms_buf_size stream; ms_offset := offset |}).

(** The results of [open_memstream]: NULL with errno EINVAL, NULL for lack of
    memory, or a stream. *)
Inductive opened := OpenEINVAL | OpenNoMemory | Opened (stream : mem_stream).

(** [open_memstream.c:113-140] open_memstream: whether its arguments are NULL, and
    whether [calloc] and [funopen] succeed *)
Definition open_memstream (ptr_null sizeloc_null calloc_ok funopen_ok : bool) : opened :=
  if ptr_null || sizeloc_null then OpenEINVAL else
  if negb calloc_ok then OpenNoMemory else
  if negb funopen_ok then OpenNoMemory else
  Opened {| ms_buf := None; ms_sizeloc := 0; ms_buf_size := 0; ms_offset := 0 |}.

(** [open_memstream.c:103-110] close_memstream: the buffer stays with the caller *)
Definition close_memstream (stream : mem_stream) : Z * (option bytes * Z) :=
  (0, (ms_buf stream, ms_sizeloc stream)).

(** ** fmemopen *)

(** [fmemopen.c:36-39] struct fmemopen_read_state: offsets into the string *)
Record fmemopen_read_state := { fm_next : Z; fm_end : Z }.

(** [fmemopen.c:41-59] fmemopen_readfn: the number of bytes returned and the bytes *)
Definition fmemopen_readfn (str : bytes) (read_cookie : fmemopen_read_state) (len : Z)
  : exec (Z * bytes * fmemopen_read_state) :=
  c_assert (fm_next read_cookie <=? fm_end read_cookie);;
  if fm_next read_cookie =? fm_end read_cookie then Ok (0, [], read_cookie) else
  let bytes := s32 (fm_end read_cookie - fm_next read_cookie) in
  let bytes := if len <? bytes then len else bytes in
  data ← get_bytes str (fm_next read_cookie) (u64 bytes);
  Ok (bytes, data, {| fm_next := fm_next read_cookie + bytes; fm_end := fm_end read_cookie |}).

(** [fmemopen.c:61-79] fmemopen: whether [calloc] and [fropen] succeed.  The result of
    [calloc] is not tested. *)
Definition fmemopen (calloc_ok fropen_ok : bool) (size : Z) (mode : string)
  : exec (option fmemopen_read_state) :=
  c_assert (bool_decide (mode = "r"%string));;
  if negb calloc_ok then Fault NullDeref else
  if negb fropen_ok then Ok None else
  Ok (Some {| fm_next := 0; fm_end := size |}).

(** ** Runs *)

(** A sequence of writes, each with the allocator of its moment. *)
Fixpoint write_pieces (stream : mem_stream) (ws : list (reallocator * bytes))
  : exec (list Z * mem_stream) :=
  match ws with
  | [] => Ok ([], stream)
  | (realloc, data) :: ws =>
      '(r, stream) ← write_memstream realloc stream data;
      '(rs, stream) ← write_pieces stream ws;
      Ok (r :: rs, stream)
  end.

(** The bytes of the writes that succeeded. *)
Fixpoint accepted (ws : list (reallocator * bytes)) (rs : list Z) : bytes :=
  match ws, rs with
  | (_, data) :: ws, r :: rs => (if r =? -1 then [] else data) ++ accepted ws rs
  | _, _ => []
  end.

(** A sequence of reads with the given sizes. *)
Fixpoint read_pieces (str : bytes) (c : fmemopen_read_state) (lens : list Z)
  : exec (bytes * fmemopen_read_state) :=
  match lens with
  | [] => Ok ([], c)
  | len :: lens =>
      '(_, data, c) ← fmemopen_readfn str c len;
      '(rest, c) ← read_pieces str c lens;
      Ok (data ++ rest, c)
  end.

(** [realloc] of the C library: a new block has the size asked for and the old
    contents up to the smaller of the sizes. *)
Definition realloc_spec (realloc : reallocator) : Prop :=
  forall old n new, 0 <= n -> realloc old n = Some new ->
    zlen new = n /\ (forall b, old = Some b -> zlen b <= n -> take (length b) new = b).

(** The stream holds [l]: the caller's variables are a buffer that starts with [l] and a
    terminating NUL, and the length of [l]; or NULL and 0 before the first write.  The
    buffer is at most twice as long as needed. *)
Definition holds (s : mem_stream) (l : bytes) : Prop :=
  ms_offset s = zlen l /\ ms_sizeloc s = zlen l /\
  match ms_buf s with
  | None => l = [] /\ ms_buf_size s = 0
  | Some b => zlen b = ms_buf_size s /\ zlen l < ms_buf_size s <= Z.max INITIAL_BUF_SIZE (2 * zlen l)
      /\ exists rest, b = l ++ 0 :: rest
  end.

(** ** Writing *)
Lemma grow_holds realloc s l n : realloc_spec realloc -> holds s l -> 0 <= n ->
  zlen l + n < 2 ^ 62 ->
  mem_stream_grow realloc s n = (-1, s) \/
  exists s' b, mem_stream_grow realloc s n = (0, s') /\ ms_buf s' = Some b
    /\ ms_offset s' = zlen l /\ zlen b = ms_buf_size s'
    /\ zlen l + n < ms_buf_size s' <= Z.max INITIAL_BUF_SIZE (2 * (zlen l + n))
    /\ take (length l) b = l.
Proof.
  intros Hr (Ho & Hs & Hb) Hn Hlt. pose proof (zlen_nonneg l). unfold mem_stream_grow, INITIAL_BUF_SIZE in *.
  rewrite Ho, u64_small by lia. destruct (_ <=? ms_buf_size s) eqn:E.
  - apply Z.leb_le in E. right. destruct (ms_buf s) as [b|] eqn:Eb; [|lia].
    destruct Hb as (Hz & Hl & rest & ->). exists s, (l ++ 0 :: rest).
    split_and!; auto; [lia..|]. by rewrite take_app_length.
  - apply Z.leb_gt in E. set (size := if _ <? _ then _ else _).
    assert (Hsize : zlen l + n < size <= Z.max 1024 (2 * (zlen l + n)) /\ ms_buf_size s <= size).
    { subst size. destruct (ms_buf_size s =? 0) eqn:E0.
      - apply Z.eqb_eq in E0. destruct (_ <? _) eqn:E1; breflect; lia.
      - apply Z.eqb_neq in E0.
        assert (0 < ms_buf_size s) by (destruct (ms_buf s); lia).
        rewrite u64_small by lia. destruct (_ <? _) eqn:E1; breflect; lia. }
    destruct (realloc (ms_buf s) size) as [new|] eqn:Er; [right|by left].
    apply Hr in Er as [Hz Hc]; [|lia]. eexists _, new. split; [done|]. cbn [ms_buf ms_offset ms_buf_size].
    split_and!; auto; [lia..|]. destruct (ms_buf s) as [b|].
    + destruct Hb as (Hzb & Hl & rest & ->).
      transitivity (take (length l) (l ++ 0 :: rest)); [|apply take_app_length].
      rewrite <-(Hc _ eq_refl), take_take by lia. f_equal. rewrite length_app. lia.
    + destruct Hb as [-> _]. done.
Qed.

Lemma put_bytes_app (l d x : bytes) : zlen x <= zlen d ->
  put_bytes (l ++ d) (zlen l) x = Ok (l ++ x ++ drop (length x) d).
Proof.
  intros Hx. apply put_bytes_Ok. split.
  - apply in_range_true. unfold zlen in *. rewrite length_app. lia.
  - unfold zlen. rewrite Nat2Z.id, take_app_length, drop_app_add'; done.
Qed.

Lemma write_holds realloc s l data : realloc_spec realloc -> holds s l ->
  zlen l + zlen data < 2 ^ 62 ->
  exists r s', write_memstream realloc s data = Ok (r, s') /\
    ((r = -1 /\ s' = s) \/ (r = zlen data /\ holds s' (l ++ data))).
Proof.
  intros Hr Hh Hlt. pose proof (zlen_nonneg l). pose proof (zlen_nonneg data).
  unfold write_memstream. destruct (grow_holds realloc s l (zlen data) Hr Hh) as [->|H']; [lia..| |].
  - exists (-1), s. auto.
  - destruct H' as (s1 & b & -> & Hb & Ho & Hz & Hs & Ht). cbn [Z.ltb Z.compare].
    rewrite Hb, Ho, u64_small by lia. cbn [deref mbind exec_bind].
    assert (exists d, b = l ++ d) as [d ->]
      by (exists (drop (length l) b); rewrite <-Ht at 1; by rewrite take_drop).
    rewrite zlen_app in Hz. rewrite put_bytes_app by lia. cbn [mbind exec_bind].
    rewrite app_assoc, <-zlen_app. unfold st8. set (d' := drop (length data) d).
    assert (Hd : zlen d' = zlen d - zlen data) by (unfold d', zlen in *; rewrite length_drop; lia).
    rewrite put_bytes_app by (rewrite zlen_le_split; lia). cbn [mbind exec_bind].
    eexists _, _. split; [done|]. right. split; [done|]. unfold holds.
    cbn [ms_buf ms_offset ms_sizeloc ms_buf_size]. split_and!; try done; try (rewrite !zlen_app; lia).
    + rewrite !zlen_app. unfold zlen in *. rewrite length_drop. cbn [length le_split]. lia.
    + by exists (drop 1 d').
Qed.

Lemma write_pieces_holds ws s l : holds s l -> Forall (fun w => realloc_spec w.1) ws ->
  zlen l + zlen (concat ws.*2) < 2 ^ 62 ->
  exists rs s', write_pieces s ws = Ok (rs, s') /\ length rs = length ws
    /\ holds s' (l ++ accepted ws rs)
    /\ Forall2 (fun w r => r = -1 \/ r = zlen w.2) ws rs.
Proof.
  intros Hh Hws. revert s l Hh. induction Hws as [|[realloc data] ws Hr Hws IH]; intros s l Hh Hlt.
  - exists [], s. cbn. rewrite app_nil_r. eauto.
  - cbn [write_pieces fmap list_fmap concat snd] in *. rewrite zlen_app in Hlt.
    pose proof (zlen_nonneg (concat ws.*2)). pose proof (zlen_nonneg data).
    destruct (write_holds realloc s l data Hr Hh) as (r & s1 & -> & Hc); [lia|].
    cbn [mbind exec_bind].
    assert (Hh1 : holds s1 (l ++ (if r =? -1 then [] else data))).
    { destruct Hc as [[-> ->]|[-> Hc]]; [by rewrite app_nil_r|].
      by replace (zlen data =? -1) with false by (symmetry; apply Z.eqb_neq; lia). }
    destruct (IH _ _ Hh1) as (rs & s2 & -> & Hlen & Hh2 & Hrs).
    { rewrite zlen_app. destruct (r =? -1); cbn; [|lia]. unfold zlen at 2. cbn. lia. }
    exists (r :: rs), s2. cbn [mbind exec_bind accepted]. rewrite app_assoc.
    split_and!; [done|by cbn; rewrite Hlen|done|]. constructor; [|done].
    destruct Hc as [[-> _]|[-> _]]; auto.
Qed.


(** C15. A memory stream is a refinement of the sequence of bytes written: whatever pieces, of
    less than 2^62 bytes together, stdio cuts the output into, and whichever calls of realloc
    fail, no write leaves the buffer, each returns its size or -1, and the caller's variables
    hold exactly the bytes of the writes that succeeded, NUL-terminated, with their number (or
    NULL and 0 when there was none), in a buffer of the initial size or at most twice the size
    of what it holds. *)
Theorem memstream_refines ws s : open_memstream false false true true = Opened s ->
  Forall (fun w => realloc_spec w.1) ws -> zlen (concat ws.*2) < 2 ^ 62 ->
  exists rs s', write_pieces s ws = Ok (rs, s') /\ length rs = length ws
    /\ Forall2 (fun w r => r = -1 \/ r = zlen w.2) ws rs /\ holds s' (accepted ws rs).
Proof.
  intros [= <-] Hws Hlt.
  set (s0 := {| ms_buf := None; ms_sizeloc := 0; ms_buf_size := 0; ms_offset := 0 |}).
  destruct (write_pieces_holds ws s0 []) as (rs & s' & H1 & H2 & H3 & H4); [done|exact Hws| |].
  - change (zlen []) with 0. lia.
  - exists rs, s'. auto.
Qed.

(** ** Reading *)
Definition size_sum (lens : list Z) : Z := foldr Z.add 0 lens.

Lemma size_sum_nonneg lens : Forall (fun n => 0 < n) lens -> 0 <= size_sum lens.
Proof. unfold size_sum. induction 1; cbn [foldr]; lia. Qed.

Lemma readfn_eq pre l post len : 0 < len -> zlen l < 2147483648 ->
  let k := Z.min len (zlen l) in
  fmemopen_readfn (pre ++ l ++ post) {| fm_next := zlen pre; fm_end := zlen pre + zlen l |} len
    = Ok (k, take (Z.to_nat k) l, {| fm_next := zlen pre + k; fm_end := zlen pre + zlen l |}).
Proof.
  intros Hlen Hlt k. pose proof (zlen_nonneg l). pose proof (zlen_nonneg pre).
  pose proof (zlen_nonneg post). unfold fmemopen_readfn. cbn [fm_next fm_end].
  replace (zlen pre <=? zlen pre + zlen l) with true by (symmetry; apply Z.leb_le; lia).
  cbn [c_assert mbind exec_bind]. destruct (_ =? _) eqn:E; breflect.
  - assert (l = []) as -> by (apply nil_length_inv; unfold zlen in *; lia).
    subst k. change (zlen []) with 0. rewrite Z.min_r, Z.add_0_r by lia. done.
  - replace (zlen pre + zlen l - zlen pre) with (zlen l) by lia. rewrite s32_small by lia.
    replace (if _ <? _ then _ else _) with k by (subst k; case_match; breflect; lia).
    rewrite u64_small by lia.
    assert (E' : get_bytes (pre ++ l ++ post) (zlen pre) k = Ok (take (Z.to_nat k) l)).
    { apply get_bytes_Ok. split; [apply in_range_true; rewrite !zlen_app; lia|].
      unfold zlen at 1. rewrite Nat2Z.id, drop_app_length, take_app_le; [done|].
      unfold k, zlen. lia. }
    by rewrite E'.
Qed.

(** Reads of any positive sizes return the contents in order, up to their end. *)
Lemma read_pieces_eq pre l post lens : Forall (fun n => 0 < n) lens -> zlen l < 2147483648 ->
  let n := Z.min (size_sum lens) (zlen l) in
  read_pieces (pre ++ l ++ post) {| fm_next := zlen pre; fm_end := zlen pre + zlen l |} lens
    = Ok (take (Z.to_nat n) l, {| fm_next := zlen pre + n; fm_end := zlen pre + zlen l |}).
Proof.
  intros Hl. revert pre l. induction Hl as [|len lens Hlen Hl IH]; intros pre l Hlt n.
  - pose proof (zlen_nonneg l). replace n with 0 by (subst n; cbn; lia). by rewrite Z.add_0_r.
  - pose proof (size_sum_nonneg lens Hl). pose proof (zlen_nonneg l). subst n.
    cbn [read_pieces]. rewrite readfn_eq by done. cbn [mbind exec_bind].
    set (k := Z.min len (zlen l)).
    set (x := take (Z.to_nat k) l). set (y := drop (Z.to_nat k) l).
    assert (El : l = x ++ y) by (symmetry; apply take_drop).
    assert (Hx : zlen x = k) by (unfold x, zlen in *; rewrite length_take; lia).
    assert (Hy : zlen y = zlen l - k) by (unfold y, zlen in *; rewrite length_drop; lia).
    specialize (IH (pre ++ x) y ltac:(lia)). cbv zeta in IH. rewrite zlen_app, Hx, Hy in IH.
    replace (zlen pre + k + (zlen l - k)) with (zlen pre + zlen l) in IH by lia.
    replace (pre ++ l ++ post) with ((pre ++ x) ++ y ++ post) by (by rewrite El, <-!app_assoc).
    rewrite IH. cbn [mbind exec_bind size_sum foldr]. fold (size_sum lens).
    assert (Hm : k + Z.min (size_sum lens) (zlen l - k) = Z.min (len + size_sum lens) (zlen l)) by lia.
    rewrite <-Hm, Z.add_assoc. do 2 f_equal. rewrite El at 3.
    rewrite Z2Nat.inj_add by lia. rewrite <-Hx at 2. unfold zlen at 2. rewrite Nat2Z.id.
    by rewrite take_app_add.
Qed.

(** What is written to a memory stream is read back from its buffer: after any writes that
    all succeed, the buffer and size that the caller is left with, opened for reading,
    return exactly the bytes written, whatever the sizes of the reads, once these ask for
    enough; the next read then returns 0. *)
Theorem memstream_roundtrip ws rs s s' buf size lens len c :
  open_memstream false false true true = Opened s ->
  Forall (fun w => realloc_spec w.1) ws -> zlen (concat ws.*2) < 2147483648 ->
  write_pieces s ws = Ok (rs, s') -> Forall (fun r => r <> -1) rs ->
  close_memstream s' = (0, (Some buf, size)) ->
  fmemopen true true size "r" = Ok (Some c) ->
  Forall (fun n => 0 < n) lens -> size <= size_sum lens -> 0 < len ->
  exists c', read_pieces buf c lens = Ok (concat ws.*2, c')
    /\ fmemopen_readfn buf c' len = Ok (0, [], c').
Proof.
  intros Hopen Hws Hlt Hw Hrs Hcl Hfm Hlens Hsz Hlen.
  assert (H0 : holds s []) by (injection Hopen as <-; done). injection Hfm as <-.
  destruct (write_pieces_holds ws s []) as (rs' & s1 & Ew & Hl & Hh & _); [done|done|change (zlen []) with 0; lia|].
  rewrite Hw in Ew. injection Ew as <- <-. cbn [app] in Hh.
  assert (Ha : accepted ws rs = concat ws.*2).
  { clear -Hl Hrs. revert rs Hl Hrs. induction ws as [|[rl d] ws IH]; intros [|r' rs] Hl Hrs; try done.
    inversion Hrs; subst. cbn [accepted fmap list_fmap concat snd].
    replace (_ =? -1) with false by (symmetry; by apply Z.eqb_neq).
    f_equal. apply IH; [by injection Hl|done]. }
  rewrite Ha in Hh. destruct Hh as (_ & Hs & Hb). injection Hcl as Eb Es. rewrite Eb in Hb.
  destruct Hb as (_ & _ & rest & ->). rewrite Hs in Es. subst size.
  set (l := concat ws.*2) in *. pose proof (zlen_nonneg l).
  pose proof (read_pieces_eq [] l (0 :: rest) lens Hlens Hlt) as R. cbv zeta in R.
  rewrite Z.min_r in R by lia. change (zlen []) with 0 in R. cbn [app] in R. rewrite !Z.add_0_l in R.
  eexists. rewrite R. split.
  - do 2 f_equal. apply take_ge. unfold zlen. lia.
  - pose proof (readfn_eq l [] (0 :: rest) len Hlen ltac:(done)) as R'. cbv zeta in R'.
    change (zlen []) with 0 in R'. rewrite Z.min_r, Z.add_0_r in R' by lia. exact R'.
Qed.

Definition realloc_zeros : reallocator := fun old n =>
  Some (take (Z.to_nat n) (default [] old ++ replicate (Z.to_nat n) 0)).

Lemma realloc_zeros_spec : realloc_spec realloc_zeros.
Proof.
  intros old n new Hn [= <-]. unfold zlen in *. split.
  - rewrite length_take, length_app, length_replicate. lia.
  - intros b -> Hb. cbn [default]. rewrite take_take, Nat.min_l by lia. apply take_app_length.
Qed.

Lemma memstream_roundtrip_witness :
  let s := {| ms_buf := None; ms_sizeloc := 0; ms_buf_size := 0; ms_offset := 0 |} in
  let ws := [(realloc_zeros, [72; 101]); (realloc_zeros, [108; 108; 111])] in
  exists s' buf c', write_pieces s ws = Ok ([2; 3], s')
    /\ close_memstream s' = (0, (Some buf, 5))
    /\ read_pieces buf {| fm_next := 0; fm_end := 5 |} [2; 2; 2]
       = Ok ([72; 101; 108; 108; 111], c')
    /\ fmemopen_readfn buf c' 2 = Ok (0, [], c').
Proof.
  intros s ws. destruct (write_pieces s ws) as [[rs s']|] eqn:E; [|vm_compute in E; discriminate E].
  assert (R : rs = [2; 3] /\ exists buf, close_memstream s' = (0, (Some buf, 5)))
    by (vm_compute in E; injection E as <- <-; eauto).
  destruct R as [-> [buf Hc]]. pose proof realloc_zeros_spec as Hz. exists s', buf.
  destruct (memstream_roundtrip ws [2; 3] s s' buf 5 [2; 2; 2] 2 {| fm_next := 0; fm_end := 5 |})
    as (c' & R1 & R2); try done; try (repeat (apply Forall_cons; split); done).
  exists c'. done.
Defined.

(** When nothing is written the caller is left with NULL, not with an empty string: callers
    that print the result of an empty output (a hex dump of no bytes, a list of no options)
    pass NULL to printf on the systems that use this implementation. *)
Theorem memstream_empty_is_null s : open_memstream false false true true = Opened s ->
  close_memstream s = (0, (None, 0)).
Proof. by intros [= <-]. Qed.

Lemma memstream_refines_witness :
  let s := {| ms_buf := None; ms_sizeloc := 0; ms_buf_size := 0; ms_offset := 0 |} in
  let ws := [(realloc_zeros, [72; 101]); (fun _ _ => None, replicate 2000 7); (realloc_zeros, [108])] in
  exists s', write_pieces s ws = Ok ([2; -1; 1], s') /\ holds s' [72; 101; 108].
Proof.
  intros s ws. destruct (memstream_refines ws s) as (rs & s' & E & _ & _ & H); [done| |done|].
  - pose proof realloc_zeros_spec as Hz. repeat (apply Forall_cons; split); done.
  - exists s'. assert (R : rs = [2; -1; 1]) by (vm_compute in E; by injection E).
    subst rs. done.
Defined.
