(* ===== verification/Headers.v ===== *)
(** * Headers: the wire layout of the protocol headers

    The structs of ip.h, ipv6.h, tcp.h, udp.h, gre.h, mpls.h, icmp.h, icmpv6.h
    and ethernet.h as a little-endian x86-64 compiler lays them out: each member
    is a [field], an offset with a width or, for a bit-field, a range of bits of
    one byte.  [rd] and [wr] are the member accesses [p->f] and [p->f = v] on a
    buffer; a multi-byte member is read and written in host order, so the [__be16]
    and [__be32] members go through [ntohs] and [htons] exactly where the source
    says so. *)

From S2P Require Import Prelude.

Inductive field :=
  | F8 (off : Z)
  | F16 (off : Z)
  | F32 (off : Z)
  | FBits (off lo width : Z).

#[export] Instance field_eq_dec : EqDecision field.
Proof. solve_decision. Defined.

Definition field_off (f : field) : Z :=
  match f with F8 o => o | F16 o => o | F32 o => o | FBits o _ _ => o end.
Definition field_bytes (f : field) : Z :=
  match f with F8 _ => 1 | F16 _ => 2 | F32 _ => 4 | FBits _ _ _ => 1 end.
Definition field_mod (f : field) : Z :=
  match f with F8 _ => 256 | F16 _ => 65536 | F32 _ => 4294967296 | FBits _ _ w => 2 ^ w end.

(** A bit-field of a byte. *)
Definition bits_get (v lo w : Z) : Z := (v / 2 ^ lo) mod 2 ^ w.
Definition bits_set (v lo w x : Z) : Z := v + (x mod 2 ^ w - bits_get v lo w) * 2 ^ lo.

Definition rd (b : bytes) (p : Z) (f : field) : exec Z :=
  match f with
  | F8 o => ld8 b (p + o)
  | F16 o => ld16 b (p + o)
  | F32 o => ld32 b (p + o)
  | FBits o lo w => v ← ld8 b (p + o); Ok (bits_get v lo w)
  end.

Definition wr (b : bytes) (p : Z) (f : field) (x : Z) : exec bytes :=
  match f with
  | F8 o => st8 b (p + o) x
  | F16 o => st16 b (p + o) x
  | F32 o => st32 b (p + o) x
  | FBits o lo w => v ← ld8 b (p + o); st8 b (p + o) (bits_set v lo w x)
  end.

(** ** struct ipv4 *)
(** [ip.h:32-51] sizeof(struct ipv4) *)
Definition sizeof_ipv4 : Z := 20.
(** [ip.h:34-34] ipv4.ihl *)
Definition ipv4_ihl := FBits 0 0 4.
(** [ip.h:35-35] ipv4.version *)
Definition ipv4_version := FBits 0 4 4.
(** [ip.h:42-42] ipv4.tos *)
Definition ipv4_tos := F8 1.
(** [ip.h:43-43] ipv4.tot_len *)
Definition ipv4_tot_len := F16 2.
(** [ip.h:44-44] ipv4.id *)
Definition ipv4_id := F16 4.
(** [ip.h:45-45] ipv4.frag_off *)
Definition ipv4_frag_off := F16 6.
(** [ip.h:46-46] ipv4.ttl *)
Definition ipv4_ttl := F8 8.
(** [ip.h:47-47] ipv4.protocol *)
Definition ipv4_protocol := F8 9.
(** [ip.h:48-48] ipv4.check *)
Definition ipv4_check := F16 10.
(** [ip.h:49-49] ipv4.src_ip *)
Definition ipv4_src_ip := F32 12.
(** [ip.h:50-50] ipv4.dst_ip *)
Definition ipv4_dst_ip := F32 16.

(** [ip.h:80-85] the ECN bits of the TOS byte *)
Definition IP_ECN_MASK : Z := 3.
Definition IP_ECN_NONE : Z := 0.
Definition IP_ECN_ECT1 : Z := 1.
Definition IP_ECN_ECT0 : Z := 2.
Definition IP_ECN_CE : Z := 3.

(** [ip.h:87-90] ipv4_tos_byte *)
Definition ipv4_tos_byte (b : bytes) (p : Z) : exec Z := rd b p ipv4_tos.
(** [ip.h:92-95] ipv4_ttl_byte *)
Definition ipv4_ttl_byte (b : bytes) (p : Z) : exec Z := rd b p ipv4_ttl.
(** [ip.h:97-100] ipv4_header_len *)
Definition ipv4_header_len (b : bytes) (p : Z) : exec Z :=
  ihl ← rd b p ipv4_ihl; Ok (ihl * 4).

(** [ip.h:105-105] IP_MF *)
Definition IP_MF : Z := 0x2000.
(** [ip.h:106-106] IP_OFFMASK *)
Definition IP_OFFMASK : Z := 0x1FFF.

(** ** struct ipv6 *)
(** [ipv6.h:34-57] sizeof(struct ipv6) *)
Definition sizeof_ipv6 : Z := 40.
(** [ipv6.h:36-36] ipv6.traffic_class_hi *)
Definition ipv6_traffic_class_hi := FBits 0 0 4.
(** [ipv6.h:37-37] ipv6.version *)
Definition ipv6_version := FBits 0 4 4.
(** [ipv6.h:38-38] ipv6.flow_label_hi *)
Definition ipv6_flow_label_hi := FBits 1 0 4.
(** [ipv6.h:39-39] ipv6.traffic_class_lo *)
Definition ipv6_traffic_class_lo := FBits 1 4 4.
(** [ipv6.h:40-40] ipv6.flow_label_lo *)
Definition ipv6_flow_label_lo := F16 2.
(** [ipv6.h:51-51] ipv6.payload_len *)
Definition ipv6_payload_len := F16 4.
(** [ipv6.h:52-52] ipv6.next_header *)
Definition ipv6_next_header := F8 6.
(** [ipv6.h:53-53] ipv6.hop_limit *)
Definition ipv6_hop_limit := F8 7.
(** [ipv6.h:55-55] ipv6.src_ip: the offset of a 16-byte address *)
Definition ipv6_src_ip : Z := 8.
(** [ipv6.h:56-56] ipv6.dst_ip: the offset of a 16-byte address *)
Definition ipv6_dst_ip : Z := 24.

(** [ipv6.h:64-67] ipv6_tos_byte *)
Definition ipv6_tos_byte (b : bytes) (p : Z) : exec Z :=
  hi ← rd b p ipv6_traffic_class_hi;
  lo ← rd b p ipv6_traffic_class_lo;
  Ok (Z.lor (Z.shiftl hi 4) lo).
(** [ipv6.h:69-72] ipv6_flow_label *)
Definition ipv6_flow_label (b : bytes) (p : Z) : exec Z :=
  lo ← rd b p ipv6_flow_label_lo;
  hi ← rd b p ipv6_flow_label_hi;
  Ok (Z.lor (ntohs lo) (Z.shiftl hi 16)).
(** [ipv6.h:74-77] ipv6_hoplimit_byte *)
Definition ipv6_hoplimit_byte (b : bytes) (p : Z) : exec Z := rd b p ipv6_hop_limit.

(** ** struct tcp *)
(** [tcp.h:105-138] sizeof(struct tcp) *)
Definition sizeof_tcp : Z := 20.
(** [tcp.h:106-106] tcp.src_port *)
Definition tcp_src_port := F16 0.
(** [tcp.h:107-107] tcp.dst_port *)
Definition tcp_dst_port := F16 2.
(** [tcp.h:108-108] tcp.seq *)
Definition tcp_seq := F32 4.
(** [tcp.h:109-109] tcp.ack_seq *)
Definition tcp_ack_seq := F32 8.
(** [tcp.h:111-111] tcp.res1 *)
Definition tcp_res1 := FBits 12 0 4.
(** [tcp.h:112-112] tcp.doff *)
Definition tcp_doff := FBits 12 4 4.
(** [tcp.h:113-113] tcp.fin *)
Definition tcp_fin := FBits 13 0 1.
(** [tcp.h:114-114] tcp.syn *)
Definition tcp_syn := FBits 13 1 1.
(** [tcp.h:115-115] tcp.rst *)
Definition tcp_rst := FBits 13 2 1.
(** [tcp.h:116-116] tcp.psh *)
Definition tcp_psh := FBits 13 3 1.
(** [tcp.h:117-117] tcp.ack *)
Definition tcp_ack := FBits 13 4 1.
(** [tcp.h:118-118] tcp.urg *)
Definition tcp_urg := FBits 13 5 1.
(** [tcp.h:119-119] tcp.ece *)
Definition tcp_ece := FBits 13 6 1.
(** [tcp.h:120-120] tcp.cwr *)
Definition tcp_cwr := FBits 13 7 1.
(** [tcp.h:135-135] tcp.window *)
Definition tcp_window := F16 14.
(** [tcp.h:136-136] tcp.check *)
Definition tcp_check := F16 16.
(** [tcp.h:137-137] tcp.urg_ptr *)
Definition tcp_urg_ptr := F16 18.

(** [tcp.h:84-100] the TCP option numbers and lengths *)
Definition TCPOPT_EOL : Z := 0.
Definition TCPOPT_NOP : Z := 1.
Definition TCPOPT_MAXSEG : Z := 2.
Definition TCPOLEN_MAXSEG : Z := 4.
Definition TCPOPT_WINDOW : Z := 3.
Definition TCPOLEN_WINDOW : Z := 3.
Definition TCPOPT_SACK_PERMITTED : Z := 4.
Definition TCPOLEN_SACK_PERMITTED : Z := 2.
Definition TCPOPT_SACK : Z := 5.
Definition TCPOPT_TIMESTAMP : Z := 8.
Definition TCPOLEN_TIMESTAMP : Z := 10.
Definition TCPOPT_MD5SIG : Z := 19.
Definition TCPOLEN_MD5SIG : Z := 18.
Definition TCPOLEN_MD5_BASE : Z := 2.
Definition TCPOPT_FASTOPEN : Z := 34.
Definition TCPOPT_EXP : Z := 254.

(** ** struct udp *)
(** [udp.h:37-42] sizeof(struct udp) *)
Definition sizeof_udp : Z := 8.
(** [udp.h:38-38] udp.src_port *)
Definition udp_src_port := F16 0.
(** [udp.h:39-39] udp.dst_port *)
Definition udp_dst_port := F16 2.
(** [udp.h:40-40] udp.len *)
Definition udp_len := F16 4.
(** [udp.h:41-41] udp.check *)
Definition udp_check := F16 6.

(** ** struct gre *)
(** [gre.h:38-38] GRE_MINLEN *)
Definition GRE_MINLEN : Z := 4.
(** [gre.h:45-82] sizeof(struct gre) *)
Definition sizeof_gre : Z := 16.
(** [gre.h:53-53] gre.has_seq *)
Definition gre_has_seq := FBits 0 4 1.
(** [gre.h:54-54] gre.has_key *)
Definition gre_has_key := FBits 0 5 1.
(** [gre.h:55-55] gre.has_routing *)
Definition gre_has_routing := FBits 0 6 1.
(** [gre.h:56-56] gre.has_checksum *)
Definition gre_has_checksum := FBits 0 7 1.
(** [gre.h:57-57] gre.version *)
Definition gre_version := FBits 1 0 3.
(** [gre.h:75-75] gre.proto *)
Definition gre_proto := F16 2.

(** [gre.h:85-100] gre_len *)
Definition gre_len (b : bytes) (p : Z) : exec Z :=
  let bytes := GRE_MINLEN in
  version ← rd b p gre_version;
  _ ← c_assert (version =? 0);
  has_routing ← rd b p gre_has_routing;
  _ ← c_assert (has_routing =? 0);
  has_checksum ← rd b p gre_has_checksum;
  let bytes := if negb (has_checksum =? 0) || negb (has_routing =? 0)
               then bytes + 4 else bytes in
  has_key ← rd b p gre_has_key;
  let bytes := if negb (has_key =? 0) then bytes + 4 else bytes in
  has_seq ← rd b p gre_has_seq;
  let bytes := if negb (has_seq =? 0) then bytes + 4 else bytes in
  Ok bytes.

(** ** struct mpls *)
(** [mpls.h:38-40] sizeof(struct mpls) *)
Definition sizeof_mpls : Z := 4.
(** [mpls.h:39-39] mpls.entry *)
Definition mpls_entry := F32 0.
(** [mpls.h:45-46] MPLS_LABEL_MASK, MPLS_LABEL_SHIFT *)
Definition MPLS_LABEL_MASK : Z := 0xfffff000.
Definition MPLS_LABEL_SHIFT : Z := 12.
(** [mpls.h:47-48] MPLS_TC_MASK, MPLS_TC_SHIFT *)
Definition MPLS_TC_MASK : Z := 0x00000e00.
Definition MPLS_TC_SHIFT : Z := 9.
(** [mpls.h:49-50] MPLS_STACK_MASK, MPLS_STACK_SHIFT *)
Definition MPLS_STACK_MASK : Z := 0x00000100.
Definition MPLS_STACK_SHIFT : Z := 8.
(** [mpls.h:51-52] MPLS_TTL_MASK, MPLS_TTL_SHIFT *)
Definition MPLS_TTL_MASK : Z := 0x000000ff.
Definition MPLS_TTL_SHIFT : Z := 0.

(** [mpls.h:55-58] mpls_entry_label, on the value of the entry member *)
Definition mpls_entry_label (entry : Z) : Z :=
  Z.shiftr (Z.land (ntohl entry) MPLS_LABEL_MASK) MPLS_LABEL_SHIFT.
(** [mpls.h:61-64] mpls_entry_tc *)
Definition mpls_entry_tc (entry : Z) : Z :=
  u8 (Z.shiftr (Z.land (ntohl entry) MPLS_TC_MASK) MPLS_TC_SHIFT).
(** [mpls.h:67-70] mpls_entry_stack: [bool] is an 8-bit integer *)
Definition mpls_entry_stack (entry : Z) : bool :=
  negb (u8 (Z.shiftr (Z.land (ntohl entry) MPLS_STACK_MASK) MPLS_STACK_SHIFT) =? 0).
(** [mpls.h:73-76] mpls_entry_ttl *)
Definition mpls_entry_ttl (entry : Z) : Z :=
  u8 (Z.shiftr (Z.land (ntohl entry) MPLS_TTL_MASK) MPLS_TTL_SHIFT).
(** [mpls.h:79-87] mpls_entry_set: the value it stores *)
Definition mpls_entry_set (label traffic_class : Z) (is_stack_bottom : bool) (ttl : Z) : Z :=
  htonl (Z.lor (Z.lor (Z.lor (u32 (Z.shiftl label MPLS_LABEL_SHIFT))
                             (Z.shiftl traffic_class MPLS_TC_SHIFT))
                      (Z.shiftl (if is_stack_bottom then 1 else 0) MPLS_STACK_SHIFT))
               (Z.shiftl ttl MPLS_TTL_SHIFT)).

(** ** struct icmpv4 and struct icmpv6 *)
(** [icmp.h:41-41] ICMP_ECHO_BYTES *)
Definition ICMP_ECHO_BYTES : Z := 8.
(** [icmp.h:43-58] sizeof(struct icmpv4) *)
Definition sizeof_icmpv4 : Z := 8.
(** [icmp.h:44-44] icmpv4.type *)
Definition icmpv4_type := F8 0.
(** [icmp.h:45-45] icmpv4.code *)
Definition icmpv4_code := F8 1.
(** [icmp.h:46-46] icmpv4.checksum *)
Definition icmpv4_checksum := F16 2.
(** [icmp.h:49-49] icmpv4.message.echo.id *)
Definition icmpv4_echo_id := F16 4.
(** [icmp.h:55-55] icmpv4.message.frag.mtu *)
Definition icmpv4_frag_mtu := F16 6.
(** [icmpv6.h:33-55] sizeof(struct icmpv6) *)
Definition sizeof_icmpv6 : Z := 8.
(** [icmpv6.h:34-34] icmpv6.type *)
Definition icmpv6_type := F8 0.
(** [icmpv6.h:35-35] icmpv6.code *)
Definition icmpv6_code := F8 1.
(** [icmpv6.h:36-36] icmpv6.checksum *)
Definition icmpv6_checksum := F16 2.
(** [icmpv6.h:42-42] icmpv6.message.packet_too_big.mtu *)
Definition icmpv6_packet_too_big_mtu := F32 4.
(** [icmpv6.h:51-51] icmpv6.message.u_echo.identifier *)
Definition icmpv6_u_echo_identifier := F16 4.

(** ** struct ether_header *)
(** [ethernet.h:39-39] ETHERTYPE_IP *)
Definition ETHERTYPE_IP : Z := 0x0800.
(** [ethernet.h:40-40] ETHERTYPE_IPV6 *)
Definition ETHERTYPE_IPV6 : Z := 0x86dd.
(** [ethernet.h:41-41] ETHERTYPE_MPLS_UC *)
Definition ETHERTYPE_MPLS_UC : Z := 0x8847.
(** [ethernet.h:42-42] ETHERTYPE_MPLS_MC *)
Definition ETHERTYPE_MPLS_MC : Z := 0x8848.
(** [ethernet.h:53-57] sizeof(struct ether_header) *)
Definition sizeof_ether_header : Z := 14.
(** [ethernet.h:56-56] ether_header.ether_type *)
Definition ether_type := F16 12.

(** IP protocol numbers and address families of the system headers. *)
Definition IPPROTO_ICMP : Z := 1.
Definition IPPROTO_IPIP : Z := 4.
Definition IPPROTO_TCP : Z := 6.
Definition IPPROTO_UDP : Z := 17.
Definition IPPROTO_IPV6 : Z := 41.
Definition IPPROTO_GRE : Z := 47.
Definition IPPROTO_ICMPV6 : Z := 58.
Definition AF_UNSPEC : Z := 0.
Definition AF_INET : Z := 2.
Definition AF_INET6 : Z := 10.

(** [ethernet.h:65-73] ether_type_for_family *)
Definition ether_type_for_family (address_family : Z) : exec Z :=
  if address_family =? AF_INET then Ok ETHERTYPE_IP
  else if address_family =? AF_INET6 then Ok ETHERTYPE_IPV6
  else Fault AssertFailed.

(** [unaligned.h:30-33] __get_unaligned_be32 (and get_unaligned_be32) *)
Definition get_unaligned_be32 (b : bytes) (p : Z) : exec Z :=
  p0 ← ld8 b p; p1 ← ld8 b (p + 1); p2 ← ld8 b (p + 2); p3 ← ld8 b (p + 3);
  Ok (Z.lor (Z.lor (Z.lor (Z.shiftl p0 24) (Z.shiftl p1 16)) (Z.shiftl p2 8)) p3).
(** [unaligned.h:35-41] __put_unaligned_be32 (and put_unaligned_be32) *)
Definition put_unaligned_be32 (val : Z) (b : bytes) (p : Z) : exec bytes :=
  b ← st8 b p (Z.shiftr val 24);
  b ← st8 b (p + 1) (Z.shiftr val 16);
  b ← st8 b (p + 2) (Z.shiftr val 8);
  st8 b (p + 3) val.

(** ** Member accesses: totality, read-after-write, independence *)

Definition field_wf (f : field) : Prop :=
  0 <= field_off f /\
  match f with FBits _ lo w => 0 <= lo /\ 0 <= w /\ lo + w <= 8 | _ => True end.

(** Two member accesses that share no bit. *)
Definition fdisj (p : Z) (f : field) (q : Z) (g : field) : Prop :=
  p + field_off f + field_bytes f <= q + field_off g \/
  q + field_off g + field_bytes g <= p + field_off f \/
  match f, g with
  | FBits o lo w, FBits o' lo' w' => p + o = q + o' /\ (lo + w <= lo' \/ lo' + w' <= lo)
  | _, _ => False
  end.

Lemma bits_set_eq v lo w x : 0 <= lo -> 0 <= w ->
  bits_set v lo w x =
  2 ^ lo * (2 ^ w * (v / 2 ^ lo / 2 ^ w) + x mod 2 ^ w) + v mod 2 ^ lo.
Proof.
  intros. unfold bits_set, bits_get.
  pose proof (Z.pow_pos_nonneg 2 lo). pose proof (Z.pow_pos_nonneg 2 w).
  pose proof (Z.div_mod v (2 ^ lo)). pose proof (Z.div_mod (v / 2 ^ lo) (2 ^ w)). nia.
Qed.

Lemma bits_get_set v lo w x : 0 <= lo -> 0 <= w ->
  bits_get (bits_set v lo w x) lo w = x mod 2 ^ w.
Proof.
  intros. rewrite bits_set_eq by done. unfold bits_get.
  pose proof (Z.pow_pos_nonneg 2 lo). pose proof (Z.pow_pos_nonneg 2 w).
  rewrite (Z.mul_comm (2 ^ lo)), Z.div_add_l by lia.
  rewrite (Z.div_small (v mod 2 ^ lo)) by (apply Z.mod_pos_bound; lia).
  rewrite Z.add_0_r, (Z.mul_comm (2 ^ w)), Z.add_comm, Z.mod_add by lia.
  by rewrite Z.mod_mod by lia.
Qed.

Lemma bits_get_set_low v lo w x lo' w' :
  0 <= lo' -> 0 <= w' -> lo' + w' <= lo ->
  bits_get (bits_set v lo w x) lo' w' = bits_get v lo' w'.
Proof.
  intros. unfold bits_get at 1, bits_set. set (k := x mod 2 ^ w - _).
  replace (k * 2 ^ lo) with (k * 2 ^ (lo - lo' - w') * 2 ^ w' * 2 ^ lo').
  2:{ rewrite <-!Z.mul_assoc, <-!Z.pow_add_r by lia. do 2 f_equal. lia. }
  rewrite Z.div_add, Z.mod_add by (apply Z.pow_nonzero; lia). done.
Qed.

Lemma bits_get_set_high v lo w x lo' w' :
  0 <= lo -> 0 <= w -> lo + w <= lo' ->
  bits_get (bits_set v lo w x) lo' w' = bits_get v lo' w'.
Proof.
  intros. unfold bits_get. f_equal.
  assert (forall z, z / 2 ^ lo' = z / 2 ^ lo / 2 ^ w / 2 ^ (lo' - lo - w)) as Hz.
  { intros z. pose proof (Z.pow_pos_nonneg 2 lo). pose proof (Z.pow_pos_nonneg 2 w).
    pose proof (Z.pow_pos_nonneg 2 (lo' - lo - w)).
    rewrite !Z.div_div, <-!Z.pow_add_r by nia. do 2 f_equal. lia. }
  rewrite !Hz. f_equal. rewrite bits_set_eq by done.
  pose proof (Z.pow_pos_nonneg 2 lo). pose proof (Z.pow_pos_nonneg 2 w).
  rewrite (Z.mul_comm (2 ^ lo)), Z.div_add_l by lia.
  rewrite (Z.div_small (v mod 2 ^ lo)) by (apply Z.mod_pos_bound; lia).
  rewrite Z.add_0_r, (Z.mul_comm (2 ^ w)), Z.div_add_l by lia.
  rewrite (Z.div_small (x mod 2 ^ w)) by (apply Z.mod_pos_bound; lia). lia.
Qed.

Lemma bits_set_byte v lo w x :
  is_byte v -> 0 <= lo -> 0 <= w -> lo + w <= 8 -> is_byte (bits_set v lo w x).
Proof.
  intros Hv Hlo Hw H8. unfold is_byte in *. rewrite bits_set_eq by done.
  pose proof (Z.pow_pos_nonneg 2 lo). pose proof (Z.pow_pos_nonneg 2 w).
  pose proof (Z.mod_pos_bound v (2 ^ lo)). pose proof (Z.mod_pos_bound x (2 ^ w)).
  assert (0 <= v / 2 ^ lo / 2 ^ w) by (apply Z.div_pos; [apply Z.div_pos|]; lia).
  assert (v / 2 ^ lo / 2 ^ w < 2 ^ (8 - lo - w)).
  { rewrite Z.div_div by lia. apply Z.div_lt_upper_bound; [nia|].
    rewrite <-!Z.pow_add_r by lia. replace (lo + w + (8 - lo - w)) with 8 by lia. lia. }
  assert (2 ^ lo * (2 ^ w * 2 ^ (8 - lo - w)) = 256) as E.
  { rewrite <-!Z.pow_add_r by lia. replace (lo + (w + (8 - lo - w))) with 8 by lia. done. }
  generalize dependent (v / 2 ^ lo / 2 ^ w). intros X HX0 HX.
  generalize dependent (x mod 2 ^ w). intros y Hy.
  generalize dependent (v mod 2 ^ lo). intros r Hr.
  set (A := 2 ^ lo) in *. set (B := 2 ^ w) in *. set (C := 2 ^ (8 - lo - w)) in *.
  assert (0 <= B * X + y <= B * C - 1) by nia. nia.
Qed.

Lemma rd_total b p f :
  bytes_ok b -> field_wf f -> 0 <= p + field_off f ->
  p + field_off f + field_bytes f <= zlen b ->
  exists v, rd b p f = Ok v /\ 0 <= v < field_mod f.
Proof.
  intros Hb [Ho Hf] Hp Hr. assert (HB : forall i, is_byte (byte_at b i)).
  { intros i. by apply byte_at_is_byte. } unfold is_byte in HB.
  destruct f as [o|o|o|o lo w]; simpl in *.
  - rewrite ld8_eq by lia. eauto.
  - rewrite ld16_eq by lia. eexists. split; [done|].
    pose proof (HB (p + o)). pose proof (HB (p + o + 1)). lia.
  - rewrite ld32_eq by lia. eexists. split; [done|].
    pose proof (HB (p + o)). pose proof (HB (p + o + 1)).
    pose proof (HB (p + o + 2)). pose proof (HB (p + o + 3)). lia.
  - rewrite ld8_eq, bind_Ok_eq by lia. eexists. split; [done|].
    apply Z.mod_pos_bound, Z.pow_pos_nonneg; lia.
Qed.

(** A write changes no byte outside its member. *)
Definition changes_only (b b' : bytes) (o n : Z) : Prop :=
  zlen b' = zlen b /\
  forall i, 0 <= i -> i < o \/ o + n <= i -> byte_at b' i = byte_at b i.

Lemma put_changes_only b o l b' :
  put_bytes b o l = Ok b' -> changes_only b b' o (zlen l).
Proof.
  intros H. split; [by eapply put_bytes_zlen|]. intros i Hi Hd.
  rewrite (byte_at_put _ _ _ _ _ H) by lia.
  destruct (Z.leb_spec o i), (Z.ltb_spec i (o + zlen l)); try lia; done.
Qed.

Lemma ld8_st8 b o v b' : 0 <= o -> st8 b o v = Ok b' -> ld8 b' o = Ok (v mod 256).
Proof.
  intros Ho H. unfold st8 in H. pose proof (get_put_same _ _ _ _ H) as G.
  rewrite zlen_le_split in G. unfold ld8. change (Z.of_nat 1) with 1 in G. rewrite G.
  unfold fmap, exec_fmap. by rewrite le_combine_split.
Qed.

Lemma st_le_spec b o n v :
  bytes_ok b -> 0 <= o -> o + Z.of_nat n <= zlen b ->
  exists b', put_bytes b o (le_split n v) = Ok b' /\ bytes_ok b' /\
    changes_only b b' o (Z.of_nat n) /\
    le_combine <$> get_bytes b' o (Z.of_nat n) = Ok (v mod 256 ^ Z.of_nat n).
Proof.
  intros Hb Ho Hr. destruct (put_bytes_in b o (le_split n v)) as [b' E];
    [lia|by rewrite zlen_le_split|].
  exists b'. split; [done|]. pose proof (put_changes_only _ _ _ _ E) as C.
  rewrite zlen_le_split in C.
  split; [eapply put_bytes_bytes_ok; [|apply le_split_ok|]; done|]. split; [done|].
  pose proof (get_put_same _ _ _ _ E) as G. rewrite zlen_le_split in G. rewrite G.
  unfold fmap, exec_fmap. by rewrite le_combine_split.
Qed.

Lemma wr_spec b p f x :
  bytes_ok b -> field_wf f -> 0 <= p + field_off f ->
  p + field_off f + field_bytes f <= zlen b ->
  exists b', wr b p f x = Ok b' /\ bytes_ok b' /\
    changes_only b b' (p + field_off f) (field_bytes f) /\
    rd b' p f = Ok (x mod field_mod f).
Proof.
  intros Hb [Ho Hf] Hp Hr. destruct f as [o|o|o|o lo w]; simpl in *.
  - exact (st_le_spec b (p + o) 1 x Hb Hp Hr).
  - exact (st_le_spec b (p + o) 2 x Hb Hp Hr).
  - exact (st_le_spec b (p + o) 4 x Hb Hp Hr).
  - rewrite ld8_eq, bind_Ok_eq by lia.
    destruct (st_le_spec b (p + o) 1 (bits_set (byte_at b (p + o)) lo w x)) as
      (b'&E&Hb'&C&G); [done|lia|simpl; lia|].
    exists b'. split; [done|]. split; [done|]. split; [done|].
    unfold ld8. change 1 with (Z.of_nat 1). rewrite G, bind_Ok_eq.
    change (256 ^ Z.of_nat 1) with 256.
    rewrite Z.mod_small, bits_get_set by
      (try lia; apply bits_set_byte; try lia; by apply byte_at_is_byte). done.
Qed.

Lemma changes_only_rd b b' o n q g :
  changes_only b b' o n -> 0 <= q + field_off g ->
  q + field_off g + field_bytes g <= o \/ o + n <= q + field_off g ->
  rd b' q g = rd b q g.
Proof.
  intros [Hl H] Hq Hd.
  assert (G : forall k, q + field_off g + k <= o \/ o + n <= q + field_off g ->
    get_bytes b' (q + field_off g) k = get_bytes b (q + field_off g) k).
  { intros k Hk. apply get_bytes_ext; [done|]. intros i Hi. apply H; lia. }
  destruct g as [o'|o'|o'|o' lo w]; simpl in *; unfold ld8, ld16, ld32;
    by rewrite G by lia.
Qed.

(** An access depends only on the bytes of its member. *)
Lemma rd_ext b b' p f :
  zlen b' = zlen b ->
  (forall i, p + field_off f <= i < p + field_off f + field_bytes f -> byte_at b' i = byte_at b i) ->
  rd b' p f = rd b p f.
Proof.
  intros Hl H.
  assert (G : get_bytes b' (p + field_off f) (field_bytes f) =
    get_bytes b (p + field_off f) (field_bytes f)) by (by apply get_bytes_ext).
  destruct f; simpl in *; unfold ld8, ld16, ld32; by rewrite G.
Qed.

(** Independence of accesses that share no bit, bit-fields of one byte included. *)
Lemma rd_wr_disj b p f x b' q g :
  bytes_ok b -> wr b p f x = Ok b' -> field_wf f -> field_wf g ->
  0 <= p + field_off f -> 0 <= q + field_off g ->
  p + field_off f + field_bytes f <= zlen b ->
  fdisj p f q g -> rd b' q g = rd b q g.
Proof.
  intros Hb E Wf Wg Hp Hq Hr Hd.
  destruct (wr_spec b p f x Hb Wf Hp Hr) as (b1&E1&Hb1&C&_).
  rewrite E in E1. injection E1 as <-. destruct Hd as [Hd|[Hd|Hd]].
  - eapply changes_only_rd; [done|lia|lia].
  - eapply changes_only_rd; [done|lia|lia].
  - destruct f as [| | |o lo w]; [done..|]. destruct g as [| | |o' lo' w']; [done..|].
    destruct Hd as [Ho Hd], Wf as [? (?&?&?)], Wg as [? (?&?&?)]. simpl in *.
    rewrite <-Ho. rewrite ld8_eq, bind_Ok_eq in E by lia.
    rewrite (ld8_st8 _ _ _ _ Hp E), bind_Ok_eq, ld8_eq, bind_Ok_eq by lia. f_equal.
    rewrite Z.mod_small by (apply bits_set_byte; try lia; by apply byte_at_is_byte).
    destruct Hd; [apply bits_get_set_high|apply bits_get_set_low]; lia.
Qed.

(** ** MPLS label stack entries *)

Lemma mpls_entry_set_value label tc (s : bool) ttl :
  0 <= label < 2 ^ 20 -> 0 <= tc < 8 -> 0 <= ttl < 256 ->
  ntohl (mpls_entry_set label tc s ttl)
  = ((label * 8 + tc) * 2 + (if s then 1 else 0)) * 256 + ttl.
Proof.
  intros Hl Ht Hx. unfold mpls_entry_set, MPLS_LABEL_SHIFT, MPLS_TC_SHIFT,
    MPLS_STACK_SHIFT, MPLS_TTL_SHIFT, htonl.
  rewrite !Z.shiftl_mul_pow2 by lia. rewrite Z.mul_1_r.
  rewrite u32_small by lia.
  assert (Hs : 0 <= (if s then 1 else 0) < 2) by (destruct s; lia).
  generalize dependent (if s then 1 else 0). intros sb Hs.
  rewrite (lor_add_low label (tc * 2 ^ 9) 12) by lia.
  replace (label * 2 ^ 12 + tc * 2 ^ 9) with ((label * 8 + tc) * 2 ^ 9) by lia.
  rewrite (lor_add_low _ (sb * 2 ^ 8) 9) by lia.
  replace ((label * 8 + tc) * 2 ^ 9 + sb * 2 ^ 8) with (((label * 8 + tc) * 2 + sb) * 2 ^ 8) by lia.
  rewrite (lor_add_low _ ttl 8) by lia.
  rewrite ntohl_invol by lia. lia.
Qed.

(** MPLS entries round-trip: whatever 20-bit label, 3-bit traffic class,
    bottom-of-stack bit and 8-bit TTL are packed into a label stack entry, the
    four accessors give exactly those values back. *)
Theorem mpls_entry_roundtrip (label tc ttl : Z) (s : bool) :
  0 <= label < 2 ^ 20 -> 0 <= tc < 8 -> 0 <= ttl < 256 ->
  let entry := mpls_entry_set label tc s ttl in
  mpls_entry_label entry = label /\ mpls_entry_tc entry = tc /\
  mpls_entry_stack entry = s /\ mpls_entry_ttl entry = ttl.
Proof.
  intros Hl Ht Hx entry. pose proof (mpls_entry_set_value label tc s ttl Hl Ht Hx) as E.
  fold entry in E. unfold mpls_entry_label, mpls_entry_tc, mpls_entry_stack, mpls_entry_ttl.
  rewrite E. assert (Hs : 0 <= (if s then 1 else 0) < 2) by (destruct s; lia).
  assert (Hs' : negb ((if s then 1 else 0) =? 0) = s) by (by destruct s).
  generalize dependent (if s then 1 else 0). intros sb _ Hs Hs'.
  rewrite !Z.shiftr_div_pow2 by (unfold MPLS_LABEL_SHIFT, MPLS_TC_SHIFT,
    MPLS_STACK_SHIFT, MPLS_TTL_SHIFT; lia).
  change MPLS_LABEL_MASK with (Z.shiftl (Z.ones 20) 12).
  change MPLS_TC_MASK with (Z.shiftl (Z.ones 3) 9).
  change MPLS_STACK_MASK with (Z.shiftl (Z.ones 1) 8).
  change MPLS_TTL_MASK with (Z.shiftl (Z.ones 8) 0).
  rewrite !land_high_mask by lia.
  unfold MPLS_LABEL_SHIFT, MPLS_TC_SHIFT, MPLS_STACK_SHIFT, MPLS_TTL_SHIFT, u8.
  rewrite !Z.div_mul by lia.
  replace ((((label * 8 + tc) * 2 + sb) * 256 + ttl) / 2 ^ 12) with label by zlia.
  replace ((((label * 8 + tc) * 2 + sb) * 256 + ttl) / 2 ^ 9) with (label * 8 + tc) by zlia.
  replace ((((label * 8 + tc) * 2 + sb) * 256 + ttl) / 2 ^ 8)
    with ((label * 8 + tc) * 2 + sb) by zlia.
  replace ((((label * 8 + tc) * 2 + sb) * 256 + ttl) / 2 ^ 0)
    with (((label * 8 + tc) * 2 + sb) * 256 + ttl) by zlia.
  split; [zlia|]. split; [zlia|]. split; [|zlia].
  rewrite <-Hs'. do 2 f_equal. zlia.
Qed.

Lemma mpls_entry_roundtrip_witness :
  mpls_entry_label (mpls_entry_set 0xabcde 5 true 64) = 0xabcde /\
  mpls_entry_ttl (mpls_entry_set 0xabcde 5 true 64) = 64.
Proof.
  destruct (mpls_entry_roundtrip 0xabcde 5 64 true) as (Hl&_&_&Ht); [lia..|].
  split; [exact Hl|exact Ht].
Defined.

(** ** Unaligned 32-bit accesses *)

Lemma get_unaligned_be32_eq b p :
  bytes_ok b -> 0 <= p -> p + 4 <= zlen b ->
  exists v, ld32 b p = Ok v /\ 0 <= v < 4294967296 /\ get_unaligned_be32 b p = Ok (ntohl v).
Proof.
  intros Hb Hp Hr. pose proof (fun i => byte_at_is_byte b i Hb) as HB.
  rewrite ld32_eq by lia. eexists. split; [done|].
  pose proof (HB p) as H0. pose proof (HB (p + 1)) as H1.
  pose proof (HB (p + 2)) as H2. pose proof (HB (p + 3)) as H3.
  split; [unfold is_byte in *; lia|]. rewrite ntohl_digits by done.
  unfold get_unaligned_be32. rewrite !ld8_eq, !bind_Ok_eq by lia. f_equal.
  unfold is_byte in *. rewrite !Z.shiftl_mul_pow2 by lia.
  rewrite (lor_add_low _ (byte_at b (p + 1) * 2 ^ 16) 24) by lia.
  replace (byte_at b p * 2 ^ 24 + byte_at b (p + 1) * 2 ^ 16)
    with ((byte_at b p * 256 + byte_at b (p + 1)) * 2 ^ 16) by lia.
  rewrite (lor_add_low _ (byte_at b (p + 2) * 2 ^ 8) 16) by lia.
  replace ((byte_at b p * 256 + byte_at b (p + 1)) * 2 ^ 16 + byte_at b (p + 2) * 2 ^ 8)
    with (((byte_at b p * 256 + byte_at b (p + 1)) * 256 + byte_at b (p + 2)) * 2 ^ 8) by lia.
  rewrite (lor_add_low _ (byte_at b (p + 3)) 8) by lia. lia.
Qed.

(** ** A buffer as the values of its members

    [holds b l] says that each member access of [l] reads the value given with it.
    A write adds its own member and keeps those it does not overlap, so a sequence
    of writes is followed by computing on the list. *)

Definition holds (b : bytes) (l : list (Z * field * Z)) : Prop :=
  Forall (fun '(p, f, v) => 0 <= p + field_off f /\ field_wf f /\ rd b p f = Ok v) l.

Definition fdisjb (p : Z) (f : field) (q : Z) (g : field) : bool :=
  (p + field_off f + field_bytes f <=? q + field_off g) ||
  (q + field_off g + field_bytes g <=? p + field_off f) ||
  match f, g with
  | FBits o lo w, FBits o' lo' w' =>
      (p + o =? q + o') && ((lo + w <=? lo') || (lo' + w' <=? lo))
  | _, _ => false
  end.

Lemma fdisjb_true p f q g : fdisjb p f q g = true -> fdisj p f q g.
Proof.
  unfold fdisjb, fdisj. rewrite !orb_true_iff. intros [[H|H]|H].
  - left. lia.
  - right. left. lia.
  - right. right. destruct f, g; try done. breflect. lia.
Qed.

Definition field_wfb (f : field) : bool :=
  (0 <=? field_off f) &&
  match f with FBits _ lo w => (0 <=? lo) && (0 <=? w) && (lo + w <=? 8) | _ => true end.

Lemma field_wfb_true f : field_wfb f = true -> field_wf f.
Proof. unfold field_wfb, field_wf. destruct f; breflect; lia. Qed.

(** The members a write at [p], [f] leaves alone. *)
Definition kept (p : Z) (f : field) (l : list (Z * field * Z)) : list (Z * field * Z) :=
  List.filter (fun x => fdisjb p f x.1.1 x.1.2) l.

Lemma holds_wr b n l p f x :
  bytes_ok b -> zlen b = n -> holds b l -> field_wfb f = true ->
  0 <= p + field_off f -> p + field_off f + field_bytes f <= n ->
  exists b', wr b p f x = Ok b' /\ bytes_ok b' /\ zlen b' = n /\
    changes_only b b' (p + field_off f) (field_bytes f) /\
    holds b' ((p, f, x mod field_mod f) :: kept p f l).
Proof.
  intros Hb Hn Hl Hf%field_wfb_true Hp Hr.
  destruct (wr_spec b p f x Hb Hf Hp ltac:(lia)) as (b'&E&Hb'&C&R).
  exists b'. split; [done|]. split; [done|]. split; [destruct C; lia|]. split; [done|].
  constructor; [done|]. unfold kept. apply Forall_forall. intros [[q g] v] Hin.
  apply list_elem_of_In, List.filter_In in Hin as [Hin Hd]. apply list_elem_of_In in Hin.
  simpl in Hd.
  unfold holds in Hl. rewrite Forall_forall in Hl. destruct (Hl _ Hin) as (Hq&Hg&Hv).
  split; [done|]. split; [done|]. rewrite <-Hv.
  eapply rd_wr_disj; try done; [lia|]. by apply fdisjb_true.
Qed.

(** Writing a block of bytes keeps the members outside it. *)
Lemma holds_put b n l o s :
  bytes_ok b -> zlen b = n -> holds b l -> bytes_ok s -> 0 <= o -> o + zlen s <= n ->
  Forall (fun x => x.1.1 + field_off x.1.2 + field_bytes x.1.2 <= o \/
                   o + zlen s <= x.1.1 + field_off x.1.2) l ->
  exists b', put_bytes b o s = Ok b' /\ bytes_ok b' /\ zlen b' = n /\ holds b' l /\
    get_bytes b' o (zlen s) = Ok s.
Proof.
  intros Hb Hn Hl Hs Ho Hr Hd. destruct (put_bytes_in b o s) as [b' E]; [lia..|].
  exists b'. split; [done|].
  split; [eapply put_bytes_bytes_ok; [exact Hb|exact Hs|exact E]|].
  split; [by rewrite (put_bytes_zlen _ _ _ _ E)|]. split; [|by eapply get_put_same].
  pose proof (put_changes_only _ _ _ _ E) as C. unfold holds in *.
  rewrite Forall_forall in *. intros [[q g] v] Hin.
  destruct (Hl _ Hin) as (Hq&Hg&Hv). specialize (Hd _ Hin). simpl in *.
  split; [done|]. split; [done|]. rewrite <-Hv. by eapply changes_only_rd.
Qed.

(** The same when all of them lie before it. *)
Definition ends_before (o : Z) (l : list (Z * field * Z)) : bool :=
  forallb (fun x => x.1.1 + field_off x.1.2 + field_bytes x.1.2 <=? o) l.

Lemma holds_put_after b n l o s :
  bytes_ok b -> zlen b = n -> holds b l -> bytes_ok s -> 0 <= o -> o + zlen s <= n ->
  ends_before o l = true ->
  exists b', put_bytes b o s = Ok b' /\ bytes_ok b' /\ zlen b' = n /\ holds b' l /\
    get_bytes b' o (zlen s) = Ok s.
Proof.
  intros Hb Hn Hl Hs Ho Hr He. apply holds_put; try done. apply Forall_forall.
  intros x Hx. unfold ends_before in He. rewrite forallb_forall in He.
  apply list_elem_of_In in Hx. specialize (He x Hx). left. lia.
Qed.

Lemma holds_rd b l p f v : holds b l -> (p, f, v) ∈ l -> rd b p f = Ok v.
Proof. unfold holds. rewrite Forall_forall. intros H Hin. by destruct (H _ Hin) as (_&_&?). Qed.

Lemma holds_nil b : holds b [].
Proof. constructor. Qed.

(** Turn the next write of the goal, on a buffer whose validity, length and members
    are known, into the same facts about the new buffer.  The value written is
    named, so that the list of members stays small. *)
Ltac wr_step :=
  match goal with
  | Hb : bytes_ok ?b, Hn : zlen ?b = ?n, Hl : holds ?b ?l
    |- context [wr ?b ?p ?f ?x] =>
      let b' := fresh "b" in
      let E := fresh "E" in
      let Hb' := fresh "Hb" in
      let Hn' := fresh "Hn" in
      let Hl' := fresh "Hl" in
      let v := fresh "v" in
      let Ev := fresh "Ev" in
      destruct (holds_wr b n l p f x Hb Hn Hl eq_refl ltac:(simpl; lia) ltac:(simpl; lia))
        as (b'&E&Hb'&Hn'&_&Hl');
      rewrite E, ?bind_Ok_eq; clear E Hb Hn Hl;
      remember (x mod field_mod f) as v eqn:Ev in Hl'; simpl in Hl'
  end.
