(* ===== verification/Packet.v ===== *)
(** * Packet: the packet object of packet.h and packet.c

    A packet owns one byte buffer; every pointer it holds (the header metadata,
    the innermost IPv4/IPv6/TCP/UDP/ICMP headers, the timestamp locations)
    points into that buffer and is an offset here, NULL being [None].  Also the
    types of types.h and header.h that packets are made of. *)

From S2P Require Import Prelude Headers.

(** [types.h:82-86] enum direction_t *)
Inductive direction_t := DIRECTION_INVALID | DIRECTION_INBOUND | DIRECTION_OUTBOUND.

(** [types.h:89-97] reverse_direction *)
Definition reverse_direction (direction : direction_t) : exec direction_t :=
  match direction with
  | DIRECTION_INBOUND => Ok DIRECTION_OUTBOUND
  | DIRECTION_OUTBOUND => Ok DIRECTION_INBOUND
  | DIRECTION_INVALID => Fault AssertFailed
  end.

(** [types.h:100-104] enum tos_chk_t *)
Inductive tos_chk_t := TOS_CHECK_NONE | TOS_CHECK_ECN | TOS_CHECK_TOS.

(** [types.h:106-109] struct tos_spec *)
Record tos_spec := mk_tos { tos_check : tos_chk_t; tos_value : Z }.

(** [types.h:120-120] TTL_CHECK_NONE *)
Definition TTL_CHECK_NONE : Z := 255.

(** [types.h:122-126] struct ip_info *)
Record ip_info := mk_ip_info { info_tos : tos_spec; info_flow_label : Z; info_ttl : Z }.

(** [types.h:177-190] is_valid_u8, is_valid_u16, is_valid_u32 *)
Definition is_valid_u8 (x : Z) : bool := (0 <=? x) && (x <=? 255).
Definition is_valid_u16 (x : Z) : bool := (0 <=? x) && (x <=? 65535).
Definition is_valid_u32 (x : Z) : bool := (0 <=? x) && (x <=? 4294967295).

(** [types.h:75-79] enum status_t: an error carries the text stored in *error *)
Inductive status_t := STATUS_OK | STATUS_ERR (error : string) | STATUS_WARN (error : string).

(** [header.h:45-56] enum header_t *)
Inductive header_t :=
  | HEADER_NONE
  | HEADER_IPV4
  | HEADER_IPV6
  | HEADER_GRE
  | HEADER_MPLS
  | HEADER_TCP
  | HEADER_UDP
  | HEADER_ICMPV4
  | HEADER_ICMPV6
  | HEADER_NUM_TYPES.

#[export] Instance direction_eq_dec : EqDecision direction_t.
Proof. solve_decision. Defined.
#[export] Instance tos_chk_eq_dec : EqDecision tos_chk_t.
Proof. solve_decision. Defined.
#[export] Instance header_t_eq_dec : EqDecision header_t.
Proof. solve_decision. Defined.
#[export] Instance status_eq_dec : EqDecision status_t.
Proof. solve_decision. Defined.

(** [header.h:59-75] struct header *)
Record header := mk_header {
  h_type : header_t;
  h_header_bytes : Z;
  h_total_bytes : Z;
  h_ptr : option Z
}.

#[export] Instance header_eq_dec : EqDecision header.
Proof. solve_decision. Defined.

Definition header_none : header := mk_header HEADER_NONE 0 0 None.
Definition set_h_total_bytes (v : Z) (h : header) : header :=
  mk_header (h_type h) (h_header_bytes h) v (h_ptr h).

(** [packet.h:46-46] MAX_TCP_HEADER_BYTES *)
Definition MAX_TCP_HEADER_BYTES : Z := 15 * 4.
(** [packet.h:48-48] MAX_TCP_DATAGRAM_BYTES *)
Definition MAX_TCP_DATAGRAM_BYTES : Z := 64 * 1024.
(** [packet.h:49-49] MAX_UDP_DATAGRAM_BYTES *)
Definition MAX_UDP_DATAGRAM_BYTES : Z := 64 * 1024.
(** [packet.h:58-58] PACKET_MAX_HEADERS *)
Definition PACKET_MAX_HEADERS : Z := 6.
(** [packet.h:61-61] PACKET_MAX_HEADER_BYTES *)
Definition PACKET_MAX_HEADER_BYTES : Z := 256.
(** [packet.h:105-105] FLAG_WIN_NOCHECK *)
Definition FLAG_WIN_NOCHECK : Z := 1.
(** [packet.h:106-106] FLAG_OPTIONS_NOCHECK *)
Definition FLAG_OPTIONS_NOCHECK : Z := 2.

(** [packet.h:69-113] struct packet *)
Record packet := mk_packet {
  pk_buffer : bytes;
  pk_buffer_bytes : Z;
  pk_l2_header_bytes : Z;
  pk_ip_bytes : Z;
  pk_direction : direction_t;
  pk_headers : list header;
  pk_ipv4 : option Z;
  pk_ipv6 : option Z;
  pk_tcp : option Z;
  pk_udp : option Z;
  pk_icmpv4 : option Z;
  pk_icmpv6 : option Z;
  pk_echoed_header : bool;
  pk_time_usecs : Z;
  pk_flags : Z;
  pk_tos_chk : tos_chk_t;
  pk_tcp_ts_val : option Z;
  pk_tcp_ts_ecr : option Z;
  pk_mss : Z
}.

(** Assignments to the members of a packet. *)
Definition set_pk_buffer (v : bytes) (p : packet) : packet :=
  mk_packet v (pk_buffer_bytes p) (pk_l2_header_bytes p) (pk_ip_bytes p)
    (pk_direction p) (pk_headers p) (pk_ipv4 p) (pk_ipv6 p) (pk_tcp p) (pk_udp p)
    (pk_icmpv4 p) (pk_icmpv6 p) (pk_echoed_header p) (pk_time_usecs p) (pk_flags p)
    (pk_tos_chk p) (pk_tcp_ts_val p) (pk_tcp_ts_ecr p) (pk_mss p).
Definition set_pk_buffer_bytes (v : Z) (p : packet) : packet :=
  mk_packet (pk_buffer p) v (pk_l2_header_bytes p) (pk_ip_bytes p) (pk_direction p)
    (pk_headers p) (pk_ipv4 p) (pk_ipv6 p) (pk_tcp p) (pk_udp p) (pk_icmpv4 p)
    (pk_icmpv6 p) (pk_echoed_header p) (pk_time_usecs p) (pk_flags p) (pk_tos_chk p)
    (pk_tcp_ts_val p) (pk_tcp_ts_ecr p) (pk_mss p).
Definition set_pk_l2_header_bytes (v : Z) (p : packet) : packet :=
  mk_packet (pk_buffer p) (pk_buffer_bytes p) v (pk_ip_bytes p) (pk_direction p)
    (pk_headers p) (pk_ipv4 p) (pk_ipv6 p) (pk_tcp p) (pk_udp p) (pk_icmpv4 p)
    (pk_icmpv6 p) (pk_echoed_header p) (pk_time_usecs p) (pk_flags p) (pk_tos_chk p)
    (pk_tcp_ts_val p) (pk_tcp_ts_ecr p) (pk_mss p).
Definition set_pk_ip_bytes (v : Z) (p : packet) : packet :=
  mk_packet (pk_buffer p) (pk_buffer_bytes p) (pk_l2_header_bytes p) v (pk_direction p)
    (pk_headers p) (pk_ipv4 p) (pk_ipv6 p) (pk_tcp p) (pk_udp p) (pk_icmpv4 p)
    (pk_icmpv6 p) (pk_echoed_header p) (pk_time_usecs p) (pk_flags p) (pk_tos_chk p)
    (pk_tcp_ts_val p) (pk_tcp_ts_ecr p) (pk_mss p).
Definition set_pk_direction (v : direction_t) (p : packet) : packet :=
  mk_packet (pk_buffer p) (pk_buffer_bytes p) (pk_l2_header_bytes p) (pk_ip_bytes p) v
    (pk_headers p) (pk_ipv4 p) (pk_ipv6 p) (pk_tcp p) (pk_udp p) (pk_icmpv4 p)
    (pk_icmpv6 p) (pk_echoed_header p) (pk_time_usecs p) (pk_flags p) (pk_tos_chk p)
    (pk_tcp_ts_val p) (pk_tcp_ts_ecr p) (pk_mss p).
Definition set_pk_headers (v : list header) (p : packet) : packet :=
  mk_packet (pk_buffer p) (pk_buffer_bytes p) (pk_l2_header_bytes p) (pk_ip_bytes p)
    (pk_direction p) v (pk_ipv4 p) (pk_ipv6 p) (pk_tcp p) (pk_udp p) (pk_icmpv4 p)
    (pk_icmpv6 p) (pk_echoed_header p) (pk_time_usecs p) (pk_flags p) (pk_tos_chk p)
    (pk_tcp_ts_val p) (pk_tcp_ts_ecr p) (pk_mss p).
Definition set_pk_ipv4 (v : option Z) (p : packet) : packet :=
  mk_packet (pk_buffer p) (pk_buffer_bytes p) (pk_l2_header_bytes p) (pk_ip_bytes p)
    (pk_direction p) (pk_headers p) v (pk_ipv6 p) (pk_tcp p) (pk_udp p) (pk_icmpv4 p)
    (pk_icmpv6 p) (pk_echoed_header p) (pk_time_usecs p) (pk_flags p) (pk_tos_chk p)
    (pk_tcp_ts_val p) (pk_tcp_ts_ecr p) (pk_mss p).
Definition set_pk_ipv6 (v : option Z) (p : packet) : packet :=
  mk_packet (pk_buffer p) (pk_buffer_bytes p) (pk_l2_header_bytes p) (pk_ip_bytes p)
    (pk_direction p) (pk_headers p) (pk_ipv4 p) v (pk_tcp p) (pk_udp p) (pk_icmpv4 p)
    (pk_icmpv6 p) (pk_echoed_header p) (pk_time_usecs p) (pk_flags p) (pk_tos_chk p)
    (pk_tcp_ts_val p) (pk_tcp_ts_ecr p) (pk_mss p).
Definition set_pk_tcp (v : option Z) (p : packet) : packet :=
  mk_packet (pk_buffer p) (pk_buffer_bytes p) (pk_l2_header_bytes p) (pk_ip_bytes p)
    (pk_direction p) (pk_headers p) (pk_ipv4 p) (pk_ipv6 p) v (pk_udp p) (pk_icmpv4 p)
    (pk_icmpv6 p) (pk_echoed_header p) (pk_time_usecs p) (pk_flags p) (pk_tos_chk p)
    (pk_tcp_ts_val p) (pk_tcp_ts_ecr p) (pk_mss p).
Definition set_pk_udp (v : option Z) (p : packet) : packet :=
  mk_packet (pk_buffer p) (pk_buffer_bytes p) (pk_l2_header_bytes p) (pk_ip_bytes p)
    (pk_direction p) (pk_headers p) (pk_ipv4 p) (pk_ipv6 p) (pk_tcp p) v (pk_icmpv4 p)
    (pk_icmpv6 p) (pk_echoed_header p) (pk_time_usecs p) (pk_flags p) (pk_tos_chk p)
    (pk_tcp_ts_val p) (pk_tcp_ts_ecr p) (pk_mss p).
Definition set_pk_icmpv4 (v : option Z) (p : packet) : packet :=
  mk_packet (pk_buffer p) (pk_buffer_bytes p) (pk_l2_header_bytes p) (pk_ip_bytes p)
    (pk_direction p) (pk_headers p) (pk_ipv4 p) (pk_ipv6 p) (pk_tcp p) (pk_udp p) v
    (pk_icmpv6 p) (pk_echoed_header p) (pk_time_usecs p) (pk_flags p) (pk_tos_chk p)
    (pk_tcp_ts_val p) (pk_tcp_ts_ecr p) (pk_mss p).
Definition set_pk_icmpv6 (v : option Z) (p : packet) : packet :=
  mk_packet (pk_buffer p) (pk_buffer_bytes p) (pk_l2_header_bytes p) (pk_ip_bytes p)
    (pk_direction p) (pk_headers p) (pk_ipv4 p) (pk_ipv6 p) (pk_tcp p) (pk_udp p)
    (pk_icmpv4 p) v (pk_echoed_header p) (pk_time_usecs p) (pk_flags p) (pk_tos_chk p)
    (pk_tcp_ts_val p) (pk_tcp_ts_ecr p) (pk_mss p).
Definition set_pk_echoed_header (v : bool) (p : packet) : packet :=
  mk_packet (pk_buffer p) (pk_buffer_bytes p) (pk_l2_header_bytes p) (pk_ip_bytes p)
    (pk_direction p) (pk_headers p) (pk_ipv4 p) (pk_ipv6 p) (pk_tcp p) (pk_udp p)
    (pk_icmpv4 p) (pk_icmpv6 p) v (pk_time_usecs p) (pk_flags p) (pk_tos_chk p)
    (pk_tcp_ts_val p) (pk_tcp_ts_ecr p) (pk_mss p).
Definition set_pk_time_usecs (v : Z) (p : packet) : packet :=
  mk_packet (pk_buffer p) (pk_buffer_bytes p) (pk_l2_header_bytes p) (pk_ip_bytes p)
    (pk_direction p) (pk_headers p) (pk_ipv4 p) (pk_ipv6 p) (pk_tcp p) (pk_udp p)
    (pk_icmpv4 p) (pk_icmpv6 p) (pk_echoed_header p) v (pk_flags p) (pk_tos_chk p)
    (pk_tcp_ts_val p) (pk_tcp_ts_ecr p) (pk_mss p).
Definition set_pk_flags (v : Z) (p : packet) : packet :=
  mk_packet (pk_buffer p) (pk_buffer_bytes p) (pk_l2_header_bytes p) (pk_ip_bytes p)
    (pk_direction p) (pk_headers p) (pk_ipv4 p) (pk_ipv6 p) (pk_tcp p) (pk_udp p)
    (pk_icmpv4 p) (pk_icmpv6 p) (pk_echoed_header p) (pk_time_usecs p) v (pk_tos_chk p)
    (pk_tcp_ts_val p) (pk_tcp_ts_ecr p) (pk_mss p).
Definition set_pk_tos_chk (v : tos_chk_t) (p : packet) : packet :=
  mk_packet (pk_buffer p) (pk_buffer_bytes p) (pk_l2_header_bytes p) (pk_ip_bytes p)
    (pk_direction p) (pk_headers p) (pk_ipv4 p) (pk_ipv6 p) (pk_tcp p) (pk_udp p)
    (pk_icmpv4 p) (pk_icmpv6 p) (pk_echoed_header p) (pk_time_usecs p) (pk_flags p) v
    (pk_tcp_ts_val p) (pk_tcp_ts_ecr p) (pk_mss p).
Definition set_pk_tcp_ts_val (v : option Z) (p : packet) : packet :=
  mk_packet (pk_buffer p) (pk_buffer_bytes p) (pk_l2_header_bytes p) (pk_ip_bytes p)
    (pk_direction p) (pk_headers p) (pk_ipv4 p) (pk_ipv6 p) (pk_tcp p) (pk_udp p)
    (pk_icmpv4 p) (pk_icmpv6 p) (pk_echoed_header p) (pk_time_usecs p) (pk_flags p)
    (pk_tos_chk p) v (pk_tcp_ts_ecr p) (pk_mss p).
Definition set_pk_tcp_ts_ecr (v : option Z) (p : packet) : packet :=
  mk_packet (pk_buffer p) (pk_buffer_bytes p) (pk_l2_header_bytes p) (pk_ip_bytes p)
    (pk_direction p) (pk_headers p) (pk_ipv4 p) (pk_ipv6 p) (pk_tcp p) (pk_udp p)
    (pk_icmpv4 p) (pk_icmpv6 p) (pk_echoed_header p) (pk_time_usecs p) (pk_flags p)
    (pk_tos_chk p) (pk_tcp_ts_val p) v (pk_mss p).
Definition set_pk_mss (v : Z) (p : packet) : packet :=
  mk_packet (pk_buffer p) (pk_buffer_bytes p) (pk_l2_header_bytes p) (pk_ip_bytes p)
    (pk_direction p) (pk_headers p) (pk_ipv4 p) (pk_ipv6 p) (pk_tcp p) (pk_udp p)
    (pk_icmpv4 p) (pk_icmpv6 p) (pk_echoed_header p) (pk_time_usecs p) (pk_flags p)
    (pk_tos_chk p) (pk_tcp_ts_val p) (pk_tcp_ts_ecr p) v.

(** A member access and an assignment through a pointer into the buffer. *)
Definition prd (p : packet) (ptr : Z) (f : field) : exec Z := rd (pk_buffer p) ptr f.
Definition pwr (p : packet) (ptr : Z) (f : field) (v : Z) : exec packet :=
  b ← wr (pk_buffer p) ptr f v; Ok (set_pk_buffer b p).

Lemma set_buffer_twice b b' pkt : set_pk_buffer b (set_pk_buffer b' pkt) = set_pk_buffer b pkt.
Proof. done. Qed.

(** ** Allocation

    [malloc] returns a block of the requested size with unspecified contents. *)
Class Malloc := {
  malloc : Z -> bytes;
  malloc_zlen : forall n, 0 <= n -> zlen (malloc n) = n;
  malloc_ok : forall n, bytes_ok (malloc n)
}.

(** [packet.c:51-57] packet_new *)
Definition packet_new `{Malloc} (buffer_bytes : Z) : packet :=
  mk_packet (malloc buffer_bytes) buffer_bytes 0 0 DIRECTION_INVALID
    (replicate 6 header_none) None None None None None None false 0 0 TOS_CHECK_NONE
    None None 0.

(** [packet.c:85-94] packet_header_count *)
Fixpoint headers_count (hs : list header) : Z :=
  match hs with
  | [] => 0
  | h :: rest => if decide (h_type h = HEADER_NONE) then 0 else 1 + headers_count rest
  end.
Definition packet_header_count (pkt : packet) : Z := headers_count (pk_headers pkt).

(** [packet.c:119-143] packet_append_header: the packet and the index of the new
    header, or the unchanged packet and NULL *)
Definition packet_append_header (pkt : packet) (header_type : header_t)
    (header_bytes : Z) : exec (packet * option nat) :=
  let num_headers := packet_header_count pkt in
  _ ← c_assert (num_headers <=? PACKET_MAX_HEADERS);
  if num_headers =? PACKET_MAX_HEADERS then Ok (pkt, None)
  else if pk_buffer_bytes pkt <? u32 (pk_ip_bytes pkt + header_bytes) then
    Ok (pkt, None)
  else
    let packet_bytes := s32 (pk_l2_header_bytes pkt + pk_ip_bytes pkt) in
    let header := mk_header header_type (u32 header_bytes) 0 (Some packet_bytes) in
    let i := Z.to_nat num_headers in
    Ok (set_pk_ip_bytes (u32 (pk_ip_bytes pkt + header_bytes))
          (set_pk_headers (<[i := header]> (pk_headers pkt)) pkt), Some i).

(** Updating header->total_bytes through the pointer [packet_append_header] returned. *)
Definition set_header_total (i : nat) (total : Z) (pkt : packet) : packet :=
  set_pk_headers (alter (set_h_total_bytes total) i (pk_headers pkt)) pkt.

(** [packet.h:177-180] packet_direction *)
Definition packet_direction (pkt : packet) : direction_t := pk_direction pkt.

(** [packet.h:185-192] packet_address_family *)
Definition packet_address_family (pkt : packet) : Z :=
  if bool_decide (is_Some (pk_ipv4 pkt)) then AF_INET
  else if bool_decide (is_Some (pk_ipv6 pkt)) then AF_INET6
  else AF_UNSPEC.

(** [packet.h:195-200] packet_start *)
Definition packet_start (pkt : packet) : exec Z :=
  match h_ptr (nth 0 (pk_headers pkt) header_none) with
  | Some start => Ok start
  | None => Fault AssertFailed
  end.

(** [packet.h:203-211] ip_start *)
Definition ip_start (pkt : packet) : exec Z :=
  match pk_ipv4 pkt, pk_ipv6 pkt with
  | Some ipv4, _ => Ok ipv4
  | None, Some ipv6 => Ok ipv6
  | None, None => Fault AssertFailed
  end.

(** [packet.h:217-225] ip_header_min_len *)
Definition ip_header_min_len (address_family : Z) : exec Z :=
  if address_family =? AF_INET then Ok sizeof_ipv4
  else if address_family =? AF_INET6 then Ok sizeof_ipv6
  else Fault AssertFailed.

(** [packet.h:228-236] packet_ip_protocol *)
Definition packet_ip_protocol (pkt : packet) : exec Z :=
  match pk_ipv4 pkt, pk_ipv6 pkt with
  | Some ipv4, _ => prd pkt ipv4 ipv4_protocol
  | None, Some ipv6 => prd pkt ipv6 ipv6_next_header
  | None, None => Fault AssertFailed
  end.

(** [packet.h:239-247] layer4_header_len *)
Definition layer4_header_len (protocol : Z) : exec Z :=
  if protocol =? IPPROTO_TCP then Ok sizeof_tcp
  else if protocol =? IPPROTO_UDP then Ok sizeof_udp
  else Fault AssertFailed.

(** A pointer the source asserts not to be NULL. *)
Definition assert_ptr {A} (p : option A) : exec A :=
  match p with
  | Some o => Ok o
  | None => Fault AssertFailed
  end.

(** [packet.h:250-254] packet_tcp_header_len *)
Definition packet_tcp_header_len (pkt : packet) : exec Z :=
  tcp ← assert_ptr (pk_tcp pkt);
  doff ← prd pkt tcp tcp_doff;
  Ok (doff * 4).

(** [packet.h:257-261] packet_udp_header_len *)
Definition packet_udp_header_len (pkt : packet) : exec Z :=
  _ ← assert_ptr (pk_udp pkt); Ok sizeof_udp.

(** [packet.h:264-268] packet_icmpv4_header_len *)
Definition packet_icmpv4_header_len (pkt : packet) : exec Z :=
  _ ← assert_ptr (pk_icmpv4 pkt); Ok sizeof_icmpv4.

(** [packet.h:271-275] packet_icmpv6_header_len *)
Definition packet_icmpv6_header_len (pkt : packet) : exec Z :=
  _ ← assert_ptr (pk_icmpv6 pkt); Ok sizeof_icmpv6.

(** [packet.h:278-282] packet_tcp_options_len *)
Definition packet_tcp_options_len (pkt : packet) : exec Z :=
  _ ← assert_ptr (pk_tcp pkt);
  len ← packet_tcp_header_len pkt;
  Ok (len - sizeof_tcp).

(** [packet.h:285-289] packet_tcp_options *)
Definition packet_tcp_options (pkt : packet) : exec Z :=
  tcp ← assert_ptr (pk_tcp pkt); Ok (tcp + sizeof_tcp).

(** [packet.h:291-294] packet_tcp_ts_val *)
Definition packet_tcp_ts_val (pkt : packet) : exec Z :=
  p ← deref (pk_tcp_ts_val pkt); get_unaligned_be32 (pk_buffer pkt) p.

(** [packet.h:296-299] packet_tcp_ts_ecr *)
Definition packet_tcp_ts_ecr (pkt : packet) : exec Z :=
  p ← deref (pk_tcp_ts_ecr pkt); get_unaligned_be32 (pk_buffer pkt) p.

(** [packet.h:301-304] packet_set_tcp_ts_val *)
Definition packet_set_tcp_ts_val (pkt : packet) (ts_val : Z) : exec packet :=
  p ← deref (pk_tcp_ts_val pkt);
  b ← put_unaligned_be32 ts_val (pk_buffer pkt) p;
  Ok (set_pk_buffer b pkt).

(** [packet.h:306-309] packet_set_tcp_ts_ecr *)
Definition packet_set_tcp_ts_ecr (pkt : packet) (ts_ecr : Z) : exec packet :=
  p ← deref (pk_tcp_ts_ecr pkt);
  b ← put_unaligned_be32 ts_ecr (pk_buffer pkt) p;
  Ok (set_pk_buffer b pkt).

(** [packet.h:312-325] packet_payload *)
Definition packet_payload (pkt : packet) : exec Z :=
  match pk_tcp pkt, pk_udp pkt, pk_icmpv4 pkt, pk_icmpv6 pkt with
  | Some tcp, _, _, _ => len ← packet_tcp_header_len pkt; Ok (tcp + len)
  | None, Some udp, _, _ => len ← packet_udp_header_len pkt; Ok (udp + len)
  | None, None, Some icmpv4, _ => len ← packet_icmpv4_header_len pkt; Ok (icmpv4 + len)
  | None, None, None, Some icmpv6 => len ← packet_icmpv6_header_len pkt; Ok (icmpv6 + len)
  | None, None, None, None => Fault AssertFailed
  end.

(** [packet.h:328-331] packet_end *)
Definition packet_end (pkt : packet) : exec Z :=
  start ← packet_start pkt; Ok (start + pk_ip_bytes pkt).

(** [packet.h:334-337] packet_payload_len *)
Definition packet_payload_len (pkt : packet) : exec Z :=
  pend ← packet_end pkt;
  payload ← packet_payload pkt;
  Ok (s32 (pend - payload)).

(** [packet.h:340-348] packet_echoed_ip_header *)
Definition packet_echoed_ip_header (pkt : packet) : exec Z :=
  match pk_icmpv4 pkt, pk_icmpv6 pkt with
  | Some icmpv4, _ => Ok (icmpv4 + sizeof_icmpv4)
  | None, Some icmpv6 => Ok (icmpv6 + sizeof_icmpv6)
  | None, None => Fault AssertFailed
  end.

(** [packet.h:351-355] packet_echoed_ipv4_header *)
Definition packet_echoed_ipv4_header (pkt : packet) : option Z :=
  (fun icmpv4 => icmpv4 + sizeof_icmpv4) <$> pk_icmpv4 pkt.

(** [packet.h:358-362] packet_echoed_ipv6_header *)
Definition packet_echoed_ipv6_header (pkt : packet) : option Z :=
  (fun icmpv6 => icmpv6 + sizeof_icmpv6) <$> pk_icmpv6 pkt.

(** [packet.h:367-375] packet_echoed_ip_header_len *)
Definition packet_echoed_ip_header_len (pkt : packet) : exec Z :=
  match pk_icmpv4 pkt, pk_icmpv6 pkt with
  | Some _, _ => Ok sizeof_ipv4
  | None, Some _ => Ok sizeof_ipv6
  | None, None => Fault AssertFailed
  end.

(** [packet.h:378-386] packet_echoed_ip_protocol *)
Definition packet_echoed_ip_protocol (pkt : packet) : exec Z :=
  match packet_echoed_ipv4_header pkt, packet_echoed_ipv6_header pkt with
  | Some ipv4, _ => prd pkt ipv4 ipv4_protocol
  | None, Some ipv6 => prd pkt ipv6 ipv6_next_header
  | None, None => Fault AssertFailed
  end.

(** [packet.h:389-394] packet_echoed_layer4_header *)
Definition packet_echoed_layer4_header (pkt : packet) : exec Z :=
  echoed_ip ← packet_echoed_ip_header pkt;
  ip_header_len ← packet_echoed_ip_header_len pkt;
  Ok (echoed_ip + ip_header_len).

(** [packet.h:397-402] packet_echoed_tcp_header *)
Definition packet_echoed_tcp_header (pkt : packet) : exec (option Z) :=
  protocol ← packet_echoed_ip_protocol pkt;
  if protocol =? IPPROTO_TCP then Some <$> packet_echoed_layer4_header pkt else Ok None.

(** [packet.h:405-410] packet_echoed_udp_header *)
Definition packet_echoed_udp_header (pkt : packet) : exec (option Z) :=
  protocol ← packet_echoed_ip_protocol pkt;
  if protocol =? IPPROTO_UDP then Some <$> packet_echoed_layer4_header pkt else Ok None.

(** [packet.h:413-423] packet_echoed_tcp_seq: the location of the member *)
Definition packet_echoed_tcp_seq (pkt : packet) : exec Z :=
  echoed_tcp ← packet_echoed_tcp_header pkt;
  tcp ← assert_ptr echoed_tcp;
  let seq := tcp + field_off tcp_seq in
  _ ← c_assert (seq + 4 <=? tcp + ICMP_ECHO_BYTES);
  Ok seq.

(** ** Copying *)

(** [packet.c:105-116] the loop of packet_copy_headers over both header arrays *)
Fixpoint copy_headers_loop (new old : list header) (bytes_headroom : Z)
    : exec (list header) :=
  match old, new with
  | o :: old', n :: new' =>
      if decide (h_type o = HEADER_NONE) then Ok (n :: new')
      else
        offset ← deref (h_ptr o);
        rest ← copy_headers_loop new' old' bytes_headroom;
        Ok (mk_header (h_type o) (h_header_bytes o) (h_total_bytes o)
              (Some (bytes_headroom + offset)) :: rest)
  | _, _ => Ok new
  end.

(** [packet.c:97-117] packet_copy_headers *)
Definition packet_copy_headers (new_packet old_packet : packet) (bytes_headroom : Z)
    : exec packet :=
  hs ← copy_headers_loop (pk_headers new_packet) (pk_headers old_packet) bytes_headroom;
  Ok (set_pk_headers hs new_packet).

(** [packet.c:146-151] offset_ptr: the same offset from a base that is
    [bytes_headroom] into the new buffer *)
Definition offset_ptr (bytes_headroom : Z) (old_ptr : option Z) : option Z :=
  match old_ptr with
  | None => None
  | Some old => Some (bytes_headroom + old)
  end.

(** [packet.c:153-182] packet_duplicate_info *)
Definition packet_duplicate_info (pkt old_packet : packet) (bytes_headroom extra_payload : Z)
    : exec packet :=
  let pkt := set_pk_ip_bytes (u32 (pk_ip_bytes old_packet + extra_payload)) pkt in
  let pkt := set_pk_direction (pk_direction old_packet) pkt in
  let pkt := set_pk_time_usecs (pk_time_usecs old_packet) pkt in
  let pkt := set_pk_flags (pk_flags old_packet) pkt in
  let pkt := set_pk_tos_chk (pk_tos_chk old_packet) pkt in
  pkt ← packet_copy_headers pkt old_packet bytes_headroom;
  let pkt := set_pk_ipv4 (offset_ptr bytes_headroom (pk_ipv4 old_packet)) pkt in
  let pkt := set_pk_ipv6 (offset_ptr bytes_headroom (pk_ipv6 old_packet)) pkt in
  let pkt := set_pk_tcp (offset_ptr bytes_headroom (pk_tcp old_packet)) pkt in
  let pkt := set_pk_udp (offset_ptr bytes_headroom (pk_udp old_packet)) pkt in
  let pkt := set_pk_icmpv4 (offset_ptr bytes_headroom (pk_icmpv4 old_packet)) pkt in
  let pkt := set_pk_icmpv6 (offset_ptr bytes_headroom (pk_icmpv6 old_packet)) pkt in
  let pkt := set_pk_tcp_ts_val (offset_ptr bytes_headroom (pk_tcp_ts_val old_packet)) pkt in
  let pkt := set_pk_tcp_ts_ecr (offset_ptr bytes_headroom (pk_tcp_ts_ecr old_packet)) pkt in
  let pkt := set_pk_echoed_header (pk_echoed_header old_packet) pkt in
  Ok pkt.

(** memcpy into a packet's buffer. *)
Definition pkt_memcpy (pkt : packet) (dst : Z) (l : bytes) : exec packet :=
  b ← put_bytes (pk_buffer pkt) dst l; Ok (set_pk_buffer b pkt).

(** [packet.c:189-205] packet_copy_with_headroom *)
Definition packet_copy_with_headroom `{Malloc} (old_packet : packet) (bytes_headroom : Z)
    : exec packet :=
  pend ← packet_end old_packet;
  let bytes_used := s32 pend in
  _ ← c_assert (0 <=? bytes_used);
  _ ← c_assert (bytes_used <=? 128 * 1024);
  let pkt := packet_new (u32 (bytes_headroom + bytes_used)) in
  src ← get_bytes (pk_buffer old_packet) 0 bytes_used;
  pkt ← pkt_memcpy pkt bytes_headroom src;
  packet_duplicate_info pkt old_packet bytes_headroom 0.

(** [packet.c:207-210] packet_copy *)
Definition packet_copy `{Malloc} (old_packet : packet) : exec packet :=
  packet_copy_with_headroom old_packet 0.

(** [packet.c:39-49] header_types: the IP and Ethernet protocol codes of a header
    type; [packet.c:262-268] header_type_info *)
Record header_type_info_t := mk_type_info { type_ip_proto : Z; type_eth_proto : Z }.
(** [packet.c:262-268] header_type_info *)
Definition header_type_info (header_type : header_t) : exec header_type_info_t :=
  match header_type with
  | HEADER_NONE => Fault AssertFailed
  | HEADER_IPV4 => Ok (mk_type_info IPPROTO_IPIP ETHERTYPE_IP)
  | HEADER_IPV6 => Ok (mk_type_info IPPROTO_IPV6 ETHERTYPE_IPV6)
  | HEADER_GRE => Ok (mk_type_info IPPROTO_GRE 0)
  | HEADER_MPLS => Ok (mk_type_info 0 ETHERTYPE_MPLS_UC)
  | HEADER_TCP => Ok (mk_type_info IPPROTO_TCP 0)
  | HEADER_UDP => Ok (mk_type_info IPPROTO_UDP 0)
  | HEADER_ICMPV4 => Ok (mk_type_info IPPROTO_ICMP 0)
  | HEADER_ICMPV6 => Ok (mk_type_info IPPROTO_ICMPV6 0)
  | HEADER_NUM_TYPES => Fault AssertFailed
  end.

(** ** The header array: used slots first, then empty ones *)

Definition hdrs (used : list header) : list header :=
  used ++ replicate (6 - length used) header_none.

Definition header_used (h : header) : Prop :=
  h_type h <> HEADER_NONE /\ is_Some (h_ptr h).

Definition headers_ok (hs used : list header) : Prop :=
  hs = hdrs used /\ (length used <= 6)%nat /\ Forall header_used used.

Lemma headers_ok_nil : headers_ok (replicate 6 header_none) [].
Proof. split; [done|]. split; [simpl; lia|constructor]. Qed.

Lemma headers_count_hdrs hs used : headers_ok hs used -> headers_count hs = zlen used.
Proof.
  intros (->&Hl&Hu). unfold hdrs. clear Hl. generalize (6 - length used)%nat. intros k.
  induction Hu as [|h l [Ht _] Hu IH]; [by destruct k|]. cbn [app headers_count].
  rewrite decide_False by done. rewrite IH, zlen_cons. done.
Qed.

Lemma hdrs_snoc used h : (length used < 6)%nat ->
  <[length used := h]> (hdrs used) = hdrs (used ++ [h]).
Proof.
  intros Hl. unfold hdrs. rewrite insert_app_r_alt, Nat.sub_diag by lia.
  rewrite length_app. replace (6 - length used)%nat with (S (6 - (length used + 1)))%nat by lia.
  simpl. rewrite <-app_assoc. simpl. do 3 f_equal.
Qed.

Lemma alter_hdrs_last used h f : (length used < 6)%nat ->
  alter f (length used) (hdrs (used ++ [h])) = hdrs (used ++ [f h]).
Proof.
  intros Hl. unfold hdrs. rewrite !length_app. simpl. rewrite <-!app_assoc. simpl.
  assert (forall l (k : list header), alter f (length l) (l ++ h :: k) = l ++ f h :: k) as E.
  { induction l as [|x l IH]; intros k; [done|]. cbn. f_equal. apply IH. }
  apply E.
Qed.

(** [packet_append_header] takes the next slot, at the end of what is already
    in the packet, and refuses when all six are taken or the header would not
    fit in the buffer. *)
Lemma append_header_eq pkt used ty n :
  headers_ok (pk_headers pkt) used -> 0 <= n -> 0 <= pk_ip_bytes pkt ->
  pk_ip_bytes pkt + n < 4294967296 ->
  packet_append_header pkt ty n =
  if bool_decide (length used = 6%nat) || (pk_buffer_bytes pkt <? pk_ip_bytes pkt + n)
  then Ok (pkt, None)
  else Ok (set_pk_ip_bytes (pk_ip_bytes pkt + n)
             (set_pk_headers (hdrs (used ++ [mk_header ty n 0
               (Some (s32 (pk_l2_header_bytes pkt + pk_ip_bytes pkt)))])) pkt),
           Some (length used)).
Proof.
  intros Hh Hn H0 Hlt. pose proof (headers_count_hdrs _ _ Hh) as Hc.
  destruct Hh as (Hh&Hl&_). unfold packet_append_header, packet_header_count.
  rewrite Hc. unfold PACKET_MAX_HEADERS, zlen.
  destruct (Z.leb_spec (Z.of_nat (length used)) 6); [|lia]. simpl c_assert. rewrite bind_Ok_eq.
  rewrite !u32_small by lia.
  destruct (Z.eqb_spec (Z.of_nat (length used)) 6).
  { by rewrite bool_decide_true by lia. }
  rewrite bool_decide_false by lia. cbn [orb].
  destruct (pk_buffer_bytes pkt <? pk_ip_bytes pkt + n); [done|].
  rewrite Nat2Z.id. do 2 f_equal. f_equal. rewrite Hh. rewrite hdrs_snoc by lia. done.
Qed.

(** ** Copies *)

Definition shift_header (k : Z) (h : header) : header :=
  mk_header (h_type h) (h_header_bytes h) (h_total_bytes h) (offset_ptr k (h_ptr h)).

Lemma copy_headers_eq new used k m :
  Forall header_used used -> (length used <= length new)%nat ->
  copy_headers_loop new (used ++ replicate m header_none) k
  = Ok ((shift_header k <$> used) ++ drop (length used) new).
Proof.
  intros Hu. revert new. induction Hu as [|h l [Ht [o Ho]] Hu IH]; intros new Hn.
  - by destruct m, new.
  - destruct new as [|n new]; [simpl in Hn; lia|]. cbn [app copy_headers_loop].
    rewrite decide_False by done. rewrite Ho. simpl deref. rewrite bind_Ok_eq.
    rewrite IH by (simpl in Hn; lia). rewrite bind_Ok_eq. unfold shift_header at 2.
    rewrite fmap_cons. by rewrite Ho.
Qed.

Lemma shift_header_0 used : Forall header_used used -> shift_header 0 <$> used = used.
Proof.
  induction 1 as [|[t hb tb p] l [_ [o Ho]] Hu IH]; [done|]. rewrite fmap_cons, IH.
  simpl in Ho. subst p. done.
Qed.

Lemma offset_ptr_0 p : offset_ptr 0 p = p.
Proof. by destruct p. Qed.

Lemma put_bytes_all b l : zlen l = zlen b -> put_bytes b 0 l = Ok l.
Proof.
  intros E. unfold put_bytes. rewrite E. assert (in_range b 0 (zlen b) = true) as ->.
  { apply in_range_true. pose proof (zlen_nonneg b). lia. }
  f_equal. unfold zlen in E. rewrite drop_ge by lia. by rewrite app_nil_r.
Qed.

(** The bytes of a packet up to its end, as an offset in its buffer. *)
Definition packet_used (pkt : packet) (n : Z) : Prop :=
  packet_end pkt = Ok n /\ 0 <= n <= 128 * 1024 /\ n <= zlen (pk_buffer pkt).

(** Copying a packet preserves it: for every packet whose end lies in its
    buffer (and within 128 KB), [packet_copy] returns a packet that differs from
    the original in nothing but this: the buffer is cut to the bytes in use, and
    the link-layer length and the MSS, which the copy does not carry, are zero.
    All header metadata, all pointers, flags and times are the same. *)
Theorem packet_copy_preserves `{Malloc} (pkt : packet) (used : list header) (n : Z) :
  headers_ok (pk_headers pkt) used -> packet_used pkt n ->
  0 <= pk_ip_bytes pkt < 4294967296 ->
  packet_copy pkt =
  Ok (set_pk_buffer (take (Z.to_nat n) (pk_buffer pkt)) (set_pk_buffer_bytes n
       (set_pk_l2_header_bytes 0 (set_pk_mss 0 pkt)))).
Proof.
  intros (Hh&Hl&Hu) (He&Hn&Hb) Hip. unfold packet_copy, packet_copy_with_headroom.
  rewrite He, bind_Ok_eq. rewrite s32_small by lia.
  destruct (Z.leb_spec 0 n), (Z.leb_spec n (128 * 1024)); try lia.
  simpl c_assert. rewrite !bind_Ok_eq, Z.add_0_l, u32_small by lia.
  unfold get_bytes. assert (in_range (pk_buffer pkt) 0 n = true) as ->
    by (apply in_range_true; lia).
  rewrite bind_Ok_eq. change (drop (Z.to_nat 0) (pk_buffer pkt)) with (pk_buffer pkt).
  unfold pkt_memcpy, packet_new. simpl pk_buffer. rewrite put_bytes_all.
  2:{ rewrite malloc_zlen by lia. unfold zlen in *. rewrite length_take. lia. }
  rewrite !bind_Ok_eq. unfold packet_duplicate_info, packet_copy_headers.
  rewrite Hh. unfold hdrs. cbn [pk_headers set_pk_buffer set_pk_ip_bytes set_pk_direction
    set_pk_time_usecs set_pk_flags set_pk_tos_chk].
  rewrite copy_headers_eq by (done || (rewrite length_replicate; lia)).
  rewrite !bind_Ok_eq. rewrite shift_header_0, drop_replicate, !offset_ptr_0 by done.
  rewrite Z.add_0_r, u32_small by lia. destruct pkt. simpl in *. subst. done.
Qed.

(** One allocator: blocks of zeroes. *)
Definition zero_malloc : Malloc.
Proof.
  refine {| malloc n := replicate (Z.to_nat n) 0 |}.
  - intros n Hn. unfold zlen. rewrite length_replicate. lia.
  - intros n. apply Forall_replicate. unfold is_byte. lia.
Defined.

Lemma packet_copy_preserves_witness :
  exists pkt, @packet_copy zero_malloc pkt = Ok (set_pk_buffer (replicate 20 0) (set_pk_buffer_bytes 20
    (set_pk_l2_header_bytes 0 (set_pk_mss 0 pkt)))) /\ pk_buffer_bytes pkt = 64.
Proof.
  exists (set_pk_headers (hdrs [mk_header HEADER_IPV4 20 20 (Some 0)])
    (set_pk_ip_bytes 20 (@packet_new zero_malloc 64))). split; [|reflexivity].
  etransitivity;
    [apply (@packet_copy_preserves zero_malloc _ [mk_header HEADER_IPV4 20 20 (Some 0)] 20)
    |vm_compute; reflexivity].
  - split; [reflexivity|]. split; [simpl; lia|].
    constructor; [|constructor]. split; [discriminate|]. exists 0. reflexivity.
  - split; [reflexivity|]. split; [lia|]. vm_compute. discriminate.
  - vm_compute. split; [discriminate|reflexivity].
Defined.
