(* ===== verification/PacketParser.v ===== *)
(** * PacketParser: packet_parser.c

    The recursive-descent parser that turns the bytes in a packet's buffer into
    header metadata: Ethernet, IPv4, IPv6, GRE, MPLS (which may nest) around TCP,
    UDP, ICMPv4 or ICMPv6.  Pointers are offsets into the buffer; [packet_end] is
    the offset one past the sniffed bytes.  An error result carries the message
    left in [*error].

    The seven mutually recursive functions take fuel; every header takes at most
    two calls and only six headers are accepted, so [PARSE_FUEL] is enough
    (proved below).  The theorems: parsing never faults and never fails an
    assertion when the buffer is larger than the sniffed bytes; the headers of an
    accepted packet are laid end to end; parsing does not touch the bytes. *)

From S2P Require Import Prelude Headers Packet Checksum.

(** [packet_parser.h:31-34] enum packet_layer_t *)
Inductive packet_layer_t := PACKET_LAYER_3_IP | PACKET_LAYER_2_ETHERNET.

(** [packet_parser.h:36-40] enum packet_parse_result_t *)
Inductive packet_parse_result_t :=
  | PACKET_OK
  | PACKET_BAD (error : string)
  | PACKET_UNKNOWN_L4.

#[export] Instance parse_result_eq_dec : EqDecision packet_parse_result_t.
Proof. solve_decision. Defined.

(** ** hex_dump *)

(** [types.c:34-41] the loop of hex_dump, [i] being the offset of the next byte *)
Fixpoint hex_dump_loop (l : bytes) (i : Z) : string :=
  match l with
  | [] => ""
  | b :: rest =>
      (if i mod 16 =? 0 then
         (if 0 <? i then newline else "") +:+ "0x" +:+ hex_padded 4 i +:+ ": "
       else "") +:+ hex_padded 2 b +:+ " " +:+ hex_dump_loop rest (i + 1)
  end.

(** [types.c:29-44] hex_dump *)
Definition hex_dump (buffer : bytes) (n : Z) : exec string :=
  l ← get_bytes buffer 0 n; Ok (hex_dump_loop l 0 +:+ newline).

(** ** Layer 4 *)

(** [packet_parser.c:360-398] parse_tcp *)
Definition parse_tcp (pkt : packet) (layer4_start layer4_bytes packet_end : Z)
    : exec (packet * packet_parse_result_t) :=
  let p := layer4_start in
  _ ← c_assert (0 <=? layer4_bytes);
  if layer4_bytes <? sizeof_tcp then Ok (pkt, PACKET_BAD "Truncated TCP header")
  else
  let pkt := set_pk_tcp (Some p) pkt in
  tcp_header_len ← packet_tcp_header_len pkt;
  if tcp_header_len <? sizeof_tcp then Ok (pkt, PACKET_BAD "TCP data offset too small")
  else if layer4_bytes <? tcp_header_len then Ok (pkt, PACKET_BAD "TCP data offset too big")
  else
  '(pkt, tcp_header) ← packet_append_header pkt HEADER_TCP tcp_header_len;
  match tcp_header with
  | None => Ok (pkt, PACKET_BAD "Too many nested headers at TCP header")
  | Some i =>
      let pkt := set_header_total i layer4_bytes pkt in
      let p := p + layer4_bytes in
      _ ← c_assert (p <=? packet_end);
      Ok (pkt, PACKET_OK)
  end.

(** [packet_parser.c:401-444] parse_udp *)
Definition parse_udp (pkt : packet) (layer4_start layer4_bytes packet_end : Z)
    : exec (packet * packet_parse_result_t) :=
  let p := layer4_start in
  _ ← c_assert (0 <=? layer4_bytes);
  if layer4_bytes <? sizeof_udp then Ok (pkt, PACKET_BAD "Truncated UDP header")
  else
  let pkt := set_pk_udp (Some p) pkt in
  len ← prd pkt p udp_len;
  let udp_len := ntohs len in
  let udp_header_len := sizeof_udp in
  if udp_len <? udp_header_len then
    Ok (pkt, PACKET_BAD "UDP datagram length too small for UDP header")
  else if udp_len <? layer4_bytes then Ok (pkt, PACKET_BAD "UDP datagram length too small")
  else if layer4_bytes <? udp_len then Ok (pkt, PACKET_BAD "UDP datagram length too big")
  else
  '(pkt, udp_header) ← packet_append_header pkt HEADER_UDP udp_header_len;
  match udp_header with
  | None => Ok (pkt, PACKET_BAD "Too many nested headers at UDP header")
  | Some i =>
      let pkt := set_header_total i layer4_bytes pkt in
      let p := p + layer4_bytes in
      _ ← c_assert (p <=? packet_end);
      Ok (pkt, PACKET_OK)
  end.

(** [packet_parser.c:447-477] parse_icmpv4 *)
Definition parse_icmpv4 (pkt : packet) (layer4_start layer4_bytes packet_end : Z)
    : exec (packet * packet_parse_result_t) :=
  let p := layer4_start in
  _ ← c_assert (0 <=? layer4_bytes);
  let icmpv4_len := sizeof_icmpv4 in
  if layer4_bytes <? icmpv4_len then Ok (pkt, PACKET_BAD "Truncated ICMPv4 header")
  else
  let pkt := set_pk_icmpv4 (Some p) pkt in
  '(pkt, icmp_header) ← packet_append_header pkt HEADER_ICMPV4 icmpv4_len;
  match icmp_header with
  | None => Ok (pkt, PACKET_BAD "Too many nested headers at ICMP header")
  | Some i =>
      let pkt := set_header_total i layer4_bytes pkt in
      let p := p + layer4_bytes in
      _ ← c_assert (p <=? packet_end);
      Ok (pkt, PACKET_OK)
  end.

(** [packet_parser.c:479-509] parse_icmpv6 *)
Definition parse_icmpv6 (pkt : packet) (layer4_start layer4_bytes packet_end : Z)
    : exec (packet * packet_parse_result_t) :=
  let p := layer4_start in
  _ ← c_assert (0 <=? layer4_bytes);
  let icmpv6_len := sizeof_icmpv6 in
  if layer4_bytes <? icmpv6_len then Ok (pkt, PACKET_BAD "Truncated ICMPv6 header")
  else
  let pkt := set_pk_icmpv6 (Some p) pkt in
  '(pkt, icmp_header) ← packet_append_header pkt HEADER_ICMPV6 icmpv6_len;
  match icmp_header with
  | None => Ok (pkt, PACKET_BAD "Too many nested headers at ICMP header")
  | Some i =>
      let pkt := set_header_total i layer4_bytes pkt in
      let p := p + layer4_bytes in
      _ ← c_assert (p <=? packet_end);
      Ok (pkt, PACKET_OK)
  end.

(** ** The recursive part *)

(** [packet_parser.c:571-584] the loop of parse_mpls over the label stack: where
    it ends and the bytes it covers, or an overflow of the packet *)
Fixpoint mpls_stack_loop (fuel : nat) (buffer : bytes) (p packet_end mpls_header_bytes : Z)
    : exec (option (Z * Z)) :=
  match fuel with
  | O => Fault OutOfFuel
  | S n =>
      if packet_end <? p + sizeof_mpls then Ok None
      else
      entry ← rd buffer p mpls_entry;
      let is_stack_bottom := mpls_entry_stack entry in
      let p := p + sizeof_mpls in
      let mpls_header_bytes := mpls_header_bytes + sizeof_mpls in
      if negb is_stack_bottom && (p <? packet_end)
      then mpls_stack_loop n buffer p packet_end mpls_header_bytes
      else Ok (Some (p, mpls_header_bytes))
  end.

(** The end of parse_ipv4 and parse_ipv6: the innermost IP header becomes the
    primary one, the outermost one gives the packet length. *)
Definition finish_ip (set_ip : option Z -> packet -> packet) (header_start : Z)
    (is_outer : bool) (ip_total_bytes : Z) (pkt : packet) : packet :=
  let pkt := match pk_ipv4 pkt, pk_ipv6 pkt with
             | None, None => set_ip (Some header_start) pkt
             | _, _ => pkt
             end in
  if is_outer then set_pk_ip_bytes ip_total_bytes pkt else pkt.

(** [packet_parser.c:202-286] parse_ipv4 *)
Fixpoint parse_ipv4 (fuel : nat) (pkt : packet) (header_start packet_end : Z) {struct fuel}
    : exec (packet * packet_parse_result_t) :=
  match fuel with
  | O => Fault OutOfFuel
  | S n =>
  let p := header_start in
  let is_outer := pk_ip_bytes pkt =? 0 in
  ip_header_bytes ← ipv4_header_len (pk_buffer pkt) p;
  _ ← c_assert (0 <=? ip_header_bytes);
  if ip_header_bytes <? sizeof_ipv4 then Ok (pkt, PACKET_BAD "IP header too short")
  else if packet_end <? p + ip_header_bytes then
    Ok (pkt, PACKET_BAD "Full IP header overflows packet")
  else
  tot_len ← prd pkt p ipv4_tot_len;
  let ip_total_bytes := ntohs tot_len in
  if packet_end <? p + ip_total_bytes then
    Ok (pkt, PACKET_BAD "IP payload overflows packet")
  else if ip_total_bytes <? ip_header_bytes then
    Ok (pkt, PACKET_BAD "IP header bigger than datagram")
  else
  frag_off ← prd pkt p ipv4_frag_off;
  if negb (Z.land (ntohs frag_off) IP_MF =? 0) then
    Ok (pkt, PACKET_BAD "More fragments remaining")
  else if negb (Z.land (ntohs frag_off) IP_OFFMASK =? 0) then
    Ok (pkt, PACKET_BAD "Non-zero fragment offset")
  else
  ip_header ← get_bytes (pk_buffer pkt) p ip_header_bytes;
  _checksum ← ipv4_checksum ip_header;
  '(pkt, ip_header) ← packet_append_header pkt HEADER_IPV4 ip_header_bytes;
  match ip_header with
  | None => Ok (pkt, PACKET_BAD "Too many nested headers at IPv4 header")
  | Some i =>
      let pkt := set_header_total i ip_total_bytes pkt in
      let p := p + ip_header_bytes in
      _ ← c_assert (p <=? packet_end);
      let layer4_bytes := ip_total_bytes - ip_header_bytes in
      layer4_protocol ← prd pkt header_start ipv4_protocol;
      '(pkt, result) ← parse_layer4 n pkt p layer4_protocol layer4_bytes packet_end;
      Ok (finish_ip set_pk_ipv4 header_start is_outer ip_total_bytes pkt, result)
  end
  end

(** [packet_parser.c:293-357] parse_ipv6 *)
with parse_ipv6 (fuel : nat) (pkt : packet) (header_start packet_end : Z) {struct fuel}
    : exec (packet * packet_parse_result_t) :=
  match fuel with
  | O => Fault OutOfFuel
  | S n =>
  let p := header_start in
  let is_outer := pk_ip_bytes pkt =? 0 in
  let ip_header_bytes := sizeof_ipv6 in
  if packet_end <? p + ip_header_bytes then
    Ok (pkt, PACKET_BAD "IPv6 header overflows packet")
  else
  payload_len ← prd pkt p ipv6_payload_len;
  let ip_total_bytes := ip_header_bytes + ntohs payload_len in
  if packet_end <? p + ip_total_bytes then
    Ok (pkt, PACKET_BAD "IPv6 payload overflows packet")
  else
  _ ← c_assert (ip_header_bytes <=? ip_total_bytes);
  '(pkt, ip_header) ← packet_append_header pkt HEADER_IPV6 ip_header_bytes;
  match ip_header with
  | None => Ok (pkt, PACKET_BAD "Too many nested headers at IPv6 header")
  | Some i =>
      let pkt := set_header_total i ip_total_bytes pkt in
      let p := p + ip_header_bytes in
      _ ← c_assert (p <=? packet_end);
      let layer4_bytes := ip_total_bytes - ip_header_bytes in
      layer4_protocol ← prd pkt header_start ipv6_next_header;
      '(pkt, result) ← parse_layer4 n pkt p layer4_protocol layer4_bytes packet_end;
      Ok (finish_ip set_pk_ipv6 header_start is_outer ip_total_bytes pkt, result)
  end
  end

(** [packet_parser.c:512-560] parse_gre *)
with parse_gre (fuel : nat) (pkt : packet) (layer4_start layer4_bytes packet_end : Z)
    {struct fuel} : exec (packet * packet_parse_result_t) :=
  match fuel with
  | O => Fault OutOfFuel
  | S n =>
  let p := layer4_start in
  let gre := p in
  _ ← c_assert (0 <=? layer4_bytes);
  if layer4_bytes <? GRE_MINLEN then Ok (pkt, PACKET_BAD "Truncated GRE header")
  else
  version ← prd pkt gre gre_version;
  if negb (version =? 0) then
    Ok (pkt, PACKET_BAD "GRE header has unsupported version number")
  else
  has_routing ← prd pkt gre gre_has_routing;
  if negb (has_routing =? 0) then
    Ok (pkt, PACKET_BAD "GRE header has unsupported routing info")
  else
  gre_header_len ← gre_len (pk_buffer pkt) gre;
  if gre_header_len <? GRE_MINLEN then
    Ok (pkt, PACKET_BAD "GRE header length too small for GRE header")
  else if layer4_bytes <? gre_header_len then
    Ok (pkt, PACKET_BAD "GRE header length too big")
  else
  _ ← c_assert (p + layer4_bytes <=? packet_end);
  '(pkt, gre_header) ← packet_append_header pkt HEADER_GRE gre_header_len;
  match gre_header with
  | None => Ok (pkt, PACKET_BAD "Too many nested headers at GRE header")
  | Some i =>
      let pkt := set_header_total i layer4_bytes pkt in
      let p := p + gre_header_len in
      _ ← c_assert (p <=? packet_end);
      proto ← prd pkt gre gre_proto;
      parse_layer3_packet_by_proto n pkt (ntohs proto) p packet_end
  end
  end

(** [packet_parser.c:562-601] parse_mpls *)
with parse_mpls (fuel : nat) (pkt : packet) (header_start packet_end : Z) {struct fuel}
    : exec (packet * packet_parse_result_t) :=
  match fuel with
  | O => Fault OutOfFuel
  | S n =>
  let p := header_start in
  let mpls_total_bytes := packet_end - p in
  stack ← mpls_stack_loop (S (Z.to_nat (packet_end - p))) (pk_buffer pkt) p packet_end 0;
  match stack with
  | None => Ok (pkt, PACKET_BAD "MPLS stack entry overflows packet")
  | Some (p, mpls_header_bytes) =>
      _ ← c_assert (mpls_header_bytes <=? mpls_total_bytes);
      '(pkt, mpls_header) ← packet_append_header pkt HEADER_MPLS mpls_header_bytes;
      match mpls_header with
      | None => Ok (pkt, PACKET_BAD "Too many nested headers at MPLS header")
      | Some i =>
          let pkt := set_header_total i mpls_total_bytes pkt in
          _ ← c_assert (p <=? packet_end);
          parse_layer3_packet n pkt p packet_end
      end
  end
  end

(** [packet_parser.c:138-163] parse_layer3_packet *)
with parse_layer3_packet (fuel : nat) (pkt : packet) (header_start packet_end : Z)
    {struct fuel} : exec (packet * packet_parse_result_t) :=
  match fuel with
  | O => Fault OutOfFuel
  | S n =>
  let p := header_start in
  if packet_end <? p + sizeof_ipv4 then Ok (pkt, PACKET_BAD "IP header overflows packet")
  else
  version ← prd pkt p ipv4_version;
  if version =? 4 then parse_ipv4 n pkt p packet_end
  else if version =? 6 then parse_ipv6 n pkt p packet_end
  else Ok (pkt, PACKET_BAD "Unsupported IP version")
  end

(** [packet_parser.c:83-136] parse_layer3_packet_by_proto *)
with parse_layer3_packet_by_proto (fuel : nat) (pkt : packet) (proto header_start packet_end : Z)
    {struct fuel} : exec (packet * packet_parse_result_t) :=
  match fuel with
  | O => Fault OutOfFuel
  | S n =>
  let p := header_start in
  if proto =? ETHERTYPE_IP then
    if packet_end <? p + sizeof_ipv4 then
      Ok (pkt, PACKET_BAD "IPv4 header overflows packet")
    else
    version ← prd pkt p ipv4_version;
    if version =? 4 then parse_ipv4 n pkt p packet_end
    else Ok (pkt, PACKET_BAD ("Bad IP version (" +:+ dec version +:+ ") for ETHERTYPE_IP"))
  else if proto =? ETHERTYPE_IPV6 then
    if packet_end <? p + sizeof_ipv6 then
      Ok (pkt, PACKET_BAD "IPv6 header overflows packet")
    else
    version ← prd pkt p ipv6_version;
    if version =? 6 then parse_ipv6 n pkt p packet_end
    else Ok (pkt, PACKET_BAD "Bad IP version for ETHERTYPE_IPV6")
  else if (proto =? ETHERTYPE_MPLS_UC) || (proto =? ETHERTYPE_MPLS_MC) then
    parse_mpls n pkt p packet_end
  else Ok (pkt, PACKET_UNKNOWN_L4)
  end

(** [packet_parser.c:603-628] parse_layer4 *)
with parse_layer4 (fuel : nat) (pkt : packet)
    (layer4_start layer4_protocol layer4_bytes packet_end : Z) {struct fuel}
    : exec (packet * packet_parse_result_t) :=
  match fuel with
  | O => Fault OutOfFuel
  | S n =>
  if layer4_protocol =? IPPROTO_TCP then parse_tcp pkt layer4_start layer4_bytes packet_end
  else if layer4_protocol =? IPPROTO_UDP then
    parse_udp pkt layer4_start layer4_bytes packet_end
  else if layer4_protocol =? IPPROTO_ICMP then
    parse_icmpv4 pkt layer4_start layer4_bytes packet_end
  else if layer4_protocol =? IPPROTO_ICMPV6 then
    parse_icmpv6 pkt layer4_start layer4_bytes packet_end
  else if layer4_protocol =? IPPROTO_GRE then
    parse_gre n pkt layer4_start layer4_bytes packet_end
  else if layer4_protocol =? IPPROTO_IPIP then parse_ipv4 n pkt layer4_start packet_end
  else if layer4_protocol =? IPPROTO_IPV6 then parse_ipv6 n pkt layer4_start packet_end
  else Ok (pkt, PACKET_UNKNOWN_L4)
  end.

(** Two calls for each of the six headers and for the one that is refused. *)
Definition PARSE_FUEL : nat := 16.

(** [packet_parser.c:60-81] parse_layer2_packet *)
Definition parse_layer2_packet (pkt : packet) (header_start packet_end : Z)
    : exec (packet * packet_parse_result_t) :=
  let p := header_start in
  if packet_end <? p + sizeof_ether_header then
    Ok (pkt, PACKET_BAD "Ethernet header overflows packet")
  else
  let ether := p in
  let p := p + sizeof_ether_header in
  let pkt := set_pk_l2_header_bytes sizeof_ether_header pkt in
  ether_type ← prd pkt ether ether_type;
  parse_layer3_packet_by_proto PARSE_FUEL pkt (ntohs ether_type) p packet_end.

(** [packet_parser.c:165-196] parse_packet *)
Definition parse_packet (pkt : packet) (in_bytes : Z) (layer : packet_layer_t)
    : exec (packet * packet_parse_result_t) :=
  _ ← c_assert (u32 in_bytes <=? pk_buffer_bytes pkt);
  let header_start := 0 in
  let packet_end := in_bytes in
  '(pkt, result) ←
    match layer with
    | PACKET_LAYER_2_ETHERNET => parse_layer2_packet pkt header_start packet_end
    | PACKET_LAYER_3_IP => parse_layer3_packet PARSE_FUEL pkt header_start packet_end
    end;
  match result with
  | PACKET_BAD message =>
      hex ← hex_dump (pk_buffer pkt) in_bytes;
      Ok (pkt, PACKET_BAD (message +:+ ": packet of " +:+ dec in_bytes +:+ " bytes:"
                           +:+ newline +:+ hex))
  | _ => Ok (pkt, result)
  end.

(** ** What parsing guarantees *)

(** Headers laid end to end from offset [p]. *)
Fixpoint laid (p : Z) (hs : list header) : Prop :=
  match hs with
  | [] => True
  | h :: rest => h_ptr h = Some p /\ laid (p + h_header_bytes h) rest
  end.

(** A header, and the data it says it covers, lie before [pend]. *)
Definition within (pend : Z) (h : header) : Prop :=
  exists o, h_ptr h = Some o /\ 0 <= o /\ 0 < h_header_bytes h <= h_total_bytes h /\
    o + h_total_bytes h <= pend.

(** The pointer to the transport header is the one of that header. *)
Definition l4_pointer (pkt : packet) (h : header) : Prop :=
  match h_type h with
  | HEADER_TCP => pk_tcp pkt = h_ptr h
  | HEADER_UDP => pk_udp pkt = h_ptr h
  | HEADER_ICMPV4 => pk_icmpv4 pkt = h_ptr h
  | HEADER_ICMPV6 => pk_icmpv6 pkt = h_ptr h
  | _ => False
  end.

(** The primary IP pointer is the one of that header. *)
Definition ip_pointer (pkt : packet) (h : header) : Prop :=
  match h_type h with
  | HEADER_IPV4 => pk_ipv4 pkt = h_ptr h /\ pk_ipv6 pkt = None
  | HEADER_IPV6 => pk_ipv6 pkt = h_ptr h /\ pk_ipv4 pkt = None
  | _ => False
  end.

(** An accepted packet ends with an IP header and the transport header inside
    it, and the packet's pointers are to those two. *)
Definition complete (pkt : packet) (hs : list header) : Prop :=
  exists pre ip l4, hs = pre ++ [ip; l4] /\ ip_pointer pkt ip /\ l4_pointer pkt l4.

#[local] Arguments rd : simpl never.
#[local] Arguments prd : simpl never.

Section Parser.

(** The buffer, its bytes, and the end of the sniffed packet inside it. *)
Context (b : bytes) (pend l2 : Z).
Hypothesis Hbytes : bytes_ok b.
Hypothesis Hend : pend < zlen b.
Hypothesis Hsize : zlen b < 2147483648.
Hypothesis Hl2 : 0 <= l2.

Definition at_header (pkt : packet) (used : list header) (p : Z) : Prop :=
  pk_buffer pkt = b /\ pk_buffer_bytes pkt = zlen b /\ pk_l2_header_bytes pkt = l2 /\
  headers_ok (pk_headers pkt) used /\ 0 <= pk_ip_bytes pkt /\
  p = l2 + pk_ip_bytes pkt /\ p <= pend /\ pk_ipv4 pkt = None /\ pk_ipv6 pkt = None.

Definition parsed (used : list header) (p : Z) (done : packet -> list header -> Prop)
    (res : packet * packet_parse_result_t) : Prop :=
  exists more, pk_buffer res.1 = b /\ pk_buffer_bytes res.1 = zlen b /\
    pk_l2_header_bytes res.1 = l2 /\
    headers_ok (pk_headers res.1) (used ++ more) /\ laid p more /\
    Forall (within pend) more /\ (res.2 = PACKET_OK -> done res.1 more).

(** What a layer-4 parser leaves when it accepts: one transport header, the IP
    pointers still unset; or an encapsulated packet, complete. *)
Definition complete4 (pkt : packet) (hs : list header) : Prop :=
  complete pkt hs \/
  exists l4, hs = [l4] /\ l4_pointer pkt l4 /\ pk_ipv4 pkt = None /\ pk_ipv6 pkt = None.

Lemma parsed_nothing pkt used p done r :
  at_header pkt used p -> r <> PACKET_OK -> parsed used p done (pkt, r).
Proof.
  intros (?&?&?&?&_) Hr. exists []. rewrite app_nil_r. simpl. repeat (split; [done|]). done.
Qed.

(** Appending a header: refused when six are there, else the new header is at
    the current position and parsing goes on right after it. *)
Lemma append_step pkt used p ty hb total :
  at_header pkt used p -> ty <> HEADER_NONE -> 0 < hb -> p + hb <= pend ->
  packet_append_header pkt ty hb = Ok (pkt, None) \/
  exists pkt1 i, packet_append_header pkt ty hb = Ok (pkt1, Some i) /\
    (length used < 6)%nat /\
    at_header (set_header_total i total pkt1)
      (used ++ [mk_header ty hb total (Some p)]) (p + hb) /\
    (forall h, l4_pointer pkt h -> l4_pointer (set_header_total i total pkt1) h).
Proof.
  intros (Hb&HB&HL&Hh&H0&Hp&Hpe&H4&H6) Hty Hhb Hfit.
  rewrite (append_header_eq pkt used ty hb) by (done || lia).
  destruct Hh as (Hh&Hl&Hu). rewrite HL, HB.
  destruct (Z.ltb_spec (zlen b) (pk_ip_bytes pkt + hb)); [lia|].
  destruct (decide (length used = 6%nat)).
  { rewrite bool_decide_true by done. by left. }
  rewrite bool_decide_false by done. right. eexists _, _. split; [done|].
  split; [lia|]. unfold set_header_total. simpl pk_headers.
  rewrite alter_hdrs_last by lia. unfold set_h_total_bytes. simpl.
  rewrite s32_small by lia. rewrite <-Hp. split; [|by intros h].
  split; [done|]. split; [done|]. split; [done|].
  split; [|simpl; repeat split; (done || lia)].
  split; [done|]. split; [rewrite length_app; simpl; lia|].
  apply Forall_app. split; [done|]. constructor; [|constructor].
  split; [done|]. by eexists.
Qed.

Lemma parsed_cons used p h done done' res :
  parsed (used ++ [h]) (p + h_header_bytes h) done res -> h_ptr h = Some p ->
  within pend h -> (forall more, done res.1 more -> done' res.1 (h :: more)) ->
  parsed used p done' res.
Proof.
  intros (more&?&?&?&Hh&Hl&Hw&Hd) Hp Hwi Hdone. exists (h :: more).
  rewrite <-app_assoc in Hh. simpl in *. repeat (split; [done|]).
  split; [by constructor|]. auto.
Qed.

(** The four transport parsers have the same shape after their own checks. *)
Lemma l4_tail pkt used p ty hb bytes msg :
  at_header pkt used p -> ty <> HEADER_NONE -> 0 < hb <= bytes -> p + bytes <= pend ->
  l4_pointer pkt (mk_header ty hb bytes (Some p)) ->
  exists res,
    ('(pkt, h) ← packet_append_header pkt ty hb;
     match h with
     | None => Ok (pkt, PACKET_BAD msg)
     | Some i => _ ← c_assert (p + bytes <=? pend);
                 Ok (set_header_total i bytes pkt, PACKET_OK)
     end) = Ok res /\ parsed used p complete4 res.
Proof.
  intros Ha Hty Hb Hf Hl4.
  destruct (append_step pkt used p ty hb bytes Ha Hty) as [->|(pkt1&i&->&Hl&Ha1&Hk)]; [lia..| |].
  { rewrite bind_Ok_eq. eexists. split; [done|]. by apply parsed_nothing. }
  rewrite bind_Ok_eq. destruct (Z.leb_spec (p + bytes) pend); [|lia].
  simpl c_assert. rewrite bind_Ok_eq. eexists. split; [done|].
  pose proof Ha as (_&_&_&_&H0&Hp&_&_&_).
  destruct Ha1 as (?&?&?&?&?&?&?&?&?).
  eexists [_]. simpl. repeat (split; [done|]). split.
  - constructor; [|constructor]. exists p. simpl. split; [done|lia].
  - intros _. right. eexists. split; [done|]. split; [by apply Hk|done].
Qed.

(** The next member read of the function under proof succeeds. *)
Ltac rd_head Hx m :=
  lazymatch m with
  | mbind _ ?m' => rd_head Hx m'
  | rd b ?q ?f =>
      destruct (rd_total b q f) as (?v&Hx&?); [done|split; simpl; lia|simpl; lia|simpl; lia|];
      rewrite Hx, ?bind_Ok_eq
  end.
Ltac rd_step Hx :=
  lazymatch goal with
  | |- exists r, ?m = Ok r /\ _ => rd_head Hx m
  | |- ?m = Ok _ \/ _ => rd_head Hx m
  end.

Definition l4_spec (f : packet -> Z -> Z -> Z -> exec (packet * packet_parse_result_t)) : Prop :=
  forall pkt used p bytes, at_header pkt used p -> 0 <= bytes -> p + bytes <= pend ->
    exists res, f pkt p bytes pend = Ok res /\ parsed used p complete4 res.

Lemma at_header_range pkt used p : at_header pkt used p -> 0 <= p <= pend.
Proof. intros (_&_&_&_&?&?&?&_). lia. Qed.

Lemma parse_tcp_spec : l4_spec parse_tcp.
Proof.
  intros pkt used p bytes Ha Hb Hf. pose proof (at_header_range _ _ _ Ha). unfold parse_tcp.
  destruct (Z.leb_spec 0 bytes); [|lia]. simpl c_assert. rewrite bind_Ok_eq.
  unfold sizeof_tcp. destruct (Z.ltb_spec bytes 20).
  { eexists. split; [done|]. by apply parsed_nothing. }
  assert (Ha' : at_header (set_pk_tcp (Some p) pkt) used p) by exact Ha.
  unfold packet_tcp_header_len, prd.
  change (pk_tcp (set_pk_tcp (Some p) pkt)) with (Some p). simpl assert_ptr.
  change (pk_buffer (set_pk_tcp (Some p) pkt)) with (pk_buffer pkt).
  pose proof Ha as (Hbuf&_). rewrite bind_Ok_eq, Hbuf. rd_step Hx.
  destruct (Z.ltb_spec (v * 4) 20); [eexists; split; [done|]; by apply parsed_nothing|].
  destruct (Z.ltb_spec bytes (v * 4)); [eexists; split; [done|]; by apply parsed_nothing|].
  apply l4_tail; [done|done|lia|lia|done].
Qed.

Lemma parse_udp_spec : l4_spec parse_udp.
Proof.
  intros pkt used p bytes Ha Hb Hf. pose proof (at_header_range _ _ _ Ha). unfold parse_udp.
  destruct (Z.leb_spec 0 bytes); [|lia]. simpl c_assert. rewrite bind_Ok_eq.
  unfold sizeof_udp. destruct (Z.ltb_spec bytes 8).
  { eexists. split; [done|]. by apply parsed_nothing. }
  assert (Ha' : at_header (set_pk_udp (Some p) pkt) used p) by exact Ha.
  pose proof Ha as (Hbuf&_). unfold prd.
  change (pk_buffer (set_pk_udp (Some p) pkt)) with (pk_buffer pkt). rewrite Hbuf. rd_step Hx.
  do 3 (match goal with |- context [if ?a <? ?c then _ else _] => destruct (Z.ltb_spec a c) end;
    [eexists; split; [done|]; by apply parsed_nothing|]).
  apply l4_tail; [done|done|lia|lia|done].
Qed.

Lemma parse_icmpv4_spec : l4_spec parse_icmpv4.
Proof.
  intros pkt used p bytes Ha Hb Hf. unfold parse_icmpv4.
  destruct (Z.leb_spec 0 bytes); [|lia]. simpl c_assert. rewrite bind_Ok_eq.
  unfold sizeof_icmpv4. destruct (Z.ltb_spec bytes 8).
  { eexists. split; [done|]. by apply parsed_nothing. }
  assert (Ha' : at_header (set_pk_icmpv4 (Some p) pkt) used p) by exact Ha.
  apply l4_tail; [done|done|lia|lia|done].
Qed.

Lemma parse_icmpv6_spec : l4_spec parse_icmpv6.
Proof.
  intros pkt used p bytes Ha Hb Hf. unfold parse_icmpv6.
  destruct (Z.leb_spec 0 bytes); [|lia]. simpl c_assert. rewrite bind_Ok_eq.
  unfold sizeof_icmpv6. destruct (Z.ltb_spec bytes 8).
  { eexists. split; [done|]. by apply parsed_nothing. }
  assert (Ha' : at_header (set_pk_icmpv6 (Some p) pkt) used p) by exact Ha.
  apply l4_tail; [done|done|lia|lia|done].
Qed.

(** ** The recursive parsers *)

Lemma mpls_loop_spec n p hb :
  0 <= p <= pend -> (Z.to_nat (pend - p) < n)%nat ->
  mpls_stack_loop n b p pend hb = Ok None \/
  exists k, 0 < k /\ p + k <= pend /\ mpls_stack_loop n b p pend hb = Ok (Some (p + k, hb + k)).
Proof.
  revert p hb. induction n as [|n IH]; intros p hb Hp Hn; [lia|]. simpl.
  unfold sizeof_mpls. destruct (Z.ltb_spec pend (p + 4)); [by left|].
  rd_step Hx.
  destruct (negb (mpls_entry_stack v) && (p + 4 <? pend)) eqn:E.
  - destruct (IH (p + 4) (hb + 4)) as [->|(k&?&?&->)]; [lia|lia|by left|].
    right. exists (4 + k). split; [lia|]. split; [lia|]. do 3 f_equal; lia.
  - right. exists 4. split; [lia|]. split; [lia|done].
Qed.

(** Fuel that is enough with [used] headers already taken: two calls per slot. *)
Definition fuel_for (used : list header) : nat := 2 * (7 - length used).

Definition ip_spec (n : nat)
    (f : nat -> packet -> Z -> Z -> exec (packet * packet_parse_result_t)) : Prop :=
  forall pkt used p, at_header pkt used p -> (fuel_for used <= S n)%nat ->
    exists res, f n pkt p pend = Ok res /\ parsed used p complete res.

Definition l3_spec (n : nat)
    (f : nat -> packet -> Z -> Z -> exec (packet * packet_parse_result_t)) : Prop :=
  forall pkt used p, at_header pkt used p -> (fuel_for used <= n)%nat ->
    exists res, f n pkt p pend = Ok res /\ parsed used p complete res.

Definition layer4_spec (n : nat) : Prop :=
  forall proto pkt used p bytes, at_header pkt used p -> 0 <= bytes -> p + bytes <= pend ->
    (fuel_for used <= n)%nat ->
    exists res, parse_layer4 n pkt p proto bytes pend = Ok res /\ parsed used p complete4 res.

Definition gre_spec (n : nat) : Prop :=
  forall pkt used p bytes, at_header pkt used p -> 0 <= bytes -> p + bytes <= pend ->
    (fuel_for used <= S n)%nat ->
    exists res, parse_gre n pkt p bytes pend = Ok res /\ parsed used p complete res.

Lemma at_header_length pkt used p : at_header pkt used p -> (length used <= 6)%nat.
Proof. intros (_&_&_&(_&?&_)&_). done. Qed.

Lemma fuel_for_snoc used h : fuel_for (used ++ [h]) = (fuel_for used - 2)%nat.
Proof. unfold fuel_for. rewrite length_app. simpl. lia. Qed.

Lemma complete_cons pkt h hs : complete pkt hs -> complete pkt (h :: hs).
Proof. intros (pre&ip&l4&->&?&?). by exists (h :: pre), ip, l4. Qed.

(** Leaving parse_ipv4 or parse_ipv6. *)
Lemma finish_ip_complete set_ip ty p outer total pkt hb more :
  (set_ip = set_pk_ipv4 /\ ty = HEADER_IPV4 \/ set_ip = set_pk_ipv6 /\ ty = HEADER_IPV6) ->
  Forall (within pend) more -> complete4 pkt more ->
  complete (finish_ip set_ip p outer total pkt) (mk_header ty hb total (Some p) :: more).
Proof.
  intros Hs Hw [(pre&ip&l4&->&Hip&Hl4)|(l4&->&Hl4&H4&H6)].
  - apply complete_cons. exists pre, ip, l4. split; [done|].
    assert (is_Some (h_ptr ip)) as [o Ho].
    { apply Forall_app in Hw as [_ Hw]. apply Forall_cons in Hw as [(o&?&_) _]. by exists o. }
    unfold finish_ip. unfold ip_pointer in *. rewrite Ho in *.
    destruct (h_type ip); try done; destruct Hip as [Hi Hj]; rewrite ?Hi, ?Hj;
      destruct outer; done.
  - exists [], (mk_header ty hb total (Some p)), l4. split; [done|].
    unfold finish_ip. rewrite H4, H6. destruct Hs as [[-> ->]|[-> ->]]; destruct outer; done.
Qed.

Lemma finish_ip_parsed set_ip ty used p hb outer total pkt r :
  (set_ip = set_pk_ipv4 /\ ty = HEADER_IPV4 \/ set_ip = set_pk_ipv6 /\ ty = HEADER_IPV6) ->
  0 <= p -> 0 < hb <= total -> p + total <= pend ->
  parsed (used ++ [mk_header ty hb total (Some p)]) (p + hb) complete4 (pkt, r) ->
  parsed used p complete (finish_ip set_ip p outer total pkt, r).
Proof.
  intros Hs Hp Hhb Ht (more&Hb&HB&HL&Hh&Hl&Hw&Hd).
  exists (mk_header ty hb total (Some p) :: more). simpl in *.
  assert (pk_buffer (finish_ip set_ip p outer total pkt) = pk_buffer pkt /\
    pk_buffer_bytes (finish_ip set_ip p outer total pkt) = pk_buffer_bytes pkt /\
    pk_l2_header_bytes (finish_ip set_ip p outer total pkt) = pk_l2_header_bytes pkt /\
    pk_headers (finish_ip set_ip p outer total pkt) = pk_headers pkt) as (->&->&->&->).
  { unfold finish_ip. destruct Hs as [[-> _]|[-> _]];
      destruct (pk_ipv4 pkt), (pk_ipv6 pkt), outer; done. }
  rewrite <-app_assoc in Hh. repeat (split; [done|]). split.
  - constructor; [|done]. exists p. simpl. split; [done|lia].
  - intros Hr. apply finish_ip_complete; [done|done|auto].
Qed.

Lemma ipv4_checksum_total q n : 0 <= q -> 0 <= n -> q + n <= zlen b ->
  exists l c, get_bytes b q n = Ok l /\ ipv4_checksum l = Ok c.
Proof.
  intros. destruct (get_bytes_in b q n) as [l E]; [lia..|].
  exists l. rewrite (ipv4_checksum_eq l); [by eexists| |].
  - by eapply get_bytes_bytes_ok.
  - apply get_bytes_zlen in E. lia.
Qed.

Ltac reject := eexists; split; [reflexivity|]; by apply parsed_nothing.
Ltac ltb_guard :=
  match goal with |- context [if ?a <? ?c then _ else _] => destruct (Z.ltb_spec a c) end.

Lemma parse_ipv4_step n : layer4_spec n -> ip_spec (S n) parse_ipv4.
Proof.
  intros IH pkt used p Ha Hf. pose proof (at_header_range _ _ _ Ha) as Hp.
  pose proof (at_header_length _ _ _ Ha). simpl. unfold ipv4_header_len, prd.
  pose proof Ha as (Hbuf&_). rewrite !Hbuf. rd_step Hx.
  change (field_mod ipv4_ihl) with 16 in *.
  destruct (Z.leb_spec 0 (v * 4)); [|lia]. simpl c_assert. rewrite bind_Ok_eq.
  unfold sizeof_ipv4. ltb_guard; [reject|]. ltb_guard; [reject|]. rd_step Hy.
  ltb_guard; [reject|]. ltb_guard; [reject|]. rd_step Hz.
  destruct (negb _); [reject|]. destruct (negb _); [reject|].
  destruct (ipv4_checksum_total p (v * 4)) as (l&c&->&Hc); [lia..|].
  rewrite bind_Ok_eq, Hc, bind_Ok_eq.
  destruct (append_step pkt used p HEADER_IPV4 (v * 4) (ntohs v0) Ha)
    as [->|(pkt1&i&->&Hl&Ha1&_)]; [done|lia|lia| |].
  { rewrite bind_Ok_eq. reject. }
  rewrite bind_Ok_eq. destruct (Z.leb_spec (p + v * 4) pend); [|lia].
  simpl c_assert. rewrite bind_Ok_eq. pose proof Ha1 as (Hbuf1&_). rewrite Hbuf1. rd_step Hw.
  destruct (IH v2 _ _ _ (ntohs v0 - v * 4) Ha1) as ([pkt2 r]&->&Hres); [lia|lia| |].
  { rewrite fuel_for_snoc. lia. }
  rewrite bind_Ok_eq. eexists. split; [done|].
  apply (finish_ip_parsed _ HEADER_IPV4 _ _ (v * 4)); [by left|lia|lia|lia|done].
Qed.

Lemma parse_ipv6_step n : layer4_spec n -> ip_spec (S n) parse_ipv6.
Proof.
  intros IH pkt used p Ha Hf. pose proof (at_header_range _ _ _ Ha) as Hp.
  pose proof (at_header_length _ _ _ Ha). simpl. unfold prd, sizeof_ipv6.
  pose proof Ha as (Hbuf&_). rewrite !Hbuf. ltb_guard; [reject|]. rd_step Hx.
  pose proof (ntohs_range v). ltb_guard; [reject|].
  destruct (Z.leb_spec 40 (40 + ntohs v)); [|lia]. simpl c_assert. rewrite bind_Ok_eq.
  destruct (append_step pkt used p HEADER_IPV6 40 (40 + ntohs v) Ha)
    as [->|(pkt1&i&->&Hl&Ha1&_)]; [done|lia|lia| |].
  { rewrite bind_Ok_eq. reject. }
  rewrite bind_Ok_eq. destruct (Z.leb_spec (p + 40) pend); [|lia].
  simpl c_assert. rewrite bind_Ok_eq. pose proof Ha1 as (Hbuf1&_). rewrite Hbuf1. rd_step Hw.
  destruct (IH v0 _ _ _ (40 + ntohs v - 40) Ha1) as ([pkt2 r]&->&Hres); [lia|lia| |].
  { rewrite fuel_for_snoc. lia. }
  rewrite bind_Ok_eq. eexists. split; [done|].
  apply (finish_ip_parsed _ HEADER_IPV6 _ _ 40); [by right|lia|lia|lia|done].
Qed.

Lemma gre_len_spec q v r :
  0 <= q -> q + 4 <= zlen b -> rd b q gre_version = Ok v -> v = 0 ->
  rd b q gre_has_routing = Ok r -> r = 0 ->
  exists len, gre_len b q = Ok len /\ 4 <= len <= 16.
Proof.
  intros Hq Hr Hv -> Hrt ->. unfold gre_len, GRE_MINLEN.
  rewrite Hv, bind_Ok_eq. simpl c_assert. rewrite bind_Ok_eq, Hrt, bind_Ok_eq.
  simpl c_assert. rewrite bind_Ok_eq.
  destruct (rd_total b q gre_has_checksum) as (x&->&_);
    [done|split; simpl; lia|simpl; lia|simpl; lia|]. rewrite bind_Ok_eq.
  destruct (rd_total b q gre_has_key) as (y&->&_);
    [done|split; simpl; lia|simpl; lia|simpl; lia|]. rewrite bind_Ok_eq.
  destruct (rd_total b q gre_has_seq) as (z&->&_);
    [done|split; simpl; lia|simpl; lia|simpl; lia|]. rewrite bind_Ok_eq.
  eexists. split; [done|]. repeat case_match; lia.
Qed.

Lemma parsed_encap used p h res :
  parsed (used ++ [h]) (p + h_header_bytes h) complete res -> h_ptr h = Some p ->
  within pend h -> parsed used p complete res.
Proof. intros. eapply parsed_cons; [done..|]. intros. by apply complete_cons. Qed.

Lemma parse_gre_step n :
  (forall proto, l3_spec n (fun n pkt => parse_layer3_packet_by_proto n pkt proto)) ->
  gre_spec (S n).
Proof.
  intros IH pkt used p bytes Ha Hb Hfit Hf. pose proof (at_header_range _ _ _ Ha) as Hp.
  pose proof (at_header_length _ _ _ Ha). simpl. unfold prd.
  pose proof Ha as (Hbuf&_). rewrite !Hbuf.
  destruct (Z.leb_spec 0 bytes); [|lia]. simpl c_assert. rewrite bind_Ok_eq.
  ltb_guard; [reject|]. unfold GRE_MINLEN in *. rd_step Hx.
  destruct (Z.eqb_spec v 0); simpl negb; cbv iota; [|reject]. rd_step Hy.
  destruct (Z.eqb_spec v0 0); simpl negb; cbv iota; [|reject].
  destruct (gre_len_spec p v v0) as (len&->&Hlen); [lia|lia|done..|]. rewrite bind_Ok_eq.
  ltb_guard; [reject|]. ltb_guard; [reject|].
  destruct (Z.leb_spec (p + bytes) pend); [|lia]. simpl c_assert. rewrite bind_Ok_eq.
  destruct (append_step pkt used p HEADER_GRE len bytes Ha)
    as [->|(pkt1&i&->&Hl&Ha1&_)]; [done|lia|lia| |].
  { rewrite bind_Ok_eq. reject. }
  rewrite bind_Ok_eq. destruct (Z.leb_spec (p + len) pend); [|lia].
  simpl c_assert. rewrite bind_Ok_eq. pose proof Ha1 as (Hbuf1&_). rewrite Hbuf1. rd_step Hw.
  destruct (IH (ntohs v1) _ _ _ Ha1) as (res&->&Hres); [rewrite fuel_for_snoc; lia|].
  exists res. split; [done|]. eapply parsed_encap; [exact Hres|done|].
  exists p. simpl. split; [done|lia].
Qed.

Lemma parse_mpls_step n : l3_spec n parse_layer3_packet -> ip_spec (S n) parse_mpls.
Proof.
  intros IH pkt used p Ha Hf. pose proof (at_header_range _ _ _ Ha) as Hp.
  pose proof (at_header_length _ _ _ Ha). cbn [parse_mpls].
  pose proof Ha as (Hbuf&_). rewrite Hbuf.
  destruct (mpls_loop_spec (S (Z.to_nat (pend - p))) p 0) as [->|(k&Hk&Hkp&->)]; [lia|lia| |].
  { rewrite bind_Ok_eq. reject. }
  rewrite bind_Ok_eq, Z.add_0_l. destruct (Z.leb_spec k (pend - p)); [|lia].
  simpl c_assert. rewrite bind_Ok_eq.
  destruct (append_step pkt used p HEADER_MPLS k (pend - p) Ha)
    as [->|(pkt1&i&->&Hl&Ha1&_)]; [done|lia|lia| |].
  { rewrite bind_Ok_eq. reject. }
  rewrite bind_Ok_eq. destruct (Z.leb_spec (p + k) pend); [|lia].
  simpl c_assert. rewrite bind_Ok_eq.
  destruct (IH _ _ _ Ha1) as (res&->&Hres); [rewrite fuel_for_snoc; lia|].
  exists res. split; [done|]. eapply parsed_encap; [exact Hres|done|].
  exists p. simpl. split; [done|lia].
Qed.

Lemma parse_layer3_step n :
  ip_spec n parse_ipv4 -> ip_spec n parse_ipv6 -> l3_spec (S n) parse_layer3_packet.
Proof.
  intros I4 I6 pkt used p Ha Hf. pose proof (at_header_range _ _ _ Ha) as Hp. simpl.
  unfold prd, sizeof_ipv4. pose proof Ha as (Hbuf&_). rewrite !Hbuf.
  ltb_guard; [reject|]. rd_step Hx.
  destruct (v =? 4); [by apply I4|]. destruct (v =? 6); [by apply I6|]. reject.
Qed.

Lemma parse_by_proto_step n proto :
  ip_spec n parse_ipv4 -> ip_spec n parse_ipv6 -> ip_spec n parse_mpls ->
  l3_spec (S n) (fun n pkt => parse_layer3_packet_by_proto n pkt proto).
Proof.
  intros I4 I6 Im pkt used p Ha Hf. pose proof (at_header_range _ _ _ Ha) as Hp. simpl.
  unfold prd, sizeof_ipv4, sizeof_ipv6. pose proof Ha as (Hbuf&_). rewrite !Hbuf.
  destruct (proto =? ETHERTYPE_IP).
  { ltb_guard; [reject|]. rd_step Hx. destruct (v =? 4); [by apply I4|reject]. }
  destruct (proto =? ETHERTYPE_IPV6).
  { ltb_guard; [reject|]. rd_step Hx. destruct (v =? 6); [by apply I6|reject]. }
  destruct (_ || _); [by apply Im|reject].
Qed.

Lemma parsed_weaken used p res : parsed used p complete res -> parsed used p complete4 res.
Proof.
  intros (more&?&?&?&?&?&?&Hd). exists more. repeat (split; [done|]). left. auto.
Qed.

Lemma parse_layer4_step n :
  ip_spec n parse_ipv4 -> ip_spec n parse_ipv6 -> gre_spec n -> layer4_spec (S n).
Proof.
  intros I4 I6 Ig proto pkt used p bytes Ha Hb Hfit Hf. simpl.
  destruct (proto =? IPPROTO_TCP); [by apply parse_tcp_spec|].
  destruct (proto =? IPPROTO_UDP); [by apply parse_udp_spec|].
  destruct (proto =? IPPROTO_ICMP); [by apply parse_icmpv4_spec|].
  destruct (proto =? IPPROTO_ICMPV6); [by apply parse_icmpv6_spec|].
  destruct (proto =? IPPROTO_GRE).
  { destruct (Ig pkt used p bytes) as (res&->&?); [done..|].
    exists res. split; [done|by apply parsed_weaken]. }
  destruct (proto =? IPPROTO_IPIP).
  { destruct (I4 pkt used p) as (res&->&?); [done..|].
    exists res. split; [done|by apply parsed_weaken]. }
  destruct (proto =? IPPROTO_IPV6).
  { destruct (I6 pkt used p) as (res&->&?); [done..|].
    exists res. split; [done|by apply parsed_weaken]. }
  reject.
Qed.

(** With no fuel at all there is nothing to show: a call always has a slot left. *)
Lemma fuel_for_pos pkt used p : at_header pkt used p -> (2 <= fuel_for used)%nat.
Proof. intros Ha%at_header_length. unfold fuel_for. lia. Qed.

Lemma parsers_spec n :
  ip_spec n parse_ipv4 /\ ip_spec n parse_ipv6 /\ gre_spec n /\ ip_spec n parse_mpls /\
  l3_spec n parse_layer3_packet /\
  (forall proto, l3_spec n (fun n pkt => parse_layer3_packet_by_proto n pkt proto)) /\
  layer4_spec n.
Proof.
  induction n as [|n (I4&I6&Ig&Im&I3&Ip&Il)].
  - unfold ip_spec, gre_spec, l3_spec, layer4_spec. split_and!; intros;
      match goal with H : at_header _ _ _ |- _ => pose proof (fuel_for_pos _ _ _ H) end; lia.
  - split; [by apply parse_ipv4_step|]. split; [by apply parse_ipv6_step|].
    split; [by apply parse_gre_step|]. split; [by apply parse_mpls_step|].
    split; [by apply parse_layer3_step|].
    split; [intros; by apply parse_by_proto_step|by apply parse_layer4_step].
Qed.

End Parser.

(** ** parse_packet *)

(** A packet as [packet_new] makes it, with received bytes in its buffer. *)
Definition fresh (pkt : packet) : Prop :=
  pk_headers pkt = replicate 6 header_none /\ pk_ip_bytes pkt = 0 /\
  pk_l2_header_bytes pkt = 0 /\ pk_ipv4 pkt = None /\ pk_ipv6 pkt = None /\
  bytes_ok (pk_buffer pkt) /\ pk_buffer_bytes pkt = zlen (pk_buffer pkt) /\
  zlen (pk_buffer pkt) < 2147483648.

(** Where the IP packet starts. *)
Definition layer_start (layer : packet_layer_t) : Z :=
  match layer with
  | PACKET_LAYER_3_IP => 0
  | PACKET_LAYER_2_ETHERNET => sizeof_ether_header
  end.

Lemma fresh_at_header pkt pend l2 :
  fresh pkt -> 0 <= l2 <= pend ->
  at_header (pk_buffer pkt) pend l2 (set_pk_l2_header_bytes l2 pkt) [] l2.
Proof.
  intros (Hh&Hi&Hl&H4&H6&_&Hb&_) Hl2. unfold at_header. simpl.
  rewrite Hh, Hi, Hb. pose proof headers_ok_nil. repeat (split; [done || lia|]). done.
Qed.

(** The parsers of both layers, on a fresh packet. *)
Lemma parse_by_layer_spec pkt n layer :
  fresh pkt -> 0 <= n < zlen (pk_buffer pkt) ->
  exists pkt' r l2,
    match layer with
    | PACKET_LAYER_2_ETHERNET => parse_layer2_packet pkt 0 n
    | PACKET_LAYER_3_IP => parse_layer3_packet PARSE_FUEL pkt 0 n
    end = Ok (pkt', r) /\
    parsed (pk_buffer pkt) n l2 [] (layer_start layer) complete (pkt', r).
Proof.
  intros Hf Hn. pose proof Hf as (Hh&_&Hl&_&_&Hb&HB&Hz). destruct layer; simpl layer_start.
  - destruct (parsers_spec (pk_buffer pkt) n 0 Hb ltac:(lia) Hz ltac:(lia) PARSE_FUEL)
      as (_&_&_&_&I3&_).
    pose proof (fresh_at_header pkt n 0 Hf ltac:(lia)) as Ha.
    assert (set_pk_l2_header_bytes 0 pkt = pkt) as E by (destruct pkt; simpl in *; by subst).
    rewrite E in Ha. destruct (I3 pkt [] 0 Ha) as ([pkt' r]&->&Hp); [unfold fuel_for, PARSE_FUEL; simpl; lia|].
    by exists pkt', r, 0.
  - unfold parse_layer2_packet, sizeof_ether_header. destruct (Z.ltb_spec n (0 + 14)).
    { exists pkt, (PACKET_BAD "Ethernet header overflows packet"), 0. split; [done|].
      exists []. simpl. rewrite Hh. pose proof headers_ok_nil. by repeat (split; [done|]). }
    unfold prd. destruct (rd_total (pk_buffer pkt) 0 ether_type) as (v&Hv&_);
      [done|split; simpl; lia|simpl; lia|simpl; lia|].
    change (pk_buffer (set_pk_l2_header_bytes 14 pkt)) with (pk_buffer pkt).
    rewrite Hv, bind_Ok_eq. change (0 + 14) with 14.
    destruct (parsers_spec (pk_buffer pkt) n 14 Hb ltac:(lia) Hz ltac:(lia) PARSE_FUEL)
      as (_&_&_&_&_&Ip&_).
    pose proof (fresh_at_header pkt n 14 Hf ltac:(lia)) as Ha.
    destruct (Ip (ntohs v) _ [] 14 Ha) as ([pkt' r]&->&Hp);
      [unfold fuel_for, PARSE_FUEL; simpl; lia|].
    by exists pkt', r, 14.
Qed.

Lemma parse_packet_spec pkt n layer :
  fresh pkt -> 0 <= n < zlen (pk_buffer pkt) ->
  exists pkt' r l2, parse_packet pkt n layer = Ok (pkt', r) /\
    parsed (pk_buffer pkt) n l2 [] (layer_start layer) complete (pkt', r).
Proof.
  intros Hf Hn. pose proof Hf as (_&_&_&_&_&_&HB&Hz). unfold parse_packet.
  rewrite HB, u32_small by lia. destruct (Z.leb_spec n (zlen (pk_buffer pkt))); [|lia].
  simpl c_assert. rewrite bind_Ok_eq.
  destruct (parse_by_layer_spec pkt n layer Hf Hn) as (pkt'&r&l2&->&Hp).
  rewrite bind_Ok_eq. destruct r as [|msg|]; [by exists pkt', PACKET_OK, l2| |
    by exists pkt', PACKET_UNKNOWN_L4, l2].
  pose proof Hp as (more&Hb&Hrest). simpl in Hb. unfold hex_dump.
  destruct (get_bytes_in (pk_buffer pkt') 0 n) as [l ->]; [lia|lia|rewrite Hb; lia|].
  rewrite !bind_Ok_eq. eexists pkt', _, l2. split; [done|].
  exists more. destruct Hrest as (?&?&?&?&?&_). by repeat (split; [done|]).
Qed.

(** C1. Parsing is total and memory-safe: for any received bytes in a buffer
    with at least one spare byte, at either layer, [parse_packet] returns a
    verdict; it never reads outside the buffer, no assertion of the parser can
    fail, the nested headers never exhaust the recursion bound, and the
    received bytes are left as they were. *)
Theorem parse_packet_safe (pkt : packet) (n : Z) (layer : packet_layer_t) :
  fresh pkt -> 0 <= n < zlen (pk_buffer pkt) ->
  exists pkt' r, parse_packet pkt n layer = Ok (pkt', r) /\ pk_buffer pkt' = pk_buffer pkt.
Proof.
  intros Hf Hn. destruct (parse_packet_spec pkt n layer Hf Hn) as (pkt'&r&l2&E&more&Hb&_).
  by exists pkt', r.
Qed.

(** C2. Layout of an accepted packet: when [parse_packet] answers PACKET_OK, the
    headers it recorded are at most six, follow one another without gap from the
    start of the IP packet, each header and the data it claims lies inside the
    received bytes, the last two are an IP header and a transport header, and the
    packet's primary IP pointer and transport pointer are those two. *)
Theorem parse_packet_layout (pkt pkt' : packet) (n : Z) (layer : packet_layer_t) :
  fresh pkt -> 0 <= n < zlen (pk_buffer pkt) ->
  parse_packet pkt n layer = Ok (pkt', PACKET_OK) ->
  exists used, headers_ok (pk_headers pkt') used /\ laid (layer_start layer) used /\
    Forall (within n) used /\ complete pkt' used.
Proof.
  intros Hf Hn HE. destruct (parse_packet_spec pkt n layer Hf Hn)
    as (pkt1&r&l2&E&more&_&_&_&Hh&Hl&Hw&Hd).
  rewrite HE in E. injection E as <- <-. exists more. simpl in *. auto.
Qed.

(** The TCP/IPv4 packet of packet_parser_test.c (a SACK and a timestamp), and
    the IPv4 header of an IP-in-IP packet with nothing inside. *)
Definition tcp_ipv4_data : bytes :=
  [0x45; 0x00; 0x00; 0x3c; 0x00; 0x00; 0x00; 0x00; 0xff; 0x06; 0x39; 0x11;
   0xc0; 0x00; 0x02; 0x01; 0xc0; 0xa8; 0x00; 0x01; 0xcf; 0x3f; 0x1f; 0x90;
   0x00; 0x00; 0x00; 0x01; 0x83; 0x4d; 0xa5; 0x5b; 0xa0; 0x10; 0x01; 0x01;
   0xdb; 0x2d; 0x00; 0x00; 0x05; 0x0a; 0x83; 0x4d; 0xab; 0x03; 0x83; 0x4d;
   0xb0; 0xab; 0x08; 0x0a; 0x00; 0x00; 0x01; 0x2c; 0x60; 0xc2; 0x18; 0x20].

Definition ipip_data : bytes :=
  [0x45; 0x00; 0x00; 0x14; 0x00; 0x00; 0x00; 0x00; 0xff; 0x04; 0x39; 0x11;
   0xc0; 0x00; 0x02; 0x01; 0xc0; 0xa8; 0x00; 0x01].

(** A packet that holds the given bytes and [spare] more. *)
Definition received (data : bytes) (spare : nat) : packet :=
  let buffer := data ++ replicate spare 0 in
  set_pk_buffer buffer (@packet_new zero_malloc (zlen buffer)).

Ltac solve_fresh :=
  split_and!; try reflexivity; unfold bytes_ok, received, is_byte;
  (repeat (apply Forall_cons_2; [split; [discriminate|reflexivity]|]); apply Forall_nil_2).

Lemma tcp_ipv4_fresh : fresh (received tcp_ipv4_data 1).
Proof. solve_fresh. Defined.

Lemma parse_packet_safe_witness :
  exists pkt' r, parse_packet (received tcp_ipv4_data 1) 60 PACKET_LAYER_3_IP = Ok (pkt', r) /\
    pk_buffer pkt' = tcp_ipv4_data ++ [0].
Proof.
  apply (parse_packet_safe (received tcp_ipv4_data 1) 60 PACKET_LAYER_3_IP).
  - exact tcp_ipv4_fresh.
  - vm_compute. split; [discriminate|reflexivity].
Defined.

Lemma parse_packet_layout_witness :
  exists pkt' used, parse_packet (received tcp_ipv4_data 1) 60 PACKET_LAYER_3_IP
    = Ok (pkt', PACKET_OK) /\ pk_tcp pkt' = Some 20 /\
    headers_ok (pk_headers pkt') used /\ laid 0 used /\ complete pkt' used.
Proof.
  destruct (parse_packet (received tcp_ipv4_data 1) 60 PACKET_LAYER_3_IP)
    as [[pkt' r]|f] eqn:E; [|vm_compute in E; discriminate].
  assert (r = PACKET_OK /\ pk_tcp pkt' = Some 20) as [-> Ht].
  { vm_compute in E. injection E as <- <-. split; reflexivity. }
  destruct (parse_packet_layout _ pkt' 60 PACKET_LAYER_3_IP tcp_ipv4_fresh
    ltac:(vm_compute; split; [discriminate|reflexivity]) E) as (used&Hh&Hl&_&Hc).
  exists pkt', used. split; [reflexivity|]. split; [exact Ht|].
  split; [exact Hh|]. split; [exact Hl|exact Hc].
Defined.

(** Where the spare byte of [parse_packet_safe] is needed: a received packet that
    fills its buffer exactly and is an IPv4 header announcing an encapsulated IPv4
    packet of no bytes makes [parse_ipv4] read the first byte after the buffer
    (the nested header's length is read before any bound is checked), while with
    one byte more the same packet is rejected. *)
Theorem parse_ipip_overread :
  parse_packet (received ipip_data 0) 20 PACKET_LAYER_3_IP = Fault OutOfBounds /\
  exists pkt' msg, parse_packet (received ipip_data 1) 20 PACKET_LAYER_3_IP
    = Ok (pkt', PACKET_BAD msg).
Proof. split; [vm_compute; reflexivity|]. vm_compute. eauto. Qed.
