(* ===== verification/TcpOptions.v ===== *)
(** * TcpOptions: tcp_options.c, tcp_options_iterator.c, tcp_options_to_string.c

    A list of TCP options under construction, the iterator over the options of a
    packet, and their printed form.  A [struct tcp_option *] into a packet is an
    offset; an option being built is the bytes of the packed struct.  The
    out-parameter [error] is threaded as [option string]: several checks of this
    code only leave a message there and go on. *)

From S2P Require Import Prelude Headers Packet PacketParser.

(** ** Building a list of options *)

(** [tcp_options.h:32-32] MAX_TCP_OPTION_BYTES *)
Definition MAX_TCP_OPTION_BYTES : Z := MAX_TCP_HEADER_BYTES - sizeof_tcp.
(** [tcp_options.h:43-43] TCPOPT_FASTOPEN_MAGIC *)
Definition TCPOPT_FASTOPEN_MAGIC : Z := 0xF989.
(** [tcp_options.h:47-47] TCPOLEN_EXP_FASTOPEN_BASE *)
Definition TCPOLEN_EXP_FASTOPEN_BASE : Z := 4.
(** [tcp_options.h:50-50] TCPOLEN_FASTOPEN_BASE *)
Definition TCPOLEN_FASTOPEN_BASE : Z := 2.

(** [tcp_options.h:59-62] struct tcp_options *)
Record tcp_options := mk_tcp_options { opts_data : bytes; opts_length : Z }.

(** [tcp_options.h:74-108] struct tcp_option: the size of the packed struct *)
Definition sizeof_tcp_option : Z := 40.
(** [tcp_options.h:75-75] tcp_option.kind *)
Definition opt_kind := F8 0.
(** [tcp_options.h:76-76] tcp_option.length *)
Definition opt_length := F8 1.
(** [tcp_options.h:79-79] tcp_option.data.mss.bytes *)
Definition opt_mss_bytes := F16 2.
(** [tcp_options.h:82-82] tcp_option.data.time_stamp.val *)
Definition opt_ts_val := F32 2.
(** [tcp_options.h:83-83] tcp_option.data.time_stamp.ecr *)
Definition opt_ts_ecr := F32 6.
(** [tcp_options.h:86-86] tcp_option.data.window_scale.shift_count *)
Definition opt_shift_count := F8 2.
(** [tcp_options.h:65-68] sack_block.left of data.sack.block[i] *)
Definition opt_sack_left (i : Z) := F32 (2 + 8 * i).
(** [tcp_options.h:65-68] sack_block.right of data.sack.block[i] *)
Definition opt_sack_right (i : Z) := F32 (6 + 8 * i).
(** [tcp_options.h:93-93] tcp_option.data.md5.digest[i] *)
Definition opt_md5_digest (i : Z) := F8 (2 + i).
(** [tcp_options.h:101-101] tcp_option.data.fast_open.cookie[i] *)
Definition opt_fo_cookie (i : Z) := F8 (2 + i).
(** [tcp_options.h:104-104] tcp_option.data.fast_open_exp.magic *)
Definition opt_exp_magic := F16 2.
(** [tcp_options.h:105-105] tcp_option.data.fast_open_exp.cookie[i] *)
Definition opt_exp_cookie (i : Z) := F8 (4 + i).

(** [tcp_options.c:31-34] tcp_options_new *)
Definition tcp_options_new : tcp_options := mk_tcp_options (replicate 40 0) 0.

(** [tcp_options.c:36-42] tcp_option_new *)
Definition tcp_option_new (kind length : Z) : bytes :=
  [u8 kind; u8 length] ++ replicate 38 0.

(** [tcp_options.c:44-54] tcp_options_append *)
Definition tcp_options_append (options : tcp_options) (opt : bytes)
    : exec (tcp_options * status_t) :=
  length ← rd opt 0 opt_length;
  if MAX_TCP_OPTION_BYTES <? opts_length options + length then
    Ok (options, STATUS_ERR "")
  else
  src ← get_bytes opt 0 length;
  data ← put_bytes (opts_data options) (opts_length options) src;
  let new_length := u8 (opts_length options + length) in
  _ ← c_assert (new_length <=? MAX_TCP_OPTION_BYTES);
  Ok (mk_tcp_options data new_length, STATUS_OK).

(** [tcp_options.c:56-70] num_sack_blocks: [None] is STATUS_ERR *)
Definition num_sack_blocks (opt_len : Z) (error : option string) : option Z * option string :=
  if opt_len <=? 2 then (None, Some "TCP SACK option too short")
  else
  let num_bytes := opt_len - 2 in
  let error := if negb (num_bytes mod 8 =? 0)
               then Some "TCP SACK option not a multiple of SACK block size"
               else error in
  (Some (num_bytes / 8), error).

(** ** The iterator *)

(** [tcp_options_iterator.h:34-37] struct tcp_options_iterator *)
Record tcp_options_iterator := mk_iter { current_option : option Z; options_end : Z }.

(** [tcp_options_iterator.c:39-76] get_expected_tcp_option_length; the caller's
    [expected_length] is 0 and stays so for an unknown kind *)
Definition get_expected_tcp_option_length (kind : Z) (error : option string)
    : Z * option string :=
  if (kind =? TCPOPT_EOL) || (kind =? TCPOPT_NOP) then (1, error)
  else if kind =? TCPOPT_MAXSEG then (TCPOLEN_MAXSEG, error)
  else if kind =? TCPOPT_WINDOW then (TCPOLEN_WINDOW, error)
  else if kind =? TCPOPT_SACK_PERMITTED then (TCPOLEN_SACK_PERMITTED, error)
  else if kind =? TCPOPT_TIMESTAMP then (TCPOLEN_TIMESTAMP, error)
  else if (kind =? TCPOPT_SACK) || (kind =? TCPOPT_MD5SIG) || (kind =? TCPOPT_FASTOPEN)
          || (kind =? TCPOPT_EXP) then (0, error)
  else (0, Some ("unexpected TCP option kind: " +:+ dec kind)).

(** [tcp_options_iterator.c:84-112] get_tcp_option_length: [None] is STATUS_ERR *)
Definition get_tcp_option_length (buffer : bytes) (opt end_ expected_length : Z)
    (error : option string) : exec (option Z * option string) :=
  if end_ <=? opt + 1 then Ok (None, Some "TCP option length byte extends too far")
  else
  length ← ld8 buffer (opt + 1);
  let error := if length <? 2 then Some "TCP option with length byte is too short"
               else error in
  let error := if end_ <? opt + length then Some "TCP option data extends too far"
               else error in
  let error := if negb (expected_length =? 0) && negb (length =? expected_length)
               then Some ("bad TCP option length: was " +:+ dec length
                          +:+ " but expected " +:+ dec expected_length)
               else error in
  Ok (Some length, error).

(** [tcp_options_iterator.c:114-121] get_current_option *)
Definition get_current_option (iter : tcp_options_iterator)
    : tcp_options_iterator * option Z :=
  let cur := match current_option iter with
             | Some o => if options_end iter <=? o then None else Some o
             | None => None
             end in
  (mk_iter cur (options_end iter), cur).

(** [tcp_options_iterator.c:123-131] tcp_options_begin *)
Definition tcp_options_begin (pkt : packet) : exec (tcp_options_iterator * option Z) :=
  start ← packet_tcp_options pkt;
  end_ ← packet_payload pkt;
  Ok (get_current_option (mk_iter (Some start) end_)).

(** [tcp_options_iterator.c:133-173] tcp_options_next.  A NULL current option
    compares below any end, so the second assertion is the one it fails. *)
Definition tcp_options_next (buffer : bytes) (iter : tcp_options_iterator)
    (error : option string) : exec (tcp_options_iterator * option Z * option string) :=
  cur ← assert_ptr (current_option iter);
  _ ← c_assert (cur <? options_end iter);
  kind ← rd buffer cur opt_kind;
  let '(expected_length, error) := get_expected_tcp_option_length kind error in
  '(length, error) ←
    (if expected_length =? 1 then Ok (Some 1, error)
     else get_tcp_option_length buffer cur (options_end iter) expected_length error);
  match length with
  | None => Ok (iter, None, error)
  | Some length =>
      if length <=? 0 then Ok (iter, None, error)
      else
      let iter := mk_iter (Some (cur + length)) (options_end iter) in
      Ok (get_current_option iter, error)
  end.

(** The loop [for (option = tcp_options_begin(...); option != NULL; option =
    tcp_options_next(...))] with a body on a state that holds the packet.  The
    body may end the loop with a value. *)
Section Loop.
Context {S R : Type} (buffer : S -> bytes).
Context (body : S -> Z -> option string -> exec (S * option string * option R)).

Fixpoint options_loop (fuel : nat) (iter : tcp_options_iterator) (opt : option Z)
    (s : S) (error : option string) : exec (S * option string * option R) :=
  match opt with
  | None => Ok (s, error, None)
  | Some o =>
      match fuel with
      | O => Fault OutOfFuel
      | Datatypes.S n =>
          '(s, error, stop) ← body s o error;
          match stop with
          | Some r => Ok (s, error, Some r)
          | None =>
              '(iter, opt, error) ← tcp_options_next (buffer s) iter error;
              options_loop n iter opt s error
          end
      end
  end.

Definition for_options (pkt : packet) (s : S) (error : option string)
    : exec (S * option string * option R) :=
  '(iter, opt) ← tcp_options_begin pkt;
  let fuel := match opt with
              | Some o => Z.to_nat (options_end iter - o)
              | None => O
              end in
  options_loop fuel iter opt s error.
End Loop.

(** ** Printing *)

(** The loops that print [n] bytes of an option, from index [i], as [%02x]. *)
Fixpoint hex_bytes (buffer : bytes) (opt : Z) (f : Z -> field) (n : nat) (i : Z)
    : exec string :=
  match n with
  | O => Ok ""
  | S n' =>
      v ← rd buffer opt (f i);
      rest ← hex_bytes buffer opt f n' (i + 1);
      Ok (hex_padded 2 v +:+ rest)
  end.

(** [tcp_options_to_string.c:32-47] tcp_md5_option_to_string: [None] is STATUS_ERR *)
Definition tcp_md5_option_to_string (buffer : bytes) (opt : Z)
    : exec (option string) :=
  length ← rd buffer opt opt_length;
  if (length <? TCPOLEN_MD5_BASE) || (TCPOLEN_MD5SIG <? length) then Ok None
  else
  let digest_bytes := length - TCPOLEN_MD5_BASE in
  digest ← hex_bytes buffer opt opt_md5_digest (Z.to_nat digest_bytes) 0;
  Ok (Some ("md5" +:+ (if 0 <? digest_bytes then " " else "") +:+ digest)).

(** [tcp_options_to_string.c:53-73] tcp_fast_open_option_to_string *)
Definition tcp_fast_open_option_to_string (buffer : bytes) (opt : Z) (exp : bool)
    : exec (option string) :=
  length ← rd buffer opt opt_length;
  bad ← (if exp then
           if length <? TCPOLEN_EXP_FASTOPEN_BASE then Ok true
           else magic ← rd buffer opt opt_exp_magic;
                Ok (negb (ntohs magic =? TCPOPT_FASTOPEN_MAGIC))
         else Ok false);
  if (bad : bool) then Ok None
  else
  let cookie_bytes :=
    length - (if exp then TCPOLEN_EXP_FASTOPEN_BASE else TCPOLEN_FASTOPEN_BASE) in
  cookie ← hex_bytes buffer opt (if exp then opt_exp_cookie else opt_fo_cookie)
             (Z.to_nat cookie_bytes) 0;
  Ok (Some ((if exp then "FOEXP" else "FO")
            +:+ (if 0 <? cookie_bytes then " " else "") +:+ cookie)).

(** [tcp_options_to_string.c:120-126] the loop over SACK blocks *)
Fixpoint sack_blocks_to_string (buffer : bytes) (opt : Z) (n : nat) (i : Z)
    : exec string :=
  match n with
  | O => Ok ""
  | S n' =>
      left ← rd buffer opt (opt_sack_left i);
      right ← rd buffer opt (opt_sack_right i);
      rest ← sack_blocks_to_string buffer opt n' (i + 1);
      Ok ((if 0 <? i then " " else "") +:+ dec (ntohl left) +:+ ":"
          +:+ dec (ntohl right) +:+ rest)
  end.

(** [tcp_options_to_string.c:91-156] the switch on the kind of an option: the text
    printed, the error, and whether the loop is left with STATUS_ERR *)
Definition tcp_option_to_string (buffer : bytes) (opt : Z) (error : option string)
    : exec (string * option string * bool) :=
  kind ← rd buffer opt opt_kind;
  if kind =? TCPOPT_EOL then Ok ("eol", error, false)
  else if kind =? TCPOPT_NOP then Ok ("nop", error, false)
  else if kind =? TCPOPT_MAXSEG then
    v ← rd buffer opt opt_mss_bytes; Ok ("mss " +:+ dec (ntohs v), error, false)
  else if kind =? TCPOPT_WINDOW then
    v ← rd buffer opt opt_shift_count; Ok ("wscale " +:+ dec v, error, false)
  else if kind =? TCPOPT_SACK_PERMITTED then Ok ("sackOK", error, false)
  else if kind =? TCPOPT_SACK then
    length ← rd buffer opt opt_length;
    match num_sack_blocks length error with
    | (None, error) => Ok ("sack ", error, true)
    | (Some num_blocks, error) =>
        s ← sack_blocks_to_string buffer opt (Z.to_nat num_blocks) 0;
        Ok ("sack " +:+ s, error, false)
    end
  else if kind =? TCPOPT_TIMESTAMP then
    val ← rd buffer opt opt_ts_val;
    ecr ← rd buffer opt opt_ts_ecr;
    Ok ("TS val " +:+ dec (ntohl val) +:+ " ecr " +:+ dec (ntohl ecr), error, false)
  else if kind =? TCPOPT_MD5SIG then
    s ← tcp_md5_option_to_string buffer opt;
    Ok (default "" s, error, false)
  else if kind =? TCPOPT_FASTOPEN then
    s ← tcp_fast_open_option_to_string buffer opt false;
    Ok (default "" s, error, false)
  else if kind =? TCPOPT_EXP then
    s ← tcp_fast_open_option_to_string buffer opt true;
    match s with
    | None => Ok ("", Some "unknown experimental option", true)
    | Some s => Ok (s, error, false)
    end
  else Ok ("", Some ("unexpected TCP option kind: " +:+ dec kind), false).

(** [tcp_options_to_string.c:75-168] tcp_options_to_string: the text, the status and
    the error left behind *)
Definition tcp_options_to_string (pkt : packet) (error : option string)
    : exec (string * bool * option string) :=
  '(s, index, error, stop) ←
    for_options (fun _ => pk_buffer pkt)
      (fun '(s, index) opt error =>
         let s := if 0 <? index then s +:+ "," else s in
         '(t, error, bad) ← tcp_option_to_string (pk_buffer pkt) opt error;
         Ok ((s +:+ t, index + 1), error, if (bad : bool) then Some tt else None))
      pkt ("", 0) error;
  Ok (s, bool_decide (stop = None), error).

(** ** Lists of options *)

Definition options_wf (o : tcp_options) : Prop :=
  zlen (opts_data o) = 40 /\ bytes_ok (opts_data o) /\ 0 <= opts_length o <= 40.

(** An option struct with a legal length byte. *)
Definition option_wf (o : bytes) : Prop :=
  bytes_ok o /\ zlen o = sizeof_tcp_option /\ 1 <= byte_at o 1 <= 40.

(** The bytes of an option that go on the wire. *)
Definition option_wire (o : bytes) : bytes := take (Z.to_nat (byte_at o 1)) o.

(** The options in a list, in wire format. *)
Definition options_wire (o : tcp_options) : bytes :=
  take (Z.to_nat (opts_length o)) (opts_data o).

Lemma option_wire_zlen o : option_wf o -> zlen (option_wire o) = byte_at o 1.
Proof.
  intros (_&Hl&Hn). unfold option_wire, sizeof_tcp_option, zlen in *.
  rewrite length_take. lia.
Qed.

Lemma take_app_put (b l : bytes) o b' :
  put_bytes b o l = Ok b' ->
  take (Z.to_nat (o + zlen l)) b' = take (Z.to_nat o) b ++ l.
Proof.
  intros [Hr ->]%put_bytes_Ok. apply in_range_true in Hr as (?&?&?). unfold zlen in *.
  rewrite app_assoc. apply take_app_length'. rewrite length_app, length_take. lia.
Qed.

Lemma append_spec o opt :
  options_wf o -> option_wf opt ->
  (opts_length o + byte_at opt 1 <= 40 /\
   exists o', tcp_options_append o opt = Ok (o', STATUS_OK) /\ options_wf o' /\
     options_wire o' = options_wire o ++ option_wire opt /\
     opts_length o' = opts_length o + byte_at opt 1) \/
  (40 < opts_length o + byte_at opt 1 /\ tcp_options_append o opt = Ok (o, STATUS_ERR "")).
Proof.
  intros (Hd&Hb&Hl) Ho. pose proof (option_wire_zlen _ Ho) as Hw.
  destruct Ho as (Hob&Hol&Hon). unfold sizeof_tcp_option in Hol. unfold tcp_options_append.
  change (rd opt 0 opt_length) with (ld8 opt 1). rewrite ld8_eq, bind_Ok_eq by lia.
  change MAX_TCP_OPTION_BYTES with 40.
  destruct (Z.ltb_spec 40 (opts_length o + byte_at opt 1)); [right; split; [lia|done]|left].
  split; [lia|]. unfold get_bytes. assert (in_range opt 0 (byte_at opt 1) = true) as ->
    by (apply in_range_true; lia).
  rewrite bind_Ok_eq. change (drop (Z.to_nat 0) opt) with opt. fold (option_wire opt).
  destruct (put_bytes_in (opts_data o) (opts_length o) (option_wire opt)) as [d E]; [lia..|].
  rewrite E, bind_Ok_eq, u8_small by lia.
  destruct (Z.leb_spec (opts_length o + byte_at opt 1) 40); [|lia].
  simpl c_assert. rewrite bind_Ok_eq. eexists. split; [done|]. split; [|split; [|done]].
  - split; [simpl; by rewrite (put_bytes_zlen _ _ _ _ E)|]. simpl. split; [|lia].
    eapply put_bytes_bytes_ok; [| |exact E]; [done|]. by apply Forall_take.
  - unfold options_wire. simpl. rewrite <-Hw. by apply take_app_put.
Qed.

(** Appending a list of options, as the actions of the script grammar do. *)
Fixpoint tcp_options_append_all (o : tcp_options) (l : list bytes) : exec (option tcp_options) :=
  match l with
  | [] => Ok (Some o)
  | opt :: rest =>
      '(o, status) ← tcp_options_append o opt;
      match status with
      | STATUS_OK => tcp_options_append_all o rest
      | _ => Ok None
      end
  end.

Lemma append_all_spec l o o' :
  options_wf o -> Forall option_wf l -> tcp_options_append_all o l = Ok (Some o') ->
  options_wf o' /\ options_wire o' = options_wire o ++ mjoin (option_wire <$> l).
Proof.
  intros Ho Hl. revert o Ho. induction Hl as [|opt l Hopt Hl IH]; intros o Ho E.
  { simpl in E. inv_exec. split; [done|]. by rewrite app_nil_r. }
  simpl in E. destruct (append_spec o opt Ho Hopt) as [(_&o1&E1&Ho1&W1&_)|(_&E1)];
    rewrite E1, bind_Ok_eq in E; [|done].
  destruct (IH o1 Ho1 E) as [? ->]. split; [done|]. rewrite W1. simpl.
  by rewrite <-app_assoc.
Qed.

(** ** The iterator: progress, totality, and what it visits *)

(** One step from an option inside the options area: the step returns, and it
    either ends the iteration or moves strictly forward inside the area. *)
Lemma next_spec b cur e error :
  bytes_ok b -> 0 <= cur < e -> e <= zlen b ->
  exists iter' opt error', tcp_options_next b (mk_iter (Some cur) e) error = Ok (iter', opt, error') /\
    (opt = None \/ exists o, opt = Some o /\ iter' = mk_iter (Some o) e /\ cur < o < e).
Proof.
  intros Hb Hc He. unfold tcp_options_next. simpl assert_ptr. rewrite bind_Ok_eq.
  simpl options_end. destruct (Z.ltb_spec cur e); [|lia]. simpl c_assert. rewrite bind_Ok_eq.
  destruct (rd_total b cur opt_kind) as (kind&->&_);
    [done|split; simpl; lia|simpl; lia|simpl; lia|]. rewrite bind_Ok_eq.
  destruct (get_expected_tcp_option_length kind error) as [expected error1].
  assert (exists len error2, (if expected =? 1 then Ok (Some 1, error1)
     else get_tcp_option_length b cur e expected error1) = Ok (len, error2))
    as (len&error2&->).
  { destruct (expected =? 1); [eauto|]. unfold get_tcp_option_length.
    destruct (Z.leb_spec e (cur + 1)); [eauto|]. rewrite ld8_eq, bind_Ok_eq by lia. eauto. }
  rewrite bind_Ok_eq. destruct len as [len|]; [|by eexists _, None, _; eauto].
  destruct (Z.leb_spec len 0); [by eexists _, None, _; eauto|].
  unfold get_current_option. simpl. destruct (Z.leb_spec e (cur + len)).
  - eexists _, None, _. eauto.
  - eexists _, (Some (cur + len)), _. split; [done|]. right. exists (cur + len).
    split; [done|]. split; [done|lia].
Qed.

(** A loop over the options of a packet terminates within its fuel and returns,
    whatever bytes the options are, when its body does so and keeps an invariant. *)
Lemma options_loop_total {S R} (buffer : S -> bytes)
    (body : S -> Z -> option string -> exec (S * option string * option R))
    (Inv : S -> Prop) (start e : Z) :
  0 <= start ->
  (forall s, Inv s -> bytes_ok (buffer s) /\ e <= zlen (buffer s)) ->
  (forall s o error, Inv s -> start <= o < e ->
     exists s' error' r, body s o error = Ok (s', error', r) /\ Inv s') ->
  forall fuel o s error, Inv s -> start <= o < e -> (Z.to_nat (e - o) <= fuel)%nat ->
  exists s' error' r,
    options_loop buffer body fuel (mk_iter (Some o) e) (Some o) s error = Ok (s', error', r) /\
    Inv s'.
Proof.
  intros H0 Hbuf Hbody fuel. induction fuel as [|n IH]; intros o s error HI Ho Hn; [lia|].
  simpl. destruct (Hbody s o error HI Ho) as (s1&e1&r&->&HI1). rewrite bind_Ok_eq.
  destruct r as [r|]; [eauto 6|]. destruct (Hbuf s1 HI1) as [Hb Hl].
  destruct (next_spec (buffer s1) o e e1 Hb) as (it&opt&e2&->&Hopt); [lia|lia|].
  rewrite bind_Ok_eq. destruct Hopt as [->|(o'&->&->&Ho')].
  - destruct n; simpl; eauto 6.
  - apply IH; [done|lia|lia].
Qed.

(** An option as it should be on the wire: one byte for EOL and NOP, else a
    length byte that counts the whole option. *)
Definition wire_option (w : bytes) : Prop :=
  bytes_ok w /\ 1 <= zlen w /\
  if (byte_at w 0 =? TCPOPT_EOL) || (byte_at w 0 =? TCPOPT_NOP) then zlen w = 1
  else 2 <= zlen w /\ byte_at w 1 = zlen w.

(** Where each option of a sequence starts. *)
Fixpoint starts (p : Z) (ws : list bytes) : list Z :=
  match ws with
  | [] => []
  | w :: rest => p :: starts (p + zlen w) rest
  end.

Lemma expected_one kind error :
  ((get_expected_tcp_option_length kind error).1 =? 1)
  = ((kind =? TCPOPT_EOL) || (kind =? TCPOPT_NOP)).
Proof.
  unfold get_expected_tcp_option_length.
  destruct ((kind =? TCPOPT_EOL) || (kind =? TCPOPT_NOP)); [done|].
  repeat (match goal with |- context [if ?c then _ else _] => destruct c end; [done|]). done.
Qed.

(** A step over a well-formed option goes exactly past it. *)
Lemma next_over b cur e w error :
  bytes_ok b -> 0 <= cur -> get_bytes b cur (zlen w) = Ok w -> wire_option w ->
  cur + zlen w <= e <= zlen b ->
  exists error', tcp_options_next b (mk_iter (Some cur) e) error =
    Ok (get_current_option (mk_iter (Some (cur + zlen w)) e), error').
Proof.
  intros Hb Hc Hg (Hw&H1&Hwf) He. unfold tcp_options_next. simpl assert_ptr.
  rewrite bind_Ok_eq. simpl options_end. destruct (Z.ltb_spec cur e); [|lia].
  simpl c_assert. rewrite bind_Ok_eq.
  pose proof (byte_at_get _ _ _ _ 0 Hg ltac:(lia)) as Hk. rewrite Z.add_0_r in Hk.
  change (rd b cur opt_kind) with (ld8 b (cur + 0)). rewrite Z.add_0_r, ld8_eq by lia.
  rewrite bind_Ok_eq, <-Hk. pose proof (expected_one (byte_at w 0) error) as Hx.
  destruct (get_expected_tcp_option_length (byte_at w 0) error) as [expected error1].
  simpl in Hx. rewrite Hx. destruct (_ || _).
  - rewrite bind_Ok_eq. simpl. rewrite Hwf. eauto.
  - destruct Hwf as [H2 Hlen]. unfold get_tcp_option_length.
    destruct (Z.leb_spec e (cur + 1)); [lia|]. rewrite ld8_eq, bind_Ok_eq by lia.
    pose proof (byte_at_get _ _ _ _ 1 Hg ltac:(lia)) as Hk1. rewrite <-Hk1, Hlen.
    rewrite bind_Ok_eq. destruct (Z.leb_spec (zlen w) 0); [lia|]. eauto.
Qed.

Lemma get_bytes_app_l b p u v :
  get_bytes b p (zlen (u ++ v)) = Ok (u ++ v) ->
  get_bytes b p (zlen u) = Ok u /\ get_bytes b (p + zlen u) (zlen v) = Ok v.
Proof.
  intros H. pose proof H as [Hr E]%get_bytes_Ok. apply in_range_true in Hr.
  rewrite zlen_app in *. pose proof (zlen_nonneg u). pose proof (zlen_nonneg v).
  destruct (get_bytes_in b p (zlen u)) as [x Hx]; [lia..|].
  destruct (get_bytes_in b (p + zlen u) (zlen v)) as [y Hy]; [lia..|].
  pose proof (get_bytes_zlen _ _ _ _ Hx). pose proof (get_bytes_zlen _ _ _ _ Hy).
  rewrite Hx, Hy. split; f_equal; apply bytes_ext; try done; intros i Hi.
  - rewrite (byte_at_get _ _ _ _ _ Hx) by lia.
    rewrite <-(byte_at_get _ _ _ _ _ H) by lia. rewrite byte_at_app by lia.
    destruct (Z.ltb_spec i (zlen u)); [done|lia].
  - rewrite (byte_at_get _ _ _ _ _ Hy) by lia. rewrite <-Z.add_assoc.
    rewrite <-(byte_at_get _ _ _ _ _ H) by lia. rewrite byte_at_app by lia.
    destruct (Z.ltb_spec (zlen u + i) (zlen u)); [lia|]. f_equal. lia.
Qed.

(** The offsets the iterator visits. *)
Definition visit (s : list Z) (o : Z) (error : option string)
    : exec (list Z * option string * option unit) := Ok (s ++ [o], error, None).

Definition visited_options (pkt : packet) : exec (list Z) :=
  '(s, _, _) ← for_options (fun _ => pk_buffer pkt) visit pkt [] None; Ok s.

Lemma loop_visits b ws : forall p fuel seen error,
  bytes_ok b -> 0 <= p -> Forall wire_option ws ->
  get_bytes b p (zlen (mjoin ws)) = Ok (mjoin ws) -> p + zlen (mjoin ws) <= zlen b ->
  (Z.to_nat (zlen (mjoin ws)) <= fuel)%nat ->
  let e := p + zlen (mjoin ws) in
  exists error', (let '(it, opt) := get_current_option (mk_iter (Some p) e) in
    options_loop (fun _ => b) visit fuel it opt seen error)
  = Ok (seen ++ starts p ws, error', None).
Proof.
  induction ws as [|w ws IH]; intros p fuel seen error Hb Hp Hws Hg Hr Hf e.
  - exists error. unfold e. simpl. change (zlen ([] : bytes)) with 0.
    destruct (Z.leb_spec (p + 0) p); [|lia]. destruct fuel; simpl; by rewrite app_nil_r.
  - apply Forall_cons in Hws as [Hw Hws].
    change (mjoin (w :: ws)) with (w ++ mjoin ws) in *. pose proof Hw as (_&H1&_).
    apply get_bytes_app_l in Hg as [Hgw Hgs].
    assert (He : e = p + zlen w + zlen (mjoin ws)) by (unfold e; rewrite zlen_app; lia).
    rewrite zlen_app in *. clearbody e. subst e.
    pose proof (zlen_nonneg (mjoin ws)).
    unfold get_current_option. simpl. destruct (Z.leb_spec (p + zlen w + zlen (mjoin ws)) p); [lia|].
    destruct fuel as [|fuel]; [lia|]. simpl.
    destruct (next_over b p (p + zlen w + zlen (mjoin ws)) w error Hb Hp Hgw Hw) as (e1&->); [lia|]. rewrite bind_Ok_eq.
    destruct (IH (p + zlen w) fuel (seen ++ [p]) e1) as (e2&E2); [done|lia|done|done|lia|lia|].
    exists e2.
    destruct (get_current_option _) as [it opt]. rewrite E2.
    by rewrite <-app_assoc.
Qed.

(** An option struct as the script grammar builds it: EOL and NOP have length 1,
    every other option at least its kind and length bytes. *)
Definition option_legal (opt : bytes) : Prop :=
  option_wf opt /\
  if (byte_at opt 0 =? TCPOPT_EOL) || (byte_at opt 0 =? TCPOPT_NOP)
  then byte_at opt 1 = 1 else 2 <= byte_at opt 1.

Lemma legal_wire opt : option_legal opt -> wire_option (option_wire opt).
Proof.
  intros [Hwf Hl]. pose proof (option_wire_zlen _ Hwf) as Hz.
  destruct Hwf as (Hb&_&Hn). unfold wire_option. rewrite Hz.
  split; [by apply Forall_take|]. split; [lia|].
  unfold option_wire. rewrite byte_at_take by lia.
  destruct (_ || _); [done|]. by rewrite byte_at_take by lia.
Qed.

Lemma options_new_wf : options_wf tcp_options_new.
Proof.
  split; [done|]. split; [|simpl; lia]. apply Forall_replicate. unfold is_byte. lia.
Qed.

(** The bytes a list of options takes. *)
Definition options_total (l : list bytes) : Z := foldr (fun o n => byte_at o 1 + n) 0 l.

Lemma options_total_nonneg l : Forall option_wf l -> 0 <= options_total l.
Proof. induction 1 as [|o l (_&_&?) Hl IH]; simpl; lia. Qed.

Lemma append_all_result l o :
  options_wf o -> Forall option_wf l ->
  exists r, tcp_options_append_all o l = Ok r /\
    (is_Some r <-> opts_length o + options_total l <= 40).
Proof.
  intros Ho Hl. revert o Ho. induction Hl as [|opt l Hopt Hl IH]; intros o Ho.
  { exists (Some o). split; [done|]. destruct Ho as (_&_&?). simpl.
    split; [lia|]. by eexists. }
  simpl. pose proof (options_total_nonneg l Hl).
  destruct (append_spec o opt Ho Hopt) as [(_&o1&->&Ho1&_&L1)|(Hgt&->)]; rewrite bind_Ok_eq.
  - destruct (IH o1 Ho1) as (r&->&Hr). exists r. split; [done|]. rewrite Hr, L1. lia.
  - exists None. split; [done|]. split; [by intros [? ?]|lia].
Qed.

(** Building a list of TCP options: starting from an empty list, appending any
    sequence of options with legal length bytes always returns; it succeeds
    exactly when the options take at most the 40 bytes a TCP header has room for,
    and then the list is the concatenation of the options' wire forms. *)
Theorem tcp_options_append_concat (l : list bytes) :
  Forall option_wf l ->
  exists r, tcp_options_append_all tcp_options_new l = Ok r /\
    (is_Some r <-> options_total l <= 40) /\
    (forall o, r = Some o -> options_wf o /\ options_wire o = mjoin (option_wire <$> l)).
Proof.
  intros Hl. destruct (append_all_result l tcp_options_new options_new_wf Hl) as (r&E&Hr).
  exists r. split; [done|]. split; [done|]. intros o ->.
  exact (append_all_spec l tcp_options_new o options_new_wf Hl E).
Qed.

Definition sample_options : list bytes :=
  [tcp_option_new TCPOPT_SACK_PERMITTED 2; tcp_option_new TCPOPT_TIMESTAMP 10;
   tcp_option_new TCPOPT_NOP 1; tcp_option_new TCPOPT_WINDOW 3].

Lemma sample_options_legal : Forall option_legal sample_options.
Proof.
  unfold sample_options, option_legal, option_wf, bytes_ok.
  repeat (apply Forall_cons_2 || apply Forall_nil_2);
    (split_and!; [unfold tcp_option_new; simpl;
       repeat (apply Forall_cons_2; [unfold is_byte, u8; vm_compute; split; [discriminate|reflexivity]|]);
       apply Forall_nil_2
      |vm_compute; reflexivity|vm_compute; discriminate|vm_compute; discriminate
      |vm_compute; try discriminate; reflexivity]).
Defined.

Lemma tcp_options_append_concat_witness :
  exists o, tcp_options_append_all tcp_options_new sample_options = Ok (Some o) /\
    options_wire o = [4; 2; 8; 10; 0; 0; 0; 0; 0; 0; 0; 0; 1; 3; 3; 0].
Proof.
  destruct (tcp_options_append_concat sample_options) as (r&E&Hr&Ho).
  { eapply Forall_impl; [exact sample_options_legal|]. intros o [H _]. exact H. }
  destruct r as [o|].
  - exists o. split; [exact E|]. destruct (Ho o eq_refl) as [_ ->]. vm_compute. reflexivity.
  - destruct (proj2 Hr) as [? H]; [vm_compute; discriminate|discriminate H].
Defined.

(** C32. Options round-trip through a packet: build a list from legal options, copy
    it into the options area of a packet's TCP header, and the iterator visits
    exactly the options appended, in order, each at the offset where its bytes
    start, then stops at the end of the header. *)
Theorem tcp_options_roundtrip (pkt : packet) (t doff : Z) (l : list bytes) (o : tcp_options) :
  Forall option_legal l -> tcp_options_append_all tcp_options_new l = Ok (Some o) ->
  bytes_ok (pk_buffer pkt) -> 0 <= t -> pk_tcp pkt = Some t ->
  prd pkt t tcp_doff = Ok doff -> doff * 4 = sizeof_tcp + zlen (options_wire o) ->
  get_bytes (pk_buffer pkt) (t + sizeof_tcp) (zlen (options_wire o)) = Ok (options_wire o) ->
  visited_options pkt = Ok (starts (t + sizeof_tcp) (option_wire <$> l)).
Proof.
  intros Hl E Hb Ht Htcp Hd Hlen Hg.
  assert (Hwf : Forall option_wf l) by (eapply Forall_impl; [exact Hl|]; by intros ? []).
  destruct (append_all_spec l _ _ options_new_wf Hwf E) as [_ W].
  change (options_wire tcp_options_new) with ([] : bytes) in W. simpl in W.
  rewrite W in *. unfold visited_options, for_options, tcp_options_begin, packet_tcp_options.
  rewrite Htcp. simpl assert_ptr. rewrite !bind_Ok_eq. unfold packet_payload.
  rewrite Htcp. unfold packet_tcp_header_len. rewrite Htcp. simpl assert_ptr.
  rewrite bind_Ok_eq, Hd, !bind_Ok_eq, Hlen, Z.add_assoc.
  pose proof Hg as [Hr _]%get_bytes_Ok. apply in_range_true in Hr.
  destruct (loop_visits (pk_buffer pkt) (option_wire <$> l) (t + sizeof_tcp)
    (Z.to_nat (zlen (mjoin (option_wire <$> l)))) [] None) as (e&Hv);
    [done|unfold sizeof_tcp in *; lia| |done|lia|lia|].
  { apply Forall_fmap. eapply Forall_impl; [exact Hl|]. intros. by apply legal_wire. }
  unfold get_current_option in *. simpl in *.
  destruct (Z.leb_spec (t + sizeof_tcp + zlen (mjoin (option_wire <$> l))) (t + sizeof_tcp)).
  - destruct (Z.to_nat (zlen (mjoin (option_wire <$> l)))); simpl in *;
      injection Hv as Hs _; by rewrite <-Hs.
  - replace (t + sizeof_tcp + zlen (mjoin (option_wire <$> l)) - (t + sizeof_tcp))
      with (zlen (mjoin (option_wire <$> l))) by lia. rewrite Hv. done.
Qed.

(** A packet whose TCP header, at offset 0, carries the sample options. *)
Definition sample_packet : packet :=
  set_pk_tcp (Some 0) (received
    (replicate 12 0 ++ [0x90; 0x10] ++ replicate 6 0 ++
     [4; 2; 8; 10; 0; 0; 0; 0; 0; 0; 0; 0; 1; 3; 3; 0]) 0).

Lemma tcp_options_roundtrip_witness :
  visited_options sample_packet = Ok [20; 22; 32; 33].
Proof.
  apply (tcp_options_roundtrip sample_packet 0 9 sample_options
    (mk_tcp_options ([4; 2; 8; 10; 0; 0; 0; 0; 0; 0; 0; 0; 1; 3; 3; 0] ++ replicate 24 0) 16)).
  - exact sample_options_legal.
  - vm_compute. reflexivity.
  - unfold bytes_ok, sample_packet. simpl.
    repeat (apply Forall_cons_2; [unfold is_byte; split; [discriminate|reflexivity]|]).
    apply Forall_nil_2.
  - discriminate.
  - reflexivity.
  - vm_compute. reflexivity.
  - reflexivity.
  - vm_compute. reflexivity.
Defined.

(** The printed options of the packet of packet_parser_test.c. *)
Example tcp_options_to_string_sample :
  ('(pkt, _) ← parse_packet (received tcp_ipv4_data 1) 60 PACKET_LAYER_3_IP;
   tcp_options_to_string pkt None)
  = Ok ("sack 2202905347:2202906795,TS val 300 ecr 1623332896", true, None).
Proof. vm_compute. reflexivity. Qed.
