(* ===== verification/IpAddress.v ===== *)
(** * IpAddress: ip_address.c and ip_prefix.c

    Addresses of either family in the 16-byte union of the source, IPv4-mapped IPv6
    addresses, the conversions to and from [struct sockaddr], netmasks and prefixes.
    The text conversions of the C library are an interface. *)

From S2P Require Import Prelude Headers.

(** [ip_address.h:33-40] struct ip_address: the 16 bytes of the union *)
Record ip_address := mk_ip { ip_family : Z; ip_octets : bytes }.

#[export] Instance ip_address_eq_dec : EqDecision ip_address.
Proof. solve_decision. Defined.

(** [inet_pton] of the C library: the address in network order, or a failure. *)
Class InetPton := {
  inet_pton : Z -> string -> option bytes;
  inet_pton_4 : forall s a, inet_pton AF_INET s = Some a -> bytes_ok a /\ zlen a = 4;
  inet_pton_6 : forall s a, inet_pton AF_INET6 s = Some a -> bytes_ok a /\ zlen a = 16
}.

(** [ip_address.c:41-41] ipv4_mapped_prefix *)
Definition ipv4_mapped_prefix : bytes := [0; 0; 0; 0; 0; 0; 0; 0; 0; 0; 0xFF; 0xFF].

(** [ip_address.c:43-56] ip_address_length *)
Definition ip_address_length (address_family : Z) : exec Z :=
  if address_family =? AF_INET then Ok 4
  else if address_family =? AF_INET6 then Ok 16
  else Fault Died.

(** [ip_address.c:58-71] sockaddr_length *)
Definition sockaddr_length (address_family : Z) : exec Z :=
  if address_family =? AF_INET then Ok 16
  else if address_family =? AF_INET6 then Ok 28
  else Fault Died.

(** [ip_address.h:42-45] ip_reset *)
Definition ip_reset : ip_address := mk_ip 0 (replicate 16 0).

(** [ip_address.c:73-77] ipv4_init *)
Definition ipv4_init : ip_address := mk_ip AF_INET (replicate 16 0).

(** [ip_address.c:79-83] ipv6_init *)
Definition ipv6_init : ip_address := mk_ip AF_INET6 (replicate 16 0).

(** Assigning the [v4] or the [v6] member of the union. *)
Definition set_v4 (a : bytes) (ip : ip_address) : ip_address :=
  mk_ip (ip_family ip) (a ++ drop 4 (ip_octets ip)).
Definition set_v6 (a : bytes) (ip : ip_address) : ip_address := mk_ip (ip_family ip) a.

(** [ip_address.c:85-89] ip_from_ipv4 *)
Definition ip_from_ipv4 (ipv4 : bytes) : ip_address := set_v4 ipv4 ipv4_init.

(** [ip_address.c:91-95] ip_from_ipv6 *)
Definition ip_from_ipv6 (ipv6 : bytes) : ip_address := set_v6 ipv6 ipv6_init.

(** [ip_address.c:97-100] ip_to_ipv4 *)
Definition ip_to_ipv4 (ip : ip_address) : bytes := take 4 (ip_octets ip).

(** [ip_address.c:102-105] ip_to_ipv6 *)
Definition ip_to_ipv6 (ip : ip_address) : bytes := ip_octets ip.

(** [ip_address.h:64-69] is_equal_ip *)
Definition is_equal_ip (a b : ip_address) : exec bool :=
  if ip_family a =? ip_family b then
    len ← ip_address_length (ip_family a);
    Ok (bool_decide (take (Z.to_nat len) (ip_octets a) = take (Z.to_nat len) (ip_octets b)))
  else Ok false.

(** [ip_address.c:107-116] ipv4_parse *)
Definition ipv4_parse `{InetPton} (ip_string : string) : exec ip_address :=
  match inet_pton AF_INET ip_string with
  | Some a => Ok (set_v4 a ipv4_init)
  | None => Fault Died
  end.

(** [ip_address.c:118-127] ipv6_parse *)
Definition ipv6_parse `{InetPton} (ip_string : string) : exec ip_address :=
  match inet_pton AF_INET6 ip_string with
  | Some a => Ok (set_v6 a ipv6_init)
  | None => Fault Died
  end.

(** [ip_address.c:137-149] ipv6_map_from_ipv4 *)
Definition ipv6_map_from_ipv4 (ipv4 : ip_address) : ip_address :=
  set_v6 (ipv4_mapped_prefix ++ take 4 (ip_octets ipv4)) ipv6_init.

(** [ip_address.c:151-163] ipv6_map_to_ipv4: [None] is STATUS_ERR *)
Definition ipv6_map_to_ipv4 (ipv6 : ip_address) : option ip_address :=
  if bool_decide (take 12 (ip_octets ipv6) = ipv4_mapped_prefix)
  then Some (set_v4 (take 4 (drop 12 (ip_octets ipv6))) ipv4_init)
  else None.

(** [ip_address.c:168-181] ipv4_to_sockaddr: the bytes of the sockaddr_in, whose
    number is the length stored *)
Definition ipv4_to_sockaddr (ipv4 : ip_address) (port : Z) : bytes :=
  le_split 2 AF_INET ++ le_split 2 (htons port) ++ take 4 (ip_octets ipv4) ++ replicate 8 0.

(** [ip_address.c:186-199] ipv6_to_sockaddr: the bytes of the sockaddr_in6 *)
Definition ipv6_to_sockaddr (ipv6 : ip_address) (port : Z) : bytes :=
  le_split 2 AF_INET6 ++ le_split 2 (htons port) ++ replicate 4 0 ++ ip_octets ipv6
  ++ replicate 4 0.

(** [ip_address.c:201-216] ip_to_sockaddr *)
Definition ip_to_sockaddr (ip : ip_address) (port : Z) : exec bytes :=
  if ip_family ip =? AF_INET then Ok (ipv4_to_sockaddr ip port)
  else if ip_family ip =? AF_INET6 then Ok (ipv6_to_sockaddr ip port)
  else Fault Died.

(** [ip_address.c:219-230] ipv4_from_sockaddr *)
Definition ipv4_from_sockaddr (address : bytes) (length : Z) : exec (ip_address * Z) :=
  family ← ld16 address 0;
  _ ← c_assert (family =? AF_INET);
  _ ← c_assert (length =? 16);
  sa ← get_bytes address 0 length;
  addr ← get_bytes sa 4 4;
  port ← ld16 sa 2;
  Ok (set_v4 addr ipv4_init, ntohs port).

(** [ip_address.c:233-244] ipv6_from_sockaddr *)
Definition ipv6_from_sockaddr (address : bytes) (length : Z) : exec (ip_address * Z) :=
  family ← ld16 address 0;
  _ ← c_assert (family =? AF_INET6);
  _ ← c_assert (length =? 28);
  sa ← get_bytes address 0 length;
  addr ← get_bytes sa 8 16;
  port ← ld16 sa 2;
  Ok (set_v6 addr ipv6_init, ntohs port).

(** [ip_address.c:246-261] ip_from_sockaddr *)
Definition ip_from_sockaddr (address : bytes) (length : Z) : exec (ip_address * Z) :=
  family ← ld16 address 0;
  if family =? AF_INET then ipv4_from_sockaddr address length
  else if family =? AF_INET6 then ipv6_from_sockaddr address length
  else Fault Died.

(** [ip_address.c:313-317] the loop of netmask_to_prefix, from bit [pos] - 1 down *)
Fixpoint netmask_loop (mask_addr : Z) (pos : nat) (prefix_len : Z) : Z :=
  match pos with
  | O => prefix_len
  | S pos' =>
      if Z.land mask_addr (Z.shiftl 1 (Z.of_nat pos')) =? 0 then prefix_len
      else netmask_loop mask_addr pos' (prefix_len + 1)
  end.

(** [ip_address.c:306-319] netmask_to_prefix *)
Definition netmask_to_prefix `{InetPton} (netmask : string) : exec Z :=
  mask ← ipv4_parse netmask;
  s_addr ← ld32 (ip_octets mask) 0;
  Ok (netmask_loop (ntohl s_addr) 32 0).

(** [ip_address.c:340-352] the host part generate_random_ipv4_addr takes from the
    random number [rnd] *)
Definition random_host_v4 (prefix_len rnd : Z) : Z :=
  if negb (prefix_len =? 0) then
    let mask := u32 (u32 (Z.shiftl 1 (32 - prefix_len)) - 1) in
    let rnd := Z.land rnd mask in
    let rnd := if rnd <? 2 then 2 else rnd in
    if rnd =? mask then u32 (rnd - 1) else rnd
  else rnd.

(** [ip_address.c:330-357] generate_random_ipv4_addr: the address it prints; [random] is
    what /dev/urandom gave, if it gave four bytes *)
Definition generate_random_ipv4_addr `{InetPton} (base netmask : string) (random : option Z)
    : exec ip_address :=
  prefix_len ← netmask_to_prefix netmask;
  addr ← ipv4_parse base;
  match random with
  | Some rnd =>
      if prefix_len <? 31 then
        s_addr ← ld32 (ip_octets addr) 0;
        Ok (set_v4 (le_split 4 (Z.lor s_addr (htonl (random_host_v4 prefix_len rnd)))) addr)
      else Ok addr
  | None => Ok addr
  end.

(** [ip_address.c:366-376] generate_random_ipv6_addr: the host part it ors in, from the
    random number [rnd] (zero when /dev/urandom cannot be read) *)
Definition random_host_v6 (prefixlen rnd : Z) : Z :=
  let '(mask, rnd) :=
    if 128 - 32 <? prefixlen then
      let mask := u32 (u32 (Z.shiftl 1 (128 - prefixlen)) - 1) in (mask, Z.land rnd mask)
    else (u32 (Z.lnot 0), rnd) in
  let rnd := if rnd =? 0 then u32 (rnd + 1) else rnd in
  if rnd =? mask then u32 (rnd - 1) else rnd.

(** [ip_address.c:363-379] generate_random_ipv6_addr: the address it prints *)
Definition generate_random_ipv6_addr `{InetPton} (base : string) (prefixlen rnd : Z)
    : exec ip_address :=
  addr ← ipv6_parse base;
  w ← ld32 (ip_octets addr) 12;
  o ← put_bytes (ip_octets addr) 12 (le_split 4 (Z.lor w (htonl (random_host_v6 prefixlen rnd))));
  Ok (set_v6 o addr).

(** ** Prefixes *)

(** [ip_prefix.h:33-36] struct ip_prefix *)
Record ip_prefix := mk_prefix { prefix_ip : ip_address; prefix_len : Z }.

(** [ip_prefix.c:33-45] ip_to_prefix *)
Definition ip_to_prefix (ip : ip_address) (prefix_len : Z) : exec ip_prefix :=
  len ← ip_address_length (ip_family ip);
  let max_prefix_bits := 8 * len in
  if (prefix_len <? 0) || (max_prefix_bits <? prefix_len) then Fault Died
  else Ok (mk_prefix ip prefix_len).

(** [ip_prefix.c:47-63] ip_prefix_normalize *)
Definition ip_prefix_normalize (prefix : ip_prefix) : exec ip_prefix :=
  let bytes := prefix_len prefix / 8 in
  let bits := prefix_len prefix mod 8 in
  max_prefix_bytes ← ip_address_length (ip_family (prefix_ip prefix));
  '(octets, bytes) ←
    (if negb (bits =? 0) then
       let pos := 8 - bits in
       v ← ld8 (ip_octets (prefix_ip prefix)) bytes;
       o ← st8 (ip_octets (prefix_ip prefix)) bytes
             (Z.land v (u32 (Z.lnot (Z.shiftl 1 pos - 1))));
       Ok (o, bytes + 1)
     else Ok (ip_octets (prefix_ip prefix), bytes));
  octets ← put_bytes octets bytes (replicate (Z.to_nat (max_prefix_bytes - bytes)) 0);
  Ok (mk_prefix (mk_ip (ip_family (prefix_ip prefix)) octets) (prefix_len prefix)).

(** ** Well-formed addresses *)

(** Sixteen bytes; an IPv4 address leaves the last twelve zero. *)
Definition ip_ok (ip : ip_address) : Prop :=
  bytes_ok (ip_octets ip) /\ length (ip_octets ip) = 16%nat /\
  (ip_family ip = AF_INET6 \/
   ip_family ip = AF_INET /\ drop 4 (ip_octets ip) = replicate 12 0).

(** Socket addresses round-trip: any IPv4 or IPv6 address and 16-bit port stored in
    a [struct sockaddr] and read back with the length stored with it give the same
    address and port. *)
Theorem sockaddr_roundtrip (ip : ip_address) (port : Z) :
  ip_ok ip -> 0 <= port < 65536 ->
  exists sa, ip_to_sockaddr ip port = Ok sa /\
    sockaddr_length (ip_family ip) = Ok (zlen sa) /\
    ip_from_sockaddr sa (zlen sa) = Ok (ip, port).
Proof.
  intros (Hb&Hl&Hf) Hp. destruct ip as [f o]. simpl in *.
  do 17 (destruct o as [|? o]; simpl in Hl; try lia). clear Hl.
  unfold bytes_ok in Hb. repeat (apply Forall_cons in Hb as [? Hb]). clear Hb.
  assert (Hport : le_combine (le_split 2 (htons port)) = htons port).
  { rewrite le_combine_split. apply Z.mod_small. apply ntohs_range. }
  destruct Hf as [->|[-> Hd]].
  - eexists. split; [reflexivity|]. split; [reflexivity|].
    unfold ip_from_sockaddr, ipv6_from_sockaddr. simpl.
    do 2 f_equal. simpl in Hport. rewrite Hport. by apply ntohs_invol.
  - simpl in Hd. injection Hd as -> -> -> -> -> -> -> -> -> -> -> ->.
    eexists. split; [reflexivity|]. split; [reflexivity|].
    unfold ip_from_sockaddr, ipv4_from_sockaddr. simpl.
    do 2 f_equal. simpl in Hport. rewrite Hport. by apply ntohs_invol.
Qed.

Ltac solve_ip_ok :=
  split; [unfold bytes_ok; simpl;
    repeat (apply Forall_cons_2; [unfold is_byte; split; [discriminate|reflexivity]|]);
    apply Forall_nil_2|split; [reflexivity|]].

Definition ip_192_168_0_1 : ip_address := ip_from_ipv4 [192; 168; 0; 1].

Lemma sockaddr_roundtrip_witness :
  exists sa, ip_to_sockaddr ip_192_168_0_1 8080 = Ok sa /\
    sockaddr_length AF_INET = Ok (zlen sa) /\
    ip_from_sockaddr sa (zlen sa) = Ok (ip_192_168_0_1, 8080).
Proof.
  apply (sockaddr_roundtrip ip_192_168_0_1 8080).
  - solve_ip_ok. right. split; reflexivity.
  - split; [discriminate|reflexivity].
Defined.

(** IPv4-mapped addresses: mapping an IPv4 address into IPv6 and back gives it
    back, the only IPv6 addresses that map back are those in ::FFFF:0:0/96, and for
    those mapping forth again is the identity. *)
Theorem ipv4_mapped_roundtrip (v4 v6 : ip_address) :
  ip_ok v4 -> ip_family v4 = AF_INET -> ip_ok v6 -> ip_family v6 = AF_INET6 ->
  ipv6_map_to_ipv4 (ipv6_map_from_ipv4 v4) = Some v4 /\
  (forall r, ipv6_map_to_ipv4 v6 = Some r <->
     take 12 (ip_octets v6) = ipv4_mapped_prefix /\ ip_ok r /\ ip_family r = AF_INET /\
     ipv6_map_from_ipv4 r = v6).
Proof.
  intros (Hb4&Hl4&Hf4) H4 (Hb6&Hl6&_) H6. destruct v4 as [f4 o4], v6 as [f6 o6].
  simpl in *. subst. destruct Hf4 as [|[_ Hd]]; [done|].
  do 17 (destruct o4 as [|? o4]; simpl in Hl4; try lia).
  do 17 (destruct o6 as [|? o6]; simpl in Hl6; try lia).
  split; [simpl in Hd; injection Hd as -> -> -> -> -> -> -> -> -> -> -> ->; reflexivity|].
  intros r. unfold ipv6_map_to_ipv4, ipv6_map_from_ipv4, set_v4, set_v6, ipv4_init, ipv6_init.
  simpl. split.
  - intros H. case_bool_decide as E; [|done]. injection H as <-. split; [done|].
    unfold ip_ok. simpl. split; [|split; [done|]].
    + unfold bytes_ok in *. repeat (apply Forall_cons in Hb6 as [? Hb6]).
      split_and!; [|done|by right]. solve_bytes.
    + unfold ipv4_mapped_prefix in E. injection E as -> -> -> -> -> -> -> -> -> -> -> ->. done.
  - intros (E&(_&Hl&Hf)&Hfam&Heq). rewrite bool_decide_true by done. f_equal.
    destruct r as [f o]. simpl in *. subst f. destruct Hf as [|[_ Hd']]; [done|].
    do 17 (destruct o as [|? o]; simpl in Hl; try lia). simpl in *.
    injection Hd' as -> -> -> -> -> -> -> -> -> -> -> ->. injection Heq as. subst. done.
Qed.

Lemma ipv4_mapped_roundtrip_witness :
  ipv6_map_to_ipv4 (ipv6_map_from_ipv4 ip_192_168_0_1) = Some ip_192_168_0_1.
Proof.
  refine (proj1 (ipv4_mapped_roundtrip ip_192_168_0_1
    (ip_from_ipv6 (ipv4_mapped_prefix ++ [192; 168; 0; 1])) _ _ _ _)).
  - solve_ip_ok. right. split; reflexivity.
  - reflexivity.
  - solve_ip_ok. left. reflexivity.
  - reflexivity.
Defined.

(** ** Netmasks *)

Lemma land_bit x i : 0 <= i -> (Z.land x (Z.shiftl 1 i) =? 0) = negb (Z.testbit x i).
Proof.
  intros Hi. destruct (Z.testbit x i) eqn:E; simpl.
  - apply Z.eqb_neq. intros H. apply (f_equal (fun z => Z.testbit z i)) in H.
    rewrite Z.land_spec, Z.shiftl_spec, Z.sub_diag, E, Z.bits_0 in H by lia. done.
  - apply Z.eqb_eq, Z.bits_inj'. intros j Hj.
    rewrite Z.land_spec, Z.shiftl_spec, Z.bits_0 by lia.
    destruct (Z.eq_dec j i) as [->|]; [by rewrite E|].
    change 1 with (2 ^ 0). rewrite Z.pow2_bits_false by lia. apply andb_false_r.
Qed.

Lemma netmask_loop_spec m pos k :
  exists n, (n <= pos)%nat /\ netmask_loop m pos k = k + Z.of_nat n /\
    (forall i, Z.of_nat (pos - n) <= i < Z.of_nat pos -> Z.testbit m i = true) /\
    (n = pos \/ Z.testbit m (Z.of_nat (pos - n) - 1) = false).
Proof.
  revert k. induction pos as [|pos IH]; intros k.
  { exists 0%nat. simpl. split_and!; [lia|lia|lia|by left]. }
  cbn [netmask_loop]. rewrite land_bit by lia.
  destruct (Z.testbit m (Z.of_nat pos)) eqn:E; simpl negb; cbv iota.
  - destruct (IH (k + 1)) as (n&Hn&->&Hones&Hstop). exists (S n). split_and!; [lia|lia| |].
    + intros i Hi. destruct (Z.eq_dec i (Z.of_nat pos)) as [->|]; [done|]. apply Hones. lia.
    + destruct Hstop as [->|Hs]; [by left|]. right.
      by replace (S pos - S n)%nat with (pos - n)%nat by lia.
  - exists 0%nat. split_and!; [lia|lia|lia|]. right. rewrite <-E. f_equal. lia.
Qed.

(** The 32-bit value of an IPv4 address. *)
Definition v4_value (a : bytes) : Z := ntohl (le_combine a).

(** netmask_to_prefix counts the leading one bits of the mask: for any mask string
    that parses, it returns an n of at most 32, the n high bits of the mask are ones,
    and bit n, if there is one, is a zero. *)
Theorem netmask_to_prefix_leading_ones `{InetPton} (netmask : string) (a : bytes) :
  inet_pton AF_INET netmask = Some a ->
  exists n, netmask_to_prefix netmask = Ok n /\ 0 <= n <= 32 /\
    (forall i, 32 - n <= i < 32 -> Z.testbit (v4_value a) i = true) /\
    (n < 32 -> Z.testbit (v4_value a) (31 - n) = false).
Proof.
  intros Ha. destruct (inet_pton_4 _ _ Ha) as [_ Hl].
  rewrite (bytes_len4 a Hl) in Ha |- *. unfold netmask_to_prefix, ipv4_parse. rewrite Ha.
  destruct (netmask_loop_spec (v4_value [byte_at a 0; byte_at a 1; byte_at a 2; byte_at a 3])
    32 0) as (n&Hn&Heq&Hones&Hstop).
  exists (Z.of_nat n). split; [|split_and!; [lia|lia| |]].
  - change (Ok (netmask_loop (v4_value [byte_at a 0; byte_at a 1; byte_at a 2; byte_at a 3])
      32 0) = Ok (Z.of_nat n)). by rewrite Heq.
  - intros i Hi. apply Hones. lia.
  - intros Hlt. destruct Hstop as [->|Hs]; [lia|]. rewrite <-Hs. f_equal. lia.
Qed.

(** A reader of the one string "255.255.240.0". *)
#[local] Instance mask_pton : InetPton.
Proof.
  refine {| inet_pton := fun af s =>
    if (af =? AF_INET) && bool_decide (s = "255.255.240.0"%string)
    then Some [255; 255; 240; 0] else None |}.
  - intros s a. destruct (_ && _); [|done]. intros [= <-]. split; [|done].
    repeat constructor; unfold is_byte; lia.
  - intros s a. done.
Defined.

Lemma netmask_to_prefix_leading_ones_witness :
  exists n, netmask_to_prefix "255.255.240.0" = Ok n /\ 0 <= n <= 32 /\
    (forall i, 32 - n <= i < 32 -> Z.testbit (v4_value [255; 255; 240; 0]) i = true) /\
    (n < 32 -> Z.testbit (v4_value [255; 255; 240; 0]) (31 - n) = false).
Proof. apply (netmask_to_prefix_leading_ones "255.255.240.0"). reflexivity. Defined.

Example netmask_20 : netmask_to_prefix "255.255.240.0" = Ok 20.
Proof. reflexivity. Qed.

(** The random IPv4 host never collides with the network address, the gateway or
    the broadcast address: for every prefix of 1 to 30 bits and every random number it
    is at least 2 and below the all-ones host. *)
Theorem random_host_v4_usable (prefix_len rnd : Z) :
  1 <= prefix_len <= 30 ->
  2 <= random_host_v4 prefix_len rnd < 2 ^ (32 - prefix_len) - 1.
Proof.
  intros Hp. unfold random_host_v4. destruct (Z.eqb_spec prefix_len 0); [lia|]. simpl negb.
  cbv iota zeta. rewrite Z.shiftl_1_l.
  pose proof (Z.pow_le_mono_r 2 2 (32 - prefix_len) ltac:(lia) ltac:(lia)) as Hlo.
  pose proof (Z.pow_lt_mono_r 2 (32 - prefix_len) 32 ltac:(lia) ltac:(lia) ltac:(lia)) as Hhi.
  assert (Hu : u32 (u32 (2 ^ (32 - prefix_len)) - 1) = Z.ones (32 - prefix_len)).
  { rewrite Z.ones_equiv. unfold u32. rewrite (Z.mod_small (2 ^ _)) by lia.
    rewrite Z.mod_small by lia. lia. }
  rewrite Hu. pose proof (land_ones_range rnd (32 - prefix_len) ltac:(lia)) as Hr.
  rewrite Z.ones_equiv in *. fold (Z.ones (32 - prefix_len)) in *.
  set (r := Z.land rnd _) in *. set (m := 2 ^ (32 - prefix_len)) in *.
  destruct (Z.ltb_spec r 2).
  - destruct (Z.eqb_spec 2 (Z.pred m)); unfold u32; [|lia]. lia.
  - destruct (Z.eqb_spec r (Z.pred m)); [|lia]. unfold u32. rewrite Z.mod_small by lia. lia.
Qed.

Lemma random_host_v4_usable_witness :
  2 <= random_host_v4 24 0xFFFFFFFF < 2 ^ (32 - 24) - 1.
Proof. apply (random_host_v4_usable 24 0xFFFFFFFF). lia. Defined.

(** Bit [i] of an address, counted from the left. *)
Definition address_bit (octets : bytes) (i : Z) : bool :=
  Z.testbit (byte_at octets (i / 8)) (7 - i mod 8).

Lemma mask_high_bits v pos j :
  0 <= pos <= 8 -> 0 <= j < 8 ->
  Z.testbit (Z.land v (u32 (Z.lnot (Z.shiftl 1 pos - 1))) mod 256) j =
  Z.testbit v j && (pos <=? j).
Proof.
  intros Hp Hj. change 256 with (2 ^ 8). rewrite Z.mod_pow2_bits_low by lia.
  rewrite Z.land_spec. f_equal. unfold u32. change 4294967296 with (2 ^ 32).
  rewrite Z.mod_pow2_bits_low by lia. rewrite Z.lnot_spec by lia.
  rewrite Z.shiftl_1_l. replace (2 ^ pos - 1) with (Z.ones pos) by (rewrite Z.ones_equiv; lia).
  destruct (Z.leb_spec pos j).
  - by rewrite Z.ones_spec_high by lia.
  - by rewrite Z.ones_spec_low by lia.
Qed.

Lemma byte_at_zeros n i : byte_at (replicate n 0) i = 0.
Proof. unfold byte_at. generalize (Z.to_nat i). induction n; intros [|?]; simpl; auto. Qed.

(** Normalizing a prefix keeps its bits and clears the others: for any prefix
    ip_to_prefix accepts, ip_prefix_normalize stays inside the address, changes neither
    family nor length, leaves the first prefix_len bits as they were and makes every
    other bit of the address zero. *)
Theorem ip_prefix_normalize_spec (ip : ip_address) (plen : Z) (p : ip_prefix) :
  ip_ok ip -> ip_to_prefix ip plen = Ok p ->
  exists q len, ip_prefix_normalize p = Ok q /\ ip_address_length (ip_family ip) = Ok len /\
    prefix_len q = plen /\ ip_family (prefix_ip q) = ip_family ip /\
    forall i, 0 <= i < 8 * len ->
      address_bit (ip_octets (prefix_ip q)) i = (i <? plen) && address_bit (ip_octets ip) i.
Proof.
  intros (Hb&Hl&Hf) Hp. unfold ip_to_prefix in Hp.
  assert (exists len, ip_address_length (ip_family ip) = Ok len /\ 0 <= len <= 16)
    as (len&Hlen&Hr) by (destruct Hf as [->|[-> _]]; eexists; split; [reflexivity|lia|reflexivity|lia]).
  rewrite Hlen in Hp. simpl in Hp.
  destruct (Z.ltb_spec plen 0); [done|]. destruct (Z.ltb_spec (8 * len) plen); [done|].
  injection Hp as <-. unfold ip_prefix_normalize. simpl. rewrite Hlen. simpl.
  assert (Hz : zlen (ip_octets ip) = 16) by (unfold zlen; lia).
  destruct (Z.eqb_spec (plen mod 8) 0) as [E|E]; simpl.
  - destruct (put_bytes_in (ip_octets ip) (plen / 8)
      (replicate (Z.to_nat (len - plen / 8)) 0)) as [o Ho];
      [zlia|unfold zlen in *; rewrite length_replicate; zlia|].
    rewrite Ho. eexists _, _. split_and!; [reflexivity|done..|].
    intros i Hi. unfold address_bit. simpl. rewrite (byte_at_put _ _ _ _ _ Ho) by zlia.
    rewrite byte_at_zeros. unfold zlen. rewrite length_replicate.
    destruct (Z.ltb_spec i plen), (Z.leb_spec (plen / 8) (i / 8)),
      (Z.ltb_spec (i / 8) (plen / 8 + Z.of_nat (Z.to_nat (len - plen / 8))));
      simpl; rewrite ?Z.bits_0; try done; zlia.
  - rewrite ld8_eq by zlia. simpl.
    destruct (put_bytes_in (ip_octets ip) (plen / 8)
      (le_split 1 (Z.land (byte_at (ip_octets ip) (plen / 8))
        (u32 (Z.lnot (Z.shiftl 1 (8 - plen mod 8) - 1)))))) as [o Ho]; [zlia|cbn [le_split];
      unfold zlen in *; simpl; zlia|].
    unfold st8. rewrite Ho. simpl.
    pose proof (put_bytes_zlen _ _ _ _ Ho) as Hz'.
    destruct (put_bytes_in o (plen / 8 + 1)
      (replicate (Z.to_nat (len - (plen / 8 + 1))) 0)) as [o' Ho'];
      [zlia|unfold zlen in *; rewrite length_replicate; zlia|].
    rewrite Ho'. eexists _, _. split_and!; [reflexivity|done..|].
    intros i Hi. unfold address_bit. simpl. rewrite (byte_at_put _ _ _ _ _ Ho') by zlia.
    rewrite byte_at_zeros. unfold zlen at 1. rewrite length_replicate.
    rewrite (byte_at_put _ _ _ _ _ Ho) by zlia.
    change (zlen (le_split 1 _)) with 1.
    destruct (Z.eq_dec (i / 8) (plen / 8)) as [Ei|Ei].
    + rewrite Ei. destruct (Z.leb_spec (plen / 8 + 1) (plen / 8)); [lia|]. simpl.
      rewrite Z.leb_refl. destruct (Z.ltb_spec (plen / 8) (plen / 8 + 1)); [|lia].
      rewrite Z.sub_diag. cbn [andb]. unfold byte_at at 1. change (Z.to_nat 0) with 0%nat. cbn [le_split nth].
      rewrite mask_high_bits by zlia. rewrite andb_comm. f_equal.
      apply eq_true_iff_eq. rewrite Z.leb_le, Z.ltb_lt. zlia.
    + destruct (Z.ltb_spec i plen), (Z.leb_spec (plen / 8 + 1) (i / 8)),
        (Z.ltb_spec (i / 8) (plen / 8 + 1 + Z.of_nat (Z.to_nat (len - (plen / 8 + 1))))),
        (Z.leb_spec (plen / 8) (i / 8)), (Z.ltb_spec (i / 8) (plen / 8 + 1));
        simpl; rewrite ?Z.bits_0; try done; zlia.
Qed.

Lemma ip_prefix_normalize_spec_witness :
  exists q len, ip_prefix_normalize (mk_prefix ip_192_168_0_1 13) = Ok q /\
    ip_address_length (ip_family ip_192_168_0_1) = Ok len /\
    prefix_len q = 13 /\ ip_family (prefix_ip q) = ip_family ip_192_168_0_1 /\
    forall i, 0 <= i < 8 * len ->
      address_bit (ip_octets (prefix_ip q)) i =
      (i <? 13) && address_bit (ip_octets ip_192_168_0_1) i.
Proof.
  apply (ip_prefix_normalize_spec ip_192_168_0_1 13 (mk_prefix ip_192_168_0_1 13)).
  - solve_ip_ok. right. split; reflexivity.
  - reflexivity.
Defined.
