(* ===== verification/IpPacket.v ===== *)
(** * IpPacket: filling in IP, GRE and MPLS headers, and encapsulation

    ip_packet.c, gre_packet.c, mpls_packet.c, and the part of packet.c that wraps
    one packet in another (packet_encapsulate) and merges packets
    (aggregate_packets). *)

From S2P Require Import Prelude Headers Packet Checksum IpAddress.

(** The result of a function that returns an object, or NULL with [*error] set. *)
Inductive result (A : Type) := Success (a : A) | Failure (error : string).
Arguments Success {A} a.
Arguments Failure {A} error.

(** ** IP headers *)

(** [ip_packet.c:32-52] set_ipv4_header; [in4addr_any] is 0 *)
Definition set_ipv4_header (b : bytes) (ipv4 ip_bytes tos ttl protocol : Z) : exec bytes :=
  b ← wr b ipv4 ipv4_version 4;
  b ← wr b ipv4 ipv4_ihl (sizeof_ipv4 / 4);
  b ← wr b ipv4 ipv4_tos tos;
  b ← wr b ipv4 ipv4_tot_len (htons ip_bytes);
  b ← wr b ipv4 ipv4_id 0;
  b ← wr b ipv4 ipv4_frag_off 0;
  b ← (if negb (ttl =? 0) then wr b ipv4 ipv4_ttl ttl
       else wr b ipv4 ipv4_ttl TTL_CHECK_NONE);
  b ← wr b ipv4 ipv4_protocol protocol;
  b ← wr b ipv4 ipv4_check 0;
  b ← wr b ipv4 ipv4_src_ip 0;
  wr b ipv4 ipv4_dst_ip 0.

(** [ip_packet.c:55-76] set_ipv6_header; [in6addr_any] is sixteen zero bytes *)
Definition set_ipv6_header (b : bytes) (ipv6 ip_bytes tos flow_label hop_limit protocol : Z)
    : exec bytes :=
  b ← wr b ipv6 ipv6_version 6;
  b ← wr b ipv6 ipv6_traffic_class_hi (Z.shiftr tos 4);
  b ← wr b ipv6 ipv6_traffic_class_lo (Z.land tos 0x0f);
  b ← wr b ipv6 ipv6_flow_label_hi (Z.land (Z.shiftr flow_label 16) 0xf);
  b ← wr b ipv6 ipv6_flow_label_lo (htons (Z.land flow_label 0xffff));
  _ ← c_assert (sizeof_ipv6 <=? ip_bytes);
  b ← wr b ipv6 ipv6_payload_len (htons (ip_bytes - sizeof_ipv6));
  b ← wr b ipv6 ipv6_next_header protocol;
  b ← (if negb (hop_limit =? 0) then wr b ipv6 ipv6_hop_limit hop_limit
       else wr b ipv6 ipv6_hop_limit TTL_CHECK_NONE);
  b ← put_bytes b (ipv6 + ipv6_src_ip) (replicate 16 0);
  put_bytes b (ipv6 + ipv6_dst_ip) (replicate 16 0).

(** [ip_packet.c:78-91] set_ip_header: the parameters are u16, u8 and u32 *)
Definition set_ip_header (b : bytes) (ip_header address_family ip_bytes tos flowlabel ttl
    protocol : Z) : exec bytes :=
  if address_family =? AF_INET then
    set_ipv4_header b ip_header (u16 ip_bytes) (u8 tos) (u8 ttl) (u8 protocol)
  else if address_family =? AF_INET6 then
    set_ipv6_header b ip_header (u16 ip_bytes) (u8 tos) (u32 flowlabel) (u8 ttl) (u8 protocol)
  else Fault AssertFailed.

(** [ip_packet.c:93-120] set_packet_ip_header *)
Definition set_packet_ip_header (pkt : packet)
    (address_family ip_bytes tos flowlabel ttl protocol : Z) : exec packet :=
  let ip_bytes := u16 ip_bytes in
  if address_family =? AF_INET then
    let ipv4 := 0 in
    let pkt := set_pk_ipv4 (Some ipv4) pkt in
    _ ← c_assert (bool_decide (pk_ipv6 pkt = None));
    '(pkt, ip_header) ← packet_append_header pkt HEADER_IPV4 sizeof_ipv4;
    i ← deref ip_header;
    let pkt := set_header_total i ip_bytes pkt in
    b ← set_ipv4_header (pk_buffer pkt) ipv4 ip_bytes (u8 tos) (u8 ttl) (u8 protocol);
    Ok (set_pk_buffer b pkt)
  else if address_family =? AF_INET6 then
    let ipv6 := 0 in
    let pkt := set_pk_ipv6 (Some ipv6) pkt in
    _ ← c_assert (bool_decide (pk_ipv4 pkt = None));
    '(pkt, ip_header) ← packet_append_header pkt HEADER_IPV6 sizeof_ipv6;
    i ← deref ip_header;
    let pkt := set_header_total i ip_bytes pkt in
    b ← set_ipv6_header (pk_buffer pkt) ipv6 ip_bytes (u8 tos) (u32 flowlabel) (u8 ttl)
          (u8 protocol);
    Ok (set_pk_buffer b pkt)
  else Fault AssertFailed.

(** The pointer in the [i]-th header of a packet. *)
Definition header_ptr (pkt : packet) (i : nat) : exec Z :=
  match pk_headers pkt !! i with
  | Some h => deref (h_ptr h)
  | None => Fault OutOfBounds
  end.

(** Storing an address that [inet_pton] parsed into a member of the packet. *)
Definition pton_into `{InetPton} (pkt : packet) (af : Z) (s : string) (o : Z)
    : exec (option packet) :=
  match inet_pton af s with
  | Some a => pkt ← pkt_memcpy pkt o a; Ok (Some pkt)
  | None => Ok None
  end.

(** [ip_packet.c:122-153] ipv4_header_append *)
Definition ipv4_header_append `{InetPton} (pkt : packet) (ip_src ip_dst : string) (tos ttl : Z)
    : exec (packet * status_t) :=
  let ipv4_bytes := sizeof_ipv4 in
  '(pkt, header) ← packet_append_header pkt HEADER_IPV4 ipv4_bytes;
  match header with
  | None => Ok (pkt, STATUS_ERR "too many headers")
  | Some i =>
      ipv4 ← header_ptr pkt i;
      b ← set_ip_header (pk_buffer pkt) ipv4 AF_INET 0 tos 0 ttl 0;
      let pkt := set_pk_buffer b pkt in
      r ← pton_into pkt AF_INET ip_src (ipv4 + field_off ipv4_src_ip);
      match r with
      | None => Ok (pkt, STATUS_ERR ("bad IPv4 src address: '" +:+ ip_src +:+ "'" +:+ newline))
      | Some pkt =>
          r ← pton_into pkt AF_INET ip_dst (ipv4 + field_off ipv4_dst_ip);
          match r with
          | None => Ok (pkt, STATUS_ERR ("bad IPv4 dst address: '" +:+ ip_dst +:+ "'" +:+ newline))
          | Some pkt => Ok (pkt, STATUS_OK)
          end
      end
  end.

(** [ip_packet.c:155-186] ipv6_header_append *)
Definition ipv6_header_append `{InetPton} (pkt : packet) (ip_src ip_dst : string)
    (tos hop_limit : Z) : exec (packet * status_t) :=
  let ipv6_bytes := sizeof_ipv6 in
  '(pkt, header) ← packet_append_header pkt HEADER_IPV6 ipv6_bytes;
  match header with
  | None => Ok (pkt, STATUS_ERR "too many headers")
  | Some i =>
      ipv6 ← header_ptr pkt i;
      b ← set_ip_header (pk_buffer pkt) ipv6 AF_INET6 sizeof_ipv6 tos 0 hop_limit 0;
      let pkt := set_pk_buffer b pkt in
      r ← pton_into pkt AF_INET6 ip_src (ipv6 + ipv6_src_ip);
      match r with
      | None => Ok (pkt, STATUS_ERR ("bad IPv6 src address: '" +:+ ip_src +:+ "'" +:+ newline))
      | Some pkt =>
          r ← pton_into pkt AF_INET6 ip_dst (ipv6 + ipv6_dst_ip);
          match r with
          | None => Ok (pkt, STATUS_ERR ("bad IPv6 dst address: '" +:+ ip_dst +:+ "'" +:+ newline))
          | Some pkt => Ok (pkt, STATUS_OK)
          end
      end
  end.

(** ** Finishing headers: [i] is the header, [next_inner] the one inside it *)

Definition header_at (pkt : packet) (i : nat) : exec header :=
  match pk_headers pkt !! i with
  | Some h => Ok h
  | None => Fault OutOfBounds
  end.

(** [ip_packet.c:188-204] ipv4_header_finish *)
Definition ipv4_header_finish (pkt : packet) (i : nat) (next_inner : option nat) : exec packet :=
  ipv4 ← header_ptr pkt i;
  j ← deref next_inner;
  next ← header_at pkt j;
  let ip_bytes := sizeof_ipv4 + h_total_bytes next in
  pkt ← pwr pkt ipv4 ipv4_tot_len (htons (u16 ip_bytes));
  info ← header_type_info (h_type next);
  pkt ← pwr pkt ipv4 ipv4_protocol (type_ip_proto info);
  pkt ← pwr pkt ipv4 ipv4_check 0;
  ihl ← prd pkt ipv4 ipv4_ihl;
  hdr ← get_bytes (pk_buffer pkt) ipv4 (ihl * 4);
  check ← ipv4_checksum hdr;
  pkt ← pwr pkt ipv4 ipv4_check check;
  Ok (set_header_total i (u32 ip_bytes) pkt).

(** [ip_packet.c:206-221] ipv6_header_finish *)
Definition ipv6_header_finish (pkt : packet) (i : nat) (next_inner : option nat) : exec packet :=
  ipv6 ← header_ptr pkt i;
  j ← deref next_inner;
  next ← header_at pkt j;
  let ip_bytes := sizeof_ipv6 + h_total_bytes next in
  _ ← c_assert (h_total_bytes next <=? 0xffff);
  pkt ← pwr pkt ipv6 ipv6_payload_len (htons (u16 (h_total_bytes next)));
  info ← header_type_info (h_type next);
  pkt ← pwr pkt ipv6 ipv6_next_header (type_ip_proto info);
  Ok (set_header_total i (u32 ip_bytes) pkt).

(** ** GRE *)

(** [gre_packet.c:30-43] gre_header_append: [gre] is the struct to copy *)
Definition gre_header_append (pkt : packet) (gre : bytes) : exec (packet * status_t) :=
  len ← gre_len gre 0;
  '(pkt, header) ← packet_append_header pkt HEADER_GRE len;
  match header with
  | None => Ok (pkt, STATUS_ERR "too many headers")
  | Some i =>
      dst ← header_ptr pkt i;
      src ← get_bytes gre 0 len;
      pkt ← pkt_memcpy pkt dst src;
      Ok (pkt, STATUS_OK)
  end.

(** [gre_packet.c:45-56] gre_header_finish *)
Definition gre_header_finish (pkt : packet) (i : nat) (next_inner : option nat) : exec packet :=
  gre ← header_ptr pkt i;
  j ← deref next_inner;
  next ← header_at pkt j;
  len ← gre_len (pk_buffer pkt) gre;
  let gre_bytes := len + h_total_bytes next in
  info ← header_type_info (h_type next);
  pkt ← pwr pkt gre gre_proto (htons (type_eth_proto info));
  Ok (set_header_total i (u32 gre_bytes) pkt).

(** ** MPLS *)

(** [mpls_packet.c:29-50] new_mpls_stack_entry *)
Definition new_mpls_stack_entry (label traffic_class : Z) (is_stack_bottom : bool) (ttl : Z)
    : result Z :=
  if (label <? 0) || (2 ^ 20 <=? label) then
    Failure "MPLS label out of range for 20 bits"
  else if (traffic_class <? 0) || (2 ^ 3 <=? traffic_class) then
    Failure "MPLS traffic_class out of range for 3 bits"
  else if (ttl <? 0) || (2 ^ 8 <=? ttl) then
    Failure "MPLS ttl out of range for 8 bits"
  else Success (mpls_entry_set label traffic_class is_stack_bottom ttl).

(** [mpls.h:90-90] MPLS_STACK_MAX_ENTRIES *)
Definition MPLS_STACK_MAX_ENTRIES : Z := 6.

(** [mpls.h:91-94] struct mpls_stack: the entries in use *)
Record mpls_stack := mk_mpls_stack { mpls_entries : list Z }.

(** [mpls.h:97-100] mpls_stack_new *)
Definition mpls_stack_new : mpls_stack := mk_mpls_stack [].

(** [mpls.h:105-111] mpls_stack_append *)
Definition mpls_stack_append (stack : mpls_stack) (mpls : Z) : mpls_stack * status_t :=
  if MPLS_STACK_MAX_ENTRIES <=? zlen (mpls_entries stack) then (stack, STATUS_ERR "")
  else (mk_mpls_stack (mpls_entries stack ++ [mpls]), STATUS_OK).

(** [mpls_packet.c:52-67] mpls_header_append *)
Definition mpls_header_append (pkt : packet) (stack : mpls_stack) : exec (packet * status_t) :=
  let mpls_bytes := zlen (mpls_entries stack) * sizeof_mpls in
  '(pkt, header) ← packet_append_header pkt HEADER_MPLS mpls_bytes;
  match header with
  | None => Ok (pkt, STATUS_ERR "too many headers")
  | Some i =>
      dst ← header_ptr pkt i;
      pkt ← pkt_memcpy pkt dst (mjoin (le_split 4 <$> mpls_entries stack));
      Ok (pkt, STATUS_OK)
  end.

(** [mpls_packet.c:69-77] mpls_header_finish *)
Definition mpls_header_finish (pkt : packet) (i : nat) (next_inner : option nat) : exec packet :=
  h ← header_at pkt i;
  j ← deref next_inner;
  next ← header_at pkt j;
  let mpls_bytes := h_header_bytes h + h_total_bytes next in
  Ok (set_header_total i (u32 mpls_bytes) pkt).

(** ** Encapsulation *)

(** [packet.c:217-229] one round of the loop of packet_finish_encapsulation_headers:
    the finish function of the header's type, if it has one *)
Definition finish_header (pkt : packet) (i : nat) (next : option nat) : exec packet :=
  h ← header_at pkt i;
  match h_type h with
  | HEADER_IPV4 => ipv4_header_finish pkt i next
  | HEADER_IPV6 => ipv6_header_finish pkt i next
  | HEADER_GRE => gre_header_finish pkt i next
  | HEADER_MPLS => mpls_header_finish pkt i next
  | HEADER_NUM_TYPES => Fault AssertFailed
  | _ => Ok pkt
  end.

(** [packet.c:213-230] packet_finish_encapsulation_headers: from inner to outer;
    every slot, empty ones included, becomes [next] for the one before it *)
Definition packet_finish_encapsulation_headers (pkt : packet) : exec packet :=
  pkt ← finish_header pkt 5 None;
  pkt ← finish_header pkt 4 (Some 5%nat);
  pkt ← finish_header pkt 3 (Some 4%nat);
  pkt ← finish_header pkt 2 (Some 3%nat);
  pkt ← finish_header pkt 1 (Some 2%nat);
  finish_header pkt 0 (Some 1%nat).

(** [packet.c:232-260] packet_encapsulate *)
Definition packet_encapsulate `{Malloc} (outer inner : packet) : exec packet :=
  let outer_headers := packet_header_count outer in
  let inner_headers := packet_header_count inner in
  _ ← c_assert (outer_headers + inner_headers <=? PACKET_MAX_HEADERS);
  pkt ← packet_copy_with_headroom inner (s32 (pk_ip_bytes outer));
  src ← get_bytes (pk_buffer outer) 0 (pk_ip_bytes outer);
  pkt ← pkt_memcpy pkt 0 src;
  let hs := pk_headers pkt in
  let no := Z.to_nat outer_headers in
  let ni := Z.to_nat inner_headers in
  let pkt := set_pk_headers (take no hs ++ take ni hs ++ drop (no + ni) hs) pkt in
  pkt ← packet_copy_headers pkt outer 0;
  _ ← c_assert (packet_header_count pkt =? outer_headers + inner_headers);
  pkt ← packet_finish_encapsulation_headers pkt;
  Ok (set_pk_ip_bytes (u32 (pk_ip_bytes outer + pk_ip_bytes inner)) pkt).

(** [packet.c:294-302] the loop of aggregate_packets that copies the payloads *)
Fixpoint copy_payloads (pkt : packet) (iter_base : Z) (l : list packet) : exec packet :=
  match l with
  | [] => Ok pkt
  | p :: rest =>
      payload ← packet_payload p;
      len ← packet_payload_len p;
      src ← get_bytes (pk_buffer p) payload len;
      pkt ← pkt_memcpy pkt iter_base src;
      copy_payloads pkt (iter_base + len) rest
  end.

(** [packet.c:306-323] the loop of aggregate_packets over the headers, from [i] *)
Fixpoint aggregate_headers (pkt first_packet : packet) (extra_payload : Z) (n i : nat)
    : exec packet :=
  match n with
  | O => Ok pkt
  | S n' =>
      h ← header_at pkt i;
      if decide (h_type h = HEADER_NONE) then Ok pkt
      else
      let pkt := set_header_total i (u32 (h_total_bytes h + extra_payload)) pkt in
      pkt ← (if decide (h_type h = HEADER_TCP) then
               tcp ← assert_ptr (pk_tcp pkt);
               first ← assert_ptr (pk_tcp first_packet);
               seq ← prd first_packet first tcp_seq;
               pkt ← pwr pkt tcp tcp_seq seq;
               cwr ← prd first_packet first tcp_cwr;
               pwr pkt tcp tcp_cwr cwr
             else Ok pkt);
      aggregate_headers pkt first_packet extra_payload n' (S i)
  end.

(** [packet.c:271-327] aggregate_packets: the list from [first] on, and its last packet *)
Definition aggregate_packets `{Malloc} (first_packet : packet) (others : list packet)
    (last_packet : packet) (payload_size : Z) : exec packet :=
  let old_packet := last_packet in
  len ← packet_payload_len old_packet;
  let extra_payload := s32 (payload_size - len) in
  payload ← packet_payload old_packet;
  let headers_len := s32 payload in
  pend ← packet_end old_packet;
  let old_packet_size := s32 pend in
  let pkt := packet_new (u32 (old_packet_size + extra_payload)) in
  src ← get_bytes (pk_buffer old_packet) 0 headers_len;
  pkt ← pkt_memcpy pkt 0 src;
  pkt ← copy_payloads pkt headers_len (first_packet :: others);
  pkt ← packet_duplicate_info pkt old_packet 0 extra_payload;
  pkt ← aggregate_headers pkt first_packet extra_payload 6 0;
  packet_finish_encapsulation_headers pkt.
