(* ===== verification/Symbols.v ===== *)
(** * Symbols: the platform's symbol table (symbols.h, symbols_linux.c)

    The table of strace-style names a script may use for integers, in the order of the
    source, one list per paragraph of the table.  The values are those the headers of
    Linux on x86-64 give to the macros, the entries under [#ifdef] being present there. *)

From S2P Require Import Prelude.

(** [symbols.h:34-37] struct int_symbol *)
Record int_symbol := mk_symbol { sym_value : Z; sym_name : string }.

#[export] Instance int_symbol_eq_dec : EqDecision int_symbol.
Proof. solve_decision. Defined.

(** [symbols_linux.c:54-57] platform_symbols_table: from SOL_IP on *)
Definition symbols_SOL_IP : list int_symbol := [
  mk_symbol 0 "SOL_IP"; mk_symbol 41 "SOL_IPV6"; mk_symbol 6 "SOL_TCP"; mk_symbol 17 "SOL_UDP"
].

(** [symbols_linux.c:59-93] platform_symbols_table: from SO_ACCEPTCONN on *)
Definition symbols_SO_ACCEPTCONN : list int_symbol := [
  mk_symbol 30 "SO_ACCEPTCONN"; mk_symbol 26 "SO_ATTACH_FILTER"; mk_symbol 25 "SO_BINDTODEVICE";
  mk_symbol 6 "SO_BROADCAST"; mk_symbol 14 "SO_BSDCOMPAT"; mk_symbol 1 "SO_DEBUG";
  mk_symbol 27 "SO_DETACH_FILTER"; mk_symbol 5 "SO_DONTROUTE"; mk_symbol 4 "SO_ERROR";
  mk_symbol 9 "SO_KEEPALIVE"; mk_symbol 13 "SO_LINGER"; mk_symbol 36 "SO_MARK";
  mk_symbol 11 "SO_NO_CHECK"; mk_symbol 10 "SO_OOBINLINE"; mk_symbol 16 "SO_PASSCRED";
  mk_symbol 17 "SO_PEERCRED"; mk_symbol 28 "SO_PEERNAME"; mk_symbol 31 "SO_PEERSEC";
  mk_symbol 12 "SO_PRIORITY"; mk_symbol 8 "SO_RCVBUF"; mk_symbol 18 "SO_RCVLOWAT";
  mk_symbol 20 "SO_RCVTIMEO"; mk_symbol 2 "SO_REUSEADDR"; mk_symbol 15 "SO_REUSEPORT";
  mk_symbol 22 "SO_SECURITY_AUTHENTICATION"; mk_symbol 24 "SO_SECURITY_ENCRYPTION_NETWORK";
  mk_symbol 23 "SO_SECURITY_ENCRYPTION_TRANSPORT"; mk_symbol 7 "SO_SNDBUF";
  mk_symbol 19 "SO_SNDLOWAT"; mk_symbol 21 "SO_SNDTIMEO"; mk_symbol 29 "SO_TIMESTAMP";
  mk_symbol 37 "SO_TIMESTAMPING"; mk_symbol 3 "SO_TYPE"; mk_symbol 47 "SO_MAX_PACING_RATE";
  mk_symbol 60 "SO_ZEROCOPY"
].

(** [symbols_linux.c:95-96] platform_symbols_table: from SO_EE_ORIGIN_TIMESTAMPING on *)
Definition symbols_SO_EE_ORIGIN_TIMESTAMPING : list int_symbol := [
  mk_symbol 4 "SO_EE_ORIGIN_TIMESTAMPING"; mk_symbol 5 "SO_EE_ORIGIN_ZEROCOPY"
].

(** [symbols_linux.c:98-98] platform_symbols_table: from SO_EE_CODE_ZEROCOPY_COPIED on *)
Definition symbols_SO_EE_CODE_ZEROCOPY_COPIED : list int_symbol := [
  mk_symbol 1 "SO_EE_CODE_ZEROCOPY_COPIED"
].

(** [symbols_linux.c:100-112] platform_symbols_table: from SOF_TIMESTAMPING_TX_HARDWARE on *)
Definition symbols_SOF_TIMESTAMPING_TX_HARDWARE : list int_symbol := [
  mk_symbol 1 "SOF_TIMESTAMPING_TX_HARDWARE"; mk_symbol 2 "SOF_TIMESTAMPING_TX_SOFTWARE";
  mk_symbol 4 "SOF_TIMESTAMPING_RX_HARDWARE"; mk_symbol 8 "SOF_TIMESTAMPING_RX_SOFTWARE";
  mk_symbol 16 "SOF_TIMESTAMPING_SOFTWARE"; mk_symbol 32 "SOF_TIMESTAMPING_SYS_HARDWARE";
  mk_symbol 64 "SOF_TIMESTAMPING_RAW_HARDWARE"; mk_symbol 128 "SOF_TIMESTAMPING_OPT_ID";
  mk_symbol 256 "SOF_TIMESTAMPING_TX_SCHED"; mk_symbol 512 "SOF_TIMESTAMPING_TX_ACK";
  mk_symbol 1024 "SOF_TIMESTAMPING_OPT_CMSG"; mk_symbol 2048 "SOF_TIMESTAMPING_OPT_TSONLY";
  mk_symbol 4096 "SOF_TIMESTAMPING_OPT_STATS"
].

(** [symbols_linux.c:114-118] platform_symbols_table: from SCM_TIMESTAMPING on *)
Definition symbols_SCM_TIMESTAMPING : list int_symbol := [
  mk_symbol 37 "SCM_TIMESTAMPING"; mk_symbol 0 "SCM_TSTAMP_SND"; mk_symbol 1 "SCM_TSTAMP_SCHED";
  mk_symbol 2 "SCM_TSTAMP_ACK"; mk_symbol 54 "SCM_TIMESTAMPING_OPT_STATS"
].

(** [symbols_linux.c:120-133] platform_symbols_table: from TCP_NLA_BUSY on *)
Definition symbols_TCP_NLA_BUSY : list int_symbol := [
  mk_symbol 1 "TCP_NLA_BUSY"; mk_symbol 2 "TCP_NLA_RWND_LIMITED";
  mk_symbol 3 "TCP_NLA_SNDBUF_LIMITED"; mk_symbol 4 "TCP_NLA_DATA_SEGS_OUT";
  mk_symbol 5 "TCP_NLA_TOTAL_RETRANS"; mk_symbol 6 "TCP_NLA_PACING_RATE";
  mk_symbol 7 "TCP_NLA_DELIVERY_RATE"; mk_symbol 8 "TCP_NLA_SND_CWND";
  mk_symbol 9 "TCP_NLA_REORDERING"; mk_symbol 10 "TCP_NLA_MIN_RTT";
  mk_symbol 11 "TCP_NLA_RECUR_RETRANS"; mk_symbol 12 "TCP_NLA_DELIVERY_RATE_APP_LMT";
  mk_symbol 13 "TCP_NLA_SNDQ_SIZE"; mk_symbol 14 "TCP_NLA_CA_STATE"
].

(** [symbols_linux.c:135-139] platform_symbols_table: from TCP_CA_OPEN on *)
Definition symbols_TCP_CA_OPEN : list int_symbol := [
  mk_symbol 0 "TCP_CA_OPEN"; mk_symbol 1 "TCP_CA_DISORDER"; mk_symbol 2 "TCP_CA_CWR";
  mk_symbol 3 "TCP_CA_RECOVERY"; mk_symbol 4 "TCP_CA_LOSS"
].

(** [symbols_linux.c:141-159] platform_symbols_table: from IP_TOS on *)
Definition symbols_IP_TOS : list int_symbol := [
  mk_symbol 1 "IP_TOS"; mk_symbol 10 "IP_MTU_DISCOVER"; mk_symbol 23 "IPV6_MTU_DISCOVER";
  mk_symbol 1 "IP_PMTUDISC_WANT"; mk_symbol 0 "IP_PMTUDISC_DONT"; mk_symbol 2 "IP_PMTUDISC_DO";
  mk_symbol 3 "IP_PMTUDISC_PROBE"; mk_symbol 11 "IP_RECVERR"; mk_symbol 25 "IPV6_RECVERR";
  mk_symbol 15 "IP_FREEBIND"; mk_symbol 2 "IP_TTL"; mk_symbol 14 "IP_MTU";
  mk_symbol 24 "IPV6_MTU"; mk_symbol 67 "IPV6_TCLASS"; mk_symbol 52 "IPV6_HOPLIMIT"
].

(** [symbols_linux.c:161-181] platform_symbols_table: from TCP_NODELAY on *)
Definition symbols_TCP_NODELAY : list int_symbol := [
  mk_symbol 1 "TCP_NODELAY"; mk_symbol 2 "TCP_MAXSEG"; mk_symbol 3 "TCP_CORK";
  mk_symbol 4 "TCP_KEEPIDLE"; mk_symbol 5 "TCP_KEEPINTVL"; mk_symbol 6 "TCP_KEEPCNT";
  mk_symbol 7 "TCP_SYNCNT"; mk_symbol 8 "TCP_LINGER2"; mk_symbol 9 "TCP_DEFER_ACCEPT";
  mk_symbol 11 "TCP_INFO"; mk_symbol 12 "TCP_QUICKACK"; mk_symbol 13 "TCP_CONGESTION";
  mk_symbol 14 "TCP_MD5SIG"; mk_symbol 15 "TCP_COOKIE_TRANSACTIONS";
  mk_symbol 16 "TCP_THIN_LINEAR_TIMEOUTS"; mk_symbol 17 "TCP_THIN_DUPACK";
  mk_symbol 18 "TCP_USER_TIMEOUT"; mk_symbol 23 "TCP_FASTOPEN";
  mk_symbol 30 "TCP_FASTOPEN_CONNECT"; mk_symbol 24 "TCP_TIMESTAMP";
  mk_symbol 25 "TCP_NOTSENT_LOWAT"
].

(** [symbols_linux.c:183-192] platform_symbols_table: from O_RDONLY on *)
Definition symbols_O_RDONLY : list int_symbol := [
  mk_symbol 0 "O_RDONLY"; mk_symbol 1 "O_WRONLY"; mk_symbol 2 "O_RDWR"; mk_symbol 3 "O_ACCMODE";
  mk_symbol 64 "O_CREAT"; mk_symbol 128 "O_EXCL"; mk_symbol 256 "O_NOCTTY";
  mk_symbol 512 "O_TRUNC"; mk_symbol 1024 "O_APPEND"; mk_symbol 2048 "O_NONBLOCK"
].

(** [symbols_linux.c:194-218] platform_symbols_table: from F_DUPFD on *)
Definition symbols_F_DUPFD : list int_symbol := [
  mk_symbol 0 "F_DUPFD"; mk_symbol 1 "F_GETFD"; mk_symbol 2 "F_SETFD"; mk_symbol 3 "F_GETFL";
  mk_symbol 4 "F_SETFL"; mk_symbol 5 "F_GETLK"; mk_symbol 6 "F_SETLK"; mk_symbol 7 "F_SETLKW";
  mk_symbol 9 "F_GETOWN"; mk_symbol 8 "F_SETOWN"; mk_symbol 10 "F_SETSIG";
  mk_symbol 11 "F_GETSIG"; mk_symbol 9 "F_GETOWN"; mk_symbol 8 "F_SETOWN"; mk_symbol 6 "F_SETLK";
  mk_symbol 7 "F_SETLKW"; mk_symbol 5 "F_GETLK"; mk_symbol 6 "F_SETLK64";
  mk_symbol 7 "F_SETLKW64"; mk_symbol 5 "F_GETLK64"; mk_symbol 1024 "F_SETLEASE";
  mk_symbol 1025 "F_GETLEASE"; mk_symbol 1026 "F_NOTIFY"; mk_symbol 1030 "F_DUPFD_CLOEXEC";
  mk_symbol 1 "FD_CLOEXEC"
].

(** [symbols_linux.c:220-223] platform_symbols_table: from LOCK_SH on *)
Definition symbols_LOCK_SH : list int_symbol := [
  mk_symbol 1 "LOCK_SH"; mk_symbol 2 "LOCK_EX"; mk_symbol 4 "LOCK_NB"; mk_symbol 8 "LOCK_UN"
].

(** [symbols_linux.c:225-229] platform_symbols_table: from F_RDLCK on *)
Definition symbols_F_RDLCK : list int_symbol := [
  mk_symbol 0 "F_RDLCK"; mk_symbol 1 "F_WRLCK"; mk_symbol 2 "F_UNLCK"; mk_symbol 4 "F_EXLCK";
  mk_symbol 8 "F_SHLCK"
].

(** [symbols_linux.c:231-233] platform_symbols_table: from SEEK_SET on *)
Definition symbols_SEEK_SET : list int_symbol := [
  mk_symbol 0 "SEEK_SET"; mk_symbol 1 "SEEK_CUR"; mk_symbol 2 "SEEK_END"
].

(** [symbols_linux.c:235-254] platform_symbols_table: from MSG_OOB on *)
Definition symbols_MSG_OOB : list int_symbol := [
  mk_symbol 1 "MSG_OOB"; mk_symbol 4 "MSG_DONTROUTE"; mk_symbol 2 "MSG_PEEK";
  mk_symbol 8 "MSG_CTRUNC"; mk_symbol 16 "MSG_PROXY"; mk_symbol 128 "MSG_EOR";
  mk_symbol 256 "MSG_WAITALL"; mk_symbol 32 "MSG_TRUNC"; mk_symbol 8 "MSG_CTRUNC";
  mk_symbol 8192 "MSG_ERRQUEUE"; mk_symbol 64 "MSG_DONTWAIT"; mk_symbol 2048 "MSG_CONFIRM";
  mk_symbol 512 "MSG_FIN"; mk_symbol 1024 "MSG_SYN"; mk_symbol 4096 "MSG_RST";
  mk_symbol 16384 "MSG_NOSIGNAL"; mk_symbol 32768 "MSG_MORE";
  mk_symbol 1073741824 "MSG_CMSG_CLOEXEC"; mk_symbol 536870912 "MSG_FASTOPEN";
  mk_symbol 67108864 "MSG_ZEROCOPY"
].

(** [symbols_linux.c:256-258] platform_symbols_table: from SIOCINQ on *)
Definition symbols_SIOCINQ : list int_symbol := [
  mk_symbol 21531 "SIOCINQ"
].

(** [symbols_linux.c:260-262] platform_symbols_table: from FIONREAD on *)
Definition symbols_FIONREAD : list int_symbol := [
  mk_symbol 21531 "FIONREAD"
].

(** [symbols_linux.c:264-278] platform_symbols_table: from POLLIN on *)
Definition symbols_POLLIN : list int_symbol := [
  mk_symbol 1 "POLLIN"; mk_symbol 2 "POLLPRI"; mk_symbol 4 "POLLOUT"; mk_symbol 64 "POLLRDNORM";
  mk_symbol 128 "POLLRDBAND"; mk_symbol 256 "POLLWRNORM"; mk_symbol 512 "POLLWRBAND"
].

(** [symbols_linux.c:280-291] platform_symbols_table: from POLLMSG on *)
Definition symbols_POLLMSG : list int_symbol := [
  mk_symbol 1024 "POLLMSG"; mk_symbol 4096 "POLLREMOVE"; mk_symbol 8192 "POLLRDHUP";
  mk_symbol 8 "POLLERR"; mk_symbol 16 "POLLHUP"; mk_symbol 32 "POLLNVAL"
].

(** [symbols_linux.c:293-424] platform_symbols_table: from EPERM on *)
Definition symbols_EPERM : list int_symbol := [
  mk_symbol 1 "EPERM"; mk_symbol 2 "ENOENT"; mk_symbol 3 "ESRCH"; mk_symbol 4 "EINTR";
  mk_symbol 5 "EIO"; mk_symbol 6 "ENXIO"; mk_symbol 7 "E2BIG"; mk_symbol 8 "ENOEXEC";
  mk_symbol 9 "EBADF"; mk_symbol 10 "ECHILD"; mk_symbol 11 "EAGAIN"; mk_symbol 12 "ENOMEM";
  mk_symbol 13 "EACCES"; mk_symbol 14 "EFAULT"; mk_symbol 15 "ENOTBLK"; mk_symbol 16 "EBUSY";
  mk_symbol 17 "EEXIST"; mk_symbol 18 "EXDEV"; mk_symbol 19 "ENODEV"; mk_symbol 20 "ENOTDIR";
  mk_symbol 21 "EISDIR"; mk_symbol 22 "EINVAL"; mk_symbol 23 "ENFILE"; mk_symbol 24 "EMFILE";
  mk_symbol 25 "ENOTTY"; mk_symbol 26 "ETXTBSY"; mk_symbol 27 "EFBIG"; mk_symbol 28 "ENOSPC";
  mk_symbol 29 "ESPIPE"; mk_symbol 30 "EROFS"; mk_symbol 31 "EMLINK"; mk_symbol 32 "EPIPE";
  mk_symbol 33 "EDOM"; mk_symbol 34 "ERANGE"; mk_symbol 35 "EDEADLK";
  mk_symbol 36 "ENAMETOOLONG"; mk_symbol 37 "ENOLCK"; mk_symbol 38 "ENOSYS";
  mk_symbol 39 "ENOTEMPTY"; mk_symbol 40 "ELOOP"; mk_symbol 11 "EWOULDBLOCK";
  mk_symbol 42 "ENOMSG"; mk_symbol 43 "EIDRM"; mk_symbol 44 "ECHRNG"; mk_symbol 45 "EL2NSYNC";
  mk_symbol 46 "EL3HLT"; mk_symbol 47 "EL3RST"; mk_symbol 48 "ELNRNG"; mk_symbol 49 "EUNATCH";
  mk_symbol 50 "ENOCSI"; mk_symbol 51 "EL2HLT"; mk_symbol 52 "EBADE"; mk_symbol 53 "EBADR";
  mk_symbol 54 "EXFULL"; mk_symbol 55 "ENOANO"; mk_symbol 56 "EBADRQC"; mk_symbol 57 "EBADSLT";
  mk_symbol 35 "EDEADLOCK"; mk_symbol 59 "EBFONT"; mk_symbol 60 "ENOSTR"; mk_symbol 61 "ENODATA";
  mk_symbol 62 "ETIME"; mk_symbol 63 "ENOSR"; mk_symbol 64 "ENONET"; mk_symbol 65 "ENOPKG";
  mk_symbol 66 "EREMOTE"; mk_symbol 67 "ENOLINK"; mk_symbol 68 "EADV"; mk_symbol 69 "ESRMNT";
  mk_symbol 70 "ECOMM"; mk_symbol 71 "EPROTO"; mk_symbol 72 "EMULTIHOP"; mk_symbol 73 "EDOTDOT";
  mk_symbol 74 "EBADMSG"; mk_symbol 75 "EOVERFLOW"; mk_symbol 76 "ENOTUNIQ";
  mk_symbol 77 "EBADFD"; mk_symbol 78 "EREMCHG"; mk_symbol 79 "ELIBACC"; mk_symbol 80 "ELIBBAD";
  mk_symbol 81 "ELIBSCN"; mk_symbol 82 "ELIBMAX"; mk_symbol 83 "ELIBEXEC"; mk_symbol 84 "EILSEQ";
  mk_symbol 85 "ERESTART"; mk_symbol 86 "ESTRPIPE"; mk_symbol 87 "EUSERS";
  mk_symbol 88 "ENOTSOCK"; mk_symbol 89 "EDESTADDRREQ"; mk_symbol 90 "EMSGSIZE";
  mk_symbol 91 "EPROTOTYPE"; mk_symbol 92 "ENOPROTOOPT"; mk_symbol 93 "EPROTONOSUPPORT";
  mk_symbol 94 "ESOCKTNOSUPPORT"; mk_symbol 95 "EOPNOTSUPP"; mk_symbol 96 "EPFNOSUPPORT";
  mk_symbol 97 "EAFNOSUPPORT"; mk_symbol 98 "EADDRINUSE"; mk_symbol 99 "EADDRNOTAVAIL";
  mk_symbol 100 "ENETDOWN"; mk_symbol 101 "ENETUNREACH"; mk_symbol 102 "ENETRESET";
  mk_symbol 103 "ECONNABORTED"; mk_symbol 104 "ECONNRESET"; mk_symbol 105 "ENOBUFS";
  mk_symbol 106 "EISCONN"; mk_symbol 107 "ENOTCONN"; mk_symbol 108 "ESHUTDOWN";
  mk_symbol 109 "ETOOMANYREFS"; mk_symbol 110 "ETIMEDOUT"; mk_symbol 111 "ECONNREFUSED";
  mk_symbol 112 "EHOSTDOWN"; mk_symbol 113 "EHOSTUNREACH"; mk_symbol 114 "EALREADY";
  mk_symbol 115 "EINPROGRESS"; mk_symbol 116 "ESTALE"; mk_symbol 117 "EUCLEAN";
  mk_symbol 118 "ENOTNAM"; mk_symbol 119 "ENAVAIL"; mk_symbol 120 "EISNAM";
  mk_symbol 121 "EREMOTEIO"; mk_symbol 122 "EDQUOT"; mk_symbol 123 "ENOMEDIUM";
  mk_symbol 124 "EMEDIUMTYPE"; mk_symbol 125 "ECANCELED"; mk_symbol 126 "ENOKEY";
  mk_symbol 127 "EKEYEXPIRED"; mk_symbol 128 "EKEYREVOKED"; mk_symbol 129 "EKEYREJECTED";
  mk_symbol 130 "EOWNERDEAD"; mk_symbol 131 "ENOTRECOVERABLE"; mk_symbol 132 "ERFKILL"
].

(** [symbols_linux.c:426-428] platform_symbols_table: from CAP_EFFECTIVE on *)
Definition symbols_CAP_EFFECTIVE : list int_symbol := [
  mk_symbol 0 "CAP_EFFECTIVE"; mk_symbol 1 "CAP_PERMITTED"; mk_symbol 2 "CAP_INHERITABLE"
].

(** [symbols_linux.c:430-432] platform_symbols_table: from CAP_SET on *)
Definition symbols_CAP_SET : list int_symbol := [
  mk_symbol 1 "CAP_SET"; mk_symbol 0 "CAP_CLEAR"; mk_symbol 0 "CAP_CHOWN"
].

(** [symbols_linux.c:434-491] platform_symbols_table: from CAP_DAC_OVERRIDE on *)
Definition symbols_CAP_DAC_OVERRIDE : list int_symbol := [
  mk_symbol 1 "CAP_DAC_OVERRIDE"; mk_symbol 2 "CAP_DAC_READ_SEARCH"; mk_symbol 3 "CAP_FOWNER";
  mk_symbol 4 "CAP_FSETID"; mk_symbol 5 "CAP_KILL"; mk_symbol 6 "CAP_SETGID";
  mk_symbol 7 "CAP_SETUID"; mk_symbol 8 "CAP_SETPCAP"; mk_symbol 9 "CAP_LINUX_IMMUTABLE";
  mk_symbol 10 "CAP_NET_BIND_SERVICE"; mk_symbol 11 "CAP_NET_BROADCAST";
  mk_symbol 12 "CAP_NET_ADMIN"; mk_symbol 13 "CAP_NET_RAW"; mk_symbol 14 "CAP_IPC_LOCK";
  mk_symbol 15 "CAP_IPC_OWNER"; mk_symbol 16 "CAP_SYS_MODULE"; mk_symbol 17 "CAP_SYS_RAWIO";
  mk_symbol 18 "CAP_SYS_CHROOT"; mk_symbol 19 "CAP_SYS_PTRACE"; mk_symbol 20 "CAP_SYS_PACCT";
  mk_symbol 21 "CAP_SYS_ADMIN"; mk_symbol 22 "CAP_SYS_BOOT"; mk_symbol 23 "CAP_SYS_NICE";
  mk_symbol 24 "CAP_SYS_RESOURCE"; mk_symbol 25 "CAP_SYS_TIME";
  mk_symbol 26 "CAP_SYS_TTY_CONFIG"; mk_symbol 27 "CAP_MKNOD"; mk_symbol 28 "CAP_LEASE";
  mk_symbol 29 "CAP_AUDIT_WRITE"; mk_symbol 30 "CAP_AUDIT_CONTROL"; mk_symbol 31 "CAP_SETFCAP";
  mk_symbol 32 "CAP_MAC_OVERRIDE"; mk_symbol 33 "CAP_MAC_ADMIN"; mk_symbol 34 "CAP_SYSLOG";
  mk_symbol 35 "CAP_WAKE_ALARM"; mk_symbol 36 "CAP_BLOCK_SUSPEND"; mk_symbol 1 "EPOLLIN";
  mk_symbol 2 "EPOLLPRI"; mk_symbol 4 "EPOLLOUT"; mk_symbol 64 "EPOLLRDNORM";
  mk_symbol 128 "EPOLLRDBAND"; mk_symbol 256 "EPOLLWRNORM"; mk_symbol 512 "EPOLLWRBAND";
  mk_symbol 1024 "EPOLLMSG"; mk_symbol 8 "EPOLLERR"; mk_symbol 16 "EPOLLHUP";
  mk_symbol 8192 "EPOLLRDHUP"; mk_symbol 1073741824 "EPOLLONESHOT";
  mk_symbol 2147483648 "EPOLLET"; mk_symbol 268435456 "EPOLLEXCLUSIVE";
  mk_symbol 1 "EPOLL_CTL_ADD"; mk_symbol 3 "EPOLL_CTL_MOD"; mk_symbol 2 "EPOLL_CTL_DEL";
  mk_symbol 1 "SPLICE_F_MOVE"; mk_symbol 2 "SPLICE_F_NONBLOCK"; mk_symbol 4 "SPLICE_F_MORE";
  mk_symbol 8 "SPLICE_F_GIFT"; mk_symbol 0 "AF_UNSPEC"
].

(** [symbols_linux.c:497-500] platform_symbols; the sentinel of the table is its end *)
Definition platform_symbols : list int_symbol :=
  mjoin [symbols_SOL_IP; symbols_SO_ACCEPTCONN; symbols_SO_EE_ORIGIN_TIMESTAMPING;
    symbols_SO_EE_CODE_ZEROCOPY_COPIED; symbols_SOF_TIMESTAMPING_TX_HARDWARE;
    symbols_SCM_TIMESTAMPING; symbols_TCP_NLA_BUSY; symbols_TCP_CA_OPEN; symbols_IP_TOS;
    symbols_TCP_NODELAY; symbols_O_RDONLY; symbols_F_DUPFD; symbols_LOCK_SH; symbols_F_RDLCK;
    symbols_SEEK_SET; symbols_MSG_OOB; symbols_SIOCINQ; symbols_FIONREAD; symbols_POLLIN;
    symbols_POLLMSG; symbols_EPERM; symbols_CAP_EFFECTIVE; symbols_CAP_SET;
    symbols_CAP_DAC_OVERRIDE].
