(* ===== verification/Script.v ===== *)
(** * Script: the expressions of a script and their evaluation (script.h, script.c)

    The expression trees the parser builds for the arguments of system calls, the names
    of symbols and of flags, the unescaping of string literals, and [evaluate], which
    resolves the symbols of a tree and copies the rest. *)

From S2P Require Import Prelude Headers IpPacket Symbols.

#[local] Set Warnings "-register-all".

(** ** Data *)

(** [script.h:36-153] enum expression_t, struct expression and the parse trees its union points to; a
    string literal is the buffer that holds it, the socket addresses, the GRE header and
    the in6_addr are their bytes, and only the members of an epollev may be NULL *)
Inductive expression :=
  | EXPR_ELLIPSIS
  | EXPR_INTEGER (num : Z)
  | EXPR_LINGER (l_onoff l_linger : Z)
  | EXPR_WORD (str : string)
  | EXPR_STRING (buf : bytes)
  | EXPR_GRE (gre : bytes)
  | EXPR_IN6_ADDR (address_ipv6 : bytes)
  | EXPR_SOCKET_ADDRESS_IPV4 (socket_address_ipv4 : bytes)
  | EXPR_SOCKET_ADDRESS_IPV6 (socket_address_ipv6 : bytes)
  | EXPR_BINARY (op : string) (lhs rhs : expression)
  | EXPR_LIST (l : list expression)
  | EXPR_IOVEC (iov_base iov_len : expression)
  | EXPR_MSGHDR (msg_name msg_namelen msg_iov msg_iovlen msg_control msg_flags : expression)
  | EXPR_CMSG (cmsg_level cmsg_type cmsg_data : expression)
  | EXPR_POLLFD (fd events revents : expression)
  | EXPR_MPLS_STACK (stack : mpls_stack)
  | EXPR_SCM_TIMESTAMPING (ts : list (Z * Z))
  | EXPR_SOCK_EXTENDED_ERR (ee_errno ee_origin ee_type ee_code ee_info ee_data : expression)
  | EXPR_EPOLLEV (events : expression) (ptr fd u32 u64 : option expression).

(** [script.c:55-86] expression_type_table, expression_type_to_string; every type has its entry *)
Definition expression_type_to_string (e : expression) : string :=
  match e with
  | EXPR_ELLIPSIS => "ellipsis"
  | EXPR_INTEGER _ => "integer"
  | EXPR_WORD _ => "word"
  | EXPR_STRING _ => "string"
  | EXPR_GRE _ => "gre"
  | EXPR_IN6_ADDR _ => "in6_addr"
  | EXPR_SOCKET_ADDRESS_IPV4 _ => "sockaddr_in"
  | EXPR_SOCKET_ADDRESS_IPV6 _ => "sockaddr_in6"
  | EXPR_LINGER _ _ => "linger"
  | EXPR_BINARY _ _ _ => "binary_expression"
  | EXPR_LIST _ => "list"
  | EXPR_IOVEC _ _ => "iovec"
  | EXPR_MSGHDR _ _ _ _ _ _ => "msghdr"
  | EXPR_CMSG _ _ _ => "cmsg"
  | EXPR_POLLFD _ _ _ => "pollfd"
  | EXPR_MPLS_STACK _ => "mpls_stack"
  | EXPR_SCM_TIMESTAMPING _ => "scm_timestamping"
  | EXPR_SOCK_EXTENDED_ERR _ _ _ _ _ _ => "sock_extended_err"
  | EXPR_EPOLLEV _ _ _ _ _ => "epollev"
  end.

(** [script.h:156-159] struct errno_spec: the symbol of the errno *)
Record errno_spec := mk_errno_spec { errno_macro : string }.

(** [script.h:167-174] struct syscall_spec *)
Record syscall_spec := mk_syscall_spec {
  sy_name : string;
  sy_arguments : list expression;
  sy_result : expression;
  sy_error : option errno_spec;
  sy_end_usecs : Z
}.
Definition set_sy_end_usecs (v : Z) (s : syscall_spec) : syscall_spec :=
  mk_syscall_spec (sy_name s) (sy_arguments s) (sy_result s) (sy_error s) v.

(** [script.h:175-180] SYSCALL_NON_BLOCKING, is_blocking_syscall *)
Definition SYSCALL_NON_BLOCKING : Z := -1.
Definition is_blocking_syscall (call : syscall_spec) : bool :=
  negb (sy_end_usecs call =? SYSCALL_NON_BLOCKING).

(** A function that returns STATUS_OK with a result, or STATUS_ERR with [*error], which
    some error paths leave NULL. *)
Inductive outcome (A : Type) := Done (a : A) | Err (error : option string).
Arguments Done {A} a.
Arguments Err {A} error.

Definition eval (A : Type) : Type := exec (outcome A).

#[export] Instance eval_ret : MRet eval := fun A a => Ok (Done a).
#[export] Instance eval_bind : MBind eval := fun A B f m =>
  match m with
  | Ok (Done a) => f a
  | Ok (Err error) => Ok (Err error)
  | Fault e => Fault e
  end.

Definition fail {A} (error : string) : eval A := Ok (Err (Some error)).
Definition eval_lift {A} (m : exec A) : eval A := a ← m; Ok (Done a).

(** ** Symbols and flags *)

(** [script.c:89-117] cross_platform_symbols, up to the sentinel *)
Definition cross_platform_symbols : list int_symbol := [
  mk_symbol 2 "AF_INET"; mk_symbol 10 "AF_INET6"; mk_symbol 2 "PF_INET";
  mk_symbol 10 "PF_INET6"; mk_symbol 1 "SOCK_STREAM"; mk_symbol 2 "SOCK_DGRAM";
  mk_symbol 2048 "SOCK_NONBLOCK"; mk_symbol 0 "IPPROTO_IP"; mk_symbol 41 "IPPROTO_IPV6";
  mk_symbol 1 "IPPROTO_ICMP"; mk_symbol 58 "IPPROTO_ICMPV6"; mk_symbol 6 "IPPROTO_TCP";
  mk_symbol 17 "IPPROTO_UDP"; mk_symbol 0 "SHUT_RD"; mk_symbol 1 "SHUT_WR";
  mk_symbol 2 "SHUT_RDWR"; mk_symbol 1 "SOL_SOCKET"; mk_symbol 0 "NULL"
].

(** [script.c:120-131] lookup_int_symbol *)
Fixpoint lookup_int_symbol (input_symbol : string) (symbols : list int_symbol) : option Z :=
  match symbols with
  | [] => None
  | sym :: symbols' =>
      if bool_decide (input_symbol = sym_name sym) then Some (sym_value sym)
      else lookup_int_symbol input_symbol symbols'
  end.

(** [script.c:133-146] symbol_to_int *)
Definition symbol_to_int (input_symbol : string) : outcome Z :=
  match lookup_int_symbol input_symbol cross_platform_symbols with
  | Some v => Done v
  | None =>
      match lookup_int_symbol input_symbol platform_symbols with
      | Some v => Done v
      | None => Err (Some ("unknown symbol: '" +:+ input_symbol +:+ "'"))
      end
  end.

(** [script.h:268-271] struct flag_name *)
Record flag_name_t := mk_flag { fl_flag : Z; fl_name : option string }.

(** [script.c:149-187] poll_flags, with its sentinel, whose name is not NULL but empty *)
Definition poll_flags : list flag_name_t := [
  mk_flag 1 (Some "POLLIN"); mk_flag 2 (Some "POLLPRI"); mk_flag 4 (Some "POLLOUT");
  mk_flag 64 (Some "POLLRDNORM"); mk_flag 128 (Some "POLLRDBAND");
  mk_flag 256 (Some "POLLWRNORM"); mk_flag 512 (Some "POLLWRBAND");
  mk_flag 1024 (Some "POLLMSG"); mk_flag 4096 (Some "POLLREMOVE");
  mk_flag 8192 (Some "POLLRDHUP"); mk_flag 8 (Some "POLLERR"); mk_flag 16 (Some "POLLHUP");
  mk_flag 32 (Some "POLLNVAL"); mk_flag 0 (Some "")
]%string.

(** [script.c:192-200] flag_name: the array is read until a NULL name or the flag *)
Fixpoint flag_name (flags_array : list flag_name_t) (flag : Z) : exec string :=
  match flags_array with
  | [] => Fault OutOfBounds
  | f :: flags_array' =>
      match fl_name f with
      | Some name => if fl_flag f =? flag then Ok name else flag_name flags_array' flag
      | None => if fl_flag f =? flag then Fault NullDeref else Ok "???"%string
      end
  end.

(** [script.c:208-219] the loop of flags_to_string, [n] iterations from its end *)
Fixpoint flags_loop (n : nat) (flags_array : list flag_name_t) (flags bit_mask : Z)
    (out : string) : exec string :=
  match n with
  | O => Ok out
  | S n' =>
      out ← (if negb (Z.land flags bit_mask =? 0) then
               name ← flag_name flags_array bit_mask;
               Ok (out +:+ (if bool_decide (out = "") then "" else "|") +:+ name)
             else Ok out);
      flags_loop n' flags_array flags (u64 (Z.shiftl bit_mask 1)) out
  end.

(** [script.c:202-221] flags_to_string *)
Definition flags_to_string (flags_array : list flag_name_t) (flags : Z) : exec string :=
  flags_loop 64 flags_array (u64 flags) 1 "".

(** ** String literals *)

(** The digits and the white space of strtol. *)
Definition hex_value (c : Z) : option Z :=
  if (48 <=? c) && (c <=? 57) then Some (c - 48)
  else if (97 <=? c) && (c <=? 102) then Some (c - 87)
  else if (65 <=? c) && (c <=? 70) then Some (c - 55)
  else None.
Definition is_space (c : Z) : bool := (c =? 32) || ((9 <=? c) && (c <=? 13)).

(** [strtol(s, &end, 16)] of a string of two characters: the number, and whether [end]
    is the end of the string. *)
Definition strtol16_2 (c0 c1 : Z) : Z * bool :=
  match hex_value c0, hex_value c1 with
  | Some h, Some l => (16 * h + l, true)
  | Some h, None => (h, false)
  | None, Some l =>
      if is_space c0 || (c0 =? 43) then (l, true)
      else if c0 =? 45 then (- l, true) else (0, false)
  | None, None => (0, false)
  end.

(** [script.c:235-285] the loop of unescape_cstring_expression: [c_in] is what is left of
    the input before its terminator, [c_out] an index into [out].  The cases of a
    backslash and of a quote have no [break] and go on to the next. *)
Fixpoint unescape_loop (c_in out : bytes) (c_out : Z) : eval bytes :=
  match c_in with
  | [] => mret out
  | c :: c_in =>
      if c =? 92 then
        match c_in with
        | [] => fail "unsupported escape code: '"
        | e :: rest =>
            let store out v := eval_lift (st8 out c_out v) in
            if e =? 92 then
              out ← store out 92; out ← store out 34; out ← store out 12;
              unescape_loop rest out (c_out + 1)
            else if e =? 34 then
              out ← store out 34; out ← store out 12; unescape_loop rest out (c_out + 1)
            else if e =? 102 then out ← store out 12; unescape_loop rest out (c_out + 1)
            else if e =? 110 then out ← store out 10; unescape_loop rest out (c_out + 1)
            else if e =? 114 then out ← store out 13; unescape_loop rest out (c_out + 1)
            else if e =? 116 then out ← store out 9; unescape_loop rest out (c_out + 1)
            else if e =? 118 then out ← store out 11; unescape_loop rest out (c_out + 1)
            else if e =? 120 then
              match rest with
              | c0 :: c1 :: rest' =>
                  out ← store out (strtol16_2 c0 c1).1;
                  if (strtol16_2 c0 c1).2 then unescape_loop rest' out (c_out + 1)
                  else fail ("invalid hex escape (\xhh): '\x" +:+ bytes_string rest +:+ "'")
              | _ => fail ("invalid hex escape (\xhh): '\x" +:+ bytes_string rest +:+ "'")
              end
            else fail ("unsupported escape code: '" +:+ bytes_string [e] +:+ "'")
        end
      else out ← eval_lift (st8 out c_out c); unescape_loop c_in out (c_out + 1)
  end.

(** [script.c:227-287] unescape_cstring_expression: the buffer of the result *)
Definition unescape_cstring_expression (input_string : bytes) : eval bytes :=
  unescape_loop (c_string input_string)
    (replicate (length (c_string input_string) + 1) 0) 0.

(** ** Evaluation *)

Section Evaluate.
Variable evaluate : expression -> eval expression.

(** [script.c:403-441] evaluate_binary_expression *)
Definition evaluate_binary_expression (op : string) (lhs rhs : expression) : eval expression :=
  lhs ← evaluate lhs;
  rhs ← evaluate rhs;
  if bool_decide (op = "|") then
    match lhs, rhs with
    | EXPR_INTEGER l, EXPR_INTEGER r => mret (EXPR_INTEGER (Z.lor l r))
    | EXPR_INTEGER _, _ => fail "right hand side of | not an integer"
    | _, _ => fail "left hand side of | not an integer"
    end
  else if bool_decide (op = "=") then mret (EXPR_BINARY op lhs rhs)
  else fail ("bad binary operator '" +:+ op +:+ "'").

(** [script.c:726-745] evaluate_expression_list *)
Fixpoint evaluate_expression_list (in_list : list expression) : eval (list expression) :=
  match in_list with
  | [] => mret []
  | e :: in_list' =>
      e ← evaluate e;
      out_list ← evaluate_expression_list in_list';
      mret (e :: out_list)
  end.

(** [script.c:443-452] evaluate_list_expression *)
Definition evaluate_list_expression (l : list expression) : eval expression :=
  l ← evaluate_expression_list l; mret (EXPR_LIST l).

(** [script.c:454-475] evaluate_iovec_expression *)
Definition evaluate_iovec_expression (iov_base iov_len : expression) : eval expression :=
  iov_base ← evaluate iov_base;
  iov_len ← evaluate iov_len;
  mret (EXPR_IOVEC iov_base iov_len).

(** [script.c:477-506] evaluate_msghdr_expression *)
Definition evaluate_msghdr_expression
    (msg_name msg_namelen msg_iov msg_iovlen msg_control msg_flags : expression)
    : eval expression :=
  msg_name ← evaluate msg_name;
  msg_namelen ← evaluate msg_namelen;
  msg_iov ← evaluate msg_iov;
  msg_iovlen ← evaluate msg_iovlen;
  msg_control ← evaluate msg_control;
  msg_flags ← evaluate msg_flags;
  mret (EXPR_MSGHDR msg_name msg_namelen msg_iov msg_iovlen msg_control msg_flags).

(** [script.c:508-531] evaluate_cmsg_expression *)
Definition evaluate_cmsg_expression (cmsg_level cmsg_type cmsg_data : expression)
    : eval expression :=
  cmsg_level ← evaluate cmsg_level;
  cmsg_type ← evaluate cmsg_type;
  cmsg_data ← evaluate cmsg_data;
  mret (EXPR_CMSG cmsg_level cmsg_type cmsg_data).

(** [script.c:533-563] evaluate_sock_extended_err *)
Definition evaluate_sock_extended_err
    (ee_errno ee_origin ee_type ee_code ee_info ee_data : expression) : eval expression :=
  ee_errno ← evaluate ee_errno;
  ee_origin ← evaluate ee_origin;
  ee_type ← evaluate ee_type;
  ee_code ← evaluate ee_code;
  ee_info ← evaluate ee_info;
  ee_data ← evaluate ee_data;
  mret (EXPR_SOCK_EXTENDED_ERR ee_errno ee_origin ee_type ee_code ee_info ee_data).

(** [script.c:565-588] evaluate_pollfd_expression *)
Definition evaluate_pollfd_expression (fd events revents : expression) : eval expression :=
  fd ← evaluate fd;
  events ← evaluate events;
  revents ← evaluate revents;
  mret (EXPR_POLLFD fd events revents).

(** [script.c:590-623] evaluate_epollev_expression: of the data members only the first
    that is present is copied, and an epollev without one fails with no message *)
Definition evaluate_epollev_expression (events : expression)
    (ptr fd u32 u64 : option expression) : eval expression :=
  events ← evaluate events;
  match ptr, fd, u32, u64 with
  | Some ptr, _, _, _ => ptr ← evaluate ptr; mret (EXPR_EPOLLEV events (Some ptr) None None None)
  | None, Some fd, _, _ => fd ← evaluate fd; mret (EXPR_EPOLLEV events None (Some fd) None None)
  | None, None, Some u32, _ =>
      u32 ← evaluate u32; mret (EXPR_EPOLLEV events None None (Some u32) None)
  | None, None, None, Some u64 =>
      u64 ← evaluate u64; mret (EXPR_EPOLLEV events None None None (Some u64))
  | None, None, None, None => Ok (Err None)
  end.
End Evaluate.

(** The copy of a GRE header: its [gre_len] bytes in a struct of zeroes. *)
Definition copy_gre (gre : bytes) : exec bytes :=
  len ← gre_len gre 0;
  src ← get_bytes gre 0 len;
  put_bytes (replicate (Z.to_nat sizeof_gre) 0) 0 src.

(** [script.c:625-720] evaluate *)
Fixpoint evaluate (e : expression) : eval expression :=
  match e with
  | EXPR_ELLIPSIS => mret EXPR_ELLIPSIS
  | EXPR_INTEGER num => mret (EXPR_INTEGER num)
  | EXPR_GRE gre => gre ← eval_lift (copy_gre gre); mret (EXPR_GRE gre)
  | EXPR_IN6_ADDR a => mret (EXPR_IN6_ADDR a)
  | EXPR_LINGER l_onoff l_linger => mret (EXPR_LINGER l_onoff l_linger)
  | EXPR_WORD str =>
      match symbol_to_int str with
      | Done num => mret (EXPR_INTEGER num)
      | Err error => Ok (Err error)
      end
  | EXPR_STRING buf => out ← unescape_cstring_expression buf; mret (EXPR_STRING out)
  | EXPR_SOCKET_ADDRESS_IPV4 a => mret (EXPR_SOCKET_ADDRESS_IPV4 a)
  | EXPR_SOCKET_ADDRESS_IPV6 a => mret (EXPR_SOCKET_ADDRESS_IPV6 a)
  | EXPR_BINARY op lhs rhs => evaluate_binary_expression evaluate op lhs rhs
  | EXPR_LIST l => evaluate_list_expression evaluate l
  | EXPR_IOVEC iov_base iov_len => evaluate_iovec_expression evaluate iov_base iov_len
  | EXPR_MSGHDR a b c d f g => evaluate_msghdr_expression evaluate a b c d f g
  | EXPR_CMSG a b c => evaluate_cmsg_expression evaluate a b c
  | EXPR_SCM_TIMESTAMPING ts => mret (EXPR_SCM_TIMESTAMPING ts)
  | EXPR_SOCK_EXTENDED_ERR a b c d f g => evaluate_sock_extended_err evaluate a b c d f g
  | EXPR_POLLFD fd events revents => evaluate_pollfd_expression evaluate fd events revents
  | EXPR_MPLS_STACK stack => mret (EXPR_MPLS_STACK stack)
  | EXPR_EPOLLEV events ptr fd u32 u64 => evaluate_epollev_expression evaluate events ptr fd u32 u64
  end.

(** ** Induction on expressions *)

(** The sub-expressions of a node. *)
Definition subs (e : expression) : list expression :=
  match e with
  | EXPR_BINARY _ a b | EXPR_IOVEC a b => [a; b]
  | EXPR_LIST l => l
  | EXPR_MSGHDR a b c d f g | EXPR_SOCK_EXTENDED_ERR a b c d f g => [a; b; c; d; f; g]
  | EXPR_CMSG a b c | EXPR_POLLFD a b c => [a; b; c]
  | EXPR_EPOLLEV a b c d f =>
      a :: omap id [b; c; d; f]
  | _ => []
  end.

Lemma expression_subs_ind (P : expression -> Prop) :
  (forall e, Forall P (subs e) -> P e) -> forall e, P e.
Proof.
  intros H. fix IH 1. intros e. apply H.
  destruct e; cbn [subs]; try apply Forall_nil_2;
    try (repeat (apply Forall_cons_2; [apply IH|]); apply Forall_nil_2).
  - revert l. fix IHl 1. intros [|e l]; [apply Forall_nil_2|].
    apply Forall_cons_2; [apply IH|apply IHl].
  - apply Forall_cons_2; [apply IH|].
    destruct ptr, fd, u32, u64; cbn;
      repeat (apply Forall_cons_2; [apply IH|]); apply Forall_nil_2.
Qed.

(** A property of every node of a tree. *)
Inductive all_nodes (Q : expression -> bool) : expression -> Prop :=
  | all_nodes_intro e : Q e = true -> Forall (all_nodes Q) (subs e) -> all_nodes Q e.

Lemma all_nodes_inv Q e : all_nodes Q e -> Q e = true /\ Forall (all_nodes Q) (subs e).
Proof. by inversion 1. Qed.

(** What holds of a node that [evaluate] returns: symbols are resolved, the only operator
    left is [=], and an epollev has one data member. *)
Definition evaluated_node (e : expression) : bool :=
  match e with
  | EXPR_WORD _ => false
  | EXPR_BINARY op _ _ => bool_decide (op = "=")
  | EXPR_GRE gre => zlen gre =? sizeof_gre
  | EXPR_EPOLLEV _ ptr fd u32 u64 => (length (omap id [ptr; fd; u32; u64]) =? 1)%nat
  | _ => true
  end.
Definition evaluated : expression -> Prop := all_nodes evaluated_node.

(** The inversion of a bind that succeeded. *)
Lemma eval_bind_Done {A B} (m : eval A) (f : A -> eval B) b :
  (m ≫= f) = Ok (Done b) <-> exists a, m = Ok (Done a) /\ f a = Ok (Done b).
Proof.
  destruct m as [[a|error]|e]; cbn; (split; [try discriminate; eauto|]);
    intros (a'&E&F); try discriminate. by injection E as ->.
Qed.

Lemma eval_lift_Done {A} (m : exec A) a : eval_lift m = Ok (Done a) <-> m = Ok a.
Proof. destruct m; cbn; naive_solver. Qed.

Ltac inv_eval :=
  repeat match goal with
  | H : mbind (M := eval) _ _ = Ok (Done _) |- _ =>
      apply (proj1 (eval_bind_Done _ _ _)) in H; destruct H as (?&?&H)
  | H : eval_lift _ = Ok (Done _) |- _ => apply (proj1 (eval_lift_Done _ _)) in H
  | H : mret _ = Ok (Done _) |- _ => injection H; clear H; intros; subst
  | H : fail _ = Ok (Done _) |- _ => discriminate H
  | H : Ok (Err _) = Ok (Done _) |- _ => discriminate H
  end.

Lemma evaluated_intro e :
  evaluated_node e = true -> Forall evaluated (subs e) -> evaluated e.
Proof. apply all_nodes_intro. Qed.

Lemma copy_gre_size gre out : copy_gre gre = Ok out -> zlen out = sizeof_gre.
Proof.
  intros H. unfold copy_gre in H. inv_exec. apply put_bytes_zlen in H. by rewrite H.
Qed.

Lemma evaluate_list_evaluated l : forall l',
  Forall (fun e => forall e', evaluate e = Ok (Done e') -> evaluated e') l ->
  evaluate_expression_list evaluate l = Ok (Done l') -> Forall evaluated l'.
Proof.
  induction l as [|e l IH]; cbn [evaluate_expression_list]; intros l' HF H; inv_eval; [constructor|].
  inversion HF; subst. constructor; eauto.
Qed.

(** The cases of [evaluate] whose node has a fixed number of sub-expressions. *)
Ltac evaluated_fixed :=
  repeat match goal with
  | H : Forall _ (_ :: _) |- _ => inversion H; clear H; subst
  end;
  apply evaluated_intro; [done|]; cbn [subs omap list_omap id];
  repeat (apply Forall_cons_2; [by eauto|]); apply Forall_nil_2.

Lemma evaluate_binary_evaluated op lhs rhs e' :
  Forall (fun e => forall e', evaluate e = Ok (Done e') -> evaluated e') [lhs; rhs] ->
  evaluate (EXPR_BINARY op lhs rhs) = Ok (Done e') -> evaluated e'.
Proof.
  intros IH H. cbn [evaluate] in H. unfold evaluate_binary_expression in H. inv_eval.
  destruct (bool_decide (op = "|")).
  - destruct x; inv_eval. destruct x0; inv_eval. by apply evaluated_intro.
  - destruct (bool_decide (op = "=")) eqn:E; inv_eval.
    inversion IH as [|? ? IHl IH']. inversion IH'. subst.
    apply evaluated_intro; [exact E|]. by apply Forall_cons_2, Forall_cons_2; eauto.
Qed.

Lemma evaluate_epollev_evaluated events ptr fd u32 u64 e' :
  Forall (fun e => forall e', evaluate e = Ok (Done e') -> evaluated e')
    (subs (EXPR_EPOLLEV events ptr fd u32 u64)) ->
  evaluate (EXPR_EPOLLEV events ptr fd u32 u64) = Ok (Done e') -> evaluated e'.
Proof.
  intros IH H. cbn [evaluate] in H. unfold evaluate_epollev_expression in H. inv_eval.
  destruct ptr; [|destruct fd; [|destruct u32; [|destruct u64]]]; inv_eval;
    cbn in IH; evaluated_fixed.
Qed.

Lemma evaluate_evaluated e e' : evaluate e = Ok (Done e') -> evaluated e'.
Proof.
  revert e'. induction e as [e IH] using expression_subs_ind. intros e' H.
  destruct e; 
    try solve [cbn [evaluate] in H; inv_eval; apply evaluated_intro; [reflexivity|apply Forall_nil_2]].
  - cbn [evaluate] in H. destruct (symbol_to_int str); [|discriminate]. inv_eval. by apply evaluated_intro.
  - cbn [evaluate] in H. inv_eval. apply evaluated_intro; [|apply Forall_nil_2].
    cbn [evaluated_node]. rewrite (copy_gre_size gre) by done. done.
  - by eapply evaluate_binary_evaluated.
  - cbn [evaluate] in H. unfold evaluate_list_expression in H. inv_eval.
    apply evaluated_intro; [done|]. by eapply evaluate_list_evaluated.
  - cbn [evaluate subs] in *. unfold evaluate_iovec_expression in H. inv_eval. evaluated_fixed.
  - cbn [evaluate subs] in *. unfold evaluate_msghdr_expression in H. inv_eval. evaluated_fixed.
  - cbn [evaluate subs] in *. unfold evaluate_cmsg_expression in H. inv_eval. evaluated_fixed.
  - cbn [evaluate subs] in *. unfold evaluate_pollfd_expression in H. inv_eval. evaluated_fixed.
  - cbn [evaluate subs] in *. unfold evaluate_sock_extended_err in H. inv_eval. evaluated_fixed.
  - by eapply evaluate_epollev_evaluated.
Qed.

(** Expressions that stand for themselves. *)
Definition is_literal (e : expression) : bool :=
  match e with
  | EXPR_ELLIPSIS | EXPR_INTEGER _ | EXPR_LINGER _ _ | EXPR_IN6_ADDR _ | EXPR_SOCKET_ADDRESS_IPV4 _
  | EXPR_SOCKET_ADDRESS_IPV6 _ | EXPR_MPLS_STACK _ | EXPR_SCM_TIMESTAMPING _ => true
  | _ => false
  end.

(** What each kind of expression evaluates to: a symbol to its number, an alternative of
    integers to their union, every other kind to its own kind, part by part; of the data of an
    epoll_event only the first member that is given remains. *)
Inductive evaluates : expression -> expression -> Prop :=
  | ev_literal e : is_literal e = true -> evaluates e e
  | ev_word str num : symbol_to_int str = Done num -> evaluates (EXPR_WORD str) (EXPR_INTEGER num)
  | ev_string buf out : unescape_cstring_expression buf = Ok (Done out) ->
      evaluates (EXPR_STRING buf) (EXPR_STRING out)
  | ev_gre gre out : copy_gre gre = Ok out -> evaluates (EXPR_GRE gre) (EXPR_GRE out)
  | ev_or l r a b : evaluates l (EXPR_INTEGER a) -> evaluates r (EXPR_INTEGER b) ->
      evaluates (EXPR_BINARY "|" l r) (EXPR_INTEGER (Z.lor a b))
  | ev_assign l r l' r' : evaluates l l' -> evaluates r r' ->
      evaluates (EXPR_BINARY "=" l r) (EXPR_BINARY "=" l' r')
  | ev_list l l' : Forall2 evaluates l l' -> evaluates (EXPR_LIST l) (EXPR_LIST l')
  | ev_iovec a b a' b' : Forall2 evaluates [a; b] [a'; b'] ->
      evaluates (EXPR_IOVEC a b) (EXPR_IOVEC a' b')
  | ev_msghdr a b c d e f a' b' c' d' e' f' :
      Forall2 evaluates [a; b; c; d; e; f] [a'; b'; c'; d'; e'; f'] ->
      evaluates (EXPR_MSGHDR a b c d e f) (EXPR_MSGHDR a' b' c' d' e' f')
  | ev_cmsg a b c a' b' c' : Forall2 evaluates [a; b; c] [a'; b'; c'] ->
      evaluates (EXPR_CMSG a b c) (EXPR_CMSG a' b' c')
  | ev_pollfd a b c a' b' c' : Forall2 evaluates [a; b; c] [a'; b'; c'] ->
      evaluates (EXPR_POLLFD a b c) (EXPR_POLLFD a' b' c')
  | ev_extended_err a b c d e f a' b' c' d' e' f' :
      Forall2 evaluates [a; b; c; d; e; f] [a'; b'; c'; d'; e'; f'] ->
      evaluates (EXPR_SOCK_EXTENDED_ERR a b c d e f) (EXPR_SOCK_EXTENDED_ERR a' b' c' d' e' f')
  | ev_epoll_ptr ev ev' p p' fd u v : evaluates ev ev' -> evaluates p p' ->
      evaluates (EXPR_EPOLLEV ev (Some p) fd u v) (EXPR_EPOLLEV ev' (Some p') None None None)
  | ev_epoll_fd ev ev' fd fd' u v : evaluates ev ev' -> evaluates fd fd' ->
      evaluates (EXPR_EPOLLEV ev None (Some fd) u v) (EXPR_EPOLLEV ev' None (Some fd') None None)
  | ev_epoll_u32 ev ev' u u' v : evaluates ev ev' -> evaluates u u' ->
      evaluates (EXPR_EPOLLEV ev None None (Some u) v) (EXPR_EPOLLEV ev' None None (Some u') None)
  | ev_epoll_u64 ev ev' v v' : evaluates ev ev' -> evaluates v v' ->
      evaluates (EXPR_EPOLLEV ev None None None (Some v)) (EXPR_EPOLLEV ev' None None None (Some v')).

(** [e] evaluates as the relation says. *)
Definition evaluate_exact (e : expression) : Prop :=
  forall e', evaluate e = Ok (Done e') <-> evaluates e e'.

Lemma evaluate_list_exact l : Forall evaluate_exact l -> forall l',
  evaluate_expression_list evaluate l = Ok (Done l') <-> Forall2 evaluates l l'.
Proof.
  induction 1 as [|e l He _ IH]; intros l'; cbn [evaluate_expression_list].
  - split; [intros [= <-]; constructor|]. by intros ->%Forall2_nil_inv_l.
  - rewrite eval_bind_Done. split.
    + intros (e'&E&H). apply eval_bind_Done in H as (l1&El&[= <-]).
      constructor; [by apply He|by apply IH].
    + intros (e'&l1&E&El&->)%Forall2_cons_inv_l. exists e'. split; [by apply He|].
      apply eval_bind_Done. exists l1. split; [by apply IH|done].
Qed.

(** The two directions for a node with a fixed number of parts. *)
Ltac exact_parts :=
  repeat match goal with H : Forall evaluate_exact (_ :: _) |- _ => apply Forall_cons in H as [? H] end;
  split;
  [ intros; inv_eval; constructor; repeat (apply Forall2_cons_2 || apply Forall2_nil_2);
    match goal with H : evaluate_exact ?e |- evaluates ?e _ => by apply H end
  | inversion 1; subst; [done|];
    repeat match goal with H : Forall2 evaluates (_ :: _) (_ :: _) |- _ => apply Forall2_cons in H as [? H] end;
    repeat (apply eval_bind_Done; eexists; split;
      [match goal with H : evaluate_exact ?e |- evaluate ?e = _ => by apply H end|]); done ].

Lemma evaluate_epollev_exact ev ptr fd u v : Forall evaluate_exact (subs (EXPR_EPOLLEV ev ptr fd u v)) ->
  evaluate_exact (EXPR_EPOLLEV ev ptr fd u v).
Proof.
  intros IH e'. cbn [evaluate]. unfold evaluate_epollev_expression.
  destruct ptr as [p|]; [|destruct fd as [f|]; [|destruct u as [x|]; [|destruct v as [y|]]]];
    cbn in IH; repeat match goal with H : Forall evaluate_exact (_ :: _) |- _ => apply Forall_cons in H as [? H] end.
  5:{ split; [intros; by inv_eval|inversion 1; done]. }
  all: split; [intros; inv_eval; constructor;
      match goal with H : evaluate_exact ?e |- evaluates ?e _ => by apply H end
    | inversion 1; subst; [done|]; repeat (apply eval_bind_Done; eexists; split;
      [match goal with H : evaluate_exact ?e |- evaluate ?e = _ => by apply H end|]); done].
Qed.

Lemma evaluate_binary_exact op l r : evaluate_exact l -> evaluate_exact r -> evaluate_exact (EXPR_BINARY op l r).
Proof.
  intros Hl Hr e'. cbn [evaluate]. unfold evaluate_binary_expression. split.
  - intros H. inv_eval. destruct (decide (op = "|")) as [-> | Ho].
    + rewrite bool_decide_eq_true_2 in H by done. destruct x; inv_eval. destruct x0; inv_eval.
      constructor; [by apply Hl|by apply Hr].
    + rewrite bool_decide_eq_false_2 in H by done. case_bool_decide; inv_eval. subst.
      constructor; [by apply Hl|by apply Hr].
  - inversion 1; subst; [done| |];
      (apply eval_bind_Done; eexists; split; [by apply Hl|]; apply eval_bind_Done; eexists; split; [by apply Hr|]);
      done.
Qed.



(** ** Computations that return, with a result or with an error *)

Definition returns {A} (m : eval A) : Prop := exists r, m = Ok r.

Lemma returns_ret {A} (a : A) : returns (mret a).
Proof. by eexists. Qed.
Lemma returns_fail {A} error : returns (A := A) (fail error).
Proof. by eexists. Qed.
Lemma returns_eval_lift {A} (m : exec A) a : m = Ok a -> returns (eval_lift m).
Proof. intros ->. by eexists. Qed.
Lemma returns_bind {A B} (m : eval A) (f : A -> eval B) :
  returns m -> (forall a, m = Ok (Done a) -> returns (f a)) -> returns (m ≫= f).
Proof. intros [[a|error] ->] Hf; cbn; [by apply Hf|by eexists]. Qed.

Create HintDb returns_db.
#[export] Hint Resolve returns_ret returns_fail returns_bind : returns_db.

(** ** String literals *)

(** A store into the buffer that has been filled up to [pre]. *)
Lemma st8_at pre x t v : st8 (pre ++ x :: t) (zlen pre) v = Ok (pre ++ u8 v :: t).
Proof.
  unfold st8, put_bytes.
  assert (in_range (pre ++ x :: t) (zlen pre) (zlen (le_split 1 v)) = true) as ->.
  { apply in_range_true. rewrite zlen_le_split, zlen_app, zlen_cons.
    pose proof (zlen_nonneg pre). pose proof (zlen_nonneg t). lia. }
  unfold zlen. rewrite Nat2Z.id, take_app_length, length_le_split, drop_app_add.
  by cbn.
Qed.

(** What the loop returns from a buffer filled up to [pre], the [k] bytes after it zero. *)
Definition unescaped (pre c_in : bytes) (k : nat) (m : eval bytes) : Prop :=
  exists r, m = Ok r /\ forall out, r = Done out ->
    exists l, out = pre ++ l ++ replicate (k - length l) 0 /\ (length l <= length c_in)%nat.

Lemma unescaped_fail pre c_in k error : unescaped pre c_in k (fail error).
Proof. eexists. split; [done|]. intros out [=]. Qed.

Lemma unescaped_step pre c_in c_in' k v :
  (length c_in' < length c_in)%nat -> (length c_in < S k)%nat ->
  (forall pre, unescaped pre c_in' k (unescape_loop c_in' (pre ++ replicate k 0) (zlen pre))) ->
  unescaped pre c_in (S k) (unescape_loop c_in' (pre ++ u8 v :: replicate k 0) (zlen pre + 1)).
Proof.
  intros Hl Hk IH. destruct (IH (pre ++ [u8 v])) as (r&E&Hr).
  rewrite zlen_app, <-app_assoc in E. exists r. split; [exact E|]. intros out Ho.
  destruct (Hr out Ho) as (l&->&Hll). exists (u8 v :: l).
  rewrite <-app_assoc. split; [done|simpl; lia].
Qed.

Lemma unescape_loop_spec n : forall c_in pre k, (length c_in < n)%nat -> (length c_in < k)%nat ->
  unescaped pre c_in k (unescape_loop c_in (pre ++ replicate k 0) (zlen pre)).
Proof.
  induction n as [|n IH]; intros c_in pre k Hn Hk; [lia|].
  destruct k as [|k]; [lia|].
  destruct c_in as [|c c_in]; cbn [unescape_loop].
  { eexists. split; [done|]. intros out [= <-]. exists []. split; [done|simpl; lia]. }
  cbn [replicate]. simpl in Hn, Hk.
  assert (forall c_in' v, (length c_in' <= length c_in)%nat -> 
    unescaped pre (c :: c_in) (S k) (unescape_loop c_in' (pre ++ u8 v :: replicate k 0) (zlen pre + 1)))
    as Step.
  { intros c_in' v Hl. apply unescaped_step; [simpl; lia..|]. intros pre'. apply IH; lia. }
  destruct (c =? 92); [|rewrite st8_at; apply Step; lia].
  destruct c_in as [|e rest]; [apply unescaped_fail|].
  repeat match goal with
  | |- context [if e =? ?v then _ else _] =>
      destruct (e =? v); [try (rewrite !st8_at; cbn; rewrite ?st8_at; cbn; rewrite ?st8_at;
                               apply Step; simpl; lia)|]
  end; [|apply unescaped_fail].
  destruct rest as [|c0 [|c1 rest]]; try apply unescaped_fail. rewrite st8_at. cbn.
  destruct (strtol16_2 c0 c1).2; [apply Step; simpl; lia|apply unescaped_fail].
Qed.

(** Bounds of unescape_cstring_expression: whatever the literal, no store leaves the
    [strlen + 1] bytes allocated for the result, the loop ends, and a literal that is
    accepted gives a buffer that ends in a terminator after at most as many characters
    as the literal had. *)
Theorem unescape_in_bounds buf :
  exists r, unescape_cstring_expression buf = Ok r /\
  forall out, r = Done out -> zlen out = zlen (c_string buf) + 1 /\
    exists l k, out = l ++ 0 :: replicate k 0 /\ zlen l <= zlen (c_string buf).
Proof.
  unfold unescape_cstring_expression. set (c_in := c_string buf).
  destruct (unescape_loop_spec (S (length c_in)) c_in [] (length c_in + 1)) as (r&E&Hr); [lia..|].
  exists r. split; [exact E|]. intros out Ho. destruct (Hr out Ho) as (l&->&Hl). simpl app.
  split.
  - rewrite zlen_app. unfold zlen. rewrite length_replicate. lia.
  - exists l, (length c_in - length l)%nat. split; [|unfold zlen; lia].
    by replace (length c_in + 1 - length l)%nat with (S (length c_in - length l)) by lia.
Qed.

(** A way to write any bytes as a literal: the characters between space and [~] other
    than a quote and a backslash as they are, every other byte in hexadecimal. *)
Definition hex_char (z : Z) : Z := if z <? 10 then 48 + z else 87 + z.
Definition escape_byte (b : Z) : bytes :=
  if (32 <=? b) && (b <=? 126) && negb (b =? 34) && negb (b =? 92) then [b]
  else [92; 120; hex_char (b / 16); hex_char (b mod 16)].
Definition escape (l : bytes) : bytes := mjoin (escape_byte <$> l).

Lemma strtol_hex_chars b : is_byte b ->
  strtol16_2 (hex_char (b / 16)) (hex_char (b mod 16)) = (b, true).
Proof.
  intros Hb. assert (forallb (fun n => let b := Z.of_nat n in
    bool_decide (strtol16_2 (hex_char (b / 16)) (hex_char (b mod 16)) = (b, true))) (seq 0 256)
    = true) as H by (vm_compute; reflexivity).
  rewrite forallb_forall in H. specialize (H (Z.to_nat b)).
  rewrite Z2Nat.id in H by (unfold is_byte in Hb; lia).
  assert (In (Z.to_nat b) (seq 0 256)) as Hi by (apply in_seq; unfold is_byte in Hb; lia).
  exact (bool_decide_eq_true_1 _ (H Hi)).
Qed.

Lemma unescape_loop_byte b c_in pre x t : is_byte b ->
  unescape_loop (escape_byte b ++ c_in) (pre ++ x :: t) (zlen pre) =
  unescape_loop c_in ((pre ++ [b]) ++ t) (zlen (pre ++ [b])).
Proof.
  intros Hb. assert (u8 b = b) as Eb by (apply u8_small, Hb).
  rewrite zlen_app, <-app_assoc. unfold escape_byte. split_guard.
  - repeat (apply andb_prop in Heqb0 as [Heqb0 ?]). cbn [app unescape_loop].
    destruct (Z.eqb_spec b 92); [lia|]. by rewrite st8_at, Eb.
  - cbn [app unescape_loop]. rewrite strtol_hex_chars by done. cbn [Z.eqb Pos.eqb].
    cbn [fst snd]. by rewrite st8_at, Eb.
Qed.

Lemma unescape_loop_escape l : forall pre k, bytes_ok l -> (length l <= k)%nat ->
  unescape_loop (escape l) (pre ++ replicate k 0) (zlen pre) =
  Ok (Done (pre ++ l ++ replicate (k - length l) 0)).
Proof.
  induction l as [|b l IH]; intros pre k Hl Hk.
  { cbn. by rewrite Nat.sub_0_r. }
  inversion Hl as [|? ? Hb Hl']; subst. destruct k as [|k]; [simpl in Hk; lia|].
  change (escape (b :: l)) with (escape_byte b ++ escape l). cbn [replicate].
  rewrite unescape_loop_byte by done. rewrite IH by (simpl in Hk; (done || lia)).
  by rewrite <-app_assoc.
Qed.

Lemma escape_byte_length b : (1 <= length (escape_byte b))%nat.
Proof. unfold escape_byte. split_guard; simpl; lia. Qed.

Lemma escape_length l : (length l <= length (escape l))%nat.
Proof.
  induction l as [|b l IH]; [done|]. change (escape (b :: l)) with (escape_byte b ++ escape l).
  rewrite length_app. pose proof (escape_byte_length b). simpl. lia.
Qed.

Lemma escape_byte_nonzero b : is_byte b -> Forall (fun c => c <> 0) (escape_byte b).
Proof.
  intros Hb. unfold is_byte in Hb. unfold escape_byte. split_guard.
  - repeat (apply andb_prop in Heqb0 as [Heqb0 ?]). repeat constructor. lia.
  - unfold hex_char. repeat constructor; try lia; split_guard; zlia.
Qed.

Lemma escape_nonzero l : bytes_ok l -> Forall (fun c => c <> 0) (escape l).
Proof.
  induction 1 as [|b l Hb Hl IH]; [constructor|].
  change (escape (b :: l)) with (escape_byte b ++ escape l).
  apply Forall_app_2; [by apply escape_byte_nonzero|done].
Qed.

(** Round trip of string literals: every sequence of bytes, NUL and quotes included,
    can be written as a literal with hexadecimal escapes, and evaluating the literal
    gives a buffer that starts with those bytes and a terminator. *)
Theorem unescape_roundtrip l t : bytes_ok l ->
  exists k, evaluate (EXPR_STRING (escape l ++ 0 :: t)) =
    Ok (Done (EXPR_STRING (l ++ 0 :: replicate k 0))).
Proof.
  intros Hl. exists (length (escape l) - length l)%nat. cbn [evaluate].
  unfold unescape_cstring_expression. rewrite c_string_app by (by apply escape_nonzero).
  pose proof (escape_length l) as Hn.
  pose proof (unescape_loop_escape l [] (length (escape l) + 1)%nat Hl ltac:(lia)) as E.
  cbn [app] in E. change (zlen []) with 0 in E. rewrite E. cbn.
  by replace (length (escape l) + 1 - length l)%nat with (S (length (escape l) - length l))
    by lia.
Qed.

Lemma unescape_roundtrip_witness :
  exists k, evaluate (EXPR_STRING (string_bytes "a\x00\x22\x5c" ++ [0])) =
    Ok (Done (EXPR_STRING ([97; 0; 34; 92] ++ 0 :: replicate k 0))).
Proof. apply (unescape_roundtrip [97; 0; 34; 92] []). solve_bytes. Defined.

(** An ordinary character. *)
Definition plain (c : Z) : Prop := is_byte c /\ c <> 0 /\ c <> 92.

Lemma unescape_loop_plain l : forall c_in pre k, Forall plain l ->
  unescape_loop (l ++ c_in) (pre ++ replicate (length l + k) 0) (zlen pre) =
  unescape_loop c_in ((pre ++ l) ++ replicate k 0) (zlen (pre ++ l)).
Proof.
  induction l as [|c l IH]; intros c_in pre k Hl; [by rewrite app_nil_r|].
  inversion Hl as [|? ? (Hc&_&H92) Hl']; subst. cbn [length app Nat.add replicate unescape_loop].
  rewrite (proj2 (Z.eqb_neq c 92) H92), st8_at, (u8_small c) by exact Hc.
  specialize (IH c_in (pre ++ [c]) k Hl'). rewrite zlen_app, <-!app_assoc in IH.
  rewrite <-app_assoc. exact IH.
Qed.

(** What the missing [break]s of unescape_cstring_expression do: an escaped backslash
    and an escaped quote each become a form feed, wherever they stand in a literal of
    otherwise ordinary characters. *)
Theorem unescape_quote_is_formfeed pre post e :
  Forall plain pre -> Forall plain post -> e = 92 \/ e = 34 ->
  unescape_cstring_expression (pre ++ [92; e] ++ post ++ [0]) =
    Ok (Done (pre ++ [12] ++ post ++ [0; 0])).
Proof.
  intros Hpre Hpost He. unfold unescape_cstring_expression.
  replace (c_string (pre ++ [92; e] ++ post ++ [0])) with (pre ++ 92 :: e :: post).
  2:{ replace (pre ++ [92; e] ++ post ++ [0]) with ((pre ++ [92; e] ++ post) ++ [0])
        by (by rewrite <-!app_assoc).
      rewrite c_string_app; [done|]. repeat apply Forall_app_2; [|repeat constructor; lia|];
          eapply Forall_impl; eauto; unfold plain; naive_solver. }
  replace (length (pre ++ 92%Z :: e :: post) + 1)%nat with (length pre + (3 + length post))%nat
    by (rewrite length_app; simpl; lia).
  pose proof (unescape_loop_plain pre (92 :: e :: post) [] (3 + length post) Hpre) as E.
  cbn [app] in E. change (zlen []) with 0 in E. rewrite E. cbn [Nat.add replicate].
  pose proof (unescape_loop_plain post [] (pre ++ [12]) 2 Hpost) as Hp.
  rewrite zlen_app, app_nil_r, <-!app_assoc in Hp. rewrite Nat.add_comm in Hp. cbn in Hp.
  destruct He as [-> | ->]; cbn [unescape_loop Z.eqb Pos.eqb];
    repeat (rewrite !st8_at; cbn [eval_lift mbind eval_bind exec_bind]); exact Hp.
Qed.

Lemma unescape_quote_is_formfeed_witness :
  unescape_cstring_expression (string_bytes "say " ++ [92; 34] ++ string_bytes "hi" ++ [0]) =
    Ok (Done (string_bytes "say " ++ [12] ++ string_bytes "hi" ++ [0; 0])).
Proof.
  apply unescape_quote_is_formfeed; [| |by right];
    repeat constructor; unfold is_byte; vm_compute; intros; discriminate.
Defined.

(** ** Evaluation returns *)

(** A GRE header the program supports: version 0 and no routing information. *)
Definition gre_supported (e : expression) : bool :=
  match e with
  | EXPR_GRE gre =>
      (zlen gre =? sizeof_gre) && forallb (fun b => (0 <=? b) && (b <? 256)) gre
      && bool_decide (rd gre 0 gre_version = Ok 0)
      && bool_decide (rd gre 0 gre_has_routing = Ok 0)
  | _ => true
  end.

Lemma copy_gre_supported gre :
  gre_supported (EXPR_GRE gre) = true -> exists out, copy_gre gre = Ok out.
Proof.
  cbn [gre_supported]. rewrite !andb_true_iff. intros [[[Hz Hb] Hv%bool_decide_eq_true]
    Hr%bool_decide_eq_true]. apply Z.eqb_eq in Hz. unfold sizeof_gre in Hz.
  assert (bytes_ok gre) as Hok.
  { apply List.Forall_forall. intros b Hi. rewrite forallb_forall in Hb.
    specialize (Hb b Hi). breflect. unfold is_byte. lia. }
  unfold copy_gre, gre_len. rewrite Hv, bind_Ok_eq. cbn [Z.eqb c_assert].
  rewrite bind_Ok_eq, Hr, bind_Ok_eq. cbn [Z.eqb c_assert]. rewrite bind_Ok_eq.
  destruct (rd_total gre 0 gre_has_checksum Hok) as (vc&->&_); [by apply field_wfb_true|cbn; lia..|].
  destruct (rd_total gre 0 gre_has_key Hok) as (vk&->&_); [by apply field_wfb_true|cbn; lia..|].
  destruct (rd_total gre 0 gre_has_seq Hok) as (vs&->&_); [by apply field_wfb_true|cbn; lia..|].
  rewrite !bind_Ok_eq. set (len := if negb (vs =? 0) then _ else _).
  assert (4 <= len <= 16) by (unfold len, GRE_MINLEN; repeat case_match; lia).
  destruct (get_bytes_in gre 0 len) as (src&E); [lia..|]. rewrite E, bind_Ok_eq.
  apply put_bytes_in; [lia|]. rewrite (get_bytes_zlen _ _ _ _ E).
  change (zlen _) with 16. lia.
Qed.

Lemma returns_expression_list l :
  Forall (fun e => returns (evaluate e)) l -> returns (evaluate_expression_list evaluate l).
Proof. induction 1; cbn [evaluate_expression_list]; auto with returns_db. Qed.

Lemma returns_binary op lhs rhs :
  returns (evaluate lhs) -> returns (evaluate rhs) ->
  returns (evaluate_binary_expression evaluate op lhs rhs).
Proof.
  intros Hl Hr. unfold evaluate_binary_expression. apply returns_bind; [done|]. intros l _.
  apply returns_bind; [done|]. intros r _. case_match; [|case_match; auto with returns_db].
  destruct l; auto with returns_db. destruct r; auto with returns_db.
Qed.

Lemma returns_epollev events ptr fd u32 u64 :
  Forall (fun e => returns (evaluate e)) (subs (EXPR_EPOLLEV events ptr fd u32 u64)) ->
  returns (evaluate_epollev_expression evaluate events ptr fd u32 u64).
Proof.
  intros HF. cbn in HF. apply Forall_cons in HF as [He HF]. apply returns_bind; [done|].
  intros ev _. destruct ptr; [|destruct fd; [|destruct u32; [|destruct u64]]]; cbn in HF;
    try (apply Forall_cons in HF as [? _]); auto with returns_db. by eexists.
Qed.

(** Evaluation is total: on every tree whose GRE headers are of the supported kind,
    [evaluate] returns a tree or an error; no assertion fails, nothing outside a buffer
    is touched and no NULL member is followed. *)
Theorem evaluate_total e : all_nodes gre_supported e -> exists r, evaluate e = Ok r.
Proof.
  induction e as [e IH] using expression_subs_ind. intros [Hg Hs]%all_nodes_inv.
  change (returns (evaluate e)).
  assert (Forall (fun e => returns (evaluate e)) (subs e)) as HF.
  { eapply Forall_impl; [exact (proj2 (Forall_and _ _) (conj IH Hs))|]. naive_solver. }
  clear IH Hs. destruct e; cbn [evaluate];
    try (apply returns_epollev; done); cbn [subs] in HF;
    repeat match goal with H : Forall _ (_ :: _) |- _ => apply Forall_cons in H as [? H] end;
    auto using returns_ret, returns_binary.
  - destruct (symbol_to_int str); by eexists.
  - destruct (unescape_in_bounds buf) as (r&E&_).
    apply returns_bind; [by eexists|auto with returns_db].
  - destruct (copy_gre_supported gre Hg) as (out&E).
    apply returns_bind; [by eapply returns_eval_lift|auto with returns_db].
  - apply returns_bind; [by apply returns_expression_list|auto with returns_db].
  - unfold evaluate_iovec_expression. auto with returns_db.
  - unfold evaluate_msghdr_expression. auto 10 with returns_db.
  - unfold evaluate_cmsg_expression. auto with returns_db.
  - unfold evaluate_pollfd_expression. auto with returns_db.
  - unfold evaluate_sock_extended_err. auto 10 with returns_db.
Qed.

Lemma evaluate_total_witness : exists r,
  evaluate (EXPR_LIST [EXPR_GRE (32 :: replicate 15 0); EXPR_WORD "NO_SUCH_SYMBOL"]) = Ok r.
Proof.
  apply evaluate_total. apply all_nodes_intro; [reflexivity|].
  repeat (apply Forall_cons_2 || apply Forall_nil_2);
    (apply all_nodes_intro; [vm_compute; reflexivity|apply Forall_nil_2]).
Defined.

(** ** Flags *)

(** The bits of a flag word, as flags_to_string walks over them. *)
Definition flag_bits (n : nat) (i flags : Z) : list Z :=
  filter (fun b => Z.testbit flags b = true) (seqZ i (Z.of_nat n)).

(** The names of the flags of a word joined with [|], and the expression the parser
    builds from that text. *)
Definition or_words (first : string) (rest : list string) : expression :=
  foldl (fun e w => EXPR_BINARY "|" e (EXPR_WORD w)) (EXPR_WORD first) rest.

Lemma land_pow2 a i : 0 <= i -> Z.land a (2 ^ i) = if Z.testbit a i then 2 ^ i else 0.
Proof.
  intros Hi. apply Z.bits_inj'. intros j Hj. rewrite Z.land_spec, Z.pow2_bits_eqb by lia.
  destruct (Z.eqb_spec i j) as [<- |]; destruct (Z.testbit a i) eqn:E;
    rewrite ?Z.pow2_bits_eqb, ?Z.bits_0, ?andb_false_r, ?andb_true_r, ?E by lia; try done.
  - by rewrite Z.eqb_refl.
  - symmetry. by apply Z.eqb_neq.
Qed.

Lemma flag_bits_S n i flags :
  flag_bits (S n) i flags =
  (if Z.testbit flags i then [i] else []) ++ flag_bits n (i + 1) flags.
Proof.
  unfold flag_bits. rewrite seqZ_cons, filter_cons by lia.
  replace (Z.pred (Z.of_nat (S n))) with (Z.of_nat n) by lia. rewrite <-Z.add_1_r.
  destruct (decide (Z.testbit flags i = true)) as [-> | H]; [done|].
  by destruct (Z.testbit flags i).
Qed.

Lemma string_app_assoc (a b c : string) : (a +:+ b) +:+ c = a +:+ b +:+ c.
Proof. induction a as [|x a IH]; [done|]. exact (f_equal (String x) IH). Qed.

(** Joining with a separator, one name added at the end. *)
Lemma concat_snoc l x : Forall (fun s => s <> ""%string) l ->
  String.concat "|" (l ++ [x]) =
  String.concat "|" l +:+ (if bool_decide (String.concat "|" l = "") then "" else "|") +:+ x.
Proof.
  induction 1 as [|s [|s' l] Hs Hl IH]; [done| |].
  - cbn [app String.concat]. rewrite bool_decide_eq_false_2; done.
  - change (String.concat "|" ((s :: s' :: l) ++ [x]))
      with (s +:+ "|" +:+ String.concat "|" ((s' :: l) ++ [x])). rewrite IH.
    change (String.concat "|" (s :: s' :: l)) with (s +:+ "|" +:+ String.concat "|" (s' :: l)).
    inversion Hl; subst. rewrite !bool_decide_eq_false_2.
    + by rewrite !string_app_assoc.
    + by destruct s.
    + destruct s'; [done|]. by destruct l.
Qed.

(** flags_to_string over a table that names every bit of the word. *)
Lemma flags_loop_spec nm table flags n : forall i acc,
  (forall b, 0 <= b < 64 -> Z.testbit flags b = true ->
    flag_name table (2 ^ b) = Ok (nm b) /\ nm b <> ""%string) ->
  Forall (fun s => s <> ""%string) acc -> 0 <= i -> i + Z.of_nat n = 64 ->
  flags_loop n table flags (u64 (2 ^ i)) (String.concat "|" acc) =
    Ok (String.concat "|" (acc ++ (nm <$> flag_bits n i flags))).
Proof.
  induction n as [|n IH]; intros i acc Hnm Hacc Hi Hn.
  { cbn. by rewrite app_nil_r. }
  cbn [flags_loop]. assert (u64 (2 ^ i) = 2 ^ i) as E.
  { apply u64_small. split; [lia|]. change 18446744073709551616 with (2 ^ 64).
    apply Z.pow_lt_mono_r; lia. }
  rewrite E, Z.shiftl_mul_pow2, <-Z.pow_add_r, land_pow2, flag_bits_S by lia.
  destruct (Z.testbit flags i) eqn:Et.
  - destruct (Hnm i) as [-> Hne]; [lia|done|].
    destruct (Z.eqb_spec (2 ^ i) 0) as [H|H]; [pose proof (Z.pow_pos_nonneg 2 i); lia|].
    cbn [negb]. rewrite !bind_Ok_eq, <-concat_snoc by done.
    rewrite IH; [|done|apply Forall_app_2; [done|by constructor]|lia..].
    by rewrite <-app_assoc.
  - cbn [negb Z.eqb]. rewrite bind_Ok_eq. apply IH; (done || lia).
Qed.

(** A word of flags is the bit-wise or of its bits. *)
Lemma lor_flag_bits n : forall i flags acc, 0 <= i ->
  foldl (fun a b => Z.lor a (2 ^ b)) acc (flag_bits n i flags) =
  Z.lor acc (Z.land flags (Z.shiftl (Z.ones (Z.of_nat n)) i)).
Proof.
  induction n as [|n IH]; intros i flags acc Hi.
  { cbn. by rewrite Z.shiftl_0_l, Z.land_0_r, Z.lor_0_r. }
  rewrite flag_bits_S, foldl_app, IH by lia.
  replace (Z.shiftl (Z.ones (Z.of_nat (S n))) i)
    with (Z.lor (2 ^ i) (Z.shiftl (Z.ones (Z.of_nat n)) (i + 1))).
  - rewrite Z.land_lor_distr_r, land_pow2, Z.lor_assoc by lia.
    destruct (Z.testbit flags i); cbn; by rewrite ?Z.lor_0_r.
  - apply Z.bits_inj'. intros j Hj. rewrite Z.lor_spec, Z.pow2_bits_eqb by lia.
    rewrite !Z.shiftl_spec, !Z.testbit_ones by lia.
    destruct (Z.eqb_spec i j), (Z.leb_spec 0 (j - (i + 1))), (Z.leb_spec 0 (j - i)),
      (Z.ltb_spec (j - (i + 1)) (Z.of_nat n)), (Z.ltb_spec (j - i) (Z.of_nat (S n)));
      cbn; (done || lia).
Qed.

Lemma evaluate_or_words nm bs : forall e v,
  Forall (fun b => symbol_to_int (nm b) = Done (2 ^ b)) bs ->
  evaluate e = Ok (Done (EXPR_INTEGER v)) ->
  evaluate (foldl (fun e w => EXPR_BINARY "|" e (EXPR_WORD w)) e (nm <$> bs)) =
    Ok (Done (EXPR_INTEGER (foldl (fun a b => Z.lor a (2 ^ b)) v bs))).
Proof.
  induction bs as [|b bs IH]; intros e v Hbs He; [done|].
  inversion Hbs; subst. cbn [fmap list_fmap foldl]. apply IH; [done|].
  cbn [evaluate]. unfold evaluate_binary_expression. rewrite He. cbn [evaluate].
  by rewrite H1.
Qed.

(** The flags poll_flags has names for, and their names. *)
Definition POLL_NAMED : Z := 0x37ff.
Definition poll_name (b : Z) : string :=
  match flag_name poll_flags (2 ^ b) with Ok name => name | Fault _ => "" end.

Lemma poll_named_bits b : 0 <= b -> Z.testbit POLL_NAMED b = true ->
  flag_name poll_flags (2 ^ b) = Ok (poll_name b) /\ poll_name b <> ""%string /\
  symbol_to_int (poll_name b) = Done (2 ^ b).
Proof.
  intros Hb Ht. destruct (Z.ltb_spec b 14).
  2:{ rewrite (testbit_above POLL_NAMED 14) in Ht; [discriminate|lia|vm_compute; done|lia]. }
  assert (b = 0 \/ b = 1 \/ b = 2 \/ b = 3 \/ b = 4 \/ b = 5 \/ b = 6 \/ b = 7 \/ b = 8 \/ b = 9 \/
    b = 10 \/ b = 11 \/ b = 12 \/ b = 13) as Hc by lia.
  repeat destruct Hc as [-> | Hc]; subst; try discriminate Ht;
    (split_and!; [vm_compute; reflexivity|vm_compute; discriminate|vm_compute; reflexivity]).
Qed.

(** Round trip of poll flags: of a word made of flags the table names,
    flags_to_string gives the names joined with [|], and the expression the parser
    builds from that text evaluates back to the word. *)
Theorem poll_flags_roundtrip flags :
  0 < flags -> Z.land flags POLL_NAMED = flags ->
  exists first rest,
    flags_to_string poll_flags flags = Ok (String.concat "|" (first :: rest)) /\
    evaluate (or_words first rest) = Ok (Done (EXPR_INTEGER flags)).
Proof.
  intros Hpos Hm.
  assert (forall b, 0 <= b -> Z.testbit flags b = true -> Z.testbit POLL_NAMED b = true) as Hbit.
  { intros b Hb Ht. rewrite <-Hm, Z.land_spec in Ht. by apply andb_prop in Ht as [_ ?]. }
  assert (flags < 2 ^ 14) as Hlt.
  { rewrite <-Hm, <-(Z.mod_small POLL_NAMED (2 ^ 14)), <-(Z.land_ones POLL_NAMED 14),
      Z.land_assoc, Z.land_ones by (vm_compute; done). apply Z.mod_pos_bound. lia. }
  assert (u64 flags = flags) as Eu by (apply u64_small; lia).
  pose proof (flags_loop_spec poll_name poll_flags flags 64 0 [] ) as HL.
  pose proof (lor_flag_bits 64 0 flags 0 ltac:(lia)) as HO.
  rewrite Z.shiftl_0_r, Z.land_ones, Z.mod_small, Z.lor_0_l in HO by lia.
  assert (Forall (fun b => symbol_to_int (poll_name b) = Done (2 ^ b)) (flag_bits 64 0 flags)) as HS.
  { apply Forall_forall. intros b [Ht Hb%elem_of_seqZ]%list_elem_of_filter.
    apply poll_named_bits; [lia|]. apply Hbit; [lia|done]. }
  destruct (flag_bits 64 0 flags) as [|b0 bs]; [cbn in HO; lia|].
  exists (poll_name b0), (poll_name <$> bs). split.
  - unfold flags_to_string. rewrite Eu. apply HL; [|constructor|lia..].
    intros b Hb Ht. destruct (poll_named_bits b) as (?&?&?); [lia|apply Hbit; (lia || done)|done].
  - apply Forall_cons in HS as [HS0 HS]. unfold or_words.
    erewrite (evaluate_or_words poll_name bs); [|done|cbn [evaluate]; by rewrite HS0].
    cbn [foldl] in HO. rewrite Z.lor_0_l in HO. by rewrite HO.
Qed.

Lemma poll_flags_roundtrip_witness :
  exists first rest,
    flags_to_string poll_flags 0x2019 = Ok (String.concat "|" (first :: rest)) /\
    evaluate (or_words first rest) = Ok (Done (EXPR_INTEGER 0x2019)).
Proof. apply poll_flags_roundtrip; vm_compute; reflexivity. Defined.

Lemma poll_unnamed_bit b : 0 <= b < 64 -> Z.testbit POLL_NAMED b = false ->
  flag_name poll_flags (2 ^ b) = Fault OutOfBounds.
Proof.
  intros Hb Ht. assert (forallb (fun n => let b := Z.of_nat n in Z.testbit POLL_NAMED b ||
    bool_decide (flag_name poll_flags (2 ^ b) = Fault OutOfBounds)) (seq 0 64) = true) as H
    by (vm_compute; reflexivity).
  rewrite forallb_forall in H. specialize (H (Z.to_nat b)).
  rewrite Z2Nat.id in H by lia. cbv zeta in H. rewrite Ht in H.
  assert (In (Z.to_nat b) (seq 0 64)) as Hi by (apply in_seq; lia).
  exact (bool_decide_eq_true_1 _ (H Hi)).
Qed.

Lemma flags_loop_overrun flags b n : forall i out,
  0 <= i <= b -> i + Z.of_nat n = 64 -> b < 64 ->
  Z.testbit flags b = true -> Z.testbit POLL_NAMED b = false ->
  flags_loop n poll_flags flags (u64 (2 ^ i)) out = Fault OutOfBounds.
Proof.
  induction n as [|n IH]; intros i out Hi Hn Hb Ht Hu; [lia|].
  cbn [flags_loop]. assert (u64 (2 ^ i) = 2 ^ i) as E.
  { apply u64_small. split; [lia|]. change 18446744073709551616 with (2 ^ 64).
    apply Z.pow_lt_mono_r; lia. }
  rewrite E, Z.shiftl_mul_pow2, <-Z.pow_add_r, land_pow2 by lia.
  destruct (Z.testbit POLL_NAMED i) eqn:Ei.
  - assert (i <> b) by congruence. destruct (poll_named_bits i) as [-> _]; [lia|done|].
    split_guard; rewrite ?bind_Ok_eq; apply IH; (done || lia).
  - rewrite poll_unnamed_bit by (done || lia). destruct (Z.testbit flags i) eqn:Eb.
    + destruct (Z.eqb_spec (2 ^ i) 0) as [H|H]; [pose proof (Z.pow_pos_nonneg 2 i); lia|done].
    + assert (i <> b) by congruence. cbn [Z.eqb negb]. rewrite bind_Ok_eq. apply IH; (done || lia).
Qed.

(** The end of poll_flags is not found: its last entry has an empty name where
    flag_name looks for a NULL one, so that printing a word with any flag the table does
    not name reads past the end of the table. *)
Theorem poll_flags_unnamed_overrun flags b :
  0 <= b < 64 -> Z.testbit flags b = true -> Z.testbit POLL_NAMED b = false ->
  flags_to_string poll_flags flags = Fault OutOfBounds.
Proof.
  intros Hb Ht Hu. apply (flags_loop_overrun (u64 flags) b 64 0); try (done || lia).
  unfold u64. change 18446744073709551616 with (2 ^ 64). by rewrite Z.mod_pow2_bits_low by lia.
Qed.

Lemma poll_flags_unnamed_overrun_witness :
  flags_to_string poll_flags 0x800 = Fault OutOfBounds.
Proof.
  apply (poll_flags_unnamed_overrun 0x800 11); [lia|vm_compute; reflexivity|vm_compute; reflexivity].
Defined.

(** The symbol tables agree with themselves: every entry of both tables is what
    looking up its name gives, so that the names listed twice (F_GETLK, MSG_CTRUNC and
    others) have one meaning and no platform symbol is hidden by a cross-platform one
    of another value. *)
Theorem symbol_tables_consistent sym :
  In sym (cross_platform_symbols ++ platform_symbols) ->
  symbol_to_int (sym_name sym) = Done (sym_value sym).
Proof.
  assert (forallb (fun sym => match symbol_to_int (sym_name sym) with
    | Done v => v =? sym_value sym | Err _ => false end)
    (cross_platform_symbols ++ platform_symbols) = true) as H by (vm_compute; reflexivity).
  intros Hi. rewrite forallb_forall in H. specialize (H sym Hi).
  destruct (symbol_to_int (sym_name sym)) as [v|]; [|discriminate].
  by apply Z.eqb_eq in H as ->.
Qed.

Lemma symbol_tables_consistent_witness : symbol_to_int "F_GETLK" = Done 5.
Proof.
  apply (symbol_tables_consistent (mk_symbol 5 "F_GETLK")).
  assert (existsb (fun s => bool_decide (s = mk_symbol 5 "F_GETLK"))
    (cross_platform_symbols ++ platform_symbols) = true) as H by (vm_compute; reflexivity).
  apply existsb_exists in H as (s&Hs&E). apply bool_decide_eq_true in E as ->. exact Hs.
Defined.
