(* ===== verification/SymbolsBsd.v ===== *)
(** * SymbolsBsd: the symbol tables of the BSD systems (symbols_netbsd.c, symbols_freebsd.c,
    symbols_openbsd.c)

    The tables that take the place of the one of Symbols.v on NetBSD, FreeBSD and OpenBSD, in
    the order of the source, one list per paragraph.  The values are those of the macros in
    the headers of the system, a function [header] from the name of a macro.  The theorem:
    the lookup of script.c finds for each name of a table the macro of that name. *)

From S2P Require Import Prelude Symbols Script.

Section Bsd.
Context (header : string -> Z).

(** An entry of a table: a macro, and the name in scripts. *)
Definition entry (macro name : string) : int_symbol := mk_symbol (header macro) name.

(** [symbols_netbsd.c:49-71] platform_symbols_table of netbsd: from SO_DEBUG on *)
Definition netbsd_SO_DEBUG : list int_symbol := [
  entry "SO_DEBUG" "SO_DEBUG"; entry "SO_ACCEPTCONN" "SO_ACCEPTCONN";
  entry "SO_REUSEADDR" "SO_REUSEADDR"; entry "SO_KEEPALIVE" "SO_KEEPALIVE";
  entry "SO_DONTROUTE" "SO_DONTROUTE"; entry "SO_BROADCAST" "SO_BROADCAST";
  entry "SO_USELOOPBACK" "SO_USELOOPBACK"; entry "SO_LINGER" "SO_LINGER";
  entry "SO_OOBINLINE" "SO_OOBINLINE"; entry "SO_REUSEPORT" "SO_REUSEPORT";
  entry "SO_NOSIGPIPE" "SO_NOSIGPIPE"; entry "SO_ACCEPTFILTER" "SO_ACCEPTFILTER";
  entry "SO_TIMESTAMP" "SO_TIMESTAMP"; entry "SO_SNDBUF" "SO_SNDBUF"; entry "SO_RCVBUF" "SO_RCVBUF";
  entry "SO_SNDLOWAT" "SO_SNDLOWAT"; entry "SO_RCVLOWAT" "SO_RCVLOWAT"; entry "SO_ERROR" "SO_ERROR";
  entry "SO_TYPE" "SO_TYPE"; entry "SO_OVERFLOWED" "SO_OVERFLOWED"; entry "SO_NOHEADER" "SO_NOHEADER";
  entry "SO_SNDTIMEO" "SO_SNDTIMEO"; entry "SO_RCVTIMEO" "SO_RCVTIMEO"
].

(** [symbols_netbsd.c:74-81] platform_symbols_table of netbsd: from TCP_NODELAY on *)
Definition netbsd_TCP_NODELAY : list int_symbol := [
  entry "TCP_NODELAY" "TCP_NODELAY"; entry "TCP_MAXSEG" "TCP_MAXSEG";
  entry "TCP_KEEPIDLE" "TCP_KEEPIDLE"; entry "TCP_KEEPINTVL" "TCP_KEEPINTVL";
  entry "TCP_KEEPCNT" "TCP_KEEPCNT"; entry "TCP_KEEPINIT" "TCP_KEEPINIT";
  entry "TCP_MD5SIG" "TCP_MD5SIG"; entry "TCP_CONGCTL" "TCP_CONGCTL"
].

(** [symbols_netbsd.c:84-153] platform_symbols_table of netbsd: from O_RDONLY on *)
Definition netbsd_O_RDONLY : list int_symbol := [
  entry "O_RDONLY" "O_RDONLY"; entry "O_WRONLY" "O_WRONLY"; entry "O_RDWR" "O_RDWR";
  entry "O_ACCMODE" "O_ACCMODE"; entry "FREAD" "FREAD"; entry "FWRITE" "FWRITE";
  entry "O_NONBLOCK" "O_NONBLOCK"; entry "O_APPEND" "O_APPEND"; entry "O_SHLOCK" "O_SHLOCK";
  entry "O_EXLOCK" "O_EXLOCK"; entry "O_ASYNC" "O_ASYNC"; entry "O_SYNC" "O_SYNC";
  entry "O_NOFOLLOW" "O_NOFOLLOW"; entry "O_CREAT" "O_CREAT"; entry "O_TRUNC" "O_TRUNC";
  entry "O_EXCL" "O_EXCL"; entry "O_NOCTTY" "O_NOCTTY"; entry "O_DSYNC" "O_DSYNC";
  entry "O_RSYNC" "O_RSYNC"; entry "O_ALT_IO" "O_ALT_IO"; entry "O_DIRECT" "O_DIRECT";
  entry "O_DIRECTORY" "O_DIRECTORY"; entry "O_CLOEXEC" "O_CLOEXEC"; entry "O_NOSIGPIPE" "O_NOSIGPIPE";
  entry "FAPPEND" "FAPPEND"; entry "FASYNC" "FASYNC"; entry "O_FSYNC" "O_FSYNC";
  entry "FNDELAY" "FNDELAY"; entry "O_NDELAY" "O_NDELAY"; entry "F_DUPFD" "F_DUPFD";
  entry "F_GETFD" "F_GETFD"; entry "F_SETFD" "F_SETFD"; entry "F_GETFL" "F_GETFL";
  entry "F_SETFL" "F_SETFL"; entry "F_GETOWN" "F_GETOWN"; entry "F_SETOWN" "F_SETOWN";
  entry "F_GETLK" "F_GETLK"; entry "F_SETLK" "F_SETLK"; entry "F_SETLKW" "F_SETLKW";
  entry "F_CLOSEM" "F_CLOSEM"; entry "F_MAXFD" "F_MAXFD"; entry "F_DUPFD_CLOEXEC" "F_DUPFD_CLOEXEC";
  entry "F_GETNOSIGPIPE" "F_GETNOSIGPIPE"; entry "F_SETNOSIGPIPE" "F_SETNOSIGPIPE";
  entry "FD_CLOEXEC" "FD_CLOEXEC"; entry "F_RDLCK" "F_RDLCK"; entry "F_UNLCK" "F_UNLCK";
  entry "F_WRLCK" "F_WRLCK"; entry "F_PARAM_MASK" "F_PARAM_MASK"; entry "F_PARAM_MAX" "F_PARAM_MAX";
  entry "F_FSCTL" "F_FSCTL"; entry "F_FSVOID" "F_FSVOID"; entry "F_FSOUT" "F_FSOUT";
  entry "F_FSIN" "F_FSIN"; entry "F_FSINOUT" "F_FSINOUT"; entry "F_FSDIRMASK" "F_FSDIRMASK";
  entry "F_FSPRIV" "F_FSPRIV"; entry "LOCK_SH" "LOCK_SH"; entry "LOCK_EX" "LOCK_EX";
  entry "LOCK_NB" "LOCK_NB"; entry "LOCK_UN" "LOCK_UN"; entry "SEEK_SET" "SEEK_SET";
  entry "SEEK_CUR" "SEEK_CUR"; entry "SEEK_END" "SEEK_END";
  entry "POSIX_FADV_NORMAL" "POSIX_FADV_NORMAL"; entry "POSIX_FADV_RANDOM" "POSIX_FADV_RANDOM";
  entry "POSIX_FADV_SEQUENTIAL" "POSIX_FADV_SEQUENTIAL";
  entry "POSIX_FADV_WILLNEED" "POSIX_FADV_WILLNEED"; entry "POSIX_FADV_DONTNEED" "POSIX_FADV_DONTNEED";
  entry "POSIX_FADV_NOREUSE" "POSIX_FADV_NOREUSE"
].

(** [symbols_netbsd.c:156-168] platform_symbols_table of netbsd: from F_OK on *)
Definition netbsd_F_OK : list int_symbol := [
  entry "F_OK" "F_OK"; entry "X_OK" "X_OK"; entry "W_OK" "W_OK"; entry "R_OK" "R_OK";
  entry "SEEK_SET" "SEEK_SET"; entry "SEEK_CUR" "SEEK_CUR"; entry "SEEK_END" "SEEK_END";
  entry "L_SET" "L_SET"; entry "L_INCR" "L_INCR"; entry "L_XTND" "L_XTND";
  entry "FDATASYNC" "FDATASYNC"; entry "FFILESYNC" "FFILESYNC"; entry "FDISKSYNC" "FDISKSYNC"
].

(** [symbols_netbsd.c:171-183] platform_symbols_table of netbsd: from MSG_OOB on *)
Definition netbsd_MSG_OOB : list int_symbol := [
  entry "MSG_OOB" "MSG_OOB"; entry "MSG_PEEK" "MSG_PEEK"; entry "MSG_DONTROUTE" "MSG_DONTROUTE";
  entry "MSG_EOR" "MSG_EOR"; entry "MSG_TRUNC" "MSG_TRUNC"; entry "MSG_CTRUNC" "MSG_CTRUNC";
  entry "MSG_WAITALL" "MSG_WAITALL"; entry "MSG_DONTWAIT" "MSG_DONTWAIT"; entry "MSG_BCAST" "MSG_BCAST";
  entry "MSG_MCAST" "MSG_MCAST"; entry "MSG_NOSIGNAL" "MSG_NOSIGNAL";
  entry "MSG_CMSG_CLOEXEC" "MSG_CMSG_CLOEXEC"; entry "MSG_NBIO" "MSG_NBIO"
].

(** [symbols_netbsd.c:186-196] platform_symbols_table of netbsd: from FIOCLEX on *)
Definition netbsd_FIOCLEX : list int_symbol := [
  entry "FIOCLEX" "FIOCLEX"; entry "FIONCLEX" "FIONCLEX"; entry "FIONREAD" "FIONREAD";
  entry "FIONBIO" "FIONBIO"; entry "FIOASYNC" "FIOASYNC"; entry "FIOSETOWN" "FIOSETOWN";
  entry "FIOGETOWN" "FIOGETOWN"; entry "FIOGETBMAP" "FIOGETBMAP"; entry "FIONWRITE" "FIONWRITE";
  entry "FIONSPACE" "FIONSPACE"; entry "FIBMAP" "FIBMAP"
].

(** [symbols_netbsd.c:199-208] platform_symbols_table of netbsd: from POLLIN on *)
Definition netbsd_POLLIN : list int_symbol := [
  entry "POLLIN" "POLLIN"; entry "POLLPRI" "POLLPRI"; entry "POLLOUT" "POLLOUT";
  entry "POLLRDNORM" "POLLRDNORM"; entry "POLLWRNORM" "POLLWRNORM"; entry "POLLRDBAND" "POLLRDBAND";
  entry "POLLWRBAND" "POLLWRBAND"; entry "POLLERR" "POLLERR"; entry "POLLHUP" "POLLHUP";
  entry "POLLNVAL" "POLLNVAL"
].

(** [symbols_netbsd.c:211-308] platform_symbols_table of netbsd: from EPERM on *)
Definition netbsd_EPERM : list int_symbol := [
  entry "EPERM" "EPERM"; entry "ENOENT" "ENOENT"; entry "ESRCH" "ESRCH"; entry "EINTR" "EINTR";
  entry "EIO" "EIO"; entry "ENXIO" "ENXIO"; entry "E2BIG" "E2BIG"; entry "ENOEXEC" "ENOEXEC";
  entry "EBADF" "EBADF"; entry "ECHILD" "ECHILD"; entry "EDEADLK" "EDEADLK"; entry "ENOMEM" "ENOMEM";
  entry "EACCES" "EACCES"; entry "EFAULT" "EFAULT"; entry "ENOTBLK" "ENOTBLK"; entry "EBUSY" "EBUSY";
  entry "EEXIST" "EEXIST"; entry "EXDEV" "EXDEV"; entry "ENODEV" "ENODEV"; entry "ENOTDIR" "ENOTDIR";
  entry "EISDIR" "EISDIR"; entry "EINVAL" "EINVAL"; entry "ENFILE" "ENFILE"; entry "EMFILE" "EMFILE";
  entry "ENOTTY" "ENOTTY"; entry "ETXTBSY" "ETXTBSY"; entry "EFBIG" "EFBIG"; entry "ENOSPC" "ENOSPC";
  entry "ESPIPE" "ESPIPE"; entry "EROFS" "EROFS"; entry "EMLINK" "EMLINK"; entry "EPIPE" "EPIPE";
  entry "EDOM" "EDOM"; entry "ERANGE" "ERANGE"; entry "EAGAIN" "EAGAIN";
  entry "EWOULDBLOCK" "EWOULDBLOCK"; entry "EINPROGRESS" "EINPROGRESS"; entry "EALREADY" "EALREADY";
  entry "ENOTSOCK" "ENOTSOCK"; entry "EDESTADDRREQ" "EDESTADDRREQ"; entry "EMSGSIZE" "EMSGSIZE";
  entry "EPROTOTYPE" "EPROTOTYPE"; entry "ENOPROTOOPT" "ENOPROTOOPT";
  entry "EPROTONOSUPPORT" "EPROTONOSUPPORT"; entry "ESOCKTNOSUPPORT" "ESOCKTNOSUPPORT";
  entry "EOPNOTSUPP" "EOPNOTSUPP"; entry "EPFNOSUPPORT" "EPFNOSUPPORT";
  entry "EAFNOSUPPORT" "EAFNOSUPPORT"; entry "EADDRINUSE" "EADDRINUSE";
  entry "EADDRNOTAVAIL" "EADDRNOTAVAIL"; entry "ENETDOWN" "ENETDOWN"; entry "ENETUNREACH" "ENETUNREACH";
  entry "ENETRESET" "ENETRESET"; entry "ECONNABORTED" "ECONNABORTED"; entry "ECONNRESET" "ECONNRESET";
  entry "ENOBUFS" "ENOBUFS"; entry "EISCONN" "EISCONN"; entry "ENOTCONN" "ENOTCONN";
  entry "ESHUTDOWN" "ESHUTDOWN"; entry "ETOOMANYREFS" "ETOOMANYREFS"; entry "ETIMEDOUT" "ETIMEDOUT";
  entry "ECONNREFUSED" "ECONNREFUSED"; entry "ELOOP" "ELOOP"; entry "ENAMETOOLONG" "ENAMETOOLONG";
  entry "EHOSTDOWN" "EHOSTDOWN"; entry "EHOSTUNREACH" "EHOSTUNREACH"; entry "ENOTEMPTY" "ENOTEMPTY";
  entry "EPROCLIM" "EPROCLIM"; entry "EUSERS" "EUSERS"; entry "EDQUOT" "EDQUOT";
  entry "ESTALE" "ESTALE"; entry "EREMOTE" "EREMOTE"; entry "EBADRPC" "EBADRPC";
  entry "ERPCMISMATCH" "ERPCMISMATCH"; entry "EPROGUNAVAIL" "EPROGUNAVAIL";
  entry "EPROGMISMATCH" "EPROGMISMATCH"; entry "EPROCUNAVAIL" "EPROCUNAVAIL"; entry "ENOLCK" "ENOLCK";
  entry "ENOSYS" "ENOSYS"; entry "EFTYPE" "EFTYPE"; entry "EAUTH" "EAUTH";
  entry "ENEEDAUTH" "ENEEDAUTH"; entry "EIDRM" "EIDRM"; entry "ENOMSG" "ENOMSG";
  entry "EOVERFLOW" "EOVERFLOW"; entry "EILSEQ" "EILSEQ"; entry "ENOTSUP" "ENOTSUP";
  entry "ECANCELED" "ECANCELED"; entry "EBADMSG" "EBADMSG"; entry "ENODATA" "ENODATA";
  entry "ENOSR" "ENOSR"; entry "ENOSTR" "ENOSTR"; entry "ETIME" "ETIME"; entry "ENOATTR" "ENOATTR";
  entry "EMULTIHOP" "EMULTIHOP"; entry "ENOLINK" "ENOLINK"; entry "EPROTO" "EPROTO";
  entry "ELAST" "ELAST"
].

(** [symbols_netbsd.c:314-317] platform_symbols of netbsd, up to the sentinel *)
Definition netbsd_symbols : list int_symbol :=
  mjoin [netbsd_SO_DEBUG; netbsd_TCP_NODELAY; netbsd_O_RDONLY; netbsd_F_OK; netbsd_MSG_OOB;
    netbsd_FIOCLEX; netbsd_POLLIN; netbsd_EPERM].

(** [symbols_freebsd.c:49-79] platform_symbols_table of freebsd: from SO_DEBUG on *)
Definition freebsd_SO_DEBUG : list int_symbol := [
  entry "SO_DEBUG" "SO_DEBUG"; entry "SO_ACCEPTCONN" "SO_ACCEPTCONN";
  entry "SO_REUSEADDR" "SO_REUSEADDR"; entry "SO_KEEPALIVE" "SO_KEEPALIVE";
  entry "SO_DONTROUTE" "SO_DONTROUTE"; entry "SO_BROADCAST" "SO_BROADCAST";
  entry "SO_USELOOPBACK" "SO_USELOOPBACK"; entry "SO_LINGER" "SO_LINGER";
  entry "SO_OOBINLINE" "SO_OOBINLINE"; entry "SO_REUSEPORT" "SO_REUSEPORT";
  entry "SO_TIMESTAMP" "SO_TIMESTAMP"; entry "SO_NOSIGPIPE" "SO_NOSIGPIPE";
  entry "SO_ACCEPTFILTER" "SO_ACCEPTFILTER"; entry "SO_BINTIME" "SO_BINTIME";
  entry "SO_NO_OFFLOAD" "SO_NO_OFFLOAD"; entry "SO_NO_DDP" "SO_NO_DDP"; entry "SO_SNDBUF" "SO_SNDBUF";
  entry "SO_RCVBUF" "SO_RCVBUF"; entry "SO_SNDLOWAT" "SO_SNDLOWAT"; entry "SO_RCVLOWAT" "SO_RCVLOWAT";
  entry "SO_SNDTIMEO" "SO_SNDTIMEO"; entry "SO_RCVTIMEO" "SO_RCVTIMEO"; entry "SO_ERROR" "SO_ERROR";
  entry "SO_TYPE" "SO_TYPE"; entry "SO_LABEL" "SO_LABEL"; entry "SO_PEERLABEL" "SO_PEERLABEL";
  entry "SO_LISTENQLIMIT" "SO_LISTENQLIMIT"; entry "SO_LISTENQLEN" "SO_LISTENQLEN";
  entry "SO_LISTENINCQLEN" "SO_LISTENINCQLEN"; entry "SO_SETFIB" "SO_SETFIB";
  entry "SO_USER_COOKIE" "SO_USER_COOKIE"
].

(** [symbols_freebsd.c:82-88] platform_symbols_table of freebsd: from TCP_NODELAY on *)
Definition freebsd_TCP_NODELAY : list int_symbol := [
  entry "TCP_NODELAY" "TCP_NODELAY"; entry "TCP_MAXSEG" "TCP_MAXSEG"; entry "TCP_NOPUSH" "TCP_NOPUSH";
  entry "TCP_NOOPT" "TCP_NOOPT"; entry "TCP_MD5SIG" "TCP_MD5SIG"; entry "TCP_INFO" "TCP_INFO";
  entry "TCP_CONGESTION" "TCP_CONGESTION"
].

(** [symbols_freebsd.c:91-152] platform_symbols_table of freebsd: from O_RDONLY on *)
Definition freebsd_O_RDONLY : list int_symbol := [
  entry "O_RDONLY" "O_RDONLY"; entry "O_WRONLY" "O_WRONLY"; entry "O_RDWR" "O_RDWR";
  entry "O_ACCMODE" "O_ACCMODE"; entry "FREAD" "FREAD"; entry "FWRITE" "FWRITE";
  entry "O_NONBLOCK" "O_NONBLOCK"; entry "O_APPEND" "O_APPEND"; entry "O_SHLOCK" "O_SHLOCK";
  entry "O_EXLOCK" "O_EXLOCK"; entry "O_ASYNC" "O_ASYNC"; entry "O_FSYNC" "O_FSYNC";
  entry "O_SYNC" "O_SYNC"; entry "O_NOFOLLOW" "O_NOFOLLOW"; entry "O_CREAT" "O_CREAT";
  entry "O_TRUNC" "O_TRUNC"; entry "O_EXCL" "O_EXCL"; entry "O_NOCTTY" "O_NOCTTY";
  entry "O_DIRECT" "O_DIRECT"; entry "O_DIRECTORY" "O_DIRECTORY"; entry "O_EXEC" "O_EXEC";
  entry "O_TTY_INIT" "O_TTY_INIT"; entry "O_CLOEXEC" "O_CLOEXEC"; entry "FAPPEND" "FAPPEND";
  entry "FASYNC" "FASYNC"; entry "FFSYNC" "FFSYNC"; entry "FNONBLOCK" "FNONBLOCK";
  entry "FNDELAY" "FNDELAY"; entry "O_NDELAY" "O_NDELAY"; entry "FRDAHEAD" "FRDAHEAD";
  entry "AT_FDCWD" "AT_FDCWD"; entry "AT_EACCESS" "AT_EACCESS";
  entry "AT_SYMLINK_NOFOLLOW" "AT_SYMLINK_NOFOLLOW"; entry "AT_SYMLINK_FOLLOW" "AT_SYMLINK_FOLLOW";
  entry "AT_REMOVEDIR" "AT_REMOVEDIR"; entry "F_DUPFD" "F_DUPFD"; entry "F_GETFD" "F_GETFD";
  entry "F_SETFD" "F_SETFD"; entry "F_GETFL" "F_GETFL"; entry "F_SETFL" "F_SETFL";
  entry "F_GETOWN" "F_GETOWN"; entry "F_SETOWN" "F_SETOWN"; entry "F_OGETLK" "F_OGETLK";
  entry "F_OSETLK" "F_OSETLK"; entry "F_OSETLKW" "F_OSETLKW"; entry "F_DUP2FD" "F_DUP2FD";
  entry "F_GETLK" "F_GETLK"; entry "F_SETLK" "F_SETLK"; entry "F_SETLKW" "F_SETLKW";
  entry "F_SETLK_REMOTE" "F_SETLK_REMOTE"; entry "F_READAHEAD" "F_READAHEAD";
  entry "F_RDAHEAD" "F_RDAHEAD"; entry "FD_CLOEXEC" "FD_CLOEXEC"; entry "F_RDLCK" "F_RDLCK";
  entry "F_UNLCK" "F_UNLCK"; entry "F_WRLCK" "F_WRLCK"; entry "F_UNLCKSYS" "F_UNLCKSYS";
  entry "F_CANCEL" "F_CANCEL"; entry "LOCK_SH" "LOCK_SH"; entry "LOCK_EX" "LOCK_EX";
  entry "LOCK_NB" "LOCK_NB"; entry "LOCK_UN" "LOCK_UN"
].

(** [symbols_freebsd.c:155-157] platform_symbols_table of freebsd: from SEEK_SET on *)
Definition freebsd_SEEK_SET : list int_symbol := [
  entry "SEEK_SET" "SEEK_SET"; entry "SEEK_CUR" "SEEK_CUR"; entry "SEEK_END" "SEEK_END"
].

(** [symbols_freebsd.c:160-172] platform_symbols_table of freebsd: from MSG_OOB on *)
Definition freebsd_MSG_OOB : list int_symbol := [
  entry "MSG_OOB" "MSG_OOB"; entry "MSG_PEEK" "MSG_PEEK"; entry "MSG_DONTROUTE" "MSG_DONTROUTE";
  entry "MSG_EOR" "MSG_EOR"; entry "MSG_TRUNC" "MSG_TRUNC"; entry "MSG_CTRUNC" "MSG_CTRUNC";
  entry "MSG_WAITALL" "MSG_WAITALL"; entry "MSG_NOTIFICATION" "MSG_NOTIFICATION";
  entry "MSG_DONTWAIT" "MSG_DONTWAIT"; entry "MSG_EOF" "MSG_EOF"; entry "MSG_NBIO" "MSG_NBIO";
  entry "MSG_COMPAT" "MSG_COMPAT"; entry "MSG_NOSIGNAL" "MSG_NOSIGNAL"
].

(** [symbols_freebsd.c:175-188] platform_symbols_table of freebsd: from FIOCLEX on *)
Definition freebsd_FIOCLEX : list int_symbol := [
  entry "FIOCLEX" "FIOCLEX"; entry "FIONCLEX" "FIONCLEX"; entry "FIONREAD" "FIONREAD";
  entry "FIONBIO" "FIONBIO"; entry "FIOASYNC" "FIOASYNC"; entry "FIOSETOWN" "FIOSETOWN";
  entry "FIOGETOWN" "FIOGETOWN"; entry "FIODTYPE" "FIODTYPE"; entry "FIOGETLBA" "FIOGETLBA";
  entry "FIODGNAME" "FIODGNAME"; entry "FIONWRITE" "FIONWRITE"; entry "FIONSPACE" "FIONSPACE";
  entry "FIOSEEKDATA" "FIOSEEKDATA"; entry "FIOSEEKHOLE" "FIOSEEKHOLE"
].

(** [symbols_freebsd.c:191-201] platform_symbols_table of freebsd: from POLLIN on *)
Definition freebsd_POLLIN : list int_symbol := [
  entry "POLLIN" "POLLIN"; entry "POLLPRI" "POLLPRI"; entry "POLLOUT" "POLLOUT";
  entry "POLLRDNORM" "POLLRDNORM"; entry "POLLWRNORM" "POLLWRNORM"; entry "POLLRDBAND" "POLLRDBAND";
  entry "POLLWRBAND" "POLLWRBAND"; entry "POLLINIGNEOF" "POLLINIGNEOF"; entry "POLLERR" "POLLERR";
  entry "POLLHUP" "POLLHUP"; entry "POLLNVAL" "POLLNVAL"
].

(** [symbols_freebsd.c:204-299] platform_symbols_table of freebsd: from EPERM on *)
Definition freebsd_EPERM : list int_symbol := [
  entry "EPERM" "EPERM"; entry "ENOENT" "ENOENT"; entry "ESRCH" "ESRCH"; entry "EINTR" "EINTR";
  entry "EIO" "EIO"; entry "ENXIO" "ENXIO"; entry "E2BIG" "E2BIG"; entry "ENOEXEC" "ENOEXEC";
  entry "EBADF" "EBADF"; entry "ECHILD" "ECHILD"; entry "EDEADLK" "EDEADLK"; entry "ENOMEM" "ENOMEM";
  entry "EACCES" "EACCES"; entry "EFAULT" "EFAULT"; entry "ENOTBLK" "ENOTBLK"; entry "EBUSY" "EBUSY";
  entry "EEXIST" "EEXIST"; entry "EXDEV" "EXDEV"; entry "ENODEV" "ENODEV"; entry "ENOTDIR" "ENOTDIR";
  entry "EISDIR" "EISDIR"; entry "EINVAL" "EINVAL"; entry "ENFILE" "ENFILE"; entry "EMFILE" "EMFILE";
  entry "ENOTTY" "ENOTTY"; entry "ETXTBSY" "ETXTBSY"; entry "EFBIG" "EFBIG"; entry "ENOSPC" "ENOSPC";
  entry "ESPIPE" "ESPIPE"; entry "EROFS" "EROFS"; entry "EMLINK" "EMLINK"; entry "EPIPE" "EPIPE";
  entry "EDOM" "EDOM"; entry "ERANGE" "ERANGE"; entry "EAGAIN" "EAGAIN";
  entry "EWOULDBLOCK" "EWOULDBLOCK"; entry "EINPROGRESS" "EINPROGRESS"; entry "EALREADY" "EALREADY";
  entry "ENOTSOCK" "ENOTSOCK"; entry "EDESTADDRREQ" "EDESTADDRREQ"; entry "EMSGSIZE" "EMSGSIZE";
  entry "EPROTOTYPE" "EPROTOTYPE"; entry "ENOPROTOOPT" "ENOPROTOOPT";
  entry "EPROTONOSUPPORT" "EPROTONOSUPPORT"; entry "ESOCKTNOSUPPORT" "ESOCKTNOSUPPORT";
  entry "EOPNOTSUPP" "EOPNOTSUPP"; entry "ENOTSUP" "ENOTSUP"; entry "EPFNOSUPPORT" "EPFNOSUPPORT";
  entry "EAFNOSUPPORT" "EAFNOSUPPORT"; entry "EADDRINUSE" "EADDRINUSE";
  entry "EADDRNOTAVAIL" "EADDRNOTAVAIL"; entry "ENETDOWN" "ENETDOWN"; entry "ENETUNREACH" "ENETUNREACH";
  entry "ENETRESET" "ENETRESET"; entry "ECONNABORTED" "ECONNABORTED"; entry "ECONNRESET" "ECONNRESET";
  entry "ENOBUFS" "ENOBUFS"; entry "EISCONN" "EISCONN"; entry "ENOTCONN" "ENOTCONN";
  entry "ESHUTDOWN" "ESHUTDOWN"; entry "ETOOMANYREFS" "ETOOMANYREFS"; entry "ETIMEDOUT" "ETIMEDOUT";
  entry "ECONNREFUSED" "ECONNREFUSED"; entry "ELOOP" "ELOOP"; entry "ENAMETOOLONG" "ENAMETOOLONG";
  entry "EHOSTDOWN" "EHOSTDOWN"; entry "EHOSTUNREACH" "EHOSTUNREACH"; entry "ENOTEMPTY" "ENOTEMPTY";
  entry "EPROCLIM" "EPROCLIM"; entry "EUSERS" "EUSERS"; entry "EDQUOT" "EDQUOT";
  entry "ESTALE" "ESTALE"; entry "EREMOTE" "EREMOTE"; entry "EBADRPC" "EBADRPC";
  entry "ERPCMISMATCH" "ERPCMISMATCH"; entry "EPROGUNAVAIL" "EPROGUNAVAIL";
  entry "EPROGMISMATCH" "EPROGMISMATCH"; entry "EPROCUNAVAIL" "EPROCUNAVAIL"; entry "ENOLCK" "ENOLCK";
  entry "ENOSYS" "ENOSYS"; entry "EFTYPE" "EFTYPE"; entry "EAUTH" "EAUTH";
  entry "ENEEDAUTH" "ENEEDAUTH"; entry "EIDRM" "EIDRM"; entry "ENOMSG" "ENOMSG";
  entry "EOVERFLOW" "EOVERFLOW"; entry "ECANCELED" "ECANCELED"; entry "EILSEQ" "EILSEQ";
  entry "ENOATTR" "ENOATTR"; entry "EDOOFUS" "EDOOFUS"; entry "EBADMSG" "EBADMSG";
  entry "EMULTIHOP" "EMULTIHOP"; entry "ENOLINK" "ENOLINK"; entry "EPROTO" "EPROTO";
  entry "ENOTCAPABLE" "ENOTCAPABLE"; entry "ECAPMODE" "ECAPMODE"
].

(** [symbols_freebsd.c:305-308] platform_symbols of freebsd, up to the sentinel *)
Definition freebsd_symbols : list int_symbol :=
  mjoin [freebsd_SO_DEBUG; freebsd_TCP_NODELAY; freebsd_O_RDONLY; freebsd_SEEK_SET; freebsd_MSG_OOB;
    freebsd_FIOCLEX; freebsd_POLLIN; freebsd_EPERM].

(** [symbols_openbsd.c:49-72] platform_symbols_table of openbsd: from SO_DEBUG on *)
Definition openbsd_SO_DEBUG : list int_symbol := [
  entry "SO_DEBUG" "SO_DEBUG"; entry "SO_ACCEPTCONN" "SO_ACCEPTCONN";
  entry "SO_REUSEADDR" "SO_REUSEADDR"; entry "SO_KEEPALIVE" "SO_KEEPALIVE";
  entry "SO_DONTROUTE" "SO_DONTROUTE"; entry "SO_BROADCAST" "SO_BROADCAST";
  entry "SO_USELOOPBACK" "SO_USELOOPBACK"; entry "SO_LINGER" "SO_LINGER";
  entry "SO_OOBINLINE" "SO_OOBINLINE"; entry "SO_REUSEPORT" "SO_REUSEPORT";
  entry "SO_TIMESTAMP" "SO_TIMESTAMP"; entry "SO_BINDANY" "SO_BINDANY"; entry "SO_SNDBUF" "SO_SNDBUF";
  entry "SO_RCVBUF" "SO_RCVBUF"; entry "SO_SNDLOWAT" "SO_SNDLOWAT"; entry "SO_RCVLOWAT" "SO_RCVLOWAT";
  entry "SO_SNDTIMEO" "SO_SNDTIMEO"; entry "SO_RCVTIMEO" "SO_RCVTIMEO"; entry "SO_ERROR" "SO_ERROR";
  entry "SO_TYPE" "SO_TYPE"; entry "SO_NETPROC" "SO_NETPROC"; entry "SO_RTABLE" "SO_RTABLE";
  entry "SO_PEERCRED" "SO_PEERCRED"; entry "SO_SPLICE" "SO_SPLICE"
].

(** [symbols_openbsd.c:75-78] platform_symbols_table of openbsd: from TCP_NODELAY on *)
Definition openbsd_TCP_NODELAY : list int_symbol := [
  entry "TCP_NODELAY" "TCP_NODELAY"; entry "TCP_MAXSEG" "TCP_MAXSEG"; entry "TCP_MD5SIG" "TCP_MD5SIG";
  entry "TCP_SACK_ENABLE" "TCP_SACK_ENABLE"
].

(** [symbols_openbsd.c:81-132] platform_symbols_table of openbsd: from O_RDONLY on *)
Definition openbsd_O_RDONLY : list int_symbol := [
  entry "O_RDONLY" "O_RDONLY"; entry "O_WRONLY" "O_WRONLY"; entry "O_RDWR" "O_RDWR";
  entry "O_ACCMODE" "O_ACCMODE"; entry "FREAD" "FREAD"; entry "FWRITE" "FWRITE";
  entry "O_NONBLOCK" "O_NONBLOCK"; entry "O_APPEND" "O_APPEND"; entry "O_SHLOCK" "O_SHLOCK";
  entry "O_EXLOCK" "O_EXLOCK"; entry "O_ASYNC" "O_ASYNC"; entry "O_FSYNC" "O_FSYNC";
  entry "O_NOFOLLOW" "O_NOFOLLOW"; entry "O_SYNC" "O_SYNC"; entry "O_CREAT" "O_CREAT";
  entry "O_TRUNC" "O_TRUNC"; entry "O_EXCL" "O_EXCL"; entry "O_DSYNC" "O_DSYNC";
  entry "O_RSYNC" "O_RSYNC"; entry "O_NOCTTY" "O_NOCTTY"; entry "O_CLOEXEC" "O_CLOEXEC";
  entry "O_DIRECTORY" "O_DIRECTORY"; entry "FAPPEND" "FAPPEND"; entry "FASYNC" "FASYNC";
  entry "FFSYNC" "FFSYNC"; entry "FNONBLOCK" "FNONBLOCK"; entry "FNDELAY" "FNDELAY";
  entry "O_NDELAY" "O_NDELAY"; entry "F_DUPFD" "F_DUPFD"; entry "F_GETFD" "F_GETFD";
  entry "F_SETFD" "F_SETFD"; entry "F_GETFL" "F_GETFL"; entry "F_SETFL" "F_SETFL";
  entry "F_GETOWN" "F_GETOWN"; entry "F_SETOWN" "F_SETOWN"; entry "F_GETLK" "F_GETLK";
  entry "F_SETLK" "F_SETLK"; entry "F_SETLKW" "F_SETLKW"; entry "F_DUPFD_CLOEXEC" "F_DUPFD_CLOEXEC";
  entry "FD_CLOEXEC" "FD_CLOEXEC"; entry "F_RDLCK" "F_RDLCK"; entry "F_UNLCK" "F_UNLCK";
  entry "F_WRLCK" "F_WRLCK"; entry "LOCK_SH" "LOCK_SH"; entry "LOCK_EX" "LOCK_EX";
  entry "LOCK_NB" "LOCK_NB"; entry "LOCK_UN" "LOCK_UN"; entry "AT_FDCWD" "AT_FDCWD";
  entry "AT_EACCESS" "AT_EACCESS"; entry "AT_SYMLINK_NOFOLLOW" "AT_SYMLINK_NOFOLLOW";
  entry "AT_SYMLINK_FOLLOW" "AT_SYMLINK_FOLLOW"; entry "AT_REMOVEDIR" "AT_REMOVEDIR"
].

(** [symbols_openbsd.c:135-141] platform_symbols_table of openbsd: from F_OK on *)
Definition openbsd_F_OK : list int_symbol := [
  entry "F_OK" "F_OK"; entry "X_OK" "X_OK"; entry "W_OK" "W_OK"; entry "R_OK" "R_OK";
  entry "SEEK_SET" "SEEK_SET"; entry "SEEK_CUR" "SEEK_CUR"; entry "SEEK_END" "SEEK_END"
].

(** [symbols_openbsd.c:144-154] platform_symbols_table of openbsd: from MSG_OOB on *)
Definition openbsd_MSG_OOB : list int_symbol := [
  entry "MSG_OOB" "MSG_OOB"; entry "MSG_PEEK" "MSG_PEEK"; entry "MSG_DONTROUTE" "MSG_DONTROUTE";
  entry "MSG_EOR" "MSG_EOR"; entry "MSG_TRUNC" "MSG_TRUNC"; entry "MSG_CTRUNC" "MSG_CTRUNC";
  entry "MSG_WAITALL" "MSG_WAITALL"; entry "MSG_DONTWAIT" "MSG_DONTWAIT"; entry "MSG_BCAST" "MSG_BCAST";
  entry "MSG_MCAST" "MSG_MCAST"; entry "MSG_NOSIGNAL" "MSG_NOSIGNAL"
].

(** [symbols_openbsd.c:157-163] platform_symbols_table of openbsd: from FIOCLEX on *)
Definition openbsd_FIOCLEX : list int_symbol := [
  entry "FIOCLEX" "FIOCLEX"; entry "FIONCLEX" "FIONCLEX"; entry "FIONREAD" "FIONREAD";
  entry "FIONBIO" "FIONBIO"; entry "FIOASYNC" "FIOASYNC"; entry "FIOSETOWN" "FIOSETOWN";
  entry "FIOGETOWN" "FIOGETOWN"
].

(** [symbols_openbsd.c:166-176] platform_symbols_table of openbsd: from POLLIN on *)
Definition openbsd_POLLIN : list int_symbol := [
  entry "POLLIN" "POLLIN"; entry "POLLPRI" "POLLPRI"; entry "POLLOUT" "POLLOUT";
  entry "POLLERR" "POLLERR"; entry "POLLHUP" "POLLHUP"; entry "POLLNVAL" "POLLNVAL";
  entry "POLLRDNORM" "POLLRDNORM"; entry "POLLNORM" "POLLNORM"; entry "POLLWRNORM" "POLLWRNORM";
  entry "POLLRDBAND" "POLLRDBAND"; entry "POLLWRBAND" "POLLWRBAND"
].

(** [symbols_openbsd.c:179-269] platform_symbols_table of openbsd: from ENOENT on *)
Definition openbsd_ENOENT : list int_symbol := [
  entry "ENOENT" "ENOENT"; entry "ESRCH" "ESRCH"; entry "EINTR" "EINTR"; entry "EIO" "EIO";
  entry "ENXIO" "ENXIO"; entry "E2BIG" "E2BIG"; entry "ENOEXEC" "ENOEXEC"; entry "EBADF" "EBADF";
  entry "ECHILD" "ECHILD"; entry "EDEADLK" "EDEADLK"; entry "ENOMEM" "ENOMEM"; entry "EACCES" "EACCES";
  entry "EFAULT" "EFAULT"; entry "ENOTBLK" "ENOTBLK"; entry "EBUSY" "EBUSY"; entry "EEXIST" "EEXIST";
  entry "EXDEV" "EXDEV"; entry "ENODEV" "ENODEV"; entry "ENOTDIR" "ENOTDIR"; entry "EISDIR" "EISDIR";
  entry "EINVAL" "EINVAL"; entry "ENFILE" "ENFILE"; entry "EMFILE" "EMFILE"; entry "ENOTTY" "ENOTTY";
  entry "ETXTBSY" "ETXTBSY"; entry "EFBIG" "EFBIG"; entry "ENOSPC" "ENOSPC"; entry "ESPIPE" "ESPIPE";
  entry "EROFS" "EROFS"; entry "EMLINK" "EMLINK"; entry "EPIPE" "EPIPE"; entry "EDOM" "EDOM";
  entry "ERANGE" "ERANGE"; entry "EAGAIN" "EAGAIN"; entry "EWOULDBLOCK" "EWOULDBLOCK";
  entry "EINPROGRESS" "EINPROGRESS"; entry "EALREADY" "EALREADY"; entry "ENOTSOCK" "ENOTSOCK";
  entry "EDESTADDRREQ" "EDESTADDRREQ"; entry "EMSGSIZE" "EMSGSIZE"; entry "EPROTOTYPE" "EPROTOTYPE";
  entry "ENOPROTOOPT" "ENOPROTOOPT"; entry "EPROTONOSUPPORT" "EPROTONOSUPPORT";
  entry "ESOCKTNOSUPPORT" "ESOCKTNOSUPPORT"; entry "EOPNOTSUPP" "EOPNOTSUPP";
  entry "EPFNOSUPPORT" "EPFNOSUPPORT"; entry "EAFNOSUPPORT" "EAFNOSUPPORT";
  entry "EADDRINUSE" "EADDRINUSE"; entry "EADDRNOTAVAIL" "EADDRNOTAVAIL"; entry "ENETDOWN" "ENETDOWN";
  entry "ENETUNREACH" "ENETUNREACH"; entry "ENETRESET" "ENETRESET"; entry "ECONNABORTED" "ECONNABORTED";
  entry "ECONNRESET" "ECONNRESET"; entry "ENOBUFS" "ENOBUFS"; entry "EISCONN" "EISCONN";
  entry "ENOTCONN" "ENOTCONN"; entry "ESHUTDOWN" "ESHUTDOWN"; entry "ETOOMANYREFS" "ETOOMANYREFS";
  entry "ETIMEDOUT" "ETIMEDOUT"; entry "ECONNREFUSED" "ECONNREFUSED"; entry "ELOOP" "ELOOP";
  entry "ENAMETOOLONG" "ENAMETOOLONG"; entry "EHOSTDOWN" "EHOSTDOWN";
  entry "EHOSTUNREACH" "EHOSTUNREACH"; entry "ENOTEMPTY" "ENOTEMPTY"; entry "EPROCLIM" "EPROCLIM";
  entry "EUSERS" "EUSERS"; entry "EDQUOT" "EDQUOT"; entry "ESTALE" "ESTALE"; entry "EREMOTE" "EREMOTE";
  entry "EBADRPC" "EBADRPC"; entry "ERPCMISMATCH" "ERPCMISMATCH"; entry "EPROGUNAVAIL" "EPROGUNAVAIL";
  entry "EPROGMISMATCH" "EPROGMISMATCH"; entry "EPROCUNAVAIL" "EPROCUNAVAIL"; entry "ENOLCK" "ENOLCK";
  entry "ENOSYS" "ENOSYS"; entry "EFTYPE" "EFTYPE"; entry "EAUTH" "EAUTH";
  entry "ENEEDAUTH" "ENEEDAUTH"; entry "EIPSEC" "EIPSEC"; entry "ENOATTR" "ENOATTR";
  entry "EILSEQ" "EILSEQ"; entry "ENOMEDIUM" "ENOMEDIUM"; entry "EMEDIUMTYPE" "EMEDIUMTYPE";
  entry "EOVERFLOW" "EOVERFLOW"; entry "ECANCELED" "ECANCELED"; entry "EIDRM" "EIDRM";
  entry "ENOMSG" "ENOMSG"; entry "ENOTSUP" "ENOTSUP"
].

(** [symbols_openbsd.c:276-279] platform_symbols of openbsd, up to the sentinel *)
Definition openbsd_symbols : list int_symbol :=
  mjoin [openbsd_SO_DEBUG; openbsd_TCP_NODELAY; openbsd_O_RDONLY; openbsd_F_OK; openbsd_MSG_OOB;
    openbsd_FIOCLEX; openbsd_POLLIN; openbsd_ENOENT].

(** ** Lookups *)

Definition table_names (table : list int_symbol) : list string := sym_name <$> table.

(** Every entry has the value of the macro that it is named after. *)
Definition named (table : list int_symbol) : Prop :=
  Forall (fun s => sym_value s = header (sym_name s)) table.

Lemma lookup_named table n : named table ->
  lookup_int_symbol n table = if bool_decide (n ∈ table_names table) then Some (header n) else None.
Proof.
  induction 1 as [|s table Hs Ht IH]; [done|]. cbn [lookup_int_symbol table_names fmap list_fmap].
  destruct (bool_decide (n = sym_name s)) eqn:E.
  - apply bool_decide_eq_true in E. subst n. rewrite Hs.
    by rewrite (bool_decide_eq_true_2 _ (list_elem_of_here _ _)).
  - apply bool_decide_eq_false in E. rewrite IH. unfold table_names.
    assert (X : n ∈ sym_name <$> table <-> n ∈ sym_name s :: (sym_name <$> table))
      by (rewrite elem_of_cons; tauto).
    by rewrite (bool_decide_ext _ _ X).
Qed.

Lemma bsd_named : named netbsd_symbols /\ named freebsd_symbols /\ named openbsd_symbols.
Proof. unfold named. split_and!; cbn; repeat (apply Forall_cons; split; [reflexivity|]); apply Forall_nil_2. Qed.

(** On each BSD system the lookup of script.c finds for a name of the table the value that the
    system's headers give to the macro of that name, also where a table has a name twice,
    and nothing for any other name. *)
Theorem bsd_lookup (table : list int_symbol) (n : string) :
  table ∈ [netbsd_symbols; freebsd_symbols; openbsd_symbols] ->
  lookup_int_symbol n table = if bool_decide (n ∈ table_names table) then Some (header n) else None.
Proof.
  intros Ht. apply lookup_named. destruct bsd_named as (H1 & H2 & H3).
  rewrite !elem_of_cons, elem_of_nil in Ht. destruct Ht as [->|[->|[->|[]]]]; assumption.
Qed.

End Bsd.

(** The names that NetBSD has twice. *)
Example netbsd_doubles header :
  filter (fun n => (2 <=? length (filter (eq n) (table_names (netbsd_symbols header))))%nat = true)
    (table_names (netbsd_symbols header)) = ["SEEK_SET"; "SEEK_CUR"; "SEEK_END"; "SEEK_SET"; "SEEK_CUR"; "SEEK_END"]%string.
Proof. vm_compute. reflexivity. Qed.

Lemma bsd_lookup_witness :
  lookup_int_symbol "TCP_NODELAY" (freebsd_symbols (fun m => if String.eqb m "TCP_NODELAY" then 1 else 0)) = Some 1.
Proof.
  rewrite (bsd_lookup (fun m => if String.eqb m "TCP_NODELAY" then 1 else 0) (freebsd_symbols _) "TCP_NODELAY").
  - vm_compute. reflexivity.
  - rewrite !elem_of_cons. tauto.
Defined.
