(* ===== verification/TcpPacket.v ===== *)
(** * TcpPacket: tcp_packet.c and udp_packet.c

    Building a TCP segment or UDP datagram from the fields a script gives.  The
    theorem is that the parser of packet_parser.c reads back what was built. *)

From Stdlib Require Import Ascii.
From S2P Require Import Prelude Headers Packet Checksum PacketParser TcpOptions IpPacket.

(** [tcp_packet.c:31-31] valid_tcp_flags *)
Definition valid_tcp_flags : string := "FSRP.EWCU".

(** strchr(s, c) != NULL, for a character other than NUL *)
Fixpoint strchr (s : string) (c : Ascii.ascii) : bool :=
  match s with
  | "" => false
  | String d rest => Ascii.eqb d c || strchr rest c
  end.

(** [tcp_packet.c:34-45] is_tcp_flags_spec_valid: the error, if there is one *)
Fixpoint is_tcp_flags_spec_valid (flags : string) : option string :=
  match flags with
  | "" => None
  | String c rest =>
      if negb (strchr valid_tcp_flags c)
      then Some ("Invalid TCP flag: '" +:+ String c "" +:+ "'")
      else is_tcp_flags_spec_valid rest
  end.

(** [tcp_packet.c:48-51] is_tcp_flag_set *)
Definition is_tcp_flag_set (flag : Ascii.ascii) (flags : string) : Z :=
  if strchr flags flag then 1 else 0.

(** [tcp_packet.c:128-154] the part of new_tcp_packet that sets the TCP header
    fields, with the early return it has *)
Definition set_tcp_fields (pkt : packet) (tcp : Z) (direction : direction_t)
    (src_port dst_port : Z) (flags : string)
    (start_sequence ack_sequence tcp_header_bytes window urg_ptr : Z)
    : exec (result packet) :=
  pkt ← pwr pkt tcp tcp_src_port (htons src_port);
  pkt ← pwr pkt tcp tcp_dst_port (htons dst_port);
  pkt ← pwr pkt tcp tcp_seq (htonl start_sequence);
  pkt ← pwr pkt tcp tcp_ack_seq (htonl ack_sequence);
  pkt ← pwr pkt tcp tcp_doff (tcp_header_bytes / 4);
  if (window =? -1) && bool_decide (direction = DIRECTION_INBOUND) then
    Ok (Failure "window must be specified for inbound packets")
  else
  pkt ← (if window =? -1 then
           pkt ← pwr pkt tcp tcp_window 0;
           Ok (set_pk_flags (Z.lor (pk_flags pkt) FLAG_WIN_NOCHECK) pkt)
         else pwr pkt tcp tcp_window (htons (u16 window)));
  pkt ← pwr pkt tcp tcp_check 0;
  pkt ← pwr pkt tcp tcp_urg_ptr (htons urg_ptr);
  pkt ← pwr pkt tcp tcp_fin (is_tcp_flag_set "F"%char flags);
  pkt ← pwr pkt tcp tcp_syn (is_tcp_flag_set "S"%char flags);
  pkt ← pwr pkt tcp tcp_rst (is_tcp_flag_set "R"%char flags);
  pkt ← pwr pkt tcp tcp_psh (is_tcp_flag_set "P"%char flags);
  pkt ← pwr pkt tcp tcp_ack (is_tcp_flag_set "."%char flags);
  pkt ← pwr pkt tcp tcp_urg (is_tcp_flag_set "U"%char flags);
  pkt ← pwr pkt tcp tcp_ece (is_tcp_flag_set "E"%char flags);
  pkt ← pwr pkt tcp tcp_cwr (is_tcp_flag_set "W"%char flags);
  Ok (Success pkt).

(** [tcp_packet.c:53-166] new_tcp_packet.  [ip_option_bytes] is the constant 0, so
    its check cannot fire. *)
Definition new_tcp_packet `{Malloc} (address_family : Z) (direction : direction_t)
    (info : ip_info) (src_port dst_port : Z) (flags : string)
    (start_sequence tcp_payload_bytes ack_sequence window urg_ptr : Z)
    (options : option tcp_options) : exec (result packet) :=
  let ip_option_bytes := 0 in
  let tcp_option_bytes := match options with Some o => opts_length o | None => 0 end in
  min_len ← ip_header_min_len address_family;
  let ip_header_bytes := min_len + ip_option_bytes in
  let tcp_header_bytes := sizeof_tcp + tcp_option_bytes in
  let ip_bytes := ip_header_bytes + tcp_header_bytes + tcp_payload_bytes in
  if negb (Z.land tcp_option_bytes 0x3 =? 0) then
    Ok (Failure ("TCP options are not padded correctly "
                 +:+ "to ensure TCP header is a multiple of 4 bytes: "
                 +:+ dec (Z.land tcp_option_bytes 0x3) +:+ " excess bytes"))
  else
  _ ← c_assert (Z.land tcp_header_bytes 0x3 =? 0);
  _ ← c_assert (Z.land ip_header_bytes 0x3 =? 0);
  if MAX_TCP_HEADER_BYTES <? tcp_header_bytes then Ok (Failure "TCP header too large")
  else if MAX_TCP_DATAGRAM_BYTES <? ip_bytes then Ok (Failure "TCP segment too large")
  else
  match is_tcp_flags_spec_valid flags with
  | Some error => Ok (Failure error)
  | None =>
  let pkt := packet_new ip_bytes in
  pkt ← pkt_memcpy pkt 0 (replicate (Z.to_nat ip_bytes) 0);
  let pkt := set_pk_direction direction pkt in
  let pkt := set_pk_flags 0 pkt in
  let pkt := set_pk_tos_chk (tos_check (info_tos info)) pkt in
  pkt ← set_packet_ip_header pkt address_family ip_bytes (tos_value (info_tos info))
          (info_flow_label info) (info_ttl info) IPPROTO_TCP;
  '(pkt, tcp_header) ← packet_append_header pkt HEADER_TCP tcp_header_bytes;
  i ← deref tcp_header;
  let pkt := set_header_total i (tcp_header_bytes + tcp_payload_bytes) pkt in
  start ← ip_start pkt;
  let tcp := start + ip_header_bytes in
  let pkt := set_pk_tcp (Some tcp) pkt in
  let tcp_option_start := tcp + sizeof_tcp in
  r ← set_tcp_fields pkt tcp direction src_port dst_port flags start_sequence ack_sequence
        tcp_header_bytes window urg_ptr;
  match r with
  | Failure error => Ok (Failure error)
  | Success pkt =>
  pkt ← match options with
        | None => Ok (set_pk_flags (Z.lor (pk_flags pkt) FLAG_OPTIONS_NOCHECK) pkt)
        | Some o =>
            if 0 <? opts_length o then
              src ← get_bytes (opts_data o) 0 (opts_length o);
              pkt_memcpy pkt tcp_option_start src
            else Ok pkt
        end;
  Ok (Success (set_pk_ip_bytes ip_bytes pkt))
  end
  end.

(** [udp_packet.c:30-91] new_udp_packet *)
Definition new_udp_packet `{Malloc} (address_family : Z) (direction : direction_t)
    (info : ip_info) (udp_payload_bytes src_port dst_port : Z) : exec (result packet) :=
  let ip_option_bytes := 0 in
  min_len ← ip_header_min_len address_family;
  let ip_header_bytes := min_len + ip_option_bytes in
  let udp_header_bytes := sizeof_udp in
  let ip_bytes := ip_header_bytes + udp_header_bytes + udp_payload_bytes in
  _ ← c_assert (Z.land udp_header_bytes 0x3 =? 0);
  _ ← c_assert (Z.land ip_header_bytes 0x3 =? 0);
  if MAX_UDP_DATAGRAM_BYTES <? ip_bytes then Ok (Failure "UDP datagram too large")
  else
  let pkt := packet_new ip_bytes in
  pkt ← pkt_memcpy pkt 0 (replicate (Z.to_nat ip_bytes) 0);
  let pkt := set_pk_direction direction pkt in
  let pkt := set_pk_flags 0 pkt in
  let pkt := set_pk_tos_chk (tos_check (info_tos info)) pkt in
  pkt ← set_packet_ip_header pkt address_family ip_bytes (tos_value (info_tos info))
          (info_flow_label info) (info_ttl info) IPPROTO_UDP;
  '(pkt, udp_header) ← packet_append_header pkt HEADER_UDP sizeof_udp;
  i ← deref udp_header;
  let pkt := set_header_total i (udp_header_bytes + udp_payload_bytes) pkt in
  start ← ip_start pkt;
  let udp := start + ip_header_bytes in
  let pkt := set_pk_udp (Some udp) pkt in
  pkt ← pwr pkt udp udp_src_port (htons src_port);
  pkt ← pwr pkt udp udp_dst_port (htons dst_port);
  pkt ← pwr pkt udp udp_len (htons (u16 (udp_header_bytes + udp_payload_bytes)));
  pkt ← pwr pkt udp udp_check 0;
  Ok (Success (set_pk_ip_bytes ip_bytes pkt)).

(** A packet read back by the parser. *)
Definition reparse `{Malloc} (pkt : packet) : exec (packet * packet_parse_result_t) :=
  parse_packet (set_pk_buffer (pk_buffer pkt) (packet_new (pk_buffer_bytes pkt)))
    (pk_buffer_bytes pkt) PACKET_LAYER_3_IP.

(** ** What the builders write *)

(** Select some members out of a [holds] fact. *)
Ltac pick_member :=
  split; [simpl; lia|split; [by apply field_wfb_true|]];
  eapply holds_rd; [eassumption|];
  repeat (apply list_elem_of_here || apply list_elem_of_further).
Ltac pick_members := repeat (apply Forall_cons_2; [pick_member|]); apply Forall_nil_2.

(** The TTL or hop limit that goes on the wire: a script that gives none has 0, which
    the builders replace. *)
Definition ttl_sent (ttl : Z) : Z := if u8 ttl =? 0 then TTL_CHECK_NONE else u8 ttl.

(** The members of the IP header that the IP information of a script fills in, and
    those that the address family, the length and the protocol fill in. *)
Definition info_members (af tos fl ttl : Z) : list (Z * field * Z) :=
  if af =? AF_INET then [(0, ipv4_tos, u8 tos); (0, ipv4_ttl, ttl_sent ttl)]
  else
    [(0, ipv6_traffic_class_hi, Z.shiftr (u8 tos) 4);
     (0, ipv6_traffic_class_lo, Z.land (u8 tos) 0x0f);
     (0, ipv6_flow_label_hi, Z.land (Z.shiftr (u32 fl) 16) 0xf);
     (0, ipv6_flow_label_lo, htons (Z.land (u32 fl) 0xffff));
     (0, ipv6_hop_limit, ttl_sent ttl)].
Definition ip_members (af n protocol : Z) : list (Z * field * Z) :=
  if af =? AF_INET then
    [(0, ipv4_version, 4); (0, ipv4_ihl, 5); (0, ipv4_tot_len, htons n);
     (0, ipv4_frag_off, 0); (0, ipv4_protocol, protocol)]
  else
    [(0, ipv4_version, 6); (0, ipv6_payload_len, htons (n - 40));
     (0, ipv6_next_header, protocol)].
Definition ip_full (af : Z) (info : ip_info) (n protocol : Z) : list (Z * field * Z) :=
  info_members af (tos_value (info_tos info)) (info_flow_label info) (info_ttl info)
  ++ ip_members af n protocol.

Lemma holds_ip_full b l af info n protocol :
  holds b (l ++ ip_full af info n protocol) ->
  holds b ((l ++ info_members af (tos_value (info_tos info)) (info_flow_label info) (info_ttl info))
           ++ ip_members af n protocol).
Proof. unfold ip_full. by rewrite app_assoc. Qed.

Lemma u8_shiftr_range x : 0 <= Z.shiftr (u8 x) 4 < 16.
Proof. pose proof (u8_range x). rewrite Z.shiftr_div_pow2 by lia. change (2 ^ 4) with 16. zlia. Qed.

Lemma set_ipv4_header_spec b n ip_bytes tos fl ttl protocol :
  bytes_ok b -> zlen b = n -> 20 <= n ->
  0 <= ip_bytes < 65536 -> 0 <= protocol < 256 ->
  exists b', set_ipv4_header b 0 ip_bytes (u8 tos) (u8 ttl) protocol = Ok b' /\
    bytes_ok b' /\ zlen b' = n /\
    holds b' (info_members AF_INET tos fl ttl ++ ip_members AF_INET ip_bytes protocol).
Proof.
  intros Hb Hn Hlen Hip Hpr. pose proof (holds_nil b) as Hl. unfold set_ipv4_header.
  unfold info_members, ip_members, ttl_sent. cbn [AF_INET Z.eqb Pos.eqb app].
  pose proof (u8_range tos); pose proof (u8_range ttl); pose proof (ntohs_range ip_bytes).
  do 6 wr_step. destruct (u8 ttl =? 0); simpl negb; cbv iota;
    do 5 wr_step; (eexists; split; [done|]);
    (split; [done|]); (split; [done|]);
    unfold htons in *; simpl field_mod in *; rewrite !Z.mod_small in * by (done || lia);
    subst; pick_members.
Qed.

Lemma zeroes_ok k : bytes_ok (replicate k 0).
Proof. apply Forall_replicate. unfold is_byte. lia. Qed.

Lemma set_ipv6_header_spec b n ip_bytes tos fl ttl protocol :
  bytes_ok b -> zlen b = n -> 40 <= n ->
  40 <= ip_bytes < 65536 -> 0 <= protocol < 256 ->
  exists b', set_ipv6_header b 0 ip_bytes (u8 tos) (u32 fl) (u8 ttl) protocol = Ok b' /\
    bytes_ok b' /\ zlen b' = n /\
    holds b' (info_members AF_INET6 tos fl ttl ++ ip_members AF_INET6 ip_bytes protocol).
Proof.
  intros Hb Hn Hlen Hip Hpr. pose proof (holds_nil b) as Hl. unfold set_ipv6_header.
  unfold info_members, ip_members, ttl_sent. cbn [AF_INET AF_INET6 Z.eqb Pos.eqb app].
  pose proof (u8_shiftr_range tos); pose proof (land_ones_range (u8 tos) 4 ltac:(lia));
  pose proof (land_ones_range (Z.shiftr (u32 fl) 16) 4 ltac:(lia));
  pose proof (u8_range ttl); pose proof (ntohs_range (Z.land (u32 fl) 0xffff)).
  change (Z.ones 4) with 15 in *. change (2 ^ 4) with 16 in *.
  do 5 wr_step. destruct (Z.leb_spec sizeof_ipv6 ip_bytes); [|unfold sizeof_ipv6 in *; lia].
  simpl c_assert. rewrite bind_Ok_eq.
  do 2 wr_step. destruct (u8 ttl =? 0); simpl negb; cbv iota; wr_step;
  do 2 (match goal with
  | Hb : bytes_ok ?c, Hn : zlen ?c = ?n, Hl : holds ?c ?l |- context [put_bytes ?c ?o ?s] =>
      let c' := fresh "c" in
      destruct (holds_put_after c n l o s Hb Hn Hl (zeroes_ok 16) ltac:(done)
        ltac:(unfold zlen, ipv6_src_ip, ipv6_dst_ip; simpl; lia) eq_refl)
        as (c'&->&?&?&?&_); clear Hb Hn Hl; rewrite ?bind_Ok_eq
  end);
  (eexists; split; [done|]); (split; [done|]); (split; [done|]);
  pose proof (ntohs_range (ip_bytes - 40)); unfold htons, sizeof_ipv6 in *;
  simpl field_mod in *; rewrite ?Z.mod_small in * by (done || lia); subst; pick_members.
Qed.

(** The packet after [packet_new] and [memset], with the metadata assigned. *)
Lemma new_zeroed `{Malloc} n :
  0 <= n ->
  pkt_memcpy (packet_new n) 0 (replicate (Z.to_nat n) 0)
  = Ok (set_pk_buffer (replicate (Z.to_nat n) 0) (packet_new n)).
Proof.
  intros Hn. unfold pkt_memcpy, packet_new. simpl pk_buffer.
  rewrite put_bytes_all; [done|]. rewrite malloc_zlen by done.
  unfold zlen. rewrite length_replicate. lia.
Qed.

(** The IP part of both builders, on a fresh packet of [n] bytes. *)
Definition ip_type (af : Z) : header_t := if af =? AF_INET then HEADER_IPV4 else HEADER_IPV6.
Definition ip_len (af : Z) : Z := if af =? AF_INET then 20 else 40.

Lemma ip_part pkt af n info protocol :
  af = AF_INET \/ af = AF_INET6 -> ip_len af <= n < 65536 -> 0 <= protocol < 256 ->
  pk_buffer pkt = replicate (Z.to_nat n) 0 -> pk_buffer_bytes pkt = n ->
  pk_headers pkt = replicate 6 header_none -> pk_ip_bytes pkt = 0 ->
  pk_l2_header_bytes pkt = 0 -> pk_ipv4 pkt = None -> pk_ipv6 pkt = None ->
  exists b', bytes_ok b' /\ zlen b' = n /\ holds b' (ip_full af info n protocol) /\
    set_packet_ip_header pkt af n (tos_value (info_tos info)) (info_flow_label info)
      (info_ttl info) protocol
    = Ok (set_pk_buffer b' (set_pk_headers
            (hdrs [mk_header (ip_type af) (ip_len af) n (Some 0)])
            (set_pk_ip_bytes (ip_len af)
              (if af =? AF_INET then set_pk_ipv4 (Some 0) pkt else set_pk_ipv6 (Some 0) pkt)))).
Proof.
  intros Haf Hn Hpr Hb HB Hh Hi Hl H4 H6. unfold ip_len in Hn.
  assert (Hz : zlen (replicate (Z.to_nat n) 0) = n).
  { unfold zlen. rewrite length_replicate. destruct Haf as [-> | ->]; simpl in Hn; lia. }
  unfold set_packet_ip_header, ip_type, ip_len, ip_full.
  set (tos := tos_value (info_tos info)). set (fl := info_flow_label info). set (ttl := info_ttl info).
  destruct Haf as [-> | ->]; simpl (_ =? _) in *; cbv iota in *.
  - simpl pk_ipv6. rewrite H6. simpl c_assert. rewrite bind_Ok_eq.
    unfold sizeof_ipv4. rewrite (append_header_eq _ []); simpl; [|rewrite Hh; apply headers_ok_nil|lia|lia|lia].
    rewrite HB, Hi, Hl. destruct (Z.ltb_spec n (0 + 20)); [lia|]. simpl.
    rewrite Hb, !u16_small, (u8_small protocol) by lia.
    destruct (set_ipv4_header_spec (replicate (Z.to_nat n) 0) n n tos fl ttl protocol)
      as (b'&->&?&?&?); [apply zeroes_ok|done|lia..|].
    exists b'. split; [done|]. split; [done|]. split; [done|]. simpl. done.
  - simpl pk_ipv4. rewrite H4. simpl c_assert. rewrite bind_Ok_eq.
    unfold sizeof_ipv6. rewrite (append_header_eq _ []); simpl; [|rewrite Hh; apply headers_ok_nil|lia|lia|lia].
    rewrite HB, Hi, Hl. destruct (Z.ltb_spec n (0 + 40)); [lia|]. simpl.
    rewrite Hb, !u16_small, (u8_small protocol) by lia.
    destruct (set_ipv6_header_spec (replicate (Z.to_nat n) 0) n n tos fl ttl protocol)
      as (b'&->&?&?&?); [apply zeroes_ok|done|lia..|].
    exists b'. split; [done|]. split; [done|]. split; [done|]. simpl. done.
Qed.

(** ** The TCP segment *)

(** Bytes of TCP options the segment carries. *)
Definition option_bytes (options : option tcp_options) : bytes :=
  match options with Some o => options_wire o | None => [] end.

Definition options_arg_ok (options : option tcp_options) : Prop :=
  match options with Some o => options_wf o /\ opts_length o mod 4 = 0 | None => True end.

Definition tcp_members (base : Z) (sp dp : Z) (flags : string) (seq ack win urg doff : Z)
    : list (Z * field * Z) :=
  [(base, tcp_src_port, htons sp); (base, tcp_dst_port, htons dp);
   (base, tcp_seq, htonl seq); (base, tcp_ack_seq, htonl ack); (base, tcp_doff, doff);
   (base, tcp_window, if win =? -1 then 0 else htons (u16 win));
   (base, tcp_check, 0); (base, tcp_urg_ptr, htons urg);
   (base, tcp_fin, is_tcp_flag_set "F"%char flags); (base, tcp_syn, is_tcp_flag_set "S"%char flags);
   (base, tcp_rst, is_tcp_flag_set "R"%char flags); (base, tcp_psh, is_tcp_flag_set "P"%char flags);
   (base, tcp_ack, is_tcp_flag_set "."%char flags); (base, tcp_urg, is_tcp_flag_set "U"%char flags);
   (base, tcp_ece, is_tcp_flag_set "E"%char flags); (base, tcp_cwr, is_tcp_flag_set "W"%char flags)].

Lemma flag_range c flags : 0 <= is_tcp_flag_set c flags < 2.
Proof. unfold is_tcp_flag_set. case_match; lia. Qed.

Lemma pwr_eq pkt p f x b' :
  wr (pk_buffer pkt) p f x = Ok b' -> pwr pkt p f x = Ok (set_pk_buffer b' pkt).
Proof. intros E. unfold pwr. by rewrite E. Qed.

(** The same as [wr_step] for a write through a packet. *)
Ltac pwr_step :=
  match goal with
  | Hb : bytes_ok ?b, Hn : zlen ?b = ?n, Hl : holds ?b ?l
    |- context [pwr ?q ?p ?f ?x] =>
      let b' := fresh "b" in
      let E := fresh "E" in
      let Hb' := fresh "Hb" in
      let Hn' := fresh "Hn" in
      let Hl' := fresh "Hl" in
      let v := fresh "v" in
      let Ev := fresh "Ev" in
      destruct (holds_wr b n l p f x Hb Hn Hl eq_refl ltac:(simpl; lia) ltac:(simpl; lia))
        as (b'&E&Hb'&Hn'&_&Hl');
      rewrite (pwr_eq q p f x b' E), ?bind_Ok_eq, ?set_buffer_twice;
      clear E Hb Hn Hl;
      remember (x mod field_mod f) as v eqn:Ev in Hl'; simpl in Hl'
  end.

Lemma set_tcp_fields_spec pkt b n base l direction info sp dp flags seq ack hl win urg :
  base = 20 \/ base = 40 -> pk_buffer pkt = b -> bytes_ok b -> zlen b = n -> base + 20 <= n ->
  holds b l -> l = ip_full AF_INET info n IPPROTO_TCP /\ base = 20 \/
               l = ip_full AF_INET6 info n IPPROTO_TCP /\ base = 40 ->
  0 <= hl / 4 < 16 -> win <> -1 \/ direction <> DIRECTION_INBOUND ->
  exists b' fl, set_tcp_fields pkt base direction sp dp flags seq ack hl win urg
    = Ok (Success (set_pk_buffer b' (set_pk_flags fl pkt))) /\
    bytes_ok b' /\ zlen b' = n /\
    holds b' (tcp_members base sp dp flags seq ack win urg (hl / 4) ++ l).
Proof.
  intros Hbase Hpb Hb Hn Hlen Hl Hcase Hhl Hw. unfold set_tcp_fields.
  assert (Hg : (win =? -1) && bool_decide (direction = DIRECTION_INBOUND) = false).
  { destruct (Z.eqb_spec win (-1)); [|done]. destruct Hw; [lia|]. by rewrite bool_decide_false. }
  rewrite Hg. destruct pkt. simpl in Hpb. subst pk_buffer.
  pose proof (ntohs_range sp); pose proof (ntohs_range dp); pose proof (ntohl_range seq);
  pose proof (ntohl_range ack); pose proof (ntohs_range (u16 win)); pose proof (ntohs_range urg).
  destruct Hcase as [[-> ->]|[-> ->]]; unfold tcp_members; destruct (win =? -1);
    simpl in Hl; do 16 pwr_step;
    (eexists _, _; split; [reflexivity|]; split; [done|]; split; [done|]);
    unfold htons, htonl in *; simpl field_mod in *;
    rewrite ?Z.mod_small in * by (apply flag_range || done || lia); subst; pick_members.
Qed.

(** Appending the transport header after the IP header. *)
Lemma transport_part pkt h l ty len total :
  pk_headers pkt = hdrs [h] -> header_used h -> pk_ip_bytes pkt = l ->
  pk_l2_header_bytes pkt = 0 -> 0 <= l -> 0 <= len -> l + len <= pk_buffer_bytes pkt ->
  pk_buffer_bytes pkt < 65536 ->
  exists pkt1, packet_append_header pkt ty len = Ok (pkt1, Some 1%nat) /\
    set_header_total 1 total pkt1 =
    set_pk_ip_bytes (l + len) (set_pk_headers (hdrs [h; mk_header ty len total (Some l)]) pkt).
Proof.
  intros Hh Hu Hl H0 Hl0 Hlen Hfit Hs. eexists.
  rewrite (append_header_eq _ [h]) by
    (rewrite ?Hl; (split; [done|]; split; [simpl; lia|by constructor]) || lia).
  rewrite Hl, H0. destruct (Z.ltb_spec (pk_buffer_bytes pkt) (l + len)); [lia|].
  rewrite bool_decide_false by done. simpl orb. cbv iota. rewrite s32_small by lia.
  split; [done|]. done.
Qed.

Section NewTcp.
Context `{Malloc} (af : Z) (direction : direction_t) (info : ip_info) (sp dp : Z)
  (flags : string) (seq pl ack win urg : Z) (options : option tcp_options).

Hypothesis Haf : af = AF_INET \/ af = AF_INET6.
Hypothesis Hpl : 0 <= pl.
Hypothesis Hopt : options_arg_ok options.
Hypothesis Hflags : is_tcp_flags_spec_valid flags = None.
Hypothesis Hwin : win <> -1 \/ direction <> DIRECTION_INBOUND.

Definition tcp_len : Z := 20 + zlen (option_bytes options).
Definition segment_len : Z := ip_len af + tcp_len + pl.

Hypothesis Hfit : segment_len < 65536.

Definition built_tcp (pkt : packet) : Prop :=
  bytes_ok (pk_buffer pkt) /\ zlen (pk_buffer pkt) = segment_len /\
  pk_buffer_bytes pkt = segment_len /\ pk_ip_bytes pkt = segment_len /\
  pk_l2_header_bytes pkt = 0 /\ pk_direction pkt = direction /\
  (pk_udp pkt = None /\ pk_icmpv4 pkt = None /\ pk_icmpv6 pkt = None) /\
  pk_headers pkt = hdrs [mk_header (ip_type af) (ip_len af) segment_len (Some 0);
                         mk_header HEADER_TCP tcp_len (tcp_len + pl) (Some (ip_len af))] /\
  pk_tcp pkt = Some (ip_len af) /\
  pk_ipv4 pkt = (if af =? AF_INET then Some 0 else None) /\
  pk_ipv6 pkt = (if af =? AF_INET then None else Some 0) /\
  holds (pk_buffer pkt) (tcp_members (ip_len af) sp dp flags seq ack win urg (tcp_len / 4)
                         ++ ip_full af info segment_len IPPROTO_TCP) /\
  get_bytes (pk_buffer pkt) (ip_len af + 20) (zlen (option_bytes options))
  = Ok (option_bytes options).

Lemma option_bytes_len :
  zlen (option_bytes options) = match options with Some o => opts_length o | None => 0 end /\
  0 <= zlen (option_bytes options) <= 40 /\ zlen (option_bytes options) mod 4 = 0.
Proof.
  destruct options as [o|]; simpl in *; [|done]. destruct Hopt as [(Hd&_&Hl) Hm].
  unfold options_wire, zlen in *. rewrite length_take.
  replace (Z.of_nat (Z.to_nat (opts_length o) `min` length (opts_data o))) with (opts_length o) by lia.
  done.
Qed.

Lemma land3 x : Z.land x 3 = x mod 4.
Proof. change 3 with (Z.ones 2). by rewrite Z.land_ones by lia. Qed.

Lemma new_tcp_spec :
  exists pkt, new_tcp_packet af direction info sp dp flags seq pl ack win urg options
    = Ok (Success pkt) /\ built_tcp pkt.
Proof.
  destruct option_bytes_len as (Hob&Hor&Hom). unfold new_tcp_packet.
  assert (ip_header_min_len af = Ok (ip_len af)) as -> by (by destruct Haf as [-> | ->]).
  rewrite bind_Ok_eq, <-Hob, Z.add_0_r. change sizeof_tcp with 20. fold tcp_len.
  fold segment_len. rewrite !land3, Hom.
  assert (tcp_len mod 4 = 0) as -> by (unfold tcp_len; zlia).
  assert (ip_len af mod 4 = 0) as -> by (by destruct Haf as [-> | ->]).
  assert (0 < ip_len af <= 40) by (destruct Haf as [-> | ->]; vm_compute; intuition congruence).
  simpl (negb _). cbv iota. simpl c_assert. rewrite !bind_Ok_eq.
  unfold MAX_TCP_HEADER_BYTES, MAX_TCP_DATAGRAM_BYTES.
  destruct (Z.ltb_spec (15 * 4) tcp_len); [unfold tcp_len in *; lia|].
  destruct (Z.ltb_spec (64 * 1024) segment_len); [lia|].
  rewrite Hflags, new_zeroed, bind_Ok_eq by (unfold segment_len, tcp_len in *; lia).
  set (pkt0 := set_pk_tos_chk _ _).
  destruct (ip_part pkt0 af segment_len info IPPROTO_TCP) as (b1&Hb1&Hn1&Hl1&->);
    [done|unfold segment_len, tcp_len in *; lia|done|reflexivity..|]. rewrite bind_Ok_eq.
  set (hip := mk_header (ip_type af) (ip_len af) segment_len (Some 0)).
  set (pkt1 := set_pk_buffer b1 _).
  destruct (transport_part pkt1 hip (ip_len af) HEADER_TCP tcp_len (tcp_len + pl))
    as (pkt2&->&E2); [by destruct Haf as [-> | ->]..|lia|unfold tcp_len; lia| |by destruct Haf as [-> | ->]|].
  { assert (pk_buffer_bytes pkt1 = segment_len) as -> by (by destruct Haf as [-> | ->]).
    unfold segment_len. lia. }
  rewrite bind_Ok_eq. simpl deref. rewrite bind_Ok_eq, E2. clear E2 pkt2.
  set (pkt3 := set_pk_ip_bytes (ip_len af + tcp_len) _).
  assert (ip_start pkt3 = Ok 0) as -> by (by destruct Haf as [-> | ->]).
  rewrite bind_Ok_eq, Z.add_0_l.
  assert (Hfit1 : ip_len af + 20 <= segment_len) by (unfold segment_len, tcp_len; lia).
  destruct (set_tcp_fields_spec (set_pk_tcp (Some (ip_len af)) pkt3) b1 segment_len (ip_len af)
    (ip_full af info segment_len IPPROTO_TCP) direction info sp dp flags seq ack tcp_len win urg)
    as (b2&fl&->&Hb2&Hn2&Hl2);
    [destruct Haf as [-> | ->]; auto|done|done|done|done|done|destruct Haf as [-> | ->]; auto
    |unfold tcp_len; zlia|done|].
  rewrite bind_Ok_eq. cbv iota.
  assert (Hfin : forall b3 fl3, bytes_ok b3 -> zlen b3 = segment_len ->
    holds b3 (tcp_members (ip_len af) sp dp flags seq ack win urg (tcp_len / 4)
              ++ ip_full af info segment_len IPPROTO_TCP) ->
    get_bytes b3 (ip_len af + 20) (zlen (option_bytes options)) = Ok (option_bytes options) ->
    built_tcp (set_pk_ip_bytes segment_len
      (set_pk_buffer b3 (set_pk_flags fl3 (set_pk_tcp (Some (ip_len af)) pkt3))))).
  { intros b3 fl3 B3 N3 H3 G3. 
    unfold built_tcp, pkt3, pkt1; split_and!; try done; by destruct (af =? AF_INET). }
  assert (Hend : ends_before (ip_len af + 20)
    (tcp_members (ip_len af) sp dp flags seq ack win urg (tcp_len / 4)
     ++ ip_full af info segment_len IPPROTO_TCP) = true) by (by destruct Haf as [-> | ->]).
  assert (Hnone : zlen (option_bytes options) = 0 ->
    get_bytes b2 (ip_len af + 20) (zlen (option_bytes options)) = Ok (option_bytes options)).
  { intros E0. rewrite E0. destruct (option_bytes options); [|unfold zlen in E0; simpl in E0; lia].
    unfold get_bytes. assert (in_range b2 (ip_len af + 20) 0 = true) as ->
      by (apply in_range_true; lia). done. }
  destruct options as [o|] eqn:Eo.
  - destruct (Z.ltb_spec 0 (opts_length o)) as [Hpos|Hz].
    + destruct Hopt as [(Hd&Hdb&Hdl) _]. unfold get_bytes.
      assert (in_range (opts_data o) 0 (opts_length o) = true) as ->
        by (apply in_range_true; lia).
      rewrite bind_Ok_eq. change (take _ _) with (option_bytes (Some o)).
      unfold pkt_memcpy. change (pk_buffer (set_pk_buffer b2 _)) with b2.
      destruct (holds_put_after b2 segment_len _ (ip_len af + 20) (option_bytes (Some o))
        Hb2 Hn2 Hl2) as (b3&->&Hb3&Hn3&Hl3&Hg3);
        [by apply Forall_take|lia|unfold segment_len, tcp_len; rewrite Eo; lia|done|].
      rewrite !bind_Ok_eq. eexists. split; [reflexivity|]. by apply (Hfin b3 fl).
    + rewrite bind_Ok_eq. eexists. split; [reflexivity|].
      apply (Hfin b2 fl); [done..|]. apply Hnone. lia.
  - rewrite bind_Ok_eq. eexists. split; [reflexivity|].
    apply (Hfin b2 (Z.lor fl FLAG_OPTIONS_NOCHECK)); [done..|]. by apply Hnone.
Qed.

End NewTcp.

(** ** The parser on a built segment *)

(** Find a member in a [holds] fact about a literal list. *)
Ltac member H := eapply holds_rd; [exact H|];
  repeat (apply list_elem_of_here || apply list_elem_of_further).

(** What matters of a parsed packet, to compare with the one that was built. *)
Definition same_view (p q : packet) : Prop :=
  pk_buffer p = pk_buffer q /\ pk_ip_bytes p = pk_ip_bytes q /\ pk_headers p = pk_headers q /\
  pk_ipv4 p = pk_ipv4 q /\ pk_ipv6 p = pk_ipv6 q /\ pk_tcp p = pk_tcp q /\ pk_udp p = pk_udp q.

(** Parsing a TCP header that fills the rest of an IP packet of [m] bytes, in a buffer of [n]. *)
Lemma parse_tcp_at pkt h base m n hl :
  pk_headers pkt = hdrs [h] -> header_used h -> pk_ip_bytes pkt = base ->
  pk_l2_header_bytes pkt = 0 -> 0 <= base -> base + hl <= m -> m <= n -> 20 <= hl ->
  pk_buffer_bytes pkt = n -> n < 65536 -> hl mod 4 = 0 ->
  rd (pk_buffer pkt) base tcp_doff = Ok (hl / 4) ->
  parse_tcp pkt base (m - base) n =
  Ok (set_pk_ip_bytes (base + hl) (set_pk_headers
        (hdrs [h; mk_header HEADER_TCP hl (m - base) (Some base)])
        (set_pk_tcp (Some base) pkt)), PACKET_OK).
Proof.
  intros Hh Hu Hi Hl Hb Hf Hmn H20 HB Hn Hm Hd. unfold parse_tcp.
  destruct (Z.leb_spec 0 (m - base)); [|lia]. simpl c_assert. rewrite bind_Ok_eq.
  unfold sizeof_tcp. destruct (Z.ltb_spec (m - base) 20); [lia|].
  unfold packet_tcp_header_len, prd. simpl assert_ptr. rewrite bind_Ok_eq.
  change (pk_buffer (set_pk_tcp (Some base) pkt)) with (pk_buffer pkt).
  rewrite Hd, !bind_Ok_eq. replace (hl / 4 * 4) with hl by zlia.
  destruct (Z.ltb_spec hl 20); [lia|]. destruct (Z.ltb_spec (m - base) hl); [lia|].
  destruct (transport_part (set_pk_tcp (Some base) pkt) h base HEADER_TCP hl (m - base))
    as (pkt1&->&E); simpl; [done..|lia|lia|lia|lia|].
  destruct (Z.leb_spec (base + (m - base)) n); [|lia]. simpl. rewrite E. done.
Qed.

Lemma checksum_at b q k : bytes_ok b -> 0 <= q -> 0 <= k < 65536 -> q + k <= zlen b ->
  exists l c, get_bytes b q k = Ok l /\ ipv4_checksum l = Ok c.
Proof.
  intros. destruct (get_bytes_in b q k) as [l E]; [lia..|]. exists l.
  rewrite (ipv4_checksum_eq l); [by eexists|by eapply get_bytes_bytes_ok|].
  apply get_bytes_zlen in E. lia.
Qed.

(** The packet after the IP header of [m] bytes in all has been recorded. *)
Definition after_ip (af m : Z) (pkt : packet) : packet :=
  set_pk_ip_bytes (ip_len af) (set_pk_headers (hdrs [mk_header (ip_type af) (ip_len af) m (Some 0)]) pkt).

(** The parser on the IPv4 header of a builder goes on to the transport header. *)
Lemma parse_layer3_v4 `{Malloc} pkt b m n l proto q :
  pkt = set_pk_buffer b (packet_new n) -> bytes_ok b -> zlen b = n -> m <= n -> n < 65536 -> 20 <= m ->
  holds b (l ++ ip_members AF_INET m proto) ->
  parse_layer4 14 (after_ip AF_INET m pkt) 20 proto (m - 20) n = Ok (q, PACKET_OK) ->
  parse_layer3_packet PARSE_FUEL pkt 0 n = Ok (finish_ip set_pk_ipv4 0 true m q, PACKET_OK).
Proof.
  intros -> Hb Hn Hmn Hsz H20 Hl HP4.
  apply Forall_app in Hl as [_ Hl]. change (holds b (ip_members AF_INET m proto)) in Hl.
  assert (Hver : rd b 0 ipv4_version = Ok 4) by member Hl.
  assert (Hihl : rd b 0 ipv4_ihl = Ok 5) by member Hl.
  assert (Htot : rd b 0 ipv4_tot_len = Ok (htons m)) by member Hl.
  assert (Hfrag : rd b 0 ipv4_frag_off = Ok 0) by member Hl.
  assert (Hprot : rd b 0 ipv4_protocol = Ok proto) by member Hl.
  unfold PARSE_FUEL. cbn [parse_layer3_packet]. unfold sizeof_ipv4.
  destruct (Z.ltb_spec n (0 + 20)); [lia|]. unfold prd. simpl pk_buffer.
  rewrite Hver, bind_Ok_eq. cbn [parse_ipv4 Z.eqb Pos.eqb]. unfold ipv4_header_len, prd.
  simpl pk_buffer. rewrite Hihl, !bind_Ok_eq. simpl c_assert. rewrite bind_Ok_eq.
  change (5 * 4) with 20. unfold sizeof_ipv4. simpl (20 <? 20). cbv iota.
  destruct (Z.ltb_spec n (0 + 20)); [lia|]. rewrite Htot, bind_Ok_eq.
  unfold htons. rewrite ntohs_invol by lia.
  destruct (Z.ltb_spec n (0 + m)); [lia|]. destruct (Z.ltb_spec m 20); [lia|].
  rewrite Hfrag, bind_Ok_eq. simpl (negb _). cbv iota.
  destruct (checksum_at b 0 20 Hb) as (hdr&c&Eh&Ec); [lia..|].
  rewrite Eh, bind_Ok_eq, Ec, bind_Ok_eq.
  rewrite (append_header_eq _ []) by (apply headers_ok_nil || (simpl; lia)).
  generalize dependent (parse_layer4 14). intros P4 HP4. simpl.
  destruct (Z.ltb_spec n (0 + 20)); [lia|]. rewrite bind_Ok_eq.
  destruct (Z.leb_spec (0 + 20) n); [|lia]. simpl c_assert. rewrite bind_Ok_eq.
  change (ld8 (pk_buffer _) (0 + 9)) with (rd b 0 ipv4_protocol). rewrite Hprot, bind_Ok_eq.
  change (P4 _ (0 + 20) proto (m - 20) n)
    with (P4 (after_ip AF_INET m (set_pk_buffer b (packet_new n))) 20 proto (m - 20) n).
  rewrite HP4. done.
Qed.

(** The same for IPv6. *)
Lemma parse_layer3_v6 `{Malloc} pkt b n l proto q :
  pkt = set_pk_buffer b (packet_new n) -> bytes_ok b -> zlen b = n -> n < 65536 -> 40 <= n ->
  holds b (l ++ ip_members AF_INET6 n proto) ->
  parse_layer4 14 (after_ip AF_INET6 n pkt) 40 proto (n - 40) n = Ok (q, PACKET_OK) ->
  parse_layer3_packet PARSE_FUEL pkt 0 n = Ok (finish_ip set_pk_ipv6 0 true n q, PACKET_OK).
Proof.
  intros -> Hb Hn Hsz Hfit Hl HP4.
  apply Forall_app in Hl as [_ Hl]. change (holds b (ip_members AF_INET6 n proto)) in Hl.
  assert (Hver : rd b 0 ipv4_version = Ok 6) by member Hl.
  assert (Hlen : rd b 0 ipv6_payload_len = Ok (htons (n - 40))) by member Hl.
  assert (Hprot : rd b 0 ipv6_next_header = Ok proto) by member Hl.
  unfold PARSE_FUEL. cbn [parse_layer3_packet]. unfold sizeof_ipv4.
  destruct (Z.ltb_spec n (0 + 20)); [lia|]. unfold prd. simpl pk_buffer.
  rewrite Hver, bind_Ok_eq. cbn [parse_ipv6 Z.eqb Pos.eqb]. unfold sizeof_ipv6, prd.
  destruct (Z.ltb_spec n (0 + 40)); [lia|]. simpl pk_buffer. rewrite Hlen, bind_Ok_eq.
  unfold htons. rewrite ntohs_invol by lia. replace (40 + (n - 40)) with n by lia.
  destruct (Z.ltb_spec n (0 + n)); [lia|]. destruct (Z.leb_spec 40 n); [|lia].
  simpl c_assert. rewrite bind_Ok_eq.
  rewrite (append_header_eq _ []) by (apply headers_ok_nil || (simpl; lia)).
  generalize dependent (parse_layer4 14). intros P4 HP4. simpl.
  destruct (Z.ltb_spec n (0 + 40)); [lia|]. rewrite bind_Ok_eq.
  destruct (Z.leb_spec (0 + 40) n); [|lia]. simpl c_assert. rewrite bind_Ok_eq.
  change (ld8 (pk_buffer _) (0 + 6)) with (rd b 0 ipv6_next_header). rewrite Hprot, bind_Ok_eq.
  change (P4 _ (0 + 40) proto (n - 40) n)
    with (P4 (after_ip AF_INET6 n (set_pk_buffer b (packet_new n))) 40 proto (n - 40) n).
  rewrite HP4. done.
Qed.

Lemma parse_built_v4 `{Malloc} pkt b m n hl l :
  pkt = set_pk_buffer b (packet_new n) -> bytes_ok b -> zlen b = n -> m <= n -> n < 65536 ->
  20 + hl <= m -> 20 <= hl -> hl mod 4 = 0 ->
  holds b (l ++ ip_members AF_INET m IPPROTO_TCP) -> rd b 20 tcp_doff = Ok (hl / 4) ->
  parse_layer3_packet PARSE_FUEL pkt 0 n =
  Ok (set_pk_ip_bytes m (set_pk_ipv4 (Some 0) (set_pk_headers
        (hdrs [mk_header HEADER_IPV4 20 m (Some 0);
               mk_header HEADER_TCP hl (m - 20) (Some 20)])
        (set_pk_tcp (Some 20) pkt))), PACKET_OK).
Proof.
  intros Hp Hb Hn Hmn Hsz Hfit H20 Hm Hl Hd. erewrite parse_layer3_v4; [| done.. |lia|exact Hl|].
  2:{ change (parse_layer4 14 ?q ?p IPPROTO_TCP ?k ?e) with (parse_tcp q p k e).
      apply (parse_tcp_at _ (mk_header HEADER_IPV4 20 m (Some 0)) 20 m n hl); subst; try done; lia. }
  by subst.
Qed.

Lemma parse_built_v6 `{Malloc} pkt b n hl l :
  pkt = set_pk_buffer b (packet_new n) -> bytes_ok b -> zlen b = n -> n < 65536 ->
  40 + hl <= n -> 20 <= hl -> hl mod 4 = 0 ->
  holds b (l ++ ip_members AF_INET6 n IPPROTO_TCP) -> rd b 40 tcp_doff = Ok (hl / 4) ->
  parse_layer3_packet PARSE_FUEL pkt 0 n =
  Ok (set_pk_ip_bytes n (set_pk_ipv6 (Some 0) (set_pk_headers
        (hdrs [mk_header HEADER_IPV6 40 n (Some 0);
               mk_header HEADER_TCP hl (n - 40) (Some 40)])
        (set_pk_tcp (Some 40) pkt))), PACKET_OK).
Proof.
  intros Hp Hb Hn Hsz Hfit H20 Hm Hl Hd. erewrite parse_layer3_v6; [| done.. |lia|exact Hl|].
  2:{ change (parse_layer4 14 ?q ?p IPPROTO_TCP ?k ?e) with (parse_tcp q p k e).
      apply (parse_tcp_at _ (mk_header HEADER_IPV6 40 n (Some 0)) 40 n n hl); subst; try done; lia. }
  by subst.
Qed.

(** The script's view of a TCP segment: the fields it gave. *)
Definition tcp_view (pkt : packet) (sp dp : Z) (flags : string) (seq ack win urg pl : Z)
    (opts : bytes) : Prop :=
  exists t, pk_tcp pkt = Some t /\
    ntohs <$> prd pkt t tcp_src_port = Ok sp /\ ntohs <$> prd pkt t tcp_dst_port = Ok dp /\
    ntohl <$> prd pkt t tcp_seq = Ok seq /\ ntohl <$> prd pkt t tcp_ack_seq = Ok ack /\
    ntohs <$> prd pkt t tcp_window = Ok (if win =? -1 then 0 else u16 win) /\
    ntohs <$> prd pkt t tcp_urg_ptr = Ok urg /\
    prd pkt t tcp_fin = Ok (is_tcp_flag_set "F"%char flags) /\
    prd pkt t tcp_syn = Ok (is_tcp_flag_set "S"%char flags) /\
    prd pkt t tcp_rst = Ok (is_tcp_flag_set "R"%char flags) /\
    prd pkt t tcp_psh = Ok (is_tcp_flag_set "P"%char flags) /\
    prd pkt t tcp_ack = Ok (is_tcp_flag_set "."%char flags) /\
    prd pkt t tcp_urg = Ok (is_tcp_flag_set "U"%char flags) /\
    prd pkt t tcp_ece = Ok (is_tcp_flag_set "E"%char flags) /\
    prd pkt t tcp_cwr = Ok (is_tcp_flag_set "W"%char flags) /\
    packet_payload_len pkt = Ok pl /\
    get_bytes (pk_buffer pkt) (t + 20) (zlen opts) = Ok opts.

(** The script's view of the IP header: the type of service, the time to live and, over
    IPv6, the flow label that it gave. *)
Definition ip_view (pkt : packet) (af : Z) (info : ip_info) : Prop :=
  if af =? AF_INET then
    exists p, pk_ipv4 pkt = Some p /\
      ipv4_tos_byte (pk_buffer pkt) p = Ok (u8 (tos_value (info_tos info))) /\
      ipv4_ttl_byte (pk_buffer pkt) p = Ok (ttl_sent (info_ttl info))
  else
    exists p, pk_ipv6 pkt = Some p /\
      ipv6_tos_byte (pk_buffer pkt) p = Ok (u8 (tos_value (info_tos info))) /\
      ipv6_flow_label (pk_buffer pkt) p = Ok (info_flow_label info mod 2 ^ 20) /\
      ipv6_hoplimit_byte (pk_buffer pkt) p = Ok (ttl_sent (info_ttl info)).

Lemma lor_hi_lo x h k : 0 <= h -> 0 <= k ->
  Z.lor (Z.shiftl (Z.land (Z.shiftr x k) (Z.ones h)) k) (Z.land x (Z.ones k)) = x mod 2 ^ (h + k).
Proof.
  intros Hh Hk. rewrite <- Z.land_ones by lia. apply Z.bits_inj'. intros i Hi.
  rewrite Z.lor_spec, Z.shiftl_spec, !Z.land_spec by lia.
  destruct (Z.ltb_spec i k).
  - rewrite !(Z.testbit_neg_r _ (i - k)), (Z.ones_spec_low k i), (Z.ones_spec_low (h + k) i) by lia.
    done.
  - rewrite Z.shiftr_spec, (Z.ones_spec_high k i) by lia.
    replace (i - k + k) with i by lia. rewrite andb_false_r, orb_false_r. f_equal.
    destruct (Z.ltb_spec i (h + k)).
    + by rewrite !Z.ones_spec_low by lia.
    + by rewrite !Z.ones_spec_high by lia.
Qed.

Lemma holds_ip_view pkt af info l n protocol :
  af = AF_INET \/ af = AF_INET6 ->
  pk_ipv4 pkt = (if af =? AF_INET then Some 0 else None) ->
  pk_ipv6 pkt = (if af =? AF_INET then None else Some 0) ->
  holds (pk_buffer pkt) (l ++ ip_full af info n protocol) -> ip_view pkt af info.
Proof.
  intros Haf H4 H6 Hl. apply holds_ip_full in Hl. apply Forall_app in Hl as [Hl _].
  apply Forall_app in Hl as [_ Hl].
  change (holds (pk_buffer pkt) (info_members af (tos_value (info_tos info)) (info_flow_label info) (info_ttl info))) in Hl.
  unfold ip_view. destruct Haf as [-> | ->]; cbn [AF_INET AF_INET6 Z.eqb Pos.eqb] in *; exists 0;
    (split; [done|]).
  - split; member Hl.
  - unfold ipv6_tos_byte, ipv6_flow_label, ipv6_hoplimit_byte.
    set (b := pk_buffer pkt) in *. set (tos := u8 (tos_value (info_tos info))). set (fl := u32 (info_flow_label info)).
    assert (rd b 0 ipv6_traffic_class_hi = Ok (Z.shiftr tos 4)) as -> by member Hl.
    assert (rd b 0 ipv6_traffic_class_lo = Ok (Z.land tos 0x0f)) as -> by member Hl.
    assert (rd b 0 ipv6_flow_label_hi = Ok (Z.land (Z.shiftr fl 16) 0xf)) as -> by member Hl.
    assert (rd b 0 ipv6_flow_label_lo = Ok (htons (Z.land fl 0xffff))) as -> by member Hl.
    rewrite !bind_Ok_eq. split_and!; [..|member Hl]; f_equal.
    + assert (Z.shiftr tos 4 = Z.land (Z.shiftr tos 4) (Z.ones 4)) as ->.
      { rewrite Z.land_ones by lia. symmetry. apply Z.mod_small. apply u8_shiftr_range. }
      change 0x0f with (Z.ones 4). rewrite lor_hi_lo by lia. apply Z.mod_small. apply u8_range.
    + pose proof (land_ones_range fl 16 ltac:(lia)). change (Z.ones 16) with 0xffff in *.
      unfold htons. rewrite ntohs_invol by done. rewrite Z.lor_comm.
      change 0xffff with (Z.ones 16). change 0xf with (Z.ones 4). rewrite lor_hi_lo by lia.
      unfold fl, u32. change 4294967296 with (2 ^ 12 * 2 ^ 20). change (2 ^ (4 + 16)) with (2 ^ 20).
      rewrite Z.mul_comm, Z.rem_mul_r by lia. rewrite Z.mul_comm, Z.mod_add by lia.
      by rewrite Z.mod_mod by lia.
Qed.

Lemma fmap_rd (f : Z -> Z) b p m v w : rd b p m = Ok v -> f v = w -> f <$> rd b p m = Ok w.
Proof. intros -> <-. done. Qed.

Lemma built_tcp_view `{Malloc} af direction info sp dp flags seq pl ack win urg options pkt :
  af = AF_INET \/ af = AF_INET6 -> 0 <= pl -> options_arg_ok options ->
  segment_len af pl options < 65536 ->
  0 <= sp < 65536 -> 0 <= dp < 65536 -> 0 <= seq < 4294967296 -> 0 <= ack < 4294967296 ->
  0 <= urg < 65536 ->
  built_tcp af direction info sp dp flags seq pl ack win urg options pkt ->
  ip_view pkt af info /\ tcp_view pkt sp dp flags seq ack win urg pl (option_bytes options).
Proof.
  intros Haf Hpl Hopt Hfit Hsp Hdp Hseq Hack Hurg
    (Hb&Hz&HB&Hi&Hl2&_&_&Hh&Ht&H4&H6&Hl&Ho).
  split; [by eapply holds_ip_view|].
  destruct (option_bytes_len options Hopt) as (_&Hor&Hom).
  apply Forall_app in Hl as [Hl _]. set (base := ip_len af) in *.
  change (holds (pk_buffer pkt) (tcp_members base sp dp flags seq ack win urg (tcp_len options / 4))) in Hl.
  exists base. unfold prd. pose proof (u16_range win).
  assert (Hd : rd (pk_buffer pkt) base tcp_doff = Ok (tcp_len options / 4)) by member Hl.
  split_and!; [done|..|done].
  1-6: (eapply fmap_rd; [member Hl|]); unfold htons, htonl;
    try (destruct (win =? -1); [reflexivity|]); apply ntohs_invol || apply ntohl_invol; lia.
  1-8: member Hl.
  assert (Hs : packet_start pkt = Ok 0) by (unfold packet_start; by rewrite Hh).
  unfold packet_payload_len, packet_end. rewrite Hs, !bind_Ok_eq. unfold packet_payload. rewrite Ht.
  unfold packet_tcp_header_len. rewrite Ht. simpl assert_ptr. rewrite bind_Ok_eq.
  unfold prd. rewrite Hd, !bind_Ok_eq, Hi. f_equal.
  assert (tcp_len options / 4 * 4 = tcp_len options) as -> by (unfold tcp_len; zlia).
  unfold segment_len in *. fold base. rewrite s32_small; [lia|].
  assert (0 < base) by (unfold base; destruct Haf as [-> | ->]; reflexivity).
  unfold tcp_len in *. fold base in Hfit. lia.
Qed.

Lemma built_tcp_parses `{Malloc} af direction info sp dp flags seq pl ack win urg options pkt :
  af = AF_INET \/ af = AF_INET6 -> 0 <= pl -> options_arg_ok options ->
  segment_len af pl options < 65536 ->
  built_tcp af direction info sp dp flags seq pl ack win urg options pkt ->
  exists pkt', reparse pkt = Ok (pkt', PACKET_OK) /\ same_view pkt' pkt.
Proof.
  intros Haf Hpl Hopt Hfit (Hb&Hz&HB&Hi&Hl2&_&(Hu&_)&Hh&Ht&H4&H6&Hl&Ho).
  pose proof (holds_ip_full _ _ _ _ _ _ Hl) as Hl'.
  destruct (option_bytes_len options Hopt) as (_&Hor&Hom).
  set (n := segment_len af pl options) in *. set (b := pk_buffer pkt) in *.
  assert (Hhl : tcp_len options mod 4 = 0) by (unfold tcp_len; zlia).
  assert (H20 : 20 <= tcp_len options) by (unfold tcp_len; lia).
  assert (Hd : rd b (ip_len af) tcp_doff = Ok (tcp_len options / 4)).
  { apply Forall_app in Hl as [Hl _]. member Hl. }
  unfold reparse, parse_packet. rewrite HB. fold b.
  change (pk_buffer_bytes (set_pk_buffer b (packet_new n))) with n.
  assert (Hn : ip_len af + tcp_len options <= n) by (unfold n, segment_len; lia).
  rewrite u32_small by (unfold ip_len in *; destruct (af =? AF_INET); lia).
  destruct (Z.leb_spec n n); [|lia]. simpl c_assert. rewrite bind_Ok_eq.
  destruct Haf as [-> | ->].
  - rewrite (parse_built_v4 _ b n n (tcp_len options) _ eq_refl Hb Hz (Z.le_refl n) Hfit Hn H20 Hhl Hl' Hd).
    rewrite bind_Ok_eq. eexists. split; [reflexivity|]. unfold same_view. simpl.
    rewrite Hh, Hi, H4, H6, Ht, Hu. split_and!; try reflexivity.
    do 4 f_equal. unfold n, segment_len, ip_len. simpl. lia.
  - rewrite (parse_built_v6 _ b n (tcp_len options) _ eq_refl Hb Hz Hfit Hn H20 Hhl Hl' Hd).
    rewrite bind_Ok_eq. eexists. split; [reflexivity|]. unfold same_view. simpl.
    rewrite Hh, Hi, H4, H6, Ht, Hu. split_and!; try reflexivity.
    do 4 f_equal. unfold n, segment_len, ip_len. simpl. lia.
Qed.

Lemma ip_view_same p q af info : same_view p q -> ip_view q af info -> ip_view p af info.
Proof. intros (Hb&_&_&H4&H6&_). unfold ip_view. by rewrite Hb, H4, H6. Qed.

Lemma tcp_view_same p q sp dp flags seq ack win urg pl opts :
  same_view p q -> tcp_view q sp dp flags seq ack win urg pl opts ->
  tcp_view p sp dp flags seq ack win urg pl opts.
Proof.
  intros (Hb&Hi&Hh&_&_&Ht&_) (t&Htq&Hv). exists t. rewrite Ht. unfold prd in *.
  assert (packet_payload_len p = packet_payload_len q) as ->.
  { unfold packet_payload_len, packet_end, packet_start, packet_payload, packet_tcp_header_len,
      prd. rewrite Hb, Hi, Hh, Ht, Htq. done. }
  rewrite Hb. done.
Qed.

(** C3. A TCP segment round-trips through the builder and the parser: for IPv4 and
    IPv6, any type of service, flow label and TTL, ports, sequence numbers, window,
    urgent pointer, payload length, flag string of valid characters and 4-byte-padded
    options whose packet is shorter than 64 KB (the 16-bit IP length), [new_tcp_packet]
    builds a packet; [parse_packet] accepts its bytes, finds the same headers, lengths and
    pointers the builder recorded, and what it finds has exactly the given type of service,
    TTL (255 for the 0 of a script that gives none) and, over IPv6, the low 20 bits of the
    flow label ([ip_view]); and the given ports, numbers, window, urgent pointer, each of
    the eight flags set if and only if its character is given, the options and the
    payload length ([tcp_view]). *)
Theorem new_tcp_packet_roundtrip `{Malloc} (af : Z) (direction : direction_t) (info : ip_info)
    (sp dp : Z) (flags : string) (seq pl ack win urg : Z) (options : option tcp_options) :
  af = AF_INET \/ af = AF_INET6 -> 0 <= pl -> options_arg_ok options ->
  segment_len af pl options < 65536 ->
  is_tcp_flags_spec_valid flags = None -> win <> -1 \/ direction <> DIRECTION_INBOUND ->
  0 <= sp < 65536 -> 0 <= dp < 65536 -> 0 <= seq < 4294967296 -> 0 <= ack < 4294967296 ->
  0 <= urg < 65536 ->
  exists pkt pkt',
    new_tcp_packet af direction info sp dp flags seq pl ack win urg options = Ok (Success pkt) /\
    reparse pkt = Ok (pkt', PACKET_OK) /\ same_view pkt' pkt /\ ip_view pkt' af info /\
    tcp_view pkt' sp dp flags seq ack win urg pl (option_bytes options).
Proof.
  intros Haf Hpl Hopt Hfit Hfl Hwin Hsp Hdp Hseq Hack Hurg.
  destruct (new_tcp_spec af direction info sp dp flags seq pl ack win urg options
    Haf Hpl Hopt Hfl Hwin Hfit) as (pkt&E&Hbuilt).
  pose proof (built_tcp_view _ _ _ _ _ _ _ _ _ _ _ _ _ Haf Hpl Hopt Hfit Hsp Hdp Hseq Hack Hurg
    Hbuilt) as [Hi Hv].
  destruct (built_tcp_parses _ _ _ _ _ _ _ _ _ _ _ _ _ Haf Hpl Hopt Hfit Hbuilt)
    as (pkt'&E'&Hsame).
  exists pkt, pkt'. do 3 (split; [done|]). split; [by eapply ip_view_same|by eapply tcp_view_same].
Qed.

Definition sample_info : ip_info := mk_ip_info (mk_tos TOS_CHECK_NONE 0) 0 64.
Definition marked_info : ip_info := mk_ip_info (mk_tos TOS_CHECK_NONE 0xb8) 0x12345 7.

Lemma new_tcp_packet_roundtrip_witness :
  exists pkt pkt',
    @new_tcp_packet zero_malloc AF_INET6 DIRECTION_INBOUND marked_info 1000 80 "SP.EW" 7 10 9 200 0
      None = Ok (Success pkt) /\
    @reparse zero_malloc pkt = Ok (pkt', PACKET_OK) /\ same_view pkt' pkt /\ ip_view pkt' AF_INET6 marked_info /\
    tcp_view pkt' 1000 80 "SP.EW" 7 9 200 0 10 [].
Proof.
  apply (@new_tcp_packet_roundtrip zero_malloc AF_INET6 DIRECTION_INBOUND marked_info 1000 80
    "SP.EW" 7 10 9 200 0 None).
  - right. reflexivity.
  - discriminate.
  - exact I.
  - reflexivity.
  - reflexivity.
  - left. discriminate.
  - split; [discriminate|reflexivity].
  - split; [discriminate|reflexivity].
  - split; [discriminate|reflexivity].
  - split; [discriminate|reflexivity].
  - split; [discriminate|reflexivity].
Defined.

Definition rejected (r : exec (packet * packet_parse_result_t)) : bool :=
  match r with Ok (_, PACKET_BAD _) => true | _ => false end.

(** The largest segment the sanity check of [new_tcp_packet] admits, 64 KB, does
    not fit the 16-bit length of an IP header: over IPv4 the builder returns a
    packet whose length field is 0 and which the parser rejects; over IPv6 the
    builder itself dies in an assertion. *)
Theorem new_tcp_packet_64k :
  (exists pkt, @new_tcp_packet zero_malloc AF_INET DIRECTION_INBOUND sample_info 1000 80 "." 7
      65496 9 200 0 None = Ok (Success pkt) /\
    pk_ip_bytes pkt = MAX_TCP_DATAGRAM_BYTES /\ prd pkt 0 ipv4_tot_len = Ok 0 /\
    rejected (parse_layer3_packet PARSE_FUEL
      (set_pk_buffer (pk_buffer pkt) (@packet_new zero_malloc (pk_buffer_bytes pkt))) 0 65536)
    = true) /\
  @new_tcp_packet zero_malloc AF_INET6 DIRECTION_INBOUND sample_info 1000 80 "." 7
    65476 9 200 0 None = Fault AssertFailed.
Proof.
  split; [|vm_compute; reflexivity].
  assert (match @new_tcp_packet zero_malloc AF_INET DIRECTION_INBOUND sample_info 1000 80 "." 7
      65496 9 200 0 None with
    | Ok (Success pkt) => (pk_ip_bytes pkt =? MAX_TCP_DATAGRAM_BYTES) &&
        bool_decide (prd pkt 0 ipv4_tot_len = Ok 0) &&
        rejected (parse_layer3_packet PARSE_FUEL
          (set_pk_buffer (pk_buffer pkt) (@packet_new zero_malloc (pk_buffer_bytes pkt))) 0 65536)
    | _ => false end = true) as H by (vm_compute; reflexivity).
  destruct (@new_tcp_packet zero_malloc AF_INET DIRECTION_INBOUND sample_info 1000 80 "." 7
    65496 9 200 0 None) as [[pkt|]|]; [|discriminate..].
  exists pkt. split; [reflexivity|]. apply andb_true_iff in H as [H Hr].
  apply andb_true_iff in H as [Hi Ht]. apply Z.eqb_eq in Hi. apply bool_decide_eq_true in Ht.
  done.
Qed.
