(* ===== verification/IcmpPacket.v ===== *)
(** * IcmpPacket: building ICMP packets (icmp_packet.c)

    The tables of ICMP types and codes, the parsing of a type and a code given by name or
    by number, and new_icmp_packet; then that what it builds is what the parser finds. *)

From S2P Require Import Prelude Headers Packet PacketParser Checksum IpAddress IpPacket TcpOptions Script TcpPacket.

(** ** Types and codes *)

(** [icmp.h:63-75] ICMP_ECHOREPLY and the other types *)
Definition ICMP_ECHOREPLY : Z := 0.
Definition ICMP_DEST_UNREACH : Z := 3.
Definition ICMP_SOURCE_QUENCH : Z := 4.
Definition ICMP_REDIRECT : Z := 5.
Definition ICMP_ECHO : Z := 8.
Definition ICMP_TIME_EXCEEDED : Z := 11.
Definition ICMP_PARAMETERPROB : Z := 12.
Definition ICMP_TIMESTAMP : Z := 13.
Definition ICMP_TIMESTAMPREPLY : Z := 14.
Definition ICMP_INFO_REQUEST : Z := 15.
Definition ICMP_INFO_REPLY : Z := 16.
Definition ICMP_ADDRESS : Z := 17.
Definition ICMP_ADDRESSREPLY : Z := 18.

(** [icmp.h:79-94] ICMP_NET_UNREACH and the other codes *)
Definition ICMP_NET_UNREACH : Z := 0.
Definition ICMP_HOST_UNREACH : Z := 1.
Definition ICMP_PROT_UNREACH : Z := 2.
Definition ICMP_PORT_UNREACH : Z := 3.
Definition ICMP_FRAG_NEEDED : Z := 4.
Definition ICMP_SR_FAILED : Z := 5.
Definition ICMP_NET_UNKNOWN : Z := 6.
Definition ICMP_HOST_UNKNOWN : Z := 7.
Definition ICMP_HOST_ISOLATED : Z := 8.
Definition ICMP_NET_ANO : Z := 9.
Definition ICMP_HOST_ANO : Z := 10.
Definition ICMP_NET_UNR_TOS : Z := 11.
Definition ICMP_HOST_UNR_TOS : Z := 12.
Definition ICMP_PKT_FILTERED : Z := 13.
Definition ICMP_PREC_VIOLATION : Z := 14.
Definition ICMP_PREC_CUTOFF : Z := 15.

(** [icmpv6.h:58-63] ICMPV6_DEST_UNREACH and the other types *)
Definition ICMPV6_DEST_UNREACH : Z := 1.
Definition ICMPV6_PKT_TOOBIG : Z := 2.
Definition ICMPV6_TIME_EXCEED : Z := 3.
Definition ICMPV6_PARAMPROB : Z := 4.
Definition ICMPV6_ECHO_REQUEST : Z := 128.
Definition ICMPV6_ECHO_REPLY : Z := 129.

(** [icmpv6.h:66-79] ICMPV6_NOROUTE and the other codes *)
Definition ICMPV6_NOROUTE : Z := 0.
Definition ICMPV6_ADM_PROHIBITED : Z := 1.
Definition ICMPV6_NOT_NEIGHBOUR : Z := 2.
Definition ICMPV6_ADDR_UNREACH : Z := 3.
Definition ICMPV6_PORT_UNREACH : Z := 4.
Definition ICMPV6_EXC_HOPLIMIT : Z := 0.
Definition ICMPV6_EXC_FRAGTIME : Z := 1.
Definition ICMPV6_HDR_FIELD : Z := 0.
Definition ICMPV6_UNK_NEXTHDR : Z := 1.
Definition ICMPV6_UNK_OPTION : Z := 2.

(** [icmp_packet.c:32-35] struct icmp_code_info *)
Record icmp_code_info := mk_code { code_byte : Z; code_string : string }.

(** [icmp_packet.c:38-42] struct icmp_type_info *)
Record icmp_type_info := mk_type {
  type_byte : Z;
  type_string : string;
  code_table : option (list icmp_code_info)
}.

(** [icmp_packet.c:45-63] icmpv4_unreachable_codes, up to the sentinel *)
Definition icmpv4_unreachable_codes : list icmp_code_info := [
  mk_code ICMP_NET_UNREACH "net_unreachable"; mk_code ICMP_HOST_UNREACH "host_unreachable";
  mk_code ICMP_PROT_UNREACH "protocol_unreachable"; mk_code ICMP_PORT_UNREACH "port_unreachable";
  mk_code ICMP_FRAG_NEEDED "frag_needed"; mk_code ICMP_SR_FAILED "source_route_failed";
  mk_code ICMP_NET_UNKNOWN "net_unknown"; mk_code ICMP_HOST_UNKNOWN "host_unknown";
  mk_code ICMP_HOST_ISOLATED "source_host_isolated"; mk_code ICMP_NET_ANO "net_prohibited";
  mk_code ICMP_HOST_ANO "host_prohibited"; mk_code ICMP_NET_UNR_TOS "net_unreachable_for_tos";
  mk_code ICMP_HOST_UNR_TOS "host_unreachable_for_tos"; mk_code ICMP_PKT_FILTERED "packet_filtered";
  mk_code ICMP_PREC_VIOLATION "precedence_violation"; mk_code ICMP_PREC_CUTOFF "precedence_cutoff"
]%string.

(** [icmp_packet.c:66-81] icmpv4_types, up to the sentinel *)
Definition icmpv4_types : list icmp_type_info := [
  mk_type ICMP_ECHOREPLY "echo_reply" None;
  mk_type ICMP_DEST_UNREACH "unreachable" (Some icmpv4_unreachable_codes);
  mk_type ICMP_SOURCE_QUENCH "source_quench" None; mk_type ICMP_REDIRECT "redirect" None;
  mk_type ICMP_ECHO "echo_request" None; mk_type ICMP_TIME_EXCEEDED "time_exceeded" None;
  mk_type ICMP_PARAMETERPROB "parameter_problem" None;
  mk_type ICMP_TIMESTAMP "timestamp_request" None; mk_type ICMP_TIMESTAMPREPLY "timestamp_reply" None;
  mk_type ICMP_INFO_REQUEST "information_request" None; mk_type ICMP_INFO_REPLY "information_reply" None;
  mk_type ICMP_ADDRESS "address_mask_request" None; mk_type ICMP_ADDRESSREPLY "address_mask_reply" None
]%string.

(** [icmp_packet.c:84-92] icmpv6_unreachable_codes, up to the sentinel *)
Definition icmpv6_unreachable_codes : list icmp_code_info := [
  mk_code ICMP_NET_UNREACH "net_unreachable"; mk_code ICMPV6_NOROUTE "no_route";
  mk_code ICMPV6_ADM_PROHIBITED "admin_prohibited"; mk_code ICMPV6_NOT_NEIGHBOUR "not_neighbour";
  mk_code ICMPV6_ADDR_UNREACH "address_unreachable"; mk_code ICMPV6_PORT_UNREACH "port_unreachable"
]%string.

(** [icmp_packet.c:95-99] icmpv6_time_exceed_codes, up to the sentinel *)
Definition icmpv6_time_exceed_codes : list icmp_code_info := [
  mk_code ICMPV6_EXC_HOPLIMIT "exceeded_hop_limit"; mk_code ICMPV6_EXC_FRAGTIME "exceeded_frag_time"
]%string.

(** [icmp_packet.c:102-107] icmpv6_paramprob_codes, up to the sentinel *)
Definition icmpv6_paramprob_codes : list icmp_code_info := [
  mk_code ICMPV6_HDR_FIELD "header_field"; mk_code ICMPV6_UNK_NEXTHDR "unknown_next_header";
  mk_code ICMPV6_UNK_OPTION "unknown_option"
]%string.

(** [icmp_packet.c:110-118] icmpv6_types, up to the sentinel *)
Definition icmpv6_types : list icmp_type_info := [
  mk_type ICMPV6_DEST_UNREACH "unreachable" (Some icmpv6_unreachable_codes);
  mk_type ICMPV6_PKT_TOOBIG "packet_too_big" None;
  mk_type ICMPV6_TIME_EXCEED "time_exceeded" (Some icmpv6_time_exceed_codes);
  mk_type ICMPV6_PARAMPROB "parameter_problem" (Some icmpv6_paramprob_codes);
  mk_type ICMPV6_ECHO_REQUEST "echo_request" None; mk_type ICMPV6_ECHO_REPLY "echo_reply" None
]%string.

(** [icmp_packet.c:121-130] icmp_protocol *)
Definition icmp_protocol (address_family : Z) : exec Z :=
  if address_family =? AF_INET then Ok IPPROTO_ICMP
  else if address_family =? AF_INET6 then Ok IPPROTO_ICMPV6
  else Fault AssertFailed.

(** [icmp_packet.c:133-142] icmp_header_len *)
Definition icmp_header_len (address_family : Z) : exec Z :=
  if address_family =? AF_INET then Ok sizeof_icmpv4
  else if address_family =? AF_INET6 then Ok sizeof_icmpv6
  else Fault AssertFailed.

(** The number that [sscanf] reads for %d at the start of some characters: white space, a
    sign, at least one digit; a number that a long cannot hold saturates, and the result
    is stored in an int. *)
Fixpoint scan_digits (s : bytes) (acc : Z) : Z :=
  match s with
  | c :: s' => if (48 <=? c) && (c <=? 57) then scan_digits s' (10 * acc + (c - 48)) else acc
  | [] => acc
  end.
Definition starts_with_digit (s : bytes) : bool :=
  match s with c :: _ => (48 <=? c) && (c <=? 57) | [] => false end.
Fixpoint skip_spaces (s : bytes) : bytes :=
  match s with
  | c :: s' => if is_space c then skip_spaces s' else s
  | [] => []
  end.
Definition saturate (v : Z) : Z := Z.max (- 2 ^ 63) (Z.min (2 ^ 63 - 1) v).
Definition scan_int (s : bytes) : option Z :=
  let s := skip_spaces s in
  let '(sign, s) := match s with
                    | 45 :: s' => (-1, s')
                    | 43 :: s' => (1, s')
                    | _ => (1, s)
                    end in
  if starts_with_digit s then Some (s32 (saturate (sign * scan_digits s 0))) else None.

(** [sscanf(s, "<prefix>%d", &n)] for a prefix without white space. *)
Fixpoint scan_prefixed (prefix s : bytes) : option Z :=
  match prefix, s with
  | [], _ => scan_int s
  | c :: prefix', d :: s' => if c =? d then scan_prefixed prefix' s' else None
  | _ :: _, [] => None
  end.

(** [icmp_packet.c:233-284] parse_icmp_type_and_code: the loops over the tables have no
    break, so that the last entry of a name counts *)
Definition lookup_type (types : list icmp_type_info) (s : string)
    : Z * option (list icmp_code_info) :=
  foldl (fun r t => if bool_decide (s = type_string t) then (type_byte t, code_table t) else r)
    (-1, None) types.
Definition lookup_code (codes : list icmp_code_info) (s : string) : Z :=
  foldl (fun r c => if bool_decide (s = code_string c) then code_byte c else r) (-1) codes.
Definition parse_icmp_type_and_code (address_family : Z) (type_string : string)
    (code_string : option string) : exec (result (Z * Z)) :=
  icmp_types ← (if address_family =? AF_INET then Ok icmpv4_types
                else if address_family =? AF_INET6 then Ok icmpv6_types
                else Fault AssertFailed);
  let '(type, codes) := match scan_prefixed (string_bytes "type_") (string_bytes type_string) with
                        | Some n => (n, None)
                        | None => lookup_type icmp_types type_string
                        end in
  if negb (is_valid_u8 type) then Ok (Failure ("bad ICMP type " +:+ type_string))
  else
  let code := match code_string with
              | None => 0
              | Some s =>
                  match scan_prefixed (string_bytes "code_") (string_bytes s) with
                  | Some n => n
                  | None => match codes with Some t => lookup_code t s | None => -1 end
                  end
              end in
  if negb (is_valid_u8 code) then
    Ok (Failure ("bad ICMP code " +:+ default "(null)"%string code_string))
  else Ok (Success (type, code)).

(** ** The header *)

(** [icmp_packet.c:145-169] set_icmpv4_header *)
Definition set_icmpv4_header (pkt : packet) (icmpv4 type code mtu echo_id : Z)
    : exec (result packet) :=
  pkt ← pwr pkt icmpv4 icmpv4_type type;
  pkt ← pwr pkt icmpv4 icmpv4_code code;
  pkt ← pwr pkt icmpv4 icmpv4_checksum (htons 0);
  r ← (if 0 <=? mtu then
         if negb (type =? ICMP_DEST_UNREACH) || negb (code =? ICMP_FRAG_NEEDED) then
           Ok (Failure "ICMPv4 MTU is only valid for unreachable-frag_needed")
         else if negb (is_valid_u16 mtu) then Ok (Failure "ICMPv4 MTU out of 16-bit range")
         else Success <$> pwr pkt icmpv4 icmpv4_frag_mtu (htons mtu)
       else Ok (Success pkt));
  match r with
  | Failure error => Ok (Failure error)
  | Success pkt =>
      if 0 <? echo_id then Success <$> pwr pkt icmpv4 icmpv4_echo_id (htons echo_id)
      else Ok (Success pkt)
  end.

(** [icmp_packet.c:172-196] set_icmpv6_header *)
Definition set_icmpv6_header (pkt : packet) (icmpv6 type code mtu echo_id : Z)
    : exec (result packet) :=
  pkt ← pwr pkt icmpv6 icmpv6_type type;
  pkt ← pwr pkt icmpv6 icmpv6_code code;
  pkt ← pwr pkt icmpv6 icmpv6_checksum (htons 0);
  r ← (if 0 <=? mtu then
         if negb (type =? ICMPV6_PKT_TOOBIG) || negb (code =? 0) then
           Ok (Failure "ICMPv6 MTU is only valid for packet_too_big-0")
         else if negb (is_valid_u32 mtu) then Ok (Failure "ICMPv6 MTU out of 32-bit range")
         else Success <$> pwr pkt icmpv6 icmpv6_packet_too_big_mtu (htonl mtu)
       else Ok (Success pkt));
  match r with
  | Failure error => Ok (Failure error)
  | Success pkt =>
      if 0 <? echo_id then Success <$> pwr pkt icmpv6 icmpv6_u_echo_identifier (htons echo_id)
      else Ok (Success pkt)
  end.

(** [icmp_packet.c:199-226] set_packet_icmp_header *)
Definition set_packet_icmp_header (pkt : packet) (icmp address_family icmp_bytes type code mtu
    echo_id : Z) : exec (result packet) :=
  if address_family =? AF_INET then
    let pkt := set_pk_icmpv4 (Some icmp) pkt in
    _ ← c_assert (bool_decide (pk_icmpv6 pkt = None));
    '(pkt, icmp_header) ← packet_append_header pkt HEADER_ICMPV4 sizeof_icmpv4;
    i ← deref icmp_header;
    set_icmpv4_header (set_header_total i icmp_bytes pkt) icmp type code mtu echo_id
  else if address_family =? AF_INET6 then
    let pkt := set_pk_icmpv6 (Some icmp) pkt in
    _ ← c_assert (bool_decide (pk_icmpv4 pkt = None));
    '(pkt, icmp_header) ← packet_append_header pkt HEADER_ICMPV6 sizeof_icmpv6;
    i ← deref icmp_header;
    set_icmpv6_header (set_header_total i icmp_bytes pkt) icmp type code mtu echo_id
  else Fault AssertFailed.

Definition IPPROTO_RAW : Z := 255.

(** [icmp_packet.c:384-397] the copy of the outbound packet in new_icmp_packet: its IP
    header, and the sequence number of a TCP header *)
Definition set_echoed_header (pkt : packet) (address_family ip_fixed_bytes protocol
    tcp_start_sequence payload_bytes : Z) : exec packet :=
  echoed_ip ← packet_echoed_ip_header pkt;
  layer4 ← layer4_header_len protocol;
  let echoed_ip_bytes := s32 (ip_fixed_bytes + layer4 + payload_bytes) in
  b ← set_ip_header (pk_buffer pkt) echoed_ip address_family echoed_ip_bytes 0 0 0 protocol;
  let pkt := set_pk_buffer b pkt in
  pkt ← (if protocol =? IPPROTO_TCP then
           seq ← packet_echoed_tcp_seq pkt;
           b ← st32 (pk_buffer pkt) seq (htonl tcp_start_sequence);
           Ok (set_pk_buffer b pkt)
         else Ok pkt);
  Ok (set_pk_echoed_header true pkt).

(** [icmp_packet.c:286-406] new_icmp_packet: [mtu] and [echo_id] are s64, -1 standing for
    no MTU; a length below 0 is a size that memset takes as huge *)
Definition new_icmp_packet `{Malloc} (address_family : Z) (direction : direction_t)
    (type_string : string) (code_string : option string) (protocol tcp_start_sequence
    payload_bytes : Z) (info : ip_info) (mtu echo_id : Z) : exec (result packet) :=
  ip_fixed_bytes ← ip_header_min_len address_family;
  let ip_header_bytes := ip_fixed_bytes + 0 in
  header_len ← icmp_header_len address_family;
  let '(echoed_bytes, icmp_bytes, ip_bytes) :=
    if (protocol =? IPPROTO_TCP) || (protocol =? IPPROTO_UDP) then
      let echoed_bytes := ip_fixed_bytes + ICMP_ECHO_BYTES in
      let icmp_bytes := header_len + echoed_bytes in
      (echoed_bytes, icmp_bytes, ip_header_bytes + icmp_bytes)
    else if protocol =? IPPROTO_RAW then
      (0, s32 payload_bytes, s32 (ip_header_bytes + payload_bytes))
    else (0, 0, 0) in
  if (echo_id <? 0) || (65535 <? echo_id) then
    Ok (Failure "invalid echo_id, must be between 0 and 65535")
  else
  _ ← c_assert (Z.land ip_header_bytes 0x3 =? 0);
  if icmp_bytes <? header_len then
    Ok (Failure ("icmp_bytes " +:+ dec icmp_bytes +:+ " smaller than icmp header length "
                 +:+ dec header_len))
  else
  r ← parse_icmp_type_and_code address_family type_string code_string;
  match r with
  | Failure error => Ok (Failure error)
  | Success (type, code) =>
      _ ← c_assert (is_valid_u8 type);
      _ ← c_assert (is_valid_u8 code);
      if ip_bytes <? 0 then Fault OutOfBounds else
      let pkt := packet_new ip_bytes in
      pkt ← pkt_memcpy pkt 0 (replicate (Z.to_nat ip_bytes) 0);
      let pkt := set_pk_direction direction pkt in
      let pkt := set_pk_flags 0 pkt in
      let pkt := set_pk_tos_chk (tos_check (info_tos info)) pkt in
      icmp ← icmp_protocol address_family;
      pkt ← set_packet_ip_header pkt address_family ip_bytes (tos_value (info_tos info))
              (info_flow_label info) (info_ttl info) icmp;
      start ← ip_start pkt;
      r ← set_packet_icmp_header pkt (start + ip_header_bytes) address_family icmp_bytes type code
            mtu echo_id;
      match r with
      | Failure error => Ok (Failure error)
      | Success pkt =>
          pkt ← (if negb (echoed_bytes =? 0) then
                   set_echoed_header pkt address_family ip_fixed_bytes protocol
                     tcp_start_sequence payload_bytes
                 else Ok (set_pk_echoed_header false pkt));
          Ok (Success (set_pk_ip_bytes ip_bytes pkt))
      end
  end.

(** ** What the builder writes *)

(** The members of an ICMP header at [base], as the script gave them. *)
Definition icmp_members (af base type code mtu echo_id : Z) : list (Z * field * Z) :=
  [(base, icmpv4_type, type); (base, icmpv4_code, code)] ++
  (if 0 <=? mtu then
     if af =? AF_INET then [(base, icmpv4_frag_mtu, htons mtu)]
     else if 0 <? echo_id then [] else [(base, icmpv6_packet_too_big_mtu, htonl mtu)]
   else []) ++
  (if 0 <? echo_id then [(base, icmpv4_echo_id, htons echo_id)] else []).

(** What set_icmpv4_header and set_icmpv6_header want of an MTU. *)
Definition mtu_ok (af type code mtu : Z) : Prop :=
  mtu < 0 \/
  if af =? AF_INET then type = ICMP_DEST_UNREACH /\ code = ICMP_FRAG_NEEDED /\ mtu < 65536
  else type = ICMPV6_PKT_TOOBIG /\ code = 0 /\ mtu < 4294967296.

Lemma fmap_Ok_eq {A B} (f : A -> B) a : f <$> Ok a = Ok (f a).
Proof. reflexivity. Qed.

Lemma valid_u16 x : 0 <= x < 65536 -> is_valid_u16 x = true.
Proof. intros. unfold is_valid_u16. destruct (Z.leb_spec 0 x), (Z.leb_spec x 65535); (done || lia). Qed.
Lemma valid_u32 x : 0 <= x < 4294967296 -> is_valid_u32 x = true.
Proof. intros. unfold is_valid_u32. destruct (Z.leb_spec 0 x), (Z.leb_spec x 4294967295); (done || lia). Qed.

(** The members written, from the list that the writes have left. *)
Ltac finish_members :=
  eexists; split; [reflexivity|]; split; [done|]; split; [done|];
  unfold htons, htonl, is_byte in *; simpl field_mod in *;
  rewrite ?Z.mod_small in * by (done || lia); subst; cbn [app]; pick_members.

Lemma set_icmpv4_spec pkt b n info m type code mtu echo_id :
  pk_buffer pkt = b -> bytes_ok b -> zlen b = n -> 28 <= n ->
  holds b (ip_full AF_INET info m IPPROTO_ICMP) ->
  is_byte type -> is_byte code -> mtu_ok AF_INET type code mtu ->
  exists b', set_icmpv4_header pkt 20 type code mtu echo_id = Ok (Success (set_pk_buffer b' pkt)) /\
    bytes_ok b' /\ zlen b' = n /\
    holds b' (icmp_members AF_INET 20 type code mtu echo_id ++ ip_full AF_INET info m IPPROTO_ICMP).
Proof.
  intros Hpb Hb Hn Hlen Hl Ht Hc Hm. unfold set_icmpv4_header, icmp_members, ip_full, info_members, ip_members in *.
  destruct pkt. simpl in Hpb. subst pk_buffer. change (AF_INET =? AF_INET) with true in *. cbv iota in *.
  pose proof (ntohs_range mtu); pose proof (ntohs_range echo_id). do 3 pwr_step.
  destruct (Z.leb_spec 0 mtu) as [Hmtu|Hmtu].
  - destruct Hm as [?|(->&->&Hr)]; [lia|]. cbn [Z.eqb Pos.eqb negb orb ICMP_DEST_UNREACH ICMP_FRAG_NEEDED].
    rewrite valid_u16 by lia. cbn [negb]. pwr_step. rewrite fmap_Ok_eq, bind_Ok_eq.
    destruct (0 <? echo_id); [pwr_step; rewrite fmap_Ok_eq|]; finish_members.
  - rewrite bind_Ok_eq. destruct (0 <? echo_id); [pwr_step; rewrite fmap_Ok_eq|]; finish_members.
Qed.

Lemma set_icmpv6_spec pkt b n info m type code mtu echo_id :
  pk_buffer pkt = b -> bytes_ok b -> zlen b = n -> 48 <= n ->
  holds b (ip_full AF_INET6 info m IPPROTO_ICMPV6) ->
  is_byte type -> is_byte code -> mtu_ok AF_INET6 type code mtu ->
  exists b', set_icmpv6_header pkt 40 type code mtu echo_id = Ok (Success (set_pk_buffer b' pkt)) /\
    bytes_ok b' /\ zlen b' = n /\
    holds b' (icmp_members AF_INET6 40 type code mtu echo_id ++ ip_full AF_INET6 info m IPPROTO_ICMPV6).
Proof.
  intros Hpb Hb Hn Hlen Hl Ht Hc Hm. unfold set_icmpv6_header, icmp_members, ip_full, info_members, ip_members in *.
  destruct pkt. simpl in Hpb. subst pk_buffer. change (AF_INET6 =? AF_INET) with false in *. cbv iota in *.
  pose proof (ntohl_range mtu); pose proof (ntohs_range echo_id). do 3 pwr_step.
  destruct (Z.leb_spec 0 mtu) as [Hmtu|Hmtu].
  - destruct Hm as [?|(->&->&Hr)]; [lia|]. cbn [Z.eqb Pos.eqb negb orb ICMPV6_PKT_TOOBIG].
    rewrite valid_u32 by lia. cbn [negb]. pwr_step. rewrite fmap_Ok_eq, bind_Ok_eq.
    destruct (0 <? echo_id); [pwr_step; rewrite fmap_Ok_eq|]; finish_members.
  - rewrite bind_Ok_eq. destruct (0 <? echo_id); [pwr_step; rewrite fmap_Ok_eq|]; finish_members.
Qed.

(** An address cleared past the members. *)
Ltac zero_address :=
  match goal with
  | Hb : bytes_ok ?c, Hn : zlen ?c = ?n, Hl : holds ?c ?l |- context [put_bytes ?c ?o ?s] =>
      let c' := fresh "c" in
      destruct (holds_put_after c n l o s Hb Hn Hl (zeroes_ok 16) ltac:(done)
        ltac:(unfold zlen, ipv6_src_ip, ipv6_dst_ip; simpl; lia) eq_refl)
        as (c'&->&?&?&?&_); clear Hb Hn Hl; rewrite ?bind_Ok_eq
  end.

(** The bytes of the echoed header, past the members of the ICMP message. *)
Lemma set_echoed_v4 b info m type code mtu echo_id ip_bytes protocol :
  bytes_ok b -> zlen b = 56 -> 0 <= protocol < 256 ->
  holds b (icmp_members AF_INET 20 type code mtu echo_id ++ ip_full AF_INET info m IPPROTO_ICMP) ->
  exists b', set_ip_header b 28 AF_INET ip_bytes 0 0 0 protocol = Ok b' /\ bytes_ok b' /\ zlen b' = 56 /\
    holds b' ((28, ipv4_protocol, protocol) ::
              icmp_members AF_INET 20 type code mtu echo_id ++ ip_full AF_INET info m IPPROTO_ICMP).
Proof.
  intros Hb Hn Hp Hl. unfold set_ip_header, set_ipv4_header. cbn [AF_INET Z.eqb Pos.eqb]. unfold u8.
  rewrite (Z.mod_small protocol) by done. unfold icmp_members, ip_full, info_members, ip_members in *.
  change (AF_INET =? AF_INET) with true in *. cbv iota in *. change (0 mod 256) with 0. cbn [Z.eqb negb].
  destruct (0 <=? mtu), (0 <? echo_id); cbn [app] in *; do 11 wr_step; finish_members.
Qed.

Lemma set_echoed_v6 b info m type code mtu echo_id ip_bytes protocol :
  bytes_ok b -> zlen b = 96 -> 0 <= protocol < 256 -> 40 <= ip_bytes < 65536 ->
  holds b (icmp_members AF_INET6 40 type code mtu echo_id ++ ip_full AF_INET6 info m IPPROTO_ICMPV6) ->
  exists b', set_ip_header b 48 AF_INET6 ip_bytes 0 0 0 protocol = Ok b' /\ bytes_ok b' /\ zlen b' = 96 /\
    holds b' ((48, ipv6_next_header, protocol) ::
              icmp_members AF_INET6 40 type code mtu echo_id ++ ip_full AF_INET6 info m IPPROTO_ICMPV6).
Proof.
  intros Hb Hn Hp Hi Hl. unfold set_ip_header, set_ipv6_header. cbn [AF_INET6 AF_INET Z.eqb Pos.eqb]. unfold u8.
  rewrite (Z.mod_small protocol), u16_small by lia. unfold icmp_members, ip_full, info_members, ip_members in *.
  change (AF_INET6 =? AF_INET) with false in *. cbv iota in *. change (0 mod 256) with 0.
  change (u32 0) with 0. cbn [Z.eqb negb].
  destruct (Z.leb_spec sizeof_ipv6 ip_bytes); [|unfold sizeof_ipv6 in *; lia]. simpl c_assert.
  destruct (0 <=? mtu), (0 <? echo_id); cbn [app] in *; do 8 wr_step;
    do 2 zero_address; finish_members.
Qed.

(** The sequence number of the echoed TCP header, where the echo is of a TCP segment. *)
Definition echoed_seq (b : bytes) (af protocol seq : Z) : Prop :=
  protocol = IPPROTO_TCP -> get_bytes b (2 * ip_len af + 12) 4 = Ok (le_split 4 (htonl seq)).

Definition echo_len (af : Z) : Z := 2 * ip_len af + 16.
Definition echoed_protocol (af : Z) : field := if af =? AF_INET then ipv4_protocol else ipv6_next_header.

Definition icmp_type_of (af : Z) : header_t := if af =? AF_INET then HEADER_ICMPV4 else HEADER_ICMPV6.
Definition icmp_proto (af : Z) : Z := if af =? AF_INET then IPPROTO_ICMP else IPPROTO_ICMPV6.

Lemma echoed_tcp_seq_at pkt af :
  af = AF_INET \/ af = AF_INET6 ->
  pk_icmpv4 pkt = (if af =? AF_INET then Some (ip_len af) else None) ->
  pk_icmpv6 pkt = (if af =? AF_INET then None else Some (ip_len af)) ->
  rd (pk_buffer pkt) (ip_len af + 8) (echoed_protocol af) = Ok IPPROTO_TCP ->
  packet_echoed_tcp_seq pkt = Ok (2 * ip_len af + 12).
Proof.
  intros Haf H4 H6 Hr. unfold packet_echoed_tcp_seq, packet_echoed_tcp_header, packet_echoed_ip_protocol,
    packet_echoed_layer4_header, packet_echoed_ip_header, packet_echoed_ip_header_len,
    packet_echoed_ipv4_header, packet_echoed_ipv6_header, prd. rewrite H4, H6.
  destruct Haf as [-> | ->];
    [change (rd (pk_buffer pkt) (ip_len AF_INET + sizeof_icmpv4) ipv4_protocol = Ok IPPROTO_TCP) in Hr
    |change (rd (pk_buffer pkt) (ip_len AF_INET6 + sizeof_icmpv6) ipv6_next_header = Ok IPPROTO_TCP) in Hr];
    cbn [AF_INET AF_INET6 Z.eqb Pos.eqb fmap option_fmap option_map]; rewrite Hr; reflexivity.
Qed.

Lemma set_echoed_spec pkt b info m af type code mtu echo_id protocol seq payload :
  af = AF_INET \/ af = AF_INET6 -> protocol = IPPROTO_TCP \/ protocol = IPPROTO_UDP ->
  0 <= payload < 65000 ->
  pk_buffer pkt = b -> bytes_ok b -> zlen b = echo_len af ->
  pk_icmpv4 pkt = (if af =? AF_INET then Some (ip_len af) else None) ->
  pk_icmpv6 pkt = (if af =? AF_INET then None else Some (ip_len af)) ->
  holds b (icmp_members af (ip_len af) type code mtu echo_id ++ ip_full af info m (icmp_proto af)) ->
  exists b', set_echoed_header pkt af (ip_len af) protocol seq payload
      = Ok (set_pk_echoed_header true (set_pk_buffer b' pkt)) /\
    bytes_ok b' /\ zlen b' = echo_len af /\ echoed_seq b' af protocol seq /\
    holds b' ((ip_len af + 8, echoed_protocol af, protocol) ::
              icmp_members af (ip_len af) type code mtu echo_id ++ ip_full af info m (icmp_proto af)).
Proof.
  intros Haf Hp Hpl Hpb Hb Hn H4 H6 Hl. unfold set_echoed_header, packet_echoed_ip_header.
  rewrite H4, H6.
  assert (exists len, layer4_header_len protocol = Ok len /\ 0 <= len <= 20) as (len&->&Hlen)
    by (destruct Hp as [-> | ->]; eexists; (split; [reflexivity|unfold sizeof_tcp, sizeof_udp; lia])).
  assert (Hpr : 0 <= protocol < 256) by (by destruct Hp as [-> | ->]).
  assert (exists b1, set_ip_header b (ip_len af + 8) af (s32 (ip_len af + len + payload)) 0 0 0 protocol = Ok b1 /\
    bytes_ok b1 /\ zlen b1 = echo_len af /\
    holds b1 ((ip_len af + 8, echoed_protocol af, protocol) ::
              icmp_members af (ip_len af) type code mtu echo_id ++ ip_full af info m (icmp_proto af)))
    as (b1&E1&Hb1&Hn1&Hl1).
  { destruct Haf as [-> | ->].
    - by apply set_echoed_v4.
    - change (ip_len AF_INET6) with 40 in *. rewrite s32_small by lia. apply set_echoed_v6; (done || lia). }
  assert (match (if af =? AF_INET then Some (ip_len af) else None) with
    | Some icmpv4 => Ok (icmpv4 + sizeof_icmpv4)
    | None => match (if af =? AF_INET then None else Some (ip_len af)) with
              | Some icmpv6 => Ok (icmpv6 + sizeof_icmpv6)
              | None => Fault AssertFailed
              end
    end = Ok (ip_len af + 8)) as -> by (by destruct Haf as [-> | ->]).
  rewrite !bind_Ok_eq, Hpb, E1, bind_Ok_eq. clear E1 Hl Hb Hn.
  destruct Hp as [-> | ->]; cbn [IPPROTO_TCP IPPROTO_UDP Z.eqb Pos.eqb].
  - rewrite (echoed_tcp_seq_at (set_pk_buffer b1 pkt) af), bind_Ok_eq; try done.
    + destruct (holds_put_after b1 (echo_len af) _ (2 * ip_len af + 12) (le_split 4 (htonl seq)) Hb1 Hn1 Hl1)
        as (b2&E2&Hb2&Hn2&Hl2&G2); [apply le_split_ok|by destruct Haf as [-> | ->]..| |].
      { destruct Haf as [-> | ->]; unfold icmp_members; by destruct (0 <=? mtu), (0 <? echo_id). }
      unfold st32. change (pk_buffer (set_pk_buffer b1 pkt)) with b1. rewrite E2, !bind_Ok_eq.
      exists b2. split; [done|]. split; [done|]. split; [done|]. split; [by intros _|done].
    + eapply holds_rd; [exact Hl1|left].
  - rewrite bind_Ok_eq. exists b1. do 3 (split; [done|]). split; [discriminate|done].
Qed.

(** ** The packet that is built *)

(** The lengths of the ICMP message and of the IP packet. *)
Definition icmp_len (af protocol payload : Z) : Z :=
  if protocol =? IPPROTO_RAW then payload else ip_len af + 16.

Definition echo_case (protocol payload : Z) : Prop :=
  (protocol = IPPROTO_TCP \/ protocol = IPPROTO_UDP) /\ 0 <= payload < 65000 \/
  protocol = IPPROTO_RAW /\ 8 <= payload < 65000.

Definition built_icmp (af : Z) (info : ip_info) (type code protocol seq payload mtu echo_id : Z) (direction : direction_t)
    (pkt : packet) : Prop :=
  let n := ip_len af + icmp_len af protocol payload in
  bytes_ok (pk_buffer pkt) /\ zlen (pk_buffer pkt) = n /\
  pk_buffer_bytes pkt = n /\ pk_ip_bytes pkt = n /\ pk_l2_header_bytes pkt = 0 /\
  pk_direction pkt = direction /\ pk_tcp pkt = None /\ pk_udp pkt = None /\
  pk_headers pkt = hdrs [mk_header (ip_type af) (ip_len af) n (Some 0);
                         mk_header (icmp_type_of af) 8 (icmp_len af protocol payload) (Some (ip_len af))] /\
  pk_ipv4 pkt = (if af =? AF_INET then Some 0 else None) /\
  pk_ipv6 pkt = (if af =? AF_INET then None else Some 0) /\
  pk_icmpv4 pkt = (if af =? AF_INET then Some (ip_len af) else None) /\
  pk_icmpv6 pkt = (if af =? AF_INET then None else Some (ip_len af)) /\
  pk_echoed_header pkt = negb (protocol =? IPPROTO_RAW) /\
  holds (pk_buffer pkt) (icmp_members af (ip_len af) type code mtu echo_id ++ ip_full af info n (icmp_proto af)) /\
  (protocol <> IPPROTO_RAW -> rd (pk_buffer pkt) (ip_len af + 8) (echoed_protocol af) = Ok protocol) /\
  echoed_seq (pk_buffer pkt) af protocol seq.

Lemma set_packet_icmp_spec pkt b n info m af h bytes type code mtu echo_id :
  af = AF_INET \/ af = AF_INET6 -> pk_buffer pkt = b -> bytes_ok b -> zlen b = n ->
  ip_len af + 8 <= n < 65536 -> pk_buffer_bytes pkt = n -> pk_headers pkt = hdrs [h] -> header_used h ->
  pk_ip_bytes pkt = ip_len af -> pk_l2_header_bytes pkt = 0 ->
  pk_icmpv4 pkt = None -> pk_icmpv6 pkt = None ->
  holds b (ip_full af info m (icmp_proto af)) -> is_byte type -> is_byte code -> mtu_ok af type code mtu ->
  exists b', set_packet_icmp_header pkt (ip_len af) af bytes type code mtu echo_id
      = Ok (Success (set_pk_buffer b' (set_pk_ip_bytes (ip_len af + 8) (set_pk_headers
          (hdrs [h; mk_header (icmp_type_of af) 8 bytes (Some (ip_len af))])
          (if af =? AF_INET then set_pk_icmpv4 (Some (ip_len af)) pkt
           else set_pk_icmpv6 (Some (ip_len af)) pkt))))) /\
    bytes_ok b' /\ zlen b' = n /\
    holds b' (icmp_members af (ip_len af) type code mtu echo_id ++ ip_full af info m (icmp_proto af)).
Proof.
  intros Haf Hpb Hb Hn Hlen HB Hh Hu Hi Hl2 H4 H6 Hl Ht Hc Hm. unfold set_packet_icmp_header.
  destruct Haf as [-> | ->]; cbn [AF_INET AF_INET6 Z.eqb Pos.eqb].
  - simpl pk_icmpv6. rewrite H6. simpl c_assert. rewrite bind_Ok_eq.
    destruct (transport_part (set_pk_icmpv4 (Some 20) pkt) h 20 HEADER_ICMPV4 8 bytes)
      as (pkt1&E&E'); try done; [cbn in *; lia..|].
    change (ip_len AF_INET) with 20. unfold sizeof_icmpv4. rewrite E, bind_Ok_eq. simpl deref. rewrite bind_Ok_eq, E'.
    destruct (set_icmpv4_spec (set_pk_ip_bytes (20 + 8) (set_pk_headers
      (hdrs [h; mk_header HEADER_ICMPV4 8 bytes (Some 20)]) (set_pk_icmpv4 (Some 20) pkt))) b n info m type code mtu echo_id)
      as (b'&->&?&?&?); try done; [cbn in *; lia|]. by exists b'.
  - simpl pk_icmpv4. rewrite H4. simpl c_assert. rewrite bind_Ok_eq.
    destruct (transport_part (set_pk_icmpv6 (Some 40) pkt) h 40 HEADER_ICMPV6 8 bytes)
      as (pkt1&E&E'); try done; [cbn in *; lia..|].
    change (ip_len AF_INET6) with 40. unfold sizeof_icmpv6. rewrite E, bind_Ok_eq. simpl deref. rewrite bind_Ok_eq, E'.
    destruct (set_icmpv6_spec (set_pk_ip_bytes (40 + 8) (set_pk_headers
      (hdrs [h; mk_header HEADER_ICMPV6 8 bytes (Some 40)]) (set_pk_icmpv6 (Some 40) pkt))) b n info m type code mtu echo_id)
      as (b'&->&?&?&?); try done; [cbn in *; lia|]. by exists b'.
Qed.

Lemma parse_type_code_bytes af ts cs type code :
  parse_icmp_type_and_code af ts cs = Ok (Success (type, code)) ->
  is_valid_u8 type = true /\ is_valid_u8 code = true.
Proof.
  unfold parse_icmp_type_and_code. intros H. apply exec_bind_Ok in H as (types&_&H).
  destruct (match scan_prefixed _ _ with Some n => _ | None => _ end) as [ty codes].
  destruct (is_valid_u8 ty) eqn:Et; [|discriminate]. cbn [negb] in H.
  destruct (is_valid_u8 (match cs with None => 0 | Some _ => _ end)) eqn:Ec; [|discriminate].
  cbn [negb] in H. by simplify_eq.
Qed.

Lemma valid_u8_byte x : is_valid_u8 x = true -> is_byte x.
Proof. unfold is_valid_u8, is_byte. destruct (Z.leb_spec 0 x), (Z.leb_spec x 255); (discriminate || lia). Qed.

(** The lengths that new_icmp_packet computes. *)
Lemma icmp_lengths af protocol payload :
  af = AF_INET \/ af = AF_INET6 -> echo_case protocol payload ->
  (if (protocol =? IPPROTO_TCP) || (protocol =? IPPROTO_UDP) then
     (ip_len af + ICMP_ECHO_BYTES, 8 + (ip_len af + ICMP_ECHO_BYTES), ip_len af + (8 + (ip_len af + ICMP_ECHO_BYTES)))
   else if protocol =? IPPROTO_RAW then (0, s32 payload, s32 (ip_len af + payload)) else (0, 0, 0))
  = (if protocol =? IPPROTO_RAW then 0 else ip_len af + 8, icmp_len af protocol payload,
     ip_len af + icmp_len af protocol payload) /\
  ip_len af + 8 <= ip_len af + icmp_len af protocol payload < 65536.
Proof.
  intros Haf [[[-> | ->] Hp]|[-> Hp]]; unfold icmp_len, ICMP_ECHO_BYTES;
    cbn [IPPROTO_TCP IPPROTO_UDP IPPROTO_RAW Z.eqb Pos.eqb orb];
    (assert (0 < ip_len af <= 40) by (by destruct Haf as [-> | ->])).
  - replace (8 + (ip_len af + 8)) with (ip_len af + 16) by lia. split; [done|lia].
  - replace (8 + (ip_len af + 8)) with (ip_len af + 16) by lia. split; [done|lia].
  - rewrite !s32_small by lia. split; [done|lia].
Qed.

Lemma new_icmp_spec `{Malloc} af direction ts cs type code protocol seq payload info mtu echo_id :
  af = AF_INET \/ af = AF_INET6 -> echo_case protocol payload ->
  parse_icmp_type_and_code af ts cs = Ok (Success (type, code)) -> mtu_ok af type code mtu ->
  0 <= echo_id < 65536 ->
  exists pkt, new_icmp_packet af direction ts cs protocol seq payload info mtu echo_id = Ok (Success pkt) /\
    built_icmp af info type code protocol seq payload mtu echo_id direction pkt.
Proof.
  intros Haf Hcase Hparse Hmtu Hid.
  pose proof (parse_type_code_bytes _ _ _ _ _ Hparse) as [Ht Hc].
  destruct (icmp_lengths af protocol payload Haf Hcase) as [El Hn]. unfold new_icmp_packet.
  assert (ip_header_min_len af = Ok (ip_len af)) as -> by (by destruct Haf as [-> | ->]).
  assert (icmp_header_len af = Ok 8) as -> by (by destruct Haf as [-> | ->]).
  rewrite !bind_Ok_eq, Z.add_0_r, El.
  destruct (Z.ltb_spec echo_id 0), (Z.ltb_spec 65535 echo_id); try lia. cbn [orb].
  assert (Z.land (ip_len af) 3 = 0) as -> by (by destruct Haf as [-> | ->]).
  simpl c_assert. rewrite bind_Ok_eq.
  set (k := icmp_len af protocol payload) in *. set (n := ip_len af + k) in *.
  destruct (Z.ltb_spec k 8); [unfold n in *; lia|].
  rewrite Hparse, bind_Ok_eq. cbv iota. rewrite Ht, Hc. simpl c_assert. rewrite !bind_Ok_eq.
  assert (0 < ip_len af <= 40) by (by destruct Haf as [-> | ->]).
  destruct (Z.ltb_spec n 0); [lia|]. rewrite new_zeroed, bind_Ok_eq by lia.
  assert (icmp_protocol af = Ok (icmp_proto af)) as -> by (by destruct Haf as [-> | ->]).
  rewrite bind_Ok_eq. set (pkt0 := set_pk_tos_chk _ _).
  destruct (ip_part pkt0 af n info (icmp_proto af)) as (b1&Hb1&Hn1&Hl1&->);
    [done|lia|by destruct Haf as [-> | ->]|reflexivity..|]. rewrite bind_Ok_eq.
  set (hip := mk_header (ip_type af) (ip_len af) n (Some 0)). set (pkt1 := set_pk_buffer b1 _).
  assert (ip_start pkt1 = Ok 0) as -> by (by destruct Haf as [-> | ->]).
  rewrite bind_Ok_eq, Z.add_0_l.
  destruct (set_packet_icmp_spec pkt1 b1 n info n af hip k type code mtu echo_id)
    as (b2&->&Hb2&Hn2&Hl2); try done; try (by destruct Haf as [-> | ->]); try (by apply valid_u8_byte).
  rewrite bind_Ok_eq. set (pkt2 := set_pk_buffer b2 _).
  assert (Hfin : forall b3, bytes_ok b3 -> zlen b3 = n ->
    holds b3 (icmp_members af (ip_len af) type code mtu echo_id ++ ip_full af info n (icmp_proto af)) ->
    (protocol <> IPPROTO_RAW -> rd b3 (ip_len af + 8) (echoed_protocol af) = Ok protocol) ->
    echoed_seq b3 af protocol seq ->
    built_icmp af info type code protocol seq payload mtu echo_id direction
      (set_pk_ip_bytes n (set_pk_echoed_header (negb (protocol =? IPPROTO_RAW)) (set_pk_buffer b3 pkt2)))).
  { intros b3 Bk Nk Hk Rk Sk. unfold built_icmp, pkt2, pkt1. fold k. fold n.
    split_and!; try done; by destruct Haf as [-> | ->]. }
  destruct Hcase as [[Hp Hpl]|[-> Hpl]].
  - assert ((protocol =? IPPROTO_RAW) = false) as Er by (by destruct Hp as [-> | ->]).
    assert (n = echo_len af) as En by (unfold n, k, icmp_len, echo_len; rewrite Er; lia).
    rewrite Er in *. destruct (Z.eqb_spec (ip_len af + 8) 0); [lia|]. cbn [negb] in *.
    destruct (set_echoed_spec pkt2 b2 info n af type code mtu echo_id protocol seq payload)
      as (b3&->&Hb3&Hn3&Hs3&Hl3); try done; try (by rewrite <- En); try (by destruct Haf as [-> | ->]).
    rewrite bind_Ok_eq. eexists. split; [reflexivity|].
    apply Forall_cons in Hl3 as [(_&_&Hr3) Hl3']. apply Hfin; (done || by rewrite Hn3, En).
  - cbn [IPPROTO_RAW Z.eqb Pos.eqb negb]. rewrite bind_Ok_eq. eexists. split; [reflexivity|].
    by apply (Hfin b2).
Qed.

(** ** The parser on what is built *)

(** The members of a packet that the parser finds too, ICMP pointers included. *)
Definition same_icmp_view (p q : packet) : Prop :=
  same_view p q /\ pk_icmpv4 p = pk_icmpv4 q /\ pk_icmpv6 p = pk_icmpv6 q.

Lemma parse_icmp_at pkt h af base n :
  af = AF_INET \/ af = AF_INET6 ->
  pk_headers pkt = hdrs [h] -> header_used h -> pk_ip_bytes pkt = base ->
  pk_l2_header_bytes pkt = 0 -> 0 <= base -> base + 8 <= n ->
  pk_buffer_bytes pkt = n -> n < 65536 ->
  parse_layer4 14 pkt base (icmp_proto af) (n - base) n =
  Ok (set_pk_ip_bytes (base + 8) (set_pk_headers
        (hdrs [h; mk_header (icmp_type_of af) 8 (n - base) (Some base)])
        (if af =? AF_INET then set_pk_icmpv4 (Some base) pkt else set_pk_icmpv6 (Some base) pkt)), PACKET_OK).
Proof.
  intros Haf Hh Hu Hi Hl Hb Hf HB Hn.
  assert (parse_layer4 14 pkt base (icmp_proto af) (n - base) n =
    if af =? AF_INET then parse_icmpv4 pkt base (n - base) n else parse_icmpv6 pkt base (n - base) n)
    as -> by (by destruct Haf as [-> | ->]).
  destruct Haf as [-> | ->]; cbn [AF_INET AF_INET6 Z.eqb Pos.eqb]; unfold parse_icmpv4, parse_icmpv6;
    (destruct (Z.leb_spec 0 (n - base)); [|lia]); simpl c_assert; rewrite bind_Ok_eq;
    unfold sizeof_icmpv4, sizeof_icmpv6; (destruct (Z.ltb_spec (n - base) 8); [lia|]).
  - destruct (transport_part (set_pk_icmpv4 (Some base) pkt) h base HEADER_ICMPV4 8 (n - base))
      as (pkt1&->&E); simpl; try done; [lia..|].
    destruct (Z.leb_spec (base + (n - base)) n); [|lia]. simpl. by rewrite E.
  - destruct (transport_part (set_pk_icmpv6 (Some base) pkt) h base HEADER_ICMPV6 8 (n - base))
      as (pkt1&->&E); simpl; try done; [lia..|].
    destruct (Z.leb_spec (base + (n - base)) n); [|lia]. simpl. by rewrite E.
Qed.

Lemma built_icmp_parses `{Malloc} af info type code protocol seq payload mtu echo_id direction pkt :
  af = AF_INET \/ af = AF_INET6 -> echo_case protocol payload ->
  built_icmp af info type code protocol seq payload mtu echo_id direction pkt ->
  exists pkt', reparse pkt = Ok (pkt', PACKET_OK) /\ same_icmp_view pkt' pkt.
Proof.
  intros Haf Hcase (Hb&Hz&HB&Hi&Hl2&_&Ht&Hu&Hh&H4&H6&Hi4&Hi6&_&Hl&_).
  apply holds_ip_full in Hl. destruct (icmp_lengths af protocol payload Haf Hcase) as [_ Hn].
  set (k := icmp_len af protocol payload) in *. set (n := ip_len af + k) in *.
  set (b := pk_buffer pkt) in *.
  assert (0 < ip_len af <= 40) by (by destruct Haf as [-> | ->]).
  unfold reparse, parse_packet. rewrite HB. fold b.
  change (pk_buffer_bytes (set_pk_buffer b (packet_new n))) with n.
  rewrite u32_small by lia. destruct (Z.leb_spec n n); [|lia]. simpl c_assert. rewrite bind_Ok_eq.
  assert (Hp4 : parse_layer4 14 (after_ip af n (set_pk_buffer b (packet_new n))) (ip_len af)
    (icmp_proto af) (n - ip_len af) n = Ok (set_pk_ip_bytes (ip_len af + 8) (set_pk_headers
        (hdrs [mk_header (ip_type af) (ip_len af) n (Some 0);
               mk_header (icmp_type_of af) 8 k (Some (ip_len af))])
        (if af =? AF_INET then set_pk_icmpv4 (Some (ip_len af)) (after_ip af n (set_pk_buffer b (packet_new n)))
         else set_pk_icmpv6 (Some (ip_len af)) (after_ip af n (set_pk_buffer b (packet_new n))))), PACKET_OK)).
  { replace k with (n - ip_len af) by (unfold n; lia).
    apply parse_icmp_at; try done; try lia. destruct Haf as [-> | ->]; (split; [done|by eexists]). }
  destruct Haf as [-> | ->].
  - erewrite (parse_layer3_v4 _ b n n); [|done..|lia|cbn in *; lia|exact Hl|exact Hp4].
    rewrite bind_Ok_eq. eexists. split; [reflexivity|]. unfold same_icmp_view, same_view. simpl.
    by rewrite Hh, Hi, H4, H6, Ht, Hu, Hi4, Hi6.
  - erewrite (parse_layer3_v6 _ b n); [|done..|lia|cbn in *; lia|exact Hl|exact Hp4].
    rewrite bind_Ok_eq. eexists. split; [reflexivity|]. unfold same_icmp_view, same_view. simpl.
    by rewrite Hh, Hi, H4, H6, Ht, Hu, Hi4, Hi6.
Qed.

(** The script's view of an ICMP packet: the fields it gave. *)
Definition icmp_view (pkt : packet) (af type code protocol seq mtu echo_id : Z) : Prop :=
  exists icmp, (if af =? AF_INET then pk_icmpv4 pkt else pk_icmpv6 pkt) = Some icmp /\
    prd pkt icmp icmpv4_type = Ok type /\ prd pkt icmp icmpv4_code = Ok code /\
    (0 <= mtu -> if af =? AF_INET then ntohs <$> prd pkt icmp icmpv4_frag_mtu = Ok mtu
                 else echo_id = 0 -> ntohl <$> prd pkt icmp icmpv6_packet_too_big_mtu = Ok mtu) /\
    (0 < echo_id -> ntohs <$> prd pkt icmp icmpv4_echo_id = Ok echo_id) /\
    (protocol <> IPPROTO_RAW -> packet_echoed_ip_protocol pkt = Ok protocol) /\
    (protocol = IPPROTO_TCP ->
     exists p, packet_echoed_tcp_seq pkt = Ok p /\ ntohl <$> ld32 (pk_buffer pkt) p = Ok seq).

Lemma built_icmp_view af info type code protocol seq payload mtu echo_id direction pkt pkt' :
  af = AF_INET \/ af = AF_INET6 -> 0 <= seq < 4294967296 -> 0 <= echo_id < 65536 ->
  mtu_ok af type code mtu -> same_icmp_view pkt' pkt ->
  built_icmp af info type code protocol seq payload mtu echo_id direction pkt ->
  ip_view pkt' af info /\ icmp_view pkt' af type code protocol seq mtu echo_id.
Proof.
  intros Haf Hseq Hid Hm (Hsame&E4&E6) (Hb&Hz&_&_&_&_&_&_&_&H4&H6&Hi4&Hi6&_&Hl&Hr&Hs).
  split; [by eapply ip_view_same, holds_ip_view|]. destruct Hsame as (Hbuf&_).
  exists (ip_len af). apply Forall_app in Hl as [Hl _].
  change (holds (pk_buffer pkt) (icmp_members af (ip_len af) type code mtu echo_id)) in Hl.
  unfold icmp_members in Hl. unfold prd. rewrite Hbuf. split; [destruct Haf as [-> | ->]; cbn in *; congruence|].
  split_and!.
  - member Hl.
  - member Hl.
  - intros Hmtu. destruct (Z.leb_spec 0 mtu); [|lia].
    assert (if af =? AF_INET then mtu < 65536 else mtu < 4294967296)
      by (destruct Hm as [?|Hm]; [lia|]; by destruct (af =? AF_INET); destruct Hm as (_&_&?)).
    destruct (af =? AF_INET).
    + eapply fmap_rd; [member Hl|]. unfold htons. apply ntohs_invol. lia.
    + intros ->. cbn [Z.ltb Z.compare] in Hl. eapply fmap_rd; [member Hl|]. unfold htonl. apply ntohl_invol. lia.
  - intros Hpos. destruct (Z.ltb_spec 0 echo_id); [|lia].
    assert (rd (pk_buffer pkt) (ip_len af) icmpv4_echo_id = Ok (htons echo_id)) as Hrd.
    { eapply holds_rd; [exact Hl|]. apply elem_of_app. right. apply elem_of_app. right. left. }
    eapply fmap_rd; [exact Hrd|]. unfold htons. apply ntohs_invol. lia.
  - intros Hp. specialize (Hr Hp). unfold packet_echoed_ip_protocol, packet_echoed_ipv4_header,
      packet_echoed_ipv6_header, prd. rewrite E4, E6, Hi4, Hi6, Hbuf.
    by destruct Haf as [-> | ->].
  - intros ->. exists (2 * ip_len af + 12). split.
    + apply echoed_tcp_seq_at; [done|congruence|congruence|]. rewrite Hbuf. by apply Hr.
    + unfold ld32. rewrite (Hs eq_refl), fmap_Ok_eq, fmap_Ok_eq, le_combine_split. f_equal.
      change (256 ^ Z.of_nat 4) with 4294967296. pose proof (ntohl_range seq). unfold htonl.
      rewrite Z.mod_small by lia. by apply ntohl_invol.
Qed.

(** C11. An ICMP packet round-trips through the builder and the parser: over IPv4 and IPv6,
    as the echo of a TCP or UDP packet or with a payload of its own, any type and code
    that parse, an MTU where one is allowed (IPv4 fragmentation needed, IPv6 packet too
    big) and an echo identifier, with a payload below 65000 bytes, [new_icmp_packet]
    builds a packet; [parse_packet] accepts its bytes and finds the same headers, lengths
    and pointers; the type of service, TTL and flow label read there are those of the
    script ([ip_view]), and so are the type, the code, the MTU, the identifier, the
    echoed protocol and the sequence number of an echoed TCP header ([icmp_view]).  The MTU of an IPv6 packet
    is claimed only when no echo identifier is given with it: the identifier is written
    over its low half ([icmpv6_mtu_overwritten]). *)
Theorem new_icmp_packet_roundtrip `{Malloc} (af : Z) (direction : direction_t) (ts : string)
    (cs : option string) (type code protocol seq payload : Z) (info : ip_info) (mtu echo_id : Z) :
  af = AF_INET \/ af = AF_INET6 -> echo_case protocol payload ->
  parse_icmp_type_and_code af ts cs = Ok (Success (type, code)) -> mtu_ok af type code mtu ->
  0 <= echo_id < 65536 -> 0 <= seq < 4294967296 ->
  exists pkt pkt',
    new_icmp_packet af direction ts cs protocol seq payload info mtu echo_id = Ok (Success pkt) /\
    reparse pkt = Ok (pkt', PACKET_OK) /\ same_icmp_view pkt' pkt /\
    pk_echoed_header pkt = negb (protocol =? IPPROTO_RAW) /\ ip_view pkt' af info /\
    icmp_view pkt' af type code protocol seq mtu echo_id.
Proof.
  intros Haf Hcase Hparse Hm Hid Hseq.
  destruct (new_icmp_spec af direction ts cs type code protocol seq payload info mtu echo_id)
    as (pkt&E&Hbuilt); try done.
  destruct (built_icmp_parses _ _ _ _ _ _ _ _ _ _ _ Haf Hcase Hbuilt) as (pkt'&E'&Hsame).
  exists pkt, pkt'. do 3 (split; [done|]).
  split; [by destruct Hbuilt as (_&_&_&_&_&_&_&_&_&_&_&_&_&?&_)|]. by eapply built_icmp_view.
Qed.

#[export] Instance result_eq_dec {A} `{EqDecision A} : EqDecision (result A).
Proof. solve_decision. Defined.

(** The names of a table parse, alone and with the codes of their type. *)
Definition names_parse (af : Z) (types : list icmp_type_info) : bool :=
  forallb (fun t =>
    bool_decide (parse_icmp_type_and_code af (type_string t) None = Ok (Success (type_byte t, 0))) &&
    forallb (fun c => bool_decide (parse_icmp_type_and_code af (type_string t) (Some (code_string c))
                                   = Ok (Success (type_byte t, code_byte c))))
      (default [] (code_table t))) types.

Lemma names_parse_In af types t c : names_parse af types = true -> In t types ->
  In c (default [] (code_table t)) ->
  parse_icmp_type_and_code af (type_string t) None = Ok (Success (type_byte t, 0)) /\
  parse_icmp_type_and_code af (type_string t) (Some (code_string c))
    = Ok (Success (type_byte t, code_byte c)).
Proof.
  unfold names_parse. rewrite forallb_forall. intros Hf Ht Hc.
  specialize (Hf t Ht). apply andb_true_iff in Hf as [H1 H2]. rewrite forallb_forall in H2.
  specialize (H2 c Hc). by apply bool_decide_eq_true in H1, H2.
Qed.

Lemma scan_byte n : 0 <= n < 256 ->
  scan_prefixed (string_bytes "type_") (string_bytes ("type_" +:+ dec n)) = Some n /\
  scan_prefixed (string_bytes "code_") (string_bytes ("code_" +:+ dec n)) = Some n.
Proof.
  intros Hn. assert (forallb (fun i => let n := Z.of_nat i in
    bool_decide (scan_prefixed (string_bytes "type_") (string_bytes ("type_" +:+ dec n)) = Some n) &&
    bool_decide (scan_prefixed (string_bytes "code_") (string_bytes ("code_" +:+ dec n)) = Some n))
    (seq 0 256) = true) as Hf by (vm_compute; reflexivity).
  rewrite forallb_forall in Hf. specialize (Hf (Z.to_nat n)). rewrite in_seq, Z2Nat.id in Hf by lia.
  cbv zeta in Hf. rewrite andb_true_iff, !bool_decide_eq_true in Hf. apply Hf. lia.
Qed.

(** The ways to name an ICMP message: the name of a type in the table of the address
    family stands for its number, with the name of one of its codes or with none, which
    is code 0; and type_<n> and code_<m> stand for the numbers [n] and [m], whichever
    byte they are. *)
Theorem icmp_names_roundtrip (af : Z) (t : icmp_type_info) (c : icmp_code_info) (n m : Z) :
  af = AF_INET \/ af = AF_INET6 ->
  In t (if af =? AF_INET then icmpv4_types else icmpv6_types) -> In c (default [] (code_table t)) ->
  0 <= n < 256 -> 0 <= m < 256 ->
  parse_icmp_type_and_code af (type_string t) None = Ok (Success (type_byte t, 0)) /\
  parse_icmp_type_and_code af (type_string t) (Some (code_string c))
    = Ok (Success (type_byte t, code_byte c)) /\
  parse_icmp_type_and_code af ("type_" +:+ dec n) (Some ("code_" +:+ dec m)) = Ok (Success (n, m)).
Proof.
  intros Haf Ht Hc Hn Hm. assert (names_parse af (if af =? AF_INET then icmpv4_types else icmpv6_types) = true)
    as Hp by (destruct Haf as [-> | ->]; vm_compute; reflexivity).
  destruct (names_parse_In _ _ _ _ Hp Ht Hc) as [H1 H2]. split; [done|]. split; [done|].
  unfold parse_icmp_type_and_code. rewrite (proj1 (scan_byte n Hn)), (proj2 (scan_byte m Hm)).
  unfold is_valid_u8. destruct (Z.leb_spec 0 n), (Z.leb_spec n 255), (Z.leb_spec 0 m), (Z.leb_spec m 255); try lia.
  by destruct Haf as [-> | ->].
Qed.

(** ** The theorems on concrete packets *)

Lemma new_icmp_packet_roundtrip_witness : exists pkt pkt',
  @new_icmp_packet zero_malloc AF_INET DIRECTION_INBOUND "unreachable" (Some "frag_needed"%string)
    IPPROTO_TCP 1 1000 sample_info 1400 0 = Ok (Success pkt) /\
  @reparse zero_malloc pkt = Ok (pkt', PACKET_OK) /\ same_icmp_view pkt' pkt /\
  pk_echoed_header pkt = negb (IPPROTO_TCP =? IPPROTO_RAW) /\ ip_view pkt' AF_INET sample_info /\
  icmp_view pkt' AF_INET 3 4 IPPROTO_TCP 1 1400 0.
Proof.
  apply (@new_icmp_packet_roundtrip zero_malloc AF_INET DIRECTION_INBOUND "unreachable"
    (Some "frag_needed"%string) 3 4 IPPROTO_TCP 1 1000 sample_info 1400 0).
  - by left.
  - left. split; [by left|lia].
  - vm_compute. reflexivity.
  - right. vm_compute. split_and!; reflexivity.
  - lia.
  - lia.
Defined.

(** An ICMPv6 message that echoes a long TCP segment: the length of the echoed packet wraps
    around 16 bits and the assertion of set_ipv6_header fails. *)
Example icmpv6_long_echo_asserts :
  @new_icmp_packet zero_malloc AF_INET6 DIRECTION_INBOUND "packet_too_big" None IPPROTO_TCP 1 65500
    sample_info 1280 0 = Fault AssertFailed.
Proof. vm_compute. reflexivity. Qed.

(** The MTU and the echo identifier of ICMPv6 share their bytes: with both, the MTU of
    1280 comes out as 458752 + 1280. *)
Example icmpv6_mtu_overwritten :
  (match @new_icmp_packet zero_malloc AF_INET6 DIRECTION_INBOUND "packet_too_big" None IPPROTO_TCP 1 0
     sample_info 1280 7 with
   | Ok (Success pkt) => ntohl <$> prd pkt 40 icmpv6_packet_too_big_mtu
   | _ => Fault Died
   end) = Ok (7 * 65536 + 1280).
Proof. vm_compute. reflexivity. Qed.

Lemma icmp_names_roundtrip_witness :
  parse_icmp_type_and_code AF_INET6 "type_200" (Some "code_7"%string) = Ok (Success (200, 7)).
Proof.
  apply (icmp_names_roundtrip AF_INET6 (mk_type 3 "time_exceeded" (Some icmpv6_time_exceed_codes))
    (mk_code 1 "exceeded_frag_time") 200 7).
  - by right.
  - vm_compute. tauto.
  - vm_compute. tauto.
  - lia.
  - lia.
Defined.
