(* ===== verification/PacketChecksum.v ===== *)
(** * PacketChecksum: packet_checksum.c

    Filling in the IPv4 header checksum and the TCP, UDP or ICMP checksum of a
    packet before it is injected.  The theorems: the filled-in fields verify, i.e.
    the checksums of the finished packet, computed as a receiver does, are zero. *)

From S2P Require Import Prelude Headers Packet Checksum PacketParser.

(** The four bytes of an IPv4 address member, and the sixteen of an IPv6 one. *)
Definition addr4_at (pkt : packet) (p : Z) (f : field) : exec bytes :=
  get_bytes (pk_buffer pkt) (p + field_off f) 4.
Definition addr6_at (pkt : packet) (o : Z) : exec bytes := get_bytes (pk_buffer pkt) o 16.

(** [packet_checksum.c:51-70] the layer-4 part of checksum_ipv4_packet *)
Definition checksum_ipv4_l4 (pkt : packet) (ipv4 l4_bytes : Z) : exec packet :=
  match pk_tcp pkt, pk_udp pkt, pk_icmpv4 pkt with
  | Some tcp, _, _ =>
      pkt ← pwr pkt tcp tcp_check 0;
      src ← addr4_at pkt ipv4 ipv4_src_ip;
      dst ← addr4_at pkt ipv4 ipv4_dst_ip;
      seg ← get_bytes (pk_buffer pkt) tcp l4_bytes;
      c ← tcp_udp_v4_checksum src dst IPPROTO_TCP seg;
      pwr pkt tcp tcp_check c
  | None, Some udp, _ =>
      pkt ← pwr pkt udp udp_check 0;
      src ← addr4_at pkt ipv4 ipv4_src_ip;
      dst ← addr4_at pkt ipv4 ipv4_dst_ip;
      seg ← get_bytes (pk_buffer pkt) udp l4_bytes;
      c ← tcp_udp_v4_checksum src dst IPPROTO_UDP seg;
      pwr pkt udp udp_check c
  | None, None, Some icmpv4 =>
      pkt ← pwr pkt icmpv4 icmpv4_checksum 0;
      seg ← get_bytes (pk_buffer pkt) icmpv4 l4_bytes;
      c ← ipv4_checksum seg;
      pwr pkt icmpv4 icmpv4_checksum c
  | None, None, None => Fault AssertFailed
  end.

(** [packet_checksum.c:34-71] checksum_ipv4_packet *)
Definition checksum_ipv4_packet (pkt : packet) : exec packet :=
  ipv4 ← deref (pk_ipv4 pkt);
  pkt ← pwr pkt ipv4 ipv4_check 0;
  header_len ← ipv4_header_len (pk_buffer pkt) ipv4;
  hdr ← get_bytes (pk_buffer pkt) ipv4 header_len;
  c ← ipv4_checksum hdr;
  pkt ← pwr pkt ipv4 ipv4_check c;
  tot_len ← prd pkt ipv4 ipv4_tot_len;
  _ ← c_assert (ntohs tot_len <=? pk_ip_bytes pkt);
  header_len ← ipv4_header_len (pk_buffer pkt) ipv4;
  let l4_bytes := ntohs tot_len - header_len in
  if l4_bytes <=? 0 then Ok pkt
  else checksum_ipv4_l4 pkt ipv4 l4_bytes.

(** One branch of checksum_ipv6_packet: a pseudo-header checksum of the segment at
    [p] with its checksum member [check]. *)
Definition checksum_v6_at (pkt : packet) (ipv6 p : Z) (check : field) (protocol l4_bytes : Z)
    : exec packet :=
  pkt ← pwr pkt p check 0;
  src ← addr6_at pkt (ipv6 + ipv6_src_ip);
  dst ← addr6_at pkt (ipv6 + ipv6_dst_ip);
  seg ← get_bytes (pk_buffer pkt) p l4_bytes;
  c ← tcp_udp_v6_checksum src dst protocol seg;
  pwr pkt p check c.

(** [packet_checksum.c:73-109] checksum_ipv6_packet *)
Definition checksum_ipv6_packet (pkt : packet) : exec packet :=
  ipv6 ← deref (pk_ipv6 pkt);
  payload_len ← prd pkt ipv6 ipv6_payload_len;
  _ ← c_assert (sizeof_ipv6 + ntohs payload_len <=? pk_ip_bytes pkt);
  let l4_bytes := ntohs payload_len in
  _ ← c_assert (0 <? l4_bytes);
  match pk_tcp pkt, pk_udp pkt, pk_icmpv6 pkt with
  | Some tcp, _, _ => checksum_v6_at pkt ipv6 tcp tcp_check IPPROTO_TCP l4_bytes
  | None, Some udp, _ => checksum_v6_at pkt ipv6 udp udp_check IPPROTO_UDP l4_bytes
  | None, None, Some icmpv6 =>
      checksum_v6_at pkt ipv6 icmpv6 icmpv6_checksum IPPROTO_ICMPV6 l4_bytes
  | None, None, None => Fault AssertFailed
  end.

(** [packet_checksum.c:111-121] checksum_packet *)
Definition checksum_packet (pkt : packet) : exec packet :=
  let address_family := packet_address_family pkt in
  if address_family =? AF_INET then checksum_ipv4_packet pkt
  else if address_family =? AF_INET6 then checksum_ipv6_packet pkt
  else Fault AssertFailed.

(** ** Writing inside a region that is then read *)

Lemma get_put_inside b q n l o w b' :
  get_bytes b q n = Ok l -> 0 <= q -> 0 <= o -> o + zlen w <= n ->
  put_bytes b (q + o) w = Ok b' ->
  exists l', put_bytes l o w = Ok l' /\ get_bytes b' q n = Ok l'.
Proof.
  intros Hl Hq Ho Hw Hp. pose proof (get_bytes_zlen _ _ _ _ Hl) as Hz.
  pose proof (zlen_nonneg w). destruct (put_bytes_in l o w) as [l' Hp']; [lia..|].
  exists l'. split; [done|]. pose proof (put_bytes_zlen _ _ _ _ Hp) as Hb'.
  pose proof (put_bytes_zlen _ _ _ _ Hp') as Hz'.
  pose proof Hl as [Hr _]%get_bytes_Ok. apply in_range_true in Hr.
  destruct (get_bytes_in b' q n) as [l2 H2]; [lia..|]. rewrite H2. f_equal.
  pose proof (get_bytes_zlen _ _ _ _ H2). apply bytes_ext; [lia|]. intros i Hi.
  rewrite (byte_at_get _ _ _ _ _ H2) by lia.
  rewrite (byte_at_put _ _ _ _ _ Hp) by lia. rewrite (byte_at_put _ _ _ _ _ Hp') by lia.
  rewrite (byte_at_get _ _ _ _ _ Hl) by lia.
  replace (q + o <=? q + i) with (o <=? i) by (destruct (Z.leb_spec o i), (Z.leb_spec (q + o) (q + i)); lia).
  replace (q + i <? q + o + zlen w) with (i <? o + zlen w)
    by (destruct (Z.ltb_spec i (o + zlen w)), (Z.ltb_spec (q + i) (q + o + zlen w)); lia).
  replace (q + i - (q + o)) with (i - o) by lia. done.
Qed.

Lemma put_app_r pre l o w l' :
  0 <= o -> put_bytes l o w = Ok l' -> put_bytes (pre ++ l) (zlen pre + o) w = Ok (pre ++ l').
Proof.
  intros Ho Hp. pose proof Hp as [Hr _]%put_bytes_Ok. apply in_range_true in Hr.
  pose proof (zlen_nonneg pre).
  destruct (put_bytes_in (pre ++ l) (zlen pre + o) w) as [m Hm]; [lia|rewrite zlen_app; lia|].
  rewrite Hm. f_equal. apply bytes_ext.
  { rewrite (put_bytes_zlen _ _ _ _ Hm), !zlen_app, (put_bytes_zlen _ _ _ _ Hp). lia. }
  intros i Hi. rewrite (put_bytes_zlen _ _ _ _ Hm), zlen_app in Hi.
  rewrite (byte_at_put _ _ _ _ _ Hm), !byte_at_app by lia.
  destruct (Z.ltb_spec i (zlen pre)).
  - destruct (Z.leb_spec (zlen pre + o) i); [lia|done].
  - rewrite (byte_at_put _ _ _ _ _ Hp) by lia.
    replace (zlen pre + o <=? i) with (o <=? i - zlen pre)
      by (destruct (Z.leb_spec o (i - zlen pre)), (Z.leb_spec (zlen pre + o) i); lia).
    replace (i <? zlen pre + o + zlen w) with (i - zlen pre <? o + zlen w)
      by (destruct (Z.ltb_spec (i - zlen pre) (o + zlen w)), (Z.ltb_spec i (zlen pre + o + zlen w)); lia).
    replace (i - (zlen pre + o)) with (i - zlen pre - o) by lia. done.
Qed.

Lemma get_app_r pre l o n :
  0 <= o -> get_bytes l o n = get_bytes (pre ++ l) (zlen pre + o) n \/ zlen l < o + n \/ n < 0.
Proof.
  intros Ho. destruct (Z.ltb_spec n 0); [by right; right|].
  destruct (Z.ltb_spec (zlen l) (o + n)); [by right; left|]. left.
  pose proof (zlen_nonneg pre). destruct (get_bytes_in l o n) as [x Hx]; [lia..|].
  destruct (get_bytes_in (pre ++ l) (zlen pre + o) n) as [y Hy]; [lia|lia|rewrite zlen_app; lia|].
  rewrite Hx, Hy. f_equal. pose proof (get_bytes_zlen _ _ _ _ Hx).
  pose proof (get_bytes_zlen _ _ _ _ Hy). apply bytes_ext; [lia|]. intros i Hi.
  rewrite (byte_at_get _ _ _ _ _ Hx), (byte_at_get _ _ _ _ _ Hy), byte_at_app by lia.
  destruct (Z.ltb_spec (zlen pre + o + i) (zlen pre)); [lia|]. f_equal. lia.
Qed.

(** Zero the 16-bit checksum member [q + o] of the region [q, q + n), checksum a
    prefix followed by the region, store the result: the checksum of the prefix
    followed by the final region is 0. *)
Lemma checksum_region b q n o pre :
  bytes_ok b -> bytes_ok pre -> zlen pre < 65536 -> (2 | zlen pre) -> (2 | o) ->
  0 <= q -> 0 <= o -> o + 2 <= n < 65536 -> q + n <= zlen b ->
  exists b1 seg c b2 seg',
    st16 b (q + o) 0 = Ok b1 /\ get_bytes b1 q n = Ok seg /\
    ipv4_checksum (pre ++ seg) = Ok c /\ st16 b1 (q + o) c = Ok b2 /\
    get_bytes b2 q n = Ok seg' /\ ipv4_checksum (pre ++ seg') = Ok 0 /\
    bytes_ok b1 /\ bytes_ok b2 /\ changes_only b b2 (q + o) 2 /\
    changes_only b b1 (q + o) 2 /\ zlen seg = n /\ zlen seg' = n.
Proof.
  intros Hb Hpre Hpl He2 Ho2 Hq Ho Hn Hfit.
  destruct (st_le_spec b (q + o) 2 0 Hb) as (b1&E1&Hb1&C1&_); [lia|simpl; lia|].
  pose proof C1 as [Z1 _].
  destruct (get_bytes_in b1 q n) as [seg Es]; [lia..|].
  pose proof (get_bytes_zlen _ _ _ _ Es) as Hseg.
  assert (Hsok : bytes_ok seg) by (by eapply get_bytes_bytes_ok).
  assert (Hall : bytes_ok (pre ++ seg)) by (by apply Forall_app).
  assert (Hlen : zlen (pre ++ seg) < 4294967296) by (rewrite zlen_app; lia).
  exists b1, seg, (rfc1071 (pre ++ seg)).
  assert (Hc : ipv4_checksum (pre ++ seg) = Ok (rfc1071 (pre ++ seg))) by (by apply ipv4_checksum_eq).
  destruct (st_le_spec b1 (q + o) 2 (rfc1071 (pre ++ seg)) Hb1) as (b2&E2&Hb2&C2&_); [lia|simpl; lia|].
  destruct (get_put_inside b1 q n seg o (le_split 2 (rfc1071 (pre ++ seg))) b2 Es Hq Ho)
    as (seg'&P'&G'); [rewrite zlen_le_split; simpl; lia|done|].
  exists b2, seg'. split_and!; try done.
  - assert (Z2 : get_bytes (pre ++ seg) (zlen pre + o) 2 = Ok [0; 0]).
    { destruct (get_app_r pre seg o 2 Ho) as [<-|[?|?]]; [|lia..].
      pose proof (get_put_same _ _ _ _ E1) as G0. change (zlen (le_split 2 0)) with 2 in G0.
      change (le_split 2 0) with [0; 0] in G0.
      destruct (get_bytes_in seg o 2) as [x Hx]; [lia..|]. rewrite Hx. rewrite <-G0.
      rewrite <-Hx. pose proof (get_bytes_zlen _ _ _ _ G0).
      pose proof (get_bytes_zlen _ _ _ _ Hx). rewrite G0, Hx. f_equal. apply bytes_ext; [done|].
      intros i Hi. rewrite (byte_at_get _ _ _ _ _ Hx), (byte_at_get _ _ _ _ _ Es) by lia.
      rewrite (byte_at_get _ _ _ _ _ G0) by lia. f_equal. lia. }
    apply (checksum_fill (pre ++ seg) (zlen pre + o) (rfc1071 (pre ++ seg))); try done.
    + by apply Z.divide_add_r.
    + by apply put_app_r.
  - destruct C1 as [L1 C1], C2 as [L2 C2]. split; [lia|]. intros i Hi Hd.
    rewrite C2, C1 by lia. done.
  - by rewrite (put_bytes_zlen _ _ _ _ P').
Qed.

(** ** What a receiver checks *)

(** The layer-4 segment of an IPv4 packet: where it is, its checksum member, and the
    protocol of its pseudo-header if it has one. *)
Definition slot_v4 (pkt : packet) : option (Z * field * option Z) :=
  match pk_tcp pkt, pk_udp pkt, pk_icmpv4 pkt with
  | Some tcp, _, _ => Some (tcp, tcp_check, Some IPPROTO_TCP)
  | None, Some udp, _ => Some (udp, udp_check, Some IPPROTO_UDP)
  | None, None, Some icmpv4 => Some (icmpv4, icmpv4_checksum, None)
  | None, None, None => None
  end.

Definition slot_v6 (pkt : packet) : option (Z * field * Z) :=
  match pk_tcp pkt, pk_udp pkt, pk_icmpv6 pkt with
  | Some tcp, _, _ => Some (tcp, tcp_check, IPPROTO_TCP)
  | None, Some udp, _ => Some (udp, udp_check, IPPROTO_UDP)
  | None, None, Some icmpv6 => Some (icmpv6, icmpv6_checksum, IPPROTO_ICMPV6)
  | None, None, None => None
  end.

(** The bytes that precede a segment in its checksum. *)
Definition prefix_v4 (pkt : packet) (ipv4 : Z) (proto : option Z) (len : Z) : exec bytes :=
  match proto with
  | Some pr =>
      src ← addr4_at pkt ipv4 ipv4_src_ip;
      dst ← addr4_at pkt ipv4 ipv4_dst_ip;
      Ok (pseudo_v4 src dst pr len)
  | None => Ok []
  end.
Definition prefix_v6 (pkt : packet) (ipv6 : Z) (proto len : Z) : exec bytes :=
  src ← addr6_at pkt (ipv6 + ipv6_src_ip);
  dst ← addr6_at pkt (ipv6 + ipv6_dst_ip);
  Ok (pseudo_v6 src dst proto len).

(** A receiver's view: the header checksum and the segment checksum are zero. *)
Definition receiver_ok_v4 (pkt : packet) : exec bool :=
  ipv4 ← deref (pk_ipv4 pkt);
  hl ← ipv4_header_len (pk_buffer pkt) ipv4;
  hdr ← get_bytes (pk_buffer pkt) ipv4 hl;
  c ← ipv4_checksum hdr;
  tot_len ← prd pkt ipv4 ipv4_tot_len;
  let len := ntohs tot_len - hl in
  '(p, _, proto) ← deref (slot_v4 pkt);
  pre ← prefix_v4 pkt ipv4 proto len;
  seg ← get_bytes (pk_buffer pkt) p len;
  c4 ← ipv4_checksum (pre ++ seg);
  Ok ((c =? 0) && (c4 =? 0)).

Definition receiver_ok_v6 (pkt : packet) : exec bool :=
  ipv6 ← deref (pk_ipv6 pkt);
  payload_len ← prd pkt ipv6 ipv6_payload_len;
  '(p, _, proto) ← deref (slot_v6 pkt);
  pre ← prefix_v6 pkt ipv6 proto (ntohs payload_len);
  seg ← get_bytes (pk_buffer pkt) p (ntohs payload_len);
  c ← ipv4_checksum (pre ++ seg);
  Ok (c =? 0).

(** A packet whose IPv4 header and segment are in its buffer and consistent. *)
Definition ready_v4 (pkt : packet) : Prop :=
  bytes_ok (pk_buffer pkt) /\
  exists p ihl tl t check proto,
    pk_ipv4 pkt = Some p /\ 0 <= p /\ rd (pk_buffer pkt) p ipv4_ihl = Ok ihl /\
    rd (pk_buffer pkt) p ipv4_tot_len = Ok tl /\ 5 <= ihl < 16 /\
    slot_v4 pkt = Some (t, check, proto) /\ t = p + ihl * 4 /\
    field_off check + 2 <= ntohs tl - ihl * 4 /\ ntohs tl <= pk_ip_bytes pkt /\
    p + ntohs tl <= zlen (pk_buffer pkt).

Definition ready_v6 (pkt : packet) : Prop :=
  bytes_ok (pk_buffer pkt) /\
  exists p pl t check proto,
    pk_ipv6 pkt = Some p /\ pk_ipv4 pkt = None /\ 0 <= p /\
    rd (pk_buffer pkt) p ipv6_payload_len = Ok pl /\
    slot_v6 pkt = Some (t, check, proto) /\ t = p + 40 /\
    field_off check + 2 <= ntohs pl /\ 40 + ntohs pl <= pk_ip_bytes pkt /\
    t + ntohs pl <= zlen (pk_buffer pkt).

(** The checksum members are 16-bit members at even offsets. *)
Lemma slot_v4_check pkt t check proto : slot_v4 pkt = Some (t, check, proto) ->
  exists o, check = F16 o /\ (2 | o) /\ 0 <= o.
Proof.
  unfold slot_v4. intros H. repeat case_match; simplify_eq; eexists; (split; [done|]);
    (split; [by apply Z.mod_divide|done]).
Qed.
Lemma slot_v6_check pkt t check proto : slot_v6 pkt = Some (t, check, proto) ->
  exists o, check = F16 o /\ (2 | o) /\ 0 <= o.
Proof.
  unfold slot_v6. intros H. repeat case_match; simplify_eq; eexists; (split; [done|]);
    (split; [by apply Z.mod_divide|done]).
Qed.

(** Fill in the checksum of one segment, in the model's terms. *)
Definition fill_segment (pkt : packet) (p : Z) (check : field) (pre : packet -> exec bytes)
    (len : Z) : exec packet :=
  pkt ← pwr pkt p check 0;
  pre ← pre pkt;
  seg ← get_bytes (pk_buffer pkt) p len;
  c ← ipv4_checksum (pre ++ seg);
  pwr pkt p check c.

Lemma addr_len b o n l : get_bytes b o (Z.of_nat n) = Ok l -> length l = n.
Proof. intros H%get_bytes_zlen. unfold zlen in H. lia. Qed.

Lemma l4_fill_v4 pkt ipv4 t check proto len :
  slot_v4 pkt = Some (t, check, proto) -> 0 <= len ->
  checksum_ipv4_l4 pkt ipv4 len
  = fill_segment pkt t check (fun pkt => prefix_v4 pkt ipv4 proto len) len.
Proof.
  unfold slot_v4, checksum_ipv4_l4, fill_segment. intros Hs Hlen.
  destruct (pk_tcp pkt); [|destruct (pk_udp pkt); [|destruct (pk_icmpv4 pkt)]]; simplify_eq;
    destruct (pwr pkt t _ 0) as [pkt1|]; [|done| |done| |done]; rewrite !bind_Ok_eq;
    unfold prefix_v4, addr4_at.
  3: rewrite bind_Ok_eq; done.
  all: destruct (get_bytes (pk_buffer pkt1) (ipv4 + field_off ipv4_src_ip) 4) as [src|] eqn:Es; [|done];
    destruct (get_bytes (pk_buffer pkt1) (ipv4 + field_off ipv4_dst_ip) 4) as [dst|] eqn:Ed; [|done];
    rewrite !bind_Ok_eq;
    destruct (get_bytes (pk_buffer pkt1) t len) as [seg|] eqn:Eg; [|done];
    rewrite !bind_Ok_eq, tcp_udp_v4_checksum_eq
      by (apply (addr_len _ _ 4) in Es, Ed; done);
    by rewrite (get_bytes_zlen _ _ _ _ Eg).
Qed.

Lemma l4_fill_v6 pkt ipv6 t check proto len :
  checksum_v6_at pkt ipv6 t check proto len
  = fill_segment pkt t check (fun pkt => prefix_v6 pkt ipv6 proto len) len.
Proof.
  unfold checksum_v6_at, fill_segment. destruct (pwr pkt t check 0) as [pkt1|]; [|done].
  rewrite !bind_Ok_eq. unfold prefix_v6, addr6_at.
  destruct (get_bytes (pk_buffer pkt1) (ipv6 + ipv6_src_ip) 16) as [src|] eqn:Es; [|done].
  destruct (get_bytes (pk_buffer pkt1) (ipv6 + ipv6_dst_ip) 16) as [dst|] eqn:Ed; [|done].
  rewrite !bind_Ok_eq. destruct (get_bytes (pk_buffer pkt1) t len) as [seg|] eqn:Eg; [|done].
  rewrite !bind_Ok_eq, tcp_udp_v6_checksum_eq by (apply (addr_len _ _ 16) in Es, Ed; done).
  by rewrite (get_bytes_zlen _ _ _ _ Eg).
Qed.

Lemma changes_only_get b b' o n q k :
  changes_only b b' o n -> 0 <= q -> q + k <= o \/ o + n <= q ->
  get_bytes b' q k = get_bytes b q k.
Proof. intros [Hl H] Hq Hd. apply get_bytes_ext; [done|]. intros i Hi. apply H; lia. Qed.

Lemma fill_segment_spec pkt t o pre len P :
  bytes_ok (pk_buffer pkt) -> (2 | o) -> 0 <= t -> 0 <= o -> o + 2 <= len < 65536 ->
  t + len <= zlen (pk_buffer pkt) ->
  bytes_ok P -> (2 | zlen P) -> zlen P < 65536 ->
  (forall b, changes_only (pk_buffer pkt) b (t + o) 2 -> pre (set_pk_buffer b pkt) = Ok P) ->
  exists b seg, fill_segment pkt t (F16 o) pre len = Ok (set_pk_buffer b pkt) /\
    bytes_ok b /\ changes_only (pk_buffer pkt) b (t + o) 2 /\
    get_bytes b t len = Ok seg /\ ipv4_checksum (P ++ seg) = Ok 0.
Proof.
  intros Hb Ho2 Ht Ho Hlen Hfit HP HP2 HPl Hpre.
  destruct (checksum_region (pk_buffer pkt) t len o P)
    as (b1&seg&c&b2&seg'&E1&G1&K1&E2&G2&K2&Hb1&Hb2&C2&C1&_&_); try done.
  exists b2, seg'. split; [|done]. unfold fill_segment, pwr. simpl wr. rewrite E1, !bind_Ok_eq.
  rewrite (Hpre b1 C1), bind_Ok_eq. simpl pk_buffer. rewrite G1, bind_Ok_eq, K1, bind_Ok_eq.
  rewrite E2, bind_Ok_eq. done.
Qed.

Lemma get_addr_ok b o n : bytes_ok b -> 0 <= o -> 0 <= n -> o + n <= zlen b ->
  exists a, get_bytes b o n = Ok a /\ bytes_ok a /\ zlen a = n.
Proof.
  intros. destruct (get_bytes_in b o n) as [a E]; [lia..|]. exists a. split; [done|].
  split; [by eapply get_bytes_bytes_ok|by eapply get_bytes_zlen].
Qed.

(** The prefix does not depend on the checksum member of the segment. *)
Lemma prefix_v4_stable pkt ipv4 proto len :
  bytes_ok (pk_buffer pkt) -> 0 <= ipv4 -> ipv4 + 20 <= zlen (pk_buffer pkt) ->
  exists P, bytes_ok P /\ (2 | zlen P) /\ zlen P < 65536 /\
    forall b q, changes_only (pk_buffer pkt) b q 2 -> ipv4 + 20 <= q ->
      prefix_v4 (set_pk_buffer b pkt) ipv4 proto len = Ok P.
Proof.
  intros Hb H0 Hfit. destruct proto as [pr|].
  2:{ exists []. split; [constructor|]. split; [by apply Z.mod_divide|]. done. }
  destruct (get_addr_ok (pk_buffer pkt) (ipv4 + 12) 4) as (src&Es&?&Ls); [done|lia..|].
  destruct (get_addr_ok (pk_buffer pkt) (ipv4 + 16) 4) as (dst&Ed&?&Ld); [done|lia..|].
  assert (length src = 4%nat /\ length dst = 4%nat) as [? ?] by (unfold zlen in *; lia).
  exists (pseudo_v4 src dst pr len). rewrite pseudo_v4_zlen by done.
  split; [by apply pseudo_v4_ok|]. split; [by apply Z.mod_divide|]. split; [done|].
  intros b q C Hq. unfold prefix_v4, addr4_at. simpl pk_buffer. simpl field_off.
  rewrite !(changes_only_get _ _ _ _ _ _ C) by lia. rewrite Es, Ed. done.
Qed.

Lemma prefix_v6_stable pkt ipv6 proto len :
  bytes_ok (pk_buffer pkt) -> 0 <= ipv6 -> ipv6 + 40 <= zlen (pk_buffer pkt) ->
  exists P, bytes_ok P /\ (2 | zlen P) /\ zlen P < 65536 /\
    forall b q, changes_only (pk_buffer pkt) b q 2 -> ipv6 + 40 <= q ->
      prefix_v6 (set_pk_buffer b pkt) ipv6 proto len = Ok P.
Proof.
  intros Hb H0 Hfit.
  destruct (get_addr_ok (pk_buffer pkt) (ipv6 + 8) 16) as (src&Es&?&Ls); [done|lia..|].
  destruct (get_addr_ok (pk_buffer pkt) (ipv6 + 24) 16) as (dst&Ed&?&Ld); [done|lia..|].
  assert (length src = 16%nat /\ length dst = 16%nat) as [? ?] by (unfold zlen in *; lia).
  exists (pseudo_v6 src dst proto len). rewrite pseudo_v6_zlen by done.
  split; [by apply pseudo_v6_ok|]. split; [by apply Z.mod_divide|]. split; [done|].
  intros b q C Hq. unfold prefix_v6, addr6_at, ipv6_src_ip, ipv6_dst_ip. simpl pk_buffer.
  rewrite !(changes_only_get _ _ _ _ _ _ C) by lia. rewrite Es, Ed. done.
Qed.

(** The IPv4 header part of [checksum_ipv4_packet]: it writes the checksum and goes on
    with the segment. *)
Lemma ipv4_header_filled pkt p ihl tl :
  bytes_ok (pk_buffer pkt) -> pk_ipv4 pkt = Some p -> 0 <= p ->
  rd (pk_buffer pkt) p ipv4_ihl = Ok ihl -> rd (pk_buffer pkt) p ipv4_tot_len = Ok tl ->
  5 <= ihl < 16 -> p + ihl * 4 <= zlen (pk_buffer pkt) -> ntohs tl <= pk_ip_bytes pkt ->
  ihl * 4 < ntohs tl ->
  exists b hdr, bytes_ok b /\ changes_only (pk_buffer pkt) b (p + 10) 2 /\
    get_bytes b p (ihl * 4) = Ok hdr /\ ipv4_checksum hdr = Ok 0 /\
    rd b p ipv4_ihl = Ok ihl /\ rd b p ipv4_tot_len = Ok tl /\
    checksum_packet pkt = checksum_ipv4_l4 (set_pk_buffer b pkt) p (ntohs tl - ihl * 4).
Proof.
  intros Hb Hp H0 Hihl Htl Hr Hfit Hip Hlt.
  destruct (checksum_region (pk_buffer pkt) p (ihl * 4) 10 []) as
    (b1&hdr&c&b2&hdr'&E1&G1&K1&E2&G2&K2&Hb1&Hb2&C2&C1&_&_);
    [done|constructor|done|by apply Z.mod_divide|by apply Z.mod_divide|lia..|].
  change ([] ++ hdr) with hdr in *. change ([] ++ hdr') with hdr' in *.
  assert (R1 : forall f, field_off f + field_bytes f <= 10 -> 0 <= field_off f ->
    rd b1 p f = rd (pk_buffer pkt) p f /\ rd b2 p f = rd (pk_buffer pkt) p f).
  { intros f Hf Hf0. split; eapply changes_only_rd; eauto; lia. }
  destruct (R1 ipv4_ihl) as [I1 I2]; [simpl; lia..|].
  destruct (R1 ipv4_tot_len) as [T1 T2]; [simpl; lia..|].
  exists b2, hdr'. rewrite I2, T2. do 6 (split; [done|]).
  unfold checksum_packet, packet_address_family. rewrite Hp. simpl (_ =? _). cbv iota.
  unfold checksum_ipv4_packet. rewrite Hp. simpl deref. rewrite bind_Ok_eq.
  unfold pwr. simpl wr. rewrite E1, !bind_Ok_eq.
  unfold ipv4_header_len. simpl pk_buffer. rewrite I1, Hihl, !bind_Ok_eq, G1, bind_Ok_eq.
  rewrite K1, bind_Ok_eq, E2, !bind_Ok_eq. unfold prd. simpl pk_buffer.
  rewrite T2, Htl, bind_Ok_eq. simpl pk_ip_bytes.
  destruct (Z.leb_spec (ntohs tl) (pk_ip_bytes pkt)); [|lia]. simpl c_assert.
  rewrite bind_Ok_eq, I2, Hihl, !bind_Ok_eq.
  destruct (Z.leb_spec (ntohs tl - ihl * 4) 0); [lia|]. by rewrite !set_buffer_twice.
Qed.

(** The bytes of a packet that hold its checksums. *)
Definition checksum_byte_v4 (pkt : packet) (i : Z) : Prop :=
  (exists p, pk_ipv4 pkt = Some p /\ p + 10 <= i < p + 12) \/
  (exists t check proto, slot_v4 pkt = Some (t, check, proto) /\
     t + field_off check <= i < t + field_off check + 2).
Definition checksum_byte_v6 (pkt : packet) (i : Z) : Prop :=
  exists t check proto, slot_v6 pkt = Some (t, check, proto) /\
    t + field_off check <= i < t + field_off check + 2.

Lemma checksum_packet_v4 pkt : ready_v4 pkt ->
  exists b', checksum_packet pkt = Ok (set_pk_buffer b' pkt) /\
    receiver_ok_v4 (set_pk_buffer b' pkt) = Ok true /\
    bytes_ok b' /\ zlen b' = zlen (pk_buffer pkt) /\
    (forall i, 0 <= i -> ~ checksum_byte_v4 pkt i -> byte_at b' i = byte_at (pk_buffer pkt) i).
Proof.
  intros (Hb&p&ihl&tl&t&check&proto&Hp&H0&Hihl&Htl&Hr&Hslot&Ht&Hchk&Hip&Hfit).
  destruct (slot_v4_check _ _ _ _ Hslot) as (o&->&Ho2&Ho). simpl field_off in Hchk.
  pose proof (ntohs_range tl).
  destruct (ipv4_header_filled pkt p ihl tl Hb Hp H0 Hihl Htl Hr) as
    (b2&hdr&Hb2&C2&G2&K2&I2&T2&->); [lia..|].
  set (len := ntohs tl - ihl * 4) in *. pose proof C2 as [L2 _].
  destruct (prefix_v4_stable (set_pk_buffer b2 pkt) p proto len) as (P&HP&HP2&HPl&Hpre);
    [done|lia|simpl; lia|].
  destruct (fill_segment_spec (set_pk_buffer b2 pkt) t o
    (fun pkt => prefix_v4 pkt p proto len) len P)
    as (b3&seg&F3&Hb3&C3&G3&K3); try done; [lia|lia|simpl; lia| |].
  { intros b' C'. apply (Hpre b' (t + o)); [done|lia]. }
  simpl pk_buffer in C3. exists b3. split; [|split; [|split; [done|split]]].
  - rewrite (l4_fill_v4 _ p t (F16 o) proto); [exact F3|done|lia].
  - rewrite <-(set_buffer_twice b3 b2 pkt). unfold receiver_ok_v4. simpl pk_ipv4. rewrite Hp. simpl deref. rewrite bind_Ok_eq.
    unfold ipv4_header_len, prd. simpl pk_buffer.
    rewrite (changes_only_rd _ _ _ _ p ipv4_ihl C3), I2, !bind_Ok_eq by (simpl; lia).
    rewrite (changes_only_get _ _ _ _ p (ihl * 4) C3), G2, bind_Ok_eq by lia.
    rewrite K2, bind_Ok_eq.
    rewrite (changes_only_rd _ _ _ _ p ipv4_tot_len C3), T2, bind_Ok_eq by (simpl; lia).
    change (slot_v4 _) with (slot_v4 pkt). rewrite Hslot. simpl deref. rewrite bind_Ok_eq.
    fold len. rewrite (Hpre b3 (t + o) C3), bind_Ok_eq, G3, bind_Ok_eq, K3 by lia. done.
  - destruct C3 as [L3 _]. simpl in L3. lia.
  - intros i Hi Hs. destruct C3 as [_ C3], C2 as [_ C2]. rewrite C3, C2; [done|done| |done|].
    + destruct (decide (p + 10 <= i < p + 12)); [|lia]. destruct Hs. left. eauto.
    + destruct (decide (t + o <= i < t + o + 2)); [|lia]. destruct Hs. right. eauto 6.
Qed.

(** C34. IPv4 packets leave with valid checksums: for a packet with a consistent IPv4
    header and a TCP, UDP or ICMP segment inside its buffer, [checksum_packet]
    succeeds, a receiver that checksums the IPv4 header, and the segment with its
    pseudo-header, gets zero for both, and no byte but those of the two checksums has
    changed. *)
Theorem checksum_packet_verifies_v4 (pkt : packet) :
  ready_v4 pkt ->
  exists b', checksum_packet pkt = Ok (set_pk_buffer b' pkt) /\
    receiver_ok_v4 (set_pk_buffer b' pkt) = Ok true /\
    bytes_ok b' /\ zlen b' = zlen (pk_buffer pkt) /\
    (forall i, 0 <= i -> ~ checksum_byte_v4 pkt i -> byte_at b' i = byte_at (pk_buffer pkt) i).
Proof. apply checksum_packet_v4. Qed.

Definition sample_v4 : packet :=
  set_pk_tcp (Some 20) (set_pk_ipv4 (Some 0) (set_pk_ip_bytes 60 (received tcp_ipv4_data 0))).

Lemma checksum_packet_verifies_v4_witness :
  exists b', checksum_packet sample_v4 = Ok (set_pk_buffer b' sample_v4) /\
    receiver_ok_v4 (set_pk_buffer b' sample_v4) = Ok true /\
    bytes_ok b' /\ zlen b' = zlen (pk_buffer sample_v4) /\
    (forall i, 0 <= i -> ~ checksum_byte_v4 sample_v4 i -> byte_at b' i = byte_at (pk_buffer sample_v4) i).
Proof.
  apply (checksum_packet_verifies_v4 sample_v4). split.
  - destruct tcp_ipv4_fresh as (_&_&_&_&_&H&_).
    apply Forall_app in H as [H _]. apply Forall_app. split; [exact H|apply Forall_nil_2].
  - exists 0, 5, 0x3c00, 20, tcp_check, (Some IPPROTO_TCP).
    split; [reflexivity|]. split; [discriminate|]. split; [vm_compute; reflexivity|].
    split; [vm_compute; reflexivity|]. split; [lia|]. split; [reflexivity|].
    split; [reflexivity|]. split; [vm_compute; discriminate|].
    split; [vm_compute; discriminate|vm_compute; discriminate].
Defined.

Lemma checksum_packet_v6 pkt : ready_v6 pkt ->
  exists b', checksum_packet pkt = Ok (set_pk_buffer b' pkt) /\
    receiver_ok_v6 (set_pk_buffer b' pkt) = Ok true /\
    bytes_ok b' /\ zlen b' = zlen (pk_buffer pkt) /\
    (forall i, 0 <= i -> ~ checksum_byte_v6 pkt i -> byte_at b' i = byte_at (pk_buffer pkt) i).
Proof.
  intros (Hb&p&pl&t&check&proto&Hp&H4&H0&Hpl&Hslot&Ht&Hchk&Hip&Hfit).
  destruct (slot_v6_check _ _ _ _ Hslot) as (o&->&Ho2&Ho). simpl field_off in Hchk.
  pose proof (ntohs_range pl).
  destruct (prefix_v6_stable pkt p proto (ntohs pl)) as (P&HP&HP2&HPl&Hpre); [done|lia|lia|].
  destruct (fill_segment_spec pkt t o (fun pkt => prefix_v6 pkt p proto (ntohs pl)) (ntohs pl) P)
    as (b3&seg&F3&Hb3&C3&G3&K3); try done; [lia|lia| |].
  { intros b' C'. apply (Hpre b' (t + o)); [done|lia]. }
  exists b3. split; [|split; [|split; [done|split]]].
  - unfold checksum_packet, packet_address_family. rewrite H4, Hp. simpl (_ =? _). cbv iota.
    unfold checksum_ipv6_packet. rewrite Hp. simpl deref. rewrite bind_Ok_eq.
    unfold prd. rewrite Hpl, bind_Ok_eq. unfold sizeof_ipv6.
    destruct (Z.leb_spec (40 + ntohs pl) (pk_ip_bytes pkt)); [|lia].
    destruct (Z.ltb_spec 0 (ntohs pl)); [|lia]. simpl c_assert. rewrite !bind_Ok_eq.
    unfold slot_v6 in Hslot.
    destruct (pk_tcp pkt); [|destruct (pk_udp pkt); [|destruct (pk_icmpv6 pkt)]];
      simplify_eq; rewrite l4_fill_v6;
      match goal with Hc : _ = F16 o |- _ => rewrite Hc end; exact F3.
  - unfold receiver_ok_v6. simpl pk_ipv6. rewrite Hp. simpl deref. rewrite bind_Ok_eq.
    unfold prd. simpl pk_buffer.
    rewrite (changes_only_rd _ _ _ _ p ipv6_payload_len C3), Hpl, bind_Ok_eq by (simpl; lia).
    change (slot_v6 _) with (slot_v6 pkt). rewrite Hslot. simpl deref. rewrite bind_Ok_eq.
    rewrite (Hpre b3 (t + o) C3), bind_Ok_eq, G3, bind_Ok_eq, K3 by lia. done.
  - by destruct C3 as [L3 _].
  - intros i Hi Hs. destruct C3 as [_ C3]. apply C3; [done|].
    destruct (decide (t + o <= i < t + o + 2)); [|lia]. destruct Hs. exists t, (F16 o), proto. done.
Qed.

(** The same over IPv6: for a packet with a consistent IPv6 header and a TCP, UDP or
    ICMPv6 segment inside its buffer, [checksum_packet] succeeds, the segment's
    checksum with its pseudo-header verifies as zero, and no other byte has changed. *)
Theorem checksum_packet_verifies_v6 (pkt : packet) :
  ready_v6 pkt ->
  exists b', checksum_packet pkt = Ok (set_pk_buffer b' pkt) /\
    receiver_ok_v6 (set_pk_buffer b' pkt) = Ok true /\
    bytes_ok b' /\ zlen b' = zlen (pk_buffer pkt) /\
    (forall i, 0 <= i -> ~ checksum_byte_v6 pkt i -> byte_at b' i = byte_at (pk_buffer pkt) i).
Proof. apply checksum_packet_v6. Qed.

(** The TCP/IPv6 packet of packet_parser_test.c (a SYN). *)
Definition tcp_ipv6_data : bytes :=
  [0x60; 0x00; 0x00; 0x00; 0x00; 0x20; 0x06; 0xff; 0x20; 0x01; 0x0d; 0xb8;
   0x00; 0x00; 0x00; 0x00; 0x00; 0x00; 0x00; 0x00; 0x00; 0x00; 0x00; 0x01;
   0xfd; 0x3d; 0xfa; 0x7b; 0xd1; 0x7d; 0x00; 0x00; 0x00; 0x00; 0x00; 0x00;
   0x00; 0x00; 0x00; 0x01; 0xd3; 0xe2; 0x1f; 0x90; 0x00; 0x00; 0x00; 0x00;
   0x00; 0x00; 0x00; 0x00; 0x80; 0x02; 0x80; 0x18; 0x06; 0x60; 0x00; 0x00;
   0x02; 0x04; 0x03; 0xe8; 0x04; 0x02; 0x01; 0x01; 0x01; 0x03; 0x03; 0x07].

Definition sample_v6 : packet :=
  set_pk_tcp (Some 40) (set_pk_ipv6 (Some 0) (set_pk_ip_bytes 72 (received tcp_ipv6_data 0))).

Lemma checksum_packet_verifies_v6_witness :
  exists b', checksum_packet sample_v6 = Ok (set_pk_buffer b' sample_v6) /\
    receiver_ok_v6 (set_pk_buffer b' sample_v6) = Ok true /\
    bytes_ok b' /\ zlen b' = zlen (pk_buffer sample_v6) /\
    (forall i, 0 <= i -> ~ checksum_byte_v6 sample_v6 i -> byte_at b' i = byte_at (pk_buffer sample_v6) i).
Proof.
  apply (checksum_packet_verifies_v6 sample_v6). split.
  - unfold bytes_ok, sample_v6. simpl.
    repeat (apply Forall_cons_2; [unfold is_byte; split; [discriminate|reflexivity]|]).
    apply Forall_nil_2.
  - exists 0, 0x2000, 40, tcp_check, IPPROTO_TCP.
    split; [reflexivity|]. split; [reflexivity|]. split; [discriminate|].
    split; [vm_compute; reflexivity|]. split; [reflexivity|]. split; [reflexivity|].
    split; [vm_compute; discriminate|].
    split; [vm_compute; discriminate|vm_compute; discriminate].
Defined.
