(* ===== verification/Socket.v ===== *)
(** * Socket: socket.h and socket.c

    The runtime state packetdrill keeps about a socket: its endpoints and initial
    sequence numbers in the script and in the live test, the address 4-tuples of
    packets, and the offsets between script and live sequence numbers. *)

From S2P Require Import Prelude Headers Packet HashMap IpAddress.

(** [socket.h:40-50] enum socket_state_t *)
Inductive socket_state_t :=
  | SOCKET_INIT
  | SOCKET_NEW
  | SOCKET_PASSIVE_LISTENING
  | SOCKET_PASSIVE_PACKET_RECEIVED
  | SOCKET_PASSIVE_SYNACK_SENT
  | SOCKET_PASSIVE_SYNACK_ACKED
  | SOCKET_ACTIVE_CONNECTING
  | SOCKET_ACTIVE_SYN_SENT
  | SOCKET_ACTIVE_SYN_ACKED.

#[export] Instance socket_state_t_eq_dec : EqDecision socket_state_t.
Proof. solve_decision. Defined.

(** [socket.h:53-56] struct endpoint; the port is in network order *)
Record endpoint := mk_endpoint { ep_ip : ip_address; ep_port : Z }.

#[export] Instance endpoint_eq_dec : EqDecision endpoint.
Proof. solve_decision. Defined.

(** [socket.h:59-62] struct tuple *)
Record tuple := mk_tuple { tp_src : endpoint; tp_dst : endpoint }.

#[export] Instance tuple_eq_dec : EqDecision tuple.
Proof. solve_decision. Defined.

(** [socket.h:65-70] struct socket_state *)
Record socket_state := mk_socket_state {
  ss_local : endpoint;
  ss_local_isn : Z;
  ss_remote : endpoint;
  ss_remote_isn : Z
}.

(** Assignments to the members of a socket_state. *)
Definition set_ss_local (v : endpoint) (s : socket_state) : socket_state :=
  mk_socket_state v (ss_local_isn s) (ss_remote s) (ss_remote_isn s).
Definition set_ss_local_isn (v : Z) (s : socket_state) : socket_state :=
  mk_socket_state (ss_local s) v (ss_remote s) (ss_remote_isn s).
Definition set_ss_remote (v : endpoint) (s : socket_state) : socket_state :=
  mk_socket_state (ss_local s) (ss_local_isn s) v (ss_remote_isn s).
Definition set_ss_remote_isn (v : Z) (s : socket_state) : socket_state :=
  mk_socket_state (ss_local s) (ss_local_isn s) (ss_remote s) v.

(** [socket.h:79-120] struct socket, with the members of its fd_state and of its
    flowlabel_map; a saved TCP header is its bytes *)
Record socket := mk_socket {
  sk_script_fd : Z;
  sk_live_fd : Z;
  sk_is_closed : bool;
  sk_state : socket_state_t;
  sk_address_family : Z;
  sk_type : Z;
  sk_protocol : Z;
  sk_script : socket_state;
  sk_live : socket_state;
  sk_ts_val_map : hash_map;
  sk_found_first_tcp_ts : bool;
  sk_first_script_ts_val : Z;
  sk_first_actual_ts_val : Z;
  sk_first_script_ts_ecr : Z;
  sk_first_actual_ts_ecr : Z;
  sk_last_outbound_tcp_header : bytes;
  sk_last_injected_tcp_header : bytes;
  sk_last_injected_tcp_payload_len : Z;
  sk_flowlabel_script : Z;
  sk_flowlabel_live : Z
}.

(** Assignments to the members of a socket. *)
Definition set_sk_script_fd (v : Z) (s : socket) : socket :=
  mk_socket v (sk_live_fd s) (sk_is_closed s) (sk_state s) (sk_address_family s)
    (sk_type s) (sk_protocol s) (sk_script s) (sk_live s) (sk_ts_val_map s)
    (sk_found_first_tcp_ts s) (sk_first_script_ts_val s) (sk_first_actual_ts_val s)
    (sk_first_script_ts_ecr s) (sk_first_actual_ts_ecr s) (sk_last_outbound_tcp_header
    s) (sk_last_injected_tcp_header s) (sk_last_injected_tcp_payload_len s)
    (sk_flowlabel_script s) (sk_flowlabel_live s).
Definition set_sk_live_fd (v : Z) (s : socket) : socket :=
  mk_socket (sk_script_fd s) v (sk_is_closed s) (sk_state s) (sk_address_family s)
    (sk_type s) (sk_protocol s) (sk_script s) (sk_live s) (sk_ts_val_map s)
    (sk_found_first_tcp_ts s) (sk_first_script_ts_val s) (sk_first_actual_ts_val s)
    (sk_first_script_ts_ecr s) (sk_first_actual_ts_ecr s) (sk_last_outbound_tcp_header
    s) (sk_last_injected_tcp_header s) (sk_last_injected_tcp_payload_len s)
    (sk_flowlabel_script s) (sk_flowlabel_live s).
Definition set_sk_is_closed (v : bool) (s : socket) : socket :=
  mk_socket (sk_script_fd s) (sk_live_fd s) v (sk_state s) (sk_address_family s)
    (sk_type s) (sk_protocol s) (sk_script s) (sk_live s) (sk_ts_val_map s)
    (sk_found_first_tcp_ts s) (sk_first_script_ts_val s) (sk_first_actual_ts_val s)
    (sk_first_script_ts_ecr s) (sk_first_actual_ts_ecr s) (sk_last_outbound_tcp_header
    s) (sk_last_injected_tcp_header s) (sk_last_injected_tcp_payload_len s)
    (sk_flowlabel_script s) (sk_flowlabel_live s).
Definition set_sk_state (v : socket_state_t) (s : socket) : socket :=
  mk_socket (sk_script_fd s) (sk_live_fd s) (sk_is_closed s) v (sk_address_family s)
    (sk_type s) (sk_protocol s) (sk_script s) (sk_live s) (sk_ts_val_map s)
    (sk_found_first_tcp_ts s) (sk_first_script_ts_val s) (sk_first_actual_ts_val s)
    (sk_first_script_ts_ecr s) (sk_first_actual_ts_ecr s) (sk_last_outbound_tcp_header
    s) (sk_last_injected_tcp_header s) (sk_last_injected_tcp_payload_len s)
    (sk_flowlabel_script s) (sk_flowlabel_live s).
Definition set_sk_address_family (v : Z) (s : socket) : socket :=
  mk_socket (sk_script_fd s) (sk_live_fd s) (sk_is_closed s) (sk_state s) v (sk_type
    s) (sk_protocol s) (sk_script s) (sk_live s) (sk_ts_val_map s)
    (sk_found_first_tcp_ts s) (sk_first_script_ts_val s) (sk_first_actual_ts_val s)
    (sk_first_script_ts_ecr s) (sk_first_actual_ts_ecr s) (sk_last_outbound_tcp_header
    s) (sk_last_injected_tcp_header s) (sk_last_injected_tcp_payload_len s)
    (sk_flowlabel_script s) (sk_flowlabel_live s).
Definition set_sk_type (v : Z) (s : socket) : socket :=
  mk_socket (sk_script_fd s) (sk_live_fd s) (sk_is_closed s) (sk_state s)
    (sk_address_family s) v (sk_protocol s) (sk_script s) (sk_live s) (sk_ts_val_map
    s) (sk_found_first_tcp_ts s) (sk_first_script_ts_val s) (sk_first_actual_ts_val s)
    (sk_first_script_ts_ecr s) (sk_first_actual_ts_ecr s) (sk_last_outbound_tcp_header
    s) (sk_last_injected_tcp_header s) (sk_last_injected_tcp_payload_len s)
    (sk_flowlabel_script s) (sk_flowlabel_live s).
Definition set_sk_protocol (v : Z) (s : socket) : socket :=
  mk_socket (sk_script_fd s) (sk_live_fd s) (sk_is_closed s) (sk_state s)
    (sk_address_family s) (sk_type s) v (sk_script s) (sk_live s) (sk_ts_val_map s)
    (sk_found_first_tcp_ts s) (sk_first_script_ts_val s) (sk_first_actual_ts_val s)
    (sk_first_script_ts_ecr s) (sk_first_actual_ts_ecr s) (sk_last_outbound_tcp_header
    s) (sk_last_injected_tcp_header s) (sk_last_injected_tcp_payload_len s)
    (sk_flowlabel_script s) (sk_flowlabel_live s).
Definition set_sk_script (v : socket_state) (s : socket) : socket :=
  mk_socket (sk_script_fd s) (sk_live_fd s) (sk_is_closed s) (sk_state s)
    (sk_address_family s) (sk_type s) (sk_protocol s) v (sk_live s) (sk_ts_val_map s)
    (sk_found_first_tcp_ts s) (sk_first_script_ts_val s) (sk_first_actual_ts_val s)
    (sk_first_script_ts_ecr s) (sk_first_actual_ts_ecr s) (sk_last_outbound_tcp_header
    s) (sk_last_injected_tcp_header s) (sk_last_injected_tcp_payload_len s)
    (sk_flowlabel_script s) (sk_flowlabel_live s).
Definition set_sk_live (v : socket_state) (s : socket) : socket :=
  mk_socket (sk_script_fd s) (sk_live_fd s) (sk_is_closed s) (sk_state s)
    (sk_address_family s) (sk_type s) (sk_protocol s) (sk_script s) v (sk_ts_val_map
    s) (sk_found_first_tcp_ts s) (sk_first_script_ts_val s) (sk_first_actual_ts_val s)
    (sk_first_script_ts_ecr s) (sk_first_actual_ts_ecr s) (sk_last_outbound_tcp_header
    s) (sk_last_injected_tcp_header s) (sk_last_injected_tcp_payload_len s)
    (sk_flowlabel_script s) (sk_flowlabel_live s).
Definition set_sk_ts_val_map (v : hash_map) (s : socket) : socket :=
  mk_socket (sk_script_fd s) (sk_live_fd s) (sk_is_closed s) (sk_state s)
    (sk_address_family s) (sk_type s) (sk_protocol s) (sk_script s) (sk_live s) v
    (sk_found_first_tcp_ts s) (sk_first_script_ts_val s) (sk_first_actual_ts_val s)
    (sk_first_script_ts_ecr s) (sk_first_actual_ts_ecr s) (sk_last_outbound_tcp_header
    s) (sk_last_injected_tcp_header s) (sk_last_injected_tcp_payload_len s)
    (sk_flowlabel_script s) (sk_flowlabel_live s).
Definition set_sk_found_first_tcp_ts (v : bool) (s : socket) : socket :=
  mk_socket (sk_script_fd s) (sk_live_fd s) (sk_is_closed s) (sk_state s)
    (sk_address_family s) (sk_type s) (sk_protocol s) (sk_script s) (sk_live s)
    (sk_ts_val_map s) v (sk_first_script_ts_val s) (sk_first_actual_ts_val s)
    (sk_first_script_ts_ecr s) (sk_first_actual_ts_ecr s) (sk_last_outbound_tcp_header
    s) (sk_last_injected_tcp_header s) (sk_last_injected_tcp_payload_len s)
    (sk_flowlabel_script s) (sk_flowlabel_live s).
Definition set_sk_first_script_ts_val (v : Z) (s : socket) : socket :=
  mk_socket (sk_script_fd s) (sk_live_fd s) (sk_is_closed s) (sk_state s)
    (sk_address_family s) (sk_type s) (sk_protocol s) (sk_script s) (sk_live s)
    (sk_ts_val_map s) (sk_found_first_tcp_ts s) v (sk_first_actual_ts_val s)
    (sk_first_script_ts_ecr s) (sk_first_actual_ts_ecr s) (sk_last_outbound_tcp_header
    s) (sk_last_injected_tcp_header s) (sk_last_injected_tcp_payload_len s)
    (sk_flowlabel_script s) (sk_flowlabel_live s).
Definition set_sk_first_actual_ts_val (v : Z) (s : socket) : socket :=
  mk_socket (sk_script_fd s) (sk_live_fd s) (sk_is_closed s) (sk_state s)
    (sk_address_family s) (sk_type s) (sk_protocol s) (sk_script s) (sk_live s)
    (sk_ts_val_map s) (sk_found_first_tcp_ts s) (sk_first_script_ts_val s) v
    (sk_first_script_ts_ecr s) (sk_first_actual_ts_ecr s) (sk_last_outbound_tcp_header
    s) (sk_last_injected_tcp_header s) (sk_last_injected_tcp_payload_len s)
    (sk_flowlabel_script s) (sk_flowlabel_live s).
Definition set_sk_first_script_ts_ecr (v : Z) (s : socket) : socket :=
  mk_socket (sk_script_fd s) (sk_live_fd s) (sk_is_closed s) (sk_state s)
    (sk_address_family s) (sk_type s) (sk_protocol s) (sk_script s) (sk_live s)
    (sk_ts_val_map s) (sk_found_first_tcp_ts s) (sk_first_script_ts_val s)
    (sk_first_actual_ts_val s) v (sk_first_actual_ts_ecr s)
    (sk_last_outbound_tcp_header s) (sk_last_injected_tcp_header s)
    (sk_last_injected_tcp_payload_len s) (sk_flowlabel_script s) (sk_flowlabel_live
    s).
Definition set_sk_first_actual_ts_ecr (v : Z) (s : socket) : socket :=
  mk_socket (sk_script_fd s) (sk_live_fd s) (sk_is_closed s) (sk_state s)
    (sk_address_family s) (sk_type s) (sk_protocol s) (sk_script s) (sk_live s)
    (sk_ts_val_map s) (sk_found_first_tcp_ts s) (sk_first_script_ts_val s)
    (sk_first_actual_ts_val s) (sk_first_script_ts_ecr s) v
    (sk_last_outbound_tcp_header s) (sk_last_injected_tcp_header s)
    (sk_last_injected_tcp_payload_len s) (sk_flowlabel_script s) (sk_flowlabel_live
    s).
Definition set_sk_last_outbound_tcp_header (v : bytes) (s : socket) : socket :=
  mk_socket (sk_script_fd s) (sk_live_fd s) (sk_is_closed s) (sk_state s)
    (sk_address_family s) (sk_type s) (sk_protocol s) (sk_script s) (sk_live s)
    (sk_ts_val_map s) (sk_found_first_tcp_ts s) (sk_first_script_ts_val s)
    (sk_first_actual_ts_val s) (sk_first_script_ts_ecr s) (sk_first_actual_ts_ecr s) v
    (sk_last_injected_tcp_header s) (sk_last_injected_tcp_payload_len s)
    (sk_flowlabel_script s) (sk_flowlabel_live s).
Definition set_sk_last_injected_tcp_header (v : bytes) (s : socket) : socket :=
  mk_socket (sk_script_fd s) (sk_live_fd s) (sk_is_closed s) (sk_state s)
    (sk_address_family s) (sk_type s) (sk_protocol s) (sk_script s) (sk_live s)
    (sk_ts_val_map s) (sk_found_first_tcp_ts s) (sk_first_script_ts_val s)
    (sk_first_actual_ts_val s) (sk_first_script_ts_ecr s) (sk_first_actual_ts_ecr s)
    (sk_last_outbound_tcp_header s) v (sk_last_injected_tcp_payload_len s)
    (sk_flowlabel_script s) (sk_flowlabel_live s).
Definition set_sk_last_injected_tcp_payload_len (v : Z) (s : socket) : socket :=
  mk_socket (sk_script_fd s) (sk_live_fd s) (sk_is_closed s) (sk_state s)
    (sk_address_family s) (sk_type s) (sk_protocol s) (sk_script s) (sk_live s)
    (sk_ts_val_map s) (sk_found_first_tcp_ts s) (sk_first_script_ts_val s)
    (sk_first_actual_ts_val s) (sk_first_script_ts_ecr s) (sk_first_actual_ts_ecr s)
    (sk_last_outbound_tcp_header s) (sk_last_injected_tcp_header s) v
    (sk_flowlabel_script s) (sk_flowlabel_live s).
Definition set_sk_flowlabel_script (v : Z) (s : socket) : socket :=
  mk_socket (sk_script_fd s) (sk_live_fd s) (sk_is_closed s) (sk_state s)
    (sk_address_family s) (sk_type s) (sk_protocol s) (sk_script s) (sk_live s)
    (sk_ts_val_map s) (sk_found_first_tcp_ts s) (sk_first_script_ts_val s)
    (sk_first_actual_ts_val s) (sk_first_script_ts_ecr s) (sk_first_actual_ts_ecr s)
    (sk_last_outbound_tcp_header s) (sk_last_injected_tcp_header s)
    (sk_last_injected_tcp_payload_len s) v (sk_flowlabel_live s).
Definition set_sk_flowlabel_live (v : Z) (s : socket) : socket :=
  mk_socket (sk_script_fd s) (sk_live_fd s) (sk_is_closed s) (sk_state s)
    (sk_address_family s) (sk_type s) (sk_protocol s) (sk_script s) (sk_live s)
    (sk_ts_val_map s) (sk_found_first_tcp_ts s) (sk_first_script_ts_val s)
    (sk_first_actual_ts_val s) (sk_first_script_ts_ecr s) (sk_first_actual_ts_ecr s)
    (sk_last_outbound_tcp_header s) (sk_last_injected_tcp_header s)
    (sk_last_injected_tcp_payload_len s) (sk_flowlabel_script s) v.

(** What [memset(..., 0, ...)] leaves in an endpoint. *)
Definition endpoint_zero : endpoint := mk_endpoint ip_reset 0.
Definition socket_state_zero : socket_state := mk_socket_state endpoint_zero 0 endpoint_zero 0.

(** [socket.c:65-73] socket_new: the calloc-ed object; the caller links it into the
    state's list *)
Definition socket_new : exec socket :=
  ts_val_map ← hash_map_new 1;
  Ok (mk_socket 0 0 false SOCKET_INIT 0 0 0 socket_state_zero socket_state_zero ts_val_map
    false 0 0 0 0 (replicate 20 0) (replicate 20 0) 0 0 0).

(** [socket.h:140-146] socket_get_outbound *)
Definition socket_get_outbound (s : socket_state) : tuple := mk_tuple (ss_local s) (ss_remote s).

(** [socket.h:149-155] socket_get_inbound *)
Definition socket_get_inbound (s : socket_state) : tuple := mk_tuple (ss_remote s) (ss_local s).

(** [socket.h:158-162] is_equal_tuple: memcmp over all members; the padding is zero in
    every tuple that is compared, as all of them start from memset or calloc *)
Definition is_equal_tuple (a b : tuple) : bool := bool_decide (a = b).

(** [socket.h:167-174] reverse_tuple *)
Definition reverse_tuple (t : tuple) : tuple :=
  mk_tuple (mk_endpoint (ep_ip (tp_dst t)) (ep_port (tp_dst t)))
    (mk_endpoint (ep_ip (tp_src t)) (ep_port (tp_src t))).

(** [types.h:157-160] is_equal_port *)
Definition is_equal_port (a b : Z) : bool := a =? b.

(** [socket.h:180-189] the addresses get_packet_tuple takes from a packet *)
Definition get_packet_ips (pkt : packet) : exec (ip_address * ip_address) :=
  match pk_ipv4 pkt, pk_ipv6 pkt with
  | Some ipv4, _ =>
      src ← get_bytes (pk_buffer pkt) (ipv4 + field_off ipv4_src_ip) 4;
      dst ← get_bytes (pk_buffer pkt) (ipv4 + field_off ipv4_dst_ip) 4;
      Ok (ip_from_ipv4 src, ip_from_ipv4 dst)
  | None, Some ipv6 =>
      src ← get_bytes (pk_buffer pkt) (ipv6 + ipv6_src_ip) 16;
      dst ← get_bytes (pk_buffer pkt) (ipv6 + ipv6_dst_ip) 16;
      Ok (ip_from_ipv6 src, ip_from_ipv6 dst)
  | None, None => Fault AssertFailed
  end.

(** [socket.h:177-197] get_packet_tuple *)
Definition get_packet_tuple (pkt : packet) : exec tuple :=
  '(src, dst) ← get_packet_ips pkt;
  match pk_tcp pkt, pk_udp pkt with
  | Some tcp, _ =>
      sp ← prd pkt tcp tcp_src_port;
      dp ← prd pkt tcp tcp_dst_port;
      Ok (mk_tuple (mk_endpoint src sp) (mk_endpoint dst dp))
  | None, Some udp =>
      sp ← prd pkt udp udp_src_port;
      dp ← prd pkt udp udp_dst_port;
      Ok (mk_tuple (mk_endpoint src sp) (mk_endpoint dst dp))
  | None, None => Ok (mk_tuple (mk_endpoint src 0) (mk_endpoint dst 0))
  end.

(** [socket.h:200-222] set_headers_tuple: the headers are given by their locations in
    the packet *)
Definition set_headers_tuple (pkt : packet) (ipv4 ipv6 tcp udp : option Z) (t : tuple)
    : exec packet :=
  pkt ← match ipv4, ipv6 with
        | Some p, _ =>
            pkt ← pkt_memcpy pkt (p + field_off ipv4_src_ip) (ip_to_ipv4 (ep_ip (tp_src t)));
            pkt_memcpy pkt (p + field_off ipv4_dst_ip) (ip_to_ipv4 (ep_ip (tp_dst t)))
        | None, Some p =>
            pkt ← pkt_memcpy pkt (p + ipv6_src_ip) (ip_to_ipv6 (ep_ip (tp_src t)));
            pkt_memcpy pkt (p + ipv6_dst_ip) (ip_to_ipv6 (ep_ip (tp_dst t)))
        | None, None => Fault AssertFailed
        end;
  match tcp, udp with
  | Some p, _ =>
      pkt ← pwr pkt p tcp_src_port (ep_port (tp_src t));
      pwr pkt p tcp_dst_port (ep_port (tp_dst t))
  | None, Some p =>
      pkt ← pwr pkt p udp_src_port (ep_port (tp_src t));
      pwr pkt p udp_dst_port (ep_port (tp_dst t))
  | None, None => Ok pkt
  end.

(** [socket.h:225-246] set_icmp_echoed_tuple *)
Definition set_icmp_echoed_tuple (pkt : packet) (t : tuple) : exec packet :=
  tcp ← packet_echoed_tcp_header pkt;
  udp ← packet_echoed_udp_header pkt;
  set_headers_tuple pkt (packet_echoed_ipv4_header pkt) (packet_echoed_ipv6_header pkt)
    tcp udp (reverse_tuple t).

(** [socket.h:249-256] set_packet_tuple *)
Definition set_packet_tuple (pkt : packet) (t : tuple) : exec packet :=
  pkt ← set_headers_tuple pkt (pk_ipv4 pkt) (pk_ipv6 pkt) (pk_tcp pkt) (pk_udp pkt) t;
  if bool_decide (is_Some (pk_icmpv4 pkt)) || bool_decide (is_Some (pk_icmpv6 pkt))
  then set_icmp_echoed_tuple pkt t else Ok pkt.

(** [socket.h:285-289] remote_seq_script_to_live_offset *)
Definition remote_seq_script_to_live_offset (s : socket) (is_syn : bool) : Z :=
  if is_syn then 0 else ss_remote_isn (sk_live s).

(** [socket.h:291-295] remote_seq_live_to_script_offset *)
Definition remote_seq_live_to_script_offset (s : socket) (is_syn : bool) : Z :=
  u32 (- remote_seq_script_to_live_offset s is_syn).

(** [socket.h:297-303] local_seq_script_to_live_offset *)
Definition local_seq_script_to_live_offset (s : socket) (is_syn : bool) : Z :=
  if is_syn then u32 (ss_local_isn (sk_live s) - ss_local_isn (sk_script s))
  else ss_local_isn (sk_live s).

(** [socket.h:305-309] local_seq_live_to_script_offset *)
Definition local_seq_live_to_script_offset (s : socket) (is_syn : bool) : Z :=
  u32 (- local_seq_script_to_live_offset s is_syn).

(** ** Writing a tuple and reading it back *)

(** Writes of several chunks, one after the other. *)
Fixpoint puts (b : bytes) (l : list (Z * bytes)) : exec bytes :=
  match l with
  | [] => Ok b
  | (o, w) :: l' => b ← put_bytes b o w; puts b l'
  end.

Definition apart (c d : Z * bytes) : Prop :=
  fst c + zlen (snd c) <= fst d \/ fst d + zlen (snd d) <= fst c.

(** A byte position that no chunk covers. *)
Definition outside (i : Z) (l : list (Z * bytes)) : Prop :=
  Forall (fun c => i < fst c \/ fst c + zlen (snd c) <= i) l.

(** Disjoint chunks inside the buffer are all found where they were put, and
    nothing else changes. *)
Lemma puts_spec l b :
  bytes_ok b ->
  Forall (fun c => 0 <= fst c /\ fst c + zlen (snd c) <= zlen b /\ bytes_ok (snd c)) l ->
  ForallOrdPairs apart l ->
  exists b', puts b l = Ok b' /\ bytes_ok b' /\ zlen b' = zlen b /\
    (forall o w, (o, w) ∈ l -> get_bytes b' o (zlen w) = Ok w) /\
    (forall i, 0 <= i -> outside i l -> byte_at b' i = byte_at b i).
Proof.
  revert b. induction l as [|[o w] l IH]; intros b Hb Hin Hap.
  { exists b. repeat split; [done|]. by intros o w ?%elem_of_nil. }
  inversion Hin as [|? ? (Ho&Hw&Hok) Hin']; inversion Hap as [|? ? Hap1 Hap']; subst.
  simpl in *. destruct (put_bytes_in b o w) as [b1 E]; [lia|lia|].
  pose proof (put_bytes_zlen _ _ _ _ E) as Hz. rewrite E, bind_Ok_eq.
  destruct (IH b1) as (b'&E'&Hb'&Hz'&Hget&Hout).
  { by eapply put_bytes_bytes_ok; [| |exact E]. }
  { by rewrite Hz. }
  { done. }
  exists b'. split; [done|]. split; [done|]. split; [lia|]. split.
  - intros o' w' [Heq|Hl]%elem_of_cons; [|by apply Hget]. injection Heq as -> ->.
    rewrite <-(get_put_same _ _ _ _ E). apply get_bytes_ext; [lia|].
    intros i Hi. apply Hout; [lia|]. eapply Forall_impl; [exact Hap1|].
    intros [o' w']. unfold apart. simpl. lia.
  - intros i Hi [Hi1 Hi2]%Forall_cons. rewrite Hout by done.
    rewrite (byte_at_put _ _ _ _ _ E) by lia. simpl in Hi1.
    destruct (Z.leb_spec o i), (Z.ltb_spec i (o + zlen w)); try lia; done.
Qed.

(** The chunks a tuple is written to: the two addresses and the two ports. *)
Definition tuple_chunks (pkt : packet) (l4 : Z) (t : tuple) : list (Z * bytes) :=
  match pk_ipv4 pkt, pk_ipv6 pkt with
  | Some p, _ => [(p + 12, ip_to_ipv4 (ep_ip (tp_src t))); (p + 16, ip_to_ipv4 (ep_ip (tp_dst t)))]
  | None, Some p => [(p + 8, ip_to_ipv6 (ep_ip (tp_src t))); (p + 24, ip_to_ipv6 (ep_ip (tp_dst t)))]
  | None, None => []
  end ++ [(l4, le_split 2 (ep_port (tp_src t))); (l4 + 2, le_split 2 (ep_port (tp_dst t)))].

(** A packet with an IP header followed by a TCP or UDP header, in its buffer. *)
Definition has_tuple (pkt : packet) (l4 : Z) : Prop :=
  bytes_ok (pk_buffer pkt) /\ l4 + 4 <= zlen (pk_buffer pkt) /\
  (pk_tcp pkt = Some l4 \/ pk_tcp pkt = None /\ pk_udp pkt = Some l4) /\
  (match pk_ipv4 pkt, pk_ipv6 pkt with
   | Some p, _ => 0 <= p /\ p + 20 <= l4
   | None, Some p => 0 <= p /\ p + 40 <= l4
   | None, None => False
   end).

(** A tuple of the packet's address family. *)
Definition tuple_of_family (family : Z) (t : tuple) : Prop :=
  ip_ok (ep_ip (tp_src t)) /\ ip_ok (ep_ip (tp_dst t)) /\
  ip_family (ep_ip (tp_src t)) = family /\ ip_family (ep_ip (tp_dst t)) = family /\
  0 <= ep_port (tp_src t) < 65536 /\ 0 <= ep_port (tp_dst t) < 65536.

Lemma set_headers_tuple_puts pkt l4 t :
  has_tuple pkt l4 ->
  set_headers_tuple pkt (pk_ipv4 pkt) (pk_ipv6 pkt) (pk_tcp pkt) (pk_udp pkt) t =
  (b ← puts (pk_buffer pkt) (tuple_chunks pkt l4 t); Ok (set_pk_buffer b pkt)).
Proof.
  intros (_&_&Hl4&Hip). unfold set_headers_tuple, tuple_chunks, pkt_memcpy, pwr.
  assert (Hports : forall q, pk_tcp q = pk_tcp pkt -> pk_udp q = pk_udp pkt ->
    match pk_tcp pkt, pk_udp pkt with
    | Some p, _ => pkt ← (b ← wr (pk_buffer q) p tcp_src_port (ep_port (tp_src t));
                          Ok (set_pk_buffer b q));
                   b ← wr (pk_buffer pkt) p tcp_dst_port (ep_port (tp_dst t));
                   Ok (set_pk_buffer b pkt)
    | None, Some p => pkt ← (b ← wr (pk_buffer q) p udp_src_port (ep_port (tp_src t));
                          Ok (set_pk_buffer b q));
                   b ← wr (pk_buffer pkt) p udp_dst_port (ep_port (tp_dst t));
                   Ok (set_pk_buffer b pkt)
    | None, None => Ok q
    end = (b ← puts (pk_buffer q) [(l4, le_split 2 (ep_port (tp_src t)));
             (l4 + 2, le_split 2 (ep_port (tp_dst t)))]; Ok (set_pk_buffer b q))).
  { intros q _ _. destruct Hl4 as [->|[-> ->]]; simpl; unfold st16; rewrite Z.add_0_r;
      (destruct (put_bytes _ l4 _); [|done]); simpl;
      by destruct (put_bytes _ (l4 + 2) _). }
  destruct (pk_ipv4 pkt) as [p|]; [|destruct (pk_ipv6 pkt) as [p|]; [|done]]; simpl;
    (destruct (put_bytes (pk_buffer pkt) _ _) as [b1|]; [|done]); simpl;
    (destruct (put_bytes b1 _ _) as [b2|]; [|done]); simpl;
    by apply (Hports (set_pk_buffer b2 pkt)).
Qed.

Lemma tuple_chunks_ok pkt l4 t :
  has_tuple pkt l4 -> tuple_of_family (packet_address_family pkt) t ->
  Forall (fun c => 0 <= fst c /\ fst c + zlen (snd c) <= zlen (pk_buffer pkt) /\ bytes_ok (snd c))
    (tuple_chunks pkt l4 t) /\
  ForallOrdPairs apart (tuple_chunks pkt l4 t).
Proof.
  intros (Hb&Hlen&Hl4&Hip) ((Hsb&Hsl&_)&(Hdb&Hdl&_)&_).
  unfold tuple_chunks, ip_to_ipv4, ip_to_ipv6.
  destruct (pk_ipv4 pkt) as [p|]; [|destruct (pk_ipv6 pkt) as [p|]; [|done]]; simpl app.
  all: split; [repeat (apply Forall_cons; split); try apply Forall_nil_2|
    repeat (apply FOP_cons); try apply FOP_nil].
  all: repeat (apply Forall_cons; split); try apply Forall_nil_2.
  all: unfold apart; unfold zlen in *; rewrite ?length_take, ?Hsl, ?Hdl; simpl fst; simpl snd;
    rewrite ?length_take, ?Hsl, ?Hdl; simpl length; try lia.
  all: split; [lia|split; [simpl; lia|solve_bytes]].
Qed.

Lemma ip_from_to_v4 ip : ip_ok ip -> ip_family ip = AF_INET ->
  ip_from_ipv4 (ip_to_ipv4 ip) = ip.
Proof.
  intros (_&_&Hf) H. destruct ip as [f o]. simpl in *. subst. destruct Hf as [|[_ Hd]]; [done|].
  unfold ip_from_ipv4, ip_to_ipv4, set_v4. simpl. f_equal. rewrite <-(take_drop 4 o) at 2.
  by rewrite Hd.
Qed.

Lemma ip_from_to_v6 ip : ip_family ip = AF_INET6 -> ip_from_ipv6 (ip_to_ipv6 ip) = ip.
Proof. destruct ip as [f o]. simpl. by intros ->. Qed.

Lemma le_combine_port x : 0 <= x < 65536 -> le_combine (le_split 2 x) = x.
Proof. intros. rewrite le_combine_split. by apply Z.mod_small. Qed.

(** The ports of a packet whose transport header starts with the given bytes. *)
Lemma get_ports pkt l4 sp dp :
  pk_tcp pkt = Some l4 \/ pk_tcp pkt = None /\ pk_udp pkt = Some l4 ->
  0 <= sp < 65536 -> 0 <= dp < 65536 ->
  get_bytes (pk_buffer pkt) l4 2 = Ok (le_split 2 sp) ->
  get_bytes (pk_buffer pkt) (l4 + 2) 2 = Ok (le_split 2 dp) ->
  forall src dst, get_packet_ips pkt = Ok (src, dst) ->
  get_packet_tuple pkt = Ok (mk_tuple (mk_endpoint src sp) (mk_endpoint dst dp)).
Proof.
  intros Hl4 Hs Hd Gs Gd src dst Hips. unfold get_packet_tuple. rewrite Hips, bind_Ok_eq.
  unfold prd. destruct Hl4 as [->|[-> ->]]; unfold rd, tcp_src_port, tcp_dst_port, udp_src_port,
    udp_dst_port, ld16; rewrite Z.add_0_r, Gs, Gd; unfold fmap, exec_fmap;
    by rewrite !bind_Ok_eq, !le_combine_port.
Qed.

Lemma set_get_tuple pkt l4 t :
  has_tuple pkt l4 -> tuple_of_family (packet_address_family pkt) t ->
  exists b, set_headers_tuple pkt (pk_ipv4 pkt) (pk_ipv6 pkt) (pk_tcp pkt) (pk_udp pkt) t
              = Ok (set_pk_buffer b pkt) /\
    get_packet_tuple (set_pk_buffer b pkt) = Ok t /\
    bytes_ok b /\ zlen b = zlen (pk_buffer pkt) /\
    (forall i, 0 <= i -> outside i (tuple_chunks pkt l4 t) ->
       byte_at b i = byte_at (pk_buffer pkt) i).
Proof.
  intros Hp Ht. destruct (tuple_chunks_ok pkt l4 t Hp Ht) as [Hin Hap].
  destruct (puts_spec _ _ (proj1 Hp) Hin Hap) as (b&E&Hb&Hz&Hget&Hout).
  exists b. rewrite (set_headers_tuple_puts pkt l4 t Hp), E, bind_Ok_eq.
  split; [done|]. split; [|done].
  destruct Hp as (_&_&Hl4&Hip). destruct Ht as (Hs&Hd&Hfs&Hfd&Hps&Hpd).
  assert (G : forall o w, (o, w) ∈ tuple_chunks pkt l4 t ->
    get_bytes (pk_buffer (set_pk_buffer b pkt)) o (zlen w) = Ok w) by exact Hget.
  destruct t as [[sip sp] [dip dp]]. simpl in *.
  apply get_ports with (l4 := l4); [done|done|done| | |].
  - apply (G l4 (le_split 2 sp)). unfold tuple_chunks. set_solver.
  - apply (G (l4 + 2) (le_split 2 dp)). unfold tuple_chunks. set_solver.
  - unfold get_packet_ips. unfold tuple_chunks in G. simpl in *.
    unfold packet_address_family in *.
    destruct (pk_ipv4 pkt) as [p|]; [|destruct (pk_ipv6 pkt) as [p|]; [|done]]; simpl in *.
    + pose proof (G (p + 12) (ip_to_ipv4 sip) ltac:(set_solver)) as G1.
      pose proof (G (p + 16) (ip_to_ipv4 dip) ltac:(set_solver)) as G2.
      destruct Hs as (?&Hsl&?), Hd as (?&Hdl&?).
      unfold ip_to_ipv4, zlen in G1, G2. rewrite length_take, Hsl in G1.
      rewrite length_take, Hdl in G2. simpl in G1, G2.
      change (Z.of_nat 4) with 4 in *.
      rewrite G1, bind_Ok_eq, G2, bind_Ok_eq. do 2 f_equal; by apply ip_from_to_v4.
    + pose proof (G (p + 8) (ip_to_ipv6 sip) ltac:(set_solver)) as G1.
      pose proof (G (p + 24) (ip_to_ipv6 dip) ltac:(set_solver)) as G2.
      destruct Hs as (?&Hsl&?), Hd as (?&Hdl&?).
      unfold ip_to_ipv6, zlen in G1, G2. rewrite Hsl in G1. rewrite Hdl in G2. simpl in G1, G2.
      change (Z.of_nat 16) with 16 in *.
      unfold ipv6_src_ip, ipv6_dst_ip. rewrite G1, bind_Ok_eq, G2, bind_Ok_eq.
      do 2 f_equal; by apply ip_from_to_v6.
Qed.

(** A 4-tuple written into a packet reads back: on any TCP or UDP packet over IPv4
    or IPv6 whose headers lie in its buffer, set_packet_tuple returns, get_packet_tuple
    then gives the tuple that was written, and no byte of the packet other than the two
    addresses and the two ports has changed. *)
Theorem packet_tuple_roundtrip (pkt : packet) (l4 : Z) (t : tuple) :
  has_tuple pkt l4 -> pk_icmpv4 pkt = None -> pk_icmpv6 pkt = None ->
  tuple_of_family (packet_address_family pkt) t ->
  exists b, set_packet_tuple pkt t = Ok (set_pk_buffer b pkt) /\
    get_packet_tuple (set_pk_buffer b pkt) = Ok t /\ zlen b = zlen (pk_buffer pkt) /\
    (forall i, 0 <= i -> outside i (tuple_chunks pkt l4 t) ->
       byte_at b i = byte_at (pk_buffer pkt) i).
Proof.
  intros Hp H4 H6 Ht. destruct (set_get_tuple pkt l4 t Hp Ht) as (b&E&G&_&Hz&Ho).
  exists b. unfold set_packet_tuple. rewrite E, bind_Ok_eq. simpl. by rewrite H4, H6.
Qed.

Definition sample_endpoint (last port : Z) : endpoint :=
  mk_endpoint (ip_from_ipv4 [192; 168; 0; last]) port.
Definition sample_tuple : tuple := mk_tuple (sample_endpoint 1 8080) (sample_endpoint 2 80).

(** A 44-byte IPv4 TCP packet. *)
Definition sample_tcp4 : packet :=
  set_pk_ipv4 (Some 0) (set_pk_tcp (Some 20) (set_pk_buffer (replicate 44 0)
    (mk_packet [] 44 0 44 DIRECTION_INBOUND (replicate 6 header_none) None None None None None
      None false 0 0 TOS_CHECK_NONE None None 0))).

Ltac solve_sample_ip := solve_ip_ok; right; split; reflexivity.

Lemma packet_tuple_roundtrip_witness :
  exists b, set_packet_tuple sample_tcp4 sample_tuple = Ok (set_pk_buffer b sample_tcp4) /\
    get_packet_tuple (set_pk_buffer b sample_tcp4) = Ok sample_tuple /\
    zlen b = zlen (pk_buffer sample_tcp4) /\
    (forall i, 0 <= i -> outside i (tuple_chunks sample_tcp4 20 sample_tuple) ->
       byte_at b i = byte_at (pk_buffer sample_tcp4) i).
Proof.
  apply (packet_tuple_roundtrip sample_tcp4 20 sample_tuple).
  - split; [unfold bytes_ok; apply Forall_replicate; unfold is_byte; lia|].
    split; [unfold zlen; simpl; lia|]. split; [by left|]. simpl. lia.
  - reflexivity.
  - reflexivity.
  - split; [solve_sample_ip|split; [solve_sample_ip|]]. simpl. repeat split; lia.
Defined.

(** ** Script and live sequence numbers *)

Lemma u32_add_neg x d : 0 <= x < 4294967296 -> u32 (u32 (x + d) + u32 (- d)) = x.
Proof. intros. unfold u32. rewrite <-Zplus_mod. by rewrite Z.add_opp_r, Z.add_simpl_r, Z.mod_small. Qed.

(** Script and live sequence numbers translate back and forth: adding the offset to
    live numbers and then the offset to script numbers is the identity on every 32-bit
    sequence number, for the local and for the remote side, on SYNs and on other
    packets, wrap-around included. *)
Lemma seq_offsets_inverse (s : socket) (is_syn : bool) (seq : Z) :
  0 <= seq < 4294967296 ->
  u32 (u32 (seq + local_seq_script_to_live_offset s is_syn)
       + local_seq_live_to_script_offset s is_syn) = seq /\
  u32 (u32 (seq + remote_seq_script_to_live_offset s is_syn)
       + remote_seq_live_to_script_offset s is_syn) = seq.
Proof. intros H. split; by apply u32_add_neg. Qed.
