(* ===== verification/RunState.v ===== *)
(** * RunState: the interpreter's state and its notion of time (run.h, run.c)

    The state of a test run, the events of a script, the conversions between script
    time and live time, the check that something happened on time, waiting for an
    event and moving to the next one.

    Pointers between objects of the run are indices: a [socket *] is an index into
    [st_sockets], an [event *] an index into [st_events], so that an event changed
    through [state->event] is seen changed through [state->last_event].  What the
    environment supplies is in the state too: the ports the kernel would hand out, the
    readings of the clock still to come, the results of the next receives, which of the
    next sends the device fails (none when the list has ended); the packets given to the
    device are collected in [st_sent]. *)

From S2P Require Import Prelude Headers Packet HashMap IpAddress IpPacket Socket Script.

(** [config.h:92-130] struct config: the members that running packets and system calls
    uses *)
Record config := mk_config {
  cfg_live_bind_port : Z;
  cfg_live_connect_port : Z;
  cfg_live_local_ip : ip_address;
  cfg_live_remote_ip : ip_address;
  cfg_tolerance_usecs : Z;
  cfg_tcp_ts_ecr_scaled : bool;
  cfg_tcp_ts_tick_usecs : Z;
  cfg_mss : Z;
  cfg_strict_segments : bool;
  cfg_non_fatal_packet : bool;
  cfg_script_path : string;
  cfg_is_wire_client : bool;
  cfg_is_wire_server : bool;
  cfg_is_anyip : bool;
  cfg_socket_domain : Z;
  cfg_wire_protocol : Z;
  cfg_live_bind_ip : ip_address;
  cfg_live_connect_ip : ip_address
}.

(** [script.h:195-202] enum event_t, with what the union of struct event points to *)
Inductive event_t :=
  | INVALID_EVENT
  | PACKET_EVENT (pkt : packet)
  | SYSCALL_EVENT (call : syscall_spec)
  | COMMAND_EVENT (command_line : string)
  | CODE_EVENT (text : string).

(** [script.h:205-212] enum event_time_t *)
Inductive event_time_t :=
  | ABSOLUTE_TIME
  | RELATIVE_TIME
  | ANY_TIME
  | ABSOLUTE_RANGE_TIME
  | RELATIVE_RANGE_TIME.

#[export] Instance event_time_t_eq_dec : EqDecision event_time_t.
Proof. solve_decision. Defined.

(** [script.h:215-230] struct event; the list is in [st_events] *)
Record event := mk_event {
  ev_line_number : Z;
  ev_time_usecs : Z;
  ev_time_usecs_end : Z;
  ev_offset_usecs : Z;
  ev_time_type : event_time_t;
  ev_event : event_t
}.

(** Assignments to the members of an event. *)
Definition set_ev_line_number (v : Z) (e : event) : event :=
  mk_event v (ev_time_usecs e) (ev_time_usecs_end e) (ev_offset_usecs e) (ev_time_type e)
    (ev_event e).
Definition set_ev_time_usecs (v : Z) (e : event) : event :=
  mk_event (ev_line_number e) v (ev_time_usecs_end e) (ev_offset_usecs e) (ev_time_type e)
    (ev_event e).
Definition set_ev_time_usecs_end (v : Z) (e : event) : event :=
  mk_event (ev_line_number e) (ev_time_usecs e) v (ev_offset_usecs e) (ev_time_type e)
    (ev_event e).
Definition set_ev_offset_usecs (v : Z) (e : event) : event :=
  mk_event (ev_line_number e) (ev_time_usecs e) (ev_time_usecs_end e) v (ev_time_type e)
    (ev_event e).
Definition set_ev_time_type (v : event_time_t) (e : event) : event :=
  mk_event (ev_line_number e) (ev_time_usecs e) (ev_time_usecs_end e) (ev_offset_usecs e)
    v (ev_event e).
Definition set_ev_event (v : event_t) (e : event) : event :=
  mk_event (ev_line_number e) (ev_time_usecs e) (ev_time_usecs_end e) (ev_offset_usecs e)
    (ev_time_type e) v.

(** [fd_state.h:31-36] enum fd_type_t *)
Inductive fd_type_t := FD_SOCKET | FD_FILE | FD_PIPE | FD_EPOLL.

#[export] Instance fd_type_t_eq_dec : EqDecision fd_type_t.
Proof. solve_decision. Defined.

(** [fd_state.h:50-56] struct fd_state: that of a socket is part of the socket in
    [st_sockets]; a file, a pipe or an epoll has nothing else *)
Inductive fd_state :=
  | FdSocket (i : nat)
  | FdOther (type : fd_type_t) (script_fd live_fd : Z) (is_closed : bool).

(** [run.h:91-109] struct state, with the globals and the environment described above *)
Record state := mk_state {
  st_config : config;
  st_checker : bool;
  st_next_ephemeral_port : Z;
  st_ephemeral_ports : list Z;
  st_sockets : list socket;
  st_fds : list fd_state;
  st_socket_under_test : option nat;
  st_events : list event;
  st_event : option nat;
  st_last_event : option nat;
  st_script_start_time_usecs : Z;
  st_script_last_time_usecs : Z;
  st_live_start_time_usecs : Z;
  st_num_events : Z;
  st_clock : list Z;
  st_received : list (result packet);
  st_sent : list packet;
  st_send_fails : list bool
}.

(** Assignments to the members of the state. *)
Definition set_st_config (v : config) (s : state) : state :=
  mk_state v (st_checker s) (st_next_ephemeral_port s) (st_ephemeral_ports s) (st_sockets
    s) (st_fds s) (st_socket_under_test s) (st_events s) (st_event s) (st_last_event s)
    (st_script_start_time_usecs s) (st_script_last_time_usecs s) (st_live_start_time_usecs
    s) (st_num_events s) (st_clock s) (st_received s) (st_sent s) (st_send_fails s).
Definition set_st_checker (v : bool) (s : state) : state :=
  mk_state (st_config s) v (st_next_ephemeral_port s) (st_ephemeral_ports s) (st_sockets
    s) (st_fds s) (st_socket_under_test s) (st_events s) (st_event s) (st_last_event s)
    (st_script_start_time_usecs s) (st_script_last_time_usecs s) (st_live_start_time_usecs
    s) (st_num_events s) (st_clock s) (st_received s) (st_sent s) (st_send_fails s).
Definition set_st_next_ephemeral_port (v : Z) (s : state) : state :=
  mk_state (st_config s) (st_checker s) v (st_ephemeral_ports s) (st_sockets s) (st_fds s)
    (st_socket_under_test s) (st_events s) (st_event s) (st_last_event s)
    (st_script_start_time_usecs s) (st_script_last_time_usecs s) (st_live_start_time_usecs
    s) (st_num_events s) (st_clock s) (st_received s) (st_sent s) (st_send_fails s).
Definition set_st_ephemeral_ports (v : list Z) (s : state) : state :=
  mk_state (st_config s) (st_checker s) (st_next_ephemeral_port s) v (st_sockets s)
    (st_fds s) (st_socket_under_test s) (st_events s) (st_event s) (st_last_event s)
    (st_script_start_time_usecs s) (st_script_last_time_usecs s) (st_live_start_time_usecs
    s) (st_num_events s) (st_clock s) (st_received s) (st_sent s) (st_send_fails s).
Definition set_st_sockets (v : list socket) (s : state) : state :=
  mk_state (st_config s) (st_checker s) (st_next_ephemeral_port s) (st_ephemeral_ports s)
    v (st_fds s) (st_socket_under_test s) (st_events s) (st_event s) (st_last_event s)
    (st_script_start_time_usecs s) (st_script_last_time_usecs s) (st_live_start_time_usecs
    s) (st_num_events s) (st_clock s) (st_received s) (st_sent s) (st_send_fails s).
Definition set_st_fds (v : list fd_state) (s : state) : state :=
  mk_state (st_config s) (st_checker s) (st_next_ephemeral_port s) (st_ephemeral_ports s)
    (st_sockets s) v (st_socket_under_test s) (st_events s) (st_event s) (st_last_event s)
    (st_script_start_time_usecs s) (st_script_last_time_usecs s) (st_live_start_time_usecs
    s) (st_num_events s) (st_clock s) (st_received s) (st_sent s) (st_send_fails s).
Definition set_st_socket_under_test (v : option nat) (s : state) : state :=
  mk_state (st_config s) (st_checker s) (st_next_ephemeral_port s) (st_ephemeral_ports s)
    (st_sockets s) (st_fds s) v (st_events s) (st_event s) (st_last_event s)
    (st_script_start_time_usecs s) (st_script_last_time_usecs s) (st_live_start_time_usecs
    s) (st_num_events s) (st_clock s) (st_received s) (st_sent s) (st_send_fails s).
Definition set_st_events (v : list event) (s : state) : state :=
  mk_state (st_config s) (st_checker s) (st_next_ephemeral_port s) (st_ephemeral_ports s)
    (st_sockets s) (st_fds s) (st_socket_under_test s) v (st_event s) (st_last_event s)
    (st_script_start_time_usecs s) (st_script_last_time_usecs s) (st_live_start_time_usecs
    s) (st_num_events s) (st_clock s) (st_received s) (st_sent s) (st_send_fails s).
Definition set_st_event (v : option nat) (s : state) : state :=
  mk_state (st_config s) (st_checker s) (st_next_ephemeral_port s) (st_ephemeral_ports s)
    (st_sockets s) (st_fds s) (st_socket_under_test s) (st_events s) v (st_last_event s)
    (st_script_start_time_usecs s) (st_script_last_time_usecs s) (st_live_start_time_usecs
    s) (st_num_events s) (st_clock s) (st_received s) (st_sent s) (st_send_fails s).
Definition set_st_last_event (v : option nat) (s : state) : state :=
  mk_state (st_config s) (st_checker s) (st_next_ephemeral_port s) (st_ephemeral_ports s)
    (st_sockets s) (st_fds s) (st_socket_under_test s) (st_events s) (st_event s) v
    (st_script_start_time_usecs s) (st_script_last_time_usecs s) (st_live_start_time_usecs
    s) (st_num_events s) (st_clock s) (st_received s) (st_sent s) (st_send_fails s).
Definition set_st_script_start_time_usecs (v : Z) (s : state) : state :=
  mk_state (st_config s) (st_checker s) (st_next_ephemeral_port s) (st_ephemeral_ports s)
    (st_sockets s) (st_fds s) (st_socket_under_test s) (st_events s) (st_event s)
    (st_last_event s) v (st_script_last_time_usecs s) (st_live_start_time_usecs s)
    (st_num_events s) (st_clock s) (st_received s) (st_sent s) (st_send_fails s).
Definition set_st_script_last_time_usecs (v : Z) (s : state) : state :=
  mk_state (st_config s) (st_checker s) (st_next_ephemeral_port s) (st_ephemeral_ports s)
    (st_sockets s) (st_fds s) (st_socket_under_test s) (st_events s) (st_event s)
    (st_last_event s) (st_script_start_time_usecs s) v (st_live_start_time_usecs s)
    (st_num_events s) (st_clock s) (st_received s) (st_sent s) (st_send_fails s).
Definition set_st_live_start_time_usecs (v : Z) (s : state) : state :=
  mk_state (st_config s) (st_checker s) (st_next_ephemeral_port s) (st_ephemeral_ports s)
    (st_sockets s) (st_fds s) (st_socket_under_test s) (st_events s) (st_event s)
    (st_last_event s) (st_script_start_time_usecs s) (st_script_last_time_usecs s) v
    (st_num_events s) (st_clock s) (st_received s) (st_sent s) (st_send_fails s).
Definition set_st_num_events (v : Z) (s : state) : state :=
  mk_state (st_config s) (st_checker s) (st_next_ephemeral_port s) (st_ephemeral_ports s)
    (st_sockets s) (st_fds s) (st_socket_under_test s) (st_events s) (st_event s)
    (st_last_event s) (st_script_start_time_usecs s) (st_script_last_time_usecs s)
    (st_live_start_time_usecs s) v (st_clock s) (st_received s) (st_sent s) (st_send_fails s).
Definition set_st_clock (v : list Z) (s : state) : state :=
  mk_state (st_config s) (st_checker s) (st_next_ephemeral_port s) (st_ephemeral_ports s)
    (st_sockets s) (st_fds s) (st_socket_under_test s) (st_events s) (st_event s)
    (st_last_event s) (st_script_start_time_usecs s) (st_script_last_time_usecs s)
    (st_live_start_time_usecs s) (st_num_events s) v (st_received s) (st_sent s) (st_send_fails s).
Definition set_st_received (v : list (result packet)) (s : state) : state :=
  mk_state (st_config s) (st_checker s) (st_next_ephemeral_port s) (st_ephemeral_ports s)
    (st_sockets s) (st_fds s) (st_socket_under_test s) (st_events s) (st_event s)
    (st_last_event s) (st_script_start_time_usecs s) (st_script_last_time_usecs s)
    (st_live_start_time_usecs s) (st_num_events s) (st_clock s) v (st_sent s) (st_send_fails s).
Definition set_st_sent (v : list packet) (s : state) : state :=
  mk_state (st_config s) (st_checker s) (st_next_ephemeral_port s) (st_ephemeral_ports s)
    (st_sockets s) (st_fds s) (st_socket_under_test s) (st_events s) (st_event s)
    (st_last_event s) (st_script_start_time_usecs s) (st_script_last_time_usecs s)
    (st_live_start_time_usecs s) (st_num_events s) (st_clock s) (st_received s) v (st_send_fails s).
Definition set_st_send_fails (v : list bool) (s : state) : state :=
  mk_state (st_config s) (st_checker s) (st_next_ephemeral_port s) (st_ephemeral_ports s)
    (st_sockets s) (st_fds s) (st_socket_under_test s) (st_events s) (st_event s)
    (st_last_event s) (st_script_start_time_usecs s) (st_script_last_time_usecs s)
    (st_live_start_time_usecs s) (st_num_events s) (st_clock s) (st_received s) (st_sent s) v.

(** The objects behind the state's pointers. *)
Definition socket_at (st : state) (i : nat) : exec socket := deref (st_sockets st !! i).
Definition store_socket (i : nat) (s : socket) (st : state) : state :=
  set_st_sockets (<[i := s]> (st_sockets st)) st.
Definition event_at (st : state) (i : nat) : exec event := deref (st_events st !! i).
Definition store_event (i : nat) (e : event) (st : state) : state :=
  set_st_events (<[i := e]> (st_events st)) st.

(** [script.h:233-237] is_event_time_absolute *)
Definition is_event_time_absolute (e : event) : bool :=
  bool_decide (ev_time_type e = ABSOLUTE_TIME) ||
  bool_decide (ev_time_type e = ABSOLUTE_RANGE_TIME).

(** [run.c:101-105] state_add_fd *)
Definition state_add_fd (st : state) (fd : fd_state) : state := set_st_fds (fd :: st_fds st) st.

(** [socket.c:65-73] socket_new with its call of state_add_fd *)
Definition state_socket_new (st : state) : exec (state * nat) :=
  s ← socket_new;
  let i := length (st_sockets st) in
  Ok (state_add_fd (set_st_sockets (st_sockets st ++ [s]) st) (FdSocket i), i).

(** [run.h:140-146] script_time_to_live_time_usecs *)
Definition script_time_to_live_time_usecs (st : state) (script_time_usecs : Z) : Z :=
  let offset_usecs := script_time_usecs - st_script_start_time_usecs st in
  st_live_start_time_usecs st + offset_usecs.

(** [run.h:149-155] live_time_to_script_time_usecs *)
Definition live_time_to_script_time_usecs (st : state) (live_time_usecs : Z) : Z :=
  let offset_usecs := live_time_usecs - st_live_start_time_usecs st in
  st_script_start_time_usecs st + offset_usecs.

(** [types.h:163-166] usecs_to_secs, printed with [%.6f] *)
Definition secs (usecs : Z) : string :=
  let a := Z.abs usecs in
  let frac := dec (a mod 1000000) in
  (if usecs <? 0 then "-" else "") +:+ dec (a / 1000000) +:+ "."
    +:+ zeroes (6 - String.length frac) +:+ frac.
(** The same with [%+.6f]. *)
Definition secs_signed (usecs : Z) : string := (if usecs <? 0 then "" else "+") +:+ secs usecs.

(** [run.c:155-167] now_usecs: the next reading of the clock *)
Definition now_usecs (st : state) : exec (state * Z) :=
  match st_clock st with
  | [] => Fault Blocked
  | t :: rest => Ok (set_st_clock rest st, t)
  end.

(** [run.c:177-246] verify_time *)
Definition verify_time (st : state) (time_type : event_time_t)
    (script_usecs script_usecs_end live_usecs : Z) (description : string) : exec status_t :=
  let expected_usecs := script_usecs - st_script_start_time_usecs st in
  let expected_usecs_end := script_usecs_end - st_script_start_time_usecs st in
  let actual_usecs := live_usecs - st_live_start_time_usecs st in
  let tolerance_usecs := cfg_tolerance_usecs (st_config st) in
  if decide (time_type = ANY_TIME) then Ok STATUS_OK
  else if bool_decide (time_type = ABSOLUTE_RANGE_TIME)
          || bool_decide (time_type = RELATIVE_RANGE_TIME) then
    if (actual_usecs <? expected_usecs - tolerance_usecs)
       || (expected_usecs_end + tolerance_usecs <? actual_usecs) then
      if decide (time_type = ABSOLUTE_RANGE_TIME) then
        Ok (STATUS_ERR ("timing error: expected " +:+ description +:+ " in time range "
          +:+ secs script_usecs +:+ "~" +:+ secs script_usecs_end
          +:+ " sec but happened at " +:+ secs actual_usecs +:+ " sec"))
      else
        i ← deref (st_event st);
        e ← event_at st i;
        let offset_usecs := ev_offset_usecs e in
        Ok (STATUS_ERR ("timing error: expected " +:+ description +:+ " in relative time range +"
          +:+ secs (script_usecs - offset_usecs) +:+ "~+"
          +:+ secs (script_usecs_end - offset_usecs) +:+ " sec but happened at "
          +:+ secs_signed (actual_usecs - offset_usecs) +:+ " sec"))
    else Ok STATUS_OK
  else if (actual_usecs <? expected_usecs - tolerance_usecs)
          || (expected_usecs + tolerance_usecs <? actual_usecs) then
    Ok (STATUS_ERR ("timing error: expected " +:+ description +:+ " at " +:+ secs script_usecs
      +:+ " sec but happened at " +:+ secs actual_usecs +:+ " sec; tolerance "
      +:+ secs tolerance_usecs +:+ " sec"))
  else Ok STATUS_OK.

(** [run.c:249-280] event_description *)
Definition event_description (e : event) : exec string :=
  match ev_event e with
  | INVALID_EVENT => Fault Died
  | PACKET_EVENT pkt =>
      match packet_direction pkt with
      | DIRECTION_INBOUND => Ok "inbound packet"%string
      | DIRECTION_OUTBOUND => Ok "outbound packet"%string
      | DIRECTION_INVALID => Fault AssertFailed
      end
  | SYSCALL_EVENT _ => Ok "system call start"%string
  | COMMAND_EVENT _ => Ok "command"%string
  | CODE_EVENT _ => Ok "data collection for code"%string
  end.

(** [run.c:282-296] check_event_time *)
Definition check_event_time (st : state) (live_usecs : Z) : exec unit :=
  i ← deref (st_event st);
  e ← event_at st i;
  description ← event_description e;
  status ← verify_time st (ev_time_type e) (ev_time_usecs e) (ev_time_usecs_end e) live_usecs
             description;
  match status with STATUS_OK => Ok tt | _ => Fault Died end.

(** [run.c:302-306] is_event_start_time_anchored *)
Definition is_event_start_time_anchored (e : event) : bool :=
  match ev_event e with
  | PACKET_EVENT pkt => bool_decide (packet_direction pkt = DIRECTION_INBOUND)
  | _ => false
  end.

(** [run.c:320-325] the offset adjust_relative_event_times picks *)
Definition relative_offset (st : state) (e : event) : exec (state * Z) :=
  anchored ← match st_last_event st with
             | None => Ok None
             | Some l =>
                 last ← event_at st l;
                 Ok (if is_event_start_time_anchored last && is_event_start_time_anchored e
                     then Some (ev_time_usecs last) else None)
             end;
  match anchored with
  | Some t => Ok (st, t)
  | None => '(st, now) ← now_usecs st; Ok (st, now - st_live_start_time_usecs st)
  end.

(** [run.c:311-338] adjust_relative_event_times: [i] is the event *)
Definition adjust_relative_event_times (st : state) (i : nat) : exec state :=
  e ← event_at st i;
  if negb (bool_decide (ev_time_type e = ANY_TIME)) &&
     negb (bool_decide (ev_time_type e = RELATIVE_TIME)) &&
     negb (bool_decide (ev_time_type e = RELATIVE_RANGE_TIME)) then Ok st
  else
    '(st, offset_usecs) ← relative_offset st e;
    let e := set_ev_offset_usecs offset_usecs e in
    let e := set_ev_time_usecs (ev_time_usecs e + offset_usecs) e in
    let e := if decide (ev_time_type e = RELATIVE_RANGE_TIME)
             then set_ev_time_usecs_end (ev_time_usecs_end e + offset_usecs) e else e in
    let e := match ev_event e with
             | SYSCALL_EVENT call =>
                 if bool_decide (ev_time_type e = RELATIVE_TIME) && is_blocking_syscall call
                 then set_ev_event (SYSCALL_EVENT
                        (set_sy_end_usecs (sy_end_usecs call + offset_usecs) call)) e
                 else e
             | _ => e
             end in
    Ok (store_event i e st).

(** [run.c:349-378] the loop of wait_for_event, by the readings of the clock: it ends at
    the first one that is not before [event_usecs] *)
Fixpoint wait_loop (clock : list Z) (event_usecs : Z) : exec (list Z) :=
  match clock with
  | [] => Fault Blocked
  | now :: rest =>
      let wait_usecs := event_usecs - now in
      if wait_usecs <=? 0 then Ok rest else wait_loop rest event_usecs
  end.

(** [run.c:340-383] wait_for_event; sleeping changes no state but the time *)
Definition wait_for_event (st : state) : exec state :=
  i ← deref (st_event st);
  e ← event_at st i;
  let event_usecs := script_time_to_live_time_usecs st (ev_time_usecs e) in
  clock ← wait_loop (st_clock st) event_usecs;
  let st := set_st_clock clock st in
  if 0 <? st_num_events st then
    '(st, now) ← now_usecs st;
    _ ← check_event_time st now;
    Ok st
  else Ok st.

(** [run.c:385-427] get_next_event *)
Definition get_next_event (st : state) : exec (state * status_t) :=
  '(st, status) ←
    match st_event st with
    | None =>
        let st := set_st_event (match st_events st with [] => None | _ => Some O end) st in
        i ← deref (st_event st);
        e ← event_at st i;
        let st := set_st_script_start_time_usecs (ev_time_usecs e) st in
        Ok (st, if negb (ev_time_usecs e =? 0)
                then STATUS_ERR (cfg_script_path (st_config st) +:+ ":" +:+ dec (ev_line_number e)
                       +:+ ": first event should be at time 0" +:+ newline)
                else STATUS_OK)
    | Some i =>
        e ← event_at st i;
        let st := set_st_script_last_time_usecs (ev_time_usecs e) st in
        let st := set_st_last_event (Some i) st in
        let next := match st_events st !! S i with Some _ => Some (S i) | None => None end in
        Ok (set_st_event next st, STATUS_OK)
    end;
  match status, st_event st with
  | STATUS_OK, Some i =>
      e ← event_at st i;
      _ ← c_assert (match ev_event e with INVALID_EVENT => false | _ => true end);
      backward ← match st_last_event st with
                 | None => Ok false
                 | Some l =>
                     last ← event_at st l;
                     Ok (is_event_time_absolute last && is_event_time_absolute e &&
                         (ev_time_usecs e <? st_script_last_time_usecs st))
                 end;
      if backward : bool then
        Ok (st, STATUS_ERR (cfg_script_path (st_config st) +:+ ":" +:+ dec (ev_line_number e)
              +:+ ": time goes backward in script from " +:+ dec (st_script_last_time_usecs st)
              +:+ " usec to " +:+ dec (ev_time_usecs e) +:+ " usec" +:+ newline))
      else Ok (st, STATUS_OK)
  | _, _ => Ok (st, status)
  end.

(** ** Time *)

Lemma live_script_time st t :
  live_time_to_script_time_usecs st (script_time_to_live_time_usecs st t) = t.
Proof. unfold live_time_to_script_time_usecs, script_time_to_live_time_usecs. lia. Qed.

(** The latest script time at which something may happen. *)
Definition window_end (time_type : event_time_t) (script_usecs script_usecs_end : Z) : Z :=
  match time_type with
  | ABSOLUTE_RANGE_TIME | RELATIVE_RANGE_TIME => script_usecs_end
  | _ => script_usecs
  end.

(** What verify_time accepts, stated in script time. *)
Definition on_time (st : state) (time_type : event_time_t)
    (script_usecs script_usecs_end live_usecs : Z) : Prop :=
  time_type = ANY_TIME \/
  script_usecs - cfg_tolerance_usecs (st_config st)
    <= live_time_to_script_time_usecs st live_usecs
    <= window_end time_type script_usecs script_usecs_end + cfg_tolerance_usecs (st_config st).

#[export] Instance on_time_dec st ty a b l : Decision (on_time st ty a b l).
Proof. unfold on_time. apply _. Defined.

Lemma verify_time_iff (st : state) (time_type : event_time_t)
    (script_usecs script_usecs_end live_usecs : Z) (description : string) :
  verify_time st time_type script_usecs script_usecs_end live_usecs description = Ok STATUS_OK <->
  on_time st time_type script_usecs script_usecs_end live_usecs.
Proof.
  unfold verify_time, on_time, live_time_to_script_time_usecs, window_end. cbv zeta.
  destruct time_type; simpl.
  all: repeat match goal with |- context [?a <? ?b] => destruct (Z.ltb_spec a b) end; simpl.
  all: try (split; [intros _; auto; right; lia|done]).
  all: try (split; [done|intros [?|?]; [done|lia]]).
  all: split; [|intros [?|?]; [done|lia]].
  all: destruct (st_event st) as [i|]; simpl; [|done]; unfold event_at, deref;
    destruct (st_events st !! i); done.
Qed.

(** verify_time accepts exactly the live times that, in script time, lie in the
    expected window widened on both sides by the configured tolerance: the window is
    the single expected time, the range of a range event, and unbounded for an event
    that may come at any time. *)
Theorem verify_time_window (st : state) (time_type : event_time_t)
    (script_usecs script_usecs_end live_usecs : Z) (description : string) :
  verify_time st time_type script_usecs script_usecs_end live_usecs description = Ok STATUS_OK <->
  on_time st time_type script_usecs script_usecs_end live_usecs.
Proof. apply verify_time_iff. Qed.

Lemma wait_loop_spec pre now rest t :
  Forall (fun x => x < t) pre -> t <= now -> wait_loop (pre ++ now :: rest) t = Ok rest.
Proof.
  intros Hpre Hnow. induction Hpre as [|x pre Hx _ IH]; simpl.
  - destruct (Z.leb_spec (t - now) 0); [done|lia].
  - destruct (Z.leb_spec (t - x) 0); [lia|done].
Qed.

Lemma check_event_time_spec st i e live :
  st_event st = Some i -> st_events st !! i = Some e -> is_Some (
    match event_description e with Ok d => Some d | Fault _ => None end) ->
  (check_event_time st live = Ok tt <->
   on_time st (ev_time_type e) (ev_time_usecs e) (ev_time_usecs_end e) live) /\
  (check_event_time st live = Ok tt \/ check_event_time st live = Fault Died).
Proof.
  intros Hi He [d Hd]. unfold check_event_time. rewrite Hi. simpl. unfold event_at.
  rewrite He. simpl. destruct (event_description e) as [d'|] eqn:E; [|done]. simpl.
  pose proof (verify_time_iff st (ev_time_type e) (ev_time_usecs e) (ev_time_usecs_end e)
    live d') as W.
  assert (exists s, verify_time st (ev_time_type e) (ev_time_usecs e) (ev_time_usecs_end e)
    live d' = Ok s) as [s Hs].
  { unfold verify_time. repeat case_match; eauto. rewrite Hi. simpl. unfold event_at.
    rewrite He. simpl. eauto. }
  rewrite Hs in *. simpl. destruct s; [split; [|by left]|split; [|by right]..].
  - rewrite <-W. done.
  - rewrite <-W. done.
  - rewrite <-W. done.
Qed.

(** Waiting for an event ends at the first clock reading that is not before the
    event's time, whatever the readings before it; after the first event of a run the
    next reading must then be within the event's time window, and the run dies exactly
    when it is not. *)
Theorem wait_for_event_spec (st : state) (i : nat) (e : event) (d : string)
    (pre : list Z) (now check : Z) (rest : list Z) :
  st_event st = Some i -> st_events st !! i = Some e -> event_description e = Ok d ->
  Forall (fun t => t < script_time_to_live_time_usecs st (ev_time_usecs e)) pre ->
  script_time_to_live_time_usecs st (ev_time_usecs e) <= now ->
  st_clock st = pre ++ now :: check :: rest ->
  wait_for_event st =
    if 0 <? st_num_events st then
      if decide (on_time st (ev_time_type e) (ev_time_usecs e) (ev_time_usecs_end e) check)
      then Ok (set_st_clock rest st) else Fault Died
    else Ok (set_st_clock (check :: rest) st).
Proof.
  intros Hi He Hd Hpre Hnow Hc. unfold wait_for_event. rewrite Hi. simpl.
  unfold event_at. rewrite He. simpl. rewrite Hc, wait_loop_spec by done. simpl.
  destruct (0 <? st_num_events st); [|done]. simpl.
  destruct (check_event_time_spec (set_st_clock rest st) i e check) as [Hiff Hor];
    [done|done|by rewrite Hd|].
  change (on_time (set_st_clock rest st)) with (on_time st) in Hiff.
  match goal with |- context [check_event_time ?s check] =>
    change s with (set_st_clock rest st) end.
  destruct (decide _) as [Ht|Ht].
  - by rewrite (proj2 Hiff Ht).
  - destruct Hor as [Hor|Hor]; [|by rewrite Hor]. by apply Hiff in Hor.
Qed.

(** ** Moving through the script *)

Definition event_valid (e : event) : Prop := ev_event e <> INVALID_EVENT.

(** Time goes backward between two consecutive events. *)
Definition goes_backward (e e' : event) : bool :=
  is_event_time_absolute e && is_event_time_absolute e' && (ev_time_usecs e' <? ev_time_usecs e).

Lemma event_valid_assert e : event_valid e ->
  c_assert (match ev_event e with INVALID_EVENT => false | _ => true end) = Ok tt.
Proof. unfold event_valid. by destruct (ev_event e). Qed.

(** One step from an event: to the next one, with an error if time goes backward, or
    to the end of the script. *)
Lemma get_next_event_step st i e :
  st_event st = Some i -> st_events st !! i = Some e ->
  (forall e', st_events st !! S i = Some e' -> event_valid e') ->
  exists st' status, get_next_event st = Ok (st', status) /\
    st_events st' = st_events st /\
    match st_events st !! S i with
    | None => st_event st' = None /\ status = STATUS_OK
    | Some e' => st_event st' = Some (S i) /\
        (status = STATUS_OK <-> goes_backward e e' = false)
    end.
Proof.
  intros Hi He Hv. unfold get_next_event. rewrite Hi. unfold event_at. rewrite He. simpl.
  destruct (st_events st !! S i) as [e'|] eqn:Ee; simpl; [|by eexists _, STATUS_OK].
  rewrite Ee. simpl. rewrite event_valid_assert by (by apply Hv). simpl. rewrite He. simpl.
  fold (goes_backward e e'). destruct (goes_backward e e'); by eexists _, _.
Qed.

(** The skeleton of run_script's loop: the events it moves to, in order, until the end
    of the script or an error. *)
Fixpoint visit_events (fuel : nat) (st : state) : exec (list nat * status_t) :=
  match fuel with
  | O => Fault OutOfFuel
  | S n =>
      '(st, status) ← get_next_event st;
      match status, st_event st with
      | STATUS_OK, None => Ok ([], STATUS_OK)
      | STATUS_OK, Some i => '(l, s) ← visit_events n st; Ok (i :: l, s)
      | _, _ => Ok ([], status)
      end
  end.

Lemma visit_events_S n st :
  visit_events (S n) st =
  ('(st, status) ← get_next_event st;
   match status, st_event st with
   | STATUS_OK, None => Ok ([], STATUS_OK)
   | STATUS_OK, Some i => '(l, s) ← visit_events n st; Ok (i :: l, s)
   | _, _ => Ok ([], status)
   end).
Proof. done. Qed.

(** Consecutive events whose times never go backward. *)
Definition script_ordered (es : list event) : Prop :=
  forall i e e', es !! i = Some e -> es !! S i = Some e' -> goes_backward e e' = false.

Lemma visit_from n st i :
  st_event st = Some i -> Forall event_valid (st_events st) -> script_ordered (st_events st) ->
  (length (st_events st) - i = S n)%nat ->
  visit_events (S n) st = Ok (seq (S i) n, STATUS_OK).
Proof.
  revert st i. induction n as [|n IH]; intros st i Hi Hv Ho Hn.
  all: destruct (st_events st !! i) as [e|] eqn:He;
    [|apply lookup_ge_None in He; lia].
  all: destruct (get_next_event_step st i e Hi He) as (st'&status&E&Hes&Hm);
    [intros e' He'; eapply Forall_lookup_1; eauto|]; rewrite visit_events_S, E, bind_Ok_eq.
  - rewrite (proj2 (lookup_ge_None _ _)) in Hm by lia. by destruct Hm as [-> ->].
  - destruct (st_events st !! S i) as [e'|] eqn:He'; [|apply lookup_ge_None in He'; lia].
    destruct Hm as [Hi' Hs]. rewrite (proj2 Hs (Ho i e e' He He')), Hi'.
    rewrite (IH st' (S i)); [done|done|by rewrite Hes|by rewrite Hes|rewrite Hes; lia].
Qed.

(** C23. The interpreter's loop runs every event of a script exactly once and in order:
    on a script that starts at time 0 and whose absolute times never go backward,
    get_next_event moves from the first event to the last, each next call to the
    following one, and then reports the end of the script, without an error. *)
Theorem get_next_event_in_order (st : state) (e : event) (rest : list event) :
  st_event st = None -> st_last_event st = None -> st_events st = e :: rest ->
  ev_time_usecs e = 0 -> Forall event_valid (e :: rest) -> script_ordered (e :: rest) ->
  visit_events (S (length (st_events st))) st =
  Ok (seq 0 (length (st_events st)), STATUS_OK).
Proof.
  intros Hi Hl Hes Ht Hv Ho. rewrite visit_events_S.
  assert (exists st', get_next_event st = Ok (st', STATUS_OK) /\ st_event st' = Some O /\
    st_events st' = st_events st) as (st'&E&Hi'&Hes').
  { unfold get_next_event. rewrite Hi. simpl. rewrite Hes. simpl. unfold event_at. simpl.
    rewrite Hes. simpl. rewrite Ht. simpl. rewrite Hes. simpl.
    apply Forall_cons in Hv as [Hv _]. rewrite event_valid_assert by done. simpl.
    rewrite Hl. simpl. eexists. split; [done|]. by split; [|simpl]. }
  rewrite E, bind_Ok_eq, Hi'. rewrite Hes. cbn [length].
  rewrite (visit_from (length rest) st' O); [done|done|rewrite Hes', Hes; done..|].
  rewrite Hes', Hes. simpl. lia.
Qed.

(** ** A small run *)

Definition sample_config : config :=
  mk_config 8080 8080 (ip_from_ipv4 [192; 168; 0; 1]) (ip_from_ipv4 [192; 0; 2; 1])
    4000 false 1000 0 true false "test.pkt" false false false AF_INET AF_INET
    (ip_from_ipv4 [192; 168; 0; 1]) (ip_from_ipv4 [192; 0; 2; 1]).

Definition sample_events : list event :=
  [mk_event 1 0 (-1) (-1) ABSOLUTE_TIME (COMMAND_EVENT "true");
   mk_event 2 1000 (-1) (-1) ABSOLUTE_TIME (COMMAND_EVENT "ls");
   mk_event 3 500 (-1) (-1) RELATIVE_TIME (COMMAND_EVENT "ls")].

Definition sample_state (clock : list Z) (cur last : option nat) (n : Z) : state :=
  mk_state sample_config true 5000 [] [] [] None sample_events cur last 0 0 70000 n clock [] [] [].

Lemma wait_for_event_spec_witness :
  wait_for_event (sample_state [70010; 70999; 71002; 71003] (Some 1%nat) (Some 0%nat) 1) =
  Ok (sample_state [] (Some 1%nat) (Some 0%nat) 1).
Proof.
  rewrite (wait_for_event_spec (sample_state [70010; 70999; 71002; 71003] (Some 1%nat)
    (Some 0%nat) 1) 1 (mk_event 2 1000 (-1) (-1) ABSOLUTE_TIME (COMMAND_EVENT "ls")) "command"
    [70010; 70999] 71002 71003 []).
  - reflexivity.
  - reflexivity.
  - reflexivity.
  - reflexivity.
  - repeat apply Forall_cons_2; [reflexivity|reflexivity|apply Forall_nil_2].
  - vm_compute. discriminate.
  - reflexivity.
Defined.

Lemma get_next_event_in_order_witness :
  visit_events 4 (sample_state [] None None 0) = Ok ([0%nat; 1%nat; 2%nat], STATUS_OK).
Proof.
  apply (get_next_event_in_order (sample_state [] None None 0)
    (mk_event 1 0 (-1) (-1) ABSOLUTE_TIME (COMMAND_EVENT "true"))
    [mk_event 2 1000 (-1) (-1) ABSOLUTE_TIME (COMMAND_EVENT "ls");
     mk_event 3 500 (-1) (-1) RELATIVE_TIME (COMMAND_EVENT "ls")]).
  - reflexivity.
  - reflexivity.
  - reflexivity.
  - reflexivity.
  - repeat (apply Forall_cons_2; [discriminate|]). apply Forall_nil_2.
  - intros [|[|[|i]]] e e' H H'; simplify_eq/=; reflexivity.
Defined.
