(* ===== verification/PacketMap.v ===== *)
(** * PacketMap: translating packets between script and live values (run_packet.c)

    Inbound script packets are rewritten with the live addresses, ports, sequence
    numbers, SACK blocks and timestamp echo replies before they are injected; sniffed
    outbound packets are rewritten the other way before they are compared.  The
    theorems: SACK blocks are shifted exactly and nothing else is, and shifting back
    restores the packet; finding the timestamp option returns on any options. *)

From S2P Require Import Prelude Headers Packet HashMap PacketParser TcpOptions IpAddress.
From S2P Require Import Socket RunState.

(** [run_packet.c:368-379] get_outbound_ts_val_mapping: [live_timestamp] is what the
    caller's variable holds *)
Definition get_outbound_ts_val_mapping (s : socket) (script_timestamp live_timestamp : Z)
    : exec (Z * status_t) :=
  found ← hash_map_get (sk_ts_val_map s) script_timestamp;
  match found with
  | Some v => Ok (v, STATUS_OK)
  | None => Ok (live_timestamp, STATUS_OK)
  end.

(** [run_packet.c:382-390] set_outbound_ts_val_mapping *)
Definition set_outbound_ts_val_mapping (s : socket) (script_timestamp live_timestamp : Z)
    : exec socket :=
  m ← hash_map_set (sk_ts_val_map s) script_timestamp live_timestamp;
  Ok (set_sk_ts_val_map m s).

(** [run_packet.c:409-414] the body of the loop of find_tcp_timestamp *)
Definition timestamp_body (pkt : packet) (o : Z) (error : option string)
    : exec (packet * option string * option status_t) :=
  kind ← prd pkt o opt_kind;
  if kind =? TCPOPT_TIMESTAMP then
    Ok (set_pk_tcp_ts_ecr (Some (o + field_off opt_ts_ecr))
          (set_pk_tcp_ts_val (Some (o + field_off opt_ts_val)) pkt), error, None)
  else Ok (pkt, error, None).

(** [run_packet.c:400-420] find_tcp_timestamp *)
Definition find_tcp_timestamp (pkt : packet) (error : option string)
    : exec (packet * option string * status_t) :=
  let pkt := set_pk_tcp_ts_ecr None (set_pk_tcp_ts_val None pkt) in
  '(pkt, error, _) ← for_options pk_buffer timestamp_body pkt pkt error;
  Ok (pkt, error, STATUS_OK).

(** A 32-bit big-endian member increased by an offset, through ntohl and htonl. *)
Definition add_be32 (pkt : packet) (p : Z) (f : field) (offset : Z) : exec packet :=
  v ← prd pkt p f; pwr pkt p f (htonl (u32 (ntohl v + offset))).

(** [run_packet.c:440-448] the loop over the [n] blocks of a SACK option, from block [i] *)
Fixpoint offset_blocks (pkt : packet) (o : Z) (ack_offset : Z) (n : nat) (i : Z) : exec packet :=
  match n with
  | O => Ok pkt
  | S n' =>
      pkt ← add_be32 pkt o (opt_sack_left i) ack_offset;
      pkt ← add_be32 pkt o (opt_sack_right i) ack_offset;
      offset_blocks pkt o ack_offset n' (i + 1)
  end.

(** [run_packet.c:434-449] the body of the loop of offset_sack_blocks *)
Definition sack_body (ack_offset : Z) (pkt : packet) (o : Z) (error : option string)
    : exec (packet * option string * option status_t) :=
  kind ← prd pkt o opt_kind;
  if kind =? TCPOPT_SACK then
    length ← prd pkt o opt_length;
    match num_sack_blocks length error with
    | (None, error) => Ok (pkt, error, Some (STATUS_ERR ""))
    | (Some num_blocks, error) =>
        pkt ← offset_blocks pkt o ack_offset (Z.to_nat num_blocks) 0;
        Ok (pkt, error, None)
    end
  else Ok (pkt, error, None).

(** [run_packet.c:427-453] offset_sack_blocks *)
Definition offset_sack_blocks (pkt : packet) (ack_offset : Z) (error : option string)
    : exec (packet * option string * status_t) :=
  '(pkt, error, stop) ← for_options pk_buffer (sack_body ack_offset) pkt pkt error;
  Ok (pkt, error, default STATUS_OK stop).

(** [run_packet.c:459-467] map_inbound_icmp_tcp_packet *)
Definition map_inbound_icmp_tcp_packet (s : socket) (pkt : packet) : exec (packet * status_t) :=
  seq ← packet_echoed_tcp_seq pkt;
  let is_syn := false in
  let seq_offset := local_seq_script_to_live_offset s is_syn in
  pkt ← add_be32 pkt seq (F32 0) seq_offset;
  Ok (pkt, STATUS_OK).

(** [run_packet.c:470-474] map_inbound_icmp_udp_packet *)
Definition map_inbound_icmp_udp_packet (s : socket) (pkt : packet) : exec (packet * status_t) :=
  Ok (pkt, STATUS_OK).

(** [run_packet.c:476-490] map_inbound_icmp_packet *)
Definition map_inbound_icmp_packet (s : socket) (pkt : packet) : exec (packet * status_t) :=
  if pk_echoed_header pkt then
    protocol ← packet_echoed_ip_protocol pkt;
    if protocol =? IPPROTO_TCP then map_inbound_icmp_tcp_packet s pkt
    else if protocol =? IPPROTO_UDP then map_inbound_icmp_udp_packet s pkt
    else Fault AssertFailed
  else Ok (pkt, STATUS_OK).

(** The ports of the transport header, or zeroes. *)
Definition packet_ports (pkt : packet) : exec (Z * Z) :=
  match pk_tcp pkt, pk_udp pkt with
  | Some tcp, _ => s ← prd pkt tcp tcp_src_port; d ← prd pkt tcp tcp_dst_port; Ok (s, d)
  | None, Some udp => s ← prd pkt udp udp_src_port; d ← prd pkt udp udp_dst_port; Ok (s, d)
  | None, None => Ok (0, 0)
  end.

(** [run_packet.c:519-530] map_inbound_packet: restoring the ports the script preset *)
Definition restore_ports (pkt : packet) (src_port dst_port : Z) : exec packet :=
  match pk_tcp pkt, pk_udp pkt with
  | Some tcp, _ =>
      pkt ← (if negb (src_port =? 0) then pwr pkt tcp tcp_src_port src_port else Ok pkt);
      if negb (dst_port =? 0) then pwr pkt tcp tcp_dst_port dst_port else Ok pkt
  | None, Some udp =>
      pkt ← (if negb (src_port =? 0) then pwr pkt udp udp_src_port src_port else Ok pkt);
      if negb (dst_port =? 0) then pwr pkt udp udp_dst_port dst_port else Ok pkt
  | None, None => Ok pkt
  end.

(** [run_packet.c:499-530] map_inbound_packet: the part that remaps the 4-tuple *)
Definition map_inbound_tuple (s : socket) (pkt : packet) : exec packet :=
  '(src_port, dst_port) ← packet_ports pkt;
  let live_inbound := socket_get_inbound (sk_live s) in
  pkt ← set_packet_tuple pkt live_inbound;
  restore_ports pkt src_port dst_port.

(** [run_packet.c:540-554] map_inbound_packet: the part that remaps sequence numbers *)
Definition map_inbound_seq (s : socket) (pkt : packet) (tcp : Z) (error : option string)
    : exec (packet * option string * status_t) :=
  syn ← prd pkt tcp tcp_syn;
  let is_syn := negb (syn =? 0) in
  let seq_offset := remote_seq_script_to_live_offset s is_syn in
  pkt ← add_be32 pkt tcp tcp_seq seq_offset;
  let ack_offset := local_seq_script_to_live_offset s is_syn in
  ack ← prd pkt tcp tcp_ack;
  pkt ← (if negb (ack =? 0) then add_be32 pkt tcp tcp_ack_seq ack_offset else Ok pkt);
  offset_sack_blocks pkt ack_offset error.

(** [run_packet.c:579-606] map_inbound_packet: the part that remaps the echo reply; the
    mapping never reports a failure, so the other branches are not reached *)
Definition map_inbound_ts_ecr (cfg : config) (s : socket) (pkt : packet) (error : option string)
    : exec (packet * option string) :=
  ts_ecr ← packet_tcp_ts_ecr pkt;
  '(live_ts_ecr, status) ← get_outbound_ts_val_mapping s ts_ecr 0;
  match status with
  | STATUS_OK => pkt ← packet_set_tcp_ts_ecr pkt live_ts_ecr; Ok (pkt, error)
  | _ =>
      if cfg_tcp_ts_ecr_scaled cfg && sk_found_first_tcp_ts s then
        let live_ts_ecr := u32 (ts_ecr - sk_first_script_ts_val s + sk_first_actual_ts_val s) in
        pkt ← packet_set_tcp_ts_ecr pkt live_ts_ecr; Ok (pkt, error)
      else Ok (pkt, Some ("unable to infer live TS ecr for script TS ecr " +:+ dec ts_ecr
             +:+ ";  no matching or preceding outound TS val"))
  end.

(** [run_packet.c:499-609] map_inbound_packet, in the build without _FSTACK *)
Definition map_inbound_packet (cfg : config) (s : socket) (live_packet : packet)
    (error : option string) : exec (packet * option string * status_t) :=
  pkt ← map_inbound_tuple s live_packet;
  let pkt := set_pk_mss (cfg_mss cfg) pkt in
  if bool_decide (is_Some (pk_icmpv4 pkt)) || bool_decide (is_Some (pk_icmpv6 pkt)) then
    '(pkt, status) ← map_inbound_icmp_packet s pkt; Ok (pkt, error, status)
  else
  match pk_tcp pkt with
  | None => Ok (pkt, error, STATUS_OK)
  | Some tcp =>
      '(pkt, error, status) ← map_inbound_seq s pkt tcp error;
      match status with
      | STATUS_OK =>
          syn ← prd pkt tcp tcp_syn;
          seq ← prd pkt tcp tcp_seq;
          '(pkt, error, _) ←
            (if negb (syn =? 0) || (ntohl seq <? 3) then find_tcp_timestamp pkt error
             else Ok (pkt, error, STATUS_OK));
          ack ← prd pkt tcp tcp_ack;
          if negb (ack =? 0) && bool_decide (is_Some (pk_tcp_ts_ecr pkt)) then
            '(pkt, error) ← map_inbound_ts_ecr cfg s pkt error;
            Ok (pkt, error, STATUS_OK)
          else Ok (pkt, error, STATUS_OK)
      | _ => Ok (pkt, error, STATUS_ERR "")
      end
  end.

(** [run_packet.c:611-629] tcp_convert_seq_number *)
Definition tcp_convert_seq_number (s : socket) (pkt : packet) (error : option string)
    : exec (packet * option string * status_t) :=
  tcp ← deref (pk_tcp pkt);
  syn ← prd pkt tcp tcp_syn;
  let is_syn := negb (syn =? 0) in
  let seq_offset := local_seq_live_to_script_offset s is_syn in
  pkt ← add_be32 pkt tcp tcp_seq seq_offset;
  let ack_offset := remote_seq_live_to_script_offset s is_syn in
  ack ← prd pkt tcp tcp_ack;
  pkt ← (if negb (ack =? 0) then add_be32 pkt tcp tcp_ack_seq ack_offset else Ok pkt);
  '(pkt, error, status) ← offset_sack_blocks pkt ack_offset error;
  Ok (pkt, error, match status with STATUS_OK => STATUS_OK | _ => STATUS_ERR "" end).

(** [run_packet.c:673-699] map_outbound_live_packet: the part that learns and maps the
    timestamp value *)
Definition map_outbound_ts_val (s : socket) (actual_packet script_packet : packet)
    : exec (socket * packet) :=
  if bool_decide (is_Some (pk_tcp_ts_val script_packet)) &&
     bool_decide (is_Some (pk_tcp_ts_val actual_packet)) then
    script_ts_val ← packet_tcp_ts_val script_packet;
    actual_ts_val ← packet_tcp_ts_val actual_packet;
    script_ts_ecr ← packet_tcp_ts_ecr script_packet;
    actual_ts_ecr ← packet_tcp_ts_ecr actual_packet;
    s ← set_outbound_ts_val_mapping s script_ts_val actual_ts_val;
    let s := if negb (sk_found_first_tcp_ts s) then
               set_sk_first_actual_ts_ecr actual_ts_ecr
                 (set_sk_first_script_ts_ecr script_ts_ecr
                   (set_sk_first_actual_ts_val actual_ts_val
                     (set_sk_first_script_ts_val script_ts_val
                       (set_sk_found_first_tcp_ts true s))))
             else s in
    actual_packet ← packet_set_tcp_ts_val actual_packet
      (u32 (sk_first_script_ts_val s + u32 (actual_ts_val - sk_first_actual_ts_val s)));
    Ok (s, actual_packet)
  else Ok (s, actual_packet).

(** What map_outbound_live_packet leaves: the socket, the actual and the script packet. *)
Record mapped := mk_mapped {
  mo_socket : socket; mo_actual : packet; mo_script : packet; mo_error : option string
}.

(** [run_packet.c:651-658] map_outbound_live_packet: the assertions on the addresses *)
Definition assert_outbound (s : socket) (live_packet : packet) : exec unit :=
  live_packet_tuple ← get_packet_tuple live_packet;
  let live_outbound := socket_get_outbound (sk_live s) in
  if (sk_protocol s =? IPPROTO_ICMP) || (sk_protocol s =? IPPROTO_ICMPV6) then
    src ← is_equal_ip (ep_ip (tp_src live_packet_tuple)) (ep_ip (tp_src live_outbound));
    dst ← is_equal_ip (ep_ip (tp_dst live_packet_tuple)) (ep_ip (tp_dst live_outbound));
    c_assert (src && dst)
  else c_assert (is_equal_tuple live_packet_tuple live_outbound).

(** [run_packet.c:637-703] map_outbound_live_packet *)
Definition map_outbound_live_packet (s : socket) (live_packet actual_packet script_packet : packet)
    (error : option string) : exec (mapped * status_t) :=
  _ ← assert_outbound s live_packet;
  let script_outbound := socket_get_outbound (sk_script s) in
  actual_packet ← set_packet_tuple actual_packet script_outbound;
  match pk_tcp live_packet with
  | None => Ok (mk_mapped s actual_packet script_packet error, STATUS_OK)
  | Some _ =>
      '(script_packet, error, _) ← find_tcp_timestamp script_packet error;
      '(actual_packet, error, _) ← find_tcp_timestamp actual_packet error;
      '(s, actual_packet) ← map_outbound_ts_val s actual_packet script_packet;
      Ok (mk_mapped s actual_packet script_packet error, STATUS_OK)
  end.

(** ** SACK blocks *)

(** Reads and writes at a known split of the buffer. *)
Lemma get_at_split (pre w post : bytes) :
  get_bytes (pre ++ w ++ post) (zlen pre) (zlen w) = Ok w.
Proof.
  unfold get_bytes. pose proof (zlen_nonneg pre). pose proof (zlen_nonneg w).
  assert (in_range (pre ++ w ++ post) (zlen pre) (zlen w) = true) as ->.
  { apply in_range_true. rewrite !zlen_app. pose proof (zlen_nonneg post). lia. }
  unfold zlen. rewrite !Nat2Z.id, drop_app_length. by rewrite take_app_length.
Qed.

Lemma put_at_split (pre w post w' : bytes) :
  length w' = length w -> put_bytes (pre ++ w ++ post) (zlen pre) w' = Ok (pre ++ w' ++ post).
Proof.
  intros Hl. unfold put_bytes.
  assert (in_range (pre ++ w ++ post) (zlen pre) (zlen w') = true) as ->.
  { apply in_range_true. rewrite !zlen_app. pose proof (zlen_nonneg post).
    pose proof (zlen_nonneg pre). pose proof (zlen_nonneg w'). unfold zlen in *. lia. }
  unfold zlen. rewrite Nat2Z.id, take_app_length, Hl.
  by rewrite <-drop_drop, drop_app_length, drop_app_length.
Qed.

(** A 32-bit word in network order, shifted. *)
Definition shift_word (offset : Z) (w : bytes) : bytes :=
  le_split 4 (htonl (u32 (ntohl (le_combine w) + offset))).

(** The first [m] words of a list of bytes, shifted. *)
Fixpoint shift_words (offset : Z) (m : nat) (l : bytes) : bytes :=
  match m with
  | O => l
  | S m' => shift_word offset (take 4 l) ++ shift_words offset m' (drop 4 l)
  end.

(** A SACK option with its block edges shifted; any other option as it is. *)
Definition sack_shift (offset : Z) (w : bytes) : bytes :=
  if byte_at w 0 =? TCPOPT_SACK then
    take 2 w ++ shift_words offset (Z.to_nat (2 * ((zlen w - 2) / 8))) (drop 2 w)
  else w.

Lemma add_be32_split pkt p o pre w post offset :
  pk_buffer pkt = pre ++ w ++ post -> length w = 4%nat -> p + o = zlen pre ->
  add_be32 pkt p (F32 o) offset = Ok (set_pk_buffer (pre ++ shift_word offset w ++ post) pkt).
Proof.
  intros Hb Hw Hp. unfold add_be32, prd, pwr, rd, wr, ld32, st32. rewrite Hb, Hp.
  pose proof (get_at_split pre w post) as G. unfold zlen at 2 in G. rewrite Hw in G.
  change (Z.of_nat 4) with 4 in G. rewrite G. unfold fmap, exec_fmap. rewrite bind_Ok_eq.
  rewrite put_at_split by (by rewrite length_le_split). by rewrite bind_Ok_eq.
Qed.

Lemma offset_blocks_spec n : forall pkt o i pre l post offset,
  pk_buffer pkt = pre ++ l ++ post -> (8 * n <= length l)%nat -> o + 2 + 8 * i = zlen pre ->
  offset_blocks pkt o offset n i =
  Ok (set_pk_buffer (pre ++ shift_words offset (2 * n) l ++ post) pkt).
Proof.
  induction n as [|n IH]; intros pkt o i pre l post offset Hb Hl Hp.
  { simpl. by destruct pkt; simpl in *; subst. }
  rewrite Nat.mul_succ_r, Nat.add_comm. cbn [offset_blocks].
  change (shift_words offset (2 + 2 * n) l) with (shift_word offset (take 4 l) ++
    shift_word offset (take 4 (drop 4 l)) ++ shift_words offset (2 * n) (drop 4 (drop 4 l))).
  rewrite <-(take_drop 4 l), <-(take_drop 4 (drop 4 l)), <-!app_assoc in Hb.
  unfold opt_sack_left, opt_sack_right.
  rewrite (add_be32_split pkt o (2 + 8 * i) pre (take 4 l) _ offset Hb)
    by (rewrite ?length_take; lia). rewrite bind_Ok_eq.
  erewrite (add_be32_split _ o (6 + 8 * i) (pre ++ shift_word offset (take 4 l))
    (take 4 (drop 4 l))); [|simpl; by rewrite <-app_assoc| |].
  2:{ rewrite length_take, length_drop. lia. }
  2:{ rewrite zlen_app. unfold shift_word. rewrite zlen_le_split. lia. }
  rewrite bind_Ok_eq, set_buffer_twice.
  rewrite (IH _ o (i + 1) (pre ++ shift_word offset (take 4 l) ++
    shift_word offset (take 4 (drop 4 l))) (drop 4 (drop 4 l)) post).
  - rewrite set_buffer_twice, <-!app_assoc. done.
  - simpl. by rewrite <-!app_assoc.
  - rewrite !length_drop. lia.
  - rewrite !zlen_app. unfold shift_word. rewrite !zlen_le_split. lia.
Qed.

Lemma shift_words_length offset m l :
  (4 * m <= length l)%nat -> length (shift_words offset m l) = length l.
Proof.
  revert l. induction m as [|m IH]; intros l Hl; [done|]. cbn [shift_words].
  rewrite length_app, IH by (rewrite length_drop; lia). unfold shift_word.
  rewrite length_le_split, length_drop. lia.
Qed.

Lemma shift_words_ok offset m l : bytes_ok l -> bytes_ok (shift_words offset m l).
Proof.
  revert l. induction m as [|m IH]; intros l Hl; [done|]. apply Forall_app_2.
  - apply le_split_ok.
  - apply IH. by apply Forall_drop.
Qed.

Lemma sack_words (w : bytes) : (4 * Z.to_nat (2 * ((zlen w - 2) / 8)) <= length (drop 2 w))%nat.
Proof. rewrite length_drop. unfold zlen. zlia. Qed.

(** Shifting changes neither the length nor the first two bytes of an option. *)
Lemma sack_shift_length offset w : zlen (sack_shift offset w) = zlen w.
Proof.
  unfold sack_shift. destruct (_ =? _); [|done]. unfold zlen.
  rewrite length_app, shift_words_length by apply sack_words.
  rewrite length_take, length_drop. lia.
Qed.

Lemma sack_shift_head offset w i :
  2 <= zlen w -> 0 <= i < 2 -> byte_at (sack_shift offset w) i = byte_at w i.
Proof.
  intros Hw Hi. unfold sack_shift. destruct (_ =? _); [|done].
  rewrite byte_at_app by lia. unfold zlen in *. rewrite length_take.
  destruct (Z.ltb_spec i (Z.of_nat (2 `min` length w))); [|lia].
  by apply (byte_at_take w i 2).
Qed.

Lemma sack_shift_wire offset w : wire_option w -> wire_option (sack_shift offset w).
Proof.
  intros (Hb&H1&Hw). unfold wire_option. rewrite sack_shift_length.
  destruct (Z.eqb_spec (byte_at w 0) TCPOPT_SACK) as [E|E].
  - rewrite E in Hw. simpl in Hw. rewrite !sack_shift_head, E by lia. split; [|done].
    unfold sack_shift. destruct (_ =? _); [|done]. apply Forall_app_2; [by apply Forall_take|].
    apply shift_words_ok. by apply Forall_drop.
  - unfold sack_shift. destruct (Z.eqb_spec (byte_at w 0) TCPOPT_SACK); [done|].
    split; [done|]. done.
Qed.

(** The body of the loop on one option of the packet. *)
Lemma sack_body_spec offset pkt pre w post error :
  pk_buffer pkt = pre ++ w ++ post -> wire_option w ->
  (byte_at w 0 = TCPOPT_SACK -> 3 <= zlen w) ->
  exists error', sack_body offset pkt (zlen pre) error =
    Ok (set_pk_buffer (pre ++ sack_shift offset w ++ post) pkt, error', None).
Proof.
  intros Hb (Hok&H1&Hw) Hs. unfold sack_body, prd.
  pose proof (get_at_split pre w post) as G. rewrite <-Hb in G.
  pose proof G as [Hr _]%get_bytes_Ok. apply in_range_true in Hr.
  assert (K : forall i, 0 <= i < zlen w -> ld8 (pk_buffer pkt) (zlen pre + i) = Ok (byte_at w i)).
  { intros i Hi. rewrite ld8_eq by lia. by rewrite (byte_at_get _ _ _ _ _ G). }
  cbn [rd opt_kind opt_length]. rewrite (K 0), bind_Ok_eq by lia. unfold sack_shift.
  destruct (Z.eqb_spec (byte_at w 0) TCPOPT_SACK) as [E|E].
  2:{ exists error. rewrite <-Hb. by destruct pkt. }
  rewrite E in Hw. simpl in Hw. destruct Hw as [H2 Hlen]. specialize (Hs E).
  rewrite (K 1), bind_Ok_eq, Hlen by lia. unfold num_sack_blocks.
  destruct (Z.leb_spec (zlen w) 2); [lia|].
  rewrite (offset_blocks_spec _ pkt (zlen pre) 0 (pre ++ take 2 w) (drop 2 w) post).
  - rewrite bind_Ok_eq, <-!app_assoc.
    replace (2 * Z.to_nat ((zlen w - 2) / 8))%nat with (Z.to_nat (2 * ((zlen w - 2) / 8)))
      by zlia. eauto.
  - by rewrite <-app_assoc, (app_assoc (take 2 w)), take_drop.
  - rewrite length_drop. unfold zlen in *. zlia.
  - rewrite zlen_app. unfold zlen in *. rewrite length_take. lia.
Qed.

(** The loop over the options [ws] that fill the area from [zlen pre] on. *)
Lemma sack_loop offset ws : forall pkt pre post fuel error,
  bytes_ok (pk_buffer pkt) -> pk_buffer pkt = pre ++ mjoin ws ++ post ->
  Forall wire_option ws -> Forall (fun w => byte_at w 0 = TCPOPT_SACK -> 3 <= zlen w) ws ->
  (Z.to_nat (zlen (mjoin ws)) <= fuel)%nat ->
  exists error', (let '(it, opt) := get_current_option
      (mk_iter (Some (zlen pre)) (zlen pre + zlen (mjoin ws))) in
    options_loop pk_buffer (sack_body offset) fuel it opt pkt error)
  = Ok (set_pk_buffer (pre ++ mjoin (sack_shift offset <$> ws) ++ post) pkt, error', None).
Proof.
  induction ws as [|w ws IH]; intros pkt pre post fuel error Hok Hb Hws Hs Hf.
  { exists error. simpl. change (zlen ([] : bytes)) with 0.
    destruct (Z.leb_spec (zlen pre + 0) (zlen pre)); [|lia].
    simpl in Hb. rewrite <-Hb. by destruct fuel, pkt. }
  apply Forall_cons in Hws as [Hw Hws], Hs as [Hs1 Hs].
  change (mjoin (w :: ws)) with (w ++ mjoin ws) in *. rewrite <-app_assoc in Hb.
  pose proof Hw as (Hwb&H1&_). pose proof (zlen_nonneg (mjoin ws)).
  rewrite zlen_app in *. unfold get_current_option. simpl.
  destruct (Z.leb_spec (zlen pre + (zlen w + zlen (mjoin ws))) (zlen pre)); [lia|].
  destruct fuel as [|fuel]; [lia|]. simpl.
  destruct (sack_body_spec offset pkt pre w (mjoin ws ++ post) error Hb Hw Hs1) as (e1&->).
  rewrite bind_Ok_eq. pose proof (sack_shift_wire offset w Hw) as Hw'.
  pose proof (sack_shift_length offset w) as Hl.
  set (b1 := pre ++ sack_shift offset w ++ mjoin ws ++ post).
  assert (Hok1 : bytes_ok b1).
  { rewrite Hb in Hok. unfold bytes_ok, b1 in *. rewrite !Forall_app in *.
    destruct Hok as (?&?&?&?). destruct Hw' as (?&_). done. }
  pose proof (zlen_nonneg post).
  destruct (next_over b1 (zlen pre) (zlen pre + (zlen w + zlen (mjoin ws)))
    (sack_shift offset w) e1) as (e2&E).
  { done. }
  { apply zlen_nonneg. }
  { apply get_at_split. }
  { done. }
  { unfold b1. rewrite !zlen_app, Hl. lia. }
  simpl pk_buffer. rewrite E, bind_Ok_eq, Hl.
  destruct (IH (set_pk_buffer b1 pkt) (pre ++ sack_shift offset w) post fuel e2) as (e3&E3).
  { done. }
  { simpl. unfold b1. by rewrite <-app_assoc. }
  { done. }
  { done. }
  { lia. }
  exists e3. rewrite zlen_app, Hl, <-Z.add_assoc in E3.
  destruct (get_current_option _) as [it opt]. rewrite E3, set_buffer_twice.
  change (mjoin (sack_shift offset <$> w :: ws)) with
    (sack_shift offset w ++ mjoin (sack_shift offset <$> ws)).
  by rewrite <-!app_assoc.
Qed.

(** A packet whose TCP header, at [t], has the options [ws]; SACK options have at least
    one byte of blocks. *)
Definition options_at (pkt : packet) (t : Z) (pre : bytes) (ws : list bytes) (post : bytes) : Prop :=
  bytes_ok (pk_buffer pkt) /\ pk_buffer pkt = pre ++ mjoin ws ++ post /\
  pk_tcp pkt = Some t /\ 0 <= t /\ zlen pre = t + sizeof_tcp /\
  (exists doff, prd pkt t tcp_doff = Ok doff /\ doff * 4 = sizeof_tcp + zlen (mjoin ws)) /\
  Forall wire_option ws /\ Forall (fun w => byte_at w 0 = TCPOPT_SACK -> 3 <= zlen w) ws.

(** The loop over the options starts at the first one and ends at the payload. *)
Lemma for_options_at {R} (body : packet -> Z -> option string -> exec (packet * option string * option R))
    pkt t pre ws post error :
  options_at pkt t pre ws post ->
  for_options pk_buffer body pkt pkt error =
  (let '(it, opt) := get_current_option (mk_iter (Some (zlen pre)) (zlen pre + zlen (mjoin ws))) in
   options_loop pk_buffer body (Z.to_nat (zlen (mjoin ws))) it opt pkt error).
Proof.
  intros (_&_&Ht&Ht0&Hp&(doff&Hd&Hlen)&_). unfold for_options, tcp_options_begin, packet_tcp_options.
  rewrite Ht. simpl assert_ptr. rewrite !bind_Ok_eq. unfold packet_payload. rewrite Ht.
  unfold packet_tcp_header_len. rewrite Ht. simpl assert_ptr.
  rewrite bind_Ok_eq, Hd, !bind_Ok_eq, Hlen, Z.add_assoc, <-Hp.
  unfold get_current_option. simpl. pose proof (zlen_nonneg (mjoin ws)).
  destruct (Z.leb_spec (zlen pre + zlen (mjoin ws)) (zlen pre)).
  - by destruct (Z.to_nat (zlen (mjoin ws))).
  - by replace (zlen pre + zlen (mjoin ws) - zlen pre) with (zlen (mjoin ws)) by lia.
Qed.

Lemma offset_sack_blocks_at offset pkt t pre ws post error :
  options_at pkt t pre ws post ->
  exists error', offset_sack_blocks pkt offset error =
    Ok (set_pk_buffer (pre ++ mjoin (sack_shift offset <$> ws) ++ post) pkt, error', STATUS_OK).
Proof.
  intros H. unfold offset_sack_blocks. rewrite (for_options_at _ _ _ _ _ _ _ H).
  destruct H as (Hok&Hb&_&_&_&_&Hw&Hs).
  destruct (sack_loop offset ws pkt pre post (Z.to_nat (zlen (mjoin ws))) error) as (e&E);
    [done..|].
  exists e. destruct (get_current_option _) as [it opt]. by rewrite E, bind_Ok_eq.
Qed.

Lemma sack_join_zlen offset ws : zlen (mjoin (sack_shift offset <$> ws)) = zlen (mjoin ws).
Proof.
  induction ws as [|w ws IH]; [done|].
  change (mjoin (sack_shift offset <$> w :: ws)) with
    (sack_shift offset w ++ mjoin (sack_shift offset <$> ws)).
  change (mjoin (w :: ws)) with (w ++ mjoin ws). rewrite !zlen_app, IH, sack_shift_length. done.
Qed.

(** Accesses inside a common prefix of two buffers. *)
Lemma rd_prefix pre x y p f :
  zlen x = zlen y -> 0 <= p + field_off f -> p + field_off f + field_bytes f <= zlen pre ->
  rd (pre ++ x) p f = rd (pre ++ y) p f.
Proof.
  intros Hz Hp Hr. apply (changes_only_rd _ _ (zlen pre) (zlen y)); [|lia|lia].
  split; [by rewrite !zlen_app, Hz|]. intros i Hi Hd. rewrite !byte_at_app by lia.
  destruct (Z.ltb_spec i (zlen pre)); [done|]. unfold byte_at, zlen in *.
  rewrite !nth_overflow by lia. done.
Qed.

Lemma wire_options_ok ws : Forall wire_option ws -> bytes_ok (mjoin ws).
Proof.
  induction 1 as [|w ws [Hw _] _ IH]; [by apply Forall_nil_2|]. by apply Forall_app_2.
Qed.

Lemma sack_shift_ge3 offset ws :
  Forall wire_option ws -> Forall (fun w => byte_at w 0 = TCPOPT_SACK -> 3 <= zlen w) ws ->
  Forall (fun w => byte_at w 0 = TCPOPT_SACK -> 3 <= zlen w) (sack_shift offset <$> ws).
Proof.
  intros Hw Hs. apply Forall_fmap. rewrite Forall_forall in *. intros w Hin. simpl.
  rewrite sack_shift_length. destruct (Hw w Hin) as (_&H1&Hx). unfold sack_shift at 1.
  destruct (Z.eqb_spec (byte_at w 0) TCPOPT_SACK) as [E|E]; [|done]. intros _. by apply Hs.
Qed.

Lemma options_at_shift offset pkt t pre ws post :
  options_at pkt t pre ws post ->
  options_at (set_pk_buffer (pre ++ mjoin (sack_shift offset <$> ws) ++ post) pkt) t pre
    (sack_shift offset <$> ws) post.
Proof.
  intros (Hok&Hb&Ht&Ht0&Hp&(doff&Hd&Hlen)&Hw&Hs). unfold options_at.
  assert (Hw' : Forall wire_option (sack_shift offset <$> ws)).
  { apply Forall_fmap. eapply Forall_impl; [exact Hw|]. intros. by apply sack_shift_wire. }
  split_and!; [|done|done|done|done| |done|by apply sack_shift_ge3].
  - simpl. rewrite Hb in Hok. unfold bytes_ok in *. rewrite !Forall_app in *.
    destruct Hok as (?&_&?). split_and!; [done|by apply wire_options_ok|done].
  - exists doff. rewrite sack_join_zlen. split; [|done]. rewrite <-Hd. unfold prd. simpl pk_buffer.
    rewrite Hb. unfold sizeof_tcp in *. apply rd_prefix; simpl; [|lia|lia].
    rewrite !zlen_app, sack_join_zlen. done.
Qed.

(** Offsetting the SACK blocks of a packet adds the offset to both edges of every
    block of every SACK option, modulo 2^32, and changes no other byte: on any packet
    whose TCP options are well formed offset_sack_blocks returns STATUS_OK and the
    options area becomes the given options with their block edges shifted. *)
Theorem offset_sack_blocks_spec (offset : Z) (pkt : packet) (t : Z) (pre : bytes)
    (ws : list bytes) (post : bytes) (error : option string) :
  options_at pkt t pre ws post ->
  exists error', offset_sack_blocks pkt offset error =
    Ok (set_pk_buffer (pre ++ mjoin (sack_shift offset <$> ws) ++ post) pkt, error', STATUS_OK).
Proof. apply offset_sack_blocks_at. Qed.

(** ** Shifting back *)

Lemma shift_word_back offset w : length w = 4%nat -> bytes_ok w ->
  shift_word (u32 (- offset)) (shift_word offset w) = w.
Proof.
  intros Hl Hw. unfold shift_word. rewrite le_combine_split.
  change (256 ^ Z.of_nat 4) with 4294967296.
  unfold htonl. rewrite (Z.mod_small (ntohl _)) by apply ntohl_range.
  rewrite (ntohl_invol (u32 _)) by apply u32_range. rewrite u32_add_neg by apply ntohl_range.
  rewrite ntohl_invol. 2:{ pose proof (le_combine_range w Hw) as Hr. unfold zlen in Hr.
    rewrite Hl in Hr. exact Hr. }
  rewrite <-Hl. by apply le_split_combine.
Qed.

Lemma shift_words_back offset m l :
  (4 * m <= length l)%nat -> bytes_ok l ->
  shift_words (u32 (- offset)) m (shift_words offset m l) = l.
Proof.
  revert l. induction m as [|m IH]; intros l Hl Hok; [done|]. cbn [shift_words].
  assert (H4 : length (shift_word offset (take 4 l)) = 4%nat) by apply length_le_split.
  rewrite take_app_length', drop_app_length' by done.
  rewrite shift_word_back, IH; [apply take_drop|rewrite length_drop; lia|by apply Forall_drop|
    rewrite length_take; lia|by apply Forall_take].
Qed.

Lemma sack_shift_back offset w : wire_option w ->
  sack_shift (u32 (- offset)) (sack_shift offset w) = w.
Proof.
  intros (Hok&H1&Hw). unfold sack_shift at 1. rewrite sack_shift_length.
  destruct (Z.eqb_spec (byte_at w 0) TCPOPT_SACK) as [E|E].
  - rewrite E in Hw. simpl in Hw. rewrite sack_shift_head, E by lia. simpl.
    unfold sack_shift. rewrite E. simpl.
    assert (H2 : length (take 2 w) = 2%nat) by (unfold zlen in *; rewrite length_take; lia).
    rewrite take_app_length', drop_app_length' by done.
    rewrite shift_words_back; [apply take_drop|apply sack_words|by apply Forall_drop].
  - unfold sack_shift. destruct (Z.eqb_spec (byte_at w 0) TCPOPT_SACK) as [E'|]; [done|].
    by destruct (Z.eqb_spec (byte_at w 0) TCPOPT_SACK).
Qed.

Lemma sack_fmap_back offset ws : Forall wire_option ws ->
  sack_shift (u32 (- offset)) <$> (sack_shift offset <$> ws) = ws.
Proof.
  induction 1 as [|w ws Hw _ IH]; [done|]. rewrite !fmap_cons. by rewrite sack_shift_back, IH.
Qed.

(** SACK translation is reversible: offsetting the SACK blocks of a packet with well
    formed options, then offsetting the result by the opposite offset, gives the
    original packet back, byte for byte. *)
Theorem offset_sack_blocks_inverse (offset : Z) (pkt : packet) (t : Z) (pre : bytes)
    (ws : list bytes) (post : bytes) (error : option string) :
  options_at pkt t pre ws post ->
  exists pkt' error' error'',
    offset_sack_blocks pkt offset error = Ok (pkt', error', STATUS_OK) /\
    offset_sack_blocks pkt' (u32 (- offset)) error' = Ok (pkt, error'', STATUS_OK).
Proof.
  intros H. destruct (offset_sack_blocks_at offset _ _ _ _ _ error H) as (e1&E1).
  apply (options_at_shift offset) in H as H'.
  destruct (offset_sack_blocks_at (u32 (- offset)) _ _ _ _ _ e1 H') as (e2&E2).
  eexists _, e1, e2. split; [exact E1|]. rewrite E2, set_buffer_twice.
  rewrite sack_fmap_back by (by destruct H as (_&_&_&_&_&_&Hw&_)).
  destruct H as (_&<-&_). by destruct pkt.
Qed.

(** ** Sequence and acknowledgement numbers *)

(** The common part of map_inbound_packet and tcp_convert_seq_number. *)
Definition shift_seqs (pkt : packet) (tcp seq_offset ack_offset : Z) (error : option string)
    : exec (packet * option string * status_t) :=
  pkt ← add_be32 pkt tcp tcp_seq seq_offset;
  ack ← prd pkt tcp tcp_ack;
  pkt ← (if negb (ack =? 0) then add_be32 pkt tcp tcp_ack_seq ack_offset else Ok pkt);
  offset_sack_blocks pkt ack_offset error.

Lemma rd_middle a w w' c p f :
  zlen w = zlen w' -> 0 <= p + field_off f ->
  p + field_off f + field_bytes f <= zlen a \/ zlen a + zlen w <= p + field_off f ->
  rd (a ++ w' ++ c) p f = rd (a ++ w ++ c) p f.
Proof.
  intros Hz Hp Hd. apply (changes_only_rd _ _ (zlen a) (zlen w)); [|lia|lia].
  split; [by rewrite !zlen_app, Hz|]. intros i Hi Hi'. rewrite !(byte_at_app a) by lia.
  destruct (Z.ltb_spec i (zlen a)); [done|].
  rewrite !byte_at_app by lia. rewrite <-Hz. destruct (Z.ltb_spec (i - zlen a) (zlen w)); [lia|done].
Qed.

(** A TCP header with its sequence and acknowledgement numbers set apart. *)
Definition seqs_at (pkt : packet) (t : Z) (hd seq ack tl : bytes) (ws : list bytes)
    (post : bytes) : Prop :=
  options_at pkt t (hd ++ seq ++ ack ++ tl) ws post /\
  zlen hd = t + 4 /\ length seq = 4%nat /\ length ack = 4%nat /\ bytes_ok seq /\ bytes_ok ack.

(** The ack number that shift_seqs leaves. *)
Definition ack_shifted (flag : Z) (offset : Z) (ack : bytes) : bytes :=
  if flag =? 0 then ack else shift_word offset ack.

(** Replacing the numbers of a header keeps its other members and its options. *)
Lemma seqs_at_replace pkt t hd seq ack tl ws post seq' ack' :
  seqs_at pkt t hd seq ack tl ws post ->
  length seq' = 4%nat -> length ack' = 4%nat -> bytes_ok seq' -> bytes_ok ack' ->
  let b := (hd ++ seq' ++ ack' ++ tl) ++ mjoin ws ++ post in
  seqs_at (set_pk_buffer b pkt) t hd seq' ack' tl ws post /\
  (forall f, 12 <= field_off f -> rd b t f = prd pkt t f).
Proof.
  intros ((Hok&Hb&Ht&Ht0&Hp&(doff&Hd&Hlen)&Hw1&Hw2)&Hh&Hsl&Hal&Hso&Hao) Hsl' Hal' Hso' Hao' b.
  assert (R : forall f, 12 <= field_off f -> rd b t f = prd pkt t f).
  { intros f Hf. unfold prd, b. rewrite Hb, <-!app_assoc.
    change (hd ++ seq ++ ack ++ tl ++ mjoin ws ++ post) with
      (hd ++ seq ++ (ack ++ tl ++ mjoin ws ++ post)).
    rewrite (rd_middle hd seq seq'); [|unfold zlen in *; lia|lia|unfold zlen in *; lia].
    rewrite (app_assoc hd seq (ack' ++ _)), (app_assoc hd seq (ack ++ _)).
    apply rd_middle; [unfold zlen in *; lia|lia|].
    right. rewrite zlen_app. unfold zlen in *. lia. }
  split; [|exact R]. split; [|done]. split_and!; [|done|done|done| | |done..].
  - unfold b. simpl. rewrite Hb in Hok. unfold bytes_ok in *. rewrite !Forall_app in *.
    destruct Hok as ((?&?&?&?)&?&?). done.
  - rewrite !zlen_app in *. unfold zlen in *. lia.
  - exists doff. split; [|done]. unfold prd. simpl pk_buffer. rewrite R; [done|simpl; lia].
Qed.

Lemma shift_seqs_spec pkt t hd seq ack tl ws post so ao error flag :
  seqs_at pkt t hd seq ack tl ws post -> prd pkt t tcp_ack = Ok flag ->
  let pkt' := set_pk_buffer ((hd ++ shift_word so seq ++ ack_shifted flag ao ack ++ tl) ++
                mjoin (sack_shift ao <$> ws) ++ post) pkt in
  (exists error', shift_seqs pkt t so ao error = Ok (pkt', error', STATUS_OK)) /\
  seqs_at pkt' t hd (shift_word so seq) (ack_shifted flag ao ack) tl (sack_shift ao <$> ws) post /\
  (forall f, 12 <= field_off f -> field_off f + field_bytes f <= 20 -> prd pkt' t f = prd pkt t f).
Proof.
  intros H Hflag pkt'. pose proof H as ((Hok&Hb&_)&Hh&Hsl&Hal&Hso&Hao).
  unfold shift_seqs, tcp_seq, tcp_ack_seq.
  rewrite (add_be32_split pkt t 4 hd seq (ack ++ tl ++ mjoin ws ++ post) so);
    [|by rewrite Hb, <-!app_assoc|done|lia].
  rewrite bind_Ok_eq.
  assert (Hs4 : length (shift_word so seq) = 4%nat) by apply length_le_split.
  assert (Hsok : bytes_ok (shift_word so seq)) by apply le_split_ok.
  destruct (seqs_at_replace _ _ _ _ _ _ _ _ (shift_word so seq) ack H) as [H1 R1]; [done..|].
  assert (Heq : hd ++ shift_word so seq ++ ack ++ tl ++ mjoin ws ++ post =
    (hd ++ shift_word so seq ++ ack ++ tl) ++ mjoin ws ++ post) by (by rewrite <-!app_assoc).
  rewrite Heq. unfold prd at 1. simpl pk_buffer. rewrite R1, Hflag, bind_Ok_eq by (simpl; lia).
  set (p1 := set_pk_buffer ((hd ++ shift_word so seq ++ ack ++ tl) ++ mjoin ws ++ post) pkt).
  assert (E : (if negb (flag =? 0) then add_be32 p1 t (F32 8) ao else Ok p1) =
    Ok (set_pk_buffer ((hd ++ shift_word so seq ++ ack_shifted flag ao ack ++ tl) ++
      mjoin ws ++ post) pkt)).
  { unfold ack_shifted. destruct (flag =? 0); simpl negb; cbv iota; [done|].
    rewrite (add_be32_split p1 t 8 (hd ++ shift_word so seq) ack (tl ++ mjoin ws ++ post) ao).
    - unfold p1. by rewrite set_buffer_twice, <-!app_assoc.
    - unfold p1. cbn [pk_buffer set_pk_buffer]. by rewrite <-!app_assoc.
    - done.
    - rewrite zlen_app. unfold zlen in *. lia. }
  rewrite E, bind_Ok_eq.
  destruct (seqs_at_replace _ _ _ _ _ _ _ _ (shift_word so seq) (ack_shifted flag ao ack) H)
    as [H2 R2]; [done| |done| |].
  { unfold ack_shifted. destruct (flag =? 0); [done|apply length_le_split]. }
  { unfold ack_shifted. destruct (flag =? 0); [done|apply le_split_ok]. }
  destruct (offset_sack_blocks_at ao _ _ _ _ _ error (proj1 H2)) as (e&->).
  split; [exists e; by rewrite set_buffer_twice|].
  destruct H2 as [H2 H2']. split; [split; [exact (options_at_shift ao _ _ _ _ _ H2)|exact H2']|].
  intros f Hf Hf'. rewrite <-R2 by done. unfold prd, pkt'. cbn [pk_buffer set_pk_buffer].
  destruct H2 as (_&_&_&?&Hp&_). unfold sizeof_tcp in Hp.
  apply rd_prefix; [by rewrite !zlen_app, sack_join_zlen|lia|lia].
Qed.

(** The offsets of a connection between the numbers of a script and the live ones, for
    segments with SYN and for the others: of the remote side, whose live initial number
    packetdrill chooses, and of the local side, where the kernel does. *)
Definition remote_offset (s : socket) (is_syn : bool) : Z :=
  if is_syn then 0 else ss_remote_isn (sk_live s).
Definition local_offset (s : socket) (is_syn : bool) : Z :=
  if is_syn then ss_local_isn (sk_live s) - ss_local_isn (sk_script s) else ss_local_isn (sk_live s).

(** The packet with [so] added to its sequence number and [ao] to its acknowledgement number,
    if ACK is set, and to the edges of its SACK blocks. *)
Definition shifted (pkt : packet) (hd seq ack tl : bytes) (ws : list bytes) (post : bytes)
    (flag so ao : Z) : packet :=
  set_pk_buffer ((hd ++ shift_word so seq ++ ack_shifted flag ao ack ++ tl) ++
    mjoin (sack_shift ao <$> ws) ++ post) pkt.

Lemma shift_word_u32 o o' w : u32 o = u32 o' -> shift_word o w = shift_word o' w.
Proof.
  intros E. unfold shift_word. do 2 f_equal. unfold u32 in *.
  by rewrite Z.add_mod, E, <-Z.add_mod by done.
Qed.
Lemma shift_words_u32 o o' m : u32 o = u32 o' -> forall w, shift_words o m w = shift_words o' m w.
Proof.
  intros E. induction m as [|m IH]; intros w; cbn [shift_words]; [done|].
  by rewrite (shift_word_u32 o o'), IH.
Qed.
Lemma shifted_u32 pkt hd seq ack tl ws post flag so ao so' ao' : u32 so = u32 so' -> u32 ao = u32 ao' ->
  shifted pkt hd seq ack tl ws post flag so ao = shifted pkt hd seq ack tl ws post flag so' ao'.
Proof.
  intros Es Ea. unfold shifted, ack_shifted. rewrite (shift_word_u32 so so'), (shift_word_u32 ao ao') by done.
  f_equal. f_equal. f_equal. f_equal. apply list_fmap_ext. intros _ w _. unfold sack_shift.
  case_match; [|done]. by rewrite (shift_words_u32 ao ao').
Qed.

(** The number that a field of a header holds. *)
Definition number (pkt : packet) (t : Z) (f : field) : exec Z := ntohl <$> prd pkt t f.

Lemma seqs_at_numbers pkt t hd seq ack tl ws post : seqs_at pkt t hd seq ack tl ws post ->
  number pkt t tcp_seq = Ok (ntohl (le_combine seq)) /\ number pkt t tcp_ack_seq = Ok (ntohl (le_combine ack)).
Proof.
  intros ((_&Hb&_)&Hh&Hsl&Hal&_). unfold number, prd, rd, tcp_seq, tcp_ack_seq, ld32. rewrite Hb.
  pose proof (get_at_split hd seq (ack ++ tl ++ mjoin ws ++ post)) as G1.
  pose proof (get_at_split (hd ++ seq) ack (tl ++ mjoin ws ++ post)) as G2.
  rewrite zlen_app, <-?app_assoc in *. unfold zlen in *. rewrite Hsl, Hal in *.
  change (Z.of_nat 4) with 4 in *. rewrite <-Hh, G1.
  replace (t + 8) with (Z.of_nat (length hd) + 4) by lia. by rewrite G2.
Qed.

Lemma number_shift_word o w : ntohl (le_combine (shift_word o w)) = u32 (ntohl (le_combine w) + o).
Proof.
  unfold shift_word, htonl. rewrite le_combine_split. change (256 ^ Z.of_nat 4) with 4294967296.
  rewrite Z.mod_small by apply ntohl_range. apply ntohl_invol, u32_range.
Qed.

Lemma number_ack_shifted flag o w : flag <> 0 ->
  ntohl (le_combine (ack_shifted flag o w)) = u32 (ntohl (le_combine w) + o).
Proof.
  intros Hf. unfold ack_shifted. rewrite (proj2 (Z.eqb_neq flag 0)) by done. apply number_shift_word.
Qed.

(** What the translation of an injected packet does. *)
Lemma map_inbound_shifted s pkt t hd seq ack tl ws post error syn flag :
  seqs_at pkt t hd seq ack tl ws post -> prd pkt t tcp_syn = Ok syn -> prd pkt t tcp_ack = Ok flag ->
  let is_syn := negb (syn =? 0) in
  exists error', map_inbound_seq s pkt t error = Ok (shifted pkt hd seq ack tl ws post flag
    (remote_offset s is_syn) (local_offset s is_syn), error', STATUS_OK).
Proof.
  intros H Hsyn Hack is_syn. unfold map_inbound_seq. rewrite Hsyn, bind_Ok_eq. fold is_syn.
  destruct (shift_seqs_spec pkt t hd seq ack tl ws post (remote_seq_script_to_live_offset s is_syn)
    (local_seq_script_to_live_offset s is_syn) error flag H Hack) as ([e E]&_&_).
  exists e. etransitivity; [exact E|]. do 3 f_equal. apply shifted_u32; unfold remote_offset, local_offset,
    remote_seq_script_to_live_offset, local_seq_script_to_live_offset; destruct is_syn; try done.
  unfold u32. by rewrite Z.mod_mod.
Qed.

(** And that of a sniffed packet. *)
Lemma convert_seq_shifted s pkt t hd seq ack tl ws post error syn flag :
  seqs_at pkt t hd seq ack tl ws post -> prd pkt t tcp_syn = Ok syn -> prd pkt t tcp_ack = Ok flag ->
  let is_syn := negb (syn =? 0) in
  exists error', tcp_convert_seq_number s pkt error = Ok (shifted pkt hd seq ack tl ws post flag
    (- local_offset s is_syn) (- remote_offset s is_syn), error', STATUS_OK).
Proof.
  intros H Hsyn Hack is_syn. unfold tcp_convert_seq_number.
  assert (pk_tcp pkt = Some t) as -> by apply H. cbn [deref]. rewrite bind_Ok_eq, Hsyn, bind_Ok_eq.
  fold is_syn. cbv zeta.
  destruct (shift_seqs_spec pkt t hd seq ack tl ws post (local_seq_live_to_script_offset s is_syn)
    (remote_seq_live_to_script_offset s is_syn) error flag H Hack) as ([e E]&_&_).
  unfold shift_seqs in E. apply exec_bind_Ok in E as (p2&Ea&E). rewrite Ea, bind_Ok_eq.
  apply exec_bind_Ok in E as (fl&Ef&E). rewrite Ef, bind_Ok_eq.
  apply exec_bind_Ok in E as (p3&Eb&E). rewrite Eb, bind_Ok_eq, E, bind_Ok_eq.
  exists e. do 3 f_equal. apply shifted_u32; unfold remote_offset, local_offset,
    local_seq_live_to_script_offset, remote_seq_live_to_script_offset,
    remote_seq_script_to_live_offset, local_seq_script_to_live_offset; destruct is_syn; try done;
    unfold u32; zlia.
Qed.

(** C36. Script space and live space are the same up to a shift, in both directions of a
    connection.  Take a segment of the script that is injected, and one that is sniffed from
    the kernel, with well formed options, ACK set in both, and SYN in both or in neither.
    The translations of both succeed; they change the sequence and acknowledgement numbers
    and the edges of SACK blocks, by the initial numbers of the connection, and no other
    byte.  And how far the kernel's acknowledgement is ahead of the injected sequence number
    is the same in the live test and in the script, and so is how far the script's
    acknowledgement is ahead of the kernel's sequence number. *)
Theorem tcp_seq_translation_agrees (s : socket) (p q : packet) (tp tq : Z)
    (hdp seqp ackp tlp hdq seqq ackq tlq : bytes) (wsp wsq : list bytes) (postp postq : bytes)
    (synp synq flagp flagq : Z) (ep eq_ : option string) :
  seqs_at p tp hdp seqp ackp tlp wsp postp -> seqs_at q tq hdq seqq ackq tlq wsq postq ->
  prd p tp tcp_syn = Ok synp -> prd q tq tcp_syn = Ok synq -> (synp =? 0) = (synq =? 0) ->
  prd p tp tcp_ack = Ok flagp -> prd q tq tcp_ack = Ok flagq -> flagp <> 0 -> flagq <> 0 ->
  let R := remote_offset s (negb (synp =? 0)) in
  let L := local_offset s (negb (synp =? 0)) in
  let p' := shifted p hdp seqp ackp tlp wsp postp flagp R L in
  let q' := shifted q hdq seqq ackq tlq wsq postq flagq (- L) (- R) in
  (exists e, map_inbound_seq s p tp ep = Ok (p', e, STATUS_OK)) /\
  (exists e, tcp_convert_seq_number s q eq_ = Ok (q', e, STATUS_OK)) /\
  (exists x x' y y', number p tp tcp_seq = Ok x /\ number p' tp tcp_seq = Ok x' /\
     number q tq tcp_ack_seq = Ok y /\ number q' tq tcp_ack_seq = Ok y' /\
     (y - x') mod 2 ^ 32 = (y' - x) mod 2 ^ 32) /\
  (exists x x' y y', number p tp tcp_ack_seq = Ok x /\ number p' tp tcp_ack_seq = Ok x' /\
     number q tq tcp_seq = Ok y /\ number q' tq tcp_seq = Ok y' /\
     (x' - y) mod 2 ^ 32 = (x - y') mod 2 ^ 32).
Proof.
  intros Hp Hq Sp Sq Hs Fp Fq Np Nq R L p' q'.
  destruct (map_inbound_shifted s p tp _ _ _ _ _ _ ep _ _ Hp Sp Fp) as (e1&E1).
  destruct (convert_seq_shifted s q tq _ _ _ _ _ _ eq_ _ _ Hq Sq Fq) as (e2&E2).
  rewrite <-Hs in E2. split; [by exists e1|]. split; [by exists e2|].
  destruct (shift_seqs_spec p tp _ _ _ _ _ _ R L None flagp Hp Fp) as (_&Hp'&_).
  destruct (shift_seqs_spec q tq _ _ _ _ _ _ (- L) (- R) None flagq Hq Fq) as (_&Hq'&_).
  destruct (seqs_at_numbers _ _ _ _ _ _ _ _ Hp) as [P1 P2]. destruct (seqs_at_numbers _ _ _ _ _ _ _ _ Hq) as [Q1 Q2].
  destruct (seqs_at_numbers _ _ _ _ _ _ _ _ Hp') as [P1' P2'].
  destruct (seqs_at_numbers _ _ _ _ _ _ _ _ Hq') as [Q1' Q2'].
  rewrite number_shift_word in P1', Q1'. rewrite number_ack_shifted in P2', Q2' by done.
  split; eexists _, _, _, _; (split; [eassumption|]; split; [eassumption|]; split; [eassumption|];
    split; [eassumption|]); unfold u32; change (2 ^ 32) with 4294967296; zlia.
Qed.

(** A TCP packet at offset 0 with a SACK option of one block, four NOPs and a
    timestamp, whose sequence number is about to wrap. *)
Definition sack_option : bytes := [5; 10; 0xFF; 0xFF; 0xFF; 0xF0; 0; 0; 0; 0x10].
Definition ts_option : bytes := [8; 10; 0; 0; 0; 7; 0; 0; 0; 9].
Definition sample_ws : list bytes := [sack_option; [1]; [1]; [1]; [1]; ts_option].
Definition sample_hd : bytes := [0; 80; 31; 144].
Definition sample_tl : bytes := [0xB0; 0x10; 0; 0; 0; 0; 0; 0].
Definition sample_seg : packet :=
  set_pk_tcp (Some 0) (received
    ((sample_hd ++ [0xFF; 0xFF; 0xFF; 0xFE] ++ [0; 0; 0; 5] ++ sample_tl) ++ mjoin sample_ws
     ++ [104; 105]) 0).

Ltac solve_literal_bytes :=
  unfold bytes_ok;
  repeat (apply Forall_cons_2; [unfold is_byte; split; [discriminate|reflexivity]|]);
  apply Forall_nil_2.

Lemma sample_seg_seqs :
  seqs_at sample_seg 0 sample_hd [0xFF; 0xFF; 0xFF; 0xFE] [0; 0; 0; 5] sample_tl sample_ws [104; 105].
Proof.
  split; [|split_and!; [done..|solve_literal_bytes|solve_literal_bytes]].
  split_and!; [solve_literal_bytes|done..| | |].
  - exists 11. split; reflexivity.
  - repeat (apply Forall_cons_2; [split; [solve_literal_bytes|split; [done|by vm_compute]]|]).
    apply Forall_nil_2.
  - repeat (apply Forall_cons_2; [done|]). apply Forall_nil_2.
Qed.

Lemma offset_sack_blocks_spec_witness :
  exists error', offset_sack_blocks sample_seg 0x20 None =
    Ok (set_pk_buffer ((sample_hd ++ [0xFF; 0xFF; 0xFF; 0xFE] ++ [0; 0; 0; 5] ++ sample_tl) ++
      [5; 10; 0; 0; 0; 0x10; 0; 0; 0; 0x30; 1; 1; 1; 1; 8; 10; 0; 0; 0; 7; 0; 0; 0; 9] ++ [104; 105])
      sample_seg, error', STATUS_OK).
Proof.
  apply (offset_sack_blocks_spec 0x20 sample_seg 0
    (sample_hd ++ [0xFF; 0xFF; 0xFF; 0xFE] ++ [0; 0; 0; 5] ++ sample_tl) sample_ws [104; 105] None).
  apply (proj1 sample_seg_seqs).
Defined.

Lemma offset_sack_blocks_inverse_witness :
  exists pkt' error' error'',
    offset_sack_blocks sample_seg 0x20 None = Ok (pkt', error', STATUS_OK) /\
    offset_sack_blocks pkt' (u32 (- 0x20)) error' = Ok (sample_seg, error'', STATUS_OK).
Proof.
  apply (offset_sack_blocks_inverse 0x20 sample_seg 0
    (sample_hd ++ [0xFF; 0xFF; 0xFF; 0xFE] ++ [0; 0; 0; 5] ++ sample_tl) sample_ws [104; 105] None).
  apply (proj1 sample_seg_seqs).
Defined.

Definition sample_socket : socket :=
  mk_socket 3 4 false SOCKET_PASSIVE_SYNACK_ACKED AF_INET 1 IPPROTO_TCP
    (mk_socket_state (sample_endpoint 1 8080) 0 (sample_endpoint 2 80) 0)
    (mk_socket_state (sample_endpoint 1 8080) 1000000 (sample_endpoint 2 4000) 77)
    (mk_map 0 1 0 [[]]) false 0 0 0 0 (replicate 20 0) (replicate 20 0) 0 0 0.

(** A data segment that is injected with the sequence number 0xFFFFFFFE of the script, and
    the live segment that acknowledges the byte after it. *)
Definition live_ack : bytes := [0; 0; 0; 76].
Definition sample_reply : packet :=
  set_pk_buffer ((sample_hd ++ [0; 15; 66; 69] ++ live_ack ++ sample_tl) ++ mjoin sample_ws ++ [104; 105]) sample_seg.

Lemma sample_reply_seqs :
  seqs_at sample_reply 0 sample_hd [0; 15; 66; 69] live_ack sample_tl sample_ws [104; 105].
Proof.
  apply (seqs_at_replace _ _ _ _ _ _ _ _ [0; 15; 66; 69] live_ack sample_seg_seqs);
    [done|done|solve_literal_bytes|solve_literal_bytes].
Qed.

Lemma tcp_seq_translation_agrees_witness :
  (exists pkt e, tcp_convert_seq_number sample_socket sample_reply None = Ok (pkt, e, STATUS_OK) /\
     number pkt 0 tcp_ack_seq = Ok 0xFFFFFFFF /\ number pkt 0 tcp_seq = Ok 5).
Proof.
  destruct (tcp_seq_translation_agrees sample_socket sample_seg sample_reply 0 0 sample_hd
    [0xFF; 0xFF; 0xFF; 0xFE] [0; 0; 0; 5] sample_tl sample_hd [0; 15; 66; 69] live_ack sample_tl
    sample_ws sample_ws [104; 105] [104; 105] 0 0 1 1 None None) as (_&(e&E)&_).
  - exact sample_seg_seqs.
  - exact sample_reply_seqs.
  - reflexivity.
  - reflexivity.
  - reflexivity.
  - reflexivity.
  - reflexivity.
  - discriminate.
  - discriminate.
  - eexists _, e. split; [exact E|]. split; vm_compute; reflexivity.
Defined.

(** ** Timestamps *)

(** A TCP header, options included, that lies in the packet's buffer. *)
Definition tcp_in_buffer (pkt : packet) (t doff : Z) : Prop :=
  bytes_ok (pk_buffer pkt) /\ pk_tcp pkt = Some t /\ 0 <= t /\
  prd pkt t tcp_doff = Ok doff /\ t + doff * 4 <= zlen (pk_buffer pkt).

(** Where a timestamp pointer may point: [o] is in the options and is a timestamp. *)
Definition ts_location (pkt : packet) (t doff : Z) (p : option Z) (off : Z) : Prop :=
  match p with
  | None => True
  | Some q => t + 20 <= q - off < t + doff * 4 /\ byte_at (pk_buffer pkt) (q - off) = TCPOPT_TIMESTAMP
  end.

(** Finding the timestamp option always returns: whatever bytes the options hold,
    bogus kinds and lengths included, find_tcp_timestamp ends within the header and
    returns STATUS_OK, changes nothing but the two timestamp pointers, and the pointers
    it leaves are NULL or both point into the same timestamp option of the header. *)
Theorem find_tcp_timestamp_total (pkt : packet) (t doff : Z) (error : option string) :
  tcp_in_buffer pkt t doff ->
  exists v e error',
    find_tcp_timestamp pkt error =
      Ok (set_pk_tcp_ts_ecr e (set_pk_tcp_ts_val v pkt), error', STATUS_OK) /\
    ts_location pkt t doff v 2 /\ ts_location pkt t doff e 6 /\
    (fun q => q + 4) <$> v = e.
Proof.
  intros (Hok&Ht&Ht0&Hd&Hr). unfold find_tcp_timestamp.
  set (Inv := fun p => exists v e, p = set_pk_tcp_ts_ecr e (set_pk_tcp_ts_val v pkt) /\
    ts_location pkt t doff v 2 /\ ts_location pkt t doff e 6 /\ (fun q => q + 4) <$> v = e).
  set (p0 := set_pk_tcp_ts_ecr None (set_pk_tcp_ts_val None pkt)).
  assert (HI0 : Inv p0) by (by exists None, None).
  assert (exists p' error' r, for_options pk_buffer timestamp_body p0 p0 error = Ok (p', error', r)
    /\ Inv p') as (p'&e'&r&->&(v&e&->&Hv&He&Hve)).
  2:{ rewrite bind_Ok_eq. by exists v, e, e'. }
  unfold for_options, tcp_options_begin, packet_tcp_options, packet_payload, packet_tcp_header_len.
  change (pk_tcp p0) with (pk_tcp pkt). rewrite Ht. simpl assert_ptr. rewrite !bind_Ok_eq.
  change (prd p0 t tcp_doff) with (prd pkt t tcp_doff). rewrite Hd, !bind_Ok_eq.
  unfold get_current_option. cbn [current_option options_end].
  destruct (Z.leb_spec (t + doff * 4) (t + sizeof_tcp)); [simpl; eauto 6|].
  unfold sizeof_tcp in *. simpl options_end. cbv iota zeta.
  apply (options_loop_total pk_buffer timestamp_body Inv (t + 20) (t + doff * 4));
    [lia| | |done|lia|lia].
  - intros s (v&e&->&_). simpl. split; [done|lia].
  - intros s o err (v&e&->&Hv&He&Hve) Ho. unfold timestamp_body.
    change (prd (set_pk_tcp_ts_ecr e (set_pk_tcp_ts_val v pkt)) o opt_kind) with
      (ld8 (pk_buffer pkt) (o + 0)). rewrite Z.add_0_r, ld8_eq, bind_Ok_eq by lia.
    destruct (Z.eqb_spec (byte_at (pk_buffer pkt) o) TCPOPT_TIMESTAMP) as [E|E].
    + eexists _, _, _. split; [reflexivity|]. exists (Some (o + 2)), (Some (o + 6)).
      split; [done|]. unfold ts_location. rewrite !Z.add_simpl_r.
      split; [by split|]. split; [by split|]. simpl. f_equal. lia.
    + eexists _, _, _. split; [reflexivity|]. by exists v, e.
Qed.

Lemma find_tcp_timestamp_total_witness :
  exists v e error',
    find_tcp_timestamp sample_seg None =
      Ok (set_pk_tcp_ts_ecr e (set_pk_tcp_ts_val v sample_seg), error', STATUS_OK) /\
    ts_location sample_seg 0 11 v 2 /\ ts_location sample_seg 0 11 e 6 /\
    (fun q => q + 4) <$> v = e.
Proof.
  apply (find_tcp_timestamp_total sample_seg 0 11 None).
  split; [solve_literal_bytes|]. split; [reflexivity|]. split; [discriminate|].
  split; [reflexivity|]. vm_compute. discriminate.
Defined.

(** The mapping a socket has learned, as a finite map from script to live values. *)
Definition ts_map (s : socket) (M : gmap Z Z) : Prop := represents (sk_ts_val_map s) M.

(** The timestamp mapping remembers what was sent: after an outbound timestamp has been
    recorded, looking up its script value gives its live value, every other script value
    maps as it did before, and a value never recorded gives the caller's default; no
    lookup fails. *)
Theorem ts_val_mapping_learns (s : socket) (M : gmap Z Z) (script_ts live_ts other dflt : Z) :
  ts_map s M -> 0 <= script_ts < 4294967296 ->
  exists s', set_outbound_ts_val_mapping s script_ts live_ts = Ok s' /\
    ts_map s' (<[script_ts := live_ts]> M) /\
    get_outbound_ts_val_mapping s' script_ts dflt = Ok (live_ts, STATUS_OK) /\
    (other <> script_ts ->
     get_outbound_ts_val_mapping s' other dflt = get_outbound_ts_val_mapping s other dflt) /\
    (M !! other = None -> other <> script_ts ->
     get_outbound_ts_val_mapping s' other dflt = Ok (dflt, STATUS_OK)).
Proof.
  intros HM Hk. destruct (set_spec _ _ live_ts _ HM Hk) as (m&E&Hm).
  exists (set_sk_ts_val_map m s). unfold set_outbound_ts_val_mapping, get_outbound_ts_val_mapping.
  rewrite E, bind_Ok_eq. split; [done|]. split; [exact Hm|]. simpl sk_ts_val_map.
  rewrite !(get_spec _ _ _ Hm), (get_spec _ _ _ HM), !bind_Ok_eq, lookup_insert_eq.
  split; [done|]. split; intros; by simplify_map_eq.
Qed.

Lemma sample_socket_ts_map : ts_map sample_socket ∅.
Proof.
  destruct (new_spec 1) as (m&E&Hm). vm_compute in E. injection E as <-. exact Hm.
Qed.

Lemma ts_val_mapping_learns_witness :
  exists s', set_outbound_ts_val_mapping sample_socket 7 4242 = Ok s' /\
    ts_map s' (<[7 := 4242]> ∅) /\
    get_outbound_ts_val_mapping s' 7 0 = Ok (4242, STATUS_OK) /\
    (9 <> 7 -> get_outbound_ts_val_mapping s' 9 0 = get_outbound_ts_val_mapping sample_socket 9 0) /\
    ((∅ : gmap Z Z) !! 9 = None -> 9 <> 7 ->
     get_outbound_ts_val_mapping s' 9 0 = Ok (0, STATUS_OK)).
Proof.
  apply (ts_val_mapping_learns sample_socket ∅ 7 4242 9 0).
  - exact sample_socket_ts_map.
  - split; [discriminate|reflexivity].
Defined.

(** A segment whose last option says it is a SACK of four blocks but has only two bytes
    left in the header, in a buffer that ends with the header. *)
Definition truncated_sack : packet :=
  set_pk_tcp (Some 0) (received
    (sample_hd ++ [0; 0; 0; 1; 0; 0; 0; 5; 0x60; 0x10; 0; 0; 0; 0; 0; 0] ++ [1; 1; 5; 34]) 0).

(** A SACK option whose length runs past the header is not rejected: the option
    iterator notes the error and goes on, so offset_sack_blocks touches memory past
    the end of a packet whose last option claims more blocks than the header holds. *)
Theorem offset_sack_blocks_overrun :
  offset_sack_blocks truncated_sack 1 None = Fault OutOfBounds.
Proof. vm_compute. reflexivity. Qed.
