(* ===== verification/PacketVerify.v ===== *)
(** * PacketVerify: comparing sniffed packets with the script (run_packet.c)

    The checks that decide whether an outbound packet, already translated into script
    values, is the packet the script expects: header by header, then the IPv6 flow
    label, the TCP options and the payload. *)

From S2P Require Import Prelude Headers Packet Checksum PacketParser TcpOptions IpPacket.
From S2P Require Import Socket RunState PacketMap.

(** Checks joined by [||]: the first that fails is the result, and the rest is not run. *)
Fixpoint first_error (checks : list (exec status_t)) : exec status_t :=
  match checks with
  | [] => Ok STATUS_OK
  | m :: rest =>
      s ← m;
      match s with
      | STATUS_OK => first_error rest
      | _ => Ok s
      end
  end.

(** A check that is made only under a condition. *)
Definition check_if (c : bool) (m : exec status_t) : exec status_t :=
  if c then m else Ok STATUS_OK.

(** [run_packet.c:706-722] verify_outbound_live_checksums *)
Definition verify_outbound_live_checksums (live_packet : packet) : exec status_t :=
  match pk_ipv4 live_packet with
  | None => Ok STATUS_OK
  | Some ipv4 =>
      len ← ipv4_header_len (pk_buffer live_packet) ipv4;
      hdr ← get_bytes (pk_buffer live_packet) ipv4 len;
      c ← ipv4_checksum hdr;
      Ok (if negb (c =? 0) then STATUS_ERR "bad outbound IP checksum" else STATUS_OK)
  end.

(** [run_packet.c:727-741] check_field: the arguments are converted to u32 *)
Definition check_field (name : string) (expected actual : Z) : status_t :=
  let expected := u32 expected in
  let actual := u32 actual in
  if negb (actual =? expected) then
    STATUS_ERR ("live packet field " +:+ name +:+ ": expected: " +:+ dec expected +:+ " (0x"
      +:+ hex_digits 8 expected +:+ ") vs actual: " +:+ dec actual +:+ " (0x"
      +:+ hex_digits 8 actual +:+ ")")
  else STATUS_OK.

(** [types.h:112-118] ECN_ECT01 of enum ip_ecn_t *)
Definition ECN_ECT01 : Z := 4.

(** [run_packet.c:744-774] verify_outbound_live_tos *)
Definition verify_outbound_live_tos (tos_chk : tos_chk_t) (actual_tos_byte script_tos_byte : Z)
    : status_t :=
  match tos_chk with
  | TOS_CHECK_ECN =>
      let actual_ecn_bits := Z.land actual_tos_byte IP_ECN_MASK in
      if script_tos_byte =? ECN_ECT01 then
        if negb (actual_ecn_bits =? IP_ECN_ECT0) && negb (actual_ecn_bits =? IP_ECN_ECT1) then
          STATUS_ERR ("live packet field ip_ecn: expected: 0x1 or 0x2 vs actual: 0x"
            +:+ hex_digits 8 actual_ecn_bits)
        else STATUS_OK
      else check_field "ip_ecn" script_tos_byte actual_ecn_bits
  | TOS_CHECK_TOS => check_field "tos" script_tos_byte actual_tos_byte
  | TOS_CHECK_NONE => STATUS_OK
  end.

(** [run_packet.c:777-790] verify_outbound_live_ttl_or_hl *)
Definition verify_outbound_live_ttl_or_hl (actual_ttl_byte script_ttl_byte : Z) : status_t :=
  if negb (script_ttl_byte =? TTL_CHECK_NONE)
  then check_field "ttl" script_ttl_byte actual_ttl_byte else STATUS_OK.

Definition flag_set (flags flag : Z) : bool := negb (Z.land flags flag =? 0).

(** [run_packet.c:795-802] tcp_options_allowance *)
Definition tcp_options_allowance (actual_packet script_packet : packet) : exec Z :=
  if flag_set (pk_flags script_packet) FLAG_OPTIONS_NOCHECK
  then packet_tcp_options_len actual_packet else Ok 0.

(** A comparison of one member of the headers at [s] (script) and [a] (actual), each
    put through [conv]; the script's value is increased by [extra]. *)
Definition check_member (name : string) (script_packet actual_packet : packet) (s a : Z)
    (f : field) (conv : Z -> Z) (extra : exec Z) : exec status_t :=
  expected ← prd script_packet s f;
  extra ← extra;
  actual ← prd actual_packet a f;
  Ok (check_field name (conv expected + extra) (conv actual)).

Definition same (z : Z) : Z := z.

(** [run_packet.c:805-841] verify_ipv4 *)
Definition verify_ipv4 (actual_packet script_packet : packet) (layer : nat) (strict : bool)
    : exec status_t :=
  a ← header_ptr actual_packet layer;
  s ← header_ptr script_packet layer;
  let check name f conv extra := check_member name script_packet actual_packet s a f conv extra in
  first_error [
    check "ipv4_version"%string ipv4_version same (Ok 0);
    check "ipv4_protocol"%string ipv4_protocol same (Ok 0);
    check "ipv4_header_length"%string ipv4_ihl same (Ok 0);
    check_if strict (check "ipv4_total_length"%string ipv4_tot_len ntohs
      (tcp_options_allowance actual_packet script_packet));
    (at_ ← ipv4_tos_byte (pk_buffer actual_packet) a;
     st ← ipv4_tos_byte (pk_buffer script_packet) s;
     Ok (verify_outbound_live_tos (pk_tos_chk script_packet) at_ st));
    (at_ ← ipv4_ttl_byte (pk_buffer actual_packet) a;
     st ← ipv4_ttl_byte (pk_buffer script_packet) s;
     Ok (verify_outbound_live_ttl_or_hl at_ st))].

(** [run_packet.c:844-877] verify_ipv6 *)
Definition verify_ipv6 (actual_packet script_packet : packet) (layer : nat) (strict : bool)
    : exec status_t :=
  a ← header_ptr actual_packet layer;
  s ← header_ptr script_packet layer;
  let check name f conv extra := check_member name script_packet actual_packet s a f conv extra in
  first_error [
    check "ipv6_version"%string ipv6_version same (Ok 0);
    check_if strict (check "ipv6_payload_len"%string ipv6_payload_len ntohs
      (tcp_options_allowance actual_packet script_packet));
    check "ipv6_next_header"%string ipv6_next_header same (Ok 0);
    (at_ ← ipv6_tos_byte (pk_buffer actual_packet) a;
     st ← ipv6_tos_byte (pk_buffer script_packet) s;
     Ok (verify_outbound_live_tos (pk_tos_chk script_packet) at_ st));
    (at_ ← ipv6_hoplimit_byte (pk_buffer actual_packet) a;
     st ← ipv6_hoplimit_byte (pk_buffer script_packet) s;
     Ok (verify_outbound_live_ttl_or_hl at_ st))].

(** [run_packet.c:880-940] verify_tcp *)
Definition verify_tcp (actual_packet script_packet : packet) (layer : nat) (strict : bool)
    : exec status_t :=
  a ← header_ptr actual_packet layer;
  s ← header_ptr script_packet layer;
  script_payload_len ← packet_payload_len script_packet;
  let check name f conv extra := check_member name script_packet actual_packet s a f conv extra in
  first_error [
    check "tcp_data_offset"%string tcp_doff same
      (n ← tcp_options_allowance actual_packet script_packet; Ok (u64 n / 4));
    check_if strict (check "tcp_fin"%string tcp_fin same (Ok 0));
    check "tcp_syn"%string tcp_syn same (Ok 0);
    check "tcp_rst"%string tcp_rst same (Ok 0);
    check_if strict (check "tcp_psh"%string tcp_psh same (Ok 0));
    check "tcp_ack"%string tcp_ack same (Ok 0);
    check "tcp_urg"%string tcp_urg same (Ok 0);
    check "tcp_ece"%string tcp_ece same (Ok 0);
    check_if strict (check "tcp_cwr"%string tcp_cwr same (Ok 0));
    check "tcp_reserved_bits"%string tcp_res1 same (Ok 0);
    check_if strict (check "tcp_seq"%string tcp_seq ntohl (Ok 0));
    check_if (negb strict) (check "tcp_seq"%string tcp_seq ntohl (Ok script_payload_len));
    check "tcp_ack_seq"%string tcp_ack_seq ntohl (Ok 0);
    check_if (negb (flag_set (pk_flags script_packet) FLAG_WIN_NOCHECK))
      (check "tcp_window"%string tcp_window ntohs (Ok 0));
    check "tcp_urg_ptr"%string tcp_urg_ptr ntohs (Ok 0)].

(** [run_packet.c:943-960] verify_udp *)
Definition verify_udp (actual_packet script_packet : packet) (layer : nat) (strict : bool)
    : exec status_t :=
  a ← header_ptr actual_packet layer;
  s ← header_ptr script_packet layer;
  check_if strict (check_member "udp_len" script_packet actual_packet s a udp_len ntohs (Ok 0)).

(** [gre.h:47-47] gre.flags *)
Definition gre_flags := F16 0.
(** [gre.h:79-79] gre.be16[i] *)
Definition gre_be16 (i : Z) := F16 (4 + 2 * i).
(** [gre.h:80-80] gre.be32[i] *)
Definition gre_be32 (i : Z) := F32 (4 + 4 * i).

(** Two members that must be equal, with the message if they are not. *)
Definition check_equal (message : string) (script_packet actual_packet : packet) (s a : Z)
    (f : field) : exec status_t :=
  x ← prd script_packet s f;
  y ← prd actual_packet a f;
  Ok (if negb (x =? y) then STATUS_ERR message else STATUS_OK).

(** [run_packet.c:963-1011] verify_gre *)
Definition verify_gre (actual_packet script_packet : packet) (layer : nat) (strict : bool)
    : exec status_t :=
  a ← header_ptr actual_packet layer;
  s ← header_ptr script_packet layer;
  let equal message f := check_equal message script_packet actual_packet s a f in
  first_error [
    (x ← gre_len (pk_buffer script_packet) s;
     y ← gre_len (pk_buffer actual_packet) a;
     Ok (check_field "gre_len" x y));
    equal "mismatch in GRE flags"%string gre_flags;
    equal "mismatch in GRE proto"%string gre_proto;
    (has_checksum ← prd script_packet s gre_has_checksum;
     has_routing ← prd script_packet s gre_has_routing;
     has_key ← prd script_packet s gre_has_key;
     has_seq ← prd script_packet s gre_has_seq;
     let sum := negb (has_checksum =? 0) || negb (has_routing =? 0) in
     let i := if sum then 1 else 0 in
     let j := if negb (has_key =? 0) then i + 1 else i in
     first_error [
       check_if sum (equal "mismatch in GRE sum"%string (gre_be16 0));
       check_if sum (equal "mismatch in GRE off"%string (gre_be16 1));
       check_if (negb (has_key =? 0)) (equal "mismatch in GRE key"%string (gre_be32 i));
       check_if (negb (has_seq =? 0)) (equal "mismatch in GRE seq"%string (gre_be32 j))])].

(** [run_packet.c:1031-1038] the loop of verify_mpls over [n] entries, from entry [i] *)
Fixpoint verify_mpls_entries (actual_packet script_packet : packet) (a s : Z) (n : nat) (i : Z)
    : exec status_t :=
  match n with
  | O => Ok STATUS_OK
  | S n' =>
      x ← get_bytes (pk_buffer actual_packet) (a + sizeof_mpls * i) sizeof_mpls;
      y ← get_bytes (pk_buffer script_packet) (s + sizeof_mpls * i) sizeof_mpls;
      if bool_decide (x = y) then verify_mpls_entries actual_packet script_packet a s n' (i + 1)
      else Ok (STATUS_ERR ("mismatch in MPLS label " +:+ dec i))
  end.

(** [run_packet.c:1014-1041] verify_mpls *)
Definition verify_mpls (actual_packet script_packet : packet) (layer : nat) (strict : bool)
    : exec status_t :=
  actual_header ← header_at actual_packet layer;
  script_header ← header_at script_packet layer;
  let num_entries := h_header_bytes script_header / sizeof_mpls in
  if negb (h_header_bytes script_header =? h_header_bytes actual_header) then
    Ok (STATUS_ERR "mismatch in MPLS label stack depth")
  else
    a ← header_ptr actual_packet layer;
    s ← header_ptr script_packet layer;
    verify_mpls_entries actual_packet script_packet a s (Z.to_nat num_entries) 0.

(** [run_packet.c:1044-1061] verify_icmpv4 *)
Definition verify_icmpv4 (actual_packet script_packet : packet) (layer : nat) (strict : bool)
    : exec status_t :=
  a ← header_ptr actual_packet layer;
  s ← header_ptr script_packet layer;
  first_error [
    check_member "icmp_type" script_packet actual_packet s a icmpv4_type same (Ok 0);
    check_member "icmp_code" script_packet actual_packet s a icmpv4_code same (Ok 0)].

(** [run_packet.c:1064-1081] verify_icmpv6 *)
Definition verify_icmpv6 (actual_packet script_packet : packet) (layer : nat) (strict : bool)
    : exec status_t :=
  a ← header_ptr actual_packet layer;
  s ← header_ptr script_packet layer;
  first_error [
    check_member "icmp_type" script_packet actual_packet s a icmpv6_type same (Ok 0);
    check_member "icmp_code" script_packet actual_packet s a icmpv6_code same (Ok 0)].

(** [packet.c:39-49] header_types: the names *)
Definition header_type_name (t : header_t) : string :=
  match t with
  | HEADER_NONE => "NONE"
  | HEADER_IPV4 => "IPV4"
  | HEADER_IPV6 => "IPV6"
  | HEADER_GRE => "GRE"
  | HEADER_MPLS => "MPLS"
  | HEADER_TCP => "TCP"
  | HEADER_UDP => "UDP"
  | HEADER_ICMPV4 => "ICMPV4"
  | HEADER_ICMPV6 => "ICMPV6"
  | HEADER_NUM_TYPES => ""
  end.

(** [run_packet.c:1089-1123] verify_header *)
Definition verify_header (actual_packet script_packet : packet) (layer : nat) (strict : bool)
    : exec status_t :=
  actual_header ← header_at actual_packet layer;
  script_header ← header_at script_packet layer;
  if negb (bool_decide (h_type script_header = h_type actual_header)) then
    Ok (STATUS_ERR ("live packet header layer " +:+ dec (Z.of_nat layer) +:+ ": expected: "
      +:+ header_type_name (h_type script_header) +:+ " header vs actual: "
      +:+ header_type_name (h_type actual_header) +:+ " header"))
  else
    match h_type script_header with
    | HEADER_IPV4 => verify_ipv4 actual_packet script_packet layer strict
    | HEADER_IPV6 => verify_ipv6 actual_packet script_packet layer strict
    | HEADER_GRE => verify_gre actual_packet script_packet layer strict
    | HEADER_MPLS => verify_mpls actual_packet script_packet layer strict
    | HEADER_TCP => verify_tcp actual_packet script_packet layer strict
    | HEADER_UDP => verify_udp actual_packet script_packet layer strict
    | HEADER_ICMPV4 => verify_icmpv4 actual_packet script_packet layer strict
    | HEADER_ICMPV6 => verify_icmpv6 actual_packet script_packet layer strict
    | HEADER_NONE | HEADER_NUM_TYPES => Fault AssertFailed
    end.

(** [run_packet.c:1151-1158] the loop of verify_outbound_live_headers, over the script's
    headers from layer [i] *)
Fixpoint verify_layers (actual_packet script_packet : packet) (strict : bool)
    (headers : list header) (i : nat) : exec status_t :=
  match headers with
  | [] => Ok STATUS_OK
  | h :: rest =>
      if decide (h_type h = HEADER_NONE) then Ok STATUS_OK
      else
        s ← verify_header actual_packet script_packet i strict;
        match s with
        | STATUS_OK => verify_layers actual_packet script_packet strict rest (S i)
        | _ => Ok s
        end
  end.

(** [run_packet.c:1130-1161] verify_outbound_live_headers *)
Definition verify_outbound_live_headers (actual_packet script_packet : packet) (strict : bool)
    : exec status_t :=
  let actual_headers := packet_header_count actual_packet in
  let script_headers := packet_header_count script_packet in
  _ ← c_assert (bool_decide (is_Some (pk_ipv4 actual_packet)) ||
                bool_decide (is_Some (pk_ipv6 actual_packet)));
  _ ← c_assert (bool_decide (is_Some (pk_tcp actual_packet)) ||
                bool_decide (is_Some (pk_udp actual_packet)) ||
                bool_decide (is_Some (pk_icmpv4 actual_packet)) ||
                bool_decide (is_Some (pk_icmpv6 actual_packet)));
  if negb (actual_headers =? script_headers) then
    Ok (STATUS_ERR ((if strict then "live" else "aggregate candidate")
      +:+ " packet header layers: expected: " +:+ dec script_headers
      +:+ " headers vs actual: " +:+ dec actual_headers +:+ " headers"))
  else verify_layers actual_packet script_packet strict (pk_headers script_packet) 0.

(** [run_packet.c:1166-1216] verify_outbound_live_ipv6_flowlabel *)
Definition verify_outbound_live_ipv6_flowlabel (s : socket) (actual_packet script_packet : packet)
    : exec (socket * status_t) :=
  script_ipv6 ← deref (pk_ipv6 script_packet);
  script_flowlabel ← ipv6_flow_label (pk_buffer script_packet) script_ipv6;
  actual_ipv6 ← deref (pk_ipv6 actual_packet);
  live_flowlabel ← ipv6_flow_label (pk_buffer actual_packet) actual_ipv6;
  let learn s := set_sk_flowlabel_live live_flowlabel (set_sk_flowlabel_script script_flowlabel s) in
  if script_flowlabel =? 0 then Ok (s, STATUS_OK)
  else if live_flowlabel =? 0 then
    Ok (s, STATUS_ERR "flowlabel unmarked in the live packet")
  else if sk_flowlabel_script s =? 0 then Ok (learn s, STATUS_OK)
  else if negb (script_flowlabel =? sk_flowlabel_script s) then
    if negb (live_flowlabel =? sk_flowlabel_live s) then Ok (learn s, STATUS_OK)
    else Ok (s, STATUS_ERR "expected a different flowlabel but got the same")
  else if live_flowlabel =? sk_flowlabel_live s then Ok (s, STATUS_OK)
  else Ok (s, STATUS_ERR ("inconsistent flowlabels for this packet: expected: 0x"
         +:+ hex_digits 8 (sk_flowlabel_live s) +:+ " vs actual: 0x"
         +:+ hex_digits 8 live_flowlabel)).

(** [run_packet.c:1232-1250] verify_outbound_tcp_option: the timestamp case; the product
    wraps as an [int] *)
Definition verify_timestamp (cfg : config) (actual_packet script_packet : packet) : exec status_t :=
  script_ts_val ← packet_tcp_ts_val script_packet;
  actual_ts_val ← packet_tcp_ts_val actual_packet;
  let ts_val_tick_usecs := cfg_tcp_ts_tick_usecs cfg in
  let tolerance_usecs := cfg_tolerance_usecs cfg in
  Ok (if negb (ts_val_tick_usecs =? 0) &&
         (tolerance_usecs <? s32 (Z.abs (s32 (actual_ts_val - script_ts_val)) * ts_val_tick_usecs))
      then STATUS_ERR ("bad outbound TCP timestamp value, tolerance " +:+ dec tolerance_usecs)
      else STATUS_OK).

(** [run_packet.c:1218-1271] verify_outbound_tcp_option: the options are at [a] and [s] *)
Definition verify_outbound_tcp_option (cfg : config) (actual_packet script_packet : packet) (a s : Z)
    : exec status_t :=
  kind ← prd actual_packet a opt_kind;
  if (kind =? TCPOPT_EOL) || (kind =? TCPOPT_NOP) then Ok STATUS_OK
  else if kind =? TCPOPT_TIMESTAMP then verify_timestamp cfg actual_packet script_packet
  else
    script_kind ← prd script_packet s opt_kind;
    script_length ← prd script_packet s opt_length;
    actual_length ← prd actual_packet a opt_length;
    if negb (script_length =? actual_length) then
      Ok (STATUS_ERR ("bad lengths for outbound TCP option " +:+ dec script_kind))
    else if 2 <? script_length then
      x ← get_bytes (pk_buffer actual_packet) (a + 2) (actual_length - 2);
      y ← get_bytes (pk_buffer script_packet) (s + 2) (actual_length - 2);
      Ok (if bool_decide (x = y) then STATUS_OK
          else STATUS_ERR ("bad value outbound TCP option " +:+ dec script_kind))
    else Ok STATUS_OK.

(** [run_packet.c:1291-1306] the loop of verify_outbound_live_tcp_options *)
Fixpoint options_pair_loop (cfg : config) (actual_packet script_packet : packet) (fuel : nat)
    (a_iter s_iter : tcp_options_iterator) (a_opt s_opt : option Z) (error : option string)
    : exec status_t :=
  match fuel with
  | O => Fault OutOfFuel
  | S n =>
      match a_opt, s_opt with
      | None, None => Ok STATUS_OK
      | Some a, Some s =>
          a_kind ← prd actual_packet a opt_kind;
          s_kind ← prd script_packet s opt_kind;
          if negb (a_kind =? s_kind) then Ok (STATUS_ERR "bad outbound TCP options")
          else
            status ← verify_outbound_tcp_option cfg actual_packet script_packet a s;
            match status with
            | STATUS_OK =>
                '(a_iter, a_opt, error) ←
                  tcp_options_next (pk_buffer actual_packet) a_iter error;
                '(s_iter, s_opt, error) ←
                  tcp_options_next (pk_buffer script_packet) s_iter error;
                options_pair_loop cfg actual_packet script_packet n a_iter s_iter a_opt s_opt error
            | _ => Ok status
            end
      | _, _ => Ok (STATUS_ERR "bad outbound TCP options")
      end
  end.

(** [run_packet.c:1274-1308] verify_outbound_live_tcp_options; the fuel is the length of
    the actual options, plus the last test *)
Definition verify_outbound_live_tcp_options (cfg : config) (actual_packet script_packet : packet)
    (error : option string) : exec status_t :=
  if flag_set (pk_flags script_packet) FLAG_OPTIONS_NOCHECK then Ok STATUS_OK
  else
    '(a_iter, a_opt) ← tcp_options_begin actual_packet;
    '(s_iter, s_opt) ← tcp_options_begin script_packet;
    len ← packet_tcp_options_len actual_packet;
    options_pair_loop cfg actual_packet script_packet (S (Z.to_nat len)) a_iter s_iter a_opt s_opt
      error.

(** [run_packet.c:1329-1335] the loop of verify_outbound_live_payload over [n] bytes,
    from byte [i] *)
Fixpoint verify_payload_bytes (b : bytes) (payload seq : Z) (n : nat) (i : Z) : exec unit :=
  match n with
  | O => Ok tt
  | S n' =>
      v ← ld8 b (payload + i);
      if negb (v =? u32 (seq - 1 + i) mod 10) then Fault Aborted
      else verify_payload_bytes b payload seq n' (i + 1)
  end.

(** [run_packet.c:1311-1337] verify_outbound_live_payload *)
Definition verify_outbound_live_payload (actual_packet script_packet : packet) : exec status_t :=
  actual_len ← packet_payload_len actual_packet;
  script_len ← packet_payload_len script_packet;
  _ ← c_assert (actual_len =? script_len);
  tcp ← deref (pk_tcp actual_packet);
  seq ← prd actual_packet tcp tcp_seq;
  live_payload ← packet_payload actual_packet;
  _ ← verify_payload_bytes (pk_buffer actual_packet) live_payload (ntohl seq)
        (Z.to_nat actual_len) 0;
  Ok STATUS_OK.

(** ** Lists of checks *)

Lemma first_error_ok l :
  first_error l = Ok STATUS_OK <-> Forall (fun m => m = Ok STATUS_OK) l.
Proof.
  induction l as [|m l IH]; simpl; [by split|]. rewrite Forall_cons, <-IH.
  destruct m as [[]|]; simpl; [tauto|by split; [|intros []]..].
Qed.

Lemma check_field_ok name expected actual :
  check_field name expected actual = STATUS_OK <-> u32 actual = u32 expected.
Proof.
  unfold check_field. destruct (Z.eqb_spec (u32 actual) (u32 expected)); simpl; naive_solver.
Qed.

(** Both packets have the member, with the same value. *)
Definition agree (script_packet actual_packet : packet) (s a : Z) (f : field) : Prop :=
  exists v, prd script_packet s f = Ok v /\ prd actual_packet a f = Ok v.

(** A conversion that is injective on the values of a member. *)
Definition conv_ok (f : field) (conv : Z -> Z) : Prop :=
  (conv = same /\ field_mod f <= 4294967296) \/ (conv = ntohs /\ field_mod f = 65536) \/
  (conv = ntohl /\ field_mod f = 4294967296).

Lemma conv_inj f conv x y : conv_ok f conv ->
  0 <= x < field_mod f -> 0 <= y < field_mod f -> u32 (conv x) = u32 (conv y) -> x = y.
Proof.
  intros [[-> Hf]|[[-> Hf]|[-> Hf]]] Hx Hy; unfold u32.
  - unfold same. rewrite !Z.mod_small by lia. done.
  - pose proof (ntohs_range x). pose proof (ntohs_range y). rewrite !Z.mod_small by lia.
    rewrite Hf in *. intros H'. rewrite <-(ntohs_invol x), <-(ntohs_invol y) by lia. by rewrite H'.
  - pose proof (ntohl_range x). pose proof (ntohl_range y). rewrite !Z.mod_small by lia.
    rewrite Hf in *. intros H'. rewrite <-(ntohl_invol x), <-(ntohl_invol y) by lia. by rewrite H'.
Qed.

(** A read that succeeds is of a value in the member's range. *)
Lemma rd_range b p f v : bytes_ok b -> field_wf f -> rd b p f = Ok v -> 0 <= v < field_mod f.
Proof.
  intros Hb Hf H.
  assert (0 <= p + field_off f /\ p + field_off f + field_bytes f <= zlen b) as [H0 H1].
  { destruct f as [o|o|o|o lo w]; simpl in *; unfold ld8, ld16, ld32 in H; inv_exec;
      match goal with G : get_bytes _ _ _ = Ok _ |- _ => apply get_bytes_Ok in G as [G _];
        apply in_range_true in G; lia end. }
  destruct (rd_total b p f Hb Hf H0 H1) as (v'&E&Hr). rewrite H in E. by injection E as <-.
Qed.

Lemma check_member_ok name script_packet actual_packet s a f conv :
  bytes_ok (pk_buffer script_packet) -> bytes_ok (pk_buffer actual_packet) ->
  field_wf f -> conv_ok f conv ->
  check_member name script_packet actual_packet s a f conv (Ok 0) = Ok STATUS_OK <->
  agree script_packet actual_packet s a f.
Proof.
  intros Hs Ha Hf Hc. unfold check_member, agree, prd. split.
  - intros H. apply exec_bind_Ok in H as (x&Ex&H). rewrite bind_Ok_eq in H.
    apply exec_bind_Ok in H as (y&Ey&H). injection H as H. apply check_field_ok in H.
    rewrite Z.add_0_r in H. exists x. split; [done|]. rewrite Ey. f_equal.
    eapply conv_inj; eauto using rd_range.
  - intros (v&->&->). simpl. f_equal. apply check_field_ok. by rewrite Z.add_0_r.
Qed.

(** The members of a TCP header that must be equal. *)
Definition tcp_checked (script_packet : packet) : list field :=
  [tcp_doff; tcp_fin; tcp_syn; tcp_rst; tcp_psh; tcp_ack; tcp_urg; tcp_ece; tcp_cwr; tcp_res1;
   tcp_seq; tcp_ack_seq; tcp_urg_ptr]
  ++ (if flag_set (pk_flags script_packet) FLAG_WIN_NOCHECK then [] else [tcp_window]).

Ltac solve_conv := first
  [ by left | by right; left | by right; right | left; split; [reflexivity|simpl; lia] ].

(** C24. The strict comparison of TCP headers accepts exactly the headers that agree: when
    the script checks TCP options, verify_tcp returns STATUS_OK if and only if the
    sniffed and the scripted header have the same data offset, all eight flags, reserved
    bits, sequence and acknowledgement numbers, urgent pointer and, unless the script
    leaves it open, window. *)
Theorem verify_tcp_strict (actual_packet script_packet : packet) (layer : nat) (a s len : Z) :
  bytes_ok (pk_buffer actual_packet) -> bytes_ok (pk_buffer script_packet) ->
  header_ptr actual_packet layer = Ok a -> header_ptr script_packet layer = Ok s ->
  packet_payload_len script_packet = Ok len ->
  flag_set (pk_flags script_packet) FLAG_OPTIONS_NOCHECK = false ->
  verify_tcp actual_packet script_packet layer true = Ok STATUS_OK <->
  Forall (agree script_packet actual_packet s a) (tcp_checked script_packet).
Proof.
  intros Ha Hs Ea Es El Hf. unfold verify_tcp, tcp_options_allowance.
  rewrite Ea, Es, El, Hf, !bind_Ok_eq. cbv zeta.
  change (u64 0 / 4) with 0. simpl check_if. rewrite first_error_ok.
  assert (C : forall name f conv, field_wf f -> conv_ok f conv ->
    check_member name script_packet actual_packet s a f conv (Ok 0) = Ok STATUS_OK <->
    agree script_packet actual_packet s a f) by (intros; by apply check_member_ok).
  unfold tcp_checked. rewrite Forall_app.
  repeat rewrite (Forall_cons _ (check_member _ _ _ _ _ _ _ _)).
  rewrite !Forall_cons, !Forall_nil.
  rewrite !C by (first [solve_conv | split; simpl; lia]).
  destruct (flag_set (pk_flags script_packet) FLAG_WIN_NOCHECK); simpl check_if;
    rewrite ?Forall_cons, ?Forall_nil, ?C by (first [solve_conv | split; simpl; lia]);
    tauto.
Qed.

(** ** TCP options *)

(** How many ticks two 32-bit timestamps are apart, the shorter way around the circle. *)
Definition ticks_apart (x y : Z) : Z := Z.min ((x - y) mod 2 ^ 32) ((y - x) mod 2 ^ 32).

Lemma abs_s32_ticks x y : Z.abs (s32 (x - y)) = ticks_apart x y.
Proof.
  unfold ticks_apart, s32. set (d := x - y). replace (y - x) with (- d) by (unfold d; lia).
  change (2 ^ 32) with 4294967296. zlia.
Qed.

(** The timestamps of the two packets are within the tolerance: ticks have no duration, or
    the time between the timestamps is at most the tolerance. *)
Definition timestamps_close (cfg : config) (actual_packet script_packet : packet) : Prop :=
  exists x y, packet_tcp_ts_val actual_packet = Ok x /\ packet_tcp_ts_val script_packet = Ok y /\
    (cfg_tcp_ts_tick_usecs cfg = 0 \/
     ticks_apart x y * cfg_tcp_ts_tick_usecs cfg <= cfg_tolerance_usecs cfg).

(** The time between the timestamps of two packets is an int: less than 36 minutes. *)
Definition timestamps_in_int (cfg : config) (actual_packet script_packet : packet) : Prop :=
  forall x y, packet_tcp_ts_val actual_packet = Ok x -> packet_tcp_ts_val script_packet = Ok y ->
    0 <= ticks_apart x y * cfg_tcp_ts_tick_usecs cfg < 2 ^ 31.

Lemma verify_timestamp_close cfg pa ps : timestamps_in_int cfg pa ps ->
  verify_timestamp cfg pa ps = Ok STATUS_OK <-> timestamps_close cfg pa ps.
Proof.
  intros Hi. unfold verify_timestamp, timestamps_close.
  destruct (packet_tcp_ts_val ps) as [y|e] eqn:Ey; cycle 1.
  { split; [done|]. by intros (?&?&_&?&_). }
  destruct (packet_tcp_ts_val pa) as [x|e] eqn:Ex; cycle 1.
  { split; [done|]. by intros (?&?&?&_). }
  rewrite !bind_Ok_eq, abs_s32_ticks. specialize (Hi x y Ex Ey). rewrite s32_small by lia.
  destruct (Z.eqb_spec (cfg_tcp_ts_tick_usecs cfg) 0) as [E0|E0]; cbn [negb andb].
  - split; [|done]. intros _. exists x, y. by auto.
  - destruct (Z.ltb_spec (cfg_tolerance_usecs cfg) (ticks_apart x y * cfg_tcp_ts_tick_usecs cfg)).
    + split; [done|]. intros (?&?&[= <-]&[= <-]&[?|?]); [done|lia].
    + split; [|done]. intros _. exists x, y. split_and!; [done..|by right].
Qed.

(** When two options, of the actual and of the script packet, match: the same kind, and
    the same bytes unless it is padding or a timestamp; timestamps are compared by value
    with the configured tolerance. *)
Definition option_matches (cfg : config) (actual_packet script_packet : packet) (w w' : bytes)
    : Prop :=
  byte_at w 0 = byte_at w' 0 /\
  if (byte_at w 0 =? TCPOPT_EOL) || (byte_at w 0 =? TCPOPT_NOP) then True
  else if byte_at w 0 =? TCPOPT_TIMESTAMP
  then timestamps_close cfg actual_packet script_packet
  else w = w'.

(** The option [w] at [p] in a buffer, byte by byte. *)
Lemma option_byte b p w i : get_bytes b p (zlen w) = Ok w -> 0 <= i < zlen w ->
  ld8 b (p + i) = Ok (byte_at w i).
Proof.
  intros G Hi. pose proof G as [Hr _]%get_bytes_Ok. apply in_range_true in Hr.
  rewrite ld8_eq by lia. by rewrite (byte_at_get _ _ _ _ _ G).
Qed.

Lemma option_tail b p w : get_bytes b p (zlen w) = Ok w -> 2 <= zlen w ->
  get_bytes b (p + 2) (zlen w - 2) = Ok (drop 2 w).
Proof.
  intros G Hw. rewrite <-(take_drop 2 w) in G.
  assert (H2 : zlen (take 2 w) = 2) by (unfold zlen in *; rewrite length_take; lia).
  apply get_bytes_app_l in G as [_ G]. rewrite H2 in G. rewrite <-G. f_equal.
  unfold zlen in *. rewrite length_drop. lia.
Qed.

Lemma wire_tail_eq w w' : 2 <= zlen w -> zlen w = zlen w' -> byte_at w 0 = byte_at w' 0 ->
  byte_at w 1 = byte_at w' 1 -> drop 2 w = drop 2 w' -> w = w'.
Proof.
  intros Hw Hl H0 H1 Ht. destruct w as [|x [|y w]]; unfold zlen in Hw; simpl in Hw; [lia|lia|].
  destruct w' as [|x' [|y' w']]; unfold zlen in Hl; simpl in Hl; [lia|lia|].
  change (x = x') in H0. change (y = y') in H1. change (w = w') in Ht. by rewrite H0, H1, Ht.
Qed.

Lemma verify_option_ok cfg pa ps a s w w' :
  get_bytes (pk_buffer pa) a (zlen w) = Ok w -> get_bytes (pk_buffer ps) s (zlen w') = Ok w' ->
  wire_option w -> wire_option w' -> byte_at w 0 = byte_at w' 0 -> timestamps_in_int cfg pa ps ->
  verify_outbound_tcp_option cfg pa ps a s = Ok STATUS_OK <-> option_matches cfg pa ps w w'.
Proof.
  intros Ga Gs (_&H1&Hw) (_&H1'&Hw') Hk Hi. unfold verify_outbound_tcp_option, option_matches, prd.
  cbn [rd opt_kind opt_length].
  rewrite (option_byte _ _ _ 0 Ga), (option_byte _ _ _ 0 Gs), bind_Ok_eq by lia.
  rewrite <-Hk in *. destruct (_ || _); [tauto|].
  destruct (_ =? TCPOPT_TIMESTAMP); [rewrite verify_timestamp_close by done; tauto|]. destruct Hw as [H2 Hl], Hw' as [H2' Hl'].
  rewrite (option_byte _ _ _ 1 Ga), (option_byte _ _ _ 1 Gs), !bind_Ok_eq, Hl, Hl' by lia.
  destruct (Z.eqb_spec (zlen w') (zlen w)) as [E|E]; simpl negb; cbv iota.
  2:{ split; [done|]. intros [_ ->]. done. }
  rewrite <-E. rewrite E at 2. rewrite (option_tail _ _ _ Ga) by lia.
  rewrite (option_tail _ _ _ Gs), !bind_Ok_eq by lia.
  assert (Heq : drop 2 w = drop 2 w' <-> w = w').
  { split; [|by intros ->]. intros Ht. apply wire_tail_eq; [lia|lia|done|lia|done]. }
  destruct (Z.ltb_spec 2 (zlen w')).
  - case_bool_decide as D; [tauto|]. split; [done|]. tauto.
  - split; [intros _|done]. split; [done|]. apply Heq. unfold zlen in *.
    rewrite !drop_ge by lia. done.
Qed.

(** The options [ws] found at [p] in a buffer. *)
Definition wire_area (b : bytes) (p : Z) (ws : list bytes) : Prop :=
  bytes_ok b /\ 0 <= p /\ Forall wire_option ws /\
  get_bytes b p (zlen (mjoin ws)) = Ok (mjoin ws).

Lemma wire_area_cons b p w ws : wire_area b p (w :: ws) ->
  get_bytes b p (zlen w) = Ok w /\ wire_option w /\ 1 <= zlen w /\
  wire_area b (p + zlen w) ws /\ p + zlen w + zlen (mjoin ws) <= zlen b.
Proof.
  intros (Hb&Hp&[Hw Hws]%Forall_cons&G). change (mjoin (w :: ws)) with (w ++ mjoin ws) in G.
  pose proof G as [Hr _]%get_bytes_Ok. apply in_range_true in Hr. rewrite zlen_app in Hr.
  apply get_bytes_app_l in G as [G1 G2]. pose proof Hw as (_&H1&_).
  split_and!; [done..|split_and!; [done|lia|done|done]|lia].
Qed.

Lemma current_at p (ws : list bytes) :
  get_current_option (mk_iter (Some p) (p + zlen (mjoin ws))) =
  match zlen (mjoin ws) with
  | 0 => (mk_iter None (p + zlen (mjoin ws)), None)
  | _ => (mk_iter (Some p) (p + zlen (mjoin ws)), Some p)
  end.
Proof.
  unfold get_current_option. cbn [current_option options_end].
  pose proof (zlen_nonneg (mjoin ws)). destruct (Z.leb_spec (p + zlen (mjoin ws)) p);
    destruct (zlen (mjoin ws)); done || lia.
Qed.

Lemma current_cons p (w : bytes) (ws : list bytes) : 1 <= zlen w ->
  get_current_option (mk_iter (Some p) (p + zlen (mjoin (w :: ws)))) =
  (mk_iter (Some p) (p + zlen w + zlen (mjoin ws)), Some p).
Proof.
  intros. rewrite current_at. change (mjoin (w :: ws)) with (w ++ mjoin ws).
  rewrite zlen_app, Z.add_assoc. pose proof (zlen_nonneg (mjoin ws)).
  destruct (zlen w + zlen (mjoin ws)) eqn:E; [lia|done|lia].
Qed.

Lemma next_at b p w ws error : wire_area b p (w :: ws) ->
  exists error', tcp_options_next b (mk_iter (Some p) (p + zlen w + zlen (mjoin ws))) error =
    Ok (get_current_option (mk_iter (Some (p + zlen w)) (p + zlen w + zlen (mjoin ws))), error').
Proof.
  intros H. pose proof H as (Hb&Hp&_). apply wire_area_cons in H as (G&Hw&H1&_&Hr).
  pose proof (zlen_nonneg (mjoin ws)). apply next_over; [done|done|done|done|lia].
Qed.

Lemma pair_loop_ok cfg pa ps wsa : timestamps_in_int cfg pa ps -> forall wss a s fuel error,
  wire_area (pk_buffer pa) a wsa -> wire_area (pk_buffer ps) s wss -> (length wsa < fuel)%nat ->
  (let '(ia, oa) := get_current_option (mk_iter (Some a) (a + zlen (mjoin wsa))) in
   let '(js, os) := get_current_option (mk_iter (Some s) (s + zlen (mjoin wss))) in
   options_pair_loop cfg pa ps fuel ia js oa os error) = Ok STATUS_OK <->
  Forall2 (option_matches cfg pa ps) wsa wss.
Proof.
  intros Hi. induction wsa as [|w wsa IH]; intros wss a s fuel error Ha Hs Hf; (destruct fuel as [|fuel]; [lia|]).
  - destruct wss as [|w' wss].
    { rewrite !current_at. split; [by constructor|done]. }
    apply wire_area_cons in Hs as (_&_&H1&_). rewrite current_at, (current_cons s w' wss) by done.
    simpl. split; [done|]. by intros ?%Forall2_nil_inv_l.
  - pose proof (wire_area_cons _ _ _ _ Ha) as (Ga&Wa&H1a&Ha'&_).
    rewrite (current_cons a w wsa) by done. destruct wss as [|w' wss].
    { rewrite current_at. simpl. split; [done|]. by intros ?%Forall2_nil_inv_r. }
    pose proof (wire_area_cons _ _ _ _ Hs) as (Gs&Ws&H1s&Hs'&_).
    rewrite (current_cons s w' wss) by done. cbn [options_pair_loop].
    unfold prd. change (rd (pk_buffer pa) a opt_kind) with (ld8 (pk_buffer pa) (a + 0)).
    change (rd (pk_buffer ps) s opt_kind) with (ld8 (pk_buffer ps) (s + 0)).
    rewrite (option_byte _ _ _ 0 Ga), (option_byte _ _ _ 0 Gs), !bind_Ok_eq by lia.
    rewrite Forall2_cons.
    destruct (Z.eqb_spec (byte_at w 0) (byte_at w' 0)) as [Hk|Hk]; simpl negb; cbv iota.
    2:{ split; [done|]. by intros [[? _] _]. }
    rewrite <-(verify_option_ok cfg pa ps a s w w' Ga Gs Wa Ws Hk Hi).
    destruct (verify_outbound_tcp_option cfg pa ps a s) as [[]|] eqn:Ev; simpl;
      try (split; [done|by intros [? _]]).
    destruct (next_at _ _ _ _ error Ha) as (e1&->). rewrite bind_Ok_eq.
    destruct (get_current_option (mk_iter (Some (a + zlen w)) _)) as [ia oa] eqn:Eia.
    destruct (next_at _ _ _ _ e1 Hs) as (e2&->). rewrite bind_Ok_eq.
    specialize (IH wss (a + zlen w) (s + zlen w') fuel e2 Ha' Hs' ltac:(simpl in Hf; lia)).
    rewrite Eia in IH. destruct (get_current_option (mk_iter (Some (s + zlen w')) _)).
    rewrite IH. tauto.
Qed.

Lemma options_area pkt t pre ws post : options_at pkt t pre ws post ->
  wire_area (pk_buffer pkt) (t + sizeof_tcp) ws /\
  tcp_options_begin pkt = Ok (get_current_option
    (mk_iter (Some (t + sizeof_tcp)) (t + sizeof_tcp + zlen (mjoin ws)))) /\
  packet_tcp_options_len pkt = Ok (zlen (mjoin ws)).
Proof.
  intros (Hok&Hb&Ht&Ht0&Hp&(doff&Hd&Hlen)&Hw&_). split; [|split].
  - split_and!; [done|unfold sizeof_tcp in *; lia|done|]. rewrite Hb, <-Hp. apply get_at_split.
  - unfold tcp_options_begin, packet_tcp_options, packet_payload, packet_tcp_header_len.
    rewrite Ht. simpl assert_ptr. by rewrite !bind_Ok_eq, Hd, !bind_Ok_eq, Hlen, Z.add_assoc.
  - unfold packet_tcp_options_len, packet_tcp_header_len. rewrite Ht. simpl assert_ptr.
    rewrite !bind_Ok_eq, Hd, !bind_Ok_eq, Hlen. f_equal. lia.
Qed.

Lemma wire_count ws : Forall wire_option ws -> Z.of_nat (length ws) <= zlen (mjoin ws).
Proof.
  induction 1 as [|w ws (_&H1&_) _ IH]; [done|]. change (mjoin (w :: ws)) with (w ++ mjoin ws).
  rewrite zlen_app. simpl length. lia.
Qed.

(** C25. The comparison of TCP options accepts exactly the option lists that match: unless
    the script leaves options open, on well formed options it returns STATUS_OK if and
    only if both packets have the same number of options and each option matches the one
    at its place, i.e. has its kind and, padding apart, its bytes, a timestamp being
    compared by value: the ticks between the two, the shorter way around 2^32, times the
    duration of a tick are at most the tolerance, or ticks have no duration.  The time
    between the timestamps must be an int (below 2^31 microseconds, [timestamps_in_int]):
    the product of the code wraps around beyond that ([timestamp_wraps]). *)
Theorem verify_tcp_options_match (cfg : config) (pa ps : packet) (ta ts : Z) (prea pres : bytes)
    (wsa wss : list bytes) (posta posts : bytes) (error : option string) :
  options_at pa ta prea wsa posta -> options_at ps ts pres wss posts ->
  flag_set (pk_flags ps) FLAG_OPTIONS_NOCHECK = false -> timestamps_in_int cfg pa ps ->
  verify_outbound_live_tcp_options cfg pa ps error = Ok STATUS_OK <->
  Forall2 (option_matches cfg pa ps) wsa wss.
Proof.
  intros Ha Hs Hf Hi. destruct (options_area _ _ _ _ _ Ha) as (Aa&Ba&La).
  destruct (options_area _ _ _ _ _ Hs) as (As&Bs&_).
  unfold verify_outbound_live_tcp_options. rewrite Hf, Ba, bind_Ok_eq.
  pose proof Aa as (_&_&Hw&_). pose proof (wire_count wsa Hw) as Hn.
  rewrite <-(pair_loop_ok cfg pa ps wsa Hi wss (ta + sizeof_tcp) (ts + sizeof_tcp)
    (S (Z.to_nat (zlen (mjoin wsa)))) error Aa As) by lia.
  destruct (get_current_option (mk_iter (Some (ta + sizeof_tcp)) _)) as [ia oa].
  rewrite Bs, bind_Ok_eq. destruct (get_current_option _) as [is_ os].
  by rewrite La, bind_Ok_eq.
Qed.

Ltac solve_wire :=
  repeat (apply Forall_cons_2; [split; [solve_literal_bytes|split; [done|by vm_compute]]|]);
  apply Forall_nil_2.

(** The sample segment as find_tcp_timestamp leaves it, and others whose timestamp is [k]
    ticks of 1000 us further on. *)
Definition stamped : packet := set_pk_tcp_ts_val (Some 36) sample_seg.
Definition stamped_later (k : Z) : packet :=
  match (v ← packet_tcp_ts_val stamped; packet_set_tcp_ts_val stamped (v + k)) with
  | Ok pkt => pkt
  | Fault _ => stamped
  end.

Lemma verify_tcp_options_match_witness :
  verify_outbound_live_tcp_options sample_config stamped stamped None = Ok STATUS_OK /\
  Forall2 (option_matches sample_config stamped stamped) sample_ws sample_ws.
Proof.
  assert (verify_outbound_live_tcp_options sample_config stamped stamped None = Ok STATUS_OK) as E
    by (vm_compute; reflexivity).
  split; [exact E|]. revert E.
  apply (verify_tcp_options_match sample_config stamped stamped 0 0
    (sample_hd ++ [0xFF; 0xFF; 0xFF; 0xFE] ++ [0; 0; 0; 5] ++ sample_tl)
    (sample_hd ++ [0xFF; 0xFF; 0xFF; 0xFE] ++ [0; 0; 0; 5] ++ sample_tl)
    sample_ws sample_ws [104; 105] [104; 105] None).
  - apply (proj1 sample_seg_seqs).
  - apply (proj1 sample_seg_seqs).
  - reflexivity.
  - intros x y Ex Ey. rewrite Ex in Ey. injection Ey as <-. unfold ticks_apart.
    rewrite Z.sub_diag. vm_compute. split; [discriminate|reflexivity].
Defined.

(** With a tolerance of 4 ms a deviation of 4 ticks is accepted and one of 5 is not; but one of
    3000000 ticks, 50 minutes, is: its product is beyond the range of an int and wraps
    around to a negative number. *)
Example timestamp_wraps :
  (fun k => bool_decide (verify_timestamp sample_config (stamped_later k) stamped = Ok STATUS_OK))
    <$> [4; 5; 3000000] = [true; false; true].
Proof. vm_compute. reflexivity. Qed.

(** The packet of packet_parser_test.c, parsed. *)
Definition parsed_sample : packet :=
  match parse_packet (received tcp_ipv4_data 1) 60 PACKET_LAYER_3_IP with
  | Ok (pkt, _) => pkt
  | Fault _ => sample_seg
  end.

Lemma verify_tcp_strict_witness :
  verify_tcp parsed_sample parsed_sample 1 true = Ok STATUS_OK <->
  Forall (agree parsed_sample parsed_sample 20 20) (tcp_checked parsed_sample).
Proof.
  apply (verify_tcp_strict parsed_sample parsed_sample 1 20 20 0).
  - vm_compute. solve_literal_bytes.
  - vm_compute. solve_literal_bytes.
  - vm_compute. reflexivity.
  - vm_compute. reflexivity.
  - vm_compute. reflexivity.
  - vm_compute. reflexivity.
Defined.

Example verify_sample_headers :
  verify_outbound_live_headers parsed_sample parsed_sample true = Ok STATUS_OK.
Proof. vm_compute. reflexivity. Qed.

(** ** Flow labels *)

(** IPv6 flow labels are checked for consistency, not for their value: when the script
    sets a label, the sniffed packet must have one, and compared with the previous
    labelled packet of the socket the sniffed label changes exactly when the script's
    label does; the pair just seen is remembered when it is accepted, and nothing is
    otherwise. *)
Theorem verify_flowlabel_consistent (s : socket) (pa ps : packet) (ipa ips la ls : Z) :
  pk_ipv6 pa = Some ipa -> pk_ipv6 ps = Some ips ->
  ipv6_flow_label (pk_buffer pa) ipa = Ok la -> ipv6_flow_label (pk_buffer ps) ips = Ok ls ->
  exists s' status, verify_outbound_live_ipv6_flowlabel s pa ps = Ok (s', status) /\
    (status = STATUS_OK <->
       ls = 0 \/
       la <> 0 /\ (sk_flowlabel_script s = 0 \/ (ls = sk_flowlabel_script s <-> la = sk_flowlabel_live s))) /\
    (status = STATUS_OK -> ls <> 0 -> sk_flowlabel_script s' = ls /\ sk_flowlabel_live s' = la) /\
    (status <> STATUS_OK \/ ls = 0 -> s' = s).
Proof.
  intros Ha Hs Ela Els. unfold verify_outbound_live_ipv6_flowlabel.
  rewrite Ha, Hs. simpl deref. rewrite !bind_Ok_eq, Els, !bind_Ok_eq, Ela, bind_Ok_eq. cbv zeta.
  destruct (Z.eqb_spec ls 0); [eexists _, _; split; [done|]; split; [tauto|]; split; [done|done]|].
  destruct (Z.eqb_spec la 0); [eexists _, _; split; [done|]; split; [split; [done|tauto]|]; done|].
  destruct (Z.eqb_spec (sk_flowlabel_script s) 0);
    [eexists _, _; split; [done|]; split; [tauto|]; split; [done|tauto]|].
  destruct (Z.eqb_spec ls (sk_flowlabel_script s)), (Z.eqb_spec la (sk_flowlabel_live s));
    simpl; eexists _, _; (split; [reflexivity|]); (split; [|split; [by intros|by intros [?|?]]]).
  - tauto.
  - split; [done|tauto].
  - split; [done|tauto].
  - tauto.
Qed.

(** An IPv6 header with a flow label. *)
Definition labelled (label : Z) : packet :=
  set_pk_ipv6 (Some 0) (received
    ([0x60; bits_get label 16 4; bits_get label 8 8; bits_get label 0 8] ++ replicate 36 0) 0).

Lemma verify_flowlabel_consistent_witness :
  exists s' status, verify_outbound_live_ipv6_flowlabel sample_socket (labelled 0x12345) (labelled 1)
      = Ok (s', status) /\
    (status = STATUS_OK <->
       1 = 0 \/ 0x12345 <> 0 /\ (sk_flowlabel_script sample_socket = 0 \/
         (1 = sk_flowlabel_script sample_socket <-> 0x12345 = sk_flowlabel_live sample_socket))) /\
    (status = STATUS_OK -> 1 <> 0 ->
       sk_flowlabel_script s' = 1 /\ sk_flowlabel_live s' = 0x12345) /\
    (status <> STATUS_OK \/ 1 = 0 -> s' = sample_socket).
Proof.
  apply (verify_flowlabel_consistent sample_socket (labelled 0x12345) (labelled 1) 0 0);
    vm_compute; reflexivity.
Defined.

(** ** Payload *)

(** The bytes the fuzzer fills segments with, by sequence number. *)
Definition payload_pattern (seq i : Z) : Z := u32 (seq - 1 + i) mod 10.

Lemma verify_payload_bytes_ok b p seq n : forall i,
  0 <= p + i -> p + i + Z.of_nat n <= zlen b ->
  verify_payload_bytes b p seq n i = Ok tt \/ verify_payload_bytes b p seq n i = Fault Aborted.
Proof.
  induction n as [|n IH]; intros i Hi Hr; [by left|]. cbn [verify_payload_bytes].
  rewrite ld8_eq, bind_Ok_eq by lia. destruct (_ =? _); simpl; [|by right].
  apply IH; lia.
Qed.

Lemma verify_payload_bytes_iff b p seq n : forall i,
  0 <= p + i -> p + i + Z.of_nat n <= zlen b ->
  verify_payload_bytes b p seq n i = Ok tt <->
  forall k, i <= k < i + Z.of_nat n -> byte_at b (p + k) = payload_pattern seq k.
Proof.
  induction n as [|n IH]; intros i Hi Hr.
  { split; [intros _ k Hk; lia|done]. }
  cbn [verify_payload_bytes]. rewrite ld8_eq, bind_Ok_eq by lia.
  destruct (Z.eqb_spec (byte_at b (p + i)) (u32 (seq - 1 + i) mod 10)) as [E|E]; simpl.
  - rewrite IH by lia. split.
    + intros H k Hk. destruct (Z.eq_dec k i) as [->|]; [done|]. apply H. lia.
    + intros H k Hk. apply H. lia.
  - split; [done|]. intros H. destruct E. apply H. lia.
Qed.

(** The payload check accepts exactly the fuzzer's pattern: on a TCP packet whose
    payload lies in its buffer and has the scripted length, the check returns if and
    only if byte i of the payload is the last decimal digit of its sequence number
    minus one, and aborts the run otherwise. *)
Theorem verify_payload_pattern (pa ps : packet) (t seq p len : Z) :
  pk_tcp pa = Some t -> prd pa t tcp_seq = Ok seq -> packet_payload pa = Ok p ->
  packet_payload_len pa = Ok len -> packet_payload_len ps = Ok len ->
  0 <= p -> 0 <= len -> p + len <= zlen (pk_buffer pa) ->
  (verify_outbound_live_payload pa ps = Ok STATUS_OK <->
   forall k, 0 <= k < len -> byte_at (pk_buffer pa) (p + k) = payload_pattern (ntohl seq) k) /\
  (verify_outbound_live_payload pa ps = Ok STATUS_OK \/
   verify_outbound_live_payload pa ps = Fault Aborted).
Proof.
  intros Ht Hs Hp Hla Hls Hp0 Hl0 Hr. unfold verify_outbound_live_payload.
  rewrite Hla, Hls, !bind_Ok_eq, Z.eqb_refl. simpl c_assert. rewrite bind_Ok_eq, Ht.
  simpl deref. rewrite bind_Ok_eq, Hs, bind_Ok_eq, Hp, bind_Ok_eq.
  pose proof (verify_payload_bytes_iff (pk_buffer pa) p (ntohl seq) (Z.to_nat len) 0
    ltac:(lia) ltac:(lia)) as Hiff.
  rewrite Z2Nat.id, Z.add_0_l in Hiff by lia.
  destruct (verify_payload_bytes_ok (pk_buffer pa) p (ntohl seq) (Z.to_nat len) 0) as [E|E];
    [lia|lia|..]; rewrite E in *; simpl.
  - split; [tauto|by left].
  - split; [|by right]. split; [done|]. intros H. by apply Hiff in H.
Qed.

(** A segment with two bytes of payload at sequence number 3. *)
Definition sample_payload : packet :=
  match parse_packet (received
    ([0x45; 0; 0; 42; 0; 0; 0; 0; 255; 6; 0x3b; 0x21; 192; 168; 0; 1; 192; 0; 2; 1;
      0; 80; 31; 144; 0; 0; 0; 3; 0; 0; 0; 1; 0x50; 0x10; 0; 0; 0; 0; 0; 0; 2; 3]) 0)
    42 PACKET_LAYER_3_IP with
  | Ok (pkt, _) => pkt
  | Fault _ => sample_seg
  end.

Lemma verify_payload_pattern_witness :
  (verify_outbound_live_payload sample_payload sample_payload = Ok STATUS_OK <->
   forall k, 0 <= k < 2 ->
     byte_at (pk_buffer sample_payload) (40 + k) = payload_pattern (ntohl 0x03000000) k) /\
  (verify_outbound_live_payload sample_payload sample_payload = Ok STATUS_OK \/
   verify_outbound_live_payload sample_payload sample_payload = Fault Aborted).
Proof.
  apply (verify_payload_pattern sample_payload sample_payload 20 0x03000000 40 2);
    try (vm_compute; reflexivity); vm_compute; discriminate.
Defined.

Example verify_sample_payload :
  verify_outbound_live_payload sample_payload sample_payload = Ok STATUS_OK.
Proof. vm_compute. reflexivity. Qed.

(** The payload check is run on UDP packets too, but takes the sequence number from
    the TCP header: on any packet without one, whose payload has the scripted length, it
    dereferences NULL. *)
Theorem verify_payload_udp (pa ps : packet) (len : Z) :
  packet_payload_len pa = Ok len -> packet_payload_len ps = Ok len -> pk_tcp pa = None ->
  verify_outbound_live_payload pa ps = Fault NullDeref.
Proof.
  intros Ha Hs Ht. unfold verify_outbound_live_payload.
  rewrite Ha, Hs, !bind_Ok_eq, Z.eqb_refl, Ht. done.
Qed.

(** A UDP packet as the parser leaves it. *)
Definition sample_udp : packet :=
  set_pk_ip_bytes 28 (set_pk_udp (Some 20) (set_pk_ipv4 (Some 0)
    (set_pk_headers (mk_header HEADER_IPV4 20 28 (Some 0) :: mk_header HEADER_UDP 8 8 (Some 20)
       :: replicate 4 header_none) (received (replicate 28 0) 0)))).

Lemma verify_payload_udp_witness :
  verify_outbound_live_payload sample_udp sample_udp = Fault NullDeref.
Proof. apply (verify_payload_udp sample_udp sample_udp 0); reflexivity. Defined.
