(* ===== verification/PacketToString.v ===== *)
(** * PacketToString: the text of a packet (packet_to_string.c)

    packet_to_string with the printers of the encapsulating headers and of TCP, UDP and
    ICMP.  The stream that the source opens is the string printed so far; on an error
    the text stops there.  The addresses are printed by [inet_ntop] of the C library. *)

From Stdlib Require Import Ascii.
From S2P Require Import Prelude Headers Packet PacketParser TcpOptions IpAddress IpPacket TcpPacket Socket PacketVerify.

(** [inet_ntop]: the text of an address. *)
Class InetNtop := inet_ntop : Z -> bytes -> string.

(** [packet_to_string.h:30-34] enum dump_format_t *)
Inductive dump_format_t := DUMP_SHORT | DUMP_FULL | DUMP_VERBOSE.

#[export] Instance dump_format_eq_dec : EqDecision dump_format_t.
Proof. solve_decision. Defined.

Section ToString.
Context `{InetNtop}.

(** [ip_address.c:129-135] ip_to_string *)
Definition ip_to_string (ip : ip_address) : string := inet_ntop (ip_family ip) (ip_octets ip).

(** [packet_to_string.c:32-43] endpoints_to_string *)
Definition endpoints_to_string (pkt : packet) : exec string :=
  t ← get_packet_tuple pkt;
  let show e := ip_to_string (ep_ip e) +:+ ":" +:+ dec (ntohs (ep_port e)) in
  Ok (show (tp_src t) +:+ " > " +:+ show (tp_dst t)).

(** [packet_to_string.c:45-52] packet_buffer_to_string *)
Definition packet_buffer_to_string (pkt : packet) : exec string :=
  pend ← packet_end pkt;
  hex ← hex_dump (pk_buffer pkt) pend;
  Ok (newline +:+ hex).

(** [packet_to_string.c:54-70] ipv4_header_to_string *)
Definition ipv4_header_to_string (pkt : packet) (layer : nat) : exec string :=
  ipv4 ← header_ptr pkt layer;
  src ← get_bytes (pk_buffer pkt) (ipv4 + field_off ipv4_src_ip) 4;
  dst ← get_bytes (pk_buffer pkt) (ipv4 + field_off ipv4_dst_ip) 4;
  Ok ("ipv4 " +:+ ip_to_string (ip_from_ipv4 src) +:+ " > " +:+ ip_to_string (ip_from_ipv4 dst)
      +:+ ": ").

(** [packet_to_string.c:72-88] ipv6_header_to_string *)
Definition ipv6_header_to_string (pkt : packet) (layer : nat) : exec string :=
  ipv6 ← header_ptr pkt layer;
  src ← get_bytes (pk_buffer pkt) (ipv6 + ipv6_src_ip) 16;
  dst ← get_bytes (pk_buffer pkt) (ipv6 + ipv6_dst_ip) 16;
  Ok ("ipv6 " +:+ ip_to_string (ip_from_ipv6 src) +:+ " > " +:+ ip_to_string (ip_from_ipv6 dst)
      +:+ ": ").

(** [packet_to_string.c:90-119] gre_header_to_string *)
Definition gre_header_to_string (pkt : packet) (layer : nat) : exec string :=
  gre ← header_ptr pkt layer;
  flags ← prd pkt gre gre_flags;
  proto ← prd pkt gre gre_proto;
  has_checksum ← prd pkt gre gre_has_checksum;
  has_routing ← prd pkt gre gre_has_routing;
  has_key ← prd pkt gre gre_has_key;
  has_seq ← prd pkt gre gre_has_seq;
  '(s1, i) ← (if negb (has_checksum =? 0) || negb (has_routing =? 0) then
                sum ← prd pkt gre (gre_be16 0);
                off ← prd pkt gre (gre_be16 1);
                Ok (" sum 0x" +:+ hex_digits 8 (ntohs sum) +:+ " off 0x" +:+ hex_digits 8 (ntohs off), 1)
              else Ok ("", 0));
  '(s2, i) ← (if negb (has_key =? 0) then
                key ← prd pkt gre (gre_be32 i);
                Ok (" key 0x" +:+ hex_digits 8 (ntohl key), i + 1)
              else Ok ("", i));
  s3 ← (if negb (has_seq =? 0) then
          seq ← prd pkt gre (gre_be32 i); Ok (" seq 0x" +:+ hex_digits 8 (ntohl seq))
        else Ok "");
  Ok ("gre flags 0x" +:+ hex_digits 8 (ntohs flags) +:+ " proto 0x" +:+ hex_padded 4 (ntohs proto)
      +:+ s1 +:+ s2 +:+ s3 +:+ ": ").

(** [packet_to_string.c:131-139] the loop of mpls_header_to_string, [n] entries from [mpls] *)
Fixpoint mpls_entries_to_string (b : bytes) (mpls : Z) (n : nat) : exec string :=
  match n with
  | O => Ok ""
  | S n' =>
      entry ← ld32 b mpls;
      rest ← mpls_entries_to_string b (mpls + 4) n';
      Ok (" (label " +:+ dec (mpls_entry_label entry) +:+ ", tc " +:+ dec (mpls_entry_tc entry)
          +:+ "," +:+ (if mpls_entry_stack entry then " [S]," else "") +:+ " ttl "
          +:+ dec (mpls_entry_ttl entry) +:+ ")" +:+ rest)
  end.

(** [packet_to_string.c:121-142] mpls_header_to_string *)
Definition mpls_header_to_string (pkt : packet) (layer : nat) : exec string :=
  h ← (match pk_headers pkt !! layer with Some h => Ok h | None => Fault OutOfBounds end);
  mpls ← deref (h_ptr h);
  s ← mpls_entries_to_string (pk_buffer pkt) mpls (Z.to_nat (Z.quot (h_header_bytes h) 4));
  Ok ("mpls" +:+ s +:+ ": ").

(** [packet_to_string.c:159-174] the flags of tcp_packet_to_string, in the order of tcpdump *)
Definition tcp_flags_to_string (pkt : packet) (tcp : Z) : exec string :=
  fin ← prd pkt tcp tcp_fin;
  syn ← prd pkt tcp tcp_syn;
  rst ← prd pkt tcp tcp_rst;
  psh ← prd pkt tcp tcp_psh;
  ack ← prd pkt tcp tcp_ack;
  urg ← prd pkt tcp tcp_urg;
  ece ← prd pkt tcp tcp_ece;
  cwr ← prd pkt tcp tcp_cwr;
  let show bit s := if negb (bit =? 0) then s else ""%string in
  Ok (show fin "F" +:+ show syn "S" +:+ show rst "R" +:+ show psh "P" +:+ show ack "."
      +:+ show urg "U" +:+ show ece "E" +:+ show cwr "W")%string.

(** Whether the endpoints are printed. *)
Definition with_endpoints (format : dump_format_t) : bool :=
  match format with DUMP_SHORT => false | _ => true end.

(** [packet_to_string.c:147-200] tcp_packet_to_string: [error] is the message that was there *)
Definition tcp_packet_to_string (pkt : packet) (format : dump_format_t) (error : option string)
    : exec (string * bool * option string) :=
  ends ← (if with_endpoints format then e ← endpoints_to_string pkt; Ok (e +:+ " ") else Ok "");
  tcp ← deref (pk_tcp pkt);
  flags ← tcp_flags_to_string pkt tcp;
  seq ← prd pkt tcp tcp_seq;
  len ← packet_payload_len pkt;
  ack ← prd pkt tcp tcp_ack;
  ack_text ← (if negb (ack =? 0) then
                v ← prd pkt tcp tcp_ack_seq; Ok ("ack " +:+ dec (ntohl v) +:+ " ")
              else Ok "");
  win_text ← (if negb (flag_set (pk_flags pkt) FLAG_WIN_NOCHECK) then
                v ← prd pkt tcp tcp_window; Ok ("win " +:+ dec (ntohs v) +:+ " ")
              else Ok "");
  options_len ← packet_tcp_options_len pkt;
  '(options, ok, error) ← (if 0 <? options_len then
                             '(s, ok, error) ← tcp_options_to_string pkt error;
                             Ok (if ok : bool then "<" +:+ s +:+ ">" else "", ok, error)
                           else Ok ("", true, error));
  hex ← (if decide (format = DUMP_VERBOSE) then packet_buffer_to_string pkt else Ok "");
  Ok (ends +:+ flags +:+ " " +:+ dec (ntohl seq) +:+ ":" +:+ dec (u32 (ntohl seq + len))
      +:+ "(" +:+ dec (u32 len) +:+ ") " +:+ ack_text +:+ win_text +:+ options +:+ hex, ok, error).

(** [packet_to_string.c:202-218] udp_packet_to_string *)
Definition udp_packet_to_string (pkt : packet) (format : dump_format_t) : exec string :=
  ends ← (if with_endpoints format then e ← endpoints_to_string pkt; Ok (e +:+ " ") else Ok "");
  len ← packet_payload_len pkt;
  hex ← (if decide (format = DUMP_VERBOSE) then packet_buffer_to_string pkt else Ok "");
  Ok (ends +:+ "udp (" +:+ dec (u32 len) +:+ ")" +:+ hex).

(** [packet_to_string.c:220-226] icmpv4_packet_to_string *)
Definition icmpv4_packet_to_string : string := "icmpv4".

(** [packet_to_string.c:228-234] icmpv6_packet_to_string *)
Definition icmpv6_packet_to_string : string := "icmpv6".

(** [packet_to_string.c:239-256] encap_header_to_string: no printer, no header *)
Definition encap_header_to_string (pkt : packet) (layer : nat) : exec string :=
  match pk_headers pkt !! layer with
  | None => Fault OutOfBounds
  | Some h =>
      match h_type h with
      | HEADER_IPV4 => ipv4_header_to_string pkt layer
      | HEADER_IPV6 => ipv6_header_to_string pkt layer
      | HEADER_GRE => gre_header_to_string pkt layer
      | HEADER_MPLS => mpls_header_to_string pkt layer
      | _ => Fault AssertFailed
      end
  end.

(** [packet_to_string.c:270-276] the loop of packet_to_string over the encapsulation *)
Fixpoint encap_headers_to_string (pkt : packet) (n i : nat) : exec string :=
  match n with
  | O => Ok ""
  | S n' =>
      match pk_headers pkt !! i with
      | None => Fault OutOfBounds
      | Some h =>
          if decide (h_type h = HEADER_NONE) then Ok ""
          else s ← encap_header_to_string pkt i; rest ← encap_headers_to_string pkt n' (S i); Ok (s +:+ rest)
      end
  end.

(** [packet_to_string.c:259-303] packet_to_string: the text, the status and the message *)
Definition packet_to_string (pkt : packet) (format : dump_format_t) (error : option string)
    : exec (string * bool * option string) :=
  encap ← encap_headers_to_string pkt (Z.to_nat (packet_header_count pkt - 2)) 0;
  match pk_ipv4 pkt, pk_ipv6 pkt with
  | None, None => Ok (encap +:+ "[NO IP HEADER]", true, error)
  | _, _ =>
      match pk_tcp pkt, pk_udp pkt, pk_icmpv4 pkt, pk_icmpv6 pkt with
      | Some _, _, _, _ =>
          '(s, ok, error) ← tcp_packet_to_string pkt format error;
          Ok (encap +:+ s, ok, error)
      | None, Some _, _, _ =>
          s ← udp_packet_to_string pkt format; Ok (encap +:+ s, true, error)
      | None, None, Some _, _ => Ok (encap +:+ icmpv4_packet_to_string, true, error)
      | None, None, None, Some _ => Ok (encap +:+ icmpv6_packet_to_string, true, error)
      | None, None, None, None => Ok (encap +:+ "[NO TCP OR ICMP HEADER]", true, error)
      end
  end.

End ToString.

(** ** The text of a built segment *)

(** The flags of a script in the order in which they are printed. *)
Definition canonical_flags (flags : string) : string :=
  let show c s := if negb (is_tcp_flag_set c flags =? 0) then s else ""%string in
  (show "F"%char "F" +:+ show "S"%char "S" +:+ show "R"%char "R" +:+ show "P"%char "P"
   +:+ show "."%char "." +:+ show "U"%char "U" +:+ show "E"%char "E" +:+ show "W"%char "W")%string.

(** A segment without options in the notation of scripts. *)
Definition segment_text (flags : string) (seq pl ack win : Z) (win_nocheck : bool) : string :=
  canonical_flags flags +:+ " " +:+ dec seq +:+ ":" +:+ dec (u32 (seq + pl)) +:+ "(" +:+ dec pl +:+ ") "
  +:+ (if negb (is_tcp_flag_set "."%char flags =? 0) then "ack " +:+ dec ack +:+ " " else "")
  +:+ (if win_nocheck then "" else "win " +:+ dec (if win =? -1 then 0 else u16 win) +:+ " ").

(** Membership in a literal list. *)
Ltac pick := repeat (apply list_elem_of_here || apply list_elem_of_further).

Lemma string_app_nil (s : string) : s +:+ "" = s.
Proof. induction s as [|a s IH]; [done|]. exact (f_equal (String a) IH). Qed.

(** The text of a segment is the script's: a TCP segment without options, built from a
    direction, ports, flags, sequence numbers, payload length and window, is printed, in
    the short format, as its flags in tcpdump's order, its sequence numbers, the
    acknowledgement if the ACK flag is set and the window if the script gave one. *)
Theorem packet_to_string_segment `{InetNtop, Malloc} (af : Z) (direction : direction_t) (info : ip_info)
    (sp dp : Z) (flags : string) (seq pl ack win urg : Z) (pkt : packet) :
  af = AF_INET \/ af = AF_INET6 -> 0 <= pl -> segment_len af pl None < 65536 ->
  is_tcp_flags_spec_valid flags = None -> win <> -1 \/ direction <> DIRECTION_INBOUND ->
  0 <= sp < 65536 -> 0 <= dp < 65536 -> 0 <= seq < 4294967296 -> 0 <= ack < 4294967296 ->
  0 <= urg < 65536 ->
  new_tcp_packet af direction info sp dp flags seq pl ack win urg None = Ok (Success pkt) ->
  packet_to_string pkt DUMP_SHORT None
  = Ok (segment_text flags seq pl ack win (flag_set (pk_flags pkt) FLAG_WIN_NOCHECK), true, None).
Proof.
  intros Haf Hpl Hfit Hfl Hwin Hsp Hdp Hseq Hack Hurg HE.
  destruct (new_tcp_spec af direction info sp dp flags seq pl ack win urg None Haf Hpl I Hfl Hwin Hfit)
    as (pkt0&E&Hbuilt). rewrite HE in E. injection E as <-.
  pose proof (built_tcp_view af direction info sp dp flags seq pl ack win urg None pkt Haf Hpl I Hfit
    Hsp Hdp Hseq Hack Hurg Hbuilt) as [_ (t&Ht&_&_&_&_&_&_&_&_&_&_&_&_&_&_&Hpay&_)].
  destruct Hbuilt as (_&_&_&_&_&_&_&Hh&Ht'&H4&H6&Hl&_).
  apply Forall_app in Hl as [Hl _].
  change (holds (pk_buffer pkt) (tcp_members (ip_len af) sp dp flags seq ack win urg (tcp_len None / 4))) in Hl.
  rewrite Ht in Ht'. injection Ht' as ->.
  assert (Hd : rd (pk_buffer pkt) (ip_len af) tcp_doff = Ok 5) by member Hl.
  unfold packet_to_string, packet_header_count. rewrite Hh.
  assert (Hn : Z.to_nat (headers_count (hdrs [mk_header (ip_type af) (ip_len af) (segment_len af pl None) (Some 0);
    mk_header HEADER_TCP (tcp_len None) (tcp_len None + pl) (Some (ip_len af))]) - 2) = 0%nat)
    by (by destruct Haf as [-> | ->]).
  rewrite Hn. cbn [encap_headers_to_string]. rewrite bind_Ok_eq, Ht.
  assert (Htcp : tcp_packet_to_string pkt DUMP_SHORT None =
    Ok (segment_text flags seq pl ack win (flag_set (pk_flags pkt) FLAG_WIN_NOCHECK), true, None)).
  2:{ rewrite Htcp, bind_Ok_eq, H4, H6. by destruct Haf as [-> | ->]. }
  unfold tcp_packet_to_string, tcp_flags_to_string, packet_tcp_options_len, packet_tcp_header_len, prd.
  assert (Hrd : forall f v, (ip_len af, f, v) ∈ tcp_members (ip_len af) sp dp flags seq ack win urg 5 ->
    rd (pk_buffer pkt) (ip_len af) f = Ok v) by (intros f v Hin; by apply (holds_rd _ _ _ _ _ Hl)).
  cbn [with_endpoints]. rewrite Ht, bind_Ok_eq. cbn [deref assert_ptr]. rewrite bind_Ok_eq.
  erewrite (Hrd tcp_fin) by pick; rewrite bind_Ok_eq. erewrite (Hrd tcp_syn) by pick; rewrite bind_Ok_eq.
  erewrite (Hrd tcp_rst) by pick; rewrite bind_Ok_eq. erewrite (Hrd tcp_psh) by pick; rewrite bind_Ok_eq.
  erewrite (Hrd tcp_ack) by pick; rewrite bind_Ok_eq. erewrite (Hrd tcp_urg) by pick; rewrite bind_Ok_eq.
  erewrite (Hrd tcp_ece) by pick; rewrite bind_Ok_eq. erewrite (Hrd tcp_cwr) by pick; rewrite !bind_Ok_eq.
  erewrite (Hrd tcp_seq) by pick; rewrite bind_Ok_eq, Hpay, bind_Ok_eq.
  erewrite (Hrd tcp_ack_seq), (Hrd tcp_window) by pick.
  rewrite bind_Ok_eq. cbn [Z.ltb].
  unfold segment_text, canonical_flags, htonl, htons. rewrite !ntohl_invol by lia.
  assert (Ew : ntohs (if win =? -1 then 0 else ntohs (u16 win)) = if win =? -1 then 0 else u16 win).
  { pose proof (u16_range win). destruct (win =? -1); [done|]. by apply ntohs_invol. }
  assert (0 < ip_len af) by (by destruct Haf as [-> | ->]).
  assert (Ep : u32 pl = pl) by (apply u32_small; unfold segment_len, tcp_len in Hfit;
    change (zlen (option_bytes None)) with 0 in Hfit; lia).
  destruct (negb (is_tcp_flag_set "."%char flags =? 0)), (flag_set (pk_flags pkt) FLAG_WIN_NOCHECK);
    cbn [negb]; rewrite ?bind_Ok_eq, Hd, ?bind_Ok_eq; change (0 <? 5 * 4 - sizeof_tcp) with false;
    cbv iota; rewrite ?bind_Ok_eq; cbv iota; rewrite ?decide_False by discriminate; rewrite ?bind_Ok_eq;
    rewrite ?Ew, Ep, ?(ntohl_invol ack) by lia; rewrite ?string_app_nil;
    reflexivity.
Qed.

(** ** The dumps of packet_to_string_test.c *)

(** [inet_ntop] for IPv4. *)
#[local] Instance dotted_quad : InetNtop := fun _ a =>
  dec (byte_at a 0) +:+ "." +:+ dec (byte_at a 1) +:+ "." +:+ dec (byte_at a 2) +:+ "." +:+ dec (byte_at a 3).

Definition gre_tcp_data : bytes :=
  [0x45; 0x00; 0x00; 0x54; 0x00; 0x00; 0x00; 0x00; 0xff; 0x2f; 0xb5; 0x75; 0x02; 0x02; 0x02; 0x02;
   0x01; 0x01; 0x01; 0x01; 0x00; 0x00; 0x08; 0x00] ++ tcp_ipv4_data.

Definition parsed_gre_tcp : packet :=
  match parse_packet (received gre_tcp_data 1) (zlen gre_tcp_data) PACKET_LAYER_3_IP with
  | Ok (pkt, PACKET_OK) => pkt
  | _ => received [] 0
  end.

Example packet_to_string_gre_tcp :
  packet_to_string parsed_gre_tcp DUMP_SHORT None =
    Ok ("ipv4 2.2.2.2 > 1.1.1.1: gre flags 0x0 proto 0x0800: . 1:1(0) ack 2202903899 win 257 " +:+
        "<sack 2202905347:2202906795,TS val 300 ecr 1623332896>", true, None) /\
  packet_to_string parsed_gre_tcp DUMP_FULL None =
    Ok ("ipv4 2.2.2.2 > 1.1.1.1: gre flags 0x0 proto 0x0800: 192.0.2.1:53055 > 192.168.0.1:8080 " +:+
        ". 1:1(0) ack 2202903899 win 257 " +:+
        "<sack 2202905347:2202906795,TS val 300 ecr 1623332896>", true, None).
Proof. split; vm_compute; reflexivity. Qed.

Definition sample_segment : packet :=
  match @new_tcp_packet zero_malloc AF_INET DIRECTION_OUTBOUND sample_info 8080 80 ".P" 4294967290 10 9
    (-1) 0 None with
  | Ok (Success pkt) => pkt
  | _ => received [] 0
  end.

Lemma packet_to_string_segment_witness :
  packet_to_string sample_segment DUMP_SHORT None
    = Ok ("P. 4294967290:4(10) ack 9 ", true, None).
Proof.
  rewrite (@packet_to_string_segment _ zero_malloc AF_INET DIRECTION_OUTBOUND sample_info 8080 80 ".P"
    4294967290 10 9 (-1) 0 sample_segment).
  - vm_compute. reflexivity.
  - by left.
  - lia.
  - vm_compute. reflexivity.
  - vm_compute. reflexivity.
  - right. discriminate.
  - lia.
  - lia.
  - lia.
  - lia.
  - lia.
  - vm_compute. reflexivity.
Defined.
