(* ===== verification/RunPacket.v ===== *)
(** * RunPacket: executing the packet events of a script (run_packet.c)

    Finding the socket a packet belongs to, the state machine of the socket under test,
    injecting inbound packets, sniffing and checking outbound packets, and resetting a
    connection.  The network device is the state's list of packets still to be received
    and list of packets sent; the text dumps of packets that are appended to error
    messages and verbose output are left out. *)

From S2P Require Import Prelude Headers Packet HashMap Checksum PacketParser TcpOptions.
From S2P Require Import IpAddress IpPacket TcpPacket PacketChecksum.
From S2P Require Import Socket RunState PacketMap PacketVerify.

Definition non_null {A} (p : option A) : bool := bool_decide (is_Some p).

(** [run_packet.c:56-61] ephemeral_port: the next port the kernel hands out *)
Definition ephemeral_port (st : state) : exec (state * Z) :=
  match st_ephemeral_ports st with
  | [] => Fault Died
  | port :: rest => Ok (set_st_ephemeral_ports rest st, port)
  end.

(** [run_packet.c:70-80] next_ephemeral_port *)
Definition next_ephemeral_port (st : state) : exec (state * Z) :=
  if 0 <=? st_next_ephemeral_port st then
    let port := st_next_ephemeral_port st in
    _ ← c_assert (port <=? 0xffff);
    Ok (set_st_next_ephemeral_port (-1) st, port)
  else ephemeral_port st.

(** A tuple of a live packet matches the tuple of the socket, or, for an ICMP socket, its
    addresses do. *)
Definition tuple_matches (is_icmp : bool) (packet_tuple live : tuple) : exec bool :=
  if is_equal_tuple packet_tuple live then Ok true
  else if is_icmp then
    dst ← is_equal_ip (ep_ip (tp_dst packet_tuple)) (ep_ip (tp_dst live));
    if dst : bool then is_equal_ip (ep_ip (tp_src packet_tuple)) (ep_ip (tp_src live)) else Ok false
  else Ok false.

(** [run_packet.c:131-168] find_socket_for_live_packet: the socket and the direction *)
Definition find_socket_for_live_packet (st : state) (pkt : packet)
    : exec (option (nat * direction_t)) :=
  match st_socket_under_test st with
  | None => Ok None
  | Some i =>
      s ← socket_at st i;
      let is_icmp := ((sk_protocol s =? IPPROTO_ICMP) && non_null (pk_icmpv4 pkt)) ||
                     ((sk_protocol s =? IPPROTO_ICMPV6) && non_null (pk_icmpv6 pkt)) in
      packet_tuple ← get_packet_tuple pkt;
      inbound ← tuple_matches is_icmp packet_tuple (socket_get_inbound (sk_live s));
      if inbound : bool then Ok (Some (i, DIRECTION_INBOUND))
      else
        outbound ← tuple_matches is_icmp packet_tuple (socket_get_outbound (sk_live s));
        if outbound : bool then Ok (Some (i, DIRECTION_OUTBOUND)) else Ok None
  end.

(** [run_packet.c:190-209] handle_listen_for_script_packet: whether the packet matches *)
Definition listen_match (st : state) (direction : direction_t) : exec bool :=
  if negb (bool_decide (direction = DIRECTION_INBOUND)) then Ok false
  else
    match st_socket_under_test st with
    | None => Ok true
    | Some i =>
        if cfg_is_wire_server (st_config st) then Ok false
        else s ← socket_at st i; Ok (bool_decide (sk_state s = SOCKET_PASSIVE_LISTENING))
    end.

(** [run_packet.c:175-250] handle_listen_for_script_packet *)
Definition handle_listen_for_script_packet (st : state) (pkt : packet) (direction : direction_t)
    : exec (state * option nat) :=
  let cfg := st_config st in
  m ← listen_match st direction;
  if negb m then Ok (st, None)
  else
    '(st, i) ← state_socket_new st;
    let st := set_st_socket_under_test (Some i) st in
    s ← socket_at st i;
    _ ← c_assert (bool_decide (sk_state s = SOCKET_INIT));
    let s := set_sk_state SOCKET_PASSIVE_PACKET_RECEIVED s in
    let s := set_sk_address_family (packet_address_family pkt) s in
    protocol ← packet_ip_protocol pkt;
    let s := set_sk_protocol protocol s in
    t ← get_packet_tuple pkt;
    tcp ← deref (pk_tcp pkt);
    seq ← prd pkt tcp tcp_seq;
    let s := set_sk_script (mk_socket_state (tp_dst t) (ss_local_isn (sk_script s)) (tp_src t)
               (ntohl seq)) s in
    let s := set_sk_script_fd (-1) s in
    '(st, port) ← next_ephemeral_port st;
    let s := set_sk_live (mk_socket_state
               (mk_endpoint (cfg_live_local_ip cfg) (htons (cfg_live_bind_port cfg)))
               (ss_local_isn (sk_live s))
               (mk_endpoint (cfg_live_remote_ip cfg) (htons port))
               (ntohl seq)) s in
    let s := set_sk_live_fd (-1) s in
    Ok (store_socket i s st, Some i).

(** [run_packet.c:271-286] handle_connect_for_script_packet: whether the packet matches *)
Definition connect_match (st : state) (pkt : packet) (direction : direction_t) : exec bool :=
  if negb (bool_decide (direction = DIRECTION_OUTBOUND)) then Ok false
  else
    tcp ← deref (pk_tcp pkt);
    syn ← prd pkt tcp tcp_syn;
    ack ← prd pkt tcp tcp_ack;
    if (syn =? 0) || negb (ack =? 0) then Ok false
    else
      match st_socket_under_test st with
      | None => Ok (cfg_is_wire_server (st_config st))
      | Some i =>
          if cfg_is_wire_server (st_config st) then Ok false
          else s ← socket_at st i; Ok (bool_decide (sk_state s = SOCKET_ACTIVE_CONNECTING))
      end.

(** [run_packet.c:288-303] handle_connect_for_script_packet: the socket, created on a wire
    server *)
Definition connect_socket (st : state) (pkt : packet) : exec (state * nat) :=
  match st_socket_under_test st with
  | Some i => Ok (st, i)
  | None =>
      let cfg := st_config st in
      '(st, i) ← state_socket_new st;
      let st := set_st_socket_under_test (Some i) st in
      s ← socket_at st i;
      _ ← c_assert (bool_decide (sk_state s = SOCKET_INIT));
      let s := set_sk_address_family (packet_address_family pkt) s in
      protocol ← packet_ip_protocol pkt;
      let s := set_sk_protocol protocol s in
      let s := set_sk_script_fd (-1) s in
      let s := set_sk_live (set_ss_remote (mk_endpoint (cfg_live_remote_ip cfg)
                 (htons (cfg_live_connect_port cfg))) (sk_live s)) s in
      let s := set_sk_live_fd (-1) s in
      Ok (store_socket i s st, i)
  end.

(** [run_packet.c:256-314] handle_connect_for_script_packet *)
Definition handle_connect_for_script_packet (st : state) (pkt : packet) (direction : direction_t)
    : exec (state * option nat) :=
  m ← connect_match st pkt direction;
  if negb m then Ok (st, None)
  else
    '(st, i) ← connect_socket st pkt;
    s ← socket_at st i;
    t ← get_packet_tuple pkt;
    let s := set_sk_state SOCKET_ACTIVE_SYN_SENT s in
    tcp ← deref (pk_tcp pkt);
    seq ← prd pkt tcp tcp_seq;
    let s := set_sk_script (mk_socket_state (tp_src t) (ntohl seq) (tp_dst t)
               (ss_remote_isn (sk_script s))) s in
    Ok (store_socket i s st, Some i).

(** [run_packet.c:330-341] find_connect_for_live_packet: the kinds of match *)
Definition live_connect_match (s : socket) (pkt : packet) : exec (bool * bool) :=
  let connecting := bool_decide (sk_state s = SOCKET_ACTIVE_CONNECTING) in
  let is_udp_match := non_null (pk_udp pkt) && (sk_protocol s =? IPPROTO_UDP) && connecting in
  let is_icmp_match := ((non_null (pk_icmpv4 pkt) && (sk_protocol s =? IPPROTO_ICMP)) ||
                        (non_null (pk_icmpv6 pkt) && (sk_protocol s =? IPPROTO_ICMPV6)))
                       && connecting in
  is_tcp_match ← match pk_tcp pkt with
                 | None => Ok false
                 | Some tcp =>
                     syn ← prd pkt tcp tcp_syn;
                     ack ← prd pkt tcp tcp_ack;
                     Ok (negb (syn =? 0) && (ack =? 0) && (sk_protocol s =? IPPROTO_TCP) &&
                         bool_decide (sk_state s = SOCKET_ACTIVE_SYN_SENT))
                 end;
  Ok (is_udp_match || is_tcp_match || is_icmp_match, is_icmp_match).

(** [run_packet.c:317-365] find_connect_for_live_packet: a socket that is found is found
    for an outbound packet *)
Definition find_connect_for_live_packet (st : state) (pkt : packet) : exec (state * option nat) :=
  t ← get_packet_tuple pkt;
  match st_socket_under_test st with
  | None => Ok (st, None)
  | Some i =>
      s ← socket_at st i;
      '(m, is_icmp_match) ← live_connect_match s pkt;
      if negb m then Ok (st, None)
      else
        ip ← is_equal_ip (ep_ip (tp_dst t)) (ep_ip (ss_remote (sk_live s)));
        if negb ip then Ok (st, None)
        else if negb is_icmp_match &&
                negb (is_equal_port (ep_port (tp_dst t)) (ep_port (ss_remote (sk_live s)))) then
          Ok (st, None)
        else
          let live := set_ss_local (mk_endpoint (ep_ip (tp_src t)) (ep_port (tp_src t))) (sk_live s) in
          live ← match pk_tcp pkt with
                 | Some tcp => seq ← prd pkt tcp tcp_seq; Ok (set_ss_local_isn (ntohl seq) live)
                 | None => Ok live
                 end;
          Ok (store_socket i (set_sk_live live s) st, Some i)
  end.

(** [run_packet.c:1486-1502] the loop of sniff_outbound_live_packet, by the packets
    received: the socket and the packet that is outbound for it *)
Fixpoint sniff_loop (rx : list (result packet)) (st : state)
    : exec (state * result (packet * nat)) :=
  match rx with
  | [] => Fault Blocked
  | Failure error :: rest => Ok (set_st_received rest st, Failure error)
  | Success pkt :: rest =>
      found ← find_socket_for_live_packet st pkt;
      match found with
      | Some (i, DIRECTION_OUTBOUND) => Ok (set_st_received rest st, Success (pkt, i))
      | _ =>
          '(st, found) ← find_connect_for_live_packet st pkt;
          match found with
          | Some i => Ok (set_st_received rest st, Success (pkt, i))
          | None => sniff_loop rest st
          end
      end
  end.

(** [run_packet.c:1477-1512] sniff_outbound_live_packet *)
Definition sniff_outbound_live_packet (st : state) (expected_socket : nat)
    : exec (state * result packet) :=
  '(st, r) ← sniff_loop (st_received st) st;
  match r with
  | Failure error => Ok (st, Failure error)
  | Success (pkt, i) =>
      if negb (Nat.eqb i expected_socket) then
        Ok (st, Failure "packet is not for expected socket")
      else Ok (st, Success pkt)
  end.

(** [run_packet.c:1515-1531] is_script_packet_match_for_socket *)
Definition is_script_packet_match_for_socket (pkt : packet) (s : socket) : exec bool :=
  let is_packet_icmp := non_null (pk_icmpv4 pkt) || non_null (pk_icmpv6 pkt) in
  if sk_protocol s =? IPPROTO_TCP then Ok (non_null (pk_tcp pkt) || is_packet_icmp)
  else if sk_protocol s =? IPPROTO_UDP then Ok (non_null (pk_udp pkt) || is_packet_icmp)
  else if sk_protocol s =? IPPROTO_ICMP then Ok (non_null (pk_icmpv4 pkt))
  else if sk_protocol s =? IPPROTO_ICMPV6 then Ok (non_null (pk_icmpv6 pkt))
  else Fault AssertFailed.

(** The ports of one kind of header are not both zero. *)
Definition has_foreign_port (pkt : packet) (p : option Z) (src dst : field) : exec bool :=
  match p with
  | None => Ok false
  | Some h => s ← prd pkt h src; d ← prd pkt h dst; Ok (negb (s =? 0) || negb (d =? 0))
  end.

(** [run_packet.c:1557-1580] find_or_create_socket_for_script_packet: the part for
    existing connections *)
Definition find_existing_socket (st : state) (pkt : packet) : exec (option nat * status_t) :=
  m ← match st_socket_under_test st with
      | None => Ok false
      | Some i => s ← socket_at st i; is_script_packet_match_for_socket pkt s
      end;
  if m : bool then Ok (st_socket_under_test st, STATUS_OK)
  else
    tcp ← has_foreign_port pkt (pk_tcp pkt) tcp_src_port tcp_dst_port;
    if tcp : bool then Ok (st_socket_under_test st, STATUS_OK)
    else
      udp ← has_foreign_port pkt (pk_udp pkt) udp_src_port udp_dst_port;
      if udp : bool then Ok (st_socket_under_test st, STATUS_OK)
      else Ok (None, STATUS_ERR "no matching socket for script packet").

(** [run_packet.c:1534-1581] find_or_create_socket_for_script_packet *)
Definition find_or_create_socket_for_script_packet (st : state) (pkt : packet)
    (direction : direction_t) : exec (state * option nat * status_t) :=
  '(st, found) ←
    match pk_tcp pkt with
    | None => Ok (st, None)
    | Some _ =>
        '(st, found) ← handle_listen_for_script_packet st pkt direction;
        match found with
        | Some i => Ok (st, Some i)
        | None => handle_connect_for_script_packet st pkt direction
        end
    end;
  match found with
  | Some i => Ok (st, Some i, STATUS_OK)
  | None => '(s, status) ← find_existing_socket st pkt; Ok (st, s, status)
  end.

(** What a check of an outbound packet leaves: the state, the script packet (its timestamp
    pointers are set) and the status. *)
Record verdict := mk_verdict { v_state : state; v_script : packet; v_status : status_t }.

(** [run_packet.c:1424-1436] the end of verify_outbound_live_packet: a failure that is not
    fatal is a warning when the configuration says so *)
Definition finish_verdict (cfg : config) (non_fatal : bool) (status : status_t) : status_t :=
  match status with
  | STATUS_ERR error =>
      if non_fatal && cfg_non_fatal_packet cfg then STATUS_WARN error else status
  | _ => status
  end.

Section WithMalloc.
Context `{Malloc}.

(** [run_packet.c:1380-1421] the checks of verify_outbound_live_packet after the packet is
    mapped, all of them non-fatal *)
Definition verify_mapped_packet (st : state) (i : nat) (e : event) (m : mapped)
    (live_packet : packet) : exec (state * status_t) :=
  let actual_packet := mo_actual m in
  let script_packet := mo_script m in
  status ← verify_outbound_live_headers actual_packet script_packet true;
  match status with
  | STATUS_OK =>
      '(s, status) ← (if non_null (pk_ipv6 script_packet)
                      then verify_outbound_live_ipv6_flowlabel (mo_socket m) actual_packet script_packet
                      else Ok (mo_socket m, STATUS_OK));
      let st := store_socket i s st in
      match status with
      | STATUS_OK =>
          status ← first_error [
            check_if (non_null (pk_tcp script_packet))
              (verify_outbound_live_tcp_options (st_config st) actual_packet script_packet (mo_error m));
            check_if (negb (non_null (pk_icmpv4 actual_packet)) && negb (non_null (pk_icmpv6 actual_packet)))
              (verify_outbound_live_payload actual_packet script_packet);
            verify_time st (ev_time_type e) (ev_time_usecs e) (ev_time_usecs_end e)
              (pk_time_usecs live_packet) "outbound packet"];
          Ok (st, status)
      | _ => Ok (st, status)
      end
  | _ => Ok (st, status)
  end.

(** [run_packet.c:1345-1437] verify_outbound_live_packet *)
Definition verify_outbound_live_packet (st : state) (i : nat) (script_packet live_packet : packet)
    : exec verdict :=
  if negb (st_checker st) then Ok (mk_verdict st script_packet STATUS_OK)
  else
    ei ← deref (st_event st);
    e ← event_at st ei;
    actual_packet ← packet_copy live_packet;
    status ← verify_outbound_live_checksums live_packet;
    match status with
    | STATUS_OK =>
        s ← socket_at st i;
        '(m, status) ← map_outbound_live_packet s live_packet actual_packet script_packet None;
        let st := store_socket i (mo_socket m) st in
        match status with
        | STATUS_OK =>
            '(st, status) ← verify_mapped_packet st i e m live_packet;
            Ok (mk_verdict st (mo_script m) (finish_verdict (st_config st) true status))
        | _ => Ok (mk_verdict st (mo_script m) status)
        end
    | _ => Ok (mk_verdict st script_packet status)
    end.

(** [run_packet.c:1445-1474] verify_packet_fragments *)
Definition verify_packet_fragments (current_fragment previous_fragment : packet)
    (current_payload sniffed_payload expected_total_payload : Z) : exec status_t :=
  status ← verify_outbound_live_headers current_fragment previous_fragment false;
  match status with
  | STATUS_OK =>
      previous_payload ← packet_payload_len previous_fragment;
      if (current_payload <? expected_total_payload - sniffed_payload) &&
         negb (current_payload =? previous_payload) then
        Ok (STATUS_ERR ("fragment payload: expected " +:+ dec previous_payload
          +:+ " bytes vs actual " +:+ dec current_payload +:+ " bytes; total payload: expected "
          +:+ dec expected_total_payload +:+ " bytes vs actual "
          +:+ dec (current_payload + sniffed_payload) +:+ " bytes"))
      else Ok STATUS_OK
  | _ => Ok status
  end.

(** The script packet is a SYN-ACK. *)
Definition is_synack (pkt : packet) : exec bool :=
  match pk_tcp pkt with
  | None => Ok false
  | Some tcp =>
      syn ← prd pkt tcp tcp_syn;
      ack ← prd pkt tcp tcp_ack;
      Ok (negb (syn =? 0) && negb (ack =? 0))
  end.

(** [run_packet.c:1633-1659] do_outbound_script_packet: what a sniffed packet changes in
    the socket, and its translation into script sequence numbers *)
Definition note_sniffed (s : socket) (script_packet live_packet : packet)
    : exec (socket * packet * status_t) :=
  synack ← is_synack script_packet;
  s ← (if bool_decide (sk_state s = SOCKET_PASSIVE_PACKET_RECEIVED) && synack then
         tcp ← deref (pk_tcp live_packet);
         seq ← prd live_packet tcp tcp_seq;
         let s := set_sk_state SOCKET_PASSIVE_SYNACK_SENT s in
         Ok (set_sk_live (set_ss_local_isn (ntohl seq) (sk_live s)) s)
       else Ok s);
  match pk_tcp live_packet with
  | None => Ok (s, live_packet, STATUS_OK)
  | Some tcp =>
      hdr ← get_bytes (pk_buffer live_packet) tcp sizeof_tcp;
      let s := set_sk_last_outbound_tcp_header hdr s in
      '(live_packet, error, status) ← tcp_convert_seq_number s live_packet None;
      Ok (s, live_packet, match status with
                          | STATUS_OK => STATUS_OK
                          | _ => STATUS_ERR (default ""%string error)
                          end)
  end.

(** The packets sniffed so far: the last one, the ones before it (latest first), and
    their total payload. *)
Record sniffed := mk_sniffed { sn_last : packet; sn_before : list packet; sn_payload : Z }.

(** [run_packet.c:1661-1710] do_outbound_script_packet: adding a packet to the list.
    Packets of another connection are discarded. *)
Definition add_sniffed (acc : option sniffed) (pkt : packet) (live_payload expected : Z)
    : exec (sniffed * status_t) :=
  match acc with
  | None => Ok (mk_sniffed pkt [] live_payload, STATUS_OK)
  | Some sn =>
      old_packet_tuple ← get_packet_tuple (sn_last sn);
      new_packet_tuple ← get_packet_tuple pkt;
      if negb (is_equal_tuple old_packet_tuple new_packet_tuple) then
        Ok (mk_sniffed pkt [] live_payload, STATUS_OK)
      else
        status ← verify_packet_fragments pkt (sn_last sn) live_payload (sn_payload sn) expected;
        Ok (mk_sniffed pkt (sn_last sn :: sn_before sn) (s32 (sn_payload sn + live_payload)), status)
  end.

(** [run_packet.c:1620-1713] the loop of do_outbound_script_packet *)
Fixpoint outbound_loop (fuel : nat) (st : state) (i : nat) (script_packet : packet) (expected : Z)
    (acc : option sniffed) : exec (state * result sniffed) :=
  match fuel with
  | O => Fault OutOfFuel
  | S n =>
      '(st, r) ← sniff_outbound_live_packet st i;
      match r with
      | Failure error => Ok (st, Failure error)
      | Success live_packet =>
          live_payload ← packet_payload_len live_packet;
          s ← socket_at st i;
          '(s, live_packet, status) ← note_sniffed s script_packet live_packet;
          let st := store_socket i s st in
          match status with
          | STATUS_OK =>
              '(sn, status) ← add_sniffed acc live_packet live_payload expected;
              match status with
              | STATUS_OK =>
                  if (sn_payload sn <? expected) &&
                     (negb (cfg_strict_segments (st_config st)) || cfg_is_wire_server (st_config st))
                  then outbound_loop n st i script_packet expected (Some sn)
                  else Ok (st, Success sn)
              | STATUS_ERR error | STATUS_WARN error => Ok (st, Failure error)
              end
          | STATUS_ERR error | STATUS_WARN error => Ok (st, Failure error)
          end
      end
  end.

(** [run_packet.c:1588-1766] do_outbound_script_packet; each turn of the loop receives a
    packet, so that the packets still to be received bound the turns *)
Definition do_outbound_script_packet (st : state) (script_packet : packet) (i : nat)
    : exec verdict :=
  expected ← packet_payload_len script_packet;
  s ← socket_at st i;
  synack ← is_synack script_packet;
  s ← (if bool_decide (sk_state s = SOCKET_PASSIVE_PACKET_RECEIVED) && synack then
         tcp ← deref (pk_tcp script_packet);
         seq ← prd script_packet tcp tcp_seq;
         Ok (set_sk_script (set_ss_local_isn (ntohl seq) (sk_script s)) s)
       else Ok s);
  let st := store_socket i s st in
  '(st, r) ← outbound_loop (S (length (st_received st))) st i script_packet expected None;
  match r with
  | Failure error => Ok (mk_verdict st script_packet (STATUS_ERR error))
  | Success sn =>
      if negb (sn_payload sn =? expected) && st_checker st then
        Ok (mk_verdict st script_packet (STATUS_ERR
          ("live packet payload: expected " +:+ dec expected +:+ " bytes vs actual "
           +:+ dec (sn_payload sn) +:+ " bytes")))
      else
        live_packet ← match reverse (sn_before sn) with
                      | [] => Ok (sn_last sn)
                      | first :: others =>
                          aggregate_packets first (others ++ [sn_last sn]) (sn_last sn) (sn_payload sn)
                      end;
        verify_outbound_live_packet st i script_packet live_packet
  end.

(** [netdev.h:67-71] netdev_send: the device is given the packet and says whether it could
    be sent; of an error there is no message, which printf shows as (null) *)
Definition netdev_send (st : state) (pkt : packet) : state * status_t :=
  (set_st_send_fails (tail (st_send_fails st)) (set_st_sent (st_sent st ++ [pkt]) st),
   if default false (head (st_send_fails st)) then STATUS_ERR "(null)" else STATUS_OK).

(** [run_packet.c:1769-1782] send_live_ip_packet *)
Definition send_live_ip_packet (st : state) (pkt : packet) : exec (state * status_t) :=
  _ ← c_assert (0 <? pk_ip_bytes pkt);
  _ ← c_assert (non_null (pk_ipv4 pkt) || non_null (pk_ipv6 pkt));
  _ ← c_assert (non_null (pk_tcp pkt) || non_null (pk_udp pkt) || non_null (pk_icmpv4 pkt) ||
                non_null (pk_icmpv6 pkt));
  pkt ← checksum_packet pkt;
  Ok (netdev_send st pkt).

(** [run_packet.c:1793-1804] do_inbound_script_packet: the handshake transitions *)
Definition note_inbound (s : socket) (pkt : packet) : exec socket :=
  match pk_tcp pkt with
  | None => Ok s
  | Some tcp =>
      syn ← prd pkt tcp tcp_syn;
      ack ← prd pkt tcp tcp_ack;
      if bool_decide (sk_state s = SOCKET_PASSIVE_SYNACK_SENT) && negb (ack =? 0) then
        Ok (set_sk_state SOCKET_PASSIVE_SYNACK_ACKED s)
      else if bool_decide (sk_state s = SOCKET_ACTIVE_SYN_SENT) && negb (syn =? 0) && negb (ack =? 0)
      then
        seq ← prd pkt tcp tcp_seq;
        let s := set_sk_state SOCKET_ACTIVE_SYN_ACKED s in
        let s := set_sk_script (set_ss_remote_isn (ntohl seq) (sk_script s)) s in
        Ok (set_sk_live (set_ss_remote_isn (ntohl seq) (sk_live s)) s)
      else Ok s
  end.

(** [run_packet.c:1810-1819] do_inbound_script_packet: the addresses of an anyip socket *)
Definition anyip_addresses (cfg : config) (s : socket) (pkt : packet) : socket :=
  if cfg_is_anyip cfg &&
     (non_null (pk_udp pkt) || non_null (pk_icmpv4 pkt) || non_null (pk_icmpv6 pkt)) then
    let remote := ss_remote (sk_live s) in
    let local := ss_local (sk_live s) in
    let remote_port := if ep_port remote =? 0 then htons (cfg_live_connect_port cfg)
                       else ep_port remote in
    let local_port := if ep_port local =? 0 then htons (cfg_live_bind_port cfg)
                      else ep_port local in
    set_sk_live (set_ss_remote (mk_endpoint (cfg_live_remote_ip cfg) remote_port)
      (set_ss_local (mk_endpoint (cfg_live_local_ip cfg) local_port) (sk_live s))) s
  else s.

(** [run_packet.c:1821-1823] do_inbound_script_packet: the loop that fills [n] bytes of the
    buffer from offset [i]; it reads the sequence number again for each byte *)
Fixpoint fill_payload (pkt : packet) (tcp : Z) (n : nat) (i j : Z) : exec packet :=
  match n with
  | O => Ok pkt
  | S n' =>
      seq ← prd pkt tcp tcp_seq;
      b ← st8 (pk_buffer pkt) i (u32 (seq + j) mod 10);
      fill_payload (set_pk_buffer b pkt) tcp n' (i + 1) (j + 1)
  end.

(** [run_packet.c:1785-1846] do_inbound_script_packet *)
Definition do_inbound_script_packet (st : state) (pkt : packet) (si : nat) : exec verdict :=
  s ← socket_at st si;
  s ← note_inbound s pkt;
  let s := anyip_addresses (st_config st) s pkt in
  let st := store_socket si s st in
  tcp ← deref (pk_tcp pkt);
  doff ← prd pkt tcp tcp_doff;
  let i := 20 + doff * 4 in
  pkt ← fill_payload pkt tcp (Z.to_nat (pk_buffer_bytes pkt - i)) i 0;
  live_packet ← packet_copy pkt;
  '(live_packet, error, status) ← map_inbound_packet (st_config st) s live_packet None;
  match status with
  | STATUS_OK =>
      s ← match pk_tcp live_packet with
          | None => Ok s
          | Some tcp =>
              hdr ← get_bytes (pk_buffer live_packet) tcp sizeof_tcp;
              len ← packet_payload_len live_packet;
              Ok (set_sk_last_injected_tcp_payload_len len (set_sk_last_injected_tcp_header hdr s))
          end;
      let st := store_socket si s st in
      '(st, status) ← send_live_ip_packet st live_packet;
      Ok (mk_verdict st pkt status)
  | _ => Ok (mk_verdict st pkt (STATUS_ERR (default "" error)))
  end.

(** [run_packet.c:1888-1893] run_packet_event: the message around an error *)
Definition packet_error (cfg : config) (e : event) (status : status_t) : status_t :=
  let text kind error := cfg_script_path cfg +:+ ":" +:+ dec (ev_line_number e) +:+ ": " +:+ kind
    +:+ " handling packet: " +:+ error +:+ newline in
  match status with
  | STATUS_OK => STATUS_OK
  | STATUS_ERR error => STATUS_ERR (text "error"%string error)
  | STATUS_WARN error => STATUS_WARN (text "warning"%string error)
  end.

(** [run_packet.c:1848-1894] run_packet_event: [ei] is the event; the packet of the script
    is kept with it *)
Definition run_packet_event (st : state) (ei : nat) : exec (state * status_t) :=
  e ← event_at st ei;
  match ev_event e with
  | PACKET_EVENT pkt =>
      let direction := packet_direction pkt in
      _ ← c_assert (negb (bool_decide (direction = DIRECTION_INVALID)));
      '(st, found, status) ← find_or_create_socket_for_script_packet st pkt direction;
      match status with
      | STATUS_OK =>
          si ← assert_ptr found;
          v ← match direction with
              | DIRECTION_OUTBOUND => do_outbound_script_packet st pkt si
              | DIRECTION_INBOUND =>
                  st ← wait_for_event st;
                  do_inbound_script_packet st pkt si
              | DIRECTION_INVALID => Fault AssertFailed
              end;
          let st := store_event ei (set_ev_event (PACKET_EVENT (v_script v)) e) (v_state v) in
          Ok (st, packet_error (st_config st) e (v_status v))
      | _ => Ok (st, packet_error (st_config st) e status)
      end
  | _ => Fault AssertFailed
  end.

(** [run_packet.c:1912-1938] reset_connection: the fields the kernel will accept: the
    sequence number, the acknowledgement and the window *)
Definition reset_fields (s : socket) : exec (Z * Z * Z) :=
  let inj := sk_last_injected_tcp_header s in
  let out := sk_last_outbound_tcp_header s in
  inj_ack ← rd inj 0 tcp_ack;
  if negb (inj_ack =? 0) then
    inj_seq ← rd inj 0 tcp_seq;
    syn ← rd inj 0 tcp_syn;
    fin ← rd inj 0 tcp_fin;
    ack_seq ← rd inj 0 tcp_ack_seq;
    window ← rd inj 0 tcp_window;
    Ok (u32 (ntohl inj_seq + (if negb (syn =? 0) then 1 else 0) + (if negb (fin =? 0) then 1 else 0)
             + sk_last_injected_tcp_payload_len s), ntohl ack_seq, ntohs window)
  else
    out_ack ← rd out 0 tcp_ack;
    out_seq ← rd out 0 tcp_seq;
    if negb (out_ack =? 0) then
      out_ack_seq ← rd out 0 tcp_ack_seq;
      Ok (ntohl out_ack_seq, ntohl out_seq, 0)
    else Ok (0, u32 (ntohl out_seq + 1), 0).

(** [run_packet.c:1901-1958] reset_connection *)
Definition reset_connection (st : state) (s : socket) : exec (state * status_t) :=
  '(seq, ack_seq, window) ← reset_fields s;
  r ← new_tcp_packet (sk_address_family s) DIRECTION_INBOUND
        (mk_ip_info (mk_tos TOS_CHECK_NONE 0) 0 0) 0 0 "R." seq 0 ack_seq window 0 None;
  match r with
  | Failure _ => Fault Died
  | Success pkt =>
      pkt ← set_packet_tuple pkt (socket_get_inbound (sk_live s));
      send_live_ip_packet st pkt
  end.
End WithMalloc.

(** ** The state machine of a socket *)

(** The transitions packet events make. *)
Inductive socket_step : socket_state_t -> socket_state_t -> Prop :=
  | step_synack_sent : socket_step SOCKET_PASSIVE_PACKET_RECEIVED SOCKET_PASSIVE_SYNACK_SENT
  | step_synack_acked : socket_step SOCKET_PASSIVE_SYNACK_SENT SOCKET_PASSIVE_SYNACK_ACKED
  | step_syn_sent : socket_step SOCKET_ACTIVE_CONNECTING SOCKET_ACTIVE_SYN_SENT
  | step_syn_acked : socket_step SOCKET_ACTIVE_SYN_SENT SOCKET_ACTIVE_SYN_ACKED.

Abbreviation socket_steps := (rtc socket_step).

(** The states a socket created by a packet event can be in. *)
Definition started (x : socket_state_t) : Prop :=
  socket_steps SOCKET_PASSIVE_PACKET_RECEIVED x \/ socket_steps SOCKET_ACTIVE_SYN_SENT x.

(** How the sockets of a run may change: none disappears, those that were there move along
    the state machine, and new ones are in a started state. *)
Definition evolves (st st' : state) : Prop :=
  (length (st_sockets st) <= length (st_sockets st'))%nat /\
  forall i s', st_sockets st' !! i = Some s' ->
    match st_sockets st !! i with
    | Some s => socket_steps (sk_state s) (sk_state s')
    | None => started (sk_state s')
    end.

Lemma started_steps x y : started x -> socket_steps x y -> started y.
Proof. intros [Hx|Hx] Hy; [left|right]; by etrans. Qed.

Lemma evolves_same st st' : st_sockets st' = st_sockets st -> evolves st st'.
Proof. intros E. split; [by rewrite E|]. intros i s' Hi. rewrite <-E, Hi. done. Qed.

#[export] Instance evolves_preorder : PreOrder evolves.
Proof.
  split; [intros st; by apply evolves_same|].
  intros st st' st'' [L1 H1] [L2 H2]. split; [lia|]. intros i s'' Hi.
  specialize (H2 i s'' Hi). destruct (st_sockets st' !! i) as [s'|] eqn:E'.
  - specialize (H1 i s' E'). destruct (st_sockets st !! i); [by etrans|].
    by eapply started_steps.
  - apply lookup_ge_None in E'. rewrite (proj2 (lookup_ge_None _ _)) by lia. done.
Qed.

(** Storing a socket that has moved along the state machine. *)
Lemma evolves_store st i s s' :
  socket_at st i = Ok s -> socket_steps (sk_state s) (sk_state s') ->
  evolves st (store_socket i s' st).
Proof.
  unfold socket_at. intros Hs%deref_Ok Hst. split; [simpl; by rewrite length_insert|].
  intros j t Hj. simpl in Hj. destruct (decide (i = j)) as [<-|Hne].
  - rewrite list_lookup_insert_eq in Hj by (by eapply lookup_lt_Some).
    injection Hj as <-. by rewrite Hs.
  - rewrite list_lookup_insert_ne in Hj by done. by rewrite Hj.
Qed.

(** A new socket, stored when it has started. *)
Lemma socket_new_at st st1 i : state_socket_new st = Ok (st1, i) ->
  i = length (st_sockets st) /\ exists s0, st_sockets st1 = st_sockets st ++ [s0].
Proof.
  unfold state_socket_new. intros E. apply exec_bind_Ok in E as (s0&_&E). injection E as <- <-.
  by split; [|exists s0].
Qed.

Lemma evolves_new st st2 s0 s :
  st_sockets st2 = st_sockets st ++ [s0] -> started (sk_state s) ->
  evolves st (store_socket (length (st_sockets st)) s st2).
Proof.
  intros E2 Hst. unfold store_socket.
  split; [simpl; rewrite length_insert, E2, length_app; simpl; lia|].
  intros j t Hj. simpl in Hj. rewrite E2 in Hj.
  destruct (decide (j = length (st_sockets st))) as [->|Hne].
  - rewrite list_lookup_insert_eq in Hj by (rewrite length_app; simpl; lia). injection Hj as <-.
    by rewrite (proj2 (lookup_ge_None _ _)).
  - rewrite list_lookup_insert_ne in Hj by done.
    destruct (decide (j < length (st_sockets st))%nat).
    + rewrite lookup_app_l in Hj by done. by rewrite Hj.
    + apply lookup_lt_Some in Hj. rewrite length_app in Hj. simpl in Hj. lia.
Qed.

(** Take a successful computation apart. *)
Ltac exec_cases :=
  repeat match goal with
  | H : Ok _ = Ok _ |- _ => injection H; clear H; intros; subst
  | H : Fault _ = Ok _ |- _ => discriminate H
  | H : (_ ≫= _) = Ok _ |- _ => apply exec_bind_Ok in H; destruct H as (?&?&H)
  | x : (_ * _)%type |- _ => destruct x
  | H : context [match ?x with _ => _ end] |- _ =>
      match type of H with _ = Ok _ => destruct x eqn:? end
  end.

Lemma find_connect_evolves st pkt st' r :
  find_connect_for_live_packet st pkt = Ok (st', r) -> evolves st st'.
Proof.
  unfold find_connect_for_live_packet. intros E. exec_cases; try done.
  all: eapply evolves_store; [eassumption|reflexivity].
Qed.

Lemma sniff_loop_evolves rx : forall st st' r, sniff_loop rx st = Ok (st', r) -> evolves st st'.
Proof.
  induction rx as [|[pkt|e] rx IH]; intros st st' r E; [done| |]; cbn [sniff_loop] in E.
  2:{ exec_cases. by apply evolves_same. }
  exec_cases; try (by apply evolves_same).
  all: match goal with H : find_connect_for_live_packet _ _ = _ |- _ =>
    apply find_connect_evolves in H end.
  all: first [etrans; [eassumption|]; by apply evolves_same | etrans; [eassumption|]; eauto].
Qed.

Lemma sniff_evolves st i st' r : sniff_outbound_live_packet st i = Ok (st', r) -> evolves st st'.
Proof. unfold sniff_outbound_live_packet. intros E. exec_cases; by eapply sniff_loop_evolves. Qed.

Lemma note_sniffed_steps s sp lp s' lp' status :
  note_sniffed s sp lp = Ok (s', lp', status) -> socket_steps (sk_state s) (sk_state s').
Proof.
  unfold note_sniffed. intros E. exec_cases; try done.
  all: match goal with H : _ && _ = true |- _ => apply andb_true_iff in H as [H _];
    apply bool_decide_eq_true in H; rewrite H end; apply rtc_once; constructor.
Qed.

Lemma note_inbound_steps s pkt s' :
  note_inbound s pkt = Ok s' -> socket_steps (sk_state s) (sk_state s').
Proof.
  unfold note_inbound. intros E. exec_cases; try done; breflect.
  - match goal with H : _ /\ _ |- _ => destruct H as [H _] end.
    match goal with H : bool_decide _ = true |- _ => apply bool_decide_eq_true in H; rewrite H end.
    apply rtc_once. constructor.
  - match goal with H : (_ /\ _) /\ _ |- _ => destruct H as [[H _] _] end.
    match goal with H : bool_decide _ = true |- _ => apply bool_decide_eq_true in H; rewrite H end.
    apply rtc_once. constructor.
Qed.

Lemma map_outbound_state s lp ap sp e m status :
  map_outbound_live_packet s lp ap sp e = Ok (m, status) -> sk_state (mo_socket m) = sk_state s.
Proof.
  unfold map_outbound_live_packet, map_outbound_ts_val, set_outbound_ts_val_mapping.
  intros E. exec_cases; done.
Qed.

Lemma flowlabel_state s pa ps s' status :
  verify_outbound_live_ipv6_flowlabel s pa ps = Ok (s', status) -> sk_state s' = sk_state s.
Proof. unfold verify_outbound_live_ipv6_flowlabel. intros E. exec_cases; done. Qed.

Lemma now_usecs_sockets st st' t : now_usecs st = Ok (st', t) -> st_sockets st' = st_sockets st.
Proof. unfold now_usecs. intros E. exec_cases; done. Qed.

Lemma wait_sockets st st' : wait_for_event st = Ok st' -> st_sockets st' = st_sockets st.
Proof.
  unfold wait_for_event. intros E. exec_cases; try done.
  by match goal with H : now_usecs _ = _ |- _ => apply now_usecs_sockets in H end.
Qed.

Section WithMallocSteps.
Context `{Malloc}.

Lemma verify_mapped_evolves st i s e m lp st' status :
  socket_at st i = Ok s -> socket_steps (sk_state s) (sk_state (mo_socket m)) ->
  verify_mapped_packet st i e m lp = Ok (st', status) -> evolves st st'.
Proof.
  intros Hs Hm. unfold verify_mapped_packet. intros E. exec_cases; try done.
  all: eapply evolves_store; [eassumption|].
  all: try match goal with H : verify_outbound_live_ipv6_flowlabel _ _ _ = _ |- _ =>
    apply flowlabel_state in H; rewrite H end; done.
Qed.

Lemma verify_live_evolves st i sp lp v :
  verify_outbound_live_packet st i sp lp = Ok v -> evolves st (v_state v).
Proof.
  unfold verify_outbound_live_packet. intros E. exec_cases; try done; simpl.
  all: match goal with H : map_outbound_live_packet _ _ _ _ _ = _ |- _ =>
    apply map_outbound_state in H as Hst end.
  all: assert (evolves st (store_socket i (mo_socket _) st)) as Hev by
    (eapply evolves_store; [eassumption|by rewrite Hst]).
  all: try exact Hev.
  etrans; [exact Hev|]. eapply verify_mapped_evolves; [|reflexivity|eassumption].
  unfold socket_at in *. simpl. apply deref_Ok.
  apply list_lookup_insert_eq. eapply lookup_lt_Some. by apply deref_Ok.
Qed.

Lemma outbound_loop_evolves fuel : forall st i sp expected acc st' r,
  outbound_loop fuel st i sp expected acc = Ok (st', r) -> evolves st st'.
Proof.
  induction fuel as [|n IH]; intros st i sp expected acc st' r E; [done|].
  cbn [outbound_loop] in E. apply exec_bind_Ok in E as ([st1 r1]&E1&E). apply sniff_evolves in E1.
  destruct r1 as [lp|]; [|by exec_cases]. etrans; [exact E1|].
  apply exec_bind_Ok in E as (pl&_&E). apply exec_bind_Ok in E as (s&Es&E).
  apply exec_bind_Ok in E as ([[s' lp'] status]&En&E). apply note_sniffed_steps in En.
  assert (evolves st1 (store_socket i s' st1)) as Hev by (by eapply evolves_store).
  etrans; [exact Hev|]. exec_cases; try done. by eapply IH.
Qed.

Lemma do_outbound_evolves st sp i v :
  do_outbound_script_packet st sp i = Ok v -> evolves st (v_state v).
Proof.
  unfold do_outbound_script_packet. intros E.
  apply exec_bind_Ok in E as (expected&_&E). apply exec_bind_Ok in E as (s&Es&E).
  apply exec_bind_Ok in E as (b&_&E). apply exec_bind_Ok in E as (s'&Es'&E).
  assert (sk_state s' = sk_state s) as Hst by (exec_cases; done).
  assert (evolves st (store_socket i s' st)) as Hev by
    (eapply evolves_store; [eassumption|by rewrite Hst]).
  etrans; [exact Hev|]. apply exec_bind_Ok in E as ([st1 r]&E1&E).
  apply outbound_loop_evolves in E1. etrans; [exact E1|].
  exec_cases; try done; simpl; by eapply verify_live_evolves.
Qed.

Lemma send_evolves st pkt st' status : send_live_ip_packet st pkt = Ok (st', status) -> evolves st st'.
Proof. unfold send_live_ip_packet. intros E. exec_cases. by apply evolves_same. Qed.

Lemma anyip_state cfg s pkt : sk_state (anyip_addresses cfg s pkt) = sk_state s.
Proof. unfold anyip_addresses. by destruct (_ && _). Qed.

Lemma socket_at_store st i s s' : socket_at st i = Ok s -> socket_at (store_socket i s' st) i = Ok s'.
Proof.
  unfold socket_at. intros Hs%deref_Ok. apply deref_Ok. simpl.
  apply list_lookup_insert_eq. by eapply lookup_lt_Some.
Qed.

Lemma do_inbound_evolves st pkt i v :
  do_inbound_script_packet st pkt i = Ok v -> evolves st (v_state v).
Proof.
  unfold do_inbound_script_packet. intros E.
  apply exec_bind_Ok in E as (s&Es&E). apply exec_bind_Ok in E as (s1&E1&E).
  apply note_inbound_steps in E1. set (s2 := anyip_addresses _ s1 pkt) in *.
  assert (evolves st (store_socket i s2 st)) as Hev.
  { eapply evolves_store; [eassumption|]. unfold s2. by rewrite anyip_state. }
  etrans; [exact Hev|]. pose proof (socket_at_store st i s s2 Es) as Hs2.
  generalize dependent (store_socket i s2 st). intros st1 E _ Hs2.
  exec_cases; try done; simpl.
  all: match goal with H : send_live_ip_packet _ _ = _ |- _ => apply send_evolves in H end.
  all: etrans; [eapply evolves_store; [exact Hs2|]|eassumption]; done.
Qed.

Lemma ephemeral_sockets st st' port :
  next_ephemeral_port st = Ok (st', port) -> st_sockets st' = st_sockets st.
Proof. unfold next_ephemeral_port, ephemeral_port. intros E. exec_cases; done. Qed.

Lemma handle_listen_evolves st pkt d st' r :
  handle_listen_for_script_packet st pkt d = Ok (st', r) -> evolves st st'.
Proof.
  unfold handle_listen_for_script_packet. intros E. apply exec_bind_Ok in E as (m&_&E).
  destruct m; cbn [negb] in E; [|by exec_cases].
  apply exec_bind_Ok in E as ([st1 i]&E1&E). apply socket_new_at in E1 as (->&s0&E1).
  apply exec_bind_Ok in E as (s&_&E). apply exec_bind_Ok in E as (?&_&E).
  apply exec_bind_Ok in E as (protocol&_&E). apply exec_bind_Ok in E as (t&_&E).
  apply exec_bind_Ok in E as (tcp&_&E). apply exec_bind_Ok in E as (seq&_&E).
  apply exec_bind_Ok in E as ([st2 port]&E2&E). apply ephemeral_sockets in E2.
  injection E as <- _. apply evolves_new with s0; [by rewrite E2|by left].
Qed.

Lemma connect_match_state st pkt d i s :
  connect_match st pkt d = Ok true -> st_socket_under_test st = Some i -> socket_at st i = Ok s ->
  sk_state s = SOCKET_ACTIVE_CONNECTING.
Proof.
  unfold connect_match. intros E Hi Hs. rewrite Hi, Hs in E. destruct (negb _) in E; [done|].
  apply exec_bind_Ok in E as (tcp&_&E). apply exec_bind_Ok in E as (syn&_&E).
  apply exec_bind_Ok in E as (ack&_&E). destruct (_ || _) in E; [done|].
  destruct (cfg_is_wire_server _) in E; [done|]. injection E as E. by apply bool_decide_eq_true in E.
Qed.

Lemma handle_connect_evolves st pkt d st' r :
  handle_connect_for_script_packet st pkt d = Ok (st', r) -> evolves st st'.
Proof.
  unfold handle_connect_for_script_packet. intros E. apply exec_bind_Ok in E as (m&Em&E).
  destruct m; cbn [negb] in E; [|by exec_cases]. apply exec_bind_Ok in E as ([st1 i]&E1&E).
  apply exec_bind_Ok in E as (s&Es&E). apply exec_bind_Ok in E as (t&_&E).
  apply exec_bind_Ok in E as (tcp&_&E). apply exec_bind_Ok in E as (seq&_&E). injection E as <- _.
  unfold connect_socket in E1. destruct (st_socket_under_test st) as [i0|] eqn:Hi.
  - injection E1 as <- <-. eapply evolves_store; [exact Es|].
    rewrite (connect_match_state _ _ _ _ _ Em Hi Es). apply rtc_once. constructor.
  - apply exec_bind_Ok in E1 as ([st2 j]&E2&E1). apply socket_new_at in E2 as (->&s0&E2).
    apply exec_bind_Ok in E1 as (s1&_&E1). apply exec_bind_Ok in E1 as (?&_&E1).
    apply exec_bind_Ok in E1 as (protocol&_&E1). injection E1 as <- <-.
    unfold store_socket at 1. cbn [store_socket set_st_sockets st_sockets].
    rewrite list_insert_insert_eq. apply (evolves_new st st2 s0); [exact E2|by right].
Qed.

Lemma find_or_create_evolves st pkt d st' r status :
  find_or_create_socket_for_script_packet st pkt d = Ok (st', r, status) -> evolves st st'.
Proof.
  unfold find_or_create_socket_for_script_packet. intros E.
  apply exec_bind_Ok in E as ([st1 found]&E1&E).
  assert (evolves st st1) as Hev.
  { destruct (pk_tcp pkt); [|by exec_cases].
    apply exec_bind_Ok in E1 as ([st2 [i|]]&E2&E1); apply handle_listen_evolves in E2.
    - by exec_cases.
    - etrans; [exact E2|]. by eapply handle_connect_evolves. }
  etrans; [exact Hev|]. exec_cases; done.
Qed.

(** C4. Running a packet event only moves sockets along the handshake: no socket is lost;
    one that was there before the event is afterwards in a state it can reach by the
    transitions PACKET_RECEIVED to SYNACK_SENT to SYNACK_ACKED and CONNECTING to SYN_SENT
    to SYN_ACKED; and one the event created starts at PACKET_RECEIVED or at SYN_SENT. *)
Theorem run_packet_event_evolves (st st' : state) (ei : nat) (status : status_t) :
  run_packet_event st ei = Ok (st', status) -> evolves st st'.
Proof.
  unfold run_packet_event. intros E. apply exec_bind_Ok in E as (e&_&E).
  destruct (ev_event e) as [|pkt| | |]; try done. apply exec_bind_Ok in E as (?&_&E).
  apply exec_bind_Ok in E as ([[st1 found] s1]&E1&E). apply find_or_create_evolves in E1.
  etrans; [exact E1|]. destruct s1; [|by exec_cases..].
  apply exec_bind_Ok in E as (si&_&E). apply exec_bind_Ok in E as (v&Ev&E). injection E as <- _.
  trans (v_state v); [|by apply evolves_same].
  destruct (packet_direction pkt); [done| |by eapply do_outbound_evolves].
  apply exec_bind_Ok in Ev as (st2&Ew&Ev). apply wait_sockets in Ew.
  etrans; [by apply evolves_same|]. by eapply do_inbound_evolves.
Qed.
End WithMallocSteps.

(** ** Resetting a connection *)

(** A receiver's checks, by IP version. *)
Definition receiver_ok (pkt : packet) : exec bool :=
  match pk_ipv4 pkt with
  | Some _ => receiver_ok_v4 pkt
  | None => receiver_ok_v6 pkt
  end.

(** The tuple of a packet depends on the bytes of its addresses and ports only. *)
Lemma get_tuple_ext pkt l4 b :
  has_tuple pkt l4 -> zlen b = zlen (pk_buffer pkt) ->
  (forall i, match pk_ipv4 pkt, pk_ipv6 pkt with
             | Some p, _ => p + 12 <= i < p + 20
             | None, Some p => p + 8 <= i < p + 40
             | None, None => False
             end \/ l4 <= i < l4 + 4 -> byte_at b i = byte_at (pk_buffer pkt) i) ->
  get_packet_tuple (set_pk_buffer b pkt) = get_packet_tuple pkt.
Proof.
  intros (_&_&Hl4&Hip) Hz Hi. unfold get_packet_tuple, get_packet_ips, prd.
  cbn [pk_ipv4 pk_ipv6 pk_tcp pk_udp pk_buffer set_pk_buffer].
  assert (P : forall f, 0 <= field_off f -> field_off f + field_bytes f <= 4 ->
    rd b l4 f = rd (pk_buffer pkt) l4 f).
  { intros f H0 H4. apply rd_ext; [done|]. intros i Hr. apply Hi. lia. }
  destruct (pk_ipv4 pkt) as [p|]; [|destruct (pk_ipv6 pkt) as [p|]; [|done]].
  - change (field_off ipv4_src_ip) with 12. change (field_off ipv4_dst_ip) with 16.
    rewrite (get_bytes_ext b (pk_buffer pkt) (p + 12)) by (try done; intros; apply Hi; lia).
    rewrite (get_bytes_ext b (pk_buffer pkt) (p + 16)) by (try done; intros; apply Hi; lia).
    destruct Hl4 as [->|[-> ->]]; by rewrite !P by (simpl; lia).
  - rewrite (get_bytes_ext b (pk_buffer pkt) (p + ipv6_src_ip)) by
      (try done; unfold ipv6_src_ip; intros; apply Hi; lia).
    rewrite (get_bytes_ext b (pk_buffer pkt) (p + ipv6_dst_ip)) by
      (try done; unfold ipv6_dst_ip; intros; apply Hi; lia).
    destruct Hl4 as [->|[-> ->]]; by rewrite !P by (simpl; lia).
Qed.

Section Reset.
Context `{Malloc}.

(** The bytes around the addresses and the ports of a bare TCP segment. *)
Lemma built_outside pkt af t i :
  af = AF_INET \/ af = AF_INET6 ->
  pk_ipv4 pkt = (if af =? AF_INET then Some 0 else None) ->
  pk_ipv6 pkt = (if af =? AF_INET then None else Some 0) ->
  tuple_of_family af t -> i < 8 \/ (af = AF_INET /\ i < 12) \/ ip_len af + 4 <= i ->
  outside i (tuple_chunks pkt (ip_len af) t).
Proof.
  intros Haf H4 H6 ((_&Hsl&_)&(_&Hdl&_)&_) Hi. unfold outside, tuple_chunks. rewrite H4, H6.
  destruct Haf as [-> | ->]; simpl; repeat apply Forall_cons_2; try apply Forall_nil_2; simpl;
    unfold ip_len, AF_INET, AF_INET6 in *; simpl in *; unfold ip_to_ipv4, ip_to_ipv6, zlen;
    rewrite ?length_take, ?Hsl, ?Hdl; simpl length; lia.
Qed.

(** Filling in the checksums of such a segment. *)
Lemma checksum_built pkt af :
  af = AF_INET \/ af = AF_INET6 ->
  bytes_ok (pk_buffer pkt) -> zlen (pk_buffer pkt) = ip_len af + 20 ->
  pk_ip_bytes pkt = ip_len af + 20 -> pk_tcp pkt = Some (ip_len af) ->
  pk_ipv4 pkt = (if af =? AF_INET then Some 0 else None) ->
  pk_ipv6 pkt = (if af =? AF_INET then None else Some 0) ->
  holds (pk_buffer pkt) (ip_members af (ip_len af + 20) IPPROTO_TCP) ->
  exists b, checksum_packet pkt = Ok (set_pk_buffer b pkt) /\
    receiver_ok (set_pk_buffer b pkt) = Ok true /\ zlen b = zlen (pk_buffer pkt) /\
    (forall i, 0 <= i -> ~ (i < 12 /\ af = AF_INET) -> ~ (ip_len af + 16 <= i < ip_len af + 18) ->
       byte_at b i = byte_at (pk_buffer pkt) i).
Proof.
  intros Haf Hok Hz Hi Ht H4 H6 Hl. unfold receiver_ok. cbn [pk_ipv4 set_pk_buffer]. rewrite H4.
  destruct Haf as [-> | ->]; simpl (AF_INET =? AF_INET) in *; simpl (AF_INET6 =? AF_INET) in *;
    cbv iota in *.
  - destruct (checksum_packet_v4 pkt) as (b&E&G&_&Hz2&Ho).
    { split; [exact Hok|]. exists 0, 5, (htons 40), 20, tcp_check, (Some IPPROTO_TCP).
      split; [exact H4|]. split; [lia|]. split; [member Hl|]. split; [member Hl|].
      split; [lia|]. split; [unfold slot_v4; by rewrite Ht|]. split; [done|].
      rewrite Hz, Hi. vm_compute. intuition discriminate. }
    exists b. split_and!; [done..|]. intros i Hi0 Hn1 Hn2.
    apply Ho; [done|]. intros [(p&Hp&Hr)|(tt&check&proto&Hs&Hr)].
    + rewrite H4 in Hp. injection Hp as <-. apply Hn1. lia.
    + unfold slot_v4 in Hs. rewrite Ht in Hs. injection Hs as <- <- <-. apply Hn2. exact Hr.
  - destruct (checksum_packet_v6 pkt) as (b&E&G&_&Hz2&Ho).
    { split; [exact Hok|]. exists 0, (htons 20), 40, tcp_check, IPPROTO_TCP.
      split; [exact H6|]. split; [exact H4|]. split; [lia|]. split; [member Hl|].
      split; [unfold slot_v6; by rewrite Ht|]. split; [done|].
      rewrite Hz, Hi. vm_compute. intuition discriminate. }
    exists b. split_and!; [done..|]. intros i Hi0 Hn1 Hn2.
    apply Ho; [done|]. intros (tt&check&proto&Hs&Hr).
    unfold slot_v6 in Hs. rewrite Ht in Hs. injection Hs as <- <- <-. apply Hn2. exact Hr.
Qed.

(** Members that survive a change of other bytes. *)
Lemma holds_ext b b' l : zlen b' = zlen b ->
  Forall (fun '(p, f, _) => forall i, p + field_off f <= i < p + field_off f + field_bytes f ->
    byte_at b' i = byte_at b i) l ->
  holds b l -> holds b' l.
Proof.
  intros Hz He Hl. unfold holds in *. rewrite Forall_forall in *.
  intros [[p f] v] Hin. specialize (He _ Hin). specialize (Hl _ Hin). simpl in *.
  destruct Hl as (?&?&Hv). split; [done|split; [done|]]. by rewrite (rd_ext b b').
Qed.

(** A bare TCP segment as new_tcp_packet builds it: its tuple can be set, and afterwards
    the packet can be sent; the members between the ports and the checksum stay. *)
Lemma send_built st af direction info flags seq ack win pkt t :
  af = AF_INET \/ af = AF_INET6 ->
  built_tcp af direction info 0 0 flags seq 0 ack win 0 None pkt ->
  tuple_of_family af t ->
  exists b, (pkt ← set_packet_tuple pkt t; send_live_ip_packet st pkt)
      = Ok (netdev_send st (set_pk_buffer b pkt)) /\
    get_packet_tuple (set_pk_buffer b pkt) = Ok t /\
    receiver_ok (set_pk_buffer b pkt) = Ok true /\
    (forall f, 4 <= field_off f -> field_off f + field_bytes f <= 16 ->
       rd b (ip_len af) f = rd (pk_buffer pkt) (ip_len af) f).
Proof.
  intros Haf (Hok&Hz&HB&Hi&Hl2&_&(Hu&H4i&H6i)&Hh&Ht&H4&H6&Hl&_) Htf.
  assert (Hlen : segment_len af 0 None = ip_len af + 20) by (unfold segment_len, tcp_len;
    change (zlen (option_bytes None)) with 0; lia). rewrite Hlen in *.
  assert (Hfam : packet_address_family pkt = af)
    by (unfold packet_address_family; rewrite H4, H6; by destruct Haf as [-> | ->]).
  assert (Hip : ip_len af = 20 \/ ip_len af = 40) by (destruct Haf as [-> | ->]; auto).
  assert (Hht : has_tuple pkt (ip_len af)).
  { split; [done|]. split; [lia|]. split; [by left|]. rewrite H4, H6.
    destruct Haf as [-> | ->]; simpl; unfold ip_len; simpl; lia. }
  destruct (set_get_tuple pkt (ip_len af) t Hht) as (b1&E1&G1&Hok1&Hz1&Ho1); [by rewrite Hfam|].
  unfold set_packet_tuple. rewrite E1, bind_Ok_eq. cbn [pk_icmpv4 pk_icmpv6 set_pk_buffer].
  rewrite H4i, H6i. simpl orb. cbv iota. rewrite bind_Ok_eq.
  pose proof (fun i => built_outside pkt af t i Haf H4 H6 Htf) as Hout.
  destruct (checksum_built (set_pk_buffer b1 pkt) af) as (b2&E2&G2&Hz2&Ho2);
    [done|done|simpl; lia|done|done|done|done| |].
  { apply holds_ip_full, Forall_app in Hl as [_ Hl]. apply (holds_ext (pk_buffer pkt)); [done| |exact Hl].
    destruct Haf as [-> | ->]; repeat apply Forall_cons_2; try apply Forall_nil_2; simpl;
      intros i Hr; (apply Ho1; [lia|apply Hout; lia]). }
  exists b2. unfold send_live_ip_packet.
  cbn [pk_ip_bytes pk_ipv4 pk_ipv6 pk_tcp set_pk_buffer]. rewrite Hi, H4, H6, Ht.
  rewrite (proj2 (Z.ltb_lt 0 (ip_len af + 20))) by lia.
  assert ((non_null (if af =? AF_INET then Some 0 else None) ||
    non_null (if af =? AF_INET then None else Some 0)) = true) as ->
    by (by destruct Haf as [-> | ->]).
  change (non_null (Some (ip_len af))) with true. simpl c_assert. rewrite !bind_Ok_eq, E2, bind_Ok_eq.
  split; [done|]. split; [|split; [exact G2|]].
  - rewrite <-G1. change (set_pk_buffer b2 pkt) with (set_pk_buffer b2 (set_pk_buffer b1 pkt)).
    apply (get_tuple_ext _ (ip_len af)); [|done|].
    { destruct Hht as (_&?&?&?). split; [exact Hok1|]. split; [simpl; lia|]. done. }
    cbn [pk_ipv4 pk_ipv6 set_pk_buffer]. rewrite H4, H6. intros i Hr. cbn [pk_buffer set_pk_buffer].
    apply Ho2; destruct Haf as [-> | ->]; unfold ip_len in *; simpl in *; try lia. by intros [_ ?].
  - intros f Hf1 Hf2. apply rd_ext; [simpl in Hz2; lia|]. intros i Hr.
    rewrite Ho2 by lia. apply Ho1; [lia|apply Hout; lia].
Qed.

(** The fields of the segment that resets a connection. *)
Definition rst_segment (pkt : packet) (seq ack : Z) : Prop :=
  exists t, pk_tcp pkt = Some t /\ prd pkt t tcp_rst = Ok 1 /\ prd pkt t tcp_ack = Ok 1 /\
    prd pkt t tcp_syn = Ok 0 /\ prd pkt t tcp_fin = Ok 0 /\
    ntohl <$> prd pkt t tcp_seq = Ok seq /\ ntohl <$> prd pkt t tcp_ack_seq = Ok ack.

(** A socket whose connection can be reset. *)
Definition resettable (s : socket) : Prop :=
  (sk_address_family s = AF_INET \/ sk_address_family s = AF_INET6) /\
  tuple_of_family (sk_address_family s) (socket_get_inbound (sk_live s)) /\
  bytes_ok (sk_last_injected_tcp_header s) /\ zlen (sk_last_injected_tcp_header s) = 20 /\
  bytes_ok (sk_last_outbound_tcp_header s) /\ zlen (sk_last_outbound_tcp_header s) = 20.

Lemma saved_rd b f : bytes_ok b -> zlen b = 20 -> field_wf f -> field_off f + field_bytes f <= 20 ->
  exists v, rd b 0 f = Ok v /\ 0 <= v < field_mod f.
Proof. intros Hb Hz Hf Hr. destruct Hf as [H0 Hf]. apply rd_total; [done|done|lia|lia]. Qed.

Ltac saved_field b f v :=
  destruct (saved_rd b f) as (v&->&_); [assumption|assumption|split; simpl; lia|simpl; lia|];
  rewrite bind_Ok_eq.

Lemma reset_fields_total s : resettable s ->
  exists seq ack win, reset_fields s = Ok (seq, ack, win) /\
    0 <= seq < 4294967296 /\ 0 <= ack < 4294967296 /\ 0 <= win < 65536.
Proof.
  intros (_&_&Hib&Hiz&Hob&Hoz). unfold reset_fields. cbv zeta.
  saved_field (sk_last_injected_tcp_header s) tcp_ack ia. destruct (negb (ia =? 0)).
  - saved_field (sk_last_injected_tcp_header s) tcp_seq v1.
    saved_field (sk_last_injected_tcp_header s) tcp_syn v2.
    saved_field (sk_last_injected_tcp_header s) tcp_fin v3.
    saved_field (sk_last_injected_tcp_header s) tcp_ack_seq v4.
    saved_field (sk_last_injected_tcp_header s) tcp_window v5.
    eexists _, _, _. split; [done|]. split; [apply u32_range|].
    split; [apply ntohl_range|apply ntohs_range].
  - saved_field (sk_last_outbound_tcp_header s) tcp_ack oa.
    saved_field (sk_last_outbound_tcp_header s) tcp_seq v1. destruct (negb (oa =? 0)).
    + saved_field (sk_last_outbound_tcp_header s) tcp_ack_seq v2.
      eexists _, _, _. split; [done|]. split; [apply ntohl_range|].
      split; [apply ntohl_range|lia].
    + eexists _, _, _. split; [done|]. split; [lia|]. split; [apply u32_range|lia].
Qed.

(** Resetting a connection injects exactly one packet, and one the kernel can accept:
    a RST with ACK, without SYN or FIN, whose addresses and ports are those of the live
    connection in the inbound direction, whose sequence and acknowledgement numbers are
    the ones chosen from the last segments seen, and whose checksums verify. *)
Theorem reset_connection_sends_rst (st : state) (s : socket) :
  resettable s ->
  exists seq ack win pkt,
    reset_fields s = Ok (seq, ack, win) /\
    reset_connection st s = Ok (netdev_send st pkt) /\
    rst_segment pkt seq ack /\
    get_packet_tuple pkt = Ok (socket_get_inbound (sk_live s)) /\
    receiver_ok pkt = Ok true.
Proof.
  intros Hs. destruct (reset_fields_total s Hs) as (seq&ack&win&E&Hseq&Hack&Hwin).
  destruct Hs as (Haf&Htf&_). unfold reset_connection. rewrite E, bind_Ok_eq.
  assert (Hfit : segment_len (sk_address_family s) 0 None < 65536)
    by (destruct Haf as [-> | ->]; reflexivity).
  destruct (new_tcp_spec (sk_address_family s) DIRECTION_INBOUND
    (mk_ip_info (mk_tos TOS_CHECK_NONE 0) 0 0) 0 0 "R." seq 0 ack win 0 None) as (pkt&->&Hb);
    [done|lia|done|done|left; lia|done|].
  rewrite bind_Ok_eq. destruct (send_built st _ _ _ _ _ _ _ _ _ Haf Hb Htf) as (b&->&G&R&F).
  exists seq, ack, win, (set_pk_buffer b pkt). split; [done|]. split; [done|]. split; [|done].
  destruct Hb as (_&_&_&_&_&_&_&_&Ht&_&_&Hl&_). exists (ip_len (sk_address_family s)).
  apply Forall_app in Hl as [Hl _].
  change (holds (pk_buffer pkt) (tcp_members (ip_len (sk_address_family s)) 0 0 "R." seq ack win 0
    (tcp_len None / 4))) in Hl. unfold prd. cbn [pk_buffer pk_tcp set_pk_buffer].
  rewrite !F by (simpl; lia). split_and!; [done|member Hl|member Hl|member Hl|member Hl|..].
  all: eapply fmap_rd; [member Hl|]; by apply ntohl_invol.
Qed.
End Reset.

(** ** Runs *)

#[local] Existing Instance zero_malloc.

Definition script_packet (af : Z) (direction : direction_t) (flags : string) (seq len ack : Z)
    : packet :=
  match new_tcp_packet af direction (mk_ip_info (mk_tos TOS_CHECK_NONE 0) 0 255) 0 0 flags seq len
          ack 1000 0 (Some tcp_options_new) with
  | Ok (Success pkt) => pkt
  | _ => sample_seg
  end.

Definition packet_event (line : Z) (pkt : packet) : event :=
  mk_event line 0 (-1) (-1) ABSOLUTE_TIME (PACKET_EVENT pkt).

Definition listening_socket : socket := set_sk_state SOCKET_PASSIVE_LISTENING sample_socket.

(** A run with a listening socket that is about to execute an inbound SYN, and then an
    outbound SYN-ACK, which the kernel answers with the packets [rx]. *)
Definition run_start (rx : list (result packet)) : state :=
  mk_state sample_config true 40000 [] [listening_socket] [FdSocket 0] (Some 0%nat)
    [packet_event 1 (script_packet AF_INET DIRECTION_INBOUND "S" 0 0 0);
     packet_event 2 (script_packet AF_INET DIRECTION_OUTBOUND "S." 5000 0 1)]
    (Some 0%nat) None 0 0 70000 0 [70000; 70001] rx [] [].

Definition after (r : exec (state * status_t)) : state :=
  match r with
  | Ok (st, _) => st
  | Fault _ => run_start []
  end.

Definition run_syn : state := after (run_packet_event (run_start []) 0).

Lemma run_packet_event_evolves_witness : evolves (run_start []) run_syn.
Proof.
  apply (run_packet_event_evolves (run_start []) run_syn 0 STATUS_OK). vm_compute. reflexivity.
Defined.

(** After the SYN the new socket under test has received a packet, and one packet, from
    the live remote to the live local address, has been injected. *)
Example run_syn_injects :
  (st_socket_under_test run_syn, sk_state <$> st_sockets run_syn, length (st_sent run_syn)) =
    (Some 1%nat, [SOCKET_PASSIVE_LISTENING; SOCKET_PASSIVE_PACKET_RECEIVED], 1%nat) /\
  (get_packet_tuple <$> st_sent run_syn) =
    [Ok (mk_tuple (mk_endpoint (ip_from_ipv4 [192; 0; 2; 1]) (htons 40000))
                  (mk_endpoint (ip_from_ipv4 [192; 168; 0; 1]) (htons 8080)))].
Proof. split; vm_compute; reflexivity. Qed.

Lemma reset_connection_sends_rst_witness :
  exists seq ack win pkt,
    reset_fields sample_socket = Ok (seq, ack, win) /\
    reset_connection (run_start []) sample_socket = Ok (netdev_send (run_start []) pkt) /\
    rst_segment pkt seq ack /\
    get_packet_tuple pkt = Ok (socket_get_inbound (sk_live sample_socket)) /\
    receiver_ok pkt = Ok true.
Proof.
  apply (reset_connection_sends_rst (run_start []) sample_socket).
  split; [by left|]. split.
  - split; [solve_sample_ip|split; [solve_sample_ip|]]. simpl. repeat split; lia.
  - split; [solve_literal_bytes|]. split; [reflexivity|]. split; [solve_literal_bytes|reflexivity].
Defined.

(** The SYN-ACK the kernel sends for that SYN, with its own initial sequence number. *)
Definition live_synack : packet :=
  match (pkt ← set_packet_tuple (script_packet AF_INET DIRECTION_OUTBOUND "S." 123456 0 1)
           (mk_tuple (mk_endpoint (ip_from_ipv4 [192; 168; 0; 1]) (htons 8080))
                     (mk_endpoint (ip_from_ipv4 [192; 0; 2; 1]) (htons 40000)));
         checksum_packet (set_pk_time_usecs 70200 pkt)) with
  | Ok pkt => pkt
  | Fault _ => sample_seg
  end.

Definition run_synack : exec (state * status_t) :=
  run_packet_event (set_st_event (Some 1%nat)
    (after (run_packet_event (run_start [Success live_synack]) 0))) 1.

(** The handshake moves on, the live initial sequence number is learned, and the packet
    is accepted. *)
Example run_synack_ok :
  match run_synack with
  | Ok (st, status) =>
      (sk_state <$> st_sockets st,
       (fun s => (ss_local_isn (sk_script s), ss_local_isn (sk_live s))) <$> st_sockets st !! 1%nat, status)
      = ([SOCKET_PASSIVE_LISTENING; SOCKET_PASSIVE_SYNACK_SENT], Some (5000, 123456), STATUS_OK)
  | Fault _ => False
  end.
Proof. vm_compute. reflexivity. Qed.

(** ** Sniffing *)

(** A received packet that concerns no socket: not an outbound packet of the socket under
    test, nor the answer to a connect. *)
Definition ignored (st : state) (pkt : packet) : Prop :=
  (find_socket_for_live_packet st pkt = Ok None \/
   exists i, find_socket_for_live_packet st pkt = Ok (Some (i, DIRECTION_INBOUND))) /\
  find_connect_for_live_packet st pkt = Ok (st, None).

(** Sniffing returns the first outbound packet of the socket under test: packets that
    belong to no socket, and the packets injected by the test itself, are skipped, the
    first outbound one is returned with its socket, and the ones after it stay queued. *)
Theorem sniff_skips_ignored (st : state) (pre : list packet) (pkt : packet)
    (rest : list (result packet)) (i : nat) :
  Forall (ignored st) pre ->
  find_socket_for_live_packet st pkt = Ok (Some (i, DIRECTION_OUTBOUND)) ->
  st_received st = (Success <$> pre) ++ Success pkt :: rest ->
  sniff_outbound_live_packet st i = Ok (set_st_received rest st, Success pkt).
Proof.
  intros Hpre Hpkt Hrx. unfold sniff_outbound_live_packet. rewrite Hrx.
  assert (sniff_loop ((Success <$> pre) ++ Success pkt :: rest) st
    = Ok (set_st_received rest st, Success (pkt, i))) as ->.
  { clear Hrx. induction Hpre as [|p pre [Hf Hc] _ IH].
    - simpl. by rewrite Hpkt.
    - change ((Success <$> p :: pre) ++ Success pkt :: rest) with
        (Success p :: ((Success <$> pre) ++ Success pkt :: rest)). cbn [sniff_loop].
      destruct Hf as [-> |[j ->]]; rewrite bind_Ok_eq, Hc, bind_Ok_eq; exact IH. }
  rewrite bind_Ok_eq, Nat.eqb_refl. done.
Qed.

(** The state before the SYN-ACK is sniffed, with the injected SYN in the queue too. *)
Definition run_sniff : state :=
  set_st_received ((Success <$> st_sent run_syn) ++ [Success live_synack]) run_syn.

Lemma injected_ignored : Forall (ignored run_sniff) (st_sent run_syn).
Proof.
  assert (st_sent run_syn = [hd sample_seg (st_sent run_syn)]) as ->
    by (vm_compute; reflexivity).
  apply Forall_cons_2; [|apply Forall_nil_2]. split.
  - right. exists 1%nat. vm_compute. reflexivity.
  - vm_compute. reflexivity.
Qed.

Lemma sniff_skips_ignored_witness :
  sniff_outbound_live_packet run_sniff 1 = Ok (set_st_received [] run_sniff, Success live_synack).
Proof.
  apply (sniff_skips_ignored run_sniff (st_sent run_syn) live_synack [] 1).
  - exact injected_ignored.
  - vm_compute. reflexivity.
  - reflexivity.
Defined.

(** ** The turns of the sniffing loop *)

Lemma sniff_loop_consumes rx : forall st st' r,
  sniff_loop rx st = Ok (st', r) -> (length (st_received st') < length rx)%nat.
Proof.
  induction rx as [|[pkt|e] rx IH]; intros st st' r E; [done| |]; cbn [sniff_loop] in E.
  2:{ exec_cases. simpl. lia. }
  apply exec_bind_Ok in E as (found&_&E).
  assert (forall E', ('(st, found) ← find_connect_for_live_packet st pkt;
          match found with
          | Some i => Ok (set_st_received rx st, Success (pkt, i))
          | None => sniff_loop rx st
          end) = Ok E' -> (length (st_received E'.1) < length (Success pkt :: rx))%nat) as Hc.
  { intros [s1 r1] H1. apply exec_bind_Ok in H1 as ([st2 [i|]]&_&H1).
    - injection H1 as <- _. simpl. lia.
    - apply IH in H1. simpl. lia. }
  destruct found as [[i []]|]; try (by apply Hc in E).
  injection E as <- _. simpl. lia.
Qed.

Section Turns.
Context `{Malloc}.

(** The loop that sniffs outbound packets ends: the bound the model puts on its turns,
    one more than the packets still to be received, is never what ends it, since every
    turn receives at least one packet; with any larger bound the result is the same. *)
Theorem outbound_loop_bound (st : state) (i : nat) (sp : packet) (expected : Z)
    (acc : option sniffed) (fuel fuel' : nat) :
  (length (st_received st) < fuel)%nat -> (fuel <= fuel')%nat ->
  outbound_loop fuel st i sp expected acc = outbound_loop fuel' st i sp expected acc.
Proof.
  revert st acc fuel'. induction fuel as [|n IH]; intros st acc fuel' Hn Hle; [lia|].
  destruct fuel' as [|n']; [lia|]. cbn [outbound_loop].
  destruct (sniff_outbound_live_packet st i) as [[st1 r]|] eqn:E; [|done].
  assert (length (st_received st1) < length (st_received st))%nat as Hlt.
  { unfold sniff_outbound_live_packet in E. apply exec_bind_Ok in E as ([st2 r2]&E2&E).
    apply sniff_loop_consumes in E2. destruct r2 as [[]|]; [destruct (negb _)|]; by simplify_eq. }
  rewrite !bind_Ok_eq. destruct r as [lp|]; [|done].
  destruct (packet_payload_len lp) as [pl|]; [|done]. rewrite !bind_Ok_eq.
  destruct (socket_at st1 i) as [s|]; [|done]. rewrite !bind_Ok_eq.
  destruct (note_sniffed s sp lp) as [[[s' lp'] []]|]; [|done..]. rewrite !bind_Ok_eq.
  destruct (add_sniffed acc lp' pl expected) as [[sn []]|]; [|done..]. rewrite !bind_Ok_eq.
  destruct (_ && _); [|done]. apply IH; simpl; lia.
Qed.
End Turns.

Lemma outbound_loop_bound_witness :
  outbound_loop 2 (set_st_received [Success live_synack] run_syn) 1
    (script_packet AF_INET DIRECTION_OUTBOUND "S." 5000 0 1) 0 None =
  outbound_loop 7 (set_st_received [Success live_synack] run_syn) 1
    (script_packet AF_INET DIRECTION_OUTBOUND "S." 5000 0 1) 0 None.
Proof.
  apply (outbound_loop_bound (set_st_received [Success live_synack] run_syn) 1
    (script_packet AF_INET DIRECTION_OUTBOUND "S." 5000 0 1) 0 None 2 7).
  - vm_compute. lia.
  - lia.
Defined.

(** ** Payload filling *)

(** Filling from offset [i], past the sequence number of the TCP header, returns and
    changes the [n] bytes from [i] on and nothing else: byte k becomes the last decimal
    digit of the stored (network order) sequence number plus k. *)
Theorem fill_payload_spec (pkt : packet) (tcp seq i j : Z) (n : nat) :
  0 <= tcp -> tcp + 8 <= i -> i + Z.of_nat n <= zlen (pk_buffer pkt) ->
  prd pkt tcp tcp_seq = Ok seq ->
  exists b, fill_payload pkt tcp n i j = Ok (set_pk_buffer b pkt) /\
    zlen b = zlen (pk_buffer pkt) /\
    (forall k, 0 <= k -> byte_at b k =
      if (i <=? k) && (k <? i + Z.of_nat n) then u32 (seq + (j + (k - i))) mod 10
      else byte_at (pk_buffer pkt) k).
Proof.
  revert pkt i j. induction n as [|n IH]; intros pkt i j Ht Hi Hn Hs; cbn [fill_payload].
  - exists (pk_buffer pkt). split; [by destruct pkt|]. split; [done|]. intros k Hk.
    destruct (Z.leb_spec i k), (Z.ltb_spec k (i + Z.of_nat 0)); (lia || done).
  - rewrite Hs, bind_Ok_eq. set (v := u32 (seq + j) mod 10).
    destruct (st8_in (pk_buffer pkt) i v) as (b1&->&L1&B1); [lia|subst v; unfold is_byte; pose proof (Z.mod_pos_bound (u32 (seq + j)) 10); lia|].
    rewrite bind_Ok_eq.
    destruct (IH (set_pk_buffer b1 pkt) (i + 1) (j + 1)) as (b&E&L&B).
    + lia. + lia. + simpl. lia.
    + rewrite <-Hs. unfold prd. simpl pk_buffer. apply rd_ext; [done|].
      intros k Hk. simpl in Hk. rewrite B1 by lia. destruct (Z.eqb_spec k i); [lia|done].
    + exists b. split; [by rewrite E; destruct pkt|]. split; [by rewrite L|].
      intros k Hk. rewrite B by done. simpl pk_buffer. rewrite B1 by done.
      destruct (Z.leb_spec (i + 1) k), (Z.ltb_spec k (i + 1 + Z.of_nat n)), (Z.eqb_spec k i),
        (Z.leb_spec i k), (Z.ltb_spec k (i + Z.of_nat (S n))); simpl; try lia; try done.
      * f_equal. f_equal. lia.
      * subst k v. f_equal. f_equal. lia.
Qed.

(** The packet after the fill of do_inbound_script_packet. *)
Definition filled (pkt : packet) (tcp doff : Z) : exec packet :=
  fill_payload pkt tcp (Z.to_nat (pk_buffer_bytes pkt - (20 + doff * 4))) (20 + doff * 4) 0.

Lemma fill_payload_spec_witness :
  exists b, fill_payload sample_payload 20 2 40 0 = Ok (set_pk_buffer b sample_payload) /\
    zlen b = zlen (pk_buffer sample_payload) /\
    (forall k, 0 <= k -> byte_at b k =
      if (40 <=? k) && (k <? 40 + Z.of_nat 2) then u32 (0x03000000 + (0 + (k - 40))) mod 10
      else byte_at (pk_buffer sample_payload) k).
Proof.
  apply (fill_payload_spec sample_payload 20 0x03000000 40 0 2); try lia;
    [vm_compute; discriminate|vm_compute; reflexivity].
Defined.

(** Filling the payload of an IPv6 segment destroys its TCP header: the fill starts 20
    bytes plus the TCP header after the start of the buffer, which is the payload of an
    IPv4 packet but the TCP header of an IPv6 one.  The data offset and the flags of an
    IPv6 SYN of a script are overwritten before it is injected. *)
Theorem fill_payload_ipv6 :
  let pkt := script_packet AF_INET6 DIRECTION_INBOUND "S" 1 0 0 in
  prd pkt 40 tcp_doff = Ok 5 /\ prd pkt 40 tcp_syn = Ok 1 /\
  (pkt' ← filled pkt 40 5; prd pkt' 40 tcp_doff) = Ok 0 /\
  (pkt' ← filled pkt 40 5; prd pkt' 40 tcp_syn) = Ok 0.
Proof. vm_compute. repeat split. Qed.

(** Inbound UDP and ICMP packets of a script cannot be injected: the payload fill takes
    the length of the TCP header without testing that there is one, so that
    do_inbound_script_packet dereferences NULL on every packet without a TCP header. *)
Theorem do_inbound_needs_tcp (st : state) (pkt : packet) (i : nat) (s : socket) :
  socket_at st i = Ok s -> pk_tcp pkt = None ->
  do_inbound_script_packet st pkt i = Fault NullDeref.
Proof.
  intros Hs Ht. unfold do_inbound_script_packet, note_inbound. rewrite Hs, Ht. reflexivity.
Qed.

Lemma do_inbound_needs_tcp_witness :
  do_inbound_script_packet (run_start []) sample_udp 0 = Fault NullDeref.
Proof.
  apply (do_inbound_needs_tcp (run_start []) sample_udp 0 listening_socket); reflexivity.
Defined.
