(* ===== verification/FuzzHelper.v ===== *)
(** * FuzzHelper: the fuzzer's input, its growable buffers and its records
    (fuzz_test_helper.c, fuzz_test_script.c, fuzz_test_result.c, fuzz_test.h)

    The fuzzer turns the bytes of an input file into packets and system calls.  This file
    has its global variables, the reads of the input, the array that packets are
    assembled in, and the two records of a run: the script of what was injected, and the
    results that are compared between the two stacks under test.

    The global variables are one record and the functions that use them live in the state
    monad [fuzz] over [exec].  A record is a fixed buffer filled from its start and an
    array of the finished entries, as in C: writing past either is a fault. *)

From S2P Require Import Prelude Headers Packet RunState.

(** ** Records of a run *)

(** [fuzz_test_script.c:6-8] fuzz_script, fuzz_script_index and fuzz_scripts; the globals
    of fuzz_test_result.c have the same shape *)
Record recorder := mk_recorder {
  rec_buffer : option bytes;
  rec_index : Z;
  rec_entries : option (list (option bytes))
}.

(** A byte written at the index, which moves on; the index cannot wrap around, since a
    write outside the buffer is a fault. *)
Definition rec_putc (c : Z) (r : recorder) : exec recorder :=
  buffer ← deref (rec_buffer r);
  buffer ← st8 buffer (rec_index r) c;
  Ok (mk_recorder (Some buffer) (rec_index r + 1) (rec_entries r)).

Fixpoint rec_puts (l : bytes) (r : recorder) : exec recorder :=
  match l with
  | [] => Ok r
  | c :: l' => r ← rec_putc c r; rec_puts l' r
  end.

(** The entry for a loop index: the string in the buffer, which is ended and taken from
    its start again. *)
Definition rec_store (loop : Z) (r : recorder) : exec recorder :=
  buffer ← deref (rec_buffer r);
  buffer ← st8 buffer (rec_index r) 0;
  entries ← deref (rec_entries r);
  if (0 <=? loop) && (loop <? zlen entries) then
    Ok (mk_recorder (Some buffer) 0 (Some (<[Z.to_nat loop := Some (c_string buffer)]> entries)))
  else Fault OutOfBounds.

(** ** Global variables *)

(** [config.h:170-177] struct config: the switches of the fuzzer *)
Record fuzz_config := mk_fuzz_config {
  is_no_fuzz_packet : bool;
  is_no_fuzz_syscall : bool;
  is_no_fuzz_receive_packets_in_background : bool;
  is_fuzz_once : bool;
  is_fuzz_without_dependency : bool;
  is_abort_when_error_occur : bool
}.

(** [fuzz_test_packet.c:5-17] the global variables of the fuzzer *)
Record fuzzer := mk_fuzzer {
  fz_config : fuzz_config;
  fz_file : bytes;
  fz_file_index : Z;
  fz_loop_index : Z;
  fz_script : recorder;
  fz_result : recorder;
  fz_packet_seq : Z;
  fz_last_packet_data_length : Z;
  fz_last_received_packet_ack_seq : Z;
  fz_last_received_packet_ecr : Z;
  fz_is_received_packet_has_timestamp : bool;
  fz_has_fuzzed_once : bool;
  fz_is_fuzz_start : bool;
  fz_checker : bool;
  fz_packetdrill : bool;
  fz_total_write_num : Z
}.

(** Assignments to the global variables. *)
Definition set_fz_file_index (v : Z) (f : fuzzer) : fuzzer :=
  mk_fuzzer (fz_config f) (fz_file f) v (fz_loop_index f) (fz_script f) (fz_result f)
    (fz_packet_seq f) (fz_last_packet_data_length f) (fz_last_received_packet_ack_seq f)
    (fz_last_received_packet_ecr f) (fz_is_received_packet_has_timestamp f)
    (fz_has_fuzzed_once f) (fz_is_fuzz_start f) (fz_checker f) (fz_packetdrill f) (fz_total_write_num f).
Definition set_fz_loop_index (v : Z) (f : fuzzer) : fuzzer :=
  mk_fuzzer (fz_config f) (fz_file f) (fz_file_index f) v (fz_script f) (fz_result f)
    (fz_packet_seq f) (fz_last_packet_data_length f) (fz_last_received_packet_ack_seq f)
    (fz_last_received_packet_ecr f) (fz_is_received_packet_has_timestamp f)
    (fz_has_fuzzed_once f) (fz_is_fuzz_start f) (fz_checker f) (fz_packetdrill f) (fz_total_write_num f).
Definition set_fz_script (v : recorder) (f : fuzzer) : fuzzer :=
  mk_fuzzer (fz_config f) (fz_file f) (fz_file_index f) (fz_loop_index f) v (fz_result f)
    (fz_packet_seq f) (fz_last_packet_data_length f) (fz_last_received_packet_ack_seq f)
    (fz_last_received_packet_ecr f) (fz_is_received_packet_has_timestamp f)
    (fz_has_fuzzed_once f) (fz_is_fuzz_start f) (fz_checker f) (fz_packetdrill f) (fz_total_write_num f).
Definition set_fz_result (v : recorder) (f : fuzzer) : fuzzer :=
  mk_fuzzer (fz_config f) (fz_file f) (fz_file_index f) (fz_loop_index f) (fz_script f) v
    (fz_packet_seq f) (fz_last_packet_data_length f) (fz_last_received_packet_ack_seq f)
    (fz_last_received_packet_ecr f) (fz_is_received_packet_has_timestamp f)
    (fz_has_fuzzed_once f) (fz_is_fuzz_start f) (fz_checker f) (fz_packetdrill f) (fz_total_write_num f).
Definition set_fz_packet_seq (v : Z) (f : fuzzer) : fuzzer :=
  mk_fuzzer (fz_config f) (fz_file f) (fz_file_index f) (fz_loop_index f) (fz_script f)
    (fz_result f) v (fz_last_packet_data_length f) (fz_last_received_packet_ack_seq f)
    (fz_last_received_packet_ecr f) (fz_is_received_packet_has_timestamp f)
    (fz_has_fuzzed_once f) (fz_is_fuzz_start f) (fz_checker f) (fz_packetdrill f) (fz_total_write_num f).
Definition set_fz_last_packet_data_length (v : Z) (f : fuzzer) : fuzzer :=
  mk_fuzzer (fz_config f) (fz_file f) (fz_file_index f) (fz_loop_index f) (fz_script f)
    (fz_result f) (fz_packet_seq f) v (fz_last_received_packet_ack_seq f)
    (fz_last_received_packet_ecr f) (fz_is_received_packet_has_timestamp f)
    (fz_has_fuzzed_once f) (fz_is_fuzz_start f) (fz_checker f) (fz_packetdrill f) (fz_total_write_num f).
Definition set_fz_received (ack ecr : Z) (ts : bool) (f : fuzzer) : fuzzer :=
  mk_fuzzer (fz_config f) (fz_file f) (fz_file_index f) (fz_loop_index f) (fz_script f)
    (fz_result f) (fz_packet_seq f) (fz_last_packet_data_length f) ack ecr ts
    (fz_has_fuzzed_once f) (fz_is_fuzz_start f) (fz_checker f) (fz_packetdrill f) (fz_total_write_num f).
Definition set_fz_has_fuzzed_once (v : bool) (f : fuzzer) : fuzzer :=
  mk_fuzzer (fz_config f) (fz_file f) (fz_file_index f) (fz_loop_index f) (fz_script f)
    (fz_result f) (fz_packet_seq f) (fz_last_packet_data_length f)
    (fz_last_received_packet_ack_seq f) (fz_last_received_packet_ecr f)
    (fz_is_received_packet_has_timestamp f) v (fz_is_fuzz_start f) (fz_checker f)
    (fz_packetdrill f) (fz_total_write_num f).

Definition set_fz_total_write_num (v : Z) (f : fuzzer) : fuzzer :=
  mk_fuzzer (fz_config f) (fz_file f) (fz_file_index f) (fz_loop_index f) (fz_script f)
    (fz_result f) (fz_packet_seq f) (fz_last_packet_data_length f)
    (fz_last_received_packet_ack_seq f) (fz_last_received_packet_ecr f)
    (fz_is_received_packet_has_timestamp f) (fz_has_fuzzed_once f) (fz_is_fuzz_start f)
    (fz_checker f) (fz_packetdrill f) v.
Definition set_fz_is_fuzz_start (v : bool) (f : fuzzer) : fuzzer :=
  mk_fuzzer (fz_config f) (fz_file f) (fz_file_index f) (fz_loop_index f) (fz_script f)
    (fz_result f) (fz_packet_seq f) (fz_last_packet_data_length f)
    (fz_last_received_packet_ack_seq f) (fz_last_received_packet_ecr f)
    (fz_is_received_packet_has_timestamp f) (fz_has_fuzzed_once f) v
    (fz_checker f) (fz_packetdrill f) (fz_total_write_num f).

(** ** The state monad *)

Definition fuzz (A : Type) : Type := fuzzer -> exec (fuzzer * A).

#[export] Instance fuzz_ret : MRet fuzz := fun A a f => Ok (f, a).
#[export] Instance fuzz_bind : MBind fuzz := fun A B k m f => '(f', a) ← m f; k a f'.

Definition lift {A} (m : exec A) : fuzz A := fun f => a ← m; Ok (f, a).
Definition global {A} (get : fuzzer -> A) : fuzz A := fun f => Ok (f, get f).
Definition update (g : fuzzer -> fuzzer) : fuzz unit := fun f => Ok (g f, tt).

(** [m] returns from [f], with a state and a result in [Q]. *)
Definition wp {A} (m : fuzz A) (Q : fuzzer -> A -> Prop) (f : fuzzer) : Prop :=
  exists f' a, m f = Ok (f', a) /\ Q f' a.

Lemma wp_ret {A} (a : A) Q f : Q f a -> wp (mret a) Q f.
Proof. intros. by exists f, a. Qed.
Lemma wp_bind {A B} (m : fuzz A) (k : A -> fuzz B) Q f :
  wp m (fun f' a => wp (k a) Q f') f -> wp (m ≫= k) Q f.
Proof.
  intros (f1&a&E&f2&b&E2&HQ). exists f2, b. split; [|done].
  unfold mbind, fuzz_bind. by rewrite E.
Qed.
Lemma wp_mono {A} (m : fuzz A) (Q Q' : fuzzer -> A -> Prop) f :
  wp m Q f -> (forall f' a, Q f' a -> Q' f' a) -> wp m Q' f.
Proof. intros (f1&a&E&HQ) HI. exists f1, a. eauto. Qed.
Lemma wp_lift {A} (m : exec A) a (Q : fuzzer -> A -> Prop) f : m = Ok a -> Q f a -> wp (lift m) Q f.
Proof. intros -> HQ. by exists f, a. Qed.
Lemma wp_global {A} (get : fuzzer -> A) (Q : fuzzer -> A -> Prop) f : Q f (get f) -> wp (global get) Q f.
Proof. intros HQ. by exists f, (get f). Qed.
Lemma wp_update g (Q : fuzzer -> unit -> Prop) f : Q (g f) tt -> wp (update g) Q f.
Proof. intros HQ. by exists (g f), tt. Qed.

(** ** Reading the input *)

(** [fuzz_test_helper.c:30-36] read_byte *)
Definition read_byte : fuzz Z := fun f =>
  if zlen (fz_file f) <=? fz_file_index f then Ok (f, 0)
  else t ← ld8 (fz_file f) (fz_file_index f);
       Ok (set_fz_file_index (u32 (fz_file_index f + 1)) f, t).

(** [fuzz_test_helper.c:38-47] read_int *)
Definition read_int : fuzz Z :=
  result ← read_byte;
  let result := u32 (Z.shiftl result 8) in
  b ← read_byte;
  let result := u32 (Z.shiftl (Z.lor result b) 8) in
  b ← read_byte;
  let result := u32 (Z.shiftl (Z.lor result b) 8) in
  b ← read_byte;
  mret (Z.lor result b).

(** ** The array a packet is assembled in *)

(** [fuzz_test_packet.c:23-36] fuzz_to_packet: the locals data, fuzz_data_size and
    fuzz_data_capacity *)
Record vec := mk_vec {
  vec_data : bytes;
  vec_size : Z;
  vec_capacity : Z
}.

Section WithMalloc.
Context `{Malloc}.

(** realloc: the old bytes, then what the allocator left. *)
Definition realloc (data : bytes) (n : Z) : bytes :=
  take (Z.to_nat n) data ++ drop (length data) (malloc n).

(** [fuzz_test_helper.c:16-28] push_data; allocation succeeds *)
Definition push_data (v : vec) (value : Z) : exec vec :=
  let v := if vec_capacity v <=? vec_size v
           then mk_vec (realloc (vec_data v) (vec_capacity v * 2)) (vec_size v) (vec_capacity v * 2)
           else v in
  data ← st8 (vec_data v) (vec_size v) value;
  Ok (mk_vec data (vec_size v + 1) (vec_capacity v)).

(** A sequence of calls of push_data. *)
Fixpoint push_all (v : vec) (l : bytes) : exec vec :=
  match l with
  | [] => Ok v
  | x :: l' => v ← push_data v x; push_all v l'
  end.

End WithMalloc.

(** ** Recording the injected packets and system calls *)

(** [fuzz_test_script.c:10-20] reinit_fuzzing_scripts *)
Definition reinit_fuzzing_scripts : fuzz unit :=
  update (set_fz_script (mk_recorder (Some (replicate 3000 0)) 0 (Some (replicate 1000 None)))).

(** [fuzz_test_script.c:22-25] add_char_to_fuzz_script *)
Definition add_char_to_fuzz_script (content : Z) : fuzz unit := fun f =>
  r ← rec_putc content (fz_script f); Ok (set_fz_script r f, tt).

(** [fuzz_test_script.c:27-32] add_content_to_fuzz_script *)
Definition add_content_to_fuzz_script (content : string) : fuzz unit := fun f =>
  r ← rec_puts (string_bytes content) (fz_script f); Ok (set_fz_script r f, tt).

(** [fuzz_test_script.c:56-65] update_fuzz_scripts *)
Definition update_fuzz_scripts : fuzz unit := fun f =>
  if rec_index (fz_script f) <? 1 then Ok (f, tt)
  else r ← rec_store (fz_loop_index f) (fz_script f);
       Ok (set_fz_loop_index (s32 (fz_loop_index f + 1)) (set_fz_script r f), tt).

(** [fuzz_test_result.c:16-26] reinit_fuzzing_results *)
Definition reinit_fuzzing_results : fuzz unit :=
  update (set_fz_result (mk_recorder (Some (replicate (Z.to_nat 30000) 0)) 0 (Some (replicate 1000 None)))).

(** [fuzz_test_result.c:28-35] update_fuzz_results *)
Definition update_fuzz_results : fuzz unit := fun f =>
  if rec_index (fz_result f) <? 1 then Ok (f, tt)
  else r ← rec_store (fz_loop_index f) (fz_result f); Ok (set_fz_result r f, tt).

(** [fuzz_test_result.c:37-45] add_content_to_fuzz_result *)
Definition add_content_to_fuzz_result (content : string) : fuzz unit := fun f =>
  if negb (fz_is_fuzz_start f) then Ok (f, tt)
  else r ← rec_puts (string_bytes content) (fz_result f); Ok (set_fz_result r f, tt).

(** [fuzz_test_result.c:75-83] the guards add_syscall_result_to_fuzz_result and
    add_read_result_to_fuzz_result share *)
Definition is_recording (f : fuzzer) : bool :=
  fz_is_fuzz_start f && bool_decide (is_Some (rec_buffer (fz_result f))) &&
  negb (fz_checker f && negb (fz_packetdrill f)).

(** [fuzz_test_result.c:74-94] add_syscall_result_to_fuzz_result *)
Definition add_syscall_result_to_fuzz_result (syscall_name : string) (actual : Z) : fuzz unit :=
  recording ← global is_recording;
  if negb recording then mret tt
  else if bool_decide (syscall_name ∈ ["read"; "write"; "ioctl"; "fcntl"; "setsockopt"]%string)
  then add_content_to_fuzz_result (syscall_name +:+ " : " +:+ dec actual +:+ newline)
  else mret tt.

(** Bytes written to fuzz_result one by one. *)
Definition put_result (l : bytes) : fuzz unit := fun f =>
  r ← rec_puts l (fz_result f); Ok (set_fz_result r f, tt).

(** [fuzz_test_result.c:96-117] add_read_result_to_fuzz_result: [buf] are the bytes of the
    buffer, [count] of them were read *)
Definition add_read_result_to_fuzz_result (buf : bytes) (count : Z) : fuzz unit :=
  recording ← global is_recording;
  if negb recording || (count <? 1) then mret tt
  else
    _ ← add_content_to_fuzz_result "read_result :";
    l ← lift (get_bytes buf 0 count);
    _ ← put_result ((fun b => u8 (b + 48)) <$> l);
    put_result [10].

(** [fuzz_test_helper.c:70-80] the loop of fuzz_test_result_compare, [n] turns from [i] *)
Fixpoint compare_loop (a b : list (option bytes)) (n : nat) (i : nat) : exec Z :=
  match n with
  | O => Ok (-1)
  | S n' =>
      match a !! i, b !! i with
      | Some x, Some y =>
          match x, y with
          | Some x, Some y =>
              if bool_decide (x = y) then compare_loop a b n' (S i) else Ok (Z.of_nat i)
          | _, _ => compare_loop a b n' (S i)
          end
      | _, _ => Fault OutOfBounds
      end
  end.

(** [fuzz_test_helper.c:69-82] fuzz_test_result_compare *)
Definition fuzz_test_result_compare (a b : list (option bytes)) : exec Z :=
  compare_loop a b 1000 0.

(** [script.h:231-231] NO_TIME_RANGE *)
Definition NO_TIME_RANGE : Z := -1.

(** [fuzz_test_helper.c:84-90] new_event: calloc leaves the other members zero, so that the
    time is absolute and nothing is pointed to *)
Definition new_event (type : event_t) : event :=
  mk_event 0 0 NO_TIME_RANGE NO_TIME_RANGE ABSOLUTE_TIME type.

(** [fuzz_test.h:18-31] reinit_fuzzing_variable; packet_ack_seq and the two counters of
    outbound packets have no reader and are left out *)
Definition reinit_fuzzing_variable : fuzz unit :=
  update (fun f => set_fz_received 0 0 false (set_fz_total_write_num 0
    (set_fz_packet_seq 1 (set_fz_file_index 0 (set_fz_loop_index 0 f))))).

(** [fuzz_test.c:46-57] should_fuzz *)
Definition should_fuzz : fuzz bool :=
  once ← global (fun f => is_fuzz_once (fz_config f));
  if negb once then mret true
  else
    fuzzed ← global fz_has_fuzzed_once;
    if fuzzed : bool then mret false
    else
      b ← read_byte;
      if b mod 0xff <? 0x7f then _ ← update (set_fz_has_fuzzed_once true); mret true
      else mret false.

(** ** Reading: any input gives bytes *)

Definition input_ok (f : fuzzer) : Prop := bytes_ok (fz_file f) /\ 0 <= fz_file_index f.

Lemma input_ok_index i f : input_ok f -> 0 <= i -> input_ok (set_fz_file_index i f).
Proof. intros [? _] ?. by split. Qed.

Lemma wp_read_byte Q f :
  input_ok f -> (forall i b, 0 <= i -> is_byte b -> Q (set_fz_file_index i f) b) ->
  wp read_byte Q f.
Proof.
  intros [Hf Hi] HQ. unfold wp, read_byte. destruct (Z.leb_spec (zlen (fz_file f)) (fz_file_index f)).
  - exists f, 0. split; [done|]. specialize (HQ (fz_file_index f) 0 Hi).
    destruct f. apply HQ. unfold is_byte. lia.
  - rewrite ld8_eq by lia. rewrite bind_Ok_eq. eexists _, _. split; [done|].
    apply HQ; [apply u32_range|by apply byte_at_is_byte].
Qed.

Lemma lor_byte x b : 0 <= x < 2 ^ 24 -> is_byte b -> Z.lor (u32 (Z.shiftl x 8)) b = x * 256 + b.
Proof.
  intros Hx Hb. unfold is_byte in Hb. rewrite Z.shiftl_mul_pow2 by lia.
  rewrite u32_small by lia. change (2 ^ 8) with 256.
  rewrite <-(Z.add_lor_land (x * 256) b).
  assert (Z.land (x * 256) b = 0) as ->; [|lia].
  apply Z.bits_inj'. intros n Hn. rewrite Z.land_spec, Z.bits_0.
  change 256 with (2 ^ 8). destruct (Z.ltb_spec n 8).
  - by rewrite Z.mul_pow2_bits_low.
  - rewrite (Z.bits_above_log2 b); [apply andb_false_r|lia|].
    destruct (Z.eq_dec b 0) as [->|]; [simpl; lia|]. apply Z.log2_lt_pow2; [lia|].
    assert (2 ^ 8 <= 2 ^ n) by (apply Z.pow_le_mono_r; lia). lia.
Qed.

Lemma wp_read_int Q f :
  input_ok f -> (forall i x, 0 <= i -> 0 <= x < 4294967296 -> Q (set_fz_file_index i f) x) ->
  wp read_int Q f.
Proof.
  intros Hf HQ. unfold read_int.
  apply wp_bind, wp_read_byte; [done|]. intros i1 b1 H1 B1. cbv zeta.
  apply wp_bind, wp_read_byte; [split; [apply Hf|done]|]. intros i2 b2 H2 B2.
  apply wp_bind, wp_read_byte; [split; [apply Hf|done]|]. intros i3 b3 H3 B3.
  apply wp_bind, wp_read_byte; [split; [apply Hf|done]|]. intros i4 b4 H4 B4.
  apply wp_ret. unfold is_byte in *. rewrite (lor_byte b1), (lor_byte (b1 * 256 + b2)),
    (lor_byte ((b1 * 256 + b2) * 256 + b3)) by (unfold is_byte; lia).
  apply HQ; lia.
Qed.

(** ** The array holds what was pushed *)

(** [bs] are the bytes pushed so far. *)
Definition vec_ok (v : vec) (bs : bytes) : Prop :=
  zlen (vec_data v) = vec_capacity v /\ bytes_ok (vec_data v) /\ 0 < vec_capacity v /\
  vec_size v = zlen bs /\ vec_size v <= vec_capacity v /\
  take (Z.to_nat (vec_size v)) (vec_data v) = bs.

Lemma put_bytes_next (b : bytes) o l b' :
  0 <= o -> put_bytes b o l = Ok b' ->
  take (Z.to_nat (o + zlen l)) b' = take (Z.to_nat o) b ++ l.
Proof.
  intros Ho [H ->]%put_bytes_Ok. apply in_range_true in H. unfold zlen in *.
  rewrite app_assoc. apply take_app_length'. rewrite length_app, length_take. lia.
Qed.

Section Vec.
Context `{Malloc}.

Lemma realloc_spec data n :
  zlen data <= n -> bytes_ok data ->
  zlen (realloc data n) = n /\ bytes_ok (realloc data n) /\
  take (length data) (realloc data n) = data.
Proof.
  intros Hn Hb. unfold realloc. rewrite take_ge by (unfold zlen in *; lia).
  split; [|split].
  - rewrite zlen_app. unfold zlen in *. rewrite length_drop.
    assert (zlen (malloc n) = n) by (apply malloc_zlen; lia). unfold zlen in *. lia.
  - apply Forall_app. split; [done|]. apply Forall_drop, malloc_ok.
  - by apply take_app_length.
Qed.

Lemma push_data_spec v bs x :
  vec_ok v bs ->
  exists v', push_data v x = Ok v' /\ vec_ok v' (bs ++ [x mod 256]) /\
    vec_capacity v' <= Z.max (vec_capacity v) (2 * vec_size v').
Proof.
  intros (Hz&Hb&Hc&Hs&Hle&Ht). unfold push_data. pose proof (zlen_nonneg bs).
  set (v1 := if vec_capacity v <=? vec_size v then _ else v).
  assert (zlen (vec_data v1) = vec_capacity v1 /\ bytes_ok (vec_data v1) /\
    vec_size v1 = zlen bs /\ vec_size v1 < vec_capacity v1 /\
    vec_capacity v1 <= Z.max (vec_capacity v) (2 * zlen bs) /\
    take (Z.to_nat (vec_size v1)) (vec_data v1) = bs) as (Hz1&Hb1&Hs1&Hlt&Hcap&Ht1).
  { unfold v1. destruct (Z.leb_spec (vec_capacity v) (vec_size v)); simpl.
    - destruct (realloc_spec (vec_data v) (vec_capacity v * 2)) as (Z1&B1&T1); [lia|done|].
      rewrite take_ge in Ht by (unfold zlen in *; lia).
      split_and!; [done|done|done|lia|lia|]. rewrite Hs. unfold zlen.
      rewrite Nat2Z.id, <-Ht at 1. rewrite Ht. rewrite <-Ht at 2. rewrite <-Ht. exact T1.
    - split_and!; [done..|lia|lia|done]. }
  destruct (put_bytes_in (vec_data v1) (vec_size v1) (le_split 1 x)) as (d&E);
    [lia|rewrite zlen_le_split; lia|].
  unfold st8. rewrite E, bind_Ok_eq. eexists. split; [done|].
  pose proof (put_bytes_zlen _ _ _ _ E) as Hd.
  split; [|simpl; lia]. split_and!; simpl.
  - lia.
  - eapply put_bytes_bytes_ok; [..|exact E]; [done|apply le_split_ok].
  - lia.
  - rewrite zlen_app, Hs1. done.
  - lia.
  - change (vec_size v1 + 1) with (vec_size v1 + zlen (le_split 1 x)).
    rewrite (put_bytes_next (vec_data v1) _ _ d) by (done || lia). by rewrite Ht1.
Qed.

Lemma push_all_spec l : forall v bs,
  vec_ok v bs ->
  exists v', push_all v l = Ok v' /\ vec_ok v' (bs ++ (u8 <$> l)) /\
    vec_capacity v' <= Z.max (vec_capacity v) (2 * vec_size v').
Proof.
  induction l as [|x l IH]; intros v bs Hv.
  - exists v. simpl. rewrite app_nil_r. split; [done|]. split; [done|lia].
  - cbn [push_all]. destruct (push_data_spec v bs x Hv) as (v1&->&Hv1&Hc1).
    rewrite bind_Ok_eq. destruct (IH _ _ Hv1) as (v2&->&Hv2&Hc2).
    exists v2. split; [done|]. rewrite <-app_assoc in Hv2. split; [exact Hv2|].
    destruct Hv1 as (_&_&_&Hs1&_), Hv2 as (_&_&_&Hs2&_).
    rewrite !zlen_app in *. pose proof (zlen_nonneg (u8 <$> l)). simpl in Hs2. lia.
Qed.
End Vec.

(** Assembling a packet never writes outside its array: from any well formed array,
    any sequence of calls of push_data returns; the array then holds the old bytes
    followed by the low bytes of the pushed values, in order, and its capacity is at most
    the old one or twice what it holds. *)
Theorem push_data_appends `{Malloc} (v : vec) (bs l : bytes) :
  vec_ok v bs ->
  exists v', push_all v l = Ok v' /\ vec_ok v' (bs ++ (u8 <$> l)) /\
    vec_capacity v' <= Z.max (vec_capacity v) (2 * vec_size v').
Proof. apply push_all_spec. Qed.

Lemma push_data_appends_witness :
  exists v', @push_all zero_malloc (mk_vec [7; 0] 1 2) [256; 3; 5] = Ok v' /\
    vec_ok v' ([7] ++ (u8 <$> [256; 3; 5])) /\
    vec_capacity v' <= Z.max (vec_capacity (mk_vec [7; 0] 1 2)) (2 * vec_size v').
Proof.
  apply (@push_data_appends zero_malloc (mk_vec [7; 0] 1 2) [7] [256; 3; 5]).
  split; [reflexivity|]. split; [repeat constructor; discriminate|].
  split; [reflexivity|]. split; [reflexivity|]. split; [discriminate|reflexivity].
Defined.

(** ** What is recorded is what is stored *)

(** The record has a buffer of [cap] bytes that holds [l] up to the index. *)
Definition rec_holds (r : recorder) (cap : Z) (l : bytes) : Prop :=
  exists b, rec_buffer r = Some b /\ zlen b = cap /\ rec_index r = zlen l /\
    rec_index r <= cap /\ take (length l) b = l.

Lemma rec_puts_spec l : forall r cap l0,
  rec_holds r cap l0 -> bytes_ok l -> zlen l0 + zlen l <= cap ->
  exists r', rec_puts l r = Ok r' /\ rec_holds r' cap (l0 ++ l) /\ rec_entries r' = rec_entries r.
Proof.
  induction l as [|c l IH]; intros r cap l0 Hr Hl Hc.
  - exists r. by rewrite app_nil_r.
  - apply Forall_cons in Hl as [Hc1 Hl]. destruct Hr as (b&Hb&Hz&Hi&Hic&Ht).
    pose proof (zlen_nonneg l0). pose proof (zlen_nonneg l).
    assert (zlen (c :: l) = 1 + zlen l) as Hcl by (unfold zlen; simpl; lia).
    cbn [rec_puts]. unfold rec_putc. rewrite Hb. simpl deref. rewrite bind_Ok_eq.
    destruct (put_bytes_in b (rec_index r) (le_split 1 c)) as (b1&E1);
      [lia|rewrite zlen_le_split; lia|].
    unfold st8. rewrite E1, !bind_Ok_eq.
    destruct (IH (mk_recorder (Some b1) (rec_index r + 1) (rec_entries r)) cap (l0 ++ [c]))
      as (r'&E&Hr'&He); [|done|rewrite zlen_app; change (zlen [c]) with 1; lia|].
    + exists b1. simpl. rewrite zlen_app. change (zlen [c]) with 1.
      split_and!; [done|by rewrite (put_bytes_zlen _ _ _ _ E1)|lia|lia|].
      pose proof (put_bytes_next b (rec_index r) (le_split 1 c) b1 ltac:(lia) E1) as Hn.
      assert (le_split 1 c = [c]) as Ec by (simpl; f_equal; apply Z.mod_small; exact Hc1).
      rewrite Ec, Hi in Hn. change (zlen [c]) with 1 in Hn.
      assert (Z.to_nat (zlen l0) = length l0) as En by (unfold zlen; lia).
      rewrite En, Ht in Hn. rewrite length_app. simpl length.
      assert (length l0 + 1 = Z.to_nat (zlen l0 + 1))%nat as -> by (unfold zlen; lia). exact Hn.
    + exists r'. rewrite E. split; [done|]. by rewrite <-app_assoc in Hr'.
Qed.

(** What does not fit is a store past the end. *)
Lemma rec_puts_full l : forall r cap l0,
  rec_holds r cap l0 -> bytes_ok l -> cap < zlen l0 + zlen l -> rec_puts l r = Fault OutOfBounds.
Proof.
  induction l as [|c l IH]; intros r cap l0 Hr Hl Hc.
  - destruct Hr as (b&_&_&Hi&Hic&_). change (zlen []) with 0 in Hc. lia.
  - assert (zlen (c :: l) = 1 + zlen l) as Hcl by (unfold zlen; simpl; lia).
    destruct (decide (zlen l0 + 1 <= cap)) as [Hfit|Hfit].
    + destruct (rec_puts_spec [c] r cap l0) as (r'&E&Hr'&_);
        [done|apply Forall_cons in Hl as [? _]; by constructor|change (zlen [c]) with 1; lia|].
      cbn [rec_puts] in E |- *. apply exec_bind_Ok in E as (r1&->&[= ->]). rewrite bind_Ok_eq.
      apply (IH r' cap (l0 ++ [c])); [done|by apply Forall_cons in Hl as [_ ?]|].
      rewrite zlen_app. change (zlen [c]) with 1. lia.
    + destruct Hr as (b&Hb&Hz&Hi&Hic&_). cbn [rec_puts]. unfold rec_putc. rewrite Hb. cbn [deref].
      rewrite bind_Ok_eq. unfold st8, put_bytes, in_range.
      assert ((rec_index r + zlen (le_split 1 c) <=? zlen b) = false) as ->
        by (rewrite zlen_le_split; apply Z.leb_gt; lia).
      by rewrite andb_false_r.
Qed.

Lemma rec_store_spec r cap l es loop :
  rec_holds r cap l -> zlen l < cap -> Forall (fun b => b <> 0) l ->
  rec_entries r = Some es -> 0 <= loop < zlen es ->
  exists r', rec_store loop r = Ok r' /\ rec_holds r' cap [] /\
    rec_entries r' = Some (<[Z.to_nat loop := Some l]> es).
Proof.
  intros (b&Hb&Hz&Hi&Hic&Ht) Hcap Hl He Hloop. unfold rec_store. rewrite Hb. simpl deref.
  rewrite bind_Ok_eq. pose proof (zlen_nonneg l).
  destruct (put_bytes_in b (rec_index r) (le_split 1 0)) as (b1&E1); [lia|rewrite zlen_le_split; lia|].
  unfold st8. rewrite E1, bind_Ok_eq, He. simpl deref. rewrite bind_Ok_eq.
  destruct (Z.leb_spec 0 loop), (Z.ltb_spec loop (zlen es)); try lia. simpl.
  eexists. split; [done|]. split.
  - exists b1. simpl. split_and!; [done|by rewrite (put_bytes_zlen _ _ _ _ E1)|done|lia|done].
  - simpl. do 3 f_equal. apply put_bytes_Ok in E1 as [_ ->].
    assert (Z.to_nat (rec_index r) = length l) as -> by (unfold zlen in *; lia).
    rewrite Ht. change (le_split 1 0 ++ ?t) with (0 :: t). by apply c_string_app.
Qed.

(** Strings recorded one after the other. *)
Fixpoint add_contents (l : list string) : fuzz unit :=
  match l with
  | [] => mret tt
  | s :: l' => _ ← add_content_to_fuzz_script s; add_contents l'
  end.

Definition no_nul (s : string) : Prop := Forall (fun b => b <> 0) (string_bytes s).

Lemma add_contents_spec l : forall f cap l0,
  rec_holds (fz_script f) cap l0 -> zlen l0 + zlen (mjoin (string_bytes <$> l)) <= cap ->
  exists r, add_contents l f = Ok (set_fz_script r f, tt) /\
    rec_holds r cap (l0 ++ mjoin (string_bytes <$> l)) /\
    rec_entries r = rec_entries (fz_script f).
Proof.
  induction l as [|s l IH]; intros f cap l0 Hr Hc.
  - exists (fz_script f). simpl. rewrite app_nil_r. by destruct f.
  - change (mjoin (string_bytes <$> s :: l)) with (string_bytes s ++ mjoin (string_bytes <$> l)) in *.
    rewrite zlen_app in Hc. pose proof (zlen_nonneg (mjoin (string_bytes <$> l))).
    destruct (rec_puts_spec (string_bytes s) (fz_script f) cap l0) as (r1&E1&Hr1&He1);
      [done|apply string_bytes_ok|lia|].
    destruct (IH (set_fz_script r1 f) cap (l0 ++ string_bytes s)) as (r&E&Hr'&He);
      [done|rewrite zlen_app; lia|].
    exists r. split; [|rewrite app_assoc; split; [done|by rewrite He]].
    cbn [add_contents]. unfold mbind, fuzz_bind, add_content_to_fuzz_script at 1.
    rewrite E1, !bind_Ok_eq, E. done.
Qed.

(** The script of an injection is recorded whole: from an empty record, strings of
    fewer than 3000 bytes in all that are added one after the other become, at the
    update, one entry, their concatenation, at the loop's index; the other entries stay,
    the index moves on and the record is empty again. *)
Theorem record_script_roundtrip (f : fuzzer) (es : list (option bytes)) (l : list string) :
  rec_holds (fz_script f) 3000 [] -> rec_entries (fz_script f) = Some es ->
  0 <= fz_loop_index f < zlen es -> zlen es <= 1000 ->
  Forall no_nul l -> 0 < zlen (mjoin (string_bytes <$> l)) < 3000 ->
  exists r, (_ ← add_contents l; update_fuzz_scripts) f
      = Ok (set_fz_loop_index (fz_loop_index f + 1) (set_fz_script r f), tt) /\
    rec_holds r 3000 [] /\
    rec_entries r = Some (<[Z.to_nat (fz_loop_index f) := Some (mjoin (string_bytes <$> l))]> es).
Proof.
  intros Hr He Hi Hes Hn Hl.
  destruct (add_contents_spec l f 3000 [] Hr) as (r1&E1&Hr1&He1); [change (zlen []) with 0; lia|].
  rewrite app_nil_l in Hr1.
  destruct (rec_store_spec r1 3000 _ es (fz_loop_index f) Hr1) as (r&E&Hr'&He');
    [lia| |by rewrite He1|done|].
  { clear -Hn. induction Hn as [|s l Hs _ IH]; [constructor|].
    change (mjoin (string_bytes <$> s :: l)) with (string_bytes s ++ mjoin (string_bytes <$> l)).
    by apply Forall_app. }
  exists r. split; [|done]. unfold mbind, fuzz_bind at 1. rewrite E1, bind_Ok_eq.
  unfold update_fuzz_scripts. simpl fz_script. simpl fz_loop_index.
  destruct Hr1 as (_&_&_&->&_). destruct (Z.ltb_spec (zlen (mjoin (string_bytes <$> l))) 1); [lia|].
  rewrite E, bind_Ok_eq, s32_small by lia. done.
Qed.

(** The globals when the script record has been set up, for an input file; the record of
    results is not allocated yet. *)
Definition fuzz_start (file : bytes) : fuzzer :=
  mk_fuzzer (mk_fuzz_config false false false false false false) file 0 0
    (mk_recorder (Some (replicate 3000 0)) 0 (Some (replicate 1000 None)))
    (mk_recorder None 0 None) 1 0 0 0 false false false false false 0.

Lemma fuzz_start_script file : rec_holds (fz_script (fuzz_start file)) 3000 [].
Proof.
  exists (replicate 3000 0). split; [reflexivity|]. split; [vm_compute; reflexivity|].
  split; [reflexivity|]. split; [vm_compute; discriminate|reflexivity].
Qed.

Lemma record_script_roundtrip_witness :
  exists r, (_ ← add_contents ["+0 < "; "ack"]%string; update_fuzz_scripts) (fuzz_start [])
      = Ok (set_fz_loop_index (0 + 1) (set_fz_script r (fuzz_start [])), tt) /\
    rec_holds r 3000 [] /\
    rec_entries r = Some (<[Z.to_nat 0 := Some (mjoin (string_bytes <$> ["+0 < "; "ack"]%string))]>
      (replicate 1000 None)).
Proof.
  apply (record_script_roundtrip (fuzz_start []) (replicate 1000 None) ["+0 < "; "ack"]%string).
  - apply fuzz_start_script.
  - reflexivity.
  - split; [discriminate|reflexivity].
  - discriminate.
  - repeat constructor; discriminate.
  - split; reflexivity.
Defined.

(** ** Comparing the results of the two stacks *)

(** Both stacks have a result for turn [i], and the results differ. *)
Definition differ_at (a b : list (option bytes)) (i : nat) : Prop :=
  exists x y, a !! i = Some (Some x) /\ b !! i = Some (Some y) /\ x <> y.

Lemma compare_loop_spec a b n : forall i,
  (i + n <= length a)%nat -> (i + n <= length b)%nat ->
  exists r, compare_loop a b n i = Ok r /\
    ((r = -1 /\ forall k, (i <= k < i + n)%nat -> ~ differ_at a b k) \/
     exists k, r = Z.of_nat k /\ (i <= k < i + n)%nat /\ differ_at a b k /\
       forall j, (i <= j < k)%nat -> ~ differ_at a b j).
Proof.
  induction n as [|n IH]; intros i Ha Hb; cbn [compare_loop].
  { exists (-1). split; [done|]. left. split; [done|lia]. }
  destruct (lookup_lt_is_Some_2 a i) as [x Ex]; [lia|].
  destruct (lookup_lt_is_Some_2 b i) as [y Ey]; [lia|]. rewrite Ex, Ey.
  assert (Hskip : ~ differ_at a b i -> exists r, compare_loop a b n (S i) = Ok r /\
    ((r = -1 /\ forall k, (i <= k < i + S n)%nat -> ~ differ_at a b k) \/
     exists k, r = Z.of_nat k /\ (i <= k < i + S n)%nat /\ differ_at a b k /\
       forall j, (i <= j < k)%nat -> ~ differ_at a b j)).
  { intros Hi. destruct (IH (S i)) as (r&E&Hr); [lia..|]. exists r. split; [done|].
    assert (Hpre : forall k, (i <= k)%nat -> ((S i <= k)%nat -> ~ differ_at a b k) -> ~ differ_at a b k).
    { intros k Hk H. destruct (decide (k = i)) as [->|]; [done|]. apply H. lia. }
    destruct Hr as [[-> Hr]|(k&->&Hk&Hd&Hj)]; [left|right].
    - split; [done|]. intros k Hk. apply Hpre; [lia|]. intros. apply Hr. lia.
    - exists k. split; [done|]. split; [lia|]. split; [done|]. intros j Hjk.
      apply Hpre; [lia|]. intros. apply Hj. lia. }
  destruct x as [x|], y as [y|]; try (apply Hskip; intros (?&?&?&?&?); congruence).
  case_bool_decide as Hxy; [apply Hskip; intros (?&?&?&?&?); congruence|].
  exists (Z.of_nat i). split; [done|]. right. exists i. split; [done|]. split; [lia|].
  split; [exists x, y; done|lia].
Qed.

(** Comparing two runs returns the first difference: on two arrays of results, the
    comparison returns -1 if and only if no turn has a result in both that differs, and
    otherwise the least such turn; a result that only one of the runs has is passed
    over. *)
Theorem fuzz_test_result_compare_first (a b : list (option bytes)) :
  length a = 1000%nat -> length b = 1000%nat ->
  exists r, fuzz_test_result_compare a b = Ok r /\
    ((r = -1 /\ forall k, ~ differ_at a b k) \/
     exists k, r = Z.of_nat k /\ differ_at a b k /\ forall j, (j < k)%nat -> ~ differ_at a b j).
Proof.
  intros Ha Hb. destruct (compare_loop_spec a b 1000 0) as (r&E&Hr); [lia..|].
  exists r. split; [exact E|]. destruct Hr as [[-> Hr]|(k&->&Hk&Hd&Hj)]; [left|right].
  - split; [done|]. intros k (x&y&Hx&Hy&Hn). apply (Hr k); [|by exists x, y].
    apply lookup_lt_Some in Hx. lia.
  - exists k. split; [done|]. split; [done|]. intros j Hj'. apply Hj. lia.
Qed.

(** Results of which only turn 3 differs; turn 2 is missing on one side. *)
Definition sample_results (c : Z) : list (option bytes) :=
  [Some [1]; None; (if c =? 5 then None else Some [2]); Some [c]] ++ replicate 996 None.

Lemma fuzz_test_result_compare_first_witness :
  exists r, fuzz_test_result_compare (sample_results 5) (sample_results 6) = Ok r /\
    ((r = -1 /\ forall k, ~ differ_at (sample_results 5) (sample_results 6) k) \/
     exists k, r = Z.of_nat k /\ differ_at (sample_results 5) (sample_results 6) k /\
       forall j, (j < k)%nat -> ~ differ_at (sample_results 5) (sample_results 6) j).
Proof.
  apply (fuzz_test_result_compare_first (sample_results 5) (sample_results 6)); reflexivity.
Defined.

Example compare_sample : fuzz_test_result_compare (sample_results 5) (sample_results 6) = Ok 3.
Proof. vm_compute. reflexivity. Qed.
