(* ===== verification/FuzzPacket.v ===== *)
(** * FuzzPacket: packets made from the fuzzer's input (fuzz_test_packet.c, fuzz_test.c)

    [fuzz_to_packet] assembles an IPv4 segment from input bytes: fixed headers, the
    sequence number the run is at, random window and urgent pointer, up to ten random TCP
    options and a payload that spells the sequence numbers.  [inject_error_to_packet]
    then corrupts single header fields.  The theorems say that every input gives a packet
    the parser accepts, with valid checksums, and which bytes an injected error touches. *)

From S2P Require Import Prelude Checksum Headers Packet PacketParser TcpOptions IpPacket TcpPacket PacketChecksum RunState FuzzHelper.

(** [fuzz_test_packet.h:16-19] the limits of a fuzzed packet *)
Definition MAX_OPTIONS_LENGTH : Z := 40.
Definition MAX_PACKET_DATA_LENGTH : Z := 10000.
Definition IP_HEADER_LENGTH : Z := 20.
Definition TCP_OFFSET_FIELD_INDEX : Z := 32.

(** [fuzz_test_packet.c:26-34] fixed_data *)
Definition fixed_data : bytes :=
  [0x45; 0x00; 0x00; 0x00; 0x00; 0x00; 0x00; 0x00; 0xff; 0x06; 0x00; 0x00;
   0x00; 0x00; 0x00; 0x00; 0x00; 0x00; 0x00; 0x00].

(** [fuzz_test_packet.c:97-180] fuzz_to_packet: the kind and the length of an option *)
Definition fuzz_option : fuzz (Z * Z) :=
  b ← read_byte;
  let tmp := s8 b in
  match Z.rem tmp 17 with
  | 0 => mret (TCPOPT_EOL, 1)
  | 1 => mret (TCPOPT_NOP, 1)
  | 2 => mret (TCPOPT_MAXSEG, TCPOLEN_MAXSEG)
  | 3 => mret (TCPOPT_WINDOW, TCPOLEN_WINDOW)
  | 4 => mret (TCPOPT_SACK_PERMITTED, TCPOLEN_SACK_PERMITTED)
  | 5 => l ← read_byte; mret (TCPOPT_SACK, (l mod 4 + 1) * 8)
  | 6 => mret (TCPOPT_TIMESTAMP, TCPOLEN_TIMESTAMP)
  | 7 => l ← read_byte; mret (TCPOPT_FASTOPEN, l mod MAX_OPTIONS_LENGTH)
  | 8 => l ← read_byte; mret (TCPOPT_EXP, l mod MAX_OPTIONS_LENGTH)
  | _ => l ← read_byte; mret (u8 tmp, if l =? 0 then 2 else l)
  end.

Section WithMalloc.
Context `{Malloc}.

(** Input bytes pushed one by one. *)
Fixpoint push_reads (n : nat) (v : vec) : fuzz vec :=
  match n with
  | O => mret v
  | S n' => b ← read_byte; v ← lift (push_data v b); push_reads n' v
  end.

(** [fuzz_test_packet.c:96-204] fuzz_to_packet: the loop over the options, [n] of them
    still to come *)
Fixpoint fuzz_options (n : nat) (v : vec) (options_length : Z) : fuzz (vec * Z) :=
  match n with
  | O => mret (v, options_length)
  | S n' =>
      '(kind, length) ← fuzz_option;
      if MAX_OPTIONS_LENGTH <? options_length + length then mret (v, options_length)
      else
        let options_length := u8 (options_length + length) in
        v ← lift (push_data v kind);
        v ← (if 1 <? length then lift (push_data v length) else mret v);
        v ← push_reads (Z.to_nat (length - 2)) v;
        _ ← add_content_to_fuzz_script ("// kind is " +:+ dec kind +:+ ", length is "
              +:+ dec length +:+ newline);
        fuzz_options n' v options_length
  end.

(** [fuzz_test_packet.c:36-89] fuzz_to_packet: the IP header and the first 20 bytes of the
    TCP header *)
Definition fuzz_headers : fuzz vec :=
  let v := mk_vec (malloc 200) 0 200 in
  v ← lift (push_all v fixed_data);
  v ← lift (push_all v [0x00; 0x00; 0x00; 0x00]);
  free ← global (fun f => is_fuzz_without_dependency (fz_config f));
  packet_seq ← global fz_packet_seq;
  v ← (if free : bool then push_reads 4 v
       else lift (push_all v [Z.land (Z.shiftr packet_seq 24) 0xFF;
              Z.land (Z.shiftr packet_seq 16) 0xFF; Z.land (Z.shiftr packet_seq 8) 0xFF;
              Z.land packet_seq 0xFF]));
  v ← lift (push_all v [0x00; 0x00; 0x00; 0x01]);
  v ← lift (push_all v [0x00; 0x10]);
  v ← push_reads 2 v;
  v ← lift (push_all v [0x00; 0x00]);
  push_reads 2 v.

(** [fuzz_test_packet.c:220-224] fuzz_to_packet: data[32], where the reserved bits are made
    the same as the offset *)
Definition set_offset (v : vec) (tcp_header_length : Z) : exec vec :=
  let tcp_off := u8 (tcp_header_length / 4) in
  data ← st8 (vec_data v) TCP_OFFSET_FIELD_INDEX (Z.lor (u8 (Z.shiftl tcp_off 4)) tcp_off);
  Ok (mk_vec data (vec_size v) (vec_capacity v)).

(** [fuzz_test_packet.c:232-234] fuzz_to_packet: the bytes of data pushed, [n] of them from
    index [i] *)
Fixpoint seq_digits (n : nat) (seq i : Z) : bytes :=
  match n with
  | O => []
  | S n' => u32 (seq + i) mod 10 :: seq_digits n' seq (i + 1)
  end.

(** [fuzz_test_packet.c:240-259] fuzz_to_packet: the packet of the assembled bytes *)
Definition finish_packet (v : vec) : exec packet :=
  let packet := packet_new (vec_size v) in
  l ← get_bytes (vec_data v) 0 (vec_size v);
  buffer ← put_bytes (pk_buffer packet) 0 l;
  '(packet, result) ← parse_packet (set_pk_buffer buffer packet) (vec_size v) PACKET_LAYER_3_IP;
  packet ← checksum_packet packet;
  match result with
  | PACKET_OK => Ok (set_pk_direction DIRECTION_INBOUND packet)
  | _ => Fault Aborted
  end.

(** [fuzz_test_packet.c:206-260] fuzz_to_packet: from the padding of the options on *)
Definition fuzz_tail (is_fuzz_data : bool) (v : vec) (options_length : Z) : fuzz packet :=
  let tcp_header_length := u8 (20 + options_length) in
  let padding_length := u8 (4 - options_length mod 4) in
  let padding := if padding_length <? 4 then padding_length else 0 in
  v ← lift (push_all v (replicate (Z.to_nat padding) 0x00));
  let tcp_header_length := u8 (tcp_header_length + padding) in
  v ← lift (set_offset v tcp_header_length);
  length ← (if is_fuzz_data then i ← read_int; mret (i mod MAX_PACKET_DATA_LENGTH) else mret 0);
  _ ← update (set_fz_last_packet_data_length length);
  packet_seq ← global fz_packet_seq;
  v ← lift (push_all v (seq_digits (Z.to_nat length) packet_seq 0));
  let ip_length := u16 (IP_HEADER_LENGTH + tcp_header_length + length) in
  data ← lift (wr (vec_data v) 0 ipv4_tot_len (htons ip_length));
  lift (finish_packet (mk_vec data (vec_size v) (vec_capacity v))).

(** [fuzz_test_packet.c:22-260] fuzz_to_packet *)
Definition fuzz_to_packet (is_fuzz_options is_fuzz_data : bool) : fuzz packet :=
  v ← fuzz_headers;
  '(v, options_length) ←
    (if is_fuzz_options then
       c ← read_byte;
       fuzz_options (Z.to_nat (c mod 11)) v 0
     else mret (v, 0));
  fuzz_tail is_fuzz_data v options_length.

End WithMalloc.

(** [fuzz_test.c:397-402] inject_error_to_packet: the error in the IP version; its line for
    the script is overwritten below *)
Definition inject_version_error (p : packet) (tmp : Z) : fuzz packet :=
  if tmp <? 50 then mret p
  else if tmp <? 100 then
    b ← read_byte;
    ipv4 ← lift (deref (pk_ipv4 p));
    lift (pwr p ipv4 ipv4_version b)
  else mret p.

(** [fuzz_test.c:403-415] inject_error_to_packet: the error in another field of the IP
    header, and the line for the script *)
Definition inject_ip_error (p : packet) (tmp : Z) : fuzz (packet * string) :=
  ipv4 ← lift (deref (pk_ipv4 p));
  if tmp <? 150 then
    b ← read_byte;
    p ← lift (pwr p ipv4 ipv4_ihl b);
    ihl ← lift (prd p ipv4 ipv4_ihl);
    mret (p, "// set ip ihl to 0x" +:+ hex_padded 2 ihl +:+ newline)
  else if tmp <? 200 then
    p ← lift (pwr p ipv4 ipv4_check 0);
    check ← lift (prd p ipv4 ipv4_check);
    mret (p, "// set ip checksum to 0x" +:+ hex_padded 4 check +:+ newline)
  else
    b ← read_byte;
    c ← read_byte;
    let fuzz_bytes := Z.lor (u16 (Z.shiftl b 8)) c in
    p ← lift (pwr p ipv4 ipv4_frag_off fuzz_bytes);
    frag_off ← lift (prd p ipv4 ipv4_frag_off);
    mret (p, "// set ip frag_off to 0x" +:+ hex_padded 4 frag_off +:+ newline).

(** [fuzz_test.c:431-433] inject_error_to_packet: the loop that makes the payload fit the
    sequence number *)
Fixpoint refill (p : packet) (n : nat) (header_length currentSeq i : Z) : exec packet :=
  match n with
  | O => Ok p
  | S n' =>
      b ← st8 (pk_buffer p) (u32 (header_length + i)) (u32 (currentSeq + i) mod 10);
      refill (set_pk_buffer b p) n' header_length currentSeq (i + 1)
  end.

(** [fuzz_test.c:419-444] inject_error_to_packet: the error in the TCP header *)
Definition inject_tcp_error (p : packet) (tmp : Z) : fuzz (packet * string) :=
  if tmp <? 50 then mret (p, "")
  else
    tcp ← lift (deref (pk_tcp p));
    if tmp <? 100 then
      v ← read_int;
      p ← lift (pwr p tcp tcp_seq v);
      len ← global fz_last_packet_data_length;
      let header_length := u32 (pk_buffer_bytes p - len) in
      seq ← lift (prd p tcp tcp_seq);
      p ← lift (refill p (Z.to_nat len) header_length (ntohl seq) 0);
      seq ← lift (prd p tcp tcp_seq);
      mret (p, "// set tcp seq to 0x" +:+ hex_padded 8 seq +:+ newline)
    else if tmp <? 150 then
      v ← read_int;
      p ← lift (pwr p tcp tcp_ack_seq v);
      ack_seq ← lift (prd p tcp tcp_ack_seq);
      mret (p, "// set tcp ack seq to 0x" +:+ hex_padded 8 ack_seq +:+ newline)
    else if tmp <? 200 then
      b ← read_byte;
      p ← lift (pwr p tcp (F8 13) b);
      flags ← lift (prd p tcp (F8 13));
      mret (p, "// set tcp flags to 0x" +:+ hex_padded 2 flags +:+ newline)
    else
      b ← read_byte;
      p ← lift (pwr p tcp tcp_doff b);
      doff ← lift (prd p tcp tcp_doff);
      mret (p, "// set tcp offset to 0x" +:+ hex_padded 2 doff +:+ newline).

(** [fuzz_test.c:393-447] inject_error_to_packet *)
Definition inject_error_to_packet (p : packet) : fuzz packet :=
  tmp ← read_byte;
  p ← inject_version_error p tmp;
  '(p, ip_error_string) ← inject_ip_error p tmp;
  _ ← add_content_to_fuzz_script ip_error_string;
  tmp ← read_byte;
  '(p, tcp_error_string) ← inject_tcp_error p tmp;
  _ ← add_content_to_fuzz_script tcp_error_string;
  mret p.

(** ** Pushing *)

Section Pushing.
Context `{Malloc}.

Lemma wp_push_all v bs l Q f :
  vec_ok v bs -> (forall v', vec_ok v' (bs ++ (u8 <$> l)) -> Q f v') ->
  wp (lift (push_all v l)) Q f.
Proof.
  intros Hv HQ. destruct (push_all_spec l v bs Hv) as (v'&E&Hv'&_).
  eapply wp_lift; [exact E|]. by apply HQ.
Qed.

Lemma wp_push v bs x Q f :
  vec_ok v bs -> (forall v', vec_ok v' (bs ++ [u8 x]) -> Q f v') ->
  wp (lift (push_data v x)) Q f.
Proof.
  intros Hv HQ. destruct (push_data_spec v bs x Hv) as (v'&E&Hv'&_).
  eapply wp_lift; [exact E|]. by apply HQ.
Qed.

Lemma wp_push_reads n : forall v bs f Q,
  input_ok f -> vec_ok v bs ->
  (forall i v' l, 0 <= i -> vec_ok v' (bs ++ l) -> length l = n -> bytes_ok l ->
     Q (set_fz_file_index i f) v') ->
  wp (push_reads n v) Q f.
Proof.
  induction n as [|n IH]; intros v bs f Q Hf Hv HQ; cbn [push_reads].
  - apply wp_ret. specialize (HQ (fz_file_index f) v [] (proj2 Hf)). rewrite app_nil_r in HQ.
    destruct f. by apply HQ; [|done|constructor].
  - apply wp_bind, wp_read_byte; [done|]. intros i b Hi Hb.
    apply wp_bind, (wp_push _ bs); [done|]. intros v1 Hv1.
    apply (IH _ (bs ++ [u8 b])); [split; [apply Hf|done]|done|].
    intros i2 v2 l Hi2 Hv2 Hl Hbl. apply (HQ i2 v2 (u8 b :: l)); [done| |by simpl; rewrite Hl|].
    + by rewrite <-app_assoc in Hv2.
    + constructor; [apply u8_range|done].
Qed.

(** A store into the part of the array that is in use. *)
Lemma vec_put v bs o l :
  vec_ok v bs -> bytes_ok l -> 0 <= o -> o + zlen l <= zlen bs ->
  exists d bs', put_bytes (vec_data v) o l = Ok d /\ put_bytes bs o l = Ok bs' /\
    vec_ok (mk_vec d (vec_size v) (vec_capacity v)) bs'.
Proof.
  intros (Hz&Hb&Hc&Hs&Hle&Ht) Hl Ho Hfit.
  destruct (put_bytes_in (vec_data v) o l) as [d Ed]; [lia|lia|].
  destruct (put_bytes_in bs o l) as [bs' Eb]; [lia|lia|].
  exists d, bs'. split; [done|]. split; [done|].
  pose proof (put_bytes_zlen _ _ _ _ Ed) as Zd. pose proof (put_bytes_zlen _ _ _ _ Eb) as Zb.
  split_and!; simpl; [lia|by eapply put_bytes_bytes_ok; [..|exact Ed]|done|lia|done|].
  assert (Hzt : zlen (take (Z.to_nat (vec_size v)) d) = zlen bs').
  { unfold zlen in *. rewrite length_take. lia. }
  apply bytes_ext; [done|]. intros i Hi. rewrite byte_at_take by lia.
  rewrite (byte_at_put _ _ _ _ _ Ed), (byte_at_put _ _ _ _ _ Eb) by lia.
  destruct (_ && _); [done|]. rewrite <-Ht. rewrite byte_at_take by lia. done.
Qed.

End Pushing.

(** ** The options *)

Lemma dec_byte_length k : is_byte k -> zlen (string_bytes (dec k)) <= 3.
Proof.
  intros Hk. assert (forallb (fun n => zlen (string_bytes (dec (Z.of_nat n))) <=? 3) (seq 0 256)
    = true) as H by (vm_compute; reflexivity).
  rewrite forallb_forall in H. specialize (H (Z.to_nat k)).
  rewrite Z2Nat.id in H by (unfold is_byte in Hk; lia). apply Z.leb_le, H, in_seq.
  unfold is_byte in Hk. lia.
Qed.

Lemma option_comment_length k l : is_byte k -> is_byte l ->
  zlen (string_bytes ("// kind is " +:+ dec k +:+ ", length is " +:+ dec l +:+ newline)) <= 30.
Proof.
  intros Hk%dec_byte_length Hl%dec_byte_length. rewrite !string_bytes_app, !zlen_app.
  change (zlen (string_bytes "// kind is ")) with 11.
  change (zlen (string_bytes ", length is ")) with 12.
  change (zlen (string_bytes newline)) with 1. lia.
Qed.

Lemma wp_fuzz_option Q f :
  input_ok f ->
  (forall i kind length, 0 <= i -> is_byte kind -> is_byte length ->
     Q (set_fz_file_index i f) (kind, length)) ->
  wp fuzz_option Q f.
Proof.
  intros Hf HQ. unfold fuzz_option. apply wp_bind, wp_read_byte; [done|]. intros i b Hi Hb.
  cbv zeta. unfold is_byte in Hb.
  assert (forall k l, is_byte k -> is_byte l -> wp (mret (k, l)) Q (set_fz_file_index i f)) as H1.
  { intros. by apply wp_ret, HQ. }
  assert (forall (g : Z -> Z) k, is_byte k -> (forall l, is_byte l -> is_byte (g l)) ->
    wp (l ← read_byte; mret (k, g l)) Q (set_fz_file_index i f)) as H2.
  { intros g k Hk Hg. apply wp_bind, wp_read_byte; [split; [apply Hf|done]|]. intros i2 l Hi2 Hl.
    apply wp_ret. apply HQ; auto. }
  assert (is_byte (u8 (s8 b))) as Hk by apply u8_range.
  assert (wp (l ← read_byte; mret (u8 (s8 b), if l =? 0 then 2 else l)) Q (set_fz_file_index i f))
    as Hd by (apply (H2 (fun l => if l =? 0 then 2 else l)); [done|];
              intros l Hl; destruct (l =? 0); [done|exact Hl]).
  assert (forall m l, 0 < m < 256 -> is_byte (l mod m)) as Hm.
  { intros m l Hm. unfold is_byte. pose proof (Z.mod_pos_bound l m). lia. }
  repeat (case_match; try exact Hd); try (by apply H1).
  - apply (H2 (fun l => l mod MAX_OPTIONS_LENGTH)); [done|]. intros. by apply Hm.
  - apply (H2 (fun l => (l mod 4 + 1) * 8)); [done|]. intros l _. unfold is_byte. zlia.
  - apply (H2 (fun l => l mod MAX_OPTIONS_LENGTH)); [done|]. intros. by apply Hm.
Qed.

(** The script record has room for [n] more bytes. *)
Definition room (r : recorder) (n : Z) : Prop :=
  exists l, rec_holds r 3000 l /\ zlen l + n <= 3000.

Lemma room_mono r n m : room r n -> m <= n -> room r m.
Proof. intros (l&Hl&Hn) Hm. exists l. split; [done|lia]. Qed.

Lemma wp_add_content s n Q f :
  room (fz_script f) (zlen (string_bytes s) + n) ->
  (forall r, room r n -> Q (set_fz_script r f) tt) ->
  0 <= n -> wp (add_content_to_fuzz_script s) Q f.
Proof.
  intros (l&Hl&Hn) HQ Hn0.
  destruct (rec_puts_spec (string_bytes s) (fz_script f) 3000 l Hl) as (r&E&Hr&_);
    [apply string_bytes_ok|lia|].
  exists (set_fz_script r f), tt. unfold add_content_to_fuzz_script. rewrite E. split; [done|].
  apply HQ. exists (l ++ string_bytes s). split; [done|]. rewrite zlen_app. lia.
Qed.

Section Options.
Context `{Malloc}.

(** One option takes as many bytes as its length says, but one when the length is 0. *)
Lemma wp_push_option {A} v bs kind length (k : vec -> fuzz A) Q f :
  input_ok f -> vec_ok v bs -> is_byte kind -> is_byte length ->
  (forall i v' os, 0 <= i -> vec_ok v' (bs ++ os) -> zlen os = Z.max 1 length ->
     wp (k v') Q (set_fz_file_index i f)) ->
  wp (v ← lift (push_data v kind);
      v ← (if 1 <? length then lift (push_data v length) else mret v);
      v ← push_reads (Z.to_nat (length - 2)) v;
      k v) Q f.
Proof.
  intros Hf Hv Hk Hl HQ. unfold is_byte in Hl. apply wp_bind, (wp_push _ bs); [done|].
  intros v1 Hv1. apply wp_bind. destruct (Z.ltb_spec 1 length).
  - apply (wp_push _ _ _ _ _ Hv1). intros v2 Hv2. apply wp_bind, (wp_push_reads _ _ _ _ _ Hf Hv2).
    intros i v3 l Hi Hv3 Hn _. rewrite <-!app_assoc in Hv3. eapply HQ; [done|exact Hv3|].
    rewrite !zlen_app. change (zlen [u8 kind]) with 1. change (zlen [u8 length]) with 1.
    unfold zlen. lia.
  - apply wp_ret, wp_bind, (wp_push_reads _ _ _ _ _ Hf Hv1).
    intros i v3 l Hi Hv3 Hn _. rewrite <-!app_assoc in Hv3. eapply HQ; [done|exact Hv3|].
    rewrite zlen_app. change (zlen [u8 kind]) with 1. unfold zlen. lia.
Qed.

Lemma wp_fuzz_options n : forall v bs ol f Q,
  input_ok f -> vec_ok v bs -> 0 <= ol <= 40 -> room (fz_script f) (30 * Z.of_nat n) ->
  (forall i r v' os ol' z, 0 <= i -> room r 0 -> vec_ok v' (bs ++ os) -> ol <= ol' <= 40 ->
     zlen os = ol' - ol + z -> 0 <= z <= Z.of_nat n ->
     Q (set_fz_script r (set_fz_file_index i f)) (v', ol')) ->
  wp (fuzz_options n v ol) Q f.
Proof.
  induction n as [|n IH]; intros v bs ol f Q Hf Hv Hol Hr HQ; cbn [fuzz_options].
  - apply wp_ret. specialize (HQ (fz_file_index f) (fz_script f) v [] ol 0).
    rewrite app_nil_r in HQ. change (zlen []) with 0 in HQ. destruct f.
    apply HQ; (done || lia || apply Hf).
  - apply wp_bind, wp_fuzz_option; [done|]. intros i kind len Hi Hk Hl.
    assert (Hl' := Hl). unfold is_byte in Hl'. cbv beta iota.
    destruct (Z.ltb_spec MAX_OPTIONS_LENGTH (ol + len)) as [H40|H40];
      unfold MAX_OPTIONS_LENGTH in H40.
    + apply wp_ret. specialize (HQ i (fz_script f) v [] ol 0). rewrite app_nil_r in HQ.
      change (zlen []) with 0 in HQ. assert (room (fz_script f) 0) by (eapply room_mono; [done|lia]).
      destruct f. apply HQ; (done || lia).
    + cbv zeta. unfold u8. rewrite Z.mod_small by lia.
      apply (wp_push_option _ bs); [split; [apply Hf|done]|done..|].
      intros i2 v2 os2 Hi2 Hv2 Hos2.
      apply wp_bind, (wp_add_content _ (30 * Z.of_nat n)); [|..|lia].
      { eapply room_mono; [exact Hr|]. pose proof (option_comment_length kind len Hk Hl). lia. }
      intros r Hroom. apply (IH _ (bs ++ os2)); [split; [apply Hf|done]|done|lia|done|].
      intros i3 r3 v3 os3 ol3 z Hi3 Hr3 Hv3 Hol3 Hos3 Hz.
      rewrite <-app_assoc in Hv3.
      apply (HQ i3 r3 v3 (os2 ++ os3) ol3 (z + (Z.max 1 len - len))); try (done || lia).
      rewrite zlen_app. lia.
Qed.
End Options.

(** ** The assembled bytes *)

(** A segment with the fuzzer's fixed fields, of IP length [m] and data offset [off]; the
    options and the payload are in [rest]. *)
Definition segment (s0 s1 s2 s3 off w0 w1 u0 u1 m : Z) (rest : bytes) : bytes :=
  [0x45; 0; htons m mod 256; htons m / 256 mod 256; 0; 0; 0; 0; 0xff; 6; 0; 0;
   0; 0; 0; 0; 0; 0; 0; 0;
   0; 0; 0; 0; s0; s1; s2; s3; 0; 0; 0; 1; off * 17; 0x10; w0; w1; 0; 0; u0; u1] ++ rest.

Section Segment.
Context (s0 s1 s2 s3 w0 w1 u0 u1 : Z).
Abbreviation seg off m rest := (segment s0 s1 s2 s3 off w0 w1 u0 u1 m rest).

Lemma segment_app off m rest t : seg off m rest ++ t = seg off m (rest ++ t).
Proof. done. Qed.

Lemma segment_zlen off m rest : zlen (seg off m rest) = 40 + zlen rest.
Proof. unfold segment. by rewrite zlen_app. Qed.

Lemma segment_put off m rest o l b :
  0 <= o -> o + zlen l <= 40 ->
  take (Z.to_nat o) (seg off m []) ++ l ++ drop (Z.to_nat o + length l) (seg off m []) = b ->
  put_bytes (seg off m rest) o l = Ok (b ++ rest).
Proof.
  intros Ho Hl <-. apply put_bytes_Ok. split.
  - apply in_range_true. rewrite segment_zlen. pose proof (zlen_nonneg rest).
    pose proof (zlen_nonneg l). lia.
  - assert (seg off m rest = seg off m [] ++ rest) as -> by done.
    assert (length (seg off m []) = 40%nat) by done. unfold zlen in *.
    rewrite take_app_le by lia. rewrite drop_app_le by lia. by rewrite <-!app_assoc.
Qed.

Lemma segment_set_off m rest off : 0 <= off < 16 ->
  put_bytes (seg 0 m rest) 32 (le_split 1 (Z.lor (u8 (Z.shiftl off 4)) off)) = Ok (seg off m rest).
Proof.
  intros Hoff. rewrite (segment_put _ _ _ _ _ (seg off m [])); [done|lia|done|].
  assert (Z.lor (u8 (Z.shiftl off 4)) off = off * 17) as ->.
  { assert (forallb (fun off => Z.lor (u8 (Z.shiftl off 4)) off =? off * 17) (seqZ 0 16) = true)
      as Hall by reflexivity.
    rewrite forallb_forall in Hall. apply Z.eqb_eq, Hall, list_elem_of_In, elem_of_seqZ. lia. }
  unfold le_split. rewrite Z.mod_small by lia. reflexivity.
Qed.

Lemma segment_set_len off m rest : 
  put_bytes (seg off 0 rest) 2 (le_split 2 (htons m)) = Ok (seg off m rest).
Proof. by rewrite (segment_put _ _ _ _ _ (seg off m [])). Qed.

Context (off m : Z) (rest : bytes).

Lemma segment_byte i : 0 <= i < 40 -> byte_at (seg off m rest) i = byte_at (seg off m []) i.
Proof.
  intros Hi. assert (seg off m rest = seg off m [] ++ rest) as -> by done.
  rewrite byte_at_app by lia. change (zlen (seg off m [])) with 40.
  destruct (Z.ltb_spec i 40); [done|lia].
Qed.

Lemma segment_rd8 o : 0 <= o < 40 -> ld8 (seg off m rest) o = Ok (byte_at (seg off m []) o).
Proof.
  intros Ho. pose proof (zlen_nonneg rest).
  rewrite ld8_eq, segment_byte by (rewrite ?segment_zlen; lia). done.
Qed.

Lemma segment_rd16 o : 0 <= o < 39 -> ld16 (seg off m rest) o =
  Ok (byte_at (seg off m []) o + 256 * byte_at (seg off m []) (o + 1)).
Proof.
  intros Ho. pose proof (zlen_nonneg rest).
  rewrite ld16_eq, !segment_byte by (rewrite ?segment_zlen; lia). done.
Qed.

Lemma segment_members : 0 <= m < 65536 -> holds (seg off m rest) (ip_members AF_INET m IPPROTO_TCP).
Proof.
  intros Hm. unfold ip_members. simpl (AF_INET =? AF_INET). cbv iota.
  pose proof (ntohs_range m).
  repeat apply Forall_cons_2; try apply Forall_nil_2;
    (split; [simpl; lia|]); (split; [by vm_compute|]); cbn [rd ipv4_version ipv4_ihl ipv4_tot_len
      ipv4_frag_off ipv4_protocol]; rewrite ?segment_rd8, ?segment_rd16 by lia; try reflexivity.
  change (Ok (htons m mod 256 + 256 * (htons m / 256 mod 256)) = Ok (htons m)).
  f_equal. unfold htons. zlia.
Qed.

Lemma segment_doff : 0 <= off < 16 -> rd (seg off m rest) 20 tcp_doff = Ok off.
Proof.
  intros Hoff. cbn [rd tcp_doff]. rewrite segment_rd8, bind_Ok_eq by lia.
  change (byte_at (seg off m []) (20 + 12)) with (off * 17). f_equal. unfold bits_get.
  change (2 ^ 4) with 16. zlia.
Qed.

End Segment.

(** ** The packet *)

Section Finish.
Context `{Malloc}.

(** A parsed packet of [m] bytes and a TCP header of [hl], in a buffer [b] of [n] bytes. *)
Definition parsed_segment (n m hl : Z) (b : bytes) : packet :=
  set_pk_direction DIRECTION_INBOUND (set_pk_buffer b (set_pk_ip_bytes m (set_pk_ipv4 (Some 0)
    (set_pk_headers (hdrs [mk_header HEADER_IPV4 20 m (Some 0);
                           mk_header HEADER_TCP hl (m - 20) (Some 20)])
      (set_pk_tcp (Some 20) (packet_new n)))))).

Lemma finish_packet_spec v s0 s1 s2 s3 off w0 w1 u0 u1 m rest :
  let L := segment s0 s1 s2 s3 off w0 w1 u0 u1 m rest in
  vec_ok v L -> 5 <= off < 16 -> 20 + off * 4 <= m <= zlen L -> zlen L < 65536 ->
  exists b, finish_packet v = Ok (parsed_segment (zlen L) m (off * 4) b) /\
    receiver_ok_v4 (parsed_segment (zlen L) m (off * 4) b) = Ok true /\ zlen b = zlen L /\
    (forall i, 0 <= i -> ~ 10 <= i < 12 -> ~ 36 <= i < 38 -> byte_at b i = byte_at L i).
Proof.
  intros L (Hz&Hb&Hc&Hs&Hle&Ht) Hoff Hm HL. unfold finish_packet. pose proof (zlen_nonneg L).
  assert (HbL : bytes_ok L) by (rewrite <-Ht; by apply Forall_take).
  assert (get_bytes (vec_data v) 0 (vec_size v) = Ok L) as ->.
  { unfold get_bytes. assert (in_range (vec_data v) 0 (vec_size v) = true) as ->
      by (apply in_range_true; lia). f_equal. exact Ht. }
  rewrite bind_Ok_eq, Hs, put_bytes_all, bind_Ok_eq by (symmetry; apply malloc_zlen; lia).
  unfold parse_packet. change (pk_buffer_bytes (set_pk_buffer L (packet_new (zlen L)))) with (zlen L).
  rewrite u32_small by lia. rewrite Z.leb_refl. simpl c_assert. rewrite bind_Ok_eq.
  rewrite (parse_built_v4 _ L m (zlen L) (off * 4) []); try done; try lia;
    [|by rewrite Z_mod_mult|apply segment_members; lia|rewrite Z.div_mul by lia; apply segment_doff; lia].
  rewrite !bind_Ok_eq. cbv iota. 
  set (p := set_pk_ip_bytes m _).
  assert (Hip : holds L (ip_members AF_INET m IPPROTO_TCP)) by (apply segment_members; lia).
  destruct (checksum_packet_v4 p) as (b&->&Hok&_&Zb&Hout).
  - split; [exact HbL|]. exists 0, 5, (htons m), 20, tcp_check, (Some IPPROTO_TCP).
    split; [reflexivity|]. split; [lia|]. split; [member Hip|]. split; [member Hip|].
    split; [lia|]. split; [reflexivity|]. split; [reflexivity|].
    unfold htons. rewrite ntohs_invol by lia. change (pk_ip_bytes p) with m.
    change (pk_buffer p) with L. split; [simpl; lia|]. split; lia.
  - rewrite bind_Ok_eq. exists b. split; [reflexivity|]. split; [exact Hok|]. split; [exact Zb|].
    intros i Hi H10 H36. apply (Hout i Hi).
    intros [(q&Hq&Hr)|(t&check&proto&Hq&Hr)]; injection Hq as <-; [lia|].
    subst check. change (field_off tcp_check) with 16 in Hr. lia.
Qed.

(** The sequence number in the segment's bytes. *)
Definition seq_of (f : fuzzer) (s0 s1 s2 s3 : Z) : Prop :=
  is_fuzz_without_dependency (fz_config f) = false ->
  s0 * 16777216 + s1 * 65536 + s2 * 256 + s3 = fz_packet_seq f /\
  is_byte s0 /\ is_byte s1 /\ is_byte s2 /\ is_byte s3.

Lemma list4 (l : bytes) : length l = 4%nat -> exists a b c d, l = [a; b; c; d].
Proof. destruct l as [|a [|b [|c [|d [|]]]]]; try done. intros _. by exists a, b, c, d. Qed.
Lemma list2 (l : bytes) : length l = 2%nat -> exists a b, l = [a; b].
Proof. destruct l as [|a [|b [|]]]; try done. intros _. by exists a, b. Qed.

Lemma vec_new n : 0 < n -> vec_ok (mk_vec (malloc n) 0 n) [].
Proof.
  intros Hn. split_and!; simpl; [apply malloc_zlen; lia|apply malloc_ok|done|done|lia|done].
Qed.

Lemma wp_fuzz_headers Q f :
  input_ok f -> 0 <= fz_packet_seq f < 4294967296 ->
  (forall i v s0 s1 s2 s3 w0 w1 u0 u1, 0 <= i ->
     vec_ok v (segment s0 s1 s2 s3 0 w0 w1 u0 u1 0 []) -> seq_of f s0 s1 s2 s3 ->
     Q (set_fz_file_index i f) v) ->
  wp fuzz_headers Q f.
Proof.
  intros Hf Hseq HQ. unfold fuzz_headers. cbv zeta.
  apply wp_bind, (wp_push_all _ []); [by apply vec_new|]. intros v1 Hv1.
  apply wp_bind, (wp_push_all _ _ _ _ _ Hv1). intros v2 Hv2. clear v1 Hv1.
  apply wp_bind, wp_global, wp_bind, wp_global, wp_bind.
  assert (Hrest : forall i v s0 s1 s2 s3, 0 <= i ->
    vec_ok v ((([] ++ (u8 <$> fixed_data)) ++ (u8 <$> [0; 0; 0; 0])) ++ [s0; s1; s2; s3]) ->
    seq_of f s0 s1 s2 s3 ->
    wp (v ← lift (push_all v [0x00; 0x00; 0x00; 0x01]); v ← lift (push_all v [0x00; 0x10]);
        v ← push_reads 2 v; v ← lift (push_all v [0x00; 0x00]); push_reads 2 v) Q
      (set_fz_file_index i f)).
  { intros i v s0 s1 s2 s3 Hi Hv Hs.
    apply wp_bind, (wp_push_all _ _ _ _ _ Hv). intros v3 Hv3.
    apply wp_bind, (wp_push_all _ _ _ _ _ Hv3). intros v4 Hv4.
    assert (Hf1 : input_ok (set_fz_file_index i f)) by (split; [apply Hf|done]).
    apply wp_bind, (wp_push_reads _ _ _ _ _ Hf1 Hv4). intros i2 v5 l Hi2 Hv5 (w0&w1&->)%list2 _.
    apply wp_bind, (wp_push_all _ _ _ _ _ Hv5). intros v6 Hv6.
    assert (Hf2 : input_ok (set_fz_file_index i2 (set_fz_file_index i f))) by (split; [apply Hf|done]).
    apply (wp_push_reads _ _ _ _ _ Hf2 Hv6). intros i3 v7 l Hi3 Hv7 (u0&u1&->)%list2 _.
    by apply (HQ i3 v7 s0 s1 s2 s3 w0 w1 u0 u1). }
  destruct (is_fuzz_without_dependency (fz_config f)) eqn:Efree.
  - apply (wp_push_reads _ _ _ _ _ Hf Hv2). intros i v l Hi Hv (s0&s1&s2&s3&->)%list4 Hl.
    apply (Hrest i v s0 s1 s2 s3); [done|done|]. intros E. congruence.
  - apply (wp_push_all _ _ _ _ _ Hv2). intros v Hv.
    specialize (Hrest (fz_file_index f) v (u8 (Z.land (Z.shiftr (fz_packet_seq f) 24) 0xFF))
      (u8 (Z.land (Z.shiftr (fz_packet_seq f) 16) 0xFF))
      (u8 (Z.land (Z.shiftr (fz_packet_seq f) 8) 0xFF)) (u8 (Z.land (fz_packet_seq f) 0xFF))
      (proj2 Hf) Hv).
    assert (set_fz_file_index (fz_file_index f) f = f) as Eid by (by destruct f).
    rewrite Eid in Hrest. apply Hrest. intros _.
    change 0xFF with (Z.ones 8). rewrite !Z.land_ones, !Z.shiftr_div_pow2 by lia.
    unfold u8, is_byte. change (2 ^ 8) with 256. change (2 ^ 16) with 65536.
    change (2 ^ 24) with 16777216. zlia.
Qed.
End Finish.

(** ** Every input gives a packet *)

Lemma seq_digits_length n : forall seq i, length (seq_digits n seq i) = n.
Proof. induction n as [|n IH]; intros; [done|]. simpl. by rewrite IH. Qed.

Lemma seq_digits_byte n : forall seq i k, 0 <= k < Z.of_nat n ->
  byte_at (seq_digits n seq i) k = u32 (seq + (i + k)) mod 10.
Proof.
  induction n as [|n IH]; intros seq i k Hk; [lia|]. unfold byte_at in *. cbn [seq_digits].
  destruct (Z.eq_dec k 0) as [->|]; [by rewrite Z.add_0_r|].
  assert (Z.to_nat k = S (Z.to_nat (k - 1))) as -> by lia. cbn [nth].
  rewrite IH by lia. do 3 f_equal. lia.
Qed.

Lemma seq_digits_u8 n : forall seq i, u8 <$> seq_digits n seq i = seq_digits n seq i.
Proof.
  induction n as [|n IH]; intros; [done|]. cbn [seq_digits]. rewrite fmap_cons, IH. f_equal.
  unfold u8. apply Z.mod_small. pose proof (Z.mod_pos_bound (u32 (seq + i)) 10). lia.
Qed.

(** What fuzz_to_packet leaves of a packet [pkt] made in state [f]: [len] bytes of data
    after a TCP header of [hl], in a buffer with at most ten bytes more. *)
Record fuzzed (f f' : fuzzer) (pkt : packet) (hl len : Z) : Prop := {
  fuzzed_len : len = fz_last_packet_data_length f' /\ 0 <= len < MAX_PACKET_DATA_LENGTH;
  fuzzed_header : 20 <= hl <= 60 /\ hl mod 4 = 0;
  fuzzed_buffer : pk_buffer_bytes pkt = zlen (pk_buffer pkt) /\
    20 + hl + len <= zlen (pk_buffer pkt) <= 20 + hl + len + 10;
  fuzzed_ip : pk_ip_bytes pkt = 20 + hl + len /\ pk_ipv4 pkt = Some 0 /\ pk_tcp pkt = Some 20;
  fuzzed_headers : pk_headers pkt = hdrs [mk_header HEADER_IPV4 20 (20 + hl + len) (Some 0);
    mk_header HEADER_TCP hl (hl + len) (Some 20)];
  fuzzed_direction : pk_direction pkt = DIRECTION_INBOUND;
  fuzzed_doff : prd pkt 20 tcp_doff = Ok (hl / 4);
  fuzzed_flags : ld8 (pk_buffer pkt) 33 = Ok 0x10;
  fuzzed_seq : is_fuzz_without_dependency (fz_config f) = false ->
    ntohl <$> prd pkt 20 tcp_seq = Ok (fz_packet_seq f);
  fuzzed_digits : forall k, 0 <= k < len ->
    byte_at (pk_buffer pkt) (zlen (pk_buffer pkt) - len + k) = u32 (fz_packet_seq f + k) mod 10;
  fuzzed_checksums : receiver_ok_v4 pkt = Ok true;
  fuzzed_state : input_ok f' /\ room (fz_script f') 0 /\ fz_packet_seq f' = fz_packet_seq f
}.

Section Core.
Context `{Malloc}.

(** The end of fuzz_to_packet, once the options are in the array. *)
Lemma finish_fuzzed f f' v s0 s1 s2 s3 w0 w1 u0 u1 opts hl len z :
  let n := zlen (opts ++ seq_digits (Z.to_nat len) (fz_packet_seq f) 0) + 40 in
  let m := 20 + hl + len in
  20 <= hl <= 60 -> hl mod 4 = 0 -> zlen opts = hl - 20 + z -> 0 <= z <= 10 ->
  0 <= len < MAX_PACKET_DATA_LENGTH -> len = fz_last_packet_data_length f' ->
  seq_of f s0 s1 s2 s3 ->
  vec_ok v (segment s0 s1 s2 s3 (hl / 4) w0 w1 u0 u1 m
    (opts ++ seq_digits (Z.to_nat len) (fz_packet_seq f) 0)) ->
  input_ok f' -> room (fz_script f') 0 -> fz_packet_seq f' = fz_packet_seq f ->
  exists pkt, finish_packet v = Ok pkt /\ fuzzed f f' pkt hl len.
Proof.
  intros n m Hhl Hmod Ho Hz Hlen Elen Hseq Hv Hin Hroom Eseq. unfold MAX_PACKET_DATA_LENGTH in *.
  set (L := segment _ _ _ _ _ _ _ _ _ _ _) in Hv.
  assert (Hd : zlen (seq_digits (Z.to_nat len) (fz_packet_seq f) 0) = len)
    by (unfold zlen; rewrite seq_digits_length; lia).
  assert (HL : zlen L = n) by (unfold L; rewrite segment_zlen; lia).
  assert (Hn : n = m + z) by (unfold n, m; rewrite zlen_app; lia).
  assert (hl / 4 * 4 = hl) as H4 by zlia.
  destruct (finish_packet_spec v s0 s1 s2 s3 (hl / 4) w0 w1 u0 u1 m _ Hv) as (b&E&Hr&Zb&Hb);
    fold L; [zlia|lia|lia|].
  fold L in E, Hr, Zb, Hb. rewrite H4, HL in *. exists (parsed_segment n m hl b). split; [exact E|].
  assert (HbL : forall i, 0 <= i < 10 \/ 12 <= i < 36 \/ 38 <= i < 40 ->
    byte_at b i = byte_at (segment s0 s1 s2 s3 (hl / 4) w0 w1 u0 u1 m []) i).
  { intros i Hi. rewrite Hb by lia. apply segment_byte. lia. }
  constructor; cbn [pk_buffer pk_buffer_bytes pk_ip_bytes pk_ipv4 pk_tcp pk_headers pk_direction
    parsed_segment set_pk_direction set_pk_buffer set_pk_ip_bytes set_pk_ipv4 set_pk_headers
    set_pk_tcp packet_new]; try done.
  - rewrite Zb. split; [done|lia].
  - by replace (m - 20) with (hl + len) by lia.
  - unfold prd. cbn [rd tcp_doff pk_buffer parsed_segment set_pk_direction set_pk_buffer].
    rewrite ld8_eq, bind_Ok_eq, HbL by lia.
    change (byte_at _ (20 + 12)) with (hl / 4 * 17). f_equal. unfold bits_get. change (2 ^ 4) with 16.
    assert (0 <= hl / 4 < 16) by zlia. zlia.
  - rewrite ld8_eq, HbL by lia. done.
  - intros Ef. destruct (Hseq Ef) as (<-&B0&B1&B2&B3). unfold is_byte in *.
    unfold prd. cbn [rd tcp_seq pk_buffer parsed_segment set_pk_direction set_pk_buffer].
    rewrite ld32_eq, !HbL by lia.
    change (Ok (ntohl (s0 + 256 * (s1 + 256 * (s2 + 256 * s3))))
            = Ok (s0 * 16777216 + s1 * 65536 + s2 * 256 + s3)).
    f_equal. unfold ntohl. zlia.
  - intros k Hk. rewrite Zb, Hb by lia. unfold L, segment. rewrite app_assoc, byte_at_app by lia.
    rewrite zlen_app. change (zlen [_; _; _; _; _; _; _; _; _; _; _; _; _; _; _; _; _; _; _; _;
      _; _; _; _; _; _; _; _; _; _; _; _; _; _; _; _; _; _; _; _]) with 40.
    destruct (Z.ltb_spec (n - len + k) (40 + zlen opts)); [lia|].
    rewrite seq_digits_byte by lia. do 3 f_equal. lia.
Qed.
End Core.

(** The padding after [ol] bytes of options. *)
Definition pad (ol : Z) : Z := (4 - ol mod 4) mod 4.

Lemma pad_eq ol : (if u8 (4 - ol mod 4) <? 4 then u8 (4 - ol mod 4) else 0) = pad ol.
Proof.
  unfold pad, u8. pose proof (Z.mod_pos_bound ol 4). rewrite (Z.mod_small _ 256) by lia.
  destruct (Z.ltb_spec (4 - ol mod 4) 4); zlia.
Qed.

Lemma u8_replicate n : u8 <$> replicate n 0 = replicate n 0.
Proof. induction n as [|n IH]; [done|]. cbn [replicate]. by rewrite fmap_cons, IH. Qed.

Section Total.
Context `{Malloc}.

(** The data of the packet and its length, after the options. *)
Lemma wp_fuzz_data (is_fuzz_data : bool) (Q : fuzzer -> Z -> Prop) f :
  input_ok f ->
  (forall i len, 0 <= i -> 0 <= len < MAX_PACKET_DATA_LENGTH -> (is_fuzz_data = false -> len = 0) ->
     Q (set_fz_file_index i f) len) ->
  wp (if is_fuzz_data then i ← read_int; mret (i mod MAX_PACKET_DATA_LENGTH) else mret 0) Q f.
Proof.
  intros Hf HQ. unfold MAX_PACKET_DATA_LENGTH in *. destruct is_fuzz_data.
  - apply wp_bind, wp_read_int; [done|]. intros i x Hi Hx. apply wp_ret, HQ; [done| |done]. zlia.
  - apply wp_ret. specialize (HQ (fz_file_index f) 0 (proj2 Hf)). destruct f. apply HQ; [lia|done].
Qed.

(** The options are [ol] bytes by their lengths, and [z] more. *)
Lemma wp_fuzz_tail (is_fuzz_data : bool) v s0 s1 s2 s3 w0 w1 u0 u1 os ol z f0 f :
  input_ok f -> room (fz_script f) 0 -> fz_packet_seq f = fz_packet_seq f0 ->
  vec_ok v (segment s0 s1 s2 s3 0 w0 w1 u0 u1 0 os) -> seq_of f0 s0 s1 s2 s3 ->
  0 <= ol <= 40 -> zlen os = ol + z -> 0 <= z <= 10 ->
  wp (fuzz_tail is_fuzz_data v ol)
    (fun f' pkt => exists len, fuzzed f0 f' pkt (20 + ol + pad ol) len /\
       (is_fuzz_data = false -> len = 0)) f.
Proof.
  intros Hf Hroom Hseq Hv Hs Hol Hos Hz. unfold fuzz_tail. cbv zeta. rewrite pad_eq.
  assert (Hpad : 0 <= pad ol < 4) by (unfold pad; zlia).
  assert (Hmod : (ol + pad ol) mod 4 = 0) by (unfold pad; zlia).
  assert (Hle : ol + pad ol <= 40) by zlia. set (hl := 20 + ol + pad ol).
  rewrite (u8_small (20 + ol)), (u8_small (20 + ol + pad ol)) by lia. fold hl.
  apply wp_bind, (wp_push_all _ _ _ _ _ Hv). intros v1 Hv1.
  rewrite u8_replicate, segment_app in Hv1. set (opts := os ++ _) in Hv1.
  pose proof (zlen_nonneg opts). apply wp_bind. unfold set_offset.
  assert (Hoff : 0 <= hl / 4 < 16) by (unfold hl; zlia). rewrite (u8_small (hl / 4)) by lia.
  destruct (vec_put v1 _ 32 (le_split 1 (Z.lor (u8 (Z.shiftl (hl / 4) 4)) (hl / 4))) Hv1)
    as (d&bs&Ed&Eb&Hv2); [apply le_split_ok|lia|rewrite segment_zlen, zlen_le_split; lia|].
  rewrite segment_set_off in Eb by done. injection Eb as <-.
  eapply wp_lift; [unfold st8, TCP_OFFSET_FIELD_INDEX; by rewrite Ed|].
  apply wp_bind, wp_fuzz_data; [done|]. intros i2 len Hi2 Hlen Hdata.
  apply wp_bind, wp_update, wp_bind, wp_global, wp_bind, (wp_push_all _ _ _ _ _ Hv2).
  intros v3 Hv3. rewrite seq_digits_u8, segment_app in Hv3. simpl fz_packet_seq in *.
  rewrite Hseq in Hv3. set (rest := opts ++ _) in Hv3. pose proof (zlen_nonneg rest).
  unfold u16, IP_HEADER_LENGTH. unfold MAX_PACKET_DATA_LENGTH in Hlen.
  rewrite (Z.mod_small (20 + hl + len)) by (unfold hl; lia).
  destruct (vec_put v3 _ 2 (le_split 2 (htons (20 + hl + len))) Hv3) as (d3&bs&Ed3&Eb&Hv4);
    [apply le_split_ok|lia|rewrite segment_zlen, zlen_le_split; lia|].
  rewrite segment_set_len in Eb. injection Eb as <-.
  apply wp_bind. eapply wp_lift; [exact Ed3|].
  destruct (finish_fuzzed f0 (set_fz_last_packet_data_length len (set_fz_file_index i2 f))
    (mk_vec d3 (vec_size v3) (vec_capacity v3)) s0 s1 s2 s3 w0 w1 u0 u1 opts hl len z)
    as (pkt&E&Hp); try done.
  - unfold hl. lia.
  - unfold hl. zlia.
  - unfold opts, hl. rewrite zlen_app. unfold zlen at 2. rewrite length_replicate. lia.
  - split; [apply Hf|done].
  - eapply wp_lift; [exact E|]. by exists len.
Qed.

Lemma wp_fuzz_to_packet (is_fuzz_options is_fuzz_data : bool) f :
  input_ok f -> 0 <= fz_packet_seq f < 4294967296 -> room (fz_script f) 300 ->
  wp (fuzz_to_packet is_fuzz_options is_fuzz_data)
    (fun f' pkt => exists hl len, fuzzed f f' pkt hl len /\ (is_fuzz_data = false -> len = 0) /\
       (is_fuzz_options = false -> hl = 20)) f.
Proof.
  intros Hf Hseq Hr. unfold fuzz_to_packet.
  apply wp_bind, wp_fuzz_headers; [done..|]. intros i v s0 s1 s2 s3 w0 w1 u0 u1 Hi Hv Hs.
  assert (Hf1 : input_ok (set_fz_file_index i f)) by (split; [apply Hf|done]).
  apply wp_bind. destruct is_fuzz_options.
  - apply wp_bind, wp_read_byte; [done|]. intros i1 c Hi1 Hc.
    pose proof (Z.mod_pos_bound c 11).
    assert (Hf2 : input_ok (set_fz_file_index i1 (set_fz_file_index i f)))
      by (split; [apply Hf|done]).
    eapply (wp_fuzz_options _ _ _ _ _ _ Hf2 Hv); [lia| |].
    { eapply room_mono; [exact Hr|]. lia. }
    intros i2 r v2 os ol z Hi2 Hroom Hv2 Hol Hos Hz. rewrite segment_app in Hv2.
    eapply wp_mono; [apply (wp_fuzz_tail _ _ s0 s1 s2 s3 w0 w1 u0 u1 os ol z f);
      [split; [apply Hf|done]|done|done|done|done|lia|lia|lia]|].
    intros f' pkt (len&Hp&Hd). by exists (20 + ol + pad ol), len.
  - apply wp_ret. eapply wp_mono; [eapply (wp_fuzz_tail _ _ _ _ _ _ _ _ _ _ [] 0 0 f); try done|].
    + eapply room_mono; [exact Hr|lia].
    + intros f' pkt (len&Hp&Hd). by exists 20, len.
Qed.
End Total.

(** C6. Every input gives a packet: for any input bytes, whatever was consumed before, with
    or without options and data, fuzz_to_packet neither aborts nor writes outside its
    arrays, but returns a packet the parser accepts: an IPv4 header of 20 bytes and a TCP
    header of 20 to 60, whole words, a payload of fewer than 10000 bytes, only the ACK
    flag, the sequence number of the run unless the configuration frees it, and checksums
    a receiver accepts.  At most ten bytes of the buffer lie outside the IP packet, and
    the end of the buffer spells the sequence numbers. *)
Theorem fuzz_to_packet_accepted `{Malloc} (is_fuzz_options is_fuzz_data : bool) (f : fuzzer) :
  input_ok f -> 0 <= fz_packet_seq f < 4294967296 -> room (fz_script f) 300 ->
  exists f' pkt hl len,
    fuzz_to_packet is_fuzz_options is_fuzz_data f = Ok (f', pkt) /\
    fuzzed f f' pkt hl len /\ (is_fuzz_data = false -> len = 0) /\
    (is_fuzz_options = false -> hl = 20).
Proof.
  intros Hf Hs Hr.
  destruct (wp_fuzz_to_packet is_fuzz_options is_fuzz_data f Hf Hs Hr) as (f'&pkt&E&hl&len&HQ).
  by exists f', pkt, hl, len.
Qed.

Lemma fuzz_start_room file : room (fz_script (fuzz_start file)) 300.
Proof. exists []. split; [apply fuzz_start_script|vm_compute; discriminate]. Qed.

(** An input with a timestamp, a SACK-permitted and a padding option, and five bytes of
    data. *)
Definition sample_input : bytes := [1; 2; 3; 4; 3; 6; 9; 9; 9; 9; 9; 9; 9; 9; 4; 1; 0; 0; 0; 5].

Lemma fuzz_to_packet_accepted_witness :
  exists f' pkt hl len,
    @fuzz_to_packet zero_malloc true true (fuzz_start sample_input) = Ok (f', pkt) /\
    fuzzed (fuzz_start sample_input) f' pkt hl len /\ (true = false -> len = 0) /\
    (true = false -> hl = 20).
Proof.
  apply (@fuzz_to_packet_accepted zero_malloc true true (fuzz_start sample_input)).
  - split; [|discriminate]. repeat constructor; discriminate.
  - split; [discriminate|reflexivity].
  - apply fuzz_start_room.
Defined.

(** The payload of a fuzzed packet spells its sequence numbers: when no byte of the
    buffer lies outside the IP packet, byte k of the payload is the last digit of the
    run's sequence number plus k. *)
Theorem fuzz_payload_digits `{Malloc} (is_fuzz_options is_fuzz_data : bool) (f f' : fuzzer)
    (pkt : packet) :
  input_ok f -> 0 <= fz_packet_seq f < 4294967296 -> room (fz_script f) 300 ->
  fuzz_to_packet is_fuzz_options is_fuzz_data f = Ok (f', pkt) ->
  pk_buffer_bytes pkt = pk_ip_bytes pkt ->
  exists p, packet_payload pkt = Ok p /\
    packet_payload_len pkt = Ok (fz_last_packet_data_length f') /\
    forall k, 0 <= k < fz_last_packet_data_length f' ->
      byte_at (pk_buffer pkt) (p + k) = u32 (fz_packet_seq f + k) mod 10.
Proof.
  intros Hf Hs Hr E Hbytes.
  destruct (wp_fuzz_to_packet is_fuzz_options is_fuzz_data f Hf Hs Hr) as (f1&p1&E1&hl&len&HQ&_).
  rewrite E in E1. injection E1 as <- <-. destruct HQ as [[Hl1 Hl2] [Hh1 Hh2] [Hb _] [Hi [_ Ht]] Hh _ Hd _ _ Hdig _ _].
  unfold MAX_PACKET_DATA_LENGTH in Hl2. exists (20 + hl).
  assert (Hp : packet_payload pkt = Ok (20 + hl)).
  { unfold packet_payload, packet_tcp_header_len. rewrite Ht. simpl assert_ptr.
    rewrite bind_Ok_eq, Hd, !bind_Ok_eq. f_equal. zlia. }
  split; [exact Hp|]. split.
  - unfold packet_payload_len, packet_end, packet_start. rewrite Hh, Hp. simpl.
    rewrite Hi. f_equal. rewrite s32_small by lia. lia.
  - intros k Hk. rewrite <-Hl1 in Hk. rewrite <-Hdig by done. f_equal. lia.
Qed.

(** The outcome of a run on an input file. *)
Definition fuzz_run (file : bytes) : fuzzer * packet :=
  match @fuzz_to_packet zero_malloc true true (fuzz_start file) with
  | Ok r => r
  | Fault _ => (fuzz_start file, @packet_new zero_malloc 0)
  end.

Lemma fuzz_payload_digits_witness :
  exists p, packet_payload (fuzz_run sample_input).2 = Ok p /\
    packet_payload_len (fuzz_run sample_input).2
      = Ok (fz_last_packet_data_length (fuzz_run sample_input).1) /\
    forall k, 0 <= k < fz_last_packet_data_length (fuzz_run sample_input).1 ->
      byte_at (pk_buffer (fuzz_run sample_input).2) (p + k) = u32 (1 + k) mod 10.
Proof.
  apply (@fuzz_payload_digits zero_malloc true true (fuzz_start sample_input)
    (fuzz_run sample_input).1 (fuzz_run sample_input).2).
  - split; [|discriminate]. repeat constructor; discriminate.
  - split; [discriminate|reflexivity].
  - apply fuzz_start_room.
  - vm_compute. reflexivity.
  - vm_compute. reflexivity.
Defined.

(** An input with one fast open option of length 0 and five bytes of data. *)
Definition empty_option_input : bytes := [1; 2; 3; 4; 1; 7; 0; 0; 0; 0; 5].

(** An empty option shifts the payload: the kind byte of a fast open or experimental
    option of length 0 is pushed, but counted neither in the header's length nor in the
    packet's, so that the IP packet is one byte shorter than its buffer, the kind becomes
    the first byte of the payload and the last digit is cut off. *)
Theorem fuzz_empty_option_shifts :
  let '(f, pkt) := fuzz_run empty_option_input in
  pk_buffer_bytes pkt = pk_ip_bytes pkt + 1 /\
  packet_payload pkt = Ok 40 /\ packet_payload_len pkt = Ok 5 /\
  get_bytes (pk_buffer pkt) 40 5 = Ok [TCPOPT_FASTOPEN; 1; 2; 3; 4].
Proof. vm_compute. repeat split. Qed.

(** ** Injected errors *)

Lemma hex_padded_length w z : (w <= 8)%nat -> (String.length (hex_padded w z) <= 8)%nat.
Proof.
  intros Hw. unfold hex_padded. rewrite string_length_app.
  assert (forall n, String.length (zeroes n) = n) as ->
    by (intros n; induction n as [|n IH]; [done|]; cbn [zeroes]; by rewrite string_length_app, IH).
  assert (forall n z, String.length (hex_digits n z) <= n)%nat as Hd.
  { intros n. induction n as [|n IH]; intros y; [done|]. cbn [hex_digits].
    pose proof (hex_digit_length y). pose proof (hex_digit_length (y mod 16)).
    destruct (y <? 16); [lia|]. rewrite string_length_app. specialize (IH (y / 16)). lia. }
  specialize (Hd 8%nat z). lia.
Qed.

(** The line for the script fits in the 50 bytes it is printed into. *)
Lemma error_line_length pre w z : (String.length pre <= 24)%nat -> (w <= 8)%nat ->
  zlen (string_bytes (pre +:+ hex_padded w z +:+ newline)) <= 33.
Proof.
  intros Hp Hw. pose proof (hex_padded_length w z Hw).
  rewrite string_bytes_length, !string_length_app. change (String.length newline) with 1%nat. lia.
Qed.

(** [b'] differs from [b] at most in the bytes [touched]. *)
Definition differs (touched : Z -> Prop) (b b' : bytes) : Prop :=
  bytes_ok b' /\ zlen b' = zlen b /\
  forall i, 0 <= i -> ~ touched i -> byte_at b' i = byte_at b i.

Lemma differs_trans P b1 b2 b3 : differs P b1 b2 -> differs P b2 b3 -> differs P b1 b3.
Proof.
  intros (_&Z1&H1) (B2&Z2&H2). split; [done|]. split; [lia|]. intros. by rewrite H2, H1.
Qed.
Lemma differs_refl P b : bytes_ok b -> differs P b b.
Proof. done. Qed.
Lemma differs_weaken (P Q : Z -> Prop) b b' : differs P b b' -> (forall i, P i -> Q i) -> differs Q b b'.
Proof. intros (B&Z&H) HI. split; [done|]. split; [done|]. eauto. Qed.

(** The bytes of a member. *)
Definition member_bytes (p : Z) (f : field) (i : Z) : Prop :=
  p + field_off f <= i < p + field_off f + field_bytes f.

Lemma wp_pwr pkt b ptr fl x (Q : fuzzer -> packet -> Prop) f :
  bytes_ok b -> field_wf fl -> 0 <= ptr -> ptr + field_off fl + field_bytes fl <= zlen b ->
  (forall b', differs (member_bytes ptr fl) b b' -> rd b' ptr fl = Ok (x mod field_mod fl) ->
     Q f (set_pk_buffer b' pkt)) ->
  wp (lift (pwr (set_pk_buffer b pkt) ptr fl x)) Q f.
Proof.
  intros Hb Hf Hp Hz HQ. pose proof (proj1 Hf).
  destruct (wr_spec b ptr fl x Hb Hf) as (b'&E&Hb'&[Hzl Hc]&Hr); [lia|lia|].
  eapply wp_lift; [unfold pwr; simpl pk_buffer; by rewrite E, bind_Ok_eq|].
  rewrite set_buffer_twice. apply HQ; [|done]. split; [done|]. split; [done|].
  intros i Hi Hn. apply Hc; [done|]. unfold member_bytes in Hn. lia.
Qed.

(** The bytes of the IP header that an error may change. *)
Definition ip_touched (i : Z) : Prop := i = 0 \/ 6 <= i < 8 \/ 10 <= i < 12.

(** A corrupted buffer and the line that tells about it. *)
Definition corrupted (touched : Z -> Prop) (pkt : packet) (b : bytes) (f : fuzzer)
    (f' : fuzzer) (r : packet * string) : Prop :=
  exists b' i, r.1 = set_pk_buffer b' pkt /\ differs touched b b' /\
    zlen (string_bytes r.2) <= 33 /\ f' = set_fz_file_index i f /\ 0 <= i.

Ltac solve_member := first
  [ done | by vm_compute | lia | unfold member_bytes, ip_touched; simpl; lia ].

(** A member overwritten and read back for the script. *)
Lemma wp_pwr_line touched pkt b b1 ptr fl x pre w f0 i :
  differs touched b b1 -> field_wf fl -> 0 <= ptr -> ptr + field_off fl + field_bytes fl <= zlen b ->
  (forall i, member_bytes ptr fl i -> touched i) ->
  (String.length pre <= 24)%nat -> (w <= 8)%nat -> 0 <= i ->
  wp (p ← lift (pwr (set_pk_buffer b1 pkt) ptr fl x);
      v ← lift (prd p ptr fl);
      mret (p, pre +:+ hex_padded w v +:+ newline))
    (corrupted touched pkt b f0) (set_fz_file_index i f0).
Proof.
  intros Hd Hf Hp Hz Ht Hpre Hw Hi. apply wp_bind, wp_pwr; [apply Hd|done|done|destruct Hd; lia|].
  intros b' Hd' Hr. apply wp_bind. eapply wp_lift; [exact Hr|]. apply wp_ret.
  exists b', i. split; [done|]. split; [|split; [by apply error_line_length|done]].
  eapply differs_trans; [exact Hd|]. by eapply differs_weaken.
Qed.

Lemma wp_inject_version_error pkt b tmp f :
  input_ok f -> bytes_ok b -> 40 <= zlen b -> pk_ipv4 pkt = Some 0 ->
  wp (inject_version_error (set_pk_buffer b pkt) tmp)
    (fun f' p => exists b' i, p = set_pk_buffer b' pkt /\ differs ip_touched b b' /\
       f' = set_fz_file_index i f /\ 0 <= i) f.
Proof.
  intros Hf Hb Hz H4. unfold inject_version_error.
  assert (Hsame : wp (mret (set_pk_buffer b pkt)) (fun f' p => exists b' i,
    p = set_pk_buffer b' pkt /\ differs ip_touched b b' /\ f' = set_fz_file_index i f /\ 0 <= i) f).
  { apply wp_ret. exists b, (fz_file_index f). split; [done|]. split; [done|].
    split; [by destruct f|apply Hf]. }
  destruct (tmp <? 50); [exact Hsame|]. destruct (tmp <? 100); [|exact Hsame].
  apply wp_bind, wp_read_byte; [done|]. intros i c Hi Hc. apply wp_bind.
  eapply wp_lift; [simpl pk_ipv4; by rewrite H4|].
  apply wp_pwr; [solve_member..|]. intros b1 Hd _. exists b1, i. split; [done|].
  split; [|done]. eapply differs_weaken; [exact Hd|]. solve_member.
Qed.

Lemma wp_inject_ip_error pkt b tmp f :
  input_ok f -> bytes_ok b -> 40 <= zlen b -> pk_ipv4 pkt = Some 0 ->
  wp (inject_ip_error (set_pk_buffer b pkt) tmp) (corrupted ip_touched pkt b f) f.
Proof.
  intros Hf Hb Hz H4. unfold inject_ip_error.
  apply wp_bind. eapply wp_lift; [simpl pk_ipv4; by rewrite H4|].
  pose proof (differs_refl ip_touched b Hb) as Hd.
  destruct (tmp <? 150); [|destruct (tmp <? 200)].
  - apply wp_bind, wp_read_byte; [done|]. intros j c Hj _.
    apply (wp_pwr_line _ _ _ _ _ ipv4_ihl); solve_member.
  - assert (set_fz_file_index (fz_file_index f) f = f) as E by (by destruct f).
    rewrite <-E at 2. apply (wp_pwr_line _ _ _ _ _ ipv4_check); (solve_member || apply Hf).
  - apply wp_bind, wp_read_byte; [done|]. intros j c Hj _.
    apply wp_bind, wp_read_byte; [split; [apply Hf|done]|]. intros j2 d Hj2 _.
    change (set_fz_file_index j2 _) with (set_fz_file_index j2 f).
    apply (wp_pwr_line _ _ _ _ _ ipv4_frag_off); solve_member.
Qed.

(** The bytes that are refilled. *)
Definition refilled (h : Z) (n : nat) (seq i : Z) (b b' : bytes) : Prop :=
  bytes_ok b' /\ zlen b' = zlen b /\
  forall k, 0 <= k -> byte_at b' k =
    if (h + i <=? k) && (k <? h + i + Z.of_nat n) then u32 (seq + (k - h)) mod 10 else byte_at b k.

Lemma refill_spec pkt n : forall b h seq i,
  bytes_ok b -> 0 <= h + i -> h + i + Z.of_nat n <= zlen b -> zlen b < 4294967296 ->
  exists b', refill (set_pk_buffer b pkt) n h seq i = Ok (set_pk_buffer b' pkt) /\
    refilled h n seq i b b'.
Proof.
  induction n as [|n IH]; intros b h seq i Hb Hi Hn Hz; cbn [refill].
  - exists b. split; [done|]. split; [done|]. split; [done|]. intros k Hk.
    destruct (Z.leb_spec (h + i) k), (Z.ltb_spec k (h + i + Z.of_nat 0)); (lia || done).
  - rewrite u32_small by lia. set (v := u32 (seq + i) mod 10).
    assert (is_byte v) as Hv
      by (unfold is_byte; pose proof (Z.mod_pos_bound (u32 (seq + i)) 10); lia).
    simpl pk_buffer. destruct (st8_in b (h + i) v) as (b1&E1&Z1&B1); [lia|done|].
    rewrite E1, bind_Ok_eq, set_buffer_twice.
    destruct (IH b1 h seq (i + 1)) as (b'&->&Hb'&Z'&B'); [|lia|lia|lia|].
    { eapply put_bytes_bytes_ok; [exact Hb| |exact E1]. apply le_split_ok. }
    exists b'. split; [done|]. split; [done|]. split; [lia|].
    intros k Hk. rewrite B', B1 by done.
    destruct (Z.leb_spec (h + (i + 1)) k), (Z.ltb_spec k (h + (i + 1) + Z.of_nat n)),
      (Z.eqb_spec k (h + i)), (Z.leb_spec (h + i) k), (Z.ltb_spec k (h + i + Z.of_nat (S n)));
      simpl; try lia; try done.
    subst k v. do 2 f_equal. lia.
Qed.

(** The last [len] bytes of a buffer spell the sequence number in its TCP header. *)
Definition spells_seq (b : bytes) (len : Z) : Prop :=
  exists seq, ntohl <$> rd b 20 tcp_seq = Ok seq /\
    forall k, 0 <= k < len -> byte_at b (zlen b - len + k) = u32 (seq + k) mod 10.

Lemma spells_seq_differs P b b' len :
  differs P b b' -> 0 <= len -> len + 40 <= zlen b ->
  (forall i, P i -> 0 <= i < 24 \/ 28 <= i < zlen b - len) ->
  spells_seq b len -> spells_seq b' len.
Proof.
  intros (_&Z'&B') Hlen Hfit HP (seq&Hs&Hd). exists seq. split.
  - rewrite (rd_ext b b'); [exact Hs|done|]. intros i Hi. simpl in Hi.
    apply B'; [lia|]. intros H%HP. lia.
  - intros k Hk. rewrite Z', B'; [by apply Hd|lia|]. intros H%HP. lia.
Qed.

(** The bytes of the TCP header and the payload that an error may change. *)
Definition tcp_touched (n len i : Z) : Prop := 24 <= i < 34 \/ n - len <= i.

Lemma wp_inject_tcp_seq pkt b len f :
  input_ok f -> bytes_ok b -> len = fz_last_packet_data_length f -> 0 <= len ->
  len + 40 <= zlen b -> zlen b < 4294967296 -> pk_buffer_bytes pkt = zlen b ->
  wp (v ← read_int;
      p ← lift (pwr (set_pk_buffer b pkt) 20 tcp_seq v);
      len ← global fz_last_packet_data_length;
      let header_length := u32 (pk_buffer_bytes p - len) in
      seq ← lift (prd p 20 tcp_seq);
      p ← lift (refill p (Z.to_nat len) header_length (ntohl seq) 0);
      seq ← lift (prd p 20 tcp_seq);
      mret (p, "// set tcp seq to 0x" +:+ hex_padded 8 seq +:+ newline))
    (fun f' r => corrupted (tcp_touched (zlen b) len) pkt b f f' r /\
       spells_seq (pk_buffer r.1) len) f.
Proof.
  intros Hf Hb Elen Hlen Hfit Hz HB.
  apply wp_bind, wp_read_int; [done|]. intros i v Hi Hv.
  apply wp_bind, wp_pwr; [solve_member|solve_member|solve_member|simpl; lia|].
  intros b1 Hd1 Hr1. apply wp_bind, wp_global. cbv zeta. simpl fz_last_packet_data_length.
  rewrite <-Elen. simpl pk_buffer_bytes. rewrite HB, u32_small by lia.
  destruct Hd1 as (Hb1&Z1&B1).
  apply wp_bind. eapply wp_lift; [exact Hr1|]. set (seq := v mod field_mod tcp_seq) in *.
  destruct (refill_spec pkt (Z.to_nat len) b1 (zlen b - len) (ntohl seq) 0) as (b2&E2&Hb2&Z2&B2);
    [done|lia|lia|lia|].
  apply wp_bind. eapply wp_lift; [exact E2|].
  assert (rd b2 20 tcp_seq = Ok seq) as Hr2.
  { rewrite <-Hr1. apply rd_ext; [done|]. intros k Hk. simpl in Hk. rewrite B2 by lia.
    destruct (Z.leb_spec (zlen b - len + 0) k); [lia|done]. }
  apply wp_bind. eapply wp_lift; [exact Hr2|]. apply wp_ret. split.
  - exists b2, i. split; [done|]. split; [|split; [apply error_line_length; simpl; lia|done]].
    split; [done|]. split; [lia|]. intros k Hk Hn. unfold tcp_touched in Hn.
    rewrite B2, B1 by (try lia; unfold member_bytes; simpl; lia).
    destruct (Z.leb_spec (zlen b - len + 0) k); [lia|done].
  - exists (ntohl seq). simpl pk_buffer. rewrite Hr2. split; [done|]. intros k Hk.
    rewrite B2 by lia. rewrite (proj2 (Z.leb_le _ _)), (proj2 (Z.ltb_lt _ _)) by lia. simpl.
    do 2 f_equal. lia.
Qed.

Lemma wp_inject_tcp_error pkt b tmp len f :
  input_ok f -> bytes_ok b -> len = fz_last_packet_data_length f -> 0 <= len ->
  len + 40 <= zlen b -> zlen b < 4294967296 -> pk_buffer_bytes pkt = zlen b ->
  pk_tcp pkt = Some 20 -> spells_seq b len ->
  wp (inject_tcp_error (set_pk_buffer b pkt) tmp)
    (fun f' r => corrupted (tcp_touched (zlen b) len) pkt b f f' r /\
       spells_seq (pk_buffer r.1) len) f.
Proof.
  intros Hf Hb Elen Hlen Hfit Hz HB Ht Hs. unfold inject_tcp_error.
  destruct (tmp <? 50).
  { apply wp_ret. split; [|exact Hs]. exists b, (fz_file_index f). split; [done|]. split; [done|].
    split; [vm_compute; discriminate|]. split; [by destruct f|apply Hf]. }
  apply wp_bind. eapply wp_lift; [simpl pk_tcp; by rewrite Ht|].
  destruct (tmp <? 100); [by apply wp_inject_tcp_seq|].
  assert (Hother : forall f' r, corrupted (fun i => 28 <= i < 34) pkt b f f' r ->
    corrupted (tcp_touched (zlen b) len) pkt b f f' r /\ spells_seq (pk_buffer r.1) len).
  { intros f' [p s] (b'&i&Ep&Hd&Hrest). simpl in Ep. subst p. split.
    - exists b', i. split; [done|]. split; [|done]. eapply differs_weaken; [exact Hd|].
      unfold tcp_touched. lia.
    - eapply spells_seq_differs; [exact Hd|lia|lia|cbv beta; lia|exact Hs]. }
  pose proof (differs_refl (fun i => 28 <= i < 34) b Hb) as Hd.
  destruct (tmp <? 150); [|destruct (tmp <? 200)].
  - apply wp_bind, wp_read_int; [done|]. intros i v Hi _. eapply wp_mono; [|exact Hother].
    apply (wp_pwr_line _ _ _ _ _ tcp_ack_seq); solve_member.
  - apply wp_bind, wp_read_byte; [done|]. intros i v Hi _. eapply wp_mono; [|exact Hother].
    apply (wp_pwr_line _ _ _ _ _ (F8 13)); solve_member.
  - apply wp_bind, wp_read_byte; [done|]. intros i v Hi _. eapply wp_mono; [|exact Hother].
    apply (wp_pwr_line _ _ _ _ _ tcp_doff); solve_member.
Qed.

(** An injected error stays where it belongs: on a packet of the shape fuzz_to_packet
    gives it (IP header at 0, TCP header at 20, the payload at the end of the buffer and
    spelling the sequence number), inject_error_to_packet returns, changes nothing of the packet but bytes of the IP
    version and header length, fragment offset, IP checksum, TCP sequence and
    acknowledgement numbers, data offset, flags and payload, and keeps the payload spelling
    the sequence number of the header, also when it changes that number. *)
Theorem inject_error_keeps_payload (pkt : packet) (len : Z) (f : fuzzer) :
  input_ok f -> room (fz_script f) 66 -> bytes_ok (pk_buffer pkt) ->
  len = fz_last_packet_data_length f -> 0 <= len -> len + 40 <= zlen (pk_buffer pkt) ->
  zlen (pk_buffer pkt) < 4294967296 -> pk_buffer_bytes pkt = zlen (pk_buffer pkt) ->
  pk_ipv4 pkt = Some 0 -> pk_tcp pkt = Some 20 -> spells_seq (pk_buffer pkt) len ->
  exists f' b', inject_error_to_packet pkt f = Ok (f', set_pk_buffer b' pkt) /\
    differs (fun i => ip_touched i \/ tcp_touched (zlen (pk_buffer pkt)) len i) (pk_buffer pkt) b' /\
    spells_seq b' len.
Proof.
  intros Hf Hroom Hb Elen Hlen Hfit Hz HB H4 Ht Hs. set (b := pk_buffer pkt) in *.
  assert (wp (inject_error_to_packet pkt) (fun f' p => exists b', p = set_pk_buffer b' pkt /\
    differs (fun i => ip_touched i \/ tcp_touched (zlen b) len i) b b' /\ spells_seq b' len) f)
    as (f'&p&E&b'&->&HQ); [|by exists f', b'].
  unfold inject_error_to_packet.
  apply wp_bind, wp_read_byte; [done|]. intros i tmp Hi _.
  assert (pkt = set_pk_buffer b pkt) as Epkt by (by destruct pkt). rewrite Epkt at 1.
  apply wp_bind. eapply wp_mono; [apply wp_inject_version_error; try done; [split; [apply Hf|done]|lia]|].
  intros f1 p1 (b1&i1&->&Hd1&->&Hi1). pose proof Hd1 as (Hb1&Z1&_).
  apply wp_bind. eapply wp_mono; [apply wp_inject_ip_error; try done; [split; [apply Hf|done]|lia]|].
  intros f2 [p2 s2] (b2&i2&Ep2&Hd2&Hs2&->&Hi2). simpl in Ep2, Hs2. subst p2.
  pose proof (differs_trans _ _ _ _ Hd1 Hd2) as Hd12. pose proof Hd12 as (Hb2&Z2&_).
  apply wp_bind, (wp_add_content _ 33); [eapply room_mono; [exact Hroom|lia]| |lia].
  intros r Hr. apply wp_bind, wp_read_byte; [split; [apply Hf|done]|]. intros i3 tmp2 Hi3 _.
  apply wp_bind. eapply wp_mono; [apply (wp_inject_tcp_error pkt b2 tmp2 len); try done;
    [split; [apply Hf|done]|lia|lia|by rewrite Z2|]|].
  { eapply spells_seq_differs; [exact Hd12|done|lia| |exact Hs]. unfold ip_touched. lia. }
  intros f3 [p3 s3] [(b3&i4&Ep3&Hd3&Hs3&->&Hi4) Hsp]. simpl in Ep3, Hs3, Hsp. subst p3.
  apply wp_bind, (wp_add_content _ 0); [eapply room_mono; [exact Hr|lia]| |lia].
  intros r2 _. apply wp_ret. exists b3. split; [done|]. split; [|exact Hsp].
  eapply differs_trans; [eapply differs_weaken; [exact Hd12|by left]|].
  eapply differs_weaken; [exact Hd3|]. rewrite Z2. by right.
Qed.

Lemma bytes_ok_check l : forallb (fun b => (0 <=? b) && (b <? 256)) l = true -> bytes_ok l.
Proof.
  induction l as [|b l IH]; intros H; [constructor|]. cbn [forallb] in H.
  apply andb_true_iff in H as [Hb Hl]. constructor; [unfold is_byte; breflect; lia|]. by apply IH.
Qed.

Lemma inject_error_keeps_payload_witness :
  exists f' b', inject_error_to_packet (fuzz_run sample_input).2
      (set_fz_last_packet_data_length 5 (fuzz_start [60; 7; 3; 70; 1; 2; 3; 4]))
      = Ok (f', set_pk_buffer b' (fuzz_run sample_input).2) /\
    differs (fun i => ip_touched i \/
        tcp_touched (zlen (pk_buffer (fuzz_run sample_input).2)) 5 i)
      (pk_buffer (fuzz_run sample_input).2) b' /\
    spells_seq b' 5.
Proof.
  apply (inject_error_keeps_payload (fuzz_run sample_input).2 5
    (set_fz_last_packet_data_length 5 (fuzz_start [60; 7; 3; 70; 1; 2; 3; 4]))).
  - split; [|discriminate]. repeat constructor; discriminate.
  - eapply (room_mono _ 300); [apply (fuzz_start_room [])|lia].
  - apply bytes_ok_check. vm_compute. reflexivity.
  - reflexivity.
  - discriminate.
  - vm_compute. discriminate.
  - vm_compute. reflexivity.
  - vm_compute. reflexivity.
  - vm_compute. reflexivity.
  - vm_compute. reflexivity.
  - exists 1. split; [vm_compute; reflexivity|]. intros k Hk.
    assert (k = 0 \/ k = 1 \/ k = 2 \/ k = 3 \/ k = 4) as Hc by lia.
    destruct Hc as [-> |[-> |[-> |[-> | ->]]]]; vm_compute; reflexivity.
Defined.
