(* ===== verification/SyscallArgs.v ===== *)
(** * SyscallArgs: the arguments of system calls (run_system_call.c)

    The functions that take the evaluated arguments of a system call apart, those that
    build the structs a call is given (iovec, msghdr with its control messages, netlink
    attributes, sock_extended_err) and those that compare the control messages a call
    returned with the ones the script expects.

    A control buffer is its bytes, a control message an offset into it, laid out as on
    x86-64 Linux. *)

From S2P Require Import Prelude Headers Packet IpPacket Socket Script RunState.

(** ** Taking arguments apart *)

(** [run_system_call.c:128-136] expression_list_length *)
Definition expression_list_length (l : list expression) : Z := zlen l.

(** [run_system_call.c:138-141] get_arg_count *)
Definition get_arg_count (args : list expression) : Z := expression_list_length args.

(** [run_system_call.c:147-158] check_arg_count *)
Definition check_arg_count (args : list expression) (expected : Z) : eval unit :=
  _ ← eval_lift (c_assert (0 <=? expected));
  let actual := get_arg_count args in
  if negb (actual =? expected) then
    fail ("Expected " +:+ dec expected +:+ " args but got " +:+ dec actual)
  else mret tt.

(** [run_system_call.c:163-178] get_arg *)
Definition get_arg (args : list expression) (index : nat) : eval expression :=
  match args !! index with
  | Some e => mret e
  | None => fail "Argument list too short"
  end.

Definition bad_type {A} (e : expression) (expected : string) : eval A :=
  fail ("Bad type; actual: " +:+ expression_type_to_string e +:+ " expected: " +:+ expected).

(** [run_system_call.c:184-196] check_type: types are compared by their names, which differ *)
Definition check_type (e : expression) (expected_type : string) : eval unit :=
  if bool_decide (expression_type_to_string e = expected_type) then mret tt
  else bad_type e expected_type.

Definition UINT_MAX : Z := 4294967295.
Definition INT_MIN : Z := -2147483648.

(** [run_system_call.c:202-216] get_s32 *)
Definition get_s32 (e : expression) : eval Z :=
  match e with
  | EXPR_INTEGER num =>
      if (UINT_MAX <? num) || (num <? INT_MIN) then
        fail ("Value out of range for 32-bit integer: " +:+ dec num)
      else mret (s32 num)
  | _ => bad_type e "integer"
  end.

(** [run_system_call.c:222-229] get_s64 *)
Definition get_s64 (e : expression) : eval Z :=
  match e with
  | EXPR_INTEGER num => mret num
  | _ => bad_type e "integer"
  end.

(** [run_system_call.c:234-241] s32_arg *)
Definition s32_arg (args : list expression) (index : nat) : eval Z :=
  e ← get_arg args index; get_s32 e.

(** [run_system_call.c:246-253] s64_arg *)
Definition s64_arg (args : list expression) (index : nat) : eval Z :=
  e ← get_arg args index; get_s64 e.

(** [run_system_call.c:258-278] bracketed_arg *)
Definition bracketed_arg (args : list expression) (index : nat) : eval expression :=
  e ← get_arg args index;
  match e with
  | EXPR_LIST [elt] => mret elt
  | EXPR_LIST _ => fail "Expected [<element>] but got multiple elements"
  | _ => bad_type e "list"
  end.

(** [run_system_call.c:283-291] s32_bracketed_arg *)
Definition s32_bracketed_arg (args : list expression) (index : nat) : eval Z :=
  e ← bracketed_arg args index; get_s32 e.

(** [run_system_call.c:296-304] s64_bracketed_arg *)
Definition s64_bracketed_arg (args : list expression) (index : nat) : eval Z :=
  e ← bracketed_arg args index; get_s64 e.

(** [run_system_call.c:309-317] ellipsis_arg *)
Definition ellipsis_arg (args : list expression) (index : nat) : eval unit :=
  e ← get_arg args index; check_type e "ellipsis".

(** [run_system_call.c:1256-1272] buffer_arg: whether the argument is NULL *)
Definition buffer_arg (args : list expression) (index : nat) : eval bool :=
  match args !! index with
  | Some EXPR_ELLIPSIS => mret false
  | Some (EXPR_INTEGER 0) => mret true
  | _ => fail "Expected ... or NULL for buffer"
  end.

(** [run_system_call.c:3136-3162] get_pipe_expression: the two descriptors as ints *)
Definition get_pipe_expression (e : expression) : eval (Z * Z) :=
  match e with
  | EXPR_LIST [EXPR_INTEGER a; EXPR_INTEGER b] => mret (s32 a, s32 b)
  | EXPR_LIST [EXPR_INTEGER a; e2] => bad_type e2 "integer"
  | EXPR_LIST [e1; _] => bad_type e1 "integer"
  | EXPR_LIST l => fail (dec (zlen l) +:+ " pipe file descriptors instead of 2" +:+ newline)
  | _ => bad_type e "list"
  end.

(** ** iovec *)

(** [run_system_call.c:355-371] the loop of iovec_new: the lengths, as size_t *)
Fixpoint iovec_loop (l : list expression) : eval (list Z) :=
  match l with
  | [] => mret []
  | EXPR_IOVEC iov_base iov_len :: l' =>
      _ ← eval_lift (c_assert (match iov_base with EXPR_ELLIPSIS => true | _ => false end));
      match iov_len with
      | EXPR_INTEGER num => rest ← iovec_loop l'; mret (u64 num :: rest)
      | _ => Fault AssertFailed
      end
  | e :: _ => bad_type e "iovec"
  end.

(** [run_system_call.c:337-379] iovec_new: the lengths of the zeroed buffers *)
Definition iovec_new (e : expression) : eval (list Z) :=
  match e with
  | EXPR_LIST l => iovec_loop l
  | _ => bad_type e "list"
  end.

(** ** Netlink attributes *)

Definition NLA_HDRLEN : Z := 4.
Definition NLA_ALIGN (len : Z) : Z := Z.land (len + 3) (Z.lnot 3).

Definition ld64 (b : bytes) (o : Z) : exec Z := le_combine <$> get_bytes b o 8.
Definition st64 (b : bytes) (o v : Z) : exec bytes := put_bytes b o (le_split 8 v).

(** [run_system_call.c:402-414] add_nla: the attribute written at [dst] *)
Definition add_nla (b : bytes) (dst type len : Z) (data : bytes) : exec (bytes * Z) :=
  let attr_size := NLA_HDRLEN + len in
  let total_size := NLA_ALIGN attr_size in
  b ← st16 b (dst + 2) type;
  b ← st16 b dst attr_size;
  b ← put_bytes b (dst + NLA_HDRLEN) data;
  b ← put_bytes b (dst + attr_size) (replicate (Z.to_nat (total_size - attr_size)) 0);
  Ok (b, total_size).

(** [run_system_call.c:417-420] nla_value_is_valid *)
Definition nla_value_is_valid (e : expression) : bool :=
  match e with EXPR_INTEGER _ | EXPR_ELLIPSIS => true | _ => false end.

(** [run_system_call.c:422-424] OPT_NLA_IGNORE_VAL and its truncations *)
Definition OPT_NLA_IGNORE_VAL : Z := 4294967295.
Definition OPT_NLA_IGNORE_VAL_U32 : Z := u32 OPT_NLA_IGNORE_VAL.
Definition OPT_NLA_IGNORE_VAL_U8 : Z := u8 OPT_NLA_IGNORE_VAL.

(** [run_system_call.c:427-435] get_nla_value: the first bytes of the value *)
Definition get_nla_value (e : expression) (num_bytes : Z) : bytes :=
  le_split (Z.to_nat num_bytes)
    (match e with EXPR_INTEGER num => num | _ => OPT_NLA_IGNORE_VAL end).

(** [tcp.h:204-220] the numbers of the attributes *)
Definition TCP_NLA_BUSY : Z := 1.
Definition TCP_NLA_RWND_LIMITED : Z := 2.
Definition TCP_NLA_SNDBUF_LIMITED : Z := 3.
Definition TCP_NLA_DATA_SEGS_OUT : Z := 4.
Definition TCP_NLA_TOTAL_RETRANS : Z := 5.
Definition TCP_NLA_PACING_RATE : Z := 6.
Definition TCP_NLA_DELIVERY_RATE : Z := 7.
Definition TCP_NLA_SND_CWND : Z := 8.
Definition TCP_NLA_REORDERING : Z := 9.
Definition TCP_NLA_MIN_RTT : Z := 10.
Definition TCP_NLA_RECUR_RETRANS : Z := 11.
Definition TCP_NLA_DELIVERY_RATE_APP_LMT : Z := 12.
Definition TCP_NLA_SNDQ_SIZE : Z := 13.
Definition TCP_NLA_CA_STATE : Z := 14.

(** [run_system_call.c:508-525] tcp_nla: names and lengths by number *)
Definition tcp_nla : list (string * Z) := [
  ("TCP_NLA_PAD", 4); ("TCP_NLA_BUSY", 8); ("TCP_NLA_RWND_LIMITED", 8);
  ("TCP_NLA_SNDBUF_LIMITED", 8); ("TCP_NLA_DATA_SEGS_OUT", 8); ("TCP_NLA_TOTAL_RETRANS", 8);
  ("TCP_NLA_PACING_RATE", 8); ("TCP_NLA_DELIVERY_RATE", 8); ("TCP_NLA_SND_CWND", 4);
  ("TCP_NLA_REORDERING", 4); ("TCP_NLA_MIN_RTT", 4); ("TCP_NLA_RECUR_RETRANS", 1);
  ("TCP_NLA_DELIVERY_RATE_APP_LMT", 1); ("TCP_NLA_SNDQ_SIZE", 4); ("TCP_NLA_CA_STATE", 1)
]%string.

(** [nla_info[key]]: the index is not checked by the code. *)
Definition nla_entry (key : Z) : exec (string * Z) :=
  if (0 <=? key) && (key <? zlen tcp_nla) then deref (tcp_nla !! Z.to_nat key)
  else Fault OutOfBounds.

(** [run_system_call.c:450-481] the loop of nla_expr_list_to_nla; [dst] is an offset into
    the buffer [b] *)
Fixpoint nla_loop (l : list expression) (b : bytes) (dst : Z) : eval (bytes * Z) :=
  match l with
  | [] => mret (b, dst)
  | EXPR_BINARY op key value :: l' =>
      if negb (bool_decide (op = "=")) then Ok (Err None) else
      match key with
      | EXPR_INTEGER key_num =>
          if negb (nla_value_is_valid value) then fail "values must be numeric or ellipsis" else
          '(_, num_bytes) ← eval_lift (nla_entry key_num);
          _ ← eval_lift (match value with
                | EXPR_INTEGER val_num =>
                    if (num_bytes =? 1) && negb (is_valid_u8 val_num) then Fault Died
                    else if (num_bytes =? 4) && negb (is_valid_u32 val_num) then Fault Died
                    else Ok tt
                | _ => Ok tt
                end);
          '(b, n) ← eval_lift (add_nla b dst key_num num_bytes (get_nla_value value num_bytes));
          nla_loop l' b (dst + n)
      | _ => bad_type key "integer"
      end
  | e :: _ => bad_type e "binary_expression"
  end.

(** [run_system_call.c:440-485] nla_expr_list_to_nla: the buffer and the length written *)
Definition nla_expr_list_to_nla (l : list expression) (b : bytes) (start : Z)
    : eval (bytes * Z) :=
  '(b, dst) ← nla_loop l b start;
  mret (b, dst - start).

(** ** Extended errors *)

(** [struct sock_extended_err] of linux/errqueue.h: [ee_errno] at 0, the bytes
    [ee_origin], [ee_type], [ee_code] and [ee_pad] from 4 on, [ee_info] at 8 and
    [ee_data] at 12. *)
Definition sizeof_sock_extended_err : Z := 16.

(** [run_system_call.c:488-505] new_extended_err: each member is stored as an s32, the
    bytes too *)
Definition new_extended_err (b : bytes) (ee : Z)
    (ee_errno ee_origin ee_type ee_code ee_info ee_data : expression) : eval bytes :=
  v ← get_s32 ee_errno; b ← eval_lift (st32 b ee v);
  v ← get_s32 ee_origin; b ← eval_lift (st32 b (ee + 4) v);
  v ← get_s32 ee_type; b ← eval_lift (st32 b (ee + 5) v);
  v ← get_s32 ee_code; b ← eval_lift (st32 b (ee + 6) v);
  v ← get_s32 ee_info; b ← eval_lift (st32 b (ee + 8) v);
  v ← get_s32 ee_data; eval_lift (st32 b (ee + 12) v).

(** One comparison of sock_ee_expect_eq. *)
Definition ee_check (what : string) (index expected actual : Z) : eval unit :=
  if negb (actual =? expected) then
    fail ("Bad " +:+ what +:+ " in extended err " +:+ dec index +:+ ": expected="
          +:+ dec expected +:+ " actual=" +:+ dec actual)
  else mret tt.

(** [run_system_call.c:622-668] sock_ee_expect_eq; false is the error *)
Definition sock_ee_expect_eq (eb : bytes) (expected : Z) (ab : bytes) (actual index : Z)
    : eval unit :=
  e ← eval_lift (ld32 eb expected); a ← eval_lift (ld32 ab actual);
  _ ← ee_check "errno" index e a;
  e ← eval_lift (ld8 eb (expected + 4)); a ← eval_lift (ld8 ab (actual + 4));
  _ ← ee_check "origin" index e a;
  e ← eval_lift (ld8 eb (expected + 5)); a ← eval_lift (ld8 ab (actual + 5));
  _ ← ee_check "type" index e a;
  e ← eval_lift (ld8 eb (expected + 6)); a ← eval_lift (ld8 ab (actual + 6));
  _ ← ee_check "code" index e a;
  e ← eval_lift (ld32 eb (expected + 8)); a ← eval_lift (ld32 ab (actual + 8));
  _ ← ee_check "info" index e a;
  e ← eval_lift (ld32 eb (expected + 12)); a ← eval_lift (ld32 ab (actual + 12));
  ee_check "data" index e a.

(** ** Control messages *)

(** [script.h:33-33] MSGHDR_MAX_CONTROLLEN *)
Definition MSGHDR_MAX_CONTROLLEN : Z := 1000.

(** The layout of sys/socket.h: [struct cmsghdr] is [cmsg_len] (size_t), [cmsg_level] and
    [cmsg_type], and messages are aligned to 8 bytes. *)
Definition sizeof_cmsghdr : Z := 16.
Definition CMSG_ALIGN (len : Z) : Z := Z.land (len + 7) (Z.lnot 7).
Definition CMSG_LEN (len : Z) : Z := sizeof_cmsghdr + len.
Definition CMSG_SPACE (len : Z) : Z := CMSG_ALIGN len + sizeof_cmsghdr.
Definition CMSG_DATA (cmsg : Z) : Z := cmsg + sizeof_cmsghdr.
Definition cmsg_len (b : bytes) (cmsg : Z) : exec Z := ld64 b cmsg.
Definition cmsg_level (b : bytes) (cmsg : Z) : exec Z := s32 <$> ld32 b (cmsg + 8).
Definition cmsg_type (b : bytes) (cmsg : Z) : exec Z := s32 <$> ld32 b (cmsg + 12).

(** The members of a msghdr: the name, the iovec lengths, the control buffer. *)
Record msghdr := mk_msghdr {
  msg_name : option bytes;
  msg_namelen : Z;
  msg_iov : list Z;
  msg_iovlen : Z;
  msg_control : bytes;
  msg_controllen : Z;
  msg_flags : Z
}.

(** CMSG_FIRSTHDR and CMSG_NXTHDR: the latter wants room for the header of the next
    message after the one at [cmsg]. *)
Definition CMSG_FIRSTHDR (m : msghdr) : option Z :=
  if sizeof_cmsghdr <=? msg_controllen m then Some 0 else None.
Definition CMSG_NXTHDR (m : msghdr) (cmsg : Z) : exec (option Z) :=
  len ← cmsg_len (msg_control m) cmsg;
  Ok (if len <? sizeof_cmsghdr then None
      else if msg_controllen m <? cmsg + CMSG_ALIGN len + sizeof_cmsghdr then None
      else Some (cmsg + CMSG_ALIGN len)).

Definition set_msg_control (b : bytes) (m : msghdr) : msghdr :=
  mk_msghdr (msg_name m) (msg_namelen m) (msg_iov m) (msg_iovlen m) b (msg_controllen m)
    (msg_flags m).
Definition set_msg_controllen (v : Z) (m : msghdr) : msghdr :=
  mk_msghdr (msg_name m) (msg_namelen m) (msg_iov m) (msg_iovlen m) (msg_control m) v
    (msg_flags m).
Definition set_msg_flags (v : Z) (m : msghdr) : msghdr :=
  mk_msghdr (msg_name m) (msg_namelen m) (msg_iov m) (msg_iovlen m) (msg_control m)
    (msg_controllen m) v.

Definition SOL_IP : Z := 0.
Definition SOL_IPV6 : Z := 41.
Definition SOL_SOCKET : Z := 1.
Definition IP_RECVERR : Z := 11.
Definition IPV6_RECVERR : Z := 25.
Definition SCM_TIMESTAMPING : Z := 37.
Definition SCM_TIMESTAMPING_OPT_STATS : Z := 54.

(** [uapi_linux.h:92-94] struct scm_timestamping: three timespecs *)
Definition scm_timestamping_bytes (ts : list (Z * Z)) : bytes :=
  mjoin ((fun t : Z * Z => le_split 8 t.1 ++ le_split 8 t.2) <$> ts).
Definition sizeof_scm_timestamping : Z := 48.

(** [run_system_call.c:564-605] the data of one message of cmsg_new, written at [data],
    and its length *)
Definition cmsg_data_new (e : expression) (b : bytes) (level data : Z) : eval (bytes * Z) :=
  match e with
  | EXPR_INTEGER _ =>
      v ← get_s32 e; b ← eval_lift (st32 b data v); mret (b, 4)
  | EXPR_SCM_TIMESTAMPING ts =>
      src ← eval_lift (get_bytes (scm_timestamping_bytes ts) 0 sizeof_scm_timestamping);
      b ← eval_lift (put_bytes b data src); mret (b, sizeof_scm_timestamping)
  | EXPR_LIST l => nla_expr_list_to_nla l b data
  | EXPR_SOCK_EXTENDED_ERR a1 a2 a3 a4 a5 a6 =>
      b ← new_extended_err b data a1 a2 a3 a4 a5 a6;
      mret (b, sizeof_sock_extended_err + (if level =? SOL_IP then 16 else 28))
  | _ => fail "Unrecognized type for cmsg_data"
  end.

(** [run_system_call.c:551-611] the loop of cmsg_new: [cmsg] is NULL when there is no
    room for another header.  With it, the sum of the spaces, which an error leaves as
    it is. *)
Fixpoint cmsg_loop (l : list expression) (m : msghdr) (cmsg : option Z) (sum : Z)
    : eval (msghdr * Z) :=
  match l with
  | [] => mret (m, sum)
  | EXPR_CMSG level type cdata :: l' =>
      level ← get_s32 level;
      c ← eval_lift (deref cmsg);
      b ← eval_lift (st32 (msg_control m) (c + 8) level);
      type ← get_s32 type;
      b ← eval_lift (st32 b (c + 12) type);
      '(b, len) ← cmsg_data_new cdata b level (CMSG_DATA c);
      b ← eval_lift (st64 b c (CMSG_LEN len));
      let m := set_msg_control b m in
      next ← eval_lift (CMSG_NXTHDR m c);
      cmsg_loop l' m next (sum + CMSG_SPACE len)
  | e :: _ => bad_type e "cmsg"
  end.

(** [run_system_call.c:532-619] cmsg_new *)
Definition cmsg_new (e : expression) (m : msghdr) : eval msghdr :=
  match e with
  | EXPR_LIST l =>
      let m := set_msg_controllen MSGHDR_MAX_CONTROLLEN
                 (set_msg_control (replicate (Z.to_nat MSGHDR_MAX_CONTROLLEN) 0) m) in
      '(m, sum) ← cmsg_loop l m (CMSG_FIRSTHDR m) 0;
      mret (set_msg_controllen sum m)
  | _ => Fault AssertFailed
  end.

(** [run_system_call.c:919-981] msghdr_new *)
Definition msghdr_new (e : expression) : eval msghdr :=
  match e with
  | EXPR_MSGHDR name namelen iov iovlen control flags =>
      _ ← eval_lift (c_assert (match name with EXPR_ELLIPSIS => true | _ => false end));
      _ ← eval_lift (c_assert (match namelen with EXPR_ELLIPSIS => true | _ => false end));
      iov ← iovec_new iov;
      n ← get_s32 iovlen;
      if negb (u64 n =? zlen iov) then
        fail ("msg_iovlen " +:+ dec n +:+ " does not match " +:+ dec (s32 (zlen iov))
              +:+ "-element iovec array")
      else
        m ← cmsg_new control (mk_msghdr (Some (replicate 128 0)) 128 iov (u64 n) [] 0 0);
        flags ← get_s32 flags;
        mret (set_msg_flags flags m)
  | _ => bad_type e "msghdr"
  end.

(** ** Comparing control messages *)

(** [run_system_call.c:671-676] timespec_to_usecs: the division of C, towards zero *)
Definition timespec_to_usecs (tv_sec tv_nsec : Z) : Z := tv_sec * 1000000 + Z.quot tv_nsec 1000.

(** [run_system_call.c:686-709] the loop of scm_timestamping_expect_eq, from the
    timespec [i] on *)
Fixpoint scm_timestamping_loop (n : nat) (i : Z) (st : state) (eb : bytes) (expected : Z)
    (ab : bytes) (actual index : Z) : eval unit :=
  match n with
  | O => mret tt
  | S n' =>
      es ← eval_lift (s64 <$> ld64 eb (expected + 16 * i));
      en ← eval_lift (s64 <$> ld64 eb (expected + 16 * i + 8));
      if (es =? 0) && (en =? 0) then
        scm_timestamping_loop n' (i + 1) st eb expected ab actual index
      else
        as_ ← eval_lift (s64 <$> ld64 ab (actual + 16 * i));
        an ← eval_lift (s64 <$> ld64 ab (actual + 16 * i + 8));
        let exp_usecs := script_time_to_live_time_usecs st (timespec_to_usecs es en) in
        let actual_usecs := timespec_to_usecs as_ an in
        if cfg_tolerance_usecs (st_config st) <? Z.abs (exp_usecs - actual_usecs) then
          let start := st_live_start_time_usecs st in
          fail ("Bad timestamp " +:+ dec i +:+ " in scm_timestamping " +:+ dec index
                +:+ ": expected=" +:+ dec exp_usecs +:+ " (" +:+ dec (exp_usecs - start)
                +:+ ") actual=" +:+ dec actual_usecs +:+ " (" +:+ dec (actual_usecs - start)
                +:+ ") start=" +:+ dec start)
        else scm_timestamping_loop n' (i + 1) st eb expected ab actual index
  end.

(** [run_system_call.c:679-711] scm_timestamping_expect_eq *)
Definition scm_timestamping_expect_eq (st : state) (eb : bytes) (expected : Z) (ab : bytes)
    (actual index : Z) : eval unit :=
  scm_timestamping_loop 3 0 st eb expected ab actual index.

(** The failure of one attribute of scm_opt_stats_expect_eq. *)
Definition bad_nla (type ev av : Z) : eval unit :=
  '(name, _) ← eval_lift (nla_entry type);
  fail ("Bad " +:+ name +:+ ": expected=" +:+ dec ev +:+ " actual=" +:+ dec av).

(** [run_system_call.c:746-806] the switch of scm_opt_stats_expect_eq on the values at
    [ep] and [ap]; a number it does not know fails without a message *)
Definition nla_expect_eq (tolerance_us type : Z) (eb : bytes) (ep : Z) (ab : bytes) (ap : Z)
    : eval unit :=
  if (type =? TCP_NLA_BUSY) || (type =? TCP_NLA_RWND_LIMITED)
     || (type =? TCP_NLA_SNDBUF_LIMITED) then
    ev ← eval_lift (ld64 eb ep); av ← eval_lift (ld64 ab ap);
    if ev =? OPT_NLA_IGNORE_VAL then mret tt
    else if negb (ev =? 0) then
      if Z.abs (s64 (ev - av)) <=? tolerance_us then mret tt else bad_nla type ev av
    else if av =? 0 then mret tt else bad_nla type ev av
  else if (type =? TCP_NLA_DATA_SEGS_OUT) || (type =? TCP_NLA_TOTAL_RETRANS)
          || (type =? TCP_NLA_PACING_RATE) || (type =? TCP_NLA_DELIVERY_RATE) then
    ev ← eval_lift (ld64 eb ep); av ← eval_lift (ld64 ab ap);
    if (ev =? av) || (ev =? OPT_NLA_IGNORE_VAL) then mret tt else bad_nla type ev av
  else if (type =? TCP_NLA_SND_CWND) || (type =? TCP_NLA_REORDERING)
          || (type =? TCP_NLA_MIN_RTT) || (type =? TCP_NLA_SNDQ_SIZE) then
    ev ← eval_lift (ld32 eb ep); av ← eval_lift (ld32 ab ap);
    if (ev =? av) || (ev =? OPT_NLA_IGNORE_VAL_U32) then mret tt else bad_nla type ev av
  else if (type =? TCP_NLA_RECUR_RETRANS) || (type =? TCP_NLA_DELIVERY_RATE_APP_LMT)
          || (type =? TCP_NLA_CA_STATE) then
    ev ← eval_lift (ld8 eb ep); av ← eval_lift (ld8 ab ap);
    if (ev =? av) || (ev =? OPT_NLA_IGNORE_VAL_U8) then mret tt else bad_nla type ev av
  else Ok (Err None).

(** [run_system_call.c:726-809] the loop of scm_opt_stats_expect_eq *)
Fixpoint scm_opt_stats_loop (fuel : nat) (tolerance_us : Z) (eb : bytes) (expected : Z)
    (ab : bytes) (actual len index offset : Z) : eval unit :=
  match fuel with
  | O => Fault OutOfFuel
  | S fuel' =>
      if negb (offset <? len) then mret tt else
      let ep := expected + offset in
      let ap := actual + offset in
      et ← eval_lift (ld16 eb (ep + 2)); at_ ← eval_lift (ld16 ab (ap + 2));
      if negb (et =? at_) then
        fail ("Bad nla_type " +:+ dec index +:+ ": expected=" +:+ dec et +:+ " actual=" +:+ dec at_)
      else
      el ← eval_lift (ld16 eb ep); al ← eval_lift (ld16 ab ap);
      if negb (el =? al) then
        fail ("Bad nla_len " +:+ dec index +:+ ": expected=" +:+ dec el +:+ " actual=" +:+ dec al)
      else
      _ ← nla_expect_eq tolerance_us et eb (ep + NLA_HDRLEN) ab (ap + NLA_HDRLEN);
      scm_opt_stats_loop fuel' tolerance_us eb expected ab actual len index
        (offset + NLA_ALIGN el)
  end.

(** [run_system_call.c:714-812] scm_opt_stats_expect_eq: an attribute takes at least four
    bytes unless its length is 0 *)
Definition scm_opt_stats_expect_eq (st : state) (eb : bytes) (expected : Z) (ab : bytes)
    (actual len index : Z) : eval unit :=
  scm_opt_stats_loop (S (Z.to_nat len)) (cfg_tolerance_usecs (st_config st)) eb expected ab
    actual len index 0.

(** [run_system_call.c:863-890] the comparison of the data of two messages *)
Definition cmsg_data_expect_eq (st : state) (level type len : Z) (eb : bytes) (edata : Z)
    (ab : bytes) (adata i : Z) : eval unit :=
  if ((level =? SOL_IP) && (type =? IP_RECVERR))
     || ((level =? SOL_IPV6) && (type =? IPV6_RECVERR)) then
    sock_ee_expect_eq eb edata ab adata i
  else if (level =? SOL_SOCKET) && (type =? SCM_TIMESTAMPING) then
    scm_timestamping_expect_eq st eb edata ab adata i
  else if (level =? SOL_SOCKET) && (type =? SCM_TIMESTAMPING_OPT_STATS) then
    scm_opt_stats_expect_eq st eb edata ab adata (s32 len) i
  else
    a ← eval_lift (get_bytes ab adata len);
    e ← eval_lift (get_bytes eb edata len);
    if bool_decide (a = e) then mret tt
    else fail ("Bad data in cmsg " +:+ dec i +:+ ": expected="
               +:+ bytes_string (c_string (drop (Z.to_nat edata) eb)) +:+ " actual="
               +:+ bytes_string (c_string (drop (Z.to_nat adata) ab))).

(** [run_system_call.c:823-903] the loop of cmsg_expect_eq and the checks after it *)
Fixpoint cmsg_expect_loop (fuel : nat) (st : state) (expect actual : msghdr)
    (ecm acm : option Z) (i : Z) : eval unit :=
  match fuel with
  | O => Fault OutOfFuel
  | S fuel' =>
      match acm, ecm with
      | None, None => mret tt
      | Some _, None => fail ("received more than " +:+ dec i +:+ " cmsgs")
      | None, Some _ => fail ("received only " +:+ dec i +:+ " cmsgs")
      | Some a, Some e =>
          let ab := msg_control actual in
          let eb := msg_control expect in
          alen ← eval_lift (cmsg_len ab a); elen ← eval_lift (cmsg_len eb e);
          if (alen =? 0) || (elen =? 0) then fail "cmsgs do not match" else
          alevel ← eval_lift (cmsg_level ab a); elevel ← eval_lift (cmsg_level eb e);
          if negb (alevel =? elevel) then
            fail ("Bad level in cmsg " +:+ dec i +:+ ": expected=" +:+ dec elevel
                  +:+ " actual=" +:+ dec alevel) else
          atype ← eval_lift (cmsg_type ab a); etype ← eval_lift (cmsg_type eb e);
          if negb (atype =? etype) then
            fail ("Bad type in cmsg " +:+ dec i +:+ ": expected=" +:+ dec etype
                  +:+ " actual=" +:+ dec atype) else
          if negb (alen =? elen) then
            fail ("Bad len in cmsg " +:+ dec i +:+ ": expected=" +:+ dec elen
                  +:+ " actual=" +:+ dec alen) else
          _ ← cmsg_data_expect_eq st alevel atype (u64 (alen - sizeof_cmsghdr)) eb (CMSG_DATA e)
                ab (CMSG_DATA a) i;
          acm ← eval_lift (CMSG_NXTHDR actual a);
          ecm ← eval_lift (CMSG_NXTHDR expect e);
          cmsg_expect_loop fuel' st expect actual ecm acm (i + 1)
      end
  end.

(** [run_system_call.c:815-905] cmsg_expect_eq: a message takes at least 16 bytes *)
Definition cmsg_expect_eq (st : state) (expect actual : msghdr) : eval unit :=
  cmsg_expect_loop (S (Z.to_nat (msg_controllen expect))) st expect actual
    (CMSG_FIRSTHDR expect) (CMSG_FIRSTHDR actual) 0.
