(* ===== verification/SystemCall.v ===== *)
(** * SystemCall: making the system calls of a script (run_system_call.c, file.c, pipe.c,
    epoll.c)

    The table of file descriptors, the bookkeeping before and after a call, one handler
    per system call, and the dispatch that evaluates the arguments of a script's call and
    runs its handler.

    A handler runs in [sysm]: a state over [exec] whose result is an outcome, the state
    being kept when the handler returns an error.  The kernel, or the user-level stack
    when there is one, is a list of replies, one per live call, and the calls made are
    collected in [sys_calls] with their arguments.  While a blocking call is in progress
    the main thread runs: what it does to the state comes with the reply. *)

From S2P Require Import Prelude Headers Packet IpAddress IpPacket Socket Script RunState FuzzHelper SyscallArgs.

(** ** The state *)

(** [run_system_call.h:36-42] enum syscall_state_t *)
Inductive syscall_state_t :=
  | SYSCALL_IDLE
  | SYSCALL_ENQUEUED
  | SYSCALL_RUNNING
  | SYSCALL_DONE
  | SYSCALL_EXITING.

#[export] Instance syscall_state_t_eq_dec : EqDecision syscall_state_t.
Proof. solve_decision. Defined.

(** [run_system_call.h:47-80] struct syscalls: the members that are data *)
Record syscalls := mk_syscalls {
  sc_state : syscall_state_t;
  sc_event : option nat;
  sc_live_end_usecs : Z
}.

(** A pollfd; [events] and [revents] are shorts. *)
Record pollfd := mk_pollfd { pfd_fd : Z; pfd_events : Z; pfd_revents : Z }.

(** [epoll.h:33-38] enum epoll_data_type_t *)
Inductive epoll_data_type_t := EPOLL_DATA_PTR | EPOLL_DATA_FD | EPOLL_DATA_U32 | EPOLL_DATA_U64.

(** An epoll_event: the events and the member of the union that was assigned. *)
Record epoll_event := mk_epoll_event { ee_events : Z; ee_data_type : epoll_data_type_t; ee_value : Z }.

(** An offset argument of splice: a pointer to the offset, or the offset itself taken for
    a pointer. *)
Inductive splice_off := OffPointer (off : Z) | OffAsPointer (off : Z).

(** The live calls, with their arguments.  An address is the bytes that are initialised;
    a buffer that is only written by the call is present or NULL. *)
Inductive live_call :=
  | LSocket (domain type protocol : Z)
  | LBind (fd : Z) (addr : bytes) (addrlen : Z)
  | LListen (fd backlog : Z)
  | LAccept (fd addrlen : Z)
  | LConnect (fd : Z) (addr : bytes) (addrlen : Z)
  | LRead (fd : Z) (is_null : bool) (count : Z)
  | LReadv (fd : Z) (iov : list Z) (iov_count : Z)
  | LRecv (fd : Z) (is_null : bool) (count flags : Z)
  | LRecvfrom (fd : Z) (is_null : bool) (count flags addrlen : Z)
  | LRecvmsg (fd : Z) (msg : msghdr) (flags : Z)
  | LWrite (fd : Z) (buf : option bytes) (count : Z)
  | LWritev (fd : Z) (iov : list Z) (iov_count : Z)
  | LSend (fd : Z) (buf : option bytes) (count flags : Z)
  | LSendto (fd : Z) (buf : option bytes) (count flags : Z) (addr : bytes) (addrlen : Z)
  | LSendmsg (fd : Z) (msg : msghdr) (flags : Z)
  | LFcntl (fd command : Z) (arg : option Z)
  | LIoctl (fd command : Z) (has_arg : bool)
  | LClose (fd : Z)
  | LShutdown (fd how : Z)
  | LGetsockopt (fd level optname optlen : Z)
  | LSetsockopt (fd level optname : Z) (optval : bytes) (optlen : Z)
  | LPoll (fds : list pollfd) (nfds timeout : Z)
  | LCapGetProc
  | LCapSetFlag (cap_flag cap_value cap_op : Z)
  | LCapSetProc
  | LCapFree
  | LOpen (name : bytes) (flags : Z)
  | LSendfile (outfd infd offset count : Z)
  | LEpollCreate (size : Z)
  | LEpollCtl (epfd op fd : Z) (event : epoll_event)
  | LEpollWait (epfd maxevents timeout : Z)
  | LPipe
  | LSplice (fd_in : Z) (off_in : splice_off) (fd_out : Z) (off_out : splice_off) (len flags : Z).

(** What a live call does: its result, errno after it, the bytes it stores through its
    pointer argument, the length it stores, the integers it stores (revents, descriptors,
    flags), and for a blocking call what the main thread did meanwhile. *)
Record reply := mk_reply {
  rp_result : Z;
  rp_errno : Z;
  rp_bytes : bytes;
  rp_len : Z;
  rp_ints : list Z;
  rp_meanwhile : state -> state
}.

(** A reply with a result only. *)
Definition returns_only (result errno : Z) : reply := mk_reply result errno [] 0 [] id.

(** The run as a system call sees it. *)
Record sys := mk_sys {
  sys_state : state;
  sys_fuzzer : fuzzer;
  sys_so_instance : bool;
  sys_syscalls : syscalls;
  sys_replies : list reply;
  sys_calls : list live_call
}.

Definition set_sys_state (v : state) (s : sys) : sys :=
  mk_sys v (sys_fuzzer s) (sys_so_instance s) (sys_syscalls s) (sys_replies s) (sys_calls s).
Definition set_sys_fuzzer (v : fuzzer) (s : sys) : sys :=
  mk_sys (sys_state s) v (sys_so_instance s) (sys_syscalls s) (sys_replies s) (sys_calls s).
Definition set_sys_syscalls (v : syscalls) (s : sys) : sys :=
  mk_sys (sys_state s) (sys_fuzzer s) (sys_so_instance s) v (sys_replies s) (sys_calls s).
Definition set_sys_replies (v : list reply) (s : sys) : sys :=
  mk_sys (sys_state s) (sys_fuzzer s) (sys_so_instance s) (sys_syscalls s) v (sys_calls s).
Definition set_sys_calls (v : list live_call) (s : sys) : sys :=
  mk_sys (sys_state s) (sys_fuzzer s) (sys_so_instance s) (sys_syscalls s) (sys_replies s) v.

Definition set_sc_state (v : syscall_state_t) (c : syscalls) : syscalls :=
  mk_syscalls v (sc_event c) (sc_live_end_usecs c).

(** The messages of the C library. *)
Class Libc := {
  strerror : Z -> string;
  inet_ntop6 : bytes -> string
}.

(** ** The monad of a handler *)

Definition sysm (A : Type) : Type := sys -> exec (sys * outcome A).

#[export] Instance sysm_ret : MRet sysm := fun A a s => Ok (s, Done a).
#[export] Instance sysm_bind : MBind sysm := fun A B f m s =>
  match m s with
  | Ok (s', Done a) => f a s'
  | Ok (s', Err error) => Ok (s', Err error)
  | Fault e => Fault e
  end.

(** Computations on arguments, on the whole state, and of the fuzzer. *)
Definition pure_ {A} (m : eval A) : sysm A := fun s => r ← m; Ok (s, r).
Definition exec_ {A} (m : exec A) : sysm A := fun s => a ← m; Ok (s, Done a).
Definition raise {A} (error : string) : sysm A := fun s => Ok (s, Err (Some error)).
Definition asks {A} (get : sys -> A) : sysm A := fun s => Ok (s, Done (get s)).
Definition with_state {A} (f : state -> exec (state * A)) : sysm A := fun s =>
  '(st, a) ← f (sys_state s); Ok (set_sys_state st s, Done a).
Definition modify (f : sys -> sys) : sysm unit := fun s => Ok (f s, Done tt).
Definition fuzz_ {A} (m : fuzz A) : sysm A := fun s =>
  '(f, a) ← m (sys_fuzzer s); Ok (set_sys_fuzzer f s, Done a).

(** A live call: the next reply; a call without one never returns. *)
Definition live (call : syscall_spec) (c : live_call) : sysm reply := fun s =>
  match sys_replies s with
  | [] => Fault Blocked
  | r :: rest =>
      let s := set_sys_replies rest (set_sys_calls (sys_calls s ++ [c]) s) in
      let s := if is_blocking_syscall call
               then set_sys_state (rp_meanwhile r (sys_state s)) s else s in
      Ok (s, Done r)
  end.

(** A call of the C library that is not the system call of the script. *)
Definition library (c : live_call) : sysm reply :=
  live (mk_syscall_spec "" [] EXPR_ELLIPSIS None SYSCALL_NON_BLOCKING) c.

(** ** File descriptors *)

(** The members of an fd_state. *)
Record fd_members := mk_fd { fd_type : fd_type_t; fd_script_fd : Z; fd_live_fd : Z; fd_is_closed : bool }.

Definition fd_view (st : state) (fd : fd_state) : exec fd_members :=
  match fd with
  | FdSocket i =>
      s ← socket_at st i; Ok (mk_fd FD_SOCKET (sk_script_fd s) (sk_live_fd s) (sk_is_closed s))
  | FdOther type script_fd live_fd is_closed => Ok (mk_fd type script_fd live_fd is_closed)
  end.

(** The loop over the list that find_by_script_fd and find_by_live_fd share: the first
    descriptor that satisfies the test, by its position. *)
Fixpoint find_fd (st : state) (test : fd_members -> bool) (fds : list fd_state) (i : nat)
    : exec (option nat) :=
  match fds with
  | [] => Ok None
  | fd :: fds' =>
      v ← fd_view st fd;
      if test v then
        _ ← c_assert (0 <=? fd_live_fd v);
        _ ← c_assert (0 <=? fd_script_fd v);
        Ok (Some i)
      else find_fd st test fds' (S i)
  end.

(** [run_system_call.c:1180-1195] find_by_script_fd: a closed descriptor is found too *)
Definition find_by_script_fd (st : state) (script_fd : Z) : exec (option nat) :=
  find_fd st (fun v => fd_script_fd v =? script_fd) (st_fds st) 0.

(** [run_system_call.c:1198-1210] find_by_live_fd *)
Definition find_by_live_fd (st : state) (live_fd : Z) : exec (option nat) :=
  find_fd st (fun v => negb (fd_is_closed v) && (fd_live_fd v =? live_fd)) (st_fds st) 0.

(** [run_system_call.c:1216-1230] to_live_fd *)
Definition to_live_fd (script_fd : Z) : sysm Z := fun s =>
  let st := sys_state s in
  found ← find_by_script_fd st script_fd;
  match found with
  | Some i =>
      fd ← deref (st_fds st !! i);
      v ← fd_view st fd;
      Ok (s, Done (fd_live_fd v))
  | None => Ok (s, Err (Some ("unable to find fd with script fd " +:+ dec script_fd)))
  end.

(** [run_system_call.c:1235-1249] check_duplicate_fd *)
Definition check_duplicate_fd (script_fd live_fd : Z) : sysm unit := fun s =>
  let st := sys_state s in
  found ← find_by_script_fd st script_fd;
  if bool_decide (is_Some found) then
    Ok (s, Err (Some ("duplicate fd " +:+ dec script_fd +:+ " in script")))
  else
    found ← find_by_live_fd st live_fd;
    if bool_decide (is_Some found) then
      Ok (s, Err (Some ("duplicate live fd " +:+ dec live_fd)))
    else Ok (s, Done tt).

(** A new descriptor of a kind that is only a descriptor, with its two numbers. *)
Definition other_new (type : fd_type_t) (script_fd live_fd : Z) : sysm unit :=
  with_state (fun st => Ok (state_add_fd st (FdOther type script_fd live_fd false), tt)).

(** [file.c:48-55] file_new, and the assignments of its caller *)
Definition file_new (script_fd live_fd : Z) : sysm unit := other_new FD_FILE script_fd live_fd.

(** [pipe.c:48-55] pipe_new, and the assignments of its caller *)
Definition pipe_new (script_fd live_fd : Z) : sysm unit := other_new FD_PIPE script_fd live_fd.

(** [epoll.c:48-55] epoll_new, and the assignments of its caller *)
Definition epoll_new (script_fd live_fd : Z) : sysm unit := other_new FD_EPOLL script_fd live_fd.

(** [socket.h:123-129] fd_to_socket of what find_by_script_fd finds *)
Definition find_socket (st : state) (script_fd : Z) : exec (option nat) :=
  found ← find_by_script_fd st script_fd;
  match found with
  | Some i => fd ← deref (st_fds st !! i); Ok (match fd with FdSocket j => Some j | _ => None end)
  | None => Ok None
  end.

(** ** Before and after a call *)

(** What a failed assertion about [syscalls->state] does.  It is assert(3), whose instance is
    at the end of SyscallHandlers.v; as a parameter of the handlers it lets a theorem say that
    none of these assertions is ever false. *)
Class StateAssert := state_assert_fault : fault.
Definition assert_state `{StateAssert} (b : bool) : exec unit :=
  if b then Ok tt else Fault state_assert_fault.

Lemma assert_state_Ok `{StateAssert} b u : assert_state b = Ok u -> b = true.
Proof. by destruct b. Qed.

(** [run_system_call.c:1093-1103] begin_syscall *)
Definition begin_syscall `{StateAssert} (call : syscall_spec) : sysm unit := fun s =>
  if is_blocking_syscall call then
    _ ← assert_state (bool_decide (sc_state (sys_syscalls s) = SYSCALL_ENQUEUED));
    Ok (set_sys_syscalls (set_sc_state SYSCALL_RUNNING (sys_syscalls s)) s, Done tt)
  else Ok (s, Done tt).

(** [run_system_call.c:1111-1114] enum result_check_t *)
Inductive result_check_t := CHECK_EXACT | CHECK_FD.

Section Handlers.
Context `{Libc}.

(** [run_system_call.c:1137-1174] the comparisons of end_syscall *)
Definition check_result (call : syscall_spec) (mode : result_check_t) (actual actual_errno : Z)
    : eval unit :=
  expected ← get_s32 (sy_result call);
  _ ← (match mode with
       | CHECK_FD =>
           if 0 <=? expected then
             if actual <? 0 then
               fail ("Expected non-negative result but got " +:+ dec actual +:+ " with errno "
                     +:+ dec actual_errno +:+ " (" +:+ strerror actual_errno +:+ ")")
             else mret tt
           else if negb (actual =? expected) then
             fail ("Expected result " +:+ dec expected +:+ " but got " +:+ dec actual
                   +:+ " with errno " +:+ dec actual_errno +:+ " (" +:+ strerror actual_errno +:+ ")")
           else mret tt
       | CHECK_EXACT =>
           if negb (actual =? expected) then
             fail ("Expected result " +:+ dec expected +:+ " but got " +:+ dec actual
                   +:+ " with errno " +:+ dec actual_errno +:+ " (" +:+ strerror actual_errno +:+ ")")
           else mret tt
       end);
  match sy_error call with
  | None => mret tt
  | Some e =>
      match symbol_to_int (errno_macro e) with
      | Err error => Ok (Err error)
      | Done expected_errno =>
          if negb (actual_errno =? expected_errno) then
            fail ("Expected errno " +:+ dec (s32 expected_errno) +:+ " ("
                  +:+ strerror (s32 expected_errno) +:+ ") but got " +:+ dec actual_errno
                  +:+ " (" +:+ strerror actual_errno +:+ ")")
          else mret tt
      end
  end.

(** [run_system_call.c:1123-1130] what end_syscall does for a blocking call *)
Definition end_blocking `{StateAssert} : sysm unit := fun s =>
  '(st, live_end_usecs) ← now_usecs (sys_state s);
  let s := set_sys_state st s in
  let c := mk_syscalls (sc_state (sys_syscalls s)) (sc_event (sys_syscalls s)) live_end_usecs in
  _ ← assert_state (bool_decide (sc_state c = SYSCALL_RUNNING));
  Ok (set_sys_syscalls (set_sc_state SYSCALL_DONE c) s, Done tt).

(** [run_system_call.c:1115-1177] end_syscall; the line it prints when verbose is left out *)
Definition end_syscall `{StateAssert} (call : syscall_spec) (mode : result_check_t) (r : reply) : sysm unit :=
  _ ← fuzz_ (add_syscall_result_to_fuzz_result (sy_name call) (rp_result r));
  _ ← (if is_blocking_syscall call then end_blocking else mret tt);
  pure_ (check_result call mode (rp_result r) (rp_errno r)).

(** [run_system_call.c:1274-1287] alloc_buffer: a count below 0 is a size no allocation
    grants *)
Definition alloc_buffer (is_null : bool) (count : Z) : exec (option bytes) :=
  if is_null then Ok None
  else if count <? 0 then Fault AssertFailed
  else Ok (Some (replicate (Z.to_nat count) 0)).

(** ** The bookkeeping of each call *)

(** [run_system_call.c:1299-1311] run_syscall_open *)
Definition run_syscall_open (script_fd live_fd : Z) : sysm unit :=
  _ ← check_duplicate_fd script_fd live_fd;
  file_new script_fd live_fd.

(** [run_system_call.c:1318-1350] run_syscall_socket *)
Definition run_syscall_socket (address_family type protocol script_fd live_fd : Z) : sysm unit :=
  if script_fd <? 0 then
    raise ("invalid socket fd " +:+ dec script_fd +:+ " in script")
  else if live_fd <? 0 then raise ("invalid live socket fd " +:+ dec live_fd)
  else
    _ ← check_duplicate_fd script_fd live_fd;
    with_state (fun st =>
      '(st, i) ← state_socket_new st;
      s ← socket_at st i;
      let s := set_sk_state SOCKET_NEW s in
      let s := set_sk_address_family address_family s in
      let s := set_sk_type type s in
      let s := set_sk_protocol protocol s in
      let s := set_sk_script_fd script_fd s in
      let s := set_sk_live_fd live_fd s in
      Ok (set_st_socket_under_test (Some i) (store_socket i s st), tt)).

(** Marking the descriptor at a position closed. *)
Definition set_closed (i : nat) (st : state) : exec state :=
  fd ← deref (st_fds st !! i);
  match fd with
  | FdSocket j => s ← socket_at st j; Ok (store_socket j (set_sk_is_closed true s) st)
  | FdOther type script_fd live_fd _ =>
      Ok (set_st_fds (<[i := FdOther type script_fd live_fd true]> (st_fds st)) st)
  end.

(** [run_system_call.c:1356-1371] run_syscall_close *)
Definition run_syscall_close (script_fd live_fd : Z) : sysm unit := fun s =>
  let st := sys_state s in
  let error := Err (Some ("unable to find fd with script fd " +:+ dec script_fd
                          +:+ " and live fd " +:+ dec live_fd)) in
  found ← find_by_script_fd st script_fd;
  match found with
  | None => Ok (s, error)
  | Some i =>
      fd ← deref (st_fds st !! i);
      v ← fd_view st fd;
      if negb (fd_live_fd v =? live_fd) then Ok (s, error)
      else st ← set_closed i st; Ok (set_sys_state st s, Done tt)
  end.

(** [run_system_call.c:1377-1389] run_syscall_bind: the address and its length *)
Definition run_syscall_bind : sysm (bytes * Z) :=
  cfg ← asks (fun s => st_config (sys_state s));
  addr ← exec_ (ip_to_sockaddr (cfg_live_bind_ip cfg) (cfg_live_bind_port cfg));
  mret (addr, zlen addr).

(** [run_system_call.c:1395-1411] run_syscall_listen *)
Definition run_syscall_listen (script_fd live_fd : Z) : sysm unit := fun s =>
  let st := sys_state s in
  found ← find_socket st script_fd;
  match found with
  | Some j =>
      sock ← socket_at st j;
      _ ← c_assert (sk_script_fd sock =? script_fd);
      _ ← c_assert (sk_live_fd sock =? live_fd);
      Ok (set_sys_state (store_socket j (set_sk_state SOCKET_PASSIVE_LISTENING sock) st) s, Done tt)
  | None => Ok (s, Err (Some ("unable to find socket with script fd " +:+ dec script_fd)))
  end.

(** [run_system_call.c:1440-1462] the loop of run_syscall_accept: the socket whose
    handshake is under way *)
Fixpoint accept_loop (st : state) (fds : list fd_state) (ip : ip_address) (port : Z)
    (script_fd live_fd : Z) : exec (option state) :=
  match fds with
  | [] => Ok None
  | FdSocket j :: fds' =>
      sock ← socket_at st j;
      if bool_decide (sk_state sock = SOCKET_PASSIVE_SYNACK_SENT)
         || bool_decide (sk_state sock = SOCKET_PASSIVE_SYNACK_ACKED) then
        same ← is_equal_ip (ep_ip (ss_remote (sk_live sock))) ip;
        _ ← c_assert same;
        _ ← c_assert (is_equal_port (ep_port (ss_remote (sk_live sock))) (htons port));
        Ok (Some (store_socket j (set_sk_live_fd live_fd (set_sk_script_fd script_fd sock)) st))
      else accept_loop st fds' ip port script_fd live_fd
  | _ :: fds' => accept_loop st fds' ip port script_fd live_fd
  end.

(** [run_system_call.c:1418-1499] run_syscall_accept *)
Definition run_syscall_accept (script_fd live_fd : Z) (live_addr : bytes) (live_addrlen : Z)
    : sysm unit := fun s =>
  let st := sys_state s in
  '(ip, port) ← ip_from_sockaddr live_addr live_addrlen;
  let ip := if ip_family ip =? AF_INET6 then default ip (ipv6_map_to_ipv4 ip) else ip in
  found ← accept_loop st (st_fds st) ip port script_fd live_fd;
  match found with
  | Some st => Ok (set_sys_state st s, Done tt)
  | None =>
      if negb (cfg_is_wire_client (st_config st)) then
        Ok (s, Err (Some "unable to find socket matching accept() call"%string))
      else
        '(st, i) ← state_socket_new st;
        let st := set_st_socket_under_test (Some i) st in
        sock ← socket_at st i;
        _ ← c_assert (bool_decide (sk_state sock = SOCKET_INIT));
        let sock := set_sk_address_family (ip_family ip) sock in
        let live := set_ss_remote (mk_endpoint ip port) (sk_live sock) in
        let live := set_ss_local (mk_endpoint (cfg_live_local_ip (st_config st))
                                    (htons (cfg_live_bind_port (st_config st)))) live in
        let sock := set_sk_live live sock in
        let sock := set_sk_script_fd script_fd (set_sk_live_fd live_fd sock) in
        Ok (set_sys_state (store_socket i sock st) s, Done tt)
  end.

(** [sizeof(struct sockaddr_storage)]. *)
Definition sizeof_sockaddr_storage : Z := 128.
Definition AF_UNSPEC : Z := 0.

(** [run_system_call.c:1506-1556] run_syscall_connect: the address and its length, which
    starts as [live_addrlen] *)
Definition run_syscall_connect (script_fd : Z) (must_be_new_socket : bool) (live_addrlen : Z)
    (sa_family : Z) : sysm (bytes * Z) := fun s =>
  let st := sys_state s in
  let cfg := st_config st in
  '(addr, len) ← (if negb (sa_family =? -1) then
                    Ok (le_split 2 sa_family ++ replicate 14 0, live_addrlen)
                  else addr ← ip_to_sockaddr (cfg_live_connect_ip cfg) (cfg_live_connect_port cfg);
                       Ok (addr, zlen addr));
  found ← find_socket st script_fd;
  j ← (match found with Some j => Ok j | None => Fault AssertFailed end);
  sock ← socket_at st j;
  family ← ld16 addr 0;
  if family =? AF_UNSPEC then
    Ok (set_sys_state (store_socket j (set_sk_state SOCKET_NEW sock) st) s, Done (addr, len))
  else if negb (bool_decide (sk_state sock = SOCKET_NEW)) then
    if must_be_new_socket then Ok (s, Err (Some "socket is not new"%string))
    else Ok (s, Done (addr, len))
  else
    let sock := set_sk_state SOCKET_ACTIVE_CONNECTING sock in
    let script := set_ss_remote (mk_endpoint ip_reset 0) (sk_script sock) in
    let script := set_ss_local (mk_endpoint ip_reset 0) script in
    let live := set_ss_remote (mk_endpoint (cfg_live_remote_ip cfg)
                                 (htons (cfg_live_connect_port cfg))) (sk_live sock) in
    let sock := set_sk_live live (set_sk_script script sock) in
    Ok (set_sys_state (store_socket j sock st) s, Done (addr, len)).

(** [run_system_call.c:1563-1575] run_syscall_epoll_create *)
Definition run_syscall_epoll_create (epfd_script epfd_live : Z) : sysm unit :=
  _ ← check_duplicate_fd epfd_script epfd_live;
  epoll_new epfd_script epfd_live.

(** [run_system_call.c:1582-1600] run_syscall_pipe *)
Definition run_syscall_pipe (pfd_script pfd_live : Z * Z) : sysm unit :=
  _ ← check_duplicate_fd pfd_script.1 pfd_live.1;
  _ ← check_duplicate_fd pfd_script.2 pfd_live.2;
  _ ← pipe_new pfd_script.1 pfd_live.1;
  pipe_new pfd_script.2 pfd_live.2.

End Handlers.
