(* ===== verification/SyscallHandlers.v ===== *)
(** * SyscallHandlers: the handler of each system call (run_system_call.c)

    [syscall_*] of the source: the checks of the arguments, the live call between
    begin_syscall and end_syscall, the bookkeeping after it; then the dispatch table and
    invoke_system_call.  A live call made through the user-level stack and one made to
    the kernel have the same arguments, splice apart. *)

From S2P Require Import Prelude Headers Packet IpAddress IpPacket IcmpPacket Socket Script RunState FuzzHelper SyscallArgs SystemCall.

(** A handler: the call in the script and its evaluated arguments. *)
Definition handler : Type := syscall_spec -> list expression -> sysm unit.

Section Handlers.
Context `{Libc, StateAssert}.

(** The descriptor arguments of most handlers: the script's number and the live one. *)
Definition fd_arg (args : list expression) (index : nat) : sysm (Z * Z) :=
  script_fd ← pure_ (s32_arg args index);
  live_fd ← to_live_fd script_fd;
  mret (script_fd, live_fd).

(** The call, its result checked. *)
Definition call_exact (call : syscall_spec) (c : live_call) : sysm reply :=
  _ ← begin_syscall call;
  r ← live call c;
  _ ← end_syscall call CHECK_EXACT r;
  mret r.
Definition call_fd (call : syscall_spec) (c : live_call) : sysm reply :=
  _ ← begin_syscall call;
  r ← live call c;
  _ ← end_syscall call CHECK_FD r;
  mret r.

(** [run_system_call.c:1607-1646] syscall_socket *)
Definition syscall_socket : handler := fun call args =>
  _ ← pure_ (check_arg_count args 3);
  _ ← pure_ (ellipsis_arg args 0);
  type ← pure_ (s32_arg args 1);
  protocol ← pure_ (s32_arg args 2);
  domain ← asks (fun s => cfg_socket_domain (st_config (sys_state s)));
  r ← call_fd call (LSocket domain type protocol);
  if 0 <=? rp_result r then
    script_fd ← pure_ (get_s32 (sy_result call));
    run_syscall_socket domain type protocol script_fd (rp_result r)
  else mret tt.

(** [run_system_call.c:1648-1687] syscall_bind: a bind that fails ends the run *)
Definition syscall_bind : handler := fun call args =>
  _ ← pure_ (check_arg_count args 3);
  '(script_fd, live_fd) ← fd_arg args 0;
  _ ← pure_ (ellipsis_arg args 1);
  _ ← pure_ (ellipsis_arg args 2);
  '(live_addr, live_addrlen) ← run_syscall_bind;
  _ ← begin_syscall call;
  r ← live call (LBind live_fd live_addr live_addrlen);
  if rp_result r <? 0 then exec_ (Fault Died)
  else end_syscall call CHECK_EXACT r.

(** [run_system_call.c:1689-1720] syscall_listen *)
Definition syscall_listen : handler := fun call args =>
  _ ← pure_ (check_arg_count args 2);
  '(script_fd, live_fd) ← fd_arg args 0;
  backlog ← pure_ (s32_arg args 1);
  _ ← call_exact call (LListen live_fd backlog);
  run_syscall_listen script_fd live_fd.

(** [run_system_call.c:1722-1766] syscall_accept: the reply has the peer's address *)
Definition syscall_accept : handler := fun call args =>
  _ ← pure_ (check_arg_count args 3);
  '(script_fd, live_fd) ← fd_arg args 0;
  _ ← pure_ (ellipsis_arg args 1);
  _ ← pure_ (ellipsis_arg args 2);
  r ← call_fd call (LAccept live_fd sizeof_sockaddr_storage);
  if 0 <=? rp_result r then
    script_accepted_fd ← pure_ (get_s32 (sy_result call));
    run_syscall_accept script_accepted_fd (rp_result r) (rp_bytes r) (rp_len r)
  else mret tt.

(** The address argument of connect and sendto: an ellipsis, or an address family. *)
Definition sa_family_arg (args : list expression) (index : nat) : eval Z :=
  match ellipsis_arg args index with
  | Ok (Done _) => mret (-1)
  | Ok (Err _) => s32_arg args index
  | Fault e => Fault e
  end.

(** [run_system_call.c:1768-1806] syscall_connect *)
Definition syscall_connect : handler := fun call args =>
  _ ← pure_ (check_arg_count args 3);
  '(script_fd, live_fd) ← fd_arg args 0;
  sa_family ← pure_ (sa_family_arg args 1);
  _ ← pure_ (ellipsis_arg args 2);
  '(addr, addrlen) ← run_syscall_connect script_fd false sizeof_sockaddr_storage sa_family;
  _ ← call_exact call (LConnect live_fd addr addrlen);
  mret tt.

(** [run_system_call.c:1808-1850] syscall_read: the bytes of the reply are in the buffer *)
Definition syscall_read : handler := fun call args =>
  _ ← pure_ (check_arg_count args 3);
  '(script_fd, live_fd) ← fd_arg args 0;
  is_null ← pure_ (buffer_arg args 1);
  count ← pure_ (s32_arg args 2);
  _ ← exec_ (alloc_buffer is_null count);
  _ ← begin_syscall call;
  r ← live call (LRead live_fd is_null count);
  _ ← fuzz_ (add_read_result_to_fuzz_result (if is_null : bool then [] else rp_bytes r) (rp_result r));
  end_syscall call CHECK_EXACT r.

(** The iovec argument of readv and writev, its length checked against the count. *)
Definition iovec_arg (args : list expression) : eval (list Z * Z) :=
  e ← get_arg args 1;
  iov ← iovec_new e;
  iov_count ← s32_arg args 2;
  if negb (u64 iov_count =? zlen iov) then
    fail ("iov_count " +:+ dec iov_count +:+ " does not match " +:+ dec (s32 (zlen iov))
          +:+ "-element iovec array")
  else mret (iov, iov_count).

(** [run_system_call.c:1852-1900] syscall_readv *)
Definition syscall_readv : handler := fun call args =>
  _ ← pure_ (check_arg_count args 3);
  '(script_fd, live_fd) ← fd_arg args 0;
  '(iov, iov_count) ← pure_ (iovec_arg args);
  _ ← call_exact call (LReadv live_fd iov iov_count);
  mret tt.

(** [run_system_call.c:1902-1937] syscall_recv *)
Definition syscall_recv : handler := fun call args =>
  _ ← pure_ (check_arg_count args 4);
  '(script_fd, live_fd) ← fd_arg args 0;
  is_null ← pure_ (buffer_arg args 1);
  count ← pure_ (s32_arg args 2);
  flags ← pure_ (s32_arg args 3);
  _ ← exec_ (alloc_buffer is_null count);
  _ ← call_exact call (LRecv live_fd is_null count flags);
  mret tt.

(** [run_system_call.c:1939-1982] syscall_recvfrom *)
Definition syscall_recvfrom : handler := fun call args =>
  _ ← pure_ (check_arg_count args 6);
  '(script_fd, live_fd) ← fd_arg args 0;
  is_null ← pure_ (buffer_arg args 1);
  count ← pure_ (s32_arg args 2);
  flags ← pure_ (s32_arg args 3);
  _ ← pure_ (ellipsis_arg args 4);
  _ ← pure_ (ellipsis_arg args 5);
  _ ← exec_ (alloc_buffer is_null count);
  _ ← call_exact call (LRecvfrom live_fd is_null count flags sizeof_sockaddr_storage);
  mret tt.

(** [run_system_call.c:1984-2039] syscall_recvmsg: the call fills in the flags (the first
    integer of the reply), the control buffer and its length *)
Definition syscall_recvmsg : handler := fun call args =>
  _ ← pure_ (check_arg_count args 3);
  '(script_fd, live_fd) ← fd_arg args 0;
  msg_expression ← pure_ (get_arg args 1);
  msg ← pure_ (msghdr_new msg_expression);
  expected_msg ← pure_ (msghdr_new msg_expression);
  flags ← pure_ (s32_arg args 2);
  r ← call_exact call (LRecvmsg live_fd msg flags);
  let msg := set_msg_flags (default 0 (head (rp_ints r)))
               (set_msg_controllen (rp_len r) (set_msg_control (rp_bytes r) msg)) in
  if negb (msg_flags msg =? msg_flags expected_msg) then
    raise ("Expected msg_flags 0x" +:+ hex_padded 8 (u32 (msg_flags expected_msg))
           +:+ " but got 0x" +:+ hex_padded 8 (u32 (msg_flags msg)))
  else
    st ← asks sys_state;
    pure_ (cmsg_expect_eq st expected_msg msg).

(** [run_system_call.c:2061-2063] the pattern syscall_write fills its buffer with *)
Definition write_pattern (buf : option bytes) (count total_write_num : Z) : exec (option bytes) :=
  match buf with
  | Some b =>
      Ok (Some ((fun i => (u64 (Z.of_nat i + total_write_num)) mod 10) <$> seq 0 (length b)))
  | None => if 0 <? count then Fault NullDeref else Ok None
  end.

(** [run_system_call.c:2042-2082] syscall_write *)
Definition syscall_write : handler := fun call args =>
  _ ← pure_ (check_arg_count args 3);
  '(script_fd, live_fd) ← fd_arg args 0;
  is_null ← pure_ (buffer_arg args 1);
  count ← pure_ (s32_arg args 2);
  buf ← exec_ (alloc_buffer is_null count);
  total ← asks (fun s => fz_total_write_num (sys_fuzzer s));
  buf ← exec_ (write_pattern buf count total);
  _ ← begin_syscall call;
  r ← live call (LWrite live_fd buf count);
  _ ← (if 0 <? rp_result r then
         fuzz_ (update (fun f => set_fz_total_write_num
                                   (u64 (fz_total_write_num f + rp_result r)) f))
       else mret tt);
  end_syscall call CHECK_EXACT r.

(** [run_system_call.c:2084-2132] syscall_writev *)
Definition syscall_writev : handler := fun call args =>
  _ ← pure_ (check_arg_count args 3);
  '(script_fd, live_fd) ← fd_arg args 0;
  '(iov, iov_count) ← pure_ (iovec_arg args);
  _ ← call_exact call (LWritev live_fd iov iov_count);
  mret tt.

(** [run_system_call.c:2134-2170] syscall_send *)
Definition syscall_send : handler := fun call args =>
  _ ← pure_ (check_arg_count args 4);
  '(script_fd, live_fd) ← fd_arg args 0;
  is_null ← pure_ (buffer_arg args 1);
  count ← pure_ (s32_arg args 2);
  flags ← pure_ (s32_arg args 3);
  buf ← exec_ (alloc_buffer is_null count);
  _ ← call_exact call (LSend live_fd buf count flags);
  mret tt.

Definition SOCK_DGRAM : Z := 2.

(** [run_system_call.c:2327-2336] the ICMP header of syscall_icmp_sendto *)
Definition icmp_buffer (buf : option bytes) (wire_protocol count : Z) : exec (option bytes) :=
  if (wire_protocol =? AF_INET) && (sizeof_icmpv4 <=? count) then
    b ← deref buf; b ← st8 b 0 ICMP_ECHO; Ok (Some b)
  else if (wire_protocol =? AF_INET6) && (sizeof_icmpv6 <=? count) then
    b ← deref buf; b ← st8 b 0 ICMPV6_ECHO_REQUEST; Ok (Some b)
  else Ok buf.

(** [run_system_call.c:2295-2353] syscall_icmp_sendto: [count >= sizeof] compares as
    unsigned, but a negative count has failed in alloc_buffer or has no buffer *)
Definition syscall_icmp_sendto : handler := fun call args =>
  _ ← pure_ (check_arg_count args 6);
  '(script_fd, live_fd) ← fd_arg args 0;
  is_null ← pure_ (buffer_arg args 1);
  count ← pure_ (s32_arg args 2);
  flags ← pure_ (s32_arg args 3);
  _ ← pure_ (ellipsis_arg args 4);
  _ ← pure_ (ellipsis_arg args 5);
  '(addr, addrlen) ← run_syscall_connect script_fd false sizeof_sockaddr_storage (-1);
  buf ← exec_ (alloc_buffer is_null count);
  wire_protocol ← asks (fun s => cfg_wire_protocol (st_config (sys_state s)));
  buf ← exec_ (icmp_buffer buf wire_protocol (u64 count));
  _ ← call_exact call (LSendto live_fd buf count flags addr addrlen);
  mret tt.

(** [run_system_call.c:2203-2209] whether the socket of a sendto is an ICMP socket *)
Definition is_icmp_socket (s : socket) : bool :=
  (sk_type s =? SOCK_DGRAM) &&
  (((sk_address_family s =? AF_INET) && (sk_protocol s =? IPPROTO_ICMP)) ||
   ((sk_address_family s =? AF_INET6) && (sk_protocol s =? IPPROTO_ICMPV6))).

(** [run_system_call.c:2172-2235] syscall_sendto *)
Definition syscall_sendto : handler := fun call args =>
  _ ← pure_ (check_arg_count args 6);
  '(script_fd, live_fd) ← fd_arg args 0;
  is_null ← pure_ (buffer_arg args 1);
  count ← pure_ (s32_arg args 2);
  flags ← pure_ (s32_arg args 3);
  sa_family ← pure_ (sa_family_arg args 4);
  _ ← pure_ (ellipsis_arg args 5);
  st ← asks sys_state;
  found ← exec_ (find_socket st script_fd);
  is_icmp ← exec_ (match found with
                   | Some j => s ← socket_at st j; Ok (is_icmp_socket s)
                   | None => Ok false
                   end);
  if is_icmp : bool then syscall_icmp_sendto call args
  else
    '(addr, addrlen) ← run_syscall_connect script_fd false sizeof_sockaddr_storage sa_family;
    buf ← exec_ (alloc_buffer is_null count);
    _ ← call_exact call (LSendto live_fd buf count flags addr addrlen);
    mret tt.

(** [run_system_call.c:2237-2287] syscall_sendmsg: the destination is stored in msg_name *)
Definition syscall_sendmsg : handler := fun call args =>
  _ ← pure_ (check_arg_count args 3);
  '(script_fd, live_fd) ← fd_arg args 0;
  msg_expression ← pure_ (get_arg args 1);
  msg ← pure_ (msghdr_new msg_expression);
  flags ← pure_ (s32_arg args 2);
  msg ← (match msg_name msg with
         | Some name =>
             '(addr, addrlen) ← run_syscall_connect script_fd false (msg_namelen msg) (-1);
             mret (mk_msghdr (Some (addr ++ drop (length addr) name)) addrlen (msg_iov msg)
                     (msg_iovlen msg) (msg_control msg) (msg_controllen msg) (msg_flags msg))
         | None => mret msg
         end);
  if negb (msg_flags msg =? 0) then raise "sendmsg ignores msg_flags field in msghdr"
  else
    _ ← call_exact call (LSendmsg live_fd msg flags);
    mret tt.

(** [run_system_call.c:2355-2403] syscall_fcntl *)
Definition syscall_fcntl : handler := fun call args =>
  let actual_arg_count := get_arg_count args in
  if negb (actual_arg_count =? 2) && negb (actual_arg_count =? 3) then
    raise ("fcntl expected 2-3 args but got " +:+ dec actual_arg_count)
  else
    '(script_fd, live_fd) ← fd_arg args 0;
    command ← pure_ (s32_arg args 1);
    arg ← (if actual_arg_count =? 2 then mret None
           else arg ← pure_ (s32_arg args 2); mret (Some arg));
    _ ← call_exact call (LFcntl live_fd command arg);
    mret tt.

(** [run_system_call.c:2405-2471] syscall_ioctl: the call stores an int (the first integer
    of the reply); a wrong one is an error only when [checker] is set *)
Definition syscall_ioctl : handler := fun call args =>
  let actual_arg_count := get_arg_count args in
  if negb (actual_arg_count =? 2) && negb (actual_arg_count =? 3) then
    raise ("ioctl expected 2-3 args but got " +:+ dec actual_arg_count)
  else
    '(script_fd, live_fd) ← fd_arg args 0;
    command ← pure_ (s32_arg args 1);
    if actual_arg_count =? 2 then
      _ ← call_exact call (LIoctl live_fd command false); mret tt
    else
      script_optval ← pure_ (s32_bracketed_arg args 2);
      r ← call_exact call (LIoctl live_fd command true);
      let live_optval := default 0 (head (rp_ints r)) in
      _ ← fuzz_ (add_syscall_result_to_fuzz_result "ioctl_param" live_optval);
      checker ← asks (fun s => fz_checker (sys_fuzzer s));
      if negb (live_optval =? script_optval) && checker then
        raise ("Bad ioctl optval: expected: " +:+ dec script_optval +:+ " actual: "
               +:+ dec live_optval)
      else mret tt.

(** [run_system_call.c:2473-2501] syscall_close *)
Definition syscall_close : handler := fun call args =>
  _ ← pure_ (check_arg_count args 1);
  '(script_fd, live_fd) ← fd_arg args 0;
  _ ← call_exact call (LClose live_fd);
  run_syscall_close script_fd live_fd.

(** [run_system_call.c:2503-2530] syscall_shutdown *)
Definition syscall_shutdown : handler := fun call args =>
  _ ← pure_ (check_arg_count args 2);
  '(script_fd, live_fd) ← fd_arg args 0;
  how ← pure_ (s32_arg args 1);
  _ ← call_exact call (LShutdown live_fd how);
  mret tt.

(** [run_system_call.c:2585-2658] the comparison of syscall_getsockopt: [buf] is live_optval *)
Definition check_optval (args : list expression) (val_expression : expression)
    (script_optlen : Z) (buf : bytes) : eval unit :=
  let bad_optlen := fail ("Unsupported getsockopt optlen: " +:+ dec script_optlen) in
  match val_expression with
  | EXPR_STRING script_optval =>
      if bool_decide (c_string buf = c_string script_optval) then mret tt
      else fail ("Bad getsockopt optval: expected: '" +:+ bytes_string (c_string script_optval)
                 +:+ "' actual: '" +:+ bytes_string (c_string buf) +:+ "'")
  | EXPR_LIST _ =>
      if negb (script_optlen =? 4) then bad_optlen else
      expected ← s32_bracketed_arg args 3;
      actual ← eval_lift (s32 <$> ld32 buf 0);
      if negb (actual =? expected) then
        fail ("Bad getsockopt optval: expected: " +:+ dec expected +:+ " actual: " +:+ dec actual)
      else mret tt
  | EXPR_GRE gre =>
      if negb (script_optlen =? sizeof_gre) then bad_optlen else
      live ← eval_lift (f ← get_bytes buf 0 2; r ← get_bytes buf 4 12; Ok (f ++ r));
      script ← eval_lift (f ← get_bytes gre 0 2; r ← get_bytes gre 4 12; Ok (f ++ r));
      if bool_decide (live = script) then mret tt else fail "Bad getsockopt optval."
  | EXPR_IN6_ADDR a =>
      if negb (script_optlen =? 16) then bad_optlen else
      live ← eval_lift (get_bytes buf 0 16);
      script ← eval_lift (get_bytes a 0 16);
      if bool_decide (live = script) then mret tt
      else fail ("Bad getsockopt optval: expected: " +:+ inet_ntop6 script +:+ " actual: "
                 +:+ inet_ntop6 live +:+ " ")
  | e => fail ("unsupported getsockopt value type: " +:+ expression_type_to_string e)
  end.

(** [run_system_call.c:2532-2665] syscall_getsockopt: the call stores the bytes of the
    reply in live_optval and its length in live_optlen *)
Definition syscall_getsockopt : handler := fun call args =>
  _ ← pure_ (check_arg_count args 5);
  '(script_fd, live_fd) ← fd_arg args 0;
  level ← pure_ (s32_arg args 1);
  optname ← pure_ (s32_arg args 2);
  val_expression ← pure_ (get_arg args 3);
  script_optlen ← pure_ (s32_bracketed_arg args 4);
  let live_optval := replicate (Z.to_nat (u32 (u32 script_optlen + 1))) 0 in
  r ← call_exact call (LGetsockopt live_fd level optname (u32 script_optlen));
  live_optval ← exec_ (put_bytes live_optval 0 (rp_bytes r));
  if negb (s32 (rp_len r) =? script_optlen) then
    raise ("Bad getsockopt optlen: expected: " +:+ dec script_optlen +:+ " actual: "
           +:+ dec (s32 (rp_len r)))
  else pure_ (check_optval args val_expression script_optlen live_optval).

(** [struct mpls_stack] in memory. *)
Definition mpls_stack_bytes (stack : mpls_stack) : bytes :=
  let l := mpls_entries stack in
  mjoin (le_split 4 <$> (l ++ replicate (Z.to_nat MPLS_STACK_MAX_ENTRIES - length l) 0))
  ++ le_split 4 (zlen l).

(** [run_system_call.c:2690-2711] the value of syscall_setsockopt *)
Definition setsockopt_value (args : list expression) (e : expression) : eval bytes :=
  match e with
  | EXPR_LINGER l_onoff l_linger => mret (le_split 4 l_onoff ++ le_split 4 l_linger)
  | EXPR_GRE gre => mret gre
  | EXPR_IN6_ADDR a => mret a
  | EXPR_MPLS_STACK stack => mret (mpls_stack_bytes stack)
  | EXPR_STRING buf => mret buf
  | EXPR_LIST _ => v ← s32_bracketed_arg args 3; mret (le_split 4 v)
  | _ => fail ("unsupported setsockopt value type: " +:+ expression_type_to_string e)
  end.

(** [run_system_call.c:2667-2722] syscall_setsockopt *)
Definition syscall_setsockopt : handler := fun call args =>
  _ ← pure_ (check_arg_count args 5);
  '(script_fd, live_fd) ← fd_arg args 0;
  level ← pure_ (s32_arg args 1);
  optname ← pure_ (s32_arg args 2);
  optlen ← pure_ (s32_arg args 4);
  val_expression ← pure_ (get_arg args 3);
  optval ← pure_ (setsockopt_value args val_expression);
  _ ← call_exact call (LSetsockopt live_fd level optname optval optlen);
  mret tt.

Definition s16 (z : Z) : Z := (z + 32768) mod 65536 - 32768.

(** [run_system_call.c:1007-1028] the loop of pollfds_new *)
Fixpoint pollfds_loop (l : list expression) : sysm (list pollfd) :=
  match l with
  | [] => mret []
  | EXPR_POLLFD fd events revents :: l' =>
      fd ← pure_ (get_s64 fd);
      events ← pure_ (get_s64 events);
      revents ← pure_ (get_s64 revents);
      live_fd ← to_live_fd (s32 fd);
      rest ← pollfds_loop l';
      mret (mk_pollfd live_fd (s16 events) (s16 revents) :: rest)
  | e :: _ => pure_ (bad_type e "pollfd")
  end.

(** [run_system_call.c:988-1036] pollfds_new *)
Definition pollfds_new (fds_expression : expression) : sysm (list pollfd) :=
  match fds_expression with
  | EXPR_LIST l => pollfds_loop l
  | e => pure_ (bad_type e "list")
  end.

(** [run_system_call.c:1053-1083] the loop of pollfds_check *)
Fixpoint pollfds_check_loop (l : list expression) (fds : list pollfd) (i : Z) : eval unit :=
  match fds with
  | [] => mret tt
  | p :: fds' =>
      match l with
      | EXPR_POLLFD (EXPR_INTEGER _) (EXPR_INTEGER _) (EXPR_INTEGER revents) :: l' =>
          let expected_revents := s32 revents in
          let actual_revents := pfd_revents p in
          if negb (actual_revents =? expected_revents) then
            e ← eval_lift (flags_to_string poll_flags expected_revents);
            a ← eval_lift (flags_to_string poll_flags actual_revents);
            fail ("Expected revents of " +:+ e +:+ " but got " +:+ a +:+ " for pollfd " +:+ dec i)
          else pollfds_check_loop l' fds' (i + 1)
      | [] => Fault NullDeref
      | _ => Fault AssertFailed
      end
  end.

(** [run_system_call.c:1043-1085] pollfds_check *)
Definition pollfds_check (fds_expression : expression) (fds : list pollfd) : eval unit :=
  match fds_expression with
  | EXPR_LIST l => pollfds_check_loop l fds 0
  | _ => Fault AssertFailed
  end.

(** The revents that poll stored. *)
Definition poll_result (fds : list pollfd) (revents : list Z) : list pollfd :=
  zip_with (fun p v => mk_pollfd (pfd_fd p) (pfd_events p) (s16 v)) fds
    (revents ++ drop (length revents) (pfd_revents <$> fds)).

(** [run_system_call.c:2724-2775] syscall_poll *)
Definition syscall_poll : handler := fun call args =>
  _ ← pure_ (check_arg_count args 3);
  fds_expression ← pure_ (get_arg args 0);
  fds ← pollfds_new fds_expression;
  nfds ← pure_ (s32_arg args 1);
  timeout ← pure_ (s32_arg args 2);
  if negb (u64 nfds =? zlen fds) then
    raise ("nfds " +:+ dec nfds +:+ " does not match " +:+ dec (s32 (zlen fds))
           +:+ "-element pollfd array")
  else
    r ← call_exact call (LPoll fds nfds timeout);
    pure_ (pollfds_check fds_expression (poll_result fds (rp_ints r))).

(** [run_system_call.c:2777-2812] syscall_cap_set: a result of -1 of a library call is its
    failure, or the NULL of cap_get_proc *)
Definition syscall_cap_set : handler := fun call args =>
  _ ← pure_ (check_arg_count args 3);
  cap_flag ← pure_ (s32_arg args 0);
  cap_value ← pure_ (s32_arg args 1);
  cap_op ← pure_ (s32_arg args 2);
  r ← library LCapGetProc;
  _ ← exec_ (if rp_result r =? -1 then Fault Died else Ok tt);
  r ← library (LCapSetFlag cap_flag cap_value cap_op);
  _ ← exec_ (if rp_result r =? -1 then Fault Died else Ok tt);
  _ ← call_fd call LCapSetProc;
  r ← library LCapFree;
  exec_ (if rp_result r =? -1 then Fault Died else Ok tt).

(** [run_system_call.c:2814-2847] syscall_open *)
Definition syscall_open : handler := fun call args =>
  _ ← pure_ (check_arg_count args 2);
  name_expression ← pure_ (get_arg args 0);
  name ← pure_ (match name_expression with
                | EXPR_STRING buf => mret (c_string buf)
                | e => bad_type e "string"
                end);
  flags ← pure_ (s32_arg args 1);
  r ← call_fd call (LOpen name flags);
  if 0 <=? rp_result r then
    script_fd ← pure_ (get_s32 (sy_result call));
    run_syscall_open script_fd (rp_result r)
  else mret tt.

(** [run_system_call.c:2849-2883] syscall_sendfile *)
Definition syscall_sendfile : handler := fun call args =>
  _ ← pure_ (check_arg_count args 4);
  '(script_outfd, live_outfd) ← fd_arg args 0;
  '(script_infd, live_infd) ← fd_arg args 1;
  script_offset ← pure_ (s64_bracketed_arg args 2);
  count ← pure_ (s32_arg args 3);
  _ ← call_exact call (LSendfile live_outfd live_infd script_offset count);
  mret tt.

(** [run_system_call.c:2888-2948] get_epoll_event_from_expr *)
Definition get_epoll_event_from_expr (e : expression) (script_fd live_fd : Z) : sysm epoll_event :=
  match e with
  | EXPR_EPOLLEV events ptr fd u32_ u64_ =>
      events ← pure_ (get_s64 events);
      match ptr, fd, u32_, u64_ with
      | Some p, _, _, _ =>
          v ← pure_ (get_s64 p); mret (mk_epoll_event (u32 events) EPOLL_DATA_PTR (u64 v))
      | None, Some f, _, _ =>
          num ← pure_ (get_s64 f);
          live_fd ← (if script_fd =? -1 then to_live_fd (s32 num)
                     else if negb (num =? script_fd) then
                       raise ("wrong fd specified in epoll_event" +:+ newline)
                     else mret live_fd);
          mret (mk_epoll_event (u32 events) EPOLL_DATA_FD live_fd)
      | None, None, Some u, _ =>
          v ← pure_ (get_s64 u); mret (mk_epoll_event (u32 events) EPOLL_DATA_U32 (u32 v))
      | None, None, None, Some u =>
          v ← pure_ (get_s64 u); mret (mk_epoll_event (u32 events) EPOLL_DATA_U64 (u64 v))
      | None, None, None, None => raise "epoll_event specified incorrectly"
      end
  | _ => pure_ (bad_type e "epollev")
  end.

(** [run_system_call.c:2950-2981] syscall_epoll_create *)
Definition syscall_epoll_create : handler := fun call args =>
  _ ← pure_ (check_arg_count args 1);
  size ← pure_ (s32_arg args 0);
  r ← call_fd call (LEpollCreate size);
  if 0 <=? rp_result r then
    script_fd ← pure_ (get_s32 (sy_result call));
    run_syscall_epoll_create script_fd (rp_result r)
  else mret tt.

(** [run_system_call.c:2983-3022] syscall_epoll_ctl *)
Definition syscall_epoll_ctl : handler := fun call args =>
  _ ← pure_ (check_arg_count args 4);
  '(epfd_script, epfd_live) ← fd_arg args 0;
  op ← pure_ (s32_arg args 1);
  '(script_fd, live_fd) ← fd_arg args 2;
  epollev ← pure_ (get_arg args 3);
  event ← get_epoll_event_from_expr epollev script_fd live_fd;
  _ ← call_exact call (LEpollCtl epfd_live op live_fd event);
  mret tt.

(** [run_system_call.c:3070-3127] the comparison of syscall_epoll_wait with the first
    event of the live array: its events and the 64 bits of its data *)
Definition check_epoll_event (script : epoll_event) (events data : Z) : eval unit :=
  if negb (ee_events script =? events) then
    fail ("epoll_event->events does not match script: expected: 0x"
          +:+ hex_digits 8 (ee_events script) +:+ " actual: 0x" +:+ hex_digits 8 events +:+ newline)
  else
    let actual := match ee_data_type script with
                  | EPOLL_DATA_PTR | EPOLL_DATA_U64 => data
                  | EPOLL_DATA_FD => s32 data
                  | EPOLL_DATA_U32 => u32 data
                  end in
    let show v := match ee_data_type script with
                  | EPOLL_DATA_PTR => "0x" +:+ hex_digits 16 v
                  | _ => dec v
                  end in
    if negb (ee_value script =? actual) then
      fail ("epoll_event->data does not match script: expected: " +:+ show (ee_value script)
            +:+ " actual: " +:+ show actual +:+ newline)
    else mret tt.

(** [run_system_call.c:3024-3134] syscall_epoll_wait: the reply's integers are the events
    and the data of the first event; an array of no elements has none to read *)
Definition syscall_epoll_wait : handler := fun call args =>
  _ ← pure_ (check_arg_count args 4);
  '(epfd_script, epfd_live) ← fd_arg args 0;
  epollev ← pure_ (get_arg args 1);
  event_script ← get_epoll_event_from_expr epollev (-1) (-1);
  maxevents ← pure_ (s32_arg args 2);
  timeout ← pure_ (s32_arg args 3);
  if maxevents <? 0 then
    raise ("Failed to calloc " +:+ dec maxevents +:+ " struct epoll_event" +:+ newline)
  else
    r ← call_exact call (LEpollWait epfd_live maxevents timeout);
    _ ← exec_ (if maxevents =? 0 then Fault OutOfBounds else Ok tt);
    pure_ (check_epoll_event event_script (u32 (default 0 (rp_ints r !! 0%nat)))
             (u64 (default 0 (rp_ints r !! 1%nat)))).

(** [run_system_call.c:3164-3199] syscall_pipe *)
Definition syscall_pipe : handler := fun call args =>
  _ ← pure_ (check_arg_count args 1);
  pipe_expr ← pure_ (get_arg args 0);
  pipefd_script ← pure_ (get_pipe_expression pipe_expr);
  r ← call_exact call LPipe;
  if 0 <=? rp_result r then
    run_syscall_pipe pipefd_script (default 0 (rp_ints r !! 0%nat), default 0 (rp_ints r !! 1%nat))
  else mret tt.

(** [run_system_call.c:3201-3243] syscall_splice: there is no begin_syscall, and only the
    user-level stack is given pointers to the offsets *)
Definition syscall_splice : handler := fun call args =>
  _ ← pure_ (check_arg_count args 6);
  '(fd_in_script, fd_in_live) ← fd_arg args 0;
  off_in ← pure_ (s64_arg args 1);
  '(fd_out_script, fd_out_live) ← fd_arg args 2;
  off_out ← pure_ (s64_arg args 3);
  len ← pure_ (s32_arg args 4);
  flags ← pure_ (s32_arg args 5);
  so ← asks sys_so_instance;
  r ← live call (if so : bool
                 then LSplice fd_in_live (OffPointer off_in) fd_out_live (OffPointer off_out) len flags
                 else LSplice fd_in_live (OffAsPointer off_in) fd_out_live (OffAsPointer off_out)
                        len flags);
  end_syscall call CHECK_EXACT r.

(** ** Dispatch *)

(** [run_system_call.c:3246-3284] system_call_table *)
Definition system_call_table : list (string * handler) := [
  ("socket", syscall_socket); ("bind", syscall_bind); ("listen", syscall_listen);
  ("accept", syscall_accept); ("connect", syscall_connect); ("read", syscall_read);
  ("readv", syscall_readv); ("recv", syscall_recv); ("recvfrom", syscall_recvfrom);
  ("recvmsg", syscall_recvmsg); ("write", syscall_write); ("writev", syscall_writev);
  ("send", syscall_send); ("sendto", syscall_sendto); ("sendmsg", syscall_sendmsg);
  ("fcntl", syscall_fcntl); ("ioctl", syscall_ioctl); ("close", syscall_close);
  ("shutdown", syscall_shutdown); ("getsockopt", syscall_getsockopt);
  ("setsockopt", syscall_setsockopt); ("poll", syscall_poll); ("cap_set", syscall_cap_set);
  ("open", syscall_open); ("sendfile", syscall_sendfile);
  ("epoll_create", syscall_epoll_create); ("epoll_ctl", syscall_epoll_ctl);
  ("epoll_wait", syscall_epoll_wait); ("pipe", syscall_pipe); ("splice", syscall_splice)
]%string.

(** The search of the table by name. *)
Fixpoint find_handler (name : string) (table : list (string * handler)) : option handler :=
  match table with
  | [] => None
  | (n, h) :: table' => if bool_decide (name = n) then Some h else find_handler name table'
  end.

(** [run_system_call.c:3287-3332] invoke_system_call: an error of the handler ends the run
    when [checker] is set; an unknown call or arguments that do not evaluate always do *)
Definition invoke_system_call (call : syscall_spec) (s : sys) : exec sys :=
  st ← wait_for_event (sys_state s);
  let s := set_sys_state st s in
  match find_handler (sy_name call) system_call_table with
  | None => Fault Died
  | Some function =>
      args ← evaluate_expression_list evaluate (sy_arguments call);
      match args with
      | Err _ => Fault Died
      | Done args =>
          '(s, result) ← function call args s;
          match result with
          | Err _ => if fz_checker (sys_fuzzer s) then Fault Died else Ok s
          | Done _ => Ok s
          end
      end
  end.

End Handlers.

(** The assertions of begin_syscall and end_syscall are those of assert(3). *)
#[export] Instance state_assert : StateAssert := AssertFailed.
