(* ===== verification/SyscallThread.v ===== *)
(** * SyscallThread: the thread that makes blocking system calls (run_system_call.c)

    The two threads of a run, their lock and their three condition variables as a step
    relation.  A configuration has the owner of the mutex, [syscalls->state] and where
    each thread is; a step is what a thread does between two points at which the other
    one can run.  [pthread_cond_wait] releases the mutex and sleeps; a signal wakes the
    sleeper, which then has to take the mutex.  Wake-ups without a signal and the timeout
    of [pthread_cond_timedwait] are a separate relation, and so are the ways in which a
    call fails ([failure]: a handler that returns before begin_syscall, and die), so that
    theorems can say which of them they count on; all of them can happen in [reachable].
    The handlers are those that call begin_syscall before end_syscall; that of splice does
    not, and its blocking calls are not modelled here (SyscallProps.v). *)

From Stdlib Require Import Relations.Relation_Operators.
From S2P Require Import Prelude Script SystemCall.

(** Who holds the mutex. *)
Inductive tid := Main | Thread.

(** [run_system_call.c:3338-3359] the callers of await_idle_thread: enqueue_system_call,
    run_system_call_event for a call that does not block, syscalls_free *)
Inductive awaiter := KEnqueue | KNonBlocking | KFree.

#[export] Instance awaiter_eq_dec : EqDecision awaiter.
Proof. solve_decision. Defined.

(** Where the main thread is. *)
Inductive main_pc :=
  | MRun                                      (* executing events *)
  | MPaused                                   (* in wait_for_event, asleep without the lock *)
  | MAwait (k : awaiter)                      (* the test of the loop of await_idle_thread *)
  | MIdleSleep (k : awaiter)                  (* in pthread_cond_timedwait on [idle] *)
  | MIdleWoken (k : awaiter) (timeout : bool)
  | MCheckDeq                                 (* the test of the loop that waits for [dequeued] *)
  | MDeqSleep                                 (* in pthread_cond_wait on [dequeued] *)
  | MDeqWoken
  | MYield                                    (* between run_unlock and run_lock, watching the thread *)
  | MJoin                                     (* in pthread_join *)
  | MDone
  | MDied.

(** The assertions of the thread: those about [syscalls->state], in the switch, in
    begin_syscall, in end_syscall and after the call, and the one that end_syscall has
    noted the time. *)
Inductive assertion := AState | ALiveEnd.

#[export] Instance assertion_eq_dec : EqDecision assertion.
Proof. solve_decision. Defined.

(** Where the system call thread is. *)
Inductive thread_pc :=
  | TStart
  | TLoop                                     (* the switch of system_call_thread *)
  | TSleep                                    (* in pthread_cond_wait on [enqueued] *)
  | TWoken
  | TInvoke                                   (* in invoke_system_call, before begin_syscall *)
  | TPaused                                   (* in wait_for_event, asleep without the lock *)
  | TSignal                                   (* begin_syscall has unlocked and not yet signalled *)
  | TCall                                     (* in the live call *)
  | TReturned                                 (* end_syscall is done *)
  | TExited
  | TDied                                     (* in die, of this thread *)
  | TAssert (a : assertion).                  (* an assertion has failed *)

#[export] Instance main_pc_eq_dec : EqDecision main_pc.
Proof. solve_decision. Defined.

#[export] Instance thread_pc_eq_dec : EqDecision thread_pc.
Proof. solve_decision. Defined.

Record cfg := mk_cfg { lock : option tid; sc : syscall_state_t; main : main_pc; thr : thread_pc }.

(** abort and exit end the process, the main thread with it. *)
Definition aborted (s : syscall_state_t) (a : assertion) : cfg := mk_cfg None s MDied (TAssert a).

(** [pthread_cond_signal] on each of the condition variables. *)
Definition signal_enqueued (t : thread_pc) : thread_pc :=
  match t with TSleep => TWoken | _ => t end.
Definition signal_dequeued (m : main_pc) : main_pc :=
  match m with MDeqSleep => MDeqWoken | _ => m end.
Definition signal_idle (m : main_pc) : main_pc :=
  match m with MIdleSleep k => MIdleWoken k false | _ => m end.

(** [run_system_call.c:3338-3445] the steps of the main thread: await_idle_thread,
    enqueue_system_call, run_system_call_event *)
Inductive main_step : cfg -> cfg -> Prop :=
  | m_pause s t : main_step (mk_cfg (Some Main) s MRun t) (mk_cfg None s MPaused t)
  | m_resume s t : main_step (mk_cfg None s MPaused t) (mk_cfg (Some Main) s MRun t)
  | m_await k s t : main_step (mk_cfg (Some Main) s MRun t) (mk_cfg (Some Main) s (MAwait k) t)
  | m_idle_sleep k s t : s <> SYSCALL_IDLE ->
      main_step (mk_cfg (Some Main) s (MAwait k) t) (mk_cfg None s (MIdleSleep k) t)
  | m_idle_lock k s t :
      main_step (mk_cfg None s (MIdleWoken k false) t) (mk_cfg (Some Main) s (MAwait k) t)
  | m_idle_late k s t :
      main_step (mk_cfg None s (MIdleWoken k true) t)
        (match k with
         | KNonBlocking => mk_cfg (Some Main) s MRun t
         | _ => mk_cfg None s MDied t
         end)
  | m_enqueue t :
      main_step (mk_cfg (Some Main) SYSCALL_IDLE (MAwait KEnqueue) t)
        (mk_cfg (Some Main) SYSCALL_ENQUEUED MCheckDeq (signal_enqueued t))
  | m_non_blocking t :
      main_step (mk_cfg (Some Main) SYSCALL_IDLE (MAwait KNonBlocking) t)
        (mk_cfg (Some Main) SYSCALL_IDLE MRun t)
  | m_exit t :
      main_step (mk_cfg (Some Main) SYSCALL_IDLE (MAwait KFree) t)
        (mk_cfg None SYSCALL_EXITING MJoin (signal_enqueued t))
  | m_deq_sleep t :
      main_step (mk_cfg (Some Main) SYSCALL_ENQUEUED MCheckDeq t)
        (mk_cfg None SYSCALL_ENQUEUED MDeqSleep t)
  | m_deq_done s t : s <> SYSCALL_ENQUEUED ->
      main_step (mk_cfg (Some Main) s MCheckDeq t) (mk_cfg None s MYield t)
  | m_deq_lock s t : main_step (mk_cfg None s MDeqWoken t) (mk_cfg (Some Main) s MCheckDeq t)
  | m_yield_done s t : main_step (mk_cfg None s MYield t) (mk_cfg (Some Main) s MRun t)
  | m_yield_again s t : s <> SYSCALL_IDLE -> main_step (mk_cfg None s MYield t) (mk_cfg None s MYield t)
  | m_join s : main_step (mk_cfg None s MJoin TExited) (mk_cfg (Some Main) s MDone TExited).

(** [run_system_call.c:3450-3539] the steps of system_call_thread, with begin_syscall
    and end_syscall; each assertion of the code is a choice of the next point *)
Inductive thread_step : cfg -> cfg -> Prop :=
  | t_start s m : thread_step (mk_cfg None s m TStart) (mk_cfg (Some Thread) s m TLoop)
  | t_idle m :
      thread_step (mk_cfg (Some Thread) SYSCALL_IDLE m TLoop) (mk_cfg None SYSCALL_IDLE m TSleep)
  | t_wake s m : thread_step (mk_cfg None s m TWoken) (mk_cfg (Some Thread) s m TLoop)
  | t_dequeue m :
      thread_step (mk_cfg (Some Thread) SYSCALL_ENQUEUED m TLoop)
        (mk_cfg (Some Thread) SYSCALL_ENQUEUED m TInvoke)
  | t_bad s m : s = SYSCALL_RUNNING \/ s = SYSCALL_DONE ->
      thread_step (mk_cfg (Some Thread) s m TLoop) (aborted s AState)
  | t_exit m :
      thread_step (mk_cfg (Some Thread) SYSCALL_EXITING m TLoop) (mk_cfg None SYSCALL_EXITING m TExited)
  | t_pause s m : thread_step (mk_cfg (Some Thread) s m TInvoke) (mk_cfg None s m TPaused)
  | t_resume s m : thread_step (mk_cfg None s m TPaused) (mk_cfg (Some Thread) s m TInvoke)
  | t_begin s m :
      thread_step (mk_cfg (Some Thread) s m TInvoke)
        (if bool_decide (s = SYSCALL_ENQUEUED) then mk_cfg None SYSCALL_RUNNING m TSignal
         else aborted s AState)
  | t_signal l s m : thread_step (mk_cfg l s m TSignal) (mk_cfg l s (signal_dequeued m) TCall)
  | t_end s m :
      thread_step (mk_cfg None s m TCall)
        (if bool_decide (s = SYSCALL_RUNNING) then mk_cfg (Some Thread) SYSCALL_DONE m TReturned
         else aborted s AState)
  | t_finish s m :
      thread_step (mk_cfg (Some Thread) s m TReturned)
        (if bool_decide (s = SYSCALL_DONE)
         then mk_cfg (Some Thread) SYSCALL_IDLE (signal_idle m) TLoop
         else aborted s AState).

Definition step (c c' : cfg) : Prop := main_step c c' \/ thread_step c c'.

(** Wake-ups without a signal, and the timeout of await_idle_thread. *)
Inductive wakeup : cfg -> cfg -> Prop :=
  | w_thread l s m : wakeup (mk_cfg l s m TSleep) (mk_cfg l s m TWoken)
  | w_dequeued l s t : wakeup (mk_cfg l s MDeqSleep t) (mk_cfg l s MDeqWoken t)
  | w_idle l s k b t : wakeup (mk_cfg l s (MIdleSleep k) t) (mk_cfg l s (MIdleWoken k b) t).

(** [run_system_call.c:3286-3335] the ways in which a call fails.  A blocking call whose
    handler returns an error before begin_syscall: with [checker] off invoke_system_call
    returns, and the assertion of system_call_thread finds [live_end_usecs] still -1.  Or
    the program dies: in invoke_system_call, in verify_time of system_call_thread, or in an
    event of the main thread. *)
Inductive failure : cfg -> cfg -> Prop :=
  | t_early s m : failure (mk_cfg (Some Thread) s m TInvoke) (aborted s ALiveEnd)
  | t_die s m t : t = TInvoke \/ t = TReturned ->
      failure (mk_cfg (Some Thread) s m t) (mk_cfg None s MDied TDied)
  | m_die s t : failure (mk_cfg (Some Main) s MRun t) (mk_cfg None s MDied t).

(** [run_system_call.c:3541-3559] syscalls_new: the main thread holds the lock since
    state_new *)
Definition start_cfg : cfg := mk_cfg (Some Main) SYSCALL_IDLE MRun TStart.

Definition reachable (c : cfg) : Prop :=
  clos_refl_trans_1n _ (fun c c' => step c c' \/ wakeup c c' \/ failure c c') start_cfg c.

(** ** The invariant *)

(** Which points of the threads hold the lock; a thread that has ended the process is at
    none. *)
Definition main_holds (m : main_pc) : bool :=
  match m with MRun | MAwait _ | MCheckDeq | MDone => true | _ => false end.
Definition thread_holds (t : thread_pc) : bool :=
  match t with TLoop | TInvoke | TReturned => true | _ => false end.

(** What the state of the system call is at each point of its thread.  At [TSleep] it is
    idle: no wake-up has been lost. *)
Definition thread_inv (s : syscall_state_t) (t : thread_pc) : bool :=
  match t, s with
  | (TStart | TLoop | TWoken), (SYSCALL_IDLE | SYSCALL_ENQUEUED | SYSCALL_EXITING) => true
  | TSleep, SYSCALL_IDLE => true
  | (TInvoke | TPaused), SYSCALL_ENQUEUED => true
  | (TSignal | TCall), SYSCALL_RUNNING => true
  | TReturned, SYSCALL_DONE => true
  | TExited, SYSCALL_EXITING => true
  | TDied, (SYSCALL_ENQUEUED | SYSCALL_DONE) => true
  | TAssert ALiveEnd, SYSCALL_ENQUEUED => true
  | _, _ => false
  end.

(** And at each point of the main thread: a call is enqueued exactly while the main
    thread waits for it to be dequeued, and it sleeps on a condition only as long as the
    other thread has still to signal it. *)
Definition main_inv (s : syscall_state_t) (m : main_pc) (t : thread_pc) : bool :=
  match m, s with
  | (MCheckDeq | MDeqWoken), SYSCALL_EXITING => false
  | (MCheckDeq | MDeqWoken), _ => true
  | MDeqSleep, SYSCALL_ENQUEUED => true
  | MDeqSleep, SYSCALL_RUNNING => match t with TSignal => true | _ => false end
  | MIdleSleep _, (SYSCALL_RUNNING | SYSCALL_DONE) => true
  | (MJoin | MDone), SYSCALL_EXITING => true
  | (MRun | MPaused | MAwait _ | MIdleWoken _ _ | MYield),
      (SYSCALL_IDLE | SYSCALL_RUNNING | SYSCALL_DONE) => true
  | MDied, _ => true
  | _, _ => false
  end.

(** The thread has ended the process. *)
Definition has_ended (t : thread_pc) : bool := match t with TDied | TAssert _ => true | _ => false end.

Record inv (c : cfg) : Prop := {
  inv_main : lock c = Some Main <-> main_holds (main c) = true;
  inv_thread : lock c = Some Thread <-> thread_holds (thr c) = true;
  inv_thread_state : thread_inv (sc c) (thr c) = true;
  inv_main_state : main_inv (sc c) (main c) (thr c) = true;
  inv_ended : has_ended (thr c) = true -> main c = MDied
}.

Lemma start_inv : inv start_cfg.
Proof. by constructor. Qed.

(** The pieces of the invariant for a configuration given by its parts. *)
Ltac inv_solve :=
  repeat match goal with
  | H : inv (mk_cfg _ _ _ _) |- _ => destruct H as [Hm Ht Hs Hn He]; cbn in Hm, Ht, Hs, Hn, He
  end;
  repeat match goal with
  | s : syscall_state_t |- _ => destruct s; cbn in *; try discriminate; try contradiction
  | m : main_pc |- _ => destruct m; cbn in *; try discriminate
  | t : thread_pc |- _ => destruct t; cbn in *; try discriminate
  | a : assertion |- _ => destruct a; cbn in *; try discriminate
  | k : awaiter |- _ => destruct k; cbn in *; try discriminate
  | b : bool |- _ => destruct b; cbn in *; try discriminate
  | l : option tid |- _ => destruct l as [[]|]; cbn in *
  end;
  repeat case_bool_decide; try congruence;
  try (constructor; cbn; tauto || intuition congruence);
  try (exfalso; intuition congruence).

Lemma main_step_inv c c' : main_step c c' -> inv c -> inv c'.
Proof. intros H Hi. destruct H; inv_solve. Qed.

Lemma thread_step_inv c c' : thread_step c c' -> inv c -> inv c'.
Proof. intros H Hi. destruct H; inv_solve. Qed.

Lemma wakeup_inv c c' : wakeup c c' -> inv c -> inv c'.
Proof. intros H Hi. destruct H; inv_solve. Qed.

Lemma failure_inv c c' : failure c c' -> inv c -> inv c'.
Proof.
  intros H Hi. destruct H as [s m|s m t Ht|s t]; [|destruct Ht as [-> | ->]|]; inv_solve.
Qed.

Lemma reachable_inv c : reachable c -> inv c.
Proof.
  unfold reachable. generalize start_inv. generalize start_cfg.
  intros c0 H0 H. induction H as [c|c1 c2 c3 [[H|H]|[H|H]] _ IH]; [done|..]; apply IH;
    eauto using main_step_inv, thread_step_inv, wakeup_inv, failure_inv.
Qed.

(** C12. The system call thread and the main thread under every interleaving, wake-ups
    without a signal, timeouts and calls that fail included, for handlers that call
    begin_syscall before end_syscall: at most one of them is at a point that holds the
    mutex; none of the assertions about [syscalls->state] fails (in begin_syscall, in
    end_syscall, after the call, and the unreachable cases of the thread's switch), so that
    the only assertion that can fail is the one that the call has noted its end, after a
    handler that returned before begin_syscall ([early_return_aborts] shows that it does);
    and neither thread sleeps on a condition variable that nobody will signal: the
    thread sleeps on [enqueued] only while the state is idle, the main thread on
    [dequeued] only until the call has begun, on [idle] only while a call is running. *)
Theorem syscall_thread_safe c : reachable c ->
  ~ (main_holds (main c) = true /\ thread_holds (thr c) = true) /\
  (forall a, thr c = TAssert a -> a = ALiveEnd /\ sc c = SYSCALL_ENQUEUED /\ main c = MDied) /\
  (thr c = TSleep -> sc c = SYSCALL_IDLE) /\
  (main c = MDeqSleep -> sc c = SYSCALL_ENQUEUED \/ thr c = TSignal) /\
  (forall k, main c = MIdleSleep k -> sc c = SYSCALL_RUNNING \/ sc c = SYSCALL_DONE).
Proof.
  intros [Hm Ht Hs Hn He]%reachable_inv. destruct c as [l s m t]. cbn in *.
  split_and!.
  - intros [H1%Hm H2%Ht]. congruence.
  - intros a ->. specialize (He eq_refl). by destruct a, s.
  - intros ->. by destruct s.
  - intros ->. destruct s; try discriminate; [by left|]. destruct t; try discriminate. by right.
  - intros k ->. destruct s; try discriminate; auto.
Qed.

Lemma thread_can_step l s m t :
  inv (mk_cfg l s m t) -> m <> MDied -> (main_holds m = false -> thread_holds t = true \/ t = TSignal \/
    t = TCall \/ t = TStart \/ t = TWoken \/ t = TPaused -> exists c', thread_step (mk_cfg l s m t) c').
Proof.
  intros Hi Hd Hm Ht. destruct Hi as [Hl Hh Hs Hn He]. cbn in *.
  assert (l = if thread_holds t then Some Thread else None) as ->.
  { destruct l as [[]|], (thread_holds t); intuition congruence. }
  destruct t; cbn in *; try (intuition congruence);
    try (eexists; by constructor); destruct s; try discriminate;
    eexists; first [apply t_idle|apply t_dequeue|apply t_exit].
Qed.

Lemma main_can_step s m t :
  inv (mk_cfg (Some Main) s m t) ->
  m = MDone \/ m = MDied \/ exists c', main_step (mk_cfg (Some Main) s m t) c'.
Proof.
  intros [Hl _ _ _ _]. destruct m; cbn in Hl; try (exfalso; intuition congruence); auto; right; right.
  - eexists. apply m_pause.
  - destruct (decide (s = SYSCALL_IDLE)) as [-> | Hs]; [|eexists; by apply m_idle_sleep].
    destruct k; eexists; [apply m_enqueue|apply m_non_blocking|apply m_exit].
  - destruct (decide (s = SYSCALL_ENQUEUED)) as [-> | Hs]; eexists;
      [apply m_deq_sleep|by apply m_deq_done].
Qed.

(** C31. The two threads do not deadlock: from every reachable configuration in which the
    main thread has neither finished nor died some thread can take a step, without
    counting on a wake-up that nobody signalled nor on the timeout. *)
Theorem syscall_thread_progress c : reachable c ->
  main c = MDone \/ main c = MDied \/ exists c', step c c'.
Proof.
  intros Hi%reachable_inv. destruct c as [l s m t]. unfold step. cbn [main].
  destruct (decide (m = MDied)) as [-> | Hd]; [auto|].
  pose proof (thread_can_step l s m t Hi Hd) as Hthr. destruct l as [[]|].
  - destruct (main_can_step s m t Hi) as [|[|[c' ?]]]; eauto.
  - destruct Hi as [Hl Hh _ _ _]. cbn in *. destruct Hthr as [c' ?]; [|tauto|eauto 6].
    destruct (main_holds m); intuition congruence.
  - right; right. pose proof Hi as [Hl Hh Hs Hn He]. cbn in *.
    destruct m; cbn in *; try (intuition congruence).
    + eexists. left. apply m_resume.
    + destruct Hthr as [c' ?]; [done| |eauto]. destruct s, t; cbn in *; try discriminate; try (specialize (He eq_refl); discriminate); tauto.
    + destruct timeout; eexists; left; [apply m_idle_late|apply m_idle_lock].
    + destruct Hthr as [c' ?]; [done| |eauto]. destruct s, t; cbn in *; try discriminate; try (specialize (He eq_refl); discriminate); tauto.
    + eexists. left. apply m_deq_lock.
    + eexists. left. apply m_yield_done.
    + destruct (decide (t = TExited)) as [-> |]; [eexists; left; apply m_join|].
      destruct Hthr as [c' ?]; [done| |eauto]. destruct s, t; cbn in *; try discriminate; try (specialize (He eq_refl); discriminate); tauto.
Qed.

(** A blocking call whose handler returns an error before begin_syscall, with [checker] off:
    the program aborts. *)
Example early_return_aborts : reachable (aborted SYSCALL_ENQUEUED ALiveEnd).
Proof.
  unfold reachable.
  eapply rt1n_trans; [left; left; apply (m_await KEnqueue)|].
  eapply rt1n_trans; [left; left; apply m_enqueue|].
  eapply rt1n_trans; [left; left; apply m_deq_sleep|].
  eapply rt1n_trans; [left; right; apply t_start|].
  eapply rt1n_trans; [left; right; apply t_dequeue|].
  eapply rt1n_trans; [right; right; apply t_early|].
  apply rt1n_refl.
Qed.

(** A run in which a blocking call has begun and the main thread has gone on. *)
Definition in_call : cfg := mk_cfg (Some Main) SYSCALL_RUNNING MRun TCall.

Lemma in_call_reachable : reachable in_call.
Proof.
  unfold reachable.
  eapply rt1n_trans; [left; left; apply (m_await KEnqueue)|].
  eapply rt1n_trans; [left; left; apply m_enqueue|].
  eapply rt1n_trans; [left; left; apply m_deq_sleep|].
  eapply rt1n_trans; [left; right; apply t_start|].
  eapply rt1n_trans; [left; right; apply t_dequeue|].
  eapply rt1n_trans; [left; right; apply t_begin|]. cbn.
  eapply rt1n_trans; [left; right; apply t_signal|]. cbn.
  eapply rt1n_trans; [left; left; apply m_deq_lock|].
  eapply rt1n_trans; [left; left; apply m_deq_done; done|].
  eapply rt1n_trans; [left; left; apply m_yield_done|].
  apply rt1n_refl.
Qed.

Lemma syscall_thread_safe_witness :
  ~ (main_holds (main in_call) = true /\ thread_holds (thr in_call) = true).
Proof. exact (proj1 (syscall_thread_safe in_call in_call_reachable)). Defined.

Lemma syscall_thread_progress_witness : exists c', step in_call c'.
Proof.
  destruct (syscall_thread_progress in_call in_call_reachable) as [H|[H|H]];
    [discriminate H|discriminate H|exact H].
Defined.
