(* ===== verification/ThreadStat.v ===== *)
(** * ThreadStat: whether a thread sleeps (run_system_call.c)

    The interpreter polls /proc/<pid>/task/<tid>/stat until the system call thread sleeps in
    its blocking call.  The theorems: the parser of that file stays in its buffer whatever
    the file holds; it finds the state of a thread whose name has no space; and what it
    finds when the name has one. *)

From S2P Require Import Prelude.

(** What open(2), read(2) and close(2) make of the file. *)
Inductive proc_file :=
  | NO_FILE
  | UNREADABLE
  | CONTENTS (data : bytes) (closes : bool).

(** [run_system_call.c:82-96] read_whole_file: the buffer afterwards *)
Definition read_whole_file (file : proc_file) (buffer : bytes) (max_bytes : Z) : exec bytes :=
  match file with
  | NO_FILE => Fault Died
  | UNREADABLE => Fault Died
  | CONTENTS data closes =>
      let data := take (Z.to_nat max_bytes) data in
      buffer ← put_bytes buffer 0 data;
      if zlen data =? max_bytes then Fault Died
      else if negb closes then Fault Died
      else Ok buffer
  end.

(** strchr(3) from the start of a list of bytes: the offset of the byte, or None at the NUL;
    behind the end of the list is no memory. *)
Fixpoint strchr_from (l : bytes) (c : Z) (o : Z) : exec (option Z) :=
  match l with
  | [] => Fault OutOfBounds
  | b :: l' => if b =? c then Ok (Some o) else if b =? 0 then Ok None else strchr_from l' c (o + 1)
  end.
Definition strchr (b : bytes) (o c : Z) : exec (option Z) := strchr_from (drop (Z.to_nat o) b) c o.

(** [run_system_call.c:113-118] is_thread_sleeping: [n] fields are skipped *)
Fixpoint skip_fields (n : nat) (state : bytes) (field : Z) : exec Z :=
  match n with
  | O => Ok field
  | S n' =>
      found ← strchr state field 32;
      match found with
      | None => Fault Died
      | Some field => skip_fields n' state (field + 1)
      end
  end.

Definition STATE_BUFFER_BYTES : Z := 1023.
Definition THREAD_STATE_INDEX : nat := 3.

(** [run_system_call.c:99-125] is_thread_sleeping *)
Definition is_thread_sleeping (file : proc_file) : exec bool :=
  let state := replicate (Z.to_nat STATE_BUFFER_BYTES) 0 in
  state ← read_whole_file file state (STATE_BUFFER_BYTES - 1);
  state ← st8 state (STATE_BUFFER_BYTES - 1) 0;
  field ← skip_fields (THREAD_STATE_INDEX - 1) state 0;
  c ← ld8 state field;
  Ok (c =? 83).

(** ** The buffer *)

(** What is_thread_sleeping parses: the file, and zeros up to the end of the buffer. *)
Lemma state_buffer data : zlen data < 1022 ->
  (state ← read_whole_file (CONTENTS data true) (replicate 1023 0) 1022; st8 state 1022 0)
    = Ok (data ++ replicate (1023 - length data) 0).
Proof.
  intros Hl. unfold read_whole_file. rewrite (take_ge data) by (unfold zlen in *; lia).
  assert (E : put_bytes (replicate 1023 0) 0 data = Ok (data ++ replicate (1023 - length data) 0)).
  { apply put_bytes_Ok. split; [apply in_range_true; unfold zlen in *; rewrite length_replicate; lia|].
    cbn [Z.to_nat take app Nat.add]. by rewrite drop_replicate. }
  change (Z.to_nat 1022) with 1022%nat in *. rewrite E. cbn [mbind exec_bind].
  rewrite (proj2 (Z.eqb_neq _ _)) by lia. cbn [negb mbind exec_bind]. unfold st8. apply put_bytes_Ok. split.
  - apply in_range_true. unfold zlen in *. rewrite length_app, length_replicate. cbn. lia.
  - change (le_split 1 0) with [0]. change (Z.to_nat 1022) with 1022%nat. unfold zlen in Hl.
    rewrite take_app_ge, drop_app_ge by (cbn; lia). rewrite take_replicate, drop_replicate.
    rewrite <-!app_assoc. f_equal.
    rewrite Nat.min_l by lia. cbn [length].
    change ([0] ++ ?l) with (replicate 1 0 ++ l). rewrite <-!replicate_add. f_equal. lia.
Qed.

(** ** Parsing *)

(** A text without spaces and NULs. *)
Definition word (l : bytes) : Prop := Forall (fun b => b <> 0 /\ b <> 32) l.

Lemma strchr_space l rest o : word l -> strchr_from (l ++ 32 :: rest) 32 o = Ok (Some (o + zlen l)).
Proof.
  intros Hl. revert o. induction Hl as [|b l [H0 Hs] Hl IH]; intros o; cbn [app strchr_from].
  - rewrite Z.eqb_refl. do 2 f_equal. unfold zlen. cbn. lia.
  - rewrite (proj2 (Z.eqb_neq b 32)), (proj2 (Z.eqb_neq b 0)), IH by done. rewrite zlen_cons. do 2 f_equal. lia.
Qed.

Lemma skip_words l1 l2 c rest : word l1 -> word l2 ->
  (field ← skip_fields 2 (l1 ++ 32 :: l2 ++ 32 :: c :: rest) 0; ld8 (l1 ++ 32 :: l2 ++ 32 :: c :: rest) field) = Ok c.
Proof.
  intros H1 H2. set (text := l1 ++ 32 :: l2 ++ 32 :: c :: rest).
  assert (E1 : strchr text 0 32 = Ok (Some (zlen l1))) by exact (strchr_space l1 _ 0 H1).
  assert (E2 : strchr text (zlen l1 + 1) 32 = Ok (Some (zlen l1 + 1 + zlen l2))).
  { unfold strchr. rewrite <-(strchr_space l2 (c :: rest)) by done. f_equal. unfold zlen, text.
    replace (Z.to_nat _) with (length l1 + 1)%nat by lia. by rewrite <-drop_drop, drop_app_length. }
  cbn [skip_fields]. rewrite E1. cbn [mbind exec_bind]. rewrite E2. cbn [mbind exec_bind]. subst text.
  rewrite ld8_eq; [|unfold zlen in *; lia|unfold zlen; rewrite length_app; cbn; rewrite length_app; cbn; lia].
  f_equal. unfold byte_at. replace (l1 ++ 32 :: l2 ++ 32 :: c :: rest) with ((l1 ++ 32 :: l2 ++ [32]) ++ c :: rest)
    by (by rewrite <-!app_assoc; cbn; rewrite <-app_assoc).
  unfold zlen. rewrite app_nth2; [|rewrite length_app; cbn; rewrite length_app; cbn; lia].
  replace (_ - _)%nat with 0%nat; [done|]. rewrite length_app. cbn. rewrite length_app. cbn. lia.
Qed.

Lemma is_thread_sleeping_third l1 l2 c rest : word l1 -> word l2 ->
  zlen (l1 ++ 32 :: l2 ++ 32 :: c :: rest) < 1022 ->
  is_thread_sleeping (CONTENTS (l1 ++ 32 :: l2 ++ 32 :: c :: rest) true) = Ok (c =? 83).
Proof.
  intros H1 H2 Hl. unfold is_thread_sleeping, STATE_BUFFER_BYTES. change (Z.to_nat 1023) with 1023%nat.
  change (1023 - 1) with 1022. pose proof (state_buffer _ Hl) as E.
  destruct (read_whole_file _ _ _) as [b|]; [|done]. cbn [mbind exec_bind] in E |- *. rewrite E. cbn [mbind exec_bind].
  set (n := (1023 - _)%nat). pose proof (skip_words l1 l2 c (rest ++ replicate n 0) H1 H2) as K.
  cbn [Nat.sub THREAD_STATE_INDEX].
  replace ((l1 ++ 32 :: l2 ++ 32 :: c :: rest) ++ replicate n 0) with (l1 ++ 32 :: l2 ++ 32 :: c :: rest ++ replicate n 0)
    by (by rewrite <-!app_assoc; cbn; rewrite <-app_assoc).
  destruct (skip_fields _ _ _) as [field|]; [|done]. cbn [mbind exec_bind] in K |- *. by rewrite K.
Qed.

(** The stat file of a thread: its number, its name in parentheses, its state, and more. *)
Definition stat_text (tid name : bytes) (state : Z) (rest : bytes) : bytes :=
  tid ++ 32 :: (40 :: name ++ [41]) ++ 32 :: state :: rest.

(** A thread whose name has no space sleeps exactly when the state in its file is S. *)
Theorem thread_sleeping_spec tid name state rest : word tid -> word name ->
  zlen (stat_text tid name state rest) < 1022 ->
  is_thread_sleeping (CONTENTS (stat_text tid name state rest) true) = Ok (state =? 83).
Proof.
  intros Ht Hn Hl. apply is_thread_sleeping_third; [done| |done].
  constructor; [done|]. apply Forall_app. split; [done|]. by repeat constructor.
Qed.

(** The name of a thread may have spaces (it is the name of the program): then the letter
    behind the first of them is taken for the state, whatever the state is. *)
Theorem thread_name_taken_for_state tid name1 c name2 state rest : word tid -> word name1 ->
  zlen (stat_text tid (name1 ++ 32 :: c :: name2) state rest) < 1022 ->
  is_thread_sleeping (CONTENTS (stat_text tid (name1 ++ 32 :: c :: name2) state rest) true) = Ok (c =? 83).
Proof.
  intros Ht Hn Hl.
  assert (E : stat_text tid (name1 ++ 32 :: c :: name2) state rest
    = tid ++ 32 :: (40 :: name1) ++ 32 :: c :: (name2 ++ [41] ++ 32 :: state :: rest))
    by (unfold stat_text; f_equal; cbn [app]; do 2 f_equal; rewrite <-!app_assoc; cbn [app]; by rewrite <-?app_assoc).
  rewrite E in Hl |- *. apply is_thread_sleeping_third; [done|by constructor|done].
Qed.

(** ** Bounds *)

(** A buffer that ends in a NUL has the end of every string in it. *)
Lemma strchr_from_total l o c : c <> 0 -> exists r, strchr_from (l ++ [0]) c o = Ok r /\
  forall k, r = Some k -> o <= k < o + zlen l.
Proof.
  intros Hc. revert o. induction l as [|b l IH]; intros o; cbn [app strchr_from].
  - rewrite (proj2 (Z.eqb_neq 0 c)) by congruence. by exists None.
  - destruct (b =? c); [exists (Some o); split; [done|]; intros k [= <-]; rewrite zlen_cons; pose proof (zlen_nonneg l); lia|].
    destruct (b =? 0); [by exists None|]. destruct (IH (o + 1)) as (r & -> & Hr). exists r. split; [done|].
    intros k ->. specialize (Hr k eq_refl). rewrite zlen_cons. lia.
Qed.

Lemma skip_fields_total n l o : 0 <= o <= zlen l ->
  (exists k, skip_fields n (l ++ [0]) o = Ok k /\ 0 <= k <= zlen l) \/ skip_fields n (l ++ [0]) o = Fault Died.
Proof.
  revert o. induction n as [|n IH]; intros o Ho; cbn [skip_fields]; [left; eauto|].
  unfold strchr. rewrite drop_app_le by (unfold zlen in *; lia).
  destruct (strchr_from_total (drop (Z.to_nat o) l) o 32 ltac:(lia)) as (r & -> & Hr). cbn [mbind exec_bind].
  destruct r as [k|]; [|by right]. specialize (Hr k eq_refl). unfold zlen in Hr. rewrite length_drop in Hr.
  apply IH. unfold zlen in *. lia.
Qed.

(** Whatever the file holds, the parser stays in its buffer: it answers or dies. *)
Theorem is_thread_sleeping_in_bounds (file : proc_file) :
  (exists b, is_thread_sleeping file = Ok b) \/ is_thread_sleeping file = Fault Died.
Proof.
  destruct file as [| |data closes]; [by right..|]. unfold is_thread_sleeping, STATE_BUFFER_BYTES.
  change (Z.to_nat 1023) with 1023%nat. change (1023 - 1) with 1022.
  cbn [read_whole_file]. set (d := take _ data).
  destruct (put_bytes_in (replicate 1023 0) 0 d) as [b Eb];
    [lia|unfold zlen, d; rewrite length_take, length_replicate; lia|].
  pose proof (put_bytes_zlen _ _ _ _ Eb) as Hb. rewrite Eb. cbn [mbind exec_bind].
  destruct (_ =? _); [by right|]. destruct closes; [|by right]. cbn [negb mbind exec_bind].
  destruct (put_bytes_in b 1022 (le_split 1 0)) as [b' Eb'];
    [lia|rewrite Hb, zlen_le_split; unfold zlen; rewrite length_replicate; lia|].
  unfold st8. rewrite Eb'. cbn [mbind exec_bind].
  assert (exists l, b' = l ++ [0] /\ zlen l = 1022) as (l & -> & Hl).
  { apply put_bytes_Ok in Eb' as [_ ->]. exists (take 1022 b).
    unfold zlen in *. rewrite length_replicate in Hb. rewrite length_take.
    change (le_split 1 0) with [0]. change (Z.to_nat 1022) with 1022%nat.
    rewrite (drop_ge b) by (cbn; lia). rewrite app_nil_r. split; [done|lia]. }
  destruct (skip_fields_total (THREAD_STATE_INDEX - 1) l 0) as [(k & -> & Hk)| ->]; [lia| |by right].
  cbn [mbind exec_bind]. rewrite ld8_eq by (rewrite ?zlen_app, ?zlen_cons; unfold zlen in *; cbn; lia).
  left. eauto.
Qed.

Lemma thread_sleeping_spec_witness :
  is_thread_sleeping (CONTENTS (stat_text [49; 50] [112; 107; 116] 83 [32; 48]) true) = Ok true.
Proof. apply (thread_sleeping_spec [49; 50] [112; 107; 116] 83 [32; 48]); [by repeat constructor..|vm_compute; reflexivity]. Defined.

Lemma thread_name_taken_for_state_witness :
  is_thread_sleeping (CONTENTS (stat_text [49; 50] ([109; 121] ++ 32 :: 83 :: [99]) 82 [32; 48]) true) = Ok true.
Proof.
  apply (thread_name_taken_for_state [49; 50] [109; 121] 83 [99] 82 [32; 48]); [by repeat constructor..|vm_compute; reflexivity].
Defined.
