(* ===== verification/SyscallProps.v ===== *)
(** * SyscallProps: what the handlers of system calls guarantee

    Three groups of theorems about SystemCall.v and SyscallHandlers.v: the protocol of a
    blocking call that SyscallThread.v relies on, the table of file descriptors as a
    finite map, and the behaviour of single handlers. *)

From S2P Require Import Prelude Headers Packet HashMap IpAddress IpPacket Socket Script RunState FuzzHelper SyscallArgs SystemCall SyscallHandlers SyscallThread.

(** ** Inversion of the monad of handlers *)

Lemma sysm_bind_Ok {A B} (m : sysm A) (f : A -> sysm B) s s' r :
  (m ≫= f) s = Ok (s', r) <->
  (exists s1 a, m s = Ok (s1, Done a) /\ f a s1 = Ok (s', r)) \/
  (exists error, m s = Ok (s', Err error) /\ r = Err error).
Proof.
  unfold mbind, sysm_bind. destruct (m s) as [[s1 [a|error]]|e].
  - split; [eauto|]. intros [(?&?&[= <- <-]&?)|(?&?&?)]; congruence.
  - split; [intros [= -> <-]; eauto|]. intros [(?&?&?&?)|(?&[= -> ->]& ->)]; congruence.
  - split; [discriminate|]. intros [(?&?&?&?)|(?&?&?)]; congruence.
Qed.

Lemma exec_lift_Ok {A} (m : exec A) s s' r :
  exec_ m s = Ok (s', r) <-> exists a, m = Ok a /\ s' = s /\ r = Done a.
Proof. unfold exec_. destruct m; cbn; naive_solver. Qed.

(** ** Computations that leave the thread's record alone *)

Definition keeps_sc {A} (m : sysm A) : Prop :=
  forall s s' r, m s = Ok (s', r) -> sys_syscalls s' = sys_syscalls s.

Lemma keeps_ret {A} (a : A) : keeps_sc (mret a).
Proof. intros s s' r [= <- _]. done. Qed.
Lemma keeps_bind {A B} (m : sysm A) (f : A -> sysm B) :
  keeps_sc m -> (forall a, keeps_sc (f a)) -> keeps_sc (m ≫= f).
Proof.
  intros Hm Hf s s' r [(s1&a&E&E')|(error&E&_)]%sysm_bind_Ok; [|by eapply Hm].
  rewrite (Hf a _ _ _ E'). by eapply Hm.
Qed.
Lemma keeps_pure {A} (m : eval A) : keeps_sc (pure_ m).
Proof. intros s s' r H. unfold pure_ in H. destruct m; cbn in H; congruence. Qed.
Lemma keeps_exec {A} (m : exec A) : keeps_sc (exec_ m).
Proof. intros s s' r (?&_& ->&_)%exec_lift_Ok. done. Qed.
Lemma keeps_raise {A} error : keeps_sc (raise (A := A) error).
Proof. intros s s' r [= <- _]. done. Qed.
Lemma keeps_asks {A} (get : sys -> A) : keeps_sc (asks get).
Proof. intros s s' r [= <- _]. done. Qed.
Lemma keeps_with_state {A} (f : state -> exec (state * A)) : keeps_sc (with_state f).
Proof. intros s s' r H. unfold with_state in H. destruct (f (sys_state s)) as [[st a]|]; cbn in H; by simplify_eq. Qed.
Lemma keeps_fuzz {A} (m : fuzz A) : keeps_sc (fuzz_ m).
Proof. intros s s' r H. unfold fuzz_ in H. destruct (m (sys_fuzzer s)) as [[f a]|]; cbn in H; by simplify_eq. Qed.
Lemma keeps_live call c : keeps_sc (live call c).
Proof.
  intros s s' r H. unfold live in H. destruct (sys_replies s); [discriminate|].
  destruct (is_blocking_syscall call); by simplify_eq/=.
Qed.

Create HintDb keeps_db.
#[export] Hint Resolve keeps_ret keeps_bind keeps_pure keeps_exec keeps_raise keeps_asks
  keeps_with_state keeps_fuzz keeps_live : keeps_db.

(** A function of the state, by cases on what it is bound to. *)
Ltac keeps_cases :=
  intros s s' r H;
  repeat match type of H with
  | context [match ?m with _ => _ end] => destruct m eqn:?; cbn in H
  | (_ ≫= _) = Ok _ => apply exec_bind_Ok in H as (?&?&H); cbn in H
  end; by simplify_eq/=.

Lemma keeps_to_live_fd fd : keeps_sc (to_live_fd fd).
Proof. unfold to_live_fd. keeps_cases. Qed.
Lemma keeps_check_duplicate_fd script_fd live_fd : keeps_sc (check_duplicate_fd script_fd live_fd).
Proof. unfold check_duplicate_fd. keeps_cases. Qed.
Lemma keeps_other_new type script_fd live_fd : keeps_sc (other_new type script_fd live_fd).
Proof. apply keeps_with_state. Qed.
Lemma keeps_run_close script_fd live_fd : keeps_sc (run_syscall_close script_fd live_fd).
Proof. unfold run_syscall_close. keeps_cases. Qed.
Lemma keeps_run_listen script_fd live_fd : keeps_sc (run_syscall_listen script_fd live_fd).
Proof. unfold run_syscall_listen. keeps_cases. Qed.
Lemma keeps_run_accept script_fd live_fd addr len : keeps_sc (run_syscall_accept script_fd live_fd addr len).
Proof. unfold run_syscall_accept. keeps_cases. Qed.
Lemma keeps_run_connect script_fd b len fam : keeps_sc (run_syscall_connect script_fd b len fam).
Proof. unfold run_syscall_connect. keeps_cases. Qed.

#[export] Hint Resolve keeps_to_live_fd keeps_check_duplicate_fd keeps_other_new keeps_run_close
  keeps_run_listen keeps_run_accept keeps_run_connect : keeps_db.

(** Goals [keeps_sc m] for an [m] written with the combinators. *)
Ltac keeps_solve :=
  repeat first
    [ solve [auto with keeps_db]
    | apply keeps_bind; [|intros ?]
    | match goal with |- keeps_sc (match ?x with _ => _ end) => destruct x end ].

Create HintDb handlers_db.
#[export] Hint Unfold syscall_socket syscall_bind syscall_listen syscall_accept syscall_connect
  syscall_read syscall_readv syscall_recv syscall_recvfrom syscall_recvmsg syscall_write
  syscall_writev syscall_send syscall_sendto syscall_sendmsg syscall_fcntl syscall_ioctl
  syscall_close syscall_shutdown syscall_getsockopt syscall_setsockopt syscall_poll
  syscall_cap_set syscall_open syscall_sendfile syscall_epoll_create syscall_epoll_ctl
  syscall_epoll_wait syscall_pipe : handlers_db.

(** What holds of the two versions of each handler holds of those that are found by name. *)
Lemma find_handler_related (R : string -> handler -> handler -> Prop) table table' name h h' :
  Forall2 (fun x y => x.1 = y.1 /\ R x.1 x.2 y.2) table table' ->
  find_handler name table = Some h -> find_handler name table' = Some h' -> R name h h'.
Proof.
  induction 1 as [|[n k] [n' k'] table table' [En Hr] _ IH]; [done|]. cbn in *. subst n'.
  case_bool_decide; [|done]. subst n. by intros [= ->] [= ->].
Qed.

Section Protocol.
Context `{Libc, StateAssert}.

Lemma keeps_fd_arg args i : keeps_sc (fd_arg args i).
Proof. unfold fd_arg. keeps_solve. Qed.
Lemma keeps_run_open script_fd live_fd : keeps_sc (run_syscall_open script_fd live_fd).
Proof. unfold run_syscall_open, file_new. keeps_solve. Qed.
Lemma keeps_run_socket a b c d e : keeps_sc (run_syscall_socket a b c d e).
Proof. unfold run_syscall_socket. keeps_solve. Qed.
Lemma keeps_run_bind : keeps_sc run_syscall_bind.
Proof. unfold run_syscall_bind. keeps_solve. Qed.
Lemma keeps_run_epoll script_fd live_fd : keeps_sc (run_syscall_epoll_create script_fd live_fd).
Proof. unfold run_syscall_epoll_create, epoll_new. keeps_solve. Qed.
Lemma keeps_run_pipe script_fds live_fds : keeps_sc (run_syscall_pipe script_fds live_fds).
Proof. unfold run_syscall_pipe, pipe_new. keeps_solve. Qed.
Lemma keeps_pollfds_new e : keeps_sc (pollfds_new e).
Proof.
  unfold pollfds_new. destruct e; auto with keeps_db.
  induction l as [|e l IH]; cbn [pollfds_loop]; [auto with keeps_db|].
  destruct e; keeps_solve.
Qed.
Lemma keeps_epoll_event e script_fd live_fd : keeps_sc (get_epoll_event_from_expr e script_fd live_fd).
Proof. unfold get_epoll_event_from_expr. keeps_solve. Qed.
Lemma keeps_library c : keeps_sc (library c).
Proof. apply keeps_live. Qed.

Hint Resolve keeps_fd_arg keeps_run_open keeps_run_socket keeps_run_bind keeps_run_epoll
  keeps_run_pipe keeps_pollfds_new keeps_epoll_event keeps_library : keeps_db.

(** ** The protocol of a blocking call *)

(** The call has not begun, and an error is returned. *)
Definition refused {A} (s' : sys) (r : outcome A) : Prop :=
  sc_state (sys_syscalls s') = SYSCALL_ENQUEUED /\ exists error, r = Err error.

(** From the state "enqueued" the computation ends in "done", or returns an error before
    it has begun. *)
Definition protocol {A} (m : sysm A) : Prop :=
  forall s s' r, sc_state (sys_syscalls s) = SYSCALL_ENQUEUED -> m s = Ok (s', r) ->
    sc_state (sys_syscalls s') = SYSCALL_DONE \/ refused s' r.

(** From "running" it ends in "done". *)
Definition finishes {A} (m : sysm A) : Prop :=
  forall s s' r, sc_state (sys_syscalls s) = SYSCALL_RUNNING -> m s = Ok (s', r) ->
    sc_state (sys_syscalls s') = SYSCALL_DONE.

Lemma protocol_bind {A B} (m : sysm A) (f : A -> sysm B) :
  keeps_sc m -> (forall a, protocol (f a)) -> protocol (m ≫= f).
Proof.
  intros Hm Hf s s' r Hs [(s1&a&E&E')|(error&E& ->)]%sysm_bind_Ok.
  - apply (Hf a s1); [by rewrite (Hm _ _ _ E)|done].
  - right. unfold refused. rewrite (Hm _ _ _ E). eauto.
Qed.
Lemma protocol_after {A B} (m : sysm A) (f : A -> sysm B) :
  protocol m -> (forall a, keeps_sc (f a)) -> protocol (m ≫= f).
Proof.
  intros Hm Hf s s' r Hs [(s1&a&E&E')|(error&E& ->)]%sysm_bind_Ok;
    [|destruct (Hm _ _ _ Hs E) as [?|[? _]]; [by left|right; split; eauto]].
  left. rewrite (Hf _ _ _ _ E'). by destruct (Hm _ _ _ Hs E) as [|[_ [? ?]]].
Qed.
Lemma protocol_raise {A} error : protocol (raise (A := A) error).
Proof. intros s s' r Hs [= <- <-]. right. split; eauto. Qed.
Lemma protocol_bad_type {A} e t : protocol (pure_ (A := A) (bad_type e t)).
Proof. intros s s' r Hs [= <- <-]. right. split; eauto. Qed.

Lemma finishes_bind {A B} (m : sysm A) (f : A -> sysm B) :
  keeps_sc m -> (forall s s' error, m s <> Ok (s', Err error)) ->
  (forall a, finishes (f a)) -> finishes (m ≫= f).
Proof.
  intros Hm He Hf s s' r Hs [(s1&a&E&E')|(error&E& ->)]%sysm_bind_Ok; [|by destruct (He _ _ _ E)].
  apply (Hf a s1 s' r); [by rewrite (Hm _ _ _ E)|done].
Qed.

Lemma live_no_error call c s s' error : live call c s <> Ok (s', Err error).
Proof. unfold live. destruct (sys_replies s); [discriminate|]. by destruct (is_blocking_syscall call). Qed.
Lemma fuzz_no_error {A} (m : fuzz A) s s' error : fuzz_ m s <> Ok (s', Err error).
Proof. unfold fuzz_. by destruct (m (sys_fuzzer s)) as [[f a]|]. Qed.

Lemma finishes_end call mode r : is_blocking_syscall call = true -> finishes (end_syscall call mode r).
Proof.
  intros Hb. unfold end_syscall. apply finishes_bind;
    [apply keeps_fuzz|apply fuzz_no_error|]. intros [].
  rewrite Hb. intros s s' r' Hs [(s1&a&E&E')|(error&E& ->)]%sysm_bind_Ok.
  - rewrite (keeps_pure _ _ _ _ E'). unfold end_blocking in E.
    apply exec_bind_Ok in E as ([st t]&_&E). apply exec_bind_Ok in E as (?&_&E).
    by simplify_eq/=.
  - unfold end_blocking in E. apply exec_bind_Ok in E as ([st t]&_&E).
    apply exec_bind_Ok in E as (?&_&E). by simplify_eq/=.
Qed.

Lemma protocol_begin {A} call (f : unit -> sysm A) :
  is_blocking_syscall call = true -> finishes (f tt) -> protocol (begin_syscall call ≫= f).
Proof.
  intros Hb Hf s s' r Hs [(s1&[]&E&E')|(error&E& ->)]%sysm_bind_Ok.
  - left. unfold begin_syscall in E. rewrite Hb in E.
    apply exec_bind_Ok in E as (?&_&E). simplify_eq/=. eapply Hf; [|exact E']; done.
  - unfold begin_syscall in E. rewrite Hb in E. by apply exec_bind_Ok in E as (?&_&E).
Qed.

Lemma finishes_live {A} call c (f : reply -> sysm A) :
  (forall r, finishes (f r)) -> finishes (live call c ≫= f).
Proof. apply finishes_bind; [apply keeps_live|apply live_no_error]. Qed.
Lemma finishes_fuzz {A B} (m : fuzz A) (f : A -> sysm B) :
  (forall a, finishes (f a)) -> finishes (fuzz_ m ≫= f).
Proof. apply finishes_bind; [apply keeps_fuzz|apply fuzz_no_error]. Qed.
Lemma finishes_ret {A B} (a : A) (f : A -> sysm B) : finishes (f a) -> finishes (mret a ≫= f).
Proof. intros Hf s s' r Hs HE. by apply (Hf s s' r). Qed.
Lemma finishes_fault {A} e : finishes (exec_ (A := A) (Fault e)).
Proof. intros s s' r _ [=]. Qed.

Lemma finishes_after {A B} (m : sysm A) (f : A -> sysm B) :
  finishes m -> (forall a, keeps_sc (f a)) -> finishes (m ≫= f).
Proof.
  intros Hm Hf s s' r Hs [(s1&a&E&E')|(error&E& ->)]%sysm_bind_Ok; [|by eapply Hm].
  rewrite (Hf _ _ _ _ E'). by eapply Hm.
Qed.

Lemma protocol_call_exact call c : is_blocking_syscall call = true -> protocol (call_exact call c).
Proof.
  intros Hb. apply protocol_begin; [done|]. apply finishes_live. intros r.
  apply finishes_after; [by apply finishes_end|auto with keeps_db].
Qed.
Lemma protocol_call_fd call c : is_blocking_syscall call = true -> protocol (call_fd call c).
Proof.
  intros Hb. apply protocol_begin; [done|]. apply finishes_live. intros r.
  apply finishes_after; [by apply finishes_end|auto with keeps_db].
Qed.

(** Goals [protocol m] for a handler. *)
Ltac protocol_solve :=
  repeat first
    [ solve [auto using protocol_raise, protocol_bad_type, protocol_call_exact, protocol_call_fd,
        finishes_end, finishes_fault]
    | apply finishes_end; done
    | apply protocol_after; [by auto using protocol_call_exact, protocol_call_fd|intros ?; keeps_solve]
    | apply protocol_begin; [done|]
    | apply finishes_live; intros ?
    | apply finishes_fuzz; intros ?
    | apply finishes_ret
    | apply protocol_bind; [keeps_solve|intros ?]
    | match goal with
      | |- protocol (match ?x with _ => _ end) => destruct x
      | |- finishes ((match ?x with _ => _ end) ≫= _) => destruct x
      | |- finishes (match ?x with _ => _ end) => destruct x
      end ].

Lemma handler_protocol name h call args :
  find_handler name system_call_table = Some h -> name <> "splice"%string ->
  is_blocking_syscall call = true -> protocol (h call args).
Proof.
  intros E Hname Hb.
  apply (find_handler_related (fun name h _ => name <> "splice"%string -> protocol (h call args))
    system_call_table system_call_table name h h); [|done..].
  repeat apply Forall2_cons_2; [..|apply Forall2_nil_2]; (split; [reflexivity|]); intros ?; try done;
    autounfold with handlers_db; cbn [snd]; protocol_solve.
Qed.

(** A computation that makes no assertion of the protocol and never gets to "running"
    does not return a success. *)
Definition never_done {A} (m : sysm A) : Prop :=
  forall s s' r, sc_state (sys_syscalls s) = SYSCALL_ENQUEUED -> m s = Ok (s', r) -> refused s' r.

Lemma never_done_bind {A B} (m : sysm A) (f : A -> sysm B) :
  keeps_sc m -> (forall a, never_done (f a)) -> never_done (m ≫= f).
Proof.
  intros Hm Hf s s' r Hs [(s1&a&E&E')|(error&E& ->)]%sysm_bind_Ok.
  - apply (Hf a s1); [by rewrite (Hm _ _ _ E)|done].
  - unfold refused. rewrite (Hm _ _ _ E). eauto.
Qed.

Lemma never_done_end call mode r :
  is_blocking_syscall call = true -> never_done (end_syscall call mode r).
Proof.
  intros Hb. apply never_done_bind; [apply keeps_fuzz|]. intros []. rewrite Hb.
  intros s s' r' Hs [(s1&a&E&_)|(error&E&_)]%sysm_bind_Ok; unfold end_blocking in E;
    apply exec_bind_Ok in E as ([st t]&_&E); apply exec_bind_Ok in E as (?&Ha&_);
    apply assert_state_Ok, bool_decide_eq_true in Ha; cbn in Ha; congruence.
Qed.
End Protocol.

(** ** The assertions of the protocol *)

(** Two computations that do the same from a state of the call. *)
Definition agrees {A} (sc : syscall_state_t) (m m' : sysm A) : Prop :=
  forall s, sc_state (sys_syscalls s) = sc -> m s = m' s.

Lemma agrees_refl {A} sc (m : sysm A) : agrees sc m m.
Proof. by intros s Hs. Qed.
Lemma agrees_bind {A B} sc (m : sysm A) (f f' : A -> sysm B) :
  keeps_sc m -> (forall a, agrees sc (f a) (f' a)) -> agrees sc (m ≫= f) (m ≫= f').
Proof.
  intros Hm Hf s Hs. unfold mbind, sysm_bind. destruct (m s) as [[s1 [a|error]]|e] eqn:E; [|done..].
  apply Hf. by rewrite (Hm _ _ _ E).
Qed.
Lemma agrees_after {A B} sc (m m' : sysm A) (f : A -> sysm B) :
  agrees sc m m' -> agrees sc (m ≫= f) (m' ≫= f).
Proof. intros Hm s Hs. unfold mbind, sysm_bind. by rewrite (Hm s Hs). Qed.
Lemma agrees_ret {A B} sc (a : A) (f f' : A -> sysm B) :
  agrees sc (f a) (f' a) -> agrees sc (mret a ≫= f) (mret a ≫= f').
Proof. intros Hf s Hs. exact (Hf s Hs). Qed.

Section Assertions.
Context `{Libc} (F G : StateAssert) (call : syscall_spec).
Hypothesis Hb : is_blocking_syscall call = true.

Lemma agrees_begin {A} (f f' : unit -> sysm A) : agrees SYSCALL_RUNNING (f tt) (f' tt) ->
  agrees SYSCALL_ENQUEUED (@begin_syscall F call ≫= f) (@begin_syscall G call ≫= f').
Proof.
  intros Hf s Hs. unfold begin_syscall, mbind, sysm_bind. rewrite Hb, Hs. by apply Hf.
Qed.

Lemma agrees_end mode r :
  agrees SYSCALL_RUNNING (@end_syscall _ F call mode r) (@end_syscall _ G call mode r).
Proof.
  unfold end_syscall. rewrite Hb. apply agrees_bind; [apply keeps_fuzz|]. intros _. apply agrees_after.
  intros s Hs. unfold end_blocking. destruct (now_usecs (sys_state s)) as [[st t]|]; [|done].
  rewrite !bind_Ok_eq. cbn. by rewrite Hs.
Qed.

Lemma agrees_call_exact c :
  agrees SYSCALL_ENQUEUED (@call_exact _ F call c) (@call_exact _ G call c).
Proof.
  apply agrees_begin, agrees_bind; [apply keeps_live|]. intros r. apply agrees_after, agrees_end.
Qed.
Lemma agrees_call_fd c : agrees SYSCALL_ENQUEUED (@call_fd _ F call c) (@call_fd _ G call c).
Proof.
  apply agrees_begin, agrees_bind; [apply keeps_live|]. intros r. apply agrees_after, agrees_end.
Qed.

#[local] Hint Resolve keeps_fd_arg keeps_run_open keeps_run_socket keeps_run_bind keeps_run_epoll
  keeps_run_pipe keeps_pollfds_new keeps_epoll_event keeps_library : keeps_db.

(** Goals [agrees sc m m'] for the two versions of a handler. *)
Ltac agrees_solve :=
  repeat lazymatch goal with
  | |- agrees _ ?m ?m => apply agrees_refl
  | |- agrees _ (call_exact _ _ ≫= _) _ => apply agrees_after, agrees_call_exact
  | |- agrees _ (call_fd _ _ ≫= _) _ => apply agrees_after, agrees_call_fd
  | |- agrees _ (end_syscall _ _ _) _ => apply agrees_end
  | |- agrees _ (begin_syscall _ ≫= _) _ => apply agrees_begin
  | |- agrees _ (mret _ ≫= _) _ => apply agrees_ret
  | |- agrees _ ((match ?x with _ => _ end) ≫= _) _ => destruct x
  | |- agrees _ (match ?x with _ => _ end) _ => destruct x
  | |- agrees _ (_ ≫= _) _ => apply agrees_bind; [keeps_solve|intros ?]
  | |- agrees _ (syscall_icmp_sendto _ _) _ => unfold syscall_icmp_sendto
  end.

Lemma handlers_agree name h h' args :
  find_handler name (@system_call_table _ F) = Some h ->
  find_handler name (@system_call_table _ G) = Some h' -> name <> "splice"%string ->
  agrees SYSCALL_ENQUEUED (h call args) (h' call args).
Proof.
  intros E E' Hname.
  apply (find_handler_related (fun name h h' => name <> "splice"%string ->
    agrees SYSCALL_ENQUEUED (h call args) (h' call args))
    (@system_call_table _ F) (@system_call_table _ G) name h h'); [|done..].
  repeat apply Forall2_cons_2; [..|apply Forall2_nil_2]; (split; [reflexivity|]); intros ?; try done;
    autounfold with handlers_db; cbn [snd]; agrees_solve.
Qed.

End Assertions.

(** ** The protocol, for every system call *)

(** C14. Every handler but that of splice keeps to the protocol of the system call thread.
    Run for a blocking call whose state is "enqueued", it does the same whatever a failed
    assertion about the state of the call would do ([F] and [G]): none of the assertions of
    begin_syscall and end_syscall is false.  And a handler that returns has gone through
    begin_syscall and end_syscall, so that the state is "done", or has returned an error
    before begin_syscall.  A handler that left out begin_syscall, as that of splice does,
    would depend on the assertion ([blocking_splice_asserts]). *)
Theorem handlers_follow_protocol `{Libc} (F G : StateAssert) name h h' call args s :
  find_handler name (@system_call_table _ F) = Some h ->
  find_handler name (@system_call_table _ G) = Some h' ->
  name <> "splice"%string -> is_blocking_syscall call = true ->
  sc_state (sys_syscalls s) = SYSCALL_ENQUEUED ->
  h call args s = h' call args s /\
  (forall s' r, h call args s = Ok (s', r) -> sc_state (sys_syscalls s') = SYSCALL_DONE \/ refused s' r).
Proof.
  intros E E' Hname Hb Hs. split; [exact (handlers_agree F G call Hb name h h' args E E' Hname s Hs)|].
  intros s' r Er. by eapply (handler_protocol (H0 := F) name h call args).
Qed.

(** A blocking splice can never succeed: its handler does not call begin_syscall, so
    that end_syscall finds the state "enqueued" where it asserts "running".  Whatever
    the arguments and the replies, the handler does not return a success, and the state
    never becomes "done". *)
Theorem blocking_splice_never_done `{Libc} call args s s' r :
  is_blocking_syscall call = true -> sc_state (sys_syscalls s) = SYSCALL_ENQUEUED ->
  syscall_splice call args s = Ok (s', r) -> refused s' r.
Proof.
  intros Hb. revert s s' r. change (never_done (syscall_splice call args)).
  unfold syscall_splice.
  repeat first [ by apply never_done_end
               | apply never_done_bind; [solve [auto using keeps_fd_arg with keeps_db]|intros ?]
               | match goal with |- never_done (match ?x with _ => _ end) => destruct x end ].
Qed.

(** ** The table of file descriptors as a finite map *)

(** What the numbers of a descriptor may be: both known, or both -1 (a socket that
    accept has not returned yet). *)
Definition fd_numbers_ok (v : fd_members) : Prop :=
  (0 <= fd_script_fd v /\ 0 <= fd_live_fd v) \/ (fd_script_fd v = -1 /\ fd_live_fd v = -1).

Definition fd_entry (v : fd_members) : Z * (Z * bool) :=
  (fd_script_fd v, (fd_live_fd v, fd_is_closed v)).
Definition fd_entries (vs : list fd_members) : list (Z * (Z * bool)) :=
  fd_entry <$> filter (fun v => 0 <= fd_script_fd v) vs.

(** The abstract table: for each number of the script the live number, and whether the
    descriptor has been closed. *)
Definition fd_represents (st : state) (t : gmap Z (Z * bool)) : Prop :=
  exists vs, Forall2 (fun fd v => fd_view st fd = Ok v) (st_fds st) vs /\
    Forall fd_numbers_ok vs /\ NoDup (fd_entries vs).*1 /\ t = list_to_map (fd_entries vs).

Lemma find_fd_spec st test fds vs : forall i,
  Forall2 (fun fd v => fd_view st fd = Ok v) fds vs ->
  Forall (fun v => test v = true -> 0 <= fd_live_fd v /\ 0 <= fd_script_fd v) vs ->
  (exists j fd v, find_fd st test fds i = Ok (Some (i + j)%nat) /\ fds !! j = Some fd /\
     vs !! j = Some v /\ fd_view st fd = Ok v /\ test v = true) \/
  (find_fd st test fds i = Ok None /\ Forall (fun v => test v = false) vs).
Proof.
  intros i HF. revert i. induction HF as [|fd v fds vs Hv HF IH]; intros i Ht; [by right|].
  inversion Ht as [|? ? Hv' Ht']; subst. cbn [find_fd]. rewrite Hv, bind_Ok_eq.
  destruct (test v) eqn:E.
  - left. exists O, fd, v. destruct (Hv' eq_refl) as [H1 H2].
    rewrite (proj2 (Z.leb_le _ _) H1), (proj2 (Z.leb_le _ _) H2), Nat.add_0_r. done.
  - destruct (IH (S i) Ht') as [(j&fd'&v'&->&?&?&?&?)|[-> ?]]; [left|right; auto].
    exists (S j), fd', v'. rewrite Nat.add_succ_r. done.
Qed.

Section Table.
Context (st : state) (vs : list fd_members).
Hypothesis Hviews : Forall2 (fun fd v => fd_view st fd = Ok v) (st_fds st) vs.
Hypothesis Hok : Forall fd_numbers_ok vs.
Hypothesis Hnodup : NoDup (fd_entries vs).*1.

Let table : gmap Z (Z * bool) := list_to_map (fd_entries vs).

Lemma table_lookup k x : table !! k = Some x <-> (k, x) ∈ fd_entries vs.
Proof. symmetry. by apply elem_of_list_to_map. Qed.

Lemma entry_elem v : v ∈ vs -> 0 <= fd_script_fd v -> fd_entry v ∈ fd_entries vs.
Proof. intros Hv H0. apply list_elem_of_fmap_2, list_elem_of_filter. done. Qed.

Lemma entry_inv k l c : (k, (l, c)) ∈ fd_entries vs ->
  exists v, v ∈ vs /\ fd_script_fd v = k /\ fd_live_fd v = l /\ fd_is_closed v = c.
Proof. intros (v&[= -> -> ->]&[_ Hv]%list_elem_of_filter)%list_elem_of_fmap. eauto. Qed.

Lemma find_script_spec k : 0 <= k ->
  (exists i fd v, find_by_script_fd st k = Ok (Some i) /\ st_fds st !! i = Some fd /\
     vs !! i = Some v /\ fd_view st fd = Ok v /\ fd_script_fd v = k /\
     table !! k = Some (fd_live_fd v, fd_is_closed v)) \/
  (find_by_script_fd st k = Ok None /\ table !! k = None).
Proof.
  intros Hk. destruct (find_fd_spec st (fun v => fd_script_fd v =? k) (st_fds st) vs 0 Hviews)
    as [(j&fd&v&E&Hj&Hvj&Hv&Ht)|[E HF]].
  - eapply Forall_impl; [exact Hok|]. cbn. intros v Hv Ht%Z.eqb_eq. unfold fd_numbers_ok in Hv. lia.
  - left. exists j, fd, v. apply Z.eqb_eq in Ht. split_and!; try done.
    apply table_lookup. rewrite <-Ht. change (fd_entry v ∈ fd_entries vs).
    apply entry_elem; [by eapply list_elem_of_lookup_2|lia].
  - right. split; [done|]. destruct (table !! k) as [[l c]|] eqn:Et; [|done].
    apply table_lookup, entry_inv in Et as (v&Hv&Hs&_). rewrite Forall_forall in HF.
    specialize (HF v Hv). cbn in HF. apply Z.eqb_neq in HF. congruence.
Qed.

Lemma find_live_spec l : 0 <= l ->
  (exists i k, find_by_live_fd st l = Ok (Some i) /\ table !! k = Some (l, false)) \/
  (find_by_live_fd st l = Ok None /\ forall k, table !! k <> Some (l, false)).
Proof.
  intros Hl. destruct (find_fd_spec st (fun v => negb (fd_is_closed v) && (fd_live_fd v =? l))
    (st_fds st) vs 0 Hviews) as [(j&fd&v&E&Hj&Hvj&Hv&Ht)|[E HF]].
  - eapply Forall_impl; [exact Hok|]. cbn. intros v Hv [_ Ht%Z.eqb_eq]%andb_prop.
    unfold fd_numbers_ok in Hv. lia.
  - left. exists j, (fd_script_fd v). split; [done|]. apply andb_prop in Ht as [Hc Ht%Z.eqb_eq].
    apply table_lookup. rewrite <-Ht. replace false with (fd_is_closed v) by (by destruct (fd_is_closed v)).
    change (fd_entry v ∈ fd_entries vs). apply entry_elem; [by eapply list_elem_of_lookup_2|].
    rewrite Forall_forall in Hok. specialize (Hok v (list_elem_of_lookup_2 _ _ _ Hvj)).
    unfold fd_numbers_ok in Hok. lia.
  - right. split; [done|]. intros k Et. apply table_lookup, entry_inv in Et as (v&Hv&_&Hlv&Hc).
    rewrite Forall_forall in HF. specialize (HF v Hv). cbn in HF.
    rewrite Hlv, Hc, Z.eqb_refl in HF. discriminate.
Qed.
End Table.

Lemma to_live_fd_table s t k : fd_represents (sys_state s) t -> 0 <= k ->
  to_live_fd k s = Ok (s, match t !! k with
    | Some (l, _) => Done l
    | None => Err (Some ("unable to find fd with script fd " +:+ dec k))
    end).
Proof.
  intros (vs&Hv&Hok&Hn&->) Hk. unfold to_live_fd.
  destruct (find_script_spec _ vs Hv Hok Hn k Hk) as [(i&fd&v&->&Hi&_&Hfd&_&->)|[-> ->]]; [|done].
  rewrite bind_Ok_eq, Hi. cbn. by rewrite Hfd.
Qed.

Lemma check_duplicate_table s t k l : fd_represents (sys_state s) t -> 0 <= k -> 0 <= l ->
  (t !! k = None /\ (forall k', t !! k' <> Some (l, false)) /\
   check_duplicate_fd k l s = Ok (s, Done tt)) \/
  ((is_Some (t !! k) \/ exists k', t !! k' = Some (l, false)) /\
   exists error, check_duplicate_fd k l s = Ok (s, Err error)).
Proof.
  intros (vs&Hv&Hok&Hn&->) Hk Hl. unfold check_duplicate_fd.
  destruct (find_script_spec _ vs Hv Hok Hn k Hk) as [(i&fd&v&->&_&_&_&_&->)|[-> ->]].
  { right. split; [left; by eexists|]. eexists. done. }
  destruct (find_live_spec _ vs Hv Hok Hn l Hl) as [(i&k'&->&Hk')|[-> Hno]].
  - right. split; [right; eauto|]. eexists. done.
  - left. auto.
Qed.

(** A new descriptor at the head of the list. *)
Lemma fd_represents_add st st' fd v t k l :
  fd_represents st t -> t !! k = None -> 0 <= k -> 0 <= l ->
  st_fds st' = fd :: st_fds st -> fd_view st' fd = Ok v ->
  fd_script_fd v = k -> fd_live_fd v = l -> fd_is_closed v = false ->
  Forall (fun fd => forall v, fd_view st fd = Ok v -> fd_view st' fd = Ok v) (st_fds st) ->
  fd_represents st' (<[k := (l, false)]> t).
Proof.
  intros (vs&Hv&Hok&Hn&->) Hk Hk0 Hl0 Hfds Hfd Es El Ec HF. exists (v :: vs).
  rewrite Hfds. split_and!.
  - constructor; [done|]. clear -Hv HF.
    induction Hv as [|fd v fds vs H Hv IH]; [constructor|]. inversion HF; subst.
    constructor; auto.
  - constructor; [left; lia|done].
  - unfold fd_entries. rewrite filter_cons, decide_True by lia. cbn. constructor; [|done].
    rewrite Es. by apply not_elem_of_list_to_map.
  - unfold fd_entries. rewrite filter_cons, decide_True by lia. cbn.
    by rewrite Es, El, Ec.
Qed.

Lemma other_new_table s t type k l :
  fd_represents (sys_state s) t -> t !! k = None -> 0 <= k -> 0 <= l ->
  exists s', other_new type k l s = Ok (s', Done tt) /\
    fd_represents (sys_state s') (<[k := (l, false)]> t).
Proof.
  intros Ht Hk Hk0 Hl0. eexists. split; [reflexivity|]. cbn.
  eapply (fd_represents_add (sys_state s) _ (FdOther type k l false)); try done.
  apply Forall_forall. intros [] _ v E; [|done]. exact E.
Qed.

(** A socket appended to the sockets and then written leaves the others as they were. *)
Lemma socket_view_app st st' s i v :
  fd_view st (FdSocket i) = Ok v ->
  st_sockets st' = <[length (st_sockets st) := s]> (st_sockets st ++ [s]) ->
  fd_view st' (FdSocket i) = Ok v.
Proof.
  cbn. unfold socket_at. intros H Hs. destruct (st_sockets st !! i) as [s0|] eqn:E; [|discriminate].
  apply lookup_lt_Some in E as Hlt. rewrite Hs, list_lookup_insert_ne, lookup_app_l, E by lia.
  exact H.
Qed.

Lemma run_socket_table s t family type protocol k l :
  fd_represents (sys_state s) t -> 0 <= k -> 0 <= l -> t !! k = None ->
  check_duplicate_fd k l s = Ok (s, Done tt) ->
  exists s', run_syscall_socket family type protocol k l s = Ok (s', Done tt) /\
    fd_represents (sys_state s') (<[k := (l, false)]> t).
Proof.
  intros Ht Hk0 Hl0 Hk E. unfold run_syscall_socket.
  destruct (Z.ltb_spec k 0), (Z.ltb_spec l 0); try lia.
  unfold mbind at 1, sysm_bind. rewrite E. unfold with_state, state_socket_new.
  assert (exists s0, socket_new = Ok s0 /\ sk_is_closed s0 = false) as (s0&Es&Hc) by (by eexists).
  rewrite Es, !bind_Ok_eq. unfold socket_at. cbn [st_sockets state_add_fd set_st_fds set_st_sockets].
  rewrite lookup_app_r, Nat.sub_diag by lia. cbn [lookup list_lookup deref].
  rewrite bind_Ok_eq. eexists. split; [reflexivity|].
  set (s1 := set_sk_live_fd l _).
  eapply (fd_represents_add (sys_state s) _ (FdSocket (length (st_sockets (sys_state s))))
    (mk_fd FD_SOCKET k l false) t); try done.
  - cbn. unfold socket_at. cbn. rewrite list_lookup_insert_eq by (rewrite length_app; simpl; lia).
    cbn. by rewrite Hc.
  - apply Forall_forall. intros [i|] _ v Hv; [|exact Hv].
    apply (socket_view_app (sys_state s) _ s1 i v Hv). cbn.
    rewrite !insert_app_r_alt by lia. by rewrite !Nat.sub_diag.
Qed.

(** The descriptor at a position marked closed. *)
Lemma fd_represents_close st st' vs i v :
  Forall2 (fun fd v => fd_view st fd = Ok v) (st_fds st) vs -> Forall fd_numbers_ok vs ->
  NoDup (fd_entries vs).*1 -> vs !! i = Some v -> 0 <= fd_script_fd v ->
  Forall2 (fun fd v => fd_view st' fd = Ok v) (st_fds st')
    (<[i := mk_fd (fd_type v) (fd_script_fd v) (fd_live_fd v) true]> vs) ->
  fd_represents st' (<[fd_script_fd v := (fd_live_fd v, true)]> (list_to_map (fd_entries vs))).
Proof.
  intros Hv Hok Hn Hi H0 Hv'. eexists. split; [exact Hv'|].
  apply take_drop_middle in Hi as Evs. set (v' := mk_fd _ _ _ _) in *.
  assert (<[i := v']> vs = take i vs ++ v' :: drop (S i) vs) as E.
  { apply insert_take_drop. by eapply lookup_lt_Some. }
  rewrite E. clear E Hv Hv' Hi. revert Evs. generalize (take i vs), (drop (S i) vs).
  intros l1 l2 <-. unfold fd_entries in *.
  rewrite !filter_app, !filter_cons in *. rewrite decide_True in Hn by done.
  rewrite !decide_True by done. rewrite !fmap_app, !fmap_cons in *.
  apply Forall_app in Hok as [Hok1 [Hokv Hok2]%Forall_cons].
  split_and!.
  - apply Forall_app_2; [done|]. constructor; [exact Hokv|done].
  - exact Hn.
  - rewrite !list_to_map_app.
    change (fd_entry v) with (fd_script_fd v, (fd_live_fd v, fd_is_closed v)).
    change (fd_entry v') with (fd_script_fd v, (fd_live_fd v, true)).
    rewrite !list_to_map_cons. cbn in Hn.
    assert (fd_script_fd v ∉ (fd_entry <$> filter (fun v => 0 <= fd_script_fd v) l1).*1) as Hni.
    { apply NoDup_app in Hn as (_&Hd&_). intros Hin. apply (Hd _ Hin). constructor. }
    rewrite <-!insert_union_r by (by apply not_elem_of_list_to_map).
    by rewrite insert_insert_eq.
Qed.

Lemma fd_entries_inj vs : forall p q a b, NoDup (fd_entries vs).*1 ->
  vs !! p = Some a -> vs !! q = Some b -> 0 <= fd_script_fd a -> fd_script_fd a = fd_script_fd b ->
  p = q.
Proof.
  assert (forall vs q b, vs !! q = Some b -> 0 <= fd_script_fd b ->
    fd_script_fd b ∈ (fd_entries vs).*1) as Hin.
  { intros vs' q b Hq H0. apply (list_elem_of_fmap_2 fst (fd_entries vs') (fd_entry b)).
    apply entry_elem; [by eapply list_elem_of_lookup_2|done]. }
  induction vs as [|v vs IH]; intros p q a b Hn Hp Hq H0 Hs; [done|].
  unfold fd_entries in Hn. rewrite filter_cons in Hn.
  destruct p as [|p], q as [|q]; cbn in Hp, Hq; simplify_eq; [done|..].
  - rewrite decide_True in Hn by done. cbn in Hn. apply NoDup_cons in Hn as [Hn _].
    destruct Hn. rewrite Hs. apply (Hin vs q b Hq). lia.
  - rewrite decide_True in Hn by lia. cbn in Hn. apply NoDup_cons in Hn as [Hn _].
    destruct Hn. rewrite <-Hs. apply (Hin vs p a Hp). lia.
  - f_equal. eapply (IH p q a b); eauto. destruct (decide _) in Hn; [|done].
    cbn in Hn. by apply NoDup_cons in Hn as [_ Hn].
Qed.

Lemma set_closed_views st vs i fd v :
  Forall2 (fun fd v => fd_view st fd = Ok v) (st_fds st) vs -> NoDup (fd_entries vs).*1 ->
  st_fds st !! i = Some fd -> vs !! i = Some v -> fd_view st fd = Ok v -> 0 <= fd_script_fd v ->
  exists st', set_closed i st = Ok st' /\
    Forall2 (fun fd v => fd_view st' fd = Ok v) (st_fds st')
      (<[i := mk_fd (fd_type v) (fd_script_fd v) (fd_live_fd v) true]> vs).
Proof.
  intros Hv Hn Hi Hvi Hfd H0. unfold set_closed. rewrite Hi. cbn [deref]. rewrite bind_Ok_eq.
  apply Forall2_same_length_lookup in Hv as [Hlen Hv].
  destruct fd as [j|type k l c].
  - cbn in Hfd. destruct (socket_at st j) as [sock|] eqn:Es; [|discriminate]. cbn in Hfd.
    injection Hfd as <-. rewrite bind_Ok_eq. eexists. split; [done|].
    unfold socket_at in Es. apply deref_Ok in Es.
    apply Forall2_same_length_lookup. split; [by rewrite length_insert|].
    intros p fd' v' Hp Hp'. cbn in Hp. destruct (decide (p = i)) as [-> | Hne].
    + rewrite Hi in Hp. injection Hp as <-. rewrite list_lookup_insert_eq in Hp' by
        (by eapply lookup_lt_Some). injection Hp' as <-.
      cbn. unfold socket_at. cbn. by rewrite list_lookup_insert_eq by (by eapply lookup_lt_Some).
    + rewrite list_lookup_insert_ne in Hp' by done. pose proof (Hv p fd' v' Hp Hp') as Hw.
      destruct fd' as [j'|]; [|done]. cbn in Hw |- *. unfold socket_at in *. cbn.
      destruct (decide (j' = j)) as [-> | Hj]; [|by rewrite list_lookup_insert_ne].
      destruct Hne. rewrite Es in Hw. injection Hw as <-.
      symmetry. by eapply (fd_entries_inj vs i p).
  - eexists. split; [done|]. cbn in Hfd. injection Hfd as <-. cbn.
    apply Forall2_same_length_lookup. split; [by rewrite !length_insert|].
    intros p fd' v' Hp Hp'. destruct (decide (p = i)) as [-> | Hne].
    + rewrite list_lookup_insert_eq in Hp by (by eapply lookup_lt_Some).
      rewrite list_lookup_insert_eq in Hp' by (by eapply lookup_lt_Some). by simplify_eq.
    + rewrite list_lookup_insert_ne in Hp by done. rewrite list_lookup_insert_ne in Hp' by done. exact (Hv p fd' v' Hp Hp').
Qed.

Lemma run_close_table s t k l : fd_represents (sys_state s) t -> 0 <= k ->
  exists s' r, run_syscall_close k l s = Ok (s', r) /\
  match t !! k with
  | Some (l', _) =>
      if decide (l' = l) then r = Done tt /\ fd_represents (sys_state s') (<[k := (l, true)]> t)
      else s' = s /\ exists error, r = Err error
  | None => s' = s /\ exists error, r = Err error
  end.
Proof.
  intros (vs&Hv&Hok&Hn&->) Hk. unfold run_syscall_close.
  destruct (find_script_spec _ vs Hv Hok Hn k Hk) as [(i&fd&v&->&Hi&Hvi&Hfd&Es&->)|[-> ->]].
  2:{ do 2 eexists. split; [done|]. eauto. }
  rewrite bind_Ok_eq, Hi. cbn [deref]. rewrite bind_Ok_eq, Hfd, bind_Ok_eq.
  destruct (decide (fd_live_fd v = l)) as [<- | Hl].
  - rewrite Z.eqb_refl. cbn [negb].
    destruct (set_closed_views _ vs i fd v Hv Hn Hi Hvi Hfd) as (st'&->&Hv'); [lia|].
    eexists _, _. split; [done|]. split; [done|]. subst k. cbn.
    by eapply fd_represents_close.
  - rewrite (proj2 (Z.eqb_neq _ _) Hl). do 2 eexists. split; [done|]. eauto.
Qed.

(** Opening a descriptor in the abstract table: refused when the script's number is taken,
    even by a descriptor that has been closed, or when the live number is open. *)
Definition table_open (t : gmap Z (Z * bool)) (k l : Z) (r : outcome unit)
    (t' : gmap Z (Z * bool)) : Prop :=
  (t !! k = None /\ (forall k', t !! k' <> Some (l, false)) /\
   r = Done tt /\ t' = <[k := (l, false)]> t) \/
  ((is_Some (t !! k) \/ exists k', t !! k' = Some (l, false)) /\
   (exists error, r = Err error) /\ t' = t).

Lemma open_refines s t k l (create : sysm unit) :
  fd_represents (sys_state s) t -> 0 <= k -> 0 <= l ->
  (t !! k = None -> check_duplicate_fd k l s = Ok (s, Done tt) ->
   exists s', create s = Ok (s', Done tt) /\ fd_represents (sys_state s') (<[k := (l, false)]> t)) ->
  (forall error, check_duplicate_fd k l s = Ok (s, Err error) -> create s = Ok (s, Err error)) ->
  exists s' r t', create s = Ok (s', r) /\ fd_represents (sys_state s') t' /\ table_open t k l r t'.
Proof.
  intros Ht Hk Hl Hd He.
  destruct (check_duplicate_table s t k l Ht Hk Hl) as [(Hn&Hno&E)|(Hdup&error&E)].
  - destruct (Hd Hn E) as (s'&Ec&Hs'). exists s', (Done tt), (<[k := (l, false)]> t).
    split; [done|]. split; [done|]. left. auto.
  - exists s, (Err error), t. split; [by apply He|]. split; [done|]. right. eauto.
Qed.

Lemma checked_new_refines s t k l type :
  fd_represents (sys_state s) t -> 0 <= k -> 0 <= l ->
  exists s' r t', (_ ← check_duplicate_fd k l; other_new type k l) s = Ok (s', r) /\
    fd_represents (sys_state s') t' /\ table_open t k l r t'.
Proof.
  intros Ht Hk Hl. apply open_refines; try done.
  - intros Hn E. destruct (other_new_table s t type k l Ht Hn Hk Hl) as (s'&E'&?).
    exists s'. split; [|done]. unfold mbind, sysm_bind. by rewrite E.
  - intros error E. unfold mbind, sysm_bind. by rewrite E.
Qed.

(** C13. Refinement: the list of descriptors implements a finite map from the script's
    numbers to live numbers and a closed flag.  Looking a number up is looking it up in
    the map, closed or not; socket, open and epoll_create add an entry exactly when the
    number is not in the map and the live number is not open, and change nothing
    otherwise; close sets the flag of an entry and leaves it in the map. *)
Theorem fd_table_refines s t k l family type protocol :
  fd_represents (sys_state s) t -> 0 <= k -> 0 <= l ->
  to_live_fd k s = Ok (s, match t !! k with
    | Some (l, _) => Done l
    | None => Err (Some ("unable to find fd with script fd " +:+ dec k)) end) /\
  (exists s' r t', run_syscall_socket family type protocol k l s = Ok (s', r) /\
    fd_represents (sys_state s') t' /\ table_open t k l r t') /\
  (exists s' r t', run_syscall_open k l s = Ok (s', r) /\
    fd_represents (sys_state s') t' /\ table_open t k l r t') /\
  (exists s' r t', run_syscall_epoll_create k l s = Ok (s', r) /\
    fd_represents (sys_state s') t' /\ table_open t k l r t') /\
  (exists s' r, run_syscall_close k l s = Ok (s', r) /\
    match t !! k with
    | Some (l', _) =>
        if decide (l' = l) then r = Done tt /\ fd_represents (sys_state s') (<[k := (l, true)]> t)
        else s' = s /\ exists error, r = Err error
    | None => s' = s /\ exists error, r = Err error
    end).
Proof.
  intros Ht Hk Hl. split_and!.
  - by apply to_live_fd_table.
  - apply open_refines; try done.
    + intros Hn E. by apply run_socket_table.
    + intros error E. unfold run_syscall_socket.
      destruct (Z.ltb_spec k 0), (Z.ltb_spec l 0); try lia.
      unfold mbind at 1, sysm_bind. by rewrite E.
  - by apply checked_new_refines.
  - by apply checked_new_refines.
  - by apply run_close_table.
Qed.


(** ** Single handlers *)

Lemma sysm_bind_Done {A B} (m : sysm A) (f : A -> sysm B) s s1 a :
  m s = Ok (s1, Done a) -> (m ≫= f) s = f a s1.
Proof. intros E. unfold mbind, sysm_bind. by rewrite E. Qed.

Lemma pure_Done {A} (m : eval A) a s : m = Ok (Done a) -> pure_ m s = Ok (s, Done a).
Proof. by intros ->. Qed.

(** A script goes on using a descriptor after closing it: the table keeps closed
    descriptors and finds them, so that once the kernel has given the live number of a
    closed descriptor to a new socket, calls on the closed number act on the new socket. *)
Theorem fd_use_after_close s t k k2 l family type protocol :
  fd_represents (sys_state s) t -> 0 <= k -> 0 <= k2 -> 0 <= l ->
  t !! k = Some (l, true) -> t !! k2 = None -> (forall k', t !! k' <> Some (l, false)) ->
  exists s', run_syscall_socket family type protocol k2 l s = Ok (s', Done tt) /\
    to_live_fd k2 s' = Ok (s', Done l) /\ to_live_fd k s' = Ok (s', Done l).
Proof.
  intros Ht Hk Hk2 Hl Hc Hn Hno.
  destruct (check_duplicate_table s t k2 l Ht Hk2 Hl) as [(_&_&E)|[[[? ?]|[k' ?]] _]];
    [|congruence|by destruct (Hno k')].
  destruct (run_socket_table s t family type protocol k2 l Ht Hk2 Hl Hn E) as (s'&E'&Ht').
  exists s'. split; [done|]. assert (k <> k2) by congruence.
  rewrite (to_live_fd_table s' _ k2 Ht' Hk2), (to_live_fd_table s' _ k Ht' Hk).
  by rewrite lookup_insert_eq, lookup_insert_ne, Hc by done.
Qed.

(** A socket that accept has not returned yet has no script fd: a call on -1 ends the run. *)
Lemma fd_minus_one_asserts st vs :
  Forall2 (fun fd v => fd_view st fd = Ok v) (st_fds st) vs -> Forall fd_numbers_ok vs ->
  Exists (fun v => fd_script_fd v = -1) vs ->
  find_by_script_fd st (-1) = Fault AssertFailed.
Proof.
  unfold find_by_script_fd. generalize 0%nat. intros i HF. revert i.
  induction HF as [|fd v fds vs Hv HF IH]; intros i Hok Hex; [by apply Exists_nil in Hex|].
  inversion Hok as [|? ? Hn Hok']; subst. cbn [find_fd]. rewrite Hv, bind_Ok_eq.
  destruct (Z.eqb_spec (fd_script_fd v) (-1)) as [E|E].
  - unfold fd_numbers_ok in Hn. by destruct (Z.leb_spec 0 (fd_live_fd v)); [lia|].
  - apply Exists_cons in Hex as [?|Hex]; [done|]. by apply IH.
Qed.

Definition result_matches (mode : result_check_t) (expected actual : Z) : Prop :=
  match mode with
  | CHECK_EXACT => actual = expected
  | CHECK_FD => (0 <= expected /\ 0 <= actual) \/ (expected < 0 /\ actual = expected)
  end.

(** What end_syscall accepts: the result in the script is an integer of at most 32 bits
    (signed or unsigned) that the live result matches, exactly, or for calls that
    return a descriptor in being one; and when the script names an errno, the symbol is
    known and has the live errno as its value. *)
Theorem check_result_spec `{Libc} call mode actual errno :
  check_result call mode actual errno = Ok (Done tt) <->
  exists n, sy_result call = EXPR_INTEGER n /\ INT_MIN <= n <= UINT_MAX /\
    result_matches mode (s32 n) actual /\
    forall spec, sy_error call = Some spec -> symbol_to_int (errno_macro spec) = Done errno.
Proof.
  unfold check_result.
  assert (forall n, INT_MIN <= n <= UINT_MAX ->
    (UINT_MAX <? n) || (n <? INT_MIN) = false) as Hr.
  { intros n Hn. destruct (Z.ltb_spec UINT_MAX n), (Z.ltb_spec n INT_MIN); (done || lia). }
  split.
  - intros (n&E&HE)%eval_bind_Done. destruct (sy_result call) as [|num| | | | | | | | | | | | | | | | |];
      try discriminate. exists num. cbn [get_s32] in E.
    destruct ((UINT_MAX <? num) || (num <? INT_MIN)) eqn:Eb; [discriminate|].
    injection E as <-. apply orb_false_iff in Eb as [E1%Z.ltb_ge E2%Z.ltb_ge].
    apply eval_bind_Done in HE as ([]&HM&HE). split_and!; try done; try lia.
    + destruct mode; cbn in HM |- *.
      * destruct (Z.eqb_spec actual (s32 num)); [done|discriminate].
      * destruct (Z.leb_spec 0 (s32 num)).
        -- destruct (Z.ltb_spec actual 0); [discriminate|lia].
        -- destruct (Z.eqb_spec actual (s32 num)); [lia|discriminate].
    + intros spec Hspec. rewrite Hspec in HE.
      destruct (symbol_to_int (errno_macro spec)); [|discriminate].
      destruct (Z.eqb_spec errno a); [by subst|discriminate].
  - intros (n&E&Hn&HM&He). rewrite E. cbn [get_s32]. rewrite Hr by done.
    apply eval_bind_Done. eexists. split; [done|]. apply eval_bind_Done. exists tt. split.
    + destruct mode; cbn in HM |- *.
      * subst. by rewrite Z.eqb_refl.
      * destruct (Z.leb_spec 0 (s32 n)); [destruct (Z.ltb_spec actual 0); [lia|done]|].
        assert (actual = s32 n) as -> by lia. by rewrite Z.eqb_refl.
    + destruct (sy_error call) as [spec|]; [|done]. rewrite (He spec eq_refl).
      by rewrite Z.eqb_refl.
Qed.


(** ** The theorems on concrete runs *)

#[export] Instance sample_libc : Libc := {| strerror _ := "error"; inet_ntop6 _ := "::" |}.

(** Descriptor 3 of the script is 5, and 4, which was 6, is closed. *)
Definition sample_fds : list fd_state := [FdOther FD_FILE 3 5 false; FdOther FD_FILE 4 6 true].

Definition sample_sys (sc : syscall_state_t) (replies : list reply) : sys :=
  mk_sys (set_st_fds sample_fds (sample_state [70010; 70020] (Some 0%nat) None 0))
    (set_fz_result (mk_recorder (Some (replicate 3000 0)) 0 (Some (replicate 1000 None)))
       (fuzz_start []))
    false (mk_syscalls sc (Some 0%nat) (-1)) replies [].

Definition close_call : syscall_spec :=
  mk_syscall_spec "close" [EXPR_INTEGER 3] (EXPR_INTEGER 0) None 100.

Definition sys_after (r : exec (sys * outcome unit)) : sys :=
  match r with
  | Ok (s, _) => s
  | Fault _ => sample_sys SYSCALL_IDLE []
  end.

Definition after_close : sys :=
  sys_after (syscall_close close_call [EXPR_INTEGER 3]
    (sample_sys SYSCALL_ENQUEUED [returns_only 0 0])).

Example after_close_done :
  syscall_close close_call [EXPR_INTEGER 3] (sample_sys SYSCALL_ENQUEUED [returns_only 0 0])
    = Ok (after_close, Done tt) /\
  sc_state (sys_syscalls after_close) = SYSCALL_DONE /\ sys_calls after_close = [LClose 5].
Proof. vm_compute. split_and!; reflexivity. Qed.

Lemma handlers_follow_protocol_witness :
  @syscall_close _ AssertFailed close_call [EXPR_INTEGER 3] (sample_sys SYSCALL_ENQUEUED [returns_only 0 0])
  = @syscall_close _ Aborted close_call [EXPR_INTEGER 3] (sample_sys SYSCALL_ENQUEUED [returns_only 0 0]).
Proof.
  apply (handlers_follow_protocol AssertFailed Aborted "close" (@syscall_close _ AssertFailed)
    (@syscall_close _ Aborted) close_call [EXPR_INTEGER 3] (sample_sys SYSCALL_ENQUEUED [returns_only 0 0])).
  - reflexivity.
  - reflexivity.
  - discriminate.
  - reflexivity.
  - reflexivity.
Defined.

(** splice(3, 0, 3, 0, 10, 0) as a blocking call: the assertion of end_syscall fails. *)
Example blocking_splice_asserts (F : StateAssert) :
  @syscall_splice _ F (mk_syscall_spec "splice" [] (EXPR_INTEGER 10) None 100)
    [EXPR_INTEGER 3; EXPR_INTEGER 0; EXPR_INTEGER 3; EXPR_INTEGER 0; EXPR_INTEGER 10; EXPR_INTEGER 0]
    (sample_sys SYSCALL_ENQUEUED [returns_only 10 0]) = Fault F.
Proof. vm_compute. reflexivity. Qed.

Lemma blocking_splice_never_done_witness :
  refused (sample_sys SYSCALL_ENQUEUED []) (Err (A := unit) (Some "Expected 6 args but got 0"%string)).
Proof.
  apply (blocking_splice_never_done (mk_syscall_spec "splice" [] (EXPR_INTEGER 0) None 100) []
    (sample_sys SYSCALL_ENQUEUED []) (sample_sys SYSCALL_ENQUEUED [])).
  - reflexivity.
  - reflexivity.
  - vm_compute. reflexivity.
Defined.

Definition sample_table : gmap Z (Z * bool) := list_to_map [(3, (5, false)); (4, (6, true))].

Lemma sample_represents sc replies : fd_represents (sys_state (sample_sys sc replies)) sample_table.
Proof.
  exists [mk_fd FD_FILE 3 5 false; mk_fd FD_FILE 4 6 true]. split_and!.
  - repeat constructor.
  - repeat apply Forall_cons_2; [left; cbn; lia|left; cbn; lia|apply Forall_nil_2].
  - vm_compute. apply NoDup_cons. split; [by intros ?%list_elem_of_singleton|apply NoDup_singleton].
  - reflexivity.
Qed.

Lemma fd_table_refines_witness :
  exists s' r, run_syscall_close 3 5 (sample_sys SYSCALL_IDLE []) = Ok (s', r) /\
    r = Done tt /\ fd_represents (sys_state s') (<[3 := (5, true)]> sample_table).
Proof.
  apply (fd_table_refines (sample_sys SYSCALL_IDLE []) sample_table 3 5 AF_INET 1 0).
  - apply sample_represents.
  - lia.
  - lia.
Defined.

Lemma fd_use_after_close_witness :
  exists s', run_syscall_socket AF_INET 1 0 7 6 (sample_sys SYSCALL_IDLE []) = Ok (s', Done tt) /\
    to_live_fd 7 s' = Ok (s', Done 6) /\ to_live_fd 4 s' = Ok (s', Done 6).
Proof.
  apply (fd_use_after_close (sample_sys SYSCALL_IDLE []) sample_table 4 7 6 AF_INET 1 0);
    try lia; [apply sample_represents|reflexivity|reflexivity|].
  intros k Hk%elem_of_list_to_map_2. by apply list_elem_of_In in Hk as [?|[?|[]]].
Defined.
