(* ===== verification/SyscallIO.v ===== *)
(** * SyscallIO: the data and the control messages of system calls

    Theorems about SyscallHandlers.v and SyscallArgs.v: the stream of bytes that the
    writes of a script send, and the buffers of control messages. *)

From S2P Require Import Prelude Headers Packet HashMap IpAddress IpPacket Socket Script RunState FuzzHelper SyscallArgs SystemCall SyscallHandlers SyscallThread SyscallProps.

(** ** The stream of bytes that write sends *)

(** The bytes [start mod 10], [(start + 1) mod 10], ... *)
Definition digits (start : Z) (n : nat) : bytes := (fun i => (Z.of_nat i + start) mod 10) <$> seq 0 n.

Lemma digits_length start n : length (digits start n) = n.
Proof. unfold digits. by rewrite length_fmap, length_seq. Qed.

Lemma digits_lookup start n i : (i < n)%nat -> digits start n !! i = Some ((Z.of_nat i + start) mod 10).
Proof. intros Hi. unfold digits. rewrite list_lookup_fmap, lookup_seq_lt by done. done. Qed.

Lemma digits_app start n m : digits start (n + m) = digits start n ++ digits (start + Z.of_nat n) m.
Proof.
  apply list_eq. intros i. destruct (decide (i < n + m)%nat) as [Hi|Hi].
  - rewrite digits_lookup by done. destruct (decide (i < n)%nat).
    + rewrite lookup_app_l by (by rewrite digits_length). by rewrite digits_lookup.
    + rewrite lookup_app_r by (rewrite digits_length; lia).
      rewrite digits_length, digits_lookup by lia. do 2 f_equal. lia.
  - rewrite !lookup_ge_None_2; [done| |]; rewrite ?length_app, ?digits_length; lia.
Qed.

Lemma digits_take start n k : (k <= n)%nat -> take k (digits start n) = digits start k.
Proof.
  intros Hk. replace n with (k + (n - k))%nat by lia.
  rewrite digits_app, take_app_length'; [done|by rewrite digits_length].
Qed.

(** What a live write was given that the stack took, when it took [rp_result r] bytes. *)
Definition accepted (c : live_call) (r : reply) : bytes :=
  match c with
  | LWrite _ (Some buf) _ => take (Z.to_nat (rp_result r)) buf
  | _ => []
  end.

(** A write takes at most the bytes it is given. *)
Definition honest (c : live_call) (r : reply) : Prop :=
  match c with
  | LWrite _ _ count => rp_result r <= Z.max 0 count
  | _ => True
  end.

(** The writes of a script, one after the other, whatever the checks of the results say. *)
Fixpoint run_writes `{Libc} (ops : list (syscall_spec * list expression)) (s : sys) : exec sys :=
  match ops with
  | [] => Ok s
  | (call, args) :: ops' => '(s, _) ← syscall_write call args s; run_writes ops' s
  end.

(** The replies used and the calls made from one state to the next. *)
Definition served (s s' : sys) (rs : list reply) (cs : list live_call) : Prop :=
  sys_replies s = rs ++ sys_replies s' /\ sys_calls s' = sys_calls s ++ cs /\
  length rs = length cs.

Definition total (s : sys) : Z := fz_total_write_num (sys_fuzzer s).

(** Computations that make no live call and leave the count of written bytes alone. *)
Definition quiet {A} (m : sysm A) : Prop :=
  forall s s' r, m s = Ok (s', r) ->
    sys_replies s' = sys_replies s /\ sys_calls s' = sys_calls s /\ total s' = total s.

Lemma quiet_pure {A} (m : eval A) : quiet (pure_ m).
Proof. intros s s' r H. unfold pure_ in H. destruct m; cbn in H; by simplify_eq. Qed.
Lemma quiet_exec {A} (m : exec A) : quiet (exec_ m).
Proof. intros s s' r (?&_& ->&_)%exec_lift_Ok. done. Qed.
Lemma quiet_asks {A} (get : sys -> A) : quiet (asks get).
Proof. intros s s' r [= <- _]. done. Qed.
Lemma quiet_ret {A} (a : A) : quiet (mret a).
Proof. intros s s' r [= <- _]. done. Qed.
Lemma quiet_bind {A B} (m : sysm A) (f : A -> sysm B) :
  quiet m -> (forall a, quiet (f a)) -> quiet (m ≫= f).
Proof.
  intros Hm Hf s s' r [(s1&a&E&E')|(error&E&_)]%sysm_bind_Ok; [|by eapply Hm].
  destruct (Hf a _ _ _ E') as (->&->&->). by eapply Hm.
Qed.
Lemma quiet_fd_arg args i : quiet (fd_arg args i).
Proof.
  apply quiet_bind; [apply quiet_pure|]. intros fd. apply quiet_bind; [|intros ?; apply quiet_ret].
  unfold to_live_fd. intros s s' r H. apply exec_bind_Ok in H as ([i'|]&_&H); [|by simplify_eq].
  apply exec_bind_Ok in H as (?&_&H). apply exec_bind_Ok in H as (?&_&H). by simplify_eq.
Qed.
Lemma quiet_begin call : quiet (begin_syscall call).
Proof.
  intros s s' r H. unfold begin_syscall in H. destruct (is_blocking_syscall call); [|by simplify_eq].
  apply exec_bind_Ok in H as (?&_&H). by simplify_eq.
Qed.
Lemma quiet_record name v : quiet (fuzz_ (add_syscall_result_to_fuzz_result name v)).
Proof.
  intros s s' r H. unfold fuzz_ in H. apply exec_bind_Ok in H as ([f []]&HE&H). simplify_eq/=.
  split_and!; try done. unfold add_syscall_result_to_fuzz_result, mbind, fuzz_bind, global in HE.
  apply exec_bind_Ok in HE as ([f1 b]&HE1&HE). simplify_eq/=.
  destruct (is_recording _); cbn [negb] in HE; [|by injection HE as <-].
  destruct (bool_decide _); [|by injection HE as <-].
  unfold add_content_to_fuzz_result in HE. destruct (fz_is_fuzz_start _); cbn [negb] in HE; [|by simplify_eq].
  apply exec_bind_Ok in HE as (rec&_&HE). by simplify_eq.
Qed.
Lemma quiet_end `{Libc} call mode r : quiet (end_syscall call mode r).
Proof.
  apply quiet_bind; [apply quiet_record|]. intros [].
  apply quiet_bind; [|intros ?; apply quiet_pure].
  destruct (is_blocking_syscall call); [|apply quiet_ret].
  intros s s' x H'. unfold end_blocking in H'. apply exec_bind_Ok in H' as ([st t]&_&H').
  apply exec_bind_Ok in H' as (?&_&H'). by simplify_eq.
Qed.

Create HintDb quiet_db.
#[export] Hint Resolve quiet_pure quiet_exec quiet_asks quiet_ret quiet_bind quiet_fd_arg quiet_begin quiet_end : quiet_db.

(** Same replies, calls and count. *)
Definition same_io (s s' : sys) : Prop :=
  sys_replies s' = sys_replies s /\ sys_calls s' = sys_calls s /\ total s' = total s.

Lemma quiet_then {A B} (m : sysm A) (f : A -> sysm B) s s' r :
  quiet m -> (m ≫= f) s = Ok (s', r) ->
  same_io s s' \/ exists s1 a, m s = Ok (s1, Done a) /\ same_io s s1 /\ f a s1 = Ok (s', r).
Proof.
  intros Hm [(s1&a&E&E')|(error&E&_)]%sysm_bind_Ok; [right|left; by eapply Hm].
  exists s1, a. split_and!; try done; by eapply Hm.
Qed.

Lemma same_io_trans s1 s2 s3 : same_io s1 s2 -> same_io s2 s3 -> same_io s1 s3.
Proof. intros (?&?&?) (?&?&?). repeat split; congruence. Qed.

(** Steps over the quiet prefix of a handler. *)
Ltac quiet_step HE :=
  let s1 := fresh "s1" in let a := fresh "a" in let E := fresh "E" in let Hs := fresh "Hs" in
  apply quiet_then in HE as [HE|(s1&a&E&Hs&HE)]; [left| |solve [auto with quiet_db]].

Definition add_written (r : reply) : sysm unit :=
  if 0 <? rp_result r then
    fuzz_ (update (fun f => set_fz_total_write_num (u64 (fz_total_write_num f + rp_result r)) f))
  else mret tt.

(** The live call of a write and what comes after it. *)
Lemma write_tail `{Libc} call c s s' r :
  (rp ← live call c; _ ← add_written rp; end_syscall call CHECK_EXACT rp) s = Ok (s', r) ->
  exists rp, sys_replies s = rp :: sys_replies s' /\ sys_calls s' = sys_calls s ++ [c] /\
    total s' = (if 0 <? rp_result rp then u64 (total s + rp_result rp) else total s).
Proof.
  intros [(s1&rp&E&HE)|(error&E&_)]%sysm_bind_Ok; [|by apply live_no_error in E].
  exists rp. unfold live in E. destruct (sys_replies s) as [|rp' rest] eqn:Er; [discriminate|].
  assert (rp' = rp /\ rest = sys_replies s1 /\ sys_calls s1 = sys_calls s ++ [c] /\ total s1 = total s)
    as (->&->&Hc&Ht) by (destruct (is_blocking_syscall call); by simplify_eq/=).
  apply sysm_bind_Ok in HE as [(s2&[]&E2&HE)|(error&E2&_)].
  - apply quiet_end in HE as (->&->&->). unfold add_written in E2.
    unfold total in *. clear E.
    destruct (0 <? rp_result rp); injection E2 as <-; cbn; split_and!; congruence.
  - unfold add_written in E2. by destruct (0 <? rp_result rp).
Qed.

Lemma write_buffer is_null n start x buf :
  alloc_buffer is_null n = Ok x -> write_pattern x n start = Ok buf ->
  (buf = None /\ n <= 0) \/
  (0 <= n /\ buf = Some ((fun i => u64 (Z.of_nat i + start) mod 10) <$> seq 0 (Z.to_nat n))).
Proof.
  unfold alloc_buffer. destruct is_null.
  - intros [= <-]. cbn. destruct (Z.ltb_spec 0 n); [discriminate|]. intros [= <-]. by left.
  - destruct (Z.ltb_spec n 0); [discriminate|]. intros [= <-] [= <-]. right.
    by rewrite length_replicate.
Qed.

(** One write: no live call, or one whose buffer continues the digits at the count of
    bytes written so far, which then grows by what the call took. *)
Lemma write_step `{Libc} call args s s' r :
  syscall_write call args s = Ok (s', r) ->
  same_io s s' \/
  exists l n buf rp, sys_replies s = rp :: sys_replies s' /\
    sys_calls s' = sys_calls s ++ [LWrite l buf n] /\
    total s' = (if 0 <? rp_result rp then u64 (total s + rp_result rp) else total s) /\
    ((buf = None /\ n <= 0) \/
     (0 <= n /\ buf = Some ((fun i => u64 (Z.of_nat i + total s) mod 10) <$> seq 0 (Z.to_nat n)))).
Proof.
  intros HE. unfold syscall_write in HE.
  quiet_step HE; [done|]. quiet_step HE; [by eapply same_io_trans|]. destruct a0 as [fd l].
  do 6 (quiet_step HE; [eauto 10 using same_io_trans|]).
  apply exec_lift_Ok in E3 as (?&E3&->&[= ->]). apply exec_lift_Ok in E5 as (?&E5&->&[= ->]).
  unfold asks in E4. injection E4 as <- <-.
  apply (write_tail call _ s7 s' r) in HE as (rp&Hr&Hc&Ht).
  assert (same_io s s3) as (_&_&Et) by eauto 10 using same_io_trans.
  assert (same_io s s7) as (Er&Ec&Et') by eauto 10 using same_io_trans.
  right. exists l, a1, x0, rp. rewrite Hc, Ht, <- Er, Hr, Ec, Et'. split_and!; try done.
  rewrite <- Et. by eapply write_buffer.
Qed.

Lemma accepted_digits l buf n rp start :
  0 <= start -> start + rp_result rp < 2 ^ 64 -> honest (LWrite l buf n) rp ->
  (buf = None /\ n <= 0) \/
  (0 <= n /\ buf = Some ((fun i => u64 (Z.of_nat i + start) mod 10) <$> seq 0 (Z.to_nat n))) ->
  accepted (LWrite l buf n) rp = digits start (Z.to_nat (rp_result rp)).
Proof.
  cbn [honest accepted]. intros Hs Hr Hh [[-> Hn]|[Hn ->]].
  - replace (Z.to_nat (rp_result rp)) with 0%nat by lia. done.
  - apply list_eq. intros i. destruct (decide (i < Z.to_nat (rp_result rp))%nat) as [Hi|Hi].
    + rewrite lookup_take_lt, list_lookup_fmap, lookup_seq_lt, digits_lookup by lia. cbn.
      by rewrite u64_small by lia.
    + rewrite !lookup_ge_None_2; [done|rewrite digits_length; lia|rewrite length_take; lia].
Qed.

Lemma accepted_length l buf n rp start :
  honest (LWrite l buf n) rp ->
  (buf = None /\ n <= 0) \/
  (0 <= n /\ buf = Some ((fun i => u64 (Z.of_nat i + start) mod 10) <$> seq 0 (Z.to_nat n))) ->
  length (accepted (LWrite l buf n) rp) = Z.to_nat (rp_result rp).
Proof.
  cbn [honest accepted]. intros Hh [[-> Hn]|[Hn ->]]; [cbn; lia|].
  rewrite length_take, length_fmap, length_seq. lia.
Qed.

(** Replies used, calls made and bytes taken by a sequence of writes. *)
Lemma run_writes_io `{Libc} ops : forall s s',
  0 <= total s -> run_writes ops s = Ok s' ->
  exists rs cs, sys_replies s = rs ++ sys_replies s' /\ sys_calls s' = sys_calls s ++ cs /\
    length rs = length cs /\
    (Forall2 honest cs rs ->
     let sent := mjoin (zip_with accepted cs rs) in
     total s + zlen sent < 2 ^ 64 -> sent = digits (total s) (length sent) /\ total s' = total s + zlen sent).
Proof.
  induction ops as [|[call args] ops IH]; intros s s' Ht HE; cbn [run_writes] in HE.
  - injection HE as <-. exists [], []. rewrite app_nil_r. split_and!; try done.
    intros _ sent _. unfold zlen. cbn. split; [done|lia].
  - apply exec_bind_Ok in HE as ([s1 r]&HE1&HE).
    apply write_step in HE1 as [(Er&Ec&Et)|(l&n&buf&rp&Er&Ec&Et&Hbuf)].
    + destruct (IH s1 s') as (rs&cs&?&?&?&?); [lia|done|]. exists rs, cs. rewrite <- Er, <- Ec, <- Et. done.
    + assert (0 <= total s1) as Ht1.
      { rewrite Et. destruct (0 <? rp_result rp); [apply u64_range|done]. }
      destruct (IH s1 s' Ht1 HE) as (rs&cs&Er1&Ec1&Hl&IH').
      exists (rp :: rs), (LWrite l buf n :: cs). rewrite Er, Er1, Ec1, Ec, <- app_assoc.
      split_and!; [done|done|by cbn; rewrite Hl|]. intros Hh. inversion Hh as [|? ? ? ? H1 H2]; subst.
      change (mjoin (zip_with accepted (LWrite l buf n :: cs) (rp :: rs)))
        with (accepted (LWrite l buf n) rp ++ mjoin (zip_with accepted cs rs)).
      cbn zeta. rewrite zlen_app. intros Hb.
      pose proof (zlen_nonneg (mjoin (zip_with accepted cs rs))).
      pose proof (accepted_length l buf n rp (total s) H1 Hbuf) as Hal. unfold zlen in Hb at 1.
      rewrite Hal in Hb. rewrite (accepted_digits l buf n rp (total s)) by (done || lia).
      assert (total s1 = total s + Z.of_nat (Z.to_nat (rp_result rp))) as Et1.
      { rewrite Et. destruct (Z.ltb_spec 0 (rp_result rp)); [rewrite u64_small by lia|]; lia. }
      rewrite Et1 in IH'. destruct (IH' H2) as [E1 E2]; [lia|].
      rewrite length_app, digits_length, digits_app, <- E1, E2. split; [done|].
      unfold zlen. rewrite digits_length. lia.
Qed.

(** C30. Writes send one stream: whatever the sizes of the writes of a script, the errors
    between them and the lengths the stack takes of each, the bytes it took are, one after
    the other, the digits 0, 1, ..., 9, 0, 1, ... with none repeated or left out.  (The
    stack takes at most what it is given, and fewer than 2^64 bytes in all.) *)
Theorem write_stream `{Libc} ops s s' :
  sys_calls s = [] -> total s = 0 -> run_writes ops s = Ok s' ->
  Forall2 honest (sys_calls s') (take (length (sys_calls s')) (sys_replies s)) ->
  let sent := mjoin (zip_with accepted (sys_calls s') (sys_replies s)) in
  zlen sent < 2 ^ 64 -> sent = digits 0 (length sent) /\ total s' = zlen sent.
Proof.
  intros Hc Ht HE. destruct (run_writes_io ops s s') as (rs&cs&Er&Ec&Hl&Hs); [lia|done|].
  rewrite Ec, Hc, app_nil_l, Er, <- Hl, take_app_length. intros Hh.
  replace (zip_with accepted cs (rs ++ sys_replies s')) with (zip_with accepted cs rs).
  - cbn zeta. intros Hb. rewrite Ht in Hs. by apply Hs.
  - rewrite <- (app_nil_r cs) at 2. rewrite zip_with_app by done. cbn. by rewrite app_nil_r.
Qed.

(** ** Extended errors *)

Lemma le_bytes4 v : byte_at (le_split 4 v) 0 + 256 * (byte_at (le_split 4 v) 1
    + 256 * (byte_at (le_split 4 v) 2 + 256 * byte_at (le_split 4 v) 3)) = u32 v.
Proof.
  pose proof (le_combine_split 4 v) as E. unfold byte_at.
  change (Z.to_nat 0) with 0%nat. change (Z.to_nat 1) with 1%nat.
  change (Z.to_nat 2) with 2%nat. change (Z.to_nat 3) with 3%nat.
  cbn [le_split nth le_combine] in E |- *. unfold u32.
  change (256 ^ Z.of_nat 4) with 4294967296 in E. lia.
Qed.

(** Every byte after a store of four. *)
Definition stored4 (b : bytes) (o v : Z) (b' : bytes) : Prop :=
  forall i, 0 <= i -> byte_at b' i =
    if (o <=? i) && (i <? o + 4) then byte_at (le_split 4 v) (i - o) else byte_at b i.

Lemma st32_at b o v : 0 <= o -> o + 4 <= zlen b ->
  exists b', st32 b o v = Ok b' /\ zlen b' = zlen b /\ stored4 b o v b'.
Proof.
  intros Ho Hb. destruct (put_bytes_in b o (le_split 4 v)) as [b' E]; [done|by rewrite zlen_le_split|].
  exists b'. split; [done|]. split; [by eapply put_bytes_zlen|]. intros i Hi.
  rewrite (byte_at_put _ _ _ _ i E Hi), zlen_le_split. done.
Qed.

Lemma stored4_in b o v b' j : stored4 b o v b' -> 0 <= o -> 0 <= j < 4 ->
  byte_at b' (o + j) = byte_at (le_split 4 v) j.
Proof.
  intros Hs Ho Hj. rewrite Hs by lia. destruct (Z.leb_spec o (o + j)), (Z.ltb_spec (o + j) (o + 4)); try lia.
  cbn [andb]. by replace (o + j - o) with j by lia.
Qed.
Lemma stored4_out b o v b' i : stored4 b o v b' -> 0 <= i -> i < o \/ o + 4 <= i ->
  byte_at b' i = byte_at b i.
Proof.
  intros Hs Hi Ho. rewrite Hs by done. by destruct (Z.leb_spec o i), (Z.ltb_spec i (o + 4)); try lia.
Qed.
Lemma stored4_ld32 b o v b' : stored4 b o v b' -> 0 <= o -> o + 4 <= zlen b' -> ld32 b' o = Ok (u32 v).
Proof.
  intros Hs Ho Hz. rewrite ld32_eq by done. rewrite <- (Z.add_0_r o) at 1.
  rewrite !(stored4_in b o v b') by (done || lia). by rewrite le_bytes4.
Qed.
Lemma stored4_ld32_out b o v b' p : stored4 b o v b' -> 0 <= p -> p + 4 <= zlen b' ->
  zlen b' = zlen b -> p + 4 <= o \/ o + 4 <= p -> ld32 b' p = ld32 b p.
Proof.
  intros Hs Hp Hz E Ho. rewrite !ld32_eq by lia. by rewrite !(stored4_out b o v b') by (done || lia).
Qed.

Lemma get_s32_byte v : 0 <= v < 256 -> get_s32 (EXPR_INTEGER v) = Ok (Done v).
Proof.
  intros Hv. cbn [get_s32]. unfold UINT_MAX, INT_MIN.
  destruct (Z.ltb_spec 4294967295 v), (Z.ltb_spec v (-2147483648)); try lia. cbn.
  by rewrite s32_small by lia.
Qed.

Definition s32_value (v : Z) : Prop := INT_MIN <= v <= UINT_MAX.

Lemma get_s32_value v : s32_value v -> get_s32 (EXPR_INTEGER v) = Ok (Done (s32 v)).
Proof.
  unfold s32_value. intros Hv. cbn [get_s32].
  by destruct (Z.ltb_spec UINT_MAX v), (Z.ltb_spec v INT_MIN); try lia.
Qed.

(** The six members of the struct at an offset. *)
Definition extended_err_at (b : bytes) (ee errno origin type code info data : Z) : Prop :=
  ld32 b ee = Ok (u32 errno) /\ ld8 b (ee + 4) = Ok origin /\ ld8 b (ee + 5) = Ok type /\
  ld8 b (ee + 6) = Ok code /\ ld32 b (ee + 8) = Ok (u32 info) /\ ld32 b (ee + 12) = Ok (u32 data).

Lemma le_byte0 v : 0 <= v < 256 -> byte_at (le_split 4 v) 0 = v.
Proof. intros Hv. unfold byte_at. cbn [le_split nth Z.to_nat]. by apply Z.mod_small. Qed.

Lemma u32_s32 v : u32 (s32 v) = u32 v.
Proof. unfold u32, s32. zlia. Qed.

(** Stores through pointers of four bytes to members of one byte: each overlaps the
    members after it, which are stored later. *)
Lemma new_extended_err_stores b ee errno origin type code info data :
  0 <= ee -> ee + 16 <= zlen b -> s32_value errno -> 0 <= origin < 256 -> 0 <= type < 256 ->
  0 <= code < 256 -> s32_value info -> s32_value data ->
  exists b', new_extended_err b ee (EXPR_INTEGER errno) (EXPR_INTEGER origin) (EXPR_INTEGER type)
      (EXPR_INTEGER code) (EXPR_INTEGER info) (EXPR_INTEGER data) = Ok (Done b') /\
    zlen b' = zlen b /\ extended_err_at b' ee errno origin type code info data /\
    forall i, 0 <= i -> ~ ee <= i < ee + 16 -> byte_at b' i = byte_at b i.
Proof.
  intros He Hb Hn Ho Ht Hc Hi Hd. unfold new_extended_err.
  rewrite (get_s32_value errno), (get_s32_byte origin), (get_s32_byte type), (get_s32_byte code),
    (get_s32_value info), (get_s32_value data) by done.
  destruct (st32_at b ee (s32 errno)) as (b1&E1&Z1&B1); [lia..|].
  destruct (st32_at b1 (ee + 4) origin) as (b2&E2&Z2&B2); [lia..|].
  destruct (st32_at b2 (ee + 5) type) as (b3&E3&Z3&B3); [lia..|].
  destruct (st32_at b3 (ee + 6) code) as (b4&E4&Z4&B4); [lia..|].
  destruct (st32_at b4 (ee + 8) (s32 info)) as (b5&E5&Z5&B5); [lia..|].
  destruct (st32_at b5 (ee + 12) (s32 data)) as (b6&E6&Z6&B6); [lia..|].
  exists b6. split.
  { do 11 (apply eval_bind_Done; eexists; split;
      [first [reflexivity | apply eval_lift_Done; eassumption]|]). by apply eval_lift_Done. }
  split; [congruence|]. split; [unfold extended_err_at; split_and!|].
  - rewrite (stored4_ld32_out _ _ _ _ _ B6), (stored4_ld32_out _ _ _ _ _ B5),
      (stored4_ld32_out _ _ _ _ _ B4), (stored4_ld32_out _ _ _ _ _ B3),
      (stored4_ld32_out _ _ _ _ _ B2), (stored4_ld32 _ _ _ _ B1) by lia. by rewrite u32_s32.
  - rewrite ld8_eq, (stored4_out _ _ _ _ _ B6), (stored4_out _ _ _ _ _ B5), (stored4_out _ _ _ _ _ B4),
      (stored4_out _ _ _ _ _ B3) by lia.
    rewrite <- (Z.add_0_r (ee + 4)), (stored4_in _ _ _ _ _ B2) by lia. by rewrite le_byte0.
  - rewrite ld8_eq, (stored4_out _ _ _ _ _ B6), (stored4_out _ _ _ _ _ B5), (stored4_out _ _ _ _ _ B4) by lia.
    rewrite <- (Z.add_0_r (ee + 5)), (stored4_in _ _ _ _ _ B3) by lia. by rewrite le_byte0.
  - rewrite ld8_eq, (stored4_out _ _ _ _ _ B6), (stored4_out _ _ _ _ _ B5) by lia.
    rewrite <- (Z.add_0_r (ee + 6)), (stored4_in _ _ _ _ _ B4) by lia. by rewrite le_byte0.
  - rewrite (stored4_ld32_out _ _ _ _ _ B6), (stored4_ld32 _ _ _ _ B5) by lia. by rewrite u32_s32.
  - rewrite (stored4_ld32 _ _ _ _ B6) by lia. by rewrite u32_s32.
  - intros i Hi' Hout.
    by rewrite (stored4_out _ _ _ _ _ B6), (stored4_out _ _ _ _ _ B5), (stored4_out _ _ _ _ _ B4),
      (stored4_out _ _ _ _ _ B3), (stored4_out _ _ _ _ _ B2), (stored4_out _ _ _ _ _ B1) by lia.
Qed.

Lemma ee_check_Done what index e a : ee_check what index e a = Ok (Done tt) <-> a = e.
Proof. unfold ee_check. destruct (Z.eqb_spec a e); cbn; naive_solver. Qed.

Lemma ee_compare (em am : exec Z) e what index (k : eval unit) : em = Ok e ->
  (e ← eval_lift em; a ← eval_lift am; _ ← ee_check what index e a; k) = Ok (Done tt) <->
  am = Ok e /\ k = Ok (Done tt).
Proof.
  intros ->. destruct am as [a|f]; [|cbn; naive_solver].
  unfold ee_check. cbn. destruct (Z.eqb_spec a e); cbn; naive_solver.
Qed.

(** Extended errors: although new_extended_err stores the members of one byte of the
    struct through pointers to four, what it builds has the six values of the script (the
    members of one byte being bytes), nothing outside the struct changes, and
    sock_ee_expect_eq accepts exactly the received errors that have the same six values. *)
Theorem extended_err_exact b ee errno origin type code info data :
  0 <= ee -> ee + 16 <= zlen b -> s32_value errno -> 0 <= origin < 256 -> 0 <= type < 256 ->
  0 <= code < 256 -> s32_value info -> s32_value data ->
  exists b', new_extended_err b ee (EXPR_INTEGER errno) (EXPR_INTEGER origin) (EXPR_INTEGER type)
      (EXPR_INTEGER code) (EXPR_INTEGER info) (EXPR_INTEGER data) = Ok (Done b') /\
    zlen b' = zlen b /\ (forall i, 0 <= i -> ~ ee <= i < ee + 16 -> byte_at b' i = byte_at b i) /\
    extended_err_at b' ee errno origin type code info data /\
    forall ab a index, sock_ee_expect_eq b' ee ab a index = Ok (Done tt) <->
      extended_err_at ab a errno origin type code info data.
Proof.
  intros. destruct (new_extended_err_stores b ee errno origin type code info data)
    as (b'&E&Hz&He&Hout); try done. exists b'. split_and!; try done. intros ab a index.
  destruct He as (H1'&H2'&H3'&H4'&H5'&H6'). unfold sock_ee_expect_eq, extended_err_at.
  rewrite (ee_compare _ _ _ _ _ _ H1'), (ee_compare _ _ _ _ _ _ H2'), (ee_compare _ _ _ _ _ _ H3'),
    (ee_compare _ _ _ _ _ _ H4'), (ee_compare _ _ _ _ _ _ H5'), H6'.
  destruct (ld32 ab (a + 12)); cbn; rewrite ?ee_check_Done; naive_solver.
Qed.

(** ** The buffer of control messages *)

(** A control message whose level, type and data are integers of 32 bits. *)
Definition int_cmsg (e : expression) : Prop :=
  exists level type v, e = EXPR_CMSG (EXPR_INTEGER level) (EXPR_INTEGER type) (EXPR_INTEGER v) /\
    s32_value level /\ s32_value type /\ s32_value v.

Lemma put_bytes_out b o l : 0 <= o -> zlen b < o + zlen l -> put_bytes b o l = Fault OutOfBounds.
Proof.
  intros Ho Hl. unfold put_bytes. destruct (in_range b o (zlen l)) eqn:E; [|done].
  apply in_range_true in E. lia.
Qed.

Lemma st64_at b o v : 0 <= o -> o + 8 <= zlen b -> 0 <= v < 2 ^ 64 ->
  exists b', st64 b o v = Ok b' /\ zlen b' = zlen b /\ ld64 b' o = Ok v.
Proof.
  intros Ho Hb Hv. destruct (put_bytes_in b o (le_split 8 v)) as [b' E]; [done|by rewrite zlen_le_split|].
  exists b'. split; [done|]. split; [by eapply put_bytes_zlen|]. unfold ld64.
  pose proof (get_put_same _ _ _ _ E) as G. rewrite zlen_le_split in G. change (Z.of_nat 8) with 8 in G.
  rewrite G. cbn [fmap exec_fmap]. f_equal. rewrite le_combine_split. apply Z.mod_small.
  change (256 ^ Z.of_nat 8) with (2 ^ 64). lia.
Qed.

Lemma eval_step {A B} (m : eval A) (f : A -> eval B) a : m = Ok (Done a) -> (m ≫= f) = f a.
Proof. by intros ->. Qed.
Lemma lift_step {A B} (m : exec A) (f : A -> eval B) a : m = Ok a -> (eval_lift m ≫= f) = f a.
Proof. by intros ->. Qed.

(** A buffer of the size that cmsg_new allocates. *)
Definition full_control (m : msghdr) : Prop :=
  zlen (msg_control m) = MSGHDR_MAX_CONTROLLEN /\ msg_controllen m = MSGHDR_MAX_CONTROLLEN.

(** One message of an integer takes 24 bytes; the header of the 42nd fits, its data do not. *)
Lemma cmsg_loop_int e l m i sum : int_cmsg e -> full_control m -> 0 <= i <= 40 ->
  exists m', full_control m' /\
    cmsg_loop (e :: l) m (Some (24 * i)) sum = cmsg_loop l m' (Some (24 * (i + 1))) (sum + 24).
Proof.
  intros (level&type&v&->&Hlv&Htv&Hv) [Hz Hc] Hi. unfold MSGHDR_MAX_CONTROLLEN in *.
  destruct (st32_at (msg_control m) (24 * i + 8) (s32 level)) as (b1&E1&Z1&_); [lia..|].
  destruct (st32_at b1 (24 * i + 12) (s32 type)) as (b2&E2&Z2&_); [lia..|].
  destruct (st32_at b2 (24 * i + 16) (s32 v)) as (b3&E3&Z3&_); [lia..|].
  destruct (st64_at b3 (24 * i) 20) as (b4&E4&Z4&L4); [lia..|].
  exists (set_msg_control b4 m). split; [split; cbn; unfold MSGHDR_MAX_CONTROLLEN; lia|].
  cbn [cmsg_loop]. rewrite (eval_step _ _ _ (get_s32_value level Hlv)), (lift_step _ _ (24 * i)) by done.
  rewrite (lift_step _ _ _ E1), (eval_step _ _ _ (get_s32_value type Htv)), (lift_step _ _ _ E2).
  rewrite (eval_step _ _ (b3, 4)).
  2:{ cbn [cmsg_data_new]. rewrite (eval_step _ _ _ (get_s32_value v Hv)), (lift_step _ _ b3) by done. done. }
  cbn beta iota. rewrite (lift_step _ _ _ E4), (lift_step _ _ (Some (24 * (i + 1)))); [done|].
  unfold CMSG_NXTHDR, cmsg_len. cbn [set_msg_control msg_control msg_controllen]. rewrite L4, Hc.
  cbn [mbind exec_bind]. change (20 <? sizeof_cmsghdr) with false. change (CMSG_ALIGN 20) with 24.
  unfold sizeof_cmsghdr. destruct (Z.ltb_spec 1000 (24 * i + 24 + 16)); [lia|]. do 2 f_equal. lia.
Qed.

Lemma cmsg_loop_overrun e l m sum : int_cmsg e -> full_control m ->
  cmsg_loop (e :: l) m (Some (24 * 41)) sum = Fault OutOfBounds.
Proof.
  intros (level&type&v&->&Hlv&Htv&Hv) [Hz Hc]. unfold MSGHDR_MAX_CONTROLLEN in *.
  destruct (st32_at (msg_control m) (24 * 41 + 8) (s32 level)) as (b1&E1&Z1&_); [lia..|].
  destruct (st32_at b1 (24 * 41 + 12) (s32 type)) as (b2&E2&Z2&_); [lia..|].
  cbn [cmsg_loop]. rewrite (eval_step _ _ _ (get_s32_value level Hlv)), (lift_step _ _ (24 * 41)) by done.
  rewrite (lift_step _ _ _ E1), (eval_step _ _ _ (get_s32_value type Htv)), (lift_step _ _ _ E2).
  cbn [cmsg_data_new]. rewrite (eval_step _ _ _ (get_s32_value v Hv)).
  unfold st32. rewrite put_bytes_out; [done|unfold CMSG_DATA, sizeof_cmsghdr; lia|].
  rewrite zlen_le_split. unfold CMSG_DATA, sizeof_cmsghdr. lia.
Qed.

Lemma cmsg_loop_ints l : forall m i sum,
  Forall int_cmsg l -> full_control m -> 0 <= i <= 41 ->
  if i + zlen l <=? 41
  then exists m', full_control m' /\
    cmsg_loop l m (Some (24 * i)) sum = Ok (Done (m', sum + 24 * zlen l))
  else cmsg_loop l m (Some (24 * i)) sum = Fault OutOfBounds.
Proof.
  induction l as [|e l IH]; intros m i sum Hl Hm Hi.
  - change (zlen (@nil expression)) with 0. destruct (Z.leb_spec (i + 0) 41) as [_|H]; [|lia].
    exists m. cbn [cmsg_loop]. by rewrite Z.add_0_r.
  - inversion Hl as [|? ? He Hl']; subst. rewrite zlen_cons. pose proof (zlen_nonneg l).
    destruct (decide (i = 41)) as [->|Hne].
    + destruct (Z.leb_spec (41 + (1 + zlen l)) 41); [lia|]. by apply cmsg_loop_overrun.
    + destruct (cmsg_loop_int e l m i sum) as (m'&Hm'&->); [done|done|lia|].
      specialize (IH m' (i + 1) (sum + 24) Hl' Hm').
      replace (i + (1 + zlen l)) with (i + 1 + zlen l) by lia.
      destruct (i + 1 + zlen l <=? 41); [|apply IH; lia].
      destruct IH as (m2&?&->); [lia|]. exists m2. split; [done|].
      by replace (sum + 24 + 24 * zlen l) with (sum + 24 * (1 + zlen l)) by lia.
Qed.

(** The control buffer of cmsg_new has a fixed size and the loop does not check it: a
    list of at most 41 integer messages is built, 24 bytes each; with 42 or more the data
    of the 42nd are stored past the end of the buffer. *)
Theorem cmsg_new_bounds l m : Forall int_cmsg l ->
  (zlen l <= 41 -> exists m', cmsg_new (EXPR_LIST l) m = Ok (Done m') /\
     msg_controllen m' = 24 * zlen l) /\
  (41 < zlen l -> cmsg_new (EXPR_LIST l) m = Fault OutOfBounds).
Proof.
  intros Hl. unfold cmsg_new.
  set (m0 := set_msg_controllen _ _). assert (full_control m0) as Hm by done.
  change (CMSG_FIRSTHDR m0) with (Some (24 * 0)).
  pose proof (cmsg_loop_ints l m0 0 0 Hl Hm) as HE. change (0 + zlen l) with (zlen l) in HE.
  destruct (Z.leb_spec (zlen l) 41) as [H|H].
  - split; [|lia]. intros _. destruct HE as (m'&_&->); [lia|]. by eexists.
  - split; [lia|]. intros _. rewrite HE by lia. done.
Qed.

(** ** The theorems on concrete runs *)

Definition write_call (result : Z) : syscall_spec :=
  mk_syscall_spec "write" [] (EXPR_INTEGER result) None SYSCALL_NON_BLOCKING.
Definition write_args (count : Z) : list expression :=
  [EXPR_INTEGER 3; EXPR_ELLIPSIS; EXPR_INTEGER count].
Definition two_writes : list (syscall_spec * list expression) :=
  [(write_call 12, write_args 12); (write_call 5, write_args 5)].
Definition before_writes : sys := sample_sys SYSCALL_IDLE [returns_only 7 0; returns_only 5 0].
Definition after_writes : sys :=
  match run_writes two_writes before_writes with Ok s => s | Fault _ => before_writes end.

(** Of 12 bytes the stack takes 7, then 5 of 5: the digits up to 9, and 0 and 1. *)
Lemma write_stream_witness :
  let sent := mjoin (zip_with accepted (sys_calls after_writes) (sys_replies before_writes)) in
  sent = digits 0 (length sent) /\ total after_writes = zlen sent.
Proof.
  apply (write_stream two_writes before_writes after_writes).
  - reflexivity.
  - reflexivity.
  - vm_compute. reflexivity.
  - change (sys_calls after_writes) with
      [LWrite 5 (Some (digits 0 12)) 12; LWrite 5 (Some (digits 7 5)) 5].
    repeat apply Forall2_cons_2; [discriminate|discriminate|apply Forall2_nil_2].
  - vm_compute. reflexivity.
Defined.

Example write_stream_sent :
  mjoin (zip_with accepted (sys_calls after_writes) (sys_replies before_writes))
    = [0; 1; 2; 3; 4; 5; 6; 7; 8; 9; 0; 1].
Proof. vm_compute. reflexivity. Qed.

(** A write of a NULL buffer, which the script may ask for, dereferences it. *)
Example write_null_faults :
  syscall_write (write_call 10) [EXPR_INTEGER 3; EXPR_INTEGER 0; EXPR_INTEGER 10]
    (sample_sys SYSCALL_IDLE [returns_only 10 0]) = Fault NullDeref.
Proof. vm_compute. reflexivity. Qed.

Lemma extended_err_exact_witness :
  exists b', new_extended_err (replicate 20 255) 2 (EXPR_INTEGER 111) (EXPR_INTEGER 2)
      (EXPR_INTEGER 3) (EXPR_INTEGER 4) (EXPR_INTEGER 0) (EXPR_INTEGER 4294967295) = Ok (Done b') /\
    zlen b' = zlen (replicate 20 255) /\
    (forall i, 0 <= i -> ~ 2 <= i < 2 + 16 -> byte_at b' i = byte_at (replicate 20 255) i) /\
    extended_err_at b' 2 111 2 3 4 0 4294967295 /\
    forall ab a index, sock_ee_expect_eq b' 2 ab a index = Ok (Done tt) <->
      extended_err_at ab a 111 2 3 4 0 4294967295.
Proof.
  apply (extended_err_exact (replicate 20 255) 2 111 2 3 4 0 4294967295);
    unfold s32_value, INT_MIN, UINT_MAX; try lia. vm_compute. discriminate.
Defined.

Lemma cmsg_new_bounds_witness :
  let cmsg := EXPR_CMSG (EXPR_INTEGER 0) (EXPR_INTEGER 2) (EXPR_INTEGER 64) in
  let m := mk_msghdr None 0 [] 0 [] 0 0 in
  (zlen (replicate 42 cmsg) <= 41 -> exists m', cmsg_new (EXPR_LIST (replicate 42 cmsg)) m
     = Ok (Done m') /\ msg_controllen m' = 24 * zlen (replicate 42 cmsg)) /\
  (41 < zlen (replicate 42 cmsg) -> cmsg_new (EXPR_LIST (replicate 42 cmsg)) m = Fault OutOfBounds).
Proof.
  apply (cmsg_new_bounds (replicate 42 (EXPR_CMSG (EXPR_INTEGER 0) (EXPR_INTEGER 2) (EXPR_INTEGER 64)))).
  apply Forall_replicate. exists 0, 2, 64. unfold s32_value, INT_MIN, UINT_MAX. split_and!; (done || lia).
Defined.

(** A wire client that accepts a connection from port 80 notes the port in the byte order
    of the host where every other live port is in network order. *)
Definition wire_client_config : config :=
  mk_config 8080 8080 (ip_from_ipv4 [192; 168; 0; 1]) (ip_from_ipv4 [192; 0; 2; 1])
    4000 false 1000 0 true false "test.pkt" true false false AF_INET AF_INET
    (ip_from_ipv4 [192; 168; 0; 1]) (ip_from_ipv4 [192; 0; 2; 1]).

Definition after_accept : sys :=
  sys_after (run_syscall_accept 4 7 (ipv4_to_sockaddr (ip_from_ipv4 [192; 0; 2; 1]) 80) 16
    (set_sys_state (set_st_fds [] (set_st_config wire_client_config
       (sample_state [] None None 0))) (sample_sys SYSCALL_IDLE []))).

Example wire_accept_port :
  (fun s => (ep_port (ss_remote (sk_live s)), ep_port (ss_local (sk_live s))))
    <$> st_sockets (sys_state after_accept) = [(80, htons 8080)].
Proof. vm_compute. reflexivity. Qed.
