(* ===== verification/RunEvents.v ===== *)
(** * RunEvents: running single events, and the end of a run (run.c, socket.c, system.c)

    How the interpreter runs an event of each kind but code snippets, and what it does
    when a run is over: the system call thread is stopped, every descriptor of the list is
    closed and every TCP connection is reset.

    A system call that blocks is run here by the schedule in which the main thread waits
    for it; the interleavings are those of SyscallThread.v.  Releasing memory has no
    effect on what is modelled. *)

From S2P Require Import Prelude Headers Packet HashMap IpAddress IpPacket Socket Script RunState PacketMap RunPacket FuzzHelper SystemCall SyscallHandlers.

(** ** Shell commands *)

(** The status [system(3)] gives for a command: that of waitpid, or -1 with errno. *)
Class Shell := system : string -> Z.

(** The macros of <sys/wait.h>. *)
Definition WTERMSIG (status : Z) : Z := Z.land status 0x7f.
Definition WEXITSTATUS (status : Z) : Z := Z.shiftr (Z.land status 0xff00) 8.
Definition WIFSIGNALED (status : Z) : bool := 0 <? Z.shiftr (s8 (Z.land status 0x7f + 1)) 1.
Definition SIGINT : Z := 2.
Definition SIGQUIT : Z := 3.

(** [system.c:34-52] safe_system; the texts of its errors are left out *)
Definition safe_system `{Shell} (command : string) : bool :=
  let status := system command in
  if status =? -1 then false
  else if WIFSIGNALED status && ((WTERMSIG status =? SIGINT) || (WTERMSIG status =? SIGQUIT)) then false
  else WEXITSTATUS status =? 0.

(** [run_command.c:36-55] run_command_event *)
Definition run_command_event `{Shell} (command_line : string) (s : sys) : exec sys :=
  st ← wait_for_event (sys_state s);
  if safe_system command_line then Ok (set_sys_state st s) else Fault Died.

(** [run.c:537-551] run_cleanup_command: whether it returns STATUS_OK *)
Definition run_cleanup_command `{Shell} (cleanup_cmd : option string) (init_cmd_exed : bool) : bool :=
  match cleanup_cmd with
  | Some command => if init_cmd_exed then safe_system command else true
  | None => true
  end.

(** ** The start of a run *)

(** [run.c:509-530] the loop of schedule_start_time_usecs, by the readings of times(2);
    it ends after [ticks] changes, at the clock's reading of the last one *)
Fixpoint tick_loop (readings : list Z) (last_jiffies : Z) (ticks : nat) (start_usecs : Z) (st : state)
    : exec (state * Z) :=
  match ticks with
  | O => Ok (st, start_usecs)
  | S ticks' =>
      match readings with
      | [] => Fault Blocked
      | jiffies :: rest =>
          if jiffies =? last_jiffies then tick_loop rest jiffies ticks start_usecs st
          else
            '(st, now) ← now_usecs st;
            tick_loop rest jiffies ticks' now st
      end
  end.

(** [run.c:509-530] schedule_start_time_usecs, on Linux *)
Definition schedule_start_time_usecs (readings : list Z) (st : state) : exec (state * Z) :=
  match readings with
  | [] => Fault Blocked
  | last_jiffies :: rest =>
      '(st, start_usecs) ← tick_loop rest last_jiffies 10 0 st;
      Ok (st, start_usecs + 250)
  end.

(** [run.c:78-98] state_new, with the port that packets_new (run_packet.c) caches; [ports],
    [clock], [received] and [send_fails] are what the environment will supply *)
Definition state_new (config : config) (checker : bool) (script : list event) (port : Z)
    (ports clock : list Z) (received : list (result packet)) (send_fails : list bool) : state :=
  mk_state config checker port ports [] [] None script None None 0 0 0 0 clock received [] send_fails.

(** ** Events *)

Section Events.
Context `{Malloc, Libc}.

(** [run.c:430-443] run_local_packet_event *)
Definition run_local_packet_event (ei : nat) (s : sys) : exec sys :=
  '(st, status) ← run_packet_event (sys_state s) ei;
  match status with
  | STATUS_ERR _ => Fault Died
  | _ => Ok (set_sys_state st s)
  end.

(** [run_system_call.c:3487-3524] system_call_thread: the call that is enqueued *)
Definition thread_call (s : sys) : exec sys :=
  i ← deref (st_event (sys_state s));
  e ← event_at (sys_state s) i;
  match ev_event e with
  | SYSCALL_EVENT call =>
      let s := set_sys_syscalls (mk_syscalls (sc_state (sys_syscalls s)) (Some i) (-1)) s in
      s ← invoke_system_call call s;
      let live_end_usecs := sc_live_end_usecs (sys_syscalls s) in
      _ ← c_assert (0 <=? live_end_usecs);
      status ← verify_time (sys_state s) (ev_time_type e) (sy_end_usecs call) 0 live_end_usecs
                 "system call return";
      match status with
      | STATUS_OK =>
          _ ← c_assert (bool_decide (sc_state (sys_syscalls s) = SYSCALL_DONE));
          Ok (set_sys_syscalls (mk_syscalls SYSCALL_IDLE None (-1)) s)
      | _ => Fault Died
      end
  | _ => Fault AssertFailed
  end.

(** [run_system_call.c:3375-3445] enqueue_system_call and run_system_call_event: the thread is
    idle unless an earlier call has not returned, which ends the run for a blocking call *)
Definition run_system_call_event (call : syscall_spec) (s : sys) : exec sys :=
  if is_blocking_syscall call then
    if bool_decide (sc_state (sys_syscalls s) = SYSCALL_IDLE) then
      thread_call (set_sys_syscalls (set_sc_state SYSCALL_ENQUEUED (sys_syscalls s)) s)
    else Fault Died
  else invoke_system_call call s.

(** ** The end of a run *)

(** [socket.c:38-48] socket_close: the call that closes the live descriptor *)
Definition close_live (s : sys) (sk : socket) : exec sys :=
  if (0 <=? sk_live_fd sk) && negb (sk_is_closed sk) then
    _ ← c_assert (0 <=? sk_script_fd sk);
    '(s, r) ← library (LClose (sk_live_fd sk)) s;
    match r with
    | Done r => if rp_result r =? 0 then Ok s else Fault Died
    | Err _ => Fault Died
    end
  else Ok s.

(** [socket.c:50-54] socket_close: whether the connection is reset *)
Definition needs_reset (cfg : config) (sk : socket) : bool :=
  (sk_protocol sk =? IPPROTO_TCP) && negb (ep_port (ss_local (sk_live sk)) =? 0) &&
  negb (ep_port (ss_remote (sk_live sk)) =? 0) && negb (cfg_is_wire_client cfg).

(** [socket.c:31-59] socket_close, of the socket at index [i] *)
Definition socket_close (s : sys) (i : nat) : exec sys :=
  sk ← socket_at (sys_state s) i;
  s ← close_live s sk;
  if needs_reset (st_config (sys_state s)) sk then
    '(st, status) ← reset_connection (sys_state s) sk;
    match status with STATUS_OK => Ok (set_sys_state st s) | _ => Fault Died end
  else Ok s.

(** [run.c:113-122] the close operation of a descriptor: file_close, pipe_close and
    epoll_close only release memory *)
Definition fd_close (s : sys) (fd : fd_state) : exec sys :=
  match fd with
  | FdSocket i => socket_close s i
  | FdOther _ _ _ _ => Ok s
  end.

(** The loop of close_all_fds. *)
Fixpoint close_fds (s : sys) (fds : list fd_state) : exec sys :=
  match fds with
  | [] => Ok s
  | fd :: fds' => s ← fd_close s fd; close_fds s fds'
  end.

(** [run.c:113-122] close_all_fds *)
Definition close_all_fds (s : sys) : exec sys := close_fds s (st_fds (sys_state s)).

(** [run_system_call.c:3561-3594] syscalls_free: a call still in progress ends the run *)
Definition syscalls_free (s : sys) : exec sys :=
  if bool_decide (sc_state (sys_syscalls s) = SYSCALL_IDLE) then
    Ok (set_sys_syscalls (set_sc_state SYSCALL_EXITING (sys_syscalls s)) s)
  else Fault Died.

(** [run.c:124-153] state_free: the part that is not memory and devices *)
Definition state_free (s : sys) : exec sys :=
  s ← syscalls_free s;
  close_all_fds s.

End Events.

(** ** Commands *)

(** [safe_system] accepts a command that exits with 0, and rejects one that exits with
    another code or is interrupted from the terminal. *)
Lemma safe_system_exit `{Shell} (command : string) (code : Z) :
  0 <= code < 256 -> system command = code * 256 -> safe_system command = (code =? 0).
Proof.
  intros Hc E. unfold safe_system. rewrite E.
  assert (forallb (fun n => let c := Z.of_nat n in
    bool_decide ((if c * 256 =? -1 then false
     else if WIFSIGNALED (c * 256) && ((WTERMSIG (c * 256) =? SIGINT) || (WTERMSIG (c * 256) =? SIGQUIT))
          then false else WEXITSTATUS (c * 256) =? 0) = (c =? 0))) (seq 0 256) = true) as HA
    by (vm_compute; reflexivity).
  rewrite forallb_forall in HA. specialize (HA (Z.to_nat code)). cbv zeta in HA.
  rewrite Z2Nat.id in HA by lia. eapply bool_decide_eq_true, HA, in_seq. lia.
Qed.

(** A command killed by a signal other than SIGINT and SIGQUIT passes for a success. *)
Example safe_system_killed : @safe_system (fun _ => 9) "kill -9 $$" = true.
Proof. reflexivity. Qed.

(** ** Closing *)

(** The sockets of a list of descriptors, in its order. *)
Definition fd_sockets (sks : list socket) (fds : list fd_state) : list socket :=
  omap (fun fd => match fd with FdSocket i => sks !! i | FdOther _ _ _ _ => None end) fds.

(** The live descriptor of the socket is open. *)
Definition is_open (sk : socket) : bool := (0 <=? sk_live_fd sk) && negb (sk_is_closed sk).

(** [pkt] resets the connection of [sk]: it is the segment of reset_connection, for its
    addresses and ports, and verifies at the receiver. *)
Definition resets (sk : socket) (pkt : packet) : Prop :=
  exists seq ack win, reset_fields sk = Ok (seq, ack, win) /\ rst_segment pkt seq ack /\
    get_packet_tuple pkt = Ok (socket_get_inbound (sk_live sk)) /\ receiver_ok pkt = Ok true.

(** What the tear-down needs of a socket: numbers that were checked when the descriptor
    was entered, and what a reset needs if there is a connection. *)
Definition closable (cfg : config) (sk : socket) : Prop :=
  (is_open sk = true -> 0 <= sk_script_fd sk) /\ (needs_reset cfg sk = true -> resettable sk).

Definition fds_closable (st : state) (fds : list fd_state) : Prop :=
  Forall (fun fd => match fd with
                    | FdSocket i => exists sk, st_sockets st !! i = Some sk /\ closable (st_config st) sk
                    | FdOther _ _ _ _ => True
                    end) fds.

Section Closing.
Context `{Malloc}.

Lemma close_live_spec s sk :
  (is_open sk = true -> 0 <= sk_script_fd sk) ->
  (is_open sk = true -> exists r rest, sys_replies s = r :: rest /\ rp_result r = 0) ->
  close_live s sk = Ok (if is_open sk
                        then set_sys_replies (tail (sys_replies s))
                               (set_sys_calls (sys_calls s ++ [LClose (sk_live_fd sk)]) s)
                        else s).
Proof.
  intros Hfd Hr. unfold close_live. fold (is_open sk). destruct (is_open sk); [|done].
  destruct (Hr eq_refl) as (r&rest&E&Er). unfold c_assert.
  rewrite (proj2 (Z.leb_le _ _)) by auto. cbn [mbind exec_bind]. unfold library, live. rewrite E.
  cbn. by rewrite Er.
Qed.

(** The state after the device has taken some packets. *)
Definition sent_all (pkts : list packet) (st : state) : state :=
  set_st_send_fails (drop (length pkts) (st_send_fails st)) (set_st_sent (st_sent st ++ pkts) st).

(** The device sends what it is given, as that of netdev.c does, which dies otherwise. *)
Definition device_sends (st : state) : Prop := Forall (fun fails => fails = false) (st_send_fails st).

Lemma device_sends_after pkts st : device_sends st -> device_sends (sent_all pkts st).
Proof. apply Forall_drop. Qed.

Lemma netdev_send_ok st pkt : device_sends st -> netdev_send st pkt = (sent_all [pkt] st, STATUS_OK).
Proof.
  unfold device_sends, netdev_send, sent_all. destruct (st_send_fails st) as [|f fs]; [done|].
  intros [-> _]%Forall_cons. cbn [length drop tail head default option_map]. by rewrite drop_0.
Qed.

Lemma reset_spec s sk : device_sends (sys_state s) ->
  (needs_reset (st_config (sys_state s)) sk = true -> resettable sk) ->
  exists s' rst,
    (if needs_reset (st_config (sys_state s)) sk then
       '(st, status) ← reset_connection (sys_state s) sk;
       match status with STATUS_OK => Ok (set_sys_state st s) | _ => Fault Died end
     else Ok s) = Ok s' /\ sys_replies s' = sys_replies s /\ sys_calls s' = sys_calls s /\
    sys_state s' = sent_all rst (sys_state s) /\
    Forall2 resets (if needs_reset (st_config (sys_state s)) sk then [sk] else []) rst.
Proof.
  intros Hd Hn. destruct (needs_reset _ sk).
  - destruct (reset_connection_sends_rst (sys_state s) sk) as (seq&ack&win&pkt&Ef&->&Hp); [auto|].
    rewrite netdev_send_ok, bind_Ok_eq by done. eexists _, [pkt]. split; [done|]. split_and!; [done..|].
    constructor; [|constructor]. by exists seq, ack, win.
  - exists s, []. split_and!; [done..| |constructor]. unfold sent_all. rewrite app_nil_r, drop_0.
    by destruct (sys_state s).
Qed.

(** One socket. *)
Lemma socket_close_spec s i sk : device_sends (sys_state s) ->
  st_sockets (sys_state s) !! i = Some sk -> closable (st_config (sys_state s)) sk ->
  (is_open sk = true -> exists r rest, sys_replies s = r :: rest /\ rp_result r = 0) ->
  exists s' rst, socket_close s i = Ok s' /\
    sys_replies s' = (if is_open sk then tail (sys_replies s) else sys_replies s) /\
    sys_calls s' = sys_calls s ++ (if is_open sk then [LClose (sk_live_fd sk)] else []) /\
    sys_state s' = sent_all rst (sys_state s) /\
    Forall2 resets (if needs_reset (st_config (sys_state s)) sk then [sk] else []) rst.
Proof.
  intros Hd Esk [Hfd Hn] Hr. unfold socket_close, socket_at. rewrite Esk. cbn [deref]. rewrite bind_Ok_eq.
  rewrite close_live_spec by done. rewrite bind_Ok_eq. destruct (is_open sk); cbn [sys_state].
  - apply (reset_spec (set_sys_replies _ (set_sys_calls _ s))); [exact Hd|exact Hn].
  - rewrite app_nil_r. by apply reset_spec.
Qed.

Lemma close_fds_spec fds : forall s, device_sends (sys_state s) ->
  fds_closable (sys_state s) fds ->
  let sks := fd_sockets (st_sockets (sys_state s)) fds in
  (length (List.filter is_open sks) <= length (sys_replies s))%nat ->
  Forall (fun r => rp_result r = 0) (take (length (List.filter is_open sks)) (sys_replies s)) ->
  exists s' rsts, close_fds s fds = Ok s' /\
    sys_calls s' = sys_calls s ++ ((fun sk => LClose (sk_live_fd sk)) <$> List.filter is_open sks) /\
    st_sent (sys_state s') = st_sent (sys_state s) ++ rsts /\
    Forall2 resets (List.filter (needs_reset (st_config (sys_state s))) sks) rsts.
Proof.
  induction fds as [|[i|type f l c] fds IH]; intros s Hd Hfds sks Hlen Hrep; cbn [close_fds].
  - exists s, []. rewrite !app_nil_r. split_and!; [done..|constructor].
  - apply Forall_cons in Hfds as [(sk&Esk&Hsk) Hfds].
    assert (sks = sk :: fd_sockets (st_sockets (sys_state s)) fds) as Es
      by (unfold sks; cbn; by rewrite Esk).
    rewrite Es in Hlen, Hrep |- *. cbn [List.filter] in *. cbn [fd_close].
    destruct (socket_close_spec s i sk) as (s2&rst&->&R2&C2&S2&F2); [done..| |].
    { intros Ho. rewrite Ho in Hlen, Hrep. destruct (sys_replies s) as [|r rest]; cbn in Hlen; [lia|].
      apply Forall_cons in Hrep as [Hr _]. by exists r, rest. }
    rewrite bind_Ok_eq. destruct (IH s2) as (s'&rsts&E'&C'&S'&F'); rewrite ?S2, ?R2; cbn [st_sockets set_st_sent set_st_send_fails sent_all].
    + by apply device_sends_after.
    + exact Hfds.
    + destruct (is_open sk); [|done]. destruct (sys_replies s); cbn in Hlen |- *; lia.
    + destruct (is_open sk); [|done]. destruct (sys_replies s); [cbn; by rewrite take_nil|].
      by apply Forall_cons in Hrep as [_ ?].
    + rewrite S2 in *. cbn [st_sockets st_sent st_config set_st_sent set_st_send_fails sent_all] in *.
      exists s', (rst ++ rsts). split; [done|]. split_and!.
      * rewrite C', C2, <-app_assoc. by destruct (is_open sk).
      * by rewrite S', app_assoc.
      * destruct (needs_reset _ sk); [exact (Forall2_app F2 F')|]. by inversion F2; subst.
  - apply Forall_cons in Hfds as [_ Hfds]. exact (IH s Hd Hfds Hlen Hrep).
Qed.

(** C20. The end of a run leaves nothing behind in the stack under test: when no system call is
    in progress, the stack closes what it is asked to close and the device sends what it is
    given, state_free closes the live
    descriptor of every socket that is still open, in the order of the list and each once,
    and injects exactly one packet per TCP connection, the RST with ACK that resets it. *)
Theorem state_free_closes (s : sys) :
  sc_state (sys_syscalls s) = SYSCALL_IDLE -> device_sends (sys_state s) ->
  fds_closable (sys_state s) (st_fds (sys_state s)) ->
  let sks := fd_sockets (st_sockets (sys_state s)) (st_fds (sys_state s)) in
  (length (List.filter is_open sks) <= length (sys_replies s))%nat ->
  Forall (fun r => rp_result r = 0) (take (length (List.filter is_open sks)) (sys_replies s)) ->
  exists s' rsts, state_free s = Ok s' /\
    sys_calls s' = sys_calls s ++ ((fun sk => LClose (sk_live_fd sk)) <$> List.filter is_open sks) /\
    st_sent (sys_state s') = st_sent (sys_state s) ++ rsts /\
    Forall2 resets (List.filter (needs_reset (st_config (sys_state s))) sks) rsts.
Proof.
  intros Hidle Hd Hfds sks Hlen Hrep. unfold state_free, syscalls_free. rewrite bool_decide_true by done.
  rewrite bind_Ok_eq. exact (close_fds_spec _ (set_sys_syscalls _ s) Hd Hfds Hlen Hrep).
Qed.

End Closing.

(** A run with the sample connection, whose descriptor 4 is 7 in the stack, and a file. *)
Definition connected_socket : socket := set_sk_live_fd 7 (set_sk_script_fd 4 sample_socket).
Definition connected_run : sys :=
  mk_sys (mk_state sample_config true 40000 [] [listening_socket; connected_socket]
            [FdOther FD_FILE 5 9 false; FdSocket 1] (Some 1%nat) [] None None 0 0 70000 0 [] [] [] [])
    (fuzz_start []) false (mk_syscalls SYSCALL_IDLE None (-1)) [returns_only 0 0] [].

Lemma state_free_closes_witness :
  exists s' rsts, @state_free zero_malloc connected_run = Ok s' /\
    sys_calls s' = [LClose 7] /\ st_sent (sys_state s') = rsts /\
    Forall2 resets [connected_socket] rsts.
Proof.
  apply (@state_free_closes zero_malloc connected_run); [reflexivity|constructor| |vm_compute; lia|repeat constructor].
  constructor; [exact I|]. constructor; [|constructor]. exists connected_socket. split; [reflexivity|].
  split; [intros _; vm_compute; discriminate|]. intros _. split; [by left|]. split.
  - split; [solve_sample_ip|split; [solve_sample_ip|]]. simpl. repeat split; lia.
  - split; [solve_literal_bytes|]. split; [reflexivity|]. split; [solve_literal_bytes|reflexivity].
Defined.

(** The descriptor of the file is not closed: file_close only releases its memory. *)
Example state_free_leaks_file :
  match @state_free zero_malloc connected_run with
  | Ok s' => sys_calls s' = [LClose 7] /\ FdOther FD_FILE 5 9 false ∈ st_fds (sys_state s')
  | Fault _ => False
  end.
Proof. vm_compute. split; [reflexivity|]. left. Qed.
