(* ===== verification/FuzzSyscall.v ===== *)
(** * FuzzSyscall: the system calls of the fuzzer (fuzz_test_syscall.c)

    The fuzzer makes eleven system calls, each taken from a line of its script; read and
    write get their count from the input.  Each function runs the call of the current
    event and adds its line to the record of the run.

    The global [event] of the source is the event the state points to: [update_state_and_event]
    sets both.  [last_write_num] is only used where it is assigned. *)

From S2P Require Import Prelude Headers Packet HashMap Script RunState RunPacket FuzzHelper SystemCall SyscallHandlers RunEvents.

(** [fuzz_test_syscall.h:12-12] MAX_WRITE_READ_NUM *)
Definition MAX_WRITE_READ_NUM : Z := 3000.

(** ** The lines of the record *)

(** [fuzz_test_syscall.c:8-12] add_read_to_fuzz_script *)
Definition add_read_to_fuzz_script (read_num : Z) : fuzz unit :=
  add_content_to_fuzz_script ("+0.1 read(4, ..., " +:+ dec read_num +:+ ") =  " +:+ dec read_num +:+ newline).

(** [fuzz_test_syscall.c:14-18] add_write_to_fuzz_script *)
Definition add_write_to_fuzz_script (write_num : Z) : fuzz unit :=
  add_content_to_fuzz_script ("+0.1 write(4, ..., " +:+ dec write_num +:+ ") =  " +:+ dec write_num +:+ newline).

(** [fuzz_test_syscall.c:20-24] add_ioctl_siocinq_to_fuzz_script *)
Definition add_ioctl_siocinq_to_fuzz_script : fuzz unit :=
  add_content_to_fuzz_script ("+0.1 ioctl(4, SIOCINQ, [0]) = 0" +:+ newline).

(** [fuzz_test_syscall.c:26-30] add_fcntl_getfl_to_fuzz_script *)
Definition add_fcntl_getfl_to_fuzz_script : fuzz unit :=
  add_content_to_fuzz_script ("+0 fcntl(4, F_GETFL) = 2050" +:+ newline).

(** [fuzz_test_syscall.c:32-36] add_fcntl_setfl_nonblock_to_fuzz_script *)
Definition add_fcntl_setfl_nonblock_to_fuzz_script : fuzz unit :=
  add_content_to_fuzz_script ("+0 fcntl(4, F_SETFL, O_RDWR|O_NONBLOCK) = 0" +:+ newline).

(** [fuzz_test_syscall.c:38-42] add_fcntl_setfl_block_to_fuzz_script, which nothing calls *)
Definition add_fcntl_setfl_block_to_fuzz_script : fuzz unit :=
  add_content_to_fuzz_script ("+0 fcntl(4, F_SETFL, O_RDWR) = 0" +:+ newline).

(** [fuzz_test_syscall.c:43-47] add_setsockopt1_fuzz_script *)
Definition add_setsockopt1_fuzz_script : fuzz unit :=
  add_content_to_fuzz_script ("+0 setsockopt(4, SOL_SOCKET, SO_REUSEADDR, [1], 4) = 0" +:+ newline).

(** [fuzz_test_syscall.c:48-52] add_setsockopt2_fuzz_script *)
Definition add_setsockopt2_fuzz_script : fuzz unit :=
  add_content_to_fuzz_script ("+0 setsockopt(4, SOL_SOCKET, SO_KEEPALIVE, [1], 4) = 0" +:+ newline).

(** [fuzz_test_syscall.c:53-57] add_setsockopt3_fuzz_script *)
Definition add_setsockopt3_fuzz_script : fuzz unit :=
  add_content_to_fuzz_script ("+0 setsockopt(4, IPPROTO_TCP, TCP_KEEPIDLE, [5], 4) = 0" +:+ newline).

(** [fuzz_test_syscall.c:58-62] add_setsockopt4_fuzz_script *)
Definition add_setsockopt4_fuzz_script : fuzz unit :=
  add_content_to_fuzz_script ("+0 setsockopt(4, IPPROTO_TCP, TCP_KEEPINTVL, [2], 4) = 0" +:+ newline).

(** [fuzz_test_syscall.c:63-67] add_setsockopt5_fuzz_script *)
Definition add_setsockopt5_fuzz_script : fuzz unit :=
  add_content_to_fuzz_script ("+0 setsockopt(4, IPPROTO_TCP, TCP_KEEPCNT, [2], 4) = 0" +:+ newline).

(** ** The calls *)

(** A computation on the globals of the fuzzer, in a run. *)
Definition in_run {A} (m : fuzz A) (s : sys) : exec (sys * A) :=
  '(f, a) ← m (sys_fuzzer s); Ok (set_sys_fuzzer f s, a).

(** [event->event.syscall], of an event and of the current one. *)
Definition event_call (i : nat) (s : sys) : exec (event * syscall_spec) :=
  e ← event_at (sys_state s) i;
  match ev_event e with
  | SYSCALL_EVENT call => Ok (e, call)
  | _ => Fault NullDeref
  end.
Definition current_event (s : sys) : exec nat := deref (st_event (sys_state s)).

(** [e->value.num = n], where the value is a number or not used; over another member of
    the union it would make a pointer. *)
Definition set_num (n : Z) (e : expression) : exec expression :=
  match e with
  | EXPR_INTEGER _ => Ok (EXPR_INTEGER n)
  | EXPR_ELLIPSIS => Ok EXPR_ELLIPSIS
  | _ => Fault NullDeref
  end.

(** [fuzz_test_syscall.c:129-138] run_fuzz_syscall_write_event and run_fuzz_syscall_read_event:
    the third argument and the result of the call of event [i] become [n] *)
Definition set_count (i : nat) (n : Z) (s : sys) : exec sys :=
  '(e, call) ← event_call i s;
  argument ← deref (sy_arguments call !! 2%nat);
  argument ← set_num n argument;
  result ← set_num n (sy_result call);
  let call := mk_syscall_spec (sy_name call) (<[2%nat := argument]> (sy_arguments call)) result
                (sy_error call) (sy_end_usecs call) in
  Ok (set_sys_state (store_event i (set_ev_event (SYSCALL_EVENT call) e) (sys_state s)) s).

Section Calls.
Context `{Libc}.

(** The call of the event, then a line of the record. *)
Definition run_and_record (line : fuzz unit) (s : sys) : exec sys :=
  i ← current_event s;
  '(_, call) ← event_call i s;
  s ← run_system_call_event call s;
  '(s, _) ← in_run line s;
  Ok s.

(** [fuzz_test_syscall.c:70-74] run_fuzz_syscall_setsockopt1_event *)
Definition run_fuzz_syscall_setsockopt1_event : sys -> exec sys :=
  run_and_record add_setsockopt1_fuzz_script.

(** [fuzz_test_syscall.c:76-80] run_fuzz_syscall_setsockopt2_event *)
Definition run_fuzz_syscall_setsockopt2_event : sys -> exec sys :=
  run_and_record add_setsockopt2_fuzz_script.

(** [fuzz_test_syscall.c:82-86] run_fuzz_syscall_setsockopt3_event *)
Definition run_fuzz_syscall_setsockopt3_event : sys -> exec sys :=
  run_and_record add_setsockopt3_fuzz_script.

(** [fuzz_test_syscall.c:88-92] run_fuzz_syscall_setsockopt4_event *)
Definition run_fuzz_syscall_setsockopt4_event : sys -> exec sys :=
  run_and_record add_setsockopt4_fuzz_script.

(** [fuzz_test_syscall.c:94-98] run_fuzz_syscall_setsockopt5_event *)
Definition run_fuzz_syscall_setsockopt5_event : sys -> exec sys :=
  run_and_record add_setsockopt5_fuzz_script.

(** [fuzz_test_syscall.c:100-105] run_fuzz_syscall_fcntl_setfl_block_event: the call is
    commented out *)
Definition run_fuzz_syscall_fcntl_setfl_block_event : sys -> exec sys := fun s => Ok s.

(** [fuzz_test_syscall.c:107-111] run_fuzz_syscall_fcntl_setfl_nonblock_event *)
Definition run_fuzz_syscall_fcntl_setfl_nonblock_event : sys -> exec sys :=
  run_and_record add_fcntl_setfl_nonblock_to_fuzz_script.

(** [fuzz_test_syscall.c:113-117] run_fuzz_syscall_fcntl_getfl_event *)
Definition run_fuzz_syscall_fcntl_getfl_event : sys -> exec sys :=
  run_and_record add_fcntl_getfl_to_fuzz_script.

(** [fuzz_test_syscall.c:119-124] run_fuzz_syscall_ioctl_siocinq_event *)
Definition run_fuzz_syscall_ioctl_siocinq_event : sys -> exec sys :=
  run_and_record add_ioctl_siocinq_to_fuzz_script.

(** [fuzz_test_syscall.c:126-142] run_fuzz_syscall_write_event: the remainder of an unsigned
    number is never negative, so that the sign is not changed *)
Definition run_fuzz_syscall_write_event (s : sys) : exec sys :=
  '(s, n) ← in_run read_int s;
  let last_write_num := s32 (n mod MAX_WRITE_READ_NUM) in
  let last_write_num := if last_write_num <? 0 then - last_write_num else last_write_num in
  i ← current_event s;
  s ← set_count i last_write_num s;
  run_and_record (add_write_to_fuzz_script last_write_num) s.

(** [fuzz_test_syscall.c:144-161] run_fuzz_syscall_read_event *)
Definition run_fuzz_syscall_read_event (s : sys) : exec sys :=
  '(s, n) ← in_run read_int s;
  let read_num := s32 (n mod 30000) in
  i ← current_event s;
  s ← set_count i read_num s;
  run_and_record (add_read_to_fuzz_script read_num) s.

End Calls.
