(* ===== verification/FuzzTest.v ===== *)
(** * FuzzTest: the fuzzer (fuzz_test.c, fuzz_test.h, fuzz_test_packet.c, fuzz_test_script.c)

    A run of the fuzzer executes a script up to an established connection, then injects
    packets and makes system calls that the input file chooses, while it watches what the
    stack sends; main runs it against two stacks and compares what they did.

    The globals are the record [world]: the run with the globals of FuzzHelper.v, the
    table of system call events, and the state of the thread that watches outbound
    packets.  That thread takes no lock.  Its turns are modelled at the points where the
    driver calls [background], between two operations, as many there as [w_schedule] says;
    a turn for which no packet arrives is a schedule without an execution ([Blocked]).

    Events made by the fuzzer are added at the end of [st_events], the store of events;
    they are not reached by get_next_event, which is only used before.  An event that was
    freed but is still pointed to has the contents the allocator left, a parameter.

    The build is that of Makefile, with [_TLDK] defined; the calls that record coverage,
    output and sleeping have no effect here. *)

From S2P Require Import Prelude Headers Packet HashMap PacketParser TcpOptions IpAddress IpPacket Socket Script RunState PacketMap PacketVerify RunPacket PacketToString FuzzHelper FuzzPacket SystemCall SyscallHandlers RunEvents FuzzSyscall.

(** The contents of an event after [free]. *)
Class Free := freed_event : event -> event.

(** ** Globals *)

(** [fuzz_test.h:34-38] struct predefined_syscall_event: the functions it points to *)
Inductive fuzz_call :=
  | call_read | call_write | call_ioctl_siocinq | call_fcntl_getfl
  | call_fcntl_setfl_nonblock | call_fcntl_setfl_block
  | call_setsockopt1 | call_setsockopt2 | call_setsockopt3 | call_setsockopt4 | call_setsockopt5.

(** [fuzz_test.c:20-44] predefined_syscall_events: the line of the script and the function;
    the events are in [w_predefined] *)
Definition predefined_syscall_events : list (Z * fuzz_call) :=
  [(30, call_read); (31, call_write); (34, call_ioctl_siocinq); (36, call_fcntl_getfl);
   (37, call_fcntl_setfl_nonblock); (38, call_fcntl_setfl_block); (40, call_setsockopt1);
   (41, call_setsockopt2); (42, call_setsockopt3); (43, call_setsockopt4); (44, call_setsockopt5)].

(** [fuzz_test_packet.c:16-20] the thread that watches outbound packets: where it is, and its
    globals is_validate_outbound_running, max_times and is_validate_outbound_data_error *)
Record world := mk_world {
  w_sys : sys;
  w_predefined : list (option nat);
  w_thread : option (packet * Z);
  w_running : bool;
  w_max_times : Z;
  w_data_error : bool;
  w_schedule : list nat
}.

Definition set_w_sys (v : sys) (w : world) : world :=
  mk_world v (w_predefined w) (w_thread w) (w_running w) (w_max_times w) (w_data_error w) (w_schedule w).
Definition set_w_predefined (v : list (option nat)) (w : world) : world :=
  mk_world (w_sys w) v (w_thread w) (w_running w) (w_max_times w) (w_data_error w) (w_schedule w).
Definition set_w_thread (v : option (packet * Z)) (w : world) : world :=
  mk_world (w_sys w) (w_predefined w) v (w_running w) (w_max_times w) (w_data_error w) (w_schedule w).
Definition set_w_running (v : bool) (w : world) : world :=
  mk_world (w_sys w) (w_predefined w) (w_thread w) v (w_max_times w) (w_data_error w) (w_schedule w).
Definition set_w_max_times (v : Z) (w : world) : world :=
  mk_world (w_sys w) (w_predefined w) (w_thread w) (w_running w) v (w_data_error w) (w_schedule w).
Definition set_w_data_error (v : bool) (w : world) : world :=
  mk_world (w_sys w) (w_predefined w) (w_thread w) (w_running w) (w_max_times w) v (w_schedule w).
Definition set_w_schedule (v : list nat) (w : world) : world :=
  mk_world (w_sys w) (w_predefined w) (w_thread w) (w_running w) (w_max_times w) (w_data_error w) v.

(** ** The monad of the driver *)

Definition drive (A : Type) : Type := world -> exec (world * A).

#[export] Instance drive_ret : MRet drive := fun A a w => Ok (w, a).
#[export] Instance drive_bind : MBind drive := fun A B k m w => '(w', a) ← m w; k a w'.

Definition ask {A} (get : world -> A) : drive A := fun w => Ok (w, get w).
Definition change (g : world -> world) : drive unit := fun w => Ok (g w, tt).
Definition step_exec {A} (m : exec A) : drive A := fun w => a ← m; Ok (w, a).
Definition step_fuzz {A} (m : fuzz A) : drive A := fun w =>
  '(s, a) ← in_run m (w_sys w); Ok (set_w_sys s w, a).
Definition step_sys (f : sys -> exec sys) : drive unit := fun w =>
  s ← f (w_sys w); Ok (set_w_sys s w, tt).
Definition step_state {A} (f : state -> exec (state * A)) : drive A := fun w =>
  '(st, a) ← f (sys_state (w_sys w)); Ok (set_w_sys (set_sys_state st (w_sys w)) w, a).
Definition switch (get : fuzz_config -> bool) : drive bool :=
  ask (fun w => get (fz_config (sys_fuzzer (w_sys w)))).

(** ** Recording packets *)

Section Driver.
Context `{Malloc, Libc, InetNtop, Free}.

(** [fuzz_test_script.c:34-54] add_packet_to_fuzz_script *)
Definition add_packet_to_fuzz_script (p : packet) : fuzz unit :=
  '(dump, _, error) ← lift (packet_to_string p DUMP_SHORT None);
  _ ← match error with
      | Some error =>
          _ ← add_content_to_fuzz_script "// ";
          _ ← add_content_to_fuzz_script error;
          add_char_to_fuzz_script 10
      | None => mret tt
      end;
  _ ← add_content_to_fuzz_script "+0 < ";
  _ ← add_content_to_fuzz_script dump;
  add_char_to_fuzz_script 10.

(** [fuzz_test_result.c:47-72] add_packet_dump_to_fuzz_result, which nothing calls: the text of
    the packet up to the window *)
Definition add_packet_dump_to_fuzz_result (p : packet) : fuzz unit :=
  recording ← global is_recording;
  if negb recording then mret tt
  else
    '(dump, _, _) ← lift (packet_to_string p DUMP_SHORT None);
    let text := match String.index 0 "win" dump with
                | Some n => String.substring 0 n dump
                | None => dump
                end in
    _ ← put_result (string_bytes text);
    put_result [10].

(** [fuzz_test.c:174-179] print_packet *)
Definition print_packet (p : packet) : drive unit :=
  _ ← step_exec (packet_to_string p DUMP_FULL None); mret tt.

(** ** Watching outbound packets *)

(** [fuzz_test_packet.c:302-306] validate_outbound_packet: whether one of [n] bytes of the
    payload, from byte [i], is not the digit its sequence number calls for *)
Fixpoint wrong_digit (b : bytes) (payload seq : Z) (n : nat) (i : Z) : exec bool :=
  match n with
  | O => Ok false
  | S n' =>
      c ← ld8 b (payload + i);
      rest ← wrong_digit b payload seq n' (i + 1);
      Ok (negb (c =? u32 (seq - 1 + i) mod 10) || rest)
  end.

(** [fuzz_test_packet.c:292-315] validate_outbound_packet: what is learned from a packet *)
Definition note_outbound (live_packet : packet) : drive unit :=
  live_payload_len ← step_exec (packet_payload_len live_packet);
  '(dump, _, error) ← step_exec (packet_to_string live_packet DUMP_FULL None);
  tcp ← step_exec (deref (pk_tcp live_packet));
  seq ← step_exec (prd live_packet tcp tcp_seq);
  live_payload ← step_exec (packet_payload live_packet);
  wrong ← step_exec (wrong_digit (pk_buffer live_packet) live_payload (ntohl seq)
                       (Z.to_nat live_payload_len) 0);
  _ ← (if wrong : bool then change (set_w_data_error true) else mret tt);
  ack_seq ← step_exec (prd live_packet tcp tcp_ack_seq);
  f ← ask (fun w => sys_fuzzer (w_sys w));
  let ack_seq := if negb (ack_seq =? 0) then ack_seq else fz_last_received_packet_ack_seq f in
  '(live_packet, _, _) ← step_exec (find_tcp_timestamp live_packet (Some dump));
  match pk_tcp_ts_ecr live_packet with
  | Some p =>
      ecr ← step_exec (ld32 (pk_buffer live_packet) p);
      step_fuzz (update (set_fz_received ack_seq ecr true))
  | None =>
      step_fuzz (update (set_fz_received ack_seq (fz_last_received_packet_ecr f)
                           (fz_is_received_packet_has_timestamp f)))
  end.

(** [fuzz_test_packet.c:280-291] validate_outbound_packet: the next packet of the connection,
    its numbers those of the script; NULL is no socket's index *)
Definition sniff_next (packet : packet) : drive (option Packet.packet) :=
  '(found, _) ← step_state (fun st =>
    '(st, found, status) ← find_or_create_socket_for_script_packet st packet (pk_direction packet);
    Ok (st, (found, status)));
  result ← step_state (fun st =>
    sniff_outbound_live_packet st (default (length (st_sockets st)) found));
  match result with
  | Failure _ => mret None
  | Success live_packet =>
      match pk_tcp live_packet with
      | None => mret (Some live_packet)
      | Some tcp =>
          socket ← step_exec (deref found);
          s ← step_state (fun st =>
            s ← socket_at st socket;
            hdr ← get_bytes (pk_buffer live_packet) tcp sizeof_tcp;
            let s := set_sk_last_outbound_tcp_header hdr s in
            Ok (store_socket socket s st, s));
          '(live_packet, _, status) ← step_exec (tcp_convert_seq_number s live_packet None);
          mret (match status with STATUS_OK => Some live_packet | _ => None end)
      end
  end.

(** [fuzz_test_packet.c:275-319] the body of the loop of validate_outbound_packet *)
Definition validate_turn (packet : packet) : drive unit :=
  live_packet ← sniff_next packet;
  match live_packet with
  | Some live_packet => note_outbound live_packet
  | None => mret tt
  end.

(** [fuzz_test_packet.c:273-321] validate_outbound_packet, for at most [n] turns: None when
    it has returned, else the number of turns so far *)
Fixpoint validate_loop (n : nat) (packet : packet) (times : Z) : drive (option Z) :=
  match n with
  | O => mret (Some times)
  | S n' =>
      running ← ask w_running;
      max_times ← ask w_max_times;
      if running && ((max_times <? 0) || (times <? max_times)) then
        _ ← validate_turn packet;
        validate_loop n' packet (if max_times <? 0 then times else times + 1)
      else mret None
  end.

(** [fuzz_test_packet.c:269-322] validate_outbound_packet, called after
    set_max_times_and_set_running: it returns after [max_times] turns *)
Definition validate_outbound_packet (packet : packet) : drive unit :=
  max_times ← ask w_max_times;
  r ← validate_loop (S (Z.to_nat max_times)) packet 0;
  match r with
  | None => mret tt
  | Some _ => step_exec (Fault OutOfFuel)
  end.

(** [fuzz_test_packet.c:264-267] set_max_times_and_set_running *)
Definition set_max_times_and_set_running (t : Z) : drive unit :=
  change (fun w => set_w_max_times t (set_w_running true w)).

(** [fuzz_test_packet.c:324-329] start_validate_outbound_thread *)
Definition start_validate_outbound_thread (packet : packet) : drive unit :=
  change (fun w => set_w_thread (Some (packet, 0)) (set_w_running true w)).

(** [fuzz_test_packet.c:331-334] stop_validate_outbound_thread *)
Definition stop_validate_outbound_thread : drive unit :=
  change (fun w => set_w_thread None (set_w_running false w)).

(** The turns the thread takes at this point of the schedule. *)
Definition background : drive unit :=
  thread ← ask w_thread;
  schedule ← ask w_schedule;
  match thread, schedule with
  | Some (packet, times), n :: schedule =>
      _ ← change (set_w_schedule schedule);
      r ← validate_loop n packet times;
      change (set_w_thread ((fun times => (packet, times)) <$> r))
  | _, _ => mret tt
  end.

(** ** Injecting packets *)

(** A new event in the store. *)
Definition alloc_event (e : event) : drive nat :=
  step_state (fun st => Ok (set_st_events (st_events st ++ [e]) st, length (st_events st))).

(** [fuzz_test.c:493-501] update_state_and_event *)
Definition update_state_and_event (ei : option nat) : drive unit :=
  step_state (fun st =>
    st ← match st_event st with
         | Some i =>
             e ← event_at st i;
             Ok (set_st_last_event (Some i) (set_st_script_last_time_usecs (ev_time_usecs e) st))
         | None => Ok st
         end;
    Ok (set_st_event ei st, tt)).

(** [state->num_events++]. *)
Definition count_event : drive unit :=
  step_state (fun st => Ok (set_st_num_events (st_num_events st + 1) st, tt)).

(** [event->event.packet]. *)
Definition event_packet (ei : nat) : drive packet :=
  e ← ask (fun w => st_events (sys_state (w_sys w)) !! ei);
  e ← step_exec (deref e);
  match ev_event e with
  | PACKET_EVENT p => mret p
  | _ => step_exec (Fault NullDeref)
  end.
Definition set_event_packet (ei : nat) (p : packet) : drive unit :=
  step_state (fun st =>
    e ← event_at st ei;
    Ok (store_event ei (set_ev_event (PACKET_EVENT p) e) st, tt)).

(** [fuzz_test.c:453-456] the event inject_fuzz_normal_packet, inject_fuzz_error_packet and
    my_run_script make for a packet *)
Definition make_packet_event (is_fuzz_options is_fuzz_data : bool) : drive nat :=
  p ← step_fuzz (fuzz_to_packet is_fuzz_options is_fuzz_data);
  ei ← alloc_event (set_ev_time_type ANY_TIME (new_event (PACKET_EVENT p)));
  _ ← update_state_and_event (Some ei);
  mret ei.

(** Replacing the packet of an event by its corruption. *)
Definition corrupt_event (ei : nat) : drive unit :=
  p ← event_packet ei;
  p ← step_fuzz (inject_error_to_packet p);
  set_event_packet ei p.

(** [fuzz_test.c:449-470] inject_fuzz_normal_packet *)
Definition inject_fuzz_normal_packet : drive unit :=
  go ← step_fuzz should_fuzz;
  if negb go then mret tt
  else
    ei ← make_packet_event true true;
    b ← step_fuzz read_byte;
    _ ← (if b <? 50 then corrupt_event ei else mret tt);
    _ ← step_sys (run_local_packet_event ei);
    _ ← background;
    p ← event_packet ei;
    _ ← step_fuzz (add_packet_to_fuzz_script p);
    count_event.

(** [fuzz_test.c:473-491] inject_fuzz_error_packet *)
Definition inject_fuzz_error_packet : drive unit :=
  go ← step_fuzz should_fuzz;
  if negb go then mret tt
  else
    ei ← make_packet_event true true;
    _ ← corrupt_event ei;
    p ← event_packet ei;
    _ ← print_packet p;
    _ ← step_fuzz (add_packet_to_fuzz_script p);
    _ ← step_sys (run_local_packet_event ei);
    _ ← background;
    count_event.

(** [fuzz_test.c:64-104] do_some_fuzz: the packets of a turn *)
Definition fuzz_packets : drive unit :=
  _ ← inject_fuzz_normal_packet;
  _ ← step_fuzz (update (fun f => set_fz_packet_seq
                                    (u32 (fz_packet_seq f + fz_last_packet_data_length f)) f));
  _ ← step_fuzz update_fuzz_scripts;
  tmp ← step_fuzz read_byte;
  _ ← (if tmp <? 50 then mret tt
       else if tmp <? 150 then
         _ ← step_fuzz (add_content_to_fuzz_script ("// inject fuzz error packet" +:+ newline));
         inject_fuzz_error_packet
       else
         _ ← step_fuzz (add_content_to_fuzz_script ("// inject fuzz dup packets" +:+ newline));
         _ ← inject_fuzz_normal_packet;
         _ ← inject_fuzz_normal_packet;
         _ ← inject_fuzz_normal_packet;
         inject_fuzz_normal_packet);
  _ ← step_fuzz update_fuzz_scripts;
  background.

(** ** Making system calls *)

(** The function of an entry of the table. *)
Definition run_fuzz_syscall_func (c : fuzz_call) : sys -> exec sys :=
  match c with
  | call_read => run_fuzz_syscall_read_event
  | call_write => run_fuzz_syscall_write_event
  | call_ioctl_siocinq => run_fuzz_syscall_ioctl_siocinq_event
  | call_fcntl_getfl => run_fuzz_syscall_fcntl_getfl_event
  | call_fcntl_setfl_nonblock => run_fuzz_syscall_fcntl_setfl_nonblock_event
  | call_fcntl_setfl_block => run_fuzz_syscall_fcntl_setfl_block_event
  | call_setsockopt1 => run_fuzz_syscall_setsockopt1_event
  | call_setsockopt2 => run_fuzz_syscall_setsockopt2_event
  | call_setsockopt3 => run_fuzz_syscall_setsockopt3_event
  | call_setsockopt4 => run_fuzz_syscall_setsockopt4_event
  | call_setsockopt5 => run_fuzz_syscall_setsockopt5_event
  end.

(** [fuzz_test.c:107-129] do_some_fuzz: the loop over the system calls, from entry [j] on;
    [should_fuzz] is asked again before each, and ends the loop *)
Fixpoint fuzz_syscalls (calls : list (Z * fuzz_call)) (j : nat) : drive unit :=
  match calls with
  | [] => mret tt
  | (_, c) :: calls' =>
      go ← step_fuzz should_fuzz;
      if negb go then mret tt
      else
        e ← ask (fun w => w_predefined w !! j);
        e ← step_exec (deref e);
        match e with
        | None => fuzz_syscalls calls' (S j)
        | Some ei =>
            tmp ← step_fuzz read_byte;
            _ ← (if tmp mod 100 <? 50 then
                   _ ← update_state_and_event (Some ei);
                   _ ← step_sys (run_fuzz_syscall_func c);
                   _ ← count_event;
                   _ ← background;
                   _ ← step_fuzz update_fuzz_scripts;
                   step_fuzz update_fuzz_results
                 else mret tt);
            fuzz_syscalls calls' (S j)
        end
  end.

(** [fuzz_test.c:62-130] the loop of do_some_fuzz *)
Fixpoint fuzz_loop (n : nat) : drive unit :=
  match n with
  | O => mret tt
  | S n' =>
      no_packet ← switch is_no_fuzz_packet;
      _ ← (if no_packet : bool then mret tt else fuzz_packets);
      no_syscall ← switch is_no_fuzz_syscall;
      _ ← (if no_syscall : bool then mret tt else fuzz_syscalls predefined_syscall_events 0);
      fuzz_loop n'
  end.

(** [fuzz_test.c:59-132] do_some_fuzz *)
Definition do_some_fuzz (n : nat) : drive unit :=
  _ ← step_fuzz (update (set_fz_is_fuzz_start true));
  _ ← fuzz_loop n;
  step_fuzz (update (set_fz_is_fuzz_start false)).

(** ** A run *)

(** [fuzz_test.c:134-172] fuzz_three_way_handshake_packets, of the event [ei]; the two exits
    end the run *)
Definition fuzz_three_way_handshake_packets (ei : nat) : drive unit :=
  b ← step_fuzz read_byte;
  p ← step_fuzz (if b mod 100 <? 50 then fuzz_to_packet true false else fuzz_to_packet true true);
  old ← event_packet ei;
  old_tcp ← step_exec (deref (pk_tcp old));
  tcp ← step_exec (deref (pk_tcp p));
  syn ← step_exec (prd old old_tcp tcp_syn);
  p ← step_exec (pwr p tcp tcp_syn syn);
  ack ← step_exec (prd old old_tcp tcp_ack);
  p ← step_exec (pwr p tcp tcp_ack ack);
  '(p, _, _) ← step_exec (find_tcp_timestamp p None);
  match pk_tcp_ts_ecr p, pk_tcp_ts_val p with
  | Some q, r =>
      ecr ← step_exec (ld32 (pk_buffer p) q);
      if negb (ecr =? 0) then step_exec (Fault Died)
      else
        match r with
        | Some r =>
            val ← step_exec (ld32 (pk_buffer p) r);
            if val =? 0 then step_exec (Fault Died) else set_event_packet ei p
        | None => set_event_packet ei p
        end
  | None, _ => set_event_packet ei p
  end.

(** The first entry of the table for a line. *)
Definition find_predefined (line : Z) : option nat :=
  fst <$> list_find (fun c => fst c = line) predefined_syscall_events.

(** [fuzz_test.c:246-269] my_run_script: an event that is run *)
Definition run_script_event (ei : nat) (e : event) : drive unit :=
  match ev_event e with
  | PACKET_EVENT packet =>
      no_packet ← switch is_no_fuzz_packet;
      once ← switch is_fuzz_once;
      free ← switch is_fuzz_without_dependency;
      let inbound := bool_decide (packet_direction packet = DIRECTION_INBOUND) in
      _ ← (if inbound && negb no_packet && negb once && negb free
           then fuzz_three_way_handshake_packets ei else mret tt);
      _ ← step_sys (run_local_packet_event ei);
      _ ← background;
      packet ← event_packet ei;
      _ ← (if bool_decide (packet_direction packet = DIRECTION_INBOUND)
           then step_fuzz (add_packet_to_fuzz_script packet) else mret tt);
      print_packet packet
  | SYSCALL_EVENT call =>
      _ ← step_sys (run_system_call_event call);
      background
  | _ => step_exec (Fault AssertFailed)
  end.

(** [fuzz_test.c:215-273] the loop of my_run_script: the outbound event and the event that
    closes, when they are found *)
Fixpoint script_loop (fuel : nat) (outbound_event syscall_close_event : option nat)
    : drive (option nat * option nat) :=
  match fuel with
  | O => step_exec (Fault OutOfFuel)
  | S fuel' =>
      status ← step_state get_next_event;
      match status with
      | STATUS_OK =>
          current ← ask (fun w => st_event (sys_state (w_sys w)));
          match current with
          | None => mret (outbound_event, syscall_close_event)
          | Some ei =>
              e ← ask (fun w => st_events (sys_state (w_sys w)) !! ei);
              e ← step_exec (deref e);
              if ev_line_number e =? 20 then
                foreground ← switch is_no_fuzz_receive_packets_in_background;
                _ ← (if foreground : bool then mret tt
                     else p ← event_packet ei; start_validate_outbound_thread p);
                script_loop fuel' (Some ei) syscall_close_event
              else if ev_line_number e =? 32 then script_loop fuel' outbound_event (Some ei)
              else
                match find_predefined (ev_line_number e) with
                | Some j =>
                    _ ← change (fun w => set_w_predefined (<[j := Some ei]> (w_predefined w)) w);
                    script_loop fuel' outbound_event syscall_close_event
                | None =>
                    _ ← run_script_event ei e;
                    _ ← count_event;
                    script_loop fuel' outbound_event syscall_close_event
                end
          end
      | _ => step_exec (Fault Died)
      end
  end.

(** [fuzz_test.c:284-299] my_run_script: the packet of a check, whose event is freed *)
Definition check_packet : drive unit :=
  ei ← make_packet_event false true;
  _ ← step_sys (run_local_packet_event ei);
  _ ← background;
  _ ← count_event;
  p ← event_packet ei;
  _ ← step_fuzz (add_packet_to_fuzz_script p);
  _ ← step_fuzz update_fuzz_scripts;
  step_state (fun st => e ← event_at st ei; Ok (store_event ei (freed_event e) st, tt)).

(** [fuzz_test.c:301-318] my_run_script: the read of a check *)
Definition check_read : drive unit :=
  e ← ask (fun w => w_predefined w !! 0%nat);
  e ← step_exec (deref e);
  ei ← step_exec (deref e);
  let read_num := 20 in
  _ ← step_sys (set_count ei read_num);
  _ ← update_state_and_event (Some ei);
  _ ← step_sys (fun s => '(_, call) ← event_call ei s; run_system_call_event call s);
  _ ← background;
  _ ← count_event;
  _ ← step_fuzz (add_read_to_fuzz_script read_num);
  step_fuzz update_fuzz_scripts.

(** [fuzz_test.c:283-319] the loop of checks of my_run_script *)
Fixpoint check_loop (n : nat) : drive unit :=
  match n with
  | O => mret tt
  | S n' =>
      no_packet ← switch is_no_fuzz_packet;
      go ← (if no_packet : bool then mret false else step_fuzz should_fuzz);
      _ ← (if go : bool then check_packet else mret tt);
      no_syscall ← switch is_no_fuzz_syscall;
      go ← (if no_syscall : bool then mret false else step_fuzz should_fuzz);
      _ ← (if go : bool then check_read else mret tt);
      check_loop n'
  end.

(** [fuzz_test.c:331-342] my_run_script: the connection is closed *)
Definition close_connection (syscall_close_event : option nat) : drive unit :=
  _ ← update_state_and_event syscall_close_event;
  ei ← step_exec (deref syscall_close_event);
  _ ← step_sys (fun s => '(_, call) ← event_call ei s; run_system_call_event call s);
  _ ← background;
  _ ← count_event;
  _ ← step_fuzz (add_content_to_fuzz_script ("+0 close(4) = 0" +:+ newline));
  _ ← step_fuzz update_fuzz_scripts;
  step_fuzz update_fuzz_results.

(** [fuzz_test.c:350-361] my_run_script: the last packets *)
Definition receive_rest (outbound_event : option nat) : drive unit :=
  foreground ← switch is_no_fuzz_receive_packets_in_background;
  if foreground : bool then
    once ← switch is_fuzz_once;
    _ ← set_max_times_and_set_running (if once : bool then 3 else 25);
    ei ← step_exec (deref outbound_event);
    p ← event_packet ei;
    validate_outbound_packet p
  else
    _ ← background;
    stop_validate_outbound_thread.

(** [fuzz_test.c:275-348] my_run_script: from the established connection on *)
Definition fuzz_connection (syscall_close_event : option nat) : drive unit :=
  _ ← do_some_fuzz 10;
  _ ← check_loop 3;
  _ ← close_connection syscall_close_event;
  do_some_fuzz 3.

(** [fuzz_test.c:181-379] my_run_script *)
Definition my_run_script : drive unit :=
  _ ← step_fuzz reinit_fuzzing_variable;
  _ ← step_fuzz reinit_fuzzing_results;
  _ ← step_fuzz reinit_fuzzing_scripts;
  n ← ask (fun w => length (st_events (sys_state (w_sys w))));
  '(outbound_event, syscall_close_event) ← script_loop (S n) None None;
  _ ← fuzz_connection syscall_close_event;
  _ ← receive_rest outbound_event;
  step_sys state_free.

(** ** Two runs *)

(** A stack under test: whether it is the user-level one, the configuration and what the
    environment supplies. *)
Record stack := mk_stack {
  stk_so_instance : bool;
  stk_config : config;
  stk_port : Z;
  stk_ports : list Z;
  stk_clock : list Z;
  stk_jiffies : list Z;
  stk_received : list (result packet);
  stk_send_fails : list bool;
  stk_replies : list reply;
  stk_schedule : list nat
}.

(** [fuzz_test.c:557-562] main: a new state, of a script, for a stack *)
Definition start_run (k : stack) (script : list event) (w : world) : exec world :=
  let f := sys_fuzzer (w_sys w) in
  let st := state_new (stk_config k) (fz_checker f) script (stk_port k) (stk_ports k) (stk_clock k)
              (stk_received k) (stk_send_fails k) in
  '(st, start) ← schedule_start_time_usecs (stk_jiffies k) st;
  let s := mk_sys (set_st_live_start_time_usecs start st) f (stk_so_instance k)
             (mk_syscalls SYSCALL_IDLE None 0) (stk_replies k) [] in
  Ok (set_w_schedule (stk_schedule k) (set_w_sys s w)).

(** [fuzz_test.c:565-568] main: what is kept of the first run *)
Record summary := mk_summary {
  sm_results : list (option bytes);
  sm_last_received_ack : Z;
  sm_last_received_ecr : Z;
  sm_is_received_packet_has_timestamp : bool
}.
Definition summary_of (f : fuzzer) : exec summary :=
  results ← deref (rec_entries (fz_result f));
  Ok (mk_summary results (fz_last_received_packet_ack_seq f) (fz_last_received_packet_ecr f)
        (fz_is_received_packet_has_timestamp f)).

(** [fuzz_test.c:513-518] error_occur: the reasons reported so far *)
Definition error_occur (cfg : fuzz_config) (reason : string) (reasons : list string)
    : exec (list string) :=
  if is_abort_when_error_occur cfg then Fault Aborted else Ok (reasons ++ [reason]).

Definition report_if (b : bool) (cfg : fuzz_config) (reason : string) (reasons : list string)
    : exec (list string) :=
  if b then error_occur cfg reason reasons else Ok reasons.

(** [fuzz_test.c:589-638] main: the comparison of the two runs; read_result_validate_error is
    never set *)
Definition compare_runs (cfg : fuzz_config) (step1 step2 : summary) (data_error : bool)
    : exec (list string) :=
  r ← report_if (negb (sm_last_received_ack step1 =? sm_last_received_ack step2)) cfg
        "Different last ack." [];
  r ← report_if (negb (sm_last_received_ecr step1 =? sm_last_received_ecr step2)) cfg
        "Different last ecr." r;
  r ← report_if (xorb (sm_is_received_packet_has_timestamp step1)
                      (sm_is_received_packet_has_timestamp step2)) cfg "No timestamp!" r;
  r ← report_if data_error cfg "outbound data error!" r;
  compare ← fuzz_test_result_compare (sm_results step1) (sm_results step2);
  report_if (negb (compare =? -1)) cfg "Fuzz compare error!" r.

(** [config.is_no_fuzz_receive_packets_in_background = false]. *)
Definition receive_in_background (c : fuzz_config) : fuzz_config :=
  mk_fuzz_config (is_no_fuzz_packet c) (is_no_fuzz_syscall c) false (is_fuzz_once c)
    (is_fuzz_without_dependency c) (is_abort_when_error_occur c).
Definition set_fz_config (v : fuzz_config) (f : fuzzer) : fuzzer :=
  mk_fuzzer v (fz_file f) (fz_file_index f) (fz_loop_index f) (fz_script f) (fz_result f)
    (fz_packet_seq f) (fz_last_packet_data_length f) (fz_last_received_packet_ack_seq f)
    (fz_last_received_packet_ecr f) (fz_is_received_packet_has_timestamp f)
    (fz_has_fuzzed_once f) (fz_is_fuzz_start f) (fz_checker f) (fz_packetdrill f) (fz_total_write_num f).

(** [fuzz_test.c:575-587] main: the second run, on the same script and globals *)
Definition second_run (k : stack) (script_length : nat) (w : world) : exec world :=
  let s := w_sys w in
  let f := set_fz_config (receive_in_background (fz_config (sys_fuzzer s))) (sys_fuzzer s) in
  w ← start_run k (take script_length (st_events (sys_state s))) (set_w_sys (set_sys_fuzzer f s) w);
  '(w, _) ← my_run_script w;
  Ok w.

(** [fuzz_test.c:520-639] main: the choice of the script and the two runs, from the parsed
    scripts and the globals as the options leave them; the reasons reported.  A third script
    named on the command line is run by run_script. *)
Definition main (accept connect : list event) (tldk linux : stack) (w : world) : exec (list string) :=
  '(f, b) ← read_byte (sys_fuzzer (w_sys w));
  let script := if b mod 100 <? 50 then accept else connect in
  w ← start_run tldk script (set_w_sys (set_sys_fuzzer f (w_sys w)) w);
  '(w, _) ← my_run_script w;
  step1 ← summary_of (sys_fuzzer (w_sys w));
  w ← second_run linux (length script) w;
  step2 ← summary_of (sys_fuzzer (w_sys w));
  compare_runs (fz_config (sys_fuzzer (w_sys w))) step1 step2 (w_data_error w).

End Driver.
