(* ===== verification/FuzzProps.v ===== *)
(** * FuzzProps: what the fuzzer guarantees about its runs

    The fuzzer compares two stacks by running the same stimuli against both.  The first
    part shows that the stimuli are the same: the packets, system calls and records of the
    fuzzing loop are those of a program that only reads the input ([fuzz_program]) and
    never sees the stack.  The second part is about the watch over outbound packets and
    the verdict of main. *)

From S2P Require Import Prelude Headers Packet HashMap PacketParser TcpOptions IpAddress IpPacket Socket Script RunState PacketMap PacketVerify RunPacket PacketToString FuzzHelper FuzzPacket SyscallArgs SystemCall SyscallHandlers SyscallProps RunEvents FuzzSyscall FuzzTest.

(** ** The part of the globals that stimuli depend on *)

(** What the reactions of the stack are recorded in is blanked. *)
Definition stimulus (f : fuzzer) : fuzzer :=
  set_fz_total_write_num 0 (set_fz_received 0 0 false (set_fz_result (mk_recorder None 0 None) f)).

Definition stim (w : world) : fuzzer := stimulus (sys_fuzzer (w_sys w)).

(** The computation neither reads nor writes what is blanked. *)
Definition stable {A} (m : fuzz A) : Prop :=
  forall f f' a, m f = Ok (f', a) -> m (stimulus f) = Ok (stimulus f', a).

Lemma stable_ret {A} (a : A) : stable (mret a).
Proof. by intros f f' a' [= <- <-]. Qed.
Lemma stable_bind {A B} (m : fuzz A) (k : A -> fuzz B) :
  stable m -> (forall a, stable (k a)) -> stable (m ≫= k).
Proof.
  intros Hm Hk f f' b E. unfold mbind, fuzz_bind in *. apply exec_bind_Ok in E as ([f1 a]&E1&E2).
  rewrite (Hm _ _ _ E1). cbn. by apply Hk.
Qed.
Lemma stable_lift {A} (m : exec A) : stable (lift m).
Proof. intros f f' a E. unfold lift in *. destruct m; cbn in *; by simplify_eq. Qed.
Lemma stable_global {A} (get : fuzzer -> A) :
  (forall f, get (stimulus f) = get f) -> stable (global get).
Proof. intros Hg f f' a [= <- <-]. unfold global. by rewrite Hg. Qed.
Lemma stable_update g : (forall f, stimulus (g f) = g (stimulus f)) -> stable (update g).
Proof. intros Hg f f' a [= <- <-]. unfold update. by rewrite Hg. Qed.
Lemma stable_read_byte : stable read_byte.
Proof.
  intros f f' b. unfold read_byte. cbn [fz_file fz_file_index stimulus set_fz_total_write_num
    set_fz_received set_fz_result]. intros E. destruct (_ <=? _); [by simplify_eq|].
  apply exec_bind_Ok in E as (t&->&E). by simplify_eq.
Qed.
Lemma stable_add_content s : stable (add_content_to_fuzz_script s).
Proof.
  intros f f' b E. unfold add_content_to_fuzz_script in *. apply exec_bind_Ok in E as (r&E1&E).
  cbn [stimulus fz_script set_fz_total_write_num set_fz_received set_fz_result]. rewrite E1.
  by simplify_eq.
Qed.
Lemma stable_add_char c : stable (add_char_to_fuzz_script c).
Proof.
  intros f f' b E. unfold add_char_to_fuzz_script in *. apply exec_bind_Ok in E as (r&E1&E).
  cbn [stimulus fz_script set_fz_total_write_num set_fz_received set_fz_result]. rewrite E1.
  by simplify_eq.
Qed.
Lemma stable_update_scripts : stable update_fuzz_scripts.
Proof.
  intros f f' b E. unfold update_fuzz_scripts in *.
  cbn [stimulus fz_script fz_loop_index set_fz_total_write_num set_fz_received set_fz_result].
  destruct (_ <? _); [by simplify_eq|]. apply exec_bind_Ok in E as (r&->&E). by simplify_eq.
Qed.

Create HintDb stable_db.
#[export] Hint Resolve stable_ret stable_lift stable_read_byte stable_add_content stable_add_char
  stable_update_scripts : stable_db.

(** Goals [stable m] for an [m] written with the combinators. *)
Ltac stable_solve :=
  repeat first
    [ solve [auto with stable_db]
    | apply stable_global; done
    | apply stable_update; done
    | apply stable_bind; [|intros ?]
    | match goal with |- stable (match ?x with _ => _ end) => destruct x end ].

Lemma stable_read_int : stable read_int.
Proof. unfold read_int. stable_solve. Qed.
Lemma stable_should_fuzz : stable should_fuzz.
Proof. unfold should_fuzz. stable_solve. Qed.
Lemma stable_inject_error p : stable (inject_error_to_packet p).
Proof.
  unfold inject_error_to_packet, inject_version_error, inject_ip_error, inject_tcp_error.
  stable_solve; unfold read_int; stable_solve.
Qed.

Lemma stable_add_read n : stable (add_read_to_fuzz_script n).
Proof. apply stable_add_content. Qed.

#[export] Hint Resolve stable_add_read stable_read_int stable_should_fuzz stable_inject_error : stable_db.

Section Stable.
Context `{Malloc, InetNtop}.

Lemma stable_push_reads n : forall v, stable (push_reads n v).
Proof. induction n; intros v; cbn [push_reads]; stable_solve. Qed.
Lemma stable_fuzz_option : stable fuzz_option.
Proof. unfold fuzz_option. stable_solve. Qed.
Hint Resolve stable_push_reads stable_fuzz_option : stable_db.
Lemma stable_fuzz_options n : forall v l, stable (fuzz_options n v l).
Proof. induction n; intros v l; cbn [fuzz_options]; stable_solve. Qed.
Hint Resolve stable_fuzz_options : stable_db.
Lemma stable_fuzz_to_packet o d : stable (fuzz_to_packet o d).
Proof. unfold fuzz_to_packet, fuzz_headers, fuzz_tail. stable_solve. Qed.
Lemma stable_add_packet p : stable (add_packet_to_fuzz_script p).
Proof. unfold add_packet_to_fuzz_script. stable_solve. Qed.

End Stable.

#[export] Hint Resolve stable_fuzz_to_packet stable_add_packet : stable_db.

(** ** System calls leave it alone *)

(** The computation only changes what is blanked. *)
Definition blank {A} (m : fuzz A) : Prop :=
  forall f f' a, m f = Ok (f', a) -> stimulus f' = stimulus f.

Lemma blank_ret {A} (a : A) : blank (mret a).
Proof. by intros f f' a' [= <- <-]. Qed.
Lemma blank_bind {A B} (m : fuzz A) (k : A -> fuzz B) :
  blank m -> (forall a, blank (k a)) -> blank (m ≫= k).
Proof.
  intros Hm Hk f f' b E. unfold mbind, fuzz_bind in E. apply exec_bind_Ok in E as ([f1 a]&E1&E2).
  rewrite (Hk _ _ _ _ E2). by eapply Hm.
Qed.
Lemma blank_lift {A} (m : exec A) : blank (lift m).
Proof. intros f f' a E. unfold lift in E. destruct m; cbn in E; by simplify_eq. Qed.
Lemma blank_global {A} (get : fuzzer -> A) : blank (global get).
Proof. by intros f f' a [= <- <-]. Qed.
Lemma blank_update g : (forall f, stimulus (g f) = stimulus f) -> blank (update g).
Proof. intros Hg f f' a [= <- <-]. apply Hg. Qed.
Lemma blank_add_result s : blank (add_content_to_fuzz_result s).
Proof.
  intros f f' a E. unfold add_content_to_fuzz_result in E. destruct (negb _); [by simplify_eq|].
  apply exec_bind_Ok in E as (r&_&E). by simplify_eq.
Qed.
Lemma blank_put_result l : blank (put_result l).
Proof. intros f f' a E. unfold put_result in E. apply exec_bind_Ok in E as (r&_&E). by simplify_eq. Qed.
Lemma blank_update_results : blank update_fuzz_results.
Proof.
  intros f f' a E. unfold update_fuzz_results in E. destruct (_ <? _); [by simplify_eq|].
  apply exec_bind_Ok in E as (r&_&E). by simplify_eq.
Qed.

Create HintDb blank_db.
#[export] Hint Resolve blank_ret blank_lift blank_global blank_add_result blank_put_result
  blank_update_results : blank_db.

Ltac blank_solve :=
  repeat first
    [ solve [auto with blank_db]
    | apply blank_update; done
    | apply blank_bind; [|intros ?]
    | match goal with |- blank (match ?x with _ => _ end) => destruct x end ].

Lemma blank_syscall_result name v : blank (add_syscall_result_to_fuzz_result name v).
Proof. unfold add_syscall_result_to_fuzz_result. blank_solve. Qed.
Lemma blank_read_result buf count : blank (add_read_result_to_fuzz_result buf count).
Proof. unfold add_read_result_to_fuzz_result. blank_solve. Qed.

(** The handler leaves the stimulus alone. *)
Definition deaf {A} (m : sysm A) : Prop :=
  forall s s' r, m s = Ok (s', r) -> stimulus (sys_fuzzer s') = stimulus (sys_fuzzer s).

Lemma deaf_ret {A} (a : A) : deaf (mret a).
Proof. by intros s s' r [= <- _]. Qed.
Lemma deaf_bind {A B} (m : sysm A) (f : A -> sysm B) :
  deaf m -> (forall a, deaf (f a)) -> deaf (m ≫= f).
Proof.
  intros Hm Hf s s' r [(s1&a&E&E')|(error&E&_)]%sysm_bind_Ok; [|by eapply Hm].
  rewrite (Hf a _ _ _ E'). by eapply Hm.
Qed.
Lemma deaf_pure {A} (m : eval A) : deaf (pure_ m).
Proof. intros s s' r H. unfold pure_ in H. destruct m; cbn in H; by simplify_eq. Qed.
Lemma deaf_exec {A} (m : exec A) : deaf (exec_ m).
Proof. by intros s s' r (?&_& ->&_)%exec_lift_Ok. Qed.
Lemma deaf_raise {A} error : deaf (raise (A := A) error).
Proof. by intros s s' r [= <- _]. Qed.
Lemma deaf_asks {A} (get : sys -> A) : deaf (asks get).
Proof. by intros s s' r [= <- _]. Qed.
Lemma deaf_with_state {A} (f : state -> exec (state * A)) : deaf (with_state f).
Proof. intros s s' r H. unfold with_state in H. destruct (f (sys_state s)) as [[st a]|]; cbn in H; by simplify_eq. Qed.
Lemma deaf_modify g : (forall s, sys_fuzzer (g s) = sys_fuzzer s) -> deaf (modify g).
Proof. intros Hg s s' r [= <- _]. by rewrite Hg. Qed.
Lemma deaf_fuzz {A} (m : fuzz A) : blank m -> deaf (fuzz_ m).
Proof.
  intros Hm s s' r H. unfold fuzz_ in H. apply exec_bind_Ok in H as ([f a]&E&H). simplify_eq/=.
  by eapply Hm.
Qed.
Lemma deaf_live call c : deaf (live call c).
Proof.
  intros s s' r H. unfold live in H. destruct (sys_replies s); [discriminate|].
  destruct (is_blocking_syscall call); by simplify_eq/=.
Qed.

Create HintDb deaf_db.
#[export] Hint Resolve deaf_ret deaf_pure deaf_exec deaf_raise deaf_asks deaf_with_state deaf_live
  deaf_fuzz blank_syscall_result blank_read_result : deaf_db.

Lemma deaf_to_live_fd fd : deaf (to_live_fd fd).
Proof. unfold to_live_fd. keeps_cases. Qed.
Lemma deaf_check_duplicate_fd script_fd live_fd : deaf (check_duplicate_fd script_fd live_fd).
Proof. unfold check_duplicate_fd. keeps_cases. Qed.
Lemma deaf_run_close script_fd live_fd : deaf (run_syscall_close script_fd live_fd).
Proof. unfold run_syscall_close. keeps_cases. Qed.
Lemma deaf_run_listen script_fd live_fd : deaf (run_syscall_listen script_fd live_fd).
Proof. unfold run_syscall_listen. keeps_cases. Qed.
Lemma deaf_run_accept script_fd live_fd addr len : deaf (run_syscall_accept script_fd live_fd addr len).
Proof. unfold run_syscall_accept. keeps_cases. Qed.
Lemma deaf_run_connect script_fd b len fam : deaf (run_syscall_connect script_fd b len fam).
Proof. unfold run_syscall_connect. keeps_cases. Qed.
Lemma deaf_begin call : deaf (begin_syscall call).
Proof. unfold begin_syscall. keeps_cases. Qed.
Lemma deaf_end_blocking : deaf end_blocking.
Proof. unfold end_blocking. keeps_cases. Qed.

#[export] Hint Resolve deaf_to_live_fd deaf_check_duplicate_fd deaf_run_close deaf_run_listen
  deaf_run_accept deaf_run_connect deaf_begin deaf_end_blocking : deaf_db.

Ltac deaf_solve :=
  repeat first
    [ solve [auto with deaf_db]
    | apply deaf_fuzz; solve [apply blank_update; done]
    | apply deaf_bind; [|intros ?]
    | match goal with |- deaf (match ?x with _ => _ end) => destruct x end ].

Section Deaf.
Context `{Libc}.

Lemma deaf_end call mode r : deaf (end_syscall call mode r).
Proof. unfold end_syscall. deaf_solve. Qed.
Lemma deaf_fd_arg args i : deaf (fd_arg args i).
Proof. unfold fd_arg. deaf_solve. Qed.
Lemma deaf_pollfds_new e : deaf (pollfds_new e).
Proof.
  unfold pollfds_new. destruct e; auto with deaf_db.
  induction l as [|e l IH]; cbn [pollfds_loop]; [auto with deaf_db|]. destruct e; deaf_solve.
Qed.
Lemma deaf_epoll_event e script_fd live_fd : deaf (get_epoll_event_from_expr e script_fd live_fd).
Proof. unfold get_epoll_event_from_expr. deaf_solve. Qed.
Lemma deaf_library c : deaf (library c).
Proof. apply deaf_live. Qed.

Hint Resolve deaf_end deaf_fd_arg deaf_pollfds_new deaf_epoll_event deaf_library : deaf_db.

(** Every entry of the table. *)
Lemma deaf_handlers : Forall (fun h => forall call args, deaf (snd h call args)) system_call_table.
Proof.
  unfold system_call_table. repeat apply Forall_cons_2; [..|apply Forall_nil_2].
  all: intros call args; cbn [snd].
  all: unfold syscall_socket, syscall_bind, syscall_listen, syscall_accept, syscall_connect, syscall_read, syscall_readv, syscall_recv, syscall_recvfrom, syscall_recvmsg, syscall_write, syscall_writev, syscall_send, syscall_icmp_sendto, syscall_sendto, syscall_sendmsg, syscall_fcntl, syscall_ioctl, syscall_close, syscall_shutdown, syscall_getsockopt, syscall_setsockopt, syscall_poll, syscall_cap_set, syscall_open, syscall_sendfile, syscall_epoll_create, syscall_epoll_ctl, syscall_epoll_wait, syscall_pipe, syscall_splice,
      call_exact, call_fd, run_syscall_open, run_syscall_socket, run_syscall_bind,
      run_syscall_epoll_create, run_syscall_pipe, file_new, pipe_new, epoll_new, other_new;
    deaf_solve.
Qed.

Lemma deaf_invoke call s s' :
  invoke_system_call call s = Ok s' -> stimulus (sys_fuzzer s') = stimulus (sys_fuzzer s).
Proof.
  unfold invoke_system_call. intros E. apply exec_bind_Ok in E as (st&_&E).
  destruct (find_handler _ _) as [h|] eqn:Eh; [|done].
  apply exec_bind_Ok in E as ([args|]&_&E); [|done]. apply exec_bind_Ok in E as ([s1 r]&E1&E).
  assert (stimulus (sys_fuzzer s1) = stimulus (sys_fuzzer s)) as Hs.
  { revert Eh. generalize deaf_handlers. generalize system_call_table as table.
    induction table as [|[n h'] table IH]; [done|]. intros [Hh Ht]%Forall_cons. cbn [find_handler].
    case_bool_decide; [|by apply IH]. intros [= ->]. by rewrite (Hh _ _ _ _ _ E1). }
  destruct r; [by injection E as <-|]. destruct (fz_checker (sys_fuzzer s1)); [done|by injection E as <-].
Qed.

Lemma deaf_run_call call s s' :
  run_system_call_event call s = Ok s' -> stimulus (sys_fuzzer s') = stimulus (sys_fuzzer s).
Proof.
  unfold run_system_call_event, thread_call. intros E. destruct (is_blocking_syscall call);
    [|by eapply deaf_invoke].
  case_bool_decide; [|done]. apply exec_bind_Ok in E as (i&_&E). apply exec_bind_Ok in E as (e&_&E).
  destruct (ev_event e); try done. apply exec_bind_Ok in E as (s1&E1&E). apply deaf_invoke in E1.
  apply exec_bind_Ok in E as (?&_&E). apply exec_bind_Ok in E as ([]&_&E); try done.
  apply exec_bind_Ok in E as (?&_&E). by injection E as <-.
Qed.
End Deaf.

(** ** Events and packets sent *)

(** Neither the events nor what was sent has changed. *)
Definition same_store (st st' : state) : Prop :=
  st_events st' = st_events st /\ st_sent st' = st_sent st.

#[export] Instance same_store_preorder : PreOrder same_store.
Proof. split; [done|]. intros x y z [] []. split; congruence. Qed.

Lemma now_usecs_store st st' t : now_usecs st = Ok (st', t) -> same_store st st'.
Proof. unfold now_usecs. intros E. exec_cases; done. Qed.
Lemma wait_store st st' : wait_for_event st = Ok st' -> same_store st st'.
Proof.
  unfold wait_for_event. intros E. exec_cases; try done.
  by match goal with H : now_usecs _ = _ |- _ => apply now_usecs_store in H end.
Qed.
Lemma ephemeral_store st st' port : next_ephemeral_port st = Ok (st', port) -> same_store st st'.
Proof. unfold next_ephemeral_port, ephemeral_port. intros E. exec_cases; done. Qed.
Lemma socket_new_store st st' i : state_socket_new st = Ok (st', i) -> same_store st st'.
Proof. unfold state_socket_new. intros E. exec_cases; done. Qed.

Ltac use_store :=
  repeat match goal with
  | H : next_ephemeral_port _ = _ |- _ => apply ephemeral_store in H as [? ?]
  | H : state_socket_new _ = _ |- _ => apply socket_new_store in H as [? ?]
  end; split; simpl in *; congruence.

Lemma find_or_create_store st pkt d st' r status :
  find_or_create_socket_for_script_packet st pkt d = Ok (st', r, status) -> same_store st st'.
Proof.
  unfold find_or_create_socket_for_script_packet, handle_listen_for_script_packet,
    handle_connect_for_script_packet, connect_socket. intros E. exec_cases; use_store.
Qed.
Lemma find_connect_store st pkt st' r : find_connect_for_live_packet st pkt = Ok (st', r) -> same_store st st'.
Proof. unfold find_connect_for_live_packet. intros E. exec_cases; done. Qed.
Lemma sniff_loop_store rx : forall st st' r, sniff_loop rx st = Ok (st', r) -> same_store st st'.
Proof.
  induction rx as [|[pkt|e] rx IH]; intros st st' r E; [done| |]; cbn [sniff_loop] in E; [|by exec_cases].
  exec_cases; try done.
  all: match goal with H : find_connect_for_live_packet _ _ = _ |- _ => apply find_connect_store in H end.
  all: try done.
  all: match goal with H : sniff_loop _ _ = _ |- _ => apply IH in H end; by etrans.
Qed.
Lemma sniff_store st i st' r : sniff_outbound_live_packet st i = Ok (st', r) -> same_store st st'.
Proof. unfold sniff_outbound_live_packet. intros E. exec_cases; by eapply sniff_loop_store. Qed.

(** ** The fuzzing loop without a stack *)

(** The packet of an inbound event after it was run: do_inbound_script_packet has filled in
    its payload. *)
Definition refilled_packet (p : packet) : exec packet :=
  tcp ← deref (pk_tcp p);
  doff ← prd p tcp tcp_doff;
  let i := 20 + doff * 4 in
  fill_payload p tcp (Z.to_nat (pk_buffer_bytes p - i)) i 0.

Section Program.
Context `{Malloc, InetNtop}.

Definition normal_packet : fuzz unit :=
  go ← should_fuzz;
  if negb go then mret tt
  else
    p ← fuzz_to_packet true true;
    b ← read_byte;
    p ← (if b <? 50 then inject_error_to_packet p else mret p);
    p ← lift (refilled_packet p);
    add_packet_to_fuzz_script p.

Definition error_packet : fuzz unit :=
  go ← should_fuzz;
  if negb go then mret tt
  else
    p ← fuzz_to_packet true true;
    p ← inject_error_to_packet p;
    add_packet_to_fuzz_script p.

Definition packets_program : fuzz unit :=
  _ ← normal_packet;
  _ ← update (fun f => set_fz_packet_seq (u32 (fz_packet_seq f + fz_last_packet_data_length f)) f);
  _ ← update_fuzz_scripts;
  tmp ← read_byte;
  _ ← (if tmp <? 50 then mret tt
       else if tmp <? 150 then
         _ ← add_content_to_fuzz_script ("// inject fuzz error packet" +:+ newline);
         error_packet
       else
         _ ← add_content_to_fuzz_script ("// inject fuzz dup packets" +:+ newline);
         _ ← normal_packet;
         _ ← normal_packet;
         _ ← normal_packet;
         normal_packet);
  update_fuzz_scripts.

(** The line a system call adds to the record. *)
Definition call_line (c : fuzz_call) : fuzz unit :=
  match c with
  | call_read => n ← read_int; add_read_to_fuzz_script (s32 (n mod 30000))
  | call_write => n ← read_int; add_write_to_fuzz_script (s32 (n mod MAX_WRITE_READ_NUM))
  | call_ioctl_siocinq => add_ioctl_siocinq_to_fuzz_script
  | call_fcntl_getfl => add_fcntl_getfl_to_fuzz_script
  | call_fcntl_setfl_nonblock => add_fcntl_setfl_nonblock_to_fuzz_script
  | call_fcntl_setfl_block => mret tt
  | call_setsockopt1 => add_setsockopt1_fuzz_script
  | call_setsockopt2 => add_setsockopt2_fuzz_script
  | call_setsockopt3 => add_setsockopt3_fuzz_script
  | call_setsockopt4 => add_setsockopt4_fuzz_script
  | call_setsockopt5 => add_setsockopt5_fuzz_script
  end.

(** The system calls whose line the script had ([found]). *)
Fixpoint syscalls_program (calls : list (Z * fuzz_call)) (found : list (option nat)) : fuzz unit :=
  match calls with
  | [] => mret tt
  | (_, c) :: calls' =>
      go ← should_fuzz;
      if negb go then mret tt
      else
        match found with
        | None :: found' => syscalls_program calls' found'
        | Some _ :: found' =>
            tmp ← read_byte;
            _ ← (if tmp mod 100 <? 50 then _ ← call_line c; update_fuzz_scripts else mret tt);
            syscalls_program calls' found'
        | [] => lift (Fault NullDeref)
        end
  end.

Fixpoint loop_program (n : nat) (found : list (option nat)) : fuzz unit :=
  match n with
  | O => mret tt
  | S n' =>
      no_packet ← global (fun f => is_no_fuzz_packet (fz_config f));
      _ ← (if no_packet : bool then mret tt else packets_program);
      no_syscall ← global (fun f => is_no_fuzz_syscall (fz_config f));
      _ ← (if no_syscall : bool then mret tt else syscalls_program predefined_syscall_events found);
      loop_program n' found
  end.

(** do_some_fuzz as seen from the input. *)
Definition some_program (n : nat) (found : list (option nat)) : fuzz unit :=
  _ ← update (set_fz_is_fuzz_start true);
  _ ← loop_program n found;
  update (set_fz_is_fuzz_start false).

Fixpoint check_program (n : nat) : fuzz unit :=
  match n with
  | O => mret tt
  | S n' =>
      no_packet ← global (fun f => is_no_fuzz_packet (fz_config f));
      go ← (if no_packet : bool then mret false else should_fuzz);
      _ ← (if go : bool then
             p ← fuzz_to_packet false true;
             p ← lift (refilled_packet p);
             _ ← add_packet_to_fuzz_script p;
             update_fuzz_scripts
           else mret tt);
      no_syscall ← global (fun f => is_no_fuzz_syscall (fz_config f));
      go ← (if no_syscall : bool then mret false else should_fuzz);
      _ ← (if go : bool then _ ← add_read_to_fuzz_script 20; update_fuzz_scripts else mret tt);
      check_program n'
  end.

(** The fuzzing of a connection as seen from the input: no packet from the stack, no result
    of a system call and no clock is read. *)
Definition fuzz_program (found : list (option nat)) : fuzz unit :=
  _ ← some_program 10 found;
  _ ← check_program 3;
  _ ← add_content_to_fuzz_script ("+0 close(4) = 0" +:+ newline);
  _ ← update_fuzz_scripts;
  some_program 3 found.

End Program.

(** ** Steps of the driver against steps of the program *)

Definition evs (w : world) : list event := st_events (sys_state (w_sys w)).

(** From a world whose events satisfy [P], what [m] does to the stimulus is [a], and [Q]
    relates the results and the events. *)
Definition runs {A B} (m : drive A) (a : fuzz B) (P : list event -> Prop)
    (Q : B -> A -> list event -> Prop) : Prop :=
  forall w w' x, P (evs w) -> m w = Ok (w', x) ->
    exists y, a (stim w) = Ok (stim w', y) /\ w_predefined w' = w_predefined w /\ Q y x (evs w').

(** What has been done to the stack: the packets injected and the calls made. *)
Definition deeds (w : world) : list packet * list live_call :=
  (st_sent (sys_state (w_sys w)), sys_calls (w_sys w)).

(** [m] changes none of them. *)
Definition silent {A} (m : drive A) : Prop :=
  forall w w' x, m w = Ok (w', x) ->
    stim w' = stim w /\ w_predefined w' = w_predefined w /\ evs w' = evs w /\ deeds w' = deeds w.

Lemma drive_bind_Ok {A B} (m : drive A) (k : A -> drive B) w w' b :
  (m ≫= k) w = Ok (w', b) <-> exists w1 a, m w = Ok (w1, a) /\ k a w1 = Ok (w', b).
Proof.
  unfold mbind, drive_bind. rewrite exec_bind_Ok. split.
  - intros ([w1 a]&?&?). eauto.
  - intros (w1&a&?&?). by exists (w1, a).
Qed.

Lemma runs_bind {A B C D} (m : drive A) (k : A -> drive C) (a : fuzz B) (b : B -> fuzz D) P Q R :
  runs m a P Q -> (forall x y, runs (k x) (b y) (Q y x) R) -> runs (m ≫= k) (a ≫= b) P R.
Proof.
  intros Hm Hk w w' x HP (w1&x1&E1&E2)%drive_bind_Ok.
  destruct (Hm _ _ _ HP E1) as (y1&F1&D1&Q1). destruct (Hk _ _ _ _ _ Q1 E2) as (y&F2&D2&Q2).
  exists y. unfold mbind, fuzz_bind. rewrite F1. cbn. split; [exact F2|]. split; [congruence|done].
Qed.
Lemma runs_skip {A B C} (m : drive A) (k : A -> drive B) (b : fuzz C) P R :
  silent m -> (forall x, runs (k x) b P R) -> runs (m ≫= k) b P R.
Proof.
  intros Hm Hk w w' x HP (w1&x1&E1&E2)%drive_bind_Ok. destruct (Hm _ _ _ E1) as (S1&D1&V1&_).
  rewrite <-V1 in HP. destruct (Hk _ _ _ _ HP E2) as (y&F2&D2&Q2). rewrite S1 in F2.
  exists y. split; [exact F2|]. split; [congruence|done].
Qed.
Lemma runs_silent {A} (m : drive A) P : silent m -> runs m (mret tt) P (fun _ _ => P).
Proof. intros Hm w w' x HP E. destruct (Hm _ _ _ E) as (S&D&V&_). exists tt. by rewrite S, V. Qed.
Lemma runs_ret {A B} (x : A) (y : B) P : runs (mret x) (mret y) P (fun y' x' es => y' = y /\ x' = x /\ P es).
Proof. intros w w' x' HP [= <- <-]. by exists y. Qed.
Lemma runs_fuzz {A} (m : fuzz A) P : stable m -> runs (step_fuzz m) m P (fun y x es => x = y /\ P es).
Proof.
  intros Hm w w' x HP E. unfold step_fuzz, in_run in E. exec_cases.
  exists x. split; [by apply Hm|]. done.
Qed.
Lemma runs_weaken {A B} (m : drive A) (a : fuzz B) (P P' : list event -> Prop) Q Q' :
  runs m a P Q -> (forall es, P' es -> P es) -> (forall y x es, Q y x es -> Q' y x es) -> runs m a P' Q'.
Proof. intros Hm HP HQ w w' x H E. destruct (Hm w w' x) as (y&?&?&?); eauto. Qed.

Lemma silent_ret {A} (a : A) : silent (mret a).
Proof. by intros w w' x [= <- <-]. Qed.
Lemma silent_bind {A B} (m : drive A) (k : A -> drive B) :
  silent m -> (forall a, silent (k a)) -> silent (m ≫= k).
Proof.
  intros Hm Hk w w' x (w1&a&E1&E2)%drive_bind_Ok.
  destruct (Hm _ _ _ E1) as (?&?&?&?). destruct (Hk _ _ _ _ E2) as (?&?&?&?). split_and!; congruence.
Qed.
Lemma silent_ask {A} (get : world -> A) : silent (ask get).
Proof. by intros w w' x [= <- <-]. Qed.
Lemma silent_change g :
  (forall w, w_sys (g w) = w_sys w /\ w_predefined (g w) = w_predefined w) -> silent (change g).
Proof. intros Hg w w' x [= <- <-]. destruct (Hg w) as [Hs Hp]. unfold stim, evs, deeds. by rewrite Hs, Hp. Qed.
Lemma silent_exec {A} (m : exec A) : silent (step_exec m).
Proof. intros w w' x E. unfold step_exec in E. by exec_cases. Qed.
Lemma silent_fuzz {A} (m : fuzz A) : blank m -> silent (step_fuzz m).
Proof.
  intros Hm w w' x E. unfold step_fuzz, in_run in E. exec_cases. split_and!; [|done..].
  unfold stim. cbn. by eapply Hm.
Qed.
Lemma silent_state {A} (f : state -> exec (state * A)) :
  (forall st st' a, f st = Ok (st', a) -> same_store st st') -> silent (step_state f).
Proof.
  intros Hf w w' x E. unfold step_state in E. apply exec_bind_Ok in E as ([st a]&[E1 E2]%Hf&E).
  injection E as <- <-. split_and!; [done..|exact E1|]. unfold deeds. cbn. by rewrite E2.
Qed.

Create HintDb silent_db.
#[export] Hint Resolve silent_ret silent_ask silent_exec silent_fuzz blank_update_results : silent_db.

Ltac silent_solve :=
  repeat first
    [ solve [auto with silent_db]
    | apply silent_change; done
    | apply silent_fuzz; solve [apply blank_update; done]
    | apply silent_bind; [|intros ?]
    | match goal with |- silent (match ?x with _ => _ end) => destruct x end ].

(** ** Direction of the packets *)

(** Every result of the computation satisfies [P]. *)
Definition ensures {A} (m : fuzz A) (P : A -> Prop) : Prop := forall f f' a, m f = Ok (f', a) -> P a.

Lemma ensures_ret {A} (a : A) (P : A -> Prop) : P a -> ensures (mret a) P.
Proof. by intros HP f f' a' [= <- <-]. Qed.
Lemma ensures_bind {A B} (m : fuzz A) (k : A -> fuzz B) (Q : A -> Prop) (P : B -> Prop) :
  ensures m Q -> (forall a, Q a -> ensures (k a) P) -> ensures (m ≫= k) P.
Proof.
  intros Hm Hk f f' b E. unfold mbind, fuzz_bind in E. apply exec_bind_Ok in E as ([f1 a]&E1&E2).
  by eapply Hk; [eapply Hm|].
Qed.
Lemma ensures_lift {A} (m : exec A) (P : A -> Prop) : (forall a, m = Ok a -> P a) -> ensures (lift m) P.
Proof. intros HP f f' a E. unfold lift in E. apply exec_bind_Ok in E as (a'&Ea&E). simplify_eq. by apply HP. Qed.
Lemma ensures_any {A} (m : fuzz A) : ensures m (fun _ => True).
Proof. done. Qed.

Lemma pwr_direction p q f v p' : pwr p q f v = Ok p' -> pk_direction p' = pk_direction p.
Proof. unfold pwr. intros E. by exec_cases. Qed.
Lemma refill_direction n : forall p h s i p', refill p n h s i = Ok p' -> pk_direction p' = pk_direction p.
Proof.
  induction n as [|n IH]; intros p h s i p' E; cbn [refill] in E; [by simplify_eq|].
  apply exec_bind_Ok in E as (b&_&E). by apply IH in E.
Qed.
Lemma fill_direction n : forall p t i j p', fill_payload p t n i j = Ok p' -> pk_direction p' = pk_direction p.
Proof.
  induction n as [|n IH]; intros p t i j p' E; cbn [fill_payload] in E; [by simplify_eq|].
  apply exec_bind_Ok in E as (seq&_&E). apply exec_bind_Ok in E as (b&_&E). by apply IH in E.
Qed.

(** Bind after bind, keeping what is known of packets. *)
Ltac ensures_step d :=
  match goal with
  | |- ensures (lift (pwr _ _ _ _) ≫= _) _ =>
      apply (ensures_bind _ _ (fun p => pk_direction p = d));
        [apply ensures_lift; intros ? ?%pwr_direction; congruence|intros ? ?]
  | |- ensures (lift (refill _ _ _ _ _) ≫= _) _ =>
      apply (ensures_bind _ _ (fun p => pk_direction p = d));
        [apply ensures_lift; intros ? ?%refill_direction; congruence|intros ? ?]
  | |- ensures (lift (pwr _ _ _ _)) _ => apply ensures_lift; intros ? ?%pwr_direction; congruence
  | |- ensures (mret _) _ => apply ensures_ret; simpl; congruence
  | |- ensures (match ?x with _ => _ end) _ => destruct x
  | |- ensures (_ ≫= _) _ => apply (ensures_bind _ _ (fun _ => True)); [apply ensures_any|intros ? _]
  end.

Lemma inject_error_direction d p :
  pk_direction p = d -> ensures (inject_error_to_packet p) (fun p' => pk_direction p' = d).
Proof.
  intros Hp. unfold inject_error_to_packet.
  apply (ensures_bind _ _ (fun _ => True)); [apply ensures_any|intros tmp _].
  apply (ensures_bind _ _ (fun p => pk_direction p = d)).
  { unfold inject_version_error. repeat ensures_step d. }
  intros p1 H1. apply (ensures_bind _ _ (fun x => pk_direction (fst x) = d)).
  { unfold inject_ip_error. repeat ensures_step d. }
  intros [p2 s2] H2. simpl in H2. do 2 ensures_step d.
  apply (ensures_bind _ _ (fun x => pk_direction (fst x) = d)).
  { unfold inject_tcp_error. repeat ensures_step d. }
  intros [p3 s3] H3. simpl in H3. repeat ensures_step d.
Qed.

Section Runs.
Context `{Malloc, Libc, InetNtop, Free}.

Lemma fuzz_to_packet_direction o d :
  ensures (fuzz_to_packet o d) (fun p => pk_direction p = DIRECTION_INBOUND).
Proof.
  unfold fuzz_to_packet, fuzz_tail. repeat (ensures_step DIRECTION_INBOUND).
  apply ensures_lift. intros p E. unfold finish_packet in E. by exec_cases.
Qed.

(** ** The watch is silent *)

Lemma silent_sniff_next p : silent (sniff_next p).
Proof.
  unfold sniff_next. apply silent_bind.
  { apply silent_state. intros st st' a E. exec_cases. by eapply find_or_create_store. }
  intros [found status]. apply silent_bind.
  { apply silent_state. intros st st' a E. by eapply sniff_store. }
  intros [live|]; [|apply silent_ret]. destruct (pk_tcp live); [|apply silent_ret].
  apply silent_bind; [apply silent_exec|]. intros socket. apply silent_bind; [|intros s; silent_solve].
  apply silent_state. intros st st' a E. by exec_cases.
Qed.
Lemma silent_note_outbound p : silent (note_outbound p).
Proof. unfold note_outbound. silent_solve. Qed.
Lemma silent_validate_turn p : silent (validate_turn p).
Proof. unfold validate_turn. apply silent_bind; [apply silent_sniff_next|]. intros []; [apply silent_note_outbound|apply silent_ret]. Qed.
Hint Resolve silent_validate_turn : silent_db.
Lemma silent_validate_loop n : forall p times, silent (validate_loop n p times).
Proof. induction n; intros p times; cbn [validate_loop]; silent_solve. Qed.
Hint Resolve silent_validate_loop : silent_db.
Lemma silent_background : silent background.
Proof. unfold background. silent_solve. Qed.
Lemma silent_update_event ei : silent (update_state_and_event ei).
Proof. apply silent_state. intros st st' a E. by exec_cases. Qed.
Lemma silent_count_event : silent count_event.
Proof. apply silent_state. intros st st' a E. by exec_cases. Qed.
Lemma silent_print_packet p : silent (print_packet p).
Proof. unfold print_packet. silent_solve. Qed.

Hint Resolve silent_background silent_update_event silent_count_event silent_print_packet : silent_db.

(** ** Packets *)

(** Event [ei] is an inbound packet. *)
Definition has_packet (ei : nat) (p : packet) (es : list event) : Prop :=
  pk_direction p = DIRECTION_INBOUND /\ exists e, es !! ei = Some e /\ ev_event e = PACKET_EVENT p.

Lemma runs_make_packet_event o d :
  runs (make_packet_event o d) (fuzz_to_packet o d) (fun _ => True) (fun p ei => has_packet ei p).
Proof.
  intros w w' ei _ (w1&p&E1&E2)%drive_bind_Ok. apply drive_bind_Ok in E2 as (w2&ei'&E2&E3).
  apply drive_bind_Ok in E3 as (w3&[]&E3&E4). injection E4 as <- <-.
  destruct (silent_update_event _ _ _ _ E3) as (S3&D3&V3&_).
  destruct (runs_fuzz (fuzz_to_packet o d) (fun _ => True) ltac:(auto with stable_db) _ _ _ I E1)
    as (p'&F1&D1&->&_).
  exists p'. split; [|split].
  - rewrite S3. unfold alloc_event, step_state in E2. exec_cases. exact F1.
  - rewrite D3. unfold alloc_event, step_state in E2. by exec_cases.
  - rewrite V3. unfold step_fuzz, in_run in E1. unfold alloc_event, step_state in E2. exec_cases.
    split; [by eapply fuzz_to_packet_direction|]. unfold evs. cbn. eexists.
    split; [by apply list_lookup_middle|done].
Qed.

Lemma event_packet_Ok ei w w' p :
  event_packet ei w = Ok (w', p) <-> w' = w /\ exists e, evs w !! ei = Some e /\ ev_event e = PACKET_EVENT p.
Proof.
  unfold event_packet. rewrite drive_bind_Ok. split.
  - intros (w1&oe&[= <- <-]&(w2&e&E2&E3)%drive_bind_Ok). unfold step_exec in E2.
    apply exec_bind_Ok in E2 as (e'&Ee%deref_Ok&[= <- <-]).
    destruct (ev_event e') eqn:Ev; try discriminate. injection E3 as <- <-. eauto.
  - intros (->&e&Ee&Ev). eexists _, _. split; [done|]. apply drive_bind_Ok. unfold evs in Ee. rewrite Ee.
    exists w, e. split; [done|]. by rewrite Ev.
Qed.

Lemma runs_event_packet ei p :
  runs (event_packet ei) (mret p) (has_packet ei p) (fun y x es => x = y /\ y = p /\ has_packet ei p es).
Proof.
  intros w w' x HP (->&e&Ee&Ev)%event_packet_Ok. exists p. split; [done|]. split; [done|].
  destruct HP as (Hd&e'&Ee'&Ev'). assert (x = p) as -> by congruence. split_and!; eauto. by split; eauto.
Qed.

Lemma runs_corrupt ei p :
  runs (corrupt_event ei) (inject_error_to_packet p) (has_packet ei p) (fun p' _ => has_packet ei p').
Proof.
  intros w w' x HP (w1&q&E1&E2)%drive_bind_Ok.
  destruct (runs_event_packet ei p _ _ _ HP E1) as (?&_&D1&->&->&HP1).
  apply event_packet_Ok in E1 as (->&_). apply drive_bind_Ok in E2 as (w2&p'&E2&E3).
  destruct (runs_fuzz (inject_error_to_packet p) (has_packet ei p) ltac:(auto with stable_db) _ _ _ HP1 E2)
    as (?&F2&D2&<-&(_&e&Ee&_)).
  assert (pk_direction p' = DIRECTION_INBOUND) as Hd.
  { unfold step_fuzz, in_run in E2. exec_cases. eapply inject_error_direction; [apply HP|eassumption]. }
  unfold set_event_packet, step_state in E3. exec_cases. exists p'. split; [exact F2|]. split; [exact D2|].
  split; [done|]. unfold evs in *. cbn. eexists. split; [apply list_lookup_insert_eq|done].
  by eapply lookup_lt_Some.
Qed.

Lemma send_events st p st' status : send_live_ip_packet st p = Ok (st', status) -> st_events st' = st_events st.
Proof. unfold send_live_ip_packet. intros E. by exec_cases. Qed.

Lemma do_inbound_script st p i v :
  do_inbound_script_packet st p i = Ok v ->
  refilled_packet p = Ok (v_script v) /\ st_events (v_state v) = st_events st.
Proof.
  unfold do_inbound_script_packet, refilled_packet. intros E.
  apply exec_bind_Ok in E as (s&_&E). apply exec_bind_Ok in E as (s1&_&E).
  apply exec_bind_Ok in E as (tcp&->&E). apply exec_bind_Ok in E as (doff&Ed&E).
  apply exec_bind_Ok in E as (p'&Ep&E). rewrite bind_Ok_eq, Ed, bind_Ok_eq, Ep.
  exec_cases; try done; simpl; split; try done.
  all: match goal with H : send_live_ip_packet _ _ = _ |- _ => by apply send_events in H end.
Qed.

Lemma find_or_create_no_warning st p d st' r error :
  find_or_create_socket_for_script_packet st p d <> Ok (st', r, STATUS_WARN error).
Proof. unfold find_or_create_socket_for_script_packet, find_existing_socket. intros E. exec_cases; congruence. Qed.

Lemma run_local_spec ei p s s' :
  has_packet ei p (st_events (sys_state s)) -> run_local_packet_event ei s = Ok s' ->
  exists p', refilled_packet p = Ok p' /\ has_packet ei p' (st_events (sys_state s')) /\
    sys_fuzzer s' = sys_fuzzer s.
Proof.
  intros (Hd&e&Ee&Ev) E. unfold run_local_packet_event in E.
  apply exec_bind_Ok in E as ([st status]&E1&E2). unfold run_packet_event, event_at in E1.
  rewrite Ee in E1. cbn [deref] in E1. rewrite bind_Ok_eq, Ev in E1. unfold packet_direction in E1.
  rewrite Hd in E1. apply exec_bind_Ok in E1 as (?&_&E1).
  apply exec_bind_Ok in E1 as ([[st1 found] status1]&Ef&E1). pose proof (find_or_create_store _ _ _ _ _ _ Ef) as [V1 _].
  destruct status1; [|by exec_cases|by apply find_or_create_no_warning in Ef].
  apply exec_bind_Ok in E1 as (si&_&E1). apply exec_bind_Ok in E1 as (v&E3&E1).
  apply exec_bind_Ok in E3 as (st2&[Ew _]%wait_store&E3). apply do_inbound_script in E3 as [Ep V3].
  exists (v_script v). split; [done|]. injection E1 as <- <-.
  assert (s' = set_sys_state (store_event ei (set_ev_event (PACKET_EVENT (v_script v)) e) (v_state v)) s)
    as -> by (by destruct (packet_error _ _ _); simplify_eq).
  split; [|done]. split.
  - unfold refilled_packet in Ep. apply exec_bind_Ok in Ep as (?&_&Ep).
    apply exec_bind_Ok in Ep as (?&_&Ep). apply fill_direction in Ep. congruence.
  - cbn. rewrite V3, Ew, V1. eexists. split; [apply list_lookup_insert_eq; by eapply lookup_lt_Some|done].
Qed.

Lemma runs_run_local ei p :
  runs (step_sys (run_local_packet_event ei)) (lift (refilled_packet p)) (has_packet ei p)
    (fun p' _ => has_packet ei p').
Proof.
  intros w w' x HP E. unfold step_sys in E. apply exec_bind_Ok in E as (s&E&[= <- <-]).
  destruct (run_local_spec _ _ _ _ HP E) as (p'&Ep&HP'&Ef). exists p'. unfold lift. rewrite Ep. cbn.
  split; [|done]. unfold stim. cbn. by rewrite Ef.
Qed.

(** The same, without its result. *)
Lemma runs_run_local_skip ei p :
  runs (step_sys (run_local_packet_event ei)) (mret tt) (has_packet ei p) (fun _ _ _ => True).
Proof.
  intros w w' x HP E. destruct (runs_run_local ei p _ _ _ HP E) as (p'&E'&D&_). exists tt.
  unfold lift in E'. apply exec_bind_Ok in E' as (?&_&E').
  assert (stim w = stim w') as -> by congruence. done.
Qed.

Lemma runs_if {A B} (b : bool) (m1 m2 : drive A) (a1 a2 : fuzz B) P Q :
  runs m1 a1 P Q -> runs m2 a2 P Q -> runs (if b then m1 else m2) (if b then a1 else a2) P Q.
Proof. by destruct b. Qed.

Abbreviation any := (fun _ _ _ => True).
Abbreviation always := (fun _ => True).

Lemma runs_fuzz_bind {A B C} (m : fuzz A) (k : A -> drive B) (b : A -> fuzz C) P R :
  stable m -> (forall x, runs (k x) (b x) P R) -> runs (step_fuzz m ≫= k) (m ≫= b) P R.
Proof.
  intros Hm Hk. eapply runs_bind; [by apply runs_fuzz|]. intros x y w w' z [-> HP]. by apply Hk.
Qed.
Lemma runs_fuzz_end (m : fuzz unit) P : stable m -> runs (step_fuzz m) m P any.
Proof. intros Hm. eapply runs_weaken; [by apply runs_fuzz|done..]. Qed.
Lemma runs_ret_end {A B} (x : A) (y : B) P : runs (mret x) (mret y) P any.
Proof. eapply runs_weaken; [apply runs_ret|done..]. Qed.

Lemma runs_after {A C} (m : drive A) (k : A -> drive C) (a : fuzz unit) P Q :
  runs m a P Q -> (forall x, runs (k x) (mret tt) (Q tt x) any) -> runs (m ≫= k) a P any.
Proof.
  intros Hm Hk w w' x HP (w1&x1&E1&E2)%drive_bind_Ok. destruct (Hm _ _ _ HP E1) as ([]&F1&D1&Q1).
  destruct (Hk _ _ _ _ Q1 E2) as ([]&F2&D2&_). exists tt. unfold mret, fuzz_ret in F2.
  split; [congruence|]. split; [congruence|done].
Qed.
Lemma runs_silent_end {A} (m : drive A) P : silent m -> runs m (mret tt) P any.
Proof. intros Hm. eapply runs_weaken; [by apply runs_silent|done..]. Qed.

(** The step that matches the heads of the two programs. *)
Ltac runs_step :=
  first
    [ apply runs_fuzz_bind; [stable_solve|intros ?]
    | apply runs_skip; [solve [auto with silent_db]|intros ?]
    | apply runs_ret_end
    | apply runs_fuzz_end; stable_solve ].

Lemma runs_packet {C} ei p (k : packet -> drive unit) (a : fuzz C) R :
  runs (k p) a (has_packet ei p) R ->
  runs (p ← event_packet ei; k p) a (has_packet ei p) (fun y _ es => exists x, R y x es).
Proof.
  intros Hk w w' x HP (w1&q&E1&E2)%drive_bind_Ok.
  destruct (runs_event_packet ei p _ _ _ HP E1) as (?&_&D1&->&->&_).
  apply event_packet_Ok in E1 as (->&_). destruct (Hk _ _ _ HP E2) as (y&?&?&?). eauto.
Qed.

(** The packet of the event, recorded. *)
Lemma runs_record ei p (k : packet -> drive unit) (a : fuzz unit) :
  runs (k p) a (has_packet ei p) any -> runs (p ← event_packet ei; k p) a (has_packet ei p) any.
Proof. intros Hk. eapply runs_weaken; [by apply runs_packet|done..]. Qed.

Lemma runs_inject_normal : runs inject_fuzz_normal_packet normal_packet always any.
Proof.
  unfold inject_fuzz_normal_packet, normal_packet. runs_step. apply runs_if; [runs_step|].
  eapply runs_bind; [apply runs_make_packet_event|]. intros ei p. runs_step.
  eapply runs_bind.
  { apply (runs_if _ _ _ _ _ _ (fun p' _ => has_packet ei p')); [apply runs_corrupt|].
    eapply runs_weaken; [apply (runs_ret tt p)|done|]. by intros ??? (->&_&?). }
  intros [] p1. eapply runs_bind; [apply runs_run_local|]. intros [] p2. runs_step.
  apply runs_record. eapply runs_after; [apply runs_fuzz; auto with stable_db|].
  intros []. apply runs_silent_end; auto with silent_db.
Qed.

Lemma runs_inject_error : runs inject_fuzz_error_packet error_packet always any.
Proof.
  unfold inject_fuzz_error_packet, error_packet. runs_step. apply runs_if; [runs_step|].
  eapply runs_bind; [apply runs_make_packet_event|]. intros ei p.
  eapply runs_bind; [apply runs_corrupt|]. intros [] p1.
  apply runs_record. runs_step. eapply runs_after; [apply runs_fuzz; auto with stable_db|].
  intros []. eapply runs_after; [|intros ?; apply runs_silent_end; silent_solve].
  eapply runs_weaken; [apply runs_run_local_skip|by intros ? [_ ?]|done].
Qed.

Lemma runs_fuzz_packets : runs fuzz_packets packets_program always any.
Proof.
  unfold fuzz_packets, packets_program. eapply runs_bind; [apply runs_inject_normal|]. intros [] [].
  runs_step. runs_step. runs_step. eapply runs_bind.
  - apply runs_if; [apply runs_ret_end|]. apply runs_if; runs_step; [apply runs_inject_error|].
    repeat (eapply runs_bind; [apply runs_inject_normal|intros [] []]). apply runs_inject_normal.
  - intros [] []. eapply runs_after; [apply runs_fuzz; auto with stable_db|].
    intros []. apply runs_silent_end; auto with silent_db.
Qed.

(** ** System calls *)

Lemma run_and_record_stim (line : fuzz unit) s s' : stable line ->
  run_and_record line s = Ok s' ->
  line (stimulus (sys_fuzzer s)) = Ok (stimulus (sys_fuzzer s'), tt).
Proof.
  intros Hl E. unfold run_and_record in E. apply exec_bind_Ok in E as (i&_&E).
  apply exec_bind_Ok in E as ([e call]&_&E). apply exec_bind_Ok in E as (s1&E1%deaf_run_call&E).
  unfold in_run in E. apply exec_bind_Ok in E as ([s2 []]&E2&E). injection E as <-.
  apply exec_bind_Ok in E2 as ([f []]&E2&E3). injection E3 as <-. rewrite <-E1. by apply Hl.
Qed.

Lemma set_count_fuzzer i n s s' : set_count i n s = Ok s' -> sys_fuzzer s' = sys_fuzzer s.
Proof. unfold set_count. intros E. by exec_cases. Qed.

Lemma counted_stim (modulus : Z) (line : Z -> fuzz unit) s s' : (forall n, stable (line n)) ->
  (s ← in_run read_int s;
   i ← current_event (fst s);
   let n := s32 (snd s mod modulus) in
   s ← set_count i n (fst s);
   run_and_record (line n) s) = Ok s' ->
  (n ← read_int; line (s32 (n mod modulus))) (stimulus (sys_fuzzer s)) = Ok (stimulus (sys_fuzzer s'), tt).
Proof.
  intros Hl E. apply exec_bind_Ok in E as ([s1 n]&E1&E). cbn [fst snd] in E.
  apply exec_bind_Ok in E as (i&_&E). apply exec_bind_Ok in E as (s2&E2%set_count_fuzzer&E).
  apply run_and_record_stim in E; [|done]. unfold in_run in E1.
  apply exec_bind_Ok in E1 as ([f n']&E1&E3). injection E3 as <- <-.
  unfold mbind, fuzz_bind. rewrite (stable_read_int _ _ _ E1). cbn. rewrite E2 in E. exact E.
Qed.

Lemma call_stim c s s' : run_fuzz_syscall_func c s = Ok s' ->
  call_line c (stimulus (sys_fuzzer s)) = Ok (stimulus (sys_fuzzer s'), tt).
Proof.
  destruct c; cbn [run_fuzz_syscall_func call_line]; intros E;
    try (by apply run_and_record_stim in E; [|apply stable_add_content]).
  - apply (counted_stim 30000 add_read_to_fuzz_script); [intros; apply stable_add_content|].
    unfold run_fuzz_syscall_read_event in E. apply exec_bind_Ok in E as ([s1 n]&->&E).
    rewrite bind_Ok_eq. exact E.
  - apply (counted_stim MAX_WRITE_READ_NUM add_write_to_fuzz_script); [intros; apply stable_add_content|].
    unfold run_fuzz_syscall_write_event in E. apply exec_bind_Ok in E as ([s1 n]&->&E).
    rewrite bind_Ok_eq. cbv zeta in E |- *. cbn [fst snd].
    assert (0 <= s32 (n mod MAX_WRITE_READ_NUM)) as Hn.
    { unfold MAX_WRITE_READ_NUM. pose proof (Z.mod_pos_bound n 3000 ltac:(lia)).
      rewrite s32_small; lia. }
    rewrite (proj2 (Z.ltb_ge _ _)) in E by done. exact E.
  - unfold run_fuzz_syscall_fcntl_setfl_block_event in E. by simplify_eq.
Qed.

Lemma runs_call c : runs (step_sys (run_fuzz_syscall_func c)) (call_line c) always any.
Proof.
  intros w w' x _ E. unfold step_sys in E. apply exec_bind_Ok in E as (s&E%call_stim&[= <- <-]).
  by exists tt.
Qed.

(** With the table of events known. *)
Definition runs_with {A B} (found : list (option nat)) (m : drive A) (a : fuzz B) : Prop :=
  forall w w' x, w_predefined w = found -> m w = Ok (w', x) ->
    exists y, a (stim w) = Ok (stim w', y) /\ w_predefined w' = found.

Lemma runs_with_runs {A B} found (m : drive A) (a : fuzz B) :
  runs m a always any -> runs_with found m a.
Proof. intros Hm w w' x <- E. destruct (Hm _ _ _ I E) as (y&?&?&_). eauto. Qed.
Lemma runs_with_bind {A B C D} found (m : drive A) (k : A -> drive C) (a : fuzz B) (b : B -> fuzz D) :
  runs_with found m a -> (forall x y, runs_with found (k x) (b y)) -> runs_with found (m ≫= k) (a ≫= b).
Proof.
  intros Hm Hk w w' x HP (w1&x1&E1&E2)%drive_bind_Ok. destruct (Hm _ _ _ HP E1) as (y1&F1&D1).
  destruct (Hk x1 y1 _ _ _ D1 E2) as (y&F2&D2). exists y. unfold mbind, fuzz_bind. by rewrite F1.
Qed.
Lemma runs_with_fuzz {A C D} found (m : fuzz A) (k : A -> drive C) (b : A -> fuzz D) :
  stable m -> (forall x, runs_with found (k x) (b x)) -> runs_with found (step_fuzz m ≫= k) (m ≫= b).
Proof.
  intros Hm Hk w w' x HP (w1&x1&E1&E2)%drive_bind_Ok.
  destruct (runs_fuzz m always Hm _ _ _ I E1) as (y1&F1&D1& <-&_).
  destruct (Hk x1 _ _ _ (eq_trans D1 HP) E2) as (y&F2&D2). exists y. unfold mbind, fuzz_bind. by rewrite F1.
Qed.

Lemma runs_syscalls found calls : forall j,
  runs_with found (fuzz_syscalls calls j) (syscalls_program calls (drop j found)).
Proof.
  induction calls as [|[line c] calls IH]; intros j; cbn [fuzz_syscalls syscalls_program].
  { apply runs_with_runs, runs_ret_end. }
  apply runs_with_fuzz; [auto with stable_db|]. intros [|]; cbn [negb]; [|apply runs_with_runs, runs_ret_end].
  intros w w' x HP (w1&oe&[= <- <-]&E)%drive_bind_Ok. apply drive_bind_Ok in E as (w2&e&E1&E2).
  unfold step_exec in E1. apply exec_bind_Ok in E1 as (e'&Ee%deref_Ok&[= <- <-]).
  rewrite HP in Ee. rewrite (drop_S _ _ _ Ee). destruct e' as [ei|]; [|exact (IH (S j) _ _ _ HP E2)].
  revert E2. revert x HP. revert w w'.
  change (runs_with found (tmp ← step_fuzz read_byte;
    _ ← (if tmp mod 100 <? 50 then _ ← update_state_and_event (Some ei);
           _ ← step_sys (run_fuzz_syscall_func c); _ ← count_event; _ ← background;
           _ ← step_fuzz update_fuzz_scripts; step_fuzz update_fuzz_results else mret tt);
    fuzz_syscalls calls (S j))
   (tmp ← read_byte; _ ← (if tmp mod 100 <? 50 then _ ← call_line c; update_fuzz_scripts else mret tt);
    syscalls_program calls (drop (S j) found))).
  apply runs_with_fuzz; [auto with stable_db|]. intros tmp. apply runs_with_bind; [|intros [] []; apply IH].
  apply runs_with_runs, runs_if; [|apply runs_ret_end]. runs_step.
  eapply runs_bind; [apply runs_call|]. intros [] []. do 2 runs_step.
  eapply runs_after; [apply runs_fuzz; auto with stable_db|].
  intros []. apply runs_silent_end; auto with silent_db.
Qed.

Lemma runs_with_switch {A B} found get (k : bool -> drive A) (b : bool -> fuzz B) :
  (forall x, runs_with found (k x) (b x)) ->
  runs_with found (switch get ≫= k) (global (fun f => get (fz_config f)) ≫= b).
Proof. intros Hk w w' x HP (w1&y&[= <- <-]&E)%drive_bind_Ok. by eapply Hk. Qed.

Lemma runs_loop found n : runs_with found (fuzz_loop n) (loop_program n found).
Proof.
  induction n as [|n IH]; cbn [fuzz_loop loop_program]; [apply runs_with_runs, runs_ret_end|].
  apply runs_with_switch. intros b1. apply runs_with_bind.
  { apply runs_with_runs. destruct b1; [apply runs_ret_end|apply runs_fuzz_packets]. }
  intros [] []. apply runs_with_switch. intros b2. apply runs_with_bind; [|intros [] []; exact IH].
  destruct b2; [apply runs_with_runs, runs_ret_end|apply (runs_syscalls found _ 0)].
Qed.

Lemma runs_some_fuzz found n : runs_with found (do_some_fuzz n) (some_program n found).
Proof.
  unfold do_some_fuzz, some_program. apply runs_with_fuzz; [stable_solve|]. intros [].
  apply runs_with_bind; [apply runs_loop|]. intros [] []. apply runs_with_runs, runs_fuzz_end. stable_solve.
Qed.

(** A call of the stack that is not a choice of the input. *)
Lemma runs_other_call ei :
  runs (step_sys (fun s => '(_, call) ← event_call ei s; run_system_call_event call s)) (mret tt) always any.
Proof.
  intros w w' x _ E. unfold step_sys in E. apply exec_bind_Ok in E as (s&E&[= <- <-]).
  apply exec_bind_Ok in E as ([e call]&_&E%deaf_run_call). exists tt. split; [|done].
  unfold mret, fuzz_ret, stim. cbn. by rewrite E.
Qed.
Lemma runs_skip_runs {A B} (m : drive A) (k : A -> drive B) (a : fuzz unit) :
  runs m (mret tt) always any -> (forall x, runs (k x) a always any) -> runs (m ≫= k) a always any.
Proof.
  intros Hm Hk w w' x HP (w1&x1&E1&E2)%drive_bind_Ok. destruct (Hm _ _ _ HP E1) as ([]&F1&D1&_).
  destruct (Hk _ _ _ _ I E2) as ([]&F2&D2&_). exists tt. unfold mret, fuzz_ret in F1.
  assert (stim w = stim w1) as -> by congruence. split; [done|]. split; [congruence|done].
Qed.

Lemma runs_check_packet :
  runs check_packet (p ← fuzz_to_packet false true; p ← lift (refilled_packet p);
                     _ ← add_packet_to_fuzz_script p; update_fuzz_scripts) always any.
Proof.
  unfold check_packet. eapply runs_bind; [apply runs_make_packet_event|]. intros ei p.
  eapply runs_bind; [apply runs_run_local|]. intros [] p2. do 2 runs_step.
  apply runs_record. runs_step. eapply runs_after; [apply runs_fuzz; auto with stable_db|].
  intros [] w w' z _ E. unfold step_state in E. exec_cases. by exists tt.
Qed.

Lemma runs_check_read :
  runs check_read (_ ← add_read_to_fuzz_script 20; update_fuzz_scripts) always any.
Proof.
  unfold check_read. do 3 (apply runs_skip; [solve [auto with silent_db]|intros ?]). cbv zeta.
  apply runs_skip_runs.
  { intros w w' z _ E. unfold step_sys in E. apply exec_bind_Ok in E as (s&E%set_count_fuzzer&[= <- <-]).
    exists tt. split; [|done]. unfold mret, fuzz_ret, stim. cbn. by rewrite E. }
  intros []. runs_step. apply runs_skip_runs; [apply runs_other_call|]. intros []. do 2 runs_step.
  runs_step. runs_step.
Qed.

Lemma runs_with_if {A B} found (b : bool) (m1 m2 : drive A) (a1 a2 : fuzz B) :
  runs_with found m1 a1 -> runs_with found m2 a2 ->
  runs_with found (if b then m1 else m2) (if b then a1 else a2).
Proof. by destruct b. Qed.

(** The question whether to go on, asked unless a switch is set. *)
Lemma runs_with_go {A B} found (off : bool) (k : bool -> drive A) (b : bool -> fuzz B) :
  (forall x, runs_with found (k x) (b x)) ->
  runs_with found ((if off then mret false else step_fuzz should_fuzz) ≫= k)
    ((if off then mret false else should_fuzz) ≫= b).
Proof. destruct off; [intros Hk; exact (Hk false)|]. apply runs_with_fuzz. auto with stable_db. Qed.

Lemma runs_check_loop found n : runs_with found (check_loop n) (check_program n).
Proof.
  induction n as [|n IH]; cbn [check_loop check_program]; [apply runs_with_runs, runs_ret_end|].
  apply runs_with_switch. intros b1. apply runs_with_go. intros go1. apply runs_with_bind.
  { apply runs_with_runs, runs_if; [apply runs_check_packet|apply runs_ret_end]. }
  intros [] []. apply runs_with_switch. intros b2. apply runs_with_go. intros go2. apply runs_with_bind.
  { apply runs_with_runs, runs_if; [apply runs_check_read|apply runs_ret_end]. }
  intros [] []. exact IH.
Qed.

Lemma runs_close ei :
  runs (close_connection ei)
    (_ ← add_content_to_fuzz_script ("+0 close(4) = 0" +:+ newline); update_fuzz_scripts) always any.
Proof.
  unfold close_connection. do 2 (apply runs_skip; [solve [auto with silent_db]|intros ?]).
  apply runs_skip_runs; [apply runs_other_call|]. intros []. do 2 runs_step. runs_step.
  eapply runs_after; [apply runs_fuzz; auto with stable_db|]. intros []. apply runs_silent_end; auto with silent_db.
Qed.

Lemma runs_connection found ei : runs_with found (fuzz_connection ei) (fuzz_program found).
Proof.
  unfold fuzz_connection, fuzz_program. apply runs_with_bind; [apply runs_some_fuzz|]. intros [] [].
  apply runs_with_bind; [apply runs_check_loop|]. intros [] [].
  intros w w' x HP E.
  destruct (runs_with_bind found (close_connection ei) (fun _ => do_some_fuzz 3)
    (_ ← add_content_to_fuzz_script ("+0 close(4) = 0" +:+ newline); update_fuzz_scripts)
    (fun _ => some_program 3 found) (runs_with_runs _ _ _ (runs_close ei))
    (fun _ _ => runs_some_fuzz found 3) _ _ _ HP E) as (y&F&D).
  exists y. split; [|done]. rewrite <-F. unfold mbind, fuzz_bind.
  by destruct (add_content_to_fuzz_script _ (stim w)) as [[]|].
Qed.

(** C7. The stimuli come from the input alone: whatever the stack under test does, when the
    fuzzing of a connection returns, the packets and calls it recorded, the position in the
    input and the sequence number are those of a program that reads the configuration, the
    input and the globals of the fuzzer, but no packet of the stack, no result of a system
    call and no clock. *)
Theorem fuzz_connection_refines (syscall_close_event : option nat) (w w' : world) :
  fuzz_connection syscall_close_event w = Ok (w', tt) ->
  fuzz_program (w_predefined w) (stim w) = Ok (stim w', tt).
Proof. intros E. by destruct (runs_connection _ _ _ _ _ eq_refl E) as ([]&?&_). Qed.

(** C8. Two stacks get the same stimuli: if two runs enter the fuzzing of the connection with
    the same globals (the records of reactions apart) and the same table of system calls,
    and both return, they have made the same record of injected packets and calls, entry
    by entry, and their results are indexed alike, however the stacks reacted. *)
Theorem same_stimuli (close1 close2 : option nat) (tldk linux tldk' linux' : world) :
  stim tldk = stim linux -> w_predefined tldk = w_predefined linux ->
  fuzz_connection close1 tldk = Ok (tldk', tt) -> fuzz_connection close2 linux = Ok (linux', tt) ->
  let f := sys_fuzzer (w_sys tldk') in
  let g := sys_fuzzer (w_sys linux') in
  rec_entries (fz_script f) = rec_entries (fz_script g) /\ fz_loop_index f = fz_loop_index g /\
  fz_file_index f = fz_file_index g /\ fz_packet_seq f = fz_packet_seq g.
Proof.
  intros Hs Hp (y1&F1&_)%(runs_connection _ _ _ _ _ eq_refl) (y2&F2&_)%(runs_connection _ _ _ _ _ eq_refl) f g.
  rewrite Hs, Hp, F2 in F1. assert (stim linux' = stim tldk') as E by congruence.
  split_and!; [by apply (f_equal (fun x => rec_entries (fz_script x))) in E
    |by apply (f_equal fz_loop_index) in E|by apply (f_equal fz_file_index) in E
    |by apply (f_equal fz_packet_seq) in E].
Qed.

(** ** Fuzzing once *)

(** The one chance to fuzz is used up. *)
Definition spent (w : world) : Prop :=
  is_fuzz_once (fz_config (stim w)) = true /\ fz_has_fuzzed_once (stim w) = true.

(** Nothing is done to the stack from there on. *)
Definition idle {A} (m : drive A) : Prop :=
  forall w w' x, spent w -> m w = Ok (w', x) -> spent w' /\ deeds w' = deeds w.

Lemma idle_bind {A B} (m : drive A) (k : A -> drive B) :
  idle m -> (forall a, idle (k a)) -> idle (m ≫= k).
Proof.
  intros Hm Hk w w' x Hw (w1&a&E1&E2)%drive_bind_Ok. destruct (Hm _ _ _ Hw E1) as [H3 H4].
  destruct (Hk _ _ _ _ H3 E2) as [H5 H6]. split; [done|congruence].
Qed.
Lemma idle_silent {A} (m : drive A) : silent m -> idle m.
Proof. intros Hm w w' x Hw E. destruct (Hm _ _ _ E) as (S&_&_&D). unfold spent. by rewrite S. Qed.
Lemma idle_fuzz {A} (m : fuzz A) :
  (forall f f' a, m f = Ok (f', a) ->
     fz_config f' = fz_config f /\ (fz_has_fuzzed_once f = true -> fz_has_fuzzed_once f' = true)) ->
  idle (step_fuzz m).
Proof.
  intros Hm w w' x [Ho Hf] E. unfold step_fuzz, in_run in E. exec_cases.
  match goal with H : m _ = _ |- _ => apply Hm in H as [Hc Ht] end.
  split; [|done]. unfold spent, stim in *. cbn in *. rewrite Hc. auto.
Qed.
Lemma idle_go {A} (k : bool -> drive A) : idle (k false) -> idle (step_fuzz should_fuzz ≫= k).
Proof.
  intros Hk w w' x [Ho Hf] (w1&b&E1&E2)%drive_bind_Ok. unfold step_fuzz, in_run in E1.
  unfold should_fuzz, mbind, fuzz_bind, global in E1. cbn in E1.
  unfold stim in Ho, Hf. cbn in Ho, Hf. rewrite Ho in E1. cbn in E1. rewrite Hf in E1. cbn in E1.
  exec_cases. edestruct Hk as [H3 H4]; [|exact E2|]; [by split|]. split; [done|]. by rewrite H4.
Qed.

Lemma idle_update g :
  (forall f, fz_config (g f) = fz_config f /\ fz_has_fuzzed_once (g f) = fz_has_fuzzed_once f) ->
  idle (step_fuzz (update g)).
Proof.
  intros Hg. apply idle_fuzz. unfold update. intros f f' a E. injection E as <- <-.
  destruct (Hg f) as [-> ->]. done.
Qed.

Ltac idle_fuzz_tac :=
  first
    [ apply idle_update; intros ?; split; reflexivity
    | apply idle_fuzz; intros ? ? ? E;
      unfold read_byte, update_fuzz_scripts, update_fuzz_results, add_content_to_fuzz_script in E;
      exec_cases; done ].

Lemma idle_normal : idle inject_fuzz_normal_packet.
Proof. apply idle_go. apply idle_silent, silent_ret. Qed.
Lemma idle_error : idle inject_fuzz_error_packet.
Proof. apply idle_go. apply idle_silent, silent_ret. Qed.
Lemma idle_packets : idle fuzz_packets.
Proof.
  unfold fuzz_packets.
  repeat first [ apply idle_normal | apply idle_error | apply idle_silent; solve [auto with silent_db]
    | idle_fuzz_tac | apply idle_bind; [|intros ?]
    | match goal with |- idle (match ?x with _ => _ end) => destruct x end ].
Qed.
Lemma idle_syscalls calls j : idle (fuzz_syscalls calls j).
Proof.
  destruct calls as [|[line c] calls]; cbn [fuzz_syscalls]; [apply idle_silent, silent_ret|].
  apply idle_go. apply idle_silent, silent_ret.
Qed.
Lemma idle_loop n : idle (fuzz_loop n).
Proof.
  induction n as [|n IH]; cbn [fuzz_loop]; [apply idle_silent, silent_ret|].
  apply idle_bind; [apply idle_silent, silent_ask|]. intros []; (apply idle_bind;
    [first [apply idle_packets|apply idle_silent, silent_ret]|intros []]);
  (apply idle_bind; [apply idle_silent, silent_ask|]); intros []; (apply idle_bind;
    [first [apply idle_syscalls|apply idle_silent, silent_ret]|intros []]); exact IH.
Qed.

(** With is_fuzz_once the second run does not fuzz: has_fuzzed_once is set in the first run
    and the initialisation of a run does not reset it, so that from then on do_some_fuzz
    injects no packet and makes no system call, while the first stack got one. *)
Theorem fuzz_once_not_reset (n : nat) (w w' : world) :
  spent w ->
  (_ ← step_fuzz reinit_fuzzing_variable;
   _ ← step_fuzz reinit_fuzzing_results;
   _ ← step_fuzz reinit_fuzzing_scripts;
   do_some_fuzz n) w = Ok (w', tt) ->
  deeds w' = deeds w.
Proof.
  intros Hw. match goal with |- ?m w = _ -> _ => assert (idle m) as Hm end.
  { repeat (apply idle_bind; [idle_fuzz_tac|intros []]).
    apply idle_bind; [apply idle_loop|]. intros []. idle_fuzz_tac. }
  intros E. by apply (Hm _ _ _ Hw E).
Qed.

(** ** Watching outbound packets *)

Lemma wrong_digit_spec b payload seq n : forall i,
  0 <= payload -> 0 <= i -> payload + i + Z.of_nat n <= zlen b ->
  exists r, wrong_digit b payload seq n i = Ok r /\
    (r = true <-> exists k, i <= k < i + Z.of_nat n /\ byte_at b (payload + k) <> u32 (seq - 1 + k) mod 10).
Proof.
  induction n as [|n IH]; intros i Hp Hi Hl; cbn [wrong_digit].
  { exists false. split; [done|]. split; [done|]. intros (k&?&_). lia. }
  rewrite ld8_eq by lia. rewrite bind_Ok_eq. destruct (IH (i + 1)) as (r&->&Hr); [lia..|].
  rewrite bind_Ok_eq. eexists. split; [done|]. rewrite orb_true_iff, Hr, negb_true_iff, Z.eqb_neq.
  split.
  - intros [Hd|(k&Hk&Hd)]; [exists i|exists k]; split; [lia|done|lia|done].
  - intros (k&Hk&Hd). destruct (decide (k = i)) as [->|]; [by left|]. right. exists k. split; [lia|done].
Qed.

(** What a packet's payload is compared with. *)
Lemma note_outbound_spec p w w' tcp seq payload len :
  pk_tcp p = Some tcp -> prd p tcp tcp_seq = Ok seq -> packet_payload p = Ok payload ->
  packet_payload_len p = Ok len -> 0 <= payload -> 0 <= len -> payload + len <= zlen (pk_buffer p) ->
  note_outbound p w = Ok (w', tt) ->
  (w_data_error w' = true <-> w_data_error w = true \/
     exists k, 0 <= k < len /\ byte_at (pk_buffer p) (payload + k) <> u32 (ntohl seq - 1 + k) mod 10).
Proof.
  intros Ht Hs Hp Hl Hp0 Hl0 Hb E. unfold note_outbound in E.
  apply drive_bind_Ok in E as (w1&l&E1&E). unfold step_exec in E1. rewrite Hl in E1. injection E1 as <- <-.
  apply drive_bind_Ok in E as (w2&[[dump ok] error]&E1&E). unfold step_exec in E1.
  apply exec_bind_Ok in E1 as (d&_&[= <- _]).
  apply drive_bind_Ok in E as (w3&t&E1&E). unfold step_exec in E1. rewrite Ht in E1. injection E1 as <- <-.
  apply drive_bind_Ok in E as (w4&q&E1&E). unfold step_exec in E1. rewrite Hs in E1. injection E1 as <- <-.
  apply drive_bind_Ok in E as (w5&pl&E1&E). unfold step_exec in E1. rewrite Hp in E1. injection E1 as <- <-.
  apply drive_bind_Ok in E as (w6&wrong&E1&E). unfold step_exec in E1.
  destruct (wrong_digit_spec (pk_buffer p) payload (ntohl seq) (Z.to_nat len) 0) as (r&Er&Hr); [lia..|].
  rewrite Er in E1. injection E1 as <- <-. rewrite Z2Nat.id in Hr by lia. rewrite <-Hr.
  apply drive_bind_Ok in E as (w7&[]&E1&E).
  assert (w_data_error w' = w_data_error w7) as ->.
  { clear -E. apply drive_bind_Ok in E as (?&?&?&E). apply drive_bind_Ok in E as (?&?&?&E).
    apply drive_bind_Ok in E as (?&[[lp e] status]&?&E).
    destruct (pk_tcp_ts_ecr lp); [apply drive_bind_Ok in E as (?&?&?&E)|].
    all: unfold step_exec, ask, step_fuzz, in_run, update in *; exec_cases; done. }
  destruct r; injection E1 as <-; simpl; naive_solver.
Qed.

(** C22. The watch accepts what the fuzzer wrote: when a segment carries bytes that syscall_write
    produced from position [total] of the stream, at the sequence number of that position,
    it is not reported, as long as the stream is below 4 GiB. *)
Theorem written_data_passes (p : packet) (w w' : world) (tcp seq payload total : Z) (b buf : bytes) :
  write_pattern (Some b) (zlen b) total = Ok (Some buf) -> 0 <= total -> total + zlen b <= 2 ^ 32 ->
  pk_tcp p = Some tcp -> prd p tcp tcp_seq = Ok seq -> ntohl seq = u32 (total + 1) ->
  packet_payload p = Ok payload -> packet_payload_len p = Ok (zlen buf) -> 0 <= payload ->
  get_bytes (pk_buffer p) payload (zlen buf) = Ok buf ->
  note_outbound p w = Ok (w', tt) -> w_data_error w' = w_data_error w.
Proof.
  intros Hw Ht0 Ht Htcp Hseq Hn Hp Hl Hp0 Hg E. injection Hw as <-.
  set (digits := (fun i => u64 (Z.of_nat i + total) mod 10) <$> List.seq 0 (length b)) in *.
  assert (zlen digits = zlen b) as Hz by (unfold digits, zlen; by rewrite length_fmap, length_seq).
  pose proof Hg as [Hr _]%get_bytes_Ok. apply in_range_true in Hr. pose proof (zlen_nonneg b).
  pose proof (note_outbound_spec p w w' tcp seq payload (zlen digits) Htcp Hseq Hp Hl Hp0
    ltac:(lia) ltac:(lia) E) as Hd.
  destruct (w_data_error w') eqn:E1, (w_data_error w) eqn:E2; try done; [exfalso|naive_solver].
  destruct Hd as [[?|(k&Hk&Hne)] _]; [done|done|]. apply Hne.
  rewrite <-(byte_at_get _ _ _ _ k Hg) by lia. unfold byte_at, digits.
  rewrite <-(Nat2Z.id (Z.to_nat k)).
  rewrite (nth_lookup_Some _ _ _ (u64 (Z.of_nat (Z.to_nat k) + total) mod 10)).
  2:{ rewrite Nat2Z.id, list_lookup_fmap, lookup_seq_lt by (unfold zlen in *; lia). done. }
  rewrite Z2Nat.id by lia. f_equal. rewrite Hn. unfold u32, u64 in *.
  rewrite (Z.mod_small (k + total)) by lia.
  replace ((total + 1) mod 4294967296 - 1 + k) with ((total + 1) mod 4294967296 + (k - 1)) by lia.
  rewrite Z.add_mod_idemp_l by lia. rewrite Z.mod_small; lia.
Qed.
End Runs.

(** ** The verdict *)

Lemma xorb_false_iff b c : xorb b c = false <-> b = c.
Proof. by destruct b, c. Qed.

(** The two runs agree. *)
Definition agree (step1 step2 : summary) : Prop :=
  sm_last_received_ack step1 = sm_last_received_ack step2 /\
  sm_last_received_ecr step1 = sm_last_received_ecr step2 /\
  sm_is_received_packet_has_timestamp step1 = sm_is_received_packet_has_timestamp step2 /\
  forall k, ~ differ_at (sm_results step1) (sm_results step2) k.

(** C21. The verdict is exact: main reports nothing if and only if the last acknowledgement and
    the last echoed timestamp agree, both or none of the runs saw a timestamp, no outbound
    data was wrong, and no entry that both runs recorded differs; otherwise it reports a
    reason, or aborts if it was asked to. *)
Theorem compare_runs_exact (cfg : fuzz_config) (step1 step2 : summary) (data_error : bool) :
  length (sm_results step1) = 1000%nat -> length (sm_results step2) = 1000%nat ->
  let ok := agree step1 step2 /\ data_error = false in
  (ok -> compare_runs cfg step1 step2 data_error = Ok []) /\
  (~ ok -> if is_abort_when_error_occur cfg then compare_runs cfg step1 step2 data_error = Fault Aborted
           else exists reason reasons, compare_runs cfg step1 step2 data_error = Ok (reason :: reasons)).
Proof.
  intros L1 L2 ok. unfold compare_runs.
  destruct (fuzz_test_result_compare_first _ _ L1 L2) as (r&Er&Hr).
  assert (ok <-> (sm_last_received_ack step1 =? sm_last_received_ack step2) = true /\
    (sm_last_received_ecr step1 =? sm_last_received_ecr step2) = true /\
    xorb (sm_is_received_packet_has_timestamp step1) (sm_is_received_packet_has_timestamp step2) = false /\
    data_error = false /\ (r =? -1) = true) as Hok.
  { unfold ok, agree. rewrite !Z.eqb_eq, xorb_false_iff.
    destruct Hr as [[-> Hr]|(k&->&Hk&_)]; [naive_solver|]. split; [naive_solver|lia]. }
  clearbody ok. rewrite Hok, Er. clear Hok Hr Er. unfold report_if, error_occur.
  destruct (is_abort_when_error_occur cfg), (_ =? _), (_ =? _), (xorb _ _), data_error; cbn;
    destruct (r =? -1); cbn; (split; [intros (?&?&?&?&?)|intros Hn]); try done; try (by eexists _, _); try (by destruct Hn).
Qed.

(** ** Room for the results *)

Lemma dec_digit_length z : 0 <= z < 10 -> String.length (hex_digit z) = 1%nat.
Proof.
  intros Hz. assert (z ∈ [0; 1; 2; 3; 4; 5; 6; 7; 8; 9]) as H by (rewrite !elem_of_cons; lia).
  by repeat (apply elem_of_cons in H as [-> | H]; [reflexivity|]); apply elem_of_nil in H.
Qed.

Lemma dec_digits_length k : forall n z, (k < n)%nat -> 0 <= z ->
  (z < 10 ^ Z.of_nat (S k) -> (String.length (dec_digits n z) <= S k)%nat) /\
  (10 ^ Z.of_nat k <= z -> (S k <= String.length (dec_digits n z))%nat).
Proof.
  induction k as [|k IH]; intros [|n] z Hn Hz; try lia; cbn [dec_digits];
    pose proof (dec_digit_length z); pose proof (dec_digit_length (z mod 10) ltac:(zlia)).
  - change (10 ^ Z.of_nat 1) with 10. change (10 ^ Z.of_nat 0) with 1.
    destruct (Z.ltb_spec z 10); [lia|]. rewrite string_length_app. lia.
  - rewrite !Nat2Z.inj_succ, !Z.pow_succ_r in * by lia. set (p := 10 ^ Z.of_nat k) in *.
    assert (0 < p) by (apply Z.pow_pos_nonneg; lia).
    destruct (Z.ltb_spec z 10); [lia|]. rewrite string_length_app.
    destruct (IH n (z / 10) ltac:(lia) ltac:(zlia)) as [I1 I2].
    rewrite ?Nat2Z.inj_succ, ?Z.pow_succ_r in I1 by lia. fold p in I1, I2. split; intros Hp.
    + specialize (I1 ltac:(zlia)). lia.
    + specialize (I2 ltac:(zlia)). lia.
Qed.

(** The lines that a read of [buf] leaves in the record: its data, one character per byte,
    and its result. *)
Definition read_record (buf : bytes) : bytes :=
  (string_bytes "read_result :" ++ ((fun b => u8 (b + 48)) <$> buf)) ++ [10]
  ++ string_bytes ("read" +:+ " : " +:+ dec (zlen buf) +:+ newline).

Lemma read_record_length buf : 1 <= zlen buf ->
  (zlen buf <= 29973 -> zlen (read_record buf) <= 30000) /\
  (29974 <= zlen buf -> 30000 < zlen (read_record buf)).
Proof.
  intros H1. unfold read_record.
  assert (zlen (string_bytes ("read" +:+ " : " +:+ dec (zlen buf) +:+ newline))
    = 8 + Z.of_nat (String.length (dec (zlen buf)))) as E2.
  { rewrite !string_bytes_app, !zlen_app, (string_bytes_length (dec _)). change (zlen (string_bytes "read")) with 4.
    change (zlen (string_bytes " : ")) with 3. change (zlen (string_bytes newline)) with 1. lia. }
  rewrite !zlen_app, E2. change (zlen (string_bytes "read_result :")) with 13. change (zlen [10]) with 1.
  assert (zlen ((fun b => u8 (b + 48)) <$> buf) = zlen buf) as -> by (unfold zlen; by rewrite length_fmap).
  destruct (dec_digits_length 4 20 (zlen buf) ltac:(lia) ltac:(lia)) as [L1 L2].
  change (10 ^ Z.of_nat 5) with 100000 in L1. change (10 ^ Z.of_nat 4) with 10000 in L2.
  unfold dec. rewrite (proj2 (Z.ltb_ge (zlen buf) 0)) by lia. split; intros Hb.
  - specialize (L1 ltac:(lia)). lia.
  - specialize (L2 ltac:(lia)). lia.
Qed.

Lemma add_content_eq content f : fz_is_fuzz_start f = true ->
  add_content_to_fuzz_result content f = put_result (string_bytes content) f.
Proof. intros Hs. unfold add_content_to_fuzz_result, put_result. by rewrite Hs. Qed.

(** Bytes that fit are stored, others are stored past the end. *)
Lemma put_result_spec l l0 f : rec_holds (fz_result f) 30000 l0 -> bytes_ok l ->
  if zlen l0 + zlen l <=? 30000
  then exists f', put_result l f = Ok (f', tt) /\ rec_holds (fz_result f') 30000 (l0 ++ l) /\
    f' = set_fz_result (fz_result f') f
  else put_result l f = Fault OutOfBounds.
Proof.
  intros Hr Hl. unfold put_result. destruct (Z.leb_spec (zlen l0 + zlen l) 30000).
  - destruct (rec_puts_spec l (fz_result f) 30000 l0 Hr Hl) as (r&->&Hr'&_); [lia|].
    rewrite bind_Ok_eq. by eexists.
  - by rewrite (rec_puts_full l _ _ _ Hr Hl).
Qed.

Lemma rec_puts_app l l' r : rec_puts (l ++ l') r = (r ← rec_puts l r; rec_puts l' r).
Proof.
  revert r. induction l as [|c l IH]; intros r; cbn [rec_puts app]; [by rewrite bind_Ok_eq|].
  destruct (rec_putc c r) as [r1|]; [|done]. rewrite !bind_Ok_eq. apply IH.
Qed.

(** Storing some bytes and then others is storing them in one go. *)
Lemma put_result_app l l' f : (_ ← put_result l; put_result l') f = put_result (l ++ l') f.
Proof.
  unfold put_result, mbind, fuzz_bind. rewrite rec_puts_app.
  destruct (rec_puts l (fz_result f)) as [r|]; [|done]. by rewrite !bind_Ok_eq.
Qed.

(** What syscall_read and its end_syscall record of a read of [buf]. *)
Definition record_read (buf : bytes) : fuzz unit :=
  _ ← add_read_result_to_fuzz_result buf (zlen buf);
  add_syscall_result_to_fuzz_result "read" (zlen buf).

Lemma put_result_recording l f f' : put_result l f = Ok (f', tt) -> is_recording f = true ->
  is_recording f' = true.
Proof.
  unfold put_result. intros (r&Er&[= <-])%exec_bind_Ok. unfold is_recording. cbn.
  rewrite !andb_true_iff. intros [[? Hb] ?]. split_and!; try done. clear -Er Hb. revert Hb Er.
  generalize (fz_result f). induction l as [|c l IH]; intros q Hq Er; cbn [rec_puts] in Er; [by simplify_eq|].
  apply exec_bind_Ok in Er as (q1&E1&Er). apply (IH q1); [|done].
  unfold rec_putc in E1. apply exec_bind_Ok in E1 as (b&_&E1). apply exec_bind_Ok in E1 as (b'&_&[= <-]).
  by apply bool_decide_eq_true_2.
Qed.

Lemma record_read_eq buf f : is_recording f = true -> 1 <= zlen buf ->
  record_read buf f = put_result (read_record buf) f.
Proof.
  intros Hrec H1. unfold record_read, read_record.
  assert (Hs : forall g, is_recording g = true -> fz_is_fuzz_start g = true).
  { unfold is_recording. intros g Hg. by apply andb_true_iff in Hg as [[? _]%andb_true_iff _]. }
  assert (add_read_result_to_fuzz_result buf (zlen buf) f =
    put_result ((string_bytes "read_result :" ++ ((fun b => u8 (b + 48)) <$> buf)) ++ [10]) f) as Er.
  { rewrite <-!put_result_app. unfold add_read_result_to_fuzz_result, global.
    unfold mbind at 1, fuzz_bind at 1. rewrite bind_Ok_eq, Hrec. cbn [negb orb].
    rewrite (proj2 (Z.ltb_ge _ _)) by lia. unfold mbind, fuzz_bind. rewrite add_content_eq by auto.
    rewrite <-put_result_app. unfold mbind, fuzz_bind.
    destruct (put_result (string_bytes "read_result :") f) as [[f1 []]|]; [|done]. rewrite !bind_Ok_eq.
    unfold lift. assert (get_bytes buf 0 (zlen buf) = Ok buf) as ->; [|by rewrite !bind_Ok_eq].
    apply get_bytes_Ok. split; [apply in_range_true; pose proof (zlen_nonneg buf); lia|].
    unfold zlen. rewrite Nat2Z.id, drop_0. by rewrite take_ge. }
  rewrite app_assoc, <-put_result_app. unfold mbind, fuzz_bind. rewrite Er.
  destruct (put_result _ f) as [[f1 []]|] eqn:E1; [|done]. rewrite !bind_Ok_eq.
  pose proof (put_result_recording _ _ _ E1 Hrec) as Hrec1.
  unfold add_syscall_result_to_fuzz_result, global, mbind, fuzz_bind. rewrite bind_Ok_eq, Hrec1.
  cbn [negb]. rewrite bool_decide_eq_true_2 by set_solver. by apply add_content_eq, Hs.
Qed.

(** C40. The record of results has room for a read of 29973 bytes and no more.  What a run records
    of one read, its data one character per byte and the line with its result that
    end_syscall adds, is stored in an empty record of 30000 bytes exactly when the read
    returned at most 29973 bytes: then the record holds these two lines and nothing else of
    the fuzzer's state has changed; otherwise the stores go past its end.
    run_fuzz_syscall_read_event asks for up to 29999. *)
Theorem read_result_bound (f : fuzzer) (buf : bytes) :
  rec_holds (fz_result f) 30000 [] -> is_recording f = true -> bytes_ok buf -> 1 <= zlen buf ->
  if zlen buf <=? 29973
  then exists f', record_read buf f = Ok (f', tt) /\ rec_holds (fz_result f') 30000 (read_record buf) /\
    f' = set_fz_result (fz_result f') f
  else record_read buf f = Fault OutOfBounds.
Proof.
  intros Hr Hrec Hb H1. rewrite record_read_eq by done.
  assert (bytes_ok (read_record buf)) as Hok.
  { unfold read_record. repeat apply Forall_app_2; try apply string_bytes_ok; [|repeat constructor; lia].
    apply Forall_fmap, Forall_true; intros; apply u8_range. }
  pose proof (put_result_spec (read_record buf) [] f Hr Hok) as Hp. rewrite app_nil_l in Hp.
  change (zlen []) with 0 in Hp. rewrite Z.add_0_l in Hp.
  destruct (read_record_length buf H1) as [L1 L2]. destruct (Z.leb_spec (zlen buf) 29973).
  - by rewrite (proj2 (Z.leb_le _ _)) in Hp by auto.
  - rewrite (proj2 (Z.leb_gt _ _)) in Hp; [done|]. apply L2. lia.
Qed.
