(* ===== verification/FuzzRuns.v ===== *)
(** * FuzzRuns: the theorems of FuzzProps.v on concrete runs

    An established connection fuzzed from an input file against two stacks that react
    differently, the watch over a segment the fuzzer wrote, and inputs on which the fuzzer
    itself fails. *)

From S2P Require Import Prelude Headers Packet HashMap PacketParser TcpOptions IpAddress IpPacket TcpPacket Socket Script RunState PacketMap PacketVerify RunPacket PacketToString FuzzHelper FuzzPacket SyscallArgs SystemCall SyscallHandlers SyscallProps RunEvents FuzzSyscall FuzzTest FuzzProps.

#[local] Existing Instance zero_malloc.
#[local] Instance plain_ntop : InetNtop := fun _ _ => "addr"%string.
#[local] Instance stale_free : Free := id.

(** ** A connection to fuzz *)

Definition script_call (line : Z) (name : string) (args : list expression) : event :=
  mk_event line 0 (-1) (-1) ANY_TIME
    (SYSCALL_EVENT (mk_syscall_spec name args (EXPR_INTEGER 0) None SYSCALL_NON_BLOCKING)).

(** The switches, the input and the flag has_fuzzed_once; the results of the stack. *)
Definition sample_fuzzer (cfg : fuzz_config) (file : bytes) (once : bool) : fuzzer :=
  set_fz_has_fuzzed_once once (set_fz_config cfg
    (set_fz_result (mk_recorder (Some (replicate 300 0)) 0 (Some (replicate 1000 None))) (fuzz_start file))).

(** The run is past the handshake: descriptor 4 is 7 in the stack, and the script has lines
    30 (read) and 32 (close). *)
Definition sample_world (f : fuzzer) (replies : list reply) : world :=
  mk_world
    (mk_sys (mk_state sample_config false 40000 [] [listening_socket; connected_socket]
               [FdSocket 1] (Some 1%nat)
               [script_call 30 "read" [EXPR_INTEGER 4; EXPR_ELLIPSIS; EXPR_INTEGER 20];
                script_call 32 "close" [EXPR_INTEGER 4]]
               (Some 1%nat) None 0 0 70000 5 (replicate 500 70000) [] [] [])
       f false (mk_syscalls SYSCALL_IDLE None (-1)) replies [])
    (Some 0%nat :: replicate 10 None) None false (-1) false [].

Definition all_on : fuzz_config := mk_fuzz_config false false false false false false.

(** The input: a packet without options and payload; a turn with one packet, and with a read
    of 5 bytes or with four more packets. *)
Definition plain_packet : bytes := [1; 1; 1; 1; 0; 0; 0; 0; 0; 60].
Definition plain_turn : bytes := plain_packet ++ [0; 99].
Definition read_turn : bytes := plain_packet ++ [0; 10; 0; 0; 0; 5].
Definition dup_turn : bytes := plain_packet ++ [200] ++ mjoin (replicate 4 plain_packet) ++ [99].
Definition sample_file : bytes :=
  read_turn ++ dup_turn ++ mjoin (replicate 8 plain_turn) ++ replicate 24 0 ++ mjoin (replicate 3 plain_turn).

(** Reads return 0 in one stack and fail with EAGAIN in the other. *)
Definition tldk_world : world :=
  sample_world (sample_fuzzer all_on sample_file false) (replicate 20 (returns_only 0 0)).
Definition linux_world : world :=
  sample_world (sample_fuzzer all_on sample_file false) (replicate 20 (returns_only (-1) 11)).

Definition world_after (r : exec (world * unit)) (w : world) : world :=
  match r with Ok (w', _) => w' | Fault _ => w end.
Definition tldk_end : world := world_after (fuzz_connection (Some 1%nat) tldk_world) tldk_world.
Definition linux_end : world := world_after (fuzz_connection (Some 1%nat) linux_world) linux_world.

Lemma tldk_returns : fuzz_connection (Some 1%nat) tldk_world = Ok (tldk_end, tt).
Proof. vm_compute. reflexivity. Qed.
Lemma linux_returns : fuzz_connection (Some 1%nat) linux_world = Ok (linux_end, tt).
Proof. vm_compute. reflexivity. Qed.

Lemma fuzz_connection_refines_witness :
  fuzz_program (w_predefined tldk_world) (stim tldk_world) = Ok (stim tldk_end, tt).
Proof. exact (fuzz_connection_refines (Some 1%nat) tldk_world tldk_end tldk_returns). Defined.

Lemma same_stimuli_witness :
  rec_entries (fz_script (sys_fuzzer (w_sys tldk_end)))
    = rec_entries (fz_script (sys_fuzzer (w_sys linux_end))).
Proof.
  assert (stim tldk_world = stim linux_world) as Hs by (vm_compute; reflexivity).
  assert (w_predefined tldk_world = w_predefined linux_world) as Hp by (vm_compute; reflexivity).
  exact (proj1 (same_stimuli (Some 1%nat) (Some 1%nat) tldk_world linux_world tldk_end linux_end
    Hs Hp tldk_returns linux_returns)).
Defined.

(** The run injected 20 packets and made 5 calls, and the two stacks are told apart. *)
Example sample_run_deeds :
  length (fst (deeds tldk_end)) = 20%nat /\ length (snd (deeds tldk_end)) = 5%nat /\
  fuzz_test_result_compare (default [] (rec_entries (fz_result (sys_fuzzer (w_sys tldk_end)))))
    (default [] (rec_entries (fz_result (sys_fuzzer (w_sys linux_end))))) = Ok 2.
Proof. vm_compute. split_and!; reflexivity. Qed.

(** ** The verdict *)

Definition sample_summary (c : Z) : summary := mk_summary (sample_results c) 100 0 false.

Lemma compare_runs_exact_witness :
  compare_runs all_on (sample_summary 5) (sample_summary 5) false = Ok [] /\
  exists reason reasons,
    compare_runs all_on (sample_summary 5) (sample_summary 6) false = Ok (reason :: reasons).
Proof.
  split.
  - apply (compare_runs_exact all_on (sample_summary 5) (sample_summary 5) false);
      [reflexivity|reflexivity|]. split; [|reflexivity]. split; [reflexivity|]. split; [reflexivity|].
    split; [reflexivity|]. intros k (x&y&Hx&Hy&Hn). congruence.
  - apply (compare_runs_exact all_on (sample_summary 5) (sample_summary 6) false);
      [reflexivity|reflexivity|]. intros [(_&_&_&Hd) _]. apply (Hd 3%nat). by exists [5], [6].
Defined.

(** ** The one chance of is_fuzz_once *)

Definition once_config : fuzz_config := mk_fuzz_config false false false true false false.
Definition once_world : world :=
  sample_world (sample_fuzzer once_config [0; 1; 2] true) (replicate 20 (returns_only 0 0)).

(** The globals after the initialisation, for a buffer of results that stays as it is. *)
Definition once_again (buf : option bytes) : world :=
  sample_world (set_fz_file_index 0 (set_fz_result (mk_recorder buf 0 (Some (replicate 1000 None)))
    (sample_fuzzer once_config [0; 1; 2] true))) (replicate 20 (returns_only 0 0)).
Definition once_end (buf : option bytes) : world := world_after (do_some_fuzz 2 (once_again buf)) once_world.

Lemma once_returns buf : do_some_fuzz 2 (once_again buf) = Ok (once_end buf, tt).
Proof. vm_compute. reflexivity. Qed.

Lemma fuzz_once_not_reset_witness :
  deeds (once_end (Some (replicate (Z.to_nat 30000) 0))) = deeds once_world.
Proof.
  apply (fuzz_once_not_reset 2 once_world); [by split|].
  exact (once_returns (Some (replicate (Z.to_nat 30000) 0))).
Defined.

(** In the first run, with the flag not yet set, the same input injects a packet. *)
Example fuzz_once_first_run :
  length (fst (deeds (world_after (do_some_fuzz 1
    (sample_world (sample_fuzzer once_config (0 :: plain_packet) false) [])) once_world))) = 1%nat.
Proof. vm_compute. reflexivity. Qed.

(** ** The watch *)

(** A segment of the connection with 3 bytes, at sequence number 1. *)
Definition data_segment (payload : bytes) : packet :=
  match new_tcp_packet AF_INET DIRECTION_OUTBOUND (mk_ip_info (mk_tos TOS_CHECK_NONE 0) 0 255) 0 0
          "." 1 3 1 1000 0 None with
  | Ok (Success p) => match put_bytes (pk_buffer p) 40 payload with
                      | Ok b => set_pk_buffer b p
                      | Fault _ => p
                      end
  | _ => sample_seg
  end.

Lemma written_data_passes_witness :
  w_data_error (world_after (note_outbound (data_segment [0; 1; 2]) tldk_world) tldk_world) = false.
Proof.
  rewrite (written_data_passes (data_segment [0; 1; 2]) tldk_world
    (world_after (note_outbound (data_segment [0; 1; 2]) tldk_world) tldk_world)
    20 16777216 40 0 [9; 9; 9] [0; 1; 2]); try (vm_compute; reflexivity); vm_compute; discriminate.
Defined.

(** Other bytes are reported. *)
Example wrong_data_reported :
  w_data_error (world_after (note_outbound (data_segment [0; 1; 3]) tldk_world) tldk_world) = true.
Proof. vm_compute. reflexivity. Qed.

(** A stream beyond 4 GiB is reported although it is right: the digit written is that of a
    64-bit position, and the one expected that of a 32-bit sequence number. *)
Example right_data_reported :
  write_pattern (Some [0; 0; 0]) 3 (2 ^ 32) = Ok (Some [6; 7; 8]) /\ u32 (2 ^ 32 + 1) = 1 /\
  w_data_error (world_after (note_outbound (data_segment [6; 7; 8]) tldk_world) tldk_world) = true.
Proof. vm_compute. split_and!; reflexivity. Qed.

(** ** Inputs on which the fuzzer fails *)

(** An injected header length below 5 words makes the checksum of the segment run past the
    end of the packet: the input of zeros. *)
Example short_ihl_overruns :
  do_some_fuzz 1 (sample_world (sample_fuzzer all_on [] false) []) = Fault OutOfBounds.
Proof. vm_compute. reflexivity. Qed.

(** One that is longer than the packet makes the checksum of the header do so: a packet
    without payload whose header length becomes 15 words. *)
Example long_ihl_overruns :
  do_some_fuzz 1 (sample_world (sample_fuzzer all_on [1; 1; 1; 1; 0; 0; 0; 0; 0; 0; 0; 15] false) [])
    = Fault OutOfBounds.
Proof. vm_compute. reflexivity. Qed.

(** The event of a check is freed while the state points to it: the next update takes the
    time of the last event from freed memory, here whatever the allocator left in it. *)
Example freed_event_is_read :
  let scribble : Free := set_ev_time_usecs 12345 in
  match @check_loop zero_malloc sample_libc plain_ntop scribble 1 tldk_world with
  | Ok (w, _) => st_script_last_time_usecs (sys_state (w_sys w)) = 12345
  | Fault _ => False
  end.
Proof. vm_compute. reflexivity. Qed.

(** ** Room for results *)

Definition recording_fuzzer : fuzzer :=
  set_fz_is_fuzz_start true
    (set_fz_result (mk_recorder (Some (replicate (Z.to_nat 30000) 0)) 0 None) (fuzz_start [])).

Lemma recording_holds : rec_holds (fz_result recording_fuzzer) 30000 [].
Proof.
  exists (replicate (Z.to_nat 30000) 0). split; [reflexivity|].
  split; [unfold zlen; rewrite length_replicate; lia|].
  split; [reflexivity|]. split; [apply Z.leb_le; reflexivity|reflexivity].
Qed.

Definition long_read : bytes := replicate (Z.to_nat 29974) 1.
Lemma long_read_zlen : zlen long_read = 29974.
Proof. unfold long_read, zlen. rewrite length_replicate. lia. Qed.
Lemma long_read_ok : bytes_ok long_read.
Proof. apply Forall_replicate. split; lia. Qed.

Lemma read_result_bound_witness :
  (exists f', record_read [1; 2] recording_fuzzer = Ok (f', tt) /\
     rec_holds (fz_result f') 30000 (string_bytes ("read_result :12" +:+ newline +:+ "read : 2" +:+ newline))) /\
  record_read long_read recording_fuzzer = Fault OutOfBounds.
Proof.
  split.
  - destruct (read_result_bound recording_fuzzer [1; 2] recording_holds eq_refl) as (f'&E&Hr&_);
      [repeat constructor; lia|vm_compute; discriminate|]. exists f'. split; [exact E|exact Hr].
  - pose proof (read_result_bound recording_fuzzer long_read recording_holds eq_refl long_read_ok) as H2.
    rewrite long_read_zlen in *. exact (H2 ltac:(lia)).
Defined.
