(* ===== verification/Code.v ===== *)
(** * Code: the code snippets of a script (code.c, code.h, tcp.h)

    A code event takes a snapshot of the socket under test (the options TCP_INFO,
    TCP_CC_INFO and SO_MEMINFO) and keeps it with the text of the snippet.  At the end of
    the run all of it is written to a temporary file, as assignments of the values and
    the snippets after them, and an interpreter is run on the file.

    What is written to the file is a [string]; the interpreter, which sees the text of the
    file, is the class [CodeShell]; what happens to the file system is a list of
    [code_act]. *)

From S2P Require Import Prelude Headers Packet Script Socket RunState FuzzHelper SystemCall RunEvents.

(** ** Data *)

(** [code.h:35-39] enum code_format_t *)
Inductive code_format_t := FORMAT_NONE | FORMAT_PYTHON | FORMAT_NUM_TYPES.

(** [code.h:50-62] enum code_data_t, on Linux *)
Inductive code_data_t :=
  | DATA_NONE
  | DATA_TCP_INFO
  | DATA_TCP_CC_INFO
  | DATA_SO_MEMINFO
  | DATA_NUM_TYPES.

(** [code.h:65-69] struct code_text *)
Record code_text := mk_code_text {
  ct_text : string;
  ct_file_name : string;
  ct_line_number : Z
}.

(** [code.h:72-76] struct code_data *)
Record code_data := mk_code_data {
  cd_buffer : bytes;
  cd_type : code_data_t;
  cd_len : Z
}.

(** [code.h:42-86] struct code_fragment: its type with its contents; the list is in
    [code_state] *)
Inductive code_fragment :=
  | FRAGMENT_NONE
  | FRAGMENT_TEXT (text : code_text)
  | FRAGMENT_DATA (data : code_data)
  | FRAGMENT_NUM_TYPES.

(** [code.h:89-98] struct code_state; the linked list is [cs_list], its file what has been
    written to it *)
Record code_state := mk_code_state {
  cs_verbose : bool;
  cs_format : code_format_t;
  cs_data_type : code_data_t;
  cs_command_line : string;
  cs_path : option string;
  cs_file : option string;
  cs_list : list code_fragment
}.

Definition set_cs_data_type (v : code_data_t) (c : code_state) : code_state :=
  mk_code_state (cs_verbose c) (cs_format c) v (cs_command_line c) (cs_path c) (cs_file c) (cs_list c).
Definition set_cs_path (v : option string) (c : code_state) : code_state :=
  mk_code_state (cs_verbose c) (cs_format c) (cs_data_type c) (cs_command_line c) v (cs_file c) (cs_list c).
Definition set_cs_file (v : option string) (c : code_state) : code_state :=
  mk_code_state (cs_verbose c) (cs_format c) (cs_data_type c) (cs_command_line c) (cs_path c) v (cs_list c).
Definition set_cs_list (v : list code_fragment) (c : code_state) : code_state :=
  mk_code_state (cs_verbose c) (cs_format c) (cs_data_type c) (cs_command_line c) (cs_path c) (cs_file c) v.

(** A member of one of the structs of socket options: its width and offset, and the bits
    of a bit-field. *)
Inductive member :=
  | U8 (off : Z)
  | U16 (off : Z)
  | U32 (off : Z)
  | U64 (off : Z)
  | UBits (off lo width : Z).

(** The value of a member in a buffer. *)
Definition read_member (b : bytes) (m : member) : exec Z :=
  match m with
  | U8 o => ld8 b o
  | U16 o => ld16 b o
  | U32 o => ld32 b o
  | U64 o => le_combine <$> get_bytes b o 8
  | UBits o lo width => v ← ld8 b o; Ok (bits_get v lo width)
  end.

(** [tcp.h:143-201] struct _tcp_info, its size *)
Definition sizeof_tcp_info : Z := 192.
(** [tcp.h:247-252] struct _tcpvegas_info, its size *)
Definition sizeof_tcpvegas_info : Z := 16.
(** [tcp.h:256-262] struct _tcp_dctcp_info, its size *)
Definition sizeof_tcp_dctcp_info : Z := 16.
(** [tcp.h:266-273] struct _tcp_bbr_info, its size *)
Definition sizeof_tcp_bbr_info : Z := 20.
(** [tcp.h:275-279] union _tcp_cc_info, its size *)
Definition sizeof_tcp_cc_info : Z := 20.
(** [tcp.h:231-243] _SK_MEMINFO_VARS *)
Definition SK_MEMINFO_VARS : Z := 9.

(** The numbers of <netinet/tcp.h> and <sys/socket.h>. *)
Definition SOL_TCP : Z := 6.
Definition SOL_SOCKET : Z := 1.
Definition TCP_INFO : Z := 11.
Definition TCP_CC_INFO : Z := 26.
Definition SO_MEMINFO : Z := 55.

(** ** Writing the code *)

Definition quote : string := String (Ascii.ascii_of_nat 34) "".
Definition backslash : string := String (Ascii.ascii_of_nat 92) "".

(** [code.c:48-58] python_preamble *)
Definition python_preamble : string :=
  "import sys" +:+ newline
  +:+ "import traceback" +:+ newline
  +:+ "def excepthook(etype, value, tb):" +:+ newline
  +:+ "  sys.stderr.write(" +:+ quote +:+ "%s:%d: error in Python code" +:+ backslash +:+ "n" +:+ quote
  +:+ " %" +:+ newline
  +:+ "                   (_file, _line))" +:+ newline
  +:+ "  traceback.print_exception(etype, value, tb)" +:+ newline
  +:+ newline
  +:+ "sys.excepthook = excepthook" +:+ newline
  +:+ newline.

(** The assertions and the switch that the writers start with. *)
Definition if_python (code : code_state) (text : string) : exec string :=
  match cs_format code with
  | FORMAT_PYTHON => Ok text
  | FORMAT_NONE | FORMAT_NUM_TYPES => Fault AssertFailed
  end.

(** [code.c:61-74] write_preamble *)
Definition write_preamble (code : code_state) : exec string :=
  if_python code (python_preamble +:+ newline).

(** [code.c:81-94] emit_var *)
Definition emit_var (code : code_state) (name : string) (value : Z) : exec string :=
  if_python code (name +:+ " = " +:+ dec (u64 value) +:+ newline).

(** [code.c:97-100] emit_var_end *)
Definition emit_var_end (code : code_state) : exec string := Ok newline.

(** A sequence of calls that write. *)
Fixpoint emit_all {A} (emit : A -> exec string) (l : list A) : exec string :=
  match l with
  | [] => Ok ""%string
  | x :: l' => a ← emit x; b ← emit_all emit l'; Ok (a +:+ b)
  end.

(** Calls of emit_var with constants, and with members of a buffer. *)
Definition emit_consts (code : code_state) (l : list (string * Z)) : exec string :=
  emit_all (fun '(name, value) => emit_var code name value) l.
Definition emit_members (code : code_state) (info : bytes) (l : list (string * member)) : exec string :=
  emit_all (fun '(name, m) => value ← read_member info m; emit_var code name value) l.

(** [code.c:106-131] the symbols of write_symbols, with their values on Linux *)
Definition symbol_vars : list (string * Z) := [
  ("TCP_ESTABLISHED", 1); ("TCP_SYN_SENT", 2); ("TCP_SYN_RECV", 3); ("TCP_FIN_WAIT1", 4);
  ("TCP_FIN_WAIT2", 5); ("TCP_TIME_WAIT", 6); ("TCP_CLOSE", 7); ("TCP_CLOSE_WAIT", 8);
  ("TCP_LAST_ACK", 9); ("TCP_LISTEN", 10); ("TCP_CLOSING", 11);
  ("TCP_CA_Open", 0); ("TCP_CA_Disorder", 1); ("TCP_CA_CWR", 2); ("TCP_CA_Recovery", 3);
  ("TCP_CA_Loss", 4);
  ("TCPI_OPT_TIMESTAMPS", 1); ("TCPI_OPT_WSCALE", 4); ("TCPI_OPT_ECN", 8);
  ("TCPI_OPT_SYN_DATA", 32)
]%string.

(** [code.c:103-133] write_symbols *)
Definition write_symbols (code : code_state) : exec string := emit_consts code symbol_vars.

(** [code.c:149-196] the members that write_tcp_info writes, in its order *)
Definition tcp_info_vars : list (string * member) := [
  ("tcpi_state", U8 0); ("tcpi_ca_state", U8 1); ("tcpi_retransmits", U8 2);
  ("tcpi_probes", U8 3); ("tcpi_backoff", U8 4); ("tcpi_options", U8 5);
  ("tcpi_snd_wscale", UBits 6 0 4); ("tcpi_rcv_wscale", UBits 6 4 4);
  ("tcpi_delivery_rate_app_limited", UBits 7 0 1); ("tcpi_rto", U32 8); ("tcpi_ato", U32 12);
  ("tcpi_snd_mss", U32 16); ("tcpi_rcv_mss", U32 20); ("tcpi_unacked", U32 24);
  ("tcpi_sacked", U32 28); ("tcpi_lost", U32 32); ("tcpi_retrans", U32 36);
  ("tcpi_fackets", U32 40); ("tcpi_last_data_sent", U32 44); ("tcpi_last_ack_sent", U32 48);
  ("tcpi_last_data_recv", U32 52); ("tcpi_last_ack_recv", U32 56); ("tcpi_pmtu", U32 60);
  ("tcpi_rcv_ssthresh", U32 64); ("tcpi_rtt", U32 68); ("tcpi_rttvar", U32 72);
  ("tcpi_snd_ssthresh", U32 76); ("tcpi_snd_cwnd", U32 80); ("tcpi_advmss", U32 84);
  ("tcpi_reordering", U32 88); ("tcpi_total_retrans", U32 100); ("tcpi_pacing_rate", U64 104);
  ("tcpi_max_pacing_rate", U64 112); ("tcpi_rcv_rtt", U32 92); ("tcpi_rcv_space", U32 96);
  ("tcpi_bytes_acked", U64 120); ("tcpi_bytes_received", U64 128); ("tcpi_segs_out", U32 136);
  ("tcpi_segs_in", U32 140); ("tcpi_notsent_bytes", U32 144); ("tcpi_min_rtt", U32 148);
  ("tcpi_data_segs_in", U32 152); ("tcpi_data_segs_out", U32 156);
  ("tcpi_delivery_rate", U64 160); ("tcpi_busy_time", U64 168); ("tcpi_rwnd_limited", U64 176);
  ("tcpi_sndbuf_limited", U64 184)
]%string.

(** [code.c:140-199] write_tcp_info *)
Definition write_tcp_info (code : code_state) (info : bytes) (len : Z) : exec string :=
  _ ← c_assert (sizeof_tcp_info <=? u64 len);
  a ← write_symbols code;
  b ← emit_members code info tcp_info_vars;
  c ← emit_var_end code;
  Ok (a +:+ b +:+ c).

(** [code.c:202-221] write_tcp_bbr_cc_info *)
Definition write_tcp_bbr_cc_info (code : code_state) (info : bytes) (len : Z) : exec string :=
  if u64 len <? sizeof_tcp_bbr_info then Ok ""%string
  else
    a ← emit_members code info [("bbr_bw_lo", U32 0); ("bbr_bw_hi", U32 4)]%string;
    hi ← read_member info (U32 4);
    lo ← read_member info (U32 0);
    b ← emit_var code "bbr_bw" (u64 (u64 (Z.shiftl hi 32) + lo));
    c ← emit_members code info [("bbr_min_rtt", U32 8); ("bbr_pacing_gain", U32 12);
                                ("bbr_cwnd_gain", U32 16)]%string;
    Ok (a +:+ b +:+ c).

(** [code.c:224-238] write_tcp_dctcp_cc_info *)
Definition write_tcp_dctcp_cc_info (code : code_state) (info : bytes) (len : Z) : exec string :=
  if u64 len <? sizeof_tcp_dctcp_info then Ok ""%string
  else emit_members code info [("dctcp_enabled", U16 0); ("dctcp_ce_state", U16 2);
    ("dctcp_alpha", U32 4); ("dctcp_ab_ecn", U32 8); ("dctcp_ab_tot", U32 12)]%string.

(** [code.c:241-254] write_tcp_vegas_cc_info *)
Definition write_tcp_vegas_cc_info (code : code_state) (info : bytes) (len : Z) : exec string :=
  if u64 len <? sizeof_tcpvegas_info then Ok ""%string
  else emit_members code info [("tcpv_enabled", U32 0); ("tcpv_rttcnt", U32 4);
    ("tcp_rtt", U32 8); ("tcp_minrtt", U32 12)]%string.

(** [code.c:257-266] write_tcp_cc_info *)
Definition write_tcp_cc_info (code : code_state) (info : bytes) (len : Z) : exec string :=
  a ← write_tcp_bbr_cc_info code info len;
  b ← write_tcp_dctcp_cc_info code info len;
  c ← write_tcp_vegas_cc_info code info len;
  d ← emit_var_end code;
  Ok (a +:+ b +:+ c +:+ d).

(** [code.c:275-283] the entries that write_so_meminfo writes *)
Definition so_meminfo_vars : list (string * member) := [
  ("SK_MEMINFO_RMEM_ALLOC", U32 0); ("SK_MEMINFO_RCVBUF", U32 4);
  ("SK_MEMINFO_WMEM_ALLOC", U32 8); ("SK_MEMINFO_SNDBUF", U32 12);
  ("SK_MEMINFO_FWD_ALLOC", U32 16); ("SK_MEMINFO_WMEM_QUEUED", U32 20);
  ("SK_MEMINFO_OPTMEM", U32 24); ("SK_MEMINFO_BACKLOG", U32 28); ("SK_MEMINFO_DROPS", U32 32)
]%string.

(** [code.c:269-286] write_so_meminfo *)
Definition write_so_meminfo (code : code_state) (mem_info : bytes) (len : Z) : exec string :=
  _ ← c_assert (4 * SK_MEMINFO_VARS <=? u64 len);
  a ← emit_members code mem_info so_meminfo_vars;
  b ← emit_var_end code;
  Ok (a +:+ b).

(** [code.c:389-406] write_text *)
Definition write_text (code : code_state) (text : code_text) : exec string :=
  if_python code ("_file = '" +:+ ct_file_name text +:+ "'" +:+ newline
    +:+ "_line = " +:+ dec (ct_line_number text) +:+ newline
    +:+ ct_text text +:+ newline +:+ newline).

(** [code.c:409-435] write_data *)
Definition write_data (code : code_state) (data : code_data) : exec string :=
  match cd_type data with
  | DATA_NONE | DATA_NUM_TYPES => Fault AssertFailed
  | DATA_TCP_INFO => write_tcp_info code (cd_buffer data) (cd_len data)
  | DATA_TCP_CC_INFO => write_tcp_cc_info code (cd_buffer data) (cd_len data)
  | DATA_SO_MEMINFO => write_so_meminfo code (cd_buffer data) (cd_len data)
  end.

(** [code.c:438-456] write_fragment *)
Definition write_fragment (code : code_state) (fragment : code_fragment) : exec string :=
  match fragment with
  | FRAGMENT_NONE | FRAGMENT_NUM_TYPES => Fault AssertFailed
  | FRAGMENT_TEXT text => write_text code text
  | FRAGMENT_DATA data => write_data code data
  end.

(** [code.c:459-466] write_all_fragments *)
Definition write_all_fragments (code : code_state) : exec string :=
  emit_all (write_fragment code) (cs_list code).

(** ** Keeping snapshots and snippets *)

(** [code.c:469-474] append_fragment *)
Definition append_fragment (code : code_state) (fragment : code_fragment) : code_state :=
  set_cs_list (cs_list code ++ [fragment]) code.

(** [code.c:479-492] append_text *)
Definition append_text (code : code_state) (file_name : string) (line_number : Z)
    (text_buffer : string) : code_state :=
  append_fragment code (FRAGMENT_TEXT (mk_code_text text_buffer file_name line_number)).

(** [code.c:498-510] append_data *)
Definition append_data (code : code_state) (data_type : code_data_t) (data_buffer : bytes)
    (data_len : Z) : code_state :=
  append_fragment code (FRAGMENT_DATA (mk_code_data data_buffer data_type data_len)).

(** [code.c:512-547] code_new, of the members of the configuration it reads *)
Definition code_new (code_format code_sockopt code_command_line : string) (verbose : bool)
    : exec code_state :=
  format ← (if String.eqb code_format "python" then Ok FORMAT_PYTHON else Fault Died);
  data_type ← (if String.eqb code_sockopt "" then Ok DATA_NONE
               else if String.eqb code_sockopt "TCP_INFO" then Ok DATA_TCP_INFO
               else if String.eqb code_sockopt "TCP_CC_INFO" then Ok DATA_TCP_CC_INFO
               else if String.eqb code_sockopt "SO_MEMINFO" then Ok DATA_SO_MEMINFO
               else Fault Died);
  Ok (mk_code_state verbose format data_type code_command_line None None []).

(** ** Running the code *)

(** What the program does to the file system and the shell. *)
Inductive code_act :=
  | Wrote (path text : string)
  | Ran (command : string)
  | Unlinked (path : string).

(** The C library and the shell: the path mkstemp(3) makes of the template, whether fdopen,
    fclose and unlink succeed, and the status of system(3) for a command that is given the
    file with that text. *)
Class CodeShell := {
  mkstemp : string -> option string;
  fdopen_ok : bool;
  fclose_ok : bool;
  unlink_ok : bool;
  system_on : string -> string -> Z
}.

Section Run.
Context `{CodeShell, Libc}.

(** [code.c:571-593] write_code_file *)
Definition write_code_file (code : code_state) : exec (code_state * list code_act) :=
  match mkstemp "/tmp/code_XXXXXX" with
  | None => Fault Died
  | Some path =>
      _ ← c_assert (match cs_path code with None => true | Some _ => false end);
      let code := set_cs_path (Some path) code in
      if negb fdopen_ok then Fault Died
      else
        a ← write_preamble code;
        b ← write_all_fragments code;
        if negb fclose_ok then Fault Died
        else Ok (set_cs_file None code, [Wrote path (a +:+ b)])
  end.

(** [code.c:599-637] execute_code_command_line: the file has the text [text]; whether it
    returns STATUS_OK, the error being only printed *)
Definition execute_code_command_line (code : code_state) (text : string)
    : exec (bool * list code_act) :=
  path ← deref (cs_path code);
  let full_command_line := cs_command_line code +:+ " " +:+ path in
  let acts := (if cs_verbose code then [Ran ("cat " +:+ path)] else []) ++ [Ran full_command_line] in
  let status := system_on full_command_line text in
  Ok (if status =? -1 then false
      else if WIFSIGNALED status && ((WTERMSIG status =? SIGINT) || (WTERMSIG status =? SIGQUIT))
           then false
      else WEXITSTATUS status =? 0, acts).

(** [code.c:640-644] delete_code_file *)
Definition delete_code_file (code : code_state) : exec (list code_act) :=
  match cs_path code with
  | Some path => if negb unlink_ok then Fault Died else Ok [Unlinked path]
  | None => Ok []
  end.

(** The text of a file that has been written. *)
Definition written (acts : list code_act) : string :=
  match acts with Wrote _ text :: _ => text | _ => "" end.

(** [code.c:647-656] code_execute: whether it returns STATUS_OK *)
Definition code_execute (code : code_state) : exec (code_state * bool * list code_act) :=
  match cs_list code with
  | [] => Ok (code, true, [])
  | _ =>
      '(code, a) ← write_code_file code;
      '(result, b) ← execute_code_command_line code (written a);
      c ← delete_code_file code;
      Ok (code, result, a ++ b ++ c)
  end.

(** [code.c:672-699] get_data: the level, the name and the size of an option *)
Definition data_option (data_type : code_data_t) : exec (Z * Z * Z) :=
  match data_type with
  | DATA_NONE | DATA_NUM_TYPES => Fault AssertFailed
  | DATA_TCP_INFO => Ok (SOL_TCP, TCP_INFO, sizeof_tcp_info)
  | DATA_TCP_CC_INFO => Ok (SOL_TCP, TCP_CC_INFO, sizeof_tcp_cc_info)
  | DATA_SO_MEMINFO => Ok (SOL_SOCKET, SO_MEMINFO, 4 * SK_MEMINFO_VARS)
  end.

(** [code.c:662-711] get_data: the buffer and its length, None for NULL *)
Definition get_data (fd : Z) (data_type : code_data_t) : sysm (option (bytes * Z)) :=
  '(level, opt_name, data_len) ← exec_ (data_option data_type);
  let data := replicate (Z.to_nat data_len) 0 in
  r ← library (LGetsockopt fd level opt_name data_len);
  if rp_result r <? 0 then mret None
  else
    data ← exec_ (put_bytes data 0 (rp_bytes r));
    mret (Some (data, s32 (rp_len r))).

(** [code.c:735-769] run_code_event: one of the options; without its data the run ends *)
Definition snapshot (fd : Z) (data_type : code_data_t) (code : code_state) : sysm code_state :=
  let code := set_cs_data_type data_type code in
  data ← get_data fd data_type;
  match data with
  | Some (buffer, len) => mret (append_data code data_type buffer len)
  | None => exec_ (Fault Died)
  end.

(** [code.c:713-777] run_code_event: [ei] is the event *)
Definition run_code_event (ei : nat) (text : string) (code : code_state) (s : sys)
    : exec (sys * code_state) :=
  st ← wait_for_event (sys_state s);
  let s := set_sys_state st s in
  match st_socket_under_test st with
  | None => Fault Died
  | Some si =>
      sk ← socket_at st si;
      e ← event_at st ei;
      let fd := sk_live_fd sk in
      '(s, r) ← (code ← snapshot fd DATA_TCP_INFO code;
                 code ← snapshot fd DATA_TCP_CC_INFO code;
                 snapshot fd DATA_SO_MEMINFO code) s;
      match r with
      | Done code =>
          Ok (s, append_text code (cfg_script_path (st_config (sys_state s))) (ev_line_number e) text)
      | Err _ => Fault Died
      end
  end.

End Run.

(** ** Reading the file back *)

Definition space : Ascii.ascii := Ascii.ascii_of_nat 32.
Definition equals : Ascii.ascii := Ascii.ascii_of_nat 61.

(** The lines of a text: what is before each newline. *)
Fixpoint lines_from (line : string) (text : string) : list string :=
  match text with
  | EmptyString => []
  | String c text' =>
      if Ascii.eqb c (Ascii.ascii_of_nat 10) then line :: lines_from "" text'
      else lines_from (line +:+ String c "") text'
  end.
Definition lines (text : string) : list string := lines_from "" text.

(** The number that a string of digits spells. *)
Fixpoint undec_from (acc : Z) (s : string) : option Z :=
  match s with
  | EmptyString => Some acc
  | String c s' =>
      let d := Z.of_nat (Ascii.nat_of_ascii c) - 48 in
      if (0 <=? d) && (d <=? 9) then undec_from (10 * acc + d) s' else None
  end.

(** An assignment of a number to a variable, as Python reads it. *)
Fixpoint assignment_from (name line : string) : option (string * Z) :=
  match line with
  | EmptyString => None
  | String c line' =>
      if Ascii.eqb c space then
        match line' with
        | String e (String f digits) =>
            if Ascii.eqb e equals && Ascii.eqb f space
            then value ← undec_from 0 digits; Some (name, value) else None
        | _ => None
        end
      else assignment_from (name +:+ String c "") line'
  end.
Definition assignments (text : string) : list (string * Z) := omap (assignment_from "") (lines text).

(** A name as the C source has them: letters, digits and underscores. *)
Fixpoint is_name (s : string) : bool :=
  match s with
  | EmptyString => true
  | String c s' => negb (Ascii.eqb c (Ascii.ascii_of_nat 10)) && negb (Ascii.eqb c space) && is_name s'
  end.

Lemma string_app_empty (s : string) : s +:+ "" = s.
Proof. induction s as [|c s IH]; [done|]. exact (f_equal (String c) IH). Qed.

Lemma lines_from_app line s t : is_name s = true -> lines_from line (s +:+ t) = lines_from (line +:+ s) t.
Proof.
  revert line. induction s as [|c s IH]; intros line Hs; [by rewrite string_app_empty|].
  cbn [is_name] in Hs. breflect. destruct Hs as [[Hc _] Hs].
  change (String c s +:+ t) with (String c (s +:+ t)). cbn [lines_from]. rewrite Hc, IH by done.
  by rewrite string_app_assoc.
Qed.

Lemma assignment_from_app name s t : is_name s = true ->
  assignment_from name (s +:+ t) = assignment_from (name +:+ s) t.
Proof.
  revert name. induction s as [|c s IH]; intros name Hs; [by rewrite string_app_empty|].
  cbn [is_name] in Hs. breflect. destruct Hs as [[_ Hc] Hs].
  change (String c s +:+ t) with (String c (s +:+ t)).
  cbn [assignment_from]. rewrite Hc, IH by done. by rewrite string_app_assoc.
Qed.

Lemma hex_digit_dec z : 0 <= z < 10 ->
  hex_digit z = String (Ascii.ascii_of_nat (48 + Z.to_nat z)) "" /\ is_name (hex_digit z) = true.
Proof.
  intros. assert (z = 0 \/ z = 1 \/ z = 2 \/ z = 3 \/ z = 4 \/ z = 5 \/ z = 6 \/ z = 7 \/ z = 8 \/ z = 9)
    as Hz by lia. repeat destruct Hz as [->|Hz]; [done..|by subst].
Qed.

Lemma is_name_app s t : is_name (s +:+ t) = is_name s && is_name t.
Proof.
  induction s as [|c s IH]; [done|]. change (String c s +:+ t) with (String c (s +:+ t)).
  cbn [is_name]. by rewrite IH, !andb_assoc.
Qed.

Lemma undec_from_digit acc z t : 0 <= z < 10 ->
  undec_from acc (hex_digit z +:+ t) = undec_from (10 * acc + z) t.
Proof.
  intros Hz. rewrite (proj1 (hex_digit_dec z Hz)).
  change (String ?c "" +:+ t) with (String c t). cbn [undec_from].
  rewrite Ascii.nat_ascii_embedding by lia.
  replace (Z.of_nat (48 + Z.to_nat z) - 48) with z by lia.
  by rewrite (proj2 (Z.leb_le 0 z)), (proj2 (Z.leb_le z 9)) by lia.
Qed.

Lemma dec_digits_spec n : forall z, 0 <= z < 10 ^ Z.of_nat n ->
  is_name (dec_digits n z) = true /\
  exists k, 0 <= k /\ forall acc t, undec_from acc (dec_digits n z +:+ t) = undec_from (acc * 10 ^ k + z) t.
Proof.
  induction n as [|n IH]; intros z Hz; [split; [done|]; exists 0; split; [done|]; intros; cbn in *; f_equal; lia|].
  cbn [dec_digits]. destruct (Z.ltb_spec z 10).
  - split; [apply hex_digit_dec; lia|]. exists 1. split; [done|]. intros. rewrite undec_from_digit by lia.
    f_equal. lia.
  - rewrite Nat2Z.inj_succ, Z.pow_succ_r in Hz by lia.
    destruct (IH (z / 10)) as [Hn (k&Hk&Hu)]; [zlia|]. rewrite is_name_app, Hn, (proj2 (hex_digit_dec (z mod 10) ltac:(zlia))).
    split; [done|]. exists (k + 1). split; [lia|]. intros acc t. rewrite string_app_assoc, Hu.
    rewrite undec_from_digit by zlia. rewrite Z.pow_add_r by lia. f_equal.
    pose proof (Z.div_mod z 10). lia.
Qed.

Lemma undec_dec z : 0 <= z < 2 ^ 64 -> is_name (dec z) = true /\ undec_from 0 (dec z) = Some z.
Proof.
  intros Hz. unfold dec. rewrite (proj2 (Z.ltb_ge z 0)) by lia.
  destruct (dec_digits_spec 20 z) as [Hn (k&_&Hu)].
  { change (10 ^ Z.of_nat 20) with 100000000000000000000. lia. } split; [done|].
  specialize (Hu 0 ""). by rewrite string_app_empty in Hu.
Qed.

Lemma lines_from_equals line t : lines_from line (" = " +:+ t) = lines_from (((line +:+ " ") +:+ "=") +:+ " ") t.
Proof. done. Qed.

(** The assignments of a text that starts with one. *)
Lemma assignments_var name value t :
  is_name name = true -> 0 <= value < 2 ^ 64 ->
  assignments ((name +:+ " = " +:+ dec value +:+ newline) +:+ t) = (name, value) :: assignments t.
Proof.
  intros Hn Hv. destruct (undec_dec value Hv) as [Hd Hu]. unfold assignments, lines.
  rewrite string_app_assoc, lines_from_app by done.
  rewrite string_app_assoc, lines_from_equals, (string_app_assoc (dec value)), lines_from_app by done.
  change (newline +:+ t) with (String (Ascii.ascii_of_nat 10) t).
  cbn [lines_from]. rewrite Ascii.eqb_refl. cbn [omap list_omap].
  rewrite !string_app_assoc. change (assignment_from "" ("" +:+ ?x)) with (assignment_from "" x).
  rewrite assignment_from_app by done.
  change (" " +:+ "=" +:+ " " +:+ dec value) with (String space (String equals (String space (dec value)))).
  cbn [assignment_from]. rewrite !Ascii.eqb_refl. cbn [andb]. by rewrite Hu.
Qed.

Lemma emit_consts_spec code l t :
  cs_format code = FORMAT_PYTHON ->
  Forall (fun '(name, value) => is_name name = true /\ 0 <= value < 2 ^ 64) l ->
  exists text, emit_consts code l = Ok text /\ assignments (text +:+ t) = l ++ assignments t.
Proof.
  intros Hf. unfold emit_consts.
  induction 1 as [|[name value] l [Hn Hv] Hl (text&E&Ha)]; [by exists ""%string|].
  cbn [emit_all]. rewrite E. unfold emit_var, if_python. rewrite Hf, !bind_Ok_eq.
  eexists. split; [reflexivity|]. rewrite u64_small by (simpl in Hv; lia).
  by rewrite string_app_assoc, assignments_var, Ha.
Qed.

(** The members of a list are in the buffer. *)
Definition member_end (m : member) : Z :=
  match m with U8 o => o + 1 | U16 o => o + 2 | U32 o => o + 4 | U64 o => o + 8 | UBits o _ _ => o + 1 end.
Definition member_ok (size : Z) (v : string * member) : bool :=
  is_name (v.1) && (member_end (v.2) <=? size) &&
  match v.2 with U8 o | U16 o | U32 o | U64 o => 0 <=? o
  | UBits o lo width => (0 <=? o) && (0 <=? lo) && (0 <=? width) && (width <=? 8) end.

Lemma read_member_spec info size v :
  bytes_ok info -> size <= zlen info -> member_ok size v = true ->
  exists value, read_member info (v.2) = Ok value /\ 0 <= value < 2 ^ 64.
Proof.
  intros Hb Hz Hm. unfold member_ok in Hm. destruct v as [name m]. cbn [fst snd] in *.
  apply andb_true_iff in Hm as [[_ He]%andb_true_iff Hm]. apply Z.leb_le in He.
  assert (forall o n, 0 <= o -> 0 < n <= 8 -> o + n <= zlen info ->
    exists value, le_combine <$> get_bytes info o n = Ok value /\ 0 <= value < 2 ^ 64) as Hget.
  { intros o n Ho Hn Hon. destruct (get_bytes_in info o n) as [l E]; [lia..|]. rewrite E.
    eexists. split; [done|]. pose proof (le_combine_range l (get_bytes_bytes_ok _ _ _ _ Hb E)) as Hr.
    rewrite (get_bytes_zlen _ _ _ _ E) in Hr. split; [lia|]. eapply Z.lt_le_trans; [apply Hr|].
    change (2 ^ 64) with (256 ^ 8). apply Z.pow_le_mono_r; lia. }
  destruct m; cbn [read_member member_end] in *; breflect; try (apply Hget; lia).
  destruct Hm as [[[Ho Hlo] Hw] Hw8]. rewrite ld8_eq, bind_Ok_eq by lia. eexists. split; [reflexivity|].
  unfold bits_get. pose proof (Z.mod_pos_bound (byte_at info off / 2 ^ lo) (2 ^ width)
    ltac:(apply Z.pow_pos_nonneg; lia)). split; [lia|]. eapply Z.lt_le_trans; [apply H|].
  apply Z.pow_le_mono_r; lia.
Qed.

(** The values of members, as they are in the buffer. *)
Definition values_of (info : bytes) (l : list (string * member)) (values : list (string * Z)) : Prop :=
  Forall2 (fun v x => v.1 = x.1 /\ read_member info (v.2) = Ok (x.2)) l values.

Lemma emit_members_spec code info size l t :
  cs_format code = FORMAT_PYTHON -> bytes_ok info -> size <= zlen info ->
  forallb (member_ok size) l = true ->
  exists text values, emit_members code info l = Ok text /\ values_of info l values /\
    assignments (text +:+ t) = values ++ assignments t.
Proof.
  intros Hf Hb Hz. unfold emit_members, values_of. induction l as [|v l IH]; intros Hl.
  { exists ""%string, []. split_and!; [done|constructor|done]. }
  cbn [forallb] in Hl. apply andb_true_iff in Hl as [Hv Hl]. destruct (IH Hl) as (text&values&E&HF&Ha).
  destruct (read_member_spec info size v Hb Hz Hv) as (value&Er&Hr). destruct v as [name m].
  cbn [emit_all]. rewrite E. cbn [snd] in Er. rewrite Er, bind_Ok_eq. unfold emit_var, if_python.
  rewrite Hf, !bind_Ok_eq. eexists _, ((name, value) :: values).
  split; [reflexivity|]. split; [by constructor|].
  unfold member_ok in Hv. cbn [fst] in Hv. breflect. rewrite u64_small by (simpl in Hr; lia).
  rewrite string_app_assoc, assignments_var, Ha by tauto. done.
Qed.

(** What a snippet sees of the socket is what the kernel said of it: read back as Python
    assignments, the text write_tcp_info makes of a TCP_INFO buffer defines the symbolic
    names and, for each of the 47 members in turn, its value in the buffer; it returns for
    every buffer of at least the size of the struct. *)
Theorem tcp_info_readback (code : code_state) (info : bytes) (len : Z) :
  cs_format code = FORMAT_PYTHON -> bytes_ok info -> sizeof_tcp_info <= zlen info ->
  sizeof_tcp_info <= len < 2 ^ 31 ->
  exists text values, write_tcp_info code info len = Ok text /\
    values_of info tcp_info_vars values /\ assignments text = symbol_vars ++ values.
Proof.
  intros Hf Hb Hz Hl. unfold write_tcp_info. rewrite u64_small by (unfold sizeof_tcp_info in *; simpl in Hl; lia).
  rewrite (proj2 (Z.leb_le _ _)) by lia. cbn [c_assert]. rewrite bind_Ok_eq.
  destruct (emit_members_spec code info sizeof_tcp_info tcp_info_vars newline Hf Hb Hz eq_refl)
    as (b&values&Eb&Hv&Ha).
  destruct (emit_consts_spec code symbol_vars (b +:+ newline) Hf) as (a&Ea&Hs).
  { repeat constructor; done. }
  unfold write_symbols. rewrite Ea, Eb, !bind_Ok_eq. eexists _, values. split; [reflexivity|].
  split; [done|]. rewrite Hs, Ha. f_equal. by rewrite app_nil_r.
Qed.

(** The state of a code executor for Python. *)
Definition python_code : code_state := mk_code_state false FORMAT_PYTHON DATA_NONE "/usr/bin/python" None None [].

Lemma tcp_info_readback_witness : exists text values,
  write_tcp_info python_code (Z.of_nat <$> seq 0 192) 192 = Ok text /\
  values_of (Z.of_nat <$> seq 0 192) tcp_info_vars values /\ assignments text = symbol_vars ++ values.
Proof.
  apply (tcp_info_readback python_code (Z.of_nat <$> seq 0 192) 192); [reflexivity| |vm_compute; discriminate|].
  - unfold bytes_ok, is_byte. apply Forall_fmap, Forall_forall. intros x Hx%elem_of_seq. simpl. lia.
  - split; [vm_compute; discriminate|reflexivity].
Defined.

(** ** The life of the temporary file *)

(** The fragments of code events: their snapshots and snippets. *)
Definition event_fragments (info cc mem : code_data) (text : code_text) : list code_fragment :=
  [FRAGMENT_DATA info; FRAGMENT_DATA cc; FRAGMENT_DATA mem; FRAGMENT_TEXT text].

Lemma emit_all_app {A} (f : A -> exec string) (l k : list A) :
  emit_all f (l ++ k) = (a ← emit_all f l; b ← emit_all f k; Ok (a +:+ b)).
Proof.
  induction l as [|x l IH]; cbn [emit_all app].
  { rewrite bind_Ok_eq. by destruct (emit_all f k). }
  destruct (f x) as [a|]; [|done]. rewrite !bind_Ok_eq, IH.
  destruct (emit_all f l) as [b|]; [|done]. rewrite !bind_Ok_eq.
  destruct (emit_all f k); [|done]. rewrite !bind_Ok_eq. by rewrite string_app_assoc.
Qed.

Lemma get_data_spec `{Libc} fd data_type s s' (r : outcome (option (bytes * Z))) :
  get_data fd data_type s = Ok (s', r) ->
  exists level name size rp rest, data_option data_type = Ok (level, name, size) /\
    sys_replies s = rp :: rest /\ sys_replies s' = rest /\ sys_state s' = sys_state s /\
    sys_calls s' = sys_calls s ++ [LGetsockopt fd level name size] /\
    r = Done (if rp_result rp <? 0 then None
              else Some (rp_bytes rp ++ drop (length (rp_bytes rp)) (replicate (Z.to_nat size) 0),
                         s32 (rp_len rp))).
Proof.
  unfold get_data, mbind, sysm_bind, exec_, library, live. intros E.
  destruct (data_option data_type) as [[[level name] size]|]; [|done]. rewrite bind_Ok_eq in E.
  destruct (sys_replies s) as [|rp rest] eqn:Er; [done|]. exists level, name, size, rp, rest.
  cbn [is_blocking_syscall] in E. unfold is_blocking_syscall in E. cbn in E.
  destruct (rp_result rp <? 0).
  - injection E as <- <-. done.
  - destruct (put_bytes _ 0 _) as [data|] eqn:Ep; [|done]. cbn in E. injection E as <- <-.
    apply put_bytes_Ok in Ep as [_ ->]. done.
Qed.

(** A successful snapshot is one call, and the fragment holds the bytes and the length that
    the kernel gave. *)
Lemma snapshot_spec `{Libc} fd data_type code s s' code' :
  snapshot fd data_type code s = Ok (s', Done code') ->
  exists level name size rp rest buffer, data_option data_type = Ok (level, name, size) /\
    sys_replies s = rp :: rest /\ sys_replies s' = rest /\ sys_state s' = sys_state s /\
    sys_calls s' = sys_calls s ++ [LGetsockopt fd level name size] /\ 0 <= rp_result rp /\
    buffer = rp_bytes rp ++ drop (length (rp_bytes rp)) (replicate (Z.to_nat size) 0) /\
    code' = append_data (set_cs_data_type data_type code) data_type buffer (s32 (rp_len rp)).
Proof.
  unfold snapshot. unfold mbind at 1, sysm_bind at 1. intros E.
  destruct (get_data fd data_type s) as [[s1 r]|] eqn:Eg; [|done].
  apply get_data_spec in Eg as (level&name&size&rp&rest&Ho&Hr&Hr'&Hs&Hc&->).
  destruct (Z.ltb_spec (rp_result rp) 0); [done|]. cbn in E. injection E as <- <-.
  eexists level, name, size, rp, rest, _. done.
Qed.

(** What a code event does: three calls on the live descriptor of the socket under test, in
    order, and the three snapshots and the snippet at the end of the list. *)
Lemma run_code_event_spec `{Libc} ei text code s s' code' :
  run_code_event ei text code s = Ok (s', code') ->
  exists st si sk e r1 r2 r3 b1 b2 b3, wait_for_event (sys_state s) = Ok st /\
    st_socket_under_test st = Some si /\ socket_at st si = Ok sk /\ event_at st ei = Ok e /\
    sys_replies s = r1 :: r2 :: r3 :: sys_replies s' /\ sys_state s' = st /\
    sys_calls s' = sys_calls s ++ [LGetsockopt (sk_live_fd sk) SOL_TCP TCP_INFO sizeof_tcp_info;
      LGetsockopt (sk_live_fd sk) SOL_TCP TCP_CC_INFO sizeof_tcp_cc_info;
      LGetsockopt (sk_live_fd sk) SOL_SOCKET SO_MEMINFO (4 * SK_MEMINFO_VARS)] /\
    cs_format code' = cs_format code /\ cs_path code' = cs_path code /\
    cs_list code' = cs_list code ++ event_fragments (mk_code_data b1 DATA_TCP_INFO (s32 (rp_len r1)))
      (mk_code_data b2 DATA_TCP_CC_INFO (s32 (rp_len r2)))
      (mk_code_data b3 DATA_SO_MEMINFO (s32 (rp_len r3)))
      (mk_code_text text (cfg_script_path (st_config st)) (ev_line_number e)).
Proof.
  unfold run_code_event. intros (st&Hw&E)%exec_bind_Ok. cbn in E.
  destruct (st_socket_under_test st) as [si|] eqn:Hsi; [|done].
  apply exec_bind_Ok in E as (sk&Hsk&(e&He&([s3 r]&E&E')%exec_bind_Ok)%exec_bind_Ok).
  destruct r as [code3|]; [|done]. injection E' as <- <-.
  unfold mbind, sysm_bind in E.
  destruct (snapshot _ DATA_TCP_INFO _ _) as [[s1 [code1|]]|] eqn:E1; [|done..].
  destruct (snapshot _ DATA_TCP_CC_INFO _ _) as [[s2 [code2|]]|] eqn:E2; [|done..].
  apply snapshot_spec in E1 as (?&?&?&r1&?&b1&[= <- <- <-]&R1&R1'&S1&C1&_&_&->).
  apply snapshot_spec in E2 as (?&?&?&r2&?&b2&[= <- <- <-]&R2&R2'&S2&C2&_&_&->).
  apply snapshot_spec in E as (?&?&?&r3&?&b3&[= <- <- <-]&R3&R3'&S3&C3&_&_&->).
  cbn [sys_replies set_sys_state sys_state sys_calls] in *.
  exists st, si, sk, e, r1, r2, r3, b1, b2, b3.
  rewrite C3, C2, C1, R1, <-R1', R2, <-R2', R3, <-R3', S3, S2, S1.
  split_and!; try done; [by rewrite <-!app_assoc|]. cbn. by rewrite <-!app_assoc.
Qed.

(** A kernel whose TCP_INFO is shorter than the struct of this program: the code event
    itself succeeds, but at the end of the run the code is not run, since writing the
    snapshot fails an assertion. *)
Theorem short_tcp_info_stops_code `{CodeShell, Libc} (ei : nat) (text : string) (code code' : code_state)
    (s s' : sys) (r : reply) :
  head (sys_replies s) = Some r -> 0 <= rp_len r < sizeof_tcp_info ->
  run_code_event ei text code s = Ok (s', code') ->
  exists f, code_execute code' = Fault f.
Proof.
  intros Hr Hlen E.
  apply run_code_event_spec in E as (st&si&sk&e&r1&r2&r3&b1&b2&b3&_&_&_&_&Hrs&_&_&_&_&Hl).
  rewrite Hrs in Hr. injection Hr as ->. unfold code_execute.
  destruct (cs_list code') as [|x l] eqn:El; [by destruct (cs_list code)|].
  unfold write_code_file. destruct (mkstemp _) as [path|]; [|by eexists].
  destruct (cs_path code'); [by eexists|]. cbn [c_assert]. rewrite bind_Ok_eq.
  destruct fdopen_ok; [|by eexists]. cbn [negb].
  unfold write_preamble, if_python. destruct (cs_format _) eqn:Ef; try by eexists. rewrite bind_Ok_eq.
  assert (exists f, write_all_fragments (set_cs_path (Some path) code') = Fault f) as [f ->]; [|by eexists].
  unfold write_all_fragments. cbn [cs_list set_cs_path]. rewrite El, Hl, emit_all_app.
  destruct (emit_all _ (cs_list code)); [|by eexists]. rewrite bind_Ok_eq. cbn [emit_all event_fragments].
  cbn [write_fragment write_data cd_type cd_len]. unfold write_tcp_info.
  unfold sizeof_tcp_info in *. rewrite (s32_small (rp_len r)), u64_small, (proj2 (Z.leb_gt 192 _)) by lia.
  by eexists.
Qed.
