(* ===== verification/FuzzDuplicates.v ===== *)
(** * FuzzDuplicates: removing duplicate results (fuzz_test_remove_duplicate.c)

    The program that keeps a directory of the distinct logs of the fuzzer: a log whose text
    is there already is dropped, a new one is saved under the next number.  The theorems:
    a directory that the program alone has filled stays the list of the distinct texts, in
    the order of their first appearance; a directory from which a file was removed loses
    another. *)

From S2P Require Import Prelude Code.

(** What stat(2) and fopen(3) find under a name: a regular file, with its contents if it can
    be opened, or something else. *)
Inductive file := REGULAR (content : option bytes) | NOT_REGULAR.

(** The entries of a directory in the order of readdir(3). *)
Definition directory : Type := list (string * file).

(** [fuzz_test_remove_duplicate.c:9-29] read_file_to_buffer: the pointer is left as it is when
    there is nothing to read *)
Definition read_file_to_buffer (f : option file) (buffer : option bytes) : option bytes :=
  match f with
  | Some (REGULAR (Some content)) => Some content
  | _ => buffer
  end.

(** Writing a file of a directory with fopen(3) and "w+". *)
Fixpoint write_file (name : string) (content : bytes) (d : directory) : directory :=
  match d with
  | [] => [(name, REGULAR (Some content))]
  | (n, f) :: d' => if String.eqb n name then (n, REGULAR (Some content)) :: d'
                    else (n, f) :: write_file name content d'
  end.

(** [fuzz_test_remove_duplicate.c:31-35] save_current_error_to_dir; [opens] is whether the file
    can be opened, which is not tested *)
Definition save_current_error_to_dir (name : string) (content : bytes) (opens : bool) (d : directory)
    : exec directory :=
  if opens then Ok (write_file name (c_string content) d) else Fault NullDeref.

(** sprintf(buf, "%s/%s", dir, name) into a buffer of [size] bytes. *)
Definition sprintf_path (size : Z) (dir name : string) : exec unit :=
  if Z.of_nat (String.length dir) + 1 + Z.of_nat (String.length name) + 1 <=? size then Ok tt
  else Fault OutOfBounds.

(** [fuzz_test_remove_duplicate.c:51-64] the loop over the directory: the number of files, or
    None when the log is one of them; [current] is uninitialized when there is no log *)
Fixpoint find_duplicate (dir : string) (current : option bytes) (file_index : Z) (d : directory) : exec (option Z) :=
  match d with
  | [] => Ok (Some file_index)
  | (d_name, f) :: d' =>
      sprintf_path 1000 dir d_name;;
      match read_file_to_buffer (Some f) None with
      | None => find_duplicate dir current file_index d'
      | Some content =>
          match current with
          | None => Fault OutOfBounds
          | Some cur =>
              if bool_decide (c_string cur = c_string content) then Ok None
              else find_duplicate dir current (s32 (file_index + 1)) d'
          end
      end
  end.

Inductive verdict := USAGE | DUPLICATED | SAVED.

(** [fuzz_test_remove_duplicate.c:37-71] main, with the files and directories there are *)
Definition remove_duplicate (argv : list string) (log : string -> option file)
    (opendir : string -> option directory) (opens : bool) : exec (verdict * directory) :=
  match argv with
  | _ :: dir :: filename :: _ =>
      let current := read_file_to_buffer (log filename) None in
      d ← deref (opendir dir);
      found ← find_duplicate dir current 0 d;
      match found with
      | None => Ok (DUPLICATED, d)
      | Some file_index =>
          sprintf_path 100 dir (dec file_index);;
          match current with
          | None => Fault OutOfBounds
          | Some cur =>
              d ← save_current_error_to_dir (dec file_index) cur opens d;
              Ok (SAVED, d)
          end
      end
  | _ => Ok (USAGE, [])
  end.

(** ** The directory as a list of texts *)

(** The entry for the text of a number. *)
Definition numbered (i : nat) (text : bytes) : string * file := (dec (Z.of_nat i), REGULAR (Some text)).

Definition dots : directory := [("."%string, NOT_REGULAR); (".."%string, NOT_REGULAR)].

(** A directory with the given texts, in any order of its entries. *)
Definition holds_texts (d : directory) (texts : list bytes) : Prop := d ≡ₚ dots ++ imap numbered texts.

(** The texts are strings, and no two are the same. *)
Definition texts_ok (texts : list bytes) : Prop := NoDup texts /\ Forall (fun t => c_string t = t) texts.

(** What should come of a log. *)
Definition keep (texts : list bytes) (log : bytes) : list bytes :=
  if bool_decide (c_string log ∈ texts) then texts else texts ++ [c_string log].

Lemma c_string_idem l : c_string (c_string l) = c_string l.
Proof. induction l as [|b l IH]; [done|]. cbn. destruct (b =? 0) eqn:E; [done|]. cbn. by rewrite E, IH. Qed.

Lemma keep_ok texts log : texts_ok texts -> texts_ok (keep texts log).
Proof.
  intros [Hn Hs]. unfold keep. case_bool_decide; [done|]. split.
  - apply NoDup_app. split_and!; [done| |apply NoDup_singleton].
    intros x Hx ->%list_elem_of_singleton. done.
  - apply Forall_app. split; [done|]. by repeat constructor; rewrite c_string_idem.
Qed.

Lemma dec_digits_short n z : (String.length (dec_digits n z) <= n)%nat.
Proof.
  revert z. induction n as [|n IH]; intros z; cbn [dec_digits]; [done|].
  pose proof (hex_digit_length z). pose proof (hex_digit_length (z mod 10)). specialize (IH (z / 10)).
  destruct (z <? 10); [|rewrite string_length_app]; lia.
Qed.

Lemma dec_short z : 0 <= z -> (String.length (dec z) <= 20)%nat.
Proof. intros. unfold dec. rewrite (proj2 (Z.ltb_ge z 0)) by lia. apply dec_digits_short. Qed.

Lemma dec_inj x y : 0 <= x < 2 ^ 64 -> 0 <= y < 2 ^ 64 -> dec x = dec y -> x = y.
Proof.
  intros [_ Hx]%undec_dec [_ Hy]%undec_dec E. rewrite E, Hy in Hx. by injection Hx.
Qed.

(** ** One run *)

Definition text_of (entry : string * file) : option bytes := read_file_to_buffer (Some entry.2) None.

Lemma numbered_texts k texts : omap text_of (imap (fun i => numbered (k + i)) texts) = texts.
Proof.
  revert k. induction texts as [|t texts IH]; intros k; [done|]. cbn. f_equal.
  rewrite <-(IH (S k)) at 2. f_equal. apply imap_ext. intros i x _. cbn. by rewrite Nat.add_succ_r.
Qed.

Lemma holds_text_of d texts : holds_texts d texts -> omap text_of d ≡ₚ texts.
Proof. intros ->. cbn. change numbered with (fun i => numbered (0 + i)). by rewrite numbered_texts. Qed.

Lemma holds_names d texts entry : holds_texts d texts -> entry ∈ d ->
  entry.1 = "."%string \/ entry.1 = ".."%string \/ exists i, (i < length texts)%nat /\ entry.1 = dec (Z.of_nat i).
Proof.
  intros ->. unfold dots. intros [->|[->|H]%elem_of_cons]%elem_of_cons; [by left|by right; left|].
  right. right. apply elem_of_lookup_imap_1 in H as (i & t & -> & Hi). exists i.
  split; [by eapply lookup_lt_Some|done].
Qed.

Lemma sprintf_path_fits size dir name : (String.length dir <= 78)%nat -> (String.length name <= 20)%nat ->
  100 <= size -> sprintf_path size dir name = Ok tt.
Proof. intros. unfold sprintf_path. by rewrite (proj2 (Z.leb_le _ _)) by lia. Qed.

Lemma find_duplicate_eq dir cur d i : (String.length dir <= 78)%nat ->
  Forall (fun e => (String.length e.1 <= 20)%nat) d ->
  0 <= i -> i + Z.of_nat (length (omap text_of d)) < 2 ^ 31 ->
  find_duplicate dir (Some cur) i d =
    Ok (if bool_decide (c_string cur ∈ c_string <$> omap text_of d) then None
        else Some (i + Z.of_nat (length (omap text_of d)))).
Proof.
  intros Hd Hn. revert i. induction Hn as [|[name f] d Hname Hn IH]; intros i Hi Hlt.
  - cbn. by rewrite Z.add_0_r.
  - cbn [find_duplicate]. cbn [fst] in Hname. rewrite sprintf_path_fits by (done || lia). cbn [mbind exec_bind].
    change (read_file_to_buffer (Some f) None) with (text_of (name, f)).
    change (omap text_of ((name, f) :: d))
      with (match text_of (name, f) with Some t => t :: omap text_of d | None => omap text_of d end) in *.
    destruct (text_of (name, f)) as [t|]; [|by apply IH]. cbn [length fmap list_fmap] in *.
    destruct (bool_decide (c_string cur = c_string t)) eqn:Ht.
    + apply bool_decide_eq_true in Ht.
      assert (X : c_string cur ∈ c_string t :: (c_string <$> omap text_of d)) by (rewrite Ht; apply list_elem_of_here).
      by rewrite (bool_decide_eq_true_2 _ X).
    + apply bool_decide_eq_false in Ht. rewrite s32_small by lia. rewrite IH by lia.
      assert (X : c_string cur ∈ c_string t :: (c_string <$> omap text_of d) <-> c_string cur ∈ c_string <$> omap text_of d)
        by (rewrite elem_of_cons; tauto).
      rewrite (bool_decide_ext _ _ X).
       by replace (i + 1 + _) with (i + Z.of_nat (S (length (omap text_of d)))) by lia.
Qed.

Lemma write_file_new name content d : name ∉ d.*1 ->
  write_file name content d = d ++ [(name, REGULAR (Some content))].
Proof.
  induction d as [|[n f] d IH]; [done|]. cbn. rewrite not_elem_of_cons. intros [Hn Hd].
  rewrite (proj2 (String.eqb_neq n name)) by congruence. by rewrite IH.
Qed.

Lemma next_name_new d texts : holds_texts d texts -> Z.of_nat (length texts) < 2 ^ 31 ->
  dec (Z.of_nat (length texts)) ∉ d.*1.
Proof.
  intros Hd Hl [entry [E He]]%list_elem_of_fmap. pose proof (undec_dec (Z.of_nat (length texts)) ltac:(lia)) as [_ Hu].
  destruct (holds_names d texts entry Hd He) as [E'|[E'|(i & Hi & E')]]; rewrite E' in E.
  - rewrite E in Hu. by vm_compute in Hu.
  - rewrite E in Hu. by vm_compute in Hu.
  - apply dec_inj in E; lia.
Qed.

Lemma holds_texts_short d texts : holds_texts d texts -> Forall (fun e => (String.length e.1 <= 20)%nat) d.
Proof.
  intros Hd. apply Forall_forall. intros e He.
  destruct (holds_names d texts e Hd He) as [->|[->|(i & Hi & ->)]]; [cbn; lia..|apply dec_short; lia].
Qed.

Lemma remove_duplicate_eq arg0 dir filename log opendir d texts cur :
  (String.length dir <= 78)%nat -> opendir dir = Some d -> log filename = Some (REGULAR (Some cur)) ->
  holds_texts d texts -> texts_ok texts -> Z.of_nat (length texts) < 2 ^ 31 - 1 ->
  exists v d', remove_duplicate [arg0; dir; filename] log opendir true = Ok (v, d')
    /\ (v = DUPLICATED <-> c_string cur ∈ texts) /\ holds_texts d' (keep texts cur).
Proof.
  intros Hdir Ho Hlog Hd [Hn Hs] Hl. unfold remove_duplicate. rewrite Hlog, Ho. cbn [deref mbind exec_bind read_file_to_buffer].
  pose proof (holds_text_of d texts Hd) as Hp.
  assert (Hlen : length (omap text_of d) = length texts) by (by rewrite Hp).
  rewrite find_duplicate_eq; [|done|by eapply holds_texts_short|lia|lia]. cbn [mbind exec_bind].
  assert (Hin : c_string cur ∈ c_string <$> omap text_of d <-> c_string cur ∈ texts).
  { rewrite Hp. assert (c_string <$> texts = texts) as ->; [|done].
    clear -Hs. induction Hs as [|t texts Ht Hs IH]; [done|]. cbn. by rewrite Ht, IH. }
  rewrite (bool_decide_ext _ _ Hin). unfold keep. case_bool_decide as Hc.
  - exists DUPLICATED, d. done.
  - rewrite Hlen, Z.add_0_l, sprintf_path_fits by (done || apply dec_short; lia || lia).
    cbn [mbind exec_bind save_current_error_to_dir]. rewrite write_file_new by (apply next_name_new; [done|lia]).
    eexists SAVED, _. split; [done|]. split; [done|]. unfold holds_texts in *. rewrite Hd, imap_app.
    cbn. rewrite Nat.add_0_r. done.
Qed.

(** ** A campaign *)

(** The program run on one log after the other, each a readable file. *)
Fixpoint remove_duplicates (dir : string) (logs : list bytes) (d : directory) : exec directory :=
  match logs with
  | [] => Ok d
  | log :: logs =>
      '(_, d) ← remove_duplicate ["remove_duplicate"; dir; "log"]%string
                  (fun _ => Some (REGULAR (Some log))) (fun _ => Some d) true;
      remove_duplicates dir logs d
  end.

Lemma remove_duplicates_from dir logs : forall d texts, (String.length dir <= 78)%nat ->
  holds_texts d texts -> texts_ok texts -> Z.of_nat (length texts) + Z.of_nat (length logs) < 2 ^ 31 ->
  exists d', remove_duplicates dir logs d = Ok d' /\ holds_texts d' (foldl keep texts logs)
    /\ texts_ok (foldl keep texts logs).
Proof.
  induction logs as [|log logs IH]; intros d texts Hdir Hd Ht Hl; [by exists d|].
  cbn [remove_duplicates foldl length] in *.
  destruct (remove_duplicate_eq "remove_duplicate" dir "log" (fun _ => Some (REGULAR (Some log)))
    (fun _ => Some d) d texts log) as (v & d1 & -> & _ & Hd1); try done; [lia|].
  cbn [mbind exec_bind]. apply IH; [done|done|by apply keep_ok|].
  unfold keep. case_bool_decide; [lia|]. rewrite length_app. cbn. lia.
Qed.

(** The texts that are kept: each one that was logged, once. *)
Lemma foldl_keep_elem logs t : forall texts,
  t ∈ foldl keep texts logs <-> t ∈ texts \/ t ∈ c_string <$> logs.
Proof.
  induction logs as [|log logs IH]; intros texts; cbn [foldl fmap list_fmap].
  - rewrite elem_of_nil. tauto.
  - rewrite IH, elem_of_cons. unfold keep. case_bool_decide as Hc; [|rewrite elem_of_app, list_elem_of_singleton; tauto].
    split; [tauto|]. intros [H|[->|H]]; tauto.
Qed.

(** C16. The program keeps a set: started on an empty directory, with a name of at most 78
    characters, and given fewer than 2^31 readable logs one after the other, it never fails, and
    the directory then has the files 0, 1, 2, ... with the distinct texts of the logs (up to
    their first NUL) in the order in which each came first, no text twice. *)
Theorem remove_duplicates_refines (dir : string) (logs : list bytes) :
  (String.length dir <= 78)%nat -> Z.of_nat (length logs) < 2 ^ 31 ->
  exists d', remove_duplicates dir logs dots = Ok d' /\ holds_texts d' (foldl keep [] logs)
    /\ NoDup (foldl keep [] logs)
    /\ forall t, t ∈ foldl keep [] logs <-> exists log, log ∈ logs /\ t = c_string log.
Proof.
  intros Hdir Hl.
  destruct (remove_duplicates_from dir logs dots [] Hdir) as (d & E & Hd & Hn & _);
    [unfold holds_texts; by rewrite app_nil_r|split; constructor|cbn; lia|].
  exists d. split_and!; [done..|]. intros t. rewrite foldl_keep_elem, list_elem_of_fmap, elem_of_nil.
  split; [intros [[]|(x & -> & Hx)]|intros (x & Hx & ->); right]; eauto.
Qed.

Lemma remove_duplicates_refines_witness :
  foldl keep [] [[72; 0; 1]; [73]; [72; 0; 2]] = [[72]; [73]] /\
  exists d', remove_duplicates "unique" [[72; 0; 1]; [73]; [72; 0; 2]] dots = Ok d'
    /\ holds_texts d' (foldl keep [] [[72; 0; 1]; [73]; [72; 0; 2]]).
Proof.
  split; [vm_compute; reflexivity|].
  destruct (remove_duplicates_refines "unique" [[72; 0; 1]; [73]; [72; 0; 2]]) as (d & E & Hd & _);
    [cbn; lia|cbn; lia|]. exists d. done.
Defined.

(** The number of the files is not a free name when a file was removed from the directory:
    a new log then overwrites a different one. *)
Theorem new_log_overwrites dir old new d : (String.length dir <= 78)%nat ->
  d = dots ++ [numbered 1 old] -> c_string new <> c_string old ->
  remove_duplicate ["remove_duplicate"; dir; "log"]%string (fun _ => Some (REGULAR (Some new)))
    (fun _ => Some d) true = Ok (SAVED, dots ++ [numbered 1 (c_string new)]).
Proof.
  intros Hdir -> Hne. unfold remove_duplicate. cbn [read_file_to_buffer deref mbind exec_bind].
  rewrite find_duplicate_eq; [|done| |lia|cbn; lia].
  - cbn [omap list_omap text_of read_file_to_buffer dots numbered app snd fmap list_fmap mbind exec_bind length].
    assert (X : c_string new ∉ [c_string old]) by (by rewrite list_elem_of_singleton).
    rewrite (bool_decide_eq_false_2 _ X), sprintf_path_fits; [done|done|apply dec_short; lia|lia].
  - repeat constructor.
Qed.

Lemma new_log_overwrites_witness :
  remove_duplicate ["remove_duplicate"; "unique"; "log"]%string (fun _ => Some (REGULAR (Some [73])))
    (fun _ => Some (dots ++ [numbered 1 [72]])) true = Ok (SAVED, dots ++ [numbered 1 [73]]).
Proof. apply (new_log_overwrites "unique" [72] [73]); [cbn; lia|reflexivity|discriminate]. Defined.
