(* ===== verification/WireConn.v ===== *)
(** * WireConn: messages over the connection of a wire test (wire_conn.c, wire_protocol.c)

    In a wire test two machines run one script: the client makes the system calls, the
    server sends and checks the packets.  They keep in step over a TCP connection that
    carries messages: a length and an operation in network order, then the contents.

    A program that talks over the connection is a [prog]: it returns, or it stops and keeps
    its state, in particular the bytes sent so far.  It stops [Waiting] when it needs bytes
    from the other side that have not arrived.  How much each call of read(2) or write(2)
    transfers, and which of them are interrupted, is the list [wc_io], of any contents; when
    it is used up, calls transfer all that is asked.  A read of [k] bytes returns when they
    are there, or the end of the stream is. *)

From S2P Require Import Prelude Headers Packet.

(** ** Programs that can stop *)

Inductive stop :=
  | Waiting
  | Dies (message : string)
  | Exits
  | Breaks (f : fault).

Inductive ending (W A : Type) : Type :=
  | Returns (w : W) (a : A)
  | Stops (w : W) (why : stop).
Arguments Returns {W A} w a.
Arguments Stops {W A} w why.

Definition prog (W A : Type) : Type := W -> ending W A.

#[export] Instance prog_ret {W} : MRet (prog W) := fun A a w => Returns w a.
#[export] Instance prog_bind {W} : MBind (prog W) := fun A B f m w =>
  match m w with
  | Returns w' a => f a w'
  | Stops w' why => Stops w' why
  end.

(** The state where a program ends. *)
Definition end_of {W A} (r : ending W A) : W := match r with Returns w _ => w | Stops w _ => w end.

Definition halt {W A} (why : stop) : prog W A := fun w => Stops w why.
Definition get {W A} (f : W -> A) : prog W A := fun w => Returns w (f w).
Definition put {W} (f : W -> W) : prog W unit := fun w => Returns (f w) tt.
Definition run_exec {W A} (m : exec A) : prog W A := fun w =>
  match m with Ok a => Returns w a | Fault f => Stops w (Breaks f) end.

(** A loop: a turn that gives None goes on, one that gives a result leaves the loop. *)
Fixpoint iterate {W A} (fuel : nat) (body : prog W (option A)) : prog W A :=
  match fuel with
  | O => halt (Breaks OutOfFuel)
  | S fuel' =>
      r ← body;
      match r with
      | None => iterate fuel' body
      | Some a => mret a
      end
  end.

(** ** The connection *)

(** How a call of read or write goes: it transfers up to so many bytes, or it fails. *)
Inductive io :=
  | IoCount (k : positive)
  | IoError (errno : Z).

Definition EINTR : Z := 4.
Definition EAGAIN : Z := 11.

(** [wire_conn.h:44-47] struct wire_conn, with [in.buf] and [in.buf_space] of
    struct wire_conn_buffer ([used] is never set); then what the kernel holds: the bytes that
    have arrived and not been read, whether the other side has closed, the bytes sent, and
    how the next calls go *)
Record wire_conn := mk_wire_conn {
  wc_fd : Z;
  wc_buf : option bytes;
  wc_buf_space : Z;
  wc_arrived : bytes;
  wc_closed : bool;
  wc_sent : bytes;
  wc_io : list io
}.

Definition set_wc_in (buf : option bytes) (space : Z) (c : wire_conn) : wire_conn :=
  mk_wire_conn (wc_fd c) buf space (wc_arrived c) (wc_closed c) (wc_sent c) (wc_io c).
Definition set_wc_arrived (v : bytes) (c : wire_conn) : wire_conn :=
  mk_wire_conn (wc_fd c) (wc_buf c) (wc_buf_space c) v (wc_closed c) (wc_sent c) (wc_io c).
Definition set_wc_sent (v : bytes) (c : wire_conn) : wire_conn :=
  mk_wire_conn (wc_fd c) (wc_buf c) (wc_buf_space c) (wc_arrived c) (wc_closed c) v (wc_io c).
Definition set_wc_io (v : list io) (c : wire_conn) : wire_conn :=
  mk_wire_conn (wc_fd c) (wc_buf c) (wc_buf_space c) (wc_arrived c) (wc_closed c) (wc_sent c) v.

(** [wire_conn.c:41-48] wire_conn_new, for a connection that has the descriptor [fd] *)
Definition wire_conn_new (fd : Z) (calls : list io) : wire_conn :=
  mk_wire_conn fd None 0 [] false [] calls.

(** A program on a state that has a connection, and on the connection itself. *)
Class HasConn (W : Type) := {
  conn_of : W -> wire_conn;
  set_conn : wire_conn -> W -> W;
  conn_set : forall c w, conn_of (set_conn c w) = c;
  set_conn_of : forall w, set_conn (conn_of w) w = w;
  set_set : forall c c' w, set_conn c (set_conn c' w) = set_conn c w
}.

#[export] Instance wire_conn_HasConn : HasConn wire_conn := {
  conn_of := id;
  set_conn := fun c _ => c;
  conn_set := fun c w => eq_refl;
  set_conn_of := fun w => eq_refl;
  set_set := fun c c' w => eq_refl
}.

Definition on_conn {W A} `{HasConn W} (m : prog wire_conn A) : prog W A := fun w =>
  match m (conn_of w) with
  | Returns c a => Returns (set_conn c w) a
  | Stops c why => Stops (set_conn c w) why
  end.

(** The next call. *)
Definition next_io : prog wire_conn (option io) := fun c =>
  match wc_io c with
  | [] => Returns c None
  | i :: rest => Returns (set_wc_io rest c) (Some i)
  end.

(** The bytes a call that is asked for [n] transfers. *)
Definition io_count (i : option io) (n : Z) : Z :=
  match i with Some (IoCount k) => Z.min (Z.pos k) n | _ => n end.

(** write(2): how many bytes were taken, or errno. *)
Definition sys_write (buf : bytes) : prog wire_conn (Z + Z) :=
  i ← next_io;
  match i with
  | Some (IoError errno) => mret (inr errno)
  | _ =>
      let n := io_count i (zlen buf) in
      _ ← put (fun c => set_wc_sent (wc_sent c ++ take (Z.to_nat n) buf) c);
      mret (inl n)
  end.

(** read(2): the bytes that were read, none at the end of the stream, or errno. *)
Definition take_arrived (n : Z) : prog wire_conn bytes := fun c =>
  if (n <=? zlen (wc_arrived c)) || wc_closed c then
    Returns (set_wc_arrived (drop (Z.to_nat n) (wc_arrived c)) c) (take (Z.to_nat n) (wc_arrived c))
  else Stops c Waiting.
Definition sys_read (n : Z) : prog wire_conn (bytes + Z) :=
  i ← next_io;
  match i with
  | Some (IoError errno) => mret (inr errno)
  | _ => b ← take_arrived (io_count i n); mret (inl b)
  end.

(** ** Whole messages *)

(** [wire_conn.c:159-172] the loop of write_bytes; whether all was written *)
Fixpoint write_loop (fuel : nat) (buf : bytes) : prog wire_conn bool :=
  match fuel with
  | O => halt (Breaks OutOfFuel)
  | S fuel' =>
      if 0 <? zlen buf then
        r ← sys_write buf;
        match r with
        | inr errno =>
            if (errno =? EINTR) || (errno =? EAGAIN) then write_loop fuel' buf else mret false
        | inl bytes_written =>
            _ ← run_exec (c_assert (bytes_written <=? zlen buf));
            write_loop fuel' (drop (Z.to_nat bytes_written) buf)
        end
      else mret true
  end.

(** [wire_conn.c:156-174] write_bytes: a turn for each call of the list, one that writes the
    rest and one that ends *)
Definition write_bytes (buf : bytes) : prog wire_conn bool :=
  calls ← get wc_io;
  write_loop (S (S (length calls))) buf.

(** [wire_conn.c:200-216] the loop of read_bytes: the bytes it stores, None on an error *)
Fixpoint read_loop (fuel : nat) (buf_len : Z) (buf : bytes) : prog wire_conn (option bytes) :=
  match fuel with
  | O => halt (Breaks OutOfFuel)
  | S fuel' =>
      if 0 <? buf_len then
        r ← sys_read buf_len;
        match r with
        | inr errno =>
            if (errno =? EINTR) || (errno =? EAGAIN) then read_loop fuel' buf_len buf else mret None
        | inl [] => mret None
        | inl b =>
            _ ← run_exec (c_assert (zlen b <=? buf_len));
            read_loop fuel' (buf_len - zlen b) (buf ++ b)
        end
      else mret (Some buf)
  end.

(** [wire_conn.c:197-218] read_bytes: a turn for each call of the list, one that reads the rest
    and one that ends or finds the end of the stream *)
Definition read_bytes (buf_len : Z) : prog wire_conn (option bytes) :=
  calls ← get wc_io;
  read_loop (S (S (length calls))) buf_len [].

(** [wire_conn.c:39-39] MAX_MESSAGE_BYTES *)
Definition MAX_MESSAGE_BYTES : Z := 10 * 1000 * 1000.

(** [wire_protocol.h:49-52] struct wire_header *)
Definition sizeof_wire_header : Z := 8.

(** [wire_conn.c:183-186] wire_conn_write: the header in memory *)
Definition wire_header (op buf_len : Z) : bytes :=
  le_split 4 (htonl (u32 (sizeof_wire_header + buf_len))) ++ le_split 4 (htonl (u32 op)).

(** [wire_conn.c:176-194] wire_conn_write *)
Definition wire_conn_write (op : Z) (buf : bytes) : prog wire_conn bool :=
  ok ← write_bytes (wire_header op (zlen buf));
  if negb ok then mret false
  else write_bytes buf.

(** [wire_conn.c:244-248] wire_conn_read: the buffer of the connection is made big enough *)
Definition grow_in `{Malloc} (buf_len : Z) : prog wire_conn unit :=
  put (fun c => if wc_buf_space c <? buf_len
                then set_wc_in (Some (malloc (2 * buf_len))) (2 * buf_len) c else c).

(** Storing what was read at the start of [conn->in.buf], which is NULL only when nothing is
    stored. *)
Definition store_in (b : bytes) : prog wire_conn unit := fun c =>
  match wc_buf c with
  | None => match b with [] => Returns c tt | _ => Stops c (Breaks NullDeref) end
  | Some buf =>
      match put_bytes buf 0 b with
      | Ok buf' => Returns (set_wc_in (Some buf') (wc_buf_space c) c) tt
      | Fault f => Stops c (Breaks f)
      end
  end.

(** [wire_conn.c:220-254] wire_conn_read: the operation and [buf_len]; the contents are at
    [conn->in.buf] *)
Definition wire_conn_read `{Malloc} : prog wire_conn (option (Z * Z)) :=
  header ← read_bytes sizeof_wire_header;
  match header with
  | None => mret None
  | Some header =>
      length_field ← run_exec (ld32 header 0);
      op_field ← run_exec (ld32 header 4);
      let op := ntohl op_field in
      let buf_len := s32 (u64 (ntohl length_field - sizeof_wire_header)) in
      if (buf_len <? 0) || (MAX_MESSAGE_BYTES <? buf_len) then mret None
      else
        _ ← grow_in buf_len;
        r ← read_bytes buf_len;
        match r with
        | None => mret None
        | Some b => _ ← store_in b; mret (Some (op, buf_len))
        end
  end.

(** ** Operations *)

(** [wire_protocol.h:31-43] enum wire_op_t *)
Definition WIRE_INVALID : Z := 0.
Definition WIRE_COMMAND_LINE_ARGS : Z := 1.
Definition WIRE_SCRIPT_PATH : Z := 2.
Definition WIRE_SCRIPT : Z := 3.
Definition WIRE_HARDWARE_ADDR : Z := 4.
Definition WIRE_SERVER_READY : Z := 5.
Definition WIRE_CLIENT_STARTING : Z := 6.
Definition WIRE_PACKETS_START : Z := 7.
Definition WIRE_PACKETS_WARN : Z := 8.
Definition WIRE_PACKETS_DONE : Z := 9.
Definition WIRE_NUM_OPS : Z := 10.

(** [wire_protocol.c:27-49] wire_op_to_string *)
Definition wire_op_to_string (op : Z) : exec string :=
  if op <? WIRE_INVALID then Ok "NEGATIVE_WIRE_OP!"%string
  else if WIRE_NUM_OPS <? op then Ok "WIRE_OP_TOO_BIG!"%string
  else
    match ["WIRE_INVALID"; "WIRE_COMMAND_LINE_ARGS"; "WIRE_SCRIPT_PATH"; "WIRE_SCRIPT";
           "WIRE_HARDWARE_ADDR"; "WIRE_SERVER_READY"; "WIRE_CLIENT_STARTING";
           "WIRE_PACKETS_START"; "WIRE_PACKETS_WARN"; "WIRE_PACKETS_DONE";
           "WIRE_NUM_OPS"]%string !! Z.to_nat op with
    | Some name => Ok name
    | None => Fault AssertFailed
    end.

(** ** Calls that do not fail *)

(** A call that transfers something or is interrupted. *)
Definition soft (i : io) : Prop :=
  match i with IoCount _ => True | IoError errno => errno = EINTR \/ errno = EAGAIN end.

Lemma bind_Returns {W A B} (m : prog W A) (f : A -> prog W B) w w' a :
  m w = Returns w' a -> (m ≫= f) w = f a w'.
Proof. intros E. unfold mbind, prog_bind. by rewrite E. Qed.

Lemma bind_Stops {W A B} (m : prog W A) (f : A -> prog W B) w w' why :
  m w = Stops w' why -> (m ≫= f) w = Stops w' why.
Proof. intros E. unfold mbind, prog_bind. by rewrite E. Qed.

Lemma write_loop_soft fuel : forall buf c,
  Forall soft (wc_io c) -> (length (wc_io c) < fuel)%nat -> (zlen buf = 0 \/ (S (length (wc_io c)) < fuel)%nat) ->
  exists calls, Forall soft calls /\
    write_loop fuel buf c = Returns (set_wc_io calls (set_wc_sent (wc_sent c ++ buf) c)) true.
Proof.
  induction fuel as [|fuel IH]; intros buf c Hs Hf Hb; [lia|]. cbn [write_loop].
  destruct (Z.ltb_spec 0 (zlen buf)) as [Hlt|Hge].
  2:{ exists (wc_io c). destruct buf; [|unfold zlen in Hge; simpl in Hge; lia].
      rewrite app_nil_r. by destruct c. }
  destruct Hb as [|Hb]; [lia|].
  destruct (wc_io c) as [|i rest] eqn:Ei.
  - erewrite bind_Returns; [|unfold sys_write; erewrite bind_Returns by (unfold next_io; by rewrite Ei); done].
    cbn [io_count]. erewrite bind_Returns by (unfold run_exec; by rewrite Z.leb_refl).
    destruct fuel as [|fuel]; [simpl in Hb; lia|].
    replace (drop (Z.to_nat (zlen buf)) buf) with (@nil Z) by (symmetry; apply drop_ge; unfold zlen; lia).
    exists []. split; [done|]. cbn. unfold zlen. rewrite Nat2Z.id, firstn_all. by destruct c; cbn in *; subst.
  - apply Forall_cons in Hs as [Hi Hs]. destruct i as [k|errno].
    + erewrite bind_Returns; [|unfold sys_write; erewrite bind_Returns by (unfold next_io; by rewrite Ei); done].
      set (n := io_count (Some (IoCount k)) (zlen buf)). assert (0 < n <= zlen buf) as Hn
        by (unfold n; cbn; lia). cbn match beta.
      erewrite bind_Returns by (unfold run_exec; by rewrite (proj2 (Z.leb_le _ _)) by lia).
      destruct (IH (drop (Z.to_nat n) buf)
        (set_wc_sent (wc_sent c ++ take (Z.to_nat n) buf) (set_wc_io rest c))) as (calls&Hc&E); [done| | |].
      { simpl in *. lia. } { right. simpl in *. lia. }
      exists calls. split; [done|]. etrans; [exact E|]. cbn. by rewrite <-app_assoc, take_drop.
    + erewrite bind_Returns; [|unfold sys_write; erewrite bind_Returns by (unfold next_io; by rewrite Ei); done].
      cbn match beta. assert ((errno =? EINTR) || (errno =? EAGAIN) = true) as -> by (cbn in Hi; breflect; done).
      destruct (IH buf (set_wc_io rest c)) as (calls&Hc&->); [done| | |].
      { simpl in *. lia. } { right. simpl in *. lia. }
      by exists calls.
Qed.

Lemma read_loop_soft fuel : forall n acc c,
  Forall soft (wc_io c) -> (S (length (wc_io c)) < fuel)%nat \/ n = 0 /\ (length (wc_io c) < fuel)%nat ->
  0 <= n <= zlen (wc_arrived c) ->
  exists calls, Forall soft calls /\
    read_loop fuel n acc c =
      Returns (set_wc_io calls (set_wc_arrived (drop (Z.to_nat n) (wc_arrived c)) c))
        (Some (acc ++ take (Z.to_nat n) (wc_arrived c))).
Proof.
  induction fuel as [|fuel IH]; intros n acc c Hs Hf Hn; [lia|]. cbn [read_loop].
  destruct (Z.ltb_spec 0 n) as [Hlt|Hge].
  2:{ assert (n = 0) as -> by lia. exists (wc_io c). split; [done|]. cbn. rewrite app_nil_r. by destruct c. }
  assert (forall i rest, i :: rest = wc_io c -> sys_read n c =
    match i with IoError e => Returns (set_wc_io rest c) (inr e)
    | IoCount k => let m := Z.to_nat (Z.min (Z.pos k) n) in
        Returns (set_wc_arrived (drop m (wc_arrived c)) (set_wc_io rest c)) (inl (take m (wc_arrived c))) end) as Hread.
  { intros [k|e] rest Ei; unfold sys_read; erewrite bind_Returns by (unfold next_io; by rewrite <-Ei); [|done].
    cbn match beta. erewrite bind_Returns; [done|]. unfold take_arrived. cbn [io_count].
    by rewrite (proj2 (Z.leb_le _ _)) by (cbn; lia). }
  destruct (wc_io c) as [|i rest] eqn:Ei.
  - clear Hread. erewrite bind_Returns.
    2:{ unfold sys_read. erewrite bind_Returns by (unfold next_io; by rewrite Ei). cbn match beta.
        erewrite bind_Returns; [done|]. unfold take_arrived. cbn [io_count].
        by rewrite (proj2 (Z.leb_le _ _)) by lia. }
    cbn match beta. destruct fuel as [|fuel]; [simpl in Hf; lia|].
    assert (zlen (take (Z.to_nat n) (wc_arrived c)) = n) as Hz
      by (unfold zlen in *; rewrite length_take; lia).
    destruct (take _ _) as [|b l] eqn:Et; [unfold zlen in Hz; simpl in Hz; lia|]. rewrite <-Et in *.
    erewrite bind_Returns by (unfold run_exec; by rewrite Hz, Z.leb_refl). rewrite Hz, Z.sub_diag.
    exists []. split; [done|]. cbn. by destruct c; cbn in *; subst.
  - apply Forall_cons in Hs as [Hi Hs]. specialize (Hread i rest eq_refl).
    destruct i as [k|errno]; erewrite bind_Returns by exact Hread; clear Hread; cbn match beta zeta.
    + set (m := Z.to_nat (Z.min (Z.pos k) n)).
      assert (zlen (take m (wc_arrived c)) = Z.min (Z.pos k) n) as Hz
        by (unfold zlen in *; rewrite length_take; lia).
      destruct (take m _) as [|b l] eqn:Et; [unfold zlen in Hz; simpl in Hz; lia|]. rewrite <-Et in *.
      erewrite bind_Returns by (unfold run_exec; by rewrite (proj2 (Z.leb_le _ _)) by lia). rewrite Hz.
      destruct (IH (n - Z.min (Z.pos k) n) (acc ++ take m (wc_arrived c))
        (set_wc_arrived (drop m (wc_arrived c)) (set_wc_io rest c))) as (calls&Hc&E); [done|simpl in *; lia| |].
      { cbn. unfold zlen in *. rewrite length_drop. lia. }
      exists calls. split; [done|]. etrans; [exact E|]. cbn.
      rewrite drop_drop, <-app_assoc. replace (m + Z.to_nat (n - Z.min (Z.pos k) n))%nat with (Z.to_nat n) by lia.
      do 3 f_equal. rewrite take_take_drop. f_equal. lia.
    + assert ((errno =? EINTR) || (errno =? EAGAIN) = true) as -> by (cbn in Hi; breflect; done).
      destruct (IH n acc (set_wc_io rest c)) as (calls&Hc&->); [done|simpl in *; lia|done|].
      by exists calls.
Qed.

Lemma write_bytes_soft buf c :
  Forall soft (wc_io c) ->
  exists calls, Forall soft calls /\
    write_bytes buf c = Returns (set_wc_io calls (set_wc_sent (wc_sent c ++ buf) c)) true.
Proof. intros Hs. unfold write_bytes. erewrite bind_Returns by done. apply write_loop_soft; [done|lia|lia]. Qed.

Lemma read_bytes_soft n c :
  Forall soft (wc_io c) -> 0 <= n <= zlen (wc_arrived c) ->
  exists calls, Forall soft calls /\
    read_bytes n c = Returns (set_wc_io calls (set_wc_arrived (drop (Z.to_nat n) (wc_arrived c)) c))
                       (Some (take (Z.to_nat n) (wc_arrived c))).
Proof. intros Hs Hn. unfold read_bytes. erewrite bind_Returns by done. apply read_loop_soft; [done|lia|done]. Qed.

(** A message on the wire. *)
Definition message (op : Z) (buf : bytes) : bytes := wire_header op (zlen buf) ++ buf.

(** A message fits the length field and what the other side accepts. *)
Definition message_ok (op : Z) (buf : bytes) : Prop := 0 <= op < 2 ^ 32 /\ zlen buf <= MAX_MESSAGE_BYTES.

Lemma wire_conn_write_soft op buf c :
  Forall soft (wc_io c) ->
  exists calls, Forall soft calls /\
    wire_conn_write op buf c = Returns (set_wc_io calls (set_wc_sent (wc_sent c ++ message op buf) c)) true.
Proof.
  intros Hs. unfold wire_conn_write.
  destruct (write_bytes_soft (wire_header op (zlen buf)) c Hs) as (calls&Hc&E).
  erewrite bind_Returns by exact E. cbn [negb].
  destruct (write_bytes_soft buf (set_wc_io calls (set_wc_sent (wc_sent c ++ wire_header op (zlen buf)) c)))
    as (calls'&Hc'&E'); [done|]. exists calls'. split; [done|]. etrans; [exact E'|].
  cbn. unfold message. by rewrite <-app_assoc.
Qed.

(** The buffer of a connection has the size the connection records. *)
Definition in_ok (c : wire_conn) : Prop :=
  match wc_buf c with None => wc_buf_space c = 0 | Some b => zlen b = wc_buf_space c end.

Lemma wire_header_fields op n : 0 <= op < 2 ^ 32 -> 0 <= n -> sizeof_wire_header + n < 2 ^ 32 ->
  ld32 (wire_header op n) 0 = Ok (htonl (sizeof_wire_header + n)) /\ ld32 (wire_header op n) 4 = Ok (htonl op).
Proof.
  intros Ho Hn Hl. unfold wire_header, sizeof_wire_header in *. rewrite !u32_small by lia.
  assert (forall x, le_combine (le_split 4 (htonl x)) = htonl x) as Hx.
  { intros x. rewrite le_combine_split. apply Z.mod_small. apply ntohl_range. }
  split; unfold ld32, get_bytes, in_range; rewrite zlen_app, !zlen_le_split; cbn [andb Z.leb Z.add Z.compare Z.of_nat].
  - exact (f_equal Ok (Hx (8 + n))).
  - exact (f_equal Ok (Hx op)).
Qed.

(** A message at the head of the stream is read whole, and nothing after it. *)
Lemma wire_conn_read_soft `{Malloc} op buf rest c :
  Forall soft (wc_io c) -> in_ok c -> message_ok op buf -> wc_arrived c = message op buf ++ rest ->
  exists calls b space, Forall soft calls /\
    wire_conn_read c = Returns (set_wc_io calls (set_wc_arrived rest (set_wc_in b space c))) (Some (op, zlen buf)) /\
    match b with
    | Some b => exists tail, b = buf ++ tail /\ zlen b = space /\
        (wc_buf_space c < zlen buf -> tail = drop (length buf) (malloc (2 * zlen buf)))
    | None => buf = [] /\ space = 0
    end.
Proof.
  intros Hs Hin [Ho Hl] Ha. unfold MAX_MESSAGE_BYTES in Hl. pose proof (zlen_nonneg buf).
  assert (zlen (wire_header op (zlen buf)) = 8) as Hh
    by (unfold wire_header; by rewrite zlen_app, !zlen_le_split).
  assert (length (wire_header op (zlen buf)) = Z.to_nat 8) as Hh8
    by (unfold wire_header; by rewrite length_app, !length_le_split).
  unfold wire_conn_read. unfold message in Ha. rewrite <-app_assoc in Ha.
  destruct (read_bytes_soft 8 c Hs) as (calls&Hc&E).
  { rewrite Ha, zlen_app, Hh. pose proof (zlen_nonneg (buf ++ rest)). lia. }
  rewrite Ha in E. rewrite <-Hh8 in E.
  rewrite drop_app_length, take_app_length in E. unfold sizeof_wire_header at 1.
  erewrite bind_Returns by exact E. cbn match beta.
  destruct (wire_header_fields op (zlen buf)) as [E1 E2]; [done|lia|unfold sizeof_wire_header; lia|].
  erewrite bind_Returns by (unfold run_exec; by rewrite E1). erewrite bind_Returns by (unfold run_exec; by rewrite E2).
  cbv zeta. unfold htonl, sizeof_wire_header in *. rewrite !ntohl_invol by lia.
  replace (s32 (u64 (8 + zlen buf - 8))) with (zlen buf) by (rewrite u64_small, s32_small by lia; lia).
  rewrite (proj2 (Z.ltb_ge (zlen buf) 0)), (proj2 (Z.ltb_ge MAX_MESSAGE_BYTES _)) by (unfold MAX_MESSAGE_BYTES; lia).
  cbn [orb]. erewrite bind_Returns by done.
  set (c1 := if wc_buf_space _ <? zlen buf then _ else _).
  assert (wc_io c1 = calls /\ wc_arrived c1 = buf ++ rest) as [Hio Harr] by (unfold c1; by case_match).
  destruct (read_bytes_soft (zlen buf) c1) as (calls'&Hc'&E').
  { by rewrite Hio. } { rewrite Harr, zlen_app. pose proof (zlen_nonneg rest). lia. }
  rewrite Harr in E'. replace (Z.to_nat (zlen buf)) with (length buf) in E' by (unfold zlen; lia).
  rewrite drop_app_length, take_app_length in E'. erewrite bind_Returns by exact E'. cbn match beta. exists calls'.
  unfold in_ok in Hin. unfold c1. cbn [wc_buf_space set_wc_io set_wc_arrived] in *.
  destruct (Z.ltb_spec (wc_buf_space c) (zlen buf)) as [Hsp|Hsp].
  - assert (zlen (malloc (2 * zlen buf)) = 2 * zlen buf) as Hm by (apply malloc_zlen; lia).
    exists (Some (buf ++ drop (length buf) (malloc (2 * zlen buf)))), (2 * zlen buf). split; [done|].
    split.
    + erewrite bind_Returns; [done|]. unfold store_in. cbn.
      unfold put_bytes. rewrite (proj2 (in_range_true _ _ _)) by lia. done.
    + eexists. split; [done|]. split; [|done]. rewrite zlen_app. unfold zlen in *. rewrite length_drop. lia.
  - destruct (wc_buf c) as [b|] eqn:Eb.
    + exists (Some (buf ++ drop (length buf) b)), (wc_buf_space c). split; [done|]. split.
      * erewrite bind_Returns; [done|]. unfold store_in. cbn. rewrite Eb.
        unfold put_bytes. rewrite (proj2 (in_range_true _ _ _)) by lia. done.
      * eexists. split; [done|]. split; [|lia]. rewrite zlen_app. unfold zlen in *. rewrite length_drop. lia.
    + assert (buf = []) as -> by (destruct buf; [done|unfold zlen in Hsp; simpl in Hsp; lia]).
      exists None, 0. split; [done|]. split; [|done]. erewrite bind_Returns; [|unfold store_in; cbn; by rewrite Eb].
      destruct c; cbn in *; subst. done.
Qed.

(** ** Round trip *)

Lemma message_bytes_length op buf : zlen (message op buf) = 8 + zlen buf.
Proof. unfold message, wire_header. rewrite !zlen_app, !zlen_le_split. lia. Qed.

Fixpoint write_all (msgs : list (Z * bytes)) : prog wire_conn bool :=
  match msgs with
  | [] => mret true
  | (op, buf) :: msgs' => ok ← wire_conn_write op buf; if negb ok then mret false else write_all msgs'
  end.

(** Reading [n] messages, each with its contents from the buffer of the connection. *)
Fixpoint read_all `{Malloc} (n : nat) : prog wire_conn (option (list (Z * bytes))) :=
  match n with
  | O => mret (Some [])
  | S n' =>
      r ← wire_conn_read;
      match r with
      | None => mret None
      | Some (op, buf_len) =>
          buf ← get (fun c => take (Z.to_nat buf_len) (default [] (wc_buf c)));
          r ← read_all n';
          mret ((fun l => (op, buf) :: l) <$> r)
      end
  end.

Lemma write_all_soft msgs : forall c, Forall soft (wc_io c) ->
  exists calls, Forall soft calls /\
    write_all msgs c = Returns (set_wc_io calls (set_wc_sent (wc_sent c ++ mjoin ((fun m => message m.1 m.2) <$> msgs)) c)) true.
Proof.
  induction msgs as [|[op buf] msgs IH]; intros c Hs; cbn [write_all].
  { exists (wc_io c). split; [done|]. cbn. rewrite app_nil_r. by destruct c. }
  destruct (wire_conn_write_soft op buf c Hs) as (calls&Hc&E). erewrite bind_Returns by exact E. cbn [negb].
  destruct (IH (set_wc_io calls (set_wc_sent (wc_sent c ++ message op buf) c)) Hc) as (calls'&Hc'&E').
  exists calls'. split; [done|]. etrans; [exact E'|]. cbn. by rewrite <-app_assoc.
Qed.

Lemma read_all_soft `{Malloc} msgs : forall c, Forall soft (wc_io c) -> in_ok c ->
  Forall (fun m => message_ok m.1 m.2) msgs ->
  wc_arrived c = mjoin ((fun m => message m.1 m.2) <$> msgs) ->
  exists c', read_all (length msgs) c = Returns c' (Some msgs) /\ wc_arrived c' = [].
Proof.
  induction msgs as [|[op buf] msgs IH]; intros c Hs Hin Hm Ha; cbn [read_all length].
  { by exists c. }
  apply Forall_cons in Hm as [Hm Hms]. cbn [fst snd] in Hm.
  destruct (wire_conn_read_soft op buf (mjoin ((fun m => message m.1 m.2) <$> msgs)) c Hs Hin Hm Ha)
    as (calls&b&space&Hc&E&Hb). erewrite bind_Returns by exact E. cbn match beta.
  erewrite bind_Returns by done. set (c1 := set_wc_io _ _).
  destruct (IH c1) as (c2&E2&Ha2); [done| |done|done|].
  { unfold in_ok, c1. cbn. destruct b; [by destruct Hb as (?&_&?&_)|apply Hb]. }
  erewrite bind_Returns by exact E2. exists c2. split; [|done]. unfold mret, prog_ret. do 2 f_equal.
  cbn. f_equal. f_equal. replace (Z.to_nat (zlen buf)) with (length buf) by (unfold zlen; lia).
  destruct b as [b|]; cbn; [|by destruct Hb as [-> _]].
  destruct Hb as (tail&->&_). by rewrite take_app_length.
Qed.

(** C37. Framing: whatever the sizes of the reads and writes that the two kernels do, and however
    many of them are interrupted, the messages that one side writes are what the other side
    reads: the same operations with the same contents, in the same order, and no byte is left
    over. *)
Theorem wire_messages_roundtrip `{Malloc} (msgs : list (Z * bytes)) (writer reader : wire_conn) :
  Forall (fun m => message_ok m.1 m.2) msgs ->
  Forall soft (wc_io writer) -> Forall soft (wc_io reader) ->
  wc_sent writer = [] -> in_ok reader ->
  exists writer' reader', write_all msgs writer = Returns writer' true /\
    read_all (length msgs) (set_wc_arrived (wc_sent writer') reader) = Returns reader' (Some msgs) /\
    wc_arrived reader' = [].
Proof.
  intros Hm Hw Hr Hsent Hin. destruct (write_all_soft msgs writer Hw) as (calls&Hc&E).
  eexists. destruct (read_all_soft msgs (set_wc_arrived (mjoin ((fun m => message m.1 m.2) <$> msgs)) reader))
    as (reader'&E'&Ha); [done..|].
  exists reader'. split; [exact E|]. cbn. rewrite Hsent. done.
Qed.

(** Three messages written two bytes and then five at a time, with an interruption, and read
    one byte, then seven, and so on. *)
Lemma wire_messages_roundtrip_witness : exists writer' reader',
  let msgs := [(WIRE_SCRIPT, [104; 105]); (WIRE_CLIENT_STARTING, []); (WIRE_PACKETS_START, [0; 0; 0; 1])] in
  write_all msgs (wire_conn_new 3 [IoCount 2; IoError EINTR; IoCount 5]) = Returns writer' true /\
  @read_all zero_malloc (length msgs) (set_wc_arrived (wc_sent writer')
    (wire_conn_new 4 [IoCount 1; IoCount 7; IoError EAGAIN; IoCount 1])) = Returns reader' (Some msgs) /\
  wc_arrived reader' = [].
Proof.
  apply (@wire_messages_roundtrip zero_malloc [(WIRE_SCRIPT, [104; 105]); (WIRE_CLIENT_STARTING, []);
    (WIRE_PACKETS_START, [0; 0; 0; 1])] (wire_conn_new 3 [IoCount 2; IoError EINTR; IoCount 5])
    (wire_conn_new 4 [IoCount 1; IoCount 7; IoError EAGAIN; IoCount 1])).
  - repeat constructor; vm_compute; discriminate.
  - apply Forall_forall. intros i Hi. set_unfold. destruct Hi as [-> | [-> | [-> | []]]]; [done|by left|done].
  - apply Forall_forall. intros i Hi. set_unfold.
    destruct Hi as [-> | [-> | [-> | [-> | []]]]]; [done|done|by right|done].
  - reflexivity.
  - reflexivity.
Defined.

(** ** Programs as functions of the bytes that arrive

    More bytes from the other side do not change what a program has done so far: a program
    that did not wait does the same, and one that waited goes on from there. *)

Section Kahn.
Context {W : Type} `{HasConn W}.

(** The state with more bytes that have arrived. *)
Definition feed (x : bytes) (w : W) : W :=
  set_conn (set_wc_arrived (wc_arrived (conn_of w) ++ x) (conn_of w)) w.

Definition sent (w : W) : bytes := wc_sent (conn_of w).
Definition is_open (w : W) : Prop := wc_closed (conn_of w) = false.

Record kahn {A} (m : prog W A) : Prop := {
  kahn_grows : forall w, sent w `prefix_of` sent (end_of (m w));
  kahn_open : forall w, is_open w -> is_open (end_of (m w));
  kahn_feed : forall w x, is_open w ->
    match m w with
    | Returns w' a => m (feed x w) = Returns (feed x w') a
    | Stops w' Waiting => sent w' `prefix_of` sent (end_of (m (feed x w)))
    | Stops w' why => m (feed x w) = Stops (feed x w') why
    end
}.

Lemma sent_feed x w : sent (feed x w) = sent w.
Proof. unfold sent, feed. by rewrite conn_set. Qed.

Lemma open_feed x w : is_open w -> is_open (feed x w).
Proof. unfold is_open, feed. by rewrite conn_set. Qed.

Lemma kahn_ret {A} (a : A) : kahn (mret a).
Proof. split; done. Qed.

Lemma kahn_halt {A} why : why <> Waiting -> kahn (halt (A:=A) why).
Proof. intros Hw. split; [done|done|]. intros w x _. by destruct why. Qed.

Lemma kahn_run_exec {A} (m : exec A) : kahn (run_exec m).
Proof. split; intros; unfold run_exec; by destruct m. Qed.

Lemma kahn_bind {A B} (m : prog W A) (f : A -> prog W B) :
  kahn m -> (forall a, kahn (f a)) -> kahn (m ≫= f).
Proof.
  intros Hm Hf. split; unfold mbind, prog_bind.
  - intros w. pose proof (kahn_grows m Hm w). destruct (m w) as [w' a|]; [|done].
    etrans; [done|]. apply (kahn_grows _ (Hf a)).
  - intros w Hw. pose proof (kahn_open m Hm w Hw). destruct (m w) as [w' a|]; [|done].
    by apply (kahn_open _ (Hf a)).
  - intros w x Hw. pose proof (kahn_feed m Hm w x Hw) as E. pose proof (kahn_open m Hm w Hw) as Ho.
    destruct (m w) as [w' a|w' why].
    + rewrite E. by apply (kahn_feed _ (Hf a)).
    + destruct why; [|by rewrite E..]. destruct (m (feed x w)) as [w1 a|]; [|done].
      etrans; [done|]. apply (kahn_grows _ (Hf a)).
Qed.

(** A step that does not use the connection. *)
Definition on_world {A} (f : W -> W) (r : ending W A) : ending W A :=
  match r with Returns w a => Returns (f w) a | Stops w why => Stops (f w) why end.
Definition off_wire {A} (m : prog W A) : Prop := forall w,
  (forall c, m (set_conn c w) = on_world (set_conn c) (m w)) /\
  conn_of (end_of (m w)) = conn_of w /\
  match m w with Stops _ Waiting => False | _ => True end.

Lemma kahn_off_wire {A} (m : prog W A) : off_wire m -> kahn m.
Proof.
  intros Hm. split.
  - intros w. unfold sent. by rewrite (proj1 (proj2 (Hm w))).
  - intros w Hw. unfold is_open. by rewrite (proj1 (proj2 (Hm w))).
  - intros w x Hw. destruct (Hm w) as (E1&E2&E3). unfold feed at 1. rewrite E1.
    destruct (m w) as [w' a|w' why]; cbn in *; [unfold feed; by rewrite E2|].
    destruct why; try (unfold feed; by rewrite E2). done.
Qed.

Lemma kahn_get {A} (f : W -> A) : (forall x w, f (feed x w) = f w) -> kahn (get f).
Proof. intros Hf. split; [done|done|]. intros w x _. cbn. unfold get. by rewrite Hf. Qed.

Lemma kahn_put (f : W -> W) :
  (forall c w, f (set_conn c w) = set_conn c (f w)) -> (forall w, conn_of (f w) = conn_of w) -> kahn (put f).
Proof.
  intros Hf Hc. split.
  - intros w. unfold sent. cbn. by rewrite Hc.
  - intros w Hw. unfold is_open. cbn. by rewrite Hc.
  - intros w x Hw. cbn. unfold put, feed. by rewrite Hf, Hc.
Qed.

End Kahn.

Lemma kahn_on_conn {W A} `{HasConn W} (m : prog wire_conn A) : kahn m -> kahn (on_conn m).
Proof.
  intros [Hg Ho Hf]. split; unfold on_conn.
  - intros w. specialize (Hg (conn_of w)). unfold sent in *. destruct (m (conn_of w)); cbn in *; by rewrite conn_set.
  - intros w Hw. specialize (Ho (conn_of w) Hw). unfold is_open in *. destruct (m (conn_of w)); cbn in *; by rewrite conn_set.
  - intros w x Hw. specialize (Hf (conn_of w) x Hw). unfold feed in *. cbn [conn_of set_conn wire_conn_HasConn] in Hf.
    rewrite conn_set. unfold id in Hf. destruct (m (conn_of w)) as [c a|c why].
    + rewrite Hf. by rewrite conn_set, !set_set.
    + destruct why; [|rewrite Hf; by rewrite conn_set, !set_set..].
      unfold sent in *. cbn in Hf. rewrite conn_set. destruct (m _); cbn in *; by rewrite conn_set.
Qed.

(** Reading and writing messages. *)
Lemma kahn_next_io : kahn next_io.
Proof.
  split; unfold next_io.
  - intros w. by destruct (wc_io w).
  - intros w. by destruct (wc_io w).
  - intros w x Hw. cbn. by destruct (wc_io w).
Qed.

Lemma kahn_send b : kahn (put (fun c => set_wc_sent (wc_sent c ++ b) c)).
Proof. split; [intros w; by eexists|done|done]. Qed.

Lemma kahn_take_arrived n : kahn (take_arrived n).
Proof.
  split; unfold take_arrived.
  - intros w. by case_match.
  - intros w Hw. by case_match.
  - intros w x Hw. unfold is_open, feed in *. cbn [conn_of set_conn wire_conn_HasConn] in *. unfold id in *.
    cbn [wc_arrived wc_closed set_wc_arrived]. rewrite Hw, !orb_false_r.
    destruct (Z.leb_spec n (zlen (wc_arrived w))) as [Hn|Hn].
    + rewrite (proj2 (Z.leb_le _ _)) by (rewrite zlen_app; pose proof (zlen_nonneg x); lia).
      unfold zlen in Hn. rewrite take_app_le, drop_app_le by lia. done.
    + unfold sent. cbn. by case_match.
Qed.

Create HintDb kahn_db.
#[export] Hint Resolve kahn_ret kahn_run_exec kahn_next_io kahn_send kahn_take_arrived : kahn_db.
#[export] Hint Extern 1 (kahn (halt _)) => apply kahn_halt; discriminate : kahn_db.
#[export] Hint Extern 1 (kahn (get _)) => apply kahn_get; reflexivity : kahn_db.
#[export] Hint Extern 1 (kahn (put _)) => apply kahn_put; reflexivity : kahn_db.
#[export] Hint Extern 2 (kahn (on_conn _)) => apply kahn_on_conn : kahn_db.

(** Programs made of programs that are [kahn]. *)
Ltac kahn_tac :=
  repeat match goal with
  | |- kahn (_ ≫= _) => apply kahn_bind; [|intros ?]
  | |- kahn (match ?x with _ => _ end) => destruct x
  | |- kahn _ => solve [auto 3 with kahn_db]
  end.

Lemma kahn_iterate {W A} `{HasConn W} fuel (body : prog W (option A)) : kahn body -> kahn (iterate fuel body).
Proof. intros Hb. induction fuel as [|fuel IH]; cbn [iterate]; kahn_tac; done. Qed.

Lemma kahn_write_loop fuel : forall buf, kahn (write_loop fuel buf).
Proof. induction fuel as [|fuel IH]; intros buf; cbn [write_loop]; unfold sys_write; kahn_tac. Qed.

Lemma kahn_read_loop fuel : forall n acc, kahn (read_loop fuel n acc).
Proof. induction fuel as [|fuel IH]; intros n acc; cbn [read_loop]; unfold sys_read; kahn_tac; apply IH. Qed.

(** The list of calls does not depend on what arrives. *)
Lemma kahn_get_io : kahn (get wc_io).
Proof. split; done. Qed.
#[export] Hint Resolve kahn_get_io kahn_write_loop kahn_read_loop : kahn_db.

Lemma kahn_wire_conn_write op buf : kahn (wire_conn_write op buf).
Proof. unfold wire_conn_write, write_bytes. kahn_tac. Qed.

Lemma kahn_grow_in `{Malloc} n : kahn (grow_in n).
Proof.
  split; unfold grow_in, put.
  - intros w. cbn. by case_match.
  - intros w Hw. cbn. by case_match.
  - intros w x Hw. cbn. unfold feed. cbn. unfold id. by case_match.
Qed.

Lemma kahn_store_in b : kahn (store_in b).
Proof.
  assert (forall w, sent (end_of (store_in b w)) = sent w /\ wc_closed (end_of (store_in b w)) = wc_closed w) as Hs.
  { intros w. unfold store_in. destruct (wc_buf w) as [buf|]; [by destruct (put_bytes buf 0 b)|by destruct b]. }
  split.
  - intros w. by rewrite (proj1 (Hs w)).
  - intros w Hw. unfold is_open. cbn. unfold id. by rewrite (proj2 (Hs w)).
  - intros w x Hw. unfold store_in, feed. cbn. unfold id.
    destruct (wc_buf w) as [buf|]; [by destruct (put_bytes buf 0 b)|by destruct b].
Qed.

#[export] Hint Resolve kahn_grow_in kahn_store_in : kahn_db.

Lemma kahn_wire_conn_read `{Malloc} : kahn wire_conn_read.
Proof. unfold wire_conn_read, read_bytes. kahn_tac. Qed.

#[export] Hint Resolve kahn_wire_conn_write kahn_wire_conn_read : kahn_db.
