(* ===== verification/WireNet.v ===== *)
(** * WireNet: two programs and the network between them

    Two programs with a connection each, and a network that delivers the bytes one has sent
    to the other, in order, in pieces of any size and after any delay.  A program runs as far
    as it gets with what it was given: that is all the schedule can change, so that its state
    is a function of the bytes delivered to it, and a state of the network is what has been
    delivered to each side. *)

From stdpp Require Import relations.
From S2P Require Import Prelude WireConn.

Section Net.
Context {W1 W2 A B : Type} `{HasConn W1, HasConn W2}.
Context (client : prog W1 A) (server : prog W2 B) (client0 : W1) (server0 : W2).

(** What each side has sent after it was given some bytes. *)
Definition client_out (x : bytes) : bytes := sent (end_of (client (feed x client0))).
Definition server_out (x : bytes) : bytes := sent (end_of (server (feed x server0))).

(** The bytes delivered to the client and to the server. *)
Definition net : Type := bytes * bytes.

Inductive deliver : net -> net -> Prop :=
  | deliver_client cin sin b :
      b <> [] -> cin ++ b `prefix_of` server_out sin -> deliver (cin, sin) (cin ++ b, sin)
  | deliver_server cin sin b :
      b <> [] -> sin ++ b `prefix_of` client_out cin -> deliver (cin, sin) (cin, sin ++ b).

(** Bytes that must come to be sent: the client's and the server's, each after the bytes of
    the other that it needs for them. *)
Inductive derivable : bytes -> bytes -> Prop :=
  | derive_start : derivable [] []
  | derive_client c s c' : derivable c s -> c' `prefix_of` client_out s -> derivable c' s
  | derive_server c s s' : derivable c s -> s' `prefix_of` server_out c -> derivable c s'.

Hypothesis kahn_client : kahn client.
Hypothesis kahn_server : kahn server.
Hypothesis client0_open : is_open client0.
Hypothesis server0_open : is_open server0.

Lemma feed_feed {W} `{HasConn W} (x y : bytes) (w : W) : feed y (feed x w) = feed (x ++ y) w.
Proof. unfold feed. rewrite !conn_set, set_set. cbn. by rewrite app_assoc. Qed.

Lemma out_mono {W R} `{HasConn W} (m : prog W R) (w : W) (x y : bytes) :
  kahn m -> is_open w -> x `prefix_of` y ->
  sent (end_of (m (feed x w))) `prefix_of` sent (end_of (m (feed y w))).
Proof.
  intros Hm Hw [z ->]. rewrite <-feed_feed.
  pose proof (kahn_feed m Hm (feed x w) z (open_feed x w Hw)) as Hf.
  destruct (m (feed x w)) as [w' r|w' why]; [rewrite Hf; cbn; by rewrite sent_feed|].
  destruct why; [done|rewrite Hf; cbn; by rewrite sent_feed..].
Qed.

Lemma client_out_mono x y : x `prefix_of` y -> client_out x `prefix_of` client_out y.
Proof. by apply out_mono. Qed.
Lemma server_out_mono x y : x `prefix_of` y -> server_out x `prefix_of` server_out y.
Proof. by apply out_mono. Qed.

(** What was delivered had been sent. *)
Lemma deliver_sent n : rtc deliver ([], []) n ->
  n.1 `prefix_of` server_out n.2 /\ n.2 `prefix_of` client_out n.1.
Proof.
  revert n. apply (rtc_ind_r (fun n => n.1 `prefix_of` server_out n.2 /\ n.2 `prefix_of` client_out n.1));
    [split; apply prefix_nil|].
  intros n n' _ Hd [IH1 IH2]. destruct Hd as [cin sin b _ Hb|cin sin b _ Hb]; cbn in *; split; try done.
  - etrans; [exact IH2|]. apply client_out_mono. by eexists.
  - etrans; [exact IH1|]. apply server_out_mono. by eexists.
Qed.

Section Ends.
Context (cs ss : bytes).
Hypothesis Hderive : derivable cs ss.
Hypothesis Hclient : client_out ss = cs.
Hypothesis Hserver : server_out cs = ss.

(** Nothing is delivered that is not part of the whole exchange. *)
Lemma deliver_within n : rtc deliver ([], []) n -> n.1 `prefix_of` ss /\ n.2 `prefix_of` cs.
Proof.
  revert n. apply (rtc_ind_r (fun n => n.1 `prefix_of` ss /\ n.2 `prefix_of` cs)); [split; apply prefix_nil|].
  intros n n' _ Hd [IH1 IH2]. destruct Hd as [cin sin b _ Hb|cin sin b _ Hb]; cbn in *; split; try done.
  - etrans; [exact Hb|]. rewrite <-Hserver. by apply server_out_mono.
  - etrans; [exact Hb|]. rewrite <-Hclient. by apply client_out_mono.
Qed.

(** A network with nothing to deliver has delivered everything. *)
Lemma quiescent_all n : rtc deliver ([], []) n -> (forall n', ~ deliver n n') -> n = (ss, cs).
Proof.
  intros Hr Hq. destruct (deliver_within n Hr) as [Hc Hs]. destruct (deliver_sent n Hr) as [Hc' Hs'].
  destruct n as [cin sin]. cbn in *.
  assert (cin = server_out sin) as Ec.
  { destruct Hc' as [[|x k] E]; [by rewrite app_nil_r in E|]. exfalso. apply (Hq (cin ++ x :: k, sin)).
    constructor; [done|]. by rewrite <-E. }
  assert (sin = client_out cin) as Es.
  { destruct Hs' as [[|x k] E]; [by rewrite app_nil_r in E|]. exfalso. apply (Hq (cin, sin ++ x :: k)).
    constructor; [done|]. by rewrite <-E. }
  assert (forall c s, derivable c s -> c `prefix_of` sin /\ s `prefix_of` cin) as Hall.
  { induction 1 as [|c s c' _ [IH1 IH2] Hp|c s s' _ [IH1 IH2] Hp]; [split; apply prefix_nil| |].
    - split; [|done]. rewrite Es. etrans; [exact Hp|]. by apply client_out_mono.
    - split; [done|]. rewrite Ec. etrans; [exact Hp|]. by apply server_out_mono. }
  destruct (Hall cs ss Hderive) as [H1' H2']. f_equal; apply (anti_symm prefix); done.
Qed.

(** Deliveries come to an end. *)
Lemma deliver_bounded k n : nsteps deliver k ([], []) n -> (k <= length ss + length cs)%nat.
Proof.
  intros Hk. destruct (deliver_within n (rtc_nsteps_2 _ _ _ Hk)) as [Hc%prefix_length Hs%prefix_length].
  enough (forall n0, nsteps deliver k n0 n -> (k + length n0.1 + length n0.2 <= length n.1 + length n.2)%nat) as Hm
    by (specialize (Hm ([], []) Hk); cbn in Hm; lia).
  clear. induction k as [|k IH]; intros n0 Hk; inversion Hk as [|? ? n1 ? Hd Hk']; subst; [lia|].
  apply IH in Hk'. destruct Hd as [cin sin [|]|cin sin [|]]; try done; cbn in *; rewrite ?length_app in *; cbn in *; lia.
Qed.

End Ends.
End Net.
