(* ===== verification/WireClient.v ===== *)
(** * WireClient: the client side of a wire test (wire_client.c)

    The client sends its arguments, the script and its hardware address, waits until the
    server is ready, and then tells the server when each block of packet events starts and
    waits for its end.

    Command line arguments, paths and texts are C strings: lists of bytes without the
    terminator. *)

From S2P Require Import Prelude Headers Packet Script RunState WireConn.

(** [script.h:195-202] enum event_t *)
Inductive event_kind := KIND_INVALID | KIND_PACKET | KIND_SYSCALL | KIND_COMMAND | KIND_CODE.

#[export] Instance event_kind_eq_dec : EqDecision event_kind.
Proof. solve_decision. Defined.

(** [event->type]. *)
Definition event_type (e : event) : event_kind :=
  match ev_event e with
  | INVALID_EVENT => KIND_INVALID
  | PACKET_EVENT _ => KIND_PACKET
  | SYSCALL_EVENT _ => KIND_SYSCALL
  | COMMAND_EVENT _ => KIND_COMMAND
  | CODE_EVENT _ => KIND_CODE
  end.

(** Whether there is an event and it is a packet. *)
Definition is_packet (event : option event_kind) : bool := bool_decide (event = Some KIND_PACKET).

(** [wire_client.h:39-46] struct wire_client, with what the program prints to stderr *)
Record wire_client := mk_wire_client {
  wcl_conn : wire_conn;
  wcl_client_ether_addr : bytes;
  wcl_last_event_type : event_kind;
  wcl_num_events : Z;
  wcl_printed : list bytes
}.

Definition set_wcl_conn (v : wire_conn) (w : wire_client) : wire_client :=
  mk_wire_client v (wcl_client_ether_addr w) (wcl_last_event_type w) (wcl_num_events w) (wcl_printed w).
Definition set_wcl_client_ether_addr (v : bytes) (w : wire_client) : wire_client :=
  mk_wire_client (wcl_conn w) v (wcl_last_event_type w) (wcl_num_events w) (wcl_printed w).
Definition set_wcl_last_event_type (v : event_kind) (w : wire_client) : wire_client :=
  mk_wire_client (wcl_conn w) (wcl_client_ether_addr w) v (wcl_num_events w) (wcl_printed w).
Definition set_wcl_num_events (v : Z) (w : wire_client) : wire_client :=
  mk_wire_client (wcl_conn w) (wcl_client_ether_addr w) (wcl_last_event_type w) v (wcl_printed w).
Definition set_wcl_printed (v : list bytes) (w : wire_client) : wire_client :=
  mk_wire_client (wcl_conn w) (wcl_client_ether_addr w) (wcl_last_event_type w) (wcl_num_events w) v.

#[export] Instance wire_client_HasConn : HasConn wire_client.
Proof.
  refine {| conn_of := wcl_conn; set_conn := set_wcl_conn |}; [done|by intros []|done].
Defined.

(** What the client reads of its configuration and script. *)
Record client_config := mk_client_config {
  cc_argv : list bytes;
  cc_script_path : bytes;
  cc_script_buffer : bytes;
  cc_hw_address : bytes
}.

(** [wire_client.c:32-35] wire_client_new, with the connection that wire_client_init opens *)
Definition wire_client_new (conn : wire_conn) : wire_client :=
  mk_wire_client conn (replicate 6 0) KIND_INVALID 0 [].

(** [wire_client.c:46-50] wire_client_die *)
Definition wire_client_die {A} (text : string) : prog wire_client A :=
  halt (Dies ("error in TCP connection to wire server: " +:+ text +:+ newline)).

(** A write or a read of a whole message that must succeed. *)
Definition client_write (op : Z) (buf : bytes) (error : string) : prog wire_client unit :=
  ok ← on_conn (wire_conn_write op buf);
  if negb ok then wire_client_die error else mret tt.
Definition client_read `{Malloc} (error : string) : prog wire_client (Z * Z) :=
  r ← on_conn wire_conn_read;
  match r with
  | None => wire_client_die error
  | Some r => mret r
  end.

(** ** Arguments *)

(** Whether [s] starts with [p]. *)
Fixpoint starts_with (p s : bytes) : bool :=
  match p, s with
  | [], _ => true
  | x :: p', y :: s' => (x =? y) && starts_with p' s'
  | _, _ => false
  end.

(** strstr(3): whether [p] occurs in [s]. *)
Fixpoint strstr (s p : bytes) : bool :=
  starts_with p s || match s with [] => false | _ :: s' => strstr s' p end.

(** [wire_client.c:65-65] the argument that is not sent *)
Definition is_wire_client_arg (arg : bytes) : bool := strstr arg (string_bytes "-wire_client").

(** [wire_client.c:64-68] the loop that adds up the lengths *)
Fixpoint args_length (argv : list bytes) (args_len : Z) : Z :=
  match argv with
  | [] => args_len
  | arg :: argv' =>
      if is_wire_client_arg arg then args_length argv' args_len
      else args_length argv' (s32 (args_len + zlen arg + 1))
  end.

(** [wire_client.c:73-80] the loop that copies the arguments *)
Fixpoint copy_args (argv : list bytes) (args : bytes) (pos : Z) : exec (bytes * Z) :=
  match argv with
  | [] => Ok (args, pos)
  | arg :: argv' =>
      if is_wire_client_arg arg then copy_args argv' args pos
      else
        args ← put_bytes args pos (arg ++ [0]);
        copy_args argv' args (pos + zlen arg + 1)
  end.

(** [wire_client.c:56-86] wire_client_serialize_argv *)
Definition wire_client_serialize_argv (argv : list bytes) : exec bytes :=
  let args_len := args_length argv 0 in
  '(args, pos) ← copy_args argv (replicate (Z.to_nat args_len) 0) 0;
  _ ← c_assert (pos =? args_len);
  Ok args.

(** ** Messages *)

(** [wire_client.c:91-105] wire_client_send_args *)
Definition wire_client_send_args (config : client_config) : prog wire_client unit :=
  args ← run_exec (wire_client_serialize_argv (cc_argv config));
  client_write WIRE_COMMAND_LINE_ARGS args "error sending WIRE_COMMAND_LINE_ARGS".

(** [wire_client.c:108-117] wire_client_send_script_path *)
Definition wire_client_send_script_path (config : client_config) : prog wire_client unit :=
  client_write WIRE_SCRIPT_PATH (cc_script_path config) "error sending WIRE_SCRIPT_PATH".

(** [wire_client.c:120-128] wire_client_send_script *)
Definition wire_client_send_script (config : client_config) : prog wire_client unit :=
  client_write WIRE_SCRIPT (cc_script_buffer config) "error sending WIRE_SCRIPT".

(** [wire_client.c:131-140] wire_client_send_hw_address *)
Definition wire_client_send_hw_address : prog wire_client unit :=
  addr ← get wcl_client_ether_addr;
  client_write WIRE_HARDWARE_ADDR addr "error sending WIRE_HARDWARE_ADDR".

(** [wire_client.c:163-170] wire_client_send_client_starting *)
Definition wire_client_send_client_starting : prog wire_client unit :=
  client_write WIRE_CLIENT_STARTING [] "error sending WIRE_CLIENT_STARTING".

(** [wire_protocol.h:55-57] struct wire_packets_start, in memory *)
Definition wire_packets_start (num_events : Z) : bytes := le_split 4 (htonl (u32 num_events)).

(** [wire_client.c:173-182] wire_client_send_packets_start *)
Definition wire_client_send_packets_start : prog wire_client unit :=
  num_events ← get wcl_num_events;
  client_write WIRE_PACKETS_START (wire_packets_start num_events) "error sending WIRE_PACKETS_START".

(** [wire_protocol.h:60-64] struct wire_packets_done, its size without the message *)
Definition sizeof_wire_packets_done : Z := 8.

(** [types.h:76-77] the numbers of the statuses *)
Definition STATUS_OK_NUMBER : Z := 0.
Definition STATUS_ERR_NUMBER : Z := -1.

Section Receive.
Context `{Malloc}.

(** [wire_client.c:143-160] wire_client_receive_server_ready *)
Definition wire_client_receive_server_ready : prog wire_client unit :=
  '(op, buf_len) ← client_read "error reading WIRE_SERVER_READY";
  if negb (op =? WIRE_SERVER_READY) then
    wire_client_die "bad wire server: expected WIRE_SERVER_READY"
  else if negb (buf_len =? 0) then
    wire_client_die "bad wire server: bad WIRE_SERVER_READY len"
  else mret tt.

(** The buffer of the connection, as long as it is. *)
Definition in_buf : prog wire_client bytes := get (fun w => default [] (wc_buf (wcl_conn w))).

(** [wire_client.c:197-216] the loop of wire_client_receive_packets_done: warnings are
    printed; the length of the final message *)
Fixpoint receive_loop (fuel : nat) : prog wire_client Z :=
  match fuel with
  | O => halt (Breaks OutOfFuel)
  | S fuel' =>
      '(op, buf_len) ← client_read "error reading";
      if op =? WIRE_PACKETS_DONE then mret buf_len
      else if op =? WIRE_PACKETS_WARN then
        buf ← in_buf;
        let warning := c_string (take (Z.to_nat buf_len) buf) in
        _ ← put (fun w => set_wcl_printed (wcl_printed w ++ [warning]) w);
        receive_loop fuel'
      else wire_client_die "bad wire server: expected WIRE_PACKETS_DONE or WIRE_PACKETS_WARN"
  end.

(** [wire_client.c:218-237] the checks of wire_client_receive_packets_done on its message *)
Definition check_packets_done (buf_len : Z) : prog wire_client unit :=
  buf ← in_buf;
  if buf_len <? sizeof_wire_packets_done + 1 then
    wire_client_die "bad wire server: bad WIRE_PACKETS_DONE len"
  else
    last ← run_exec (ld8 buf (buf_len - 1));
    if negb (last =? 0) then wire_client_die "bad wire server: missing string terminator"
    else
      result ← run_exec (ld32 buf 0);
      done_events ← run_exec (ld32 buf 4);
      num_events ← get wcl_num_events;
      if ntohl result =? u32 STATUS_ERR_NUMBER then
        text ← run_exec (get_bytes buf sizeof_wire_packets_done (buf_len - sizeof_wire_packets_done));
        halt (Dies (bytes_string (c_string text)))
      else if negb (ntohl done_events =? u32 num_events) then
        wire_client_die ("bad wire server: bad message count: got: " +:+ dec (s32 (ntohl done_events))
                         +:+ " vs expected: " +:+ dec num_events)
      else mret tt.

(** [wire_client.c:187-238] wire_client_receive_packets_done: each turn of the loop takes a
    header's bytes at least from those that have arrived *)
Definition wire_client_receive_packets_done : prog wire_client unit := fun w =>
  (buf_len ← receive_loop (S (length (wc_arrived (wcl_conn w)))); check_packets_done buf_len) w.

(** [wire_client.c:243-271] wire_client_init, on the connection that wire_conn_connect opened *)
Definition wire_client_init (config : client_config) : prog wire_client unit :=
  _ ← put (set_wcl_client_ether_addr (cc_hw_address config));
  _ ← wire_client_send_args config;
  _ ← wire_client_send_script_path config;
  _ ← wire_client_send_script config;
  _ ← wire_client_send_hw_address;
  wire_client_receive_server_ready.

(** [wire_client.c:283-302] wire_client_next_event *)
Definition wire_client_next_event (event : option event_kind) : prog wire_client unit :=
  last ← get wcl_last_event_type;
  _ ← (if is_packet event && negb (bool_decide (last = KIND_PACKET))
       then wire_client_send_packets_start else mret tt);
  _ ← (if negb (is_packet event) && bool_decide (last = KIND_PACKET)
       then wire_client_receive_packets_done else mret tt);
  match event with
  | Some type => put (fun w => set_wcl_num_events (s32 (wcl_num_events w + 1)) (set_wcl_last_event_type type w))
  | None => mret tt
  end.

End Receive.
