(* ===== verification/WireServer.v ===== *)
(** * WireServer: the server side of a wire test (wire_server.c)

    The server receives the arguments and the script of the client, parses them, tells the
    client that it is ready, and then runs the packet events of the script; it waits for the
    client before each block of packet events and reports to it after each.

    The parser of scripts is the class [ScriptParser]; what state_new and the run of packets
    need of the environment is the [server_env]. *)

From S2P Require Import Prelude Headers Packet IpPacket HashMap Socket Script RunState PacketMap RunPacket FuzzHelper SystemCall RunEvents WireConn WireClient.

(** The script that a command line, a path and a text stand for, or none on an error. *)
Class ScriptParser := parse_script : list bytes -> bytes -> bytes -> option (config * list event).

(** [wire_server.c:39-59] struct wire_server: the parsed script and the configuration are in
    the state of the interpreter, which is part of [ws_state] *)
Record wire_server := mk_wire_server {
  ws_conn : wire_conn;
  ws_argv : list bytes;
  ws_script_path : bytes;
  ws_script_buffer : bytes;
  ws_client_ether_addr : bytes;
  ws_state : option sys;
  ws_last_event_type : event_kind;
  ws_num_events : Z
}.

Definition set_ws_conn (v : wire_conn) (w : wire_server) : wire_server :=
  mk_wire_server v (ws_argv w) (ws_script_path w) (ws_script_buffer w) (ws_client_ether_addr w)
    (ws_state w) (ws_last_event_type w) (ws_num_events w).
Definition set_ws_argv (v : list bytes) (w : wire_server) : wire_server :=
  mk_wire_server (ws_conn w) v (ws_script_path w) (ws_script_buffer w) (ws_client_ether_addr w)
    (ws_state w) (ws_last_event_type w) (ws_num_events w).
Definition set_ws_script_path (v : bytes) (w : wire_server) : wire_server :=
  mk_wire_server (ws_conn w) (ws_argv w) v (ws_script_buffer w) (ws_client_ether_addr w)
    (ws_state w) (ws_last_event_type w) (ws_num_events w).
Definition set_ws_script_buffer (v : bytes) (w : wire_server) : wire_server :=
  mk_wire_server (ws_conn w) (ws_argv w) (ws_script_path w) v (ws_client_ether_addr w)
    (ws_state w) (ws_last_event_type w) (ws_num_events w).
Definition set_ws_client_ether_addr (v : bytes) (w : wire_server) : wire_server :=
  mk_wire_server (ws_conn w) (ws_argv w) (ws_script_path w) (ws_script_buffer w) v
    (ws_state w) (ws_last_event_type w) (ws_num_events w).
Definition set_ws_state (v : option sys) (w : wire_server) : wire_server :=
  mk_wire_server (ws_conn w) (ws_argv w) (ws_script_path w) (ws_script_buffer w)
    (ws_client_ether_addr w) v (ws_last_event_type w) (ws_num_events w).
Definition set_ws_event (type : event_kind) (num_events : Z) (w : wire_server) : wire_server :=
  mk_wire_server (ws_conn w) (ws_argv w) (ws_script_path w) (ws_script_buffer w)
    (ws_client_ether_addr w) (ws_state w) type num_events.

#[export] Instance wire_server_HasConn : HasConn wire_server.
Proof.
  refine {| conn_of := ws_conn; set_conn := set_ws_conn |}; [done|by intros []|done].
Defined.

(** [wire_server.c:61-73] wire_server_new *)
Definition wire_server_new (accepted_conn : wire_conn) : wire_server :=
  mk_wire_server accepted_conn [] [] [] (replicate 6 0) None KIND_INVALID 0.

(** ** Arguments *)

(** strdup(3) of what starts at the head of the memory [b]: it must end in it. *)
Fixpoint strdup (b : bytes) : exec bytes :=
  match b with
  | [] => Fault OutOfBounds
  | x :: b' => if x =? 0 then Ok [] else s ← strdup b'; Ok (x :: s)
  end.

(** [wire_server.c:96-99] the loop that counts the arguments *)
Fixpoint count_args (args : bytes) : nat :=
  match args with
  | [] => O
  | b :: args' => if b =? 0 then S (count_args args') else count_args args'
  end.

(** [wire_server.c:110-113] the loop that copies [n] arguments from [pos] on *)
Fixpoint dup_args (n : nat) (buf : bytes) (pos : nat) : exec (list bytes) :=
  match n with
  | O => Ok []
  | S n' =>
      arg ← strdup (drop pos buf);
      rest ← dup_args n' buf (pos + length arg + 1);
      Ok (arg :: rest)
  end.

(** [wire_server.c:88-121] wire_server_unserialize_argv: [buf] is the buffer of the
    connection, whose first [args_len] bytes are the message; the last string copied is
    replaced *)
Definition wire_server_unserialize_argv (buf : option bytes) (args_len : Z) : exec (list bytes) :=
  let argc := S (count_args (take (Z.to_nat args_len) (default [] buf))) in
  buf ← deref buf;
  argv ← dup_args argc buf 0;
  Ok (take (argc - 1) argv ++ [string_bytes "--wire_server"]).

(** ** Messages *)

(** [goto error_done] of the thread, and the returns of its callees: what follows is done
    unless there was an error. *)
Definition and_then (m : prog wire_server status_t) (k : prog wire_server status_t) : prog wire_server status_t :=
  status ← m;
  match status with STATUS_ERR e => mret (STATUS_ERR e) | _ => k end.

Definition bad (text : string) : prog wire_server status_t := mret (STATUS_ERR text).

(** A write of a whole message. *)
Definition server_write (op : Z) (buf : bytes) (error : string) : prog wire_server status_t :=
  ok ← on_conn (wire_conn_write op buf);
  if negb ok then bad error else mret STATUS_OK.

Section Server.
Context `{Malloc, Libc, ScriptParser}.

(** A read of a message that must have the given operation: what to do with its length and
    the buffer. *)
Definition server_read (op : Z) (error : string) (k : Z -> option bytes -> prog wire_server status_t)
    : prog wire_server status_t :=
  r ← on_conn wire_conn_read;
  match r with
  | None => bad ""
  | Some (received, buf_len) =>
      if negb (received =? op) then bad error
      else
        buf ← get (fun w => wc_buf (ws_conn w));
        k buf_len buf
  end.

(** [wire_server.c:124-142] wire_server_receive_args *)
Definition wire_server_receive_args : prog wire_server status_t :=
  server_read WIRE_COMMAND_LINE_ARGS "bad wire client: expected WIRE_COMMAND_LINE_ARGS" (fun buf_len buf =>
    argv ← run_exec (wire_server_unserialize_argv buf buf_len);
    _ ← put (set_ws_argv argv);
    mret STATUS_OK).

(** strndup(3). *)
Definition strndup (buf : option bytes) (n : Z) : bytes := c_string (take (Z.to_nat n) (default [] buf)).

(** [wire_server.c:145-162] wire_server_receive_script_path *)
Definition wire_server_receive_script_path : prog wire_server status_t :=
  server_read WIRE_SCRIPT_PATH "bad wire client: expected WIRE_SCRIPT_PATH" (fun buf_len buf =>
    _ ← put (set_ws_script_path (strndup buf buf_len));
    mret STATUS_OK).

(** [wire_server.c:165-182] wire_server_receive_script *)
Definition wire_server_receive_script : prog wire_server status_t :=
  server_read WIRE_SCRIPT "bad wire client: expected WIRE_SCRIPT" (fun buf_len buf =>
    _ ← put (set_ws_script_buffer (strndup buf buf_len));
    mret STATUS_OK).

(** [wire_server.c:186-208] wire_server_receive_hw_address *)
Definition wire_server_receive_hw_address : prog wire_server status_t :=
  server_read WIRE_HARDWARE_ADDR "bad wire client: expected WIRE_HARDWARE_ADDR" (fun buf_len buf =>
    if negb (buf_len =? 6) then bad "bad wire client: bad hw address length"
    else
      buf ← run_exec (deref buf);
      addr ← run_exec (get_bytes buf 0 6);
      _ ← put (set_ws_client_ether_addr addr);
      mret STATUS_OK).

(** [wire_server.c:211-220] wire_server_send_server_ready *)
Definition wire_server_send_server_ready : prog wire_server status_t :=
  server_write WIRE_SERVER_READY [] "error sending WIRE_SERVER_READY".

(** [wire_server.c:223-243] wire_server_receive_client_starting *)
Definition wire_server_receive_client_starting : prog wire_server status_t :=
  server_read WIRE_CLIENT_STARTING "bad wire client: expected WIRE_CLIENT_STARTING" (fun buf_len _ =>
    if negb (buf_len =? 0) then bad "bad wire client: bad WIRE_CLIENT_STARTING length"
    else mret STATUS_OK).

(** [wire_server.c:246-275] wire_server_receive_packets_start *)
Definition wire_server_receive_packets_start : prog wire_server status_t :=
  server_read WIRE_PACKETS_START "bad wire client: expected WIRE_PACKETS_START" (fun buf_len buf =>
    if negb (buf_len =? 4) then bad "bad wire client: bad WIRE_PACKETS_START length"
    else
      buf ← run_exec (deref buf);
      start ← run_exec (ld32 buf 0);
      num_events ← get ws_num_events;
      if negb (ntohl start =? u32 num_events) then
        bad ("bad client event count; expected " +:+ dec num_events +:+ " but got "
             +:+ dec (s32 (ntohl start)))
      else mret STATUS_OK).

(** [wire_server.c:278-287] wire_server_send_packet_warning *)
Definition wire_server_send_packet_warning (warning : string) : prog wire_server status_t :=
  server_write WIRE_PACKETS_WARN (string_bytes warning) "error sending WIRE_PACKETS_WARN".

(** [wire_server.c:294-302] the message of wire_server_send_packets_done *)
Definition wire_packets_done (result num_events : Z) (error : string) : bytes :=
  le_split 4 (htonl (u32 result)) ++ le_split 4 (htonl (u32 num_events)) ++ string_bytes error ++ [0].

(** [wire_server.c:290-312] wire_server_send_packets_done *)
Definition wire_server_send_packets_done (result : Z) (error : string) : prog wire_server status_t :=
  num_events ← get ws_num_events;
  server_write WIRE_PACKETS_DONE (wire_packets_done result num_events error) "error sending WIRE_PACKETS_DONE".

(** ** Events *)

(** [wire_server.c:315-338] wire_server_next_event *)
Definition wire_server_next_event (event : option event_kind) : prog wire_server status_t :=
  last ← get ws_last_event_type;
  and_then (if is_packet event && negb (bool_decide (last = KIND_PACKET))
            then wire_server_receive_packets_start else mret STATUS_OK) (
  and_then (if negb (is_packet event) && bool_decide (last = KIND_PACKET)
            then wire_server_send_packets_done STATUS_OK_NUMBER "" else mret STATUS_OK) (
  match event with
  | Some type =>
      _ ← put (fun w => set_ws_event type (s32 (ws_num_events w + 1)) w);
      mret STATUS_OK
  | None => mret STATUS_OK
  end)).

(** A function of the interpreter's state. *)
Definition step {A} (f : state -> exec (state * A)) : prog wire_server A := fun w =>
  match ws_state w with
  | None => Stops w (Breaks NullDeref)
  | Some s =>
      match f (sys_state s) with
      | Ok (st, a) => Returns (set_ws_state (Some (set_sys_state st s)) w) a
      | Fault e => Stops w (Breaks e)
      end
  end.

(** [wire_server.c:341-367] wire_server_run_packet_event *)
Definition wire_server_run_packet_event (ei : nat) : prog wire_server status_t :=
  result ← step (fun st => run_packet_event st ei);
  match result with
  | STATUS_ERR error =>
      and_then (wire_server_send_packets_done STATUS_ERR_NUMBER error) (mret (STATUS_ERR error))
  | STATUS_WARN warning =>
      and_then (wire_server_send_packet_warning warning) (mret (STATUS_WARN warning))
  | STATUS_OK => mret STATUS_OK
  end.

(** [wire_server.c:390-426] a turn of the loop of wire_server_run_script; None goes on *)
Definition server_event : prog wire_server (option status_t) :=
  status ← step get_next_event;
  match status with
  | STATUS_ERR error => mret (Some (STATUS_ERR error))
  | _ =>
      current ← step (fun st => Ok (st, st_event st));
      match current with
      | None => mret (Some STATUS_OK)
      | Some ei =>
          e ← step (fun st => e ← event_at st ei; Ok (st, e));
          status ← wire_server_next_event (Some (event_type e));
          match status with
          | STATUS_ERR error => mret (Some (STATUS_ERR error))
          | _ =>
              _ ← step (fun st => st ← adjust_relative_event_times st ei; Ok (st, tt));
              match event_type e with
              | KIND_PACKET =>
                  status ← wire_server_run_packet_event ei;
                  mret (match status with STATUS_ERR error => Some (STATUS_ERR error) | _ => None end)
              | KIND_SYSCALL | KIND_COMMAND | KIND_CODE => mret None
              | KIND_INVALID => halt (Breaks AssertFailed)
              end
          end
      end
  end.

(** [wire_server.c:377-434] wire_server_run_script: a turn for each event and one that ends;
    the result of the last wire_server_next_event is not looked at *)
Definition wire_server_run_script : prog wire_server status_t :=
  now ← step now_usecs;
  _ ← step (fun st => Ok (set_st_live_start_time_usecs now st, tt));
  turns ← step (fun st => Ok (st, S (length (st_events st))));
  status ← iterate turns server_event;
  match status with
  | STATUS_ERR error => mret (STATUS_ERR error)
  | _ => _ ← wire_server_next_event None; mret STATUS_OK
  end.

(** What the server's machine supplies: the run without its script, the port and the readings
    that state_new starts with, the packets that will arrive and the sends that will fail. *)
Record server_env := mk_server_env {
  se_run : sys;
  se_checker : bool;
  se_port : Z;
  se_ports : list Z;
  se_clock : list Z;
  se_received : list (result packet);
  se_send_fails : list bool
}.

(** [run.c:676-703] parse_script_and_set_config, of a text that was received *)
Definition parse_script_and_set_config (w : wire_server) : option (config * list event) :=
  parse_script (ws_argv w) (ws_script_path w) (ws_script_buffer w).

(** [wire_server.c:455-481] wire_server_thread: from the parsed script to the end of the run *)
Definition server_session (env : server_env) : prog wire_server status_t :=
  parsed ← get parse_script_and_set_config;
  match parsed with
  | None => mret (STATUS_ERR "")
  | Some (config, script) =>
      let state := state_new config (se_checker env) script (se_port env) (se_ports env)
                     (se_clock env) (se_received env) (se_send_fails env) in
      _ ← put (set_ws_state (Some (set_sys_state state (se_run env))));
      and_then wire_server_send_server_ready (
      and_then wire_server_receive_client_starting
        wire_server_run_script)
  end.

(** [wire_server.c:437-501] wire_server_thread: its status, which is only printed; the
    interpreter's state is freed when there is one *)
Definition wire_server_thread (env : server_env) : prog wire_server status_t :=
  status ←
    and_then wire_server_receive_args (
    and_then wire_server_receive_script_path (
    and_then wire_server_receive_script (
    and_then wire_server_receive_hw_address (
    server_session env))));
  s ← get ws_state;
  match s with
  | None => mret status
  | Some s =>
      s ← run_exec (state_free s);
      _ ← put (set_ws_state (Some s));
      mret status
  end.

End Server.
