(* ===== verification/RunScript.v ===== *)
(** * RunScript: running a script (run.c)

    The interpreter's loop, as the local program and as the client of a wire test: the
    events in order, each with its own way to run, then the cleanup command, the code
    snippets and the end of the run. *)

From S2P Require Import Prelude Headers Packet IpPacket HashMap Socket Script RunState PacketMap RunPacket FuzzHelper SystemCall SyscallHandlers RunEvents Code WireConn WireClient.

(** What a run works on: the interpreter, the code executor, the connection to the wire server
    (which there is when [rn_is_client]), and what was done with the code. *)
Record run := mk_run {
  rn_sys : sys;
  rn_code : code_state;
  rn_is_client : bool;
  rn_client : wire_client;
  rn_acts : list code_act
}.

Definition set_rn_sys (v : sys) (r : run) : run :=
  mk_run v (rn_code r) (rn_is_client r) (rn_client r) (rn_acts r).
Definition set_rn_code (v : code_state) (r : run) : run :=
  mk_run (rn_sys r) v (rn_is_client r) (rn_client r) (rn_acts r).
Definition set_rn_client (v : wire_client) (r : run) : run :=
  mk_run (rn_sys r) (rn_code r) (rn_is_client r) v (rn_acts r).
Definition set_rn_acts (v : list code_act) (r : run) : run :=
  mk_run (rn_sys r) (rn_code r) (rn_is_client r) (rn_client r) v.

#[export] Instance run_HasConn : HasConn run.
Proof.
  refine {| conn_of := fun r => wcl_conn (rn_client r);
            set_conn := fun c r => set_rn_client (set_wcl_conn c (rn_client r)) r |};
    [done|by intros [?? ? [] ?]|done].
Defined.

(** [script.h:250-257] struct script: the commands outside of the events *)
Record script := mk_script {
  sp_init_command : option string;
  sp_cleanup_command : option string
}.

(** A function of the interpreter, and one of the wire client. *)
Definition in_sys {A} (f : sys -> exec (sys * A)) : prog run A := fun r =>
  match f (rn_sys r) with
  | Ok (s, a) => Returns (set_rn_sys s r) a
  | Fault e => Stops r (Breaks e)
  end.
Definition in_state {A} (f : state -> exec (state * A)) : prog run A :=
  in_sys (fun s => '(st, a) ← f (sys_state s); Ok (set_sys_state st s, a)).
Definition in_client {A} (m : prog wire_client A) : prog run A := fun r =>
  match m (rn_client r) with
  | Returns c a => Returns (set_rn_client c r) a
  | Stops c why => Stops (set_rn_client c r) why
  end.

(** [if (state->wire_client != NULL)]. *)
Definition if_client (m : prog wire_client unit) : prog run unit :=
  b ← get rn_is_client;
  if b : bool then in_client m else mret tt.

Section Run.
Context `{Malloc, Libc, Shell, CodeShell}.

(** [run.c:629-654] run_script: an event, by its kind *)
Definition run_event (ei : nat) (e : event) : prog run unit :=
  match ev_event e with
  | PACKET_EVENT _ =>
      client ← get (fun r => cfg_is_wire_client (st_config (sys_state (rn_sys r))));
      if client : bool then mret tt
      else in_sys (fun s => s ← run_local_packet_event ei s; Ok (s, tt))
  | SYSCALL_EVENT call => in_sys (fun s => s ← run_system_call_event call s; Ok (s, tt))
  | COMMAND_EVENT command => in_sys (fun s => s ← run_command_event command s; Ok (s, tt))
  | CODE_EVENT text => fun r =>
      match run_code_event ei text (rn_code r) (rn_sys r) with
      | Ok (s, code) => Returns (set_rn_code code (set_rn_sys s r)) tt
      | Fault f => Stops r (Breaks f)
      end
  | INVALID_EVENT => halt (Breaks AssertFailed)
  end.

(** [run.c:623-655] run_script: an event that the loop has moved to is run, and counted *)
Definition event_turn (ei : nat) : prog run (option unit) :=
  _ ← in_state (fun st => st ← adjust_relative_event_times st ei; Ok (st, tt));
  e ← in_state (fun st => e ← event_at st ei; Ok (st, e));
  _ ← run_event ei e;
  _ ← in_state (fun st => Ok (set_st_num_events (st_num_events st + 1) st, tt));
  mret None.

(** [run.c:614-655] a turn of the loop of run_script; None goes on *)
Definition script_event : prog run (option unit) :=
  status ← in_state get_next_event;
  match status with
  | STATUS_ERR error => halt (Dies error)
  | _ =>
      current ← get (fun r => st_event (sys_state (rn_sys r)));
      match current with
      | None => mret (Some tt)
      | Some ei =>
          e ← in_state (fun st => e ← event_at st ei; Ok (st, e));
          _ ← if_client (wire_client_next_event (Some (event_type e)));
          event_turn ei
      end
  end.

(** [run.c:613-656] the loop of run_script: a turn for each event and one that ends *)
Definition script_events : prog run unit :=
  turns ← get (fun r => S (length (st_events (sys_state (rn_sys r)))));
  iterate turns script_event.

(** [run.c:592-602] run_script: the initial command; whether there is one *)
Definition run_init_command (script : script) : prog run bool :=
  match sp_init_command script with
  | None => mret false
  | Some command => if safe_system command then mret true else halt Exits
  end.

(** [run.c:658-671] run_script: after the last event *)
Definition finish_script (script : script) (init_cmd_exed : bool) : prog run unit :=
  _ ← if_client (wire_client_next_event None);
  if negb (run_cleanup_command (sp_cleanup_command script) init_cmd_exed) then halt Exits
  else
    _ ← (fun r =>
      match code_execute (rn_code r) with
      | Ok (code, true, acts) => Returns (set_rn_acts (rn_acts r ++ acts) (set_rn_code code r)) tt
      | Ok (code, false, acts) =>
          Stops (set_rn_acts (rn_acts r ++ acts) (set_rn_code code r)) (Dies "error executing code")
      | Fault f => Stops r (Breaks f)
      end);
    in_sys (fun s => s ← state_free s; Ok (s, tt)).

(** [run.c:553-674] run_script, of a new state; [jiffies] are the readings of times(2) *)
Definition run_script (config : client_config) (script : script) (jiffies : list Z) : prog run unit :=
  server ← get (fun r => cfg_is_wire_server (st_config (sys_state (rn_sys r))));
  _ ← run_exec (c_assert (negb server));
  _ ← if_client (wire_client_init config);
  init_cmd_exed ← run_init_command script;
  start ← in_state (schedule_start_time_usecs jiffies);
  _ ← in_state (fun st => Ok (set_st_live_start_time_usecs start st, tt));
  _ ← if_client wire_client_send_client_starting;
  _ ← script_events;
  finish_script script init_cmd_exed.

End Run.
