(* ===== verification/WireProps.v ===== *)
(** * WireProps: client and server of a wire test together

    Theorems about the two programs that run one script over a connection: the arguments
    survive the trip, and, whatever the delays and the sizes of the deliveries in both
    directions, the two sides keep in step and end. *)

From S2P Require Import Prelude Headers Packet IpPacket HashMap Socket Script RunState PacketMap RunPacket FuzzHelper SystemCall SyscallHandlers RunEvents Code WireConn WireClient WireServer RunScript.

(** ** Both programs depend on what arrives only by waiting for it *)

Section KahnClient.
Context `{Malloc, Libc, Shell, CodeShell}.

Lemma read_loop_consumes fuel : forall n acc c c' b,
  read_loop fuel n acc c = Returns c' (Some b) -> 0 <= n ->
  zlen (wc_arrived c') + n <= zlen (wc_arrived c).
Proof.
  induction fuel as [|fuel IH]; intros n acc c c' b E Hn; [done|]. cbn [read_loop] in E.
  destruct (Z.ltb_spec 0 n); [|injection E as <- <-; lia].
  unfold sys_read, mbind, prog_bind in E. unfold next_io in E.
  assert (forall i c1, wc_arrived c1 = wc_arrived c ->
    (let m := io_count i n in
     match take_arrived m c1 with
     | Returns w' a => match a with [] => Returns w' None
         | _ => match run_exec (c_assert (zlen a <=? n)) w' with
                | Returns w'0 _ => read_loop fuel (n - zlen a) (acc ++ a) w'0
                | Stops w'0 why => Stops w'0 why end end
     | Stops w' why => Stops w' why end = Returns c' (Some b)) ->
    zlen (wc_arrived c') + n <= zlen (wc_arrived c)) as Hstep.
  { intros i c1 Hc1 E1. cbv zeta in E1. unfold take_arrived in E1. rewrite Hc1 in E1.
    destruct (_ || _); [|done].
    destruct (take _ _) as [|x l] eqn:Et; [done|]. unfold run_exec in E1.
    destruct (Z.leb_spec (zlen (x :: l)) n); [|done]. cbn [c_assert] in E1.
    apply IH in E1; [|lia]. cbn in E1. rewrite <-Et in *. unfold zlen in *.
    rewrite length_drop, length_take in *. lia. }
  destruct (wc_io c) as [|[k|errno] rest].
  - apply (Hstep None c); [done|]. cbn in E |- *. destruct (take_arrived _ _) as [? []|]; exact E.
  - apply (Hstep (Some (IoCount k)) (set_wc_io rest c)); [done|]. cbn in E |- *.
    destruct (take_arrived _ _) as [? []|]; exact E.
  - cbn in E. destruct (_ || _); [|done]. by apply IH in E.
Qed.

(** A message that is read takes bytes that had arrived. *)
Lemma wire_conn_read_consumes c c' r :
  wire_conn_read c = Returns c' (Some r) -> zlen (wc_arrived c') + 8 <= zlen (wc_arrived c).
Proof.
  unfold wire_conn_read, read_bytes. unfold mbind, prog_bind, get. intros E.
  destruct (read_loop _ sizeof_wire_header _ c) as [c1 [header|]|] eqn:E1; [|done..].
  apply read_loop_consumes in E1; [|done]. unfold run_exec in E.
  destruct (ld32 header 0); [|done]. destruct (ld32 header 4); [|done].
  case_match; [done|]. unfold grow_in, put in E. cbv zeta in E.
  set (c2 := if _ <? _ then _ else _) in E.
  assert (wc_arrived c2 = wc_arrived c1) as Hc2 by (unfold c2; by destruct (wc_buf_space c1 <? _)).
  destruct (read_loop _ (s32 _) _ c2) as [c3 [b|]|] eqn:E3; [|done..].
  apply read_loop_consumes in E3; [|breflect; tauto].
  unfold store_in in E. breflect.
  assert (wc_arrived c' = wc_arrived c3) as ->.
  { destruct (wc_buf c3) as [buf|].
    - destruct (put_bytes buf 0 b); [|done]. by injection E as <- _.
    - destruct b; [|done]. by injection E as <- _. }
  unfold sizeof_wire_header in *. rewrite Hc2 in E3. lia.
Qed.

(** The loop of a client that waits for the end of a block has turns enough. *)
Lemma receive_loop_fuel n : forall m (w : wire_client),
  (length (wc_arrived (wcl_conn w)) < n)%nat -> (length (wc_arrived (wcl_conn w)) < m)%nat ->
  receive_loop n w = receive_loop m w.
Proof.
  induction n as [|n IH]; intros m w Hn Hm; [lia|]. destruct m as [|m]; [lia|]. cbn [receive_loop].
  unfold client_read, on_conn, mbind, prog_bind. cbn [conn_of wire_client_HasConn].
  destruct (wire_conn_read (wcl_conn w)) as [c [[op len]|]|] eqn:E; [|done..].
  apply wire_conn_read_consumes in E. cbn. destruct (op =? WIRE_PACKETS_DONE); [done|].
  destruct (op =? WIRE_PACKETS_WARN); [|done]. cbn. unfold zlen in E. apply IH; cbn; lia.
Qed.

Lemma kahn_die {A} text : kahn (wire_client_die (A:=A) text).
Proof. by apply kahn_halt. Qed.
#[local] Hint Resolve kahn_die : kahn_db.

Lemma kahn_client_read error : kahn (client_read error).
Proof. unfold client_read. kahn_tac. Qed.

Lemma kahn_client_write op buf error : kahn (client_write op buf error).
Proof. unfold client_write. kahn_tac. Qed.

#[local] Hint Resolve kahn_client_read kahn_client_write : kahn_db.

Lemma kahn_receive_loop n : kahn (receive_loop n).
Proof. induction n as [|n IH]; cbn [receive_loop]; unfold in_buf; kahn_tac. Qed.

Lemma kahn_check_packets_done n : kahn (check_packets_done n).
Proof. unfold check_packets_done, in_buf. kahn_tac. Qed.

Lemma kahn_receive_packets_done : kahn wire_client_receive_packets_done.
Proof.
  assert (forall n, kahn (buf_len ← receive_loop n; check_packets_done buf_len)) as Hk
    by (intros n; apply kahn_bind; [apply kahn_receive_loop|apply kahn_check_packets_done]).
  assert (forall n w, (length (wc_arrived (wcl_conn w)) < n)%nat ->
    wire_client_receive_packets_done w = (buf_len ← receive_loop n; check_packets_done buf_len) w) as Hn.
  { intros n w Hn. unfold wire_client_receive_packets_done. unfold mbind, prog_bind.
    by rewrite (receive_loop_fuel _ n) by lia. }
  split.
  - intros w. apply (kahn_grows _ (Hk _)).
  - intros w Hw. by apply (kahn_open _ (Hk _)).
  - intros w x Hw. set (n := S (length (wc_arrived (wcl_conn w)) + length x)).
    rewrite !(Hn n) by (unfold n; cbn; rewrite ?length_app; lia). by apply (kahn_feed _ (Hk n)).
Qed.
#[local] Hint Resolve kahn_receive_packets_done : kahn_db.

Lemma kahn_next_event event : kahn (wire_client_next_event event).
Proof. unfold wire_client_next_event, wire_client_send_packets_start. kahn_tac. Qed.

Lemma kahn_client_init config : kahn (wire_client_init config).
Proof.
  unfold wire_client_init, wire_client_send_args, wire_client_send_script_path, wire_client_send_script,
    wire_client_send_hw_address, wire_client_receive_server_ready. kahn_tac.
Qed.

Lemma kahn_in_client {A} (m : prog wire_client A) : kahn m -> kahn (in_client m).
Proof.
  intros [Hg Ho Hf]. split; unfold in_client.
  - intros r. specialize (Hg (rn_client r)). by destruct (m (rn_client r)).
  - intros r Hr. specialize (Ho (rn_client r) Hr). by destruct (m (rn_client r)).
  - intros r x Hr. specialize (Hf (rn_client r) x Hr).
    change (rn_client (feed x r)) with (feed x (rn_client r)).
    destruct (m (rn_client r)) as [c a|c why]; [by rewrite Hf|].
    destruct why; [|by rewrite Hf..]. by destruct (m (feed x (rn_client r))).
Qed.

Lemma kahn_if_client m : kahn m -> kahn (if_client m).
Proof. intros Hm. unfold if_client. kahn_tac. by apply kahn_in_client. Qed.

Lemma kahn_in_sys {A} (f : sys -> exec (sys * A)) : kahn (in_sys f).
Proof.
  apply kahn_off_wire. intros r. unfold in_sys. cbn.
  destruct (f (rn_sys r)) as [[s a]|]; done.
Qed.
#[local] Hint Resolve kahn_in_sys kahn_next_event kahn_client_init : kahn_db.
#[local] Hint Extern 1 (kahn (if_client _)) => apply kahn_if_client : kahn_db.
#[local] Hint Extern 1 (kahn (in_state _)) => apply kahn_in_sys : kahn_db.

Lemma kahn_run_event ei e : kahn (run_event ei e).
Proof.
  unfold run_event. destruct (ev_event e); kahn_tac.
  apply kahn_off_wire. intros r. cbn. by destruct (run_code_event ei text (rn_code r) (rn_sys r)) as [[]|].
Qed.
#[local] Hint Resolve kahn_run_event : kahn_db.

Lemma kahn_script_event : kahn script_event.
Proof. unfold script_event, event_turn. kahn_tac. Qed.
#[local] Hint Resolve kahn_script_event kahn_iterate : kahn_db.

Lemma kahn_finish script exed : kahn (finish_script script exed).
Proof.
  unfold finish_script. kahn_tac. apply kahn_off_wire. intros r. cbn.
  by destruct (code_execute (rn_code r)) as [[[? []] ?]|].
Qed.
#[local] Hint Resolve kahn_finish : kahn_db.

Lemma kahn_run_init script : kahn (run_init_command script).
Proof. unfold run_init_command. kahn_tac. Qed.

Lemma kahn_script_events : kahn script_events.
Proof. unfold script_events. kahn_tac. Qed.

Lemma kahn_run_script config script jiffies : kahn (run_script config script jiffies).
Proof. unfold run_script, run_init_command, script_events, wire_client_send_client_starting. kahn_tac. Qed.

End KahnClient.

Section KahnServer.
Context `{Malloc, Libc, ScriptParser}.

Lemma kahn_and_then m k : kahn m -> kahn k -> kahn (and_then m k).
Proof. intros Hm Hk. unfold and_then. kahn_tac; done. Qed.

Lemma kahn_bad text : kahn (bad text).
Proof. apply kahn_ret. Qed.
#[local] Hint Resolve kahn_bad : kahn_db.
#[local] Hint Extern 1 (kahn (and_then _ _)) => apply kahn_and_then : kahn_db.

Lemma kahn_server_write op buf error : kahn (server_write op buf error).
Proof. unfold server_write. kahn_tac. Qed.

Lemma kahn_server_read op error k : (forall n buf, kahn (k n buf)) -> kahn (server_read op error k).
Proof. intros Hk. unfold server_read. kahn_tac; apply Hk. Qed.

Lemma kahn_step {A} (f : state -> exec (state * A)) : kahn (step f).
Proof.
  apply kahn_off_wire. intros w. unfold step. cbn. destruct (ws_state w) as [s|]; [|done].
  by destruct (f (sys_state s)) as [[]|].
Qed.
#[local] Hint Resolve kahn_server_write kahn_step kahn_iterate : kahn_db.
#[local] Hint Extern 1 (kahn (server_read _ _ _)) => apply kahn_server_read; intros; kahn_tac : kahn_db.

Lemma kahn_packets_start : kahn wire_server_receive_packets_start.
Proof. unfold wire_server_receive_packets_start. apply kahn_server_read. intros. kahn_tac. Qed.

Lemma kahn_packets_done result error : kahn (wire_server_send_packets_done result error).
Proof. unfold wire_server_send_packets_done. kahn_tac. Qed.
#[local] Hint Resolve kahn_packets_start kahn_packets_done : kahn_db.

Lemma kahn_server_next_event event : kahn (wire_server_next_event event).
Proof.
  unfold wire_server_next_event. kahn_tac; repeat (apply kahn_and_then; kahn_tac).
Qed.
#[local] Hint Resolve kahn_server_next_event : kahn_db.

Lemma kahn_run_packet_event ei : kahn (wire_server_run_packet_event ei).
Proof.
  unfold wire_server_run_packet_event, wire_server_send_packet_warning. kahn_tac; apply kahn_and_then; kahn_tac.
Qed.
#[local] Hint Resolve kahn_run_packet_event : kahn_db.

Lemma kahn_server_event : kahn server_event.
Proof. unfold server_event. kahn_tac. Qed.
#[local] Hint Resolve kahn_server_event : kahn_db.

Lemma kahn_server_run_script : kahn wire_server_run_script.
Proof. unfold wire_server_run_script. kahn_tac. Qed.

Lemma kahn_server_thread env : kahn (wire_server_thread env).
Proof.
  unfold wire_server_thread, server_session, wire_server_receive_args, wire_server_receive_script_path,
    wire_server_receive_script, wire_server_receive_hw_address, wire_server_send_server_ready,
    wire_server_receive_client_starting.
  kahn_tac; repeat (apply kahn_and_then; kahn_tac; try (apply kahn_server_read; intros; kahn_tac)).
  apply kahn_server_run_script.
Qed.

End KahnServer.

(** ** Arguments *)

(** The arguments that are sent, and their bytes. *)
Definition sent_args (argv : list bytes) : list bytes := filter (fun arg => is_wire_client_arg arg = false) argv.
Definition args_bytes (argv : list bytes) : bytes := mjoin ((fun arg => arg ++ [0]) <$> argv).

Lemma args_length_spec argv : forall n, 0 <= n -> n + zlen (args_bytes (sent_args argv)) < 2 ^ 31 ->
  args_length argv n = n + zlen (args_bytes (sent_args argv)).
Proof.
  unfold sent_args, args_bytes. induction argv as [|arg argv IH]; intros n Hn Hl; cbn [args_length].
  { cbn. unfold zlen. cbn. lia. }
  rewrite filter_cons in *. destruct (is_wire_client_arg arg); [rewrite decide_False in * by done; by apply IH|].
  rewrite decide_True in * by done. cbn [fmap list_fmap mjoin list_join] in *. rewrite !zlen_app in *.
  change (zlen [0]) with 1 in *. pose proof (zlen_nonneg arg).
  set (k := zlen (mjoin _)) in *. assert (0 <= k) by apply zlen_nonneg.
  rewrite s32_small by lia. rewrite IH; [fold k; lia|lia|fold k; lia].
Qed.

Lemma copy_args_spec argv : forall pre k,
  (length (args_bytes (sent_args argv)) <= k)%nat ->
  copy_args argv (pre ++ replicate k 0) (zlen pre) =
    Ok (pre ++ args_bytes (sent_args argv) ++ replicate (k - length (args_bytes (sent_args argv))) 0,
        zlen pre + zlen (args_bytes (sent_args argv))).
Proof.
  unfold sent_args, args_bytes. induction argv as [|arg argv IH]; intros pre k Hk; cbn [copy_args].
  { cbn. rewrite Nat.sub_0_r. change (zlen []) with 0. do 2 f_equal. lia. }
  rewrite filter_cons in *. destruct (is_wire_client_arg arg); [rewrite decide_False in * by done; by apply IH|].
  rewrite decide_True in * by done. cbn [fmap list_fmap mjoin list_join] in *. rewrite !length_app in *. cbn in Hk.
  set (rest := mjoin _) in *.
  assert (put_bytes (pre ++ replicate k 0) (zlen pre) (arg ++ [0]) =
    Ok ((pre ++ arg ++ [0]) ++ replicate (k - (length arg + 1)) 0)) as ->.
  { unfold put_bytes. pose proof (zlen_nonneg pre). rewrite (proj2 (in_range_true _ _ _)).
    2:{ unfold zlen. rewrite !length_app, length_replicate. cbn. lia. }
    f_equal. replace (Z.to_nat (zlen pre)) with (length pre) by (unfold zlen; lia).
    rewrite take_app_length, drop_app_ge by lia. rewrite length_app. cbn [length].
    replace (length pre + (length arg + 1) - length pre)%nat with (length arg + 1)%nat by lia.
    rewrite drop_replicate. by rewrite <-!app_assoc. }
  rewrite bind_Ok_eq. specialize (IH (pre ++ arg ++ [0]) (k - (length arg + 1))%nat).
  replace (zlen (pre ++ arg ++ [0])) with (zlen pre + zlen arg + 1) in IH
    by (rewrite !zlen_app; change (zlen [0]) with 1; lia).
  rewrite IH by (fold rest; lia). fold rest. rewrite !zlen_app. change (zlen [0]) with 1. cbn [length].
  do 2 f_equal; [|lia]. rewrite <-!app_assoc. do 5 f_equal. lia.
Qed.

Lemma serialize_spec argv : zlen (args_bytes (sent_args argv)) < 2 ^ 31 ->
  wire_client_serialize_argv argv = Ok (args_bytes (sent_args argv)).
Proof.
  intros Hl. unfold wire_client_serialize_argv. rewrite args_length_spec by lia. rewrite Z.add_0_l.
  replace (Z.to_nat (zlen (args_bytes (sent_args argv)))) with (length (args_bytes (sent_args argv))) by (unfold zlen; lia).
  pose proof (copy_args_spec argv [] (length (args_bytes (sent_args argv))) ltac:(lia)) as E.
  cbn [app] in E. change (zlen []) with 0 in E. rewrite E, bind_Ok_eq. rewrite Z.add_0_l, Z.eqb_refl.
  cbn [c_assert]. rewrite bind_Ok_eq. rewrite Nat.sub_diag. cbn [replicate]. by rewrite app_nil_r.
Qed.

(** A C string: no byte of it is 0. *)
Definition no_nul (s : bytes) : Prop := Forall (fun b => b <> 0) s.

Lemma strdup_app s t : no_nul s -> strdup (s ++ 0 :: t) = Ok s.
Proof.
  induction 1 as [|b s Hb _ IH]; [done|]. cbn. by rewrite (proj2 (Z.eqb_neq _ _) Hb), IH.
Qed.

Lemma strdup_none s : no_nul s -> strdup s = Fault OutOfBounds.
Proof. induction 1 as [|b s Hb _ IH]; [done|]. cbn. by rewrite (proj2 (Z.eqb_neq _ _) Hb), IH. Qed.

Lemma strdup_some s : 0 ∈ s -> exists t, strdup s = Ok t.
Proof.
  induction s as [|b s IH]; intros Hs; [by apply elem_of_nil in Hs|]. cbn.
  destruct (Z.eqb_spec b 0); [by eexists|]. apply elem_of_cons in Hs as [|Hs]; [congruence|].
  destruct (IH Hs) as [t ->]. by eexists.
Qed.

Lemma count_args_app s t : no_nul s -> count_args (s ++ 0 :: t) = S (count_args t).
Proof. induction 1 as [|b s Hb _ IH]; [done|]. cbn. by rewrite (proj2 (Z.eqb_neq _ _) Hb). Qed.

Lemma args_bytes_cons arg args : args_bytes (arg :: args) = arg ++ 0 :: args_bytes args.
Proof. unfold args_bytes. cbn. by rewrite <-app_assoc. Qed.

Lemma count_args_spec args : Forall no_nul args -> count_args (args_bytes args) = length args.
Proof.
  induction 1 as [|arg args Ha _ IH]; [done|]. rewrite args_bytes_cons, count_args_app by done. cbn. by f_equal.
Qed.

Lemma dup_args_spec args n : forall pre tail, Forall no_nul args ->
  dup_args (length args + n) (pre ++ args_bytes args ++ tail) (length pre) =
    (rest ← dup_args n (pre ++ args_bytes args ++ tail) (length pre + length (args_bytes args)); Ok (args ++ rest)).
Proof.
  induction args as [|arg args IH]; intros pre tail Ha.
  { cbn. rewrite Nat.add_0_r. by destruct (dup_args n _ _). }
  apply Forall_cons in Ha as [Ha Has]. rewrite args_bytes_cons. cbn [length Nat.add dup_args].
  rewrite drop_app_length, <-!app_assoc. cbn [app]. rewrite strdup_app, bind_Ok_eq by done.
  specialize (IH (pre ++ arg ++ [0]) tail Has). rewrite <-!app_assoc in IH. cbn [app] in IH.
  rewrite !length_app in IH. cbn [length] in IH.
  replace (length pre + length arg + 1)%nat with (length pre + (length arg + 1))%nat by lia. rewrite IH.
  rewrite !length_app. cbn [length].
  replace (length pre + (length arg + 1) + length (args_bytes args))%nat
    with (length pre + (length arg + S (length (args_bytes args))))%nat by lia.
  clear IH. destruct (dup_args n _ _); reflexivity.
Qed.

(** The server gets the client's arguments back from a buffer that starts with them when, and
    only when, there is a NUL in the rest of the buffer. *)
Lemma unserialize_spec args tail : Forall no_nul args ->
  wire_server_unserialize_argv (Some (args_bytes args ++ tail)) (zlen (args_bytes args)) =
    if bool_decide (0 ∈ tail) then Ok (args ++ [string_bytes "--wire_server"]) else Fault OutOfBounds.
Proof.
  intros Ha. unfold wire_server_unserialize_argv. change (default [] (Some ?b)) with b.
  replace (Z.to_nat (zlen (args_bytes args))) with (length (args_bytes args)) by (unfold zlen; lia).
  rewrite take_app_length, count_args_spec by done. cbn [deref]. rewrite bind_Ok_eq.
  replace (S (length args)) with (length args + 1)%nat at 1 by lia.
  pose proof (dup_args_spec args 1 [] tail Ha) as E. cbn [app length Nat.add] in E. rewrite E. cbn [dup_args].
  rewrite drop_app_length. destruct (decide (0 ∈ tail)) as [Hin|Hin].
  - rewrite bool_decide_true by done. destruct (strdup_some tail Hin) as [t ->]. cbn.
    replace (length args - 0)%nat with (length args) by lia. by rewrite take_app_length.
  - rewrite bool_decide_false by done. rewrite strdup_none; [done|].
    apply Forall_forall. intros b Hb ->. done.
Qed.

(** C38. The command line of the client arrives at the server without the arguments that name the
    wire client, and with the one that makes a server of it.  But the server copies one string
    more than it was sent, from the memory behind the message: without a NUL there, it reads
    past the end of its buffer. *)
Theorem argv_roundtrip (argv : list bytes) (tail : bytes) :
  Forall no_nul argv -> zlen (args_bytes (sent_args argv)) < 2 ^ 31 ->
  exists args, wire_client_serialize_argv argv = Ok args /\
    wire_server_unserialize_argv (Some (args ++ tail)) (zlen args) =
      if bool_decide (0 ∈ tail) then Ok (sent_args argv ++ [string_bytes "--wire_server"])
      else Fault OutOfBounds.
Proof.
  intros Ha Hl. exists (args_bytes (sent_args argv)). split; [by apply serialize_spec|].
  apply unserialize_spec. apply Forall_forall. intros arg [_ Hin]%list_elem_of_filter.
  by eapply Forall_forall in Ha.
Qed.

(** packetdrill, an option for the client alone, and the script; the memory is zeroed. *)
Lemma argv_roundtrip_witness : exists args,
  wire_client_serialize_argv [string_bytes "packetdrill"; string_bytes "--wire_client"; string_bytes "a.pkt"] = Ok args /\
  wire_server_unserialize_argv (Some (args ++ [7; 0])) (zlen args) =
    Ok [string_bytes "packetdrill"; string_bytes "a.pkt"; string_bytes "--wire_server"].
Proof.
  destruct (argv_roundtrip [string_bytes "packetdrill"; string_bytes "--wire_client"; string_bytes "a.pkt"] [7; 0])
    as (args&E1&E2).
  - repeat constructor; vm_compute; discriminate.
  - reflexivity.
  - exists args. split; [exact E1|exact E2].
Defined.
