(* ===== verification/WireSession.v ===== *)
(** * WireSession: the two sides of a wire test in step

    The exchange between client and server, event by event: what each sends and what each
    needs, and from it the session as a whole, over a network that delivers in pieces of any
    size and after any delay. *)

From stdpp Require Import relations.
From S2P Require Import Prelude Headers Packet IpPacket HashMap Socket Script RunState PacketMap RunPacket FuzzHelper SystemCall SyscallHandlers RunEvents Code WireConn WireNet WireClient WireServer RunScript WireProps.

(** ** A connection between calls *)

(** The bytes that wait to be read and those sent; calls do not fail and the connection is
    open. *)
Record link (arrived out : bytes) (c : wire_conn) : Prop := {
  lk_arrived : wc_arrived c = arrived;
  lk_sent : wc_sent c = out;
  lk_soft : Forall soft (wc_io c);
  lk_in : in_ok c;
  lk_open : wc_closed c = false
}.

Lemma write_link op buf a s c :
  link a s c -> exists c', wire_conn_write op buf c = Returns c' true /\ link a (s ++ message op buf) c'.
Proof.
  intros [Ha Hs Hio Hin Ho]. destruct (wire_conn_write_soft op buf c Hio) as (calls&Hc&E).
  eexists. split; [exact E|]. split; [done|cbn; by rewrite Hs|done|done|done].
Qed.

Lemma feed_link a s x c : link a s c -> link (a ++ x) s (feed x c).
Proof. intros [Ha Hs Hio Hin Ho]. split; try done. cbn. unfold id. by rewrite Ha. Qed.

Section Links.
Context `{Malloc}.

Lemma read_link op buf a s c :
  link (message op buf ++ a) s c -> message_ok op buf ->
  exists c', wire_conn_read c = Returns c' (Some (op, zlen buf)) /\ link a s c' /\
    exists tail, (buf = [] \/ wc_buf c' = Some (buf ++ tail)) /\
      (wc_buf_space c < zlen buf -> tail = drop (length buf) (malloc (2 * zlen buf))).
Proof.
  intros [Ha Hs Hio Hin Ho] Hm. destruct (wire_conn_read_soft op buf a c Hio Hin Hm Ha) as (calls&b&space&Hc&E&Hb).
  eexists. split; [exact E|]. split.
  - split; try done. unfold in_ok. cbn. destruct b; [by destruct Hb as (?&_&?&_)|apply Hb].
  - destruct b as [b|]; [destruct Hb as (tail&->&_&Ht)|destruct Hb as [-> _]].
    + exists tail. split; [by right|done].
    + exists (drop (length (@nil Z)) (malloc (2 * zlen (@nil Z)))). split; [by left|done].
Qed.

(** ** The client, from event to event *)

(** What the client knows and has sent. *)
Record client_at (last : event_kind) (num : Z) (arrived out : bytes) (printed : list bytes)
    (w : wire_client) : Prop := {
  ca_link : link arrived out (wcl_conn w);
  ca_last : wcl_last_event_type w = last;
  ca_num : wcl_num_events w = num;
  ca_printed : wcl_printed w = printed
}.

Lemma client_write_at op buf error last num a s p w :
  client_at last num a s p w ->
  exists w', client_write op buf error w = Returns w' tt /\ client_at last num a (s ++ message op buf) p w'.
Proof.
  intros [Hl Hla Hn Hp]. destruct (write_link op buf a s _ Hl) as (c'&E&Hl'). unfold client_write.
  erewrite bind_Returns by (unfold on_conn; cbn; by rewrite E). cbn [negb].
  eexists. split; [done|]. by split.
Qed.

Lemma client_read_at op buf error last num a s p w :
  client_at last num (message op buf ++ a) s p w -> message_ok op buf ->
  exists w', client_read error w = Returns w' (op, zlen buf) /\ client_at last num a s p w' /\
    (buf = [] \/ exists tail, wc_buf (wcl_conn w') = Some (buf ++ tail)).
Proof.
  intros [Hl Hla Hn Hp] Hm. destruct (read_link op buf a s _ Hl Hm) as (c'&E&Hl'&tail&Hb&_). unfold client_read.
  erewrite bind_Returns by (unfold on_conn; cbn; by rewrite E).
  eexists. split; [done|]. split; [by split|]. destruct Hb as [|Hb]; [by left|right; by exists tail].
Qed.

(** The messages of warnings, and that of the end of a block. *)
Definition warning_message (t : string) : bytes := message WIRE_PACKETS_WARN (string_bytes t).
Definition done_message (result num : Z) (error : string) : bytes :=
  message WIRE_PACKETS_DONE (wire_packets_done result num error).
Definition start_message (num : Z) : bytes := message WIRE_PACKETS_START (wire_packets_start num).

(** A text that fits in a message and has no NUL in it. *)
Definition text_ok (t : string) : Prop :=
  Forall (fun b => b <> 0) (string_bytes t) /\ zlen (string_bytes t) + 9 <= MAX_MESSAGE_BYTES.

Lemma c_string_text t : Forall (fun b => b <> 0) t -> c_string t = t.
Proof.
  induction 1 as [|b t Hb _ IH]; [done|]. cbn. by rewrite (proj2 (Z.eqb_neq _ _) Hb), IH.
Qed.

Lemma bytes_string_string t : bytes_string (string_bytes t) = t.
Proof.
  induction t as [|c t IH]; [done|]. cbn. f_equal; [|done]. rewrite Nat2Z.id. apply Ascii.ascii_nat_embedding.
Qed.

Lemma receive_loop_at ws : forall n a s p last num w,
  client_at last num (mjoin (warning_message <$> ws) ++ a) s p w -> Forall text_ok ws ->
  exists w', client_at last num a s (p ++ (string_bytes <$> ws)) w' /\
    receive_loop (length ws + n) w = receive_loop n w'.
Proof.
  induction ws as [|t ws IH]; intros n a s p last num w Hw Ht.
  { exists w. rewrite app_nil_r. done. }
  apply Forall_cons in Ht as [[Ht0 Ht1] Ht]. cbn [fmap list_fmap mjoin list_join] in Hw. rewrite <-app_assoc in Hw.
  destruct (client_read_at WIRE_PACKETS_WARN (string_bytes t) "error reading" _ _ _ _ _ _ Hw) as (w1&E&Hw1&Hb).
  { split; [vm_compute; done|lia]. }
  cbn [length Nat.add receive_loop]. erewrite bind_Returns by exact E. cbn match beta.
  change (WIRE_PACKETS_WARN =? WIRE_PACKETS_DONE) with false. rewrite Z.eqb_refl. cbn match beta.
  erewrite bind_Returns by done. cbv zeta. erewrite bind_Returns by done.
  set (w2 := set_wcl_printed _ w1).
  destruct (IH n a s (p ++ [string_bytes t]) last num w2) as (w'&Hw'&E'); [|done|].
  - destruct Hw1 as [Hl Hla Hn Hp]. split; try done. cbn. rewrite Hp. do 2 f_equal.
    replace (Z.to_nat (zlen (string_bytes t))) with (length (string_bytes t)) by (unfold zlen; lia).
    destruct Hb as [Hb|[tail Hb]]; [by rewrite Hb|]. rewrite Hb. cbn. by rewrite take_app_length, c_string_text.
  - exists w'. cbn. rewrite <-app_assoc in Hw'. done.
Qed.

Lemma ld32_at (pre post : bytes) x : 0 <= x < 2 ^ 32 ->
  ld32 (pre ++ le_split 4 x ++ post) (zlen pre) = Ok x.
Proof.
  intros Hx. unfold ld32, get_bytes. pose proof (zlen_nonneg pre). pose proof (zlen_nonneg post).
  rewrite (proj2 (in_range_true _ _ _)) by (rewrite !zlen_app, zlen_le_split; lia).
  replace (Z.to_nat (zlen pre)) with (length pre) by (unfold zlen; lia). rewrite drop_app_length.
  change (Z.to_nat 4) with 4%nat. rewrite <-(length_le_split 4 x) at 1. rewrite take_app_length.
  cbn [fmap exec_fmap]. rewrite le_combine_split. f_equal. apply Z.mod_small. exact Hx.
Qed.

Lemma done_length result num e : zlen (wire_packets_done result num e) = 9 + zlen (string_bytes e).
Proof. unfold wire_packets_done. rewrite !zlen_app, !zlen_le_split. change (zlen [0]) with 1. lia. Qed.

(** What the checks of the final message see. *)
Lemma done_fields result num e tail :
  let buf := wire_packets_done result num e ++ tail in
  ld8 buf (zlen (wire_packets_done result num e) - 1) = Ok 0 /\
  ld32 buf 0 = Ok (htonl (u32 result)) /\ ld32 buf 4 = Ok (htonl (u32 num)) /\
  get_bytes buf 8 (zlen (wire_packets_done result num e) - 8) = Ok (string_bytes e ++ [0]).
Proof.
  intros buf. pose proof (zlen_nonneg (string_bytes e)). pose proof (zlen_nonneg tail).
  pose proof (done_length result num e) as Hl.
  split_and!.
  - rewrite ld8_eq by (unfold buf; rewrite ?zlen_app; lia). f_equal. unfold buf.
    rewrite byte_at_app by lia. rewrite (proj2 (Z.ltb_lt _ _)) by lia. rewrite Hl. unfold wire_packets_done.
    rewrite !app_assoc. set (front := (_ ++ le_split 4 (htonl (u32 num))) ++ _).
    assert (zlen front = 8 + zlen (string_bytes e)) as Hf
      by (unfold front; rewrite !zlen_app, !zlen_le_split; lia).
    rewrite byte_at_app by lia. rewrite (proj2 (Z.ltb_ge _ _)) by lia. rewrite Hf.
    replace (_ - _) with 0 by lia. done.
  - unfold buf, wire_packets_done. rewrite <-!app_assoc. apply (ld32_at []). apply ntohl_range.
  - unfold buf, wire_packets_done. rewrite <-!app_assoc.
    apply (ld32_at (le_split 4 (htonl (u32 result)))). apply ntohl_range.
  - unfold get_bytes. rewrite (proj2 (in_range_true _ _ _)) by (unfold buf; rewrite zlen_app; lia).
    f_equal. rewrite Hl. unfold buf, wire_packets_done. rewrite <-!app_assoc.
    replace (9 + zlen (string_bytes e) - 8) with (zlen (string_bytes e ++ [0]))
      by (rewrite zlen_app; change (zlen [0]) with 1; lia).
    rewrite (app_assoc (string_bytes e)). generalize (string_bytes e ++ [0]). intros l.
    rewrite app_assoc. change (Z.to_nat 8) with 8%nat.
    replace 8%nat with (length (le_split 4 (htonl (u32 result)) ++ le_split 4 (htonl (u32 num))))
      by (by rewrite length_app, !length_le_split).
    rewrite drop_app_length. replace (Z.to_nat (zlen l)) with (length l) by (unfold zlen; lia).
    by rewrite take_app_length.
Qed.

(** The end of a block: the client prints the warnings, in order, and goes on when the server
    is happy and has seen as many events; it dies with the message of the server when not. *)
Lemma receive_packets_done_at ws result num' e last num a s p w :
  client_at last num (mjoin (warning_message <$> ws) ++ done_message result num' e ++ a) s p w ->
  Forall text_ok ws -> text_ok e ->
  exists w', client_at last num a s (p ++ (string_bytes <$> ws)) w' /\
    wire_client_receive_packets_done w =
      (if u32 result =? u32 STATUS_ERR_NUMBER then Stops w' (Dies e)
       else if u32 num' =? u32 num then Returns w' tt
       else Stops w' (Dies ("error in TCP connection to wire server: " +:+
         ("bad wire server: bad message count: got: " +:+ dec (s32 (u32 num')) +:+ " vs expected: " +:+ dec num)
         +:+ newline))).
Proof.
  intros Hw Hws [He0 He1]. unfold wire_client_receive_packets_done.
  destruct (receive_loop_at ws (S (length (wc_arrived (wcl_conn w)))) _ _ _ _ _ w Hw Hws) as (w1&Hw1&E1).
  unfold mbind at 1, prog_bind at 1.
  rewrite (receive_loop_fuel _ (length ws + S (length (wc_arrived (wcl_conn w))))), E1 by lia.
  destruct (client_read_at WIRE_PACKETS_DONE (wire_packets_done result num' e) "error reading" _ _ _ _ _ _ Hw1)
    as (w2&E2&Hw2&Hb).
  { split; [vm_compute; done|]. rewrite done_length. lia. }
  cbn [receive_loop]. rewrite (bind_Returns _ _ _ _ _ E2). cbn match beta. rewrite Z.eqb_refl.
  unfold mret at 1, prog_ret at 1. exists w2. split; [done|].
  destruct Hb as [Hb|[tail Hb]].
  { apply (f_equal zlen) in Hb. rewrite done_length in Hb. pose proof (zlen_nonneg (string_bytes e)).
    change (zlen []) with 0 in Hb. lia. }
  unfold check_packets_done, in_buf. erewrite bind_Returns by done. rewrite Hb. change (default [] (Some ?b)) with b.
  destruct (done_fields result num' e tail) as (F1&F2&F3&F4).
  rewrite (proj2 (Z.ltb_ge _ _)).
  2:{ rewrite done_length. unfold sizeof_wire_packets_done. pose proof (zlen_nonneg (string_bytes e)). lia. }
  erewrite bind_Returns by (unfold run_exec; by rewrite F1). cbn [Z.eqb negb].
  erewrite bind_Returns by (unfold run_exec; by rewrite F2). erewrite bind_Returns by (unfold run_exec; by rewrite F3).
  erewrite bind_Returns by done. rewrite (ca_num _ _ _ _ _ _ Hw2).
  unfold htonl. rewrite !ntohl_invol by apply u32_range.
  destruct (u32 result =? u32 STATUS_ERR_NUMBER).
  - erewrite bind_Returns by (unfold run_exec, sizeof_wire_packets_done; by rewrite F4).
    unfold halt. do 2 f_equal. rewrite c_string_app by done. apply bytes_string_string.
  - by destruct (u32 num' =? u32 num).
Qed.

(** The next event starts, or ends, a block of packet events. *)
Definition block_starts (event : option event_kind) (last : event_kind) : bool :=
  is_packet event && negb (bool_decide (last = KIND_PACKET)).
Definition block_ends (event : option event_kind) (last : event_kind) : bool :=
  negb (is_packet event) && bool_decide (last = KIND_PACKET).

Definition next_num (event : option event_kind) (num : Z) : Z :=
  match event with Some _ => s32 (num + 1) | None => num end.

Definition if_bytes (b : bool) (x : bytes) : bytes := if b then x else [].

Lemma client_next_at event last num ws a s p w :
  client_at last num (if_bytes (block_ends event last) (mjoin (warning_message <$> ws) ++ done_message 0 num "") ++ a)
    s p w -> Forall text_ok ws ->
  exists w', wire_client_next_event event w = Returns w' tt /\
    client_at (default last event) (next_num event num) a
      (s ++ if_bytes (block_starts event last) (start_message num))
      (p ++ if block_ends event last then string_bytes <$> ws else []) w'.
Proof.
  intros Hw Hws. unfold wire_client_next_event. erewrite bind_Returns by done. rewrite (ca_last _ _ _ _ _ _ Hw).
  change (is_packet event && _) with (block_starts event last). change (negb (is_packet event) && _) with (block_ends event last).
  assert (exists w1, (if block_starts event last then wire_client_send_packets_start else mret tt) w = Returns w1 tt /\
    client_at last num (if_bytes (block_ends event last) (mjoin (warning_message <$> ws) ++ done_message 0 num "") ++ a)
      (s ++ if_bytes (block_starts event last) (start_message num)) p w1) as (w1&E1&Hw1).
  { destruct (block_starts event last); [|exists w; by rewrite app_nil_r].
    unfold wire_client_send_packets_start. erewrite bind_Returns by done. rewrite (ca_num _ _ _ _ _ _ Hw).
    by apply client_write_at. }
  erewrite bind_Returns by exact E1.
  assert (exists w2, (if block_ends event last then wire_client_receive_packets_done else mret tt) w1 = Returns w2 tt /\
    client_at last num a (s ++ if_bytes (block_starts event last) (start_message num))
      (p ++ if block_ends event last then string_bytes <$> ws else []) w2) as (w2&E2&Hw2).
  { destruct (block_ends event last); [|exists w1; by rewrite app_nil_r]. cbn [if_bytes] in Hw1. rewrite <-app_assoc in Hw1.
    destruct (receive_packets_done_at ws 0 num "" _ _ _ _ _ _ Hw1 Hws) as (w2&Hw2&E2); [split; [constructor|vm_compute; done]|].
    exists w2. rewrite Z.eqb_refl in E2. done. }
  erewrite bind_Returns by exact E2. destruct Hw2 as [Hl2 Hla2 Hn2 Hp2]. destruct event as [k|]; cbn [default next_num].
  - eexists. split; [done|]. split; cbn; [done|done|by rewrite Hn2|done].
  - exists w2. split; [done|]. by split.
Qed.

(** ** The server, from event to event *)

Record server_at (last : event_kind) (num : Z) (arrived out : bytes) (st : option sys) (w : wire_server) : Prop := {
  sa_link : link arrived out (ws_conn w);
  sa_last : ws_last_event_type w = last;
  sa_num : ws_num_events w = num;
  sa_state : ws_state w = st
}.

Lemma server_write_at op buf error last num a s st w :
  server_at last num a s st w ->
  exists w', server_write op buf error w = Returns w' STATUS_OK /\ server_at last num a (s ++ message op buf) st w'.
Proof.
  intros [Hl Hla Hn Hs]. destruct (write_link op buf a s _ Hl) as (c'&E&Hl'). unfold server_write.
  erewrite bind_Returns by (unfold on_conn; cbn; by rewrite E). cbn [negb].
  eexists. split; [done|]. by split.
Qed.

Lemma server_read_at op buf last num a s st w :
  server_at last num (message op buf ++ a) s st w -> message_ok op buf ->
  exists w', (forall error k, server_read op error k w = k (zlen buf) (wc_buf (ws_conn w')) w') /\ server_at last num a s st w' /\
    ws_argv w' = ws_argv w /\ ws_script_path w' = ws_script_path w /\ ws_script_buffer w' = ws_script_buffer w /\
    exists tail, (buf = [] \/ wc_buf (ws_conn w') = Some (buf ++ tail)) /\
      (wc_buf_space (ws_conn w) < zlen buf -> tail = drop (length buf) (malloc (2 * zlen buf))).
Proof.
  intros [Hl Hla Hn Hs] Hm. destruct (read_link op buf a s _ Hl Hm) as (c'&E&Hl'&tail&Hb&Ht).
  exists (set_ws_conn c' w). split.
  - intros error k. unfold server_read. erewrite bind_Returns by (unfold on_conn; cbn; by rewrite E).
    cbn match beta. by rewrite Z.eqb_refl.
  - split; [by split|]. split_and!; [done..|]. by exists tail.
Qed.

Lemma and_then_OK m k w w' : m w = Returns w' STATUS_OK -> and_then m k w = k w'.
Proof. intros E. unfold and_then. by erewrite bind_Returns by exact E. Qed.

Lemma server_next_at event last num a s st w :
  server_at last num (if_bytes (block_starts event last) (start_message num) ++ a) s st w ->
  exists w', wire_server_next_event event w = Returns w' STATUS_OK /\
    server_at (default last event) (next_num event num) a
      (s ++ if_bytes (block_ends event last) (done_message 0 num "")) st w'.
Proof.
  intros Hw. unfold wire_server_next_event. erewrite bind_Returns by done. rewrite (sa_last _ _ _ _ _ _ Hw).
  change (is_packet event && _) with (block_starts event last). change (negb (is_packet event) && _) with (block_ends event last).
  assert (exists w1, (if block_starts event last then wire_server_receive_packets_start else mret STATUS_OK) w
      = Returns w1 STATUS_OK /\ server_at last num a s st w1) as (w1&E1&Hw1).
  { destruct (block_starts event last); [|exists w; done]. cbn [if_bytes] in Hw.
    unfold wire_server_receive_packets_start.
    destruct (server_read_at WIRE_PACKETS_START (wire_packets_start num) _ _ _ _ _ _ Hw) as (w1&E1&Hw1&_&_&_&tail&Hb&_).
    { split; [vm_compute; done|]. unfold wire_packets_start. rewrite zlen_le_split. vm_compute. done. }
    exists w1. split; [|done]. rewrite E1. unfold wire_packets_start in *. rewrite zlen_le_split.
    change (negb (Z.of_nat 4 =? 4)) with false. cbn match.
    destruct Hb as [Hb|Hb]; [by apply (f_equal length) in Hb; rewrite length_le_split in Hb|]. rewrite Hb.
    erewrite bind_Returns by done. erewrite bind_Returns.
    2:{ unfold run_exec. pose proof (ld32_at [] tail (htonl (u32 num)) (ntohl_range _)) as E2. cbn [app] in E2.
        change (zlen []) with 0 in E2. by rewrite E2. }
    erewrite bind_Returns by done. rewrite (sa_num _ _ _ _ _ _ Hw1). unfold htonl.
    rewrite ntohl_invol by apply u32_range. by rewrite Z.eqb_refl. }
  rewrite (and_then_OK _ _ _ _ E1).
  assert (exists w2, (if block_ends event last then wire_server_send_packets_done STATUS_OK_NUMBER "" else mret STATUS_OK) w1
      = Returns w2 STATUS_OK /\
    server_at last num a (s ++ if_bytes (block_ends event last) (done_message 0 num "")) st w2) as (w2&E2&Hw2).
  { destruct (block_ends event last); [|exists w1; by rewrite app_nil_r].
    unfold wire_server_send_packets_done. erewrite bind_Returns by done. rewrite (sa_num _ _ _ _ _ _ Hw1).
    by apply server_write_at. }
  rewrite (and_then_OK _ _ _ _ E2). destruct Hw2 as [Hl2 Hla2 Hn2 Hs2]. destruct event as [k|]; cbn [default next_num].
  - eexists. split; [done|]. split; cbn; [done|done|by rewrite Hn2|done].
  - exists w2. split; [done|]. by split.
Qed.

End Links.

(** ** Turns *)

(** The kind of the event that get_next_event moves to. *)
Definition next_kind (st : state) : option event_kind :=
  match get_next_event st with
  | Ok (st', STATUS_OK) => ei ← st_event st'; event_type <$> st_events st' !! ei
  | _ => None
  end.

(** The same run with a wire client. *)
Definition join (c : wire_client) (r : run) : run := mk_run (rn_sys r) (rn_code r) true c (rn_acts r).

Lemma feed_join x c r : feed x (join c r) = join (feed x c) r.
Proof. done. Qed.

(** A step that has nothing to do with the wire client. *)
Definition own {A} (m : prog run A) : Prop :=
  forall r, (forall c, m (join c r) = on_world (join c) (m r)) /\ rn_is_client (end_of (m r)) = rn_is_client r.

Lemma own_ret {A} (a : A) : own (mret a).
Proof. done. Qed.

Lemma own_bind {A B} (m : prog run A) (f : A -> prog run B) : own m -> (forall a, own (f a)) -> own (m ≫= f).
Proof.
  intros Hm Hf r. destruct (Hm r) as [E Hc]. unfold mbind, prog_bind. split.
  - intros c. rewrite E. destruct (m r) as [r' a|r' why]; cbn; [apply Hf|done].
  - destruct (m r) as [r' a|r' why]; cbn in *; [|done]. rewrite <-Hc. apply Hf.
Qed.

Lemma own_in_sys {A} (f : sys -> exec (sys * A)) : own (in_sys f).
Proof. intros r. unfold in_sys. cbn. by destruct (f (rn_sys r)) as [[]|]. Qed.

Section Turns.
Context `{Malloc, Libc, Shell, CodeShell}.

Lemma own_run_event ei e : own (run_event ei e).
Proof.
  unfold run_event. destruct (ev_event e).
  - done.
  - apply own_bind; [done|]. intros []; [apply own_ret|apply own_in_sys].
  - apply own_in_sys.
  - apply own_in_sys.
  - intros r. cbn. by destruct (run_code_event ei text (rn_code r) (rn_sys r)) as [[]|].
Qed.

(** A turn of the loop without a wire client, and the same with one: the client is told of the
    event between moving to it and running it. *)
Lemma script_event_join r r' o : rn_is_client r = false -> script_event r = Returns r' o ->
  rn_is_client r' = false /\
  match o with
  | Some _ => forall c, script_event (join c r) = Returns (join c r') o
  | None => exists k, next_kind (sys_state (rn_sys r)) = Some k /\ forall c,
      match wire_client_next_event (Some k) c with
      | Returns c' _ => script_event (join c r) = Returns (join c' r') None
      | Stops c' why => exists r1, script_event (join c r) = Stops (join c' r1) why
      end
  end.
Proof.
  intros Hr E. unfold script_event in *. unfold mbind at 1, prog_bind at 1 in E.
  destruct (in_state get_next_event r) as [r1 status|] eqn:E1; [|done].
  destruct (own_in_sys (fun s => '(st, a) ← get_next_event (sys_state s); Ok (set_sys_state st s, a)) r)
    as [O1 C1]. change (in_sys _) with (in_state get_next_event) in O1, C1.
  rewrite E1 in O1, C1. cbn in C1.
  assert (get_next_event (sys_state (rn_sys r)) = Ok (sys_state (rn_sys r1), status)) as Eg.
  { unfold in_state, in_sys in E1. destruct (get_next_event _) as [[st a]|]; [|done]. cbn in E1.
    by injection E1 as <- <-. }
  destruct status as [| |warning]; [|done|].
  2:{ exfalso. unfold get_next_event in Eg. repeat (case_match; inv_exec; try done). }
  unfold mbind at 1, prog_bind at 1, get at 1 in E.
  assert (forall c A (f : status_t -> prog run A), (status ← in_state get_next_event; f status) (join c r)
    = f STATUS_OK (join c r1)) as Ej.
  { intros c A f. unfold mbind, prog_bind. by rewrite O1. }
  destruct (st_event (sys_state (rn_sys r1))) as [ei|] eqn:Eei.
  2:{ injection E as <- <-. split; [congruence|]. intros c. rewrite Ej. unfold mbind, prog_bind, get. cbn.
      by rewrite Eei. }
  unfold mbind at 1, prog_bind at 1 in E.
  destruct (in_state (fun st => e ← event_at st ei; Ok (st, e)) r1) as [r2 e|] eqn:E2; [|done].
  destruct (own_in_sys (fun s => '(st, a) ← (e ← event_at (sys_state s) ei; Ok (sys_state s, e)); Ok (set_sys_state st s, a)) r1)
    as [O2 C2]. change (in_sys _) with (in_state (fun st => e ← event_at st ei; Ok (st, e))) in O2, C2.
  rewrite E2 in O2, C2. cbn in C2.
  unfold mbind at 1, prog_bind at 1, if_client at 1 in E. unfold mbind at 1, prog_bind at 1, get at 1 in E.
  rewrite C2, C1, Hr in E. unfold mret at 1, prog_ret at 1 in E.
  assert (own (event_turn ei)) as Hrest.
  { unfold event_turn. apply own_bind; [apply own_in_sys|intros _]. apply own_bind; [apply own_in_sys|intros e'].
    apply own_bind; [apply own_run_event|intros _]. apply own_bind; [apply own_in_sys|intros _]. apply own_ret. }
  assert (o = None) as ->.
  { unfold event_turn, mbind, prog_bind in E. repeat (case_match; try done). by injection E. }
  destruct (Hrest r2) as [O3 C3]. rewrite E in O3, C3. cbn in C3.
  split; [congruence|]. exists (event_type e). split.
  { unfold next_kind. rewrite Eg. unfold in_state, in_sys, event_at in E2.
    unfold mbind, option_bind. rewrite Eei. destruct (st_events _ !! ei) as [e'|]; cbn in E2; [|done].
    by injection E2 as _ <-. }
  intros c. set (turn := fun status : status_t => _) in Ej |- *.
  assert ((in_state get_next_event ≫= turn) (join c r) =
    match wire_client_next_event (Some (event_type e)) c with
    | Returns c' _ => event_turn ei (join c' r2) | Stops c' why => Stops (join c' r2) why end) as Hj.
  { rewrite Ej. unfold turn. cbn match. unfold mbind at 1, prog_bind at 1, get at 1. cbn [rn_sys join]. rewrite Eei.
    unfold mbind at 1, prog_bind at 1. rewrite O2. cbn [on_world].
    unfold mbind at 1, prog_bind at 1, if_client. unfold mbind at 1, prog_bind at 1, get at 1. cbn [rn_is_client join].
    unfold in_client. cbn [rn_client join]. by destruct (wire_client_next_event _ c). }
  destruct (wire_client_next_event _ c) as [c' []|c' why]; rewrite Hj; [apply O3|by exists r2].
Qed.

End Turns.

(** The server's own work in a turn: the event it moves to, with the status of its packet. *)
Definition packet_turn `{Malloc} (s : sys) : exec (sys * option (event_kind * status_t)) :=
  '(st, status) ← get_next_event (sys_state s);
  match status, st_event st with
  | STATUS_OK, None => Ok (set_sys_state st s, None)
  | STATUS_OK, Some ei =>
      e ← event_at st ei;
      st ← adjust_relative_event_times st ei;
      match event_type e with
      | KIND_PACKET =>
          '(st, status) ← run_packet_event st ei;
          Ok (set_sys_state st s, Some (KIND_PACKET, status))
      | KIND_INVALID => Fault AssertFailed
      | k => Ok (set_sys_state st s, Some (k, STATUS_OK))
      end
  | _, _ => Fault Died
  end.

Section ServerTurns.
Context `{Malloc, Libc}.

Lemma step_at {A} (f : state -> exec (state * A)) last num a s st0 st x w :
  server_at last num a s (Some st0) w -> f (sys_state st0) = Ok (st, x) ->
  exists w', step f w = Returns w' x /\ server_at last num a s (Some (set_sys_state st st0)) w'.
Proof.
  intros [Hl Hla Hn Hs] E. unfold step. rewrite Hs, E. eexists. split; [done|]. by split.
Qed.

Lemma set_state_twice st st' s : set_sys_state st (set_sys_state st' s) = set_sys_state st s.
Proof. done. Qed.

(** What the server sends about a packet. *)
Definition report (status : status_t) (num : Z) : bytes :=
  match status with
  | STATUS_OK => []
  | STATUS_WARN t => warning_message t
  | STATUS_ERR e => done_message STATUS_ERR_NUMBER num e
  end.
Definition leaves (status : status_t) : option status_t :=
  match status with STATUS_ERR e => Some (STATUS_ERR e) | _ => None end.

Lemma run_packet_event_at ei last num a s st0 st status w :
  server_at last num a s (Some st0) w -> run_packet_event (sys_state st0) ei = Ok (st, status) ->
  exists w', wire_server_run_packet_event ei w = Returns w' status /\
    server_at last num a (s ++ report status num) (Some (set_sys_state st st0)) w'.
Proof.
  intros Hw E. unfold wire_server_run_packet_event.
  destruct (step_at (fun st => run_packet_event st ei) _ _ _ _ _ _ _ _ Hw E) as (w1&E1&Hw1).
  erewrite bind_Returns by exact E1. destruct status as [|e|t]; cbn [report].
  - exists w1. by rewrite app_nil_r.
  - unfold wire_server_send_packets_done. destruct (server_write_at WIRE_PACKETS_DONE
      (wire_packets_done STATUS_ERR_NUMBER num e) "error sending WIRE_PACKETS_DONE" _ _ _ _ _ _ Hw1) as (w2&E2&Hw2).
    exists w2. split; [|done]. erewrite and_then_OK; [done|]. erewrite bind_Returns by done.
    by rewrite (sa_num _ _ _ _ _ _ Hw1).
  - destruct (server_write_at WIRE_PACKETS_WARN (string_bytes t) "error sending WIRE_PACKETS_WARN" _ _ _ _ _ _ Hw1)
      as (w2&E2&Hw2). exists w2. split; [|done]. by erewrite and_then_OK by exact E2.
Qed.

Lemma server_event_end last num a out s s' w :
  packet_turn s = Ok (s', None) -> server_at last num a out (Some s) w ->
  exists w', server_event w = Returns w' (Some STATUS_OK) /\ server_at last num a out (Some s') w'.
Proof.
  unfold packet_turn. intros ([st status]&Eg&E)%exec_bind_Ok Hw. cbn match in E.
  destruct status; [|done..]. destruct (st_event st) as [ei|] eqn:Eei.
  { exfalso. inv_exec. repeat (case_match; inv_exec; try done). }
  injection E as <-. unfold server_event.
  destruct (step_at _ _ _ _ _ _ _ _ _ Hw Eg) as (w1&E1&Hw1). erewrite bind_Returns by exact E1. cbn match.
  destruct (step_at (fun st => Ok (st, st_event st)) _ _ _ _ _ _ _ _ Hw1 eq_refl) as (w2&E2&Hw2).
  erewrite bind_Returns by exact E2. cbn [sys_state set_sys_state]. rewrite Eei. by exists w2.
Qed.

Lemma server_event_at last num a out s s' k status w :
  packet_turn s = Ok (s', Some (k, status)) ->
  server_at last num (if_bytes (block_starts (Some k) last) (start_message num) ++ a) out (Some s) w ->
  exists w', server_event w = Returns w' (leaves status) /\
    server_at k (s32 (num + 1)) a
      (out ++ if_bytes (block_ends (Some k) last) (done_message 0 num "") ++ report status (s32 (num + 1)))
      (Some s') w'.
Proof.
  unfold packet_turn. intros ([st g]&Eg&E)%exec_bind_Ok Hw. cbn match in E.
  destruct g; [|done..]. destruct (st_event st) as [ei|] eqn:Eei; [|done].
  apply exec_bind_Ok in E as (e&Ee&(st1&Ea&E)%exec_bind_Ok). unfold server_event.
  destruct (step_at _ _ _ _ _ _ _ _ _ Hw Eg) as (w1&E1&Hw1). erewrite bind_Returns by exact E1. cbn match.
  destruct (step_at (fun st => Ok (st, st_event st)) _ _ _ _ _ _ _ _ Hw1 eq_refl) as (w2&E2&Hw2).
  erewrite bind_Returns by exact E2. cbn [sys_state set_sys_state] in Hw2 |- *. rewrite set_state_twice in Hw2. rewrite Eei.
  destruct (step_at (fun st => e ← event_at st ei; Ok (st, e)) _ _ _ _ _ st e _ Hw2) as (w3&E3&Hw3);
    [cbn; by rewrite Ee|]. rewrite set_state_twice in Hw3. erewrite bind_Returns by exact E3.
  assert (k = event_type e) as ->.
  { destruct (event_type e); [done|apply exec_bind_Ok in E as ([]&_&E)|..]; by injection E. }
  destruct (server_next_at _ _ _ _ _ _ _ Hw3) as (w4&E4&Hw4). erewrite bind_Returns by exact E4. cbn match.
  destruct (step_at (fun st => st ← adjust_relative_event_times st ei; Ok (st, tt)) _ _ _ _ _ st1 tt _ Hw4)
    as (w5&E5&Hw5); [cbn; by rewrite Ea|]. rewrite set_state_twice in Hw5. erewrite bind_Returns by exact E5.
  cbn [default next_num from_option id] in Hw5. rewrite app_assoc.
  destruct (event_type e) eqn:Ek; [done| |injection E as <- <-; exists w5; by rewrite app_nil_r..].
  apply exec_bind_Ok in E as ([st2 status2]&Er&E). injection E as <- <-.
  destruct (run_packet_event_at ei _ _ _ _ _ st2 status2 _ Hw5 Er) as (w6&E6&Hw6).
  erewrite bind_Returns by exact E6. by exists w6.
Qed.

(** Only packets have something to report. *)
Lemma packet_turn_status s s' k status :
  packet_turn s = Ok (s', Some (k, status)) -> k <> KIND_PACKET -> status = STATUS_OK.
Proof.
  unfold packet_turn. intros ([st g]&Eg&E)%exec_bind_Ok Hk. cbn match in E.
  destruct g; [|done..]. destruct (st_event st) as [ei|] eqn:Eei; [|done].
  apply exec_bind_Ok in E as (e&Ee&(st1&Ea&E)%exec_bind_Ok).
  destruct (event_type e); [done|apply exec_bind_Ok in E as ([]&_&E)|..]; by simplify_eq.
Qed.

Lemma packet_turn_kind s s' k status : packet_turn s = Ok (s', Some (k, status)) -> next_kind (sys_state s) = Some k.
Proof.
  unfold packet_turn. intros ([st g]&Eg&E)%exec_bind_Ok. cbn match in E.
  destruct g; [|done..]. destruct (st_event st) as [ei|] eqn:Eei; [|done].
  apply exec_bind_Ok in E as (e&Ee&(st1&Ea&E)%exec_bind_Ok). unfold next_kind. rewrite Eg.
  unfold mbind, option_bind. rewrite Eei. unfold event_at in Ee. apply deref_Ok in Ee. rewrite Ee. cbn.
  destruct (event_type e); [done|apply exec_bind_Ok in E as ([]&_&E)|..]; by injection E as _ <- _.
Qed.

End ServerTurns.

(** ** In step *)

Section InStep.
Context `{Malloc, Libc, Shell, CodeShell}.
Context {A B : Type} (client : prog run A) (server : prog wire_server B) (client0 : run) (server0 : wire_server).
Context (after_client : unit -> prog run A) (after_server : status_t -> prog wire_server B).
Hypothesis kahn_client : kahn client.
Hypothesis kahn_server : kahn server.
Hypothesis kahn_after_client : forall u, kahn (after_client u).
Hypothesis kahn_after_server : forall s, kahn (after_server s).

(** The warnings that are on their way. *)
Definition pending (ws : list string) : bytes := mjoin (warning_message <$> ws).

(** The two programs between two events: [n] turns of the loops are left to each, the client
    has been given [s] and has sent [c], the server has been given [c] and has sent [s]; the
    warnings [ws] wait for the client, which has printed [p]. *)
Record in_step (n : nat) (own_run : run) (own_sys : sys) (last : event_kind) (num : Z) (ws : list string)
    (p : list bytes) (c s : bytes) (cl : wire_client) (w : wire_server) : Prop := {
  is_derivable : derivable client server client0 server0 c s;
  is_client : forall x, client (feed (s ++ x) client0) =
    (iterate n script_event ≫= after_client) (feed x (join cl own_run));
  is_server : forall y, server (feed (c ++ y) server0) = (iterate n server_event ≫= after_server) (feed y w);
  is_client_at : client_at last num (pending ws) c p cl;
  is_server_at : server_at last num [] s (Some own_sys) w
}.

Lemma iterate_turn {W R T} `{HasConn W} n (body : prog W (option R)) (k : R -> prog W T) w w' :
  body w = Returns w' None -> (iterate (S n) body ≫= k) w = (iterate n body ≫= k) w'.
Proof. intros E. cbn [iterate]. unfold mbind, prog_bind. by rewrite E. Qed.

Lemma kahn_Returns {W R} `{HasConn W} (m : prog W R) w w' a x :
  kahn m -> is_open w -> m w = Returns w' a -> m (feed x w) = Returns (feed x w') a.
Proof. intros Hm Ho E. pose proof (kahn_feed m Hm w x Ho) as Hf. by rewrite E in Hf. Qed.

Definition warns (status : status_t) : list string := match status with STATUS_WARN t => [t] | _ => [] end.

Lemma report_pending status num : leaves status = None -> report status num = pending (warns status).
Proof. destruct status; [done|done|]. intros _. unfold pending. cbn. by rewrite app_nil_r. Qed.

Lemma pending_app ws ws' : pending (ws ++ ws') = pending ws ++ pending ws'.
Proof. unfold pending. by rewrite fmap_app, join_app. Qed.

Lemma client_at_feed last num a s p x cl :
  client_at last num a s p cl -> client_at last num (a ++ x) s p (feed x cl).
Proof. intros [Hl Hla Hn Hp]. split; [by apply (feed_link a s x)|done..]. Qed.

Lemma server_at_feed last num a s st x w :
  server_at last num a s st w -> server_at last num (a ++ x) s st (feed x w).
Proof. intros [Hl Hla Hn Hs]. split; [by apply (feed_link a s x)|done..]. Qed.

Lemma client_at_open last num a s p cl own_run : client_at last num a s p cl -> is_open (join cl own_run).
Proof. intros [[] _ _ _]. done. Qed.

Lemma server_at_open last num a s st w : server_at last num a s st w -> is_open w.
Proof. intros [[] _ _ _]. done. Qed.

(** What the client has sent by some point of its program is sent once it has been given what
    it needs for it. *)
Lemma client_derives c s c1 (m : prog run A) r1 :
  derivable client server client0 server0 c s -> kahn m ->
  (forall x, client (feed (s ++ x) client0) = m (feed x r1)) -> sent r1 = c1 ->
  derivable client server client0 server0 c1 s.
Proof.
  intros Hd Hm E <-. apply (derive_client _ _ _ _ c s); [done|]. unfold client_out.
  specialize (E []). rewrite app_nil_r in E. rewrite E.
  etrans; [|apply (kahn_grows _ Hm)]. by rewrite sent_feed.
Qed.

Lemma server_derives c s s1 (m : prog wire_server B) w1 :
  derivable client server client0 server0 c s -> kahn m ->
  (forall y, server (feed (c ++ y) server0) = m (feed y w1)) -> sent w1 = s1 ->
  derivable client server client0 server0 c s1.
Proof.
  intros Hd Hm E <-. apply (derive_server _ _ _ _ c s); [done|]. unfold server_out.
  specialize (E []). rewrite app_nil_r in E. rewrite E.
  etrans; [|apply (kahn_grows _ Hm)]. by rewrite sent_feed.
Qed.

Lemma client_advances n s z cl cl1 own_run own_run1 :
  (forall x, client (feed (s ++ x) client0) = (iterate (S n) script_event ≫= after_client) (feed x (join cl own_run))) ->
  is_open (join cl own_run) -> script_event (join (feed z cl) own_run) = Returns (join cl1 own_run1) None ->
  forall x, client (feed ((s ++ z) ++ x) client0) =
    (iterate n script_event ≫= after_client) (feed x (join cl1 own_run1)).
Proof.
  intros E Ho Ec x. rewrite <-app_assoc, E, <-feed_feed. apply iterate_turn.
  apply kahn_Returns; [apply kahn_script_event|by apply (open_feed z)|exact Ec].
Qed.

Lemma server_advances n c z w w1 :
  (forall y, server (feed (c ++ y) server0) = (iterate (S n) server_event ≫= after_server) (feed y w)) ->
  is_open w -> server_event (feed z w) = Returns w1 None ->
  forall y, server (feed ((c ++ z) ++ y) server0) = (iterate n server_event ≫= after_server) (feed y w1).
Proof.
  intros E Ho Es y. rewrite <-app_assoc, E, <-feed_feed. apply iterate_turn.
  apply kahn_Returns; [apply kahn_server_event|by apply (open_feed z)|exact Es].
Qed.

Lemma kahn_client_loop n : kahn (iterate n script_event ≫= after_client).
Proof. apply kahn_bind; [apply kahn_iterate, kahn_script_event|done]. Qed.
Lemma kahn_server_loop n : kahn (iterate n server_event ≫= after_server).
Proof. apply kahn_bind; [apply kahn_iterate, kahn_server_event|done]. Qed.

(** A turn of both: the client first when a block starts, the server first when one ends. *)
Lemma in_step_turn n own_run own_run1 own_sys own_sys1 k status last num ws p c s cl w :
  in_step (S n) own_run own_sys last num ws p c s cl w -> rn_is_client own_run = false -> Forall text_ok ws ->
  script_event own_run = Returns own_run1 None -> next_kind (sys_state (rn_sys own_run)) = Some k ->
  packet_turn own_sys = Ok (own_sys1, Some (k, status)) -> leaves status = None ->
  exists c1 s1 cl1 w1, in_step n own_run1 own_sys1 k (s32 (num + 1))
    ((if block_ends (Some k) last then [] else ws) ++ warns status)
    (p ++ if block_ends (Some k) last then string_bytes <$> ws else []) c1 s1 cl1 w1.
Proof.
  intros [Hd Hc Hs Hca Hsa] Halone Hws Ec Ek Es Hst.
  destruct (script_event_join _ _ _ Halone Ec) as [_ (k'&Ek'&Hj)]. rewrite Ek in Ek'. injection Ek' as <-.
  assert (is_open (join cl own_run)) as Hoc by by eapply client_at_open.
  assert (is_open w) as Hos by by eapply server_at_open.
  destruct (block_ends (Some k) last) eqn:Een.
  - assert (block_starts (Some k) last = false) as Est.
    { unfold block_ends, block_starts in *. destruct (is_packet (Some k)); done. }
    destruct (server_event_at last num [] s own_sys own_sys1 k status w Es) as (w1&Ew&Hw1); [by rewrite Est|].
    rewrite Hst, Een in *. cbn [if_bytes] in Hw1. rewrite report_pending in Hw1 by done.
    set (z := done_message 0 num "" ++ pending (warns status)) in *.
    pose proof (server_advances n c [] w w1 Hs Hos) as Hs1. rewrite app_nil_r in Hs1.
    specialize (Hs1 ltac:(unfold feed; cbn; rewrite app_nil_r; by destruct w as [[]])).
    assert (derivable client server client0 server0 c (s ++ z)) as Hd1.
    { eapply server_derives; [exact Hd|apply kahn_server_loop|exact Hs1|apply Hw1]. }
    destruct (client_next_at (Some k) last num ws (pending (warns status)) c p (feed z cl)) as (cl1&En&Hcl1); [|done|].
    { rewrite Een. cbn [if_bytes]. rewrite <-app_assoc. by apply client_at_feed. }
    rewrite Est, Een in Hcl1. cbn [if_bytes] in Hcl1. rewrite app_nil_r in Hcl1.
    specialize (Hj (feed z cl)). rewrite En in Hj.
    exists c, (s ++ z), cl1, w1. split; try done. by eapply client_advances.
  - destruct (client_next_at (Some k) last num ws (pending ws) c p cl) as (cl1&En&Hcl1); [by rewrite Een|done|].
    rewrite Een in Hcl1. specialize (Hj cl). rewrite En in Hj.
    set (z := if_bytes (block_starts (Some k) last) (start_message num)) in *.
    pose proof (client_advances n s [] cl cl1 own_run own_run1 Hc Hoc) as Hc1. rewrite app_nil_r in Hc1.
    specialize (Hc1 ltac:(unfold feed; cbn; rewrite app_nil_r; by destruct cl as [[]])).
    assert (derivable client server client0 server0 (c ++ z) s) as Hd1.
    { eapply client_derives; [exact Hd|apply kahn_client_loop|exact Hc1|apply Hcl1]. }
    destruct (server_event_at last num [] s own_sys own_sys1 k status (feed z w) Es) as (w1&Ew&Hw1).
    { rewrite app_nil_r. by apply (server_at_feed _ _ [] s _ z). }
    rewrite Hst, Een in *. cbn [if_bytes app] in Hw1. rewrite report_pending in Hw1 by done.
    pose proof (server_advances n c z w w1 Hs Hos Ew) as Hs1.
    assert (derivable client server client0 server0 (c ++ z) (s ++ pending (warns status))) as Hd2.
    { eapply server_derives; [exact Hd1|apply kahn_server_loop|exact Hs1|apply Hw1]. }
    exists (c ++ z), (s ++ pending (warns status)), (feed (pending (warns status)) cl1), w1. split; try done.
    + intros x. rewrite <-app_assoc, Hc1, <-feed_feed. done.
    + rewrite pending_app. by apply client_at_feed.
Qed.

End InStep.

(** ** Whole runs *)

(** The events a client meets on its own, without a wire, from one turn of the loop to
    another. *)
Inductive client_path `{Malloc, Libc, Shell, CodeShell} : run -> list event_kind -> run -> Prop :=
  | cp_nil r : client_path r [] r
  | cp_event r r1 r' k ks :
      next_kind (sys_state (rn_sys r)) = Some k -> script_event r = Returns r1 None ->
      client_path r1 ks r' -> client_path r (k :: ks) r'.

(** The events a server meets on its own, with the statuses of their packets, none an error. *)
Inductive server_path `{Malloc} : sys -> list (event_kind * status_t) -> sys -> Prop :=
  | sp_nil s : server_path s [] s
  | sp_event s s1 s' k status l :
      packet_turn s = Ok (s1, Some (k, status)) -> leaves status = None ->
      server_path s1 l s' -> server_path s ((k, status) :: l) s'.

(** The same to the end of the loop. *)
Definition client_visits `{Malloc, Libc, Shell, CodeShell} (r : run) (ks : list event_kind) (r' : run) : Prop :=
  exists r1, client_path r ks r1 /\ script_event r1 = Returns r' (Some tt).
Definition server_visits `{Malloc} (s : sys) (l : list (event_kind * status_t)) (s' : sys) : Prop :=
  exists s1, server_path s l s1 /\ packet_turn s1 = Ok (s', None).

(** All warnings of a run. *)
Definition all_warns (l : list (event_kind * status_t)) : list string := l ≫= (fun e => warns e.2).

Section Whole.
Context `{Malloc, Libc, Shell, CodeShell}.
Context {A B : Type} (client : prog run A) (server : prog wire_server B) (client0 : run) (server0 : wire_server).
Context (after_client : unit -> prog run A) (after_server : status_t -> prog wire_server B).
Hypothesis kahn_client : kahn client.
Hypothesis kahn_server : kahn server.
Hypothesis kahn_after_client : forall u, kahn (after_client u).
Hypothesis kahn_after_server : forall s, kahn (after_server s).

(** The two programs after their loops. *)
Record both_left (own_run : run) (own_sys : sys) (last : event_kind) (num : Z) (ws : list string)
    (p : list bytes) (c s : bytes) (cl : wire_client) (w : wire_server) : Prop := {
  bl_derivable : derivable client server client0 server0 c s;
  bl_client : forall x, client (feed (s ++ x) client0) = after_client tt (feed x (join cl own_run));
  bl_server : forall y, server (feed (c ++ y) server0) = after_server STATUS_OK (feed y w);
  bl_client_at : client_at last num (pending ws) c p cl;
  bl_server_at : server_at last num [] s (Some own_sys) w
}.

Lemma iterate_last {W R T} n (body : prog W (option R)) (k : R -> prog W T) w w' a :
  body w = Returns w' (Some a) -> (iterate (S n) body ≫= k) w = k a w'.
Proof. intros E. cbn [iterate]. unfold mbind, prog_bind. by rewrite E. Qed.

Lemma client_path_alone r ks r' : client_path r ks r' -> rn_is_client r = false -> rn_is_client r' = false.
Proof.
  induction 1 as [r|r r1 r' k ks _ E _ IH]; intros Hr; [done|].
  apply IH. by apply (script_event_join _ _ _ Hr E).
Qed.

Lemma client_path_app ks ks' : forall r r', client_path r (ks ++ ks') r' ->
  exists r1, client_path r ks r1 /\ client_path r1 ks' r'.
Proof.
  induction ks as [|k ks IH]; intros r r' Hp; [exists r; split; [constructor|done]|].
  inversion Hp as [|? r1 ? ? ? Ek E Hp']; subst. destruct (IH _ _ Hp') as (r2&H1'&H2'). exists r2.
  split; [|done]. by eapply cp_event.
Qed.

(** The two programs run the same events together. *)
Lemma in_step_path n l : forall own_run own_run' own_sys own_sys' last num ws p c s cl w,
  in_step client server client0 server0 after_client after_server (length l + n)
    own_run own_sys last num ws p c s cl w ->
  rn_is_client own_run = false -> Forall text_ok ws -> Forall text_ok (all_warns l) ->
  (last <> KIND_PACKET -> ws = []) ->
  client_path own_run l.*1 own_run' -> server_path own_sys l own_sys' ->
  exists last' num' ws' p' c' s' cl' w',
    in_step client server client0 server0 after_client after_server n own_run' own_sys' last' num' ws' p' c' s' cl' w' /\
    Forall text_ok ws' /\ (last' <> KIND_PACKET -> ws' = []) /\
    p' ++ (string_bytes <$> ws') = p ++ (string_bytes <$> (ws ++ all_warns l)).
Proof.
  induction l as [|[k status] l IH]; intros own_run own_run' own_sys own_sys' last num ws p c s cl w Hi Hal Hws Hl Hla Hc Hs.
  - inversion Hc; subst. inversion Hs; subst. exists last, num, ws, p, c, s, cl, w. by rewrite app_nil_r.
  - inversion Hc as [|? own1 ? ? ? Ek Ec Hc']; subst. inversion Hs as [|? sys1 ? ? ? ? Es Hst Hs']; subst.
    unfold all_warns in Hl. cbn in Hl. apply Forall_app in Hl as [Hl1 Hl].
    destruct (in_step_turn client server client0 server0 after_client after_server kahn_after_client kahn_after_server
      (length l + n) own_run own1 own_sys sys1 k status last num ws p c s cl w Hi Hal Hws Ec Ek Es Hst) as (c1&s1&cl1&w1&Hi1).
    destruct (script_event_join _ _ _ Hal Ec) as [Hal1 _].
    destruct (IH own1 own_run' sys1 own_sys' _ _ _ _ _ _ _ _ Hi1 Hal1)
      as (last'&num'&ws'&p'&c'&s'&cl'&w'&Hb&Hws'&Hla'&Hp'); [|done| |done..|].
    { apply Forall_app. split; [by case_match|done]. }
    { intros Hk. rewrite (packet_turn_status _ _ _ _ Es Hk), app_nil_r.
      destruct (block_ends (Some k) last) eqn:Een; [done|]. apply Hla. intros ->. unfold block_ends, is_packet in Een.
      rewrite bool_decide_false in Een; [done|naive_solver]. }
    exists last', num', ws', p', c', s', cl', w'. split; [done|]. split; [done|]. split; [done|].
    rewrite Hp'. unfold all_warns. cbn. rewrite !fmap_app, !app_assoc. f_equal. f_equal.
    destruct (block_ends (Some k) last); rewrite ?app_nil_r; [|done]. done.
Qed.

(** And leave their loops after the last. *)
Lemma in_step_leave n own_run own_run' own_sys own_sys' last num ws p c s cl w :
  in_step client server client0 server0 after_client after_server (S n) own_run own_sys last num ws p c s cl w ->
  rn_is_client own_run = false -> script_event own_run = Returns own_run' (Some tt) ->
  packet_turn own_sys = Ok (own_sys', None) ->
  exists w', both_left own_run' own_sys' last num ws p c s cl w'.
Proof.
  intros [Hd Hic His Hca Hsa] Hal Ec Es. destruct (script_event_join _ _ _ Hal Ec) as [_ Ej].
  destruct (server_event_end _ _ _ _ _ _ _ Es Hsa) as (w'&Ew&Hw').
  exists w'. split; try done.
  - intros x. rewrite Hic. apply iterate_last. apply kahn_Returns; [apply kahn_script_event| |apply Ej].
    by eapply client_at_open.
  - intros y. rewrite His. apply iterate_last. apply kahn_Returns; [apply kahn_server_event| |apply Ew].
    by eapply server_at_open.
Qed.

(** A packet that fails: the server reports it, and is done with the script. *)
Lemma in_step_fails n own_run own_run1 own_sys own_sys1 e last num ws p c s cl w :
  in_step client server client0 server0 after_client after_server (S n) own_run own_sys last num ws p c s cl w ->
  rn_is_client own_run = false -> Forall text_ok ws ->
  script_event own_run = Returns own_run1 None -> next_kind (sys_state (rn_sys own_run)) = Some KIND_PACKET ->
  packet_turn own_sys = Ok (own_sys1, Some (KIND_PACKET, STATUS_ERR e)) ->
  let z := done_message STATUS_ERR_NUMBER (s32 (num + 1)) e in
  exists c1 cl1 w1, derivable client server client0 server0 c1 (s ++ z) /\
    (forall x, client (feed ((s ++ z) ++ x) client0) = (iterate n script_event ≫= after_client) (feed x (join cl1 own_run1))) /\
    client_at KIND_PACKET (s32 (num + 1)) (pending ws ++ z) c1 p cl1 /\
    (forall y, server (feed (c1 ++ y) server0) = after_server (STATUS_ERR e) (feed y w1)) /\
    server_at KIND_PACKET (s32 (num + 1)) [] (s ++ z) (Some own_sys1) w1.
Proof.
  intros [Hd Hc Hs Hca Hsa] Halone Hws Ec Ek Es z.
  destruct (script_event_join _ _ _ Halone Ec) as [_ (k'&Ek'&Hj)]. rewrite Ek in Ek'. injection Ek' as <-.
  assert (is_open (join cl own_run)) as Hoc by by eapply client_at_open.
  assert (is_open w) as Hos by by eapply server_at_open.
  destruct (client_next_at (Some KIND_PACKET) last num ws (pending ws) c p cl) as (cl1&En&Hcl1); [done|done|].
  specialize (Hj cl). rewrite En in Hj. cbn [block_ends is_packet] in Hcl1. rewrite app_nil_r in Hcl1.
  set (b := if_bytes (block_starts (Some KIND_PACKET) last) (start_message num)) in *.
  pose proof (client_advances client client0 after_client n s [] cl cl1 own_run own_run1 Hc Hoc) as Hc1.
  rewrite app_nil_r in Hc1. specialize (Hc1 ltac:(unfold feed; cbn; rewrite app_nil_r; by destruct cl as [[]])).
  assert (derivable client server client0 server0 (c ++ b) s) as Hd1.
  { eapply client_derives; [exact Hd|by apply kahn_client_loop|exact Hc1|apply Hcl1]. }
  destruct (server_event_at last num [] s own_sys own_sys1 KIND_PACKET (STATUS_ERR e) (feed b w) Es) as (w1&Ew&Hw1).
  { rewrite app_nil_r. by apply (server_at_feed _ _ [] s _ b). }
  cbn [block_ends is_packet if_bytes app report] in Hw1. fold z in Hw1.
  assert (forall y, server (feed ((c ++ b) ++ y) server0) = after_server (STATUS_ERR e) (feed y w1)) as Hs1.
  { intros y. rewrite <-app_assoc, Hs, <-feed_feed. apply iterate_last.
    apply kahn_Returns; [apply kahn_server_event|by apply (open_feed b)|exact Ew]. }
  assert (derivable client server client0 server0 (c ++ b) (s ++ z)) as Hd2.
  { eapply server_derives; [exact Hd1|apply kahn_after_server|exact Hs1|apply Hw1]. }
  exists (c ++ b), (feed z cl1), w1. split_and!; try done.
  - intros x. rewrite <-app_assoc, Hc1, <-feed_feed. done.
  - by apply client_at_feed.
Qed.

End Whole.

(** ** The ends of the programs *)

Section Ends.
Context `{Malloc, Libc, Shell, CodeShell, ScriptParser}.

(** What wire_server_thread does after the loop of wire_server_run_script. *)
Definition server_tail (status : status_t) : prog wire_server status_t :=
  match status with
  | STATUS_ERR error => mret (STATUS_ERR error)
  | _ => _ ← wire_server_next_event None; mret STATUS_OK
  end.
Definition server_free (status : status_t) : prog wire_server status_t :=
  s ← get ws_state;
  match s with
  | None => mret status
  | Some s => s ← run_exec (state_free s); _ ← put (set_ws_state (Some s)); mret status
  end.
Definition after_server (status : status_t) : prog wire_server status_t := server_tail status ≫= server_free.

Lemma kahn_after_server status : kahn (after_server status).
Proof.
  unfold after_server, server_tail, server_free. apply kahn_bind; [|intros; kahn_tac].
  destruct status; kahn_tac; apply kahn_server_next_event.
Qed.

Lemma finish_join script exed r r' c c' :
  rn_is_client r = false -> finish_script script exed r = Returns r' tt ->
  wire_client_next_event None c = Returns c' tt ->
  finish_script script exed (join c r) = Returns (join c' r') tt.
Proof.
  intros Hr E En. unfold finish_script in *.
  unfold mbind at 1, prog_bind at 1, if_client, mbind at 1, prog_bind at 1, get in E. rewrite Hr in E. cbn in E.
  erewrite bind_Returns.
  2:{ unfold if_client. erewrite bind_Returns by done. cbn. unfold in_client. cbn. by rewrite En. }
  unfold set_rn_client. cbn. destruct (run_cleanup_command _ _); [|done]. cbn in E |- *.
  unfold mbind, prog_bind in *. cbn [rn_code join] in *.
  destruct (code_execute (rn_code r)) as [[[code []] acts]|]; [|done..].
  unfold in_sys in *. cbn in *. destruct (state_free (rn_sys r)) as [s|]; [|done]. cbn in *. by injection E as <-.
Qed.

Context (client : prog run unit) (server : prog wire_server status_t) (client0 : run) (server0 : wire_server).
Context (script : script) (exed : bool).
Hypothesis kahn_client : kahn client.
Hypothesis kahn_server : kahn server.

(** After their loops both programs end, the client when it has the last report. *)
Lemma both_end own_run own_run' own_sys own_sys' last num ws p c s cl w :
  both_left client server client0 server0 (fun _ => finish_script script exed) after_server
    own_run own_sys last num ws p c s cl w ->
  rn_is_client own_run = false -> Forall text_ok ws ->
  (last <> KIND_PACKET -> ws = []) ->
  finish_script script exed own_run = Returns own_run' tt -> state_free own_sys = Ok own_sys' ->
  exists s' cl' w', derivable client server client0 server0 c s' /\
    client (feed s' client0) = Returns (join cl' own_run') tt /\ sent (join cl' own_run') = c /\
    wcl_printed cl' = p ++ (string_bytes <$> ws) /\
    server (feed c server0) = Returns w' STATUS_OK /\ sent w' = s' /\ ws_state w' = Some own_sys'.
Proof.
  intros [Hd Hc Hs Hca Hsa] Hal Hws Hlast Ef Efree.
  destruct (server_next_at None last num [] s (Some own_sys) w) as (w1&Ew&Hw1); [done|].
  set (z := if_bytes (block_ends None last) (done_message 0 num "")) in *.
  assert (exists w2, after_server STATUS_OK w = Returns w2 STATUS_OK /\ sent w2 = s ++ z /\ ws_state w2 = Some own_sys')
    as (w2&Ew2&Hsent2&Hst2).
  { unfold after_server. erewrite bind_Returns.
    2:{ unfold server_tail. by erewrite bind_Returns by exact Ew. }
    unfold server_free. erewrite bind_Returns by done. rewrite (sa_state _ _ _ _ _ _ Hw1).
    erewrite bind_Returns by (unfold run_exec; by rewrite Efree). erewrite bind_Returns by done.
    eexists. split; [done|]. split; [|done]. apply (lk_sent _ _ _ (sa_link _ _ _ _ _ _ Hw1)). }
  assert (is_open w) as Hos by by eapply server_at_open.
  assert (server (feed c server0) = Returns w2 STATUS_OK) as Eserver.
  { specialize (Hs []). rewrite app_nil_r in Hs. rewrite Hs.
    replace (feed [] w) with w; [done|]. unfold feed. cbn. rewrite app_nil_r. by destruct w as [[]]. }
  destruct (client_next_at None last num ws [] c p (feed z cl)) as (cl1&En&Hcl1); [|done|].
  { rewrite app_nil_r. unfold z. destruct (block_ends None last) eqn:Een; cbn [if_bytes].
    - by apply client_at_feed.
    - assert (ws = []) as -> by (apply Hlast; intros ->; by unfold block_ends in Een).
      by apply (client_at_feed _ _ [] _ _ []). }
  exists (s ++ z), cl1, w2. cbn [block_starts is_packet] in Hcl1.
  split_and!; try done.
  - apply (derive_server _ _ _ _ c s); [done|]. unfold server_out. rewrite Eserver. cbn. by rewrite <-Hsent2.
  - specialize (Hc z). rewrite Hc. apply (finish_join _ _ _ _ (feed z cl) cl1 Hal Ef En).
  - destruct Hcl1 as [[? Hl _ _ _] _ _ _]. cbn in Hl. rewrite app_nil_r in Hl. exact Hl.
  - rewrite (ca_printed _ _ _ _ _ _ Hcl1). destruct (block_ends None last) eqn:Een; [done|].
    assert (ws = []) as -> by (apply Hlast; intros ->; by unfold block_ends in Een). done.
Qed.

End Ends.

(** ** The beginnings of the programs *)

Lemma bind_assoc_at {W R S T} (m : prog W R) (f : R -> prog W S) (g : S -> prog W T) w :
  ((m ≫= f) ≫= g) w = (m ≫= fun a => f a ≫= g) w.
Proof. unfold mbind, prog_bind. by destruct (m w). Qed.

Lemma bind_ext {W R S} (m : prog W R) (f g : R -> prog W S) w :
  (forall a w', f a w' = g a w') -> (m ≫= f) w = (m ≫= g) w.
Proof. intros E. unfold mbind, prog_bind. by destruct (m w). Qed.

Lemma bind_grows {W R S} `{HasConn W} (m : prog W R) (f : R -> prog W S) w :
  (forall a, kahn (f a)) -> sent (end_of (m w)) `prefix_of` sent (end_of ((m ≫= f) w)).
Proof.
  intros Hf. unfold mbind, prog_bind. destruct (m w) as [w' a|]; [|done]. apply (kahn_grows _ (Hf a)).
Qed.

Section Begins.
Context `{Malloc, Libc, Shell, CodeShell, ScriptParser}.

(** The messages that the client starts with, and the answers. *)
Definition hello (config : client_config) : bytes :=
  message WIRE_COMMAND_LINE_ARGS (args_bytes (sent_args (cc_argv config)))
  ++ message WIRE_SCRIPT_PATH (cc_script_path config)
  ++ message WIRE_SCRIPT (cc_script_buffer config)
  ++ message WIRE_HARDWARE_ADDR (cc_hw_address config).
Definition ready : bytes := message WIRE_SERVER_READY [].
Definition starting : bytes := message WIRE_CLIENT_STARTING [].

(** What the client sends fits in its messages; the texts are C strings; and the memory that
    the server allocates for the arguments has a NUL behind them. *)
Record config_ok (config : client_config) : Prop := {
  co_argv : Forall no_nul (cc_argv config);
  co_args_len : 0 < zlen (args_bytes (sent_args (cc_argv config))) <= MAX_MESSAGE_BYTES;
  co_behind : 0 ∈ drop (length (args_bytes (sent_args (cc_argv config))))
                    (malloc (2 * zlen (args_bytes (sent_args (cc_argv config)))));
  co_path : no_nul (cc_script_path config);
  co_path_len : zlen (cc_script_path config) <= MAX_MESSAGE_BYTES;
  co_script : no_nul (cc_script_buffer config);
  co_script_len : zlen (cc_script_buffer config) <= MAX_MESSAGE_BYTES;
  co_hw : zlen (cc_hw_address config) = 6
}.

Lemma client_init_sends config last num a s p w :
  config_ok config -> client_at last num a s p w ->
  exists w', wire_client_init config w = wire_client_receive_server_ready w' /\
    client_at last num a (s ++ hello config) p w'.
Proof.
  intros Hc Hw. unfold wire_client_init. erewrite bind_Returns by done. set (w0 := set_wcl_client_ether_addr _ w).
  assert (client_at last num a s p w0) as Hw0 by by destruct Hw.
  unfold wire_client_send_args, wire_client_send_script_path, wire_client_send_script, wire_client_send_hw_address.
  destruct (client_write_at WIRE_COMMAND_LINE_ARGS (args_bytes (sent_args (cc_argv config)))
    "error sending WIRE_COMMAND_LINE_ARGS" _ _ _ _ _ _ Hw0) as (w1&E1&Hw1).
  erewrite bind_Returns.
  2:{ erewrite bind_Returns; [exact E1|]. unfold run_exec. rewrite serialize_spec; [done|].
      pose proof (co_args_len _ Hc). unfold MAX_MESSAGE_BYTES in *. lia. }
  destruct (client_write_at WIRE_SCRIPT_PATH (cc_script_path config) "error sending WIRE_SCRIPT_PATH" _ _ _ _ _ _ Hw1)
    as (w2&E2&Hw2). erewrite bind_Returns by exact E2.
  destruct (client_write_at WIRE_SCRIPT (cc_script_buffer config) "error sending WIRE_SCRIPT" _ _ _ _ _ _ Hw2)
    as (w3&E3&Hw3). erewrite bind_Returns by exact E3.
  assert (wcl_client_ether_addr w3 = cc_hw_address config) as Hhw.
  { assert (forall op buf error (w w' : wire_client), client_write op buf error w = Returns w' tt ->
      wcl_client_ether_addr w' = wcl_client_ether_addr w) as Hsame.
    { intros op buf error u u' E. unfold client_write, on_conn, mbind, prog_bind in E. cbn in E.
      destruct (wire_conn_write op buf (wcl_conn u)) as [c []|]; cbn in E; [by injection E as <-|done..]. }
    by rewrite (Hsame _ _ _ _ _ E3), (Hsame _ _ _ _ _ E2), (Hsame _ _ _ _ _ E1). }
  destruct (client_write_at WIRE_HARDWARE_ADDR (cc_hw_address config) "error sending WIRE_HARDWARE_ADDR" _ _ _ _ _ _ Hw3)
    as (w4&E4&Hw4). erewrite bind_Returns.
  2:{ erewrite bind_Returns by done. rewrite Hhw. exact E4. }
  exists w4. split; [done|]. unfold hello. by rewrite <-!app_assoc in Hw4.
Qed.

Lemma server_ready_at last num a s p w :
  client_at last num (ready ++ a) s p w ->
  exists w', wire_client_receive_server_ready w = Returns w' tt /\ client_at last num a s p w'.
Proof.
  intros Hw. unfold wire_client_receive_server_ready.
  destruct (client_read_at WIRE_SERVER_READY [] "error reading WIRE_SERVER_READY" _ _ _ _ _ _ Hw) as (w'&E&Hw'&_).
  { vm_compute. done. }
  erewrite bind_Returns by exact E. exists w'. done.
Qed.

(** The client's own part of the start of a run. *)
Definition begin_script (script : script) (jiffies : list Z) : prog run bool :=
  server ← get (fun r => cfg_is_wire_server (st_config (sys_state (rn_sys r))));
  _ ← run_exec (c_assert (negb server));
  init_cmd_exed ← run_init_command script;
  start ← in_state (schedule_start_time_usecs jiffies);
  _ ← in_state (fun st => Ok (set_st_live_start_time_usecs start st, tt));
  mret init_cmd_exed.

(** The whole start, and what follows. *)
Definition client_prefix (config : client_config) (script : RunScript.script) (jiffies : list Z) : prog run (bool * nat) :=
  server ← get (fun r => cfg_is_wire_server (st_config (sys_state (rn_sys r))));
  _ ← run_exec (c_assert (negb server));
  _ ← if_client (wire_client_init config);
  init_cmd_exed ← run_init_command script;
  start ← in_state (schedule_start_time_usecs jiffies);
  _ ← in_state (fun st => Ok (set_st_live_start_time_usecs start st, tt));
  _ ← if_client wire_client_send_client_starting;
  turns ← get (fun r => S (length (st_events (sys_state (rn_sys r)))));
  mret (init_cmd_exed, turns).

Lemma run_script_prefix config script jiffies r :
  run_script config script jiffies r =
  ('(exed, turns) ← client_prefix config script jiffies;
   iterate turns script_event ≫= fun _ => finish_script script exed) r.
Proof.
  unfold run_script, client_prefix, script_events. symmetry.
  repeat (rewrite bind_assoc_at; apply bind_ext; intros ? ?).
  rewrite bind_assoc_at. symmetry. rewrite bind_assoc_at. by apply bind_ext.
Qed.

Lemma run_init_join script r r' exed c : run_init_command script r = Returns r' exed ->
  run_init_command script (join c r) = Returns (join c r') exed /\ r' = r.
Proof.
  unfold run_init_command. destruct (sp_init_command script); [|by intros [= <- <-]].
  destruct (safe_system _); [|done]. by intros [= <- <-].
Qed.

Lemma in_state_join {R} (f : state -> exec (state * R)) r r' a c : in_state f r = Returns r' a ->
  in_state f (join c r) = Returns (join c r') a /\ rn_is_client r' = rn_is_client r.
Proof.
  intros E. destruct (own_in_sys (fun s => '(st, a) ← f (sys_state s); Ok (set_sys_state st s, a)) r) as [O C].
  change (in_sys _) with (in_state f) in O, C. rewrite O, E. by rewrite E in C.
Qed.

Lemma client_prefix_at config script jiffies r r1 exed cl :
  config_ok config -> begin_script script jiffies r = Returns r1 exed ->
  client_at KIND_INVALID 0 ready [] [] cl ->
  exists cl1, client_at KIND_INVALID 0 [] (hello config ++ starting) [] cl1 /\
    rn_is_client r1 = rn_is_client r /\
    client_prefix config script jiffies (join cl r) =
      Returns (join cl1 r1) (exed, S (length (st_events (sys_state (rn_sys r1))))).
Proof.
  intros Hok E Hcl. unfold begin_script in E. unfold mbind at 1, prog_bind at 1, get at 1 in E.
  destruct (negb _) eqn:Es; [|done]. unfold mbind at 1, prog_bind at 1 in E. cbn [run_exec c_assert] in E.
  unfold mbind at 1, prog_bind at 1 in E. destruct (run_init_command script r) as [r2 exed2|] eqn:Ei; [|done].
  unfold mbind at 1, prog_bind at 1 in E. destruct (in_state (schedule_start_time_usecs jiffies) r2) as [r3 start|] eqn:Et; [|done].
  unfold mbind at 1, prog_bind at 1 in E. destruct (in_state _ r3) as [r4 []|] eqn:Est; [|done].
  injection E as <- <-.
  destruct (client_init_sends config _ _ _ _ _ _ Hok Hcl) as (cl1&E1&Hcl1).
  destruct (server_ready_at KIND_INVALID 0 [] (hello config) [] cl1) as (cl2&E2&Hcl2); [by rewrite app_nil_r|].
  destruct (client_write_at WIRE_CLIENT_STARTING [] "error sending WIRE_CLIENT_STARTING" _ _ _ _ _ _ Hcl2) as (cl3&E3&Hcl3).
  exists cl3. split; [done|].
  destruct (run_init_join script _ _ _ cl2 Ei) as [Ei' ->].
  destruct (in_state_join _ _ _ _ cl2 Et) as [Et' C1]. destruct (in_state_join _ _ _ _ cl2 Est) as [Est' C2].
  split; [by rewrite C2, C1|]. unfold client_prefix.
  erewrite bind_Returns by done. cbn [rn_sys join]. rewrite Es. erewrite bind_Returns by done.
  erewrite bind_Returns.
  2:{ unfold if_client. erewrite bind_Returns by done. cbn [rn_is_client join]. unfold in_client. cbn [rn_client join].
      by rewrite E1, E2. }
  erewrite bind_Returns by exact Ei'. erewrite bind_Returns by exact Et'. erewrite bind_Returns by exact Est'.
  erewrite bind_Returns.
  2:{ unfold if_client. erewrite bind_Returns by done. cbn [rn_is_client join]. unfold in_client. cbn [rn_client join].
      unfold wire_client_send_client_starting. by rewrite E3. }
  erewrite bind_Returns by done. done.
Qed.

(** What the client has sent before it waits for the server. *)
Lemma client_says_hello config script jiffies r r1 exed cl :
  config_ok config -> begin_script script jiffies r = Returns r1 exed -> client_at KIND_INVALID 0 [] [] [] cl ->
  hello config `prefix_of` sent (end_of (run_script config script jiffies (join cl r))).
Proof.
  intros Hok E Hcl. unfold begin_script in E. unfold mbind at 1, prog_bind at 1, get at 1 in E.
  destruct (negb _) eqn:Es; [|done]. clear E. unfold run_script.
  erewrite bind_Returns by done. cbn [rn_sys join]. rewrite Es. erewrite bind_Returns by done.
  destruct (client_init_sends config _ _ _ _ _ _ Hok Hcl) as (cl1&E1&Hcl1).
  etrans; [|apply bind_grows; intros _].
  - unfold if_client, mbind at 1, prog_bind at 1, get at 1. cbn [rn_is_client join].
    unfold in_client. cbn [rn_client join]. rewrite E1.
    assert (sent cl1 = hello config) as Hs by apply Hcl1.
    assert (kahn wire_client_receive_server_ready) as Hk.
    { unfold wire_client_receive_server_ready. apply kahn_bind; [apply kahn_client_read|].
      intros []. repeat case_match; auto using kahn_ret, kahn_die. }
    pose proof (kahn_grows _ Hk cl1) as Hg. rewrite Hs in Hg.
    destruct (wire_client_receive_server_ready cl1); exact Hg.
  - apply kahn_bind; [apply kahn_run_init|intros]. apply kahn_bind; [apply kahn_in_sys|intros].
    apply kahn_bind; [apply kahn_in_sys|intros]. apply kahn_bind; [apply kahn_if_client, kahn_client_write|intros].
    apply kahn_bind; [apply kahn_script_events|intros]. apply kahn_finish.
Qed.

(** ** The server *)

(** The server's own part of the start: the state it makes of the parsed script. *)
Definition server_start (env : server_env) (config : config) (events : list event) : sys :=
  set_sys_state (state_new config (se_checker env) events (se_port env) (se_ports env) (se_clock env)
    (se_received env) (se_send_fails env))
    (se_run env).

(** The start of the server, up to the message that it is ready. *)
Definition server_prefix (env : server_env) : prog wire_server status_t :=
  and_then wire_server_receive_args (
  and_then wire_server_receive_script_path (
  and_then wire_server_receive_script (
  and_then wire_server_receive_hw_address (
    parsed ← get parse_script_and_set_config;
    match parsed with
    | None => mret (STATUS_ERR "")
    | Some (config, events) =>
        _ ← put (set_ws_state (Some (server_start env config events)));
        wire_server_send_server_ready
    end)))).

Definition server_rest (status : status_t) : prog wire_server status_t :=
  and_then (mret status) (and_then wire_server_receive_client_starting wire_server_run_script).

Lemma and_then_assoc m k f w : and_then (and_then m k) f w = and_then m (and_then k f) w.
Proof. unfold and_then, mbind, prog_bind. destruct (m w) as [w' []|]; done. Qed.

Lemma and_then_ext m k k' w : (forall w', k w' = k' w') -> and_then m k w = and_then m k' w.
Proof. intros E. unfold and_then, mbind, prog_bind. destruct (m w) as [w' []|]; done. Qed.

Lemma server_thread_prefix env w :
  wire_server_thread env w = ((server_prefix env ≫= server_rest) ≫= server_free) w.
Proof.
  unfold wire_server_thread. unfold mbind at 1 2, prog_bind at 1 2.
  enough (and_then wire_server_receive_args (and_then wire_server_receive_script_path (
    and_then wire_server_receive_script (and_then wire_server_receive_hw_address (server_session env)))) w
    = (server_prefix env ≫= server_rest) w) as -> by done.
  trans (and_then (server_prefix env) (and_then wire_server_receive_client_starting wire_server_run_script) w).
  2:{ unfold server_rest, and_then at 1, mbind, prog_bind. by destruct (server_prefix env w) as [? []|]. }
  unfold server_prefix. symmetry.
  repeat (rewrite and_then_assoc; apply and_then_ext; intros ?).
  unfold server_session, and_then, mbind, prog_bind, get, put.
  destruct (parse_script_and_set_config _) as [[config events]|]; done.
Qed.

Lemma strndup_text buf text tail : no_nul text -> text = [] \/ buf = Some (text ++ tail) ->
  strndup buf (zlen text) = text.
Proof.
  intros Hn Hb. unfold strndup. replace (Z.to_nat (zlen text)) with (length text) by (unfold zlen; lia).
  destruct Hb as [-> | ->]; [done|]. change (default [] (Some ?b)) with b. rewrite take_app_length.
  by apply c_string_text.
Qed.

Lemma server_prefix_at config env cfg events w :
  config_ok config -> server_at KIND_INVALID 0 (hello config) [] None w -> wc_buf_space (ws_conn w) = 0 ->
  parse_script (sent_args (cc_argv config) ++ [string_bytes "--wire_server"]) (cc_script_path config)
    (cc_script_buffer config) = Some (cfg, events) ->
  exists w', server_prefix env w = Returns w' STATUS_OK /\
    server_at KIND_INVALID 0 [] ready (Some (server_start env cfg events)) w'.
Proof.
  intros Hok Hw Hsp Hparse. destruct Hok as [Hargv Hal Hbehind Hpath Hpl Hscript Hsl Hhw].
  assert (Forall no_nul (sent_args (cc_argv config))) as Hsent.
  { apply Forall_forall. intros arg [_ Hin]%list_elem_of_filter. by eapply Forall_forall in Hargv. }
  unfold server_prefix, hello in *.
  destruct (server_read_at _ _ _ _ _ _ _ _ Hw) as (w1&E1&Hw1&_&_&_&tail&Hb1&Ht1); [split; [vm_compute; done|lia]|].
  rewrite Hsp in Ht1. specialize (Ht1 ltac:(lia)). subst tail.
  destruct Hb1 as [Hb1|Hb1]; [rewrite Hb1 in Hal; change (zlen []) with 0 in Hal; lia|].
  erewrite and_then_OK.
  2:{ unfold wire_server_receive_args. rewrite E1, Hb1. erewrite bind_Returns.
      2:{ unfold run_exec. rewrite unserialize_spec by done. by rewrite bool_decide_true by done. }
      by erewrite bind_Returns by done. }
  set (u1 := set_ws_argv _ w1).
  assert (server_at KIND_INVALID 0 (message WIRE_SCRIPT_PATH (cc_script_path config) ++
    message WIRE_SCRIPT (cc_script_buffer config) ++ message WIRE_HARDWARE_ADDR (cc_hw_address config)) [] None u1)
    as Hu1 by by destruct Hw1.
  destruct (server_read_at _ _ _ _ _ _ _ _ Hu1) as (w2&E2&Hw2&Ha2&_&_&tail2&Hb2&_); [split; [vm_compute; done|lia]|].
  erewrite and_then_OK.
  2:{ unfold wire_server_receive_script_path. rewrite E2, (strndup_text _ _ _ Hpath Hb2). by erewrite bind_Returns by done. }
  set (u2 := set_ws_script_path _ w2).
  assert (server_at KIND_INVALID 0 (message WIRE_SCRIPT (cc_script_buffer config) ++
    message WIRE_HARDWARE_ADDR (cc_hw_address config)) [] None u2) as Hu2 by by destruct Hw2.
  destruct (server_read_at _ _ _ _ _ _ _ _ Hu2) as (w3&E3&Hw3&Ha3&Hp3&_&tail3&Hb3&_); [split; [vm_compute; done|lia]|].
  erewrite and_then_OK.
  2:{ unfold wire_server_receive_script. rewrite E3, (strndup_text _ _ _ Hscript Hb3). by erewrite bind_Returns by done. }
  set (u3 := set_ws_script_buffer _ w3).
  assert (server_at KIND_INVALID 0 (message WIRE_HARDWARE_ADDR (cc_hw_address config) ++ []) [] None u3) as Hu3
    by (rewrite app_nil_r; by destruct Hw3).
  destruct (server_read_at _ _ _ _ _ _ _ _ Hu3) as (w4&E4&Hw4&Ha4&Hp4&Hs4&tail4&Hb4&_);
    [split; [vm_compute; done|rewrite Hhw; vm_compute; done]|].
  destruct Hb4 as [Hb4|Hb4]; [rewrite Hb4 in Hhw; done|].
  erewrite and_then_OK.
  2:{ unfold wire_server_receive_hw_address. rewrite E4, Hhw. cbn [Z.eqb Pos.eqb negb]. rewrite Hb4.
      erewrite bind_Returns by done. erewrite bind_Returns.
      2:{ unfold run_exec, get_bytes. rewrite (proj2 (in_range_true _ _ _)).
          2:{ rewrite zlen_app, Hhw. pose proof (zlen_nonneg tail4). lia. }
          done. }
      by erewrite bind_Returns by done. }
  set (u4 := set_ws_client_ether_addr _ w4).
  assert (parse_script_and_set_config u4 = Some (cfg, events)) as Hp.
  { unfold parse_script_and_set_config, u4. cbn. rewrite Ha4, Hp4, Hs4. unfold u3. cbn. rewrite Ha3, Hp3.
    unfold u2. cbn. rewrite Ha2. done. }
  erewrite bind_Returns by done. rewrite Hp. erewrite bind_Returns by done.
  set (u5 := set_ws_state _ u4).
  destruct (server_write_at WIRE_SERVER_READY [] "error sending WIRE_SERVER_READY" KIND_INVALID 0 [] []
    (Some (server_start env cfg events)) u5) as (w5&E5&Hw5); [by destruct Hw4|].
  by exists w5.
Qed.

(** The state of the server's interpreter at the start of the loop. *)
Definition server_started (env : server_env) (config : RunState.config) (events : list event) (s : sys) : Prop :=
  exists st now, now_usecs (sys_state (server_start env config events)) = Ok (st, now) /\
    s = set_sys_state (set_st_live_start_time_usecs now st) (server_start env config events).

Lemma now_usecs_events st st' now : now_usecs st = Ok (st', now) -> st_events st' = st_events st.
Proof. unfold now_usecs. destruct (st_clock st); [done|]. by intros [= <- _]. Qed.

Lemma server_rest_at env cfg events s w :
  server_at KIND_INVALID 0 [] ready (Some (server_start env cfg events)) w -> server_started env cfg events s ->
  exists w', server_at KIND_INVALID 0 [] ready (Some s) w' /\
    forall y, (server_rest STATUS_OK ≫= server_free) (feed (starting ++ y) w) =
      (iterate (S (length events)) server_event ≫= after_server) (feed y w').
Proof.
  intros Hw (st&now&En&->).
  assert (server_at KIND_INVALID 0 (starting ++ []) ready (Some (server_start env cfg events)) (feed starting w)) as Hw0.
  { rewrite app_nil_r. by apply (server_at_feed _ _ []). }
  destruct (server_read_at _ _ _ _ _ _ _ _ Hw0) as (w1&E1&Hw1&_); [vm_compute; done|].
  destruct (step_at now_usecs _ _ _ _ _ _ _ _ Hw1 En) as (w2&E2&Hw2).
  destruct (step_at (fun st => Ok (set_st_live_start_time_usecs now st, tt)) _ _ _ _ _ _ _ _ Hw2 eq_refl) as (w3&E3&Hw3).
  rewrite set_state_twice in Hw3.
  destruct (step_at (fun st => Ok (st, S (length (st_events st)))) _ _ _ _ _ _ _ _ Hw3 eq_refl) as (w4&E4&Hw4).
  rewrite set_state_twice in Hw4.
  exists w4. split; [done|]. intros y. rewrite <-feed_feed.
  assert (is_open (feed starting w)) as Ho by by eapply server_at_open.
  assert (wire_server_receive_client_starting (feed starting w) = Returns w1 STATUS_OK) as Es.
  { unfold wire_server_receive_client_starting. by rewrite E1. }
  unfold mbind at 1, prog_bind at 1. unfold server_rest. erewrite and_then_OK by done.
  erewrite and_then_OK.
  2:{ apply kahn_Returns; [|exact Ho|exact Es]. unfold wire_server_receive_client_starting. apply kahn_server_read.
      intros. case_match; [apply kahn_bad|apply kahn_ret]. }
  unfold wire_server_run_script.
  erewrite bind_Returns by (apply kahn_Returns; [apply kahn_step|by eapply server_at_open|exact E2]).
  erewrite bind_Returns by (apply kahn_Returns; [apply kahn_step|by eapply server_at_open|exact E3]).
  erewrite bind_Returns by (apply kahn_Returns; [apply kahn_step|by eapply server_at_open|exact E4]).
  cbn [sys_state set_sys_state]. change (st_events (set_st_live_start_time_usecs now st)) with (st_events st).
  rewrite (now_usecs_events _ _ _ En). cbn [sys_state server_start set_sys_state state_new st_events].
  unfold after_server. rewrite <-bind_assoc_at. done.
Qed.

(** Both starts depend on what arrives only by waiting for it. *)
Lemma kahn_server_prefix env : kahn (server_prefix env).
Proof.
  unfold server_prefix, wire_server_receive_args, wire_server_receive_script_path, wire_server_receive_script,
    wire_server_receive_hw_address.
  repeat (apply kahn_and_then; [apply kahn_server_read; intros; kahn_tac; apply kahn_bad|]).
  kahn_tac. apply kahn_server_write.
Qed.

Lemma kahn_server_rest : kahn (server_rest STATUS_OK ≫= server_free).
Proof.
  apply kahn_bind; [|intros; unfold server_free; kahn_tac]. unfold server_rest.
  apply kahn_and_then; [apply kahn_ret|]. apply kahn_and_then; [|apply kahn_server_run_script].
  unfold wire_server_receive_client_starting. apply kahn_server_read. intros. kahn_tac. apply kahn_bad.
Qed.

Lemma kahn_client_prefix config script jiffies : kahn (client_prefix config script jiffies).
Proof.
  unfold client_prefix. kahn_tac; try apply kahn_in_sys; try apply kahn_run_init; apply kahn_if_client.
  - apply kahn_client_init.
  - apply kahn_client_write.
Qed.

End Begins.
