(* ===== verification/WireRun.v ===== *)
(** * WireRun: a wire test from beginning to end

    The theorems about a whole session: two programs that each could run their part of the
    script do so together over any network, and an error that the server sees reaches the
    user of the client. *)

From stdpp Require Import relations.
From S2P Require Import Prelude Headers Packet IpPacket HashMap Socket Script RunState PacketMap RunPacket FuzzHelper SystemCall SyscallHandlers RunEvents Code WireConn WireNet WireClient WireServer RunScript WireProps WireSession.

Section Session.
Context `{Malloc, Libc, Shell, CodeShell, ScriptParser}.

(** The client's part of a script of [n] events on its own, without a wire: it meets events of
    these kinds and ends. *)
Definition client_alone (script : script) (jiffies : list Z) (r : run) (n : nat) (kinds : list event_kind)
    (r_end : run) : Prop :=
  exists r1 r2 exed, rn_is_client r = false /\ begin_script script jiffies r = Returns r1 exed /\
    length (st_events (sys_state (rn_sys r1))) = n /\ client_visits r1 kinds r2 /\
    finish_script script exed r2 = Returns r_end tt.

(** The server's part on its own: the events with the statuses of their packets. *)
Definition server_alone (env : server_env) (config : config) (events : list event)
    (l : list (event_kind * status_t)) (s_end : sys) : Prop :=
  exists s1 s2, server_started env config events s1 /\ server_visits s1 l s2 /\ state_free s2 = Ok s_end.

(** [client_alone] is a run of the program without a wire client. *)
Lemma path_iterate r kinds r1 : client_path r kinds r1 -> forall r' n, (length kinds < n)%nat ->
  script_event r1 = Returns r' (Some tt) -> iterate n script_event r = Returns r' tt.
Proof.
  induction 1 as [r|r r1 r2 k ks _ E _ IH]; intros r' [|n] Hn El; try (cbn in Hn; lia); cbn [iterate].
  - by erewrite bind_Returns by exact El.
  - erewrite bind_Returns by exact E. apply IH; [cbn in Hn; lia|done].
Qed.

Lemma client_alone_run config script jiffies r n kinds r_end :
  client_alone script jiffies r n kinds r_end -> (length kinds <= n)%nat ->
  run_script config script jiffies r = Returns r_end tt.
Proof.
  intros (r1&r2&exed&Hr&Eb&Hn&Hv&Ef) Hl. unfold run_script, begin_script in *.
  unfold mbind at 1, prog_bind at 1, get at 1 in Eb. erewrite bind_Returns by done.
  destruct (negb _) eqn:Es; [|done]. unfold mbind at 1, prog_bind at 1 in Eb. cbn [run_exec c_assert] in Eb.
  erewrite bind_Returns by done. erewrite bind_Returns.
  2:{ unfold if_client. erewrite bind_Returns by done. by rewrite Hr. }
  unfold mbind at 1, prog_bind at 1 in Eb. destruct (run_init_command script r) as [r3 exed3|] eqn:Ei; [|done].
  erewrite bind_Returns by exact Ei. destruct (run_init_join script _ _ _ (rn_client r) Ei) as [_ ->].
  unfold mbind at 1, prog_bind at 1 in Eb.
  destruct (in_state (schedule_start_time_usecs jiffies) r) as [r4 start|] eqn:Et; [|done].
  erewrite bind_Returns by exact Et. unfold mbind at 1, prog_bind at 1 in Eb.
  destruct (in_state _ r4) as [r5 []|] eqn:Est; [|done]. injection Eb as <- <-.
  erewrite bind_Returns by exact Est.
  assert (rn_is_client r5 = false) as Hr5.
  { destruct (in_state_join _ _ _ _ (rn_client r) Et) as [_ C1]. destruct (in_state_join _ _ _ _ (rn_client r) Est) as [_ C2].
    congruence. }
  erewrite bind_Returns.
  2:{ unfold if_client. erewrite bind_Returns by done. by rewrite Hr5. }
  erewrite bind_Returns; [exact Ef|]. unfold script_events. erewrite bind_Returns by done.
  destruct Hv as (r6&Hp&El). eapply path_iterate; [done|lia|done].
Qed.

Context (config : client_config) (script : script) (jiffies : list Z) (env : server_env).
Context (cfg : RunState.config) (events : list event) (conn_c conn_s : wire_conn) (r : run).

Abbreviation client := (run_script config script jiffies).
Abbreviation server := (wire_server_thread env).
Abbreviation client0 := (join (wire_client_new conn_c) r).
Abbreviation server0 := (wire_server_new conn_s).

Hypothesis Hconfig : config_ok config.
Hypothesis Hconn_c : link [] [] conn_c.
Hypothesis Hconn_s : link [] [] conn_s.
Hypothesis Hspace : wc_buf_space conn_s = 0.
Hypothesis Hparse : parse_script (sent_args (cc_argv config) ++ [string_bytes "--wire_server"])
  (cc_script_path config) (cc_script_buffer config) = Some (cfg, events).

(** The two programs get to their loops together. *)
Lemma session_begins r1 exed s1 :
  rn_is_client r = false -> begin_script script jiffies r = Returns r1 exed ->
  length (st_events (sys_state (rn_sys r1))) = length events -> server_started env cfg events s1 ->
  rn_is_client r1 = false /\
  exists cl w, in_step client server client0 server0 (fun _ => finish_script script exed) after_server
    (S (length events)) r1 s1 KIND_INVALID 0 [] [] (hello config ++ starting) ready cl w.
Proof.
  intros Hr Eb Hn Hs.
  assert (client_at KIND_INVALID 0 [] [] [] (wire_client_new conn_c)) as Hc0 by done.
  assert (server_at KIND_INVALID 0 [] [] None (wire_server_new conn_s)) as Hs0 by done.
  assert (derivable client server client0 server0 (hello config) []) as D1.
  { apply (derive_client _ _ _ _ [] []); [constructor|]. unfold client_out.
    rewrite feed_join. apply (client_says_hello config script jiffies r r1 exed); [done..|].
    by apply (client_at_feed _ _ []). }
  destruct (server_prefix_at config env cfg events (feed (hello config) server0)) as (w1&E1&Hw1); [done| |done..|].
  { by apply (server_at_feed _ _ []). }
  assert (forall y, server (feed (hello config ++ y) server0) = (server_rest STATUS_OK ≫= server_free) (feed y w1)) as Q1.
  { intros y. rewrite server_thread_prefix, bind_assoc_at, <-feed_feed. erewrite bind_Returns; [done|].
    apply kahn_Returns; [apply kahn_server_prefix| |done]. by eapply server_at_open, (server_at_feed _ _ []). }
  assert (kahn (server_rest STATUS_OK ≫= server_free)) as K1 by apply kahn_server_rest.
  assert (derivable client server client0 server0 (hello config) ready) as D2.
  { eapply server_derives; [exact D1|exact K1|exact Q1|]. apply Hw1. }
  destruct (client_prefix_at config script jiffies r r1 exed (feed ready (wire_client_new conn_c)))
    as (cl&Hcl&Hr1&Ec); [done|done|by apply (client_at_feed _ _ [])|].
  assert (forall x, client (feed (ready ++ x) client0) =
    (iterate (S (length events)) script_event ≫= fun _ => finish_script script exed) (feed x (join cl r1))) as P1.
  { intros x. rewrite run_script_prefix, <-feed_feed, (feed_join ready). erewrite bind_Returns.
    2:{ apply kahn_Returns; [apply kahn_client_prefix| |exact Ec].
        eapply (client_at_open KIND_INVALID 0). by apply (client_at_feed _ _ []). }
    cbn match beta. by rewrite Hn. }
  assert (derivable client server client0 server0 (hello config ++ starting) ready) as D3.
  { eapply client_derives; [exact D2|apply kahn_client_loop; intros; apply kahn_finish|exact P1|]. apply Hcl. }
  destruct (server_rest_at env cfg events s1 w1 Hw1 Hs) as (w2&Hw2&Q2).
  split; [by rewrite Hr1|]. exists cl, w2. split; [done|done| |done|done].
  intros y. rewrite <-app_assoc, Q1. apply Q2.
Qed.

(** A client that has been sent an error of the server dies with it at the end of the block. *)
Lemma client_drains exed e kinds : forall n r1 r2 r_end num num' ws p c s cl,
  client_path r1 kinds r2 -> script_event r2 = Returns r_end (Some tt) -> (length kinds < n)%nat ->
  rn_is_client r1 = false -> Forall text_ok ws -> text_ok e ->
  (forall x, client (feed (s ++ x) client0) =
    (iterate n script_event ≫= fun _ => finish_script script exed) (feed x (join cl r1))) ->
  client_at KIND_PACKET num (pending ws ++ done_message STATUS_ERR_NUMBER num' e) c p cl ->
  exists r' cl', client (feed s client0) = Stops (join cl' r') (Dies e) /\ sent (join cl' r') = c /\
    wcl_printed cl' = p ++ (string_bytes <$> ws).
Proof.
  induction kinds as [|k kinds IH]; intros [|n] r1 r2 r_end num num' ws p c s cl Hp El Hn Hal Hws He Hc Hcl; try (cbn in Hn; lia).
  - inversion Hp; subst. destruct (script_event_join _ _ _ Hal El) as [_ Ej].
    destruct (receive_packets_done_at ws STATUS_ERR_NUMBER num' e KIND_PACKET num [] c p cl) as (cl'&Hcl'&Er); [|done..|].
    { by rewrite app_nil_r. }
    exists r_end, cl'. split_and!; [|apply Hcl'|apply Hcl'].
    specialize (Hc []). rewrite app_nil_r in Hc. rewrite Hc, feed_join.
    replace (feed [] cl) with cl by (unfold feed; cbn; rewrite app_nil_r; by destruct cl as [[]]).
    rewrite (iterate_last _ _ _ _ _ _ (Ej cl)). unfold finish_script. erewrite bind_Stops; [done|].
    unfold if_client. erewrite bind_Returns by done. cbn [rn_is_client join]. unfold in_client. cbn [rn_client join].
    unfold wire_client_next_event. erewrite bind_Returns by done. rewrite (ca_last _ _ _ _ _ _ Hcl).
    erewrite bind_Returns by done. erewrite bind_Stops by exact Er. done.
  - inversion Hp as [|? r3 ? ? ? Ek E Hp']; subst. destruct (script_event_join _ _ _ Hal E) as [Hal3 (k'&Ek'&Hj)].
    rewrite Ek in Ek'. injection Ek' as <-. specialize (Hj cl).
    destruct (decide (k = KIND_PACKET)) as [->|Hk].
    + destruct (client_next_at (Some KIND_PACKET) KIND_PACKET num ws
        (pending ws ++ done_message STATUS_ERR_NUMBER num' e) c p cl) as (cl1&En&Hcl1); [done|done|].
      rewrite En in Hj. cbn in Hcl1. rewrite !app_nil_r in Hcl1. cbn in Hn.
      eapply (IH n r3 r2 r_end); [done..|lia|done|done|done| |exact Hcl1].
      intros x. pose proof (client_advances client client0 (fun _ => finish_script script exed) n s [] cl cl1 r1 r3 Hc) as Ha.
      rewrite app_nil_r in Ha. apply Ha; [by eapply client_at_open|].
      replace (feed [] cl) with cl by (unfold feed; cbn; rewrite app_nil_r; by destruct cl as [[]]). done.
    + destruct (receive_packets_done_at ws STATUS_ERR_NUMBER num' e KIND_PACKET num [] c p cl) as (cl'&Hcl'&Er); [|done..|].
      { by rewrite app_nil_r. }
      assert (wire_client_next_event (Some k) cl = Stops cl' (Dies e)) as En.
      { unfold wire_client_next_event. erewrite bind_Returns by done. rewrite (ca_last _ _ _ _ _ _ Hcl).
        unfold is_packet. rewrite bool_decide_false by naive_solver. cbn [andb negb].
        erewrite bind_Returns by done. by erewrite bind_Stops by exact Er. }
      rewrite En in Hj. destruct Hj as [r' Hj]. exists r', cl'. split_and!; [|apply Hcl'|apply Hcl'].
      specialize (Hc []). rewrite app_nil_r in Hc. rewrite Hc, feed_join.
      replace (feed [] cl) with cl by (unfold feed; cbn; rewrite app_nil_r; by destruct cl as [[]]).
      cbn [iterate]. erewrite bind_Stops; [done|]. by erewrite bind_Stops by exact Hj.
Qed.

End Session.

(** ** Theorems *)

Section Theorems.
Context `{Malloc, Libc, Shell, CodeShell, ScriptParser}.

(** C9. The two sides keep in step.  Take a client and a server that could each run their part of
    a script on their own: the client all but the packets, the server the packets, none of
    which is an error.  Then, over a network that delivers what was sent in order, but in
    pieces of any size and after any delay, the deliveries come to an end, and when nothing is
    left to deliver both programs have run to their end: neither waits for the other, the
    client's run is the one it would have had alone, it has printed the server's warnings, all
    of them and in order, and the server has succeeded. *)
Theorem wire_session_completes (config : client_config) (script : script) (jiffies : list Z) (env : server_env)
    (cfg : RunState.config) (events : list event) (l : list (event_kind * status_t))
    (conn_c conn_s : wire_conn) (r r_end : run) (s_end : sys) :
  config_ok config -> link [] [] conn_c -> link [] [] conn_s -> wc_buf_space conn_s = 0 ->
  parse_script (sent_args (cc_argv config) ++ [string_bytes "--wire_server"]) (cc_script_path config)
    (cc_script_buffer config) = Some (cfg, events) ->
  client_alone script jiffies r (length events) l.*1 r_end -> server_alone env cfg events l s_end ->
  (length l <= length events)%nat -> Forall text_ok (all_warns l) ->
  let client := run_script config script jiffies in
  let server := wire_server_thread env in
  let client0 := join (wire_client_new conn_c) r in
  let server0 := wire_server_new conn_s in
  let step := deliver client server client0 server0 in
  (exists bound, forall k n, nsteps step k ([], []) n -> (k <= bound)%nat) /\
  forall n, rtc step ([], []) n -> (forall n', ~ step n n') ->
    exists cl w, client (feed n.1 client0) = Returns (join cl r_end) tt /\
      wcl_printed cl = string_bytes <$> all_warns l /\
      server (feed n.2 server0) = Returns w STATUS_OK /\ ws_state w = Some s_end.
Proof.
  intros Hok Hcc Hcs Hsp Hparse (r1&r2&exed&Hr&Eb&Hn&(r3&Hp&El)&Ef) (s1&s2&Hs1&(s3&Hsv&Esl)&Efree) Hlen Hws client server client0 server0 step.
  destruct (session_begins config script jiffies env cfg events conn_c conn_s r Hok Hcc Hcs Hsp Hparse r1 exed s1 Hr Eb Hn Hs1)
    as [Hr1 (cl&w&Hi)].
  replace (S (length events)) with (length l + S (length events - length l))%nat in Hi by lia.
  destruct (in_step_path client server client0 server0 (fun _ => finish_script script exed) after_server
    (fun _ => kahn_finish script exed) kahn_after_server _ _ _ _ _ _ _ _ _ _ _ _ _ _ Hi Hr1
    (Forall_nil_2 _) Hws ltac:(done) Hp Hsv) as (last'&num'&ws'&p'&c'&s'&cl'&w'&Hi'&Hws'&Hla'&Hpr).
  pose proof (client_path_alone _ _ _ Hp Hr1) as Hr3.
  destruct (in_step_leave client server client0 server0 (fun _ => finish_script script exed) after_server
    _ _ _ _ _ _ _ _ _ _ _ _ _ Hi' Hr3 El Esl) as (w2&Hb).
  assert (rn_is_client r2 = false) as Hr2 by by apply (script_event_join _ _ _ Hr3 El).
  destruct (both_end client server client0 server0 script exed _ _ _ _ _ _ _ _ _ _ _ _ Hb Hr2 Hws' Hla' Ef Efree)
    as (sf&clf&wf&Hd&Ec&Hsc&Hpf&Es&Hss&Hst).
  assert (client_out client client0 sf = c') as Hco by (unfold client_out; rewrite Ec; exact Hsc).
  assert (server_out server server0 c' = sf) as Hso by (unfold server_out; rewrite Es; exact Hss).
  assert (kahn client) as Kc by apply kahn_run_script. assert (kahn server) as Ks by apply kahn_server_thread.
  split.
  - exists (length sf + length c')%nat. intros k n Hk.
    eapply (deliver_bounded client server client0 server0 Kc Ks); [apply Hcc|apply Hcs|exact Hco|exact Hso|exact Hk].
  - intros n Hrtc Hq.
    pose proof (quiescent_all client server client0 server0 Kc Ks (lk_open _ _ _ Hcc) (lk_open _ _ _ Hcs)
      c' sf Hd Hco Hso n Hrtc Hq) as ->. cbn [fst snd].
    exists clf, wf. split_and!; try done. by rewrite Hpf, Hpr.
Qed.

(** C10. An error at the server ends the client.  When a packet of the script fails at the server
    with a message, after events that went well, then, whatever the network does, when nothing
    is left to deliver the client has died with that very message, after it has printed the
    warnings that came before, and the server has ended with the error. *)
Theorem wire_error_reaches_client (config : client_config) (script : script) (jiffies : list Z) (env : server_env)
    (cfg : RunState.config) (events : list event) (l : list (event_kind * status_t)) (more : list event_kind)
    (e : string) (conn_c conn_s : wire_conn) (r r_end : run) (s1 s2 s3 s_end : sys) :
  config_ok config -> link [] [] conn_c -> link [] [] conn_s -> wc_buf_space conn_s = 0 ->
  parse_script (sent_args (cc_argv config) ++ [string_bytes "--wire_server"]) (cc_script_path config)
    (cc_script_buffer config) = Some (cfg, events) ->
  client_alone script jiffies r (length events) (l.*1 ++ KIND_PACKET :: more) r_end ->
  server_started env cfg events s1 -> server_path s1 l s2 ->
  packet_turn s2 = Ok (s3, Some (KIND_PACKET, STATUS_ERR e)) -> state_free s3 = Ok s_end ->
  (length l + S (length more) <= length events)%nat -> Forall text_ok (all_warns l) -> text_ok e ->
  let client := run_script config script jiffies in
  let server := wire_server_thread env in
  let client0 := join (wire_client_new conn_c) r in
  let server0 := wire_server_new conn_s in
  let step := deliver client server client0 server0 in
  forall n, rtc step ([], []) n -> (forall n', ~ step n n') ->
    exists r' cl w, client (feed n.1 client0) = Stops (join cl r') (Dies e) /\
      wcl_printed cl = string_bytes <$> all_warns l /\
      server (feed n.2 server0) = Returns w (STATUS_ERR e) /\ ws_state w = Some s_end.
Proof.
  intros Hok Hcc Hcs Hsp Hparse (r1&r2&exed&Hr&Eb&Hn&(r3&Hp&El)&Ef) Hs1 Hsv Est Efree Hlen Hws He client server client0 server0 step n Hrtc Hq.
  destruct (session_begins config script jiffies env cfg events conn_c conn_s r Hok Hcc Hcs Hsp Hparse r1 exed s1 Hr Eb Hn Hs1)
    as [Hr1 (cl&w&Hi)].
  replace (S (length events)) with (length l + S (length events - length l))%nat in Hi by lia.
  apply client_path_app in Hp as (r4&Hp1&Hp2).
  destruct (in_step_path client server client0 server0 (fun _ => finish_script script exed) after_server
    (fun _ => kahn_finish script exed) kahn_after_server _ _ _ _ _ _ _ _ _ _ _ _ _ _ Hi Hr1
    (Forall_nil_2 _) Hws ltac:(done) Hp1 Hsv) as (last'&num'&ws'&p'&c'&s'&cl'&w'&Hi'&Hws'&Hla'&Hpr).
  pose proof (client_path_alone _ _ _ Hp1 Hr1) as Hr4. inversion Hp2 as [|? r5 ? ? ? Ek Et Hp3]; subst.
  destruct (in_step_fails client server client0 server0 (fun _ => finish_script script exed) after_server
    (fun _ => kahn_finish script exed) kahn_after_server _ _ _ _ _ _ _ _ _ _ _ _ _ _ Hi' Hr4 Hws' Et Ek Est)
    as (c1&cl1&w1&Hd&Hc1&Hcl1&Hs1'&Hw1).
  set (z := done_message _ _ _) in *.
  destruct (script_event_join _ _ _ Hr4 Et) as [Hr5 _].
  destruct (client_drains config script jiffies conn_c r exed e more (length events - length l) _ _ _ _ _ _ _ _ _ _ Hp3 El ltac:(lia) Hr5 Hws' He Hc1 Hcl1)
    as (r'&clf&Ec&Hsc&Hpf). change (client (feed (s' ++ z) client0) = Stops (join clf r') (Dies e)) in Ec.
  assert (exists wf, server (feed c1 server0) = Returns wf (STATUS_ERR e) /\ sent wf = s' ++ z /\ ws_state wf = Some s_end)
    as (wf&Es&Hss&Hst).
  { specialize (Hs1' []). rewrite app_nil_r in Hs1'. rewrite Hs1'.
    replace (feed [] w1) with w1 by (unfold feed; cbn; rewrite app_nil_r; by destruct w1 as [[]]).
    unfold after_server. erewrite bind_Returns by done. unfold server_free. erewrite bind_Returns by done.
    rewrite (sa_state _ _ _ _ _ _ Hw1). erewrite bind_Returns by (unfold run_exec; by rewrite Efree).
    erewrite bind_Returns by done. eexists. split; [done|]. split; [apply (lk_sent _ _ _ (sa_link _ _ _ _ _ _ Hw1))|done]. }
  assert (client_out client client0 (s' ++ z) = c1) as Hco by (unfold client_out; rewrite Ec; exact Hsc).
  assert (server_out server server0 c1 = s' ++ z) as Hso by (unfold server_out; rewrite Es; exact Hss).
  assert (kahn client) as Kc by apply kahn_run_script. assert (kahn server) as Ks by apply kahn_server_thread.
  pose proof (quiescent_all client server client0 server0 Kc Ks (lk_open _ _ _ Hcc) (lk_open _ _ _ Hcs)
    c1 (s' ++ z) Hd Hco Hso n Hrtc Hq) as ->. cbn [fst snd].
  exists r', clf, wf. split_and!; try done. by rewrite Hpf, Hpr.
Qed.

End Theorems.
