(* ===== verification/WireRuns.v ===== *)
(** * WireRuns: two wire tests

    The theorems of WireRun.v on concrete sessions: a handshake whose second packet the
    server only warns about, and one whose second packet is an error. *)

From stdpp Require Import relations.
From S2P Require Import Prelude Headers Packet IpAddress IpPacket HashMap Socket Script RunState PacketMap RunPacket FuzzHelper SystemCall SyscallHandlers SyscallProps RunEvents Code FuzzRuns WireConn WireNet WireClient WireServer RunScript WireProps WireSession WireRun.

#[local] Existing Instance zero_malloc.
#[local] Instance true_shell : Shell := fun _ => 0.
#[local] Instance code_shell : CodeShell := Build_CodeShell (fun _ => Some "/tmp/code"%string) true true true (fun _ _ => 0).

(** The script: a command, the SYN of the test and the SYN-ACK of the kernel, a command. *)
Definition wire_events : list event :=
  [mk_event 1 0 (-1) (-1) ABSOLUTE_TIME (COMMAND_EVENT "true");
   packet_event 2 (script_packet AF_INET DIRECTION_INBOUND "S" 0 0 0);
   packet_event 3 (script_packet AF_INET DIRECTION_OUTBOUND "S." 5000 0 1);
   mk_event 4 0 (-1) (-1) ABSOLUTE_TIME (COMMAND_EVENT "true")].

(** The configuration of the server, which warns about packets or fails. *)
Definition wire_cfg (warn : bool) : config :=
  mk_config 8080 8080 (ip_from_ipv4 [192; 168; 0; 1]) (ip_from_ipv4 [192; 0; 2; 1])
    4000 false 1000 0 true warn "test.pkt" false true false AF_INET AF_INET
    (ip_from_ipv4 [192; 168; 0; 1]) (ip_from_ipv4 [192; 0; 2; 1]).

#[local] Instance wire_parser : ScriptParser := fun argv _ _ =>
  Some (wire_cfg (bool_decide (string_bytes "--non_fatal=packet" ∈ argv)), wire_events).

Definition server_run : sys :=
  mk_sys (state_new (wire_cfg true) false [] 40000 [] [] [] []) (sample_fuzzer all_on [] false) false
    (mk_syscalls SYSCALL_IDLE None (-1)) [] [].

(** The kernel's SYN-ACK comes too late. *)
Definition late_synack : packet := set_pk_time_usecs 90000 live_synack.

Definition wire_env : server_env :=
  mk_server_env server_run true 40000 [] (replicate 20 70000) [Success late_synack] [].

Definition wire_client_config (warn : bool) : client_config :=
  mk_client_config ([string_bytes "packetdrill"; string_bytes "--wire_client"]
    ++ (if warn then [string_bytes "--non_fatal=packet"] else []) ++ [string_bytes "test.pkt"])
    (string_bytes "test.pkt") (string_bytes "...") [2; 0; 0; 0; 0; 1].

(** The client on its own. *)
Definition client_run : run :=
  mk_run
    (mk_sys (state_new (mk_config 8080 8080 (ip_from_ipv4 [192; 168; 0; 1]) (ip_from_ipv4 [192; 0; 2; 1])
               4000 false 1000 0 true false "test.pkt" true false false AF_INET AF_INET
               (ip_from_ipv4 [192; 168; 0; 1]) (ip_from_ipv4 [192; 0; 2; 1])) false wire_events 40000 [] 
               (replicate 10 80000 ++ replicate 8 80251) [] [])
       (sample_fuzzer all_on [] false) false (mk_syscalls SYSCALL_IDLE None (-1)) [] [])
    (mk_code_state false FORMAT_PYTHON DATA_NONE "python" None None []) false
    (wire_client_new (wire_conn_new 3 [])) [].

Definition wire_jiffies : list Z := [1; 2; 3; 4; 5; 6; 7; 8; 9; 10; 11].
Definition wire_script : script := mk_script None None.

(** ** The client's part *)

Definition run_after {A} (x : ending run A) : run := match x with Returns r _ | Stops r _ => r end.

Definition client_begin : run := run_after (begin_script wire_script wire_jiffies client_run).
Definition client_turn (r : run) : run := run_after (script_event r).
Definition client_turns (n : nat) : run := Nat.iter n client_turn client_begin.
Definition client_end : run := run_after (finish_script wire_script false (client_turns 5)).

Lemma client_turn_ok n k : next_kind (sys_state (rn_sys (client_turns n))) = Some k ->
  script_event (client_turns n) = Returns (client_turns (S n)) None ->
  forall ks r, client_path (client_turns (S n)) ks r -> client_path (client_turns n) (k :: ks) r.
Proof. intros. by econstructor. Qed.

Lemma client_run_alone :
  client_alone wire_script wire_jiffies client_run 4 [KIND_COMMAND; KIND_PACKET; KIND_PACKET; KIND_COMMAND] client_end.
Proof.
  exists (client_turns 0), (client_turns 5), false. split; [done|]. split; [vm_compute; reflexivity|].
  split; [vm_compute; reflexivity|]. split; [|vm_compute; reflexivity].
  exists (client_turns 4). split; [|vm_compute; reflexivity].
  do 4 (apply client_turn_ok; [vm_compute; reflexivity..|]). constructor.
Qed.

(** ** The server's part *)

Definition server_begin (warn : bool) : sys :=
  let s := server_start wire_env (wire_cfg warn) wire_events in
  match now_usecs (sys_state s) with
  | Ok (st, now) => set_sys_state (set_st_live_start_time_usecs now st) s
  | Fault _ => s
  end.
Definition server_turn (s : sys) : sys := match packet_turn s with Ok (s', _) => s' | Fault _ => s end.
Definition server_turns (warn : bool) (n : nat) : sys := Nat.iter n server_turn (server_begin warn).
Definition server_end (s : sys) : sys := match state_free s with Ok s' => s' | Fault _ => s end.

Definition late_text (kind : string) : string :=
  "test.pkt:3: " +:+ kind +:+ " handling packet: timing error: expected outbound packet at 0.000000 sec "
  +:+ "but happened at 0.020000 sec; tolerance 0.004000 sec" +:+ newline.

Lemma server_run_started warn : server_started wire_env (wire_cfg warn) wire_events (server_begin warn).
Proof. eexists _, _. split; reflexivity. Qed.

Lemma server_turn_ok warn n k status :
  packet_turn (server_turns warn n) = Ok (server_turns warn (S n), Some (k, status)) -> leaves status = None ->
  forall l s, server_path (server_turns warn (S n)) l s -> server_path (server_turns warn n) ((k, status) :: l) s.
Proof. intros. by econstructor. Qed.

Definition warned : list (event_kind * status_t) :=
  [(KIND_COMMAND, STATUS_OK); (KIND_PACKET, STATUS_OK); (KIND_PACKET, STATUS_WARN (late_text "warning"));
   (KIND_COMMAND, STATUS_OK)].

Lemma server_run_alone : server_alone wire_env (wire_cfg true) wire_events warned (server_end (server_turns true 5)).
Proof.
  exists (server_turns true 0), (server_turns true 5). split; [apply server_run_started|].
  split; [|vm_compute; reflexivity]. exists (server_turns true 4). split; [|vm_compute; reflexivity].
  do 4 (apply server_turn_ok; [vm_compute; reflexivity|done|]). constructor.
Qed.

Lemma server_run_fails :
  server_path (server_turns false 0) [(KIND_COMMAND, STATUS_OK); (KIND_PACKET, STATUS_OK)] (server_turns false 2) /\
  packet_turn (server_turns false 2) =
    Ok (server_turns false 3, Some (KIND_PACKET, STATUS_ERR (late_text "error"))).
Proof.
  split; [|vm_compute; reflexivity].
  do 2 (apply server_turn_ok; [vm_compute; reflexivity|done|]). constructor.
Qed.

(** ** The sessions *)

Lemma wire_config_ok warn : config_ok (wire_client_config warn).
Proof.
  assert (forallb (forallb (fun b => negb (b =? 0))) (cc_argv (wire_client_config warn) ++
    [cc_script_path (wire_client_config warn); cc_script_buffer (wire_client_config warn)]) = true) as Hn
    by (destruct warn; vm_compute; reflexivity).
  assert (forall l, forallb (fun b => negb (b =? 0)) l = true -> no_nul l) as Hl.
  { intros l Hl. apply Forall_forall. intros b Hb. rewrite forallb_forall in Hl.
    specialize (Hl b). rewrite <-list_elem_of_In in Hl. by apply Hl, negb_true_iff, Z.eqb_neq in Hb. }
  rewrite forallb_app in Hn. apply andb_true_iff in Hn as [Ha Hn]. cbn [forallb] in Hn.
  apply andb_true_iff in Hn as [Hp Hn]. apply andb_true_iff in Hn as [Hs _].
  split; [|destruct warn; vm_compute; split; congruence| |by apply Hl|vm_compute; congruence
    |by apply Hl|vm_compute; congruence|done].
  - apply Forall_forall. intros arg Harg. rewrite forallb_forall in Ha. apply Hl, Ha. by apply list_elem_of_In.
  - apply (bool_decide_eq_true_1 _). destruct warn; vm_compute; reflexivity.
Qed.

Lemma wire_link calls : Forall soft calls -> link [] [] (wire_conn_new 3 calls).
Proof. by split. Qed.

(** The calls of the client come back short and are interrupted. *)
Definition client_calls : list io := [IoCount 2; IoError EINTR; IoCount 5].

Lemma wire_calls_soft : Forall soft client_calls /\ Forall soft [].
Proof. split; [|done]. unfold client_calls. repeat constructor; done. Qed.

Lemma late_text_ok kind : kind = "warning"%string \/ kind = "error"%string -> text_ok (late_text kind).
Proof.
  intros Hk. split; [|by destruct Hk as [-> | ->]].
  apply Forall_forall. intros b Hb. enough (forallb (fun b => negb (b =? 0)) (string_bytes (late_text kind)) = true) as Hl.
  { rewrite forallb_forall in Hl. by apply Z.eqb_neq, negb_true_iff, Hl, list_elem_of_In. }
  destruct Hk as [-> | ->]; vm_compute; reflexivity.
Qed.

Lemma wire_session_completes_witness :
  let client := run_script (wire_client_config true) wire_script wire_jiffies in
  let server := wire_server_thread wire_env in
  let client0 := join (wire_client_new (wire_conn_new 3 client_calls)) client_run in
  let server0 := wire_server_new (wire_conn_new 3 []) in
  let step := deliver client server client0 server0 in
  (exists bound, forall k n, nsteps step k ([], []) n -> (k <= bound)%nat) /\
  forall n, rtc step ([], []) n -> (forall n', ~ step n n') ->
    exists cl w, client (feed n.1 client0) = Returns (join cl client_end) tt /\
      wcl_printed cl = string_bytes <$> all_warns warned /\
      server (feed n.2 server0) = Returns w STATUS_OK /\ ws_state w = Some (server_end (server_turns true 5)).
Proof.
  apply (wire_session_completes (wire_client_config true) wire_script wire_jiffies wire_env (wire_cfg true) wire_events warned
    (wire_conn_new 3 client_calls) (wire_conn_new 3 []) client_run client_end (server_end (server_turns true 5))).
  - apply wire_config_ok.
  - apply wire_link, wire_calls_soft.
  - apply wire_link, wire_calls_soft.
  - done.
  - vm_compute. reflexivity.
  - exact client_run_alone.
  - exact server_run_alone.
  - done.
  - apply Forall_singleton, late_text_ok. by left.
Defined.

Lemma wire_error_reaches_client_witness :
  let client := run_script (wire_client_config false) wire_script wire_jiffies in
  let server := wire_server_thread wire_env in
  let client0 := join (wire_client_new (wire_conn_new 3 client_calls)) client_run in
  let server0 := wire_server_new (wire_conn_new 3 []) in
  let step := deliver client server client0 server0 in
  packet_turn (server_turns false 2) =
    Ok (server_turns false 3, Some (KIND_PACKET, STATUS_ERR (late_text "error"))) /\
  forall n, rtc step ([], []) n -> (forall n', ~ step n n') ->
    exists r' cl w, client (feed n.1 client0) = Stops (join cl r') (Dies (late_text "error")) /\
      wcl_printed cl = [] /\
      server (feed n.2 server0) = Returns w (STATUS_ERR (late_text "error")) /\
      ws_state w = Some (server_end (server_turns false 3)).
Proof.
  split; [apply server_run_fails|].
  apply (wire_error_reaches_client (wire_client_config false) wire_script wire_jiffies wire_env (wire_cfg false) wire_events
    [(KIND_COMMAND, STATUS_OK); (KIND_PACKET, STATUS_OK)] [KIND_COMMAND] (late_text "error")
    (wire_conn_new 3 client_calls) (wire_conn_new 3 []) client_run client_end
    (server_turns false 0) (server_turns false 2) (server_turns false 3) (server_end (server_turns false 3))).
  - apply wire_config_ok.
  - apply wire_link, wire_calls_soft.
  - apply wire_link, wire_calls_soft.
  - done.
  - vm_compute. reflexivity.
  - exact client_run_alone.
  - apply server_run_started.
  - apply server_run_fails.
  - apply server_run_fails.
  - vm_compute. reflexivity.
  - done.
  - done.
  - apply late_text_ok. by right.
Defined.
