(* ===== verification/Config.v ===== *)
(** * Config: the configuration of a test (config.c, config.h, ip_prefix.c)

    The options of the command line and of the script, the defaults, and the final addresses
    for the three flavours of IP.

    Texts are strings without their terminator; the fixed buffers of the addresses keep the
    part that strncpy(3) leaves in them.  The numbers of /dev/urandom are an argument.
    getopt_long(3) is that of the GNU C library, in its default order. *)

From Stdlib Require Import Ascii.
From S2P Require Import Prelude Headers Packet IpAddress IpPacket RunState PacketToString.

(** ** Numbers in texts *)

(** The characters that strtol(3) skips, and the digits. *)
Definition is_space (c : ascii) : bool :=
  let n := nat_of_ascii c in (n =? 32)%nat || ((9 <=? n)%nat && (n <=? 13)%nat).
Definition is_digit (c : ascii) : bool :=
  let n := nat_of_ascii c in (48 <=? n)%nat && (n <=? 57)%nat.
Definition digit_value (c : ascii) : Z := Z.of_nat (nat_of_ascii c) - 48.

Fixpoint skip_space (s : string) : string :=
  match s with
  | EmptyString => s
  | String c s' => if is_space c then skip_space s' else s
  end.

(** The number that the digits at the start spell after [acc], and the rest. *)
Fixpoint digits (s : string) (acc : Z) : Z * string :=
  match s with
  | EmptyString => (acc, s)
  | String c s' => if is_digit c then digits s' (acc * 10 + digit_value c) else (acc, s)
  end.

(** The sign at the start, and the rest. *)
Definition sign_of (s : string) : bool * string :=
  match s with
  | String "-" s' => (true, s')
  | String "+" s' => (false, s')
  | _ => (false, s)
  end.

(** A sign, a number and the end of the text, or none when there are no digits. *)
Definition scan_number (s : string) : option (bool * Z * string) :=
  let '(negative, t) := sign_of (skip_space s) in
  match t with
  | String c _ => if is_digit c then let '(v, e) := digits t 0 in Some (negative, v, e) else None
  | EmptyString => None
  end.

Definition LONG_MIN : Z := - 2 ^ 63.
Definition LONG_MAX : Z := 2 ^ 63 - 1.
Definition ULONG_MAX : Z := 2 ^ 64 - 1.

(** strtol(3) and strtoul(3) to base 10: the value, the end, and whether errno is set. *)
Definition strtol (s : string) : Z * string * bool :=
  match scan_number s with
  | None => (0, s, false)
  | Some (negative, v, e) =>
      let v := if negative : bool then - v else v in
      if v <? LONG_MIN then (LONG_MIN, e, true)
      else if LONG_MAX <? v then (LONG_MAX, e, true)
      else (v, e, false)
  end.
Definition strtoul (s : string) : Z * string * bool :=
  match scan_number s with
  | None => (0, s, false)
  | Some (negative, v, e) =>
      if ULONG_MAX <? v then (ULONG_MAX, e, true)
      else ((if negative : bool then u64 (- v) else v), e, false)
  end.

(** atoi(3) of the GNU C library. *)
Definition atoi (s : string) : Z := s32 (strtol s).1.1.

(** What is before and after the first [c], if there is one. *)
Fixpoint split_at (c : ascii) (s : string) : option (string * string) :=
  match s with
  | EmptyString => None
  | String d s' =>
      if Ascii.eqb c d then Some (EmptyString, s')
      else '(a, b) ← split_at c s'; Some (String d a, b)
  end.

(** ** Prefixes *)

(** [types.h:129-129] ADDR_STR_LEN *)
Definition ADDR_STR_LEN : Z := 16 + 46 + 5.

(** [ip_prefix.c:69-93] prefix_len_parse *)
Definition prefix_len_parse (prefix_string : string) (max_len : Z) : exec Z :=
  match split_at "/" prefix_string with
  | Some (_, len_str) =>
      let '(v, e, range) := strtol len_str in
      let prefix_len := s32 v in
      if range || negb (String.eqb e "") || (prefix_len <? 0) || (max_len <? prefix_len) then Fault Died
      else Ok prefix_len
  | None => Ok max_len
  end.

(** [ip_prefix.c:96-105] copy_prefix_address *)
Definition copy_prefix_address (prefix_string : string) : string :=
  match split_at "/" prefix_string with
  | Some (address, _) => address
  | None => prefix_string
  end.

(** [ip_prefix.c:107-117] ipv4_prefix_parse *)
Definition ipv4_prefix_parse `{InetPton} (prefix_string : string) : exec ip_prefix :=
  ip ← ipv4_parse (copy_prefix_address prefix_string);
  len ← ip_address_length AF_INET;
  prefix_len ← prefix_len_parse prefix_string (8 * len);
  ip_to_prefix ip prefix_len.

(** [ip_prefix.c:119-129] ipv6_prefix_parse *)
Definition ipv6_prefix_parse `{InetPton} (prefix_string : string) : exec ip_prefix :=
  ip ← ipv6_parse (copy_prefix_address prefix_string);
  len ← ip_address_length AF_INET6;
  prefix_len ← prefix_len_parse prefix_string (8 * len);
  ip_to_prefix ip prefix_len.

(** [ip_prefix.c:131-148] ip_prefix_to_string *)
Definition ip_prefix_to_string `{InetNtop} (prefix : ip_prefix) : exec string :=
  let ip_str := ip_to_string (prefix_ip prefix) in
  if ADDR_STR_LEN <? Z.of_nat (String.length ip_str) + 4 + 1 then Fault Died
  else
    let text := ip_str +:+ "/" +:+ dec (prefix_len prefix) in
    if ADDR_STR_LEN <=? Z.of_nat (String.length text) then Fault Died else Ok text.

(** ** Definitions of symbols *)

(** [config.h:44-48] struct definition; the linked list is a list *)
Record definition := mk_definition { def_symbol : string; def_value : string }.

(** [config.h:51-61] definition_find *)
Fixpoint definition_find (defs : list definition) (symbol : string) : option definition :=
  match defs with
  | [] => None
  | def :: defs' => if String.eqb (def_symbol def) symbol then Some def else definition_find defs' symbol
  end.

(** The value of the first definition of [symbol] replaced. *)
Fixpoint definition_assign (defs : list definition) (symbol value : string) : list definition :=
  match defs with
  | [] => []
  | def :: defs' =>
      if String.eqb (def_symbol def) symbol then mk_definition (def_symbol def) value :: defs'
      else def :: definition_assign defs' symbol value
  end.

(** [config.h:64-79] definition_set *)
Definition definition_set (defs : list definition) (symbol value : string) : list definition :=
  match definition_find defs symbol with
  | Some _ => definition_assign defs symbol value
  | None => mk_definition symbol value :: defs
  end.

(** [config.h:82-87] definition_get *)
Definition definition_get (defs : list definition) (symbol : string) : option string :=
  def_value <$> definition_find defs symbol.

(** ** The configuration *)

(** [types.h:132-146] enum ip_version_t *)
Inductive ip_version_t := IP_VERSION_4 | IP_VERSION_4_MAPPED_6 | IP_VERSION_6.

(** [config.h:89-180] struct config, with the global fuzz_file_name that the options set *)
Record full_config := mk_full_config {
  fc_argv : list string;
  fc_ip_version : ip_version_t;
  fc_socket_domain : Z;
  fc_wire_protocol : Z;
  fc_live_bind_port : Z;
  fc_live_connect_port : Z;
  fc_live_bind_ip : ip_address;
  fc_live_connect_ip : ip_address;
  fc_live_local_ip : ip_address;
  fc_live_remote_ip : ip_address;
  fc_live_remote_prefix : ip_prefix;
  fc_live_gateway_ip : ip_address;
  fc_live_local_ip_string : string;
  fc_live_remote_ip_string : string;
  fc_live_remote_prefix_string : string;
  fc_live_gateway_ip_string : string;
  fc_live_netmask_ip_string : string;
  fc_live_prefix_len : Z;
  fc_tolerance_usecs : Z;
  fc_tcp_ts_ecr_scaled : bool;
  fc_tcp_ts_tick_usecs : Z;
  fc_speed : Z;
  fc_mss : Z;
  fc_mtu : Z;
  fc_strict_segments : bool;
  fc_non_fatal_packet : bool;
  fc_non_fatal_syscall : bool;
  fc_send_omit_free : bool;
  fc_dry_run : bool;
  fc_verbose : bool;
  fc_script_path : option string;
  fc_code_command_line : string;
  fc_code_format : string;
  fc_code_sockopt : string;
  fc_init_scripts : option string;
  fc_is_wire_client : bool;
  fc_is_wire_server : bool;
  fc_wire_client_device : string;
  fc_wire_server_device : string;
  fc_wire_server_ip : ip_address;
  fc_wire_server_ip_string : option string;
  fc_wire_server_port : Z;
  fc_so_filename : option string;
  fc_so_flags : option string;
  fc_is_anyip : bool;
  fc_defines : list definition;
  fc_tun_id : Z;
  fc_is_no_fuzz_syscall : bool;
  fc_is_no_fuzz_packet : bool;
  fc_is_no_fuzz_receive_packets_in_background : bool;
  fc_is_fuzz_once : bool;
  fc_is_fuzz_without_dependency : bool;
  fc_is_abort_when_error_occur : bool;
  fc_fuzz_file_name : string
}.

(** The struct with the field [f] assigned. *)
Ltac set_field f v c :=
  let t := constr:(
    mk_full_config (fc_argv c) (fc_ip_version c) (fc_socket_domain c) (fc_wire_protocol c)
    (fc_live_bind_port c) (fc_live_connect_port c) (fc_live_bind_ip c) (fc_live_connect_ip c)
    (fc_live_local_ip c) (fc_live_remote_ip c) (fc_live_remote_prefix c) (fc_live_gateway_ip c)
    (fc_live_local_ip_string c) (fc_live_remote_ip_string c) (fc_live_remote_prefix_string c)
    (fc_live_gateway_ip_string c) (fc_live_netmask_ip_string c) (fc_live_prefix_len c) (fc_tolerance_usecs c)
    (fc_tcp_ts_ecr_scaled c) (fc_tcp_ts_tick_usecs c) (fc_speed c) (fc_mss c) (fc_mtu c) (fc_strict_segments c)
    (fc_non_fatal_packet c) (fc_non_fatal_syscall c) (fc_send_omit_free c) (fc_dry_run c) (fc_verbose c)
    (fc_script_path c) (fc_code_command_line c) (fc_code_format c) (fc_code_sockopt c) (fc_init_scripts c)
    (fc_is_wire_client c) (fc_is_wire_server c) (fc_wire_client_device c) (fc_wire_server_device c)
    (fc_wire_server_ip c) (fc_wire_server_ip_string c) (fc_wire_server_port c) (fc_so_filename c)
    (fc_so_flags c) (fc_is_anyip c) (fc_defines c) (fc_tun_id c) (fc_is_no_fuzz_syscall c)
    (fc_is_no_fuzz_packet c) (fc_is_no_fuzz_receive_packets_in_background c) (fc_is_fuzz_once c)
    (fc_is_fuzz_without_dependency c) (fc_is_abort_when_error_occur c) (fc_fuzz_file_name c)) in
  let p := eval pattern (f c) in t in
  match p with ?g _ => let x := eval cbv beta in (g v) in exact x end.

Definition set_fc_argv (v : list string) (c : full_config) : full_config := ltac:(set_field fc_argv v c).
Definition set_fc_ip_version (v : ip_version_t) (c : full_config) : full_config := ltac:(set_field fc_ip_version v c).
Definition set_fc_socket_domain (v : Z) (c : full_config) : full_config := ltac:(set_field fc_socket_domain v c).
Definition set_fc_wire_protocol (v : Z) (c : full_config) : full_config := ltac:(set_field fc_wire_protocol v c).
Definition set_fc_live_bind_port (v : Z) (c : full_config) : full_config := ltac:(set_field fc_live_bind_port v c).
Definition set_fc_live_connect_port (v : Z) (c : full_config) : full_config := ltac:(set_field fc_live_connect_port v c).
Definition set_fc_live_bind_ip (v : ip_address) (c : full_config) : full_config := ltac:(set_field fc_live_bind_ip v c).
Definition set_fc_live_connect_ip (v : ip_address) (c : full_config) : full_config := ltac:(set_field fc_live_connect_ip v c).
Definition set_fc_live_local_ip (v : ip_address) (c : full_config) : full_config := ltac:(set_field fc_live_local_ip v c).
Definition set_fc_live_remote_ip (v : ip_address) (c : full_config) : full_config := ltac:(set_field fc_live_remote_ip v c).
Definition set_fc_live_remote_prefix (v : ip_prefix) (c : full_config) : full_config := ltac:(set_field fc_live_remote_prefix v c).
Definition set_fc_live_gateway_ip (v : ip_address) (c : full_config) : full_config := ltac:(set_field fc_live_gateway_ip v c).
Definition set_fc_live_local_ip_string (v : string) (c : full_config) : full_config := ltac:(set_field fc_live_local_ip_string v c).
Definition set_fc_live_remote_ip_string (v : string) (c : full_config) : full_config := ltac:(set_field fc_live_remote_ip_string v c).
Definition set_fc_live_remote_prefix_string (v : string) (c : full_config) : full_config := ltac:(set_field fc_live_remote_prefix_string v c).
Definition set_fc_live_gateway_ip_string (v : string) (c : full_config) : full_config := ltac:(set_field fc_live_gateway_ip_string v c).
Definition set_fc_live_netmask_ip_string (v : string) (c : full_config) : full_config := ltac:(set_field fc_live_netmask_ip_string v c).
Definition set_fc_live_prefix_len (v : Z) (c : full_config) : full_config := ltac:(set_field fc_live_prefix_len v c).
Definition set_fc_tolerance_usecs (v : Z) (c : full_config) : full_config := ltac:(set_field fc_tolerance_usecs v c).
Definition set_fc_tcp_ts_ecr_scaled (v : bool) (c : full_config) : full_config := ltac:(set_field fc_tcp_ts_ecr_scaled v c).
Definition set_fc_tcp_ts_tick_usecs (v : Z) (c : full_config) : full_config := ltac:(set_field fc_tcp_ts_tick_usecs v c).
Definition set_fc_speed (v : Z) (c : full_config) : full_config := ltac:(set_field fc_speed v c).
Definition set_fc_mss (v : Z) (c : full_config) : full_config := ltac:(set_field fc_mss v c).
Definition set_fc_mtu (v : Z) (c : full_config) : full_config := ltac:(set_field fc_mtu v c).
Definition set_fc_strict_segments (v : bool) (c : full_config) : full_config := ltac:(set_field fc_strict_segments v c).
Definition set_fc_non_fatal_packet (v : bool) (c : full_config) : full_config := ltac:(set_field fc_non_fatal_packet v c).
Definition set_fc_non_fatal_syscall (v : bool) (c : full_config) : full_config := ltac:(set_field fc_non_fatal_syscall v c).
Definition set_fc_send_omit_free (v : bool) (c : full_config) : full_config := ltac:(set_field fc_send_omit_free v c).
Definition set_fc_dry_run (v : bool) (c : full_config) : full_config := ltac:(set_field fc_dry_run v c).
Definition set_fc_verbose (v : bool) (c : full_config) : full_config := ltac:(set_field fc_verbose v c).
Definition set_fc_script_path (v : option string) (c : full_config) : full_config := ltac:(set_field fc_script_path v c).
Definition set_fc_code_command_line (v : string) (c : full_config) : full_config := ltac:(set_field fc_code_command_line v c).
Definition set_fc_code_format (v : string) (c : full_config) : full_config := ltac:(set_field fc_code_format v c).
Definition set_fc_code_sockopt (v : string) (c : full_config) : full_config := ltac:(set_field fc_code_sockopt v c).
Definition set_fc_init_scripts (v : option string) (c : full_config) : full_config := ltac:(set_field fc_init_scripts v c).
Definition set_fc_is_wire_client (v : bool) (c : full_config) : full_config := ltac:(set_field fc_is_wire_client v c).
Definition set_fc_is_wire_server (v : bool) (c : full_config) : full_config := ltac:(set_field fc_is_wire_server v c).
Definition set_fc_wire_client_device (v : string) (c : full_config) : full_config := ltac:(set_field fc_wire_client_device v c).
Definition set_fc_wire_server_device (v : string) (c : full_config) : full_config := ltac:(set_field fc_wire_server_device v c).
Definition set_fc_wire_server_ip (v : ip_address) (c : full_config) : full_config := ltac:(set_field fc_wire_server_ip v c).
Definition set_fc_wire_server_ip_string (v : option string) (c : full_config) : full_config := ltac:(set_field fc_wire_server_ip_string v c).
Definition set_fc_wire_server_port (v : Z) (c : full_config) : full_config := ltac:(set_field fc_wire_server_port v c).
Definition set_fc_so_filename (v : option string) (c : full_config) : full_config := ltac:(set_field fc_so_filename v c).
Definition set_fc_so_flags (v : option string) (c : full_config) : full_config := ltac:(set_field fc_so_flags v c).
Definition set_fc_is_anyip (v : bool) (c : full_config) : full_config := ltac:(set_field fc_is_anyip v c).
Definition set_fc_defines (v : list definition) (c : full_config) : full_config := ltac:(set_field fc_defines v c).
Definition set_fc_tun_id (v : Z) (c : full_config) : full_config := ltac:(set_field fc_tun_id v c).
Definition set_fc_is_no_fuzz_syscall (v : bool) (c : full_config) : full_config := ltac:(set_field fc_is_no_fuzz_syscall v c).
Definition set_fc_is_no_fuzz_packet (v : bool) (c : full_config) : full_config := ltac:(set_field fc_is_no_fuzz_packet v c).
Definition set_fc_is_no_fuzz_receive_packets_in_background (v : bool) (c : full_config) : full_config := ltac:(set_field fc_is_no_fuzz_receive_packets_in_background v c).
Definition set_fc_is_fuzz_once (v : bool) (c : full_config) : full_config := ltac:(set_field fc_is_fuzz_once v c).
Definition set_fc_is_fuzz_without_dependency (v : bool) (c : full_config) : full_config := ltac:(set_field fc_is_fuzz_without_dependency v c).
Definition set_fc_is_abort_when_error_occur (v : bool) (c : full_config) : full_config := ltac:(set_field fc_is_abort_when_error_occur v c).
Definition set_fc_fuzz_file_name (v : string) (c : full_config) : full_config := ltac:(set_field fc_fuzz_file_name v c).

(** Compute with fields and assignments only. *)
Ltac config_cbv :=
  cbv [
    fc_argv set_fc_argv fc_ip_version set_fc_ip_version fc_socket_domain set_fc_socket_domain fc_wire_protocol
    set_fc_wire_protocol fc_live_bind_port set_fc_live_bind_port fc_live_connect_port set_fc_live_connect_port
    fc_live_bind_ip set_fc_live_bind_ip fc_live_connect_ip set_fc_live_connect_ip fc_live_local_ip
    set_fc_live_local_ip fc_live_remote_ip set_fc_live_remote_ip fc_live_remote_prefix
    set_fc_live_remote_prefix fc_live_gateway_ip set_fc_live_gateway_ip fc_live_local_ip_string
    set_fc_live_local_ip_string fc_live_remote_ip_string set_fc_live_remote_ip_string
    fc_live_remote_prefix_string set_fc_live_remote_prefix_string fc_live_gateway_ip_string
    set_fc_live_gateway_ip_string fc_live_netmask_ip_string set_fc_live_netmask_ip_string fc_live_prefix_len
    set_fc_live_prefix_len fc_tolerance_usecs set_fc_tolerance_usecs fc_tcp_ts_ecr_scaled
    set_fc_tcp_ts_ecr_scaled fc_tcp_ts_tick_usecs set_fc_tcp_ts_tick_usecs fc_speed set_fc_speed fc_mss
    set_fc_mss fc_mtu set_fc_mtu fc_strict_segments set_fc_strict_segments fc_non_fatal_packet
    set_fc_non_fatal_packet fc_non_fatal_syscall set_fc_non_fatal_syscall fc_send_omit_free
    set_fc_send_omit_free fc_dry_run set_fc_dry_run fc_verbose set_fc_verbose fc_script_path set_fc_script_path
    fc_code_command_line set_fc_code_command_line fc_code_format set_fc_code_format fc_code_sockopt
    set_fc_code_sockopt fc_init_scripts set_fc_init_scripts fc_is_wire_client set_fc_is_wire_client
    fc_is_wire_server set_fc_is_wire_server fc_wire_client_device set_fc_wire_client_device
    fc_wire_server_device set_fc_wire_server_device fc_wire_server_ip set_fc_wire_server_ip
    fc_wire_server_ip_string set_fc_wire_server_ip_string fc_wire_server_port set_fc_wire_server_port
    fc_so_filename set_fc_so_filename fc_so_flags set_fc_so_flags fc_is_anyip set_fc_is_anyip fc_defines
    set_fc_defines fc_tun_id set_fc_tun_id fc_is_no_fuzz_syscall set_fc_is_no_fuzz_syscall fc_is_no_fuzz_packet
    set_fc_is_no_fuzz_packet fc_is_no_fuzz_receive_packets_in_background
    set_fc_is_no_fuzz_receive_packets_in_background fc_is_fuzz_once set_fc_is_fuzz_once
    fc_is_fuzz_without_dependency set_fc_is_fuzz_without_dependency fc_is_abort_when_error_occur
    set_fc_is_abort_when_error_occur fc_fuzz_file_name set_fc_fuzz_file_name].

(** [config.h:38-39] TUN_DRIVER_SPEED_CUR and TUN_DRIVER_DEFAULT_MTU *)
Definition TUN_DRIVER_SPEED_CUR : Z := 0.
Definition TUN_DRIVER_DEFAULT_MTU : Z := 1500.

(** A struct ip_prefix of zeroes. *)
Definition no_prefix : ip_prefix := mk_prefix ip_reset 0.

(** [config.c:234-275] set_default_config; the global keeps its value *)
Definition set_default_config (fuzz_file_name : string) : full_config :=
  mk_full_config [] IP_VERSION_4 0 0 8080 8080 ip_reset ip_reset ip_reset ip_reset no_prefix ip_reset
    "" "" "" "" "" 0 4000 false 0 TUN_DRIVER_SPEED_CUR 0 TUN_DRIVER_DEFAULT_MTU false false false false
    false false None "/usr/bin/python" "python" "" None false false "eth0" "eth0" ip_reset None 8081
    None None false [] 0 false false false false false true fuzz_file_name.

(** What the interpreter reads of it. *)
Definition run_config (c : full_config) : config :=
  mk_config (fc_live_bind_port c) (fc_live_connect_port c) (fc_live_local_ip c) (fc_live_remote_ip c)
    (fc_tolerance_usecs c) (fc_tcp_ts_ecr_scaled c) (fc_tcp_ts_tick_usecs c) (fc_mss c) (fc_strict_segments c)
    (fc_non_fatal_packet c) (default ""%string (fc_script_path c)) (fc_is_wire_client c) (fc_is_wire_server c)
    (fc_is_anyip c) (fc_socket_domain c) (fc_wire_protocol c) (fc_live_bind_ip c) (fc_live_connect_ip c).

(** ** Options *)

(** [config.c:37-78] enum option_codes *)
Inductive option_codes :=
  | OPT_IP_VERSION
  | OPT_BIND_PORT
  | OPT_CODE_COMMAND
  | OPT_CODE_FORMAT
  | OPT_CODE_SOCKOPT
  | OPT_CONNECT_PORT
  | OPT_REMOTE_IP
  | OPT_LOCAL_IP
  | OPT_GATEWAY_IP
  | OPT_NETMASK_IP
  | OPT_SPEED
  | OPT_MSS
  | OPT_MTU
  | OPT_INIT_SCRIPTS
  | OPT_TOLERANCE_USECS
  | OPT_WIRE_CLIENT
  | OPT_WIRE_SERVER
  | OPT_WIRE_SERVER_IP
  | OPT_WIRE_SERVER_PORT
  | OPT_WIRE_CLIENT_DEV
  | OPT_WIRE_SERVER_DEV
  | OPT_SO_FILENAME
  | OPT_SO_FLAGS
  | OPT_TCP_TS_ECR_SCALED
  | OPT_TCP_TS_TICK_USECS
  | OPT_STRICT_SEGMENTS
  | OPT_NON_FATAL
  | OPT_DRY_RUN
  | OPT_IS_ANYIP
  | OPT_SEND_OMIT_FREE
  | OPT_DEFINE
  | OPT_VERBOSE
  | OPT_FUZZ_FILE_NAME
  | OPT_TUN_ID
  | OPT_NO_FUZZ_SYSCALL
  | OPT_NO_FUZZ_PACKET
  | OPT_NO_FUZZ_RECEIVE_PACKETS_IN_BACKGROUND
  | OPT_IS_FUZZ_ONCE
  | OPT_IS_FUZZ_WITHOUT_DEPENDENCY
  | OPT_NO_ABORT_WHEN_ERROR_OCCUR.

#[export] Instance option_codes_eq_dec : EqDecision option_codes.
Proof. solve_decision. Defined.

(** [config.c:81-123] options: the name, whether there is an argument, the code *)
Definition options : list (string * bool * option_codes) :=
  [("ip_version", true, OPT_IP_VERSION);
   ("bind_port", true, OPT_BIND_PORT);
   ("code_command", true, OPT_CODE_COMMAND);
   ("code_format", true, OPT_CODE_FORMAT);
   ("code_sockopt", true, OPT_CODE_SOCKOPT);
   ("connect_port", true, OPT_CONNECT_PORT);
   ("remote_ip", true, OPT_REMOTE_IP);
   ("local_ip", true, OPT_LOCAL_IP);
   ("gateway_ip", true, OPT_GATEWAY_IP);
   ("netmask_ip", true, OPT_NETMASK_IP);
   ("speed", true, OPT_SPEED);
   ("mss", true, OPT_MSS);
   ("mtu", true, OPT_MTU);
   ("init_scripts", true, OPT_INIT_SCRIPTS);
   ("tolerance_usecs", true, OPT_TOLERANCE_USECS);
   ("wire_client", false, OPT_WIRE_CLIENT);
   ("wire_server", false, OPT_WIRE_SERVER);
   ("wire_server_ip", true, OPT_WIRE_SERVER_IP);
   ("wire_server_port", true, OPT_WIRE_SERVER_PORT);
   ("wire_client_dev", true, OPT_WIRE_CLIENT_DEV);
   ("wire_server_dev", true, OPT_WIRE_SERVER_DEV);
   ("so_filename", true, OPT_SO_FILENAME);
   ("so_flags", true, OPT_SO_FLAGS);
   ("tcp_ts_ecr_scaled", false, OPT_TCP_TS_ECR_SCALED);
   ("tcp_ts_tick_usecs", true, OPT_TCP_TS_TICK_USECS);
   ("strict_segments", false, OPT_STRICT_SEGMENTS);
   ("non_fatal", true, OPT_NON_FATAL);
   ("dry_run", false, OPT_DRY_RUN);
   ("is_anyip", false, OPT_IS_ANYIP);
   ("send_omit_free", false, OPT_SEND_OMIT_FREE);
   ("define", true, OPT_DEFINE);
   ("verbose", false, OPT_VERBOSE);
   ("fuzz_file_name", true, OPT_FUZZ_FILE_NAME);
   ("tun_id", true, OPT_TUN_ID);
   ("no_fuzz_syscall", false, OPT_NO_FUZZ_SYSCALL);
   ("no_fuzz_packet", false, OPT_NO_FUZZ_PACKET);
   ("no_fuzz_receive_packets_in_background", false, OPT_NO_FUZZ_RECEIVE_PACKETS_IN_BACKGROUND);
   ("fuzz_once", false, OPT_IS_FUZZ_ONCE);
   ("fuzz_without_dependency", false, OPT_IS_FUZZ_WITHOUT_DEPENDENCY);
   ("no_abort", false, OPT_NO_ABORT_WHEN_ERROR_OCCUR)]%string.

(** The tokens of strtok_r(3) with the delimiters comma and space; [token] is the one that
    has been started. *)
Fixpoint tokens (s token : string) : list string :=
  let ended := if String.eqb token "" then [] else [token] in
  match s with
  | EmptyString => ended
  | String c s' =>
      if Ascii.eqb c "," || Ascii.eqb c " " then ended ++ tokens s' ""
      else tokens s' (token +:+ String c "")
  end.

(** [config.c:376-394] parse_non_fatal_arg *)
Definition parse_non_fatal_arg (arg : option string) (c : full_config) : full_config :=
  match arg with
  | None => c
  | Some arg =>
      foldl (fun c token =>
        if String.eqb token "packet" then set_fc_non_fatal_packet true c
        else if String.eqb token "syscall" then set_fc_non_fatal_syscall true c
        else c) c (tokens arg "")
  end.

(** [config.c:421-424] process_option: a port *)
Definition port_arg (s : string) : exec Z :=
  let port := atoi s in
  if (port <=? 0) || (0xffff <? port) then Fault Died else Ok port.

(** strncpy(3) into one of the buffers of addresses. *)
Definition address_arg (s : string) : string := String.substring 0 (Z.to_nat (ADDR_STR_LEN - 1)) s.

(** [config.c:399-569] process_option; optarg may be NULL *)
Definition process_option `{InetPton} (opt : option option_codes) (optarg : option string) (c : full_config)
    : exec full_config :=
  match opt with
  | None => Fault Died
  | Some OPT_IP_VERSION =>
      s ← deref optarg;
      if String.eqb s "ipv4" then Ok (set_fc_ip_version IP_VERSION_4 c)
      else if String.eqb s "ipv4-mapped-ipv6" then Ok (set_fc_ip_version IP_VERSION_4_MAPPED_6 c)
      else if String.eqb s "ipv6" then Ok (set_fc_ip_version IP_VERSION_6 c)
      else Fault Died
  | Some OPT_BIND_PORT => s ← deref optarg; port ← port_arg s; Ok (set_fc_live_bind_port port c)
  | Some OPT_CODE_COMMAND => s ← deref optarg; Ok (set_fc_code_command_line s c)
  | Some OPT_CODE_FORMAT => s ← deref optarg; Ok (set_fc_code_format s c)
  | Some OPT_CODE_SOCKOPT => s ← deref optarg; Ok (set_fc_code_sockopt s c)
  | Some OPT_CONNECT_PORT => s ← deref optarg; port ← port_arg s; Ok (set_fc_live_connect_port port c)
  | Some OPT_REMOTE_IP => s ← deref optarg; Ok (set_fc_live_remote_ip_string (address_arg s) c)
  | Some OPT_LOCAL_IP => s ← deref optarg; Ok (set_fc_live_local_ip_string (address_arg s) c)
  | Some OPT_GATEWAY_IP => s ← deref optarg; Ok (set_fc_live_gateway_ip_string (address_arg s) c)
  | Some OPT_MSS =>
      s ← deref optarg;
      if atoi s <=? 0 then Fault Died else Ok (set_fc_mss (atoi s) c)
  | Some OPT_MTU =>
      s ← deref optarg;
      if atoi s <? 0 then Fault Died else Ok (set_fc_mtu (atoi s) c)
  | Some OPT_NETMASK_IP => s ← deref optarg; Ok (set_fc_live_netmask_ip_string (address_arg s) c)
  | Some OPT_INIT_SCRIPTS => Ok (set_fc_init_scripts optarg c)
  | Some OPT_NON_FATAL => Ok (parse_non_fatal_arg optarg c)
  | Some OPT_SPEED =>
      s ← deref optarg;
      let '(speed, e, _) := strtoul s in
      if negb (bool_decide (is_Some (scan_number s))) || negb (String.eqb e "")
         || negb (is_valid_u32 (s64 speed))
      then Fault Died else Ok (set_fc_speed (u32 speed) c)
  | Some OPT_TOLERANCE_USECS =>
      s ← deref optarg;
      if atoi s <=? 0 then Fault Died else Ok (set_fc_tolerance_usecs (atoi s) c)
  | Some OPT_TCP_TS_ECR_SCALED => Ok (set_fc_tcp_ts_ecr_scaled true c)
  | Some OPT_TCP_TS_TICK_USECS =>
      s ← deref optarg;
      if (atoi s <? 0) || (1000000 <? atoi s) then Fault Died
      else Ok (set_fc_tcp_ts_tick_usecs (atoi s) c)
  | Some OPT_STRICT_SEGMENTS => Ok (set_fc_strict_segments true c)
  | Some OPT_WIRE_CLIENT => Ok (set_fc_is_wire_client true c)
  | Some OPT_WIRE_SERVER => Ok (set_fc_is_wire_server true c)
  | Some OPT_WIRE_SERVER_IP =>
      s ← deref optarg;
      ip ← ipv4_parse s;
      Ok (set_fc_wire_server_ip ip (set_fc_wire_server_ip_string (Some s) c))
  | Some OPT_WIRE_SERVER_PORT => s ← deref optarg; port ← port_arg s; Ok (set_fc_wire_server_port port c)
  | Some OPT_WIRE_CLIENT_DEV => s ← deref optarg; Ok (set_fc_wire_client_device s c)
  | Some OPT_WIRE_SERVER_DEV => s ← deref optarg; Ok (set_fc_wire_server_device s c)
  | Some OPT_SO_FILENAME => s ← deref optarg; Ok (set_fc_so_filename (Some s) c)
  | Some OPT_SO_FLAGS => s ← deref optarg; Ok (set_fc_so_flags (Some s) c)
  | Some OPT_DRY_RUN => Ok (set_fc_dry_run true c)
  | Some OPT_IS_ANYIP => Ok (set_fc_is_anyip true c)
  | Some OPT_SEND_OMIT_FREE => Ok (set_fc_send_omit_free true c)
  | Some OPT_DEFINE =>
      s ← deref optarg;
      match split_at "=" s with
      | None | Some (EmptyString, _) => Fault Died
      | Some (symbol, value) => Ok (set_fc_defines (definition_set (fc_defines c) symbol value) c)
      end
  | Some OPT_VERBOSE => Ok (set_fc_verbose true c)
  | Some OPT_FUZZ_FILE_NAME => s ← deref optarg; Ok (set_fc_fuzz_file_name s c)
  | Some OPT_TUN_ID => s ← deref optarg; Ok (set_fc_tun_id (atoi s) c)
  | Some OPT_NO_FUZZ_SYSCALL => Ok (set_fc_is_no_fuzz_syscall true c)
  | Some OPT_NO_FUZZ_PACKET => Ok (set_fc_is_no_fuzz_packet true c)
  | Some OPT_NO_FUZZ_RECEIVE_PACKETS_IN_BACKGROUND => Ok (set_fc_is_no_fuzz_receive_packets_in_background true c)
  | Some OPT_IS_FUZZ_ONCE => Ok (set_fc_is_fuzz_once true c)
  | Some OPT_IS_FUZZ_WITHOUT_DEPENDENCY => Ok (set_fc_is_fuzz_without_dependency true c)
  | Some OPT_NO_ABORT_WHEN_ERROR_OCCUR => Ok (set_fc_is_abort_when_error_occur false c)
  end.

(** Options in their order. *)
Fixpoint process_options `{InetPton} (l : list (option option_codes * option string)) (c : full_config)
    : exec full_config :=
  match l with
  | [] => Ok c
  | (opt, optarg) :: l' => c ← process_option opt optarg c; process_options l' c
  end.

(** ** The command line *)

(** The option a name or an abbreviation of it stands for, if it is one. *)
Definition find_long (name : string) : option (bool * option_codes) :=
  match filter (fun o => String.eqb o.1.1 name = true) options with
  | (_, has_arg, code) :: _ => Some (has_arg, code)
  | [] =>
      match filter (fun o => String.prefix name o.1.1 = true) options with
      | [(_, has_arg, code)] => Some (has_arg, code)
      | _ => None
      end
  end.

(** What getopt_long(3) returns for an option that it does not know or that misuses an
    argument. *)
Definition unknown_option : option option_codes * option string := (None, None).

(** The letters behind a single dash ("vD:"), and whether the last one takes the next
    argument. *)
Fixpoint short_options (s : string) : list (option option_codes * option string) * bool :=
  match s with
  | EmptyString => ([], false)
  | String c s' =>
      if Ascii.eqb c "v" then let '(l, wants) := short_options s' in ((Some OPT_VERBOSE, None) :: l, wants)
      else if Ascii.eqb c "D" then
        if String.eqb s' "" then ([], true) else ([(Some OPT_DEFINE, Some s')], false)
      else ([unknown_option], false)
  end.

(** The options found, in order; the arguments that are options or belong to them; the others. *)
Record scanned := mk_scanned {
  sc_found : list (option option_codes * option string);
  sc_options : list string;
  sc_rest : list string
}.

Definition found_more (l : list (option option_codes * option string)) (args : list string) (s : scanned) : scanned :=
  mk_scanned (l ++ sc_found s) (args ++ sc_options s) (sc_rest s).

(** The text of an argument after two dashes: the name, and the value after an equals sign. *)
Definition long_name (arg : string) : string * option string :=
  let text := String.substring 2 (String.length arg - 2) arg in
  match split_at "=" text with
  | Some (name, value) => (name, Some value)
  | None => (text, None)
  end.

(** What an argument is to getopt_long(3). *)
Inductive arg_kind :=
  | ARG_END
  | ARG_OTHER
  | ARG_FOUND (l : list (option option_codes * option string))
  | ARG_WANTS (l : list (option option_codes * option string)) (code : option_codes).

Definition classify (arg : string) : arg_kind :=
  if String.eqb arg "--" then ARG_END
  else if negb (String.prefix "-" arg) || String.eqb arg "-" then ARG_OTHER
  else if String.prefix "--" arg then
    let '(name, value) := long_name arg in
    match find_long name, value with
    | Some (true, code), Some v => ARG_FOUND [(Some code, Some v)]
    | Some (true, code), None => ARG_WANTS [] code
    | Some (false, code), None => ARG_FOUND [(Some code, None)]
    | _, _ => ARG_FOUND [unknown_option]
    end
  else
    let '(l, wants) := short_options (String.substring 1 (String.length arg - 1) arg) in
    if wants : bool then ARG_WANTS l OPT_DEFINE else ARG_FOUND l.

(** getopt_long(3), called until it has no more options: the arguments that are none are moved
    behind the others. *)
Fixpoint getopt_long (args : list string) : scanned :=
  match args with
  | [] => mk_scanned [] [] []
  | arg :: args' =>
      match classify arg with
      | ARG_END => mk_scanned [] [arg] args'
      | ARG_OTHER => let s := getopt_long args' in mk_scanned (sc_found s) (sc_options s) (arg :: sc_rest s)
      | ARG_FOUND l => found_more l [arg] (getopt_long args')
      | ARG_WANTS l code =>
          match args' with
          | [] => mk_scanned (l ++ [unknown_option]) [arg] []
          | value :: args'' => found_more (l ++ [(Some code, Some value)]) [arg; value] (getopt_long args'')
          end
      end
  end.

(** [config.c:575-599] parse_command_line_options: the configuration, argv as it is left, and
    the arguments beyond the options *)
Definition parse_command_line_options `{InetPton} (argv : list string) (c : full_config)
    : exec (full_config * list string * list string) :=
  let c := set_fc_argv argv c in
  let s := getopt_long (tail argv) in
  c ← process_options (sc_found s) c;
  Ok (c, take 1 argv ++ sc_options s ++ sc_rest s, sc_rest s).

(** ** Options of a script *)

(** [config.c:608-613] parse_script_options: the first option of this name *)
Fixpoint find_option (name : string) (l : list (string * bool * option_codes)) : option (bool * option_codes) :=
  match l with
  | [] => None
  | (n, has_arg, code) :: l' => if String.eqb n name then Some (has_arg, code) else find_option name l'
  end.

(** [config.c:601-631] parse_script_options *)
Fixpoint parse_script_options `{InetPton} (option_list : list (string * option string)) (c : full_config)
    : exec full_config :=
  match option_list with
  | [] => Ok c
  | (name, value) :: option_list' =>
      match find_option name options with
      | None => Fault Died
      | Some (has_arg, code) =>
          if bool_decide (is_Some value) && negb has_arg then Fault Died
          else if negb (bool_decide (is_Some value)) && has_arg then Fault Died
          else
            c ← process_option (Some code) value c;
            parse_script_options option_list' c
      end
  end.

(** ** The final values *)

Section Finalize.
Context `{InetPton, InetNtop}.

(** [config.c:177-183] the addresses for IPv4 *)
Definition DEFAULT_V4_LIVE_REMOTE_IP_STRING : string := "192.0.2.1/24".
Definition DEFAULT_V4_LIVE_LOCAL_IP_STRING : string := "192.168.0.0".
Definition DEFAULT_V4_LIVE_GATEWAY_IP_STRING : string := "192.168.0.1".
Definition DEFAULT_V4_LIVE_NETMASK_IP_STRING : string := "255.255.0.0".

(** [config.c:195-198] the addresses for IPv6 *)
Definition DEFAULT_V6_LIVE_REMOTE_IP_STRING : string := "2001:DB8::1/32".
Definition DEFAULT_V6_LIVE_LOCAL_IP_STRING : string := "fd3d:fa7b:d17d::0".
Definition DEFAULT_V6_LIVE_GATEWAY_IP_STRING : string := "fd3d:fa7b:d17d:8888::0".
Definition DEFAULT_V6_LIVE_PREFIX_LEN : Z := 48.

(** [strlen(s) == 0]. *)
Definition is_empty (s : string) : bool := String.eqb s "".

(** [config.c:201-216] set_ipv4_defaults; [random] is what /dev/urandom gives *)
Definition set_ipv4_defaults (random : option Z) (c : full_config) : exec full_config :=
  let c := if is_empty (fc_live_remote_ip_string c)
           then set_fc_live_remote_ip_string DEFAULT_V4_LIVE_REMOTE_IP_STRING c else c in
  let c := if is_empty (fc_live_netmask_ip_string c)
           then set_fc_live_netmask_ip_string DEFAULT_V4_LIVE_NETMASK_IP_STRING c else c in
  c ← (if is_empty (fc_live_local_ip_string c) then
         ip ← generate_random_ipv4_addr DEFAULT_V4_LIVE_LOCAL_IP_STRING (fc_live_netmask_ip_string c) random;
         Ok (set_fc_live_local_ip_string (ip_to_string ip) c)
       else Ok c);
  Ok (if is_empty (fc_live_gateway_ip_string c)
      then set_fc_live_gateway_ip_string DEFAULT_V4_LIVE_GATEWAY_IP_STRING c else c).

(** [config.c:219-231] set_ipv6_defaults *)
Definition set_ipv6_defaults (random : option Z) (c : full_config) : exec full_config :=
  let c := if is_empty (fc_live_remote_ip_string c)
           then set_fc_live_remote_ip_string DEFAULT_V6_LIVE_REMOTE_IP_STRING c else c in
  c ← (if is_empty (fc_live_local_ip_string c) then
         ip ← generate_random_ipv6_addr DEFAULT_V6_LIVE_LOCAL_IP_STRING DEFAULT_V6_LIVE_PREFIX_LEN (default 0 random);
         Ok (set_fc_live_local_ip_string (ip_to_string ip) c)
       else Ok c);
  Ok (if is_empty (fc_live_gateway_ip_string c)
      then set_fc_live_gateway_ip_string DEFAULT_V6_LIVE_GATEWAY_IP_STRING c else c).

(** [config.c:277-286] set_remote_ip_and_prefix *)
Definition set_remote_ip_and_prefix (c : full_config) : exec full_config :=
  let c := set_fc_live_remote_ip (prefix_ip (fc_live_remote_prefix c)) c in
  let c := set_fc_live_remote_ip_string (ip_to_string (fc_live_remote_ip c)) c in
  prefix ← ip_prefix_normalize (fc_live_remote_prefix c);
  let c := set_fc_live_remote_prefix prefix c in
  text ← ip_prefix_to_string prefix;
  Ok (set_fc_live_remote_prefix_string text c).

(** [config.c:301-312] what finalize_ipv4_config and finalize_ipv4_mapped_ipv6_config share *)
Definition finalize_ipv4_addresses (random : option Z) (c : full_config) : exec full_config :=
  c ← set_ipv4_defaults random c;
  local_ip ← ipv4_parse (fc_live_local_ip_string c);
  let c := set_fc_live_local_ip local_ip c in
  prefix ← ipv4_prefix_parse (fc_live_remote_ip_string c);
  let c := set_fc_live_remote_prefix prefix c in
  c ← set_remote_ip_and_prefix c;
  prefix_len ← netmask_to_prefix (fc_live_netmask_ip_string c);
  let c := set_fc_live_prefix_len prefix_len c in
  gateway_ip ← ipv4_parse (fc_live_gateway_ip_string c);
  Ok (set_fc_live_gateway_ip gateway_ip c).

(** [config.c:299-316] finalize_ipv4_config *)
Definition finalize_ipv4_config (random : option Z) (c : full_config) : exec full_config :=
  c ← finalize_ipv4_addresses random c;
  let c := set_fc_live_bind_ip (fc_live_local_ip c) c in
  let c := set_fc_live_connect_ip (fc_live_remote_ip c) c in
  let c := set_fc_socket_domain AF_INET c in
  Ok (set_fc_wire_protocol AF_INET c).

(** [config.c:319-336] finalize_ipv4_mapped_ipv6_config *)
Definition finalize_ipv4_mapped_ipv6_config (random : option Z) (c : full_config) : exec full_config :=
  c ← finalize_ipv4_addresses random c;
  let c := set_fc_live_bind_ip (ipv6_map_from_ipv4 (fc_live_local_ip c)) c in
  let c := set_fc_live_connect_ip (ipv6_map_from_ipv4 (fc_live_remote_ip c)) c in
  let c := set_fc_socket_domain AF_INET6 c in
  Ok (set_fc_wire_protocol AF_INET c).

(** [config.c:339-355] finalize_ipv6_config *)
Definition finalize_ipv6_config (random : option Z) (c : full_config) : exec full_config :=
  c ← set_ipv6_defaults random c;
  local_ip ← ipv6_parse (fc_live_local_ip_string c);
  let c := set_fc_live_local_ip local_ip c in
  prefix ← ipv6_prefix_parse (fc_live_remote_ip_string c);
  let c := set_fc_live_remote_prefix prefix c in
  c ← set_remote_ip_and_prefix c;
  let c := set_fc_live_prefix_len DEFAULT_V6_LIVE_PREFIX_LEN c in
  gateway_ip ← ipv6_parse (fc_live_gateway_ip_string c);
  let c := set_fc_live_gateway_ip gateway_ip c in
  let c := set_fc_live_bind_ip (fc_live_local_ip c) c in
  let c := set_fc_live_connect_ip (fc_live_remote_ip c) c in
  let c := set_fc_socket_domain AF_INET6 c in
  Ok (set_fc_wire_protocol AF_INET6 c).

(** [config.c:357-373] finalize_config *)
Definition finalize_config (random : option Z) (c : full_config) : exec full_config :=
  match fc_ip_version c with
  | IP_VERSION_4 => finalize_ipv4_config random c
  | IP_VERSION_4_MAPPED_6 => finalize_ipv4_mapped_ipv6_config random c
  | IP_VERSION_6 => finalize_ipv6_config random c
  end.

(** [config.c:640-654] parse_and_finalize_config *)
Definition parse_and_finalize_config (argv : list string) (option_list : list (string * option string))
    (random : option Z) (c : full_config) : exec (full_config * list string) :=
  c ← parse_script_options option_list c;
  '(c, argv, _) ← parse_command_line_options argv c;
  c ← finalize_config random c;
  Ok (c, argv).

(** [fuzz_test.c:547-553] main: the addresses for the first stack; the ones before *)
Definition first_stack_config (c : full_config) : exec (full_config * string * string) :=
  let real_local_ip := fc_live_local_ip_string c in
  let real_remote_ip := fc_live_remote_ip_string c in
  let c := set_fc_live_local_ip_string "192.168.0.2" c in
  let c := set_fc_live_remote_ip_string "192.0.2.1" c in
  c ← finalize_config None c;
  Ok (c, real_local_ip, real_remote_ip).

(** [fuzz_test.c:576-580] main: the addresses for the second stack *)
Definition second_stack_config (real_local_ip real_remote_ip : string) (c : full_config) : exec full_config :=
  let c := set_fc_live_local_ip_string real_local_ip c in
  let c := set_fc_live_remote_ip_string real_remote_ip c in
  let c := set_fc_is_no_fuzz_receive_packets_in_background false c in
  finalize_config None c.

End Finalize.

(** ** What the options may be *)

Definition port_ok (p : Z) : Prop := 0 < p <= 0xffff.

(** The values that options may give. *)
Record options_ok (c : full_config) : Prop := {
  oo_bind : port_ok (fc_live_bind_port c);
  oo_connect : port_ok (fc_live_connect_port c);
  oo_server : port_ok (fc_wire_server_port c);
  oo_tolerance : 0 < fc_tolerance_usecs c < 2 ^ 31;
  oo_tick : 0 <= fc_tcp_ts_tick_usecs c <= 1000000;
  oo_speed : 0 <= fc_speed c < 2 ^ 32;
  oo_mss : 0 <= fc_mss c < 2 ^ 31;
  oo_mtu : 0 <= fc_mtu c < 2 ^ 31
}.

Lemma default_options_ok f : options_ok (set_default_config f).
Proof. split; vm_compute; split; congruence. Qed.

Lemma atoi_range s : - 2 ^ 31 <= atoi s < 2 ^ 31.
Proof. unfold atoi, s32. zlia. Qed.

Lemma port_arg_ok s p : port_arg s = Ok p -> port_ok p.
Proof. unfold port_arg, port_ok. destruct (_ || _) eqn:E; [done|]. intros [= <-]. breflect. lia. Qed.

(** Setters of other fields keep it. *)
Ltac keeps_options :=
  match goal with
  | H : options_ok _ |- options_ok _ => destruct H; split; assumption
  end.

Lemma non_fatal_options_ok arg c : options_ok c -> options_ok (parse_non_fatal_arg arg c).
Proof.
  destruct arg as [arg|]; [|done]. cbn. generalize (tokens arg "") as l. intros l. revert c.
  induction l as [|t l IH]; intros c Hc; [done|]. cbn. apply IH.
  destruct (String.eqb t "packet"); [keeps_options|]. destruct (String.eqb t "syscall"); [keeps_options|done].
Qed.

Lemma process_option_ok `{InetPton} opt optarg c c' :
  process_option opt optarg c = Ok c' -> options_ok c -> options_ok c'.
Proof.
  intros E Hc. destruct opt as [opt|]; [|done].
  destruct opt; cbn [process_option] in E; inv_exec;
    repeat match goal with
      | H : match ?x with _ => _ end = Ok _ |- _ => destruct x eqn:?; try discriminate H
      | H : Ok _ = Ok _ |- _ => injection H as <-
      | H : port_arg _ = Ok _ |- _ => apply port_arg_ok in H
      end;
    first [keeps_options | by apply non_fatal_options_ok | idtac].
  all: destruct Hc; split; cbn; try assumption; breflect;
    match goal with s : string |- _ => pose proof (atoi_range s) | _ => idtac end; try lia.
  apply u32_range.
Qed.

Lemma process_options_ok `{InetPton} l : forall c c', process_options l c = Ok c' -> options_ok c -> options_ok c'.
Proof.
  induction l as [|[opt arg] l IH]; intros c c' E Hc; cbn [process_options] in E; inv_exec; [done|].
  eapply IH; [done|]. by eapply process_option_ok.
Qed.

Lemma parse_script_options_ok `{InetPton} l : forall c c',
  parse_script_options l c = Ok c' -> options_ok c -> options_ok c'.
Proof.
  induction l as [|[name value] l IH]; intros c c' E Hc; cbn [parse_script_options] in E; [by inv_exec|].
  destruct (find_option name options) as [[has_arg code]|]; [|done]. destruct (_ && _); [done|].
  destruct (_ && _); [done|]. inv_exec. eapply IH; [done|]. by eapply process_option_ok.
Qed.

(** ** The final addresses *)

(** The families of the table in config.c, above the functions that finalize. *)
Definition domain_of (v : ip_version_t) : Z := match v with IP_VERSION_4 => AF_INET | _ => AF_INET6 end.
Definition wire_of (v : ip_version_t) : Z := match v with IP_VERSION_6 => AF_INET6 | _ => AF_INET end.

(** The address that the program under test binds or connects to, for one on the wire. *)
Definition socket_ip (v : ip_version_t) (ip : ip_address) : ip_address :=
  match v with IP_VERSION_4_MAPPED_6 => ipv6_map_from_ipv4 ip | _ => ip end.

Record addresses_ok (c : full_config) : Prop := {
  ao_domain : fc_socket_domain c = domain_of (fc_ip_version c);
  ao_wire : fc_wire_protocol c = wire_of (fc_ip_version c);
  ao_local : ip_ok (fc_live_local_ip c) /\ ip_family (fc_live_local_ip c) = fc_wire_protocol c;
  ao_remote : ip_ok (fc_live_remote_ip c) /\ ip_family (fc_live_remote_ip c) = fc_wire_protocol c;
  ao_gateway : ip_ok (fc_live_gateway_ip c) /\ ip_family (fc_live_gateway_ip c) = fc_wire_protocol c;
  ao_bind : fc_live_bind_ip c = socket_ip (fc_ip_version c) (fc_live_local_ip c) /\
            ip_family (fc_live_bind_ip c) = fc_socket_domain c;
  ao_connect : fc_live_connect_ip c = socket_ip (fc_ip_version c) (fc_live_remote_ip c) /\
               ip_family (fc_live_connect_ip c) = fc_socket_domain c;
  ao_prefix : exists bits, ip_address_length (fc_wire_protocol c) = Ok (bits / 8) /\
    0 <= prefix_len (fc_live_remote_prefix c) <= bits /\
    forall i, 0 <= i < bits ->
      address_bit (ip_octets (prefix_ip (fc_live_remote_prefix c))) i =
        (i <? prefix_len (fc_live_remote_prefix c)) && address_bit (ip_octets (fc_live_remote_ip c)) i
}.

Section Addresses.
Context `{InetPton, InetNtop}.

Lemma ipv4_parse_ok s ip : ipv4_parse s = Ok ip -> ip_ok ip /\ ip_family ip = AF_INET.
Proof.
  unfold ipv4_parse. destruct (inet_pton AF_INET s) as [a|] eqn:E; [|done]. intros [= <-].
  apply inet_pton_4 in E as [Hb Hl]. split; [|done]. cbn. unfold zlen in Hl.
  assert (length a = 4%nat) as Ha by lia. split_and!.
  - cbn. apply Forall_app_2; [done|]. repeat constructor; unfold is_byte; lia.
  - cbn. rewrite length_app, Ha. done.
  - right. split; [done|]. cbn. rewrite <-Ha. by rewrite drop_app_length.
Qed.

Lemma ipv6_parse_ok s ip : ipv6_parse s = Ok ip -> ip_ok ip /\ ip_family ip = AF_INET6.
Proof.
  unfold ipv6_parse. destruct (inet_pton AF_INET6 s) as [a|] eqn:E; [|done]. intros [= <-].
  apply inet_pton_6 in E as [Hb Hl]. unfold zlen in Hl. split; [|done]. split; [done|].
  split; [cbn; lia|by left].
Qed.

(** A prefix that was parsed, normalized. *)
Lemma prefix_final p bits ip len q :
  ip_ok ip -> ip_address_length (ip_family ip) = Ok (bits / 8) -> 8 * (bits / 8) = bits ->
  ip_to_prefix ip len = Ok p -> ip_prefix_normalize p = Ok q ->
  prefix_ip p = ip /\ 0 <= prefix_len q <= bits /\
  forall i, 0 <= i < bits ->
    address_bit (ip_octets (prefix_ip q)) i = (i <? prefix_len q) && address_bit (ip_octets ip) i.
Proof.
  intros Hip Hl Hb Ep Eq. destruct (ip_prefix_normalize_spec ip len p Hip Ep) as (q'&n&Eq'&Hn&Hlen&_&Hbits).
  rewrite Eq in Eq'. injection Eq' as <-. rewrite Hl in Hn. injection Hn as <-. rewrite Hb in Hbits.
  unfold ip_to_prefix in Ep. rewrite Hl, bind_Ok_eq in Ep. cbv zeta in Ep. rewrite Hb in Ep. destruct (_ || _) eqn:Eo; [done|].
  injection Ep as <-. breflect. rewrite Hlen. split; [done|]. split; [lia|]. exact Hbits.
Qed.

Lemma set_remote_spec c c' :
  set_remote_ip_and_prefix c = Ok c' -> exists q, ip_prefix_normalize (fc_live_remote_prefix c) = Ok q /\
    fc_live_remote_prefix c' = q /\ fc_live_remote_ip c' = prefix_ip (fc_live_remote_prefix c) /\
    fc_live_local_ip c' = fc_live_local_ip c /\ fc_ip_version c' = fc_ip_version c /\
    fc_live_gateway_ip_string c' = fc_live_gateway_ip_string c /\
    fc_live_remote_ip_string c' = ip_to_string (prefix_ip (fc_live_remote_prefix c)) /\
    (options_ok c -> options_ok c').
Proof.
  unfold set_remote_ip_and_prefix. intros E. inv_exec. eexists. split; [done|]. do 6 (split; [done|]).
  intros Hc. keeps_options.
Qed.

(** The defaults change texts only. *)
Lemma set_ipv4_defaults_keeps random c c' : set_ipv4_defaults random c = Ok c' ->
  fc_ip_version c' = fc_ip_version c /\ (options_ok c -> options_ok c').
Proof.
  unfold set_ipv4_defaults. intros E. inv_exec.
  repeat (match goal with
    | H : (if ?b then _ else _) = Ok _ |- _ => destruct b
    | |- context [if ?b then _ else _] => destruct b
    end; inv_exec); (split; [reflexivity|intros ?; keeps_options || done]).
Qed.

Lemma set_ipv6_defaults_keeps random c c' : set_ipv6_defaults random c = Ok c' ->
  fc_ip_version c' = fc_ip_version c /\ (options_ok c -> options_ok c').
Proof.
  unfold set_ipv6_defaults. intros E. inv_exec.
  repeat (match goal with
    | H : (if ?b then _ else _) = Ok _ |- _ => destruct b
    | |- context [if ?b then _ else _] => destruct b
    end; inv_exec); (split; [reflexivity|intros ?; keeps_options || done]).
Qed.

Lemma finalize_ipv4_addresses_spec random c c' :
  finalize_ipv4_addresses random c = Ok c' ->
  fc_ip_version c' = fc_ip_version c /\ (options_ok c -> options_ok c') /\
  (ip_ok (fc_live_local_ip c') /\ ip_family (fc_live_local_ip c') = AF_INET) /\
  (ip_ok (fc_live_remote_ip c') /\ ip_family (fc_live_remote_ip c') = AF_INET) /\
  (ip_ok (fc_live_gateway_ip c') /\ ip_family (fc_live_gateway_ip c') = AF_INET) /\
  0 <= prefix_len (fc_live_remote_prefix c') <= 32 /\
  forall i, 0 <= i < 32 ->
    address_bit (ip_octets (prefix_ip (fc_live_remote_prefix c'))) i =
      (i <? prefix_len (fc_live_remote_prefix c')) && address_bit (ip_octets (fc_live_remote_ip c')) i.
Proof.
  unfold finalize_ipv4_addresses. intros E. apply exec_bind_Ok in E as (c1&E1&E).
  apply set_ipv4_defaults_keeps in E1 as [V1 O1]. apply exec_bind_Ok in E as (local&E2&E).
  apply ipv4_parse_ok in E2. apply exec_bind_Ok in E as (p&E3&E). cbv zeta in E.
  apply exec_bind_Ok in E as (c2&E4&E). apply set_remote_spec in E4 as (q&Eq&Q1&Q2&Q3&Q4&Q5&_&Q7).
  apply exec_bind_Ok in E as (len&_&E). apply exec_bind_Ok in E as (gw&E5&E). apply ipv4_parse_ok in E5.
  injection E as <-. unfold ipv4_prefix_parse in E3. apply exec_bind_Ok in E3 as (ip&E3&E).
  apply ipv4_parse_ok in E3 as [Hip Hf]. apply exec_bind_Ok in E as (l&_&E). apply exec_bind_Ok in E as (plen&_&E).
  assert (ip_address_length (ip_family ip) = Ok (32 / 8)) as Hl by (by rewrite Hf).
  destruct (prefix_final p 32 ip plen q Hip Hl eq_refl E Eq) as (Hp&Hr&Hb).
  cbn in Q2, Q3, Q4. rewrite Hp in Q2. cbn. rewrite Q1, Q2, Q3, Q4, V1. split_and!; try done; try apply E2; try apply E5.
  - intros Hc. assert (options_ok c2) as Hc2 by (apply Q7; apply O1 in Hc; keeps_options). keeps_options.
  - lia.
  - lia.
Qed.

Lemma finalize_ipv6_config_spec random c c' :
  fc_ip_version c = IP_VERSION_6 -> finalize_ipv6_config random c = Ok c' ->
  addresses_ok c' /\ (options_ok c -> options_ok c').
Proof.
  unfold finalize_ipv6_config. intros V E. apply exec_bind_Ok in E as (c1&E1&E).
  apply set_ipv6_defaults_keeps in E1 as [V1 O1]. apply exec_bind_Ok in E as (local&E2&E).
  apply ipv6_parse_ok in E2. apply exec_bind_Ok in E as (p&E3&E). cbv zeta in E.
  apply exec_bind_Ok in E as (c2&E4&E). apply set_remote_spec in E4 as (q&Eq&Q1&Q2&Q3&Q4&Q5&_&Q7).
  apply exec_bind_Ok in E as (gw&E5&E). apply ipv6_parse_ok in E5.
  injection E as <-. unfold ipv6_prefix_parse in E3. apply exec_bind_Ok in E3 as (ip&E3&E).
  apply ipv6_parse_ok in E3 as [Hip Hf]. apply exec_bind_Ok in E as (l&_&E). apply exec_bind_Ok in E as (plen&_&E).
  assert (ip_address_length (ip_family ip) = Ok (128 / 8)) as Hl by (by rewrite Hf).
  destruct (prefix_final p 128 ip plen q Hip Hl eq_refl E Eq) as (Hp&Hr&Hb).
  cbn in Q2, Q3, Q4. rewrite Hp in Q2. split.
  - split; cbn; rewrite ?Q1, ?Q2, ?Q3, ?Q4, ?V1, ?V; try done; try (split; [done|]; cbn; congruence || apply E2).
    by exists 128.
  - intros Hc. assert (options_ok c2) as Hc2 by (apply Q7; apply O1 in Hc; keeps_options). keeps_options.
Qed.

Lemma finalize_config_spec random c c' :
  finalize_config random c = Ok c' -> addresses_ok c' /\ (options_ok c -> options_ok c').
Proof.
  unfold finalize_config. destruct (fc_ip_version c) eqn:V; [| |by apply finalize_ipv6_config_spec].
  - unfold finalize_ipv4_config. intros E. apply exec_bind_Ok in E as (c1&E&[= <-]).
    apply finalize_ipv4_addresses_spec in E as (V1&O1&L&R&G&P&B). rewrite V in V1. split.
    + split; cbn; rewrite ?V1; try done; [split; [done|apply L]|split; [done|apply R]|by exists 32].
    + intros Hc. apply O1 in Hc. keeps_options.
  - unfold finalize_ipv4_mapped_ipv6_config. intros E. apply exec_bind_Ok in E as (c1&E&[= <-]).
    apply finalize_ipv4_addresses_spec in E as (V1&O1&L&R&G&P&B). rewrite V in V1. split.
    + split; cbn; rewrite ?V1; try done. by exists 32.
    + intros Hc. apply O1 in Hc. keeps_options.
Qed.

(** C18. The configuration a test runs with: whatever options the script and the command line have,
    when they are accepted the ports, times and sizes are in their ranges, the addresses on the
    wire and those of the sockets have the families of the table in config.c, the socket's
    addresses are the ones on the wire or their mapped forms, and the remote prefix is the
    remote address cut to the length of the prefix. *)
Theorem configuration_ok (argv argv' : list string) (option_list : list (string * option string))
    (random : option Z) (fuzz_file_name : string) (c : full_config) :
  parse_and_finalize_config argv option_list random (set_default_config fuzz_file_name) = Ok (c, argv') ->
  options_ok c /\ addresses_ok c.
Proof.
  unfold parse_and_finalize_config. intros E. apply exec_bind_Ok in E as (c1&E1&E).
  apply parse_script_options_ok in E1; [|apply default_options_ok].
  apply exec_bind_Ok in E as ([[c2 a] rest]&E2&E). apply exec_bind_Ok in E as (c3&E3&[= <- _]).
  unfold parse_command_line_options in E2. apply exec_bind_Ok in E2 as (c4&E2&[= <- _ _]).
  apply process_options_ok in E2; [|keeps_options].
  apply finalize_config_spec in E3 as [Ha Ho]. auto.
Qed.

(** ** The configurations of the two stacks *)

Lemma prefix_len_parse_full s n : split_at "/" s = None -> prefix_len_parse s n = Ok n.
Proof. unfold prefix_len_parse. by intros ->. Qed.

(** The address that a run connects to is left as a text without its prefix. *)
Lemma finalize_remote_text random c c' : finalize_config random c = Ok c' ->
  fc_live_remote_ip_string c' = ip_to_string (fc_live_remote_ip c').
Proof.
  unfold finalize_config. destruct (fc_ip_version c); intros E;
    unfold finalize_ipv4_config, finalize_ipv4_mapped_ipv6_config, finalize_ipv4_addresses, finalize_ipv6_config in E;
    inv_exec;
    match goal with H : set_remote_ip_and_prefix _ = Ok _ |- _ => apply set_remote_spec in H as (q&_&_&R&_&_&_&T&_) end;
    cbn in *; congruence.
Qed.

(** With a remote address that has no slash in it, the prefix is the whole address. *)
Lemma ip_prefix_normalize_len p q : ip_prefix_normalize p = Ok q -> prefix_len q = prefix_len p.
Proof. unfold ip_prefix_normalize. intros E. inv_exec. repeat (case_match; inv_exec); done. Qed.

Lemma finalize_whole_prefix random c c' :
  fc_live_remote_ip_string c <> ""%string -> split_at "/" (fc_live_remote_ip_string c) = None ->
  finalize_config random c = Ok c' ->
  prefix_len (fc_live_remote_prefix c') = match fc_ip_version c with IP_VERSION_6 => 128 | _ => 32 end.
Proof.
  intros Hne Hs.
  assert (forall c1, set_ipv4_defaults random c = Ok c1 -> fc_live_remote_ip_string c1 = fc_live_remote_ip_string c) as H4.
  { unfold set_ipv4_defaults, is_empty. rewrite (proj2 (String.eqb_neq _ _) Hne). intros c1 E. inv_exec.
    repeat (case_match; inv_exec); done. }
  assert (forall c1, set_ipv6_defaults random c = Ok c1 -> fc_live_remote_ip_string c1 = fc_live_remote_ip_string c) as H6.
  { unfold set_ipv6_defaults, is_empty. rewrite (proj2 (String.eqb_neq _ _) Hne). intros c1 E. inv_exec.
    repeat (case_match; inv_exec); done. }
  assert (forall ip n p q, ip_to_prefix ip n = Ok p -> ip_prefix_normalize p = Ok q -> prefix_len q = n) as Hn.
  { intros ip n p q Ep Eq. rewrite (ip_prefix_normalize_len _ _ Eq). unfold ip_to_prefix in Ep. inv_exec. by case_match; inv_exec. }
  unfold finalize_config. destruct (fc_ip_version c) eqn:V; intros E;
    unfold finalize_ipv4_config, finalize_ipv4_mapped_ipv6_config, finalize_ipv4_addresses, finalize_ipv6_config in E.
  1,2: apply exec_bind_Ok in E as (c5&E&[= <-]).
  1,2: apply exec_bind_Ok in E as (c1&E1&E); apply H4 in E1.
  3: apply exec_bind_Ok in E as (c1&E1&E); apply H6 in E1.
  all: apply exec_bind_Ok in E as (local&E2&E); apply exec_bind_Ok in E as (p&E3&E); cbv zeta in E;
    apply exec_bind_Ok in E as (c2&E4&E); apply set_remote_spec in E4 as (q&Eq&Q1&_); inv_exec; cbn in *;
    unfold ipv4_prefix_parse, ipv6_prefix_parse in E3; inv_exec; rewrite E1 in *;
    rewrite prefix_len_parse_full in * by done; inv_exec; by eauto.
Qed.

(** The two stacks are not configured alike.  The second run takes the remote address from the
    text that the first configuration has left, and that text has lost its prefix: whatever
    prefix was given, the second stack has a route to the one address only. *)
Theorem second_stack_loses_prefix (argv argv' : list string) (option_list : list (string * option string))
    (random : option Z) (fuzz_file_name : string) (c c1 c2 : full_config) (local remote : string) :
  (forall family octets, split_at "/" (inet_ntop family octets) = None /\ inet_ntop family octets <> ""%string) ->
  parse_and_finalize_config argv option_list random (set_default_config fuzz_file_name) = Ok (c, argv') ->
  first_stack_config c = Ok (c1, local, remote) -> second_stack_config local remote c1 = Ok c2 ->
  prefix_len (fc_live_remote_prefix c2) = match fc_ip_version c1 with IP_VERSION_6 => 128 | _ => 32 end.
Proof.
  intros Htext E E1 E2. unfold parse_and_finalize_config in E. apply exec_bind_Ok in E as (c3&_&E).
  apply exec_bind_Ok in E as ([[c4 a] rest]&_&E). apply exec_bind_Ok in E as (c5&E&[= <- _]).
  apply finalize_remote_text in E. unfold first_stack_config in E1. apply exec_bind_Ok in E1 as (c6&_&[= <- _ <-]).
  unfold second_stack_config in E2. rewrite E in E2. destruct (Htext (ip_family (fc_live_remote_ip c5)) (ip_octets (fc_live_remote_ip c5))) as [H1 H2].
  by apply finalize_whole_prefix in E2.
Qed.

(** The addresses for the first stack are those of IPv4. *)
Lemma first_stack_ipv6_dies c : fc_ip_version c = IP_VERSION_6 -> inet_pton AF_INET6 "192.168.0.2" = None ->
  first_stack_config c = Fault Died.
Proof.
  intros V Hn. unfold first_stack_config, finalize_config. cbn [fc_ip_version set_fc_live_remote_ip_string set_fc_live_local_ip_string].
  rewrite V. unfold finalize_ipv6_config, set_ipv6_defaults. cbn.
  unfold ipv6_parse. destruct (String.eqb (fc_live_gateway_ip_string c) ""); cbn [fc_live_local_ip_string set_fc_live_gateway_ip_string
    set_fc_live_remote_ip_string set_fc_live_local_ip_string]; by rewrite Hn.
Qed.

End Addresses.

(** ** Configurations *)

(** inet_pton(3) and inet_ntop(3) for IPv4 addresses in dotted notation. *)
Definition octet (s : string) : option Z :=
  match scan_number s with
  | Some (false, v, EmptyString) => if v <? 256 then Some v else None
  | _ => None
  end.
Definition dotted_pton (s : string) : option bytes :=
  '(a, s) ← split_at "." s;
  '(b, s) ← split_at "." s;
  '(c, d) ← split_at "." s;
  a ← octet a; b ← octet b; c ← octet c; d ← octet d;
  Some [a; b; c; d].
Definition dotted_ntop (a : bytes) : string :=
  dec (byte_at a 0) +:+ "." +:+ dec (byte_at a 1) +:+ "." +:+ dec (byte_at a 2) +:+ "." +:+ dec (byte_at a 3).

Lemma digits_nonneg s : forall acc v e, 0 <= acc -> digits s acc = (v, e) -> 0 <= v.
Proof.
  induction s as [|c s IH]; intros acc v e Ha; cbn; [by intros [= <- _]|].
  destruct (is_digit c) eqn:E; [|by intros [= <- _]]. apply IH. unfold is_digit, digit_value in *.
  apply andb_true_iff in E as [E%Nat.leb_le _]. lia.
Qed.

Lemma octet_byte s v : octet s = Some v -> is_byte v.
Proof.
  unfold octet, scan_number. destruct (sign_of _) as [neg t]. destruct t as [|c t]; [done|].
  destruct (is_digit c); [|done]. destruct (digits (String c t) 0) as [w e] eqn:E.
  apply digits_nonneg in E; [|lia]. destruct neg; [done|]. destruct e; [|done].
  destruct (w <? 256) eqn:Ew; [|done]. intros [= <-]. breflect. unfold is_byte. lia.
Qed.

#[local] Instance dotted_inet_pton : InetPton.
Proof.
  refine {| inet_pton := fun family s => if family =? AF_INET then dotted_pton s else None |}; intros s a; [|done].
  cbn. unfold dotted_pton. intros E.
  repeat match goal with
    | E : (_ ≫= _) = Some _ |- _ => apply bind_Some in E as (?&?%octet_byte&E)
    | E : (_ ≫= _) = Some _ |- _ => apply bind_Some in E as ([]&_&E)
    end. injection E as <-. split; [do 4 (apply Forall_cons_2; [done|]); apply Forall_nil_2|done].
Defined.

#[local] Instance dotted_inet_ntop : InetNtop := fun _ a => dotted_ntop a.

(** A script that asks for the prefix 192.0.2.1/24 and a command line that changes a port. *)
Definition sample_options : list (string * option string) :=
  [("remote_ip", Some "192.0.2.1/24"); ("bind_port", Some "9090"); ("strict_segments", None)]%string.
Definition sample_argv : list string :=
  ["packetdrill"; "a.pkt"; "--bind_port=7070"; "-v"; "--define"; "MSS=1460"; "b.pkt"]%string.

Definition sample_full_config (r : exec (full_config * list string)) : full_config :=
  match r with Ok (c, _) => c | Fault _ => set_default_config "" end.
Definition parsed_config : full_config :=
  sample_full_config (parse_and_finalize_config sample_argv sample_options (Some 77) (set_default_config "")).

Lemma configuration_ok_witness : options_ok parsed_config /\ addresses_ok parsed_config.
Proof.
  apply (configuration_ok sample_argv ["packetdrill"; "--bind_port=7070"; "-v"; "--define"; "MSS=1460"; "a.pkt"; "b.pkt"]
    sample_options (Some 77) "" parsed_config). vm_compute. reflexivity.
Defined.

(** The command line wins over the script, and the rest of it stays. *)
Example parsed_config_values :
  (fc_live_bind_port parsed_config, fc_strict_segments parsed_config, fc_verbose parsed_config,
   definition_get (fc_defines parsed_config) "MSS", fc_live_local_ip_string parsed_config,
   fc_live_remote_prefix_string parsed_config, fc_live_prefix_len parsed_config) =
  (7070, true, true, Some "1460"%string, "192.168.0.77"%string, "192.0.2.0/24"%string, 16).
Proof. vm_compute. reflexivity. Qed.

(** Numbers have no slash in them. *)
Lemma split_at_app c a b : split_at c a = None -> split_at c b = None -> split_at c (a +:+ b) = None.
Proof.
  intros Ha Hb. induction a as [|d a IH]; [done|]. change (String d a +:+ b) with (String d (a +:+ b)).
  cbn [split_at] in *. destruct (Ascii.eqb c d); [done|].
  destruct (split_at c a) as [[]|]; [done|]. by rewrite IH.
Qed.

Lemma hex_digit_no_slash z : split_at "/" (hex_digit z) = None.
Proof.
  unfold hex_digit. generalize (Z.to_nat z) as n. intros n. do 16 (destruct n as [|n]; [done|]). by destruct n.
Qed.

Lemma dec_no_slash z : split_at "/" (dec z) = None.
Proof.
  assert (forall n z, split_at "/" (dec_digits n z) = None) as Hd.
  { induction n as [|n IH]; intros x; cbn; [done|]. destruct (x <? 10); [apply hex_digit_no_slash|].
    apply split_at_app; [apply IH|apply hex_digit_no_slash]. }
  unfold dec. destruct (z <? 0); [|apply Hd]. by apply (split_at_app "/" "-").
Qed.

Lemma dotted_text (family : Z) (octets : bytes) :
  split_at "/" (inet_ntop family octets) = None /\ inet_ntop family octets <> ""%string.
Proof.
  split.
  - change (split_at "/" (dotted_ntop octets) = None). unfold dotted_ntop.
    repeat first [apply split_at_app | apply dec_no_slash | done].
  - change (dotted_ntop octets <> ""%string). unfold dotted_ntop. by destruct (dec (byte_at octets 0)).
Qed.

Definition first_config : full_config * string * string :=
  match first_stack_config parsed_config with Ok x => x | Fault _ => (parsed_config, "", "")%string end.
Definition second_config : full_config :=
  match second_stack_config first_config.1.2 first_config.2 first_config.1.1 with Ok c => c | Fault _ => parsed_config end.

Lemma second_stack_loses_prefix_witness :
  prefix_len (fc_live_remote_prefix parsed_config) = 24 /\ prefix_len (fc_live_remote_prefix second_config) = 32.
Proof.
  split; [vm_compute; reflexivity|].
  apply (second_stack_loses_prefix sample_argv ["packetdrill"; "--bind_port=7070"; "-v"; "--define"; "MSS=1460"; "a.pkt"; "b.pkt"]
    sample_options (Some 77) "" parsed_config first_config.1.1 second_config first_config.1.2 first_config.2).
  - exact dotted_text.
  - vm_compute. reflexivity.
  - vm_compute. reflexivity.
  - vm_compute. reflexivity.
Defined.

(** A prefix length that is empty is zero, and one that does not fit an int is cut to it. *)
Example prefix_len_parse_loose :
  prefix_len_parse "192.0.2.1/" 32 = Ok 0 /\ prefix_len_parse "192.0.2.1/4294967320" 32 = Ok 24.
Proof. split; vm_compute; reflexivity. Qed.

(** A port that does not fit an int is cut to it, too. *)
Example port_arg_loose : port_arg "4295031808" = Ok 64512.
Proof. vm_compute. reflexivity. Qed.

(** ** Definitions of symbols *)

Lemma definition_find_assign defs s v t : definition_find (definition_assign defs s v) t =
  if bool_decide (s = t) then (fun d => mk_definition (def_symbol d) v) <$> definition_find defs t
  else definition_find defs t.
Proof.
  induction defs as [|d defs IH]; cbn; [by case_bool_decide|].
  destruct (String.eqb_spec (def_symbol d) s) as [Hs|Hs]; cbn.
  - destruct (String.eqb_spec (def_symbol d) t) as [Ht|Ht].
    + rewrite bool_decide_true by congruence. done.
    + by rewrite bool_decide_false by congruence.
  - destruct (String.eqb_spec (def_symbol d) t) as [Ht|Ht].
    + by rewrite bool_decide_false by congruence.
    + apply IH.
Qed.

(** A symbol has the last value it was given. *)
Lemma definition_get_set defs s v t :
  definition_get (definition_set defs s v) t = if bool_decide (s = t) then Some v else definition_get defs t.
Proof.
  unfold definition_get, definition_set. destruct (definition_find defs s) as [d|] eqn:E.
  - rewrite definition_find_assign. case_bool_decide as Hst; [|done]. subst t. by rewrite E.
  - cbn. destruct (String.eqb_spec s t) as [->|Hst]; [by rewrite bool_decide_true|by rewrite bool_decide_false].
Qed.
