(* ===== verification/ConfigWire.v ===== *)
(** * ConfigWire: the configurations of the two sides of a wire test

    The client sends its command line to the server, which adds an option of its own and
    parses it again: both come to the same configuration, but for what makes one the client
    and the other the server. *)

From S2P Require Import Prelude Headers Packet IpAddress RunState PacketToString WireConn WireClient WireServer WireProps Config.

(** The argument that the client does not send. *)
Definition client_arg (arg : string) : bool := is_wire_client_arg (string_bytes arg).

(** The command line that the server parses. *)
Definition server_argv (argv : list string) : list string :=
  bytes_string <$> (sent_args (string_bytes <$> argv) ++ [string_bytes "--wire_server"]).

(** The options that are for the client only. *)
Definition is_client_option (o : option option_codes * option string) : bool :=
  match o.1 with Some OPT_WIRE_CLIENT | Some OPT_WIRE_CLIENT_DEV => true | _ => false end.

(** A command line in which the arguments that are not sent are those of the client's options:
    they are neither values of other options nor part of them, and the options have no
    end. *)
Fixpoint client_args_apart (args : list string) : bool :=
  match args with
  | [] => true
  | arg :: args' =>
      match classify arg with
      | ARG_END => false
      | ARG_OTHER => client_args_apart args'
      | ARG_FOUND l =>
          forallb (fun o => Bool.eqb (is_client_option o) (client_arg arg)) l && client_args_apart args'
      | ARG_WANTS l code =>
          match args' with
          | [] => false
          | value :: args'' =>
              negb (client_arg arg) && negb (client_arg value) &&
              forallb (fun o => negb (is_client_option o)) (l ++ [(Some code, Some value)]) && client_args_apart args''
          end
      end
  end.

(** The configuration without what makes it that of a client or of a server. *)
Definition without_role (c : full_config) : full_config :=
  set_fc_argv [] (set_fc_is_wire_client false (set_fc_is_wire_server false (set_fc_wire_client_device "eth0" c))).

(** Equations between configurations up to the role. *)
Ltac role_eq := intros; cbv [without_role fmap exec_fmap]; config_cbv; reflexivity.

(** ** The arguments *)

Definition sent_strings (argv : list string) : list string := filter (fun arg => client_arg arg = false) argv.

Lemma server_argv_strings argv : server_argv argv = sent_strings argv ++ ["--wire_server"%string].
Proof.
  unfold server_argv, sent_args, sent_strings. rewrite fmap_app. f_equal.
  induction argv as [|arg argv IH]; [done|]. cbn [fmap list_fmap]. rewrite !filter_cons. unfold client_arg at 1.
  repeat case_decide; try done. cbn. by rewrite bytes_of_string, IH.
Qed.

Lemma sent_cons arg args : sent_strings (arg :: args) = if client_arg arg then sent_strings args else arg :: sent_strings args.
Proof. unfold sent_strings. rewrite filter_cons. by destruct (client_arg arg). Qed.

Lemma filter_client_options (l : list (option option_codes * option string)) b :
  forallb (fun o => Bool.eqb (is_client_option o) b) l = true ->
  filter (fun o => is_client_option o = false) l = if b then [] else l.
Proof.
  induction l as [|o l IH]; cbn [forallb]; [by destruct b|]. intros [Ho%Bool.eqb_prop Hl]%andb_true_iff.
  rewrite filter_cons, IH by done. rewrite Ho. by destruct b.
Qed.

Lemma getopt_server args : client_args_apart args = true ->
  sc_found (getopt_long (sent_strings args ++ ["--wire_server"%string])) =
    filter (fun o => is_client_option o = false) (sc_found (getopt_long args)) ++ [(Some OPT_WIRE_SERVER, None)].
Proof.
  remember (length args) as n eqn:Hn. assert (length args <= n)%nat as Hle by lia. clear Hn. revert args Hle.
  induction n as [|n IH]; intros [|arg args] Hle Hc; try (cbn in Hle; lia); try done.
  cbn [client_args_apart] in Hc. cbn in Hle. rewrite sent_cons. cbn [getopt_long]. destruct (classify arg) as [| |l|l code] eqn:Ek; [done|..].
  - cbn [sc_found]. destruct (client_arg arg); [apply IH; [lia|done]|].
    cbn [getopt_long app]. rewrite Ek. cbn [sc_found]. apply IH; [lia|done].
  - apply andb_true_iff in Hc as [Hl Hc]. cbn [found_more sc_found]. rewrite filter_app, (filter_client_options _ _ Hl).
    destruct (client_arg arg); [apply IH; [lia|done]|].
    cbn [getopt_long app]. rewrite Ek. cbn [found_more sc_found]. rewrite IH by (done || lia). by rewrite app_assoc.
  - destruct args as [|value args]; [done|]. cbn in Hle.
    apply andb_true_iff in Hc as [Hc Hr]. apply andb_true_iff in Hc as [Hc Hl]. apply andb_true_iff in Hc as [Ha Hv].
    apply negb_true_iff in Ha, Hv. rewrite Ha, sent_cons, Hv. cbn [getopt_long app]. rewrite Ek. cbn [found_more sc_found].
    rewrite IH by (done || lia). rewrite filter_app, (filter_client_options (l ++ _) false).
    2:{ rewrite <-Hl. f_equal. }
    by rewrite <-!app_assoc.
Qed.

(** ** Functions that do not depend on the role *)

Lemma role_idem c : without_role (without_role c) = without_role c.
Proof. role_eq. Qed.

Definition blind (f : full_config -> exec full_config) : Prop :=
  forall c, without_role <$> f (without_role c) = without_role <$> f c.

Lemma Ok_inj {A} (a b : A) : Ok a = Ok b -> a = b.
Proof. by intros [= ->]. Qed.

Lemma blind_agree f c c' : blind f -> without_role c = without_role c' ->
  without_role <$> f c = without_role <$> f c'.
Proof. intros Hf Hc. by rewrite <-(Hf c), Hc, Hf. Qed.

Lemma blind_bind f g : blind f -> blind g -> blind (fun c => c ← f c; g c).
Proof.
  intros Hf Hg c. specialize (Hf c). destruct (f c) as [d|], (f (without_role c)) as [d'|]; try done.
  apply Ok_inj in Hf. exact (blind_agree g d' d Hg Hf).
Qed.

(** A value that is computed first, from another part. *)
Lemma blind_value {A} (m : full_config -> exec A) (g : A -> full_config -> exec full_config) :
  (forall c, m (without_role c) = m c) -> (forall a, blind (g a)) -> blind (fun c => a ← m c; g a c).
Proof. intros Hm Hg c. rewrite Hm. destruct (m c) as [a|]; [|done]. apply Hg. Qed.

Lemma blind_if (b : full_config -> bool) f g :
  (forall c, b (without_role c) = b c) -> blind f -> blind g -> blind (fun c => if b c then f c else g c).
Proof. intros Hb Hf Hg c. rewrite Hb. destruct (b c); [apply Hf|apply Hg]. Qed.

Lemma blind_Ok f : (forall c, without_role (f (without_role c)) = without_role (f c)) -> blind (fun c => Ok (f c)).
Proof. intros Hf c. cbn. by rewrite Hf. Qed.

(** After an assignment. *)
Lemma blind_after f g : (forall c, without_role (f (without_role c)) = without_role (f c)) -> blind g ->
  blind (fun c => g (f c)).
Proof. intros Hf Hg c. by apply blind_agree. Qed.

Lemma blind_Fault e : blind (fun _ => Fault e).
Proof. done. Qed.

Ltac solve_blind :=
  repeat first
    [ apply blind_Fault
    | apply blind_Ok; intros ?; vm_compute; reflexivity
    | apply blind_value; [role_eq|intros ?]
    | apply blind_if; [role_eq|..] ].

(** ** The options *)

Section Options.
Context `{InetPton}.

Lemma non_fatal_blind arg : blind (fun c => Ok (parse_non_fatal_arg arg c)).
Proof.
  apply blind_Ok. intros c. destruct arg as [arg|]; [|apply role_idem]. cbn [parse_non_fatal_arg]. generalize (tokens arg "") as l. intros l.
  enough (forall c1 c2, without_role c1 = without_role c2 ->
    forall f : full_config -> string -> full_config,
    (forall c1 c2 t, without_role c1 = without_role c2 -> without_role (f c1 t) = without_role (f c2 t)) ->
    without_role (foldl f c1 l) = without_role (foldl f c2 l)) as Hf.
  { apply Hf; [apply role_idem|]. intros c1 c2 t Hc.
    destruct (String.eqb t "packet"); [exact (f_equal (set_fc_non_fatal_packet true) Hc)|].
    destruct (String.eqb t "syscall"); [exact (f_equal (set_fc_non_fatal_syscall true) Hc)|done]. }
  induction l as [|t l IH]; intros c1 c2 Hc f Hf; [done|]. cbn. apply IH; [by apply Hf|done].
Qed.

Lemma process_option_blind opt optarg : blind (process_option opt optarg).
Proof.
  intros c. destruct opt as [opt|]; [|done]. destruct (decide (opt = OPT_NON_FATAL)) as [->|Hn]; [apply non_fatal_blind|].
  destruct opt; try done; clear Hn; cbn [process_option];
    try (destruct optarg as [s|]; cbn [deref]; [rewrite !bind_Ok_eq|reflexivity]);
    repeat match goal with
      | |- context [port_arg ?s] => destruct (port_arg s)
      | |- context [ipv4_parse ?s] => destruct (ipv4_parse s)
      | |- context [split_at ?a ?s] => destruct (split_at a s) as [[[]]|]
      | |- context [strtoul ?s] => destruct (strtoul s) as [[]]
      | |- context [if ?b then _ else _] => destruct b
      end; role_eq.
Qed.

Lemma client_option_role opt optarg c c' : is_client_option (opt, optarg) = true ->
  process_option opt optarg c = Ok c' -> without_role c' = without_role c.
Proof.
  destruct opt as [[]|]; try done; intros _ E; cbn in E; [by injection E as <-|].
  destruct optarg as [s|]; [|done]. by injection E as <-.
Qed.

(** The server, without the client's options, comes to the same but for its role. *)
Lemma process_options_role l : forall c c' d, process_options l c = Ok c' -> without_role d = without_role c ->
  exists d', process_options (filter (fun o => is_client_option o = false) l) d = Ok d' /\
    without_role d' = without_role c'.
Proof.
  induction l as [|[opt arg] l IH]; intros c c' d E Hd; cbn [process_options] in E.
  { injection E as <-. by exists d. }
  apply exec_bind_Ok in E as (c1&E1&E). rewrite filter_cons. case_decide as Hk.
  - cbn [process_options]. pose proof (blind_agree _ d c (process_option_blind opt arg) Hd) as Hp. rewrite E1 in Hp.
    destruct (process_option opt arg d) as [d1|]; [|done]. apply Ok_inj in Hp. rewrite bind_Ok_eq. by eapply IH.
  - apply not_false_is_true in Hk. eapply IH; [done|]. by rewrite (client_option_role _ _ _ _ Hk E1).
Qed.

Lemma process_options_app l k c : process_options (l ++ k) c = (c ← process_options l c; process_options k c).
Proof.
  revert c. induction l as [|[opt arg] l IH]; intros c; [done|]. cbn [app process_options].
  destruct (process_option opt arg c) as [c1|]; [|done]. apply IH.
Qed.

End Options.

(** ** The final values *)

Section Finalize.
Context `{InetPton, InetNtop}.

(** A text that is set when it is empty. *)
Definition set_default (get : full_config -> string) (set : string -> full_config -> full_config) (v : string)
    (c : full_config) : exec full_config :=
  if is_empty (get c) then Ok (set v c) else Ok c.

(** The defaults, one text after the other. *)
Definition ipv4_steps (random : option Z) (c : full_config) : exec full_config :=
  c ← set_default fc_live_remote_ip_string set_fc_live_remote_ip_string DEFAULT_V4_LIVE_REMOTE_IP_STRING c;
  c ← set_default fc_live_netmask_ip_string set_fc_live_netmask_ip_string DEFAULT_V4_LIVE_NETMASK_IP_STRING c;
  c ← (if is_empty (fc_live_local_ip_string c) then
         ip ← generate_random_ipv4_addr DEFAULT_V4_LIVE_LOCAL_IP_STRING (fc_live_netmask_ip_string c) random;
         Ok (set_fc_live_local_ip_string (ip_to_string ip) c)
       else Ok c);
  set_default fc_live_gateway_ip_string set_fc_live_gateway_ip_string DEFAULT_V4_LIVE_GATEWAY_IP_STRING c.

Lemma ipv4_defaults_steps random c : set_ipv4_defaults random c = ipv4_steps random c.
Proof.
  unfold set_ipv4_defaults, ipv4_steps, set_default. destruct (is_empty (fc_live_remote_ip_string _)); rewrite ?bind_Ok_eq;
    destruct (is_empty (fc_live_netmask_ip_string _)); rewrite ?bind_Ok_eq;
    (destruct (if is_empty (fc_live_local_ip_string _) then _ else _) as [c1|]; [|done]);
    rewrite !bind_Ok_eq; by destruct (is_empty (fc_live_gateway_ip_string c1)).
Qed.

Definition ipv6_steps (random : option Z) (c : full_config) : exec full_config :=
  c ← set_default fc_live_remote_ip_string set_fc_live_remote_ip_string DEFAULT_V6_LIVE_REMOTE_IP_STRING c;
  c ← (if is_empty (fc_live_local_ip_string c) then
         ip ← generate_random_ipv6_addr DEFAULT_V6_LIVE_LOCAL_IP_STRING DEFAULT_V6_LIVE_PREFIX_LEN (default 0 random);
         Ok (set_fc_live_local_ip_string (ip_to_string ip) c)
       else Ok c);
  set_default fc_live_gateway_ip_string set_fc_live_gateway_ip_string DEFAULT_V6_LIVE_GATEWAY_IP_STRING c.

Lemma ipv6_defaults_steps random c : set_ipv6_defaults random c = ipv6_steps random c.
Proof.
  unfold set_ipv6_defaults, ipv6_steps, set_default. destruct (is_empty (fc_live_remote_ip_string _)); rewrite ?bind_Ok_eq;
    (destruct (if is_empty (fc_live_local_ip_string _) then _ else _) as [c1|]; [|done]);
    rewrite !bind_Ok_eq; by destruct (is_empty (fc_live_gateway_ip_string c1)).
Qed.

Lemma ipv4_defaults_blind random : blind (set_ipv4_defaults random).
Proof.
  intros c. rewrite !ipv4_defaults_steps. revert c. change (blind (ipv4_steps random)). unfold ipv4_steps, set_default.
  repeat (apply blind_bind; [solve_blind|]). solve_blind.
Qed.

Lemma ipv6_defaults_blind random : blind (set_ipv6_defaults random).
Proof.
  intros c. rewrite !ipv6_defaults_steps. revert c. change (blind (ipv6_steps random)). unfold ipv6_steps, set_default.
  repeat (apply blind_bind; [solve_blind|]). solve_blind.
Qed.

Lemma set_remote_blind : blind set_remote_ip_and_prefix.
Proof. unfold set_remote_ip_and_prefix. solve_blind. Qed.

Lemma ipv4_addresses_blind random : blind (finalize_ipv4_addresses random).
Proof.
  unfold finalize_ipv4_addresses. apply blind_bind; [apply ipv4_defaults_blind|]. solve_blind.
  apply (blind_bind (fun c => set_remote_ip_and_prefix (set_fc_live_remote_prefix _ (set_fc_live_local_ip _ c)))); [|solve_blind].
  apply blind_after; [role_eq|apply set_remote_blind].
Qed.

Lemma ipv6_config_blind random : blind (finalize_ipv6_config random).
Proof.
  unfold finalize_ipv6_config. cbv zeta. apply blind_bind; [apply ipv6_defaults_blind|]. solve_blind.
  apply (blind_bind (fun c => set_remote_ip_and_prefix (set_fc_live_remote_prefix _ (set_fc_live_local_ip _ c)))).
  - apply blind_after; [role_eq|apply set_remote_blind].
  - solve_blind.
Qed.

Lemma ipv4_config_blind random : blind (finalize_ipv4_config random).
Proof. unfold finalize_ipv4_config. cbv zeta. apply blind_bind; [apply ipv4_addresses_blind|solve_blind]. Qed.

Lemma ipv4_mapped_config_blind random : blind (finalize_ipv4_mapped_ipv6_config random).
Proof. unfold finalize_ipv4_mapped_ipv6_config. cbv zeta. apply blind_bind; [apply ipv4_addresses_blind|solve_blind]. Qed.

Lemma finalize_blind random : blind (finalize_config random).
Proof.
  assert (forall c, fc_ip_version (without_role c) = fc_ip_version c) as Hv by role_eq.
  intros c. unfold finalize_config. rewrite Hv.
  destruct (fc_ip_version c); [apply ipv4_config_blind|apply ipv4_mapped_config_blind|apply ipv6_config_blind].
Qed.

(** The final values leave the role as it is. *)
Lemma finalize_role random c c' : finalize_config random c = Ok c' -> fc_is_wire_server c' = fc_is_wire_server c.
Proof.
  assert (forall c c', set_remote_ip_and_prefix c = Ok c' -> fc_is_wire_server c' = fc_is_wire_server c) as Hr.
  { intros d d'. unfold set_remote_ip_and_prefix. intros E. by inv_exec. }
  assert (forall c c', set_ipv4_defaults random c = Ok c' -> fc_is_wire_server c' = fc_is_wire_server c) as H4.
  { intros d d'. unfold set_ipv4_defaults. intros E. inv_exec. repeat (case_match; inv_exec); done. }
  assert (forall c c', set_ipv6_defaults random c = Ok c' -> fc_is_wire_server c' = fc_is_wire_server c) as H6.
  { intros d d'. unfold set_ipv6_defaults. intros E. inv_exec. repeat (case_match; inv_exec); done. }
  unfold finalize_config. destruct (fc_ip_version c); intros E;
    unfold finalize_ipv4_config, finalize_ipv4_mapped_ipv6_config, finalize_ipv4_addresses, finalize_ipv6_config in E;
    inv_exec;
    repeat match goal with
      | H : set_remote_ip_and_prefix _ = Ok _ |- _ => apply Hr in H
      | H : set_ipv4_defaults _ _ = Ok _ |- _ => apply H4 in H
      | H : set_ipv6_defaults _ _ = Ok _ |- _ => apply H6 in H
      end; cbn in *; congruence.
Qed.

(** C17. The server of a wire test is configured as its client is.  When a client's command line
    is accepted, with the options of a script, so is the command line that the server makes of
    what the client sends, and with the same random numbers the two configurations are the
    same, but that the one is the server's: every port, address, time and limit, and every
    definition of a symbol.  The condition on the command line ([client_args_apart]) is that
    the arguments which the client keeps back, those that contain -wire_client, are whole
    options of the client: there is no -- that ends the options, the value of --wire_client_dev
    is behind an equals sign, no other option or value of an option contains -wire_client, and
    the client's options are not abbreviated to something that does not.  Without it the claim
    fails ([server_after_dashes]). *)
Theorem server_configured_as_client (prog : string) (args argv' : list string)
    (option_list : list (string * option string)) (random : option Z) (start c : full_config) :
  client_arg prog = false -> client_args_apart args = true ->
  parse_and_finalize_config (prog :: args) option_list random start = Ok (c, argv') ->
  exists c' argv'', parse_and_finalize_config (server_argv (prog :: args)) option_list random start = Ok (c', argv'') /\
    without_role c' = without_role c /\ fc_is_wire_server c' = true.
Proof.
  intros Hp Ha E. unfold parse_and_finalize_config in *. apply exec_bind_Ok in E as (c1&->&E). rewrite bind_Ok_eq.
  apply exec_bind_Ok in E as ([[c2 a] rest]&E2&E). apply exec_bind_Ok in E as (c3&E3&[= <- _]).
  unfold parse_command_line_options in *. apply exec_bind_Ok in E2 as (c4&E2&[= <- _ _]). cbn [tail] in E2.
  rewrite server_argv_strings, sent_cons, Hp. cbn [app tail]. rewrite (getopt_server args Ha), process_options_app.
  destruct (process_options_role _ _ _ (set_fc_argv (prog :: sent_strings args ++ ["--wire_server"%string]) c1) E2 eq_refl)
    as (d&->&Hd). rewrite bind_Ok_eq. cbn [process_options process_option]. rewrite !bind_Ok_eq.
  pose proof (blind_agree _ (set_fc_is_wire_server true d) c4 (finalize_blind random) Hd) as Hf.
  rewrite E3 in Hf. destruct (finalize_config random (set_fc_is_wire_server true d)) as [d'|] eqn:Ed; [|done].
  apply Ok_inj in Hf. rewrite bind_Ok_eq. eexists _, _. split; [done|]. split; [done|].
  by apply finalize_role in Ed.
Qed.

End Finalize.

(** ** Configurations *)

#[local] Existing Instance dotted_inet_pton.
#[local] Existing Instance dotted_inet_ntop.

(** A client that names its device, and a script with an address. *)
Definition client_args : list string :=
  ["--wire_client"; "--wire_client_dev=eth3"; "--local_ip=10.0.0.2"; "-D"; "MSS=1460"; "a.pkt"]%string.
Definition client_start : full_config := set_default_config "input".
Definition client_config : full_config :=
  sample_full_config (parse_and_finalize_config ("packetdrill"%string :: client_args)
    [("remote_ip", Some "192.0.2.7/24")]%string None client_start).

Lemma server_configured_as_client_witness :
  fc_is_wire_client client_config = true /\
  exists c' argv'', parse_and_finalize_config (server_argv ("packetdrill"%string :: client_args))
      [("remote_ip", Some "192.0.2.7/24")]%string None client_start = Ok (c', argv'') /\
    without_role c' = without_role client_config /\ fc_is_wire_server c' = true.
Proof.
  split; [vm_compute; reflexivity|].
  apply (server_configured_as_client "packetdrill" client_args ("packetdrill"%string :: client_args)
    [("remote_ip", Some "192.0.2.7/24")]%string None client_start client_config).
  - vm_compute. reflexivity.
  - vm_compute. reflexivity.
  - vm_compute. reflexivity.
Defined.

(** Without an address for the client each side makes up one of its own. *)
Example sides_disagree :
  (fun r => fc_live_local_ip_string (sample_full_config r)) <$>
    [parse_and_finalize_config ["packetdrill"; "--wire_client"]%string [] (Some 1000) client_start;
     parse_and_finalize_config (server_argv ["packetdrill"; "--wire_client"]%string) [] (Some 2000) client_start]
  = ["192.168.3.232"; "192.168.7.208"]%string.
Proof. vm_compute. reflexivity. Qed.

(** After two dashes the server does not see its own option. *)
Example server_after_dashes :
  fc_is_wire_server (sample_full_config (parse_and_finalize_config
    (server_argv ["packetdrill"; "--wire_client"; "--"; "a.pkt"]%string) [] None client_start)) = false.
Proof. vm_compute. reflexivity. Qed.
