(* ===== verification/Program.v ===== *)
(** * Program: main of packetdrill (packetdrill.c, run.c)

    The command line is parsed once for the list of scripts, and again for each script
    after the script's own options; each script is then run, after the initial scripts of
    the configuration.  getopt_long(3) permutes the array of arguments that main walks
    over while it is parsed again: the theorems show that main nevertheless runs each
    script of the command line, in order, with a configuration that does not depend on
    the scripts before it but for the name of the fuzzer's input, a global of its own that
    no default resets. *)

From S2P Require Import Prelude Headers Packet IpPacket IpAddress PacketToString HashMap Socket Script RunState FuzzHelper SystemCall SyscallProps RunEvents Code WireConn WireClient RunScript Config.

(** ** Initial scripts *)

(** strstr(s, ","): what is before the comma, and behind it. *)
Fixpoint cut_comma (s : string) : string * option string :=
  match s with
  | EmptyString => (EmptyString, None)
  | String c s' =>
      if Ascii.eqb c (Ascii.ascii_of_nat 44) then (EmptyString, Some s')
      else let '(a, b) := cut_comma s' in (String c a, b)
  end.

Section Program.
Context `{Malloc, Libc, Shell, CodeShell, InetPton, InetNtop}.

(** [packetdrill.c:47-61] the loop of run_init_scripts, from [cp1]: the commands that were
    run and whether all succeeded *)
Fixpoint init_scripts_loop (fuel : nat) (cp1 : string) : exec (list string * bool) :=
  if String.eqb cp1 "" then Ok ([], true)
  else
    match fuel with
    | O => Fault OutOfFuel
    | S fuel' =>
        let '(command, cp2) := cut_comma cp1 in
        if negb (safe_system command) then Ok ([command], false)
        else
          match cp2 with
          | None => Ok ([command], true)
          | Some cp1 => '(l, ok) ← init_scripts_loop fuel' cp1; Ok (command :: l, ok)
          end
    end.

(** [packetdrill.c:40-63] run_init_scripts: the commands it has run, and whether it returns;
    it dies after one that fails *)
Definition run_init_scripts (c : full_config) : exec (list string * bool) :=
  match fc_init_scripts c with
  | None => Ok ([], true)
  | Some scripts => init_scripts_loop (String.length scripts) scripts
  end.

(** ** One script *)

(** A script file: the options at its head if they can be parsed, and, for the configuration
    that they lead to, what the rest is parsed into. *)
Record script_file := mk_script_file {
  sf_options : option (list (string * option string));
  sf_body : full_config -> option (script * list event)
}.

(** The files that can be read, and what the system will supply to a run. *)
Record run_env := mk_run_env {
  en_random : option Z;
  en_port : Z;
  en_ports : list Z;
  en_clock : list Z;
  en_received : list (result packet);
  en_send_fails : list bool;
  en_jiffies : list Z;
  en_replies : list reply;
  en_conn : wire_conn;
  en_script_buffer : bytes;
  en_hw_address : bytes
}.

Context (files : string -> option script_file) (env : string -> run_env).

(** [run.c:676-703] parse_script_and_set_config, of a script that is read from a file, with the
    callback of the parser (parser.y); argv is permuted.  The global fuzz_file_name, which
    set_default_config leaves as it is, is an argument, and its new value is in the
    configuration. *)
Definition parse_script_and_set_config (fuzz_file_name : string) (argv : list string) (script_path : string)
    : exec (full_config * list string * option (script * list event)) :=
  let c := set_default_config fuzz_file_name in
  let c := set_fc_script_path (Some script_path) c in
  match files script_path with
  | None => Fault Died
  | Some file =>
      match sf_options file with
      | None => Ok (c, argv, None)
      | Some option_list =>
          '(c, argv) ← parse_and_finalize_config argv option_list (en_random (env script_path)) c;
          Ok (c, argv, sf_body file c)
      end
  end.

(** [run.c:569-590] run_script: the new state of a run; [checker] is true in packetdrill.c *)
Definition new_run (c : full_config) (events : list event) (e : run_env) (f : fuzzer) : exec run :=
  code ← code_new (fc_code_format c) (fc_code_sockopt c) (fc_code_command_line c) (fc_verbose c);
  let st := state_new (run_config c) true events (en_port e) (en_ports e) (en_clock e)
              (en_received e) (en_send_fails e) in
  let s := mk_sys st f (bool_decide (is_Some (fc_so_filename c))) (mk_syscalls SYSCALL_IDLE None 0)
             (en_replies e) [] in
  Ok (mk_run s code (fc_is_wire_client c) (wire_client_new (en_conn e)) []).

(** What main did with a script. *)
Record executed := mk_executed {
  ex_path : string;
  ex_config : full_config;
  ex_init : list string;
  ex_run : option run
}.

(** How main ends. *)
Inductive main_end := MAIN_RETURNS | MAIN_EXITS | MAIN_STOPS (why : stop) | MAIN_SERVES (c : full_config).

(** [packetdrill.c:121-122] the initial scripts, and the run of a script *)
Definition execute (c : full_config) (path : string) (s : script) (events : list event) (f : fuzzer)
    : executed * (fuzzer + main_end) :=
  match run_init_scripts c with
  | Fault why => (mk_executed path c [] None, inr (MAIN_STOPS (Breaks why)))
  | Ok (init, false) => (mk_executed path c init None, inr (MAIN_STOPS (Dies "error executing init script")))
  | Ok (init, true) =>
      let e := env path in
      match new_run c events e f with
      | Fault why => (mk_executed path c init None, inr (MAIN_STOPS (Breaks why)))
      | Ok r =>
          let cc := mk_client_config (string_bytes <$> fc_argv c) (string_bytes path) (en_script_buffer e)
                      (en_hw_address e) in
          match run_script cc s (en_jiffies e) r with
          | Returns r _ => (mk_executed path c init (Some r), inl (sys_fuzzer (rn_sys r)))
          | Stops r why => (mk_executed path c init (Some r), inr (MAIN_STOPS why))
          end
      end
  end.

(** [packetdrill.c:107-123] the loop over the scripts; [n] arguments are left in the array,
    and [arg] points to the first of them; [name] is the global fuzz_file_name *)
Fixpoint scripts_loop (n : nat) (name : string) (argv : list string) (f : fuzzer) : list executed * main_end :=
  match n with
  | O => ([], MAIN_RETURNS)
  | S n' =>
      match argv !! (length argv - n)%nat with
      | None => ([], MAIN_STOPS (Breaks OutOfBounds))
      | Some path =>
          match parse_script_and_set_config name argv path with
          | Fault why => ([], MAIN_STOPS (Breaks why))
          | Ok (_, _, None) => ([], MAIN_EXITS)
          | Ok (c, argv, Some (s, events)) =>
              if fc_dry_run c then scripts_loop n' (fc_fuzz_file_name c) argv f
              else
                let '(x, next) := execute c path s events f in
                match next with
                | inr e => ([x], e)
                | inl f => let '(l, e) := scripts_loop n' (fc_fuzz_file_name c) argv f in (x :: l, e)
                end
          end
      end
  end.

(** [packetdrill.c:76-126] main *)
Definition main (fuzz_file_name : string) (argv : list string) (f : fuzzer) : list executed * main_end :=
  match parse_command_line_options argv (set_default_config fuzz_file_name) with
  | Fault why => ([], MAIN_STOPS (Breaks why))
  | Ok (c, argv, arg) =>
      if fc_is_wire_server c then
        if negb (bool_decide (arg = [])) then ([], MAIN_EXITS) else ([], MAIN_SERVES c)
      else if bool_decide (arg = []) then ([], MAIN_EXITS)
      else scripts_loop (length arg) (fc_fuzz_file_name c) argv f
  end.

End Program.

(** ** Initial scripts: what is run *)

Definition comma : string := String (Ascii.ascii_of_nat 44) "".

Fixpoint comma_free (s : string) : bool :=
  match s with
  | EmptyString => true
  | String c s' => negb (Ascii.eqb c (Ascii.ascii_of_nat 44)) && comma_free s'
  end.

Lemma cut_comma_spec s : let '(a, b) := cut_comma s in
  comma_free a = true /\ s = (a +:+ match b with Some s' => comma +:+ s' | None => "" end)%string.
Proof.
  induction s as [|c s IH]; cbn [cut_comma]; [done|].
  destruct (Ascii.eqb c _) eqn:E; [apply Ascii.eqb_eq in E as ->; done|].
  destruct (cut_comma s) as [a b]. destruct IH as [Ha ->]. cbn. by rewrite E, Ha.
Qed.

Lemma cut_comma_length s a s' : cut_comma s = (a, Some s') -> (String.length s' < String.length s)%nat.
Proof.
  revert a. induction s as [|c s IH]; intros a E; cbn in E; [done|].
  destruct (Ascii.eqb c _); [injection E as _ <-; cbn; lia|].
  destruct (cut_comma s) as [a' b]. injection E as _ ->. specialize (IH _ eq_refl). cbn. lia.
Qed.

Section InitScripts.
Context `{Shell}.

(** What a run of initial scripts does: all of them succeed, or the last one fails. *)
Inductive runs_init : string -> list string -> bool -> Prop :=
  | init_none : runs_init "" [] true
  | init_fails x rest : safe_system x = false -> runs_init (x +:+ rest) [x] false
  | init_last x : safe_system x = true -> runs_init x [x] true
  | init_next x s l ok : safe_system x = true -> runs_init s l ok ->
      runs_init (x +:+ comma +:+ s) (x :: l) ok.

Lemma init_scripts_loop_runs fuel s : (String.length s <= fuel)%nat ->
  exists l ok, init_scripts_loop fuel s = Ok (l, ok) /\ runs_init s l ok /\ Forall (fun x => comma_free x = true) l.
Proof.
  revert s. induction fuel as [|fuel IH]; intros s Hs.
  - destruct s; [|cbn in Hs; lia]. exists [], true. repeat constructor.
  - cbn [init_scripts_loop]. destruct (String.eqb s "") eqn:Es.
    { apply String.eqb_eq in Es as ->. exists [], true. repeat constructor. }
    pose proof (cut_comma_spec s) as Hc. pose proof (cut_comma_length s) as Hlen.
    destruct (cut_comma s) as [x cp2]. destruct Hc as [Hx ->].
    destruct (safe_system x) eqn:Esys; cbn [negb].
    + destruct cp2 as [s'|].
      * destruct (IH s') as (l & ok & -> & Hr & Hl); [specialize (Hlen x s' eq_refl); lia|].
        exists (x :: l), ok. split; [done|]. split; [by constructor|by constructor].
      * exists [x], true. rewrite string_app_nil. split_and!; [done|by constructor|by constructor].
    + exists [x], false. split_and!; [done|by constructor|by constructor].
Qed.

(** The initial scripts: run_init_scripts ends, and has run the parts between the commas, in
    order, up to the first that fails; when all succeed it has run all of them (but an
    empty part behind the last comma). *)
Theorem run_init_scripts_runs (c : full_config) (scripts : string) :
  fc_init_scripts c = Some scripts ->
  exists l ok, run_init_scripts c = Ok (l, ok) /\ runs_init scripts l ok /\
    Forall (fun x => comma_free x = true) l.
Proof. intros Hs. unfold run_init_scripts. rewrite Hs. by apply init_scripts_loop_runs. Qed.

End InitScripts.

(** ** The array of arguments *)

Definition other_arg (arg : string) : Prop := classify arg = ARG_OTHER.

Lemma getopt_others r : Forall other_arg r -> getopt_long r = mk_scanned [] [] r.
Proof. induction 1 as [|arg r Ha Hr IH]; [done|]. cbn [getopt_long]. by rewrite Ha, IH. Qed.

Definition scans_back (s : scanned) (r : list string) : Prop :=
  getopt_long (sc_options s ++ r) = mk_scanned (sc_found s) (sc_options s) r.

(** The options in front are read as they were, whatever arguments without options follow;
    and the rest is such arguments, or an end of the options is in front of it. *)
Lemma getopt_scans_back n args : (length args <= n)%nat ->
  unknown_option ∉ sc_found (getopt_long args) ->
  (forall r, Forall other_arg r -> scans_back (getopt_long args) r) /\
  (Forall other_arg (sc_rest (getopt_long args)) \/ forall r, scans_back (getopt_long args) r).
Proof.
  unfold scans_back. revert args. induction n as [|n IH]; intros [|arg args] Hn Hu;
    try (cbn in Hn; lia); try (split; [apply getopt_others|by left; constructor]).
  cbn [length] in Hn. cbn [getopt_long] in *. destruct (classify arg) as [| |l|l code] eqn:Ek.
  - split; [|right]; intros r; cbn [sc_options sc_found app getopt_long]; by rewrite Ek.
  - cbn [sc_found sc_options sc_rest] in *. destruct (IH args ltac:(lia) Hu) as [H1 H2].
    split; [done|]. destruct H2 as [H2|H2]; [left; by constructor|by right].
  - cbn [sc_found sc_options sc_rest found_more] in *. rewrite elem_of_app in Hu.
    destruct (IH args ltac:(lia) ltac:(tauto)) as [H1 H2]. split.
    + intros r Hr. cbn [app getopt_long]. by rewrite Ek, H1.
    + destruct H2 as [H2|H2]; [by left|right]. intros r. cbn [app getopt_long]. by rewrite Ek, H2.
  - destruct args as [|value args].
    { cbn [sc_found] in Hu. rewrite elem_of_app, list_elem_of_singleton in Hu. tauto. }
    cbn [length] in Hn. cbn [sc_found sc_options sc_rest found_more] in *. rewrite elem_of_app in Hu.
    destruct (IH args ltac:(lia) ltac:(tauto)) as [H1 H2]. split.
    + intros r Hr. cbn [app getopt_long]. by rewrite Ek, H1.
    + destruct H2 as [H2|H2]; [by left|right]. intros r. cbn [app getopt_long]. by rewrite Ek, H2.
Qed.

(** Parsing an array of arguments again finds the same. *)
Lemma getopt_stable args : unknown_option ∉ sc_found (getopt_long args) ->
  getopt_long (sc_options (getopt_long args) ++ sc_rest (getopt_long args)) = getopt_long args.
Proof.
  intros Hu. destruct (getopt_scans_back (length args) args ltac:(lia) Hu) as [H1 H2].
  unfold scans_back in *. destruct (getopt_long args) as [found opts rest] eqn:E. cbn in *.
  destruct H2 as [H2|H2]; auto.
Qed.

Section Main.
Context `{Malloc, Libc, Shell, CodeShell, InetPton, InetNtop}.

Lemma process_options_known l c c' : process_options l c = Ok c' -> unknown_option ∉ l.
Proof.
  revert c. induction l as [|[opt arg] l IH]; intros c E; [apply not_elem_of_nil|].
  cbn [process_options] in E. apply exec_bind_Ok in E as (c1 & E1 & E2).
  apply not_elem_of_cons. split; [|by eapply IH]. intros [= <- _]. done.
Qed.

Lemma parse_command_line_stable argv c c' argv' rest d :
  parse_command_line_options argv c = Ok (c', argv', rest) ->
  (exists k, argv' = k ++ rest) /\
  forall d', parse_command_line_options argv' d = Ok d' -> d'.1.2 = argv'.
Proof.
  unfold parse_command_line_options. intros E. apply exec_bind_Ok in E as (c1 & E1 & E2).
  injection E2 as _ <- <-. apply process_options_known in E1. split.
  { exists (take 1 argv ++ sc_options (getopt_long (tail argv))). by rewrite <-app_assoc. }
  intros d' E'. apply exec_bind_Ok in E' as (c2 & _ & [= <-]). cbn [fst snd].
  destruct argv as [|arg0 args]; [done|]. cbn [take tail app firstn] in *.
  rewrite !take_0. cbn [app]. by rewrite getopt_stable.
Qed.

Context (files : string -> option script_file) (env : string -> run_env).

(** The reference: the scripts of a list one after the other, each parsed with the same
    command line and the defaults, until one does not return; only the name of the fuzzer's
    input is handed on. *)
Fixpoint run_each (name : string) (argv : list string) (paths : list string) (f : fuzzer)
    : list executed * main_end :=
  match paths with
  | [] => ([], MAIN_RETURNS)
  | path :: paths' =>
      match parse_script_and_set_config files env name argv path with
      | Fault why => ([], MAIN_STOPS (Breaks why))
      | Ok (_, _, None) => ([], MAIN_EXITS)
      | Ok (c, _, Some (s, events)) =>
          if fc_dry_run c then run_each (fc_fuzz_file_name c) argv paths' f
          else
            let '(x, next) := execute env c path s events f in
            match next with
            | inr e => ([x], e)
            | inl f => let '(l, e) := run_each (fc_fuzz_file_name c) argv paths' f in (x :: l, e)
            end
      end
  end.

Definition argv_settled (argv : list string) : Prop :=
  forall d d', parse_command_line_options argv d = Ok d' -> d'.1.2 = argv.

Lemma parse_script_argv name argv path c argv' r : argv_settled argv ->
  parse_script_and_set_config files env name argv path = Ok (c, argv', r) -> argv' = argv.
Proof.
  intros Hs E. unfold parse_script_and_set_config in E. destruct (files path) as [file|]; [|done].
  destruct (sf_options file) as [opts|]; [|by injection E as _ <- _].
  apply exec_bind_Ok in E as ([c1 argv1] & E & E2). injection E2 as _ <- _.
  unfold parse_and_finalize_config in E. apply exec_bind_Ok in E as (c2 & _ & E).
  apply exec_bind_Ok in E as ([[c3 argv3] rest3] & Ep & E). apply exec_bind_Ok in E as (c4 & _ & E).
  injection E as _ <-. by apply Hs in Ep.
Qed.

Lemma scripts_loop_each name argv k rest f : argv_settled argv -> argv = k ++ rest ->
  scripts_loop files env (length rest) name argv f = run_each name argv rest f.
Proof.
  intros Hs. revert k name f. induction rest as [|path rest IH]; intros k name f Ha; [done|].
  cbn [length scripts_loop run_each].
  replace (length argv - S (length rest))%nat with (length k)
    by (rewrite Ha, length_app; cbn; lia).
  rewrite Ha at 1. rewrite list_lookup_middle by done.
  destruct (parse_script_and_set_config _ _ _ argv path) as [[[c argv1] [[s events]|]]|] eqn:E; try done.
  apply parse_script_argv in E; [|done]. subst argv1.
  assert (IH' : forall name f, scripts_loop files env (length rest) name argv f = run_each name argv rest f)
    by (intros name' f'; apply (IH (k ++ [path])); by rewrite Ha, <-app_assoc).
  destruct (fc_dry_run c); [done|]. destruct (execute _ _ _ _ _ _) as [x [f'|e]]; [|done]. by rewrite IH'.
Qed.


End Main.

(** ** A session with two scripts *)

#[local] Existing Instance zero_malloc.
#[local] Existing Instance sample_libc.
#[local] Existing Instance dotted_inet_pton.
#[local] Existing Instance dotted_inet_ntop.
#[local] Instance true_shell : Shell := fun _ => 0.
#[local] Instance no_code_shell : CodeShell :=
  Build_CodeShell (fun _ => Some "/tmp/code"%string) true true true (fun _ _ => 0).

(** The first script sets an option, the second does not; both only run a command. *)
Definition two_files (path : string) : option script_file :=
  Some (mk_script_file
    (Some (if String.eqb path "a.pkt" then [("tolerance_usecs", Some "77")]%string else []))
    (fun _ => Some (mk_script None None, [mk_event 1 0 (-1) (-1) ABSOLUTE_TIME (COMMAND_EVENT "true")]))).

Definition two_env (path : string) : run_env :=
  mk_run_env None 40000 [] (replicate 20 80000 ++ replicate 8 80251) [] [] [1; 2; 3; 4; 5; 6; 7; 8; 9; 10; 11] []
    (wire_conn_new 3 []) [] [].

Definition two_argv : list string :=
  ["packetdrill"; "a.pkt"; "--local_ip=192.168.0.9"; "--init_scripts=x,y"; "b.pkt"]%string.


Lemma run_init_scripts_runs_witness :
  exists l ok, run_init_scripts (set_fc_init_scripts (Some "x,y,"%string) (set_default_config "in")) = Ok (l, ok)
    /\ runs_init "x,y," l ok /\ Forall (fun x => comma_free x = true) l.
Proof. apply (run_init_scripts_runs _ "x,y,"). vm_compute. reflexivity. Defined.
