(* ===== verification/WireSetup.v ===== *)
(** * WireSetup: setting up the connections of a wire test (wire_conn.c, wrap.c, wire_server.c)

    The system calls that open the sockets of the two sides, in order, each with its test:
    the result of a call is the next of a list of replies of the kernel, and a call that
    fails ends the program.  The theorems: the calls are made in the order below up to the
    first that fails, so that a connection is only used with its options set; the port that
    a listening socket reports is the one it was bound to; and the addresses of the two
    sides are of one family only for IPv4. *)

From S2P Require Import Prelude Headers Packet IpAddress RunState WireConn PacketToString Config.

(** ** System calls *)

Definition SOCK_STREAM : Z := 1.
Definition SOL_SOCKET : Z := 1.
Definition SOL_TCP : Z := 6.
Definition TCP_NODELAY : Z := 1.
Definition SO_REUSEADDR : Z := 2.
Definition SO_SNDBUF : Z := 7.
Definition SO_RCVBUF : Z := 8.

Inductive net_call :=
  | CALL_SOCKET (domain type : Z)
  | CALL_SETSOCKOPT (fd level name value : Z)
  | CALL_BIND (fd : Z) (address : bytes)
  | CALL_GETSOCKNAME (fd : Z)
  | CALL_LISTEN (fd backlog : Z)
  | CALL_CONNECT (fd : Z) (address : bytes)
  | CALL_ACCEPT (fd : Z)
  | CALL_PTHREAD_CREATE (fd : Z).

(** What the kernel answers: the result of the call and, for getsockname(2), an address. *)
Record net_reply := mk_net_reply { nr_result : Z; nr_address : bytes }.

Record net := mk_net {
  nt_replies : list net_reply;
  nt_calls : list net_call
}.

(** A call; the program waits when there is no reply. *)
Definition perform (c : net_call) : prog net net_reply := fun w =>
  match nt_replies w with
  | [] => Stops (mk_net [] (nt_calls w ++ [c])) Waiting
  | r :: rs => Returns (mk_net rs (nt_calls w ++ [c])) r
  end.

(** A call whose negative result ends the program. *)
Definition checked (c : net_call) (message : string) : prog net net_reply :=
  r ← perform c;
  if nr_result r <? 0 then halt (Dies message) else mret r.

(** ** Sockets *)

(** [wrap.c:44-68] wrap_socket *)
Definition wrap_socket (ip_version : ip_version_t) (type : Z) : prog net Z :=
  r ← match ip_version with
      | IP_VERSION_4 => checked (CALL_SOCKET AF_INET type) "socket(AF_INET)"
      | IP_VERSION_4_MAPPED_6 | IP_VERSION_6 => checked (CALL_SOCKET AF_INET6 type) "socket(AF_INET6)"
      end;
  mret (nr_result r).

(** [wrap.c:77-82] wrap_bind_listen: the sockaddr_in of any address *)
Definition any_sockaddr_in (port : Z) : bytes := le_split 2 AF_INET ++ le_split 2 (htons port) ++ replicate 12 0.

(** [wrap.c:103-105] wrap_bind_listen: the sockaddr_in6 of any address *)
Definition any_sockaddr_in6 (port : Z) : bytes := le_split 2 AF_INET6 ++ le_split 2 (htons port) ++ replicate 24 0.

(** [wrap.c:70-125] wrap_bind_listen: the port that the socket has *)
Definition wrap_bind_listen (s : Z) (ip_version : ip_version_t) (port : Z) : prog net Z :=
  match ip_version with
  | IP_VERSION_4 =>
      _ ← checked (CALL_BIND s (any_sockaddr_in port)) "bind(AF_INET)";
      r ← checked (CALL_GETSOCKNAME s) "getsockname(AF_INET)";
      family ← run_exec (ld16 (nr_address r) 0);
      _ ← run_exec (c_assert (family =? AF_INET));
      _ ← checked (CALL_LISTEN s 100) "listen(AF_INET)";
      sin_port ← run_exec (ld16 (nr_address r) 2);
      mret (ntohs sin_port)
  | IP_VERSION_4_MAPPED_6 | IP_VERSION_6 =>
      _ ← checked (CALL_BIND s (any_sockaddr_in6 port)) "bind(AF_INET6)";
      r ← checked (CALL_GETSOCKNAME s) "getsockname(AF_INET6)";
      family ← run_exec (ld16 (nr_address r) 0);
      _ ← run_exec (c_assert (family =? AF_INET6));
      _ ← checked (CALL_LISTEN s 100) "listen(AF_INET6)";
      sin6_port ← run_exec (ld16 (nr_address r) 2);
      mret (ntohs sin6_port)
  end.

(** [run_packet.c:56-61] ephemeral_port *)
Definition ephemeral_port (ip_version : ip_version_t) : prog net Z :=
  fd ← wrap_socket ip_version SOCK_STREAM;
  wrap_bind_listen fd ip_version 0.

(** ** Connections *)

Definition set_wc_fd (fd : Z) (c : wire_conn) : wire_conn :=
  mk_wire_conn fd (wc_buf c) (wc_buf_space c) (wc_arrived c) (wc_closed c) (wc_sent c) (wc_io c).

(** [wire_conn.c:50-57] wire_conn_free: the descriptor that is closed *)
Definition wire_conn_free (conn : wire_conn) : list Z := if wc_fd conn =? -1 then [] else [wc_fd conn].

(** [wire_conn.c:60-65] create_tcp_socket *)
Definition create_tcp_socket (conn : wire_conn) (ip_version : ip_version_t) : prog net wire_conn :=
  _ ← run_exec (c_assert (wc_fd conn =? -1));
  fd ← wrap_socket ip_version SOCK_STREAM;
  mret (set_wc_fd fd conn).

(** [wire_conn.c:68-92] set_default_tcp_options *)
Definition set_default_tcp_options (conn : wire_conn) : prog net unit :=
  _ ← checked (CALL_SETSOCKOPT (wc_fd conn) SOL_TCP TCP_NODELAY 1) "setsockopt TCP_NODELAY";
  _ ← checked (CALL_SETSOCKOPT (wc_fd conn) SOL_SOCKET SO_RCVBUF (128 * 1024)) "setsockopt SO_RCVBUF";
  _ ← checked (CALL_SETSOCKOPT (wc_fd conn) SOL_SOCKET SO_SNDBUF (128 * 1024)) "setsockopt SO_SNDBUF";
  mret tt.

(** [wire_conn.c:94-113] wire_conn_connect *)
Definition wire_conn_connect (conn : wire_conn) (ip : ip_address) (port : Z) (ip_version : ip_version_t)
    : prog net wire_conn :=
  conn ← create_tcp_socket conn ip_version;
  _ ← set_default_tcp_options conn;
  sa ← run_exec (ip_to_sockaddr ip port);
  _ ← checked (CALL_CONNECT (wc_fd conn) sa) "error connecting to wire server";
  mret conn.

(** [wire_conn.c:115-131] wire_conn_bind_listen *)
Definition wire_conn_bind_listen (listen_conn : wire_conn) (port : Z) (ip_version : ip_version_t)
    : prog net wire_conn :=
  listen_conn ← create_tcp_socket listen_conn ip_version;
  _ ← checked (CALL_SETSOCKOPT (wc_fd listen_conn) SOL_SOCKET SO_REUSEADDR 1) "setsockopt SO_REUSEADDR";
  _ ← wrap_bind_listen (wc_fd listen_conn) ip_version port;
  mret listen_conn.

(** [wire_conn.c:133-150] wire_conn_accept *)
Definition wire_conn_accept (listen_conn : wire_conn) : prog net wire_conn :=
  r ← checked (CALL_ACCEPT (wc_fd listen_conn)) "accept";
  let accepted_conn := set_wc_fd (nr_result r) (wire_conn_new (-1) []) in
  _ ← set_default_tcp_options accepted_conn;
  mret accepted_conn.

(** [wire_server.c:503-512] start_wire_server_thread, for a server of this connection *)
Definition start_wire_server_thread (conn : wire_conn) : prog net unit :=
  r ← perform (CALL_PTHREAD_CREATE (wc_fd conn));
  if negb (nr_result r =? 0) then halt (Dies "pthread_create") else mret tt.

(** [wire_server.c:525-536] the loop of run_wire_server, which does not end; [turns] of it *)
Fixpoint serve (turns : nat) (listen_conn : wire_conn) : prog net unit :=
  match turns with
  | O => mret tt
  | S turns' =>
      accepted_conn ← wire_conn_accept listen_conn;
      _ ← start_wire_server_thread accepted_conn;
      serve turns' listen_conn
  end.

(** [wire_server.c:514-537] run_wire_server, after the commands of wire_server_netdev_init
    (Netdev.v), with so many clients *)
Definition run_wire_server (turns : nat) (c : full_config) : prog net unit :=
  listen_conn ← wire_conn_bind_listen (wire_conn_new (-1) []) (fc_wire_server_port c) (fc_ip_version c);
  serve turns listen_conn.

(** [wire_client.c:254-258] wire_client_init: the connection to the server *)
Definition wire_client_connection (c : full_config) : prog net wire_conn :=
  wire_conn_connect (wire_conn_new (-1) []) (fc_wire_server_ip c) (fc_wire_server_port c) (fc_ip_version c).

(** ** The calls in order *)

(** The number of replies before the first that is negative. *)
Fixpoint good (rs : list net_reply) : nat :=
  match rs with
  | [] => 0
  | r :: rs => if nr_result r <? 0 then 0 else S (good rs)
  end.

Definition default_options (fd : Z) : list net_call :=
  [CALL_SETSOCKOPT fd SOL_TCP TCP_NODELAY 1; CALL_SETSOCKOPT fd SOL_SOCKET SO_RCVBUF 131072;
   CALL_SETSOCKOPT fd SOL_SOCKET SO_SNDBUF 131072].

Definition connect_calls (v : ip_version_t) (fd : Z) (sa : bytes) : list net_call :=
  CALL_SOCKET (domain_of v) SOCK_STREAM :: default_options fd ++ [CALL_CONNECT fd sa].

(** Reduces programs that make checked calls, and goes on with the result of the next. *)
Ltac reduce_prog :=
  cbv [mbind prog_bind mret prog_ret checked perform run_exec halt c_assert wrap_socket nr_result nr_address nt_replies
    nt_calls set_wc_fd wc_fd wire_conn_new end_of]; cbn [Z.eqb Pos.eqb good nr_result].
Ltac next_reply rs :=
  let z := fresh "z" in
  destruct rs as [|[z ?] rs]; [|cbn [good nr_result]; destruct (z <? 0) eqn:?].

Ltac use_results := repeat match goal with E : (?z <? 0) = _ |- context [?z <? 0] => rewrite E end.
Ltac ends_call := cbn; split; [reflexivity|]; split; [lia|]; eauto.

Lemma wire_connect_trace ip port v sa rs : ip_to_sockaddr ip port = Ok sa ->
  let fd := nr_result (default (mk_net_reply 0 []) (head rs)) in
  let e := wire_conn_connect (wire_conn_new (-1) []) ip port v (mk_net rs []) in
  nt_calls (end_of e) = take (S (good rs)) (connect_calls v fd sa) /\
  match e with
  | Returns _ conn => (5 <= good rs)%nat /\ wc_fd conn = fd
  | Stops _ why => (good rs < 5)%nat /\ (why = Waiting \/ exists message, why = Dies message)
  end.
Proof.
  intros Hsa fd e. subst fd e. unfold wire_conn_connect, create_tcp_socket, set_default_tcp_options.
  do 5 (next_reply rs; [by destruct v; reduce_prog; use_results; rewrite ?Hsa; use_results; ends_call..|]).
  destruct v; reduce_prog; use_results; rewrite Hsa; use_results; cbn;
    (split; [reflexivity|]; split; [lia|done]).
Qed.

(** The client connects with the calls below, in this order, up to the first that fails: when
    wire_conn_connect returns, all of them were made and none failed, and the connection
    has the descriptor of the socket; otherwise it has died or waits for the kernel. *)
Theorem wire_connect_calls ip port v sa rs : ip_to_sockaddr ip port = Ok sa ->
  let fd := nr_result (default (mk_net_reply 0 []) (head rs)) in
  let e := wire_conn_connect (wire_conn_new (-1) []) ip port v (mk_net rs []) in
  nt_calls (end_of e) = take (S (good rs)) (connect_calls v fd sa) /\
  match e with
  | Returns _ conn => (5 <= good rs)%nat /\ wc_fd conn = fd
  | Stops _ why => (good rs < 5)%nat /\ (why = Waiting \/ exists message, why = Dies message)
  end.
Proof. apply wire_connect_trace. Qed.

(** What a turn of the server does with a client. *)
Definition session_calls (listen_fd fd : Z) : list net_call :=
  CALL_ACCEPT listen_fd :: default_options fd ++ [CALL_PTHREAD_CREATE fd].

Ltac stops_after n :=
  right; exists n; eexists _, _; split; [reflexivity|]; split; [cbn; by rewrite <-?app_assoc|done].
Ltac turn_stops :=
  reduce_prog; use_results; cbn;
  first [stops_after 1%nat|stops_after 2%nat|stops_after 3%nat|stops_after 4%nat|stops_after 5%nat].

Lemma serve_turn {A} lc rs calls (f : prog net A) : exists fd,
  let e := (accepted_conn ← wire_conn_accept lc; _ ← start_wire_server_thread accepted_conn; f) (mk_net rs calls) in
  (exists rs', e = f (mk_net rs' (calls ++ session_calls (wc_fd lc) fd))) \/
  (exists n w why, e = Stops w why /\ nt_calls w = calls ++ take n (session_calls (wc_fd lc) fd) /\ why <> Exits).
Proof.
  exists (nr_result (default (mk_net_reply 0 []) (head rs))). cbv zeta.
  unfold wire_conn_accept, set_default_tcp_options, start_wire_server_thread.
  do 4 (next_reply rs; [turn_stops..|]). destruct rs as [|[z3 ?] rs]; [turn_stops|].
  reduce_prog. use_results. destruct (z3 =? 0) eqn:E; cbn; rewrite ?E; [|turn_stops].
  left. exists rs. f_equal. f_equal. by rewrite <-!app_assoc.
Qed.

(** The server's loop makes the calls of one session after the other, up to one that fails or
    waits: a thread is only started on a connection that was accepted and has its options
    set, one thread for each. *)
Theorem server_sessions turns lc rs :
  exists fds n fd, nt_calls (end_of (serve turns lc (mk_net rs []))) =
    concat (session_calls (wc_fd lc) <$> fds) ++ take n (session_calls (wc_fd lc) fd) /\ (length fds <= turns)%nat.
Proof.
  enough (G : forall calls rs, exists fds n fd, nt_calls (end_of (serve turns lc (mk_net rs calls))) =
    calls ++ concat (session_calls (wc_fd lc) <$> fds) ++ take n (session_calls (wc_fd lc) fd)
    /\ (length fds <= turns)%nat) by exact (G [] rs).
  induction turns as [|turns IH]; intros calls rs'.
  - exists [], 0%nat, 0. cbn. by rewrite app_nil_r.
  - cbn [serve]. destruct (serve_turn lc rs' calls (serve turns lc)) as [fd [[rs1 E]|(n & w & why & E & Hw & _)]];
      cbv zeta in E; rewrite E.
    + destruct (IH (calls ++ session_calls (wc_fd lc) fd) rs1) as (fds & n & fd' & -> & Hl).
      exists (fd :: fds), n, fd'. cbn [fmap list_fmap concat length]. rewrite <-!app_assoc. split; [done|lia].
    + exists [], n, fd. cbn [end_of fmap list_fmap concat app length]. split; [done|lia].
Qed.

Lemma ld16_middle a p c : 0 <= p < 65536 -> ld16 (a ++ le_split 2 p ++ c) (zlen a) = Ok p.
Proof.
  intros Hp. unfold ld16.
  assert (E : get_bytes (a ++ le_split 2 p ++ c) (zlen a) 2 = Ok (le_split 2 p)).
  { apply get_bytes_Ok. split; [apply in_range_true; rewrite !zlen_app, zlen_le_split; pose proof (zlen_nonneg a);
      pose proof (zlen_nonneg c); lia|]. unfold zlen. by rewrite Nat2Z.id, drop_app_length. }
  rewrite E. cbn [fmap exec_fmap]. by rewrite le_combine_split, Z.mod_small.
Qed.

(** A listening socket reports the port that it was bound to, or for port 0 the one that the
    kernel chose: wrap_bind_listen returns the port that getsockname(2) gives. *)
Theorem bind_listen_port s v port chosen rs calls r1 r2 r3 :
  0 <= chosen < 65536 -> 0 <= nr_result r1 -> 0 <= nr_result r2 -> 0 <= nr_result r3 ->
  nr_address r2 = match v with IP_VERSION_4 => any_sockaddr_in chosen | _ => any_sockaddr_in6 chosen end ->
  exists calls', wrap_bind_listen s v port (mk_net (r1 :: r2 :: r3 :: rs) calls) = Returns (mk_net rs calls') chosen.
Proof.
  intros Hc H1 H2 H3 Ha. destruct r1 as [z1 a1], r2 as [z2 a2], r3 as [z3 a3]. cbn [nr_result nr_address] in *.
  apply Z.ltb_ge in H1, H2, H3. subst a2. unfold wrap_bind_listen.
  assert (Hp : ntohs (htons chosen) = chosen) by (by apply ntohs_invol).
  assert (L4 : ld16 (any_sockaddr_in chosen) 2 = Ok (htons chosen)) by (apply (ld16_middle (le_split 2 AF_INET)), ntohs_range).
  assert (L6 : ld16 (any_sockaddr_in6 chosen) 2 = Ok (htons chosen)) by (apply (ld16_middle (le_split 2 AF_INET6)), ntohs_range).
  assert (F4 : ld16 (any_sockaddr_in chosen) 0 = Ok AF_INET) by done.
  assert (F6 : ld16 (any_sockaddr_in6 chosen) 0 = Ok AF_INET6) by done.
  destruct v; reduce_prog; rewrite H1, H2, ?F4, ?F6; rewrite Z.eqb_refl;
    rewrite H3, ?L4, ?L6, Hp; eexists; reflexivity.
Qed.

Lemma bind_listen_port_witness :
  exists calls', wrap_bind_listen 3 IP_VERSION_4 0
    (mk_net [mk_net_reply 0 []; mk_net_reply 0 (any_sockaddr_in 40001); mk_net_reply 0 []] [])
    = Returns (mk_net [] calls') 40001.
Proof. apply (bind_listen_port 3 IP_VERSION_4 0 40001); reflexivity || (cbn; lia). Defined.

Lemma wire_connect_calls_witness :
  let e := wire_conn_connect (wire_conn_new (-1) []) (ip_from_ipv4 [10; 0; 0; 1]) 8081 IP_VERSION_4
             (mk_net [mk_net_reply 3 []; mk_net_reply 0 []; mk_net_reply (-1) []] []) in
  nt_calls (end_of e) = [CALL_SOCKET AF_INET SOCK_STREAM; CALL_SETSOCKOPT 3 SOL_TCP TCP_NODELAY 1;
    CALL_SETSOCKOPT 3 SOL_SOCKET SO_RCVBUF 131072].
Proof.
  apply (wire_connect_calls (ip_from_ipv4 [10; 0; 0; 1]) 8081 IP_VERSION_4 (ipv4_to_sockaddr (ip_from_ipv4 [10; 0; 0; 1]) 8081)
    [mk_net_reply 3 []; mk_net_reply 0 []; mk_net_reply (-1) []]). reflexivity.
Defined.

(** The address of the server is always parsed as one of IPv4 (config.c), but the socket that
    connects to it is made for the flavour of IP of the test: for every flavour but IPv4,
    the client calls connect(2) on an AF_INET6 socket with an AF_INET address, which the
    kernel refuses. *)
Theorem server_address_is_ipv4 `{InetPton} arg c c' rs : process_option (Some OPT_WIRE_SERVER_IP) (Some arg) c = Ok c' ->
  (5 <= good rs)%nat -> fc_ip_version c' <> IP_VERSION_4 ->
  exists fd sa, ld16 sa 0 = Ok AF_INET /\
    let calls := nt_calls (end_of (wire_client_connection c' (mk_net rs []))) in
    CALL_SOCKET AF_INET6 SOCK_STREAM ∈ calls /\ CALL_CONNECT fd sa ∈ calls.
Proof.
  intros E Hg Hv. cbn [process_option deref] in E. apply exec_bind_Ok in E as (s & [= <-] & E).
  apply exec_bind_Ok in E as (ip & Eip & [= <-]). apply ipv4_parse_ok in Eip as [_ Hf].
  set (c1 := set_fc_wire_server_ip _ _) in *.
  assert (Hip : fc_wire_server_ip c1 = ip) by (subst c1; config_cbv; reflexivity). clearbody c1.
  set (sa := ipv4_to_sockaddr ip (fc_wire_server_port c1)).
  assert (Hsa : ip_to_sockaddr (fc_wire_server_ip c1) (fc_wire_server_port c1) = Ok sa)
    by (unfold ip_to_sockaddr; by rewrite Hip, Hf).
  exists (nr_result (default (mk_net_reply 0 []) (head rs))), sa. split; [apply (ld16_middle [] AF_INET); cbv; split; congruence|].
  destruct (wire_connect_trace _ _ (fc_ip_version c1) sa rs Hsa) as [Hc _]. unfold wire_client_connection. cbv zeta.
  rewrite Hc. unfold connect_calls. rewrite take_ge by (cbn; lia).
  destruct (fc_ip_version c1); [done|..]; set_solver.
Qed.

#[local] Existing Instance dotted_inet_pton.

Definition ipv6_client : full_config :=
  set_fc_ip_version IP_VERSION_6 (set_fc_wire_server_ip (ip_from_ipv4 [10; 0; 0; 1])
    (set_fc_wire_server_ip_string (Some "10.0.0.1"%string) (set_default_config ""))).

Lemma server_address_is_ipv4_witness :
  fc_ip_version ipv6_client = IP_VERSION_6 /\
  exists fd sa, ld16 sa 0 = Ok AF_INET /\
    let calls := nt_calls (end_of (wire_client_connection ipv6_client (mk_net (replicate 5 (mk_net_reply 3 [])) []))) in
    CALL_SOCKET AF_INET6 SOCK_STREAM ∈ calls /\ CALL_CONNECT fd sa ∈ calls.
Proof.
  split; [vm_compute; reflexivity|].
  apply (server_address_is_ipv4 "10.0.0.1" ipv6_client ipv6_client (replicate 5 (mk_net_reply 3 []))).
  - vm_compute. reflexivity.
  - cbn. lia.
  - vm_compute. discriminate.
Defined.
