(* ===== verification/PacketSocket.v ===== *)
(** * PacketSocket: sniffing and sending through a packet socket (packet_socket_linux.c)

    The socket, the filter that a wire server attaches to it, and what is taken of the frames
    that the kernel offers.

    The filter is a program for the kernel's packet filter (BPF), which runs it on every
    frame: [bpf_run] is the meaning of the four instructions that the program is made of. *)

From S2P Require Import Prelude Headers Packet IpAddress.

(** ** The packet filter *)

(** struct sock_filter of <linux/filter.h>. *)
Record sock_filter := mk_filter { bpf_code : Z; bpf_jt : nat; bpf_jf : nat; bpf_k : Z }.

Definition set_bpf_k (k : Z) (f : sock_filter) : sock_filter := mk_filter (bpf_code f) (bpf_jt f) (bpf_jf f) k.

(** The number that bytes in network order spell. *)
Definition be (l : bytes) : Z := foldl (fun a b => a * 256 + b) 0 l.

(** The [n] bytes at offset [k] of a frame, if it has them. *)
Definition load (n : nat) (k : Z) (frame : bytes) : option Z :=
  if k + Z.of_nat n <=? zlen frame then Some (be (take n (drop (Z.to_nat k) frame))) else None.

(** Instructions of <linux/bpf_common.h>: load a word or a half word at an absolute offset
    into the accumulator, compare it with a constant, return. *)
Definition BPF_LD_W_ABS : Z := 0x20.
Definition BPF_LD_H_ABS : Z := 0x28.
Definition BPF_JEQ_K : Z := 0x15.
Definition BPF_RET_K : Z := 0x06.

(** A run of the program from here on, with the accumulator [a]: the number of bytes to keep.
    A load from behind the end of the frame returns 0; other instructions, and the end of the
    program, are refused when a filter is attached.  Jumps are forward: a turn for each
    instruction is enough. *)
Fixpoint bpf_run (fuel : nat) (prog : list sock_filter) (a : Z) (frame : bytes) : option Z :=
  match fuel, prog with
  | S fuel', i :: rest =>
      if bpf_code i =? BPF_LD_W_ABS then
        match load 4 (bpf_k i) frame with Some a => bpf_run fuel' rest a frame | None => Some 0 end
      else if bpf_code i =? BPF_LD_H_ABS then
        match load 2 (bpf_k i) frame with Some a => bpf_run fuel' rest a frame | None => Some 0 end
      else if bpf_code i =? BPF_JEQ_K then
        bpf_run fuel' (drop (if a =? bpf_k i then bpf_jt i else bpf_jf i) rest) a frame
      else if bpf_code i =? BPF_RET_K then Some (bpf_k i)
      else None
  | _, _ => None
  end.

(** The kernel passes on a frame of which bytes are kept. *)
Definition bpf_accepts (prog : list sock_filter) (frame : bytes) : bool :=
  match bpf_run (length prog) prog 0 frame with Some n => 0 <? n | None => false end.

(** [packet_socket_linux.c:113-128] bpf_ipv4_src *)
Definition bpf_ipv4_src : list sock_filter :=
  [mk_filter 0x20 0 0 0x00000008;
   mk_filter 0x15 0 7 0x33445566;
   mk_filter 0x28 0 0 0x00000006;
   mk_filter 0x15 0 5 0x00001122;
   mk_filter 0x28 0 0 0x0000000c;
   mk_filter 0x15 0 3 0x00000800;
   mk_filter 0x20 0 0 0x0000001a;
   mk_filter 0x15 0 1 0x01020304;
   mk_filter 0x6 0 0 0x0000ffff;
   mk_filter 0x6 0 0 0x00000000].

(** [packet_socket_linux.c:129-149] bpf_ipv6_src *)
Definition bpf_ipv6_src : list sock_filter :=
  [mk_filter 0x20 0 0 0x00000008;
   mk_filter 0x15 0 13 0x33445566;
   mk_filter 0x28 0 0 0x00000006;
   mk_filter 0x15 0 11 0x00001122;
   mk_filter 0x28 0 0 0x0000000c;
   mk_filter 0x15 0 9 0x000086dd;
   mk_filter 0x20 0 0 0x00000016;
   mk_filter 0x15 0 7 0x00010002;
   mk_filter 0x20 0 0 0x0000001a;
   mk_filter 0x15 0 5 0x00030004;
   mk_filter 0x20 0 0 0x0000001e;
   mk_filter 0x15 0 3 0x00050006;
   mk_filter 0x20 0 0 0x00000022;
   mk_filter 0x15 0 1 0x00070008;
   mk_filter 0x6 0 0 0x0000ffff;
   mk_filter 0x6 0 0 0x00000000].

(** [bpfcode.filter[i].k = k]. *)
Definition set_k (i : nat) (k : Z) (prog : list sock_filter) : list sock_filter := alter (set_bpf_k k) i prog.

(** [packet_socket_linux.c:106-190] packet_socket_set_filter: the program it attaches;
    setsockopt(2) must take it *)
Definition packet_socket_set_filter (client_ether : bytes) (client_live_ip : ip_address) : exec (list sock_filter) :=
  prog ←
    (if ip_family client_live_ip =? AF_INET then
       s_addr ← ld32 (ip_octets client_live_ip) 0;
       Ok (set_k 7 (ntohl s_addr) bpf_ipv4_src)
     else if ip_family client_live_ip =? AF_INET6 then
       w0 ← ld32 (ip_octets client_live_ip) 0;
       w1 ← ld32 (ip_octets client_live_ip) 4;
       w2 ← ld32 (ip_octets client_live_ip) 8;
       w3 ← ld32 (ip_octets client_live_ip) 12;
       Ok (set_k 13 (ntohl w3) (set_k 11 (ntohl w2) (set_k 9 (ntohl w1) (set_k 7 (ntohl w0) bpf_ipv6_src))))
     else Fault AssertFailed);
  e0 ← ld8 client_ether 0;
  e1 ← ld8 client_ether 1;
  e2 ← ld8 client_ether 2;
  e3 ← ld8 client_ether 3;
  e4 ← ld8 client_ether 4;
  e5 ← ld8 client_ether 5;
  let prog := set_k 1 (Z.lor (Z.lor (Z.lor (Z.shiftl e2 24) (Z.shiftl e3 16)) (Z.shiftl e4 8)) e5) prog in
  Ok (set_k 3 (Z.lor (Z.shiftl e0 8) e1) prog).

(** ** The socket *)

(** [packet_socket_linux.c:49-53] struct packet_socket, with the filter attached to it *)
Record packet_socket := mk_packet_socket {
  ps_packet_fd : Z;
  ps_name : string;
  ps_index : Z;
  ps_filter : option (list sock_filter)
}.

(** What the system calls of the set-up return: socket(2), if_nametoindex(3), bind(2) and
    setsockopt(2). *)
Record socket_replies := mk_socket_replies {
  sr_socket : Z;
  sr_index : Z;
  sr_bind : Z;
  sr_setsockopt : Z
}.

(** [packet_socket_linux.c:192-202] packet_socket_new, with packet_socket_setup (82-103) and the
    functions it calls *)
Definition packet_socket_new (device_name : string) (r : socket_replies) : exec packet_socket :=
  if sr_socket r <? 0 then Fault Died
  else if sr_index r =? 0 then Fault Died
  else if sr_bind r <? 0 then Fault Died
  else if sr_setsockopt r <? 0 then Fault Died
  else Ok (mk_packet_socket (sr_socket r) device_name (sr_index r) None).

(** ** Receiving *)

(** The kinds of frames of <linux/if_packet.h>. *)
Definition PACKET_HOST : Z := 0.
Definition PACKET_OUTGOING : Z := 4.

(** A frame that the kernel has for the socket: its bytes, sll_pkttype and sll_ifindex of its
    address, and the time that SIOCGSTAMP gives, in seconds and microseconds. *)
Record frame := mk_frame {
  fr_bytes : bytes;
  fr_pkttype : Z;
  fr_ifindex : Z;
  fr_stamp : option (Z * Z)
}.

(** What recvfrom(2) returns: a frame or an error number. *)
Inductive sniff := SNIFF_FRAME (f : frame) | SNIFF_ERROR (errno : Z).

Definition ERRNO_EINTR : Z := 4.

(** [types.h:169-172] timeval_to_usecs *)
Definition timeval_to_usecs (tv : Z * Z) : Z := s64 (tv.1 * 1000000 + tv.2).

(** [packet_socket_linux.c:226-280] packet_socket_receive: the packet and its bytes, or none on
    STATUS_ERR; a frame longer than the buffer is cut *)
Definition packet_socket_receive (psock : packet_socket) (direction : direction_t) (pkt : packet) (s : sniff)
    : exec (option (packet * Z)) :=
  match s with
  | SNIFF_ERROR errno => if errno =? ERRNO_EINTR then Ok None else Fault Died
  | SNIFF_FRAME from =>
      let data := take (Z.to_nat (pk_buffer_bytes pkt)) (fr_bytes from) in
      let in_bytes := zlen data in
      buffer ← put_bytes (pk_buffer pkt) 0 data;
      let pkt := set_pk_buffer buffer pkt in
      _ ← c_assert (in_bytes <=? pk_buffer_bytes pkt);
      if bool_decide (direction = DIRECTION_OUTBOUND) && negb (fr_pkttype from =? PACKET_OUTGOING) then Ok None
      else if bool_decide (direction = DIRECTION_INBOUND) && negb (fr_pkttype from =? PACKET_HOST) then Ok None
      else if negb (fr_ifindex from =? ps_index psock) then Ok None
      else
        match fr_stamp from with
        | None => Fault Died
        | Some tv => Ok (Some (set_pk_time_usecs (timeval_to_usecs tv) pkt, in_bytes))
        end
  end.

(** [packet_socket_linux.c:216-224] packet_socket_writev: what goes out, and whether it returns
    STATUS_OK; [result] is that of writev(2) *)
Definition packet_socket_writev (iov : list bytes) (result : Z) : option bytes :=
  if result <? 0 then None else Some (mjoin iov).

(** ** What the filter lets through *)

(** A frame of this host with this address: the Ethernet source, the type, and the source
    address of the IP header behind it. *)
Definition frame_from (ether : bytes) (ip : ip_address) (f : bytes) : Prop :=
  take 6 (drop 6 f) = ether /\
  if ip_family ip =? AF_INET then take 2 (drop 12 f) = [0x08; 0x00] /\ take 4 (drop 26 f) = take 4 (ip_octets ip)
  else take 2 (drop 12 f) = [0x86; 0xdd] /\ take 16 (drop 22 f) = ip_octets ip.

Lemma be_app l b : be (l ++ [b]) = be l * 256 + b.
Proof. unfold be. by rewrite foldl_app. Qed.

Lemma be_inj l : forall l', length l = length l' -> bytes_ok l -> bytes_ok l' -> be l = be l' -> l = l'.
Proof.
  induction l as [|b l IH] using rev_ind; intros l' Hl Hb Hb' E.
  { by destruct l'. }
  destruct l' as [|b' l'] using rev_ind; [rewrite length_app in Hl; cbn in Hl; lia|]. clear IHl'.
  rewrite !length_app in Hl. cbn in Hl. apply Forall_app in Hb as [Hb1 Hb2], Hb' as [Hb1' Hb2'].
  rewrite !be_app in E. apply Forall_cons_1 in Hb2 as [Hb2 _], Hb2' as [Hb2' _]. unfold is_byte in *.
  assert (b = b' /\ be l = be l') as [-> E'] by lia. by rewrite (IH l') by (done || lia).
Qed.

(** A load that is compared with bytes. *)
Lemma load_eqb n k f l : bytes_ok f -> bytes_ok l -> length l = n -> (0 < n)%nat -> 0 <= k ->
  match load n k f with Some a => a =? be l | None => false end = bool_decide (take n (drop (Z.to_nat k) f) = l).
Proof.
  intros Hf Hl Hn Hpos Hk. unfold load. destruct (k + Z.of_nat n <=? zlen f) eqn:E.
  - apply Z.leb_le in E. unfold zlen in E. case_bool_decide as Ht; [rewrite Ht; apply Z.eqb_refl|].
    apply Z.eqb_neq. intros Hb. apply Ht, be_inj; [rewrite length_take, length_drop; lia| |done|done].
    by apply Forall_take, Forall_drop.
  - apply Z.leb_gt in E. unfold zlen in E. rewrite bool_decide_false; [done|]. intros Ht.
    apply (f_equal length) in Ht. rewrite length_take, length_drop in Ht. lia.
Qed.

Lemma ntohl_be a b c d : is_byte a -> is_byte b -> is_byte c -> is_byte d ->
  ntohl (le_combine [a; b; c; d]) = be [a; b; c; d].
Proof. unfold is_byte, ntohl, be. cbn. intros. zlia. Qed.

Lemma lor_be4 a b c d : is_byte a -> is_byte b -> is_byte c -> is_byte d ->
  Z.lor (Z.lor (Z.lor (Z.shiftl a 24) (Z.shiftl b 16)) (Z.shiftl c 8)) d = be [a; b; c; d].
Proof.
  unfold is_byte. intros. rewrite !Z.shiftl_mul_pow2 by lia.
  rewrite (lor_add_low a (b * 2 ^ 16) 24) by lia.
  replace (a * 2 ^ 24 + b * 2 ^ 16) with ((a * 256 + b) * 2 ^ 16) by lia.
  rewrite (lor_add_low _ (c * 2 ^ 8) 16) by lia.
  replace ((a * 256 + b) * 2 ^ 16 + c * 2 ^ 8) with (((a * 256 + b) * 256 + c) * 2 ^ 8) by lia.
  rewrite (lor_add_low _ d 8) by lia. unfold be. cbn. lia.
Qed.

Lemma lor_be2 a b : is_byte a -> is_byte b -> Z.lor (Z.shiftl a 8) b = be [a; b].
Proof.
  unfold is_byte. intros. rewrite Z.shiftl_mul_pow2 by lia. rewrite (lor_add_low a b 8) by lia. unfold be. cbn. lia.
Qed.

(** A piece of a frame, in two parts. *)
Lemma piece_app n m k (f l l' : bytes) : length l = n -> (0 < m)%nat -> length l' = m ->
  take (n + m) (drop k f) = l ++ l' <-> take n (drop k f) = l /\ take m (drop (k + n) f) = l'.
Proof.
  intros Hl Hm Hl'. rewrite <-take_take_drop, drop_drop. split; [|by intros [-> ->]].
  intros E. destruct (decide (length (take n (drop k f)) = n)) as [Hn|Hn].
  - by apply app_inj_1 in E; [|lia].
  - apply (f_equal length) in E. rewrite !length_app, !length_take, !length_drop in E.
    rewrite length_take, length_drop in Hn. lia.
Qed.

(** A load and a comparison: the program goes on, or ends at the return of 0. *)
Lemma bpf_check n width code k jf c rest f r a :
  (code = BPF_LD_W_ABS /\ width = 4%nat) \/ (code = BPF_LD_H_ABS /\ width = 2%nat) ->
  (forall x, bpf_run n (drop jf rest) x f = Some 0) -> (forall x, bpf_run n rest x f = r) ->
  bpf_run (S (S n)) (mk_filter code 0 0 k :: mk_filter BPF_JEQ_K 0 jf c :: rest) a f =
    if match load width k f with Some x => x =? c | None => false end then r else Some 0.
Proof.
  intros Hcode Hfail Hok. destruct Hcode as [[-> ->] | [-> ->]]; cbn [bpf_run bpf_code bpf_k bpf_jt bpf_jf Z.eqb Pos.eqb
    BPF_LD_W_ABS BPF_LD_H_ABS BPF_JEQ_K].
  - destruct (load 4 k f) as [x|]; [|done]. destruct (x =? c); [apply Hok|apply Hfail].
  - destruct (load 2 k f) as [x|]; [|done]. destruct (x =? c); [apply Hok|apply Hfail].
Qed.

(** The tests of a program, from a list of widths, offsets and bytes. *)
Definition tests (l : list (nat * Z * bytes)) (f : bytes) : bool :=
  forallb (fun t => bool_decide (take t.1.1 (drop (Z.to_nat t.1.2) f) = t.2)) l.

Definition test_ok (t : nat * Z * bytes) : Prop :=
  bytes_ok t.2 /\ length t.2 = t.1.1 /\ (t.1.1 = 4%nat \/ t.1.1 = 2%nat) /\ 0 <= t.1.2.

(** The program made of such tests. *)
Fixpoint test_program (l : list (nat * Z * bytes)) : list sock_filter :=
  match l with
  | [] => [mk_filter BPF_RET_K 0 0 0xffff; mk_filter BPF_RET_K 0 0 0]
  | (width, k, b) :: l' =>
      mk_filter (if decide (width = 4%nat) then BPF_LD_W_ABS else BPF_LD_H_ABS) 0 0 k ::
      mk_filter BPF_JEQ_K 0 (2 * length l' + 1) (be b) :: test_program l'
  end.

Lemma test_program_length l : length (test_program l) = (2 * length l + 2)%nat.
Proof. induction l as [|[[]] l IH]; cbn in *; lia. Qed.

Lemma test_program_end l : drop (2 * length l + 1) (test_program l) = [mk_filter BPF_RET_K 0 0 0].
Proof.
  induction l as [|[[width k] b] l IH]; [done|]. cbn [length test_program].
  replace (2 * S (length l) + 1)%nat with (S (S (2 * length l + 1)))%nat by lia. exact IH.
Qed.

Lemma test_program_run l f : Forall test_ok l -> bytes_ok f -> forall a,
  bpf_run (length (test_program l)) (test_program l) a f = Some (if tests l f then 0xffff else 0).
Proof.
  intros Hl Hf. induction Hl as [|[[width k] b] l (Hb&Hw&H24&Hk) _ IH]; intros a; [done|]. cbn [fst snd] in *.
  cbn [test_program length]. erewrite (bpf_check _ width).
  - rewrite load_eqb by (done || lia). cbn [tests forallb fst snd].
    by destruct (bool_decide (take width (drop (Z.to_nat k) f) = b)).
  - destruct H24 as [-> | ->]; [by left|by right].
  - intros x. rewrite test_program_end, test_program_length. by replace (2 * length l + 2)%nat with (S (2 * length l + 1))%nat by lia.
  - exact IH.
Qed.

Lemma test_program_accepts l f : Forall test_ok l -> bytes_ok f ->
  bpf_accepts (test_program l) f = true <-> tests l f = true.
Proof. intros Hl Hf. unfold bpf_accepts. rewrite test_program_run by done. by destruct (tests l f). Qed.

Lemma le_combine_1 b : le_combine [b] = b.
Proof. cbn. lia. Qed.

(** Loads from lists of known length. *)
Ltac known_loads :=
  cbn [Z.eqb Pos.eqb AF_INET AF_INET6];
  repeat match goal with
    | |- context [ld32 ?l ?k] =>
        let x := eval cbv in (take 4 (drop (Z.to_nat k) l)) in change (ld32 l k) with (@Ok Z (le_combine x))
    | |- context [ld8 ?l ?k] =>
        let x := eval cbv in (take 1 (drop (Z.to_nat k) l)) in change (ld8 l k) with (@Ok Z (le_combine x))
    end; rewrite !bind_Ok_eq.

(** The tests for a client with these addresses. *)
Definition client_tests (ether : bytes) (ip : ip_address) : list (nat * Z * bytes) :=
  [(4%nat, 8, drop 2 ether); (2%nat, 6, take 2 ether)] ++
  if ip_family ip =? AF_INET then
    [(2%nat, 12, [0x08; 0x00]); (4%nat, 0x1a, take 4 (ip_octets ip))]
  else
    [(2%nat, 12, [0x86; 0xdd]); (4%nat, 0x16, take 4 (ip_octets ip)); (4%nat, 0x1a, take 4 (drop 4 (ip_octets ip)));
     (4%nat, 0x1e, take 4 (drop 8 (ip_octets ip))); (4%nat, 0x22, take 4 (drop 12 (ip_octets ip)))].

Lemma set_filter_tests ether ip : bytes_ok ether -> length ether = 6%nat -> ip_ok ip ->
  packet_socket_set_filter ether ip = Ok (test_program (client_tests ether ip)) /\ Forall test_ok (client_tests ether ip).
Proof.
  intros He Hel (Ho&Hol&Hfam). destruct ip as [fam octets]. cbn [ip_family ip_octets] in *.
  destruct ether as [|e0 [|e1 [|e2 [|e3 [|e4 [|e5 []]]]]]]; try done.
  do 16 (destruct octets as [|? octets]; [done|]). destruct octets; [|done].
  unfold bytes_ok in *. rewrite !Forall_cons in He. rewrite !Forall_cons in Ho. destruct_and!. unfold packet_socket_set_filter, client_tests.
  cbn [ip_family ip_octets].
  destruct Hfam as [-> |[-> _]].
  - split.
    + known_loads. rewrite !le_combine_1, !ntohl_be, lor_be4, lor_be2 by done. reflexivity.
    + cbn. repeat apply Forall_cons_2; try apply Forall_nil_2; repeat split; unfold bytes_ok;
        cbn; try lia; repeat (apply Forall_cons_2; [done || (unfold is_byte; lia)|]); apply Forall_nil_2.
  - split.
    + known_loads. rewrite !le_combine_1, !ntohl_be, lor_be4, lor_be2 by done. reflexivity.
    + cbn. repeat apply Forall_cons_2; try apply Forall_nil_2; repeat split; unfold bytes_ok;
        cbn; try lia; repeat (apply Forall_cons_2; [done || (unfold is_byte; lia)|]); apply Forall_nil_2.
Qed.

(** C19. The filter of a wire server passes on exactly the frames of the client under test: those
    from its Ethernet address that are IP packets of its family from its address.  Frames that
    are too short for the headers are dropped. *)
Theorem filter_passes_client_frames (ether : bytes) (ip : ip_address) (f : bytes) :
  bytes_ok ether -> length ether = 6%nat -> ip_ok ip -> bytes_ok f ->
  exists prog, packet_socket_set_filter ether ip = Ok prog /\ (bpf_accepts prog f = true <-> frame_from ether ip f).
Proof.
  intros He Hel Hip Hf. destruct (set_filter_tests ether ip He Hel Hip) as [Hp Ht].
  eexists. split; [exact Hp|]. rewrite test_program_accepts by done.
  unfold tests, client_tests, frame_from. rewrite forallb_app, andb_true_iff. cbn [forallb fst snd].
  rewrite !andb_true_iff, !bool_decide_eq_true.
  pose proof (piece_app 2 4 6 f (take 2 ether) (drop 2 ether)) as Hee. rewrite take_drop in Hee.
  specialize (Hee ltac:(by rewrite length_take, Hel) ltac:(lia) ltac:(by rewrite length_drop, Hel)). cbn [Nat.add] in Hee.
  rewrite Hee. destruct Hip as (_&Hol&_).
  destruct (ip_family ip =? AF_INET); cbn [forallb fst snd].
  - rewrite !andb_true_iff, !bool_decide_eq_true. cbn. tauto.
  - rewrite !andb_true_iff, !bool_decide_eq_true.
    destruct (ip_octets ip) as [|o0 [|o1 [|o2 [|o3 [|o4 [|o5 [|o6 [|o7 [|o8 [|o9 [|o10 [|o11 [|o12 [|o13 [|o14 [|o15 []]]]]]]]]]]]]]]]];
      try done.
    pose proof (piece_app 4 12 22 f [o0; o1; o2; o3] [o4; o5; o6; o7; o8; o9; o10; o11; o12; o13; o14; o15] eq_refl ltac:(lia) eq_refl) as H1.
    pose proof (piece_app 4 8 26 f [o4; o5; o6; o7] [o8; o9; o10; o11; o12; o13; o14; o15] eq_refl ltac:(lia) eq_refl) as H2.
    pose proof (piece_app 4 4 30 f [o8; o9; o10; o11] [o12; o13; o14; o15] eq_refl ltac:(lia) eq_refl) as H3.
    cbn [Nat.add app] in H1, H2, H3. rewrite H1, H2, H3. cbn. tauto.
Qed.

(** A frame of the client, one of another host, one of the client that is an ARP request. *)
Definition client_ether : bytes := [0x02; 0x11; 0x22; 0x33; 0x44; 0x55].
Definition ip_frame (ether : bytes) (type : bytes) (src : bytes) : bytes :=
  [0x02; 0; 0; 0; 0; 1] ++ ether ++ type ++ replicate 12 0 ++ src ++ [192; 0; 2; 1].

Lemma filter_passes_client_frames_witness :
  exists prog, packet_socket_set_filter client_ether ip_192_168_0_1 = Ok prog /\
    (bpf_accepts prog (ip_frame client_ether [8; 0] [192; 168; 0; 1]) = true <->
     frame_from client_ether ip_192_168_0_1 (ip_frame client_ether [8; 0] [192; 168; 0; 1])).
Proof.
  apply (filter_passes_client_frames client_ether ip_192_168_0_1 (ip_frame client_ether [8; 0] [192; 168; 0; 1])).
  - repeat (apply Forall_cons_2; [split; [discriminate|reflexivity]|]). apply Forall_nil_2.
  - reflexivity.
  - split; [|split; [reflexivity|right; split; reflexivity]].
    repeat (apply Forall_cons_2; [split; [discriminate|reflexivity]|]). apply Forall_nil_2.
  - repeat (apply Forall_cons_2; [split; [discriminate|reflexivity]|]). apply Forall_nil_2.
Defined.

Example filter_on_frames :
  (fun f => (fun prog => bpf_accepts prog f) <$> packet_socket_set_filter client_ether ip_192_168_0_1) <$>
    [ip_frame client_ether [8; 0] [192; 168; 0; 1]; ip_frame [2; 0; 0; 0; 0; 9] [8; 0] [192; 168; 0; 1];
     ip_frame client_ether [8; 6] [192; 168; 0; 1]; ip_frame client_ether [8; 0] [192; 168; 0; 2]; client_ether]
  = [Ok true; Ok false; Ok false; Ok false; Ok false].
Proof. vm_compute. reflexivity. Qed.
