(* ===== verification/PacketSocketPcap.v ===== *)
(** * PacketSocketPcap: packet sockets on the BSD systems (packet_socket_pcap.c)

    The packet socket of PacketSocket.v over libpcap, whose functions give the results below.
    The theorems: receiving stays in the packet's buffer and takes the frame behind the
    header of the link type; for a frame that the socket of Linux accepts, both give the
    same packet, and both send the same bytes; but this socket does not look at the
    direction. *)

From S2P Require Import Prelude Headers Packet IpAddress PacketToString PacketSocket.

(** ** Set-up *)

(** Link types of <net/bpf.h>. *)
Definition DLT_NULL : Z := 0.
Definition DLT_EN10MB : Z := 1.
Definition DLT_SLIP : Z := 8.
Definition DLT_RAW : Z := 12.
Definition DLT_LOOP : Z := 108.

(** What the functions of libpcap and ioctl(2) return. *)
Record pcap_replies := mk_pcap_replies {
  pr_create : bool;
  pr_set_snaplen : Z;
  pr_activate : Z;
  pr_selectable_fd : Z;
  pr_ioctl : Z;
  pr_datalink : Z;
  pr_compile : Z;
  pr_setfilter : Z
}.

(** [packet_socket_pcap.c:47-53] struct packet_socket, with the text of its filter *)
Record pcap_socket := mk_pcap_socket {
  pc_name : string;
  pc_offset : Z;
  pc_filter : option string
}.

(** [packet_socket_pcap.c:110-125] packet_socket_setup: the offset of the data, by link type *)
Definition link_offset (data_link : Z) : exec Z :=
  if data_link =? DLT_EN10MB then Ok 0
  else if (data_link =? DLT_LOOP) || (data_link =? DLT_NULL) then Ok 4
  else if (data_link =? DLT_SLIP) || (data_link =? DLT_RAW) then Ok 0
  else Fault Died.

(** [packet_socket_pcap.c:72-126] packet_socket_setup *)
Definition pcap_socket_setup (psock : pcap_socket) (r : pcap_replies) : exec pcap_socket :=
  if negb (pr_create r) then Fault Died
  else if negb (pr_set_snaplen r =? 0) then Fault Died
  else if negb (pr_activate r =? 0) then Fault Died
  else if pr_selectable_fd r <? 0 then Fault Died
  else if pr_ioctl r <? 0 then Fault Died
  else
    offset ← link_offset (pr_datalink r);
    Ok (mk_pcap_socket (pc_name psock) offset (pc_filter psock)).

(** [packet_socket_pcap.c:163-172] packet_socket_new *)
Definition pcap_socket_new (device_name : string) (r : pcap_replies) : exec pcap_socket :=
  pcap_socket_setup (mk_pcap_socket device_name 0 None) r.

(** [packet_socket_pcap.c:138-149] packet_socket_set_filter: the text of the filter *)
Definition filter_text `{InetNtop} (client_ether : bytes) (client_live_ip : ip_address) : exec string :=
  e0 ← ld8 client_ether 0;
  e1 ← ld8 client_ether 1;
  e2 ← ld8 client_ether 2;
  e3 ← ld8 client_ether 3;
  e4 ← ld8 client_ether 4;
  e5 ← ld8 client_ether 5;
  Ok ("ether src " +:+ hex_padded 2 e0 +:+ ":" +:+ hex_padded 2 e1 +:+ ":" +:+ hex_padded 2 e2 +:+ ":"
      +:+ hex_padded 2 e3 +:+ ":" +:+ hex_padded 2 e4 +:+ ":" +:+ hex_padded 2 e5 +:+ " and "
      +:+ (if (ip_family client_live_ip =? AF_INET6)%Z then "ip6" else "ip") +:+ " src "
      +:+ ip_to_string client_live_ip)%string.

(** [packet_socket_pcap.c:129-161] packet_socket_set_filter *)
Definition pcap_socket_set_filter `{InetNtop} (psock : pcap_socket) (client_ether : bytes)
    (client_live_ip : ip_address) (r : pcap_replies) : exec pcap_socket :=
  filter_str ← filter_text client_ether client_live_ip;
  if negb (pr_compile r =? 0) then Fault Died
  else if negb (pr_setfilter r =? 0) then Fault Died
  else Ok (mk_pcap_socket (pc_name psock) (pc_offset psock) (Some filter_str)).

(** ** Sending *)

(** [packet_socket_pcap.c:202-206] packet_socket_writev: the parts into the linear buffer from
    [p] on *)
Fixpoint copy_parts (buf : bytes) (p : Z) (iov : list bytes) : exec bytes :=
  match iov with
  | [] => Ok buf
  | part :: iov' => buf ← put_bytes buf p part; copy_parts buf (p + zlen part) iov'
  end.

(** [packet_socket_pcap.c:185-215] packet_socket_writev: what is injected; [injected] is the
    result of pcap_inject, [malloc] gives the buffer *)
Definition pcap_socket_writev `{Malloc} (iov : list bytes) (injected : Z) : exec bytes :=
  let len := foldl (fun len part => s32 (len + zlen part)) 0 iov in
  buf ← copy_parts (malloc len) 0 iov;
  if negb (injected =? len) then Fault Died else Ok buf.

(** ** Receiving *)

(** What pcap_next_ex gives: its status and, for status 1, the time, caplen, len and the bytes
    that were captured. *)
Record capture := mk_capture {
  cp_status : Z;
  cp_ts : Z * Z;
  cp_caplen : Z;
  cp_len : Z;
  cp_data : bytes
}.

(** [packet_socket_pcap.c:217-288] packet_socket_receive, on FreeBSD and NetBSD (and OpenBSD, whose
    bpf_timeval_to_usecs is the same): the packet and its bytes, or none on STATUS_ERR *)
Definition pcap_socket_receive (psock : pcap_socket) (direction : direction_t) (pkt : packet) (c : capture)
    : exec (option (packet * Z)) :=
  if cp_status c =? 1 then
    let pkt := set_pk_time_usecs (timeval_to_usecs (cp_ts c)) pkt in
    if negb (cp_caplen c =? cp_len c) then Fault Died
    else
      _ ← c_assert (cp_len c <=? pk_buffer_bytes pkt);
      _ ← c_assert (pc_offset psock <? cp_len c);
      let in_bytes := s32 (cp_len c - pc_offset psock) in
      data ← get_bytes (cp_data c) (pc_offset psock) in_bytes;
      buffer ← put_bytes (pk_buffer pkt) 0 data;
      Ok (Some (set_pk_buffer buffer pkt, in_bytes))
  else if cp_status c =? 0 then Ok None
  else Fault Died.

(** ** What is sent *)

Lemma copy_parts_eq iov done_ rest : zlen (mjoin iov) <= zlen rest ->
  copy_parts (done_ ++ rest) (zlen done_) iov = Ok (done_ ++ mjoin iov ++ drop (length (mjoin iov)) rest).
Proof.
  revert done_ rest. induction iov as [|part iov IH]; intros done_ rest Hl; [done|].
  change (mjoin (part :: iov)) with (part ++ mjoin iov) in *. cbn [copy_parts]. rewrite zlen_app in Hl. pose proof (zlen_nonneg (mjoin iov)).
  assert (E : put_bytes (done_ ++ rest) (zlen done_) part = Ok ((done_ ++ part) ++ drop (length part) rest)).
  { apply put_bytes_Ok. split; [apply in_range_true; rewrite zlen_app; pose proof (zlen_nonneg done_); pose proof (zlen_nonneg part); lia|].
    unfold zlen. by rewrite Nat2Z.id, take_app_length, drop_app_add', <-app_assoc. }
  rewrite E. cbn [mbind exec_bind]. rewrite <-zlen_app, IH by (unfold zlen in *; rewrite length_drop; lia).
  by rewrite drop_drop, length_app, <-!app_assoc.
Qed.

Lemma parts_length_from iov : forall k, 0 <= k -> k + zlen (mjoin iov : bytes) < 2 ^ 31 ->
  foldl (fun len (part : bytes) => s32 (len + zlen part)) k iov = k + zlen (mjoin iov : bytes).
Proof.
  induction iov as [|part iov IH]; intros k Hk Hl; [unfold zlen; cbn; lia|].
  change (mjoin (part :: iov)) with (part ++ mjoin iov) in *. cbn [foldl]. rewrite zlen_app in *.
  pose proof (zlen_nonneg (mjoin iov : bytes)). pose proof (zlen_nonneg part).
  rewrite s32_small, IH by lia. lia.
Qed.

Lemma parts_length iov : zlen (mjoin iov : bytes) < 2 ^ 31 ->
  foldl (fun len (part : bytes) => s32 (len + zlen part)) 0 iov = zlen (mjoin iov : bytes).
Proof. intros. by rewrite parts_length_from. Qed.

(** Both kinds of socket send the same bytes: the parts one after the other. *)
Theorem pcap_writev_as_linux `{Malloc} (iov : list bytes) (result : Z) : zlen (mjoin iov : bytes) < 2 ^ 31 -> 0 <= result ->
  Some <$> pcap_socket_writev iov (zlen (mjoin iov)) = Ok (packet_socket_writev iov result).
Proof.
  intros Hl Hr. unfold pcap_socket_writev, packet_socket_writev. rewrite parts_length by done.
  pose proof (copy_parts_eq iov []) as C. set (m := mjoin iov : bytes) in *.
  pose proof (zlen_nonneg m) as H0. pose proof (malloc_zlen (zlen m) H0) as Hm.
  specialize (C (malloc (zlen m)) (Z.eq_le_incl _ _ (eq_sym Hm))). change (zlen []) with 0 in C. cbn [app] in C. rewrite C.
  cbn [mbind exec_bind]. rewrite Z.eqb_refl. cbn [negb fmap exec_fmap].
  rewrite (proj2 (Z.ltb_ge result 0)) by lia. rewrite drop_ge, app_nil_r by (unfold zlen in *; lia). done.
Qed.

(** ** What is received *)

(** A socket and a packet as they are when something is received. *)
Definition offset_ok (psock : pcap_socket) : Prop := pc_offset psock = 0 \/ pc_offset psock = 4.

Lemma setup_offset device r psock : pcap_socket_new device r = Ok psock -> offset_ok psock.
Proof.
  unfold pcap_socket_new, pcap_socket_setup, link_offset. intros E.
  repeat match goal with E : (if ?b then _ else _) = Ok _ |- _ => destruct b; [done|] end.
  apply exec_bind_Ok in E as (offset & Eo & [= <-]). unfold offset_ok. cbn.
  repeat case_match; simplify_eq; auto.
Qed.

(** A capture as libpcap documents it: caplen bytes are there, of a frame of len bytes. *)
Definition capture_ok (c : capture) : Prop := zlen (cp_data c) = cp_caplen c /\ cp_len c < 2 ^ 31.

(** Receiving takes exactly what is behind the link header, and never leaves the packet's buffer
    or the capture: a frame that is cut, too long or empty ends the program. *)
Theorem pcap_receive_spec psock direction pkt c :
  offset_ok psock -> capture_ok c -> zlen (pk_buffer pkt) = pk_buffer_bytes pkt ->
  match pcap_socket_receive psock direction pkt c with
  | Ok (Some (pkt', in_bytes)) =>
      cp_status c = 1 /\ in_bytes = cp_len c - pc_offset psock /\ 0 < in_bytes <= pk_buffer_bytes pkt
      /\ take (Z.to_nat in_bytes) (pk_buffer pkt') = drop (Z.to_nat (pc_offset psock)) (cp_data c)
      /\ zlen (pk_buffer pkt') = pk_buffer_bytes pkt
      /\ pk_time_usecs pkt' = timeval_to_usecs (cp_ts c)
  | Ok None => cp_status c = 0
  | Fault e => e = Died \/ e = AssertFailed
  end.
Proof.
  intros Ho [Hd Hl] Hb. unfold pcap_socket_receive. destruct (cp_status c =? 1) eqn:E1; breflect.
  2: { destruct (cp_status c =? 0) eqn:E0; breflect; auto. }
  destruct (cp_caplen c =? cp_len c) eqn:E2; breflect; cbn [negb]; [|by left].
  set (p := set_pk_time_usecs _ pkt). change (pk_buffer_bytes p) with (pk_buffer_bytes pkt).
  change (pk_buffer p) with (pk_buffer pkt).
  destruct (cp_len c <=? pk_buffer_bytes pkt) eqn:E3; breflect; cbn [c_assert mbind exec_bind]; [|by right].
  destruct (pc_offset psock <? cp_len c) eqn:E4; breflect; cbn [c_assert mbind exec_bind]; [|by right].
  assert (Hs : s32 (cp_len c - pc_offset psock) = cp_len c - pc_offset psock) by (destruct Ho as [H|H]; rewrite H in *; apply s32_small; lia).
  rewrite Hs. set (data := drop (Z.to_nat (pc_offset psock)) (cp_data c)).
  assert (Hz : zlen data = cp_len c - pc_offset psock)
    by (unfold data, zlen in *; rewrite length_drop; destruct Ho as [H|H]; rewrite H in *; lia).
  assert (Eg : get_bytes (cp_data c) (pc_offset psock) (cp_len c - pc_offset psock) = Ok data).
  { apply get_bytes_Ok. split; [apply in_range_true; destruct Ho as [H|H]; rewrite H in *; lia|].
    symmetry. apply take_ge. unfold zlen in *. lia. }
  rewrite Eg. cbn [mbind exec_bind]. destruct (put_bytes_in (pk_buffer pkt) 0 data) as [buffer Ep];
    [lia|destruct Ho as [H|H]; rewrite H in *; lia|].
  rewrite Ep. cbn [mbind exec_bind].
  apply put_bytes_zlen in Ep as Hp. apply put_bytes_Ok in Ep as [_ Eb].
  change (pk_buffer (set_pk_buffer buffer p)) with buffer. split_and!; try done; try lia.
  - destruct Ho as [H|H]; rewrite H in *; lia.
  - rewrite Eb, <-Hz. change (take (Z.to_nat 0) ?l) with (@nil Z). cbn [app]. unfold zlen. rewrite Nat2Z.id. apply take_app_length.
Qed.

(** A frame that the socket of Linux gives to the program is given by this one too, captured on
    an Ethernet or raw link: the same packet, with the same bytes and time. *)
Theorem pcap_receive_as_linux lsock psock direction pkt f tv result :
  pc_offset psock = 0 -> 0 < zlen (fr_bytes f) <= pk_buffer_bytes pkt -> zlen (fr_bytes f) < 2 ^ 31 ->
  fr_stamp f = Some tv -> packet_socket_receive lsock direction pkt (SNIFF_FRAME f) = Ok (Some result) ->
  pcap_socket_receive psock direction pkt
    (mk_capture 1 tv (zlen (fr_bytes f)) (zlen (fr_bytes f)) (fr_bytes f)) = Ok (Some result).
Proof.
  intros Ho Hl Hlt Ht E. unfold packet_socket_receive in E. rewrite take_ge in E by (unfold zlen in *; lia).
  apply exec_bind_Ok in E as (buffer & Ep & E). apply exec_bind_Ok in E as (_ & _ & E).
  rewrite Ht in E. repeat match goal with E : (if ?b then _ else _) = Ok _ |- _ => destruct b; [done|] end.
  injection E as <-. unfold pcap_socket_receive. cbn [cp_status cp_ts cp_caplen cp_len cp_data].
  rewrite !Z.eqb_refl, Ho. cbn [negb]. set (p := set_pk_time_usecs _ pkt).
  change (pk_buffer_bytes p) with (pk_buffer_bytes pkt). change (pk_buffer p) with (pk_buffer pkt).
  rewrite (proj2 (Z.leb_le _ _)), (proj2 (Z.ltb_lt _ _)) by lia. cbn [c_assert mbind exec_bind].
  rewrite Z.sub_0_r, s32_small by lia.
  assert (Eg : get_bytes (fr_bytes f) 0 (zlen (fr_bytes f)) = Ok (fr_bytes f)).
  { apply get_bytes_Ok. split; [apply in_range_true; lia|]. symmetry. apply take_ge. unfold zlen. lia. }
  rewrite Eg. cbn [mbind exec_bind]. by rewrite Ep.
Qed.

(** The direction that is asked for makes no difference: where the socket of Linux skips the
    frames of the other direction, this one gives them to the program. *)
Theorem pcap_ignores_direction psock d d' pkt c : pcap_socket_receive psock d pkt c = pcap_socket_receive psock d' pkt c.
Proof. done. Qed.

(** ** Examples *)

Definition sample_frame : frame := mk_frame (replicate 20 7) PACKET_HOST 3 (Some (5, 250)).
Definition sample_buffer : packet := @packet_new zero_malloc 64.

Lemma pcap_receive_as_linux_witness :
  exists result, packet_socket_receive (mk_packet_socket 4 "tun0" 3 None) DIRECTION_INBOUND sample_buffer (SNIFF_FRAME sample_frame)
      = Ok (Some result) /\
    pcap_socket_receive (mk_pcap_socket "tun0" 0 None) DIRECTION_INBOUND sample_buffer
      (mk_capture 1 (5, 250) 20 20 (replicate 20 7)) = Ok (Some result).
Proof.
  eexists. split; [vm_compute; reflexivity|].
  apply (pcap_receive_as_linux (mk_packet_socket 4 "tun0" 3 None) (mk_pcap_socket "tun0" 0 None) DIRECTION_INBOUND
    sample_buffer sample_frame (5, 250)); vm_compute; try reflexivity; split; congruence.
Defined.

Lemma pcap_receive_spec_witness :
  match pcap_socket_receive (mk_pcap_socket "lo0" 4 None) DIRECTION_OUTBOUND sample_buffer
    (mk_capture 1 (5, 250) 20 20 (replicate 20 7)) with
  | Ok (Some (_, in_bytes)) => in_bytes = 16
  | _ => False
  end.
Proof.
  pose proof (pcap_receive_spec (mk_pcap_socket "lo0" 4 None) DIRECTION_OUTBOUND sample_buffer
    (mk_capture 1 (5, 250) 20 20 (replicate 20 7))) as R.
  destruct (pcap_socket_receive _ _ _ _) as [[[p n]|]|] eqn:E; [|vm_compute in E; discriminate E..].
  apply R; [by right|by split; vm_compute|vm_compute; reflexivity].
Defined.

Lemma pcap_writev_as_linux_witness :
  Some <$> @pcap_socket_writev zero_malloc [[1; 2]; [3]] 3 = Ok (packet_socket_writev [[1; 2]; [3]] 3).
Proof. apply (@pcap_writev_as_linux zero_malloc [[1; 2]; [3]] 3); vm_compute; congruence. Defined.
