(* ===== verification/Netdev.v ===== *)
(** * Netdev: the devices that packets go through

    The network devices of the three ways to run a test: a tun device for the local kernel
    (netdev.c), a packet socket on an Ethernet device for a wire server
    (wire_server_netdev.c), and the functions of a user-level stack (so_testing.c); and their
    set-up (netdev.c, wire_client_netdev.c, net_utils.c, ip_address.c).

    What a device promises the interpreter is the class [Netdev]: its packets come one after
    the other, as a queue.  The interpreter's model works on such a queue; the instances show
    which packets are in it, and that a device waits where it ends. *)

From S2P Require Import Prelude Headers Packet IpAddress IpPacket PacketParser Socket RunState PacketMap RunPacket PacketToString RunEvents Config PacketSocket.

(** [packet.h:55-55] PACKET_READ_BYTES *)
Definition PACKET_READ_BYTES : Z := 64 * 1024.

(** ** Receiving *)

Section Receive.
Context `{Malloc}.

(** [netdev.c:468-506] netdev_receive_loop: the calls left, the packets sniffed, and the packet
    or the error *)
Fixpoint netdev_receive_loop (psock : packet_socket) (layer : packet_layer_t) (direction : direction_t)
    (calls : list sniff) (num_packets : Z) : exec (list sniff * Z * result packet) :=
  match calls with
  | [] => Fault Blocked
  | call :: calls' =>
      let pkt := packet_new PACKET_READ_BYTES in
      r ← packet_socket_receive psock direction pkt call;
      match r with
      | None => netdev_receive_loop psock layer direction calls' num_packets
      | Some (pkt, in_bytes) =>
          let num_packets := num_packets + 1 in
          '(pkt, result) ← parse_packet pkt in_bytes layer;
          match result with
          | PACKET_OK => Ok (calls', num_packets, Success pkt)
          | PACKET_BAD error => Ok (calls', num_packets, Failure error)
          | PACKET_UNKNOWN_L4 => netdev_receive_loop psock layer direction calls' num_packets
          end
      end
  end.

(** What a read(2) of the tun device returns: a number of bytes or an error number. *)
Inductive tun_read := TUN_BYTES (n : Z) | TUN_ERROR (errno : Z).

(** The bytes of struct virtio_net_hdr. *)
Definition sizeof_virtio_net_hdr : Z := 10.

(** [netdev.c:429-450] local_netdev_read_queue: the reads left *)
Fixpoint local_netdev_read_queue (n : nat) (reads : list tun_read) : exec (list tun_read) :=
  match n with
  | O => Ok reads
  | S n' =>
      match reads with
      | [] => Fault Blocked
      | TUN_BYTES in_bytes :: reads' =>
          _ ← c_assert (in_bytes <=? sizeof_virtio_net_hdr + 1);
          local_netdev_read_queue n' reads'
      | TUN_ERROR errno :: reads' =>
          if errno =? ERRNO_EINTR then local_netdev_read_queue n' reads' else Fault Died
      end
  end.

(** [netdev.c:60-68] struct local_netdev, with what its descriptors will give *)
Record local_netdev := mk_local_netdev {
  ln_name : string;
  ln_tun_fd : Z;
  ln_control_fd : Z;
  ln_index : Z;
  ln_psock : packet_socket;
  ln_calls : list sniff;
  ln_reads : list tun_read
}.

Definition set_ln_queues (calls : list sniff) (reads : list tun_read) (d : local_netdev) : local_netdev :=
  mk_local_netdev (ln_name d) (ln_tun_fd d) (ln_control_fd d) (ln_index d) (ln_psock d) calls reads.

(** [netdev.c:452-466] local_netdev_receive *)
Definition local_netdev_receive (d : local_netdev) : exec (local_netdev * result packet) :=
  '(calls, num_packets, status) ← netdev_receive_loop (ln_psock d) PACKET_LAYER_3_IP DIRECTION_OUTBOUND (ln_calls d) 0;
  reads ← local_netdev_read_queue (Z.to_nat num_packets) (ln_reads d);
  Ok (set_ln_queues calls reads d, status).

(** [wire_server_netdev.c:39-49] struct wire_server_netdev *)
Record wire_server_netdev := mk_wire_server_netdev {
  wn_name : string;
  wn_config : full_config;
  wn_client_ether_addr : bytes;
  wn_server_ether_addr : bytes;
  wn_psock : packet_socket;
  wn_calls : list sniff
}.

Definition set_wn_calls (calls : list sniff) (d : wire_server_netdev) : wire_server_netdev :=
  mk_wire_server_netdev (wn_name d) (wn_config d) (wn_client_ether_addr d) (wn_server_ether_addr d) (wn_psock d) calls.

(** [wire_server_netdev.c:187-198] wire_server_netdev_receive *)
Definition wire_server_netdev_receive (d : wire_server_netdev) : exec (wire_server_netdev * result packet) :=
  '(calls, _, status) ← netdev_receive_loop (wn_psock d) PACKET_LAYER_2_ETHERNET DIRECTION_INBOUND (wn_calls d) 0;
  Ok (set_wn_calls calls d, status).

(** [so_testing.c:34-37] struct so_netdev: what the stack's netdev_receive will give, the
    bytes of a packet with the time, or an error; and the global packetdrill *)
Record so_netdev := mk_so_netdev {
  so_receives : list (option (bytes * Z));
  so_packetdrill : bool
}.

(** [so_testing.c:68-108] so_netdev_receive: a stack fills the buffer, at most *)
Fixpoint so_receive_loop (packetdrill : bool) (calls : list (option (bytes * Z)))
    : exec (list (option (bytes * Z)) * result packet) :=
  match calls with
  | [] => Fault Blocked
  | call :: calls' =>
      let next := if packetdrill then so_receive_loop packetdrill calls' else Ok (calls', Failure "") in
      match call with
      | None => next
      | Some (data, time) =>
          let pkt := packet_new PACKET_READ_BYTES in
          buffer ← put_bytes (pk_buffer pkt) 0 data;
          let pkt := set_pk_time_usecs time (set_pk_buffer buffer pkt) in
          '(pkt, result) ← parse_packet pkt (zlen data) PACKET_LAYER_3_IP;
          match result with
          | PACKET_OK => Ok (calls', Success pkt)
          | PACKET_BAD error => Ok (calls', Failure error)
          | PACKET_UNKNOWN_L4 => next
          end
      end
  end.
Definition so_netdev_receive (d : so_netdev) : exec (so_netdev * result packet) :=
  '(calls, status) ← so_receive_loop (so_packetdrill d) (so_receives d);
  Ok (mk_so_netdev calls (so_packetdrill d), status).

(** ** Sending *)

(** [netdev.c:401-405] the assertions of local_netdev_send and so_netdev_send *)
Definition check_sent (pkt : packet) : exec unit :=
  _ ← c_assert (0 <? pk_ip_bytes pkt);
  _ ← c_assert (non_null (pk_ipv4 pkt) || non_null (pk_ipv6 pkt));
  c_assert (non_null (pk_tcp pkt) || non_null (pk_udp pkt) || non_null (pk_icmpv4 pkt) || non_null (pk_icmpv6 pkt)).

(** The bytes of the IP packet. *)
Definition sent_bytes (pkt : packet) : exec bytes :=
  start ← packet_start pkt;
  get_bytes (pk_buffer pkt) start (pk_ip_bytes pkt).

(** The types of <linux/virtio_net.h>. *)
Definition VIRTIO_NET_HDR_GSO_TCPV4 : Z := 1.
Definition VIRTIO_NET_HDR_GSO_TCPV6 : Z := 4.

(** [netdev.c:372-392] linux_tun_write: what is written; a failed write is only reported *)
Definition linux_tun_write (pkt : packet) : exec bytes :=
  data ← sent_bytes pkt;
  let '(gso_type, gso_size) :=
    if non_null (pk_tcp pkt) && negb (pk_mss pkt =? 0) then
      (if non_null (pk_ipv4 pkt) then VIRTIO_NET_HDR_GSO_TCPV4 else VIRTIO_NET_HDR_GSO_TCPV6, u16 (pk_mss pkt))
    else (0, 0) in
  Ok ([0; gso_type; 0; 0] ++ le_split 2 gso_size ++ [0; 0; 0; 0] ++ data).

(** [netdev.c:395-417] local_netdev_send *)
Definition local_netdev_send (pkt : packet) : exec bytes :=
  _ ← check_sent pkt;
  linux_tun_write pkt.

(** [so_testing.c:53-66] so_netdev_send: what the stack is given *)
Definition so_netdev_send (pkt : packet) : exec bytes :=
  _ ← check_sent pkt;
  sent_bytes pkt.

(** [wire_server_netdev.c:159-185] wire_server_netdev_send: the frame that is written, if
    writev(2) does not fail *)
Definition wire_server_netdev_send (d : wire_server_netdev) (pkt : packet) (result : Z) : exec (option bytes) :=
  type ← ether_type_for_family (packet_address_family pkt);
  let ether := wn_client_ether_addr d ++ wn_server_ether_addr d ++ le_split 2 (htons type) in
  data ← sent_bytes pkt;
  Ok (packet_socket_writev [ether; data] result).

(** [wire_client_netdev.c:143-161] wire_client_netdev_send and wire_client_netdev_receive *)
Definition wire_client_netdev_send {A} (pkt : packet) : exec A := Fault AssertFailed.
Definition wire_client_netdev_receive {A} : exec A := Fault AssertFailed.

End Receive.

(** ** Addresses of interfaces *)

Definition IFNAMSIZ : Z := 16.

(** An entry of getifaddrs(3): the name and the socket address, if it has one. *)
Definition ifaddr : Type := string * option bytes.

(** [ip_address.c:263-297] get_ip_device: the name of the device, if there is one *)
Fixpoint get_ip_device (ip : ip_address) (ifaddr_list : list ifaddr) : exec (option string) :=
  match ifaddr_list with
  | [] => Ok None
  | (_, None) :: rest => get_ip_device ip rest
  | (name, Some ifa_addr) :: rest =>
      family ← ld16 ifa_addr 0;
      if negb (family =? ip_family ip) then get_ip_device ip rest
      else
        length ← sockaddr_length family;
        '(interface_ip, _) ← ip_from_sockaddr ifa_addr length;
        same ← is_equal_ip ip interface_ip;
        if same : bool then
          _ ← c_assert (Z.of_nat (String.length name) <? IFNAMSIZ);
          Ok (Some name)
        else get_ip_device ip rest
  end.

(** [ip_address.c:299-304] is_ip_local *)
Definition is_ip_local (ip : ip_address) (ifaddr_list : list ifaddr) : exec bool :=
  dev ← get_ip_device ip ifaddr_list;
  Ok (bool_decide (is_Some dev)).

Section Setup.
Context `{Malloc, InetNtop, Shell}.

Definition dev_null : string := " > /dev/null 2>&1".

(** [net_utils.c:45-65] net_add_ipv4_address: the command; its result is not used *)
Definition net_add_ipv4_address (dev_name : string) (ip : ip_address) (prefix_len : Z) : list string :=
  ["ip addr add " +:+ ip_to_string ip +:+ "/" +:+ dec prefix_len +:+ " dev " +:+ dev_name +:+ dev_null].

(** [net_utils.c:68-103] net_add_ipv6_address: the command; the wait that may follow changes
    nothing here *)
Definition net_add_ipv6_address (dev_name : string) (ip : ip_address) (prefix_len : Z) : list string :=
  ["ip addr add " +:+ ip_to_string ip +:+ "/" +:+ dec prefix_len +:+ " dev " +:+ dev_name +:+ dev_null].

(** [net_utils.c:105-120] net_add_dev_address *)
Definition net_add_dev_address (dev_name : string) (ip : ip_address) (prefix_len : Z) : exec (list string) :=
  if ip_family ip =? AF_INET then Ok (net_add_ipv4_address dev_name ip prefix_len)
  else if ip_family ip =? AF_INET6 then Ok (net_add_ipv6_address dev_name ip prefix_len)
  else Fault AssertFailed.

(** [net_utils.c:122-144] net_del_dev_address *)
Definition net_del_dev_address (dev_name : string) (ip : ip_address) (prefix_len : Z) : list string :=
  ["ip addr del " +:+ ip_to_string ip +:+ "/" +:+ dec prefix_len +:+ " dev " +:+ dev_name +:+ dev_null].

(** [net_utils.c:154-172] net_setup_dev_address: the commands it runs *)
Definition net_setup_dev_address (dev_name : string) (ip : ip_address) (prefix_len : Z) (ifaddr_list : list ifaddr)
    : exec (list string) :=
  found ← get_ip_device ip ifaddr_list;
  match found with
  | Some cur_dev_name =>
      if String.eqb cur_dev_name dev_name then Ok []
      else
        add ← net_add_dev_address dev_name ip prefix_len;
        Ok (net_del_dev_address cur_dev_name ip prefix_len ++ add)
  | None => net_add_dev_address dev_name ip prefix_len
  end.

(** ** The device of local tests *)

(** What the system calls of the set-up return: the addresses of the interfaces before the
    device is there and after, open(2), the name that TUNSETIFF leaves or its failure,
    if_nametoindex(3), TUNSETOFFLOAD, the flags or the failure of SIOCGIFFLAGS, SIOCSIFFLAGS,
    and socket(2). *)
Record device_replies := mk_device_replies {
  dr_before : list ifaddr;
  dr_after : list ifaddr;
  dr_tun_fd : Z;
  dr_setiff : string -> option string;
  dr_index : Z;
  dr_offload : Z;
  dr_getflags : Z;
  dr_setflags : Z;
  dr_control_fd : Z;
  dr_psock : socket_replies
}.

(** [netdev.c:102-109] check_remote_address, also wire_client_netdev.c:53-60 *)
Definition check_remote_address (c : full_config) (ifaddr_list : list ifaddr) : exec unit :=
  is_local ← is_ip_local (fc_live_remote_ip c) ifaddr_list;
  if is_local : bool then Fault Died else Ok tt.

(** [netdev.c:114-120] check_local_anyip *)
Definition check_local_anyip (c : full_config) (ifaddr_list : list ifaddr) : exec unit :=
  is_local ← is_ip_local (fc_live_local_ip c) ifaddr_list;
  if is_local : bool then Fault Died else Ok tt.

(** A command that must be started. *)
Definition must_start (command : string) : exec (list string) :=
  if system command <? 0 then Fault Died else Ok [command].

(** [wrap.c:44-68] wrap_socket: the descriptor *)
Definition wrap_socket (socket : Z) : exec Z := if socket <? 0 then Fault Died else Ok socket.

(** The character number [i] of a text, 0 from its end on. *)
Definition char_at (s : string) (i : nat) : Z := byte_at (string_bytes s) (Z.of_nat i).

(** [netdev.c:123-227] create_device, on Linux: the name and descriptors, and the commands *)
Definition create_device (c : full_config) (r : device_replies) : exec (string * Z * Z * Z * list string) :=
  if dr_tun_fd r <? 0 then Fault Died
  else
    match dr_setiff r ("tun" +:+ dec (fc_tun_id c)) with
    | None => Fault Died
    | Some name =>
        if negb (char_at name 3 =? fc_tun_id c + 48) then Fault Died
        else if dr_index r =? 0 then Fault Died
        else
          speed ←
            (if negb (fc_speed c =? TUN_DRIVER_SPEED_CUR) then
               a ← must_start ("ethtool -s " +:+ name +:+ " speed " +:+ dec (fc_speed c) +:+ " autoneg off");
               b ← must_start ("ifconfig " +:+ name +:+ " down; sleep 1; ifconfig " +:+ name +:+ " up; sleep 1");
               Ok (a ++ b)
             else Ok []);
          mtu ←
            (if negb (fc_mtu c =? TUN_DRIVER_DEFAULT_MTU)
             then must_start ("ifconfig " +:+ name +:+ " mtu " +:+ dec (fc_mtu c)) else Ok []);
          control_fd ← wrap_socket (dr_control_fd r);
          Ok (name, dr_tun_fd r, control_fd, dr_index r, speed ++ mtu)
    end.

(** [netdev.c:230-238] set_device_offload_flags *)
Definition set_device_offload_flags (r : device_replies) : exec unit :=
  if negb (dr_offload r =? 0) then Fault Died else Ok tt.

(** [netdev.c:241-251] bring_up_device *)
Definition bring_up_device (r : device_replies) : exec unit :=
  if dr_getflags r <? 0 then Fault Died
  else if dr_setflags r <? 0 then Fault Died
  else Ok tt.

(** [netdev.c:256-302] route_traffic_to_device, on Linux *)
Definition route_traffic_to_device (c : full_config) (name : string) : exec (list string) :=
  let ip := if fc_wire_protocol c =? AF_INET then "ip -4 route " else "ip -6 route " in
  let command :=
    ip +:+ "del " +:+ fc_live_remote_prefix_string c +:+ dev_null +:+ " ; " +:+
    ip +:+ "add " +:+ fc_live_remote_prefix_string c +:+ " dev " +:+ name +:+ " " +:+
    (if fc_is_anyip c then "" else "via " +:+ fc_live_gateway_ip_string c) +:+ dev_null in
  let result := system command in
  if (result =? -1) || negb (WEXITSTATUS result =? 0) then Fault Died else Ok [command].

(** [netdev.c:304-328] local_netdev_new, with the commands that it runs and what the
    descriptors will give *)
Definition local_netdev_new (c : full_config) (r : device_replies) (calls : list sniff) (reads : list tun_read)
    : exec (local_netdev * list string) :=
  _ ← check_remote_address c (dr_before r);
  '(name, tun_fd, control_fd, index, commands) ← create_device c r;
  _ ← set_device_offload_flags r;
  _ ← bring_up_device r;
  address ← (if fc_is_anyip c then _ ← check_local_anyip c (dr_after r); Ok []
             else net_setup_dev_address name (fc_live_local_ip c) (fc_live_prefix_len c) (dr_after r));
  route ← route_traffic_to_device c name;
  psock ← packet_socket_new name (dr_psock r);
  Ok (mk_local_netdev name tun_fd control_fd index psock calls reads, commands ++ address ++ route).

(** [netdev.c:330-344] local_netdev_free: the descriptors that it closes *)
Definition local_netdev_free (d : local_netdev) : list Z :=
  (if 0 <=? ps_packet_fd (ln_psock d) then [ps_packet_fd (ln_psock d)] else []) ++
  (if 0 <=? ln_tun_fd d then [ln_tun_fd d] else []) ++
  (if 0 <=? ln_control_fd d then [ln_control_fd d] else []).

(** ** The devices of wire tests *)

(** [wire_client_netdev.c:64-106] route_traffic_to_wire_server, on Linux *)
Definition route_traffic_to_wire_server (c : full_config) (name : string) : list string :=
  let ip := if fc_wire_protocol c =? AF_INET6 then "ip -6 route " else "ip  route " in
  [ip +:+ "del " +:+ fc_live_remote_prefix_string c +:+ dev_null +:+ " ; " +:+
   ip +:+ "add " +:+ fc_live_remote_prefix_string c +:+ " dev " +:+ name +:+ " via " +:+
   fc_live_gateway_ip_string c +:+ dev_null].

(** [wire_client_netdev.c:108-129] wire_client_netdev_new: the commands that it runs *)
Definition wire_client_netdev_new (c : full_config) (before : list ifaddr) : exec (string * list string) :=
  let name := fc_wire_client_device c in
  _ ← check_remote_address c before;
  address ← net_setup_dev_address name (fc_live_local_ip c) (fc_live_prefix_len c) before;
  Ok (name, address ++ route_traffic_to_wire_server c name).

(** [wire_server_netdev.c:60-101] wire_server_netdev_init: the commands that it runs *)
Definition wire_server_netdev_init : list string :=
  ["(ethtool --offload eth0 lro off gro off;  ethtool --offload eth1 lro off gro off;  " +:+
   "ethtool --offload eth2 lro off gro off)  > /dev/null 2>&1";
   "ip6tables -F OUTPUT; ip6tables -A OUTPUT -p icmpv6 --icmpv6-type 1 -j DROP"]%string.

(** [wire_server_netdev.c:103-139] wire_server_netdev_new, with the commands that it runs *)
Definition wire_server_netdev_new (c : full_config) (wire_server_device : string)
    (client_ether_addr server_ether_addr : bytes) (ifaddr_list : list ifaddr) (r : socket_replies) (calls : list sniff)
    : exec (wire_server_netdev * list string) :=
  commands ← net_setup_dev_address wire_server_device (fc_live_gateway_ip c) (fc_live_prefix_len c) ifaddr_list;
  psock ← packet_socket_new wire_server_device r;
  filter ← packet_socket_set_filter client_ether_addr (fc_live_local_ip c);
  let psock := mk_packet_socket (ps_packet_fd psock) (ps_name psock) (ps_index psock) (Some filter) in
  Ok (mk_wire_server_netdev wire_server_device c client_ether_addr server_ether_addr psock calls, commands).

(** [wire_server_netdev.c:141-157] wire_server_netdev_free: the commands and the descriptors *)
Definition wire_server_netdev_free (d : wire_server_netdev) : list string * list Z :=
  (net_del_dev_address (wn_name d) (fc_live_gateway_ip (wn_config d)) (fc_live_prefix_len (wn_config d)),
   if 0 <=? ps_packet_fd (wn_psock d) then [ps_packet_fd (wn_psock d)] else []).

End Setup.

(** ** What a device promises *)

(** [netdev.h:43-57] struct netdev_ops: the packets that a device will give, one after the other;
    with none left it waits *)
Class Netdev (D : Type) := {
  netdev_receive : D -> exec (D * result packet);
  netdev_ok : D -> Prop;
  netdev_queue : D -> list (result packet);
  netdev_receive_next : forall d, netdev_ok d ->
    match netdev_queue d with
    | [] => netdev_receive d = Fault Blocked
    | r :: rest => exists d', netdev_receive d = Ok (d', r) /\ netdev_ok d' /\ netdev_queue d' = rest
    end
}.

Section Devices.
Context `{Malloc}.

(** A call of recvfrom(2) that gives a frame of a size that fits, with a time, or is
    interrupted. *)
Definition call_ok (call : sniff) : Prop :=
  match call with
  | SNIFF_ERROR errno => errno = ERRNO_EINTR
  | SNIFF_FRAME f => bytes_ok (fr_bytes f) /\ zlen (fr_bytes f) < PACKET_READ_BYTES /\ is_Some (fr_stamp f)
  end.

(** A frame that the device takes. *)
Definition is_wanted (psock : packet_socket) (direction : direction_t) (call : sniff) : bool :=
  match call with
  | SNIFF_ERROR _ => false
  | SNIFF_FRAME f =>
      negb (bool_decide (direction = DIRECTION_OUTBOUND) && negb (fr_pkttype f =? PACKET_OUTGOING)) &&
      negb (bool_decide (direction = DIRECTION_INBOUND) && negb (fr_pkttype f =? PACKET_HOST)) &&
      (fr_ifindex f =? ps_index psock)
  end.

(** The packet that data of the kernel or of a stack are read as. *)
Definition read_packet (data : bytes) (time : Z) : packet :=
  let pkt := packet_new PACKET_READ_BYTES in
  set_pk_time_usecs time (set_pk_buffer (data ++ drop (length data) (pk_buffer pkt)) pkt).

(** What parsing it gives, if it is anything for the interpreter. *)
Definition parsed_as (layer : packet_layer_t) (data : bytes) (time : Z) : option (result packet) :=
  match parse_packet (read_packet data time) (zlen data) layer with
  | Ok (pkt, PACKET_OK) => Some (Success pkt)
  | Ok (_, PACKET_BAD error) => Some (Failure error)
  | _ => None
  end.

Definition call_packet (layer : packet_layer_t) (call : sniff) : option (result packet) :=
  match call with
  | SNIFF_FRAME (mk_frame data _ _ (Some tv)) => parsed_as layer data (timeval_to_usecs tv)
  | _ => None
  end.

(** The packets of the calls of a device. *)
Definition wanted_calls (psock : packet_socket) (direction : direction_t) (calls : list sniff) : list sniff :=
  filter (fun call => is_wanted psock direction call = true) calls.
Definition calls_queue (psock : packet_socket) (layer : packet_layer_t) (direction : direction_t) (calls : list sniff)
    : list (result packet) :=
  omap (call_packet layer) (wanted_calls psock direction calls).

Lemma read_packet_fresh data time : bytes_ok data -> zlen data < PACKET_READ_BYTES ->
  fresh (read_packet data time) /\ 0 <= zlen data < zlen (pk_buffer (read_packet data time)) /\
  put_bytes (pk_buffer (packet_new PACKET_READ_BYTES)) 0 data =
    Ok (data ++ drop (length data) (pk_buffer (packet_new PACKET_READ_BYTES))).
Proof.
  intros Hb Hz. pose proof (zlen_nonneg data). pose proof (malloc_zlen PACKET_READ_BYTES ltac:(unfold PACKET_READ_BYTES; lia)) as Hm.
  assert (zlen (pk_buffer (read_packet data time)) = PACKET_READ_BYTES) as Hl.
  { cbn. rewrite zlen_app. unfold zlen in *. rewrite length_drop. lia. }
  unfold fresh. rewrite Hl. split_and!; try done.
  - cbn. apply Forall_app_2; [done|]. apply Forall_drop, malloc_ok.
  - unfold put_bytes. rewrite (proj2 (in_range_true _ _ _)) by (cbn; lia). done.
Qed.

(** A packet is read from a good call when it is wanted, and parsing it returns. *)
Lemma receive_call psock direction layer call : call_ok call ->
  exists r, packet_socket_receive psock direction (packet_new PACKET_READ_BYTES) call = Ok r /\
    match r with
    | None => is_wanted psock direction call = false
    | Some (pkt, n) => is_wanted psock direction call = true /\
        exists pkt' result, parse_packet pkt n layer = Ok (pkt', result) /\
          call_packet layer call =
            match result with PACKET_OK => Some (Success pkt') | PACKET_BAD e => Some (Failure e) | _ => None end
    end.
Proof.
  destruct call as [[data type index stamp]|errno]; [|intros ->; by exists None].
  intros (Hb&Hz&[tv Htv]). cbn in Hb, Hz, Htv. subst stamp.
  destruct (read_packet_fresh data (timeval_to_usecs tv) Hb Hz) as (Hf&Hn&Hput).
  cbn [packet_socket_receive fr_bytes fr_pkttype fr_ifindex fr_stamp is_wanted].
  rewrite take_ge by (unfold zlen in Hz; change (pk_buffer_bytes (packet_new PACKET_READ_BYTES)) with PACKET_READ_BYTES; lia).
  rewrite Hput, bind_Ok_eq. rewrite (proj2 (Z.leb_le _ _)) by (cbn; lia). cbn [c_assert]. rewrite bind_Ok_eq.
  destruct (bool_decide (direction = DIRECTION_OUTBOUND) && negb (type =? PACKET_OUTGOING)); [by exists None|].
  destruct (bool_decide (direction = DIRECTION_INBOUND) && negb (type =? PACKET_HOST)); [by exists None|].
  destruct (index =? ps_index psock); cbn [negb andb]; [|by exists None].
  eexists. split; [done|]. split; [done|].
  destruct (parse_packet_spec (read_packet data (timeval_to_usecs tv)) (zlen data) layer Hf Hn) as (pkt'&r&_&E&_).
  exists pkt', r. split; [exact E|]. cbn [call_packet]. unfold parsed_as. rewrite E. by destruct r.
Qed.

(** The loop takes the first packet of the queue, and counts the frames it has taken. *)
Lemma receive_loop_spec psock layer direction calls : forall num, Forall call_ok calls ->
  match calls_queue psock layer direction calls with
  | [] => netdev_receive_loop psock layer direction calls num = Fault Blocked
  | r :: rest => exists calls' n, netdev_receive_loop psock layer direction calls num = Ok (calls', num + Z.of_nat n, r) /\
      Forall call_ok calls' /\ calls_queue psock layer direction calls' = rest /\
      (n + length (wanted_calls psock direction calls') = length (wanted_calls psock direction calls))%nat
  end.
Proof.
  induction calls as [|call calls IH]; intros num Hc; [done|]. apply Forall_cons in Hc as [Hcall Hc].
  destruct (receive_call psock direction layer call Hcall) as (r&E&Hr).
  unfold calls_queue, wanted_calls in *. cbn [netdev_receive_loop]. rewrite E, bind_Ok_eq, filter_cons.
  destruct r as [[pkt n]|].
  - destruct Hr as (Hw&pkt'&result&Ep&Hq). rewrite decide_True by done. cbn [omap list_omap]. rewrite Hq, Ep, bind_Ok_eq.
    destruct result as [|e|].
    + exists calls, 1%nat. done.
    + exists calls, 1%nat. done.
    + specialize (IH (num + 1) Hc). destruct (omap (call_packet layer) _) as [|r rest]; [done|].
      destruct IH as (calls'&k&El&Hc'&Hq'&Hk). exists calls', (S k). rewrite El. split_and!; try done.
      * do 2 f_equal. f_equal. lia.
      * cbn. lia.
  - rewrite decide_False by (rewrite Hr; done). apply IH. done.
Qed.

(** Reading as many packets from the tun device as there are. *)
Definition read_ok (r : tun_read) : Prop :=
  match r with TUN_BYTES n => n <= sizeof_virtio_net_hdr + 1 | TUN_ERROR errno => errno = ERRNO_EINTR end.

Lemma read_queue_spec n : forall reads, Forall read_ok reads -> (n <= length reads)%nat ->
  local_netdev_read_queue n reads = Ok (drop n reads).
Proof.
  induction n as [|n IH]; intros [|r reads] Hr Hn; try (cbn in Hn; lia); try done. apply Forall_cons in Hr as [Hr Hrs].
  cbn in Hn. destruct r as [b|e]; cbn [local_netdev_read_queue].
  - cbn in Hr. rewrite (proj2 (Z.leb_le _ _)) by lia. cbn [c_assert]. rewrite bind_Ok_eq. apply IH; [done|lia].
  - cbn in Hr. subst e. cbn. apply IH; [done|lia].
Qed.

(** The device of local tests: for each frame that it sniffs there is one to read from the tun
    device. *)
#[export, refine] Instance local_netdev_Netdev : Netdev local_netdev := {
  netdev_receive := local_netdev_receive;
  netdev_ok d := Forall call_ok (ln_calls d) /\ Forall read_ok (ln_reads d) /\
    (length (wanted_calls (ln_psock d) DIRECTION_OUTBOUND (ln_calls d)) <= length (ln_reads d))%nat;
  netdev_queue d := calls_queue (ln_psock d) PACKET_LAYER_3_IP DIRECTION_OUTBOUND (ln_calls d)
}.
Proof.
  intros d (Hc&Hr&Hl). pose proof (receive_loop_spec (ln_psock d) PACKET_LAYER_3_IP DIRECTION_OUTBOUND (ln_calls d) 0 Hc) as Hs.
  unfold local_netdev_receive. destruct (calls_queue _ _ _ _) as [|r rest]; [by rewrite Hs|].
  destruct Hs as (calls'&n&->&Hc'&Hq&Hn). rewrite bind_Ok_eq. replace (Z.to_nat (0 + Z.of_nat n)) with n by lia.
  rewrite read_queue_spec by (done || lia). rewrite bind_Ok_eq. eexists. split; [done|].
  cbn [ln_calls ln_reads ln_psock set_ln_queues]. split_and!; try done.
  - by apply Forall_drop.
  - rewrite length_drop. lia.
Defined.

(** The device of a wire server. *)
#[export, refine] Instance wire_server_Netdev : Netdev wire_server_netdev := {
  netdev_receive := wire_server_netdev_receive;
  netdev_ok d := Forall call_ok (wn_calls d);
  netdev_queue d := calls_queue (wn_psock d) PACKET_LAYER_2_ETHERNET DIRECTION_INBOUND (wn_calls d)
}.
Proof.
  intros d Hc. pose proof (receive_loop_spec (wn_psock d) PACKET_LAYER_2_ETHERNET DIRECTION_INBOUND (wn_calls d) 0 Hc) as Hs.
  unfold wire_server_netdev_receive. destruct (calls_queue _ _ _ _) as [|r rest]; [by rewrite Hs|].
  destruct Hs as (calls'&n&->&Hc'&Hq&_). rewrite bind_Ok_eq. eexists. split; [done|]. by split.
Defined.

(** The device of a user-level stack.  When the interpreter is not the fuzzer, calls that give
    nothing are repeated; in the fuzzer they end the wait with an error. *)
Definition so_call_ok (call : option (bytes * Z)) : Prop :=
  match call with None => True | Some (data, _) => bytes_ok data /\ zlen data < PACKET_READ_BYTES end.
Definition so_call_packet (packetdrill : bool) (call : option (bytes * Z)) : option (result packet) :=
  match call ≫= (fun c => parsed_as PACKET_LAYER_3_IP c.1 c.2) with
  | Some r => Some r
  | None => if packetdrill then None else Some (Failure "")
  end.

Lemma so_receive_spec packetdrill calls : Forall so_call_ok calls ->
  match omap (so_call_packet packetdrill) calls with
  | [] => so_receive_loop packetdrill calls = Fault Blocked
  | r :: rest => exists calls', so_receive_loop packetdrill calls = Ok (calls', r) /\ Forall so_call_ok calls' /\
      omap (so_call_packet packetdrill) calls' = rest
  end.
Proof.
  induction calls as [|call calls IH]; intros Hc; [done|]. apply Forall_cons in Hc as [Hcall Hc].
  cbn [so_receive_loop omap list_omap]. unfold so_call_packet at 1. destruct call as [[data time]|]; cbn [mbind option_bind fst snd].
  - destruct Hcall as [Hb Hz]. destruct (read_packet_fresh data time Hb Hz) as (Hf&Hn&->). rewrite bind_Ok_eq.
    destruct (parse_packet_spec _ (zlen data) PACKET_LAYER_3_IP Hf Hn) as (pkt'&r&_&E&_). unfold parsed_as.
    change (set_pk_time_usecs time (set_pk_buffer _ _)) with (read_packet data time). rewrite E, bind_Ok_eq.
    destruct r as [|e|]; [by exists calls|by exists calls|]. destruct packetdrill; [by apply IH|by exists calls].
  - destruct packetdrill; [by apply IH|by exists calls].
Qed.

#[export, refine] Instance so_netdev_Netdev : Netdev so_netdev := {
  netdev_receive := so_netdev_receive;
  netdev_ok d := Forall so_call_ok (so_receives d);
  netdev_queue d := omap (so_call_packet (so_packetdrill d)) (so_receives d)
}.
Proof.
  intros d Hc. pose proof (so_receive_spec (so_packetdrill d) (so_receives d) Hc) as Hs. unfold so_netdev_receive.
  destruct (omap _ _) as [|r rest]; [by rewrite Hs|]. destruct Hs as (calls'&->&Hc'&Hq). rewrite bind_Ok_eq.
  eexists. split; [done|]. by split.
Defined.

End Devices.

(** ** A device *)

#[local] Existing Instance zero_malloc.

(** The frames of a test: one that comes in, an interruption, one of another device, the
    SYN-ACK of the kernel, and another packet. *)
Definition packet_bytes (pkt : packet) : bytes := take (Z.to_nat (pk_ip_bytes pkt)) (pk_buffer pkt).
Definition sample_frame (pkttype ifindex : Z) : sniff :=
  SNIFF_FRAME (mk_frame (packet_bytes live_synack) pkttype ifindex (Some (0, 70200))).
Definition sample_netdev : local_netdev :=
  mk_local_netdev "tun0" 4 5 7 (mk_packet_socket 6 "tun0" 7 None)
    [sample_frame PACKET_HOST 7; SNIFF_ERROR ERRNO_EINTR; sample_frame PACKET_OUTGOING 3;
     sample_frame PACKET_OUTGOING 7; sample_frame PACKET_OUTGOING 7]
    [TUN_BYTES 11; TUN_BYTES 11].

Lemma sample_frame_ok pkttype ifindex : call_ok (sample_frame pkttype ifindex).
Proof.
  split_and!; [|vm_compute; reflexivity|by eexists].
  apply Forall_forall. intros b Hb. enough (forallb (fun b => (0 <=? b) && (b <? 256)) (packet_bytes live_synack) = true) as Hl.
  { rewrite forallb_forall in Hl. apply list_elem_of_In, Hl in Hb. breflect. unfold is_byte. lia. }
  vm_compute. reflexivity.
Qed.

Lemma sample_netdev_ok : netdev_ok sample_netdev.
Proof.
  split; [|split; [|vm_compute; lia]].
  - apply Forall_cons_2; [apply sample_frame_ok|]. apply Forall_cons_2; [reflexivity|].
    do 3 (apply Forall_cons_2; [apply sample_frame_ok|]). apply Forall_nil_2.
  - do 2 (apply Forall_cons_2; [vm_compute; congruence|]). apply Forall_nil_2.
Qed.

(** What the device hands on: the two frames that the kernel sent through it, parsed, and in front
    of them neither the one that came in nor the one of another device. *)
Example sample_netdev_receives :
  match netdev_receive sample_netdev with
  | Ok (d', Success pkt) =>
      (packet_bytes pkt, length (netdev_queue d'), ln_reads d') = (packet_bytes live_synack, 1%nat, [TUN_BYTES 11])
  | _ => False
  end.
Proof. vm_compute. reflexivity. Qed.

(** ** The names of tun devices *)

Lemma dec_digits_head n z : 0 <= z -> exists c s, dec_digits (S n) z = String c s /\ 48 <= Z.of_nat (Ascii.nat_of_ascii c) <= 57.
Proof.
  assert (forall z, 0 <= z < 10 -> exists c, hex_digit z = String c "" /\ 48 <= Z.of_nat (Ascii.nat_of_ascii c) <= 57) as Hd.
  { intros x Hx. assert (x = 0 \/ x = 1 \/ x = 2 \/ x = 3 \/ x = 4 \/ x = 5 \/ x = 6 \/ x = 7 \/ x = 8 \/ x = 9) as Hc by lia.
    repeat destruct Hc as [-> | Hc]; try subst x; eexists; (split; [reflexivity|vm_compute; split; congruence]). }
  revert z. induction n as [|n IH]; intros z Hz; cbn [dec_digits]; destruct (Z.ltb_spec z 10).
  - destruct (Hd z) as (c&->&Hc); [lia|]. by exists c, "".
  - destruct (Hd (z mod 10)) as (c&->&Hc); [apply Z.mod_pos_bound; lia|]. by exists c, "".
  - destruct (Hd z) as (c&->&Hc); [lia|]. by exists c, "".
  - destruct (IH (z / 10)) as (c&s&E&Hc); [apply Z.div_pos; lia|]. cbn [dec_digits] in E. rewrite E. by eexists c, _.
Qed.

(** Devices above tun9 cannot be used: the test that the kernel has given the name that was
    asked for looks at one digit only. *)
Theorem tun_devices `{Shell} (c : full_config) (r : device_replies) x :
  (forall name, dr_setiff r name = Some name) -> create_device c r = Ok x ->
  0 <= fc_tun_id c <= 9 \/ fc_tun_id c = -3.
Proof.
  intros Hname E. unfold create_device in E. destruct (dr_tun_fd r <? 0); [done|]. rewrite Hname in E.
  destruct (char_at _ 3 =? fc_tun_id c + 48) eqn:Ec; [|done]. clear E. apply Z.eqb_eq in Ec.
  unfold dec in Ec. destruct (Z.ltb_spec (fc_tun_id c) 0) as [Hneg|Hpos].
  - right. change (45 = fc_tun_id c + 48) in Ec. lia.
  - left. destruct (dec_digits_head 19 (fc_tun_id c) Hpos) as (ch&s&Ed&Hch). rewrite Ed in Ec.
    change (Z.of_nat (Ascii.nat_of_ascii ch) = fc_tun_id c + 48) in Ec. lia.
Qed.
