(* ===== verification/UnitTests.v ===== *)
(** * UnitTests: the unit tests of the repository (packet_parser_test.c, checksum_test.c,
    packet_to_string_test.c)

    The test programs as programs of the model, assertion for assertion, and the theorem that
    they pass, for any allocator and any C library that reads and prints the addresses of the
    tests as usual.  main of packet_to_string_test.c has its four tests commented out and
    makes packets of three strings instead; the first string is too short. *)

From Stdlib Require Import Ascii.
From S2P Require Import Prelude Checksum Headers Packet PacketParser TcpOptions IpAddress IpPacket Socket PacketChecksum PacketToString.

Section Tests.
Context `{Malloc}.

(** ** packet_parser_test.c *)

(** [packet_parser_test.c:49-58] test_parse_tcp_ipv4_packet: a packet is populated and parsed *)
Definition populate_and_parse (data : bytes) : exec packet :=
  pkt ← pkt_memcpy (packet_new (zlen data)) 0 data;
  '(pkt, result) ← parse_packet pkt (zlen data) PACKET_LAYER_3_IP;
  _ ← c_assert (bool_decide (result = PACKET_OK));
  Ok pkt.

(** [packet_parser_test.c:63-72] test_parse_tcp_ipv4_packet: the assertions on the members of
    a packet; pointers are offsets in its buffer *)
Definition assert_members (pkt : packet) (ip_bytes : Z) (ipv4 ipv6 tcp udp icmpv4 icmpv6 : option Z)
    : exec unit :=
  _ ← c_assert (pk_ip_bytes pkt =? ip_bytes);
  _ ← c_assert (bool_decide (pk_ipv4 pkt = ipv4));
  _ ← c_assert (bool_decide (pk_ipv6 pkt = ipv6));
  _ ← c_assert (bool_decide (pk_tcp pkt = tcp));
  _ ← c_assert (bool_decide (pk_udp pkt = udp));
  _ ← c_assert (bool_decide (pk_icmpv4 pkt = icmpv4));
  _ ← c_assert (bool_decide (pk_icmpv6 pkt = icmpv6));
  _ ← c_assert (pk_time_usecs pkt =? 0);
  c_assert (pk_flags pkt =? 0).

(** [packet_parser_test.c:31-75] test_parse_tcp_ipv4_packet *)
Definition test_parse_tcp_ipv4_packet : exec unit :=
  let data :=
  [0x45; 0x00; 0x00; 0x3c; 0x00; 0x00; 0x00; 0x00; 0xff; 0x06; 0x39; 0x11; 0xc0; 0x00; 0x02; 0x01;
   0xc0; 0xa8; 0x00; 0x01; 0xcf; 0x3f; 0x1f; 0x90; 0x00; 0x00; 0x00; 0x01; 0x83; 0x4d; 0xa5; 0x5b;
   0xa0; 0x10; 0x01; 0x01; 0xdb; 0x2d; 0x00; 0x00; 0x05; 0x0a; 0x83; 0x4d; 0xab; 0x03; 0x83; 0x4d;
   0xb0; 0xab; 0x08; 0x0a; 0x00; 0x00; 0x01; 0x2c; 0x60; 0xc2; 0x18; 0x20] in
  pkt ← populate_and_parse data;
  assert_members pkt (zlen data) (Some 0) None (Some sizeof_ipv4) None None None.

(** [packet_parser_test.c:77-121] test_parse_tcp_ipv6_packet *)
Definition test_parse_tcp_ipv6_packet : exec unit :=
  let data :=
  [0x60; 0x00; 0x00; 0x00; 0x00; 0x20; 0x06; 0xff; 0x20; 0x01; 0x0d; 0xb8; 0x00; 0x00; 0x00; 0x00;
   0x00; 0x00; 0x00; 0x00; 0x00; 0x00; 0x00; 0x01; 0xfd; 0x3d; 0xfa; 0x7b; 0xd1; 0x7d; 0x00; 0x00;
   0x00; 0x00; 0x00; 0x00; 0x00; 0x00; 0x00; 0x01; 0xd3; 0xe2; 0x1f; 0x90; 0x00; 0x00; 0x00; 0x00;
   0x00; 0x00; 0x00; 0x00; 0x80; 0x02; 0x80; 0x18; 0x06; 0x60; 0x00; 0x00; 0x02; 0x04; 0x03; 0xe8;
   0x04; 0x02; 0x01; 0x01; 0x01; 0x03; 0x03; 0x07] in
  pkt ← populate_and_parse data;
  assert_members pkt (zlen data) None (Some 0) (Some sizeof_ipv6) None None None.

(** [packet_parser_test.c:123-160] test_parse_udp_ipv4_packet *)
Definition test_parse_udp_ipv4_packet : exec unit :=
  let data :=
  [0x45; 0x00; 0x00; 0x20; 0x00; 0x00; 0x00; 0x00; 0xff; 0x11; 0x39; 0x22; 0xc0; 0x00; 0x02; 0x01;
   0xc0; 0xa8; 0x00; 0x01; 0x1f; 0x90; 0xe1; 0xf5; 0x00; 0x0c; 0x7b; 0xa5; 0x00; 0x00; 0x00; 0x00] in
  pkt ← populate_and_parse data;
  assert_members pkt (zlen data) (Some 0) None None (Some sizeof_ipv4) None None.

(** [packet_parser_test.c:163-203] test_parse_udp_ipv6_packet *)
Definition test_parse_udp_ipv6_packet : exec unit :=
  let data :=
  [0x60; 0x00; 0x00; 0x00; 0x00; 0x0c; 0x11; 0xff; 0x20; 0x01; 0x0d; 0xb8; 0x00; 0x00; 0x00; 0x00;
   0x00; 0x00; 0x00; 0x00; 0x00; 0x00; 0x00; 0x01; 0xfd; 0x3d; 0xfa; 0x7b; 0xd1; 0x7d; 0x00; 0x00;
   0x00; 0x00; 0x00; 0x00; 0x00; 0x00; 0x00; 0x01; 0x1f; 0x90; 0xc9; 0x65; 0x00; 0x0c; 0x1f; 0xee;
   0x00; 0x00; 0x00; 0x00] in
  pkt ← populate_and_parse data;
  assert_members pkt (zlen data) None (Some 0) None (Some sizeof_ipv6) None None.

(** [packet_parser_test.c:239-243] test_parse_ipv4_gre_ipv4_tcp_packet: the assertions on header
    [i] at [p]; the values of [p] and [i] after it *)
Definition assert_header (pkt : packet) (p : Z) (i : nat) (type : header_t) (header_bytes : Z)
    : exec (Z * nat) :=
  h ← deref (pk_headers pkt !! i);
  _ ← c_assert (bool_decide (h_type h = type));
  _ ← c_assert (bool_decide (h_ptr h = Some p));
  _ ← c_assert (h_header_bytes h =? header_bytes);
  Ok (p + h_header_bytes h, S i).

(** [packet_parser_test.c:266-266] test_parse_ipv4_gre_ipv4_tcp_packet: the end of the headers *)
Definition assert_no_header (pkt : packet) (i : nat) : exec unit :=
  h ← deref (pk_headers pkt !! i);
  c_assert (bool_decide (h_type h = HEADER_NONE)).

(** [packet_parser_test.c:205-280] test_parse_ipv4_gre_ipv4_tcp_packet *)
Definition test_parse_ipv4_gre_ipv4_tcp_packet : exec unit :=
  let data :=
  [0x45; 0x00; 0x00; 0x44; 0x00; 0x00; 0x00; 0x00; 0xff; 0x2f; 0xb5; 0x85; 0x02; 0x02; 0x02; 0x02;
   0x01; 0x01; 0x01; 0x01; 0x00; 0x00; 0x08; 0x00; 0x45; 0x00; 0x00; 0x2c; 0x00; 0x00; 0x00; 0x00;
   0xff; 0x06; 0x39; 0x21; 0xc0; 0x00; 0x02; 0x01; 0xc0; 0xa8; 0x00; 0x01; 0xb7; 0xe6; 0x1f; 0x90;
   0x00; 0x00; 0x00; 0x02; 0x00; 0x00; 0x00; 0x01; 0x50; 0x10; 0x00; 0x7b; 0x55; 0x31; 0x00; 0x00;
   0x00; 0x00; 0x00; 0x00] in
  pkt ← populate_and_parse data;
  '(p, i) ← assert_header pkt 0 0 HEADER_IPV4 sizeof_ipv4;
  '(p, i) ← assert_header pkt p i HEADER_GRE GRE_MINLEN;
  let expected_inner_ipv4 := p in
  '(p, i) ← assert_header pkt p i HEADER_IPV4 sizeof_ipv4;
  let expected_tcp := p in
  '(p, i) ← assert_header pkt p i HEADER_TCP (sizeof_tcp);
  _ ← assert_no_header pkt i;
  assert_members pkt (zlen data) (Some expected_inner_ipv4) None (Some expected_tcp) None None None.

(** [packet_parser_test.c:282-377] test_parse_ipv4_gre_mpls_ipv4_tcp_packet *)
Definition test_parse_ipv4_gre_mpls_ipv4_tcp_packet : exec unit :=
  let data :=
  [0x45; 0x00; 0x00; 0x54; 0x00; 0x00; 0x40; 0x00; 0x40; 0x2f; 0xb7; 0xcf; 0xc0; 0xa8; 0x00; 0x01;
   0xc0; 0x00; 0x02; 0x02; 0x00; 0x00; 0x88; 0x47; 0x00; 0x00; 0x00; 0x00; 0xff; 0xff; 0xff; 0xff;
   0x45; 0x00; 0x00; 0x34; 0x86; 0x99; 0x40; 0x00; 0x40; 0x06; 0x31; 0x80; 0xc0; 0xa8; 0x00; 0x01;
   0xc0; 0x00; 0x02; 0x01; 0x1f; 0x90; 0xdb; 0xcc; 0x7b; 0x81; 0xc5; 0x7c; 0x00; 0x00; 0x00; 0x01;
   0x80; 0x11; 0x01; 0xc5; 0xa6; 0xa6; 0x00; 0x00; 0x01; 0x01; 0x08; 0x0a; 0x07; 0x02; 0x08; 0x43;
   0x00; 0x00; 0x00; 0x05] in
  pkt ← populate_and_parse data;
  '(p, i) ← assert_header pkt 0 0 HEADER_IPV4 sizeof_ipv4;
  '(p, i) ← assert_header pkt p i HEADER_GRE GRE_MINLEN;
  '(p, i) ← assert_header pkt p i HEADER_MPLS (2 * sizeof_mpls);
  let expected_inner_ipv4 := p in
  '(p, i) ← assert_header pkt p i HEADER_IPV4 sizeof_ipv4;
  let expected_tcp := p in
  '(p, i) ← assert_header pkt p i HEADER_TCP (sizeof_tcp + TCPOLEN_TIMESTAMP + 2);
  _ ← assert_no_header pkt i;
  assert_members pkt (zlen data) (Some expected_inner_ipv4) None (Some expected_tcp) None None None.

(** [packet_parser_test.c:379-418] test_parse_icmpv4_packet *)
Definition test_parse_icmpv4_packet : exec unit :=
  let data :=
  [0x45; 0x00; 0x00; 0x1c; 0x00; 0x00; 0x40; 0x00; 0x40; 0x01; 0xb6; 0xc4; 0xc0; 0xa8; 0x01; 0x65;
   0xc0; 0xa8; 0x01; 0x67; 0x08; 0x00; 0xcd; 0x2e; 0x2a; 0xd0; 0x00; 0x01] in
  pkt ← populate_and_parse data;
  assert_members pkt (zlen data) (Some 0) None None None (Some sizeof_ipv4) None.

(** [packet_parser_test.c:420-470] test_parse_icmpv6_packet *)
Definition test_parse_icmpv6_packet : exec unit :=
  let data :=
  [0x60; 0x00; 0x00; 0x00; 0x00; 0x40; 0x3a; 0x40; 0xfd; 0x6b; 0x6b; 0xbb; 0x34; 0xa1; 0x00; 0x00;
   0x00; 0x00; 0x00; 0x00; 0x00; 0x00; 0x00; 0x02; 0xfd; 0x6b; 0x6b; 0xbb; 0x34; 0xa1; 0x00; 0x00;
   0x00; 0x00; 0x00; 0x00; 0x00; 0x00; 0x00; 0x01; 0x80; 0x00; 0xb7; 0x44; 0x74; 0x7f; 0x00; 0x01;
   0x08; 0xb7; 0xc9; 0x52; 0x4d; 0x1f; 0x0e; 0x00; 0x08; 0x09; 0x0a; 0x0b; 0x0c; 0x0d; 0x0e; 0x0f;
   0x10; 0x11; 0x12; 0x13; 0x14; 0x15; 0x16; 0x17; 0x18; 0x19; 0x1a; 0x1b; 0x1c; 0x1d; 0x1e; 0x1f;
   0x20; 0x21; 0x22; 0x23; 0x24; 0x25; 0x26; 0x27; 0x28; 0x29; 0x2a; 0x2b; 0x2c; 0x2d; 0x2e; 0x2f;
   0x30; 0x31; 0x32; 0x33; 0x34; 0x35; 0x36; 0x37] in
  pkt ← populate_and_parse data;
  assert_members pkt (zlen data) None (Some 0) None None None (Some sizeof_ipv6).

(** [packet_parser_test.c:472-484] main *)
Definition packet_parser_test_main : exec Z :=
  _ ← test_parse_tcp_ipv4_packet;
  _ ← test_parse_tcp_ipv6_packet;
  _ ← test_parse_udp_ipv4_packet;
  _ ← test_parse_udp_ipv6_packet;
  _ ← test_parse_ipv4_gre_ipv4_tcp_packet;
  _ ← test_parse_ipv4_gre_mpls_ipv4_tcp_packet;
  _ ← test_parse_icmpv4_packet;
  _ ← test_parse_icmpv6_packet;
  Ok 0.

(** ** packet_to_string_test.c *)

Context `{InetNtop}.

(** [packet_to_string_test.c:229-239] test_tcp_ipv4_packet_to_string: one dump, its line on
    standard output, and the comparison with the text expected *)
Definition assert_dump (pkt : packet) (format : dump_format_t) (expected : string) : exec string :=
  '(dump, ok, error) ← packet_to_string pkt format None;
  _ ← c_assert ok;
  _ ← c_assert (bool_decide (error = None));
  _ ← c_assert (bool_decide (dump = expected));
  Ok ("dump = '" +:+ dump +:+ "'" +:+ newline).

(** [packet_to_string_test.c:59-73] print_packet_as_char: the text printed *)
Fixpoint print_packet_as_char (data : bytes) : string :=
  match data with
  | [] => ""
  | c :: data =>
      (if c =? 0 then " 0 " else " " +:+ String (ascii_of_nat (Z.to_nat c)) " ")
      +:+ print_packet_as_char data
  end.

(** [packet_to_string_test.c:197-276] test_tcp_ipv4_packet_to_string: the text printed *)
Definition test_tcp_ipv4_packet_to_string : exec string :=
  let data :=
  [0x45; 0x00; 0x00; 0x54; 0x00; 0x00; 0x00; 0x00; 0xff; 0x2f; 0xb5; 0x75; 0x02; 0x02; 0x02; 0x02;
   0x01; 0x01; 0x01; 0x01; 0x00; 0x00; 0x08; 0x00; 0x45; 0x00; 0x00; 0x3c; 0x00; 0x00; 0x00; 0x00;
   0xff; 0x06; 0x39; 0x11; 0xc0; 0x00; 0x02; 0x01; 0xc0; 0xa8; 0x00; 0x01; 0xcf; 0x3f; 0x1f; 0x90;
   0x00; 0x00; 0x00; 0x01; 0x83; 0x4d; 0xa5; 0x5b; 0xa0; 0x10; 0x01; 0x01; 0xdb; 0x2d; 0x00; 0x00;
   0x05; 0x0a; 0x83; 0x4d; 0xab; 0x03; 0x83; 0x4d; 0xb0; 0xab; 0x08; 0x0a; 0x00; 0x00; 0x01; 0x2c;
   0x60; 0xc2; 0x18; 0x20] in
  let chars := print_packet_as_char data in
  pkt ← populate_and_parse data;
  out0 ← assert_dump pkt DUMP_SHORT
    ("ipv4 2.2.2.2 > 1.1.1.1: gre flags 0x0 proto 0x0800: . 1:1(0) ack 2202903899 win " +:+
     "257 <sack 2202905347:2202906795,TS val 300 ecr 1623332896>");
  out1 ← assert_dump pkt DUMP_FULL
    ("ipv4 2.2.2.2 > 1.1.1.1: gre flags 0x0 proto 0x0800: 192.0.2.1:53055 > " +:+
     "192.168.0.1:8080 . 1:1(0) ack 2202903899 win 257 <sack 2202905347:2202906795,TS " +:+
     "val 300 ecr 1623332896>");
  out2 ← assert_dump pkt DUMP_VERBOSE
    ("ipv4 2.2.2.2 > 1.1.1.1: gre flags 0x0 proto 0x0800: 192.0.2.1:53055 > " +:+
     "192.168.0.1:8080 . 1:1(0) ack 2202903899 win 257 <sack 2202905347:2202906795,TS " +:+
     "val 300 ecr 1623332896>" +:+ newline +:+
     "0x0000: 45 00 00 54 00 00 00 00 ff 2f b5 75 02 02 02 02 " +:+ newline +:+
     "0x0010: 01 01 01 01 00 00 08 00 45 00 00 3c 00 00 00 00 " +:+ newline +:+
     "0x0020: ff 06 39 11 c0 00 02 01 c0 a8 00 01 cf 3f 1f 90 " +:+ newline +:+
     "0x0030: 00 00 00 01 83 4d a5 5b a0 10 01 01 db 2d 00 00 " +:+ newline +:+
     "0x0040: 05 0a 83 4d ab 03 83 4d b0 ab 08 0a 00 00 01 2c " +:+ newline +:+
     "0x0050: 60 c2 18 20 " +:+ newline);
  Ok (chars +:+ out0 +:+ out1 +:+ out2).

(** [packet_to_string_test.c:278-465] test_tcp_ipv6_packet_to_string: the text printed *)
Definition test_tcp_ipv6_packet_to_string : exec string :=
  let data :=
  [0x60; 0x00; 0x00; 0x00; 0x00; 0x4c; 0x2f; 0xff; 0x00; 0x02; 0x00; 0x00; 0x00; 0x00; 0x00; 0x00;
   0x00; 0x00; 0x00; 0x00; 0x00; 0x00; 0x22; 0x22; 0x00; 0x01; 0x00; 0x00; 0x00; 0x00; 0x00; 0x00;
   0x00; 0x00; 0x00; 0x00; 0x00; 0x00; 0x11; 0x11; 0x00; 0x00; 0x86; 0xdd; 0x60; 0x00; 0x00; 0x00;
   0x00; 0x20; 0x06; 0xff; 0x20; 0x01; 0x0d; 0xb8; 0x00; 0x00; 0x00; 0x00; 0x00; 0x00; 0x00; 0x00;
   0x00; 0x00; 0x00; 0x01; 0xfd; 0x3d; 0xfa; 0x7b; 0xd1; 0x7d; 0x00; 0x00; 0x00; 0x00; 0x00; 0x00;
   0x00; 0x00; 0x00; 0x01; 0xd3; 0xe2; 0x1f; 0x90; 0x00; 0x00; 0x00; 0x00; 0x00; 0x00; 0x00; 0x00;
   0x80; 0x02; 0x80; 0x18; 0x06; 0x60; 0x00; 0x00; 0x02; 0x04; 0x03; 0xe8; 0x04; 0x02; 0x01; 0x01;
   0x01; 0x03; 0x03; 0x07] in
  pkt ← populate_and_parse data;
  out0 ← assert_dump pkt DUMP_SHORT
    ("ipv6 2::2222 > 1::1111: gre flags 0x0 proto 0x86dd: S 0:0(0) win 32792 <mss " +:+
     "1000,sackOK,nop,nop,nop,wscale 7>");
  out1 ← assert_dump pkt DUMP_FULL
    ("ipv6 2::2222 > 1::1111: gre flags 0x0 proto 0x86dd: 2001:db8::1:54242 > " +:+
     "fd3d:fa7b:d17d::1:8080 S 0:0(0) win 32792 <mss 1000,sackOK,nop,nop,nop,wscale 7>");
  out2 ← assert_dump pkt DUMP_VERBOSE
    ("ipv6 2::2222 > 1::1111: gre flags 0x0 proto 0x86dd: 2001:db8::1:54242 > " +:+
     "fd3d:fa7b:d17d::1:8080 S 0:0(0) win 32792 <mss 1000,sackOK,nop,nop,nop,wscale 7>" +:+ newline +:+
     "0x0000: 60 00 00 00 00 4c 2f ff 00 02 00 00 00 00 00 00 " +:+ newline +:+
     "0x0010: 00 00 00 00 00 00 22 22 00 01 00 00 00 00 00 00 " +:+ newline +:+
     "0x0020: 00 00 00 00 00 00 11 11 00 00 86 dd 60 00 00 00 " +:+ newline +:+
     "0x0030: 00 20 06 ff 20 01 0d b8 00 00 00 00 00 00 00 00 " +:+ newline +:+
     "0x0040: 00 00 00 01 fd 3d fa 7b d1 7d 00 00 00 00 00 00 " +:+ newline +:+
     "0x0050: 00 00 00 01 d3 e2 1f 90 00 00 00 00 00 00 00 00 " +:+ newline +:+
     "0x0060: 80 02 80 18 06 60 00 00 02 04 03 e8 04 02 01 01 " +:+ newline +:+
     "0x0070: 01 03 03 07 " +:+ newline);
  Ok (out0 +:+ out1 +:+ out2).

(** [packet_to_string_test.c:467-511] test_gre_mpls_tcp_ipv4_packet_to_string: the text printed *)
Definition test_gre_mpls_tcp_ipv4_packet_to_string : exec string :=
  let data :=
  [0x45; 0x00; 0x00; 0x54; 0x00; 0x00; 0x40; 0x00; 0x40; 0x2f; 0xb7; 0xcf; 0xc0; 0xa8; 0x00; 0x01;
   0xc0; 0x00; 0x02; 0x02; 0x00; 0x00; 0x88; 0x47; 0x00; 0x00; 0x00; 0x00; 0xff; 0xff; 0xff; 0xff;
   0x45; 0x00; 0x00; 0x34; 0x86; 0x99; 0x40; 0x00; 0x40; 0x06; 0x31; 0x80; 0xc0; 0xa8; 0x00; 0x01;
   0xc0; 0x00; 0x02; 0x01; 0x1f; 0x90; 0xdb; 0xcc; 0x7b; 0x81; 0xc5; 0x7c; 0x00; 0x00; 0x00; 0x01;
   0x80; 0x11; 0x01; 0xc5; 0xa6; 0xa6; 0x00; 0x00; 0x01; 0x01; 0x08; 0x0a; 0x07; 0x02; 0x08; 0x43;
   0x00; 0x00; 0x00; 0x05] in
  pkt ← populate_and_parse data;
  out0 ← assert_dump pkt DUMP_FULL
    ("ipv4 192.168.0.1 > 192.0.2.2: gre flags 0x0 proto 0x8847: mpls (label 0, tc 0, " +:+
     "ttl 0) (label 1048575, tc 7, [S], ttl 255): 192.168.0.1:8080 > 192.0.2.1:56268 " +:+
     "F. 2072102268:2072102268(0) ack 1 win 453 <nop,nop,TS val 117573699 ecr 5>");
  Ok (out0).

(** [packet_to_string_test.c:513-548] test_tcp_md5_option_to_string: the text printed *)
Definition test_tcp_md5_option_to_string : exec string :=
  let data :=
  [0x45; 0x00; 0x00; 0x3c; 0x00; 0x00; 0x00; 0x00; 0xff; 0x06; 0x89; 0x56; 0xc0; 0x00; 0x02; 0x01;
   0xc0; 0xa8; 0xaf; 0xbb; 0x8a; 0x6f; 0x1f; 0x90; 0x00; 0x00; 0x00; 0x01; 0x00; 0x00; 0x00; 0x01;
   0xa0; 0x02; 0x01; 0x00; 0x36; 0x14; 0x00; 0x00; 0x13; 0x12; 0x00; 0x01; 0x02; 0x03; 0x04; 0x05;
   0x06; 0x07; 0x08; 0x09; 0x0a; 0x0b; 0x0c; 0x0d; 0x0e; 0x0f; 0x01; 0x01] in
  pkt ← populate_and_parse data;
  out0 ← assert_dump pkt DUMP_SHORT
    ("S 1:1(0) win 256 <md5 000102030405060708090a0b0c0d0e0f,nop,nop>");
  Ok (out0).

(** [packet_to_string_test.c:34-46] push_data: the array [data] with the variables behind [size]
    and [capacity] *)
Record array := mk_array { ar_data : bytes; ar_size : Z; ar_capacity : Z }.

(** realloc(3): the old contents, and a tail with anything. *)
Definition realloc (data : bytes) (n : Z) : bytes :=
  take (Z.to_nat n) data ++ drop (length data) (malloc n).

(** [packet_to_string_test.c:34-46] push_data *)
Definition push_data (a : array) (value : Z) : exec array :=
  let a := if ar_capacity a <=? ar_size a
           then mk_array (realloc (ar_data a) (ar_capacity a * 2)) (ar_size a) (ar_capacity a * 2)
           else a in
  data ← st8 (ar_data a) (ar_size a) value;
  Ok (mk_array data (ar_size a + 1) (ar_capacity a)).

(** [packet_to_string_test.c:109-112] fuzz_to_packet: the loop over fixed_data *)
Fixpoint push_fixed (a : array) (fixed_data : bytes) : exec array :=
  match fixed_data with
  | [] => Ok a
  | value :: fixed_data => a ← push_data a value; push_fixed a fixed_data
  end.

(** [packet_to_string_test.c:48-57] push_bytes: [fuzz_string] is the memory of the string *)
Fixpoint push_bytes (a : array) (fuzz_string : bytes) (push_size : nat) (fuzz_index : Z)
    : exec (array * Z) :=
  match push_size with
  | O => Ok (a, fuzz_index)
  | S push_size =>
      value ← ld8 fuzz_string fuzz_index;
      a ← push_data a value;
      push_bytes a fuzz_string push_size (fuzz_index + 1)
  end.

(** [packet_to_string_test.c:88-107] fuzz_to_packet: fixed_data *)
Definition fixed_data : bytes :=
  [0x45; 0x00; 0x00; 0x54; 0x00; 0x00; 0x00; 0x00; 0xff; 0x2f; 0xb5; 0x75; 0x02; 0x02; 0x02; 0x02;
   0x01; 0x01; 0x01; 0x01; 0x00; 0x00; 0x08; 0x00; 0x45; 0x00; 0x00; 0x3c; 0x00; 0x00; 0x00; 0x00;
   0xff; 0x06; 0x39; 0x11; 0xc0; 0x00; 0x02; 0x01; 0xc0; 0xa8; 0x00; 0x01].

(** [packet_to_string_test.c:80-146] fuzz_to_packet: the bytes of the packet.  The string has
    no NUL inside; the strcat of a short one appends the empty string, and so stores its
    terminator again. *)
Definition fuzz_bytes (fuzz_string : string) : exec (bytes * Z) :=
  let len := Z.of_nat (String.length fuzz_string) in
  let mem := string_bytes fuzz_string ++ [0] in
  mem ← (if len <=? 20 then st8 mem len 0 else Ok mem);
  a ← push_fixed (mk_array (malloc len) 0 len) fixed_data;
  '(a, fuzz_index) ← push_bytes a mem 2 0;
  '(a, fuzz_index) ← push_bytes a mem 2 fuzz_index;
  '(a, fuzz_index) ← push_bytes a mem 4 fuzz_index;
  '(a, fuzz_index) ← push_bytes a mem 4 fuzz_index;
  '(a, fuzz_index) ← push_bytes a mem 4 fuzz_index;
  data ← st8 (ar_data a) (zlen fixed_data + 12) 0x55;
  '(a, fuzz_index) ← push_bytes (mk_array data (ar_size a) (ar_capacity a)) mem 4 fuzz_index;
  '(a, fuzz_index) ← push_bytes a mem 4 fuzz_index;
  '(a, fuzz_index) ← push_bytes a mem (Z.to_nat (84 - ar_size a)) fuzz_index;
  Ok (ar_data a, ar_size a).

(** [packet_to_string_test.c:169-174] fuzz_to_packet: one dump, and the text printed *)
Definition print_dump (pkt : packet) (format : dump_format_t) : exec string :=
  '(dump, ok, error) ← packet_to_string pkt format None;
  _ ← c_assert ok;
  _ ← c_assert (bool_decide (error = None));
  Ok ("dump = '" +:+ dump +:+ "'" +:+ newline).

(** [packet_to_string_test.c:150-194] fuzz_to_packet: the packet of the bytes is parsed and
    printed; the text printed *)
Definition dump_fuzz_packet (data : bytes) (fuzz_data_size : Z) : exec string :=
  l ← get_bytes data 0 fuzz_data_size;
  pkt ← pkt_memcpy (packet_new fuzz_data_size) 0 l;
  '(pkt, result) ← parse_packet pkt fuzz_data_size PACKET_LAYER_3_IP;
  pkt ← checksum_packet pkt;
  _ ← c_assert (bool_decide (result = PACKET_OK));
  out0 ← print_dump pkt DUMP_SHORT;
  out1 ← print_dump pkt DUMP_FULL;
  out2 ← print_dump pkt DUMP_VERBOSE;
  Ok (out0 +:+ out1 +:+ out2).

(** [packet_to_string_test.c:75-195] fuzz_to_packet: the text printed; the line with the error
    of the parser is printed before the assertion that there is none ends the program *)
Definition fuzz_to_packet (fuzz_string : string) : exec string :=
  '(data, fuzz_data_size) ← fuzz_bytes fuzz_string;
  l ← get_bytes data 0 fuzz_data_size;
  out ← dump_fuzz_packet data fuzz_data_size;
  Ok ("len = " +:+ dec (Z.of_nat (String.length fuzz_string)) +:+ newline
      +:+ print_packet_as_char l +:+ out).

(** [packet_to_string_test.c:550-560] main *)
Definition packet_to_string_test_main : exec (Z * string) :=
  out0 ← fuzz_to_packet "4b2v2c24245t2c2087vh28vb928347bt9823bg";
  out1 ← fuzz_to_packet "v3v3g3w45t24g2b3928cbu82ubr2f9hybv92rbv9248vyb24";
  out2 ← fuzz_to_packet "9458vh90seufvb0ebv087bru8vbweivbiwebpn20495ugn904unb";
  Ok (0, out0 +:+ out1 +:+ out2).

(** The tests that main has commented out. *)
Definition packet_to_string_tests : exec string :=
  out0 ← test_tcp_ipv4_packet_to_string;
  out1 ← test_tcp_ipv6_packet_to_string;
  out2 ← test_gre_mpls_tcp_ipv4_packet_to_string;
  out3 ← test_tcp_md5_option_to_string;
  Ok (out0 +:+ out1 +:+ out2 +:+ out3).

(** ** checksum_test.c *)

Context `{InetPton}.

(** [checksum_test.c:34-63] test_tcp_udp_v4_checksum *)
Definition test_tcp_udp_v4_checksum : exec unit :=
  let data :=
  [0x45; 0x00; 0x00; 0x3c; 0x00; 0x00; 0x00; 0x00; 0xff; 0x06; 0xf9; 0x10; 0x01; 0x01; 0x01; 0x01;
   0xc0; 0xa8; 0x00; 0x01; 0x04; 0xd2; 0xeb; 0x35; 0x00; 0x00; 0x00; 0x00; 0xc6; 0xf0; 0x56; 0x00;
   0xa0; 0x12; 0x16; 0xa0; 0x54; 0x12; 0x00; 0x00; 0x02; 0x04; 0x05; 0xb4; 0x04; 0x02; 0x08; 0x0a;
   0x00; 0x00; 0x02; 0xbc; 0x00; 0x06; 0x0a; 0xd8; 0x01; 0x03; 0x03; 0x07] in
  let tcp := sizeof_ipv4 in
  let len := zlen data - sizeof_ipv4 in
  match inet_pton AF_INET "1.1.1.1", inet_pton AF_INET "192.168.0.1" with
  | Some src_ip, Some dst_ip =>
      payload ← get_bytes data tcp len;
      checksum ← tcp_udp_v4_checksum src_ip dst_ip IPPROTO_TCP payload;
      _ ← c_assert (ntohs checksum =? 0);
      data ← wr data tcp tcp_check 0;
      payload ← get_bytes data tcp len;
      checksum ← tcp_udp_v4_checksum src_ip dst_ip IPPROTO_TCP payload;
      c_assert (ntohs checksum =? 0x5412)
  | _, _ => Fault AssertFailed
  end.

(** [checksum_test.c:65-96] test_tcp_udp_v6_checksum *)
Definition test_tcp_udp_v6_checksum : exec unit :=
  let data :=
  [0x60; 0x00; 0x00; 0x00; 0x00; 0x20; 0x06; 0xff; 0x20; 0x01; 0x0d; 0xb8; 0x00; 0x00; 0x00; 0x00;
   0x00; 0x00; 0x00; 0x00; 0x00; 0x00; 0x00; 0x01; 0xfd; 0x3d; 0xfa; 0x7b; 0xd1; 0x7d; 0x00; 0x00;
   0x00; 0x00; 0x00; 0x00; 0x00; 0x00; 0x00; 0x01; 0xd3; 0xe2; 0x1f; 0x90; 0x00; 0x00; 0x00; 0x00;
   0x00; 0x00; 0x00; 0x00; 0x80; 0x02; 0x80; 0x18; 0x06; 0x60; 0x00; 0x00; 0x02; 0x04; 0x03; 0xe8;
   0x04; 0x02; 0x01; 0x01; 0x01; 0x03; 0x03; 0x07] in
  let tcp := sizeof_ipv6 in
  let len := zlen data - sizeof_ipv6 in
  src_ip ← get_bytes data ipv6_src_ip 16;
  dst_ip ← get_bytes data ipv6_dst_ip 16;
  payload ← get_bytes data tcp len;
  checksum ← tcp_udp_v6_checksum src_ip dst_ip IPPROTO_TCP payload;
  _ ← c_assert (ntohs checksum =? 0);
  data ← wr data tcp tcp_check 0;
  payload ← get_bytes data tcp len;
  checksum ← tcp_udp_v6_checksum src_ip dst_ip IPPROTO_TCP payload;
  c_assert (ntohs checksum =? 0x0660).

(** [checksum_test.c:98-114] test_ipv4_checksum *)
Definition test_ipv4_checksum : exec unit :=
  let data :=
  [0x45; 0x00; 0x00; 0x3c; 0x00; 0x00; 0x00; 0x00; 0xff; 0x06; 0xf9; 0x10; 0x01; 0x01; 0x01; 0x01;
   0xc0; 0xa8; 0x00; 0x01] in
  checksum ← ipv4_checksum data;
  _ ← c_assert (ntohs checksum =? 0);
  data ← wr data 0 ipv4_check 0;
  checksum ← ipv4_checksum data;
  c_assert (ntohs checksum =? 0xf910).

(** [sctp.h:33-38] struct sctp_common_header: crc32c *)
Definition sctp_crc32c_field := F32 8.

(** [checksum_test.c:116-131] test_sctp_crc32c *)
Definition test_sctp_crc32c : exec unit :=
  let data :=
  [0x07; 0xd0; 0xd6; 0x61; 0x11; 0x0c; 0xc5; 0x6c; 0xda; 0xd7; 0x37; 0x74; 0x06; 0x00; 0x00; 0x0f;
   0x00; 0x0c; 0x00; 0x0b; 0x47; 0x6f; 0x6f; 0x64; 0x62; 0x79; 0x65; 0x00] in
  data ← wr data 0 sctp_crc32c_field 0;
  c_assert (ntohl (sctp_crc32c data) =? 0xdad73774).

(** [checksum_test.c:133-140] main *)
Definition checksum_test_main : exec Z :=
  _ ← test_tcp_udp_v4_checksum;
  _ ← test_tcp_udp_v6_checksum;
  _ ← test_ipv4_checksum;
  _ ← test_sctp_crc32c;
  Ok 0.

End Tests.

(** ** The tests pass *)

Lemma populated `{Malloc} (data : bytes) :
  pkt_memcpy (packet_new (zlen data)) 0 data = Ok (set_pk_buffer data (packet_new (zlen data))).
Proof.
  unfold pkt_memcpy. rewrite put_bytes_all; [done|]. cbn [pk_buffer packet_new].
  rewrite malloc_zlen; [done|]. unfold zlen. lia.
Qed.

(** The tests of the parser pass: the program returns 0. *)
Theorem packet_parser_test_passes `{Malloc} : packet_parser_test_main = Ok 0.
Proof.
  unfold packet_parser_test_main, test_parse_tcp_ipv4_packet, test_parse_tcp_ipv6_packet,
    test_parse_udp_ipv4_packet, test_parse_udp_ipv6_packet, test_parse_ipv4_gre_ipv4_tcp_packet,
    test_parse_ipv4_gre_mpls_ipv4_tcp_packet, test_parse_icmpv4_packet, test_parse_icmpv6_packet,
    populate_and_parse.
  rewrite !populated. vm_compute. reflexivity.
Qed.

(** The addresses of the tests and their texts. *)
Definition test_addresses : list (Z * bytes * string) :=
  [(AF_INET, [1; 1; 1; 1], "1.1.1.1"); (AF_INET, [2; 2; 2; 2], "2.2.2.2");
   (AF_INET, [192; 0; 2; 1], "192.0.2.1"); (AF_INET, [192; 0; 2; 2], "192.0.2.2");
   (AF_INET, [192; 168; 0; 1], "192.168.0.1");
   (AF_INET6, [0; 2; 0; 0; 0; 0; 0; 0; 0; 0; 0; 0; 0; 0; 0x22; 0x22], "2::2222");
   (AF_INET6, [0; 1; 0; 0; 0; 0; 0; 0; 0; 0; 0; 0; 0; 0; 0x11; 0x11], "1::1111");
   (AF_INET6, [0x20; 1; 0x0d; 0xb8; 0; 0; 0; 0; 0; 0; 0; 0; 0; 0; 0; 1], "2001:db8::1");
   (AF_INET6, [0xfd; 0x3d; 0xfa; 0x7b; 0xd1; 0x7d; 0; 0; 0; 0; 0; 0; 0; 0; 0; 1], "fd3d:fa7b:d17d::1")].

(** inet_pton(3) reads the addresses of the tests, and inet_ntop(3) prints them; it looks at the
    bytes of the address only, not at the rest of the union. *)
Definition reads_addresses `{InetPton} : Prop :=
  Forall (fun '(family, a, text) => inet_pton family text = Some a) test_addresses.
Definition prints_addresses `{InetNtop} : Prop :=
  Forall (fun '(family, a, text) => forall rest, inet_ntop family (a ++ rest) = text) test_addresses.

(** The tests of the checksums pass. *)
Theorem checksum_test_passes `{InetPton} : reads_addresses -> checksum_test_main = Ok 0.
Proof.
  unfold reads_addresses, test_addresses. rewrite !Forall_cons. intros R. destruct_and! R.
  unfold checksum_test_main, test_tcp_udp_v4_checksum.
  repeat match goal with E : inet_pton _ _ = _ |- _ => rewrite E; clear E end.
  vm_compute. reflexivity.
Qed.

(** Packets print alike with functions [inet_ntop] that agree. *)
Section Agree.
Context (ntop1 ntop2 : InetNtop) (agree : forall family a, ntop1 family a = ntop2 family a).

Lemma ip_to_string_agree ip : @ip_to_string ntop1 ip = @ip_to_string ntop2 ip.
Proof. apply agree. Qed.

Lemma endpoints_to_string_agree pkt : @endpoints_to_string ntop1 pkt = @endpoints_to_string ntop2 pkt.
Proof.
  unfold endpoints_to_string. destruct (get_packet_tuple pkt); [|done]. cbn. by rewrite !ip_to_string_agree.
Qed.

Lemma encap_header_to_string_agree pkt layer :
  @encap_header_to_string ntop1 pkt layer = @encap_header_to_string ntop2 pkt layer.
Proof.
  unfold encap_header_to_string, ipv4_header_to_string, ipv6_header_to_string.
  do 2 (case_match; try done);
    (destruct (header_ptr pkt layer); [cbn [mbind exec_bind]|done]);
    do 2 (destruct (get_bytes _ _ _); [cbn [mbind exec_bind]|done]); by rewrite !ip_to_string_agree.
Qed.

Lemma encap_headers_to_string_agree pkt n i :
  @encap_headers_to_string ntop1 pkt n i = @encap_headers_to_string ntop2 pkt n i.
Proof.
  revert i. induction n as [|n IH]; intros i; [done|]. cbn [encap_headers_to_string].
  rewrite encap_header_to_string_agree. by rewrite IH.
Qed.

Lemma packet_to_string_agree pkt format error :
  @packet_to_string ntop1 pkt format error = @packet_to_string ntop2 pkt format error.
Proof.
  unfold packet_to_string, tcp_packet_to_string, udp_packet_to_string.
  by rewrite encap_headers_to_string_agree, endpoints_to_string_agree.
Qed.

End Agree.

(** One function that agrees with any that prints the addresses of the tests. *)
Definition tabled (ntop : InetNtop) : InetNtop := fun family a =>
  match list_find (fun '(family', a', _) => family' = family /\ take (length a') a = a') test_addresses with
  | Some (_, (_, _, text)) => text
  | None => ntop family a
  end.

Lemma tabled_agrees (ntop : InetNtop) family a :
  prints_addresses -> ntop family a = tabled ntop family a.
Proof.
  intros R. unfold tabled. destruct (list_find _ _) as [[i [[family' a'] text]]|] eqn:E; [|done].
  apply list_find_Some in E as (E & [-> Ha] & _). rewrite <-(take_drop (length a') a), Ha.
  by apply (Forall_lookup_1 _ _ _ _ R E).
Qed.

(** The result of parsing is the same for any allocator, and a dump for any [inet_ntop]. *)
Lemma populate_and_parse_any `{Malloc} data :
  populate_and_parse data = @populate_and_parse zero_malloc data.
Proof. unfold populate_and_parse. by rewrite !populated. Qed.

Lemma assert_dump_tabled {ntop : InetNtop} pkt format expected : prints_addresses ->
  assert_dump pkt format expected = @assert_dump (tabled ntop) pkt format expected.
Proof.
  intros R. unfold assert_dump.
  by rewrite (packet_to_string_agree ntop (tabled ntop)) by (intros; by apply tabled_agrees).
Qed.

(** Evaluates a test that parses a packet and compares its dumps. *)
Ltac run_test :=
  rewrite populate_and_parse_any;
  match goal with |- context [@populate_and_parse zero_malloc ?data] =>
    let r := eval vm_compute in (@populate_and_parse zero_malloc data) in
    replace (@populate_and_parse zero_malloc data) with r by (vm_compute; reflexivity)
  end; rewrite bind_Ok_eq; cbv beta;
  repeat (rewrite assert_dump_tabled by done;
    match goal with |- context [@assert_dump ?n ?pkt ?format ?expected] =>
      let r := eval vm_compute in (@assert_dump n pkt format expected) in
      replace (@assert_dump n pkt format expected) with r by (vm_compute; reflexivity)
    end);
  eexists; reflexivity.

(** The tests of packet_to_string.c that are not run pass too. *)
Theorem packet_to_string_tests_pass `{Malloc} {ntop : InetNtop} :
  prints_addresses -> exists out, packet_to_string_tests = Ok out.
Proof.
  intros R. unfold packet_to_string_tests.
  assert (exists out, test_tcp_ipv4_packet_to_string = Ok out) as [out0 ->]
    by (unfold test_tcp_ipv4_packet_to_string; run_test).
  assert (exists out, test_tcp_ipv6_packet_to_string = Ok out) as [out1 ->]
    by (unfold test_tcp_ipv6_packet_to_string; run_test).
  assert (exists out, test_gre_mpls_tcp_ipv4_packet_to_string = Ok out) as [out2 ->]
    by (unfold test_gre_mpls_tcp_ipv4_packet_to_string; run_test).
  assert (exists out, test_tcp_md5_option_to_string = Ok out) as [out3 ->]
    by (unfold test_tcp_md5_option_to_string; run_test).
  eexists. reflexivity.
Qed.

(** ** The packets of strings *)

Section Strings.
Context `{Malloc}.

(** The array holds the bytes [l], in a block of [ar_capacity] bytes. *)
Definition holds (a : array) (l : bytes) : Prop :=
  exists tail, ar_data a = l ++ tail /\ ar_size a = zlen l /\
    zlen (ar_data a) = ar_capacity a /\ 0 < ar_capacity a.

Lemma st8_end l x tail v : is_byte v -> st8 (l ++ x :: tail) (zlen l) v = Ok (l ++ v :: tail).
Proof.
  intros Hv. unfold st8. destruct (put_bytes_in (l ++ x :: tail) (zlen l) (le_split 1 v)) as [b E];
    [apply zlen_nonneg|rewrite zlen_app, zlen_cons, zlen_le_split; pose proof (zlen_nonneg tail); lia|].
  rewrite E. apply put_bytes_Ok in E as [_ ->]. f_equal.
  unfold zlen. rewrite Nat2Z.id, take_app_length, length_le_split. f_equal.
  rewrite drop_app_add'  by done. cbn. unfold is_byte in Hv. by rewrite Z.mod_small by lia.
Qed.

Lemma realloc_grows l n : 0 <= zlen l <= n ->
  exists tail, realloc l n = l ++ tail /\ zlen tail = n - zlen l.
Proof.
  intros Hn. unfold realloc. exists (drop (length l) (malloc n)). pose proof (malloc_zlen n ltac:(lia)) as Hm.
  unfold zlen in *. rewrite take_ge by lia. split; [done|]. rewrite length_drop. lia.
Qed.

(** The array doubles when it is full, so that a push never leaves it. *)
Lemma push_data_holds a l v : holds a l -> is_byte v ->
  exists a', push_data a v = Ok a' /\ holds a' (l ++ [v]).
Proof.
  intros (tail & Hd & Hs & Hc & Hp) Hv. unfold push_data.
  set (a1 := if ar_capacity a <=? ar_size a then _ else a).
  assert (exists x tail', ar_data a1 = l ++ x :: tail' /\ ar_size a1 = zlen l /\
    zlen (ar_data a1) = ar_capacity a1 /\ 0 < ar_capacity a1) as (x & tail' & Hd1 & Hs1 & Hc1 & Hp1).
  { subst a1. rewrite Hd, zlen_app in Hc. destruct (Z.leb_spec (ar_capacity a) (ar_size a)) as [Hle|Hlt].
    - destruct tail as [|? tail]; [|rewrite zlen_cons in Hc; pose proof (zlen_nonneg tail); lia].
      rewrite app_nil_r in Hd. cbn in Hc. rewrite Hd.
      destruct (realloc_grows l (ar_capacity a * 2)) as (t & E & Ht); [unfold zlen in *; cbn in *; lia|].
      destruct t as [|x t]; [unfold zlen in *; cbn in *; lia|].
      exists x, t. cbn [ar_data ar_size ar_capacity]. rewrite E. split_and!; [done|done| |lia].
      rewrite zlen_app. unfold zlen in *; cbn in *; lia.
    - destruct tail as [|x t]; [unfold zlen in *; cbn in *; lia|].
      exists x, t. rewrite Hd, zlen_app. auto. }
  rewrite Hd1, Hs1, st8_end by done. cbn [mbind exec_bind].
  eexists. split; [reflexivity|]. exists tail'. cbn [ar_data ar_size ar_capacity].
  rewrite <-app_assoc. split_and!; [done| | |done].
  - rewrite zlen_app. done.
  - rewrite <-Hc1, Hd1, !zlen_app, !zlen_cons. done.
Qed.

Lemma push_fixed_holds l' : forall a l, holds a l -> bytes_ok l' ->
  exists a', push_fixed a l' = Ok a' /\ holds a' (l ++ l').
Proof.
  induction l' as [|v l' IH]; intros a l Ha Hl; cbn [push_fixed].
  - exists a. by rewrite app_nil_r.
  - inversion_clear Hl. destruct (push_data_holds a l v) as (a1 & -> & Ha1); [done..|].
    cbn [mbind exec_bind]. destruct (IH a1 (l ++ [v])) as (a' & -> & Ha'); [done..|].
    exists a'. by rewrite <-app_assoc in Ha'.
Qed.

Lemma push_bytes_holds mem : bytes_ok mem -> forall n a l i, holds a l -> 0 <= i ->
  i + Z.of_nat n <= zlen mem ->
  exists a', push_bytes a mem n i = Ok (a', i + Z.of_nat n) /\
    holds a' (l ++ take n (drop (Z.to_nat i) mem)).
Proof.
  intros Hm. induction n as [|n IH]; intros a l i Ha Hi Hn; cbn [push_bytes].
  - exists a. by rewrite Z.add_0_r, take_0, app_nil_r.
  - rewrite ld8_eq by lia. cbn [mbind exec_bind].
    destruct (push_data_holds a l (byte_at mem i)) as (a1 & -> & Ha1); [done|by apply byte_at_is_byte|].
    cbn [mbind exec_bind]. destruct (IH a1 _ (i + 1) Ha1) as (a' & -> & Ha'); [lia..|].
    exists a'. split; [do 2 f_equal; lia|]. rewrite <-app_assoc in Ha'.
    assert (E : take (S n) (drop (Z.to_nat i) mem) = byte_at mem i :: take n (drop (Z.to_nat (i + 1)) mem)).
    { unfold byte_at. replace (Z.to_nat (i + 1)) with (S (Z.to_nat i)) by lia.
      unfold zlen in *. destruct (drop (Z.to_nat i) mem) as [|x t] eqn:E.
      - apply (f_equal length) in E. rewrite length_drop in E. cbn in E. lia.
      - cbn. f_equal.
        + rewrite <-(take_drop (Z.to_nat i) mem), E, app_nth2 by (rewrite length_take; lia).
          rewrite length_take. by replace (_ - _)%nat with 0%nat by lia.
        + f_equal. rewrite <-Nat.add_1_r, <-drop_drop, E. done. }
    by rewrite E.
Qed.

Lemma push_bytes_short mem : bytes_ok mem -> forall n a l i, holds a l -> 0 <= i <= zlen mem ->
  zlen mem < i + Z.of_nat n -> push_bytes a mem n i = Fault OutOfBounds.
Proof.
  intros Hm. induction n as [|n IH]; intros a l i Ha Hi Hn; [lia|]. cbn [push_bytes].
  destruct (decide (i = zlen mem)) as [->|].
  - unfold ld8, get_bytes. replace (in_range mem (zlen mem) 1) with false; [done|].
    symmetry. apply not_true_is_false. rewrite in_range_true. lia.
  - rewrite ld8_eq by lia. cbn [mbind exec_bind].
    destruct (push_data_holds a l (byte_at mem i)) as (a1 & -> & Ha1); [done|by apply byte_at_is_byte|].
    cbn [mbind exec_bind]. eapply IH; [done|lia..].
Qed.

(** One call of push_bytes, after [k] bytes from index [b] on. *)
Lemma push_bytes_next mem a pre b k n : bytes_ok mem -> holds a (pre ++ take k (drop b mem)) ->
  Z.of_nat (b + k + n) <= zlen mem ->
  exists a', push_bytes a mem n (Z.of_nat (b + k)) = Ok (a', Z.of_nat (b + (k + n))) /\
    holds a' (pre ++ take (k + n) (drop b mem)).
Proof.
  intros Hm Ha Hn. destruct (push_bytes_holds mem Hm n a _ (Z.of_nat (b + k)) Ha) as (a' & E & Ha'); [lia..|].
  exists a'. rewrite E. split; [do 2 f_equal; lia|].
  rewrite Nat2Z.id, <-app_assoc, <-drop_drop, take_take_drop in Ha'. done.
Qed.

(** The bytes of the packet that a string gives: the headers before TCP, and 40 bytes of the
    string and its terminator, with the data offset set to five words. *)
Definition fuzz_text (fuzz_string : string) : bytes :=
  let mem := string_bytes fuzz_string ++ [0] in
  fixed_data ++ <[12%nat := 0x55]> (take 16 mem) ++ take 24 (drop 16 mem).

Lemma data_offset_set pre l tail : (12 < length l)%nat ->
  st8 ((pre ++ l) ++ tail) (zlen pre + 12) 0x55 = Ok ((pre ++ <[12%nat := 0x55]> l) ++ tail).
Proof.
  intros Hl. unfold st8. change (le_split 1 0x55) with [0x55].
  destruct (put_bytes_in ((pre ++ l) ++ tail) (zlen pre + 12) [0x55]) as [b E];
    [pose proof (zlen_nonneg pre); lia|rewrite !zlen_app; unfold zlen; cbn; lia|].
  rewrite E. apply put_bytes_Ok in E as [_ ->]. f_equal.
  replace (Z.to_nat (zlen pre + 12)) with (length pre + 12)%nat by (unfold zlen; lia).
  rewrite <-!app_assoc, <-Nat.add_assoc, take_app_add, drop_app_add, take_app_le, drop_app_le by (cbn; lia).
  cbn [length]. rewrite insert_take_drop by done. rewrite <-!app_assoc. done.
Qed.

Ltac closed_bytes := repeat (apply Forall_cons_2; [unfold is_byte; lia|]); apply Forall_nil_2.

Ltac push_step :=
  match goal with
  | Ha : holds ?a (?pre ++ take ?k (drop ?b ?mem)), Hm : bytes_ok ?mem
    |- context [push_bytes ?a ?mem ?n ?i] =>
      let Hn := fresh in let E := fresh in let a' := fresh "a" in let Ha' := fresh "Ha" in
      destruct (decide (Z.of_nat (b + k + n) <= zlen mem)) as [Hn|Hn];
      [destruct (push_bytes_next mem a pre b k n Hm Ha Hn) as (a' & E & Ha'); cbn [Nat.add] in E, Ha';
       rewrite E; clear Ha E; rename Ha' into Ha; cbn [mbind exec_bind]
      |rewrite (push_bytes_short mem Hm n a _ i Ha) by lia; right; split; [done|lia]]
  end.

Lemma fuzz_bytes_cases s : (0 < String.length s)%nat ->
  (exists tail, fuzz_bytes s = Ok (fuzz_text s ++ tail, 84) /\ (39 <= String.length s)%nat)
  \/ (fuzz_bytes s = Fault OutOfBounds /\ (String.length s < 39)%nat).
Proof.
  intros Hs. unfold fuzz_bytes, fuzz_text. pose proof (string_bytes_length s) as Hl.
  set (mem := string_bytes s ++ [0]).
  assert (Hm : bytes_ok mem).
  { subst mem. apply Forall_app. split; [apply string_bytes_ok|]. closed_bytes. }
  assert (Hz : zlen mem = Z.of_nat (String.length s) + 1) by (subst mem; rewrite zlen_app, Hl; done).
  replace (if _ <=? 20 then _ else _) with (Ok mem : exec bytes).
  2: { case_match; [|done]. rewrite <-Hl. subst mem. symmetry. apply st8_end. unfold is_byte. lia. }
  cbn [mbind exec_bind].
  destruct (push_fixed_holds fixed_data (mk_array (malloc (Z.of_nat (String.length s))) 0 (Z.of_nat (String.length s))) [])
    as (a & -> & Ha).
  { exists (malloc (Z.of_nat (String.length s))). cbn [ar_data ar_size ar_capacity].
    rewrite malloc_zlen by lia. split_and!; [done|done|done|lia]. }
  { unfold fixed_data. closed_bytes. }
  cbn [mbind exec_bind app] in *.
  assert (H0 : holds a (fixed_data ++ take 0 (drop 0 mem))) by (by rewrite take_0, app_nil_r).
  clear Ha. clearbody mem. change 0 with (Z.of_nat 0).
  rename H0 into Ha. do 5 push_step. rewrite drop_0 in Ha.
  destruct Ha as (tail & Hd & Hsize & Hcap & Hpos). rewrite Hd, data_offset_set by (rewrite length_take; unfold zlen in *; lia).
  cbn [mbind exec_bind].
  set (l16 := <[12%nat := 0x55]> (take 16 mem)).
  assert (Hl16 : length l16 = 16%nat) by (subst l16; rewrite length_insert, length_take; unfold zlen in *; lia).
  set (a5 := mk_array _ _ _).
  assert (Ha : holds a5 ((fixed_data ++ l16) ++ take 0 (drop 16 mem))).
  { exists tail. rewrite take_0, app_nil_r. cbn [a5 ar_data ar_size ar_capacity].
    split_and!; [done| | |done].
    - rewrite Hsize, !zlen_app. unfold zlen. rewrite Hl16, length_take. unfold zlen in *. lia.
    - rewrite <-Hcap, Hd, !zlen_app. unfold zlen. rewrite Hl16, length_take. unfold zlen in *. lia. }
  clearbody a5 l16. clear Hd Hsize Hcap Hpos.
  do 2 push_step.
  match goal with |- context [84 - ar_size ?a7] =>
    replace (Z.to_nat (84 - ar_size a7)) with 16%nat end.
  2: { destruct Ha as (? & _ & -> & _). rewrite !zlen_app. unfold zlen. rewrite Hl16, length_take, length_drop.
       unfold zlen in *. change (length fixed_data) with 44%nat. lia. }
  push_step. left. destruct Ha as (tail' & Hd & Hsize & _). exists tail'. rewrite Hd, Hsize.
  split; [|lia]. rewrite <-!app_assoc. do 2 f_equal.
  rewrite !zlen_app. unfold zlen. rewrite Hl16, length_take, length_drop. unfold zlen in *.
  change (length fixed_data) with 44%nat. lia.
Qed.

Lemma push_data_empty v : push_data (mk_array (malloc 0) 0 0) v = Fault OutOfBounds.
Proof.
  assert (E : malloc 0 = []).
  { pose proof (malloc_zlen 0) as E. destruct (malloc 0); [done|]. unfold zlen in E. cbn in E. lia. }
  unfold push_data, realloc. cbn [ar_capacity ar_size ar_data]. change (0 * 2) with 0. rewrite E. reflexivity.
Qed.

Context `{InetNtop}.

(** A string of fewer than 39 characters does not fill the packet of 84 bytes: the program reads
    past the end of the string. *)
Theorem short_string_overread s : (String.length s < 39)%nat -> fuzz_to_packet s = Fault OutOfBounds.
Proof.
  intros Hs. unfold fuzz_to_packet. destruct (decide (String.length s = 0)%nat) as [E|].
  - destruct s; [|done]. unfold fuzz_bytes. cbn [String.length Z.of_nat push_fixed fixed_data].
    by rewrite push_data_empty.
  - destruct (fuzz_bytes_cases s) as [(tail & -> & ?)|[-> _]]; [lia|lia|done].
Qed.

(** With 39 characters or more, exactly the bytes of [fuzz_text] are parsed and printed. *)
Lemma long_string_packet s : (39 <= String.length s)%nat ->
  fuzz_to_packet s = (
    out ← dump_fuzz_packet (fuzz_text s) 84;
    Ok ("len = " +:+ dec (Z.of_nat (String.length s)) +:+ newline
        +:+ print_packet_as_char (fuzz_text s) +:+ out)).
Proof.
  intros Hs. unfold fuzz_to_packet. destruct (fuzz_bytes_cases s) as [(tail & -> & _)|[_ ?]]; [lia| |lia].
  rewrite bind_Ok_eq. unfold dump_fuzz_packet.
  assert (E : get_bytes (fuzz_text s) 0 84 = Ok (fuzz_text s) /\
    get_bytes (fuzz_text s ++ tail) 0 84 = Ok (fuzz_text s)).
  { assert (El : length (fuzz_text s) = 84%nat).
    { unfold fuzz_text. pose proof (string_bytes_length s) as Hl. unfold zlen in Hl.
      rewrite !length_app, length_insert, length_take, length_take, length_drop, length_app.
      change (length fixed_data) with 44%nat. cbn [length]. lia. }
    rewrite !get_bytes_Ok, !in_range_true, zlen_app, !drop_0, take_app_le by lia. unfold zlen. rewrite El.
    rewrite take_ge by lia. split; (split; [lia|done]). }
  destruct E as [-> ->]. done.
Qed.

(** The packet does not depend on the allocator. *)
Lemma dump_fuzz_packet_any l n : zlen l = n ->
  dump_fuzz_packet l n = @dump_fuzz_packet zero_malloc _ l n.
Proof.
  intros <-. unfold dump_fuzz_packet. destruct (get_bytes l 0 (zlen l)) as [l'|] eqn:E; [|done].
  rewrite !bind_Ok_eq. apply get_bytes_zlen in E. rewrite <-E, !populated. done.
Qed.

(** The program ends in a read past its first string; the other strings give packets that are
    parsed and printed. *)
Theorem packet_to_string_test_main_overreads :
  packet_to_string_test_main = Fault OutOfBounds /\
  (exists out, fuzz_to_packet "v3v3g3w45t24g2b3928cbu82ubr2f9hybv92rbv9248vyb24" = Ok out) /\
  (exists out, fuzz_to_packet "9458vh90seufvb0ebv087bru8vbweivbiwebpn20495ugn904unb" = Ok out).
Proof.
  split; [unfold packet_to_string_test_main; by rewrite (short_string_overread "4b2v2c24245t2c2087vh28vb928347bt9823bg") by (cbn; lia)|].
  split; (rewrite long_string_packet by (cbn; lia); rewrite dump_fuzz_packet_any by (vm_compute; reflexivity)).
  - eexists. vm_compute. reflexivity.
  - eexists. vm_compute. reflexivity.
Qed.

End Strings.

(** Such functions of the C library exist. *)
Lemma tabled_prints : @prints_addresses (tabled (fun _ _ => "")).
Proof. repeat (apply Forall_cons_2; [intros rest; reflexivity|]). apply Forall_nil_2. Qed.
