(* ===== verification/ScriptActions.v ===== *)
(** * ScriptActions: the actions of the script grammar (parser.y)

    Bison generates the parser from the rules of parser.y and their actions.  A derivation of
    the grammar is a tree of one type for each nonterminal symbol; tokens are its leaves, with
    the values that the lexer gave them, and with line numbers where an action reads one.  The
    actions run from the leaves up and from left to right, as the parser reduces its rules.
    An action that calls semantic_error ends the program.

    The tables of the parser are generated code and not modelled: a derivation is the input
    here.  The lexer is in Lexer.v. *)

From Stdlib Require Import Ascii.
From S2P Require Import Prelude Headers Packet TcpOptions IpAddress IpPacket TcpPacket IcmpPacket Script RunState PacketVerify PacketToString FuzzHelper Config.

(** ** The state of the parser *)

(** The state is [current_script_line]; the program ends in a [fault]. *)
Definition act (A : Type) : Type := Z -> exec (A * Z).

#[export] Instance act_ret : MRet act := fun A a line => Ok (a, line).
#[export] Instance act_bind : MBind act := fun A B f m line =>
  match m line with
  | Ok (a, line) => f a line
  | Fault e => Fault e
  end.

#[export] Instance act_fmap : FMap act := fun A B f m => a ← m; mret (f a).

Definition act_lift {A} (m : exec A) : act A := fun line => a ← m; Ok (a, line).

(** [parser.y:137-137] current_script_line, before the first statement *)
Definition NO_SCRIPT_LINE : Z := -1.

(** An assignment to [current_script_line]. *)
Definition set_script_line (yylineno : Z) : act unit := fun _ => Ok (tt, yylineno).

(** [parser.y:281-286] semantic_error *)
Definition semantic_error {A} : act A := fun line =>
  if 0 <=? line then Fault Died else Fault AssertFailed.

(** A check of an action. *)
Definition check_that (b : bool) : act unit := if b then mret tt else semantic_error.

(** A function that returns a result or an error message. *)
Definition or_error {A} (m : exec (result A)) : act A :=
  r ← act_lift m;
  match r with Success a => mret a | Failure _ => semantic_error end.

(** A function that changes a packet and returns a status. *)
Definition or_status (m : exec (packet * status_t)) : act packet :=
  '(pkt, status) ← act_lift m;
  if decide (status = STATUS_OK) then mret pkt else semantic_error.

(** ** Tokens

    The functions of the lexer that make the strings of tokens, given the text that a regular
    expression matched. *)

(** strndup(3): the length is a size_t, so that a negative one is no limit. *)
Definition strndup (s : bytes) (n : Z) : bytes := if n <? 0 then s else take (Z.to_nat n) s.

(** [lexer.l:67-71] option *)
Definition option_name (s : bytes) : bytes := strndup (drop 2 s) (zlen s - 2).

(** [lexer.l:74-78] quoted *)
Definition quoted (s : bytes) : bytes := strndup (drop 1 s) (zlen s - 2).

(** [lexer.l:83-105] word: the kinds of token *)
Inductive word_token := T_WORD (s : bytes) | T_STRING (s : bytes) | T_BACK_QUOTED (s : bytes).

(** [lexer.l:83-105] word *)
Definition word (defines : list definition) (yytext : string) : word_token :=
  match definition_get defines yytext with
  | Some value =>
      let value := string_bytes value in
      if byte_at value 0 =? 34 then T_STRING (quoted value)
      else if byte_at value 0 =? 96 then T_BACK_QUOTED (quoted value)
      else T_WORD value
  | None => T_WORD (string_bytes yytext)
  end.

(** A space or a tab. *)
Definition is_blank (c : Z) : bool := (c =? 32) || (c =? 9).

Fixpoint blanks (l : bytes) : nat :=
  match l with
  | [] => 0
  | c :: l => if is_blank c then S (blanks l) else 0
  end.

(** [lexer.l:113-127] code: the indices start and end, and the copy *)
Definition code (s : bytes) : bytes :=
  let start := 2 + Z.of_nat (blanks (drop 2 s)) in
  let end_ := zlen s - 1 - 2 - Z.of_nat (blanks (reverse (take (length s - 2) s))) in
  strndup (drop (Z.to_nat start) s) (end_ - start + 1).

(** ** Hexadecimal strings *)

(** [parser.y:355-367] parse_hex_byte, with isxdigit and strtoul of the C library: the byte, or
    STATUS_ERR; the string has a terminator, so that there is a second character *)
Definition parse_hex_byte (c0 c1 : Z) : option Z :=
  match hex_value c0, hex_value c1 with
  | Some h, Some l => Some (16 * h + l)
  | _, _ => None
  end.

(** [parser.y:374-391] parse_hex_string: stores from [out] on, up to [buf_end]; the offset after
    the last byte, or STATUS_ERR *)
Fixpoint parse_hex_string (hex : bytes) (b : bytes) (out buf_end : Z) : exec (bytes * option Z) :=
  match hex with
  | [] => Ok (b, Some out)
  | c0 :: hex' =>
      if buf_end <=? out then Ok (b, None)
      else
      match hex' with
      | [] => Ok (b, None)
      | c1 :: hex'' =>
          match parse_hex_byte c0 c1 with
          | None => Ok (b, None)
          | Some byte => b ← st8 b out byte; parse_hex_string hex'' b (out + 1) buf_end
          end
      end
  end.

(** ** TCP options *)

(** [tcp_options.h:53-54] MAX_TCP_FAST_OPEN_COOKIE_BYTES *)
Definition MAX_TCP_FAST_OPEN_COOKIE_BYTES : Z := MAX_TCP_OPTION_BYTES - TCPOLEN_FASTOPEN_BASE.
(** [tcp_options.h:55-56] MAX_TCP_FAST_OPEN_EXP_COOKIE_BYTES *)
Definition MAX_TCP_FAST_OPEN_EXP_COOKIE_BYTES : Z := MAX_TCP_OPTION_BYTES - TCPOLEN_EXP_FASTOPEN_BASE.
(** [tcp.h:102-102] TCP_MD5_DIGEST_LEN *)
Definition TCP_MD5_DIGEST_LEN : Z := 16.

(** [parser.y:393-440] new_tcp_fast_open_option *)
Definition new_tcp_fast_open_option (cookie_string : bytes) (exp : bool) : exec (result bytes) :=
  let cookie_string_len := zlen cookie_string in
  if negb (Z.land cookie_string_len 1 =? 0) then
    Ok (Failure "TCP fast open cookie has an odd number of digits")
  else
  let cookie_bytes := cookie_string_len / 2 in
  let max_bytes := if exp then MAX_TCP_FAST_OPEN_EXP_COOKIE_BYTES else MAX_TCP_FAST_OPEN_COOKIE_BYTES in
  if max_bytes <? cookie_bytes then
    Ok (Failure ("TCP fast open cookie of " +:+ dec cookie_bytes
                 +:+ " bytes exceeds maximum cookie length of " +:+ dec max_bytes +:+ " bytes"))
  else
  let option_bytes := cookie_bytes + (if exp then TCPOLEN_EXP_FASTOPEN_BASE else TCPOLEN_FASTOPEN_BASE) in
  let opt := tcp_option_new (if exp then TCPOPT_EXP else TCPOPT_FASTOPEN) option_bytes in
  opt ← (if exp then wr opt 0 opt_exp_magic (htons TCPOPT_FASTOPEN_MAGIC) else Ok opt);
  let cookie := if exp then 4 else 2 in
  '(opt, parsed) ← parse_hex_string cookie_string opt cookie (cookie + max_bytes);
  match parsed with
  | None => Ok (Failure "TCP fast open cookie is not a valid hex string")
  | Some out =>
      _ ← c_assert (out - cookie =? cookie_bytes);
      Ok (Success opt)
  end.

(** [parser.y:442-471] new_md5_option *)
Definition new_md5_option (digest_string : bytes) : exec (result bytes) :=
  let digest_bytes := zlen digest_string / 2 in
  if TCP_MD5_DIGEST_LEN <? digest_bytes then Ok (Failure "TCP MD5 digest longer than 16 bytes")
  else
  let opt := tcp_option_new TCPOPT_MD5SIG (TCPOLEN_MD5_BASE + digest_bytes) in
  '(opt, parsed) ← parse_hex_string digest_string opt 2 (2 + TCP_MD5_DIGEST_LEN);
  match parsed with
  | None => Ok (Failure "TCP MD5 digest is not a valid hex string")
  | Some out =>
      _ ← c_assert (out - 2 <=? digest_bytes);
      Ok (Success opt)
  end.

(** [parser.y:1243-1311] tcp_option, with sack_block_list and sack_block: the integers are the
    values of INTEGER tokens, the strings those of hex_blob *)
Inductive tcp_option_d :=
  | d_nop
  | d_eol
  | d_mss (mss : Z)
  | d_wscale (shift_count : Z)
  | d_sackok
  | d_sack (block : Z * Z) (blocks : list (Z * Z))
  | d_md5 (digest : string)
  | d_timestamp (val ecr : Z)
  | d_fast_open (cookie : string)
  | d_fast_open_exp (cookie : string).

(** [parser.y:1329-1341] sack_block *)
Definition sack_block (block : Z * Z) : act bytes :=
  let opt := tcp_option_new TCPOPT_SACK (2 + 8) in
  _ ← check_that (is_valid_u32 block.1);
  _ ← check_that (is_valid_u32 block.2);
  opt ← act_lift (wr opt 0 (opt_sack_left 0) (htonl block.1));
  act_lift (wr opt 0 (opt_sack_right 0) (htonl block.2)).

(** [parser.y:1315-1326] sack_block_list: a block appended to the list.  The array of the struct
    has four blocks; memcpy does not check for a fifth. *)
Definition sack_block_append (opt block : bytes) : exec bytes :=
  length ← rd opt 0 opt_length;
  let list_block_bytes := length - 2 in
  _ ← c_assert (0 <? list_block_bytes);
  _ ← c_assert (list_block_bytes mod 8 =? 0);
  let num_blocks := list_block_bytes / 8 in
  src ← get_bytes block 2 8;
  opt ← put_bytes opt (2 + 8 * num_blocks) src;
  wr opt 0 opt_length (length + 8).

(** [parser.y:1313-1327] sack_block_list *)
Fixpoint sack_block_list (opt : bytes) (blocks : list (Z * Z)) : act bytes :=
  match blocks with
  | [] => mret opt
  | block :: blocks =>
      block ← sack_block block;
      opt ← act_lift (sack_block_append opt block);
      sack_block_list opt blocks
  end.

(** [parser.y:1243-1311] tcp_option *)
Definition tcp_option (d : tcp_option_d) : act bytes :=
  match d with
  | d_nop => mret (tcp_option_new TCPOPT_NOP 1)
  | d_eol => mret (tcp_option_new TCPOPT_EOL 1)
  | d_mss mss =>
      _ ← check_that (is_valid_u16 mss);
      act_lift (wr (tcp_option_new TCPOPT_MAXSEG TCPOLEN_MAXSEG) 0 opt_mss_bytes (htons mss))
  | d_wscale shift_count =>
      _ ← check_that (is_valid_u8 shift_count);
      act_lift (wr (tcp_option_new TCPOPT_WINDOW TCPOLEN_WINDOW) 0 opt_shift_count shift_count)
  | d_sackok => mret (tcp_option_new TCPOPT_SACK_PERMITTED TCPOLEN_SACK_PERMITTED)
  | d_sack block blocks => opt ← sack_block block; sack_block_list opt blocks
  | d_md5 digest => or_error (new_md5_option (string_bytes digest))
  | d_timestamp val ecr =>
      _ ← check_that (is_valid_u32 val);
      _ ← check_that (is_valid_u32 ecr);
      opt ← act_lift (wr (tcp_option_new TCPOPT_TIMESTAMP TCPOLEN_TIMESTAMP) 0 opt_ts_val (htonl val));
      act_lift (wr opt 0 opt_ts_ecr (htonl ecr))
  | d_fast_open cookie => or_error (new_tcp_fast_open_option (string_bytes cookie) false)
  | d_fast_open_exp cookie => or_error (new_tcp_fast_open_option (string_bytes cookie) true)
  end.

(** [parser.y:1218-1231] tcp_option_list *)
Fixpoint tcp_option_list (options : tcp_options) (ds : list tcp_option_d) : act tcp_options :=
  match ds with
  | [] => mret options
  | d :: ds =>
      opt ← tcp_option d;
      '(options, status) ← act_lift (tcp_options_append options opt);
      if decide (status = STATUS_OK) then tcp_option_list options ds else semantic_error
  end.

(** [parser.y:1212-1216] opt_tcp_options: the list in < >, none at all being the empty list, or
    the ellipsis *)
Definition opt_tcp_options (ds : option (list tcp_option_d)) : act (option tcp_options) :=
  match ds with
  | Some ds => Some <$> tcp_option_list tcp_options_new ds
  | None => mret None
  end.

(** ** The parts of a packet *)

(** [types.h:112-118] enum ip_ecn_t *)
Inductive ip_ecn_t := ECN_NONE | ECN_ECT0 | ECN_ECT1 | ECN_CE | ECN_ECT01_.

(** [types.h:112-118] enum ip_ecn_t: the numbers *)
Definition ecn_number (ecn : ip_ecn_t) : Z :=
  match ecn with ECN_NONE => 0 | ECN_ECT0 => 1 | ECN_ECT1 => 2 | ECN_CE => 3 | ECN_ECT01_ => ECN_ECT01 end.

(** [parser.y:1083-1095] tos_spec *)
Inductive tos_spec_d := d_ecn (ecn : ip_ecn_t) | d_tos (hex_integer : Z).

(** [parser.y:1083-1095] tos_spec, with the action of ip_ecn *)
Definition tos_spec_action (d : tos_spec_d) : act tos_spec :=
  match d with
  | d_ecn ecn => mret (mk_tos TOS_CHECK_ECN (ecn_number ecn))
  | d_tos tos =>
      _ ← check_that (is_valid_u8 tos);
      mret (mk_tos TOS_CHECK_TOS tos)
  end.

(** [types.h:192-195] is_valid_u20 *)
Definition is_valid_u20 (x : Z) : bool := (0 <=? x) && (x <=? 0xfffff).

(** [parser.y:1112-1121] flow_label *)
Definition flow_label (flowlabel : Z) : act Z :=
  _ ← check_that (is_valid_u20 flowlabel);
  mret flowlabel.

(** [parser.y:1123-1148] ip_info *)
Inductive ip_info_d :=
  | d_info_tos (tos : tos_spec_d)
  | d_info_flow (flowlabel : Z)
  | d_info_ttl (ttl : Z)
  | d_info_tos_flow (tos : tos_spec_d) (flowlabel : Z).

(** [parser.y:1123-1148] ip_info; ttl is a byte *)
Definition ip_info_action (d : ip_info_d) : act ip_info :=
  match d with
  | d_info_tos tos => tos ← tos_spec_action tos; mret (mk_ip_info tos 0 0)
  | d_info_flow flowlabel => f ← flow_label flowlabel; mret (mk_ip_info (mk_tos TOS_CHECK_NONE 0) f 0)
  | d_info_ttl ttl => mret (mk_ip_info (mk_tos TOS_CHECK_NONE 0) 0 (u8 ttl))
  | d_info_tos_flow tos flowlabel =>
      tos ← tos_spec_action tos; f ← flow_label flowlabel; mret (mk_ip_info tos f 0)
  end.

(** [parser.y:1150-1159] opt_ip_info *)
Definition opt_ip_info (d : option ip_info_d) : act ip_info :=
  match d with
  | None => mret (mk_ip_info (mk_tos TOS_CHECK_NONE 0) 0 0)
  | Some d => ip_info_action d
  end.

(** [parser.y:1060-1076] opt_port_info *)
Definition opt_port_info (d : option (Z * Z)) : act (Z * Z) :=
  match d with
  | None => mret (0, 0)
  | Some (src_port, dst_port) =>
      _ ← check_that (is_valid_u16 src_port);
      _ ← check_that (is_valid_u16 dst_port);
      mret (src_port, dst_port)
  end.

(** [parser.y:503-507] tcp_sequence_info *)
Record tcp_sequence_info := mk_seq { sq_protocol : Z; sq_start_sequence : Z; sq_payload_bytes : Z }.

(** [parser.y:1161-1180] seq: of the tokens start, end and payload *)
Definition seq_action (d : Z * Z * Z) : act tcp_sequence_info :=
  let '(start, finish, payload) := d in
  _ ← check_that (is_valid_u32 start);
  _ ← check_that (is_valid_u32 finish);
  _ ← check_that (is_valid_u16 payload);
  _ ← check_that (finish =? start + payload);
  mret (mk_seq IPPROTO_TCP start payload).

(** [parser.y:1182-1190] opt_ack *)
Definition opt_ack (d : option Z) : act Z :=
  match d with
  | None => mret 0
  | Some ack => _ ← check_that (is_valid_u32 ack); mret ack
  end.

(** [parser.y:1192-1200] opt_window *)
Definition opt_window (d : option Z) : act Z :=
  match d with
  | None => mret (-1)
  | Some window => _ ← check_that (is_valid_u16 window); mret window
  end.

(** [parser.y:1202-1210] opt_urg_ptr *)
Definition opt_urg_ptr (d : option Z) : act Z :=
  match d with
  | None => mret 0
  | Some urg_ptr => _ ← check_that (is_valid_u16 urg_ptr); mret urg_ptr
  end.

(** [parser.y:1105-1110] flags *)
Inductive flags_d := d_flags_word (w : string) | d_flags_dot | d_flags_word_dot (w : string) | d_flags_none.

(** [parser.y:1105-1110] flags *)
Definition flags_action (d : flags_d) : string :=
  match d with
  | d_flags_word w => w
  | d_flags_dot => "."
  | d_flags_word_dot w => w +:+ "."
  | d_flags_none => ""
  end.

(** [parser.y:1030-1048] opt_icmp_echoed; the rule for raw leaves start_sequence as it was in the
    parser's stack, here [unset] *)
Inductive echoed_d :=
  | d_echoed_none
  | d_echoed_udp (payload : Z)
  | d_echoed_seq (seq : Z * Z * Z)
  | d_echoed_raw (unset payload : Z).

(** [parser.y:1030-1048] opt_icmp_echoed; payload_bytes is a u16 *)
Definition opt_icmp_echoed (d : echoed_d) : act tcp_sequence_info :=
  match d with
  | d_echoed_none => mret (mk_seq IPPROTO_TCP 0 0)
  | d_echoed_udp payload => mret (mk_seq IPPROTO_UDP 0 (u16 payload))
  | d_echoed_seq seq => seq_action seq
  | d_echoed_raw unset payload => mret (mk_seq IPPROTO_RAW unset (u16 payload))
  end.

(** [gre.h:40-43] GRE_FLAG_C, GRE_FLAG_K, GRE_FLAG_S *)
Definition GRE_FLAG_C : Z := 0x8000.
Definition GRE_FLAG_K : Z := 0x2000.
Definition GRE_FLAG_S : Z := 0x1000.

(** [parser.y:949-954] gre_flag *)
Inductive gre_flag_d := d_gre_none | d_gre_checksum | d_gre_key | d_gre_sequence.

(** [parser.y:949-954] gre_flag *)
Definition gre_flag (d : gre_flag_d) : Z :=
  match d with
  | d_gre_none => 0
  | d_gre_checksum => GRE_FLAG_C
  | d_gre_key => GRE_FLAG_K
  | d_gre_sequence => GRE_FLAG_S
  end.

(** [parser.y:939-942] gre_flags_list *)
Inductive gre_flags_d := d_gre_flags (f : gre_flag_d) (fs : list gre_flag_d) | d_gre_flags_int (n : Z).

(** [parser.y:944-947] gre_flags *)
Fixpoint gre_flags (f : gre_flag_d) (fs : list gre_flag_d) : Z :=
  match fs with
  | [] => gre_flag f
  | f' :: fs => Z.lor (gre_flag f) (gre_flags f' fs)
  end.

(** [parser.y:939-942] gre_flags_list *)
Definition gre_flags_list (d : gre_flags_d) : Z :=
  match d with
  | d_gre_flags f fs => gre_flags f fs
  | d_gre_flags_int n => n
  end.

(** [parser.y:924-937] gre_header_expression: flags, sum, off, key and seq *)
Record gre_d := mk_gre_d {
  gd_flags : gre_flags_d; gd_sum : Z; gd_off : Z; gd_key : Z; gd_seq : Z
}.

(** [parser.y:924-937] gre_header_expression: the struct gre *)
Definition gre_header_expression (d : gre_d) : exec bytes :=
  let gre := replicate (Z.to_nat sizeof_gre) 0 in
  gre ← wr gre 0 (F16 0) (htons (u16 (gre_flags_list (gd_flags d))));
  gre ← wr gre 0 (F16 4) (htons (u16 (gd_sum d)));
  gre ← wr gre 0 (F16 6) (htons (u16 (gd_off d)));
  gre ← wr gre 0 (F32 8) (htonl (u32 (gd_key d)));
  wr gre 0 (F32 12) (htonl (u32 (gd_seq d))).

(** [parser.y:993-1008] mpls_stack_entry, and [opt_mpls_stack_bottom]: the word in brackets *)
Record mpls_entry_d := mk_mpls_d { md_label : Z; md_tc : Z; md_bottom : option string; md_ttl : Z }.

(** [parser.y:1010-1018] opt_mpls_stack_bottom *)
Definition opt_mpls_stack_bottom (d : option string) : act bool :=
  match d with
  | None => mret false
  | Some word => _ ← check_that (bool_decide (word = "S")); mret true
  end.

(** [parser.y:993-1008] mpls_stack_entry *)
Definition mpls_stack_entry (d : mpls_entry_d) : act Z :=
  is_stack_bottom ← opt_mpls_stack_bottom (md_bottom d);
  or_error (Ok (new_mpls_stack_entry (md_label d) (md_tc d) is_stack_bottom (md_ttl d))).

(** [parser.y:982-991] mpls_stack *)
Fixpoint mpls_stack_action (stack : mpls_stack) (ds : list mpls_entry_d) : act mpls_stack :=
  match ds with
  | [] => mret stack
  | d :: ds =>
      entry ← mpls_stack_entry d;
      let '(stack, status) := mpls_stack_append stack entry in
      if decide (status = STATUS_OK) then mpls_stack_action stack ds else semantic_error
  end.

Section Packets.
Context `{Malloc} `{InetPton}.
(** The flavour of IP of the configuration, in_config->wire_protocol. *)
Context (wire_protocol : Z).

(** [parser.y:473-481] append_gre *)
Definition append_gre (pkt : packet) (gre : bytes) : act packet := or_status (gre_header_append pkt gre).

(** [parser.y:871-922] packet_prefix; a direction comes with yylineno *)
Inductive packet_prefix_d :=
  | d_direction (direction : direction_t) (yylineno : Z)
  | d_ipv4 (prefix : packet_prefix_d) (info : option ip_info_d) (ip_src ip_dst : string)
  | d_ipv6 (prefix : packet_prefix_d) (info : option ip_info_d) (ip_src ip_dst : string)
  | d_gre (prefix : packet_prefix_d)
  | d_gre_header (prefix : packet_prefix_d) (gre : gre_d)
  | d_mpls (prefix : packet_prefix_d) (stack : list mpls_entry_d).

(** [parser.y:871-922] packet_prefix, with the action of direction *)
Fixpoint packet_prefix (d : packet_prefix_d) : act packet :=
  match d with
  | d_direction direction yylineno =>
      _ ← set_script_line yylineno;
      mret (set_pk_direction direction (packet_new PACKET_MAX_HEADER_BYTES))
  | d_ipv4 prefix info ip_src ip_dst =>
      pkt ← packet_prefix prefix;
      info ← opt_ip_info info;
      or_status (ipv4_header_append pkt ip_src ip_dst (tos_value (info_tos info)) (info_ttl info))
  | d_ipv6 prefix info ip_src ip_dst =>
      pkt ← packet_prefix prefix;
      info ← opt_ip_info info;
      or_status (ipv6_header_append pkt ip_src ip_dst (tos_value (info_tos info)) (info_ttl info))
  | d_gre prefix =>
      pkt ← packet_prefix prefix;
      append_gre pkt (replicate (Z.to_nat sizeof_gre) 0)
  | d_gre_header prefix gre =>
      pkt ← packet_prefix prefix;
      gre ← act_lift (gre_header_expression gre);
      append_gre pkt gre
  | d_mpls prefix stack =>
      pkt ← packet_prefix prefix;
      stack ← mpls_stack_action mpls_stack_new stack;
      or_status (mpls_header_append pkt stack)
  end.

(** [parser.y:791-794] the check of [ect01] in tcp_packet_spec; [parser.y:851-854] is the same *)
Definition check_ect01 (info : ip_info) (direction : direction_t) : act unit :=
  check_that (negb (bool_decide (tos_check (info_tos info) = TOS_CHECK_ECN)
                    && (tos_value (info_tos info) =? ECN_ECT01)
                    && negb (bool_decide (direction = DIRECTION_OUTBOUND)))).

(** [parser.y:785-816] tcp_packet_spec *)
Record tcp_packet_d := mk_tcp_d {
  td_prefix : packet_prefix_d;
  td_info : option ip_info_d;
  td_ports : option (Z * Z);
  td_flags : flags_d;
  td_seq : Z * Z * Z;
  td_ack : option Z;
  td_window : option Z;
  td_urg_ptr : option Z;
  td_options : option (list tcp_option_d)
}.

(** [parser.y:785-816] tcp_packet_spec *)
Definition tcp_packet_spec (d : tcp_packet_d) : act packet :=
  outer ← packet_prefix (td_prefix d);
  info ← opt_ip_info (td_info d);
  '(src_port, dst_port) ← opt_port_info (td_ports d);
  let flags := flags_action (td_flags d) in
  seq ← seq_action (td_seq d);
  ack ← opt_ack (td_ack d);
  window ← opt_window (td_window d);
  urg_ptr ← opt_urg_ptr (td_urg_ptr d);
  options ← opt_tcp_options (td_options d);
  let direction := pk_direction outer in
  _ ← check_ect01 info direction;
  _ ← check_that (negb (bool_decide (options = None) && negb (bool_decide (direction = DIRECTION_OUTBOUND))));
  inner ← or_error (new_tcp_packet wire_protocol direction info src_port dst_port flags
                      (sq_start_sequence seq) (sq_payload_bytes seq) ack window urg_ptr options);
  act_lift (packet_encapsulate outer inner).

(** [parser.y:818-842] udp_packet_spec *)
Record udp_packet_d := mk_udp_d {
  ud_prefix : packet_prefix_d; ud_info : option ip_info_d; ud_ports : option (Z * Z); ud_payload : Z
}.

(** [parser.y:818-842] udp_packet_spec *)
Definition udp_packet_spec (d : udp_packet_d) : act packet :=
  outer ← packet_prefix (ud_prefix d);
  info ← opt_ip_info (ud_info d);
  '(src_port, dst_port) ← opt_port_info (ud_ports d);
  let direction := pk_direction outer in
  _ ← check_that (negb (bool_decide (tos_check (info_tos info) = TOS_CHECK_ECN)));
  _ ← check_that (is_valid_u16 (ud_payload d));
  inner ← or_error (new_udp_packet wire_protocol direction info (ud_payload d) src_port dst_port);
  act_lift (packet_encapsulate outer inner).

(** [parser.y:844-868] icmp_packet_spec *)
Record icmp_packet_d := mk_icmp_d {
  id_prefix : packet_prefix_d;
  id_info : option ip_info_d;
  id_type : string;
  id_code : option string;
  id_mtu : option Z;
  id_echo_id : option Z;
  id_echoed : echoed_d
}.

(** [parser.y:844-868] icmp_packet_spec, with opt_icmp_mtu and opt_icmp_echo_id *)
Definition icmp_packet_spec (d : icmp_packet_d) : act packet :=
  outer ← packet_prefix (id_prefix d);
  info ← opt_ip_info (id_info d);
  let mtu := default (-1) (id_mtu d) in
  let echo_id := default 0 (id_echo_id d) in
  echoed ← opt_icmp_echoed (id_echoed d);
  let direction := pk_direction outer in
  _ ← check_ect01 info direction;
  inner ← or_error (new_icmp_packet wire_protocol direction (id_type d) (id_code d)
                      (sq_protocol echoed) (sq_start_sequence echoed) (sq_payload_bytes echoed)
                      info mtu echo_id);
  act_lift (packet_encapsulate outer inner).

End Packets.

(** ** Expressions *)

(** inet_addr(3): the address in network order. *)
Class InetAddr := inet_addr : string -> Z.

(** [parser.y:1640-1666] epollev: the member after events *)
Inductive epoll_data_t := EPOLL_FD | EPOLL_PTR | EPOLL_U32 | EPOLL_U64.

(** [parser.y:1375-1442] expression, with the rules below it; the formats are for printing only *)
Inductive expression_d :=
  | x_ellipsis
  | x_integer (n : Z)
  | x_word (w : string)
  | x_string (s : string)
  | x_or (lhs rhs : expression_d)
  | x_assign (w : string) (rhs : expression_d)
  | x_list (l : list expression_d)
  | x_inaddr (s : string)
  | x_in6addr (s : string)
  | x_sockaddr (family : string) (port : Z) (addr : string)
  | x_msghdr (iovlen : Z) (iov : list expression_d) (flags : expression_d) (control : list expression_d)
  | x_iovec (len : Z)
  | x_pollfd (fd events : expression_d) (revents : option expression_d)
  | x_linger (onoff linger : Z)
  | x_mpls_stack (stack : list mpls_entry_d)
  | x_cmsg (level type data : expression_d)
  | x_scm_timestamping (sec nsec : Z)
  | x_sock_extended_err (errno origin type code info data : expression_d)
  | x_gre (gre : gre_d)
  | x_epollev (events : expression_d) (kind : epoll_data_t) (data : expression_d).

Section Expressions.
Context `{InetPton} `{InetAddr}.

(** [parser.y:1501-1510] in6addr *)
Definition in6addr (s : string) : act expression :=
  match inet_pton AF_INET6 s with
  | Some a => mret (EXPR_IN6_ADDR a)
  | None => semantic_error
  end.

(** [parser.y:1512-1542] sockaddr.  For another family no branch sets the result, which stays a
    pointer that was never set. *)
Definition sockaddr (family : string) (port : Z) (addr : string) : act expression :=
  let sin_port := le_split 2 (htons (u16 port)) in
  if bool_decide (family = "AF_INET") then
    match inet_pton AF_INET addr with
    | Some a => mret (EXPR_SOCKET_ADDRESS_IPV4 (le_split 2 AF_INET ++ sin_port ++ a ++ replicate 8 0))
    | None => semantic_error
    end
  else if bool_decide (family = "AF_INET6") then
    match inet_pton AF_INET6 addr with
    | Some a => mret (EXPR_SOCKET_ADDRESS_IPV6 (le_split 2 AF_INET6 ++ sin_port ++ replicate 4 0 ++ a ++ replicate 4 0))
    | None => semantic_error
    end
  else act_lift (Fault NullDeref).

(** [parser.y:1640-1666] epollev *)
Definition epollev (events : expression) (kind : epoll_data_t) (data : expression) : expression :=
  match kind with
  | EPOLL_FD => EXPR_EPOLLEV events None (Some data) None None
  | EPOLL_PTR => EXPR_EPOLLEV events (Some data) None None None
  | EPOLL_U32 => EXPR_EPOLLEV events None None (Some data) None
  | EPOLL_U64 => EXPR_EPOLLEV events None None None (Some data)
  end.

(** [parser.y:1370-1373] expression_list, with new_expression_list and expression_list_append *)
Definition expression_list (action : expression_d -> act expression)
    : list expression_d -> act (list expression) :=
  fix go l := match l with [] => mret [] | d :: l => e ← action d; es ← go l; mret (e :: es) end.

(** [parser.y:1375-1687] expression *)
Fixpoint expression_action (d : expression_d) : act expression :=
  match d with
  | x_ellipsis => mret EXPR_ELLIPSIS
  | x_integer n => mret (EXPR_INTEGER n)
  | x_word w => mret (EXPR_WORD w)
  | x_string s => mret (EXPR_STRING (string_bytes s))
  | x_or lhs rhs =>
      lhs ← expression_action lhs; rhs ← expression_action rhs; mret (EXPR_BINARY "|" lhs rhs)
  | x_assign w rhs => rhs ← expression_action rhs; mret (EXPR_BINARY "=" (EXPR_WORD w) rhs)
  | x_list l => l ← expression_list expression_action l; mret (EXPR_LIST l)
  | x_inaddr s => mret (EXPR_INTEGER (inet_addr s))
  | x_in6addr s => in6addr s
  | x_sockaddr family port addr => sockaddr family port addr
  | x_msghdr iovlen iov flags control =>
      iov ← expression_list expression_action iov;
      flags ← expression_action flags;
      control ← expression_list expression_action control;
      mret (EXPR_MSGHDR EXPR_ELLIPSIS EXPR_ELLIPSIS (EXPR_LIST iov) (EXPR_INTEGER iovlen)
              (EXPR_LIST control) flags)
  | x_iovec len => mret (EXPR_IOVEC EXPR_ELLIPSIS (EXPR_INTEGER len))
  | x_pollfd fd events revents =>
      fd ← expression_action fd;
      events ← expression_action events;
      revents ← match revents with
                | None => mret (EXPR_INTEGER 0)
                | Some revents => expression_action revents
                end;
      mret (EXPR_POLLFD fd events revents)
  | x_linger onoff linger => mret (EXPR_LINGER (s32 onoff) (s32 linger))
  | x_mpls_stack stack => stack ← mpls_stack_action mpls_stack_new stack; mret (EXPR_MPLS_STACK stack)
  | x_cmsg level type data =>
      level ← expression_action level; type ← expression_action type; data ← expression_action data;
      mret (EXPR_CMSG level type data)
  | x_scm_timestamping sec nsec => mret (EXPR_SCM_TIMESTAMPING [(sec, nsec); (0, 0); (0, 0)])
  | x_sock_extended_err errno origin type code info data =>
      errno ← expression_action errno; origin ← expression_action origin;
      type ← expression_action type; code ← expression_action code;
      info ← expression_action info; data ← expression_action data;
      mret (EXPR_SOCK_EXTENDED_ERR errno origin type code info data)
  | x_gre gre => gre ← act_lift (gre_header_expression gre); mret (EXPR_GRE gre)
  | x_epollev events kind data =>
      events ← expression_action events; data ← expression_action data;
      mret (epollev events kind data)
  end.

(** ** Events *)

(** [parser.y:757-770] time.  Of a FLOAT token: whether it is negative, and its microseconds, the
    double truncated to an s64. *)
Inductive time_d := d_float (negative : bool) (usecs : Z) | d_integer (secs : Z).

(** [parser.y:757-770] time *)
Definition time_action (d : time_d) : act Z :=
  match d with
  | d_float negative usecs => _ ← check_that (negb negative); mret usecs
  | d_integer secs => _ ← check_that (0 <=? secs); mret (s64 (secs * 1000000))
  end.

(** [parser.y:723-755] event_time *)
Inductive event_time_d :=
  | d_relative (t : time_d)
  | d_absolute (t : time_d)
  | d_any
  | d_absolute_range (t t' : time_d)
  | d_relative_range (t t' : time_d).

(** [parser.y:723-755] event_time, at line [first_line] *)
Definition event_time (first_line : Z) (d : event_time_d) : act event :=
  let e := set_ev_line_number first_line (new_event INVALID_EVENT) in
  match d with
  | d_relative t =>
      t ← time_action t;
      mret (set_ev_time_type RELATIVE_TIME (set_ev_time_usecs t e))
  | d_absolute t =>
      t ← time_action t;
      mret (set_ev_time_type ABSOLUTE_TIME (set_ev_time_usecs t e))
  | d_any => mret (set_ev_time_type ANY_TIME e)
  | d_absolute_range t t' =>
      t ← time_action t; t' ← time_action t';
      mret (set_ev_time_usecs_end t' (set_ev_time_usecs t (set_ev_time_type ABSOLUTE_RANGE_TIME e)))
  | d_relative_range t t' =>
      t ← time_action t; t' ← time_action t';
      mret (set_ev_time_usecs_end t' (set_ev_time_usecs t (set_ev_time_type RELATIVE_RANGE_TIME e)))
  end.

(** [parser.y:1343-1354] syscall_spec, of opt_end_time, function_name with yylineno,
    function_arguments, the result and the word of opt_errno; the notes are not used *)
Record syscall_d := mk_syscall_d {
  yd_end_time : option time_d;
  yd_name : string;
  yd_line : Z;
  yd_arguments : list expression_d;
  yd_result : expression_d;
  yd_errno : option string
}.

(** [parser.y:1343-1354] syscall_spec, with opt_end_time and function_name *)
Definition syscall_spec_action (d : syscall_d) : act syscall_spec :=
  end_usecs ← match yd_end_time d with
              | None => mret SYSCALL_NON_BLOCKING
              | Some t => time_action t
              end;
  _ ← set_script_line (yd_line d);
  arguments ← expression_list expression_action (yd_arguments d);
  result ← expression_action (yd_result d);
  mret (mk_syscall_spec (yd_name d) arguments result (mk_errno_spec <$> yd_errno d) end_usecs).

Context `{Malloc} (wire_protocol : Z).

(** [parser.y:772-783] action, and packet_spec; a command and a code snippet come with yylineno *)
Inductive action_d :=
  | d_tcp_packet (d : tcp_packet_d)
  | d_udp_packet (d : udp_packet_d)
  | d_icmp_packet (d : icmp_packet_d)
  | d_syscall (d : syscall_d)
  | d_command (command_line : string) (yylineno : Z)
  | d_code (text : string) (yylineno : Z).

(** [parser.y:772-783] action, with command_spec and code_spec *)
Definition action (d : action_d) : act event :=
  match d with
  | d_tcp_packet d => pkt ← tcp_packet_spec wire_protocol d; mret (new_event (PACKET_EVENT pkt))
  | d_udp_packet d => pkt ← udp_packet_spec wire_protocol d; mret (new_event (PACKET_EVENT pkt))
  | d_icmp_packet d => pkt ← icmp_packet_spec wire_protocol d; mret (new_event (PACKET_EVENT pkt))
  | d_syscall d => call ← syscall_spec_action d; mret (new_event (SYSCALL_EVENT call))
  | d_command command_line yylineno =>
      _ ← set_script_line yylineno; mret (new_event (COMMAND_EVENT command_line))
  | d_code text yylineno => _ ← set_script_line yylineno; mret (new_event (CODE_EVENT text))
  end.

(** [parser.y:706-714] event: whether the event is a packet that the stack should send *)
Definition is_outbound_packet (e : event) : bool :=
  match ev_event e with
  | PACKET_EVENT pkt => bool_decide (packet_direction pkt = DIRECTION_OUTBOUND)
  | _ => false
  end.

(** [parser.y:694-721] event: event_time at a line, and action *)
Record event_d := mk_event_d { ed_line : Z; ed_time : event_time_d; ed_action : action_d }.

(** [parser.y:694-721] event *)
Definition event_action (d : event_d) : act event :=
  t ← event_time (ed_line d) (ed_time d);
  e ← action (ed_action d);
  let e := set_ev_time_type (ev_time_type t) (set_ev_time_usecs_end (ev_time_usecs_end t)
             (set_ev_time_usecs (ev_time_usecs t) (set_ev_line_number (ev_line_number t) e))) in
  _ ← check_that (negb (negb (ev_time_usecs_end e =? NO_TIME_RANGE)
                        && (ev_time_usecs_end e <? ev_time_usecs e)));
  _ ← check_that (negb (bool_decide (ev_time_type e = ANY_TIME) && negb (is_outbound_packet e)));
  _ ← check_that (negb ((bool_decide (ev_time_type e = ABSOLUTE_RANGE_TIME)
                         || bool_decide (ev_time_type e = RELATIVE_RANGE_TIME))
                        && negb (is_outbound_packet e)));
  mret e.

(** [parser.y:682-692] events: the list in the order of the script *)
Fixpoint events (ds : list event_d) : act (list event) :=
  match ds with
  | [] => mret []
  | d :: ds => e ← event_action d; es ← events ds; mret (e :: es)
  end.

(** [parser.y:599-603] script, after its options: the initial command with yylineno, the events
    and the command of the end *)
Record script_d := mk_script_d {
  sd_init : option (string * Z); sd_events : list event_d; sd_cleanup : option (string * Z)
}.

(** [parser.y:1713-1719] command_spec, of a rule that has none or one *)
Definition opt_command (d : option (string * Z)) : act (option string) :=
  match d with
  | None => mret None
  | Some (command_line, yylineno) => _ ← set_script_line yylineno; mret (Some command_line)
  end.

(** [parser.y:599-603] script: init_command, the event list and cleanup_command of out_script *)
Definition script_action (d : script_d) : act (option string * list event * option string) :=
  init_command ← opt_command (sd_init d);
  event_list ← events (sd_events d);
  cleanup_command ← opt_command (sd_cleanup d);
  mret (init_command, event_list, cleanup_command).

End Expressions.

(** ** The options of a script *)

(** [parser.y:639-669] option_value; an integer is the text that the lexer matched *)
Inductive option_value_d :=
  | v_integer (yytext : string)
  | v_word (s : string)
  | v_string (s : string)
  | v_ipv4_addr (s : string)
  | v_ipv6_addr (s : string)
  | v_ipv4
  | v_ipv6
  | v_define_word (lhs rhs : string)
  | v_define_string (lhs rhs : string)
  | v_define_back_quoted (lhs rhs : string).

(** [parser.y:639-669] option_value *)
Definition option_value (d : option_value_d) : string :=
  match d with
  | v_integer s | v_word s | v_string s | v_ipv4_addr s | v_ipv6_addr s => s
  | v_ipv4 => "ipv4"
  | v_ipv6 => "ipv6"
  | v_define_word lhs rhs => lhs +:+ "=" +:+ rhs
  | v_define_string lhs rhs => lhs +:+ "=" +:+ String (ascii_of_nat 34) "" +:+ rhs +:+ String (ascii_of_nat 34) ""
  | v_define_back_quoted lhs rhs => lhs +:+ "=`" +:+ rhs +:+ "`"
  end.

(** [parser.y:626-632] option, with new_option: the name of the flag and the value, if any *)
Definition option_action (d : string * option option_value_d) : string * option string :=
  (d.1, option_value <$> d.2).

(** [parser.y:604-624] opt_options, with options: the list is handed to
    parse_and_finalize_config, which also parses the command line *)
Definition opt_options `{InetPton, InetNtop} (argv : list string) (ds : list (string * option option_value_d))
    (random : option Z) (c : full_config) : exec (full_config * list string) :=
  parse_and_finalize_config argv (option_action <$> ds) random c.
