(* ===== verification/ScriptProps.v ===== *)
(** * ScriptProps: theorems about the actions of the script grammar

    The options of a TCP packet are structs that the rest of the program can use, and print as
    they were written; a line is accepted only if its numbers are in range, and gives the packet
    that it describes; events carry only the times that their kind allows. *)

From Stdlib Require Import Ascii.
From S2P Require Import Prelude Checksum Headers Packet PacketParser TcpOptions IpAddress IpPacket TcpPacket IcmpPacket Script RunState PacketVerify FuzzHelper Config ScriptActions.

(** ** The monad of actions *)

Lemma act_bind_Ok {A B} (m : act A) (f : A -> act B) line r :
  (m ≫= f) line = Ok r <-> exists a line', m line = Ok (a, line') /\ f a line' = Ok r.
Proof.
  unfold mbind, act_bind. destruct (m line) as [[a line']|e]; split.
  - eauto.
  - by intros (? & ? & [= <- <-] & ?).
  - done.
  - by intros (? & ? & ? & ?).
Qed.

Lemma act_ret_Ok {A} (a b : A) (line line' : Z) : (mret a : act A) line = Ok (b, line') <-> b = a /\ line' = line.
Proof. unfold mret, act_ret. naive_solver. Qed.

Lemma act_lift_Ok {A} (m : exec A) a line line' :
  act_lift m line = Ok (a, line') <-> m = Ok a /\ line' = line.
Proof. unfold act_lift. destruct m; cbn; naive_solver. Qed.

Lemma semantic_error_Ok {A} line (r : A * Z) : semantic_error line = Ok r -> False.
Proof. unfold semantic_error. by destruct (0 <=? line). Qed.

Lemma check_that_Ok b u line line' : check_that b line = Ok (u, line') <-> b = true /\ line' = line.
Proof.
  unfold check_that. destruct b; [rewrite act_ret_Ok|]; destruct u; [naive_solver|].
  split; [by intros ?%semantic_error_Ok|naive_solver].
Qed.

Lemma or_error_Ok {A} (m : exec (result A)) a line line' :
  or_error m line = Ok (a, line') <-> m = Ok (Success a) /\ line' = line.
Proof.
  unfold or_error. rewrite act_bind_Ok. split.
  - intros (r & l & [-> ->]%act_lift_Ok & E). destruct r; [apply act_ret_Ok in E as [-> ->]; done|].
    by apply semantic_error_Ok in E.
  - intros [-> ->]. exists (Success a), line. by rewrite act_lift_Ok.
Qed.

(** Inversion of an action that succeeded. *)
Ltac inv_act :=
  repeat match goal with
  | H : (_ ≫= _) _ = Ok _ |- _ => apply act_bind_Ok in H as (? & ? & ? & H); cbn beta iota in H
  | H : mbind _ _ _ = Ok _ |- _ => apply act_bind_Ok in H as (? & ? & ? & H); cbn beta iota in H
  | H : mret _ _ = Ok _ |- _ => apply act_ret_Ok in H as [? ?]; subst
  | H : act_lift _ _ = Ok _ |- _ => apply act_lift_Ok in H as [? ?]; subst
  | H : check_that _ _ = Ok _ |- _ => apply check_that_Ok in H as [? ?]; subst
  | H : or_error _ _ = Ok _ |- _ => apply or_error_Ok in H as [? ?]; subst
  | H : semantic_error _ = Ok _ |- _ => by apply semantic_error_Ok in H
  end.

(** ** Option structs *)

(** An option struct with its kind, its length and other members. *)
Definition is_option (kind length : Z) (l : list (Z * field * Z)) (opt : bytes) : Prop :=
  bytes_ok opt /\ zlen opt = 40 /\ holds opt ((0, opt_kind, kind) :: (0, opt_length, length) :: l).

Lemma tcp_option_new_is kind length : 0 <= kind < 256 -> 0 <= length < 256 ->
  is_option kind length [] (tcp_option_new kind length).
Proof.
  intros Hk Hl. unfold tcp_option_new. rewrite !u8_small by done. split_and!.
  - apply Forall_app. split; [|apply Forall_replicate; unfold is_byte; lia].
    repeat (apply Forall_cons_2; [unfold is_byte; lia|]). apply Forall_nil_2.
  - done.
  - apply Forall_cons_2; [|apply Forall_cons_2; [|apply Forall_nil_2]];
      (split_and!; [done|by apply field_wfb_true|]); cbn [rd opt_kind opt_length]; by rewrite ld8_eq.
Qed.

(** Writing a member after the length adds it. *)
Lemma is_option_wr kind length l opt f x : is_option kind length l opt ->
  field_wfb f = true -> 2 <= field_off f -> field_off f + field_bytes f <= 40 -> 0 <= x < field_mod f ->
  exists opt', wr opt 0 f x = Ok opt' /\ is_option kind length ((0, f, x) :: kept 0 f l) opt'.
Proof.
  intros (Hb & Hn & Hl) Hf Ho Hr Hx.
  destruct (holds_wr opt 40 _ 0 f x Hb Hn Hl Hf) as (opt' & E & Hb' & Hn' & _ & Hl'); [lia..|].
  exists opt'. split; [done|]. split_and!; [done|done|].
  assert (fdisjb 0 f 0 opt_kind = true /\ fdisjb 0 f 0 opt_length = true) as [D1 D2].
  { unfold fdisjb. rewrite !orb_true_iff. cbn. lia. }
  unfold kept in Hl'. cbn [List.filter fst snd] in Hl'. rewrite D1, D2 in Hl'.
  apply Forall_cons in Hl' as [H1 Hl']. apply Forall_cons in Hl' as [H2 Hl']. apply Forall_cons in Hl' as [H3 Hl'].
  rewrite Z.mod_small in H1 by done. by repeat apply Forall_cons_2.
Qed.

Lemma is_option_legal kind length l opt : is_option kind length l opt -> 1 <= length <= 40 ->
  (if (kind =? TCPOPT_EOL) || (kind =? TCPOPT_NOP) then length = 1 else 2 <= length) ->
  option_legal opt.
Proof.
  intros (Hb & Hn & Hl) Hlen Hk.
  assert (Ek : byte_at opt 0 = kind).
  { assert (E : rd opt 0 opt_kind = Ok kind) by (eapply holds_rd; [exact Hl|]; apply list_elem_of_here).
    cbn in E. rewrite ld8_eq in E by lia. by injection E. }
  assert (El : byte_at opt 1 = length).
  { assert (E : rd opt 0 opt_length = Ok length) by (eapply holds_rd; [exact Hl|]; apply list_elem_of_further, list_elem_of_here).
    cbn in E. rewrite ld8_eq in E by lia. by injection E. }
  unfold option_legal, option_wf. rewrite Ek, El. by split_and!; [|done|lia|lia|].
Qed.

(** ** Hexadecimal strings *)

(** The digits as [%x] prints them. *)
Definition lower_hex_digits : list ascii :=
  ["0"; "1"; "2"; "3"; "4"; "5"; "6"; "7"; "8"; "9"; "a"; "b"; "c"; "d"; "e"; "f"]%char.

Fixpoint lower_hex (s : string) : bool :=
  match s with EmptyString => true | String c s => bool_decide (c ∈ lower_hex_digits) && lower_hex s end.

Definition ascii_code (c : ascii) : Z := Z.of_nat (nat_of_ascii c).

Lemma hex_pair_all :
  forallb (fun a => forallb (fun b =>
    match parse_hex_byte (ascii_code a) (ascii_code b) with
    | Some v => String.eqb (hex_padded 2 v) (String a (String b ""))
    | None => false
    end) lower_hex_digits) lower_hex_digits = true.
Proof. vm_compute. reflexivity. Qed.

Lemma hex_pair a b v : a ∈ lower_hex_digits -> b ∈ lower_hex_digits ->
  parse_hex_byte (ascii_code a) (ascii_code b) = Some v -> hex_padded 2 v = String a (String b "").
Proof.
  intros Ha Hb E. pose proof hex_pair_all as H. rewrite forallb_forall in H.
  apply list_elem_of_In in Ha, Hb. specialize (H a Ha). cbn beta in H. rewrite forallb_forall in H.
  specialize (H b Hb). cbn beta in H. rewrite E in H. by apply String.eqb_eq.
Qed.

Lemma parse_hex_byte_range c0 c1 v : parse_hex_byte c0 c1 = Some v -> is_byte v.
Proof.
  assert (R : forall c h, hex_value c = Some h -> 0 <= h < 16).
  { intros c h. unfold hex_value. repeat case_match; intros [= <-]; breflect; lia. }
  unfold parse_hex_byte. destruct (hex_value c0) as [h|] eqn:E0; [|done].
  destruct (hex_value c1) as [l|] eqn:E1; [|done]. intros [= <-].
  apply R in E0, E1. unfold is_byte. lia.
Qed.

(** A string that is accepted has two digits for each byte stored, and the bytes print as it. *)
Lemma parse_hex_string_inv n : forall s b out buf_end b' o base, (String.length s <= n)%nat ->
  parse_hex_string (string_bytes s) b out buf_end = Ok (b', Some o) -> bytes_ok b -> 0 <= base <= out ->
  exists k : nat, String.length s = (2 * k)%nat /\ o = out + Z.of_nat k /\ bytes_ok b' /\
    changes_only b b' out (Z.of_nat k) /\ (out + Z.of_nat k <= buf_end \/ k = 0%nat) /\
    (lower_hex s = true -> hex_bytes b' 0 (fun i => F8 (base + i)) k (out - base) = Ok s).
Proof.
  induction n as [|n IH]; intros s b out buf_end b' o base Hs E Hb Hout;
    (destruct s as [|a [|c s]]; cbn [string_bytes parse_hex_string] in E;
     [injection E as <- <-; exists 0%nat; rewrite Z.add_0_r; split_and!; [done|done|done|by split|auto|done]|..]).
  1,2: (destruct (buf_end <=? out); done || (cbn in Hs; lia)).
  - by destruct (buf_end <=? out).
  - cbn [String.length] in Hs. destruct (Z.leb_spec buf_end out); [done|].
    destruct (parse_hex_byte _ _) as [v|] eqn:Ev; [|done]. pose proof (parse_hex_byte_range _ _ _ Ev) as Hv.
    apply exec_bind_Ok in E as (b1 & E1 & E).
    assert (bytes_ok b1) as Hb1 by (eapply put_bytes_bytes_ok; [exact Hb|apply le_split_ok|exact E1]).
    pose proof (put_changes_only _ _ _ _ E1) as C1. rewrite zlen_le_split in C1. change (Z.of_nat 1) with 1 in C1.
    destruct (IH s b1 (out + 1) buf_end b' o base) as (k & Hk & -> & Hb' & C & Hend & Hp); [lia|done|done|lia|].
    exists (S k). split_and!; [cbn; lia|lia|done| |lia|].
    + destruct C as [Cz C], C1 as [C1z C1]. split; [congruence|]. intros i Hi Hio.
      rewrite C, C1 by lia. done.
    + cbn [lower_hex]. rewrite !andb_true_iff, !bool_decide_eq_true. intros (La & Lc & L).
      specialize (Hp L). cbn [hex_bytes rd]. rewrite Z.add_0_l.
      replace (base + (out - base)) with out by lia.
      assert (Eo : ld8 b' out = Ok v).
      { pose proof (ld8_st8 b out v b1 ltac:(lia) E1) as Ev1. unfold is_byte in Hv. rewrite Z.mod_small in Ev1 by lia.
        rewrite <-Ev1. unfold ld8. f_equal. apply get_bytes_ext; [by destruct C|].
        intros i Hi. destruct C as [_ C]. apply C; lia. }
      rewrite Eo, bind_Ok_eq. replace (out + 1 - base) with (out - base + 1) in Hp by lia.
      rewrite Hp, bind_Ok_eq. f_equal. by rewrite (hex_pair a c v).
Qed.

(** ** SACK blocks *)

Lemma zlen_snoc {A} (l : list A) x : zlen (l ++ [x]) = zlen l + 1.
Proof. by rewrite zlen_app. Qed.

(** The struct holds the blocks. *)
Definition has_blocks (opt : bytes) (blocks : list (Z * Z)) : Prop :=
  is_option TCPOPT_SACK (2 + 8 * zlen blocks) [] opt /\
  forall i block, blocks !! i = Some block ->
    rd opt 0 (opt_sack_left (Z.of_nat i)) = Ok (htonl block.1) /\
    rd opt 0 (opt_sack_right (Z.of_nat i)) = Ok (htonl block.2).

Definition block_valid (block : Z * Z) : Prop := is_valid_u32 block.1 = true /\ is_valid_u32 block.2 = true.

Lemma is_option_weaken kind length l opt : is_option kind length l opt -> is_option kind length [] opt.
Proof.
  intros (Hb & Hn & Hl). split_and!; [done|done|].
  apply Forall_cons in Hl as [H1 Hl]. apply Forall_cons in Hl as [H2 Hl].
  repeat apply Forall_cons_2; [done..|apply Forall_nil_2].
Qed.

Lemma valid_u32_range x : is_valid_u32 x = true <-> 0 <= x < 4294967296.
Proof. unfold is_valid_u32. breflect. lia. Qed.

(** One block. *)
Lemma sack_block_spec block line : block_valid block ->
  exists opt, sack_block block line = Ok (opt, line) /\ has_blocks opt [block].
Proof.
  intros [H1 H2]. unfold sack_block. pose proof (ntohl_range block.1). pose proof (ntohl_range block.2).
  destruct (is_option_wr TCPOPT_SACK 10 [] (tcp_option_new TCPOPT_SACK (2 + 8)) (opt_sack_left 0) (htonl block.1))
    as (opt1 & E1 & O1); [by apply tcp_option_new_is|done|cbn; lia|cbn; lia|done|].
  destruct (is_option_wr _ _ _ opt1 (opt_sack_right 0) (htonl block.2) O1) as (opt2 & E2 & O2); [done|cbn; lia|cbn; lia|done|].
  exists opt2. unfold mbind, act_bind, check_that. rewrite H1, H2. unfold mret, act_ret, act_lift.
  rewrite E1, bind_Ok_eq, E2, bind_Ok_eq. split; [done|]. split; [by eapply is_option_weaken|].
  intros [|[]] b [= <-]. destruct O2 as (_ & _ & O2).
  split; (eapply holds_rd; [exact O2|]); cbn; repeat (apply list_elem_of_here || apply list_elem_of_further).
Qed.

Lemma ld32_copied b b' o o' : 0 <= o -> o + 4 <= zlen b -> 0 <= o' -> o' + 4 <= zlen b' ->
  (forall j, 0 <= j < 4 -> byte_at b' (o' + j) = byte_at b (o + j)) -> ld32 b' o' = ld32 b o.
Proof.
  intros H1 H2 H3 H4 E. rewrite !ld32_eq by lia.
  pose proof (E 0) as E0. pose proof (E 1) as E1. pose proof (E 2) as E2. pose proof (E 3) as E3.
  rewrite !Z.add_0_r in E0. rewrite E0, E1, E2, E3 by lia. done.
Qed.

Lemma is_option_length kind length l opt : is_option kind length l opt -> rd opt 0 opt_length = Ok length.
Proof. intros (_ & _ & Hl). eapply holds_rd; [exact Hl|]. apply list_elem_of_further, list_elem_of_here. Qed.

(** A block fits as long as there are fewer than four. *)
Lemma sack_append_spec opt blocks opt1 block : has_blocks opt blocks -> has_blocks opt1 [block] ->
  0 < zlen blocks < 4 ->
  exists opt', sack_block_append opt opt1 = Ok opt' /\ has_blocks opt' (blocks ++ [block]).
Proof.
  intros [O B] [O1 B1] Hn. unfold sack_block_append. rewrite (is_option_length _ _ _ _ O), bind_Ok_eq.
  set (n := zlen blocks) in *. assert (Hnn : n = Z.of_nat (length blocks)) by done. replace (2 + 8 * n - 2) with (n * 8) by lia.
  rewrite Z.mod_mul, Z.div_mul by lia. destruct (Z.ltb_spec 0 (n * 8)); [|lia]. cbn [c_assert Z.eqb].
  rewrite !bind_Ok_eq. destruct O as (Hb & Hz & Hl), O1 as (Hb1 & Hz1 & Hl1).
  destruct (get_bytes_in opt1 2 8) as [src Es]; [lia..|]. rewrite Es, bind_Ok_eq.
  pose proof (get_bytes_zlen _ _ _ _ Es) as Hsz. pose proof (get_bytes_bytes_ok _ _ _ _ Hb1 Es) as Hsb.
  destruct (holds_put opt 40 _ (2 + 8 * n) src Hb Hz Hl Hsb) as (opt2 & E2 & Hb2 & Hz2 & Hl2 & G2); [lia|lia| |].
  { repeat apply Forall_cons_2; [cbn; lia|cbn; lia|apply Forall_nil_2]. }
  rewrite E2, bind_Ok_eq. pose proof (put_changes_only _ _ _ _ E2) as [_ C2]. rewrite Hsz in *.
  destruct (holds_wr opt2 40 _ 0 opt_length (2 + 8 * n + 8) Hb2 Hz2 Hl2) as (opt3 & E3 & Hb3 & Hz3 & [_ C3] & Hl3);
    [done|cbn; lia|cbn; lia|]. rewrite E3. exists opt3. split; [done|].
  assert (Hnew : zlen (blocks ++ [block]) = n + 1) by (rewrite zlen_app; done). cbn in C3.
  split.
  - rewrite Hnew. split_and!; [done|done|]. cbn in Hl3. rewrite Z.mod_small in Hl3 by lia.
    replace (2 + 8 * (n + 1)) with (2 + 8 * n + 8) by lia.
    apply Forall_cons in Hl3 as [HA Hl3]. apply Forall_cons in Hl3 as [HB _].
    repeat apply Forall_cons_2; [done|done|apply Forall_nil_2].
  - intros i blk Hi. destruct (decide (i < length blocks)%nat) as [Hlt|Hge].
    + rewrite lookup_app_l in Hi by done. destruct (B i blk Hi) as [<- <-]. 
      split; apply ld32_copied; try (cbn; lia); intros j Hj; rewrite C3, C2 by lia; done.
    + rewrite lookup_app_r in Hi by lia. destruct (i - length blocks)%nat eqn:Ei; [|done].
      injection Hi as <-. destruct (B1 0%nat block eq_refl) as [<- <-]. 
      split; apply ld32_copied; try (cbn; lia); intros j Hj; rewrite C3 by lia.
      * match goal with |- byte_at _ ?x = byte_at _ ?y =>
          replace x with (2 + 8 * n + j) by (cbn; lia); replace y with (2 + j) by (cbn; lia) end.
        by rewrite <-(byte_at_get _ _ _ _ j Es), <-(byte_at_get _ _ _ _ j G2) by lia.
      * match goal with |- byte_at _ ?x = byte_at _ ?y =>
          replace x with (2 + 8 * n + (4 + j)) by (cbn; lia); replace y with (2 + (4 + j)) by (cbn; lia) end.
        by rewrite <-(byte_at_get _ _ _ _ (4 + j) Es), <-(byte_at_get _ _ _ _ (4 + j) G2) by lia.
Qed.

(** A fifth block is written past the end of the struct. *)
Lemma sack_append_full opt blocks opt1 block : has_blocks opt blocks -> has_blocks opt1 [block] ->
  4 <= zlen blocks -> sack_block_append opt opt1 = Fault OutOfBounds.
Proof.
  intros [O _] [(Hb1 & Hz1 & _) _] Hn. unfold sack_block_append. rewrite (is_option_length _ _ _ _ O), bind_Ok_eq.
  set (n := zlen blocks) in *. replace (2 + 8 * n - 2) with (n * 8) by lia.
  rewrite Z.mod_mul, Z.div_mul by lia. destruct (Z.ltb_spec 0 (n * 8)); [|lia]. cbn [c_assert Z.eqb].
  rewrite !bind_Ok_eq. destruct (get_bytes_in opt1 2 8) as [src Es]; [lia..|]. rewrite Es, bind_Ok_eq.
  unfold put_bytes. replace (in_range _ _ _) with false; [done|]. symmetry. apply not_true_is_false.
  rewrite in_range_true, (get_bytes_zlen _ _ _ _ Es). destruct O as (_ & -> & _). lia.
Qed.

Lemma sack_block_Ok block line opt line' : sack_block block line = Ok (opt, line') ->
  block_valid block /\ has_blocks opt [block] /\ line' = line.
Proof.
  intros E. assert (V : block_valid block).
  { pose proof E as E'. unfold sack_block in E'. inv_act. done. }
  destruct (sack_block_spec block line V) as (opt' & E' & B). rewrite E' in E. by injection E as <- <-.
Qed.

Lemma sack_list_Ok blocks : forall opt done line opt' line', has_blocks opt done -> 0 < zlen done <= 4 ->
  sack_block_list opt blocks line = Ok (opt', line') ->
  has_blocks opt' (done ++ blocks) /\ Forall block_valid blocks /\ zlen (done ++ blocks) <= 4 /\ line' = line.
Proof.
  induction blocks as [|block blocks IH]; intros opt done line opt' line' B Hd E; cbn [sack_block_list] in E.
  - inv_act. rewrite app_nil_r. split_and!; [done|apply Forall_nil_2|lia|done].
  - apply act_bind_Ok in E as (o & l & (V & B1 & ->)%sack_block_Ok & E).
    apply act_bind_Ok in E as (o1 & l1 & [E1 ->]%act_lift_Ok & E).
    destruct (decide (zlen done = 4)) as [E4|]; [by rewrite (sack_append_full opt done o block) in E1 by (done || lia)|].
    destruct (sack_append_spec opt done o block) as (o2 & E2 & B2); [done..|lia|].
    rewrite E2 in E1. injection E1 as <-.
    destruct (IH o2 (done ++ [block]) line opt' line') as (R1 & R2 & R3 & R4); [done|rewrite zlen_snoc; lia|done|].
    rewrite <-app_assoc in R1, R3. split_and!; [done|by apply Forall_cons_2|done|done].
Qed.

Lemma sack_list_full blocks : forall opt done line, has_blocks opt done -> 0 < zlen done ->
  Forall block_valid blocks -> 4 < zlen (done ++ blocks) -> zlen done <= 4 ->
  sack_block_list opt blocks line = Fault OutOfBounds.
Proof.
  induction blocks as [|block blocks IH]; intros opt done line B Hd V Hn Hd4; cbn [sack_block_list].
  - rewrite app_nil_r in Hn. lia.
  - apply Forall_cons in V as [V Vs]. destruct (sack_block_spec block line V) as (o & E & B1).
    unfold mbind, act_bind. rewrite E. unfold act_lift.
    destruct (decide (zlen done = 4)) as [E4|]; [by rewrite (sack_append_full opt done o block) by (done || lia)|].
    destruct (sack_append_spec opt done o block) as (o2 & -> & B2); [done..|lia|]. rewrite bind_Ok_eq.
    apply (IH o2 (done ++ [block])); [done|rewrite zlen_snoc; lia|done|by rewrite <-app_assoc|].
    rewrite zlen_snoc. lia.
Qed.

(** A SACK option of more than four blocks overruns the option's struct: the fifth block is
    copied behind it, before the length of the options is checked. *)
Theorem sack_overflow (block : Z * Z) (blocks : list (Z * Z)) (line : Z) :
  Forall block_valid (block :: blocks) -> (4 <= length blocks)%nat ->
  tcp_option (d_sack block blocks) line = Fault OutOfBounds.
Proof.
  intros [V Vs]%Forall_cons Hn. cbn [tcp_option]. destruct (sack_block_spec block line V) as (opt & E & B).
  unfold mbind, act_bind. rewrite E. apply (sack_list_full blocks opt [block]); try done.
  unfold zlen. cbn. lia.
Qed.

(** ** Options as they are written *)

(** The text of an option in a script, as the grammar has it and tcpdump prints it. *)
Fixpoint blocks_text (first : bool) (blocks : list (Z * Z)) : string :=
  match blocks with
  | [] => ""
  | (l, r) :: blocks =>
      (if first then "" else " ") +:+ dec l +:+ ":" +:+ dec r +:+ blocks_text false blocks
  end.

Definition word_text (keyword word : string) : string :=
  keyword +:+ (if bool_decide (word = "") then "" else " ") +:+ word.

Definition option_text (d : tcp_option_d) : string :=
  match d with
  | d_nop => "nop"
  | d_eol => "eol"
  | d_mss mss => "mss " +:+ dec mss
  | d_wscale shift_count => "wscale " +:+ dec shift_count
  | d_sackok => "sackOK"
  | d_sack block blocks => "sack " +:+ blocks_text true (block :: blocks)
  | d_md5 digest => word_text "md5" digest
  | d_timestamp val ecr => "TS val " +:+ dec val +:+ " ecr " +:+ dec ecr
  | d_fast_open cookie => word_text "FO" cookie
  | d_fast_open_exp cookie => word_text "FOEXP" cookie
  end.

(** Digits as they are printed. *)
Definition lower_digits (d : tcp_option_d) : bool :=
  match d with d_md5 s | d_fast_open s | d_fast_open_exp s => lower_hex s | _ => true end.

Lemma blocks_print opt blocks : forall n pre, has_blocks opt (pre ++ blocks) -> n = length blocks ->
  Forall block_valid blocks ->
  sack_blocks_to_string opt 0 n (zlen pre) = Ok (blocks_text (bool_decide (pre = [])) blocks).
Proof.
  induction blocks as [|[l r] blocks IH]; intros n pre B -> V; [done|].
  apply Forall_cons in V as [[V1 V2] V]. cbn [length sack_blocks_to_string blocks_text].
  destruct (proj2 B (length pre) (l, r)) as [E1 E2]; [by rewrite list_lookup_middle|].
  change (zlen pre) with (Z.of_nat (length pre)). rewrite E1, bind_Ok_eq, E2, bind_Ok_eq. cbn [fst snd] in *.
  rewrite valid_u32_range in V1, V2. unfold htonl. rewrite !ntohl_invol by done.
  specialize (IH (length blocks) (pre ++ [(l, r)])). rewrite <-app_assoc in IH.
  specialize (IH B eq_refl V). rewrite zlen_snoc in IH.
  change (zlen pre) with (Z.of_nat (length pre)) in IH. rewrite IH, bind_Ok_eq. rewrite (bool_decide_eq_false_2 (pre ++ [(l, r)] = [])) by (by destruct pre).
  f_equal. f_equal. destruct pre; [done|]. cbn [length].
  by destruct (Z.ltb_spec 0 (Z.of_nat (S (length pre)))); [|lia].
Qed.

(** Changes behind the members of an option keep them. *)
Lemma is_option_changes kind length l opt opt' o n : is_option kind length l opt -> bytes_ok opt' ->
  changes_only opt opt' o n -> 2 <= o ->
  Forall (fun x => x.1.1 + field_off x.1.2 + field_bytes x.1.2 <= o) l -> is_option kind length l opt'.
Proof.
  intros (Hb & Hz & Hl) Hb' C Ho Hf. split_and!; [done|by rewrite (proj1 C)|].
  apply Forall_forall. intros [[q f] v] Hin. unfold holds in Hl. rewrite Forall_forall in Hl.
  destruct (Hl _ Hin) as (Hq & Hw & E). split_and!; [done|done|]. rewrite <-E.
  eapply changes_only_rd; [exact C|done|left].
  apply elem_of_cons in Hin as [[= -> -> ->]|[[= -> -> ->]|Hin]%elem_of_cons]; [cbn; lia|cbn; lia|].
  rewrite Forall_forall in Hf. apply (Hf _ Hin).
Qed.

(** The option of a cookie or a digest of [k] bytes at offset [base]. *)
Lemma hex_option_Ok s opt base buf_end opt' o kind length l :
  parse_hex_string (string_bytes s) opt base buf_end = Ok (opt', Some o) ->
  is_option kind length l opt -> 2 <= base ->
  Forall (fun x => x.1.1 + field_off x.1.2 + field_bytes x.1.2 <= base) l ->
  exists k : nat, String.length s = (2 * k)%nat /\ o = base + Z.of_nat k /\ is_option kind length l opt' /\
    (lower_hex s = true -> hex_bytes opt' 0 (fun i => F8 (base + i)) k 0 = Ok s).
Proof.
  intros E O Hbase Hl. destruct (parse_hex_string_inv (String.length s) s opt base buf_end opt' o base)
    as (k & Hk & -> & Hb' & C & _ & Hp); [done|done|by destruct O|lia|].
  exists k. rewrite Z.sub_diag in Hp. split_and!; [done|done|by eapply is_option_changes|done].
Qed.

Lemma string_bytes_half s k : String.length s = (2 * k)%nat -> zlen (string_bytes s) / 2 = Z.of_nat k.
Proof. intros E. rewrite string_bytes_length, E. rewrite Nat2Z.inj_mul, Z.mul_comm. apply Z.div_mul. lia. Qed.

Lemma fast_open_Ok s exp opt : new_tcp_fast_open_option (string_bytes s) exp = Ok (Success opt) ->
  exists k : nat, String.length s = (2 * k)%nat /\ Z.of_nat k <= (if exp then 36 else 38) /\
    is_option (if exp then TCPOPT_EXP else TCPOPT_FASTOPEN) (Z.of_nat k + (if exp then 4 else 2))
      (if exp then [(0, opt_exp_magic, htons TCPOPT_FASTOPEN_MAGIC)] else []) opt /\
    (lower_hex s = true ->
     hex_bytes opt 0 (fun i => F8 ((if exp then 4 else 2) + i)) k 0 = Ok s).
Proof.
  unfold new_tcp_fast_open_option. destruct (negb _); [done|].
  set (cb := zlen (string_bytes s) / 2). destruct (Z.ltb_spec (if exp then MAX_TCP_FAST_OPEN_EXP_COOKIE_BYTES
    else MAX_TCP_FAST_OPEN_COOKIE_BYTES) cb) as [|Hmax]; [done|]. intros E.
  assert (Hm : cb <= if exp then 36 else 38) by (destruct exp; exact Hmax). clear Hmax.
  assert (0 <= cb) by (apply Z.div_pos; [apply zlen_nonneg|lia]).
  destruct exp.
  - destruct (is_option_wr TCPOPT_EXP (cb + 4) [] (tcp_option_new TCPOPT_EXP (cb + TCPOLEN_EXP_FASTOPEN_BASE))
      opt_exp_magic (htons TCPOPT_FASTOPEN_MAGIC)) as (opt1 & E1 & O1);
      [apply tcp_option_new_is; done || (change TCPOLEN_EXP_FASTOPEN_BASE with 4; lia)|done|cbn; lia|cbn; lia|done|].
    rewrite E1, bind_Ok_eq in E. apply exec_bind_Ok in E as ([opt2 [o|]] & E2 & E); [|done]. inv_exec.
    destruct (hex_option_Ok _ _ _ _ _ _ _ _ _ E2 O1) as (k & Hk & -> & O2 & Hp); [lia|by repeat constructor|].
    exists k. pose proof (string_bytes_half s k Hk) as Ek. subst cb. rewrite Ek in *. split_and!; [done|done|done|done].
  - rewrite bind_Ok_eq in E. apply exec_bind_Ok in E as ([opt2 [o|]] & E2 & E); [|done]. inv_exec.
    destruct (hex_option_Ok _ _ _ _ _ _ TCPOPT_FASTOPEN (cb + 2) [] E2) as (k & Hk & -> & O2 & Hp);
      [apply tcp_option_new_is; done || (change TCPOLEN_FASTOPEN_BASE with 2; lia)|lia|constructor|].
    exists k. pose proof (string_bytes_half s k Hk) as Ek. subst cb. rewrite Ek in *. split_and!; [done|done|done|done].
Qed.

Lemma md5_Ok s opt : new_md5_option (string_bytes s) = Ok (Success opt) ->
  exists k : nat, String.length s = (2 * k)%nat /\ Z.of_nat k <= 16 /\
    is_option TCPOPT_MD5SIG (2 + Z.of_nat k) [] opt /\
    (lower_hex s = true -> hex_bytes opt 0 (fun i => F8 (2 + i)) k 0 = Ok s).
Proof.
  unfold new_md5_option. set (db := zlen (string_bytes s) / 2).
  destruct (Z.ltb_spec TCP_MD5_DIGEST_LEN db) as [|Hmax]; [done|]. intros E.
  assert (0 <= db) by (apply Z.div_pos; [apply zlen_nonneg|lia]).
  apply exec_bind_Ok in E as ([opt2 [o|]] & E2 & E); [|done]. inv_exec.
  destruct (hex_option_Ok _ _ _ _ _ _ TCPOPT_MD5SIG (2 + db) [] E2) as (k & Hk & -> & O2 & Hp);
    [apply tcp_option_new_is; unfold TCP_MD5_DIGEST_LEN, TCPOLEN_MD5_BASE in *; (done || lia)|lia|constructor|].
  exists k. pose proof (string_bytes_half s k Hk) as Ek. subst db. rewrite Ek in *. split_and!; [done|done|done|done].
Qed.

Lemma valid_u16_range x : is_valid_u16 x = true <-> 0 <= x < 65536.
Proof. unfold is_valid_u16. breflect. lia. Qed.

Lemma valid_u8_range x : is_valid_u8 x = true <-> 0 <= x < 256.
Proof. unfold is_valid_u8. breflect. lia. Qed.

(** A rule that stores one number in a new option. *)
Lemma number_option_Ok kind length f x opt : wr (tcp_option_new kind length) 0 f x = Ok opt ->
  0 <= kind < 256 -> 0 <= length < 256 -> field_wfb f = true -> 2 <= field_off f ->
  field_off f + field_bytes f <= 40 -> 0 <= x < field_mod f -> is_option kind length [(0, f, x)] opt.
Proof.
  intros E Hk Hl Hf Ho Hr Hx.
  destruct (is_option_wr kind length [] _ f x (tcp_option_new_is kind length Hk Hl)) as (opt' & E' & O); [done..|].
  rewrite E in E'. by injection E' as ->.
Qed.

Lemma timestamp_Ok val ecr opt1 opt : is_valid_u32 val = true -> is_valid_u32 ecr = true ->
  wr (tcp_option_new TCPOPT_TIMESTAMP TCPOLEN_TIMESTAMP) 0 opt_ts_val (htonl val) = Ok opt1 ->
  wr opt1 0 opt_ts_ecr (htonl ecr) = Ok opt ->
  is_option TCPOPT_TIMESTAMP TCPOLEN_TIMESTAMP [(0, opt_ts_ecr, htonl ecr); (0, opt_ts_val, htonl val)] opt.
Proof.
  intros Hv He E1 E2. pose proof (ntohl_range val). pose proof (ntohl_range ecr).
  apply number_option_Ok in E1; [|done|done|done|cbn; lia|cbn; lia|done].
  destruct (is_option_wr _ _ _ _ opt_ts_ecr (htonl ecr) E1) as (opt' & E' & O); [done|cbn; lia|cbn; lia|done|].
  rewrite E2 in E'. by injection E' as ->.
Qed.

(** Every option of an accepted line is a legal option struct, and no line number changes. *)
Lemma tcp_option_legal d line opt line' : tcp_option d line = Ok (opt, line') ->
  option_legal opt /\ line' = line.
Proof.
  destruct d; cbn [tcp_option]; intros E.
  - inv_act. split; [|done]. by eapply is_option_legal; [apply tcp_option_new_is|..].
  - inv_act. split; [|done]. by eapply is_option_legal; [apply tcp_option_new_is|..].
  - inv_act. split; [|done]. pose proof (ntohs_range mss).
    eapply is_option_legal; [eapply number_option_Ok; [eassumption|done..]|done|done].
  - inv_act. split; [|done]. eapply is_option_legal; [eapply number_option_Ok; [eassumption|done..|]|done|done].
    by apply valid_u8_range.
  - inv_act. split; [|done]. by eapply is_option_legal; [apply tcp_option_new_is|..].
  - apply act_bind_Ok in E as (o & l & (V & B & ->)%sack_block_Ok & E).
    eapply (sack_list_Ok _ _ [block]) in E as ([O _] & _ & Hn & ->); [|done|done].
    split; [|done]. pose proof (zlen_nonneg blocks). change (zlen ([block] ++ blocks)) with (zlen (block :: blocks)) in *.
    rewrite zlen_cons in *. eapply is_option_legal; [exact O|lia|cbn; lia].
  - inv_act. split; [|done]. destruct (md5_Ok digest opt) as (k & _ & Hk & O & _); [done|].
    eapply is_option_legal; [exact O|lia|cbn; lia].
  - inv_act. split; [|done]. eapply is_option_legal; [eapply timestamp_Ok; [| |eassumption|eassumption]; assumption|done|done].
  - inv_act. split; [|done]. destruct (fast_open_Ok cookie false opt) as (k & _ & Hk & O & _); [done|].
    eapply is_option_legal; [exact O|lia|cbn; lia].
  - inv_act. split; [|done]. destruct (fast_open_Ok cookie true opt) as (k & _ & Hk & O & _); [done|].
    eapply is_option_legal; [exact O|lia|cbn; lia].
Qed.

Ltac option_member O := destruct O as (_ & _ & O); eapply holds_rd; [exact O|];
  repeat (apply list_elem_of_here || apply list_elem_of_further).

Lemma is_option_kind kind length l opt : is_option kind length l opt -> rd opt 0 opt_kind = Ok kind.
Proof. intros O. option_member O. Qed.

Lemma word_text_half keyword s k : String.length s = (2 * k)%nat ->
  keyword +:+ (if 0 <? Z.of_nat k then " " else "") +:+ s = word_text keyword s.
Proof.
  intros E. unfold word_text. f_equal. f_equal. destruct s as [|c s].
  - destruct k; [done|cbn in E; lia].
  - destruct k; [done|]. by destruct (Z.ltb_spec 0 (Z.of_nat (S k))); [|lia].
Qed.

(** The printer of an option, by its kind. *)
Ltac by_kind O :=
  unfold tcp_option_to_string; rewrite (is_option_kind _ _ _ _ O), bind_Ok_eq;
  cbn [Z.eqb Pos.eqb TCPOPT_EOL TCPOPT_NOP TCPOPT_MAXSEG TCPOPT_WINDOW TCPOPT_SACK_PERMITTED TCPOPT_SACK
       TCPOPT_TIMESTAMP TCPOPT_MD5SIG TCPOPT_FASTOPEN TCPOPT_EXP].

Section Prints.
Context (opt : bytes) (error : option string).

Lemma mss_prints mss : is_valid_u16 mss = true ->
  is_option TCPOPT_MAXSEG TCPOLEN_MAXSEG [(0, opt_mss_bytes, htons mss)] opt ->
  tcp_option_to_string opt 0 error = Ok ("mss " +:+ dec mss, error, false).
Proof.
  intros V%valid_u16_range O. by_kind O.
  assert (rd opt 0 opt_mss_bytes = Ok (htons mss)) as -> by option_member O.
  rewrite bind_Ok_eq. unfold htons. by rewrite ntohs_invol.
Qed.

Lemma wscale_prints shift_count :
  is_option TCPOPT_WINDOW TCPOLEN_WINDOW [(0, opt_shift_count, shift_count)] opt ->
  tcp_option_to_string opt 0 error = Ok ("wscale " +:+ dec shift_count, error, false).
Proof.
  intros O. by_kind O. assert (rd opt 0 opt_shift_count = Ok shift_count) as -> by option_member O. done.
Qed.

Lemma timestamp_prints val ecr : is_valid_u32 val = true -> is_valid_u32 ecr = true ->
  is_option TCPOPT_TIMESTAMP TCPOLEN_TIMESTAMP [(0, opt_ts_ecr, htonl ecr); (0, opt_ts_val, htonl val)] opt ->
  tcp_option_to_string opt 0 error = Ok ("TS val " +:+ dec val +:+ " ecr " +:+ dec ecr, error, false).
Proof.
  intros Vv%valid_u32_range Ve%valid_u32_range O. by_kind O.
  assert (rd opt 0 opt_ts_val = Ok (htonl val)) as -> by option_member O.
  assert (rd opt 0 opt_ts_ecr = Ok (htonl ecr)) as -> by option_member O.
  rewrite !bind_Ok_eq. unfold htonl. by rewrite !ntohl_invol.
Qed.

Lemma sack_prints blocks : has_blocks opt blocks -> Forall block_valid blocks -> 0 < zlen blocks ->
  tcp_option_to_string opt 0 error = Ok ("sack " +:+ blocks_text true blocks, error, false).
Proof.
  intros B V Hn. pose proof (proj1 B) as O. by_kind O.
  rewrite (is_option_length _ _ _ _ O), bind_Ok_eq. unfold num_sack_blocks. set (n := zlen blocks) in *.
  destruct (Z.leb_spec (2 + 8 * n) 2); [lia|]. replace (2 + 8 * n - 2) with (n * 8) by lia.
  rewrite Z.mod_mul, Z.div_mul by lia. cbn [negb Z.eqb].
  pose proof (blocks_print opt blocks (Z.to_nat n) [] B) as P. change (zlen ([] : list (Z * Z))) with 0 in P.
  rewrite P; [done|unfold n, zlen; by rewrite Nat2Z.id|done].
Qed.

Lemma md5_prints s : new_md5_option (string_bytes s) = Ok (Success opt) -> lower_hex s = true ->
  tcp_option_to_string opt 0 error = Ok (word_text "md5" s, error, false).
Proof.
  intros (k & Hk & Hm & O & Hp)%md5_Ok L. by_kind O. unfold tcp_md5_option_to_string.
  rewrite (is_option_length _ _ _ _ O), bind_Ok_eq. unfold TCPOLEN_MD5_BASE, TCPOLEN_MD5SIG.
  destruct (Z.ltb_spec (2 + Z.of_nat k) 2); [lia|]. destruct (Z.ltb_spec 18 (2 + Z.of_nat k)); [lia|].
  cbn [orb]. replace (2 + Z.of_nat k - 2) with (Z.of_nat k) by lia. rewrite Nat2Z.id.
  specialize (Hp L). change (fun i => F8 (2 + i)) with opt_md5_digest in Hp. rewrite Hp, !bind_Ok_eq.
  cbn [default]. by rewrite word_text_half.
Qed.

Lemma fast_open_prints s exp : new_tcp_fast_open_option (string_bytes s) exp = Ok (Success opt) ->
  lower_hex s = true ->
  tcp_option_to_string opt 0 error = Ok (word_text (if exp then "FOEXP" else "FO") s, error, false).
Proof.
  intros (k & Hk & Hm & O & Hp)%fast_open_Ok L. specialize (Hp L).
  destruct exp; by_kind O; unfold tcp_fast_open_option_to_string;
    rewrite (is_option_length _ _ _ _ O), bind_Ok_eq.
  - unfold TCPOLEN_EXP_FASTOPEN_BASE. destruct (Z.ltb_spec (Z.of_nat k + 4) 4); [lia|].
    assert (rd opt 0 opt_exp_magic = Ok (htons TCPOPT_FASTOPEN_MAGIC)) as -> by option_member O.
    rewrite !bind_Ok_eq. change (negb _) with false. cbv iota.
    replace (Z.of_nat k + 4 - 4) with (Z.of_nat k) by lia. rewrite Nat2Z.id.
    change (fun i => F8 (4 + i)) with opt_exp_cookie in Hp. rewrite Hp, !bind_Ok_eq.
    by rewrite word_text_half.
  - rewrite !bind_Ok_eq. unfold TCPOLEN_FASTOPEN_BASE.
    replace (Z.of_nat k + 2 - 2) with (Z.of_nat k) by lia. rewrite Nat2Z.id.
    change (fun i => F8 (2 + i)) with opt_fo_cookie in Hp. rewrite Hp, !bind_Ok_eq.
    cbn [default]. by rewrite word_text_half.
Qed.

End Prints.

(** An option is printed as it is written in the script: if the actions accept it, and its
    digits, if it has any, are lower case, tcp_options_to_string prints its text. *)
Theorem option_prints_back (d : tcp_option_d) (line line' : Z) (opt : bytes) (error : option string) :
  tcp_option d line = Ok (opt, line') -> lower_digits d = true ->
  tcp_option_to_string opt 0 error = Ok (option_text d, error, false).
Proof.
  destruct d; cbn [tcp_option lower_digits option_text]; intros E L.
  - inv_act. reflexivity.
  - inv_act. reflexivity.
  - inv_act. pose proof (ntohs_range mss). apply mss_prints; [done|]. by eapply number_option_Ok.
  - inv_act. apply wscale_prints. eapply number_option_Ok; try done. by apply valid_u8_range.
  - inv_act. reflexivity.
  - apply act_bind_Ok in E as (o & l & (V & B & ->)%sack_block_Ok & E).
    eapply (sack_list_Ok _ _ [block]) in E as (B' & Vs & Hn & ->); [|done|done].
    apply sack_prints; [done|by apply Forall_cons_2|]. rewrite zlen_cons. pose proof (zlen_nonneg blocks). lia.
  - inv_act. by apply md5_prints.
  - inv_act. apply timestamp_prints; [done..|]. eapply timestamp_Ok; [| |eassumption|eassumption]; assumption.
  - inv_act. by apply (fast_open_prints opt error cookie false).
  - inv_act. by apply (fast_open_prints opt error cookie true).
Qed.

(** ** Lists of options *)

Lemma tcp_option_list_Ok ds : forall o line o' line', tcp_option_list o ds line = Ok (o', line') ->
  exists opts, Forall2 (fun d opt => tcp_option d line = Ok (opt, line)) ds opts /\
    tcp_options_append_all o opts = Ok (Some o') /\ line' = line.
Proof.
  induction ds as [|d ds IH]; intros o line o' line' E; cbn [tcp_option_list] in E.
  - inv_act. by exists [].
  - apply act_bind_Ok in E as (opt & l & E1 & E). destruct (tcp_option_legal _ _ _ _ E1) as [_ ->].
    apply act_bind_Ok in E as ([o1 status] & l & [E2 ->]%act_lift_Ok & E).
    case_decide as Hs; [|by apply semantic_error_Ok in E]. subst status.
    destruct (IH _ _ _ _ E) as (opts & F & Ea & ->). exists (opt :: opts).
    split; [by constructor|]. split; [|done]. cbn [tcp_options_append_all]. by rewrite E2, bind_Ok_eq.
Qed.

(** The options of an accepted line fit in a header, and are those written, in order. *)
Lemma opt_tcp_options_Ok ds line options line' : opt_tcp_options ds line = Ok (options, line') ->
  line' = line /\
  match ds, options with
  | None, None => True
  | Some ds, Some o => options_wf o /\ exists opts,
      Forall2 (fun d opt => tcp_option d line = Ok (opt, line)) ds opts /\
      options_wire o = mjoin (option_wire <$> opts)
  | _, _ => False
  end.
Proof.
  destruct ds as [ds|]; cbn [opt_tcp_options]; [|by intros [-> ->]%act_ret_Ok].
  intros (o & l & E & [-> ->]%act_ret_Ok)%act_bind_Ok.
  destruct (tcp_option_list_Ok _ _ _ _ _ E) as (opts & F & Ea & ->). split; [done|].
  assert (Hl : Forall option_wf opts).
  { clear E Ea. induction F as [|d opt ds opts E F IH]; [constructor|]. constructor; [|done].
    by apply tcp_option_legal in E as [[? _] _]. }
  destruct (append_all_spec opts _ o options_new_wf Hl Ea) as [W Ew]. split; [done|]. by exists opts.
Qed.

(** ** Lines *)

Lemma set_tcp_fields_inv pkt tcp direction sp dp flags seq ack hl win urg pkt' :
  set_tcp_fields pkt tcp direction sp dp flags seq ack hl win urg = Ok (Success pkt') ->
  win <> -1 \/ direction <> DIRECTION_INBOUND.
Proof.
  unfold set_tcp_fields. intros E. do 5 (apply exec_bind_Ok in E as (? & _ & E)).
  destruct (Z.eqb_spec win (-1)); [|by left]. right. intros ->. done.
Qed.

(** What the success of new_tcp_packet says about its arguments. *)
Lemma new_tcp_inv `{Malloc} af direction info sp dp flags seq pl ack win urg options pkt :
  new_tcp_packet af direction info sp dp flags seq pl ack win urg options = Ok (Success pkt) ->
  (match options with Some o => opts_length o | None => 0 end) mod 4 = 0 /\
  is_tcp_flags_spec_valid flags = None /\ (win <> -1 \/ direction <> DIRECTION_INBOUND).
Proof.
  unfold new_tcp_packet. intros E. apply exec_bind_Ok in E as (ml & _ & E).
  destruct (negb _) eqn:E3; [done|]. apply negb_false_iff, Z.eqb_eq in E3. rewrite land3 in E3.
  split; [done|]. inv_exec. destruct (_ <? _) in E; [done|]. destruct (_ <? _) in E; [done|].
  destruct (is_tcp_flags_spec_valid flags) eqn:Ef; [done|]. split; [done|].
  repeat (apply exec_bind_Ok in E as (? & ? & E); cbn beta iota in E; try case_match);
    try done; by eapply set_tcp_fields_inv.
Qed.

(** Storing the value that is there changes nothing. *)
Lemma put_same b o n l : get_bytes b o n = Ok l -> put_bytes b o l = Ok b.
Proof.
  intros E. pose proof (get_bytes_zlen _ _ _ _ E) as Hn. apply get_bytes_Ok in E as [Hr ->].
  apply in_range_true in Hr as Hr'. unfold put_bytes. rewrite Hn, Hr. f_equal.
  rewrite length_take, length_drop. unfold zlen in *. replace (_ `min` _)%nat with (Z.to_nat n) by lia.
  rewrite <-drop_drop, take_drop. apply take_drop.
Qed.

Lemma wr_same b p f v : bytes_ok b -> match f with FBits _ _ _ => False | _ => True end ->
  rd b p f = Ok v -> wr b p f v = Ok b.
Proof.
  assert (P : forall o n v, bytes_ok b -> le_combine <$> get_bytes b o (Z.of_nat n) = Ok v ->
    put_bytes b o (le_split n v) = Ok b).
  { intros o n w Hb E. apply exec_fmap_Ok in E as (l & E & <-). pose proof (get_bytes_zlen _ _ _ _ E) as Hl.
    assert (n = length l) as -> by (unfold zlen in Hl; lia).
    rewrite le_split_combine by (by eapply get_bytes_bytes_ok). by eapply put_same. }
  intros Hb Hf E. destruct f as [o|o|o|]; [apply (P _ 1%nat)|apply (P _ 2%nat)|apply (P _ 4%nat)|done]; done.
Qed.

Lemma holds_changes b b' o n l : holds b l -> changes_only b b' o n ->
  Forall (fun x => x.1.1 + field_off x.1.2 + field_bytes x.1.2 <= o \/ o + n <= x.1.1 + field_off x.1.2) l ->
  holds b' l.
Proof.
  unfold holds. rewrite !Forall_forall. intros Hl C D [[q f] v] Hin.
  destruct (Hl _ Hin) as (Hq & Hf & E). specialize (D _ Hin). split_and!; [done|done|].
  rewrite <-E. by eapply changes_only_rd.
Qed.

(** Finishing the IP header of a built packet writes the values that are there, and the
    checksum of an IPv4 header. *)
Section Finish.
Context (pkt : packet) (n total proto : Z) (h2 : header) (rest : list header) (l : list (Z * field * Z)).
Hypothesis Hb : bytes_ok (pk_buffer pkt).
Hypothesis Hn : zlen (pk_buffer pkt) = n.
Hypothesis Hlt : n < 65536.
Hypothesis H0 : 0 <= total.
Hypothesis Hinfo : exists eth, header_type_info (h_type h2) = Ok (mk_type_info proto eth).
Hypothesis Htot : h_total_bytes h2 = total.

Lemma set_header_total_same q type hb m p hs : pk_headers q = mk_header type hb m p :: hs ->
  set_header_total 0 m q = q.
Proof. destruct q. cbn. intros ->. reflexivity. Qed.

Lemma set_buffer_same : set_pk_buffer (pk_buffer pkt) pkt = pkt.
Proof. by destruct pkt. Qed.

Ltac headers_at Hh :=
  rewrite Hh; match type of Hh with _ = ?h1 :: ?h2 :: ?rest =>
    change ((h1 :: h2 :: rest) !! 0%nat) with (Some h1); cbn [h_ptr deref]; rewrite !bind_Ok_eq;
    change ((h1 :: h2 :: rest) !! 1%nat) with (Some h2); cbv iota; rewrite bind_Ok_eq, Htot end.

Lemma finish_v4 : 20 + total = n -> pk_headers pkt = mk_header HEADER_IPV4 20 n (Some 0) :: h2 :: rest ->
  holds (pk_buffer pkt) (l ++ ip_members AF_INET n proto) ->
  exists b, ipv4_header_finish pkt 0 (Some 1%nat) = Ok (set_pk_buffer b pkt) /\ bytes_ok b /\
    changes_only (pk_buffer pkt) b 10 2.
Proof.
  intros Ht Hh [_ Hl]%Forall_app. unfold ipv4_header_finish, header_ptr, header_at. destruct Hinfo as [eth Hi].
  change (holds (pk_buffer pkt) (ip_members AF_INET n proto)) in Hl.
  headers_at Hh.
  change sizeof_ipv4 with 20. rewrite Ht, u16_small, u32_small by lia.
  rewrite (pwr_eq pkt 0 ipv4_tot_len (htons n) (pk_buffer pkt)) by (apply wr_same; [done|done|member Hl]).
  rewrite bind_Ok_eq, set_buffer_same, Hi, bind_Ok_eq. cbn [type_ip_proto].
  rewrite (pwr_eq pkt 0 ipv4_protocol proto (pk_buffer pkt)) by (apply wr_same; [done|done|member Hl]).
  rewrite bind_Ok_eq, set_buffer_same.
  destruct (wr_spec (pk_buffer pkt) 0 ipv4_check 0 Hb) as (b1 & E1 & Hb1 & C1 & _);
    [by apply field_wfb_true|done|cbn; lia|].
  rewrite (pwr_eq pkt 0 ipv4_check 0 b1 E1), bind_Ok_eq. unfold prd. cbn [pk_buffer set_pk_buffer].
  assert (rd b1 0 ipv4_ihl = Ok 5) as ->.
  { rewrite (changes_only_rd _ _ _ _ 0 ipv4_ihl C1); [member Hl|cbn; lia|cbn; lia]. }
  rewrite bind_Ok_eq. change (5 * 4) with 20.
  assert (Hz1 : zlen b1 = n) by (destruct C1 as [-> _]; done).
  destruct (get_bytes_in b1 0 20) as [hdr Eh]; [lia..|]. rewrite Eh, bind_Ok_eq.
  rewrite ipv4_checksum_eq; [|by eapply get_bytes_bytes_ok|by rewrite (get_bytes_zlen _ _ _ _ Eh)].
  rewrite bind_Ok_eq.
  destruct (wr_spec b1 0 ipv4_check (rfc1071 hdr) Hb1) as (b2 & E2 & Hb2 & C2 & _);
    [by apply field_wfb_true|done|cbn; lia|].
  rewrite (pwr_eq (set_pk_buffer b1 pkt) 0 ipv4_check _ b2) by done.
  rewrite !bind_Ok_eq, set_buffer_twice. exists b2. split.
  - by rewrite (set_header_total_same (set_pk_buffer b2 pkt) _ _ _ _ _ Hh).
  - split; [done|]. destruct C1 as [Z1 C1], C2 as [Z2 C2]. cbn in C1, C2. split; [congruence|].
    intros i Hi0 Hio. by rewrite C2, C1 by lia.
Qed.

Lemma finish_v6 : 40 + total = n -> pk_headers pkt = mk_header HEADER_IPV6 40 n (Some 0) :: h2 :: rest ->
  holds (pk_buffer pkt) (l ++ ip_members AF_INET6 n proto) ->
  ipv6_header_finish pkt 0 (Some 1%nat) = Ok pkt.
Proof.
  intros Ht Hh [_ Hl]%Forall_app. unfold ipv6_header_finish, header_ptr, header_at. destruct Hinfo as [eth Hi].
  change (holds (pk_buffer pkt) (ip_members AF_INET6 n proto)) in Hl.
  headers_at Hh.
  destruct (Z.leb_spec total 0xffff); [|lia]. cbn [c_assert]. rewrite bind_Ok_eq. change sizeof_ipv6 with 40.
  rewrite Ht, u16_small, u32_small by lia. replace total with (n - 40) by lia.
  rewrite (pwr_eq pkt 0 ipv6_payload_len (htons (n - 40)) (pk_buffer pkt)) by (apply wr_same; [done|done|member Hl]).
  rewrite bind_Ok_eq, set_buffer_same, Hi, bind_Ok_eq. cbn [type_ip_proto].
  rewrite (pwr_eq pkt 0 ipv6_next_header proto (pk_buffer pkt)) by (apply wr_same; [done|done|member Hl]).
  rewrite bind_Ok_eq, set_buffer_same. by rewrite (set_header_total_same pkt _ _ _ _ _ Hh).
Qed.

End Finish.

Section Lines.
Context `{Malloc}.

(** The copy of a packet of two headers inside nothing, before its headers are finished. *)
Lemma encapsulate_bare outer inner h1 h2 n :
  pk_headers outer = replicate 6 header_none -> pk_ip_bytes outer = 0 ->
  pk_headers inner = hdrs [h1; h2] -> header_used h1 -> header_used h2 -> h_ptr h1 = Some 0 ->
  pk_l2_header_bytes inner = 0 -> pk_ip_bytes inner = n -> zlen (pk_buffer inner) = n ->
  pk_buffer_bytes inner = n -> 0 <= n < 65536 ->
  packet_encapsulate outer inner =
  (pkt ← packet_finish_encapsulation_headers (set_pk_mss 0 inner);
   Ok (set_pk_ip_bytes n pkt)).
Proof.
  intros Ho Hi0 Hh U1 U2 Hp Hl2 Hi Hz HB Hn. unfold packet_encapsulate.
  assert (Eo : packet_header_count outer = 0) by (unfold packet_header_count; by rewrite Ho).
  assert (Ei : packet_header_count inner = 2).
  { unfold packet_header_count. rewrite Hh. destruct U1 as [N1 _], U2 as [N2 _]. cbn.
    by rewrite !decide_False by done. }
  rewrite Eo, Ei, Hi0. change (0 + 2 <=? PACKET_MAX_HEADERS) with true. cbn [c_assert]. rewrite bind_Ok_eq.
  change (s32 0) with 0. change (packet_copy_with_headroom inner 0) with (packet_copy inner).
  rewrite (packet_copy_preserves inner [h1; h2] n).
  2: { split; [done|]. split; [cbn; lia|]. by repeat apply Forall_cons_2. }
  2: { split; [|lia]. unfold packet_end, packet_start. rewrite Hh. cbn. rewrite Hp. cbn. rewrite Hi. done. }
  2: { lia. }
  rewrite bind_Ok_eq. rewrite take_ge by (unfold zlen in Hz; lia).
  assert (get_bytes (pk_buffer outer) 0 0 = Ok []) as ->.
  { unfold get_bytes. replace (in_range _ 0 0) with true; [done|]. symmetry. apply in_range_true.
    pose proof (zlen_nonneg (pk_buffer outer)). lia. }
  rewrite bind_Ok_eq.
  replace (set_pk_buffer (pk_buffer inner) _) with (set_pk_mss 0 inner)
    by (destruct inner; cbn in *; subst; done).
  unfold pkt_memcpy at 1. cbn [pk_buffer set_pk_mss].
  replace (put_bytes (pk_buffer inner) 0 []) with (Ok (pk_buffer inner) : exec bytes).
  2: { unfold put_bytes. replace (in_range _ _ _) with true; [done|]. symmetry. apply in_range_true.
       pose proof (zlen_nonneg (pk_buffer inner)). change (zlen ([] : bytes)) with 0. lia. }
  rewrite !bind_Ok_eq. set (q := set_pk_mss 0 inner).
  replace (set_pk_buffer (pk_buffer inner) q) with q by (by destruct inner).
  change (Z.to_nat 0) with 0%nat. change (Z.to_nat 2) with 2%nat. cbn [take app Nat.add].
  rewrite take_0. cbn [app]. rewrite take_drop.
  replace (set_pk_headers (pk_headers q) q) with q by (by destruct inner).
  unfold packet_copy_headers. rewrite Ho. change (replicate 6 header_none) with ([] ++ replicate 6 header_none).
  rewrite (copy_headers_eq (pk_headers q) [] 0 6) by (constructor || (cbn; lia)). cbn [fmap list_fmap app length].
  rewrite drop_0, !bind_Ok_eq.
  replace (set_pk_headers (pk_headers q) q) with q by (by destruct inner).
  change (packet_header_count q) with (packet_header_count inner). rewrite Ei.
  change (c_assert (2 =? 0 + 2)) with (Ok tt : exec unit). rewrite bind_Ok_eq, Hi, Z.add_0_l, u32_small by lia. done.
Qed.

(** Only the first of two headers has anything to finish. *)
Lemma finish_two pkt h1 h2 : pk_headers pkt = hdrs [h1; h2] -> h_type h2 = HEADER_TCP ->
  packet_finish_encapsulation_headers pkt = finish_header pkt 0 (Some 1%nat).
Proof.
  intros Hh Ht. unfold packet_finish_encapsulation_headers.
  assert (F : forall i next h, pk_headers pkt !! i = Some h -> h_type h = HEADER_NONE \/ h_type h = HEADER_TCP ->
    finish_header pkt i next = Ok pkt).
  { intros i next h E Hty. unfold finish_header, header_at. rewrite E, bind_Ok_eq.
    by destruct Hty as [-> | ->]. }
  rewrite (F 5%nat None header_none), bind_Ok_eq by (by rewrite ?Hh; auto).
  rewrite (F 4%nat (Some 5%nat) header_none), bind_Ok_eq by (by rewrite ?Hh; auto).
  rewrite (F 3%nat (Some 4%nat) header_none), bind_Ok_eq by (by rewrite ?Hh; auto).
  rewrite (F 2%nat (Some 3%nat) header_none), bind_Ok_eq by (by rewrite ?Hh; auto).
  by rewrite (F 1%nat (Some 2%nat) h2), bind_Ok_eq by (by rewrite ?Hh; auto).
Qed.

(** A segment inside nothing is the segment; only its IPv4 checksum is filled in. *)
Lemma encapsulate_built outer af direction info sp dp flags seq pl ack win urg options inner :
  af = AF_INET \/ af = AF_INET6 -> 0 <= pl -> options_arg_ok options -> segment_len af pl options < 65536 ->
  pk_headers outer = replicate 6 header_none -> pk_ip_bytes outer = 0 ->
  built_tcp af direction info sp dp flags seq pl ack win urg options inner ->
  exists pkt, packet_encapsulate outer inner = Ok pkt /\
    built_tcp af direction info sp dp flags seq pl ack win urg options pkt.
Proof.
  intros Haf Hpl Hopt Hfit Ho Hi0 (Hb & Hz & HB & Hi & Hl2 & Hd & Hnone & Hh & Ht & H4 & H6 & Hl & Hob).
  pose proof (holds_ip_full _ _ _ _ _ _ Hl) as Hlf.
  destruct (option_bytes_len options Hopt) as (_ & Hor & _). set (n := segment_len af pl options) in *.
  assert (Hn : 0 <= n) by (rewrite <-Hz; apply zlen_nonneg).
  rewrite (encapsulate_bare outer inner _ _ n Ho Hi0 Hh); [|by destruct Haf as [-> | ->]; (split; [|eexists])..|done|done|done|done|done|lia].
  assert (Htot : 0 <= tcp_len options + pl) by (unfold tcp_len; lia).
  assert (Hfin : exists b, packet_finish_encapsulation_headers (set_pk_mss 0 inner)
    = Ok (set_pk_buffer b (set_pk_mss 0 inner)) /\ bytes_ok b /\
      (changes_only (pk_buffer inner) b 10 2 /\ af = AF_INET \/ b = pk_buffer inner)).
  { rewrite (finish_two (set_pk_mss 0 inner) _ _ Hh eq_refl). unfold finish_header, header_at. cbn [pk_headers set_pk_mss].
    rewrite Hh. cbn [hdrs app lookup list_lookup]. rewrite bind_Ok_eq. cbn [h_type].
    destruct Haf as [-> | ->].
    - destruct (finish_v4 (set_pk_mss 0 inner) n (tcp_len options + pl) IPPROTO_TCP
        (mk_header HEADER_TCP (tcp_len options) (tcp_len options + pl) (Some 20)) (replicate 4 header_none)
        (tcp_members 20 sp dp flags seq ack win urg (tcp_len options / 4)
         ++ info_members AF_INET (tos_value (info_tos info)) (info_flow_label info) (info_ttl info))) as (b & E & Hb' & C); [done..|by exists 0|done| |done|exact Hlf|].
      + unfold n, segment_len, ip_len. cbn. lia.
      + exists b. split; [exact E|]. auto.
    - exists (pk_buffer inner). split_and!; [|done|by right].
      etransitivity; [apply (finish_v6 (set_pk_mss 0 inner) n (tcp_len options + pl) IPPROTO_TCP
        (mk_header HEADER_TCP (tcp_len options) (tcp_len options + pl) (Some 40)) (replicate 4 header_none)
        (tcp_members 40 sp dp flags seq ack win urg (tcp_len options / 4)
         ++ info_members AF_INET6 (tos_value (info_tos info)) (info_flow_label info) (info_ttl info))); [done..|by exists 0|done| |done|exact Hlf]|by destruct inner].
      unfold n, segment_len, ip_len. cbn. lia. }
  destruct Hfin as (b & -> & Hb' & Hc). rewrite bind_Ok_eq. eexists. split; [reflexivity|].
  assert (Hz' : zlen b = n) by (destruct Hc as [[[-> _] _]| ->]; done).
  unfold built_tcp. fold n. cbn [pk_buffer pk_buffer_bytes pk_ip_bytes pk_l2_header_bytes pk_direction pk_udp pk_icmpv4
    pk_icmpv6 pk_headers pk_tcp pk_ipv4 pk_ipv6 set_pk_ip_bytes set_pk_buffer set_pk_mss].
  destruct Hnone as (? & ? & ?). split_and!; try done.
  - destruct Hc as [[C ->]| ->]; [|done]. eapply holds_changes; [exact Hl|exact C|].
    repeat apply Forall_cons_2; try (cbn; lia). apply Forall_nil_2.
  - destruct Hc as [[C ->]| ->]; [|done]. rewrite <-Hob. apply get_bytes_ext; [congruence|].
    intros i Hi'. destruct C as [_ C]. unfold ip_len in Hi'. cbn in Hi'. rewrite C by lia. done.
Qed.

Context `{InetPton}.

(** The ranges that the actions check. *)
Lemma opt_port_info_Ok d line sp dp line' : opt_port_info d line = Ok ((sp, dp), line') ->
  (sp, dp) = default (0, 0) d /\ 0 <= sp < 65536 /\ 0 <= dp < 65536 /\ line' = line.
Proof.
  destruct d as [[a b]|]; cbn [opt_port_info]; intros E; inv_act.
  - simplify_eq. by rewrite <-!valid_u16_range.
  - simplify_eq. split_and!; (done || lia).
Qed.

Lemma seq_action_Ok start finish payload line seq line' : seq_action (start, finish, payload) line = Ok (seq, line') ->
  seq = mk_seq IPPROTO_TCP start payload /\ finish = start + payload /\
  0 <= start < 4294967296 /\ 0 <= payload < 65536 /\ line' = line.
Proof.
  cbn [seq_action]. intros E. inv_act. rewrite valid_u32_range in *. rewrite valid_u16_range in *.
  match goal with E : (_ =? _) = true |- _ => apply Z.eqb_eq in E end. done.
Qed.

Lemma opt_ack_Ok d line ack line' : opt_ack d line = Ok (ack, line') ->
  ack = default 0 d /\ 0 <= ack < 4294967296 /\ line' = line.
Proof. destruct d; cbn [opt_ack]; intros E; inv_act; [by rewrite <-valid_u32_range|done]. Qed.

Lemma opt_window_Ok d line win line' : opt_window d line = Ok (win, line') ->
  win = default (-1) d /\ line' = line.
Proof. destruct d; cbn [opt_window]; intros E; inv_act; done. Qed.

Lemma opt_urg_ptr_Ok d line urg line' : opt_urg_ptr d line = Ok (urg, line') ->
  urg = default 0 d /\ 0 <= urg < 65536 /\ line' = line.
Proof. destruct d; cbn [opt_urg_ptr]; intros E; inv_act; [by rewrite <-valid_u16_range|done]. Qed.

(** What the IP information of a line says: the type of service is the byte in brackets
    or the ECN codepoint by its number in enum ip_ecn_t, and what is not given is 0. *)
Definition line_tos (d : tos_spec_d) : tos_spec :=
  match d with
  | d_ecn ecn => mk_tos TOS_CHECK_ECN (ecn_number ecn)
  | d_tos tos => mk_tos TOS_CHECK_TOS tos
  end.
Definition line_info (d : option ip_info_d) : ip_info :=
  mk_ip_info
    (match d with
     | Some (d_info_tos tos) | Some (d_info_tos_flow tos _) => line_tos tos
     | _ => mk_tos TOS_CHECK_NONE 0
     end)
    (match d with Some (d_info_flow f) | Some (d_info_tos_flow _ f) => f | _ => 0 end)
    (match d with Some (d_info_ttl ttl) => u8 ttl | _ => 0 end).

Lemma tos_spec_action_Ok d line tos line' : tos_spec_action d line = Ok (tos, line') ->
  tos = line_tos d /\ line' = line.
Proof. destruct d; cbn [tos_spec_action]; intros E; by inv_act. Qed.

Lemma flow_label_Ok f line f' line' : flow_label f line = Ok (f', line') -> f' = f /\ line' = line.
Proof. unfold flow_label. intros E. by inv_act. Qed.

Lemma opt_ip_info_Ok d line info line' : opt_ip_info d line = Ok (info, line') ->
  info = line_info d /\ line' = line.
Proof.
  destruct d as [d|]; cbn [opt_ip_info]; [|by intros [-> ->]%act_ret_Ok].
  destruct d; cbn [ip_info_action]; intros E; inv_act;
    repeat match goal with
    | E : tos_spec_action _ _ = Ok _ |- _ => apply tos_spec_action_Ok in E as [-> ->]
    | E : flow_label _ _ = Ok _ |- _ => apply flow_label_Ok in E as [-> ->]
    end; done.
Qed.


End Lines.

(** ** Tokens *)

Lemma strndup_app l r : strndup (l ++ r) (zlen l) = l.
Proof.
  unfold strndup. destruct (Z.ltb_spec (zlen l) 0); [pose proof (zlen_nonneg l); lia|].
  unfold zlen. by rewrite Nat2Z.id, take_app_length.
Qed.

(** The string between two delimiters. *)
Lemma quoted_inside q q' l : quoted (q :: l ++ [q']) = l.
Proof.
  unfold quoted. cbn [drop]. rewrite zlen_cons, zlen_snoc. replace (1 + (zlen l + 1) - 2) with (zlen l) by lia.
  apply strndup_app.
Qed.

(** A quote, as an argument of a definition. *)
Definition quote : string := String (ascii_of_nat 34) "".

(** A symbol that --define sets to a quoted string is read as that string. *)
Theorem define_string (defs : list definition) (symbol value : string) :
  word (definition_set defs symbol (quote +:+ value +:+ quote)) symbol = T_STRING (string_bytes value).
Proof.
  unfold word. rewrite definition_get_set, bool_decide_eq_true_2 by done.
  rewrite !string_bytes_app. change (string_bytes quote) with [34]. cbn [app].
  change (byte_at (34 :: string_bytes value ++ [34]) 0 =? 34) with true. by rewrite quoted_inside.
Qed.

Lemma blanks_app l r : forallb is_blank l = true -> blanks (l ++ r) = (length l + blanks r)%nat.
Proof.
  induction l as [|c l IH]; [done|]. cbn [forallb app blanks length]. intros [-> Hl]%andb_true_iff.
  by rewrite IH.
Qed.

Lemma blanks_word c l : is_blank c = false -> blanks (c :: l) = 0%nat.
Proof. cbn. by intros ->. Qed.

Lemma forallb_reverse l : forallb is_blank (reverse l) = forallb is_blank l.
Proof.
  induction l as [|c l IH]; [done|]. rewrite reverse_cons, forallb_app, IH. cbn. by rewrite andb_true_r, andb_comm.
Qed.

(** The delimiters of a snippet, with the text between them. *)
Definition snippet (body : bytes) : bytes := [37; 123] ++ body ++ [125; 37].

(** The indices that [code] finds. *)
Lemma code_snippet body : code (snippet body) =
  strndup (drop (blanks (body ++ [125; 37])) (body ++ [125; 37]))
    (zlen body - Z.of_nat (blanks (reverse body ++ [123; 37])) - Z.of_nat (blanks (body ++ [125; 37]))).
Proof.
  unfold code, snippet. cbn [app drop].
  assert (Ez : zlen (37 :: 123 :: body ++ [125; 37]) = zlen body + 4) by (rewrite !zlen_cons, zlen_app; change (zlen [125; 37]) with 2; lia).
  assert (El : length (37 :: 123 :: body ++ [125; 37]) = (length body + 4)%nat) by (cbn; rewrite length_app; cbn; lia).
  rewrite Ez, El. replace (length body + 4 - 2)%nat with (S (S (length body))) by lia. cbn [take].
  rewrite ?drop_0, take_app_length, !reverse_cons, <-app_assoc. cbn [app].
  set (k := blanks (body ++ [125; 37])). replace (Z.to_nat (2 + Z.of_nat k)) with (S (S k)) by lia. cbn [drop].
  f_equal. lia.
Qed.

(** Blanks around a snippet are not part of it. *)
Theorem code_strips (pre post mid : bytes) (c c' : Z) :
  forallb is_blank pre = true -> forallb is_blank post = true -> is_blank c = false -> is_blank c' = false ->
  code (snippet (pre ++ (c :: mid ++ [c']) ++ post)) = c :: mid ++ [c'].
Proof.
  intros Hpre Hpost Hc Hc'. rewrite code_snippet. set (w := c :: mid ++ [c']).
  assert (E1 : blanks ((pre ++ w ++ post) ++ [125; 37]) = length pre).
  { rewrite <-!app_assoc, blanks_app by done. unfold w. cbn [app]. by rewrite blanks_word, Nat.add_0_r. }
  assert (E2 : blanks (reverse (pre ++ w ++ post) ++ [123; 37]) = length post).
  { rewrite !reverse_app, <-!app_assoc, blanks_app by (by rewrite forallb_reverse). unfold w.
    rewrite reverse_cons, reverse_snoc. cbn [app]. by rewrite blanks_word, length_reverse, Nat.add_0_r. }
  rewrite E1, E2, <-!app_assoc, drop_app_length.
  replace (zlen (pre ++ w ++ post) - _ - _) with (zlen w) by (rewrite !zlen_app; unfold zlen; lia).
  apply strndup_app.
Qed.

(** A snippet of blanks only is read as its closing delimiter: the length is negative. *)
Theorem code_of_blanks (body : bytes) : forallb is_blank body = true -> body <> [] ->
  code (snippet body) = [125; 37].
Proof.
  intros Hb Hne. rewrite code_snippet, !blanks_app by (done || by rewrite forallb_reverse).
  change (blanks [125; 37]) with 0%nat. change (blanks [123; 37]) with 0%nat.
  rewrite !Nat.add_0_r, length_reverse, drop_app_length. unfold strndup, zlen.
  destruct body as [|c body]; [done|]. cbn [length].
  destruct (Z.ltb_spec (Z.of_nat (S (length body)) - Z.of_nat (S (length body)) - Z.of_nat (S (length body))) 0); [done|lia].
Qed.

(** ** Events *)

Section Events.
Context `{Malloc} `{InetPton} `{InetAddr} (wire_protocol : Z).

(** The times that an event of its kind may have: only a packet that the stack is to send may
    come at any time or in a range, and a range is not backwards. *)
Definition event_timed (e : event) : Prop :=
  event_valid e /\ ev_offset_usecs e = NO_TIME_RANGE /\
  (ev_time_type e = ABSOLUTE_TIME \/ ev_time_type e = RELATIVE_TIME ->
     ev_time_usecs_end e = NO_TIME_RANGE) /\
  (ev_time_type e <> ABSOLUTE_TIME -> ev_time_type e <> RELATIVE_TIME ->
     is_outbound_packet e = true) /\
  (ev_time_usecs_end e <> NO_TIME_RANGE -> ev_time_usecs e <= ev_time_usecs_end e).

Lemma event_time_Ok n d line e line' : event_time n d line = Ok (e, line') ->
  (ev_time_type e = ABSOLUTE_TIME \/ ev_time_type e = RELATIVE_TIME -> ev_time_usecs_end e = NO_TIME_RANGE).
Proof.
  destruct d; cbn [event_time]; intros E; inv_act; cbn; [done..|by intros [|]|by intros [|]|by intros [|]].
Qed.

Lemma action_Ok d line e line' : action wire_protocol d line = Ok (e, line') ->
  exists ev, e = new_event ev /\ ev <> INVALID_EVENT.
Proof. destruct d; cbn [action]; intros E; inv_act; eauto. Qed.

Lemma event_action_Ok d line e line' : event_action wire_protocol d line = Ok (e, line') -> event_timed e.
Proof.
  unfold event_action. intros E.
  apply act_bind_Ok in E as (t & l & Et & E). pose proof (event_time_Ok _ _ _ _ _ Et) as Ht. clear Et.
  apply act_bind_Ok in E as (a & l' & (ev & -> & Hev)%action_Ok & E). inv_act.
  cbn [ev_time_usecs_end ev_time_usecs ev_time_type ev_event is_outbound_packet set_ev_time_type set_ev_time_usecs_end
    set_ev_time_usecs set_ev_line_number new_event] in *.
  unfold event_timed, event_valid. cbn.
  repeat match goal with B : negb _ = true |- _ => apply negb_true_iff in B end.
  split_and!; [done|done|done| |].
  - intros N1 N2. destruct (is_outbound_packet _) eqn:Eo; [done|]. cbn in *.
    destruct (ev_time_type t); cbn in *; try done.
  - intros N. destruct (Z.eqb_spec (ev_time_usecs_end t) NO_TIME_RANGE); [done|]. cbn in *. lia.
Qed.

(** The microseconds of a time of a line, and the times of an event of its notation. *)
Definition line_usecs (d : time_d) : Z :=
  match d with d_float _ usecs => usecs | d_integer secs => s64 (secs * 1000000) end.
Definition line_times (d : event_time_d) : event_time_t * Z * Z :=
  match d with
  | d_relative t => (RELATIVE_TIME, line_usecs t, NO_TIME_RANGE)
  | d_absolute t => (ABSOLUTE_TIME, line_usecs t, NO_TIME_RANGE)
  | d_any => (ANY_TIME, 0, NO_TIME_RANGE)
  | d_absolute_range t t' => (ABSOLUTE_RANGE_TIME, line_usecs t, line_usecs t')
  | d_relative_range t t' => (RELATIVE_RANGE_TIME, line_usecs t, line_usecs t')
  end.

(** The event is of the kind of the action, and has what the rule of the action has made. *)
Definition action_event (d : action_d) (ev : event_t) : Prop :=
  match d, ev with
  | d_tcp_packet d, PACKET_EVENT pkt => exists l l', tcp_packet_spec wire_protocol d l = Ok (pkt, l')
  | d_udp_packet d, PACKET_EVENT pkt => exists l l', udp_packet_spec wire_protocol d l = Ok (pkt, l')
  | d_icmp_packet d, PACKET_EVENT pkt => exists l l', icmp_packet_spec wire_protocol d l = Ok (pkt, l')
  | d_syscall d, SYSCALL_EVENT call => exists l l', syscall_spec_action d l = Ok (call, l')
  | d_command command_line _, COMMAND_EVENT c => c = command_line
  | d_code text _, CODE_EVENT t => t = text
  | _, _ => False
  end.

(** The event of a line of the script. *)
Definition line_event (d : event_d) (e : event) : Prop :=
  ev_line_number e = ed_line d /\
  (ev_time_type e, ev_time_usecs e, ev_time_usecs_end e) = line_times (ed_time d) /\
  action_event (ed_action d) (ev_event e) /\ event_timed e.

Lemma time_action_Ok d line t line' : time_action d line = Ok (t, line') -> t = line_usecs d.
Proof. destruct d; cbn [time_action]; intros E; by inv_act. Qed.

Lemma event_time_line n d line e line' : event_time n d line = Ok (e, line') ->
  ev_line_number e = n /\ (ev_time_type e, ev_time_usecs e, ev_time_usecs_end e) = line_times d.
Proof.
  destruct d; cbn [event_time]; intros E; inv_act;
    repeat match goal with E : time_action _ _ = Ok _ |- _ => apply time_action_Ok in E as -> end; done.
Qed.

Lemma action_line d line e line' : action wire_protocol d line = Ok (e, line') -> action_event d (ev_event e).
Proof. destruct d; cbn [action]; intros E; inv_act; cbn; eauto. Qed.

Lemma event_action_line d line e line' : event_action wire_protocol d line = Ok (e, line') -> line_event d e.
Proof.
  intros E. pose proof (event_action_Ok _ _ _ _ E) as Ht. unfold event_action in E.
  apply act_bind_Ok in E as (t & l & [En Et]%event_time_line & E).
  apply act_bind_Ok in E as (a & l' & Ea%action_line & E). inv_act. by split_and!.
Qed.

(** C35. The events of an accepted script are those of its lines, one for each and in their
    order: event by event, the number of the line, the kind of time and the times it writes,
    and the kind of its action with the packet, the system call, the command or the code that
    the rules make of it.  And the times of each event are ones that its kind allows: only a
    packet that the stack is to send may come at any time or in a range, and a range is not
    backwards. *)
Theorem script_events_timed (ds : list event_d) (line line' : Z) (es : list event) :
  events wire_protocol ds line = Ok (es, line') -> Forall2 line_event ds es.
Proof.
  revert line es. induction ds as [|d ds IH]; intros line es E; cbn [events] in E.
  - inv_act. constructor.
  - apply act_bind_Ok in E as (e & l & Ee%event_action_line & E).
    apply act_bind_Ok in E as (es' & l' & E & [-> ->]%act_ret_Ok). constructor; eauto.
Qed.

End Events.

(** ** Numbers that are not what they are called *)

(** The codepoints of [ect0] and [ect1] on the wire are each other's. *)
Theorem ect_codepoints_swapped (line : Z) :
  tos_spec_action (d_ecn ECN_ECT0) line = Ok (mk_tos TOS_CHECK_ECN IP_ECN_ECT1, line) /\
  tos_spec_action (d_ecn ECN_ECT1) line = Ok (mk_tos TOS_CHECK_ECN IP_ECN_ECT0, line).
Proof. done. Qed.

(** An error in the time of the first event is not reported: no line is known yet, which
    semantic_error asserts. *)
Theorem first_time_unreported (secs : Z) : secs < 0 ->
  time_action (d_integer secs) NO_SCRIPT_LINE = Fault AssertFailed /\
  forall line, 0 <= line -> time_action (d_integer secs) line = Fault Died.
Proof.
  intros Hs. unfold time_action. destruct (Z.leb_spec 0 secs); [lia|].
  split; [done|]. intros line Hl. cbn. unfold semantic_error.
  unfold mbind, act_bind, check_that. by destruct (Z.leb_spec 0 line); [|lia].
Qed.

(** A time of very many seconds overflows: it is then before the start of the script. *)
Example time_overflows : time_action (d_integer 9223372036855) 1 = Ok (-9223372036854551616, 1).
Proof. vm_compute. reflexivity. Qed.

(** ** A script *)

(** A C library that knows no addresses. *)
#[local] Instance no_pton : InetPton.
Proof. by refine {| inet_pton _ _ := None |}. Defined.
#[local] Instance no_addr : InetAddr := fun _ => 0xffffffff.
#[local] Existing Instance zero_malloc.

(** < [tos 0x10] SEW 0:10(10) win 4000 <mss 1000,FO 0a1b2c3d,nop,nop> *)
Definition syn_line : tcp_packet_d :=
  mk_tcp_d (d_direction DIRECTION_INBOUND 3) (Some (d_info_tos (d_tos 0x10))) None (d_flags_word "SEW") (0, 10, 10) None (Some 4000) None
    (Some [d_mss 1000; d_fast_open "0a1b2c3d"; d_nop; d_nop]).

Definition syn_packet : packet :=
  match tcp_packet_spec AF_INET syn_line NO_SCRIPT_LINE with Ok (pkt, _) => pkt | Fault _ => packet_new 0 end.

Lemma option_prints_back_witness :
  tcp_option_to_string ([34; 6; 10; 27; 44; 61] ++ replicate 34 0) 0 None = Ok ("FO 0a1b2c3d", None, false).
Proof.
  exact (option_prints_back (d_fast_open "0a1b2c3d") 1 1 _ None eq_refl eq_refl).
Defined.


Lemma sack_overflow_witness :
  tcp_option (d_sack (1, 2) [(3, 4); (5, 6); (7, 8); (9, 10)]) 1 = Fault OutOfBounds.
Proof. apply sack_overflow; [by repeat constructor|cbn; lia]. Defined.

Lemma code_strips_witness : code [37; 123; 32; 97; 32; 98; 9; 125; 37] = [97; 32; 98].
Proof. apply (code_strips [32] [9] [32] 97 98); reflexivity. Defined.

Lemma code_of_blanks_witness : code [37; 123; 32; 125; 37] = [125; 37].
Proof. apply (code_of_blanks [32]); [reflexivity|discriminate]. Defined.

Lemma first_time_unreported_witness : time_action (d_integer (-1)) NO_SCRIPT_LINE = Fault AssertFailed.
Proof. apply first_time_unreported. lia. Defined.

(** The events of: 0 `ls`, and the line above after 0.1 s. *)
Definition sample_script : list event_d :=
  [mk_event_d 1 (d_absolute (d_integer 0)) (d_command "ls" 1);
   mk_event_d 3 (d_relative (d_float false 100000)) (d_tcp_packet syn_line)].

Lemma script_events_timed_witness :
  exists es, events AF_INET sample_script NO_SCRIPT_LINE = Ok (es, 3) /\ Forall2 (line_event AF_INET) sample_script es.
Proof.
  exists [set_ev_line_number 1 (new_event (COMMAND_EVENT "ls"));
          set_ev_time_type RELATIVE_TIME (set_ev_time_usecs 100000 (set_ev_line_number 3 (new_event (PACKET_EVENT syn_packet))))].
  split; [vm_compute; reflexivity|]. apply (script_events_timed AF_INET sample_script NO_SCRIPT_LINE 3).
  vm_compute. reflexivity.
Defined.

(** What goes on the wire for a line with [ect0] is ECT(1). *)
Example ect0_on_the_wire :
  match tcp_packet_spec AF_INET (mk_tcp_d (d_direction DIRECTION_INBOUND 1) (Some (d_info_tos (d_ecn ECN_ECT0)))
    None (d_flags_dot) (1, 1, 0) (Some 1) (Some 100) None (Some [])) NO_SCRIPT_LINE with
  | Ok (pkt, _) => byte_at (pk_buffer pkt) 1 = IP_ECN_ECT1
  | Fault _ => False
  end.
Proof. vm_compute. reflexivity. Qed.
