(* ===== verification/Regex.v ===== *)
(** * Regex: the regular expressions of flex and the choice of a rule

    lexer.l is a list of rules, each a regular expression and an action.  This file has the
    expressions that its rules are made of with the strings they match, an executable scanner
    that follows all rules at once through their derivatives, and the proof that it chooses as
    the manual of flex says: the longest match, and of the rules that have it the first.  A few
    bounds that can be computed from an expression (the bytes of its matches, and how many of
    one there are at least) decide what a text cannot match. *)

From S2P Require Import Prelude.

(** ** Expressions *)

(** A class of characters is a list of ranges, or what is in none of them. *)
Inductive regex :=
  | Nothing
  | Epsilon
  | Class_of (negated : bool) (ranges : list (Z * Z))
  | Seq (r1 r2 : regex)
  | Or (r1 r2 : regex)
  | Star (r : regex).

#[export] Instance regex_eq_dec : EqDecision regex.
Proof. solve_decision. Defined.

Definition in_ranges (ranges : list (Z * Z)) (c : Z) : bool :=
  existsb (fun '(a, b) => (a <=? c) && (c <=? b)) ranges.

Definition in_class (negated : bool) (ranges : list (Z * Z)) (c : Z) : bool :=
  xorb negated (in_ranges ranges c).

Inductive matches : regex -> bytes -> Prop :=
  | match_epsilon : matches Epsilon []
  | match_class negated ranges c : in_class negated ranges c = true -> matches (Class_of negated ranges) [c]
  | match_seq r1 r2 s1 s2 : matches r1 s1 -> matches r2 s2 -> matches (Seq r1 r2) (s1 ++ s2)
  | match_left r1 r2 s : matches r1 s -> matches (Or r1 r2) s
  | match_right r1 r2 s : matches r2 s -> matches (Or r1 r2) s
  | match_stop r : matches (Star r) []
  | match_turn r s1 s2 : matches r s1 -> matches (Star r) s2 -> matches (Star r) (s1 ++ s2).

(** The notations of flex: a character, a string, [+], [?] and [{m,n}]. *)
Definition char (c : Z) : regex := Class_of false [(c, c)].
Fixpoint text (s : bytes) : regex :=
  match s with
  | [] => Epsilon
  | [c] => char c
  | c :: s => Seq (char c) (text s)
  end.
Definition plus (r : regex) : regex := Seq r (Star r).
Definition maybe (r : regex) : regex := Or r Epsilon.
Fixpoint at_most (n : nat) (r : regex) : regex :=
  match n with O => Epsilon | S n => maybe (Seq r (at_most n r)) end.
Fixpoint between (m n : nat) (r : regex) : regex :=
  match m with O => at_most n r | S m => Seq r (between m (n - 1) r) end.
Fixpoint any_of (rs : list regex) : regex :=
  match rs with [] => Nothing | [r] => r | r :: rs => Or r (any_of rs) end.

(** ** Derivatives *)

Fixpoint nullable (r : regex) : bool :=
  match r with
  | Nothing | Class_of _ _ => false
  | Epsilon | Star _ => true
  | Seq r1 r2 => nullable r1 && nullable r2
  | Or r1 r2 => nullable r1 || nullable r2
  end.

(** Sequences and alternatives without the parts that add nothing. *)
Definition seq_of (r1 r2 : regex) : regex :=
  match r1 with Nothing => Nothing | Epsilon => r2 | _ => Seq r1 r2 end.

Fixpoint is_alternative (r r' : regex) : bool :=
  bool_decide (r = r') || match r' with Or r1 r2 => is_alternative r r1 || is_alternative r r2 | _ => false end.

Fixpoint or_of (r1 r2 : regex) : regex :=
  match r1 with
  | Nothing => r2
  | Or a b => or_of a (or_of b r2)
  | _ => if is_alternative r1 r2 then r2 else if decide (r2 = Nothing) then r1 else Or r1 r2
  end.

Fixpoint derivative (c : Z) (r : regex) : regex :=
  match r with
  | Nothing | Epsilon => Nothing
  | Class_of negated ranges => if in_class negated ranges c then Epsilon else Nothing
  | Seq r1 r2 =>
      if nullable r1 then or_of (seq_of (derivative c r1) r2) (derivative c r2)
      else seq_of (derivative c r1) r2
  | Or r1 r2 => or_of (derivative c r1) (derivative c r2)
  | Star r => seq_of (derivative c r) (Star r)
  end.

Definition derivatives (s : bytes) (r : regex) : regex := foldl (fun r c => derivative c r) r s.

(** ** The scanner *)

(** The rules that the next byte leaves. *)
Definition step {A} (c : Z) (alive : list (A * regex)) : list (A * regex) :=
  filter (fun p => p.2 <> Nothing) ((fun p => (p.1, derivative c p.2)) <$> alive).

(** The first rule that has matched. *)
Fixpoint accepting {A} (alive : list (A * regex)) : option A :=
  match alive with
  | [] => None
  | (a, r) :: alive => if nullable r then Some a else accepting alive
  end.

(** The best match so far is kept while there is a rule left to follow. *)
Fixpoint scan {A} (alive : list (A * regex)) (s : bytes) (n : nat) (best : option (nat * A)) : option (nat * A) :=
  match s with
  | [] => best
  | c :: s =>
      let alive := step c alive in
      match alive with
      | [] => best
      | _ => scan alive s (S n)
               (match accepting alive with Some a => Some (S n, a) | None => best end)
      end
  end.

(** The length of the match and the rule, for the text ahead. *)
Definition longest_match {A} (rules : list (A * regex)) (s : bytes) : option (nat * A) := scan rules s 0 None.

(** ** The scanner matches *)

Lemma nullable_spec r : nullable r = true <-> matches r [].
Proof.
  induction r as [| | | r1 IH1 r2 IH2|r1 IH1 r2 IH2|r IH]; cbn [nullable].
  - split; [done|]. inversion 1.
  - split; [constructor|done].
  - split; [done|]. inversion 1.
  - rewrite andb_true_iff, IH1, IH2. split.
    + intros [H1 H2]. by apply (match_seq _ _ [] []).
    + inversion 1 as [| |? ? s1 s2 H1 H2 E He| | | |]; subst. by apply app_eq_nil in He as [-> ->].
  - rewrite orb_true_iff, IH1, IH2. split; [intros []; by constructor|]. inversion 1; auto.
  - split; [constructor|done].
Qed.

Lemma matches_seq r1 r2 s : matches (Seq r1 r2) s <-> exists s1 s2, s = s1 ++ s2 /\ matches r1 s1 /\ matches r2 s2.
Proof. split; [inversion 1; subst; eauto|intros (s1 & s2 & -> & ? & ?); by constructor]. Qed.

Lemma matches_or r1 r2 s : matches (Or r1 r2) s <-> matches r1 s \/ matches r2 s.
Proof. split; [inversion 1; subst; auto|intros []; by constructor]. Qed.

Lemma matches_nothing s : ~ matches Nothing s.
Proof. inversion 1. Qed.

Lemma matches_epsilon s : matches Epsilon s <-> s = [].
Proof. split; [by inversion 1|intros ->; constructor]. Qed.

Lemma matches_class negated ranges s : matches (Class_of negated ranges) s <-> exists c, s = [c] /\ in_class negated ranges c = true.
Proof. split; [inversion 1; subst; eauto|intros (c & -> & ?); by constructor]. Qed.

(** A turn of a star that matches something can be its first. *)
Lemma matches_star_cons r c s : matches (Star r) (c :: s) <->
  exists s1 s2, s = s1 ++ s2 /\ matches r (c :: s1) /\ matches (Star r) s2.
Proof.
  split.
  - intros H. remember (Star r) as q eqn:Eq. remember (c :: s) as t eqn:Et. revert s Et.
    induction H as [| | | | | |r' s1 s2 H1 _ H2 IH2]; intros t' Et; try done. injection Eq as ->.
    destruct s1 as [|c' s1]; [by apply IH2|]. injection Et as -> <-. eauto.
  - intros (s1 & s2 & -> & H1 & H2). by apply (match_turn r (c :: s1) s2).
Qed.

Lemma seq_of_spec r1 r2 s : matches (seq_of r1 r2) s <-> matches (Seq r1 r2) s.
Proof.
  destruct r1; cbn [seq_of]; try done; rewrite matches_seq.
  - split; [by intros ?%matches_nothing|by intros (s1 & s2 & _ & ?%matches_nothing & _)].
  - split; [intros H; exists [], s; by split_and!; [|constructor|]|].
    by intros (s1 & s2 & -> & ->%matches_epsilon & H).
Qed.

Lemma is_alternative_spec r r' s : is_alternative r r' = true -> matches r s -> matches r' s.
Proof.
  revert r. induction r' as [| | | | |]; intros r; cbn [is_alternative]; rewrite ?orb_false_r, ?orb_true_iff, ?bool_decide_eq_true;
    try by intros ->.
  intros [->|[H|H]] M; [done|apply match_left|apply match_right]; eauto.
Qed.

Lemma or_of_spec r1 r2 s : matches (or_of r1 r2) s <-> matches r1 s \/ matches r2 s.
Proof.
  revert r2. induction r1 as [| | | |a IHa b IHb|]; intros r2; cbn [or_of]; try (
    destruct (is_alternative _ _) eqn:E;
    [split; [auto|]; intros [H|]; [by eapply is_alternative_spec|done]
    |destruct (decide (r2 = Nothing)) as [->|]; [split; [auto|]; by intros [|[]%matches_nothing]|apply matches_or]]).
  - split; [auto|]. by intros [[]%matches_nothing|].
  - rewrite IHa, IHb, matches_or. tauto.
Qed.

Lemma derivative_spec c r s : matches (derivative c r) s <-> matches r (c :: s).
Proof.
  revert s. induction r as [| |negated ranges|r1 IH1 r2 IH2|r1 IH1 r2 IH2|r IH]; intros s; cbn [derivative].
  - split; by intros ?%matches_nothing.
  - split; [by intros ?%matches_nothing|by rewrite matches_epsilon].
  - rewrite matches_class. destruct (in_class negated ranges c) eqn:E.
    + rewrite matches_epsilon. split; [intros ->; eauto|]. by intros (? & [= _ ->] & _).
    + split; [by intros ?%matches_nothing|]. intros (? & [= <- ->] & ?). congruence.
  - assert (S1 : matches (seq_of (derivative c r1) r2) s <->
      exists s1 s2, c :: s = (c :: s1) ++ s2 /\ matches r1 (c :: s1) /\ matches r2 s2).
    { rewrite seq_of_spec, matches_seq. split.
      - intros (s1 & s2 & -> & H1%IH1 & H2). eauto.
      - intros (s1 & s2 & [= ->] & H1%IH1 & H2). eauto. }
    rewrite (matches_seq r1 r2). destruct (nullable r1) eqn:N; [rewrite or_of_spec, IH2|]; rewrite S1; split.
    + intros [(s1 & s2 & E & H)|H]; [eauto|]. exists [], (c :: s). split_and!; [done| |done]. by apply nullable_spec.
    + intros ([|c' s1] & s2 & E & H1 & H2); [right; by rewrite E|left]. injection E as <- ->. eauto.
    + intros (s1 & s2 & E & H). eauto.
    + intros ([|c' s1] & s2 & E & H1 & H2); [apply nullable_spec in H1; congruence|]. injection E as <- ->. eauto.
  - by rewrite or_of_spec, IH1, IH2, matches_or.
  - rewrite seq_of_spec, matches_seq, matches_star_cons.
    split; intros (s1 & s2 & -> & H & H2); exists s1, s2; (split; [done|split; [by apply IH|done]]).
Qed.

Lemma derivatives_spec s r : matches r s <-> nullable (derivatives s r) = true.
Proof.
  revert r. induction s as [|c s IH]; intros r; [symmetry; apply nullable_spec|].
  by rewrite <-derivative_spec, IH.
Qed.

(** ** The scanner chooses the longest match and the first rule *)

Section Scanner.

Context {A : Type}.
Implicit Types (rules alive : list (A * regex)).

(** The first rule that matches a text. *)
Definition rule_for rules (t : bytes) : option A :=
  accepting ((fun p => (p.1, derivatives t p.2)) <$> rules).

Lemma accepting_alive alive : accepting (filter (fun p => p.2 <> Nothing) alive) = accepting alive.
Proof.
  induction alive as [|[a r] alive IH]; [done|]. rewrite filter_cons. case_decide as D; cbn [accepting].
  - by rewrite IH.
  - destruct (decide (r = Nothing)) as [->|]; [done|]. by destruct D.
Qed.

Lemma derivatives_Nothing t : derivatives t Nothing = Nothing.
Proof. by induction t. Qed.

Lemma rule_for_step c alive t : rule_for (step c alive) t = rule_for alive (c :: t).
Proof.
  unfold rule_for, step. induction alive as [|[a r] alive IH]; [done|].
  rewrite !fmap_cons, filter_cons. cbn [fst snd] in *. case_decide as D; cbn [fmap list_fmap accepting].
  - change (derivatives (c :: t) r) with (derivatives t (derivative c r)). by rewrite <-IH.
  - destruct (decide (derivative c r = Nothing)) as [E|]; [|by destruct D].
    change (derivatives (c :: t) r) with (derivatives t (derivative c r)).
    by rewrite E, derivatives_Nothing, <-IH.
Qed.

Lemma rule_for_nil rules t : rule_for rules t = None <-> Forall (fun p => ~ matches p.2 t) rules.
Proof.
  unfold rule_for. induction rules as [|[a r] rules IH]; [done|]. cbn [fmap list_fmap accepting fst snd].
  rewrite Forall_cons. cbn [snd]. rewrite derivatives_spec. destruct (nullable _); [|by rewrite IH; naive_solver].
  split; [done|]. by intros [[] _].
Qed.

Lemma rule_for_Some rules t a : rule_for rules t = Some a <->
  exists before r after, rules = before ++ (a, r) :: after /\ matches r t /\ Forall (fun p => ~ matches p.2 t) before.
Proof.
  unfold rule_for. induction rules as [|[a' r'] rules IH]; cbn [fmap list_fmap accepting fst snd].
  - split; [done|]. by intros ([] & ? & ? & ? & _).
  - destruct (nullable _) eqn:N.
    + apply derivatives_spec in N. split; [intros [= ->]; by exists [], r', rules|].
      intros ([|p before] & r & after & [= ? E] & M & F); [congruence|]. apply Forall_cons in F as [F _]. by subst.
    + assert (~ matches r' t) by (rewrite derivatives_spec; congruence). rewrite IH. split.
      * intros (before & r & after & -> & M & F). exists ((a', r') :: before), r, after. by split_and!; [|done|constructor].
      * intros ([|p before] & r & after & [= ? E] & M & F); [by subst|].
        apply Forall_cons in F as [_ F]. by exists before, r, after.
Qed.

Lemma scan_spec alive s n best :
  (exists m a, (0 < m <= length s)%nat /\ rule_for alive (take m s) = Some a /\
     (forall k, (m < k <= length s)%nat -> rule_for alive (take k s) = None) /\
     scan alive s n best = Some ((n + m)%nat, a)) \/
  (forall k, (0 < k <= length s)%nat -> rule_for alive (take k s) = None) /\ scan alive s n best = best.
Proof.
  revert alive n best. induction s as [|c s IH]; intros alive n best; cbn [scan length].
  { right. split; [lia|done]. }
  assert (Hs : forall k, rule_for alive (take (S k) (c :: s)) = rule_for (step c alive) (take k s))
    by (intros k; by rewrite rule_for_step).
  destruct (step c alive) as [|p alive'] eqn:E.
  { right. split; [|done]. intros [|k] Hk; [lia|]. by rewrite Hs. }
  rewrite <-E in *. set (b := match accepting (step c alive) with Some _ => _ | None => _ end).
  assert (Ha : accepting (step c alive) = rule_for (step c alive) (take 0 s)).
  { unfold rule_for. cbn. f_equal. symmetry. rewrite <-(list_fmap_id (step c alive)) at 2.
    apply list_fmap_ext. by intros ? []. }
  destruct (IH (step c alive) (S n) b) as [(m & a & Hm & Ea & Hk & ->)|[Hk ->]].
  - left. exists (S m), a. split_and!; [lia|lia|by rewrite Hs| |f_equal; f_equal; lia].
    intros [|k] Hk'; [lia|]. rewrite Hs. apply Hk. lia.
  - subst b. rewrite Ha. destruct (rule_for (step c alive) (take 0 s)) as [a|] eqn:E0.
    + left. exists 1%nat, a. split_and!; [lia|lia|by rewrite Hs| |f_equal; f_equal; lia].
      intros [|k] Hk'; [lia|]. rewrite Hs. apply Hk. lia.
    + right. split; [|done]. intros [|[|k]] Hk'; [lia|by rewrite Hs|]. rewrite Hs. apply Hk. lia.
Qed.

(** The match that is chosen is of the longest prefix of the text that some rule matches, by the
    first rule that matches it. *)
Lemma longest_match_Some rules s n a : longest_match rules s = Some (n, a) <->
  (0 < n <= length s)%nat /\ rule_for rules (take n s) = Some a /\
  forall k, (n < k <= length s)%nat -> rule_for rules (take k s) = None.
Proof.
  unfold longest_match. destruct (scan_spec rules s 0 None) as [(m & a' & Hm & Ea & Hk & ->)|[Hk ->]].
  - split; [by intros [= <- <-]|]. intros (Hn & En & Hn').
    assert (m = n) as ->; [|cbn; congruence].
    destruct (lt_eq_lt_dec m n) as [[|]|]; [|done|].
    + rewrite Hk in En by lia. done.
    + rewrite Hn' in Ea by lia. done.
  - split; [done|]. intros (Hn & En & _). rewrite Hk in En by done. done.
Qed.

Lemma longest_match_None rules s : longest_match rules s = None <->
  forall k, (0 < k <= length s)%nat -> rule_for rules (take k s) = None.
Proof.
  unfold longest_match. destruct (scan_spec rules s 0 None) as [(m & a' & Hm & Ea & Hk & ->)|[Hk ->]]; [|done].
  split; [done|]. intros H. rewrite H in Ea by done. done.
Qed.

End Scanner.

(** ** What cannot match *)

(** Whether a byte occurs in some match, at most. *)
Fixpoint uses (c : Z) (r : regex) : bool :=
  match r with
  | Nothing | Epsilon => false
  | Class_of negated ranges => in_class negated ranges c
  | Seq r1 r2 | Or r1 r2 => uses c r1 || uses c r2
  | Star r => uses c r
  end.

Lemma uses_spec r s c : matches r s -> c ∈ s -> uses c r = true.
Proof.
  induction 1 as [|negated ranges c' E|r1 r2 s1 s2 _ IH1 _ IH2|r1 r2 s _ IH|r1 r2 s _ IH| |r s1 s2 _ IH1 _ IH2];
    cbn [uses] in *; rewrite ?elem_of_nil, ?elem_of_app, ?orb_true_iff; try tauto.
  by intros ->%list_elem_of_singleton.
Qed.

(** How often a byte occurs in every match, at least. *)
Fixpoint least (c : Z) (r : regex) : nat :=
  match r with
  | Nothing | Epsilon | Star _ => 0
  | Class_of negated ranges => if bool_decide (negated = false /\ ranges = [(c, c)]) then 1 else 0
  | Seq r1 r2 => least c r1 + least c r2
  | Or r1 r2 => least c r1 `min` least c r2
  end%nat.

Definition occurrences (c : Z) (s : bytes) : nat := length (filter (eq c) s).

Lemma occurrences_app c s1 s2 : occurrences c (s1 ++ s2) = (occurrences c s1 + occurrences c s2)%nat.
Proof. unfold occurrences. by rewrite filter_app, length_app. Qed.

Lemma least_spec r s c : matches r s -> (least c r <= occurrences c s)%nat.
Proof.
  induction 1 as [|negated ranges c' E|r1 r2 s1 s2 _ IH1 _ IH2|r1 r2 s _ IH|r1 r2 s _ IH| |r s1 s2 _ IH1 _ IH2];
    cbn [least] in *; rewrite ?occurrences_app; try lia.
  case_bool_decide as D; [|lia]. destruct D as [-> ->]. unfold in_class, in_ranges in E. cbn in E.
  assert (c' = c) as -> by (rewrite orb_false_r in E; lia).
  unfold occurrences. rewrite filter_cons_True; [cbn; lia|done].
Qed.
