(* ===== verification/Lexer.v ===== *)
(** * Lexer: the scanner of scripts (lexer.l) and the buffer that it reads (parser.y)

    The rules of lexer.l in their order, the tokens that their actions return, and the loop that
    flex makes of them: the longest match at the start of the text, of the rules that have it the
    first, its action, and on with the rest.  A token comes with the line that YY_USER_ACTION
    stores, which is that of the end of its text.  The value of a floating point token, atof(3)
    of its text, is left to the rules that use it.  The last part is the reading of a script
    into the buffer. *)

From S2P Require Import Prelude Script FuzzHelper Config ScriptActions Regex.

(** ** Tokens *)

(** [parser.y:532-551] %token: the symbols without a value that the lexer returns for words *)
Inductive keyword :=
  | K_SA_FAMILY | K_SIN_PORT | K_SIN_ADDR | K_MSG_NAME | K_MSG_IOV | K_MSG_FLAGS | K_MSG_CONTROL
  | K_CMSG_DATA | K_CMSG_LEVEL | K_CMSG_TYPE | K_EE_ERRNO | K_EE_ORIGIN | K_EE_TYPE | K_EE_CODE
  | K_EE_INFO | K_EE_DATA | K_SCM_SEC | K_SCM_NSEC | K_FD | K_U32 | K_U64 | K_PTR | K_EVENTS
  | K_REVENTS | K_ONOFF | K_LINGER | K_HTONS | K_IPV4 | K_IPV6 | K_ICMP | K_UDP | K_GRE | K_RAW
  | K_SUM | K_OFF | K_KEY | K_SEQ | K_NONE | K_CHECKSUM | K_SEQUENCE | K_PRESENT | K_MPLS
  | K_LABEL | K_TC | K_TTL | K_INET_ADDR | K_INET6_ADDR | K_ACK | K_EOL | K_ECR | K_MSS | K_MTU
  | K_NOP | K_SACK | K_SACKOK | K_MD5 | K_TIMESTAMP | K_FAST_OPEN | K_FAST_OPEN_EXP | K_TOS
  | K_FLOWLABEL | K_FLAGS | K_VAL | K_WIN | K_URG | K_WSCALE | K_ECT01 | K_ECT0 | K_ECT1
  | K_NO_ECN | K_CE | K_ID.

(** [lexer.l:191-264] the rules for words with a meaning of their own *)
Definition keywords : list (string * keyword) :=
  [("sa_family", K_SA_FAMILY); ("sin_port", K_SIN_PORT); ("sin_addr", K_SIN_ADDR);
   ("msg_name", K_MSG_NAME); ("msg_iov", K_MSG_IOV); ("msg_flags", K_MSG_FLAGS);
   ("msg_control", K_MSG_CONTROL); ("cmsg_data", K_CMSG_DATA); ("cmsg_level", K_CMSG_LEVEL);
   ("cmsg_type", K_CMSG_TYPE); ("ee_errno", K_EE_ERRNO); ("ee_origin", K_EE_ORIGIN);
   ("ee_type", K_EE_TYPE); ("ee_code", K_EE_CODE); ("ee_info", K_EE_INFO);
   ("ee_data", K_EE_DATA); ("scm_sec", K_SCM_SEC); ("scm_nsec", K_SCM_NSEC); ("fd", K_FD);
   ("u32", K_U32); ("u64", K_U64); ("ptr", K_PTR); ("events", K_EVENTS); ("revents", K_REVENTS);
   ("onoff", K_ONOFF); ("linger", K_LINGER); ("htons", K_HTONS); ("ipv4", K_IPV4);
   ("ipv6", K_IPV6); ("icmp", K_ICMP); ("udp", K_UDP); ("GREv0", K_GRE); ("gre", K_GRE);
   ("raw", K_RAW); ("sum", K_SUM); ("off", K_OFF); ("key", K_KEY); ("seq", K_SEQ);
   ("none", K_NONE); ("checksum", K_CHECKSUM); ("sequence#", K_SEQUENCE); ("present", K_PRESENT);
   ("mpls", K_MPLS); ("label", K_LABEL); ("tc", K_TC); ("ttl", K_TTL);
   ("inet_addr", K_INET_ADDR); ("inet6_addr", K_INET6_ADDR); ("ack", K_ACK); ("eol", K_EOL);
   ("ecr", K_ECR); ("mss", K_MSS); ("mtu", K_MTU); ("nop", K_NOP); ("sack", K_SACK);
   ("sackOK", K_SACKOK); ("md5", K_MD5); ("TS", K_TIMESTAMP); ("FO", K_FAST_OPEN);
   ("FOEXP", K_FAST_OPEN_EXP); ("tos", K_TOS); ("flowlabel", K_FLOWLABEL); ("flags", K_FLAGS);
   ("Flags", K_FLAGS); ("val", K_VAL); ("win", K_WIN); ("urg", K_URG); ("wscale", K_WSCALE);
   ("ect01", K_ECT01); ("ect0", K_ECT0); ("ect1", K_ECT1); ("noecn", K_NO_ECN); ("ce", K_CE);
   ("id", K_ID)].

#[export] Instance keyword_eq_dec : EqDecision keyword.
Proof. solve_decision. Defined.

(** [parser.y:532-551] %token: every symbol with the value it has in yylval; a single character
    stands for itself.  Rules that copy yytext find the text of the integer there. *)
Inductive token :=
  | T_KEYWORD (k : keyword)
  | T_ELLIPSIS
  | T_OPTION (s : bytes)
  | T_FLOAT (yytext : bytes)
  | T_INTEGER (integer : Z) (yytext : bytes)
  | T_HEX_INTEGER (integer : Z)
  | T_TEXT (w : word_token)
  | T_CHAR (c : Z)
  | T_CODE (s : bytes)
  | T_IPV4_ADDR (s : bytes)
  | T_IPV6_ADDR (s : bytes).

(** ** The regular expressions *)

(** The classes of the rules, and texts. *)
Definition digit : regex := Class_of false [(48, 57)].
Definition hex_class : regex := Class_of false [(48, 57); (97, 102); (65, 70)].
Definition word_char : regex := Class_of false [(97, 122); (65, 90); (48, 57); (95, 95)].
Definition not_in (cs : list Z) : regex := Class_of true ((fun c => (c, c)) <$> cs).
Definition literal (s : string) : regex := text (string_bytes s).

(** Any character but a newline, which flex writes as a dot. *)
Definition dot : regex := not_in [10].

(** [lexer.l:144-144] cpp_comment *)
Definition cpp_comment : regex := Seq (literal "//") (Seq (Star (not_in [10])) (char 10)).

(** [lexer.l:152-152] c_comment *)
Definition c_comment : regex :=
  Seq (literal "/*") (Seq (Star (Or (not_in [42]) (Seq (char 42) (not_in [47])))) (literal "*/")).

(** [lexer.l:161-161] code *)
Definition code_regex : regex :=
  Seq (literal "%{") (Seq (Star (Or (not_in [125]) (Seq (char 125) (not_in [37])))) (literal "}%")).

(** [lexer.l:164-164] ipv4_addr *)
Definition ipv4_addr : regex :=
  Seq (plus digit) (Seq (char 46) (Seq (plus digit) (Seq (char 46)
    (Seq (plus digit) (Seq (char 46) (plus digit)))))).

(** [lexer.l:171-171] seg *)
Definition seg : regex := between 1 4 hex_class.

(** Segments that are each followed by a colon, and that each follow one. *)
Definition seg_colon : regex := Seq seg (char 58).
Definition colon_seg : regex := Seq (char 58) seg.

(** [lexer.l:172-188] ipv6_addr: v0 to v12 *)
Definition ipv6_addr : regex :=
  any_of
    [literal "::";
     Seq (between 7 7 seg_colon) seg;
     Seq (between 1 7 seg_colon) (char 58);
     Seq (between 1 6 seg_colon) (Seq (char 58) seg);
     Seq (between 1 5 seg_colon) (between 1 2 colon_seg);
     Seq (between 1 4 seg_colon) (between 1 3 colon_seg);
     Seq (between 1 3 seg_colon) (between 1 4 colon_seg);
     Seq (between 1 2 seg_colon) (between 1 5 colon_seg);
     Seq seg (Seq (char 58) (between 1 6 colon_seg));
     Seq (char 58) (between 1 7 colon_seg);
     Seq (literal "::ffff:") ipv4_addr;
     Seq (literal "::ffff:") (Seq (between 1 4 (char 48)) (Seq (char 58) ipv4_addr));
     Seq (between 1 4 seg_colon) (Seq (char 58) ipv4_addr)].

(** A string between two quotes, in which a backslash may quote a character. *)
Definition quoted_by (q : Z) : regex :=
  Seq (char q) (Seq (Star (Or (Seq (char 92) dot) (not_in [q]))) (char q)).

(** ** The rules *)

(** The actions. *)
Inductive rule :=
  | R_keyword (k : keyword)
  | R_ellipsis | R_option | R_float | R_integer | R_hex_integer | R_word | R_string | R_back_quoted
  | R_char | R_ignored | R_code | R_ipv4_addr | R_ipv6_addr.

#[export] Instance rule_eq_dec : EqDecision rule.
Proof. solve_decision. Defined.

(** [lexer.l:265-279] the rules after those of the words *)
Definition other_rules : list (rule * regex) :=
  [(R_ellipsis, literal "...");
   (R_option, Seq (literal "--") (plus word_char));
   (R_float, Seq (maybe (char 45)) (Seq (Star digit) (Seq (char 46) (plus digit))));
   (R_integer, Seq (maybe (char 45)) (plus digit));
   (R_hex_integer, Seq (literal "0x") (plus hex_class));
   (R_word, plus word_char);
   (R_string, quoted_by 34);
   (R_back_quoted, quoted_by 96);
   (R_char, not_in [32; 9; 10]);
   (R_ignored, plus (Class_of false [(32, 32); (9, 9); (10, 10)]));
   (R_ignored, cpp_comment);
   (R_ignored, c_comment);
   (R_code, code_regex);
   (R_ipv4_addr, ipv4_addr);
   (R_ipv6_addr, ipv6_addr)].

(** [lexer.l:190-280] the rules *)
Definition rules : list (rule * regex) :=
  ((fun '(s, k) => (R_keyword k, literal s)) <$> keywords) ++ other_rules.

(** ** The actions *)

(** strtol(3) to base 16 of digits. *)
Definition hex_number (s : bytes) : Z :=
  foldl (fun v c => v * 16 + default 0 (hex_value c)) 0 s.

(** [lexer.l:130-133] hextol: strtol does not leave the range of a long *)
Definition hextol (yytext : bytes) : Z := hex_number (drop 2 yytext) `min` LONG_MAX.

(** atoll(3) of the GNU C library. *)
Definition atoll (yytext : bytes) : Z := (strtol (bytes_string yytext)).1.1.

(** [lexer.l:191-279] the actions: the token, or none where the text is ignored.  yytext is a C
    string; code() reads from the third byte from its end on. *)
Definition rule_action (defines : list definition) (r : rule) (yytext : bytes) : exec (option token) :=
  let s := c_string yytext in
  match r with
  | R_keyword k => Ok (Some (T_KEYWORD k))
  | R_ellipsis => Ok (Some T_ELLIPSIS)
  | R_option => Ok (Some (T_OPTION (option_name s)))
  | R_float => Ok (Some (T_FLOAT s))
  | R_integer => Ok (Some (T_INTEGER (atoll s) s))
  | R_hex_integer => Ok (Some (T_HEX_INTEGER (hextol s)))
  | R_word => Ok (Some (T_TEXT (word defines (bytes_string s))))
  | R_string => Ok (Some (T_TEXT (T_STRING (quoted s))))
  | R_back_quoted => Ok (Some (T_TEXT (T_BACK_QUOTED (quoted s))))
  | R_char => Ok (Some (T_CHAR (s8 (byte_at yytext 0))))
  | R_ignored => Ok None
  | R_code => if zlen s <? 3 then Fault OutOfBounds else Ok (Some (T_CODE (code s)))
  | R_ipv4_addr => Ok (Some (T_IPV4_ADDR s))
  | R_ipv6_addr => Ok (Some (T_IPV6_ADDR s))
  end.

(** ** The loop *)

Definition newlines (s : bytes) : Z := Z.of_nat (occurrences 10 s).

(** [lexer.l:136-280] yylex, called until the end of the file: the tokens with their lines.  A
    byte that no rule matches is copied to the output, by the default rule of flex. *)
Fixpoint lex (fuel : nat) (defines : list definition) (s : bytes) (yylineno : Z) : exec (list (Z * token)) :=
  match s with
  | [] => Ok []
  | _ =>
      match fuel with
      | O => Fault OutOfFuel
      | S fuel =>
          match longest_match rules s with
          | None => lex fuel defines (drop 1 s) (yylineno + newlines (take 1 s))
          | Some (n, r) =>
              let yytext := take n s in
              let yylineno := yylineno + newlines yytext in
              t ← rule_action defines r yytext;
              ts ← lex fuel defines (drop n s) yylineno;
              Ok (match t with Some t => (yylineno, t) :: ts | None => ts end)
          end
      end
  end.

(** Every turn takes a byte. *)
Definition lex_all (defines : list definition) (s : bytes) (yylineno : Z) : exec (list (Z * token)) :=
  lex (length s) defines s yylineno.

(** A parser that bison generates takes a token that is not positive for the end of the file. *)
Definition is_end (t : token) : bool := match t with T_CHAR c => c <=? 0 | _ => false end.
Fixpoint seen_by_parser (ts : list (Z * token)) : list (Z * token) :=
  match ts with
  | [] => []
  | t :: ts => if is_end t.2 then [] else t :: seen_by_parser ts
  end.

(** [parser.y:254-254] parse_script: the tokens that yyparse gets of a script *)
Definition script_tokens (defines : list definition) (buffer : bytes) : exec (list (Z * token)) :=
  seen_by_parser <$> lex_all defines buffer 1.

(** ** Reading a script *)

(** What one attempt to read the file finds: the size that stat(2) returns, and the result of
    open(2), of read(2) into a buffer of a size, and of close(2). *)
Record attempt := mk_attempt {
  at_stat : option Z; at_opens : bool; at_read : Z -> option bytes; at_closes : bool
}.

(** [parser.y:168-212] read_script: the size is an int *)
Fixpoint read_script (attempts : list attempt) (size : Z) : exec bytes :=
  match attempts with
  | [] => Fault Blocked
  | a :: attempts =>
      st_size ← match at_stat a with None => Fault Died | Some n => Ok n end;
      let size := s32 (s32 st_size `max` size + 1) in
      _ ← (if at_opens a then Ok tt else Fault Died);
      buffer ← match at_read a size with None => Fault Died | Some b => Ok b end;
      _ ← (if at_closes a then Ok tt else Fault Died);
      if zlen buffer =? size then read_script attempts size else Ok buffer
  end.

(** [parser.y:155-165] copy_script: up to the end of the string *)
Definition copy_script (script_buffer : bytes) : bytes := c_string script_buffer.
