(* ===== verification/LexerProps.v ===== *)
(** * LexerProps: theorems about the scanner of scripts

    The scanner is total and takes all of its text; numbers, words and options are read back as
    they are printed; and what its regular expressions do at the ends of comments, strings and
    code snippets. *)

From S2P Require Import Prelude TcpOptions Script Code FuzzHelper Config ScriptActions ScriptProps Regex Lexer.

(** ** One turn of the loop *)

Lemma cover c s : exists n r, longest_match rules (c :: s) = Some (n, r) /\ (0 < n <= length (c :: s))%nat.
Proof.
  destruct (longest_match rules (c :: s)) as [[n r]|] eqn:E.
  { exists n, r. split; [done|]. by apply longest_match_Some in E as [? _]. }
  exfalso. pose proof (proj1 (longest_match_None _ _) E 1%nat ltac:(cbn; lia)) as H.
  change (take 1 (c :: s)) with [c] in H. rewrite rule_for_nil, Forall_forall in H.
  assert (D : in_class true [(32, 32); (9, 9); (10, 10)] c = true \/ in_class false [(32, 32); (9, 9); (10, 10)] c = true)
    by (unfold in_class; destruct (in_ranges _ c); auto).
  destruct D as [D|D].
  - apply (H (R_char, not_in [32; 9; 10])); [|by constructor].
    apply elem_of_app. right. unfold other_rules. set_solver.
  - apply (H (R_ignored, plus (Class_of false [(32, 32); (9, 9); (10, 10)]))).
    + apply elem_of_app. right. unfold other_rules. set_solver.
    + apply (match_seq _ _ [c] []); [by constructor|constructor].
Qed.

Lemma lex_fuel defines fuel : forall s line, (length s <= fuel)%nat ->
  lex fuel defines s line = lex_all defines s line.
Proof.
  unfold lex_all. induction fuel as [fuel IH] using lt_wf_ind. intros [|c s] line Hl; [by destruct fuel|].
  destruct fuel as [|fuel]; [cbn in Hl; lia|]. cbn [length lex].
  destruct (cover c s) as (n & r & -> & Hn). cbn [length] in Hn, Hl.
  assert (Hd : (length (drop n (c :: s)) <= length s)%nat) by (rewrite length_drop; cbn; lia).
  destruct (rule_action defines r _) as [t|]; [|done]. rewrite !bind_Ok_eq.
  rewrite (IH fuel) by lia. destruct (decide (length s = fuel)) as [->|]; [by rewrite (IH fuel) by lia|].
  by rewrite (IH (length s)) by lia.
Qed.

(** The tokens of a text and a line, with those of the rest. *)
Definition then_lex (defines : list definition) (o : option token) (line : Z) (rest : bytes) : exec (list (Z * token)) :=
  ts ← lex_all defines rest line;
  Ok (match o with Some t => (line, t) :: ts | None => ts end).

Lemma lex_step defines t rest r line : longest_match rules (t ++ rest) = Some (length t, r) ->
  lex_all defines (t ++ rest) line =
  (o ← rule_action defines r t; then_lex defines o (line + newlines t) rest).
Proof.
  intros E. pose proof (proj1 (longest_match_Some _ _ _ _) E) as [Hl _].
  destruct (t ++ rest) as [|c s] eqn:Et; [cbn in Hl; lia|]. unfold lex_all at 1. cbn [length lex].
  rewrite E, <-Et, take_app_length, drop_app_length. destruct (rule_action defines r t) as [o|]; [|done].
  rewrite !bind_Ok_eq. unfold then_lex. rewrite lex_fuel; [done|].
  apply (f_equal length) in Et. rewrite length_app in Et. cbn in Et, Hl. lia.
Qed.

(** ** Totality *)

(** The length of the shortest match, at least. *)
Fixpoint shortest (r : regex) : nat :=
  match r with
  | Nothing | Epsilon | Star _ => 0
  | Class_of _ _ => 1
  | Seq r1 r2 => shortest r1 + shortest r2
  | Or r1 r2 => shortest r1 `min` shortest r2
  end%nat.

Lemma shortest_spec r s : matches r s -> (shortest r <= length s)%nat.
Proof. induction 1; cbn [shortest length] in *; rewrite ?length_app; lia. Qed.

Lemma c_string_whole s : 0 ∉ s -> c_string s = s.
Proof.
  induction s as [|b s IH]; [done|]. rewrite not_elem_of_cons. intros [Hb Hs]. cbn [c_string].
  destruct (Z.eqb_spec b 0); [congruence|]. by rewrite IH.
Qed.

Lemma action_total defines t r : rule_for rules t = Some r -> 0 ∉ t ->
  exists o, rule_action defines r t = Ok o.
Proof.
  intros (before & e & after & E & M & _)%rule_for_Some H0. destruct r; try by eexists. cbn [rule_action].
  rewrite c_string_whole by done. assert (He : (R_code, e) ∈ rules) by (rewrite E; set_solver).
  apply elem_of_app in He as [He|He].
  { by apply list_elem_of_fmap in He as ([] & [=] & _). }
  assert (e = code_regex) as -> by (unfold other_rules in He; set_solver).
  apply shortest_spec in M. cbn in M. unfold zlen. destruct (Z.ltb_spec (Z.of_nat (length t)) 3); [lia|by eexists].
Qed.

(** The scanner takes every text that has no NUL apart into tokens. *)
Theorem lex_total (defines : list definition) (s : bytes) (line : Z) : 0 ∉ s ->
  exists ts, lex_all defines s line = Ok ts.
Proof.
  remember (length s) as n eqn:Hn. revert s line Hn. induction n as [n IH] using lt_wf_ind.
  intros [|c s] line -> H0; [by exists []|]. destruct (cover c s) as (k & r & E & Hk).
  assert (Es : c :: s = take k (c :: s) ++ drop k (c :: s)) by (by rewrite take_drop).
  assert (Hlen : length (take k (c :: s)) = k) by (rewrite length_take; lia).
  rewrite Es, (lex_step _ _ _ r) by (by rewrite <-Es, Hlen).
  assert (Hr : rule_for rules (take k (c :: s)) = Some r) by (by apply longest_match_Some in E as (_ & ? & _)).
  rewrite Es, not_elem_of_app in H0. destruct H0 as [H1 H2].
  destruct (action_total defines _ _ Hr H1) as [o ->]. rewrite bind_Ok_eq. unfold then_lex.
  edestruct (IH (length (drop k (c :: s)))) as [ts ->]; [|done|done|by eexists].
  rewrite length_drop. cbn [length] in *. lia.
Qed.

(** ** The rules of flex *)

(** What the manual of flex says of a scanner, over what the expressions match: at each turn the
    text matched is the longest that any rule matches, the rule is the first that matches it, its
    action runs, and the rest follows. *)
Inductive flex (defines : list definition) : bytes -> Z -> list (Z * token) -> Prop :=
  | flex_end line : flex defines [] line []
  | flex_turn before r e after t rest line o ts :
      t <> [] -> rules = before ++ (r, e) :: after -> matches e t ->
      Forall (fun p => ~ matches p.2 t) before ->
      (forall more, more <> [] -> more `prefix_of` rest -> Forall (fun p => ~ matches p.2 (t ++ more)) rules) ->
      rule_action defines r t = Ok o -> flex defines rest (line + newlines t) ts ->
      flex defines (t ++ rest) line (match o with Some k => (line + newlines t, k) :: ts | None => ts end).

(** The choice of [longest_match] in the terms of the rules. *)
Lemma munch t rest r : t <> [] -> rule_for rules t = Some r ->
  (forall more, more <> [] -> more `prefix_of` rest -> Forall (fun p => ~ matches p.2 (t ++ more)) rules) ->
  longest_match rules (t ++ rest) = Some (length t, r).
Proof.
  intros Ht Hr Hm. assert (0 < length t)%nat by (by destruct t; cbn; [|lia]).
  apply longest_match_Some. rewrite length_app, take_app_length. split_and!; [lia|lia|done|].
  intros k Hk. rewrite rule_for_nil, take_app_ge by lia. apply Hm; [|apply prefix_take].
  intros E%(f_equal length). rewrite length_take in E. cbn in E. lia.
Qed.

Lemma munched t rest r : longest_match rules (t ++ rest) = Some (length t, r) ->
  t <> [] /\ rule_for rules t = Some r /\
  (forall more, more <> [] -> more `prefix_of` rest -> Forall (fun p => ~ matches p.2 (t ++ more)) rules).
Proof.
  intros (Hl & Hr & Hk)%longest_match_Some. rewrite length_app, take_app_length in *.
  split_and!; [by intros ->|done|]. intros more Hm [rest' ->]. apply rule_for_nil.
  assert (0 < length more)%nat by (by destruct more; cbn; [|lia]). rewrite length_app in Hk, Hl.
  specialize (Hk (length t + length more)%nat ltac:(lia)).
  rewrite take_app_add, take_app_length in Hk. done.
Qed.

(** The scanner does what flex promises, and nothing else. *)
Theorem lex_refines_flex (defines : list definition) (s : bytes) (line : Z) (ts : list (Z * token)) :
  lex_all defines s line = Ok ts <-> flex defines s line ts.
Proof.
  split.
  - remember (length s) as n eqn:Hn. revert s line ts Hn. induction n as [n IH] using lt_wf_ind.
    intros [|c s] line ts ->; [intros [= <-]; constructor|]. destruct (cover c s) as (k & r & E & Hk).
    assert (Hlen : length (take k (c :: s)) = k) by (rewrite length_take; lia).
    rewrite <-(take_drop k (c :: s)) in E |- *. rewrite <-Hlen in E at 3.
    rewrite (lex_step _ _ _ r) by done. intros (o & Eo & (ts' & Ets & [= <-])%exec_bind_Ok)%exec_bind_Ok.
    apply munched in E as (Ht & (before & e & after & Er & M & F)%rule_for_Some & Hm).
    eapply flex_turn; try done. apply (IH (length (drop k (c :: s)))); [|done..].
    rewrite length_drop. cbn [length] in *. lia.
  - induction 1 as [|before r e after t rest line o ts Ht Er M F Hm Eo _ IH]; [done|].
    rewrite (lex_step _ _ _ r); [rewrite Eo, bind_Ok_eq; unfold then_lex; by rewrite IH|].
    apply munch; [done| |done]. apply rule_for_Some. eauto 10.
Qed.

(** ** Texts that end where a word ends *)

Definition is_word_char (c : Z) : bool := in_ranges [(97, 122); (65, 90); (48, 57); (95, 95)] c.
Definition is_digit_code (c : Z) : bool := in_ranges [(48, 57)] c.

(** The characters that follow words and numbers here. *)
Definition delimiters : list Z := [32; 44; 62].
Definition ends_word (rest : bytes) : Prop :=
  match rest with [] => True | d :: _ => d ∈ delimiters end.

(** No longer match of a rule starts with [c] and has a [d]. *)
Definition excluded (c d : Z) (r : regex) : bool :=
  negb (uses d r) || bool_decide (derivative c r = Nothing) || bool_decide (derivative c r = Epsilon).

Lemma excluded_spec c d r s : excluded c d r = true -> d ∈ s -> ~ matches r (c :: s).
Proof.
  unfold excluded. rewrite !orb_true_iff, negb_true_iff, !bool_decide_eq_true. intros [[U|D]|D] Hd M.
  - rewrite (uses_spec _ _ d M) in U by set_solver. done.
  - apply derivative_spec in M. rewrite D in M. by apply matches_nothing in M.
  - apply derivative_spec in M. rewrite D in M. apply matches_epsilon in M. subst. by apply elem_of_nil in Hd.
Qed.

(** A check of every byte for one that holds for those of a class. *)
Definition all_bytes : list Z := seqZ 0 256.
Lemma for_class (p q : Z -> bool) c : is_byte c -> p c = true ->
  forallb (fun c => negb (p c) || q c) all_bytes = true -> q c = true.
Proof.
  intros Hb Hp H. rewrite forallb_forall in H. specialize (H c).
  rewrite Hp in H. apply H. apply list_elem_of_In, elem_of_seqZ. unfold is_byte in Hb. lia.
Qed.

Lemma word_char_byte c : is_word_char c = true -> is_byte c.
Proof. unfold is_word_char, in_ranges, is_byte. cbn. lia. Qed.

Lemma word_excluded c d : is_word_char c = true -> d ∈ delimiters ->
  Forall (fun p => excluded c d p.2 = true) rules.
Proof.
  intros Hc Hd. assert (H : forallb (fun p : rule * regex => forallb (fun d => excluded c d p.2) delimiters) rules = true).
  { apply (for_class is_word_char (fun c => forallb (fun p => forallb (fun d => excluded c d p.2) delimiters) rules));
      [by apply word_char_byte|done|]. vm_compute. reflexivity. }
  apply Forall_forall. intros p Hp. rewrite forallb_forall in H. specialize (H p). rewrite forallb_forall in H.
  apply H; by apply list_elem_of_In.
Qed.

(** A prefix of a text behind a token is longer by a byte that comes next. *)
Lemma prefix_head (more rest : bytes) : more <> [] -> more `prefix_of` rest ->
  exists d more', more = d :: more' /\ exists rest', rest = d :: rest' /\ more' `prefix_of` rest'.
Proof.
  destruct more as [|d more']; [done|]. intros _ [l ->]. exists d, more'. split; [done|].
  exists (more' ++ l). split; [done|]. by exists l.
Qed.

Lemma word_munch c t rest r : is_word_char c = true -> rule_for rules (c :: t) = Some r -> ends_word rest ->
  longest_match rules ((c :: t) ++ rest) = Some (length (c :: t), r).
Proof.
  intros Hc Hr Hd. apply munch; [done..|]. intros more Hm Hp.
  destruct (prefix_head _ _ Hm Hp) as (d & more' & -> & rest' & -> & _).
  eapply Forall_impl; [by apply (word_excluded c d)|]. intros p He. cbn beta in He.
  apply (excluded_spec _ _ _ (t ++ d :: more') He). set_solver.
Qed.

(** No match of several bytes starts with [c]. *)
Definition single (c : Z) : bool :=
  forallb (fun p : rule * regex => bool_decide (derivative c p.2 = Epsilon \/ derivative c p.2 = Nothing)) rules.

Lemma single_munch d rest r : single d = true -> rule_for rules [d] = Some r ->
  longest_match rules ([d] ++ rest) = Some (1%nat, r).
Proof.
  intros C Hr. apply (munch [d]); [done..|]. intros [|d' more] Hm _; [done|]. apply Forall_forall. intros p Hp.
  unfold single in C. rewrite forallb_forall in C. specialize (C p). rewrite bool_decide_eq_true in C.
  cbn [app]. rewrite <-derivative_spec.
  destruct C as [ -> | -> ]; [by apply list_elem_of_In|by rewrite matches_epsilon|apply matches_nothing].
Qed.

(** Characters that are tokens by themselves, whatever follows. *)
Definition punctuation : list Z := [44; 60; 62; 40; 41; 61].

Lemma punctuation_munch d rest : d ∈ punctuation -> longest_match rules ([d] ++ rest) = Some (1%nat, R_char).
Proof.
  intros Hd. assert (single d = true /\ rule_for rules [d] = Some R_char) as [C Hr].
  { unfold punctuation in Hd. set_unfold in Hd. naive_solver (vm_compute; reflexivity). }
  by apply single_munch.
Qed.

(** No match starts with the two bytes. *)
Definition dead_pair (c d : Z) : bool :=
  forallb (fun p : rule * regex => bool_decide (derivative d (derivative c p.2) = Nothing)) rules.

Lemma pair_munch c d rest r : rule_for rules [c] = Some r -> dead_pair c d = true ->
  longest_match rules ([c] ++ d :: rest) = Some (1%nat, r).
Proof.
  intros Hr C. apply (munch [c]); [done..|]. intros more Hm Hp.
  destruct (prefix_head _ _ Hm Hp) as (? & more' & -> & rest' & [= <- <-] & _).
  apply Forall_forall. intros p He M. unfold dead_pair in C. rewrite forallb_forall in C.
  specialize (C p). rewrite bool_decide_eq_true in C.
  cbn [app] in M. rewrite <-!derivative_spec, C in M by (by apply list_elem_of_In). by apply matches_nothing in M.
Qed.

Lemma blank_munch d rest : is_word_char d = true ->
  longest_match rules ([32] ++ d :: rest) = Some (1%nat, R_ignored).
Proof.
  intros Hd. apply pair_munch; [by vm_compute|].
  apply (for_class is_word_char (dead_pair 32)); [by apply word_char_byte|done|]. vm_compute. reflexivity.
Qed.

Lemma colon_munch d rest : is_digit_code d = true ->
  longest_match rules ([58] ++ d :: rest) = Some (1%nat, R_char).
Proof.
  intros Hd. apply pair_munch; [by vm_compute|].
  apply (for_class is_digit_code (dead_pair 58)); [|done|vm_compute; reflexivity].
  unfold is_digit_code, in_ranges, is_byte in *. cbn in Hd. lia.
Qed.

(** ** Numbers *)

Lemma digits_step z t acc : 0 <= z < 10 -> digits (hex_digit z +:+ t) acc = digits t (acc * 10 + z).
Proof.
  intros Hz. rewrite (proj1 (hex_digit_dec z Hz)). change (String ?c "" +:+ t) with (String c t). cbn [digits].
  unfold is_digit, digit_value. rewrite Ascii.nat_ascii_embedding by lia.
  rewrite (proj2 (Nat.leb_le 48 _)), (proj2 (Nat.leb_le _ 57)) by lia. cbn [andb]. f_equal. lia.
Qed.

Lemma digit_codes z : 0 <= z < 10 -> string_bytes (hex_digit z) = [48 + z].
Proof.
  intros Hz. rewrite (proj1 (hex_digit_dec z Hz)). cbn [string_bytes]. rewrite Ascii.nat_ascii_embedding by lia. f_equal. lia.
Qed.

Lemma dec_digits_codes n : forall z, 0 <= z < 10 ^ Z.of_nat n ->
  Forall (fun c => is_digit_code c = true) (string_bytes (dec_digits n z)) /\
  (n <> O -> dec_digits n z <> "") /\
  exists k, 0 <= k /\ forall acc t, digits (dec_digits n z +:+ t) acc = digits t (acc * 10 ^ k + z).
Proof.
  assert (D : forall z, 0 <= z < 10 -> is_digit_code (48 + z) = true)
    by (intros z Hz; unfold is_digit_code, in_ranges; cbn; lia).
  induction n as [|n IH]; intros z Hz.
  { split_and!; [constructor|done|]. exists 0. split; [done|]. intros. cbn in *. f_equal. lia. }
  cbn [dec_digits]. destruct (Z.ltb_spec z 10).
  - rewrite digit_codes by lia. split_and!; [repeat constructor; apply D; lia| |].
    + intros _. rewrite (proj1 (hex_digit_dec z ltac:(lia))). done.
    + exists 1. split; [done|]. intros. rewrite digits_step by lia. f_equal; lia.
  - rewrite Nat2Z.inj_succ, Z.pow_succ_r in Hz by lia.
    assert (Hm : 0 <= z mod 10 < 10) by zlia.
    destruct (IH (z / 10)) as (Hd & _ & k & Hk & Hu); [zlia|].
    rewrite string_bytes_app, digit_codes by done. split_and!.
    + apply Forall_app. split; [done|]. repeat constructor. by apply D.
    + intros _. rewrite (proj1 (hex_digit_dec _ Hm)). by destruct (dec_digits n (z / 10)).
    + exists (k + 1). split; [lia|]. intros acc t. rewrite string_app_assoc, Hu, digits_step by done.
      rewrite Z.pow_add_r by lia. f_equal. pose proof (Z.div_mod z 10). lia.
Qed.

Lemma digit_word c : is_digit_code c = true -> is_word_char c = true.
Proof. unfold is_digit_code, is_word_char, in_ranges. cbn. lia. Qed.

Lemma no_nul t : Forall (fun c => is_word_char c = true) t -> 0 ∉ t.
Proof. rewrite Forall_forall. intros F H0. by specialize (F 0 H0). Qed.

Lemma digits_words t : Forall (fun c => is_digit_code c = true) t -> Forall (fun c => is_word_char c = true) t.
Proof. intros F. eapply Forall_impl; [exact F|]. apply digit_word. Qed.

(** The digits of a number and what atoll(3) makes of them. *)
Lemma dec_codes z : 0 <= z < 2 ^ 63 -> exists c t, string_bytes (dec z) = c :: t /\
  Forall (fun c => is_digit_code c = true) (c :: t) /\ atoll (string_bytes (dec z)) = z.
Proof.
  intros Hz. unfold dec. rewrite (proj2 (Z.ltb_ge z 0)) by lia.
  destruct (dec_digits_codes 20 z) as (F & Hne & k & Hk & Hu).
  { change (10 ^ Z.of_nat 20) with 100000000000000000000. lia. }
  specialize (Hne ltac:(done)). specialize (Hu 0 ""). rewrite string_app_empty in Hu. cbn [digits] in Hu.
  destruct (dec_digits 20 z) as [|a s] eqn:E; [done|]. cbn [string_bytes] in F |- *.
  eexists _, _. split; [done|]. split; [done|]. apply Forall_cons in F as [Ha _].
  unfold atoll, strtol. change (Z.of_nat (Ascii.nat_of_ascii a) :: string_bytes s) with (string_bytes (String a s)).
  rewrite bytes_of_string. assert (Da : is_digit a = true)
    by (unfold is_digit_code, in_ranges in Ha; cbn in Ha; unfold is_digit; apply andb_true_iff; rewrite !Nat.leb_le; lia).
  assert (scan_number (String a s) = Some (false, z, "")) as ->.
  { unfold scan_number. assert (skip_space (String a s) = String a s) as ->.
    { cbn [skip_space]. destruct (is_space a) eqn:Es; [|done].
      unfold is_space in Es. rewrite orb_true_iff, andb_true_iff, Nat.eqb_eq, !Nat.leb_le in Es.
      unfold is_digit in Da. rewrite andb_true_iff, !Nat.leb_le in Da. lia. }
    assert (sign_of (String a s) = (false, String a s)) as ->.
    { destruct a as [[] [] [] [] [] [] [] []]; try done. }
    rewrite Da, Hu. done. }
  unfold LONG_MIN, LONG_MAX. destruct (Z.ltb_spec z (- 2 ^ 63)); [lia|]. destruct (Z.ltb_spec (2 ^ 63 - 1) z); [lia|]. done.
Qed.

(** ** The rules for numbers and words *)

Abbreviation word_chars := (Forall (fun c => is_word_char c = true)).
Abbreviation digit_chars := (Forall (fun c => is_digit_code c = true)).

Lemma plus_class negated ranges c t : Forall (fun c => in_class negated ranges c = true) (c :: t) ->
  matches (plus (Class_of negated ranges)) (c :: t).
Proof.
  intros [Hc F]%Forall_cons. apply (match_seq _ _ [c] t); [by constructor|]. clear Hc.
  induction F as [|x t Hx F IH]; [constructor|]. apply (match_turn _ [x] t); [by constructor|done].
Qed.

Lemma literal_matches s t : matches (text s) t -> t = s.
Proof.
  revert t. induction s as [|c s IH]; intros t M; [by apply matches_epsilon in M|].
  assert (C : forall t, matches (char c) t -> t = [c]).
  { intros t' (c' & -> & E)%matches_class. unfold in_class, in_ranges in E. cbn in E. f_equal. lia. }
  destruct s as [|c' s]; [by apply C|]. change (text (c :: c' :: s)) with (Seq (char c) (text (c' :: s))) in M.
  apply matches_seq in M as (s1 & s2 & -> & ->%C & ->%IH). done.
Qed.

Lemma word_occurrences x t : word_chars t -> is_word_char x = false -> occurrences x t = 0%nat.
Proof.
  intros F Hx. unfold occurrences. induction F as [|c t Hc F IH]; [done|]. rewrite filter_cons_False; [done|]. intros ->. congruence.
Qed.

(** The rules before that for numbers match no number. *)
Definition not_number (c : Z) : bool :=
  forallb (fun p : rule * regex => bool_decide (derivative c p.2 = Nothing) || (0 <? least 46 p.2)%nat) (take 77 rules).

Lemma integer_rule c t : digit_chars (c :: t) -> rule_for rules (c :: t) = Some R_integer.
Proof.
  intros F. pose proof F as [Hc _]%Forall_cons. apply rule_for_Some.
  exists (take 77 rules), (Seq (maybe (char 45)) (plus digit)), (drop 78 rules). split; [done|]. split.
  { apply (match_seq _ _ [] (c :: t)); [apply match_right; constructor|]. by apply plus_class. }
  assert (C : not_number c = true).
  { apply (for_class is_digit_code); [by apply word_char_byte, digit_word|done|]. vm_compute. reflexivity. }
  unfold not_number in C. rewrite forallb_forall in C. apply Forall_forall. intros p Hp%list_elem_of_In M.
  specialize (C p Hp). rewrite orb_true_iff, bool_decide_eq_true, Nat.ltb_lt in C. destruct C as [C|C].
  - rewrite <-derivative_spec, C in M. by apply matches_nothing in M.
  - pose proof (least_spec _ _ 46 M) as L. rewrite (word_occurrences 46) in L; [lia|by apply digits_words|done].
Qed.

(** Neither do those before that for words match a word, other than their own. *)
Definition not_word (c x : Z) : bool :=
  forallb (fun p : rule * regex =>
    bool_decide (derivative c p.2 = Nothing) || (0 <? least 46 p.2)%nat || (0 <? least 120 p.2)%nat || negb (uses x p.2))
    (take 5 other_rules).

Lemma not_word_all : forallb (fun c => negb (is_word_char c) ||
  forallb (fun x => negb (is_word_char x && negb (is_digit_code x)) || not_word c x) all_bytes) all_bytes = true.
Proof. vm_compute. reflexivity. Qed.

Lemma word_rule c t x : word_chars (c :: t) -> x ∈ c :: t -> is_digit_code x = false -> 120 ∉ c :: t ->
  (c :: t) ∉ (string_bytes ∘ fst) <$> keywords -> rule_for rules (c :: t) = Some R_word.
Proof.
  intros F Hx Hd H120 Hk. pose proof F as [Hc _]%Forall_cons.
  assert (Wx : is_word_char x = true) by (by rewrite Forall_forall in F; apply F).
  apply rule_for_Some. exists (take 79 rules), (plus word_char), (drop 80 rules). split; [done|]. split; [by apply plus_class|].
  change (take 79 rules) with (((fun '(s, k) => (R_keyword k, literal s)) <$> keywords) ++ take 5 other_rules).
  apply Forall_app. split.
  - apply Forall_fmap, Forall_forall. intros [s k] Hs M. apply literal_matches in M. apply Hk. rewrite M.
    apply list_elem_of_fmap. by exists (s, k).
  - assert (C : not_word c x = true).
    { pose proof (for_class is_word_char _ c (word_char_byte c Hc) Hc not_word_all) as C. cbn beta in C.
      apply (for_class (fun x => is_word_char x && negb (is_digit_code x)) (not_word c) x); [by apply word_char_byte| |done].
      by rewrite Wx, Hd. }
    unfold not_word in C. rewrite forallb_forall in C. apply Forall_forall. intros p Hp%list_elem_of_In M.
    specialize (C p Hp). rewrite !orb_true_iff, bool_decide_eq_true, !Nat.ltb_lt, negb_true_iff in C.
    destruct C as [[[C|C]|C]|C].
    + rewrite <-derivative_spec, C in M. by apply matches_nothing in M.
    + pose proof (least_spec _ _ 46 M) as L. rewrite (word_occurrences 46) in L by done. lia.
    + pose proof (least_spec _ _ 120 M) as L. unfold occurrences in L.
      destruct (filter (eq 120) (c :: t)) as [|y l] eqn:E; [cbn in L; lia|].
      assert (Hy : y ∈ filter (eq 120) (c :: t)) by (rewrite E; set_solver).
      apply list_elem_of_filter in Hy as [<- Hy]. done.
    + by rewrite (uses_spec _ _ _ M Hx) in C.
Qed.

(** ** Tokens in their text *)

Section Tokens.

Context (defines : list definition) (line : Z) (rest : bytes).

Lemma newlines_word t : word_chars t -> newlines t = 0.
Proof. intros F. unfold newlines. by rewrite word_occurrences. Qed.

Lemma lex_word c t r o : word_chars (c :: t) -> rule_for rules (c :: t) = Some r -> ends_word rest ->
  rule_action defines r (c :: t) = Ok o -> lex_all defines ((c :: t) ++ rest) line = then_lex defines o line rest.
Proof.
  intros F Hr Hd Ho. pose proof F as [Hc _]%Forall_cons.
  rewrite (lex_step _ _ _ r) by (by apply word_munch). by rewrite Ho, bind_Ok_eq, newlines_word, Z.add_0_r.
Qed.

Lemma lex_keyword s k : (s, k) ∈ keywords -> s <> "sequence#" -> ends_word rest ->
  lex_all defines (string_bytes s ++ rest) line = then_lex defines (Some (T_KEYWORD k)) line rest.
Proof.
  intros Hk Hs Hd.
  assert (C : forallb (fun '(s, k) => String.eqb s "sequence#" || negb (bool_decide (s = "")) && forallb is_word_char (string_bytes s)
    && bool_decide (rule_for rules (string_bytes s) = Some (R_keyword k))) keywords = true) by (vm_compute; reflexivity).
  rewrite forallb_forall in C. specialize (C (s, k) (proj1 (list_elem_of_In _ _) Hk)). cbn beta iota in C.
  rewrite orb_true_iff, String.eqb_eq, !andb_true_iff, !bool_decide_eq_true in C.
  destruct C as [?|((Hne & F) & Hr)]; [done|]. destruct s as [|a s]; [done|].
  cbn [string_bytes] in *. eapply lex_word; try done. apply Forall_forall. intros x Hx.
  rewrite forallb_forall in F. by apply F, list_elem_of_In.
Qed.

Definition integer_token (z : Z) : token := T_INTEGER z (string_bytes (dec z)).

Lemma lex_integer z : 0 <= z < 2 ^ 63 -> ends_word rest ->
  lex_all defines (string_bytes (dec z) ++ rest) line = then_lex defines (Some (integer_token z)) line rest.
Proof.
  intros Hz Hd. destruct (dec_codes z Hz) as (c & t & E & F & Ea). unfold integer_token. rewrite E in *.
  apply lex_word with R_integer; [by apply digits_words|by apply integer_rule|done|].
  cbn [rule_action]. by rewrite c_string_whole, Ea by (by apply no_nul, digits_words).
Qed.

Lemma lex_punctuation d : d ∈ punctuation ->
  lex_all defines ([d] ++ rest) line = then_lex defines (Some (T_CHAR d)) line rest.
Proof.
  intros Hd. rewrite (lex_step _ _ _ R_char) by (by apply punctuation_munch).
  unfold punctuation in Hd. set_unfold in Hd.
  destruct_or! Hd; subst d; cbn [rule_action]; rewrite bind_Ok_eq; change (newlines [_]) with 0; by rewrite Z.add_0_r.
Qed.

Lemma lex_blank d : is_word_char d = true ->
  lex_all defines (32 :: d :: rest) line = lex_all defines (d :: rest) line.
Proof.
  intros Hd. rewrite (lex_step defines [32] (d :: rest) R_ignored) by (by apply blank_munch).
  cbn [rule_action]. rewrite bind_Ok_eq. change (newlines [32]) with 0. rewrite Z.add_0_r. unfold then_lex.
  by destruct (lex_all defines (d :: rest) line).
Qed.

Lemma lex_colon d : is_digit_code d = true ->
  lex_all defines (58 :: d :: rest) line = then_lex defines (Some (T_CHAR 58)) line (d :: rest).
Proof.
  intros Hd. rewrite (lex_step defines [58] (d :: rest) R_char) by (by apply colon_munch).
  cbn [rule_action]. rewrite bind_Ok_eq. change (newlines [58]) with 0. by rewrite Z.add_0_r.
Qed.

End Tokens.

(** ** Ranges of numbers, which are not addresses *)

(** A colon behind a number starts nothing but an address, which has two of them. *)
Definition colon_excluded (c : Z) : bool :=
  forallb (fun p : rule * regex => excluded c 58 p.2 ||
    (1 <? least 58 p.2)%nat && forallb (fun d => negb (uses d p.2)) delimiters) rules.

Lemma range_munch c t t' rest : digit_chars (c :: t) -> digit_chars t' -> ends_word rest ->
  longest_match rules ((c :: t) ++ 58 :: t' ++ rest) = Some (length (c :: t), R_integer).
Proof.
  intros F F' Hd. pose proof F as [Hc _]%Forall_cons. apply munch; [done|by apply integer_rule|].
  intros more Hm Hp. destruct (prefix_head _ _ Hm Hp) as (? & more' & -> & rest' & [= <- <-] & [l El]).
  assert (C : colon_excluded c = true).
  { apply (for_class is_digit_code); [by apply word_char_byte, digit_word|done|]. vm_compute. reflexivity. }
  unfold colon_excluded in C. rewrite forallb_forall in C. apply Forall_forall. intros p Hp' M.
  specialize (C p (proj1 (list_elem_of_In _ _) Hp')). rewrite orb_true_iff, andb_true_iff, Nat.ltb_lt in C.
  destruct C as [C|[C U]]; [apply (excluded_spec _ _ _ (t ++ 58 :: more') C); [rewrite elem_of_app, elem_of_cons; tauto|done]|].
  assert (Hd' : forall d, d ∈ delimiters -> d ∉ more').
  { intros d Hd' Hx. rewrite forallb_forall in U. specialize (U d (proj1 (list_elem_of_In _ _) Hd')).
    rewrite (uses_spec _ _ d M) in U by (rewrite elem_of_app, !elem_of_cons; tauto). done. }
  assert (Hx : more' `prefix_of` t').
  { destruct (app_eq_inv _ _ _ _ El) as [(k & E1 & E2)|(k & E1 & E2)]; [by exists k|].
    destruct k as [|d k]; [exists []; by rewrite E1, !app_nil_r|]. destruct rest as [|d' rest']; [done|].
    injection E2 as <- _. destruct (Hd' d' Hd). rewrite E1, elem_of_app, elem_of_cons. tauto. }
  destruct Hx as [k ->]. apply Forall_app in F' as [F' _]. pose proof (least_spec _ _ 58 M) as L.
  rewrite occurrences_app in L. change (58 :: more') with ([58] ++ more') in L. rewrite occurrences_app in L.
  rewrite (word_occurrences 58 (c :: t)), (word_occurrences 58 more') in L by (done || by apply digits_words).
  change (occurrences 58 [58]) with 1%nat in L. lia.
Qed.

(** ** Texts of several tokens *)

(** A text, before what follows it, is these tokens of one line. *)
Definition lexes (defines : list definition) (t rest : bytes) (ks : list token) : Prop := forall line,
  lex_all defines (t ++ rest) line = (ts ← lex_all defines rest line; Ok ((pair line <$> ks) ++ ts)).

Section Options.

Context (defines : list definition).

Lemma lexes_app t1 t2 rest ks1 ks2 : lexes defines t1 (t2 ++ rest) ks1 -> lexes defines t2 rest ks2 ->
  lexes defines (t1 ++ t2) rest (ks1 ++ ks2).
Proof.
  intros H1 H2 line. rewrite <-app_assoc, H1, H2. destruct (lex_all defines rest line) as [ts|]; [|done].
  rewrite !bind_Ok_eq. by rewrite fmap_app, <-app_assoc.
Qed.

Lemma lexes_one t rest k : (forall line, lex_all defines (t ++ rest) line = then_lex defines (Some k) line rest) ->
  lexes defines t rest [k].
Proof. intros H line. by rewrite H. Qed.

Lemma is_keyword s k : bool_decide ((s, k) ∈ keywords) = true -> (s, k) ∈ keywords.
Proof. intros H. by apply bool_decide_eq_true in H. Qed.

Lemma lexes_keyword s k rest : (s, k) ∈ keywords -> s <> "sequence#" -> ends_word rest ->
  lexes defines (string_bytes s) rest [T_KEYWORD k].
Proof. intros. apply lexes_one. intros line. by apply lex_keyword. Qed.

Lemma lexes_integer z rest : 0 <= z < 2 ^ 63 -> ends_word rest ->
  lexes defines (string_bytes (dec z)) rest [integer_token z].
Proof. intros. apply lexes_one. intros line. by apply lex_integer. Qed.

(** A blank before a word adds nothing. *)
Lemma lexes_blank c t rest ks : is_word_char c = true -> lexes defines (c :: t) rest ks ->
  lexes defines (32 :: c :: t) rest ks.
Proof. intros Hc H line. cbn [app]. rewrite lex_blank by done. apply H. Qed.

Lemma lexes_blank_integer z rest : 0 <= z < 2 ^ 63 -> ends_word rest ->
  lexes defines (32 :: string_bytes (dec z)) rest [integer_token z].
Proof.
  intros Hz Hr. pose proof (lexes_integer z rest Hz Hr) as H. destruct (dec_codes z Hz) as (c & t & E & F & _).
  rewrite E in *. apply Forall_cons in F as [Hc _]. by apply lexes_blank; [apply digit_word|].
Qed.

(** [parser.y:1329-1330] sack_block: the tokens of the rule *)
Definition block_tokens (block : Z * Z) : list token :=
  [integer_token block.1; T_CHAR 58; integer_token block.2].

Lemma lexes_range l r rest : 0 <= l < 2 ^ 63 -> 0 <= r < 2 ^ 63 -> ends_word rest ->
  lexes defines (string_bytes (dec l) ++ 58 :: string_bytes (dec r)) rest (block_tokens (l, r)).
Proof.
  intros Hl Hr Hd. unfold block_tokens, integer_token at 1. cbn [fst snd].
  destruct (dec_codes l Hl) as (c & t & El & Fl & Al), (dec_codes r Hr) as (c' & t' & Er & Fr & _).
  pose proof (lexes_integer r rest Hr Hd) as HR. rewrite El, Er in *.
  apply (lexes_app _ _ _ [_] [_; _]).
  - apply lexes_one. intros line. change ((58 :: c' :: t') ++ rest) with (58 :: (c' :: t') ++ rest).
    rewrite (lex_step _ _ _ R_integer) by (by apply range_munch). cbn [rule_action].
    rewrite c_string_whole, Al by (by apply no_nul, digits_words). by rewrite bind_Ok_eq, newlines_word, Z.add_0_r by (by apply digits_words).
  - apply (lexes_app [58] (c' :: t') rest [_] [_]); [|done]. apply lexes_one. intros line.
    apply Forall_cons in Fr as [Hc' _]. by apply lex_colon.
Qed.

Lemma lexes_blocks blocks rest : Forall block_valid blocks -> ends_word rest ->
  lexes defines (string_bytes (blocks_text false blocks)) rest (mjoin (block_tokens <$> blocks)) /\
  ends_word (string_bytes (blocks_text false blocks) ++ rest).
Proof.
  intros F Hd. induction F as [|[l r] blocks [Vl Vr] F IH]; [split; [|done]|].
  { intros line. change (lex_all defines rest line = (ts ← lex_all defines rest line; Ok ([] ++ ts))).
    by destruct (lex_all defines rest line). }
  destruct IH as [IH IHd]. split; [|unfold ends_word, delimiters; cbn; set_solver].
  cbn [blocks_text]. rewrite !string_bytes_app, fmap_cons. cbn [mjoin list_join]. cbn [fst snd] in *.
  apply valid_u32_range in Vl, Vr.
  replace (string_bytes " " ++ string_bytes (dec l) ++ string_bytes ":" ++ string_bytes (dec r) ++ string_bytes (blocks_text false blocks))
    with ((32 :: string_bytes (dec l) ++ 58 :: string_bytes (dec r)) ++ string_bytes (blocks_text false blocks))
    by (cbn; by rewrite <-!app_assoc).
  apply lexes_app; [|done]. pose proof (lexes_range l r _ ltac:(lia) ltac:(lia) IHd) as H.
  destruct (dec_codes l ltac:(lia)) as (c & t & E & Fc & _). rewrite E in *. apply Forall_cons in Fc as [Hc _].
  by apply lexes_blank; [apply digit_word|].
Qed.

(** A number or a word of hexadecimal digits, for hex_blob. *)
Definition is_number (s : string) : bool := forallb is_digit_code (string_bytes s).
Definition blob_token (s : string) : token :=
  if is_number s then T_INTEGER (atoll (string_bytes s)) (string_bytes s) else T_TEXT (T_WORD (string_bytes s)).

(** Digits that are not taken for a keyword or a symbol that the user has defined. *)
Definition writable_blob (s : string) : Prop :=
  is_number s = true \/ (string_bytes s ∉ (string_bytes ∘ fst) <$> keywords /\ definition_get defines s = None).

Lemma lower_hex_codes s : lower_hex s = true ->
  Forall (fun c => in_ranges [(48, 57); (97, 102)] c = true) (string_bytes s).
Proof.
  induction s as [|a s IH]; [constructor|]. cbn [lower_hex string_bytes].
  rewrite andb_true_iff, bool_decide_eq_true. intros [Ha Hs]. constructor; [|by apply IH].
  unfold lower_hex_digits in Ha. rewrite !elem_of_cons in Ha.
  destruct_or! Ha; try (by subst a; vm_compute). by apply elem_of_nil in Ha.
Qed.

Lemma not_all_digits l : forallb is_digit_code l = false -> exists x, x ∈ l /\ is_digit_code x = false.
Proof.
  induction l as [|y l IH]; [done|]. cbn [forallb]. destruct (is_digit_code y) eqn:E; cbn [andb].
  - intros (x & ? & ?)%IH. exists x. split; [by apply list_elem_of_further|done].
  - intros _. exists y. split; [apply list_elem_of_here|done].
Qed.

Lemma lexes_blob s rest : lower_hex s = true -> s <> "" -> writable_blob s -> ends_word rest ->
  lexes defines (32 :: string_bytes s) rest [blob_token s].
Proof.
  intros L Hne W Hd. pose proof (lower_hex_codes s L) as F. assert (Fw : word_chars (string_bytes s)).
  { eapply Forall_impl; [exact F|]. unfold is_word_char, in_ranges. cbn. intros x. lia. }
  assert (H120 : 120 ∉ string_bytes s) by (intros Hx; rewrite Forall_forall in F; by specialize (F _ Hx)).
  destruct s as [|a s]; [done|]. clear Hne. set (w := String a s) in *.
  change (string_bytes w) with (Z.of_nat (Ascii.nat_of_ascii a) :: string_bytes s) in *.
  pose proof Fw as [Hc _]%Forall_cons. apply lexes_blank; [done|]. apply lexes_one. intros line.
  unfold blob_token, writable_blob in *. destruct (is_number w) eqn:N.
  - eapply (lex_word _ _ _ _ _ R_integer); [done| |done|].
    + apply integer_rule, Forall_forall. intros x Hx. unfold is_number in N. rewrite forallb_forall in N.
      by apply N, list_elem_of_In.
    + cbn [rule_action]. rewrite c_string_whole by (by apply no_nul). done.
  - destruct W as [|[Hk Hu]]; [done|]. assert (exists x, x ∈ string_bytes w /\ is_digit_code x = false) as (x & Hx & Dx).
    { by apply not_all_digits. }
    eapply (lex_word _ _ _ _ _ R_word); [done|by apply (word_rule _ _ x)|done|].
    cbn [rule_action]. rewrite c_string_whole by (by apply no_nul).
    change (Z.of_nat (Ascii.nat_of_ascii a) :: string_bytes s) with (string_bytes w). rewrite bytes_of_string.
    unfold word. by rewrite Hu.
Qed.

(** [parser.y:1243-1311] tcp_option: the tokens of its rules *)
Definition option_tokens (d : tcp_option_d) : list token :=
  match d with
  | d_nop => [T_KEYWORD K_NOP]
  | d_eol => [T_KEYWORD K_EOL]
  | d_mss mss => [T_KEYWORD K_MSS; integer_token mss]
  | d_wscale shift_count => [T_KEYWORD K_WSCALE; integer_token shift_count]
  | d_sackok => [T_KEYWORD K_SACKOK]
  | d_sack block blocks => T_KEYWORD K_SACK :: mjoin (block_tokens <$> (block :: blocks))
  | d_md5 digest => [T_KEYWORD K_MD5; blob_token digest]
  | d_timestamp val ecr => [T_KEYWORD K_TIMESTAMP; T_KEYWORD K_VAL; integer_token val; T_KEYWORD K_ECR; integer_token ecr]
  | d_fast_open cookie => T_KEYWORD K_FAST_OPEN :: (if bool_decide (cookie = "") then [] else [blob_token cookie])
  | d_fast_open_exp cookie => T_KEYWORD K_FAST_OPEN_EXP :: (if bool_decide (cookie = "") then [] else [blob_token cookie])
  end.

(** Options whose digits, if any, are a token of their rule. *)
Definition writable (d : tcp_option_d) : Prop :=
  match d with
  | d_md5 s => s <> "" /\ writable_blob s
  | d_fast_open s | d_fast_open_exp s => s = "" \/ writable_blob s
  | _ => True
  end.

Lemma lexes_cookie name k s rest : (name, k) ∈ keywords -> name <> "sequence#" -> lower_hex s = true ->
  s = "" \/ writable_blob s -> ends_word rest ->
  lexes defines (string_bytes (word_text name s)) rest (T_KEYWORD k :: if bool_decide (s = "") then [] else [blob_token s]).
Proof.
  intros Hk Hn L W Hd. unfold word_text. rewrite !string_bytes_app. case_bool_decide as E.
  - subst s. rewrite app_nil_r. by apply lexes_keyword.
  - destruct W as [|W]; [done|]. apply (lexes_app (string_bytes name) (32 :: string_bytes s) rest [_] [_]).
    + apply lexes_keyword; [done..|]. cbn. unfold delimiters. set_solver.
    + by apply lexes_blob.
Qed.

Lemma ends_blank t : ends_word (32 :: t).
Proof. cbn. unfold delimiters. set_solver. Qed.

Lemma lexes_number name k z rest : (name, k) ∈ keywords -> name <> "sequence#" -> 0 <= z < 2 ^ 63 -> ends_word rest ->
  lexes defines (string_bytes (name +:+ " " +:+ dec z)) rest [T_KEYWORD k; integer_token z].
Proof.
  intros Hk Hn Hz Hd. rewrite !string_bytes_app. apply (lexes_app (string_bytes name) (32 :: string_bytes (dec z)) rest [_] [_]).
  - apply lexes_keyword; [done..|apply ends_blank].
  - by apply lexes_blank_integer.
Qed.

Lemma lexes_timestamp val ecr rest : 0 <= val < 2 ^ 63 -> 0 <= ecr < 2 ^ 63 -> ends_word rest ->
  lexes defines (string_bytes ("TS val " +:+ dec val +:+ " ecr " +:+ dec ecr)) rest
    [T_KEYWORD K_TIMESTAMP; T_KEYWORD K_VAL; integer_token val; T_KEYWORD K_ECR; integer_token ecr].
Proof.
  intros Hv He Hd.
  replace (string_bytes ("TS val " +:+ dec val +:+ " ecr " +:+ dec ecr)) with
    (string_bytes "TS" ++ (32 :: string_bytes "val") ++ (32 :: string_bytes (dec val)) ++ (32 :: string_bytes "ecr")
     ++ (32 :: string_bytes (dec ecr))) by (by rewrite !string_bytes_app).
  apply (lexes_app _ _ _ [_]); [|apply (lexes_app _ _ _ [_]); [|apply (lexes_app _ _ _ [_]);
    [|apply (lexes_app _ _ _ [_])]]].
  - apply lexes_keyword; [by apply is_keyword|done|apply ends_blank].
  - apply (lexes_blank 118 [97; 108]); [done|].
    apply (lexes_keyword "val"); [by apply is_keyword|done|apply ends_blank].
  - apply lexes_blank_integer; [done|apply ends_blank].
  - apply (lexes_blank 101 [99; 114]); [done|].
    apply (lexes_keyword "ecr"); [by apply is_keyword|done|apply ends_blank].
  - by apply lexes_blank_integer.
Qed.

(** The text of an accepted option is the tokens of its rule. *)
Lemma option_lexes d line opt line' rest : tcp_option d line = Ok (opt, line') -> lower_digits d = true ->
  writable d -> ends_word rest -> lexes defines (string_bytes (option_text d)) rest (option_tokens d).
Proof.
  destruct d as [| |mss|count| |block blocks|digest|val ecr|cookie|cookie];
    cbn [tcp_option lower_digits writable option_text option_tokens]; intros E L W Hd.
  - apply lexes_keyword; [by apply is_keyword|done..].
  - apply lexes_keyword; [by apply is_keyword|done..].
  - inv_act. rewrite valid_u16_range in *. apply (lexes_number "mss"); [by apply is_keyword|done|lia|done].
  - inv_act. rewrite valid_u8_range in *. apply (lexes_number "wscale"); [by apply is_keyword|done|lia|done].
  - apply lexes_keyword; [by apply is_keyword|done..].
  - apply act_bind_Ok in E as (o & l & (V & B & ->)%sack_block_Ok & E).
    eapply (sack_list_Ok _ _ [block]) in E as (_ & Vs & _ & _); [|done|done].
    destruct (lexes_blocks (block :: blocks) rest) as [H He]; [by constructor|done|].
    assert (("sack " +:+ blocks_text true (block :: blocks)) = ("sack" +:+ blocks_text false (block :: blocks))) as ->
      by (by destruct block).
    rewrite string_bytes_app. apply (lexes_app _ _ _ [_]); [|done]. apply lexes_keyword; [by apply is_keyword|done..].
  - destruct W as [Hne W]. pose proof (lexes_cookie "md5" K_MD5 digest rest) as H.
    rewrite bool_decide_eq_false_2 in H by done. apply H; [by apply is_keyword|done|done|by right|done].
  - inv_act. rewrite valid_u32_range in *. apply lexes_timestamp; [lia|lia|done].
  - by apply lexes_cookie; [apply is_keyword|..].
  - by apply lexes_cookie; [apply is_keyword|..].
Qed.

(** ** Lists of options *)

(** The text of a list, as tcp_options_to_string prints it. *)
Fixpoint options_text (ds : list tcp_option_d) : string :=
  match ds with
  | [] => ""
  | [d] => option_text d
  | d :: ds => option_text d +:+ "," +:+ options_text ds
  end.

(** [parser.y:1218-1231] tcp_option_list: the tokens of the rule *)
Fixpoint list_tokens (ds : list tcp_option_d) : list token :=
  match ds with
  | [] => []
  | [d] => option_tokens d
  | d :: ds => option_tokens d ++ T_CHAR 44 :: list_tokens ds
  end.

Lemma options_lex ds opts line rest : Forall2 (fun d opt => tcp_option d line = Ok (opt, line)) ds opts ->
  Forall (fun d => lower_digits d = true /\ writable d) ds -> ends_word rest -> ds <> [] ->
  lexes defines (string_bytes (options_text ds)) rest (list_tokens ds).
Proof.
  intros F W Hd Hne. induction F as [|d opt ds opts E F IH]; [done|]. apply Forall_cons in W as [[L Wd] W].
  destruct ds as [|d' ds]; [by eapply option_lexes|].
  change (options_text (d :: d' :: ds)) with (option_text d +:+ "," +:+ options_text (d' :: ds)).
  change (list_tokens (d :: d' :: ds)) with (option_tokens d ++ [T_CHAR 44] ++ list_tokens (d' :: ds)).
  rewrite !string_bytes_app. apply lexes_app; [|apply (lexes_app [44])].
  - eapply option_lexes; [done..|]. cbn. unfold delimiters. set_solver.
  - apply lexes_one. intros l. apply lex_punctuation. unfold punctuation. set_solver.
  - by apply IH.
Qed.

End Options.

(** ** Where the expressions end *)

(** A match of some rule bounds the match that is chosen from below. *)
Lemma longest_at_least t rest r e n r' : t <> [] -> (r, e) ∈ rules -> matches e t ->
  longest_match rules (t ++ rest) = Some (n, r') -> (length t <= n)%nat.
Proof.
  intros Ht He M (_ & _ & Hk)%longest_match_Some. destruct (decide (length t <= n)%nat) as [|Hn]; [done|].
  exfalso. specialize (Hk (length t)). rewrite length_app, take_app_length in Hk.
  specialize (Hk ltac:(lia)). rewrite rule_for_nil, Forall_forall in Hk. by apply (Hk (r, e)).
Qed.

Lemma star_class negated ranges t : Forall (fun c => in_class negated ranges c = true) t ->
  matches (Star (Or (Seq (char 92) dot) (Class_of negated ranges))) t.
Proof.
  induction 1 as [|c t Hc F IH]; [constructor|].
  apply (match_turn _ [c] t); [|done]. apply match_right. by constructor.
Qed.

Lemma star_app r s1 s2 : matches (Star r) s1 -> matches (Star r) s2 -> matches (Star r) (s1 ++ s2).
Proof.
  intros H. remember (Star r) as q eqn:Eq. induction H as [| | | | |r'|r' t1 t2 H1 _ H2 IH2]; try done. injection Eq as ->.
  intros H. rewrite <-app_assoc. apply match_turn; [done|]. by apply IH2.
Qed.

(** A string that ends in a quoted backslash does not end there when another quote follows: its
    second backslash is taken to quote the quote, and the match runs on to the next one. *)
Theorem string_runs_on (a b rest : bytes) (n : nat) (r : rule) : 34 ∉ a -> 34 ∉ b ->
  longest_match rules (([34] ++ a ++ [92; 92; 34] ++ b ++ [34]) ++ rest) = Some (n, r) ->
  (length a + length b + 5 <= n)%nat.
Proof.
  intros Ha Hb E. assert (N : forall l, 34 ∉ l -> Forall (fun c => in_class true [(34, 34)] c = true) l).
  { intros l Hl. apply Forall_forall. intros c Hc. unfold in_class.
    destruct (in_ranges [(34, 34)] c) eqn:Ec; [|done]. unfold in_ranges in Ec. cbn in Ec.
    assert (c = 34) as -> by lia. done. }
  apply (longest_at_least _ _ R_string (quoted_by 34)) in E.
  - rewrite !length_app in E. cbn [length] in E. lia.
  - done.
  - apply elem_of_app. right. unfold other_rules. rewrite !elem_of_cons. tauto.
  - apply (match_seq _ _ [34]); [by constructor|].
    replace (a ++ [92; 92; 34] ++ b ++ [34]) with ((a ++ [92] ++ [92; 34] ++ b) ++ [34]) by (by rewrite <-!app_assoc).
    apply match_seq; [|by constructor]. apply star_app; [by apply star_class, N|].
    apply star_app; [by apply star_class; repeat constructor|]. apply star_app; [|by apply star_class, N].
    apply (match_turn _ [92; 34] []); [|constructor]. apply match_left.
    apply (match_seq _ _ [92] [34]); by constructor.
Qed.

(** What comments and code snippets have between their delimiters. *)
Definition inside (x y : Z) : regex := Star (Or (not_in [x]) (Seq (char x) (not_in [y]))).

Lemma char_matches c t : matches (char c) t -> t = [c].
Proof. intros M. by apply (literal_matches [c]). Qed.

(** An odd number of the closing characters is never inside. *)
Lemma inside_pairs x y body : x <> y -> x ∉ body -> ~ matches (Seq (inside x y) (text [x; y])) (body ++ [x; x; y]).
Proof.
  intros Hxy Hb M. induction body as [|c body IH].
  - apply matches_seq in M as (s1 & s2 & E & M1 & ->%literal_matches).
    assert (s1 = [x]) as -> by (by apply (app_inj_2 s1 [x] [x; y] [x; y])).
    apply matches_star_cons in M1 as (t1 & t2 & Et & M1 & _). symmetry in Et. apply app_eq_nil in Et as [-> ->].
    apply matches_or in M1 as [M1|M1].
    + apply matches_class in M1 as (? & [= <-] & E1). unfold in_class, in_ranges in E1. cbn in E1. by rewrite Z.leb_refl in E1.
    + apply matches_seq in M1 as (u1 & u2 & Eu & ->%char_matches & M2). destruct u2; [|done].
      apply matches_class in M2 as (? & [=] & _).
  - apply not_elem_of_cons in Hb as [Hc Hb]. apply IH; [done|]. clear IH.
    apply matches_seq in M as ([|c' s1] & s2 & E & M1 & M2).
    { apply literal_matches in M2 as ->. apply (f_equal length) in E. rewrite length_app in E. cbn in E.
      destruct body; cbn in E; lia. }
    injection E as <- E. rewrite E. apply matches_star_cons in M1 as (t1 & t2 & -> & M1 & M3).
    apply matches_or in M1 as [M1|M1].
    + apply matches_class in M1 as (? & [= _ ->] & _). by apply match_seq.
    + apply matches_seq in M1 as (u1 & u2 & Eu & ->%char_matches & _). by injection Eu.
Qed.

Lemma opened_by x y o t : ~ matches (Seq (inside x y) (text [x; y])) t ->
  ~ matches (Seq (text o) (Seq (inside x y) (text [x; y]))) (o ++ t).
Proof.
  intros H (s1 & s2 & E & ->%literal_matches & M2)%matches_seq. by apply app_inv_head in E as ->.
Qed.

(** Neither comments nor code snippets end where their closing character is doubled: a comment
    that ends in two stars and a slash is no match, nor is code that ends in a brace before its
    delimiter. *)
Theorem doubled_ends (body : bytes) :
  (42 ∉ body -> ~ matches c_comment (string_bytes "/*" ++ body ++ string_bytes "**/")) /\
  (125 ∉ body -> ~ matches code_regex (string_bytes "%{" ++ body ++ string_bytes "}}%")).
Proof. split; intros H; apply opened_by; by apply inside_pairs. Qed.

Example comment_swallows : lex_all [] (string_bytes "/* a **/ 1 /* b */ 2") 1 = Ok [(1, T_INTEGER 2 [50])].
Proof. vm_compute. reflexivity. Qed.

(** A comment to the end of the line needs a line end: in the last line of a file without one it
    is two slashes. *)
Example last_comment : lex_all [] (string_bytes "// a") 1 =
  Ok [(1, T_CHAR 47); (1, T_CHAR 47); (1, T_TEXT (T_WORD [97]))].
Proof. vm_compute. reflexivity. Qed.

(** ** The end of a script *)

(** A byte that is a token by itself. *)
Definition single_char (b : Z) : bool := single b && bool_decide (rule_for rules [b] = Some R_char).

(** Outside of strings, comments and code a byte above 127 is a negative token, which the parser
    takes for the end: nothing behind it is read. *)
Theorem high_byte_ends_script (defines : list definition) (b : Z) (rest : bytes) :
  128 <= b < 256 -> 0 ∉ rest -> script_tokens defines (b :: rest) = Ok [].
Proof.
  intros Hb H0.
  assert (C : single_char b = true).
  { apply (for_class (fun b => 128 <=? b)); [unfold is_byte; lia|lia|]. vm_compute. reflexivity. }
  apply andb_true_iff in C as [C Hr%bool_decide_eq_true]. unfold script_tokens.
  change (b :: rest) with ([b] ++ rest). rewrite (lex_step defines [b] rest R_char 1) by (by apply single_munch).
  cbn [rule_action]. rewrite bind_Ok_eq. unfold then_lex. destruct (lex_total defines rest (1 + newlines [b]) H0) as [ts ->].
  rewrite bind_Ok_eq. cbn [fmap exec_fmap seen_by_parser snd is_end].
  assert (s8 (byte_at [b] 0) <= 0) by (change (byte_at [b] 0) with b; unfold s8; zlia).
  by destruct (Z.leb_spec (s8 (byte_at [b] 0)) 0); [|lia].
Qed.

(** ** Keywords that are hexadecimal digits *)

(** A cookie of one byte with the digits of a keyword is accepted by the actions, but the scanner
    makes the keyword of it. *)
Example cookie_is_keyword : (exists opt, tcp_option (d_fast_open "fd") 1 = Ok (opt, 1)) /\
  lex_all [] (string_bytes (option_text (d_fast_open "fd"))) 1 = Ok [(1, T_KEYWORD K_FAST_OPEN); (1, T_KEYWORD K_FD)].
Proof. split; [eexists|]; vm_compute; reflexivity. Qed.

(** ** Reading a script *)

(** An attempt that finds these contents of the file. *)
Definition finds (a : attempt) (l : bytes) : Prop :=
  (forall n, 0 <= n -> at_read a n = Some (take (Z.to_nat n) l)) /\ (forall n, at_stat a = Some n -> 0 <= n < 2 ^ 30).

Lemma read_script_some attempts ls : Forall2 finds attempts ls -> forall size b, 0 <= size ->
  zlen attempts < 2 ^ 30 -> size + zlen attempts <= 2 ^ 31 - 2 -> read_script attempts size = Ok b -> b ∈ ls.
Proof.
  induction 1 as [|a l attempts ls [Hr Hs] F IH]; intros size b Hsize Hn Hb E; [done|]. cbn [read_script] in E.
  rewrite zlen_cons in *. pose proof (zlen_nonneg attempts).
  destruct (at_stat a) as [n|]; [|done]. specialize (Hs n eq_refl). rewrite bind_Ok_eq in E.
  rewrite (s32_small n) in E by lia. rewrite s32_small in E by lia. destruct (at_opens a); [|done]. rewrite bind_Ok_eq in E.
  rewrite Hr in E by lia. rewrite bind_Ok_eq in E. destruct (at_closes a); [|done]. rewrite bind_Ok_eq in E.
  destruct (Z.eqb_spec (zlen (take (Z.to_nat (n `max` size + 1)) l)) (n `max` size + 1)) as [|Hlt].
  - apply list_elem_of_further. eapply (IH (n `max` size + 1)); [lia|lia|lia|done].
  - injection E as <-. rewrite take_ge; [apply list_elem_of_here|].
    unfold zlen in Hlt. rewrite length_take in Hlt. lia.
Qed.

(** Even if the file grows while it is read, the buffer is never a part of it: it is all that
    one of the attempts found. *)
Theorem read_script_whole (attempts : list attempt) (ls : list bytes) (b : bytes) :
  Forall2 finds attempts ls -> zlen attempts < 2 ^ 30 -> read_script attempts 0 = Ok b -> b ∈ ls.
Proof. intros F Hn. pose proof (zlen_nonneg attempts). eapply read_script_some; [done|lia|done|lia]. Qed.
