(* ===== verification/ScriptText.v ===== *)
(** * ScriptText: what the interpreter prints of options, read as a script again

    The printer of a packet's options (tcp_options_to_string.c), the scanner (lexer.l) and the
    actions of the grammar (parser.y) put together: the options that an accepted line gives its
    packet are printed in the syntax of the line, and the scanner makes of that text the tokens
    that the rule for options is made of. *)

From Stdlib Require Import Ascii.
From S2P Require Import Prelude Headers Packet PacketParser TcpOptions IpAddress Script Code FuzzHelper Config ScriptActions ScriptProps Regex Lexer LexerProps.

(** ** Options in a packet *)

Section At.

Context (b : bytes) (p : Z) (opt : bytes).
Hypothesis Hopt : option_legal opt.
Hypothesis Hat : get_bytes b p (zlen (option_wire opt)) = Ok (option_wire opt).

(** A member inside the option is read in the packet as in the struct. *)
Lemma rd_wire f : 0 <= field_off f -> field_off f + field_bytes f <= byte_at opt 1 -> rd b p f = rd opt 0 f.
Proof.
  intros Ho Hf. destruct Hopt as [Hw _]. pose proof (option_wire_zlen _ Hw) as Hz. destruct Hw as (_ & Hl & Hn).
  unfold sizeof_tcp_option in Hl. apply get_bytes_Ok in Hat as [Hr E]. apply in_range_true in Hr. rewrite Hz in *.
  assert (Hb : 0 <= field_bytes f) by (destruct f; cbn; lia).
  assert (G : get_bytes b (p + field_off f) (field_bytes f) = get_bytes opt (0 + field_off f) (field_bytes f)).
  { unfold get_bytes. rewrite (proj2 (in_range_true b _ _)), (proj2 (in_range_true opt _ _)) by lia. f_equal.
    unfold option_wire in E. rewrite !Z2Nat.inj_add, Nat.add_0_l by lia. rewrite <-drop_drop.
    apply (f_equal (fun l => take (Z.to_nat (field_bytes f)) (drop (Z.to_nat (field_off f)) l))) in E.
    rewrite !skipn_firstn_comm, !take_take, Nat.min_l in E by lia. done. }
  destruct f; cbn [rd field_off field_bytes] in *; unfold ld8, ld16, ld32; by rewrite G.
Qed.

Lemma hex_bytes_wire f n : forall i, (forall i, field_bytes (f i) = 1) -> 0 <= i ->
  (forall j, field_off (f j) = field_off (f 0) + j) -> 0 <= field_off (f 0) ->
  field_off (f 0) + i + Z.of_nat n <= byte_at opt 1 -> hex_bytes b p f n i = hex_bytes opt 0 f n i.
Proof.
  induction n as [|n IH]; intros i H1 Hi Hf Ho Hn; [done|]. cbn [hex_bytes].
  rewrite rd_wire by (rewrite ?H1, Hf; lia). destruct (rd opt 0 (f i)); [|done]. rewrite !bind_Ok_eq.
  rewrite IH; [done|done|lia|done|done|lia].
Qed.

Lemma sack_blocks_wire n : forall i, 0 <= i -> 2 + 8 * (i + Z.of_nat n) <= byte_at opt 1 ->
  sack_blocks_to_string b p n i = sack_blocks_to_string opt 0 n i.
Proof.
  induction n as [|n IH]; intros i Hi Hn; [done|]. cbn [sack_blocks_to_string].
  rewrite !rd_wire by (cbn; lia). destruct (rd opt 0 (opt_sack_left i)); [|done]. rewrite !bind_Ok_eq.
  destruct (rd opt 0 (opt_sack_right i)); [|done]. rewrite !bind_Ok_eq. rewrite IH; [done|lia|lia].
Qed.

(** Options whose kind has a fixed length are at least that long. *)
Definition long_enough (kind length : Z) : Prop :=
  (kind = TCPOPT_MAXSEG -> 4 <= length) /\ (kind = TCPOPT_WINDOW -> 3 <= length) /\ (kind = TCPOPT_TIMESTAMP -> 10 <= length).

(** An option is printed from a packet as from its struct. *)
Lemma option_to_string_wire error : long_enough (byte_at opt 0) (byte_at opt 1) ->
  tcp_option_to_string b p error = tcp_option_to_string opt 0 error.
Proof.
  intros (L1 & L2 & L3). destruct Hopt as [Hw Hlen]. pose proof Hw as (Hb & Hl & Hn). unfold sizeof_tcp_option in Hl.
  unfold tcp_option_to_string. rewrite (rd_wire opt_kind) by (cbn; lia).
  assert (Ek : rd opt 0 opt_kind = Ok (byte_at opt 0)) by (cbn; rewrite ld8_eq by lia; done).
  assert (El : rd opt 0 opt_length = Ok (byte_at opt 1)) by (cbn; rewrite ld8_eq by lia; done).
  rewrite Ek, !bind_Ok_eq. revert Hlen.
  destruct (Z.eqb_spec (byte_at opt 0) TCPOPT_EOL); [done|]. destruct (Z.eqb_spec (byte_at opt 0) TCPOPT_NOP); [done|].
  cbn [orb]. intros Hlen. assert (El' : rd b p opt_length = rd opt 0 opt_length) by (apply rd_wire; cbn; lia).
  repeat (case_match; [|]); try done.
  - rewrite rd_wire; [done|cbn; lia|]. specialize (L1 ltac:(lia)). cbn. lia.
  - rewrite rd_wire; [done|cbn; lia|]. specialize (L2 ltac:(lia)). cbn. lia.
  - rewrite El', El, !bind_Ok_eq. unfold num_sack_blocks.
    destruct (Z.leb_spec (byte_at opt 1) 2); [done|]. rewrite sack_blocks_wire; [done|lia|zlia].
  - specialize (L3 ltac:(lia)). rewrite !rd_wire by (cbn; lia). done.
  - unfold tcp_md5_option_to_string. rewrite El', El, !bind_Ok_eq. destruct (_ || _); [done|].
    unfold TCPOLEN_MD5_BASE. rewrite hex_bytes_wire; [done|done|lia|done|done|cbn; lia].
  - unfold tcp_fast_open_option_to_string. rewrite El', El, !bind_Ok_eq. unfold TCPOLEN_FASTOPEN_BASE.
    rewrite hex_bytes_wire; [done|done|lia|done|done|cbn; lia].
  - unfold tcp_fast_open_option_to_string. rewrite El', El, !bind_Ok_eq. unfold TCPOLEN_EXP_FASTOPEN_BASE.
    destruct (Z.ltb_spec (byte_at opt 1) 4); [done|]. rewrite rd_wire by (cbn; lia).
    rewrite hex_bytes_wire; [done|done|lia|done|done|cbn; lia].
Qed.

End At.

(** ** The options of an accepted line *)

Lemma is_option_bytes kind length l opt : is_option kind length l opt -> byte_at opt 0 = kind /\ byte_at opt 1 = length.
Proof.
  intros O. pose proof (is_option_kind _ _ _ _ O) as Ek. pose proof (is_option_length _ _ _ _ O) as El.
  destruct O as (_ & Hn & _). cbn in Ek, El. rewrite ld8_eq in Ek, El by lia. by injection Ek; injection El.
Qed.

Lemma is_option_long kind length l opt : is_option kind length l opt -> long_enough kind length ->
  long_enough (byte_at opt 0) (byte_at opt 1).
Proof. by intros [-> ->]%is_option_bytes. Qed.

Lemma accepted_long d line opt line' : tcp_option d line = Ok (opt, line') ->
  long_enough (byte_at opt 0) (byte_at opt 1).
Proof.
  assert (L : forall kind length, kind <> TCPOPT_MAXSEG -> kind <> TCPOPT_WINDOW -> kind <> TCPOPT_TIMESTAMP ->
    long_enough kind length) by (unfold long_enough; intros; lia).
  destruct d; cbn [tcp_option]; intros E.
  - inv_act. eapply is_option_long; [by apply tcp_option_new_is|by apply L].
  - inv_act. eapply is_option_long; [by apply tcp_option_new_is|by apply L].
  - inv_act. pose proof (ntohs_range mss). eapply is_option_long; [eapply number_option_Ok; [eassumption|done..]|done].
  - inv_act. eapply is_option_long; [eapply number_option_Ok; [eassumption|done..|]|done]. by apply valid_u8_range.
  - inv_act. eapply is_option_long; [by apply tcp_option_new_is|by apply L].
  - apply act_bind_Ok in E as (o & l & (V & B & ->)%sack_block_Ok & E).
    eapply (sack_list_Ok _ _ [block]) in E as ([O _] & _); [|done|done]. eapply is_option_long; [exact O|by apply L].
  - inv_act. destruct (md5_Ok digest opt) as (k & _ & _ & O & _); [done|]. eapply is_option_long; [exact O|by apply L].
  - inv_act. eapply is_option_long; [eapply timestamp_Ok; [| |eassumption|eassumption]; assumption|done].
  - inv_act. destruct (fast_open_Ok cookie false opt) as (k & _ & _ & O & _); [done|]. eapply is_option_long; [exact O|by apply L].
  - inv_act. destruct (fast_open_Ok cookie true opt) as (k & _ & _ & O & _); [done|]. eapply is_option_long; [exact O|by apply L].
Qed.

(** ** The printer's loop *)

Definition print_body (b : bytes) : string * Z -> Z -> option string -> exec (string * Z * option string * option unit) :=
  fun '(s, index) opt error =>
    let s := if 0 <? index then s +:+ "," else s in
    '(t, error, bad) ← tcp_option_to_string b opt error;
    Ok ((s +:+ t, index + 1), error, if (bad : bool) then Some tt else None).

Lemma print_body_eq b s index p error : print_body b (s, index) p error =
  ('(t, error, bad) ← tcp_option_to_string b p error;
   Ok (((if 0 <? index then s +:+ "," else s) +:+ t, index + 1), error, if (bad : bool) then Some tt else None)).
Proof. done. Qed.

(** What is printed of the options from the one of number [index] on. *)
Definition more_text (index : Z) (ds : list tcp_option_d) : string :=
  match ds with [] => "" | _ => (if 0 <? index then "," else "") +:+ options_text ds end.

Lemma more_text_cons index d ds : 0 <= index ->
  more_text index (d :: ds) = (if 0 <? index then "," else "") +:+ option_text d +:+ more_text (index + 1) ds.
Proof.
  intros Hi. destruct ds as [|d' ds]; [cbn; by rewrite string_app_empty|].
  change (more_text (index + 1) (d' :: ds)) with ((if 0 <? index + 1 then "," else "") +:+ options_text (d' :: ds)).
  destruct (Z.ltb_spec 0 (index + 1)); [done|lia].
Qed.

Lemma print_loop b ds opts line : Forall2 (fun d opt => tcp_option d line = Ok (opt, line)) ds opts ->
  forall p fuel s index error,
  Forall (fun d => lower_digits d = true) ds -> bytes_ok b -> 0 <= p -> 0 <= index ->
  let w := mjoin (option_wire <$> opts) in
  get_bytes b p (zlen w) = Ok w -> p + zlen w <= zlen b -> (Z.to_nat (zlen w) <= fuel)%nat ->
  exists error', (let '(it, opt) := get_current_option (mk_iter (Some p) (p + zlen w)) in
    options_loop (fun _ => b) (print_body b) fuel it opt (s, index) error)
  = Ok ((s +:+ more_text index ds, index + zlen ds), error', None).
Proof.
  induction 1 as [|d opt ds opts E F IH]; intros p fuel s index error L Hb Hp Hi w Hg Hr Hf.
  { exists error. subst w. unfold get_current_option. cbn. change (zlen ([] : bytes)) with 0.
    destruct (Z.leb_spec (p + 0) p); [|lia]. destruct fuel; cbn; by rewrite string_app_empty, Z.add_0_r. }
  apply Forall_cons in L as [Ld L]. subst w.
  change (mjoin (option_wire <$> opt :: opts)) with (option_wire opt ++ mjoin (option_wire <$> opts)) in *.
  destruct (tcp_option_legal _ _ _ _ E) as [Hlegal _]. pose proof (legal_wire _ Hlegal) as Hw. pose proof Hw as (_ & H1 & _).
  apply get_bytes_app_l in Hg as [Hgw Hgs]. rewrite zlen_app in *. pose proof (zlen_nonneg (mjoin (option_wire <$> opts))).
  unfold get_current_option. cbn [current_option options_end].
  destruct (Z.leb_spec (p + (zlen (option_wire opt) + zlen (mjoin (option_wire <$> opts)))) p); [lia|].
  destruct fuel as [|fuel]; [lia|]. cbn [options_loop].
  rewrite print_body_eq.
  rewrite (option_to_string_wire b p opt Hlegal Hgw error (accepted_long _ _ _ _ E)).
  rewrite (option_prints_back d line line opt error E Ld), !bind_Ok_eq.
  destruct (next_over b p (p + (zlen (option_wire opt) + zlen (mjoin (option_wire <$> opts)))) (option_wire opt) error
    Hb Hp Hgw Hw) as (e1 & ->); [lia|]. rewrite bind_Ok_eq, Z.add_assoc.
  edestruct (IH (p + zlen (option_wire opt)) fuel (s +:+ (if 0 <? index then "," else "") +:+ option_text d) (index + 1) e1)
    as (e2 & E2); [done|done|lia|lia|done|lia|lia|].
  exists e2. rewrite more_text_cons, zlen_cons by done. rewrite !string_app_assoc in E2.
  replace (index + (1 + zlen ds)) with (index + 1 + zlen ds) by lia. rewrite <-E2.
  destruct (0 <? index); [by rewrite string_app_assoc|done].
Qed.

Lemma options_print pkt ds opts line t doff error :
  Forall2 (fun d opt => tcp_option d line = Ok (opt, line)) ds opts -> Forall (fun d => lower_digits d = true) ds ->
  let w := mjoin (option_wire <$> opts) in
  bytes_ok (pk_buffer pkt) -> 0 <= t -> pk_tcp pkt = Some t -> prd pkt t tcp_doff = Ok doff ->
  doff * 4 = sizeof_tcp + zlen w -> get_bytes (pk_buffer pkt) (t + sizeof_tcp) (zlen w) = Ok w ->
  exists error', tcp_options_to_string pkt error = Ok (options_text ds, true, error').
Proof.
  intros F L w Hb Ht Htcp Hd Hlen Hg. pose proof Hg as [Hr _]%get_bytes_Ok. apply in_range_true in Hr.
  destruct (print_loop (pk_buffer pkt) ds opts line F (t + sizeof_tcp) (Z.to_nat (zlen w)) "" 0 error L Hb)
    as (error' & E); [unfold sizeof_tcp; lia|done|exact Hg|exact (proj2 (proj2 Hr))|done|].
  exists error'. unfold tcp_options_to_string, for_options, tcp_options_begin, packet_tcp_options.
  rewrite Htcp. cbn [assert_ptr]. rewrite !bind_Ok_eq. unfold packet_payload.
  rewrite Htcp. unfold packet_tcp_header_len. rewrite Htcp. cbn [assert_ptr].
  rewrite bind_Ok_eq, Hd, !bind_Ok_eq, Hlen, Z.add_assoc. fold w in E. fold (print_body (pk_buffer pkt)).
  assert (Em : more_text 0 ds = options_text ds) by (by destruct ds). rewrite Em in E. revert E.
  unfold get_current_option. cbn [current_option options_end]. pose proof (zlen_nonneg w).
  destruct (Z.leb_spec (t + sizeof_tcp + zlen w) (t + sizeof_tcp)).
  - destruct (Z.to_nat (zlen w)); cbn [options_loop]; intros E; rewrite ?bind_Ok_eq; injection E as E1 _ E3; change (String.append "" (options_text ds)) with (options_text ds) in E1; by rewrite <-E1, <-E3.
  - replace (t + sizeof_tcp + zlen w - (t + sizeof_tcp)) with (zlen w) by lia. intros ->. done.
Qed.

(** C33. The options of a packet are printed in the syntax of the script: for every list of options
    that the actions accept, with its digits in lower case and not taken for a keyword or a
    symbol, tcp_options_to_string prints a text of which the scanner, with the angle brackets
    around it, makes exactly the tokens of the rule for that list. *)
Theorem options_read_back (defines : list definition) (ds : list tcp_option_d) (options : tcp_options)
    (n line t doff : Z) (pkt : packet) :
  opt_tcp_options (Some ds) n = Ok (Some options, n) -> ds <> [] ->
  Forall (fun d => lower_digits d = true /\ writable defines d) ds ->
  bytes_ok (pk_buffer pkt) -> 0 <= t -> pk_tcp pkt = Some t ->
  prd pkt t tcp_doff = Ok doff -> doff * 4 = sizeof_tcp + zlen (options_wire options) ->
  get_bytes (pk_buffer pkt) (t + sizeof_tcp) (zlen (options_wire options)) = Ok (options_wire options) ->
  exists text error, tcp_options_to_string pkt None = Ok (text, true, error) /\
    lex_all defines (string_bytes ("<" +:+ text +:+ ">")) line =
    Ok (pair line <$> [T_CHAR 60] ++ list_tokens ds ++ [T_CHAR 62]).
Proof.
  intros E Hne W Hb Ht Htcp Hd Hlen Hg. apply opt_tcp_options_Ok in E as (_ & _ & opts & F & Ew). rewrite Ew in *.
  destruct (options_print pkt ds opts n t doff None F) as (error & Ep); [|done..|].
  { eapply Forall_impl; [exact W|]. by intros d []. }
  exists (options_text ds), error. split; [done|].
  assert (P : forall d rest, d ∈ punctuation -> lexes defines [d] rest [T_CHAR d])
    by (intros d rest Hp; apply lexes_one; intros l; by apply lex_punctuation).
  assert (H : lexes defines ([60] ++ string_bytes (options_text ds) ++ [62]) [] ([T_CHAR 60] ++ list_tokens ds ++ [T_CHAR 62])).
  { apply lexes_app; [apply P; unfold punctuation; set_solver|]. apply lexes_app.
    - eapply options_lex; try done. cbn. unfold delimiters. set_solver.
    - apply P. unfold punctuation. set_solver. }
  specialize (H line). rewrite app_nil_r in H. rewrite !string_bytes_app. etrans; [exact H|].
  cbn [lex_all lex length]. rewrite bind_Ok_eq. by rewrite app_nil_r.
Qed.

(** ** A packet *)

Definition printed_options : list tcp_option_d := [d_mss 1460; d_sackok; d_nop; d_nop; d_fast_open "0a12"].

(** The options of [printed_options] in a TCP header at offset 0. *)
Definition printed_packet : packet :=
  set_pk_tcp (Some 0) (received
    (replicate 12 0 ++ [0x80; 0x02] ++ replicate 6 0 ++ [2; 4; 5; 180; 4; 2; 1; 1; 34; 4; 10; 18]) 0).

Lemma options_read_back_witness :
  exists text error, tcp_options_to_string printed_packet None = Ok (text, true, error) /\
    lex_all [] (string_bytes ("<" +:+ text +:+ ">")) 3 =
    Ok (pair 3 <$> [T_CHAR 60] ++ list_tokens printed_options ++ [T_CHAR 62]).
Proof.
  apply (options_read_back [] printed_options
    (mk_tcp_options ([2; 4; 5; 180; 4; 2; 1; 1; 34; 4; 10; 18] ++ replicate 28 0) 12) 1 3 0 8 printed_packet).
  - vm_compute. reflexivity.
  - discriminate.
  - repeat (apply Forall_cons_2; [split; [reflexivity|]|]); try exact I; [|apply Forall_nil_2].
    right. right. split; [|reflexivity]. apply (bool_decide_eq_true_1 _). vm_compute. reflexivity.
  - unfold bytes_ok, printed_packet. simpl.
    repeat (apply Forall_cons_2; [unfold is_byte; split; [discriminate|reflexivity]|]). apply Forall_nil_2.
  - discriminate.
  - reflexivity.
  - vm_compute. reflexivity.
  - reflexivity.
  - vm_compute. reflexivity.
Defined.

(** ** Symbols that a script defines *)

Lemma split_at_define a b : split_at "="%char a = None -> split_at "="%char (a +:+ "=" +:+ b) = Some (a, b).
Proof.
  induction a as [|x a IH]; [done|]. change (String x a +:+ ?t) with (String x (a +:+ t)). cbn [split_at].
  destruct (Ascii.eqb "="%char x); [done|]. destruct (split_at "="%char a) as [[]|]; [done|]. by rewrite IH.
Qed.

Lemma word_no_equals s : word_chars (string_bytes s) -> split_at "="%char s = None.
Proof.
  induction s as [|x s IH]; [done|]. cbn [string_bytes]. intros [Hx Hs]%Forall_cons. cbn [split_at].
  destruct (Ascii.eqb_spec "="%char x) as [<-|]; [done|]. by rewrite IH.
Qed.

(** A symbol that an option of the script sets to a string is that string wherever the scanner
    meets it afterwards. *)
Theorem defined_symbol `{InetPton} (c : full_config) (symbol value : string) (rest : bytes) :
  word_chars (string_bytes symbol) -> is_number symbol = false -> 120 ∉ string_bytes symbol ->
  string_bytes symbol ∉ (string_bytes ∘ fst) <$> keywords -> ends_word rest ->
  exists c', parse_script_options [option_action ("define"%string, Some (v_define_string symbol value))] c = Ok c' /\
    lexes (fc_defines c') (string_bytes symbol) rest [T_TEXT (T_STRING (string_bytes value))].
Proof.
  intros W N H120 Hk Hd. eexists. split.
  - cbn [option_action parse_script_options fst snd fmap option_fmap option_map]. cbn -[split_at].
    rewrite split_at_define by (by apply word_no_equals). destruct symbol as [|x symbol]; [done|]. reflexivity.
  - apply lexes_one. intros line. destruct (not_all_digits _ N) as (x & Hx & Dx).
    destruct symbol as [|a symbol]; [done|]. set (w := String a symbol) in *.
    change (string_bytes w) with (Z.of_nat (Ascii.nat_of_ascii a) :: string_bytes symbol) in *.
    eapply (lex_word _ _ _ _ _ R_word); [done|by apply (word_rule _ _ x)|done|].
    cbn [rule_action]. rewrite c_string_whole by (by apply no_nul).
    change (Z.of_nat (Ascii.nat_of_ascii a) :: string_bytes symbol) with (string_bytes w). rewrite bytes_of_string.
    do 3 f_equal. apply (define_string (fc_defines c) w value).
Qed.
